(* ===== verification/_CoqProject ===== *)
-Q . S2P
Prelude.v
VfsTypes.v
Windows.v
Monitor.v
Faults.v
Progress.v
Boot.v
CrossCall.v
BuddyMap.v
BuddyList.v
Bbuddy.v
Alloc.v
Uio.v
Pipe.v
Ramfs.v
RamfsData.v
PathConv.v
Bitmap.v
FdTable.v
Vnode.v
Dentry.v
Dcache.v
Namei.v
Resolve.v
Mount.v
RamfsVfs.v
Rootfs.v
Open.v
RamfsOpen.v
Io.v
RamfsIo.v
Syscalls.v
Unlink.v
RamfsNames.v
Posix.v
Descriptors.v
PosixIo.v
Devices.v
