(* ===== verification/Prelude.v ===== *)
(** CubicleOS in Rocq: the monitor, the windows of the cubicles, and the parts of
    the Unikraft library OS below the SQLite image that the kernel can check.

    * The program

    CubicleOS runs the components of a library OS as cubicles in one address
    space.  The monitor (src/kernel/loader.c) loads the components, tags their
    pages with memory protection keys and redirects the calls between them to
    hooks that src/kernel/fig.py generates.  A hook opens the key of the callee
    and closes that of the caller; those of the allocator also hand the pages of
    an object over to the cubicle that gets it.  Shared memory goes through windows: the owner
    of a buffer enters it into a table (the ipc.c of each component), and when
    another cubicle faults on a page, the monitor consults the table and retags
    the page.  Above this, the POSIX calls of vfscore go through descriptors,
    caches of dentries and vnodes and a list of mounts to ramfs, and the
    allocators (ukalloc over ukallocbbuddy) provide memory.

    * The files

    - Prelude: machine integers, the monad of stateful code, arrays, lists linked
      in memory.  Code runs as [M S A := S -> outcome (A * S)]; an outcome is a
      value, an endless loop ([Spin], for [while (1);]), a failed assertion
      ([Abort]) or undefined behaviour ([Undef]).
    - Windows: the tables and the functions of the ipc.c files of vfscore, ramfs,
      ukboot, lwip, uknetdev, libnginx and plat/linuxu.
    - Monitor, Faults, Progress, Boot: loader.c, that is its tables and key
      operations, the page-fault handler with the three window checks and the
      exceptions hard-coded in them, the runs of the monitor (faults, windows, key
      switches, attaches), the accesses that complete, and the start (module scan, memory map, PLT patching,
      locking).
    - CrossCall: the hooks of fig.py ([hooked], [entry_point]) with the coroutines
      of coro.h and the code that [gen_pre_wrap] and [gen_post_wrap] of fig.py add
      for the allocator and for ukplat_memregion_get.
    - BuddyMap, BuddyList, Bbuddy: ukallocbbuddy/bbuddy.c, its bitmap, its free
      lists, and its operations.
    - Alloc: ukalloc/alloc.c, proved against the interface [PageAlloc], which the
      buddy allocator implements.
    - Uio: the scatter/gather loop of vfscore (uio.h, subr_uio.c).
    - Ramfs, RamfsData: ramfs/ramfs_vnops.c, its directories and its file data.
    - VfsTypes: types and modes of files (vnode.h, vnode.c).
    - PathConv: [path_conv] of vfscore/task.c.
    - Bitmap, FdTable: bitmaps (uk/bitops.h, uk/bitmap.h) and the descriptors and
      file counts of vfscore (fd.c, file.c, vfs_close of fops.c).
    - Vnode, Dentry, Dcache: vfscore/vnode.c and dentry.c, and both caches together.
    - Namei, Resolve: vfscore/lookup.c.  Resolve states what a file system promises
      (the classes [FileSystem] and [FileSystemLaws]) and proves look-up against it.
    - Mount, Rootfs: vfscore/mount.c and rootfs.c.
    - RamfsVfs: ramfs as an instance of these classes, on the vnodes of the cache.
    - Open, RamfsOpen: [sys_open] and the last close of a file, and ramfs below them.
    - Io, RamfsIo: [sys_read], [sys_write] and [sys_lseek], and ramfs below them.
    - Syscalls, Unlink, RamfsNames: the other functions of vfscore/syscalls.c, the
      proof about [sys_unlink], and ramfs below them.
    - Posix, Descriptors, PosixIo: the calls of vfscore/main.c that programs use,
      what they do with descriptors, and reading and writing through them.
    - Devices: devfs/device.c and what devfs_vnops.c forwards to it.
    - Pipe: vfscore/pipe.c.  That file is disabled by [#if 0] and is part of no
      image; its theorems say nothing about the running program.

    * What is shown

    - Isolation: in every tree of calls each function runs with the key of its own
      cubicle, and the monitor is changed only by the attaches of the hooks
      (CrossCall); the fault handler retags a page only for an open window, for
      the owner or for one of its three exceptions, and over all runs the key of
      a page comes from such a fault or from an attach (Faults); accesses that are
      allowed complete, but for those to globals and to stacks of the same key
      (Progress); the start gives modules distinct
      keys, redirects the PLT entries and leaves only the platform open (Boot).
    - Windows: those of ramfs refine a multiset of open windows (Windows) and are
      one to one with the file buffers (RamfsData).
    - Memory: over all runs live pages and objects are disjoint and keep their
      contents, and what is released is merged (Bbuddy, Alloc).
    - Files: copies move exactly the requested bytes (Uio); writes, reads, create,
      lookup and remove have the effect they should (Ramfs, RamfsData); paths
      resolve as lists of components do (PathConv); counts of open files are
      exact over all runs (FdTable).
    - Names: over all runs the counts of dentries and vnodes are exact and nothing
      is used after it is freed (Dcache); a path leads to the node that it leads
      to in the tree of the file system, whatever is cached (Resolve); mount and
      umount2 change the list of mounts as they should (Mount, Rootfs).
    - Calls: opening, creating, mkdir and unlink have their effect on the tree
      and keep the caches consistent (Open, Syscalls, Unlink); [open] returns the
      lowest free descriptor, [dup] and [close] move and free it, every call
      rejects a closed one in range and crashes on one out of range (Descriptors); what is written to a descriptor is read
      from it, from [writev] down to the buffers of ramfs (PosixIo).
    - Devices: the list and the counts of devices are kept by all runs, and what
      the assertions make of them in this configuration (Devices).
    - Deviations: theorems and lemmas about the cases where the code does not do
      this, such as windows that stay open, lengths that overflow, a path
      component that is glued to the working directory, a reference to a dentry
      that every open leaves behind, a working directory that is freed while it is
      in use, a hook that hangs when an aligned object is freed, and locks that
      succeed on closed descriptors only.

    * Bounds

    Loops over C arrays recurse on the array.  Where a loop has fuel, the fuel is
    the length of what it consumes (components of a path, elements of a request,
    orders of the buddy lists, elements of a linked list, entries of a cache), and
    the theorems show that the loop ends with a result before it is used up.
    Theorems on look-up assume a tree without symbolic links; the code that
    follows them is modelled, with the bound MAXSYMLINKS it has.

    * Configuration

    x86-64 and the linuxu platform.  LLVM, NOMPK, ALLOW_ALL, ALLOW_APP and the
    debugging macros are not defined.  The configuration in app-sqlite leaves out
    the scheduler and the locks, so file operations run to their end.  It uses
    newlib, which is not among the sources; error numbers are those of nolibc.
    The tables of lwip, uknetdev and libnginx belong to the nginx image.

    * Not modelled

    - Hardware and host: the context switch in assembly and the word that hooks copy
      to the new stack, system calls, signal delivery, the dynamic loader (for the
      hooks, a parameter of CrossCall), and ELF parsing (elf_hook.c, plthook_elf.c),
      whose results are parameters of Boot.
    - Scheduler, wait queues, semaphores, mutexes, mailboxes: [uk_sched_yield]
      (sched.h:108) begins with [return], so no wait gives way; uksched/sched.c
      and thread.c are disabled by [#if 0] in favour of plat/linuxu.
    - Of vfscore: [statfs] and its variants, whose operation ramfs does not have;
      [ioctl] of main.c, which returns without a value before it does anything;
      stdio.c, the console; [sync], debug output, and the copy of dlmalloc, whose
      results are arguments of the operations that call it.
    - Of devfs: the vnodes that [devfs_lookup] makes, and /dev/zero and the reads of
      /dev/null, which the configuration leaves out.
    - 9pfs, uk9p, ukblkdev, uknetdev and the drivers; nolibc; uktime,
      uktimeconv, ukswrand, ukargparse, uklibparam, uksglist;
      patches and build files of lwip, newlib, SQLite and nginx; the xen
      and kvm platforms. *)
From Stdlib Require Import ZArith Lia.
From stdpp Require Import base strings numbers gmap list.

#[local] Open Scope Z_scope.

(** * Machine integers

    The code is compiled for x86-64 (LP64): [char] is signed and 8 bits wide,
    [int] has 32 bits, [long], [size_t] and pointers have 64 bits. *)

Definition u64 (z : Z) : Z := z mod 2 ^ 64.
Definition u32 (z : Z) : Z := z mod 2 ^ 32.
Definition signed (w z : Z) : Z :=
  let m := z mod 2 ^ w in if m <? 2 ^ (w - 1) then m else m - 2 ^ w.
Definition schar (z : Z) : Z := signed 8 z.
Definition s32 (z : Z) : Z := signed 32 z.
Definition s64 (z : Z) : Z := signed 64 z.

Definition PAGE_SHIFT : Z := 12.
Definition PAGE_SIZE : Z := 4096.

(** The page a byte address lies in. *)
Definition page_of (a : Z) : Z := Z.shiftr a PAGE_SHIFT.

#[global] Arguments u64 _ : simpl never.
#[global] Arguments u32 _ : simpl never.
#[global] Arguments signed _ _ : simpl never.
#[global] Arguments schar _ : simpl never.
#[global] Arguments s32 _ : simpl never.
#[global] Arguments s64 _ : simpl never.
#[global] Arguments page_of _ : simpl never.

(** * Outcomes of a C call

    [Ok] is a normal return.  [Spin] is a [while(1);] the function enters on
    purpose.  [Abort] is a failed [UK_ASSERT] or [UK_CRASH].  [Undef] is an
    access outside every modelled object or another undefined operation. *)

Inductive outcome (A : Type) : Type :=
| Ok (a : A)
| Spin
| Abort
| Undef.
Arguments Ok {A} a.
Arguments Spin {A}.
Arguments Abort {A}.
Arguments Undef {A}.

#[global] Instance outcome_ret : MRet outcome := fun A a => Ok a.
#[global] Instance outcome_bind : MBind outcome := fun A B f m =>
  match m with
  | Ok a => f a
  | Spin => Spin
  | Abort => Abort
  | Undef => Undef
  end.

#[global] Instance outcome_fmap : FMap outcome := fun A B f m =>
  match m with Ok a => Ok (f a) | Spin => Spin | Abort => Abort | Undef => Undef end.

#[global] Instance outcome_eq_dec {A} `{EqDecision A} : EqDecision (outcome A).
Proof. solve_decision. Defined.

Definition is_ok {A} (o : outcome A) : bool :=
  match o with Ok _ => true | _ => false end.

(** * Stateful C code: state passing with an outcome *)

Definition M (S A : Type) : Type := S -> outcome (A * S).

#[global] Instance M_ret S : MRet (M S) := fun A a s => Ok (a, s).
#[global] Instance M_bind S : MBind (M S) := fun A B f m s =>
  match m s with
  | Ok (a, s') => f a s'
  | Spin => Spin
  | Abort => Abort
  | Undef => Undef
  end.

Definition gets {S A} (f : S -> A) : M S A := fun s => Ok (f s, s).
Definition modify {S} (f : S -> S) : M S unit := fun s => Ok (tt, f s).
Definition spin {S A} : M S A := fun _ => Spin.
Definition abort {S A} : M S A := fun _ => Abort.
Definition undef {S A} : M S A := fun _ => Undef.
Definition lift {S A} (o : outcome A) : M S A :=
  fun s => match o with
           | Ok a => Ok (a, s)
           | Spin => Spin
           | Abort => Abort
           | Undef => Undef
           end.

(** [UK_ASSERT(b)]. *)
Definition uk_assert {S} (b : bool) : M S unit := if b then mret tt else abort.

(** A read that must find an object. *)
Definition deref {S A} (f : S -> option A) : M S A :=
  fun s => match f s with Some a => Ok (a, s) | None => Undef end.

Lemma bind_ok {S A B} (m : M S A) (f : A -> M S B) s b s'' :
  (m ≫= f) s = Ok (b, s'') <->
  exists a s', m s = Ok (a, s') /\ f a s' = Ok (b, s'').
Proof.
  unfold mbind, M_bind. split.
  - destruct (m s) as [[a s']| | |] eqn:E; try done. eauto.
  - intros (a & s' & -> & ?). done.
Qed.

Lemma bind_ret {S A B} (m : M S A) (f : A -> M S B) s a s' :
  m s = Ok (a, s') -> (m ≫= f) s = f a s'.
Proof. unfold mbind, M_bind. by intros ->. Qed.

Lemma deref_ok {S A} (f : S -> option A) s a s' :
  deref f s = Ok (a, s') <-> f s = Some a /\ s' = s.
Proof. unfold deref. destruct (f s); split; naive_solver. Qed.

Lemma lift_ok {S A} (o : outcome A) (s : S) a s' :
  lift o s = Ok (a, s') <-> o = Ok a /\ s' = s.
Proof. unfold lift. destruct o; split; naive_solver. Qed.

Lemma gets_ok {S A} (f : S -> A) s a s' : gets f s = Ok (a, s') <-> a = f s /\ s' = s.
Proof. unfold gets. split; naive_solver. Qed.

Lemma modify_ok {S} (f : S -> S) s a s' : modify f s = Ok (a, s') <-> s' = f s.
Proof. unfold modify. destruct a. split; naive_solver. Qed.

Lemma ok_inj {S A} (a b : A) (s t : S) : Ok (a, s) = Ok (b, t) -> a = b /\ s = t.
Proof. by intros [= -> ->]. Qed.

(** Running on a part of the state. *)
Definition zoom {S T A} (get : S -> T) (set : T -> S -> S) (m : M T A) : M S A := fun s =>
  match m (get s) with
  | Ok (a, t) => Ok (a, set t s)
  | Spin => Spin
  | Abort => Abort
  | Undef => Undef
  end.

Lemma zoom_ok {S T A} (get : S -> T) (set : T -> S -> S) (m : M T A) s a t :
  m (get s) = Ok (a, t) -> zoom get set m s = Ok (a, set t s).
Proof. unfold zoom. by intros ->. Qed.

(** A run that only reads the part. *)
Lemma zoom_id {S T A} (get : S -> T) (set : T -> S -> S) (m : M T A) s a :
  set (get s) s = s -> m (get s) = Ok (a, get s) -> zoom get set m s = Ok (a, s).
Proof. intros E H. by rewrite (zoom_ok _ _ _ _ _ _ H), E. Qed.

(** Computations that leave the state alone. *)
Definition readonly {S A} (m : M S A) : Prop :=
  forall s a s', m s = Ok (a, s') -> s' = s.

Lemma readonly_gets {S A} (f : S -> A) : readonly (gets f).
Proof. unfold readonly, gets. intros. congruence. Qed.

Lemma readonly_ret {S A} (a : A) : readonly (S:=S) (mret a).
Proof. unfold readonly, mret, M_ret. intros. congruence. Qed.

Lemma readonly_spin {S A} : readonly (S:=S) (A:=A) spin.
Proof. unfold readonly, spin. done. Qed.

Lemma readonly_deref {S A} (f : S -> option A) : readonly (deref f).
Proof. unfold readonly, deref. intros s a s' H. destruct (f s); congruence. Qed.

Lemma readonly_lift {S A} (o : outcome A) : readonly (S:=S) (lift o).
Proof. unfold readonly, lift. intros s a s' H. destruct o; congruence. Qed.

Lemma readonly_bind {S A B} (m : M S A) (f : A -> M S B) :
  readonly m -> (forall a, readonly (f a)) -> readonly (m ≫= f).
Proof.
  intros Hm Hf s b s'' (a & s' & H1 & H2)%bind_ok.
  apply Hm in H1. subst. by eapply Hf.
Qed.

Lemma readonly_if {S A} (b : bool) (m1 m2 : M S A) :
  readonly m1 -> readonly m2 -> readonly (if b then m1 else m2).
Proof. by destruct b. Qed.

Create HintDb cubicle.
#[export] Hint Resolve readonly_gets readonly_ret readonly_spin readonly_deref
  readonly_lift readonly_bind readonly_if : cubicle.

(** Invert every successful bind in the context. *)
Ltac inv_ok :=
  repeat match goal with
  | H : Ok _ = Ok _ |- _ => injection H; clear H; intros; subst; try discriminate
  | H : (_ ≫= _) _ = Ok _ |- _ =>
      apply bind_ok in H as (? & ? & ? & ?)
  | H : mret _ _ = Ok _ |- _ => unfold mret, M_ret in H
  | H : gets _ _ = Ok _ |- _ => unfold gets in H
  | H : modify _ _ = Ok _ |- _ => unfold modify in H
  | H : spin _ = Ok _ |- _ => discriminate H
  | H : abort _ = Ok _ |- _ => discriminate H
  | H : undef _ = Ok _ |- _ => discriminate H
  | H : Spin = Ok _ |- _ => discriminate H
  | H : Undef = Ok _ |- _ => discriminate H
  | H : Abort = Ok _ |- _ => discriminate H
  | H : lift ?o _ = Ok _ |- _ => destruct o eqn:?; simpl in H
  | H : deref ?f ?s = Ok _ |- _ =>
      unfold deref in H; destruct (f s) eqn:?; [|discriminate H]
  | H : uk_assert ?b _ = Ok _ |- _ => unfold uk_assert in H; destruct b eqn:?
  end.

(** [lia] with quotients and remainders by constants. *)
Ltac divlia := Z.to_euclidean_division_equations; lia.

Lemma signed_small w z : 0 < w -> 0 <= z < 2 ^ (w - 1) -> signed w z = z.
Proof.
  intros Hw Hz. assert (2 ^ w = 2 * 2 ^ (w - 1)) as E.
  { rewrite <- Z.pow_succ_r by lia. f_equal. lia. }
  unfold signed. rewrite Z.mod_small by lia. simpl. by destruct (Z.ltb_spec z (2 ^ (w - 1))); [|lia].
Qed.

Lemma u64_small z : 0 <= z < 2 ^ 64 -> u64 z = z.
Proof. intros Hz. by apply Z.mod_small. Qed.

Lemma s32_trunc z : s32 (u64 z) = s32 z.
Proof. unfold s32, signed, u64. rewrite Z.mod_mod_divide; [done|]. by exists (2 ^ 32). Qed.

(** A small [size_t] kept in an [int]. *)
Lemma s32_u64 z : 0 <= z < 2 ^ 31 -> s32 (u64 z) = z.
Proof. intros Hz. rewrite u64_small by lia. unfold s32. apply signed_small; lia. Qed.

(** A non-negative [int] passed as [size_t]. *)
Lemma u64_s32 z : 0 <= z < 2 ^ 31 -> u64 (s32 z) = z.
Proof. intros Hz. unfold s32. rewrite signed_small by lia. apply u64_small. lia. Qed.

(** * Error codes (nolibc/include/errno.h)

    The configuration in app-sqlite builds against newlib, whose errno.h is not
    part of the sources; nolibc's is the only definition they contain.  The
    theorems use only that the codes are positive and which name is returned. *)

Module Errno.
Definition EPERM : Z := 1.
Definition ENOENT : Z := 2.
Definition ESRCH : Z := 3.
Definition EINTR : Z := 4.
Definition EIO : Z := 5.
Definition ENXIO : Z := 6.
Definition EBADF : Z := 9.
Definition ENOMEM : Z := 12.
Definition EACCES : Z := 13.
Definition EFAULT : Z := 14.
Definition EBUSY : Z := 16.
Definition EEXIST : Z := 17.
Definition EXDEV : Z := 18.
Definition ENODEV : Z := 19.
Definition ENOTDIR : Z := 20.
Definition EISDIR : Z := 21.
Definition EINVAL : Z := 22.
Definition ENFILE : Z := 23.
Definition EFBIG : Z := 27.
Definition ESPIPE : Z := 29.
Definition EROFS : Z := 30.
Definition EPIPE : Z := 32.
Definition ERANGE : Z := 34.
Definition EAGAIN : Z := 35.
Definition EOPNOTSUPP : Z := 45.
Definition ELOOP : Z := 62.
Definition ENAMETOOLONG : Z := 63.
Definition ENOTEMPTY : Z := 66.
Definition ENOSYS : Z := 78.
Definition ENOTSUP : Z := 97.
End Errno.

(** * Reference counts

    [held p] is how many references to the object [p] are held; [add_held held p d]
    is [held] with [d] more of them. *)

Definition add_held (held : Z -> Z) (p d : Z) : Z -> Z := fun x => if x =? p then held x + d else held x.

Lemma add_held_eq held p d : add_held held p d p = held p + d.
Proof. unfold add_held. by rewrite Z.eqb_refl. Qed.
Lemma add_held_ne held p d q : q <> p -> add_held held p d q = held q.
Proof. intros. unfold add_held. by rewrite (proj2 (Z.eqb_neq q p)). Qed.

Lemma s32_small z : 0 <= z < 2 ^ 31 -> s32 z = z.
Proof. intros. unfold s32. apply signed_small; simpl; lia. Qed.

Lemma s32_add z d : s32 (s32 z + d) = s32 (z + d).
Proof. unfold s32, signed. cbv zeta. repeat case_match; divlia. Qed.

(** * Arrays indexed by C integers *)

Definition arr_at {A} (l : list A) (i : Z) : option A :=
  if 0 <=? i then l !! Z.to_nat i else None.

Lemma arr_at_insert {A} (l : list A) i j (v : A) :
  0 <= i -> (Z.to_nat i < length l)%nat ->
  arr_at (<[Z.to_nat i := v]> l) j = if decide (i = j) then Some v else arr_at l j.
Proof.
  intros Hi Hl. unfold arr_at. destruct (Z.leb_spec 0 j), (decide (i = j)) as [->|]; try done.
  - by rewrite list_lookup_insert_eq.
  - rewrite list_lookup_insert_ne; [done|lia].
  - lia.
Qed.

Lemma arr_at_Some {A} (l : list A) i x :
  arr_at l i = Some x -> 0 <= i /\ (Z.to_nat i < length l)%nat.
Proof.
  unfold arr_at. destruct (Z.leb_spec 0 i); [|done]. intros H1%lookup_lt_Some. auto.
Qed.

Lemma arr_at_map {A B} (f : A -> B) (l : list A) i : arr_at (map f l) i = f <$> arr_at l i.
Proof. unfold arr_at. case_match; [|done]. apply list_lookup_fmap. Qed.

Lemma elem_of_concat {A} (x : A) (ls : list (list A)) : x ∈ concat ls <-> exists i l, arr_at ls i = Some l /\ x ∈ l.
Proof.
  induction ls as [|l ls IH]; simpl.
  - split; [by intros ?%elem_of_nil|]. intros (i & l & Hl & _). unfold arr_at in Hl. by case_match.
  - rewrite elem_of_app, IH. split.
    + intros [H|(i & l' & Hl & H)]; [by exists 0, l|].
      exists (i + 1), l'. split; [|done]. apply arr_at_Some in Hl as Hi. unfold arr_at in *.
      rewrite (proj2 (Z.leb_le 0 (i + 1))) by lia. rewrite (proj2 (Z.leb_le 0 i)) in Hl by lia.
      by replace (Z.to_nat (i + 1)) with (S (Z.to_nat i)) by lia.
    + intros (i & l' & Hl & H). unfold arr_at in Hl. destruct (Z.leb_spec 0 i); [|done].
      destruct (Z.to_nat i) as [|n] eqn:E; simpl in Hl; [injection Hl as <-; by left|].
      right. exists (Z.of_nat n), l'. unfold arr_at. rewrite (proj2 (Z.leb_le 0 _)) by lia. by rewrite Nat2Z.id.
Qed.

(** The value a run returns, if it does. *)
Definition result {S A} (o : outcome (A * S)) : option A :=
  match o with
  | Ok (a, _) => Some a
  | _ => None
  end.

(** Change the final state of a run. *)
Definition in_state {S A} (f : S -> S) (o : outcome (A * S)) : outcome (A * S) :=
  match o with
  | Ok (a, s) => Ok (a, f s)
  | Spin => Spin
  | Abort => Abort
  | Undef => Undef
  end.

(** * Singly linked lists

    [nx] maps the address of an element to its [next] field; 0 is NULL. *)

Inductive linked (nx : gmap Z Z) : Z -> list Z -> Prop :=
| linked_nil : linked nx 0 []
| linked_cons a n l : a <> 0 -> nx !! a = Some n -> linked nx n l -> linked nx a (a :: l).

Lemma linked_frame nx nx' a l :
  linked nx a l -> (forall x, x ∈ l -> nx' !! x = nx !! x) -> linked nx' a l.
Proof.
  induction 1 as [|a n l Ha Hn Hl IH]; intros Hx; [constructor|].
  apply (linked_cons _ _ n); [done|rewrite Hx; [done|left]|apply IH; intros x Hin; apply Hx; by right].
Qed.

Lemma linked_dom nx a l x : linked nx a l -> x ∈ l -> is_Some (nx !! x) /\ x <> 0.
Proof. induction 1 as [|a n l Ha Hn Hl IH]; intros Hin; [by apply elem_of_nil in Hin|]. set_solver. Qed.

Lemma linked_length nx a l : linked nx a l -> NoDup l -> (length l <= size nx)%nat.
Proof.
  intros Hr Hnd. rewrite <- (size_list_to_set (C := gset Z) l) by done. rewrite <- size_dom.
  apply subseteq_size. intros x [Hx _]%elem_of_list_to_set%(linked_dom nx a l x Hr). by apply elem_of_dom.
Qed.

Lemma linked_det nx a l l' : linked nx a l -> linked nx a l' -> l = l'.
Proof.
  intros Hr. revert l'. induction Hr as [|a n l Ha Hn Hl IH]; intros l' Hr'; inversion Hr'; subst; try done.
  f_equal. apply IH. congruence.
Qed.

Lemma linked_suffix nx a l x : linked nx a l -> x ∈ l -> exists l1 l2, l = l1 ++ x :: l2 /\ linked nx x (x :: l2).
Proof.
  induction 1 as [|a n l Ha Hn Hl IH]; [by intros ?%elem_of_nil|].
  intros [->|Hx]%elem_of_cons; [exists [], l; split; [done|by econstructor]|].
  destruct (IH Hx) as (l1 & l2 & -> & ?). by exists (a :: l1), l2.
Qed.

(** A list that ends has no element twice. *)
Lemma linked_nodup nx a l : linked nx a l -> NoDup l.
Proof.
  induction 1 as [|a n l Ha Hn Hl IH]; [constructor|]. apply NoDup_cons. split; [|done]. intros Hin.
  destruct (linked_suffix nx n l a Hl Hin) as (l1 & l2 & -> & Hs).
  assert (a :: l2 = a :: l1 ++ a :: l2) as E by (eapply linked_det; [done|by econstructor]).
  apply (f_equal length) in E. simpl in E. rewrite length_app in E. simpl in E. lia.
Qed.

(** The last element of a list ends it. *)
Lemma linked_last nx a l q : linked nx a (l ++ [q]) -> nx !! q = Some 0.
Proof.
  revert a. induction l as [|x l IH]; intros a Hl; inversion Hl as [|a' n l' Ha Hn Hr]; subst; [by inversion Hr; subst|by eapply IH].
Qed.

(** Appending [b] behind the last element. *)
Lemma linked_snoc nx a l last b :
  linked nx a (l ++ [last]) -> NoDup (l ++ [last]) -> b <> 0 -> b ∉ l ++ [last] ->
  linked (<[b := 0]> (<[last := b]> nx)) a ((l ++ [last]) ++ [b]).
Proof.
  revert a. induction l as [|x l IH]; intros a Hr Hnd Hb Hin; simpl in *; inversion Hr as [|a' n l' Ha Hn Hl]; subst.
  - apply not_elem_of_cons in Hin as [Hne _]. apply (linked_cons _ _ b); [done|by rewrite lookup_insert_ne, lookup_insert_eq|].
    apply (linked_cons _ _ 0); [done|by rewrite lookup_insert_eq|constructor].
  - apply NoDup_cons in Hnd as [Hx Hnd]. apply not_elem_of_cons in Hin as [Hne Hin].
    apply (linked_cons _ _ n); [done| |by apply IH]. rewrite !lookup_insert_ne; [done|set_solver|done].
Qed.

(** Unlinking the element behind [prev]. *)
Lemma linked_unlink nx a l1 prev b l2 nb :
  linked nx a (l1 ++ prev :: b :: l2) -> NoDup (l1 ++ prev :: b :: l2) -> nx !! b = Some nb ->
  linked (<[prev := nb]> nx) a (l1 ++ prev :: l2).
Proof.
  revert a. induction l1 as [|x l1 IH]; intros a Hr Hnd Hb; simpl in *; inversion Hr as [|a' n l' Ha Hn Hl]; subst.
  - inversion Hl as [|b' nb' l2' Hb0 Hnb Hl2]; subst. rewrite Hb in Hnb. injection Hnb as <-.
    apply (linked_cons _ _ nb); [done|by rewrite lookup_insert_eq|].
    eapply linked_frame; [exact Hl2|]. intros x Hx. apply lookup_insert_ne.
    apply NoDup_cons in Hnd as [Hp _]. set_solver.
  - apply NoDup_cons in Hnd as [Hx Hnd]. apply (linked_cons _ _ n); [done| |by apply IH].
    rewrite lookup_insert_ne; [done|set_solver].
Qed.
