(* ===== verification/VfsTypes.v ===== *)
(** File types and modes of vfscore (vfscore/include/vfscore/vnode.h, the tables
    at the top of vnode.c, and sys/stat.h), and limits of the C library that the
    configuration builds against (newlib/include). *)
From S2P Require Import Prelude.
From stdpp Require Import base numbers list.
#[local] Open Scope Z_scope.

Inductive vtype := VNON | VREG | VDIR | VBLK | VCHR | VLNK | VSOCK | VFIFO | VBAD.

#[global] Instance vtype_eq_dec : EqDecision vtype.
Proof. solve_decision. Defined.

(** Octal 0170000, 0010000, 0020000, 0040000, 0060000, 0100000, 0120000 and
    0140000. *)
Definition S_IFMT : Z := 61440.
Definition S_IFIFO : Z := 4096.
Definition S_IFCHR : Z := 8192.
Definition S_IFDIR : Z := 16384.
Definition S_IFBLK : Z := 24576.
Definition S_IFREG : Z := 32768.
Definition S_IFLNK : Z := 40960.
Definition S_IFSOCK : Z := 49152.

Definition iftovt_tab : list vtype :=
  [VNON; VFIFO; VCHR; VNON; VDIR; VNON; VBLK; VNON;
   VREG; VNON; VLNK; VNON; VSOCK; VNON; VNON; VBAD].

Definition vttoif_tab : list Z :=
  [0; S_IFREG; S_IFDIR; S_IFBLK; S_IFCHR; S_IFLNK; S_IFSOCK; S_IFIFO; S_IFMT; S_IFMT].

(** The number of an enumerator. *)
Definition vtype_index (t : vtype) : nat :=
  match t with
  | VNON => 0 | VREG => 1 | VDIR => 2 | VBLK => 3 | VCHR => 4
  | VLNK => 5 | VSOCK => 6 | VFIFO => 7 | VBAD => 8
  end.

Definition IFTOVT (mode : Z) : option vtype := arr_at iftovt_tab (Z.shiftr (Z.land mode S_IFMT) 12).
Definition VTTOIF (t : vtype) : option Z := vttoif_tab !! vtype_index t.

(** limits.h and sys/param.h. *)
Definition PATH_MAX : nat := 1024.
Definition MAXSYMLINKS : nat := 20.
