(* ===== verification/Windows.v ===== *)
(** The windows of the cubicles: the [ipc.c] file of each component.

    A cubicle shares memory by writing an [ipc_struct] into one of its three
    tables (stack, globals, heap); the monitor (Monitor.v) consults the tables
    of the owner when another cubicle faults on the memory.  This file models
    the tables of VFSCORE, RAMFS, UKBOOT, LWIP, UKNETDEV, LINUXUPLAT and the
    application, and the functions that open and close windows. *)
From S2P Require Import Prelude.
From stdpp Require Import base numbers gmap list.
#[local] Open Scope Z_scope.

(** ** Data *)

Record ipc_struct := Ipc {
  ipc_begin : Z;   (* void *       *)
  ipc_size : Z;    (* unsigned long *)
  ipc_mask : Z     (* unsigned long, one bit per cubicle *)
}.

Definition ipc_zero : ipc_struct := Ipc 0 0 0.

#[global] Instance ipc_struct_eq_dec : EqDecision ipc_struct.
Proof. solve_decision. Defined.

(** The three tables of a cubicle, with the high-water mark
    [X_ipc_tab_heap_nr_real] the VFSCORE and UKBOOT files keep. *)
Record ipc_tables := Tables {
  tab_stack : list ipc_struct;
  tab_globals : list ipc_struct;
  tab_heap : list ipc_struct;
  tab_heap_nr_real : Z
}.

Definition set_tab_stack l t := Tables l (tab_globals t) (tab_heap t) (tab_heap_nr_real t).
Definition set_tab_globals l t := Tables (tab_stack t) l (tab_heap t) (tab_heap_nr_real t).
Definition set_tab_heap l t := Tables (tab_stack t) (tab_globals t) l (tab_heap_nr_real t).
Definition set_heap_nr_real n t := Tables (tab_stack t) (tab_globals t) (tab_heap t) n.

(** [int] values stored into [unsigned long] fields are sign extended. *)
Definition ulong_of_int (z : Z) : Z := u64 (s32 z).

(** The search loops: the first of the [n] slots from index [i] on that
    satisfies [p].  Reading past the array is undefined. *)
Fixpoint scan (p : ipc_struct -> bool) (n i : nat) (tab : list ipc_struct)
  : outcome (option nat) :=
  match n with
  | O => Ok None
  | S n' =>
      match tab !! i with
      | None => Undef
      | Some e => if p e then Ok (Some i) else scan p n' (S i) tab
      end
  end.

Definition slot_free (e : ipc_struct) : bool := ipc_size e =? 0.
Definition slot_begins (b : Z) (e : ipc_struct) : bool := ipc_begin e =? b.

(** A store into an entry of a table, [tab[i] = e]. *)
Definition store_entry (tab : list ipc_struct) (i : Z) (e : ipc_struct)
  : outcome (list ipc_struct) :=
  if (0 <=? i) && (i <? Z.of_nat (length tab))
  then Ok (<[Z.to_nat i := e]> tab) else Undef.

Definition bit (n : Z) : Z := Z.shiftl 1 n.

(** ** VFSCORE (lib/vfscore/ipc.c) *)

Definition VFS_HEAP_MAX : nat := 101.

Definition VFSCORE_ipc_tab_stack (sizeof_uio sizeof_vattr PATH_MAX : Z) : list ipc_struct :=
  let m := Z.lor (bit 21) (bit 2) in
  let m3 := Z.lor m (bit 17) in
  [Ipc 0 8 m; Ipc 1 8 m; Ipc 2 8 m; Ipc 3 8 m;
   Ipc 4 PATH_MAX m; Ipc 5 PATH_MAX m; Ipc 6 PATH_MAX m; Ipc 7 PATH_MAX m;
   Ipc 8 sizeof_uio m3; Ipc 9 sizeof_uio m3; Ipc 10 sizeof_vattr m].

Definition vfs_tables_init (sizeof_uio sizeof_vattr PATH_MAX : Z) : ipc_tables :=
  Tables (VFSCORE_ipc_tab_stack sizeof_uio sizeof_vattr PATH_MAX) []
         (replicate VFS_HEAP_MAX ipc_zero) 0.

Definition vfs_ipc_add_heap (begin size mask : Z) : M ipc_tables unit :=
  h ← gets tab_heap;
  o ← lift (scan slot_free VFS_HEAP_MAX 0 h);
  match o with
  | Some i =>
      modify (set_tab_heap (<[i := Ipc begin size (ulong_of_int mask)]> h));;
      nr ← gets tab_heap_nr_real;
      if nr <=? Z.of_nat i then modify (set_heap_nr_real (Z.of_nat i)) else mret tt
  | None => spin
  end.

Definition vfs_ipc_remove_heap (begin : Z) : M ipc_tables unit :=
  h ← gets tab_heap;
  nr ← gets tab_heap_nr_real;
  o ← lift (scan (slot_begins begin) (Z.to_nat nr) 0 h);
  match o with
  | Some i => modify (set_tab_heap (<[i := ipc_zero]> h))
  | None => mret tt
  end.

(** ** UKBOOT (lib/ukboot/ipc.c) *)

Definition UKBOOT_HEAP_MAX : nat := 10.

Definition ukboot_tables_init (sizeof_memregion_desc : Z) : ipc_tables :=
  Tables [Ipc 0 sizeof_memregion_desc (Z.lor (bit 19) (bit 25))] []
         (replicate UKBOOT_HEAP_MAX ipc_zero) 0.

Definition ukboot_ipc_add_heap (begin size mask : Z) : M ipc_tables unit :=
  h ← gets tab_heap;
  o ← lift (scan slot_free UKBOOT_HEAP_MAX 0 h);
  match o with
  | Some i =>
      modify (set_tab_heap (<[i := Ipc begin size (ulong_of_int mask)]> h));;
      nr ← gets tab_heap_nr_real;
      if nr <=? Z.of_nat i then modify (set_heap_nr_real (Z.of_nat i)) else mret tt
  | None => spin
  end.

Definition ukboot_ipc_remove_heap (begin : Z) : M ipc_tables unit :=
  h ← gets tab_heap;
  nr ← gets tab_heap_nr_real;
  o ← lift (scan (slot_begins begin) (Z.to_nat nr) 0 h);
  match o with
  | Some i => modify (set_tab_heap (<[i := ipc_zero]> h))
  | None => mret tt
  end.

(** ** RAMFS (lib/ramfs/ipc.c) *)

Definition HEAP_MAX : nat := 100.

Definition ramfs_tables_init : ipc_tables :=
  Tables [Ipc 0 8 (Z.lor (bit 21) (bit 2))] [] (replicate HEAP_MAX ipc_zero) 0.

Definition ramfs_ipc_add_stack (begin size mask : Z) : M ipc_tables unit :=
  st ← gets tab_stack;
  st' ← lift (store_entry st 0 (Ipc begin (ulong_of_int size) (ulong_of_int mask)));
  modify (set_tab_stack st').

Definition ramfs_ipc_remove_heap (begin : Z) : M ipc_tables unit :=
  h ← gets tab_heap;
  o ← lift (scan (slot_begins begin) HEAP_MAX 0 h);
  match o with
  | Some i => modify (set_tab_heap (<[i := ipc_zero]> h))
  | None => spin
  end.

Definition ramfs_ipc_add_heap (begin size mask : Z) : M ipc_tables unit :=
  h ← gets tab_heap;
  o ← lift (scan slot_free HEAP_MAX 0 h);
  match o with
  | Some i => modify (set_tab_heap (<[i := Ipc begin size (ulong_of_int mask)]> h))
  | None => spin
  end.

(** ** UKNETDEV (lib/uknetdev/ipc.c) *)

Definition uknetdev_tables_init : ipc_tables :=
  Tables [] [Ipc 0 6 (Z.lor (bit 17) (bit 11))] (replicate HEAP_MAX ipc_zero) 0.

Definition uknetdev_ipc_remove_heap (begin : Z) : M ipc_tables unit :=
  h ← gets tab_heap;
  o ← lift (scan (slot_begins begin) HEAP_MAX 0 h);
  match o with
  | Some i => modify (set_tab_heap (<[i := ipc_zero]> h))
  | None => spin
  end.

Definition uknetdev_ipc_add_heap (begin size mask : Z) : M ipc_tables unit :=
  h ← gets tab_heap;
  o ← lift (scan slot_free HEAP_MAX 0 h);
  match o with
  | Some i => modify (set_tab_heap (<[i := Ipc begin size (ulong_of_int mask)]> h))
  | None => spin
  end.

(** ** LINUXUPLAT (plat/linuxu/ipc.c) *)

Definition linuxuplat_tables_init : ipc_tables :=
  let m := Z.lor (bit 6) (bit 19) in
  Tables [Ipc 0 8 m; Ipc 1 8 m] [] (replicate HEAP_MAX ipc_zero) 0.

Definition linuxuplat_ipc_add_stack (begin size mask : Z) : M ipc_tables unit :=
  st ← gets tab_stack;
  st' ← lift (store_entry st 0 (Ipc begin (ulong_of_int size) (ulong_of_int mask)));
  modify (set_tab_stack st').

Definition linuxuplat_ipc_remove_heap (begin : Z) : M ipc_tables unit :=
  h ← gets tab_heap;
  o ← lift (scan (slot_begins begin) HEAP_MAX 0 h);
  match o with
  | Some i => modify (set_tab_heap (<[i := ipc_zero]> h))
  | None => spin
  end.

Definition linuxuplat_ipc_add_heap (begin size mask : Z) : M ipc_tables unit :=
  h ← gets tab_heap;
  o ← lift (scan slot_free HEAP_MAX 0 h);
  match o with
  | Some i => modify (set_tab_heap (<[i := Ipc begin size (ulong_of_int mask)]> h))
  | None => spin
  end.

(** ** The application (lib/libnginx/ipc.c) *)

Definition APP_ipc_tab_stack : list ipc_struct :=
  let m21 := Z.lor (bit 21) (bit 0) in
  let m3 := Z.lor (bit 3) (bit 0) in
  let m17 := Z.lor (bit 17) (bit 0) in
  [Ipc 0 0 m21; Ipc 1 0 m21; Ipc 2 0 m21; Ipc 3 0 m21; Ipc 4 0 m21; Ipc 5 4096 m21;
   Ipc 6 0 m21; Ipc 7 0 (Z.lor (bit 6) (bit 0));
   Ipc 8 0 m3; Ipc 9 0 m3; Ipc 10 0 m3; Ipc 11 0 m3; Ipc 12 0 m3; Ipc 13 0 m3; Ipc 14 0 m3;
   Ipc 15 0 m17; Ipc 16 0 m17; Ipc 17 0 m17; Ipc 18 0 m17;
   Ipc 19 0 (Z.lor (Z.lor (bit 0) (bit 17)) (bit 21))].

Definition APP_ipc_tab_globals : list ipc_struct :=
  [Ipc 0 8192 (Z.lor (bit 21) (bit 0)); Ipc 1 0 (Z.lor (bit 17) (bit 0));
   Ipc 2 0 (Z.lor (bit 17) (bit 0))].

Definition app_tables_init : ipc_tables :=
  Tables APP_ipc_tab_stack APP_ipc_tab_globals (replicate HEAP_MAX ipc_zero) 0.

Definition app_ipc_remove_heap (begin : Z) : M ipc_tables unit :=
  h ← gets tab_heap;
  o ← lift (scan (slot_begins begin) HEAP_MAX 0 h);
  match o with
  | Some i => modify (set_tab_heap (<[i := ipc_zero]> h))
  | None => mret tt
  end.

Definition app_ipc_add_heap (begin size mask : Z) : M ipc_tables unit :=
  h ← gets tab_heap;
  o ← lift (scan slot_free HEAP_MAX 0 h);
  match o with
  | Some i => modify (set_tab_heap (<[i := Ipc begin size (ulong_of_int mask)]> h))
  | None => spin
  end.

Definition app_ipc_add_stack (i begin size mask : Z) : M ipc_tables unit :=
  st ← gets tab_stack;
  st' ← lift (store_entry st i (Ipc begin size (ulong_of_int mask)));
  modify (set_tab_stack st').

Definition app_ipc_add_global (i begin size mask : Z) : M ipc_tables unit :=
  g ← gets tab_globals;
  g' ← lift (store_entry g i (Ipc begin size (ulong_of_int mask)));
  modify (set_tab_globals g').

(** ** LWIP (lib/lwip/ipc.c): adding a window whose [begin] is already in the
    table overwrites that slot if it comes before the first free one. *)

Definition LWIP_ipc_tab_stack : list ipc_struct :=
  let m11 := Z.lor (bit 17) (bit 11) in
  let m21 := Z.lor (bit 17) (bit 21) in
  [Ipc 0 0 m11; Ipc 1 0 m11; Ipc 2 0 m11; Ipc 3 0 m11; Ipc 4 0 m21; Ipc 5 0 m21].

Definition LWIP_ipc_tab_globals (sizeof_mount : Z) : list ipc_struct :=
  let m := Z.lor (bit 17) (bit 21) in
  [Ipc 0 sizeof_mount m; Ipc 1 8 m; Ipc 2 8 m; Ipc 3 8 m].

Definition lwip_tables_init (sizeof_mount : Z) : ipc_tables :=
  Tables LWIP_ipc_tab_stack (LWIP_ipc_tab_globals sizeof_mount)
         (replicate HEAP_MAX ipc_zero) 0.

Definition lwip_ipc_remove_heap (begin : Z) : M ipc_tables unit :=
  h ← gets tab_heap;
  o ← lift (scan (slot_begins begin) HEAP_MAX 0 h);
  match o with
  | Some i => modify (set_tab_heap (<[i := ipc_zero]> h))
  | None => spin
  end.

Definition lwip_slot_usable (b : Z) (e : ipc_struct) : bool :=
  negb (negb (ipc_size e =? 0) && negb (ipc_begin e =? b)).

Definition lwip_ipc_add_heap (begin size mask : Z) : M ipc_tables unit :=
  h ← gets tab_heap;
  o ← lift (scan (lwip_slot_usable begin) HEAP_MAX 0 h);
  match o with
  | Some i => modify (set_tab_heap (<[i := Ipc begin size (ulong_of_int mask)]> h))
  | None => spin
  end.

Definition lwip_ipc_add_globals (i begin size mask : Z) : M ipc_tables unit :=
  g ← gets tab_globals;
  g' ← lift (store_entry g i (Ipc begin size (ulong_of_int mask)));
  modify (set_tab_globals g').

Definition lwip_ipc_add_stack (i begin size mask : Z) : M ipc_tables unit :=
  st ← gets tab_stack;
  st' ← lift (store_entry st i (Ipc begin (ulong_of_int size) (ulong_of_int mask)));
  modify (set_tab_stack st').

(** ** The search loops *)

Lemma scan_some p n i tab j :
  scan p n i tab = Ok (Some j) ->
  (i <= j < i + n)%nat /\
  (exists e, tab !! j = Some e /\ p e = true) /\
  (forall k e, (i <= k < j)%nat -> tab !! k = Some e -> p e = false).
Proof.
  revert i. induction n as [|n IH]; intros i H; simpl in H; [done|].
  destruct (tab !! i) as [e|] eqn:Ei; [|done].
  destruct (p e) eqn:Ep.
  - simplify_eq H. intros ->. repeat split; [lia|lia|eauto|intros; lia].
  - apply IH in H as (Hj & He & Hk). repeat split; [lia|lia|done|].
    intros k e' Hki Hke. destruct (decide (k = i)) as [->|]; [congruence|].
    eapply Hk; [|done]. lia.
Qed.

Lemma scan_none p n i tab :
  scan p n i tab = Ok None ->
  forall k e, (i <= k < i + n)%nat -> tab !! k = Some e -> p e = false.
Proof.
  revert i. induction n as [|n IH]; intros i H k e Hk Hke; simpl in H; [lia|].
  destruct (tab !! i) as [e'|] eqn:Ei; [|done]. destruct (p e') eqn:Ep; [done|].
  destruct (decide (k = i)) as [->|]; [congruence|]. eapply IH; [done| |done]. lia.
Qed.

Lemma scan_total p n i tab :
  (i + n <= length tab)%nat -> exists o, scan p n i tab = Ok o.
Proof.
  revert i. induction n as [|n IH]; intros i H; simpl; [eauto|].
  destruct (lookup_lt_is_Some_2 tab i) as [e ->]; [lia|].
  destruct (p e); [eauto|]. apply IH. lia.
Qed.

Lemma scan_hit p n i tab k e :
  (i + n <= length tab)%nat -> (i <= k < i + n)%nat ->
  tab !! k = Some e -> p e = true -> exists j, scan p n i tab = Ok (Some j).
Proof.
  intros Hl Hk He Hp. destruct (scan_total p n i tab Hl) as [[j|] Hj]; [eauto|].
  pose proof (scan_none _ _ _ _ Hj k e Hk He). congruence.
Qed.

(** ** The windows a table holds

    The abstract state of a heap table is the multiset of its entries with a
    non-zero size, up to permutation. *)

Definition live (tab : list ipc_struct) : list ipc_struct :=
  filter (fun e => ipc_size e <> 0) tab.

(** Slots are either in use or entirely cleared. *)
Definition slots_clean (tab : list ipc_struct) : Prop :=
  Forall (fun e => ipc_size e = 0 -> ipc_begin e = 0) tab.

Definition heap_wf (n : nat) (t : ipc_tables) : Prop :=
  length (tab_heap t) = n /\ slots_clean (tab_heap t).

Lemma live_middle tab i e :
  tab !! i = Some e ->
  live tab ≡ₚ live [e] ++ live (take i tab ++ drop (S i) tab).
Proof.
  intros He. rewrite <- (take_drop_middle tab i e He) at 1. unfold live.
  change (e :: drop (S i) tab) with ([e] ++ drop (S i) tab).
  rewrite !filter_app. rewrite !app_assoc. apply Permutation_app_tail, Permutation_app_comm.
Qed.

Lemma live_update tab i e e' :
  tab !! i = Some e ->
  live (<[i := e']> tab) ≡ₚ live [e'] ++ live (take i tab ++ drop (S i) tab).
Proof.
  intros He. rewrite insert_take_drop by (by eapply lookup_lt_Some). unfold live.
  change (e' :: drop (S i) tab) with ([e'] ++ drop (S i) tab).
  rewrite !filter_app. rewrite !app_assoc. apply Permutation_app_tail, Permutation_app_comm.
Qed.

Lemma live_one e : ipc_size e <> 0 -> live [e] = [e].
Proof. intros. unfold live. by rewrite filter_cons_True. Qed.

Lemma live_one_free e : ipc_size e = 0 -> live [e] = [].
Proof. intros. unfold live. rewrite filter_cons_False; [done|]. by intros H'. Qed.

(** Opening a window in a free slot adds it; clearing a used slot removes it. *)
Lemma live_open tab i e e' :
  tab !! i = Some e -> ipc_size e = 0 -> ipc_size e' <> 0 ->
  live (<[i := e']> tab) ≡ₚ e' :: live tab.
Proof.
  intros He H0 H1. rewrite (live_update tab i e e' He), (live_middle tab i e He).
  by rewrite (live_one e'), (live_one_free e).
Qed.

Lemma live_close tab i e :
  tab !! i = Some e -> ipc_size e <> 0 ->
  live tab ≡ₚ e :: live (<[i := ipc_zero]> tab).
Proof.
  intros He H1. rewrite (live_update tab i e ipc_zero He), (live_middle tab i e He).
  by rewrite (live_one e), (live_one_free ipc_zero).
Qed.

Lemma elem_of_live e tab : e ∈ live tab <-> e ∈ tab /\ ipc_size e <> 0.
Proof. unfold live. rewrite list_elem_of_filter. tauto. Qed.

Lemma slots_clean_insert tab i e :
  slots_clean tab -> (ipc_size e = 0 -> ipc_begin e = 0) -> slots_clean (<[i := e]> tab).
Proof. intros Hc He. by apply Forall_insert. Qed.

#[export] Hint Resolve slots_clean_insert : cubicle.

(** ** The contract of a heap table

    What a component that shares heap memory relies on: opening a window adds
    it to the multiset, closing one takes out an entry with that [begin], and
    the only ways not to return are a full table and (where [spins]) a
    [begin] that is not in the table. *)
Class HeapWindows (n : nat) (spins : bool)
    (add : Z -> Z -> Z -> M ipc_tables unit) (rem : Z -> M ipc_tables unit) := {
  hw_add : forall b s m t,
    heap_wf n t -> s <> 0 ->
    (exists t', add b s m t = Ok (tt, t') /\ heap_wf n t' /\
       live (tab_heap t') ≡ₚ Ipc b s (ulong_of_int m) :: live (tab_heap t) /\
       tab_stack t' = tab_stack t /\ tab_globals t' = tab_globals t) \/
    (add b s m t = Spin /\ length (live (tab_heap t)) = n);
  hw_remove : forall b t,
    heap_wf n t -> b <> 0 ->
    (exists t' e, rem b t = Ok (tt, t') /\ heap_wf n t' /\ ipc_begin e = b /\
       live (tab_heap t) ≡ₚ e :: live (tab_heap t') /\
       tab_stack t' = tab_stack t /\ tab_globals t' = tab_globals t) \/
    (rem b t = (if spins then Spin else Ok (tt, t)) /\
       forall e, e ∈ live (tab_heap t) -> ipc_begin e <> b)
}.

Lemma live_full tab : (forall e, e ∈ tab -> ipc_size e <> 0) -> live tab = tab.
Proof.
  unfold live. induction tab as [|e tab IH]; intros H; [done|].
  rewrite filter_cons_True by (apply H; set_solver). rewrite IH; [done|].
  intros e' He'. apply H. set_solver.
Qed.

Lemma add_heap_spec n b s m t :
  heap_wf n t -> s <> 0 ->
  (exists i, scan slot_free n 0 (tab_heap t) = Ok (Some i) /\
     let t' := set_tab_heap (<[i := Ipc b s m]> (tab_heap t)) t in
     heap_wf n t' /\ live (tab_heap t') ≡ₚ Ipc b s m :: live (tab_heap t)) \/
  (scan slot_free n 0 (tab_heap t) = Ok None /\ length (live (tab_heap t)) = n).
Proof.
  intros [Hlen Hc] Hs.
  destruct (scan_total slot_free n 0 (tab_heap t)) as [[i|] Hi]; [lia| |].
  - left. exists i. split; [done|]. simpl.
    apply scan_some in Hi as (_ & (e & He & Hf) & _).
    unfold slot_free in Hf. apply Z.eqb_eq in Hf.
    split; [|by eapply live_open].
    split; simpl; [by rewrite length_insert|]. apply slots_clean_insert; [done|]. simpl. lia.
  - right. split; [done|]. rewrite live_full; [done|].
    intros e [k Hk]%list_elem_of_lookup.
    assert (k < length (tab_heap t))%nat by (by eapply lookup_lt_Some).
    pose proof (scan_none _ _ _ _ Hi k e ltac:(lia) Hk) as Hf.
    unfold slot_free in Hf. by apply Z.eqb_neq in Hf.
Qed.

Lemma remove_heap_spec n b t :
  heap_wf n t -> b <> 0 ->
  (exists i e, scan (slot_begins b) n 0 (tab_heap t) = Ok (Some i) /\ ipc_begin e = b /\
     let t' := set_tab_heap (<[i := ipc_zero]> (tab_heap t)) t in
     heap_wf n t' /\ live (tab_heap t) ≡ₚ e :: live (tab_heap t')) \/
  (scan (slot_begins b) n 0 (tab_heap t) = Ok None /\
     forall e, e ∈ live (tab_heap t) -> ipc_begin e <> b).
Proof.
  intros [Hlen Hc] Hb.
  destruct (scan_total (slot_begins b) n 0 (tab_heap t)) as [[i|] Hi]; [lia| |].
  - left. pose proof (scan_some _ _ _ _ _ Hi) as (_ & (e & He & Hf) & _).
    unfold slot_begins in Hf. apply Z.eqb_eq in Hf. exists i, e.
    split; [done|]. split; [done|]. simpl.
    split; [split; simpl; [by rewrite length_insert|]; by apply slots_clean_insert|].
    apply live_close; [done|]. intros H0.
    pose proof (proj1 (Forall_lookup _ _) Hc i e He H0). lia.
  - right. split; [done|]. intros e [He _]%elem_of_live.
    apply list_elem_of_lookup in He as [k Hk].
    assert (k < length (tab_heap t))%nat by (by eapply lookup_lt_Some).
    pose proof (scan_none _ _ _ _ Hi k e ltac:(lia) Hk) as Hf.
    unfold slot_begins in Hf. by apply Z.eqb_neq in Hf.
Qed.

(** One proof serves the four components whose functions have this shape. *)
Ltac solve_heap_windows :=
  split;
  [ intros b s m t Hwf Hs;
    destruct (add_heap_spec _ b s (ulong_of_int m) t Hwf Hs) as [(i & Hi & ? & ?)|[Hi ?]];
    [ left; eexists; split;
      [cbv [mbind M_bind gets lift modify]; rewrite Hi; reflexivity|by auto]
    | right; split; [cbv [mbind M_bind gets lift modify]; by rewrite Hi|done] ]
  | intros b t Hwf Hb;
    destruct (remove_heap_spec _ b t Hwf Hb) as [(i & e & Hi & ? & ? & ?)|[Hi ?]];
    [ left; eexists _, e; split;
      [cbv [mbind M_bind gets lift modify]; rewrite Hi; reflexivity|by auto]
    | right; split; [cbv [mbind M_bind gets lift modify]; by rewrite Hi|done] ] ].

#[global] Instance ramfs_windows :
  HeapWindows HEAP_MAX true ramfs_ipc_add_heap ramfs_ipc_remove_heap.
Proof. unfold ramfs_ipc_add_heap, ramfs_ipc_remove_heap. solve_heap_windows. Qed.

#[global] Instance uknetdev_windows :
  HeapWindows HEAP_MAX true uknetdev_ipc_add_heap uknetdev_ipc_remove_heap.
Proof. unfold uknetdev_ipc_add_heap, uknetdev_ipc_remove_heap. solve_heap_windows. Qed.

#[global] Instance linuxuplat_windows :
  HeapWindows HEAP_MAX true linuxuplat_ipc_add_heap linuxuplat_ipc_remove_heap.
Proof. unfold linuxuplat_ipc_add_heap, linuxuplat_ipc_remove_heap. solve_heap_windows. Qed.

#[global] Instance app_windows :
  HeapWindows HEAP_MAX false app_ipc_add_heap app_ipc_remove_heap.
Proof. unfold app_ipc_add_heap, app_ipc_remove_heap. solve_heap_windows. Qed.

(** ** Sequences of window operations *)

Inductive win_op : Type :=
| OpAdd (b s m : Z)
| OpRemove (b : Z).

Definition run_op (add : Z -> Z -> Z -> M ipc_tables unit)
    (rem : Z -> M ipc_tables unit) (o : win_op) : M ipc_tables unit :=
  match o with
  | OpAdd b s m => add b s m
  | OpRemove b => rem b
  end.

Fixpoint run_ops (add : Z -> Z -> Z -> M ipc_tables unit)
    (rem : Z -> M ipc_tables unit) (ops : list win_op) : M ipc_tables unit :=
  match ops with
  | [] => mret tt
  | o :: ops' => run_op add rem o;; run_ops add rem ops'
  end.

(** The abstract machine: a multiset of at most [n] open windows. *)
Inductive win_spec (n : nat) (spins : bool) : list ipc_struct -> win_op -> list ipc_struct -> Prop :=
| spec_open w w' b s m :
    (length w < n)%nat -> w' ≡ₚ Ipc b s (ulong_of_int m) :: w ->
    win_spec n spins w (OpAdd b s m) w'
| spec_close w w' e :
    w ≡ₚ e :: w' -> win_spec n spins w (OpRemove (ipc_begin e)) w'
| spec_close_missing w b :
    spins = false -> (forall e, e ∈ w -> ipc_begin e <> b) ->
    win_spec n spins w (OpRemove b) w.

Inductive win_spec_star (n : nat) (spins : bool)
  : list ipc_struct -> list win_op -> list ipc_struct -> Prop :=
| spec_nil w : win_spec_star n spins w [] w
| spec_cons w o w1 ops w2 :
    win_spec n spins w o w1 -> win_spec_star n spins w1 ops w2 ->
    win_spec_star n spins w (o :: ops) w2.

(** Callers never open an empty window nor close the null one. *)
Definition op_valid (o : win_op) : bool :=
  match o with
  | OpAdd _ s _ => negb (s =? 0)
  | OpRemove b => negb (b =? 0)
  end.

Lemma heap_windows_step `{HeapWindows n spins add rem} o t t' :
  heap_wf n t -> op_valid o = true -> run_op add rem o t = Ok (tt, t') ->
  heap_wf n t' /\ win_spec n spins (live (tab_heap t)) o (live (tab_heap t')).
Proof.
  destruct o as [b s m|b]; simpl; intros Hwf Hv Hrun;
    apply negb_true_iff, Z.eqb_neq in Hv.
  - destruct (hw_add b s m t Hwf Hv) as [(t1 & Ht1 & Hwf1 & Hp & _)|[Hs _]]; [|congruence].
    rewrite Ht1 in Hrun. simplify_eq Hrun. intros ->. split; [done|].
    apply spec_open; [|done]. apply Permutation_length in Hp. simpl in Hp.
    pose proof (length_filter (fun e => ipc_size e <> 0) (tab_heap t')) as Hle.
    destruct Hwf1 as [Hl1 _]. unfold live in *. lia.
  - destruct (hw_remove b t Hwf Hv) as [(t1 & e & Ht1 & Hwf1 & Hb & Hp & _)|[Hs Hno]].
    + rewrite Ht1 in Hrun. simplify_eq Hrun. intros ->. split; [done|].
      subst b. by apply spec_close.
    + rewrite Hs in Hrun. destruct spins; [done|]. simplify_eq Hrun. intros ->.
      split; [done|]. by apply spec_close_missing.
Qed.

Lemma heap_windows_refine `{HeapWindows n spins add rem} ops t t' :
  heap_wf n t -> forallb op_valid ops = true -> run_ops add rem ops t = Ok (tt, t') ->
  heap_wf n t' /\ win_spec_star n spins (live (tab_heap t)) ops (live (tab_heap t')).
Proof.
  revert t. induction ops as [|o ops IH]; simpl; intros t Hwf Hv Hrun.
  - inv_ok. split; [done|constructor].
  - apply andb_true_iff in Hv as [Hv Hvs].
    apply bind_ok in Hrun as ([] & t1 & H1 & H2).
    destruct (heap_windows_step o t t1 Hwf Hv H1) as [Hwf1 Hs1].
    destruct (IH t1 Hwf1 Hvs H2) as [Hwf2 Hs2]. split; [done|]. by econstructor.
Qed.

Lemma tables_init_wf n st g : heap_wf n (Tables st g (replicate n ipc_zero) 0).
Proof.
  split; simpl; [by rewrite length_replicate|]. apply Forall_forall.
  intros e He. apply elem_of_replicate in He as [-> _]. done.
Qed.

Lemma live_init n : live (replicate n ipc_zero) = [].
Proof. induction n; [done|]. simpl. unfold live in *. by rewrite filter_cons_False by (intros Hz; by apply Hz). Qed.


Definition ramfs_demo_ops : list win_op :=
  [OpAdd 4096 100 6; OpAdd 8192 8 4; OpRemove 4096].


(** ** VFSCORE: the high-water mark is an index, the removal loop uses it as a count *)

(** Live slots lie at or below [tab_heap_nr_real]. *)
Definition vfs_inv (t : ipc_tables) : Prop :=
  length (tab_heap t) = VFS_HEAP_MAX /\
  0 <= tab_heap_nr_real t < Z.of_nat VFS_HEAP_MAX /\
  forall i e, tab_heap t !! i = Some e -> ipc_size e <> 0 -> Z.of_nat i <= tab_heap_nr_real t.

Lemma vfs_add_effect b s m t t' :
  vfs_ipc_add_heap b s m t = Ok (tt, t') ->
  exists i old, tab_heap t !! i = Some old /\ ipc_size old = 0 /\ (i < VFS_HEAP_MAX)%nat /\
    tab_heap t' = <[i := Ipc b s (ulong_of_int m)]> (tab_heap t) /\
    tab_heap_nr_real t' = Z.max (tab_heap_nr_real t) (Z.of_nat i).
Proof.
  unfold vfs_ipc_add_heap. cbv [mbind M_bind gets lift modify].
  destruct (scan slot_free VFS_HEAP_MAX 0 (tab_heap t)) as [[i|]| | |] eqn:Hi; try done.
  apply scan_some in Hi as (Hr & (old & Ho & Hf) & _). unfold slot_free in Hf.
  apply Z.eqb_eq in Hf. simpl. intros H. exists i, old. repeat split; [done|done|lia| |].
  - destruct (_ <=? _) in H; injection H as <-; done.
  - destruct (Z.leb_spec (tab_heap_nr_real t) (Z.of_nat i)); injection H as <-; simpl; lia.
Qed.

Lemma vfs_remove_effect b t t' :
  vfs_ipc_remove_heap b t = Ok (tt, t') ->
  tab_heap_nr_real t' = tab_heap_nr_real t /\
  ((tab_heap t' = tab_heap t /\
    forall i e, Z.of_nat i < tab_heap_nr_real t -> tab_heap t !! i = Some e -> ipc_begin e <> b) \/
   exists i e, tab_heap t !! i = Some e /\ ipc_begin e = b /\ Z.of_nat i < tab_heap_nr_real t /\
    tab_heap t' = <[i := ipc_zero]> (tab_heap t)).
Proof.
  unfold vfs_ipc_remove_heap. cbv [mbind M_bind gets lift modify].
  destruct (scan _ _ 0 (tab_heap t)) as [[i|]| | |] eqn:Hi; try done.
  - apply scan_some in Hi as (? & (e & He & Hf) & _). unfold slot_begins in Hf.
    apply Z.eqb_eq in Hf. intros H'. injection H' as <-. split; [done|]. right.
    exists i, e. repeat split; [done|done|lia].
  - intros H. injection H as <-. split; [done|]. left. split; [done|].
    intros i e Hlt He. pose proof (scan_none _ _ _ _ Hi i e ltac:(lia) He) as Hf.
    unfold slot_begins in Hf. by apply Z.eqb_neq in Hf.
Qed.

(** VFSCORE keeps every live window at or below the mark. *)
Lemma vfs_inv_step o t t' :
  vfs_inv t -> run_op vfs_ipc_add_heap vfs_ipc_remove_heap o t = Ok (tt, t') -> vfs_inv t'.
Proof.
  intros (Hl & Hnr & Hlive) Hrun. destruct o as [b s m|b]; simpl in Hrun.
  - apply vfs_add_effect in Hrun as (i & old & Ho & H0 & Hi & Hh & Hn).
    split; [by rewrite Hh, length_insert|]. split; [lia|].
    intros j e Hj Hne. rewrite Hh in Hj.
    destruct (decide (j = i)) as [->|Hji]; [lia|].
    rewrite list_lookup_insert_ne in Hj by done. pose proof (Hlive j e Hj Hne). lia.
  - apply vfs_remove_effect in Hrun as [Hn [[Hh _]|(i & e0 & He0 & _ & Hi & Hh)]].
    + split; [by rewrite Hh|]. split; [lia|]. intros j e Hj Hne. rewrite Hh in Hj.
      rewrite Hn. by eapply Hlive.
    + split; [by rewrite Hh, length_insert|]. split; [lia|]. intros j e Hj Hne.
      rewrite Hh in Hj. destruct (decide (j = i)) as [->|Hji]; [lia|].
      rewrite list_lookup_insert_ne in Hj by done. rewrite Hn. by eapply Hlive.
Qed.

Lemma vfs_mark_mono o t t' :
  run_op vfs_ipc_add_heap vfs_ipc_remove_heap o t = Ok (tt, t') ->
  tab_heap_nr_real t <= tab_heap_nr_real t'.
Proof.
  destruct o; simpl; intros H.
  - apply vfs_add_effect in H as (? & ? & _ & _ & _ & _ & ->). lia.
  - apply vfs_remove_effect in H as [-> _]. lia.
Qed.

Lemma vfs_mark_mono_star ops t t' :
  run_ops vfs_ipc_add_heap vfs_ipc_remove_heap ops t = Ok (tt, t') ->
  tab_heap_nr_real t <= tab_heap_nr_real t'.
Proof.
  revert t. induction ops as [|o ops IH]; simpl; intros t H; [inv_ok; lia|].
  apply bind_ok in H as ([] & t1 & H1 & H2).
  apply vfs_mark_mono in H1. apply IH in H2. lia.
Qed.

Definition vfs_top (t : ipc_tables) : option ipc_struct :=
  tab_heap t !! Z.to_nat (tab_heap_nr_real t).

Lemma vfs_top_step o t t' e :
  0 <= tab_heap_nr_real t -> vfs_top t = Some e -> ipc_size e <> 0 ->
  run_op vfs_ipc_add_heap vfs_ipc_remove_heap o t = Ok (tt, t') ->
  tab_heap_nr_real t' = tab_heap_nr_real t -> vfs_top t' = Some e.
Proof.
  unfold vfs_top. intros Hpos He Hne Hrun Hn. rewrite Hn. destruct o; simpl in Hrun.
  - apply vfs_add_effect in Hrun as (i & old & Ho & H0 & _ & -> & _).
    rewrite list_lookup_insert_ne; [done|]. intros ->. congruence.
  - apply vfs_remove_effect in Hrun as [_ [[-> _]|(i & e0 & _ & _ & Hi & ->)]]; [done|].
    rewrite list_lookup_insert_ne; [done|]. lia.
Qed.

(** The topmost VFSCORE window is never closed: if the slot at
    [VFSCORE_ipc_tab_heap_nr_real] holds a window, then after every sequence of
    opens and closes that does not move the mark (in particular after any
    number of [vfs_ipc_remove_heap] calls for it) the window is still open,
    because the removal loop runs over [i < nr_real] although the mark is the
    index of the last used slot. *)
Theorem vfs_top_window_never_closed ops t t' e :
  vfs_inv t -> vfs_top t = Some e -> ipc_size e <> 0 ->
  run_ops vfs_ipc_add_heap vfs_ipc_remove_heap ops t = Ok (tt, t') ->
  tab_heap_nr_real t' = tab_heap_nr_real t ->
  vfs_top t' = Some e.
Proof.
  revert t. induction ops as [|o ops IH]; simpl; intros t Hi He Hne Hrun Hn; [by inv_ok|].
  apply bind_ok in Hrun as ([] & t1 & H1 & H2).
  pose proof (vfs_mark_mono _ _ _ H1). pose proof (vfs_mark_mono_star _ _ _ H2).
  apply (IH t1); [by eapply vfs_inv_step| |done|done|lia].
  apply (vfs_top_step o t t1 e); [destruct Hi as (_ & ? & _); lia|done|done|done|lia].
Qed.

Definition vfs_one_window : ipc_tables :=
  set_tab_heap (<[0%nat := Ipc 4096 200 6]> (replicate VFS_HEAP_MAX ipc_zero))
    (vfs_tables_init 40 96 4096).

Lemma vfs_top_window_never_closed_witness :
  run_op vfs_ipc_add_heap vfs_ipc_remove_heap (OpAdd 4096 200 6) (vfs_tables_init 40 96 4096)
    = Ok (tt, vfs_one_window) /\
  exists t', run_ops vfs_ipc_add_heap vfs_ipc_remove_heap [OpRemove 4096; OpRemove 4096] vfs_one_window
    = Ok (tt, t') /\ vfs_top t' = Some (Ipc 4096 200 6).
Proof.
  split; [vm_compute; reflexivity|]. eexists. split; [vm_compute; reflexivity|].
  apply (vfs_top_window_never_closed [OpRemove 4096; OpRemove 4096] vfs_one_window).
  - split; [vm_compute; reflexivity|]. split; [vm_compute; split; congruence|].
    intros i e Hi Hne. destruct i as [|i]; [vm_compute; congruence|].
    exfalso. apply Hne. change (tab_heap vfs_one_window) with (Ipc 4096 200 6 :: replicate 100 ipc_zero) in Hi.
    simpl in Hi. change (replicate 100 ipc_zero !! i = Some e) in Hi.
    apply lookup_replicate in Hi as [-> _]. reflexivity.
  - vm_compute; reflexivity.
  - vm_compute; congruence.
  - vm_compute; reflexivity.
  - vm_compute; reflexivity.
Defined.

(** Below the mark VFSCORE closes windows correctly: when a slot strictly
    below the mark starts at [b], [vfs_ipc_remove_heap b] returns with the
    first such slot cleared and every other slot, the other tables and the
    mark unchanged. *)
Theorem vfs_remove_below_mark b t k e :
  vfs_inv t -> tab_heap t !! k = Some e -> ipc_begin e = b ->
  Z.of_nat k < tab_heap_nr_real t ->
  exists i, (i <= k)%nat /\
    (exists e', tab_heap t !! i = Some e' /\ ipc_begin e' = b) /\
    (forall j e', (j < i)%nat -> tab_heap t !! j = Some e' -> ipc_begin e' <> b) /\
    vfs_ipc_remove_heap b t = Ok (tt, set_tab_heap (<[i := ipc_zero]> (tab_heap t)) t).
Proof.
  intros (Hl & Hnr & _) Hk Hb Hlt.
  destruct (scan_hit (slot_begins b) (Z.to_nat (tab_heap_nr_real t)) 0 (tab_heap t) k e)
    as [i Hi]; [lia|lia|done|by unfold slot_begins; apply Z.eqb_eq|].
  pose proof (scan_some _ _ _ _ _ Hi) as (Hr & (e' & He' & Hf) & Hmin).
  unfold slot_begins in Hf, Hmin. apply Z.eqb_eq in Hf.
  assert (Hmin' : forall j e', (j < i)%nat -> tab_heap t !! j = Some e' -> ipc_begin e' <> b).
  { intros j e1 Hj He1. apply Z.eqb_neq. by apply (Hmin j e1); [lia|]. }
  exists i. repeat split; [|by eauto|done|].
  - destruct (decide (i <= k)%nat); [done|]. exfalso.
    by apply (Hmin' k e); [lia| |].
  - unfold vfs_ipc_remove_heap. cbv [mbind M_bind gets lift modify]. by rewrite Hi.
Qed.

Definition vfs_two_windows : ipc_tables :=
  Tables [] [] (Ipc 4096 200 6 :: Ipc 8192 64 4 :: replicate 99 ipc_zero) 1.

Lemma vfs_remove_below_mark_witness :
  exists i, (i <= 0)%nat /\
    (exists e', tab_heap vfs_two_windows !! i = Some e' /\ ipc_begin e' = 4096) /\
    (forall j e', (j < i)%nat -> tab_heap vfs_two_windows !! j = Some e' -> ipc_begin e' <> 4096) /\
    vfs_ipc_remove_heap 4096 vfs_two_windows =
      Ok (tt, set_tab_heap (<[i := ipc_zero]> (tab_heap vfs_two_windows)) vfs_two_windows).
Proof.
  apply (vfs_remove_below_mark 4096 vfs_two_windows 0 (Ipc 4096 200 6)).
  - split; [reflexivity|]. split; [vm_compute; split; congruence|]. intros i e Hi Hne.
    destruct i as [|[|i]]; [vm_compute; congruence|vm_compute; congruence|]. exfalso. apply Hne.
    change (replicate 99 ipc_zero !! i = Some e) in Hi.
    apply lookup_replicate in Hi as [-> _]. reflexivity.
  - reflexivity.
  - reflexivity.
  - simpl. lia.
Defined.

(** ** LWIP *)

Lemma elem_of_take_drop (tab : list ipc_struct) i e :
  e ∈ take i tab ++ drop (S i) tab -> exists k, k <> i /\ tab !! k = Some e.
Proof.
  intros [[k Hk]%list_elem_of_lookup|[k Hk]%list_elem_of_lookup]%elem_of_app.
  - apply lookup_take_Some in Hk as [? ?]. exists k. split; [lia|done].
  - rewrite lookup_drop in Hk. exists (S i + k)%nat. split; [lia|done].
Qed.

Lemma elem_of_take_drop_2 (tab : list ipc_struct) i k e :
  k <> i -> tab !! k = Some e -> e ∈ take i tab ++ drop (S i) tab.
Proof.
  intros Hki Hk. apply elem_of_app. destruct (decide (k < i)%nat).
  - left. apply list_elem_of_lookup. exists k. apply lookup_take_Some. done.
  - right. apply list_elem_of_lookup. exists (k - S i)%nat.
    rewrite lookup_drop. by replace (S i + (k - S i))%nat with k by lia.
Qed.

(** [lwip_ipc_add_heap] keeps at most one window per start address as long
    as the slot that already holds the address is found before a free one: if
    the starts of the live windows are pairwise distinct, slots are clean, and
    either [b] is not open or no free slot precedes the slot that holds it,
    then after a successful call the starts are still pairwise distinct, [b] is
    open with the new size and mask, and every other window is unchanged. *)
Theorem lwip_add_replaces b s m t t' :
  heap_wf HEAP_MAX t -> s <> 0 ->
  NoDup (ipc_begin <$> live (tab_heap t)) ->
  (forall i e, tab_heap t !! i = Some e -> ipc_size e <> 0 -> ipc_begin e = b ->
     forall j e', (j < i)%nat -> tab_heap t !! j = Some e' -> ipc_size e' <> 0) ->
  lwip_ipc_add_heap b s m t = Ok (tt, t') ->
  NoDup (ipc_begin <$> live (tab_heap t')) /\
  forall e, e ∈ live (tab_heap t') <->
    e = Ipc b s (ulong_of_int m) \/ (e ∈ live (tab_heap t) /\ ipc_begin e <> b).
Proof.
  intros [Hlen Hc] Hs Hnd Hfirst Hrun. unfold lwip_ipc_add_heap in Hrun.
  cbv [mbind M_bind gets lift modify] in Hrun.
  destruct (scan _ _ 0 (tab_heap t)) as [[i|]| | |] eqn:Hi; try done.
  injection Hrun as <-. simpl.
  pose proof (scan_some _ _ _ _ _ Hi) as (Hr & (old & Ho & Hu) & Hmin).
  set (new := Ipc b s (ulong_of_int m)).
  pose proof (live_update _ i old new Ho) as Hnew. rewrite (live_one new) in Hnew by done.
  pose proof (live_middle _ i old Ho) as Hold.
  set (rest := live (take i (tab_heap t) ++ drop (S i) (tab_heap t))) in *.
  assert (Hrest : forall e, e ∈ rest -> ipc_begin e <> b).
  { intros e He Hb. apply elem_of_live in He as [He Hne].
    apply elem_of_take_drop in He as (k & Hki & Hk).
    destruct (decide (ipc_size old = 0)) as [H0|H0].
    - destruct (decide (k < i)%nat) as [Hlt|Hge].
      + specialize (Hmin k e ltac:(lia) Hk). unfold lwip_slot_usable in Hmin.
        rewrite Hb, Z.eqb_refl, andb_false_r in Hmin. done.
      + by apply (Hfirst k e Hk Hne Hb i old); [lia|done|].
    - assert (ipc_begin old = b) as Hob.
      { unfold lwip_slot_usable in Hu. apply negb_true_iff, andb_false_iff in Hu as [Hu|Hu];
          apply negb_false_iff, Z.eqb_eq in Hu; done. }
      rewrite (live_one old H0) in Hold. rewrite Hold in Hnd. simpl in Hnd.
      apply NoDup_cons in Hnd as [Hnd _]. apply Hnd. rewrite Hob, <- Hb.
      apply list_elem_of_fmap_2. apply elem_of_live. split; [|done].
      by apply (elem_of_take_drop_2 _ i k). }
  split.
  - rewrite Hnew. simpl. apply NoDup_cons. split.
    + intros (e & Hb & He)%list_elem_of_fmap. by apply (Hrest e).
    + rewrite Hold, fmap_app in Hnd. by apply NoDup_app in Hnd as (_ & _ & ?).
  - intros e. rewrite Hnew, elem_of_app, list_elem_of_singleton, Hold, elem_of_app.
    split; [intros [->|He]; [by left|right; split; [by right|by apply Hrest]]|].
    intros [->|[[He|He] Hb]]; [by left| |by right].
    exfalso. apply Hb. apply elem_of_live in He as [He Hne].
    apply list_elem_of_singleton in He as ->.
    unfold lwip_slot_usable in Hu. apply negb_true_iff, andb_false_iff in Hu as [Hu|Hu];
      apply negb_false_iff, Z.eqb_eq in Hu; done.
Qed.

Definition lwip_one_window : ipc_tables :=
  Tables [] [] (Ipc 4096 200 6 :: replicate 99 ipc_zero) 0.

Lemma lwip_add_replaces_witness :
  exists t', lwip_ipc_add_heap 4096 300 4 lwip_one_window = Ok (tt, t') /\
    NoDup (ipc_begin <$> live (tab_heap t')) /\
    forall e, e ∈ live (tab_heap t') <->
      e = Ipc 4096 300 4 \/ (e ∈ live (tab_heap lwip_one_window) /\ ipc_begin e <> 4096).
Proof.
  eexists. split; [vm_compute; reflexivity|].
  apply (lwip_add_replaces 4096 300 4 lwip_one_window).
  - split; [reflexivity|]. apply Forall_cons. split; [simpl; lia|].
    apply Forall_replicate. done.
  - lia.
  - vm_compute. apply NoDup_singleton.
  - intros i e Hi Hne _ j e' Hj _. destruct i as [|i]; [lia|].
    exfalso. apply Hne. change (replicate 99 ipc_zero !! i = Some e) in Hi.
    apply lookup_replicate in Hi as [-> _]. reflexivity.
  - vm_compute; reflexivity.
Defined.

(** When a free slot does precede it, [lwip_ipc_add_heap] opens the same
    buffer a second time, and one [lwip_ipc_remove_heap] then leaves a window
    on it open: open A, open B, close A, open B again, close B. *)
Theorem lwip_readd_leaves_window_open :
  exists t' : ipc_tables, run_ops lwip_ipc_add_heap lwip_ipc_remove_heap
      [OpAdd 4096 64 6; OpAdd 8192 64 6; OpRemove 4096; OpAdd 8192 64 6; OpRemove 8192]
      (lwip_tables_init 48) = Ok (tt, t') /\
    live (tab_heap t') = [Ipc 8192 64 6].
Proof. eexists. split; vm_compute; reflexivity. Qed.
