(* ===== verification/Monitor.v ===== *)
(** The monitor of CubicleOS (kernel/loader.c): its tables of modules, stacks
    and pages, the protection-key operations and the address look-ups.

    The C globals are the fields of [monitor].  The hardware and the kernel are
    part of the state: [pkru] holds the access rights of the sixteen protection
    keys and [page_key] the key each page is tagged with; [ipc_mem] and
    [int_mem] are the words of the cubicles' memory that the monitor reads. *)
From S2P Require Import Prelude Windows.
From stdpp Require Import base numbers strings gmap list.
#[local] Open Scope Z_scope.

(** ** Module identifiers (the enumeration generated by kernel/fig.py) *)

Definition modnames : list string :=
  ["app.so"; "libuksched.so"; "libramfs.so"; "libposix_sysinfo.so"; "libukswrand.so";
   "libuktimeconv.so"; "libukalloc.so"; "libuklibparam.so"; "libposix_libdl.so";
   "libukbus.so"; "libukschedcoop.so"; "libuknetdev.so"; "libd9pfs.so"; "libfdt.so";
   "libukmpi.so"; "libukargparse.so"; "libuktime.so"; "liblwip.so"; "libuksglist.so";
   "liblinuxuplat.so"; "libuklock.so"; "libvfscore.so"; "libukallocbbuddy.so";
   "libukblkdev.so"; "libdevfs.so"; "libukboot.so"]%string.

Definition E_APP : Z := 0.
Definition E_RAMFS : Z := 2.
Definition E_UKALLOC : Z := 6.
Definition E_UKNETDEV : Z := 11.
Definition E_LWIP : Z := 17.
Definition E_LINUXUPLAT : Z := 19.
Definition E_VFSCORE : Z := 21.
Definition E_UKBOOT : Z := 25.
Definition E_END : Z := 26.

(** ** State *)

Record proc_map_s := Pmap {
  pm_name : string;
  pm_start : Z;
  pm_size : Z;
  pm_pkey : Z;
  pm_must : bool;
  pm_stack_tab : Z;     (* ipc_tab_stack_ptr, 0 is NULL *)
  pm_globals_tab : Z;
  pm_heap_tab : Z;
  pm_stack_nr : Z;
  pm_globals_nr : Z;
  pm_heap_nr : Z
}.

Definition pmap_zero : proc_map_s := Pmap "" 0 0 0 false 0 0 0 0 0 0.

Record stack_map_s := Smap {
  sm_name : string;
  sm_start : Z;
  sm_size : Z;
  sm_mid : Z
}.

(** A [char] array: its length, the byte [memset] filled it with and the
    entries written since. *)
Record cblock := Cblock { cb_len : Z; cb_fill : Z; cb_data : gmap Z Z }.

Definition cb_get (b : cblock) (i : Z) : outcome Z :=
  if (0 <=? i) && (i <? cb_len b) then Ok (default (cb_fill b) (cb_data b !! i)) else Undef.
Definition cb_set (b : cblock) (i v : Z) : outcome cblock :=
  if (0 <=? i) && (i <? cb_len b)
  then Ok (Cblock (cb_len b) (cb_fill b) (<[i := schar v]> (cb_data b))) else Undef.

Record monitor := Monitor {
  pmap : list proc_map_s;
  pmap_max : Z;
  stacks : list stack_map_s;       (* stacks[0 .. stacks_max-1] *)
  heap_cfg : cblock;
  heap_start : Z;
  heap_end : Z;
  mmap_cfg : cblock;
  mmap_start : Z;
  mmap_end : Z;
  pkru : gmap Z Z;                 (* key -> access rights *)
  page_key : gmap Z Z;             (* page -> key *)
  free_pkeys : list Z;             (* what pkey_alloc hands out *)
  ipc_mem : gmap Z ipc_struct;     (* window tables in cubicle memory *)
  int_mem : gmap Z Z               (* ints in cubicle memory *)
}.

Definition PMAP_LEN : nat := 100.
Definition SMAX : Z := 500.

Definition set_pmap v s := Monitor v (pmap_max s) (stacks s) (heap_cfg s) (heap_start s) (heap_end s)
  (mmap_cfg s) (mmap_start s) (mmap_end s) (pkru s) (page_key s) (free_pkeys s) (ipc_mem s) (int_mem s).
Definition set_pmap_max v s := Monitor (pmap s) v (stacks s) (heap_cfg s) (heap_start s) (heap_end s)
  (mmap_cfg s) (mmap_start s) (mmap_end s) (pkru s) (page_key s) (free_pkeys s) (ipc_mem s) (int_mem s).
Definition set_stacks v s := Monitor (pmap s) (pmap_max s) v (heap_cfg s) (heap_start s) (heap_end s)
  (mmap_cfg s) (mmap_start s) (mmap_end s) (pkru s) (page_key s) (free_pkeys s) (ipc_mem s) (int_mem s).
Definition set_heap c lo hi s := Monitor (pmap s) (pmap_max s) (stacks s) c lo hi
  (mmap_cfg s) (mmap_start s) (mmap_end s) (pkru s) (page_key s) (free_pkeys s) (ipc_mem s) (int_mem s).
Definition set_mmap c lo hi s := Monitor (pmap s) (pmap_max s) (stacks s) (heap_cfg s) (heap_start s) (heap_end s)
  c lo hi (pkru s) (page_key s) (free_pkeys s) (ipc_mem s) (int_mem s).
Definition set_pkru v s := Monitor (pmap s) (pmap_max s) (stacks s) (heap_cfg s) (heap_start s) (heap_end s)
  (mmap_cfg s) (mmap_start s) (mmap_end s) v (page_key s) (free_pkeys s) (ipc_mem s) (int_mem s).
Definition set_page_key v s := Monitor (pmap s) (pmap_max s) (stacks s) (heap_cfg s) (heap_start s) (heap_end s)
  (mmap_cfg s) (mmap_start s) (mmap_end s) (pkru s) v (free_pkeys s) (ipc_mem s) (int_mem s).
Definition set_free_pkeys v s := Monitor (pmap s) (pmap_max s) (stacks s) (heap_cfg s) (heap_start s) (heap_end s)
  (mmap_cfg s) (mmap_start s) (mmap_end s) (pkru s) (page_key s) v (ipc_mem s) (int_mem s).

Definition set_ipc_mem v s := Monitor (pmap s) (pmap_max s) (stacks s) (heap_cfg s) (heap_start s) (heap_end s)
  (mmap_cfg s) (mmap_start s) (mmap_end s) (pkru s) (page_key s) (free_pkeys s) v (int_mem s).

(** [pmap[mid]] as an lvalue: the array has 100 entries. *)
Definition pmap_at (mid : Z) (s : monitor) : option proc_map_s :=
  if 0 <=? mid then pmap s !! Z.to_nat mid else None.

Definition get_pmap (mid : Z) : M monitor proc_map_s := deref (pmap_at mid).

Definition put_pmap (mid : Z) (p : proc_map_s) : M monitor unit :=
  _ ← get_pmap mid;
  modify (fun s => set_pmap (<[Z.to_nat mid := p]> (pmap s)) s).

(** ** Protection keys (pkeys(7)) *)

Definition PKEY_DISABLE_ACCESS : Z := 1.

(** glibc's [pkey_set]: -1 for a key outside 0..15 or rights above 3. *)
Definition pkey_set (key rights : Z) : M monitor Z :=
  if (0 <=? key) && (key <=? 15) && (0 <=? rights) && (rights <=? 3) then
    modify (fun s => set_pkru (<[key := rights]> (pkru s)) s);; mret 0
  else mret (-1).

(** Tag [n] pages from page [p] on with [key]. *)
Fixpoint tag_pages (p : Z) (n : nat) (key : Z) (m : gmap Z Z) : gmap Z Z :=
  match n with
  | O => m
  | S n' => <[p := key]> (tag_pages (p + 1) n' key m)
  end.

Definition page_count (size : Z) : nat := Z.to_nat ((size + PAGE_SIZE - 1) / PAGE_SIZE).

Section Kernel.

(** The kernel's decision on a page-aligned [pkey_mprotect] call (the range is
    mapped and the key is allocated). *)
Context (mprotect_ok : Z -> Z -> Z -> bool).

Definition pkey_mprotect (start size key : Z) : M monitor Z :=
  if (start mod PAGE_SIZE =? 0) && mprotect_ok start size key then
    modify (fun s => set_page_key
      (tag_pages (page_of start) (page_count size) key (page_key s)) s);;
    mret 0
  else mret (-1).

(** ** Protection operations *)

Definition prot_init (mid : Z) : M monitor unit :=
  p ← get_pmap mid;
  status ← pkey_mprotect (pm_start p) (pm_size p) (pm_pkey p);
  if status =? -1 then spin else mret tt.

Definition cmp_lock (mid : Z) : M monitor unit :=
  p ← get_pmap mid;
  if pm_pkey p =? 0 then spin else
  status ← pkey_set (pm_pkey p) PKEY_DISABLE_ACCESS;
  if negb (status =? 0) then spin else mret tt.

Definition cmp_unlock (mid : Z) : M monitor unit :=
  p ← get_pmap mid;
  status ← pkey_set (pm_pkey p) 0;
  if negb (status =? 0) then spin else mret tt.

Definition cmp_attach (mid start size : Z) : M monitor unit :=
  if size =? 0 then mret tt else
  p ← get_pmap mid;
  status ← pkey_mprotect start size (pm_pkey p);
  if status =? -1 then spin else mret tt.

Definition add_ipc_tab_stack (mid ipc_tab nr : Z) : M monitor unit :=
  nrecords ← deref (fun s => int_mem s !! nr);
  p ← get_pmap mid;
  put_pmap mid (Pmap (pm_name p) (pm_start p) (pm_size p) (pm_pkey p) (pm_must p)
    ipc_tab (pm_globals_tab p) (pm_heap_tab p) nrecords (pm_globals_nr p) (pm_heap_nr p)).

Definition add_ipc_tab_globals (mid ipc_tab nr : Z) : M monitor unit :=
  nrecords ← deref (fun s => int_mem s !! nr);
  p ← get_pmap mid;
  put_pmap mid (Pmap (pm_name p) (pm_start p) (pm_size p) (pm_pkey p) (pm_must p)
    (pm_stack_tab p) ipc_tab (pm_heap_tab p) (pm_stack_nr p) nrecords (pm_heap_nr p)).

Definition add_ipc_tab_heap (mid ipc_tab nr : Z) : M monitor unit :=
  nrecords ← deref (fun s => int_mem s !! nr);
  p ← get_pmap mid;
  put_pmap mid (Pmap (pm_name p) (pm_start p) (pm_size p) (pm_pkey p) (pm_must p)
    (pm_stack_tab p) (pm_globals_tab p) ipc_tab (pm_stack_nr p) (pm_globals_nr p) nrecords).

Definition stack_attach (mid start size : Z) : M monitor unit :=
  if size =? 0 then mret tt else
  st ← gets stacks;
  if Z.of_nat (length st) =? SMAX then spin else
  p ← get_pmap mid;
  (* stacks[stacks_max] is filled in before, stacks_max++ comes after the attach *)
  cmp_attach mid start size;;
  modify (set_stacks (st ++ [Smap (pm_name p) start size mid])).

(** The loop [for (i = 0; i < n; i++) heap_cfg[idx+i] = mid]. *)
Fixpoint fill_heap_cfg (b : cblock) (idx : Z) (n : nat) (mid : Z) : outcome cblock :=
  match n with
  | O => Ok b
  | S n' => b' ← cb_set b idx mid; fill_heap_cfg b' (idx + 1) n' mid
  end.

Definition heap_attach (mid start size : Z) : M monitor unit :=
  if size =? 0 then mret tt else
  lo ← gets heap_start;
  hi ← gets heap_end;
  if negb ((lo <=? start) && (start <? hi)) then spin else
  let idx := s32 (Z.shiftr (start - lo) 12) in
  cfg ← gets heap_cfg;
  cfg' ← lift (fill_heap_cfg cfg idx (Z.to_nat (size / 4096)) mid);
  modify (set_heap cfg' lo hi);;
  cmp_attach mid start size.

(** [setup_heap]: [base] and [len] come from the region descriptor. *)
Definition setup_heap (base len : Z) : M monitor unit :=
  modify (set_heap (Cblock len (schar E_UKALLOC) ∅) base (s64 (base + len))).

(** ** Address look-ups *)

Fixpoint mem_to_lib_from (l : list proc_map_s) (addr : Z) : option string :=
  match l with
  | [] => None
  | p :: l' =>
      if (pm_start p <=? addr) && (addr <? u64 (pm_start p + pm_size p))
      then Some (pm_name p) else mem_to_lib_from l' addr
  end.

Definition mem_to_lib (address : Z) (s : monitor) : option string :=
  mem_to_lib_from (pmap s) (u64 address).

(** [get_module_id]: the loop over [pmap[0 .. pmap_max-1]]. *)
Fixpoint module_id_from (l : list proc_map_s) (n : nat) (i : Z) (name : string) : outcome Z :=
  match n with
  | O => Ok (-1)
  | S n' =>
      match l with
      | [] => Undef
      | p :: l' => if String.eqb (pm_name p) name then Ok i
                   else module_id_from l' n' (i + 1) name
      end
  end.

Definition get_module_id (name : option string) (s : monitor) : outcome Z :=
  match name with
  | None => Ok (-1)
  | Some nm => module_id_from (pmap s) (Z.to_nat (pmap_max s)) 0 nm
  end.

Definition in_mmap (address : Z) (s : monitor) : bool :=
  (mmap_start s <=? address) && (address <? mmap_end s).

Definition mmap_entry (address : Z) (s : monitor) : outcome Z :=
  cb_get (mmap_cfg s) (Z.shiftr (address - mmap_start s) 12).

Definition mem_to_lib_id (address : Z) (s : monitor) : outcome Z :=
  if negb (in_mmap address s) then Ok (-1) else
  mid ← mmap_entry address s;
  if negb (Z.land mid 128 =? 0) then Ok (-1) else Ok mid.

Definition stack_to_lib (address : Z) (s : monitor) : outcome (option string) :=
  if negb (in_mmap address s) then Ok None else
  mid ← mmap_entry address s;
  if mid =? -1 then Ok None else
  if negb (Z.land mid 128 =? 0) then
    match pmap_at (Z.land mid 127) s with
    | Some p => Ok (Some (pm_name p))
    | None => Undef
    end
  else Ok None.

Definition stack_to_lib_id (address : Z) (s : monitor) : outcome Z :=
  if negb (in_mmap address s) then Ok (-1) else
  mid ← mmap_entry address s;
  if negb (Z.land mid 128 =? 0) then Ok (Z.land mid 127) else Ok (-1).

Fixpoint stack_old_from (l : list stack_map_s) (addr : Z) : Z :=
  match l with
  | [] => -1
  | m :: l' =>
      if (sm_start m <=? addr) && (addr <? u64 (sm_start m + sm_size m))
      then sm_mid m else stack_old_from l' addr
  end.

Definition stack_to_lib_id_old (address : Z) (s : monitor) : Z :=
  stack_old_from (stacks s) (u64 address).

Definition in_heap (address : Z) (s : monitor) : bool :=
  (heap_start s <=? address) && (address <? heap_end s).

Definition heap_to_lib_id (address : Z) (s : monitor) : outcome Z :=
  if negb (in_heap address s) then Ok (-1)
  else cb_get (heap_cfg s) (Z.shiftr (address - heap_start s) 12).

Definition heap_to_lib (address : Z) (s : monitor) : outcome (option string) :=
  if negb (in_heap address s) then Ok None else
  mid ← cb_get (heap_cfg s) (Z.shiftr (address - heap_start s) 12);
  match pmap_at mid s with
  | Some p => Ok (Some (pm_name p))
  | None => Undef
  end.

End Kernel.
