(* ===== verification/Faults.v ===== *)
(** The page-fault handler of the monitor (kernel/loader.c, [should_map],
    [should_map_stack], [should_map_heap], [get_state], [sig_handler]).

    A cubicle that touches a page tagged with another cubicle's key faults; the
    handler finds out who accesses whose memory and retags the page with the
    key of the accessing cubicle if the owner has opened a window for it. *)
From S2P Require Import Prelude Windows Monitor.
From stdpp Require Import base numbers strings gmap list.
#[local] Open Scope Z_scope.

(** ** Window checks *)

(** [1 << caller], an [int] shift: undefined from bit 31 on. *)
Definition caller_bit (caller : Z) : outcome Z :=
  if (0 <=? caller) && (caller <? 31) then Ok (Z.shiftl 1 caller) else Undef.

Definition SIZEOF_IPC : Z := 24.

Definition in_window (addr : Z) (e : ipc_struct) : bool :=
  (ipc_begin e <=? addr) && (addr <? u64 (ipc_begin e + ipc_size e)).

(** The stack and heap checks also accept an address outside the object but
    less than a page above its start. *)
Definition in_window_page (addr : Z) (e : ipc_struct) : bool :=
  in_window addr e ||
  ((ipc_begin e <=? addr) && (addr <? u64 (ipc_begin e + 4096))).

(** The loop over the entries [i .. i+n-1] of the table at [base]. *)
Fixpoint scan_windows (hit : ipc_struct -> bool) (base : Z) (n : nat) (i caller : Z)
  : M monitor bool :=
  match n with
  | O => mret false
  | S n' =>
      e ← deref (fun s => ipc_mem s !! u64 (base + i * SIZEOF_IPC));
      b ← lift (caller_bit caller);
      if Z.land (ipc_mask e) b =? 0 then scan_windows hit base n' (i + 1) caller
      else if hit e then mret true
      else scan_windows hit base n' (i + 1) caller
  end.

(** The common tail of the three checks: the owner is unlocked while its table
    is searched, and locked again when an entry is found. *)
Definition check_windows (hit : ipc_struct -> bool) (caller callee tab nr : Z) : M monitor bool :=
  cmp_unlock callee;;
  found ← scan_windows hit tab (Z.to_nat nr) 0 caller;
  if found : bool then cmp_lock callee;; mret true else mret false.

Definition should_map (caller callee addr : Z) : M monitor bool :=
  if (caller =? E_VFSCORE) || (callee =? E_LWIP) then mret true else
  pc ← get_pmap caller;
  if negb (pm_must pc) then spin else
  pe ← get_pmap callee;
  if pm_globals_tab pe =? 0 then spin else
  check_windows (in_window addr) caller callee (pm_globals_tab pe) (pm_globals_nr pe).

Definition should_map_stack (caller callee addr : Z) : M monitor bool :=
  if caller =? callee then mret true else
  pc ← get_pmap caller;
  if negb (pm_must pc) then spin else
  pe ← get_pmap callee;
  if pm_stack_tab pe =? 0 then spin else
  check_windows (in_window_page addr) caller callee (pm_stack_tab pe) (pm_stack_nr pe).

Definition should_map_heap (caller callee addr : Z) : M monitor bool :=
  if callee =? caller then mret true else
  pe ← get_pmap callee;
  pc ← get_pmap caller;
  if pm_pkey pe =? pm_pkey pc then mret true else
  if (callee =? E_APP) && (caller =? E_LINUXUPLAT) then mret true else
  if negb (pm_must pc) then spin else
  if pm_heap_tab pe =? 0 then spin else
  check_windows (in_window_page addr) caller callee (pm_heap_tab pe) (pm_heap_nr pe).

(** ** Who accesses what *)

Inductive fault_state : Type :=
| RET_STACK_TO_WRAP
| ACCESS_TO_GLOBAL
| ACCESS_TO_STACK
| ACCESS_TO_HEAP.

#[global] Instance fault_state_eq_dec : EqDecision fault_state.
Proof. solve_decision. Defined.

(** The accessing cubicle: the module of the code, or the owner of the stack
    when the code belongs to a shared module. *)
Definition accessor (rip_lib rsp : Z) (s : monitor) : outcome Z :=
  match pmap_at rip_lib s with
  | None => Undef
  | Some p => if pm_must p then Ok rip_lib else stack_to_lib_id rsp s
  end.

Definition get_state (rip rsp addr : Z) (s : monitor) : outcome (fault_state * Z * Z) :=
  rip_lib ← mem_to_lib_id rip s;
  if rip_lib =? -1 then
    caller ← stack_to_lib_id rsp s;
    callee ← stack_to_lib_id addr s;
    Ok (RET_STACK_TO_WRAP, caller, callee)
  else
  si_lib ← mem_to_lib_id addr s;
  if negb (si_lib =? -1) then
    caller ← accessor rip_lib rsp s;
    Ok (ACCESS_TO_GLOBAL, caller, si_lib)
  else
  si_stack ← stack_to_lib_id addr s;
  if negb (si_stack =? -1) then
    caller ← accessor rip_lib rsp s;
    Ok (ACCESS_TO_STACK, caller, si_stack)
  else
  si_heap ← heap_to_lib_id addr s;
  if negb (si_heap =? -1) then
    caller ← accessor rip_lib rsp s;
    Ok (ACCESS_TO_HEAP, caller, si_heap)
  else Spin.

Definition get_stateM (rip rsp addr : Z) : M monitor (fault_state * Z * Z) :=
  fun s => match get_state rip rsp addr s with
           | Ok r => Ok (r, s)
           | Spin => Spin
           | Abort => Abort
           | Undef => Undef
           end.

Section Handler.
Context (mprotect_ok : Z -> Z -> Z -> bool).

(** The start of the page of [addr]. *)
Definition page_base (addr : Z) : Z := Z.shiftl (Z.shiftr (u64 addr) 12) 12.

Definition sig_handler (rip rsp si_addr : Z) : M monitor unit :=
  r ← get_stateM rip rsp (s64 si_addr);
  let '(st, caller, callee) := r in
  match st with
  | RET_STACK_TO_WRAP =>
      if caller =? callee
      then cmp_attach mprotect_ok caller (page_base si_addr) 4096
      else spin
  | ACCESS_TO_GLOBAL =>
      ok ← should_map caller callee si_addr;
      if ok : bool then cmp_attach mprotect_ok caller (page_base si_addr) 4096 else spin
  | ACCESS_TO_STACK =>
      ok ← should_map_stack caller callee si_addr;
      if ok : bool then cmp_attach mprotect_ok caller (page_base si_addr) 4096 else spin
  | ACCESS_TO_HEAP =>
      ok ← should_map_heap caller callee si_addr;
      if ok : bool then cmp_attach mprotect_ok caller (page_base si_addr) 4096 else spin
  end.

End Handler.

(** ** Effects of the key operations *)

Lemma pkey_set_ok key r s v s' :
  0 <= r <= 3 -> pkey_set key r s = Ok (v, s') ->
  (v = 0 /\ 0 <= key <= 15 /\ s' = set_pkru (<[key := r]> (pkru s)) s) \/
  (v = -1 /\ ~ 0 <= key <= 15 /\ s' = s).
Proof.
  unfold pkey_set. intros Hr H.
  destruct ((0 <=? key) && (key <=? 15) && (0 <=? r) && (r <=? 3)) eqn:E; inv_ok.
  - left. split; [done|]. split; [lia|done].
  - right. split; [done|]. split; [lia|done].
Qed.

Lemma pkey_set_run key r s :
  0 <= key <= 15 -> 0 <= r <= 3 ->
  pkey_set key r s = Ok (0, set_pkru (<[key := r]> (pkru s)) s).
Proof.
  intros. unfold pkey_set.
  by replace ((0 <=? key) && (key <=? 15) && (0 <=? r) && (r <=? 3)) with true by lia.
Qed.

Lemma cmp_unlock_ok mid s s' :
  cmp_unlock mid s = Ok (tt, s') <->
  exists p, pmap_at mid s = Some p /\ 0 <= pm_pkey p <= 15 /\
    s' = set_pkru (<[pm_pkey p := 0]> (pkru s)) s.
Proof.
  unfold cmp_unlock, get_pmap. split.
  - intros (p & s1 & [Hp ->]%deref_ok & H)%bind_ok. exists p. split; [done|].
    apply bind_ok in H as (v & s2 & [(-> & Hk & ->)|(-> & Hk & ->)]%pkey_set_ok & H); [|done|lia].
    simpl in H. inv_ok. auto.
  - intros (p & Hp & Hk & ->). rewrite (bind_ret _ _ _ p s) by (by apply deref_ok).
    by rewrite (bind_ret _ _ _ _ _ (pkey_set_run (pm_pkey p) 0 s Hk ltac:(lia))).
Qed.

Lemma cmp_lock_ok mid s s' :
  cmp_lock mid s = Ok (tt, s') <->
  exists p, pmap_at mid s = Some p /\ 1 <= pm_pkey p <= 15 /\
    s' = set_pkru (<[pm_pkey p := PKEY_DISABLE_ACCESS]> (pkru s)) s.
Proof.
  unfold cmp_lock, get_pmap, PKEY_DISABLE_ACCESS. split.
  - intros (p & s1 & [Hp ->]%deref_ok & H)%bind_ok. exists p. split; [done|].
    destruct (Z.eqb_spec (pm_pkey p) 0); [done|].
    apply bind_ok in H as (v & s2 & [(-> & Hk & ->)|(-> & Hk & ->)]%pkey_set_ok & H); [|done|lia].
    simpl in H. inv_ok. split; [lia|done].
  - intros (p & Hp & Hk & ->). rewrite (bind_ret _ _ _ p s) by (by apply deref_ok).
    destruct (Z.eqb_spec (pm_pkey p) 0); [lia|].
    by rewrite (bind_ret _ _ _ _ _ (pkey_set_run (pm_pkey p) 1 s ltac:(lia) ltac:(lia))).
Qed.

Lemma page_base_aligned a : page_base a mod PAGE_SIZE = 0.
Proof.
  unfold page_base, PAGE_SIZE. rewrite Z.shiftl_mul_pow2 by lia.
  change (2 ^ 12) with 4096. apply Z.mod_mul. lia.
Qed.

Lemma page_of_base a : page_of (page_base a) = page_of (u64 a).
Proof.
  unfold page_of, page_base, PAGE_SHIFT.
  rewrite Z.shiftr_shiftl_l by lia. by rewrite Z.shiftl_0_r.
Qed.

Lemma tag_one p k m : tag_pages p (page_count 4096) k m = <[p := k]> m.
Proof. reflexivity. Qed.

Lemma attach_page_ok mok mid a s s' :
  cmp_attach mok mid (page_base a) 4096 s = Ok (tt, s') <->
  exists p, pmap_at mid s = Some p /\ mok (page_base a) 4096 (pm_pkey p) = true /\
    s' = set_page_key (<[page_of (u64 a) := pm_pkey p]> (page_key s)) s.
Proof.
  unfold cmp_attach, pkey_mprotect. change (4096 =? 0) with false. cbv iota.
  rewrite page_base_aligned, page_of_base. rewrite Z.eqb_refl. cbv beta iota delta [andb].
  split.
  - intros (p & s1 & [Hp ->]%deref_ok & H)%bind_ok. exists p. split; [done|].
    destruct (mok _ _ _); [|by cbv [mbind M_bind mret M_ret] in H].
    cbv [mbind M_bind modify mret M_ret] in H. change (0 =? -1) with false in H. cbv iota in H.
    injection H as <-. split; reflexivity.
  - intros (p & Hp & Hm & ->). rewrite (bind_ret _ _ _ p s) by (by apply deref_ok).
    rewrite Hm. reflexivity.
Qed.

(** ** Window tables *)

Definition window_at (s : monitor) (base i : Z) : option ipc_struct :=
  ipc_mem s !! u64 (base + i * SIZEOF_IPC).

(** Some entry of the table at [base] is open for [caller] and satisfies [hit]. *)
Definition window_open (hit : ipc_struct -> bool) (s : monitor) (base nr caller : Z) : Prop :=
  exists i e, 0 <= i < nr /\ window_at s base i = Some e /\
    Z.testbit (ipc_mask e) caller = true /\ hit e = true.

Lemma land_bit m c : 0 <= c -> (Z.land m (Z.shiftl 1 c) =? 0) = negb (Z.testbit m c).
Proof.
  intros Hc. destruct (Z.testbit m c) eqn:E; simpl.
  - apply Z.eqb_neq. intros H.
    assert (Z.testbit (Z.land m (Z.shiftl 1 c)) c = false) by (by rewrite H, Z.bits_0).
    rewrite Z.land_spec, E, Z.shiftl_spec, Z.sub_diag in H0 by lia. done.
  - apply Z.eqb_eq. apply Z.bits_inj_iff'. intros n Hn. rewrite Z.bits_0, Z.land_spec.
    destruct (decide (n = c)) as [->|]; [by rewrite E|].
    rewrite Z.shiftl_1_l, Z.pow2_bits_false by lia. apply andb_false_r.
Qed.

Lemma scan_windows_ok hit base n i caller s b s' :
  scan_windows hit base n i caller s = Ok (b, s') ->
  s' = s /\
  (b = true -> exists j e, i <= j < i + Z.of_nat n /\ window_at s base j = Some e /\
     Z.testbit (ipc_mask e) caller = true /\ hit e = true).
Proof.
  revert i. induction n as [|n IH]; intros i H; simpl in H; [inv_ok; by split|].
  apply bind_ok in H as (e & s1 & [He ->]%deref_ok & H).
  apply bind_ok in H as (m & s2 & [Hm ->]%lift_ok & H).
  unfold caller_bit in Hm. destruct ((0 <=? caller) && (caller <? 31)) eqn:Ec; [|done].
  injection Hm as <-.
  rewrite land_bit in H by lia.
  assert (Hrec : scan_windows hit base n (i + 1) caller s = Ok (b, s') ->
    s' = s /\ (b = true -> exists j e, i <= j < i + Z.of_nat (S n) /\ window_at s base j = Some e /\
     Z.testbit (ipc_mask e) caller = true /\ hit e = true)).
  { intros [-> Hb]%IH. split; [done|]. intros Htrue.
    destruct (Hb Htrue) as (j & e' & ? & ?). exists j, e'. split; [lia|done]. }
  destruct (Z.testbit (ipc_mask e) caller) eqn:Et; simpl in H; [|by apply Hrec].
  destruct (hit e) eqn:Eh; [|by apply Hrec]. inv_ok.
  split; [done|]. intros _. exists i, e. split; [lia|done].
Qed.

(** A search that reads only present entries, by a caller below bit 31, returns. *)
Lemma scan_windows_run hit base n i caller s :
  0 <= caller < 31 ->
  (forall j, i <= j < i + Z.of_nat n -> is_Some (window_at s base j)) ->
  exists b, scan_windows hit base n i caller s = Ok (b, s) /\
    ((exists j e, i <= j < i + Z.of_nat n /\ window_at s base j = Some e /\
       Z.testbit (ipc_mask e) caller = true /\ hit e = true) -> b = true).
Proof.
  intros Hc. revert i. induction n as [|n IH]; intros i Hp; simpl.
  { exists false. split; [done|]. intros (j & e & ? & _). lia. }
  destruct (Hp i) as [e He]; [lia|].
  rewrite (bind_ret _ _ _ e s) by (by apply deref_ok).
  rewrite (bind_ret _ _ _ (Z.shiftl 1 caller) s).
  2:{ apply lift_ok. unfold caller_bit. by replace ((0 <=? caller) && (caller <? 31)) with true by lia. }
  destruct (IH (i + 1)) as (b & Hb & Htrue); [intros j Hj; apply Hp; lia|].
  assert (Hnext : forall j e', i <= j < i + Z.of_nat (S n) -> window_at s base j = Some e' ->
    (Z.testbit (ipc_mask e) caller = true -> hit e = false) ->
    Z.testbit (ipc_mask e') caller = true -> hit e' = true -> b = true).
  { intros j e' Hj He' Hno Ht Hh. apply Htrue. exists j, e'.
    destruct (decide (j = i)) as [->|]; [|split; [lia|done]].
    assert (e' = e) as -> by (unfold window_at in *; congruence). rewrite Hno in Hh by done. done. }
  rewrite land_bit by lia.
  destruct (Z.testbit (ipc_mask e) caller) eqn:Et; simpl.
  - destruct (hit e) eqn:Eh; [by exists true|]. exists b. split; [done|].
    intros (j & e' & Hj & He' & ? & ?). by eapply Hnext.
  - exists b. split; [done|]. intros (j & e' & Hj & He' & ? & ?). by eapply Hnext.
Qed.

Lemma check_windows_true hit caller callee tab nr s s' :
  check_windows hit caller callee tab nr s = Ok (true, s') ->
  window_open hit s tab nr caller /\
  exists p, pmap_at callee s = Some p /\ 1 <= pm_pkey p <= 15 /\
    s' = set_pkru (<[pm_pkey p := PKEY_DISABLE_ACCESS]> (pkru s)) s.
Proof.
  unfold check_windows. intros ([] & s1 & (p & Hp & Hk & ->)%cmp_unlock_ok & H)%bind_ok.
  apply bind_ok in H as (b & s2 & [-> Hb]%scan_windows_ok & H).
  destruct b; [|inv_ok]. apply bind_ok in H as ([] & s3 & (p' & Hp' & Hk' & ->)%cmp_lock_ok & H).
  inv_ok. destruct (Hb eq_refl) as (j & e & Hj & He & Ht & Hh). split.
  - exists j, e. split; [lia|done].
  - assert (p' = p) as -> by (unfold pmap_at in *; simpl in *; congruence).
    exists p. repeat split; [done|lia|lia|]. unfold set_pkru. simpl.
    by rewrite insert_insert_eq.
Qed.

(** The tables of a cubicle the monitor may have to search. *)
Definition table_present (s : monitor) (tab nr : Z) : Prop :=
  tab <> 0 /\ forall i, 0 <= i < nr -> is_Some (window_at s tab i).

Lemma check_windows_run hit caller callee tab nr s p :
  0 <= caller < 31 -> table_present s tab nr -> window_open hit s tab nr caller ->
  pmap_at callee s = Some p -> 1 <= pm_pkey p <= 15 ->
  check_windows hit caller callee tab nr s =
    Ok (true, set_pkru (<[pm_pkey p := PKEY_DISABLE_ACCESS]> (pkru s)) s).
Proof.
  intros Hc [_ Htab] (j & e & Hj & He & Ht & Hh) Hp Hk. unfold check_windows.
  set (s1 := set_pkru (<[pm_pkey p := 0]> (pkru s)) s).
  rewrite (bind_ret _ _ _ tt s1) by (apply cmp_unlock_ok; exists p; repeat split; [done|lia|lia]).
  destruct (scan_windows_run hit tab (Z.to_nat nr) 0 caller s1 Hc) as (b & Hb & Htrue).
  { intros i Hi. apply Htab. lia. }
  rewrite (bind_ret _ _ _ b s1) by done.
  rewrite Htrue by (exists j, e; split; [lia|done]).
  rewrite (bind_ret _ _ _ tt (set_pkru (<[pm_pkey p := PKEY_DISABLE_ACCESS]> (pkru s1)) s1)).
  - unfold s1, set_pkru. simpl. cbv [mret M_ret]. by rewrite insert_insert_eq.
  - apply cmp_lock_ok. by exists p.
Qed.

(** ** Who may be given the page *)

(** The accesses that the handler grants without asking the owner: the VFS may
    have any module's globals, anyone the globals of lwip, and the platform the heap of
    the application. *)
Definition workaround (st : fault_state) (caller callee : Z) : bool :=
  match st with
  | ACCESS_TO_GLOBAL => (caller =? E_VFSCORE) || (callee =? E_LWIP)
  | ACCESS_TO_HEAP => (callee =? E_APP) && (caller =? E_LINUXUPLAT)
  | _ => false
  end.

(** The owner agrees: the memory is the cubicle's own stack or heap, or the heap of a module
    that shares its key, or the owner has a window open for the cubicle that covers the
    address (up to a page for stacks and heaps). *)
Definition owner_allows (s : monitor) (st : fault_state) (caller callee addr : Z) : Prop :=
  match st with
  | RET_STACK_TO_WRAP => caller = callee
  | ACCESS_TO_GLOBAL =>
      exists pe, pmap_at callee s = Some pe /\
        window_open (in_window addr) s (pm_globals_tab pe) (pm_globals_nr pe) caller
  | ACCESS_TO_STACK =>
      caller = callee \/
      exists pe, pmap_at callee s = Some pe /\
        window_open (in_window_page addr) s (pm_stack_tab pe) (pm_stack_nr pe) caller
  | ACCESS_TO_HEAP =>
      caller = callee \/
      (exists pc pe, pmap_at caller s = Some pc /\ pmap_at callee s = Some pe /\
         pm_pkey pe = pm_pkey pc) \/
      exists pe, pmap_at callee s = Some pe /\
        window_open (in_window_page addr) s (pm_heap_tab pe) (pm_heap_nr pe) caller
  end.

(** The policy of the three checks without their mechanism. *)
Definition authorised (s : monitor) (st : fault_state) (caller callee addr : Z) : Prop :=
  workaround st caller callee = true \/ owner_allows s st caller callee addr.

(** After a check the state is the same, or the owner's key is locked. *)
Definition relocked (s s' : monitor) (callee : Z) : Prop :=
  s' = s \/ exists pe, pmap_at callee s = Some pe /\ 1 <= pm_pkey pe <= 15 /\
    s' = set_pkru (<[pm_pkey pe := PKEY_DISABLE_ACCESS]> (pkru s)) s.

Lemma should_map_true caller callee addr s s' :
  should_map caller callee addr s = Ok (true, s') ->
  authorised s ACCESS_TO_GLOBAL caller callee addr /\ relocked s s' callee.
Proof.
  unfold should_map. intros H.
  destruct ((caller =? E_VFSCORE) || (callee =? E_LWIP)) eqn:E.
  { inv_ok. split; by left. }
  apply bind_ok in H as (pc & s1 & [Hpc ->]%deref_ok & H). destruct (negb _); [done|].
  apply bind_ok in H as (pe & s1 & [Hpe ->]%deref_ok & H). destruct (_ =? 0); [done|].
  apply check_windows_true in H as [Hw (p & Hp & ? & ->)]. split; right; simpl; eauto.
Qed.

Lemma should_map_stack_true caller callee addr s s' :
  should_map_stack caller callee addr s = Ok (true, s') ->
  authorised s ACCESS_TO_STACK caller callee addr /\ relocked s s' callee.
Proof.
  unfold should_map_stack. intros H. destruct (Z.eqb_spec caller callee).
  { inv_ok. split; [right; by left|by left]. }
  apply bind_ok in H as (pc & s1 & [Hpc ->]%deref_ok & H). destruct (negb _); [done|].
  apply bind_ok in H as (pe & s1 & [Hpe ->]%deref_ok & H). destruct (_ =? 0); [done|].
  apply check_windows_true in H as [Hw (p & Hp & ? & ->)]. split; right; [right|]; eauto.
Qed.

Lemma should_map_heap_true caller callee addr s s' :
  should_map_heap caller callee addr s = Ok (true, s') ->
  authorised s ACCESS_TO_HEAP caller callee addr /\ relocked s s' callee.
Proof.
  unfold should_map_heap. intros H. destruct (Z.eqb_spec callee caller).
  { inv_ok. split; [right; by left|by left]. }
  apply bind_ok in H as (pe & s1 & [Hpe ->]%deref_ok & H).
  apply bind_ok in H as (pc & s1 & [Hpc ->]%deref_ok & H).
  destruct (Z.eqb_spec (pm_pkey pe) (pm_pkey pc)).
  { inv_ok. split; [|by left]. right; right; left. eauto. }
  destruct ((callee =? E_APP) && (caller =? E_LINUXUPLAT)) eqn:E.
  { inv_ok. split; by left. }
  destruct (negb _); [done|]. destruct (_ =? 0); [done|].
  apply check_windows_true in H as [Hw (p & Hp & ? & ->)]. split; [|right; eauto].
  right; right; right. eauto.
Qed.

Section Policy.
Context (mprotect_ok : Z -> Z -> Z -> bool).

(** What a successful run of the handler did: the page of the address carries
    the key of the accessing cubicle, and the rights are as before or have the
    owner's key locked. *)
Definition granted (s s' : monitor) (caller callee addr : Z) : Prop :=
  exists pc, pmap_at caller s = Some pc /\
    exists s1, relocked s s1 callee /\
      s' = set_page_key (<[page_of (u64 addr) := pm_pkey pc]> (page_key s)) s1.

Lemma relocked_pmap s s1 callee mid : relocked s s1 callee -> pmap_at mid s1 = pmap_at mid s.
Proof. by intros [->|(? & _ & _ & ->)]. Qed.

Lemma relocked_page_key s s1 callee : relocked s s1 callee -> page_key s1 = page_key s.
Proof. by intros [->|(? & _ & _ & ->)]. Qed.

Lemma attach_granted caller callee addr s s1 s' :
  relocked s s1 callee ->
  cmp_attach mprotect_ok caller (page_base addr) 4096 s1 = Ok (tt, s') ->
  granted s s' caller callee addr.
Proof.
  intros Hr (p & Hp & _ & ->)%attach_page_ok. exists p.
  rewrite (relocked_pmap _ _ _ _ Hr) in Hp. split; [done|]. exists s1. split; [done|].
  by rewrite (relocked_page_key _ _ _ Hr).
Qed.

Lemma sig_handler_granted rip rsp addr s s' :
  sig_handler mprotect_ok rip rsp addr s = Ok (tt, s') ->
  exists st caller callee, get_state rip rsp (s64 addr) s = Ok (st, caller, callee) /\
    authorised s st caller callee addr /\ granted s s' caller callee addr.
Proof.
  unfold sig_handler. intros ([[st caller] callee] & s1 & Hst & H)%bind_ok.
  unfold get_stateM in Hst. destruct (get_state rip rsp (s64 addr) s) as [r| | |]; try done.
  injection Hst as -> <-. exists st, caller, callee. split; [done|]. destruct st.
  - destruct (Z.eqb_spec caller callee) as [Heq|]; [|done].
    split; [by right|]. apply (attach_granted _ _ _ _ s); [by left|done].
  - apply bind_ok in H as ([] & s2 & Hm & H); [|done].
    apply should_map_true in Hm as [Ha Hr]. split; [done|]. by eapply attach_granted.
  - apply bind_ok in H as ([] & s2 & Hm & H); [|done].
    apply should_map_stack_true in Hm as [Ha Hr]. split; [done|]. by eapply attach_granted.
  - apply bind_ok in H as ([] & s2 & Hm & H); [|done].
    apply should_map_heap_true in Hm as [Ha Hr]. split; [done|]. by eapply attach_granted.
Qed.

(** C2. Spatial isolation: whenever the fault handler returns, the owner agreed to
    the access (it is the cubicle's own stack or heap, the heap of a module with the same
    key, or the owner has a window open for that cubicle that covers the address,
    up to a page for stacks and heaps), or the access is one of the three that are
    written into the handler (globals accessed by the VFS, globals of lwip, the
    application's heap accessed by the platform); exactly the faulting page is retagged,
    with the accessing cubicle's key; and no key's rights are widened. *)
Theorem fault_grants_only_authorised rip rsp addr s s' :
  sig_handler mprotect_ok rip rsp addr s = Ok (tt, s') ->
  exists st caller callee pc,
    get_state rip rsp (s64 addr) s = Ok (st, caller, callee) /\
    (owner_allows s st caller callee addr \/ workaround st caller callee = true) /\
    pmap_at caller s = Some pc /\
    page_key s' = <[page_of (u64 addr) := pm_pkey pc]> (page_key s) /\
    pmap s' = pmap s /\ ipc_mem s' = ipc_mem s /\ mmap_cfg s' = mmap_cfg s /\
    heap_cfg s' = heap_cfg s /\
    (forall k, pkru s' !! k = pkru s !! k \/ pkru s' !! k = Some PKEY_DISABLE_ACCESS).
Proof.
  intros (st & caller & callee & Hst & Ha & pc & Hpc & s1 & Hr & ->)%sig_handler_granted.
  exists st, caller, callee, pc. split; [done|]. split; [by apply or_comm|]. split; [done|].
  destruct Hr as [->|(pe & _ & _ & ->)]; simpl; repeat split; try done; [by left|].
  intros k. rewrite lookup_insert. case_decide; [by right|by left].
Qed.

(** The access can be decided: the cubicle and the owner are modules with
    keys, the cubicle is isolated, and the owner's table of that kind is
    registered and readable. *)
Definition serviceable (s : monitor) (st : fault_state) (caller callee addr : Z) : Prop :=
  exists pc pe, pmap_at caller s = Some pc /\ pmap_at callee s = Some pe /\
    0 <= caller < 31 /\ pm_must pc = true /\ 1 <= pm_pkey pe <= 15 /\
    mprotect_ok (page_base addr) 4096 (pm_pkey pc) = true /\
    match st with
    | RET_STACK_TO_WRAP => True
    | ACCESS_TO_GLOBAL => table_present s (pm_globals_tab pe) (pm_globals_nr pe)
    | ACCESS_TO_STACK => table_present s (pm_stack_tab pe) (pm_stack_nr pe)
    | ACCESS_TO_HEAP => table_present s (pm_heap_tab pe) (pm_heap_nr pe)
    end.

(** A decided search: [true] exactly when a window is open. *)
Lemma check_windows_decides hit caller callee tab nr s p :
  0 <= caller < 31 -> table_present s tab nr ->
  pmap_at callee s = Some p -> 1 <= pm_pkey p <= 15 ->
  (window_open hit s tab nr caller /\ exists s1, relocked s s1 callee /\
     check_windows hit caller callee tab nr s = Ok (true, s1)) \/
  (~ window_open hit s tab nr caller /\ exists s1,
     check_windows hit caller callee tab nr s = Ok (false, s1)).
Proof.
  intros Hc Htab Hp Hk. set (s0 := set_pkru (<[pm_pkey p := 0]> (pkru s)) s).
  destruct (scan_windows_run hit tab (Z.to_nat nr) 0 caller s0 Hc) as (b & Hb & Htrue).
  { intros i Hi. apply Htab. lia. }
  destruct b.
  - left. pose proof (scan_windows_ok _ _ _ _ _ _ _ _ Hb) as [_ Hw].
    destruct (Hw eq_refl) as (j & e & Hj & He & Ht & Hh).
    assert (window_open hit s tab nr caller) as Ho by (exists j, e; split; [lia|done]).
    split; [done|]. eexists. split; [|by eapply check_windows_run]. right. by exists p.
  - right. split.
    + intros (j & e & Hj & He & Ht & Hh). discriminate Htrue. exists j, e. split; [lia|done].
    + exists s0. unfold check_windows. rewrite (bind_ret _ _ _ tt s0).
      2:{ apply cmp_unlock_ok. exists p. repeat split; [done|lia|lia]. }
      by rewrite (bind_ret _ _ _ false s0) by done.
Qed.

Lemma attach_grants caller addr s s1 callee pc :
  relocked s s1 callee -> pmap_at caller s = Some pc ->
  mprotect_ok (page_base addr) 4096 (pm_pkey pc) = true ->
  exists s', cmp_attach mprotect_ok caller (page_base addr) 4096 s1 = Ok (tt, s').
Proof.
  intros Hr Hpc Hm. eexists. apply attach_page_ok. exists pc.
  by rewrite (relocked_pmap _ _ _ _ Hr).
Qed.

Lemma sig_handler_unfold rip rsp addr s st caller callee :
  get_state rip rsp (s64 addr) s = Ok (st, caller, callee) ->
  sig_handler mprotect_ok rip rsp addr s =
  (match st with
   | RET_STACK_TO_WRAP =>
      if caller =? callee then cmp_attach mprotect_ok caller (page_base addr) 4096 else spin
   | ACCESS_TO_GLOBAL => should_map caller callee addr ≫= fun ok : bool =>
      if ok then cmp_attach mprotect_ok caller (page_base addr) 4096 else spin
   | ACCESS_TO_STACK => should_map_stack caller callee addr ≫= fun ok : bool =>
      if ok then cmp_attach mprotect_ok caller (page_base addr) 4096 else spin
   | ACCESS_TO_HEAP => should_map_heap caller callee addr ≫= fun ok : bool =>
      if ok then cmp_attach mprotect_ok caller (page_base addr) 4096 else spin
   end) s.
Proof.
  intros Hst. unfold sig_handler.
  rewrite (bind_ret _ _ _ (st, caller, callee) s) by (unfold get_stateM; by rewrite Hst).
  by destruct st.
Qed.

Lemma bind_grant (m : M monitor bool) caller callee addr s s1 pc :
  m s = Ok (true, s1) -> relocked s s1 callee -> pmap_at caller s = Some pc ->
  mprotect_ok (page_base addr) 4096 (pm_pkey pc) = true ->
  exists s', (m ≫= fun ok : bool =>
    if ok then cmp_attach mprotect_ok caller (page_base addr) 4096 else spin) s = Ok (tt, s').
Proof. intros Hm Hr Hpc Hok. rewrite (bind_ret _ _ _ _ _ Hm). by eapply attach_grants. Qed.

Lemma bind_deny (m : M monitor bool) caller addr s s1 :
  m s = Ok (false, s1) ->
  (m ≫= fun ok : bool =>
    if ok then cmp_attach mprotect_ok caller (page_base addr) 4096 else spin) s = Spin.
Proof. intros Hm. by rewrite (bind_ret _ _ _ _ _ Hm). Qed.

Lemma should_map_decides caller callee addr s :
  serviceable s ACCESS_TO_GLOBAL caller callee addr ->
  exists b s1, should_map caller callee addr s = Ok (b, s1) /\
    if b : bool then relocked s s1 callee else ~ authorised s ACCESS_TO_GLOBAL caller callee addr.
Proof.
  intros (pc & pe & Hpc & Hpe & Hc & Hm & Hk & _ & Htab). unfold should_map.
  destruct ((caller =? E_VFSCORE) || (callee =? E_LWIP)) eqn:E.
  { exists true, s. split; [done|]. by left. }
  rewrite (bind_ret _ _ _ pc s), Hm by (by apply deref_ok). simpl.
  rewrite (bind_ret _ _ _ pe s) by (by apply deref_ok).
  destruct (Z.eqb_spec (pm_globals_tab pe) 0) as [Hz|_]; [by destruct Htab|].
  destruct (check_windows_decides (in_window addr) caller callee _ _ s pe Hc Htab Hpe Hk)
    as [(Hw & s1 & Hr & ->)|(Hw & s1 & ->)]; [by exists true, s1|].
  exists false, s1. split; [done|]. intros [Hwa|(pe' & Hpe' & Hw')].
  - simpl in Hwa. congruence.
  - assert (pe' = pe) as -> by congruence. done.
Qed.

Lemma should_map_stack_decides caller callee addr s :
  serviceable s ACCESS_TO_STACK caller callee addr ->
  exists b s1, should_map_stack caller callee addr s = Ok (b, s1) /\
    if b : bool then relocked s s1 callee else ~ authorised s ACCESS_TO_STACK caller callee addr.
Proof.
  intros (pc & pe & Hpc & Hpe & Hc & Hm & Hk & _ & Htab). unfold should_map_stack.
  destruct (Z.eqb_spec caller callee) as [->|Hne].
  { exists true, s. split; [done|]. by left. }
  rewrite (bind_ret _ _ _ pc s), Hm by (by apply deref_ok). simpl.
  rewrite (bind_ret _ _ _ pe s) by (by apply deref_ok).
  destruct (Z.eqb_spec (pm_stack_tab pe) 0) as [Hz|_]; [by destruct Htab|].
  destruct (check_windows_decides (in_window_page addr) caller callee _ _ s pe Hc Htab Hpe Hk)
    as [(Hw & s1 & Hr & ->)|(Hw & s1 & ->)]; [by exists true, s1|].
  exists false, s1. split; [done|]. intros [?|[->|(pe' & Hpe' & Hw')]]; [done|done|].
  assert (pe' = pe) as -> by congruence. done.
Qed.

Lemma should_map_heap_decides caller callee addr s :
  serviceable s ACCESS_TO_HEAP caller callee addr ->
  exists b s1, should_map_heap caller callee addr s = Ok (b, s1) /\
    if b : bool then relocked s s1 callee else ~ authorised s ACCESS_TO_HEAP caller callee addr.
Proof.
  intros (pc & pe & Hpc & Hpe & Hc & Hm & Hk & _ & Htab). unfold should_map_heap.
  destruct (Z.eqb_spec callee caller) as [->|Hne].
  { exists true, s. split; [done|]. by left. }
  rewrite (bind_ret _ _ _ pe s) by (by apply deref_ok).
  rewrite (bind_ret _ _ _ pc s) by (by apply deref_ok).
  destruct (Z.eqb_spec (pm_pkey pe) (pm_pkey pc)) as [|Hkey].
  { exists true, s. split; [done|]. by left. }
  destruct ((callee =? E_APP) && (caller =? E_LINUXUPLAT)) eqn:E.
  { exists true, s. split; [done|]. by left. }
  rewrite Hm. simpl.
  destruct (Z.eqb_spec (pm_heap_tab pe) 0) as [Hz|_]; [by destruct Htab|].
  destruct (check_windows_decides (in_window_page addr) caller callee _ _ s pe Hc Htab Hpe Hk)
    as [(Hw & s1 & Hr & ->)|(Hw & s1 & ->)]; [by exists true, s1|].
  exists false, s1. split; [done|]. intros [Hwa|[->|[(? & ? & ? & ? & ?)|(pe' & Hpe' & Hw')]]].
  - simpl in Hwa. congruence.
  - done.
  - congruence.
  - assert (pe' = pe) as -> by congruence. done.
Qed.

Lemma fault_cases rip rsp addr s st caller callee :
  get_state rip rsp (s64 addr) s = Ok (st, caller, callee) ->
  serviceable s st caller callee addr ->
  (authorised s st caller callee addr /\
     exists s', sig_handler mprotect_ok rip rsp addr s = Ok (tt, s')) \/
  (~ authorised s st caller callee addr /\
     sig_handler mprotect_ok rip rsp addr s = Spin).
Proof.
  intros Hst Hs. pose proof Hs as (pc & pe & Hpc & _ & _ & _ & _ & Hok & _).
  pose proof (sig_handler_unfold _ _ _ _ _ _ _ Hst) as Hrun.
  assert (Hcase : (exists s', sig_handler mprotect_ok rip rsp addr s = Ok (tt, s')) \/
    (~ authorised s st caller callee addr /\ sig_handler mprotect_ok rip rsp addr s = Spin)).
  { rewrite Hrun. destruct st.
    - simpl. destruct (Z.eqb_spec caller callee); [left|right; split; [by intros [?|?]|done]].
      apply (attach_grants _ _ s s callee pc); [by left|done|done].
    - apply should_map_decides in Hs as ([] & s1 & Hm & Hr); [left|right];
        [by eapply bind_grant|split; [done|by eapply bind_deny]].
    - apply should_map_stack_decides in Hs as ([] & s1 & Hm & Hr); [left|right];
        [by eapply bind_grant|split; [done|by eapply bind_deny]].
    - apply should_map_heap_decides in Hs as ([] & s1 & Hm & Hr); [left|right];
        [by eapply bind_grant|split; [done|by eapply bind_deny]]. }
  destruct Hcase as [[s' H]|H]; [left|by right]. split; [|by exists s'].
  apply sig_handler_granted in H as (st' & c' & e' & Hst' & Ha & _).
  rewrite Hst in Hst'. by injection Hst' as <- <- <-.
Qed.

(** C25. The handler decides every serviceable fault: if the access is authorised it
    returns (the cubicle continues with the page mapped), and if it is not, the handler
    stops the system in its [while(1)] loop; it never returns without the grant and
    never runs into undefined behaviour. Authorised accesses include the exceptions
    written into the handler; see [serviceable] for the faults meant. *)
Theorem fault_decided rip rsp addr s st caller callee :
  get_state rip rsp (s64 addr) s = Ok (st, caller, callee) ->
  serviceable s st caller callee addr ->
  (authorised s st caller callee addr /\
     exists s', sig_handler mprotect_ok rip rsp addr s = Ok (tt, s')) \/
  (~ authorised s st caller callee addr /\
     sig_handler mprotect_ok rip rsp addr s = Spin).
Proof. apply fault_cases. Qed.

(** ** Executions of the protected system *)

(** The memory that hooks and registration hand to a module. *)
Inductive attach : Type :=
| PageAttach (mid start size : Z)
| HeapAttach (mid start size : Z)
| StackAttach (mid start size : Z)
| HeapSetup (base len : Z).

#[global] Instance attach_eq_dec : EqDecision attach.
Proof. solve_decision. Defined.

Definition do_attach (a : attach) : M monitor unit :=
  match a with
  | PageAttach mid start size => cmp_attach mprotect_ok mid start size
  | HeapAttach mid start size => heap_attach mprotect_ok mid start size
  | StackAttach mid start size => stack_attach mprotect_ok mid start size
  | HeapSetup base len => setup_heap base len
  end.

(** Between faults the cubicles write their window tables, the hooks of the
    cross-cubicle calls lock and unlock keys and attach memory, and the registration of
    a function attaches its stack and enters the tables of its module. *)
Inductive mon_event : Type :=
| EvFault (rip rsp addr : Z)
| EvWindow (a : Z) (e : ipc_struct)
| EvLock (mid : Z)
| EvUnlock (mid : Z)
| EvAttach (a : attach)
| EvTabStack (mid tab nr : Z)
| EvTabGlobals (mid tab nr : Z)
| EvTabHeap (mid tab nr : Z).

Inductive mon_step : monitor -> mon_event -> monitor -> Prop :=
| step_fault s s' rip rsp addr :
    sig_handler mprotect_ok rip rsp addr s = Ok (tt, s') ->
    mon_step s (EvFault rip rsp addr) s'
| step_window s a e :
    mon_step s (EvWindow a e) (set_ipc_mem (<[a := e]> (ipc_mem s)) s)
| step_lock s s' mid : cmp_lock mid s = Ok (tt, s') -> mon_step s (EvLock mid) s'
| step_unlock s s' mid : cmp_unlock mid s = Ok (tt, s') -> mon_step s (EvUnlock mid) s'
| step_attach s s' a : do_attach a s = Ok (tt, s') -> mon_step s (EvAttach a) s'
| step_tab_stack s s' mid tab nr :
    add_ipc_tab_stack mid tab nr s = Ok (tt, s') -> mon_step s (EvTabStack mid tab nr) s'
| step_tab_globals s s' mid tab nr :
    add_ipc_tab_globals mid tab nr s = Ok (tt, s') -> mon_step s (EvTabGlobals mid tab nr) s'
| step_tab_heap s s' mid tab nr :
    add_ipc_tab_heap mid tab nr s = Ok (tt, s') -> mon_step s (EvTabHeap mid tab nr) s'.

Inductive mon_run : monitor -> list mon_event -> monitor -> Prop :=
| run_nil s : mon_run s [] s
| run_cons s ev s1 evs s2 :
    mon_step s ev s1 -> mon_run s1 evs s2 -> mon_run s (ev :: evs) s2.

(** The page [p] is in the range. *)
Definition page_in (p start size : Z) : Prop :=
  page_of start <= p < page_of start + Z.of_nat (page_count size).

(** The event, in the state [s], puts the key [k] on page [p]: a fault on the page that
    the policy authorises with the windows open at that moment, or an attach of the page
    to the module with that key. *)
Definition tags (s : monitor) (ev : mon_event) (p k : Z) : Prop :=
  match ev with
  | EvFault rip rsp addr =>
      page_of (u64 addr) = p /\
      exists st caller callee pc, get_state rip rsp (s64 addr) s = Ok (st, caller, callee) /\
        (owner_allows s st caller callee addr \/ workaround st caller callee = true) /\
        pmap_at caller s = Some pc /\ k = pm_pkey pc
  | EvAttach (PageAttach mid start size) | EvAttach (HeapAttach mid start size)
  | EvAttach (StackAttach mid start size) =>
      page_in p start size /\ exists pm, pmap_at mid s = Some pm /\ k = pm_pkey pm
  | _ => False
  end.

Lemma tag_pages_lookup p n k m q :
  tag_pages p n k m !! q = if decide (p <= q < p + Z.of_nat n) then Some k else m !! q.
Proof.
  revert p. induction n as [|n IH]; intros p; simpl; [by rewrite decide_False by lia|].
  destruct (decide (p = q)) as [->|Hne].
  - rewrite lookup_insert_eq. by rewrite decide_True by lia.
  - rewrite lookup_insert_ne by done. rewrite IH. apply decide_ext. lia.
Qed.

Lemma cmp_attach_ok mid start size s s' :
  cmp_attach mprotect_ok mid start size s = Ok (tt, s') <->
  (size = 0 /\ s' = s) \/
  (size <> 0 /\ exists p, pmap_at mid s = Some p /\ start mod PAGE_SIZE = 0 /\
     mprotect_ok start size (pm_pkey p) = true /\
     s' = set_page_key (tag_pages (page_of start) (page_count size) (pm_pkey p) (page_key s)) s).
Proof.
  unfold cmp_attach, pkey_mprotect. destruct (Z.eqb_spec size 0) as [Hz|Hz].
  { split; [intros; inv_ok; by left|]. by intros [[_ ->]|[? _]]. }
  split.
  - intros (p & s1 & [Hp ->]%deref_ok & H)%bind_ok. right. split; [done|]. exists p. split; [done|].
    destruct (Z.eqb_spec (start mod PAGE_SIZE) 0) as [Ha|Ha]; [|by cbv [mbind M_bind mret M_ret] in H]. cbv [andb] in H.
    destruct (mprotect_ok _ _ _); [|by cbv [mbind M_bind mret M_ret] in H].
    cbv [mbind M_bind modify mret M_ret] in H. change (0 =? -1) with false in H. cbv iota in H.
    injection H as <-. done.
  - intros [[? _]|(_ & p & Hp & Ha & Hm & ->)]; [done|]. rewrite (bind_ret _ _ _ p s) by (by apply deref_ok).
    by rewrite Ha, Hm.
Qed.

Lemma heap_attach_ok mid start size s s' :
  heap_attach mprotect_ok mid start size s = Ok (tt, s') <->
  (size = 0 /\ s' = s) \/
  (size <> 0 /\ heap_start s <= start < heap_end s /\ exists cfg,
     fill_heap_cfg (heap_cfg s) (s32 (Z.shiftr (start - heap_start s) 12)) (Z.to_nat (size / 4096)) mid = Ok cfg /\
     cmp_attach mprotect_ok mid start size (set_heap cfg (heap_start s) (heap_end s) s) = Ok (tt, s')).
Proof.
  unfold heap_attach. destruct (Z.eqb_spec size 0) as [Hz|Hz].
  { split; [intros; inv_ok; by left|]. by intros [[_ ->]|[? _]]. }
  rewrite (bind_ret _ _ _ (heap_start s) s) by (by apply gets_ok). rewrite (bind_ret _ _ _ (heap_end s) s) by (by apply gets_ok).
  destruct ((heap_start s <=? start) && (start <? heap_end s)) eqn:Hin; simpl.
  2:{ split; [done|]. intros [[? _]|(_ & ? & _)]; lia. }
  rewrite (bind_ret _ _ _ (heap_cfg s) s) by (by apply gets_ok). split.
  - intros (cfg & s1 & [Hf ->]%lift_ok & H)%bind_ok. right. split; [done|]. split; [lia|]. by exists cfg.
  - intros [[? _]|(_ & _ & cfg & Hf & H)]; [done|].
    rewrite (bind_ret _ _ _ cfg s) by (by apply lift_ok). exact H.
Qed.

Lemma cmp_attach_tags mid start size s s' p :
  cmp_attach mprotect_ok mid start size s = Ok (tt, s') ->
  page_key s' !! p = page_key s !! p \/
  page_in p start size /\ exists pm, pmap_at mid s = Some pm /\ page_key s' !! p = Some (pm_pkey pm).
Proof.
  intros [[_ ->]|(_ & pm & Hp & _ & _ & ->)]%cmp_attach_ok; [by left|]. simpl. rewrite tag_pages_lookup.
  case_decide as Hin; [|by left]. right. split; [exact Hin|]. by exists pm.
Qed.

Lemma do_attach_tags a s s' p :
  do_attach a s = Ok (tt, s') ->
  page_key s' !! p = page_key s !! p \/ exists k, tags s (EvAttach a) p k /\ page_key s' !! p = Some k.
Proof.
  assert (forall mid start size s1, page_key s1 = page_key s -> pmap_at mid s1 = pmap_at mid s ->
    cmp_attach mprotect_ok mid start size s1 = Ok (tt, s') ->
    page_key s' !! p = page_key s !! p \/ exists k, (page_in p start size /\ exists pm, pmap_at mid s = Some pm /\ k = pm_pkey pm) /\
      page_key s' !! p = Some k) as Hc.
  { intros mid start size s1 Ek Ep H. destruct (cmp_attach_tags _ _ _ _ _ p H) as [E|(Hin & pm & Hp & E)]; rewrite <- Ek.
    - by left.
    - right. exists (pm_pkey pm). split; [|done]. split; [done|]. exists pm. by rewrite <- Ep. }
  destruct a as [mid start size|mid start size|mid start size|base len]; simpl; intros H.
  - by apply (Hc mid start size s).
  - apply heap_attach_ok in H as [[_ ->]|(_ & _ & cfg & _ & H)]; [by left|]. by eapply Hc; [| |exact H].
  - unfold stack_attach in H. destruct (size =? 0); [inv_ok; by left|].
    apply bind_ok in H as (st & s1 & [-> ->]%gets_ok & H). destruct (_ =? SMAX); [done|].
    apply bind_ok in H as (pm & s1 & [Hp ->]%deref_ok & H). apply bind_ok in H as ([] & s1 & Ha & H).
    injection H as <-. destruct (cmp_attach_tags _ _ _ _ _ p Ha) as [E|(Hin & pm' & Hp' & E)]; [by left|].
    right. exists (pm_pkey pm'). split; [split; [done|by exists pm']|done].
  - left. unfold setup_heap in H. by injection H as <-.
Qed.

Lemma put_pmap_page_key mid q s s' : put_pmap mid q s = Ok (tt, s') -> page_key s' = page_key s.
Proof. unfold put_pmap. intros (? & ? & [_ ->]%deref_ok & H)%bind_ok. by injection H as <-. Qed.

Lemma mon_step_page_key s ev s' p :
  mon_step s ev s' ->
  page_key s' !! p = page_key s !! p \/ exists k, tags s ev p k /\ page_key s' !! p = Some k.
Proof.
  intros H. destruct H as [s s' rip rsp addr H|s a e|s s' mid H|s s' mid H|s s' a H|s s' mid tab nr H|s s' mid tab nr H|s s' mid tab nr H].
  - apply sig_handler_granted in H as (st & caller & callee & Hst & Ha & pc & Hpc & s1 & Hr & ->).
    simpl. destruct (decide (page_of (u64 addr) = p)) as [<-|Hne].
    + right. exists (pm_pkey pc). rewrite lookup_insert_eq. split; [|done]. split; [done|].
      exists st, caller, callee, pc. split; [done|]. split; [by apply or_comm|done].
    + left. by rewrite lookup_insert_ne.
  - by left.
  - apply cmp_lock_ok in H as (? & _ & _ & ->). by left.
  - apply cmp_unlock_ok in H as (? & _ & _ & ->). by left.
  - by apply do_attach_tags.
  - apply bind_ok in H as (? & ? & [_ ->]%deref_ok & H). apply bind_ok in H as (? & ? & [_ ->]%deref_ok & H). left. by rewrite (put_pmap_page_key _ _ _ _ H).
  - apply bind_ok in H as (? & ? & [_ ->]%deref_ok & H). apply bind_ok in H as (? & ? & [_ ->]%deref_ok & H). left. by rewrite (put_pmap_page_key _ _ _ _ H).
  - apply bind_ok in H as (? & ? & [_ ->]%deref_ok & H). apply bind_ok in H as (? & ? & [_ ->]%deref_ok & H). left. by rewrite (put_pmap_page_key _ _ _ _ H).
Qed.

(** C22. Temporal isolation: along every execution (faults, window updates, key switches,
    attaches of memory and registrations by the hooks, in any order) the tag of a page is
    the one it had at the start, or it was put there by a fault on that page that, with the
    windows open at the moment of the fault, the owner allowed or one of the exceptions
    written into the handler covers, or by an attach of that page to the module whose key
    it carries. *)
Theorem page_tag_provenance s evs s' p :
  mon_run s evs s' ->
  page_key s' !! p = page_key s !! p \/
  exists evs1 ev evs2 s1 k,
    evs = evs1 ++ ev :: evs2 /\ mon_run s evs1 s1 /\ tags s1 ev p k /\ page_key s' !! p = Some k.
Proof.
  induction 1 as [s|s ev s1 evs s2 Hstep Hrun IH]; [by left|].
  destruct IH as [Heq|(evs1 & ev' & evs2 & s3 & k & -> & Hr & Hrest)].
  - destruct (mon_step_page_key _ _ _ p Hstep) as [Heq'|(k & Ht & Hk)]; [left; congruence|].
    right. exists [], ev, evs, s, k. split; [done|]. split; [constructor|]. split; [done|congruence].
  - right. exists (ev :: evs1), ev', evs2, s3, k. split; [done|]. split; [by econstructor|done].
Qed.

End Policy.

(** ** A concrete system: VFSCORE reads a RAMFS heap buffer through a window *)

Definition demo_vfs : proc_map_s :=
  Pmap "libvfscore.so" 65536 4096 1 true 73728 73728 73728 0 0 0.
Definition demo_ramfs : proc_map_s :=
  Pmap "libramfs.so" 73728 4096 2 true 73728 73728 73728 0 0 1.

Definition demo_monitor : monitor :=
  Monitor (<[21%nat := demo_vfs]> (<[2%nat := demo_ramfs]> (replicate PMAP_LEN pmap_zero)))
    E_END [] (Cblock 65536 2 ∅) 1048576 1114112
    (Cblock 4 (-1) (list_to_map [(0, 21); (1, schar (21 + 128)); (2, 2)])) 65536 81920
    (list_to_map [(1, 0); (2, 1)]) (list_to_map [(256, 2)]) []
    (list_to_map [(73728, Ipc 1048576 64 (Z.lor (bit 21) (bit 2)))]) ∅.

Definition mprotect_all (_ _ _ : Z) : bool := true.

Definition demo_after : monitor :=
  set_page_key (<[256 := 1]> (page_key demo_monitor))
    (set_pkru (<[2 := 1]> (pkru demo_monitor)) demo_monitor).

Lemma demo_state : get_state 65540 69700 (s64 1048592) demo_monitor = Ok (ACCESS_TO_HEAP, 21, 2).
Proof. vm_compute. reflexivity. Qed.

Lemma demo_grant : sig_handler mprotect_all 65540 69700 1048592 demo_monitor = Ok (tt, demo_after).
Proof. vm_compute. reflexivity. Qed.

Lemma demo_serviceable addr :
  serviceable mprotect_all demo_monitor ACCESS_TO_HEAP 21 2 addr.
Proof.
  exists demo_vfs, demo_ramfs. split; [reflexivity|]. split; [reflexivity|].
  split; [lia|]. split; [reflexivity|]. split; [simpl; lia|]. split; [reflexivity|].
  split; [done|]. intros i Hi. assert (i = 0) as -> by (simpl in Hi; lia).
  eexists. vm_compute. reflexivity.
Qed.

Lemma fault_grants_only_authorised_witness :
  exists st caller callee pc,
    get_state 65540 69700 (s64 1048592) demo_monitor = Ok (st, caller, callee) /\
    (owner_allows demo_monitor st caller callee 1048592 \/ workaround st caller callee = true) /\
    pmap_at caller demo_monitor = Some pc /\
    page_key demo_after = <[page_of (u64 1048592) := pm_pkey pc]> (page_key demo_monitor) /\
    pmap demo_after = pmap demo_monitor /\ ipc_mem demo_after = ipc_mem demo_monitor /\
    mmap_cfg demo_after = mmap_cfg demo_monitor /\ heap_cfg demo_after = heap_cfg demo_monitor /\
    (forall k, pkru demo_after !! k = pkru demo_monitor !! k \/
               pkru demo_after !! k = Some PKEY_DISABLE_ACCESS).
Proof. apply (fault_grants_only_authorised mprotect_all). exact demo_grant. Defined.

(** An address beyond the window's page: no window covers it. *)
Lemma fault_decided_witness :
  (authorised demo_monitor ACCESS_TO_HEAP 21 2 1056768 /\
     exists s', sig_handler mprotect_all 65540 69700 1056768 demo_monitor = Ok (tt, s')) \/
  (~ authorised demo_monitor ACCESS_TO_HEAP 21 2 1056768 /\
     sig_handler mprotect_all 65540 69700 1056768 demo_monitor = Spin).
Proof.
  apply fault_decided; [vm_compute; reflexivity|exact (demo_serviceable 1056768)].
Defined.

(** The RAM file system's page goes to the VFS by a fault and then back by an attach. *)
Definition demo_events : list mon_event :=
  [EvFault 65540 69700 1048592; EvAttach (HeapAttach 2 1048576 4096)].

Definition demo_back : monitor :=
  match do_attach mprotect_all (HeapAttach 2 1048576 4096) demo_after with Ok (_, s) => s | _ => demo_after end.

Lemma page_tag_provenance_witness :
  page_key demo_after !! 256 = Some 1 /\ page_key demo_back !! 256 = Some 2 /\
  (page_key demo_back !! 256 = page_key demo_monitor !! 256 \/
   exists evs1 ev evs2 s1 k, demo_events = evs1 ++ ev :: evs2 /\ mon_run mprotect_all demo_monitor evs1 s1 /\
     tags s1 ev 256 k /\ page_key demo_back !! 256 = Some k).
Proof.
  split; [vm_compute; reflexivity|]. split; [vm_compute; reflexivity|]. apply page_tag_provenance.
  eapply run_cons; [apply step_fault; exact demo_grant|].
  eapply run_cons; [apply step_attach; vm_compute; reflexivity|apply run_nil].
Defined.
