(* ===== verification/Progress.v ===== *)
(** Progress of a cubicle through page faults (kernel/loader.c, [sig_handler]): an
    instruction that touches a page with a key the thread may not use faults, and
    is started again when the handler returns.

    The processor is modelled here: an access goes through if the thread has the
    rights for the key of the page; if not, the handler runs first. *)
From S2P Require Import Prelude Windows Monitor Faults.
From stdpp Require Import base numbers strings gmap list.
#[local] Open Scope Z_scope.

Section Progress.
Context (mprotect_ok : Z -> Z -> Z -> bool).

(** ** Accesses *)

Definition accessible (s : monitor) (addr : Z) : bool :=
  match page_key s !! page_of (u64 addr) with Some k => bool_decide (pkru s !! k = Some 0) | None => false end.

(** An access that may fault [n] times. *)
Fixpoint access (n : nat) (rip rsp addr : Z) : M monitor unit :=
  ok ← gets (fun s => accessible s addr);
  if ok : bool then mret tt else
  match n with
  | O => spin
  | S n => sig_handler mprotect_ok rip rsp addr;; access n rip rsp addr
  end.

(** A piece of a cubicle's execution: accesses with their instruction and stack
    pointers. *)
Fixpoint accesses (n : nat) (l : list (Z * Z * Z)) : M monitor unit :=
  match l with
  | [] => mret tt
  | (rip, rsp, addr) :: l => access n rip rsp addr;; accesses n l
  end.

(** ** What the cubicle may do *)

(** The handler has to search a window table under the cubicle's own key: the globals of the
    cubicle itself, or globals or a stack of another module with the same key.  After the
    search it locks the key of the owner. *)
Definition own_window (pc pe : proc_map_s) (st : fault_state) (caller callee : Z) : bool :=
  (pm_pkey pe =? pm_pkey pc) &&
  match st with
  | ACCESS_TO_GLOBAL => negb (workaround st caller callee)
  | ACCESS_TO_STACK => negb (caller =? callee)
  | _ => false
  end.

(** The access is made by the cubicle [caller] with the entry [pc]; the handler can decide
    it and it is authorised.  [own] tells whether a table under the own key is searched. *)
Definition allowed_access (own : bool) (s : monitor) (caller : Z) (pc : proc_map_s) (a : Z * Z * Z) : Prop :=
  let '(rip, rsp, addr) := a in
  exists st callee pe, get_state rip rsp (s64 addr) s = Ok (st, caller, callee) /\ pmap_at callee s = Some pe /\
    authorised s st caller callee addr /\ serviceable mprotect_ok s st caller callee addr /\
    own_window pc pe st caller callee = own.

(** The handler changes nothing but keys and rights. *)
Definition same_layout (s s' : monitor) : Prop := exists k u, s' = set_page_key k (set_pkru u s).

#[global] Instance same_layout_refl : Reflexive same_layout.
Proof. intros s. exists (page_key s), (pkru s). by destruct s. Qed.
#[global] Instance same_layout_trans : Transitive same_layout.
Proof. intros s1 s2 s3 (k & u & ->) (k' & u' & ->). by exists k', u'. Qed.

Lemma allowed_access_same own s s' caller pc a :
  same_layout s s' -> allowed_access own s caller pc a -> allowed_access own s' caller pc a.
Proof.
  intros (k & u & ->). destruct a as [[rip rsp] addr]. intros (st & callee & pe & Hst & Hpe & Ha & Hs & Hk).
  exists st, callee, pe. split; [exact Hst|]. split; [exact Hpe|]. split; [by destruct st|]. split; [|done].
  destruct Hs as (pc' & pe' & ? & ? & ? & ? & ? & ? & ?). exists pc', pe'. by destruct st.
Qed.

(** What a check that was passed did to the rights: nothing, or a search locked the owner. *)
Definition passed (own : bool) (s s1 : monitor) (pc pe : proc_map_s) : Prop :=
  (pkru s1 = pkru s /\ s1 = s \/ s1 = set_pkru (<[pm_pkey pe := PKEY_DISABLE_ACCESS]> (pkru s)) s) /\
  (if own then pkru s1 !! pm_pkey pc = Some PKEY_DISABLE_ACCESS else pkru s1 !! pm_pkey pc = pkru s !! pm_pkey pc).

Lemma passed_search hit caller callee tab nr s s1 pc pe :
  pmap_at callee s = Some pe -> check_windows hit caller callee tab nr s = Ok (true, s1) ->
  passed (pm_pkey pe =? pm_pkey pc) s s1 pc pe.
Proof.
  intros Hpe [_ (p & Hp & _ & ->)]%check_windows_true. rewrite Hpe in Hp. injection Hp as <-.
  split; [by right|]. simpl. destruct (Z.eqb_spec (pm_pkey pe) (pm_pkey pc)) as [->|Hne].
  - apply lookup_insert_eq.
  - by rewrite lookup_insert_ne.
Qed.

Lemma passed_direct s pc pe : passed false s s pc pe.
Proof. split; [by left|done]. Qed.

Lemma global_passed caller callee addr s s1 pc pe :
  pmap_at caller s = Some pc -> pmap_at callee s = Some pe -> should_map caller callee addr s = Ok (true, s1) ->
  passed (own_window pc pe ACCESS_TO_GLOBAL caller callee) s s1 pc pe.
Proof.
  intros Hpc Hpe H. unfold should_map in H. unfold own_window, workaround.
  destruct ((caller =? E_VFSCORE) || (callee =? E_LWIP)).
  { inv_ok. rewrite andb_false_r. apply passed_direct. }
  rewrite andb_true_r. rewrite (bind_ret _ _ _ pc s) in H by (by apply deref_ok). destruct (negb _); [done|].
  rewrite (bind_ret _ _ _ pe s) in H by (by apply deref_ok). destruct (_ =? 0); [done|]. by eapply passed_search.
Qed.

Lemma stack_passed caller callee addr s s1 pc pe :
  pmap_at caller s = Some pc -> pmap_at callee s = Some pe -> should_map_stack caller callee addr s = Ok (true, s1) ->
  passed (own_window pc pe ACCESS_TO_STACK caller callee) s s1 pc pe.
Proof.
  intros Hpc Hpe H. unfold should_map_stack in H. unfold own_window.
  destruct (caller =? callee). { inv_ok. rewrite andb_false_r. apply passed_direct. }
  rewrite andb_true_r. rewrite (bind_ret _ _ _ pc s) in H by (by apply deref_ok). destruct (negb _); [done|].
  rewrite (bind_ret _ _ _ pe s) in H by (by apply deref_ok). destruct (_ =? 0); [done|]. by eapply passed_search.
Qed.

Lemma heap_passed caller callee addr s s1 pc pe :
  pmap_at caller s = Some pc -> pmap_at callee s = Some pe -> should_map_heap caller callee addr s = Ok (true, s1) ->
  passed false s s1 pc pe.
Proof.
  intros Hpc Hpe H. unfold should_map_heap in H.
  destruct (callee =? caller). { inv_ok. apply passed_direct. }
  rewrite (bind_ret _ _ _ pe s) in H by (by apply deref_ok). rewrite (bind_ret _ _ _ pc s) in H by (by apply deref_ok).
  destruct (pm_pkey pe =? pm_pkey pc) eqn:Ek. { inv_ok. apply passed_direct. }
  destruct (_ && _). { inv_ok. apply passed_direct. }
  destruct (negb _); [done|]. destruct (_ =? 0); [done|]. rewrite <- Ek. by eapply passed_search.
Qed.

(** The handler gives the page to the cubicle.  It leaves it its own rights, unless it had to
    search a table under the cubicle's own key: then that key is locked. *)
Lemma handler_keeps_key rip rsp addr s s' st caller callee pc pe :
  sig_handler mprotect_ok rip rsp addr s = Ok (tt, s') -> get_state rip rsp (s64 addr) s = Ok (st, caller, callee) ->
  pmap_at caller s = Some pc -> pmap_at callee s = Some pe ->
  same_layout s s' /\ page_key s' !! page_of (u64 addr) = Some (pm_pkey pc) /\
  (if own_window pc pe st caller callee then pkru s' !! pm_pkey pc = Some PKEY_DISABLE_ACCESS
   else pkru s' !! pm_pkey pc = pkru s !! pm_pkey pc).
Proof.
  intros Hrun Hst Hpc Hpe.
  assert (exists s1, passed (own_window pc pe st caller callee) s s1 pc pe /\
    cmp_attach mprotect_ok caller (page_base addr) 4096 s1 = Ok (tt, s')) as (s1 & [Hs1 Hk] & Hat).
  { rewrite (sig_handler_unfold mprotect_ok _ _ _ _ _ _ _ Hst) in Hrun. destruct st; simpl in Hrun.
    - exists s. destruct (caller =? callee); [|done]. split; [|done]. unfold own_window. rewrite andb_false_r. apply passed_direct.
    - apply bind_ok in Hrun as ([] & s1 & Hm & H); [|done]. exists s1. split; [by eapply global_passed|done].
    - apply bind_ok in Hrun as ([] & s1 & Hm & H); [|done]. exists s1. split; [by eapply stack_passed|done].
    - apply bind_ok in Hrun as ([] & s1 & Hm & H); [|done]. exists s1. split; [|done].
      unfold own_window. rewrite andb_false_r. by eapply heap_passed. }
  apply attach_page_ok in Hat as (p & Hp & _ & ->).
  assert (pmap_at caller s1 = pmap_at caller s) as Hp1 by (by destruct Hs1 as [[_ ->]| ->]).
  rewrite Hp1, Hpc in Hp. injection Hp as <-. split; [|split; [apply lookup_insert_eq|exact Hk]].
  destruct Hs1 as [[_ ->]| ->]; [|by eexists _, _].
  exists (<[page_of (u64 addr) := pm_pkey pc]> (page_key s)), (pkru s). by destruct s.
Qed.

Lemma access_ok s caller pc rip rsp addr n : allowed_access false s caller pc (rip, rsp, addr) -> pmap_at caller s = Some pc ->
  pkru s !! pm_pkey pc = Some 0 ->
  exists s', access (S n) rip rsp addr s = Ok (tt, s') /\ same_layout s s' /\ pkru s' !! pm_pkey pc = Some 0 /\ accessible s' addr = true.
Proof.
  intros (st & callee & pe & Hst & Hpe & Ha & Hs & Hk) Hpc Hkey. cbn [access].
  rewrite (bind_ret _ _ _ (accessible s addr) s) by (by apply gets_ok). destruct (accessible s addr) eqn:Hacc.
  { exists s. done. }
  destruct (fault_cases mprotect_ok rip rsp addr s st caller callee Hst Hs) as [[_ [s' Hrun]]|[? _]]; [|done].
  destruct (handler_keeps_key _ _ _ _ _ _ _ _ _ _ Hrun Hst Hpc Hpe) as (Hl & Hpage & Hru). rewrite Hk in Hru.
  assert (accessible s' addr = true) as Hacc' by (unfold accessible; rewrite Hpage; apply bool_decide_true; by rewrite Hru).
  exists s'. split; [|split; [done|split; [by rewrite Hru|done]]]. rewrite (bind_ret _ _ _ _ _ Hrun). destruct n as [|n]; cbn [access].
  - rewrite (bind_ret _ _ _ true s') by (by apply gets_ok). done.
  - rewrite (bind_ret _ _ _ true s') by (by apply gets_ok). done.
Qed.

Lemma access_stuck caller pc rip rsp addr n : forall s, allowed_access true s caller pc (rip, rsp, addr) ->
  pmap_at caller s = Some pc -> accessible s addr = false -> access n rip rsp addr s = Spin.
Proof.
  induction n as [|n IH]; intros s Ha Hpc Hacc; cbn [access];
    rewrite (bind_ret _ _ _ false s) by (apply gets_ok; by rewrite Hacc); [done|].
  pose proof Ha as (st & callee & pe & Hst & Hpe & Hau & Hs & Hk).
  destruct (fault_cases mprotect_ok rip rsp addr s st caller callee Hst Hs) as [[_ [s' Hrun]]|[? _]]; [|done].
  destruct (handler_keeps_key _ _ _ _ _ _ _ _ _ _ Hrun Hst Hpc Hpe) as (Hl & Hpage & Hru). rewrite Hk in Hru.
  rewrite (bind_ret _ _ _ _ _ Hrun). apply IH.
  - by eapply allowed_access_same.
  - destruct Hl as (k & u & ->). exact Hpc.
  - unfold accessible. rewrite Hpage. apply bool_decide_false. by rewrite Hru.
Qed.

Lemma accesses_ok s caller pc l : pmap_at caller s = Some pc -> pkru s !! pm_pkey pc = Some 0 ->
  Forall (allowed_access false s caller pc) l ->
  exists s', accesses 1 l s = Ok (tt, s') /\ same_layout s s' /\ pkru s' !! pm_pkey pc = Some 0.
Proof.
  intros Hpc Hkey Hl. revert s Hpc Hkey Hl. induction l as [|[[rip rsp] addr] l IH]; intros s Hpc Hkey Hl; [by exists s|].
  apply Forall_cons in Hl as [Ha Hl]. destruct (access_ok s caller pc rip rsp addr 0 Ha Hpc Hkey) as (s1 & Hrun & Hs & Hkey1 & _).
  destruct (IH s1) as (s2 & Hrun2 & Hs2 & Hkey2).
  - destruct Hs as (k & u & ->). exact Hpc.
  - done.
  - eapply Forall_impl; [exact Hl|]. intros a. by apply allowed_access_same.
  - exists s2. cbn [accesses]. rewrite (bind_ret _ _ _ _ _ Hrun). split; [done|]. split; [by etrans|done].
Qed.


End Progress.

(** The RAM file system has opened one of its globals, the page of which went to the VFS, to itself. *)
Definition demo_self_ramfs : proc_map_s :=
  Pmap "libramfs.so" 73728 4096 2 true 73728 73728 73728 0 1 1.

Definition demo_self : monitor :=
  set_pkru (list_to_map [(1, 1); (2, 0)]) (set_page_key (list_to_map [(18, 1); (256, 2)])
    (set_ipc_mem (list_to_map [(73728, Ipc 74000 64 (bit 2))])
      (set_pmap (<[2%nat := demo_self_ramfs]> (pmap demo_monitor)) demo_monitor))).

Lemma demo_self_allowed : allowed_access mprotect_all true demo_self 2 demo_self_ramfs (73732, 77000, 74008).
Proof.
  exists ACCESS_TO_GLOBAL, 2, demo_self_ramfs. split; [vm_compute; reflexivity|]. split; [reflexivity|].
  split; [right; exists demo_self_ramfs; split; [reflexivity|]; exists 0, (Ipc 74000 64 (bit 2));
          split; [simpl; lia|]; split; [vm_compute; reflexivity|]; split; vm_compute; reflexivity|].
  split; [|reflexivity]. exists demo_self_ramfs, demo_self_ramfs. split; [reflexivity|]. split; [reflexivity|].
  split; [lia|]. split; [reflexivity|]. split; [simpl; lia|]. split; [reflexivity|].
  split; [done|]. intros i Hi. assert (i = 0) as -> by (simpl in Hi; lia). eexists. vm_compute. reflexivity.
Qed.

Lemma demo_vfs_allowed addr :
  window_open (in_window_page addr) demo_monitor 73728 1 21 -> get_state 65540 69700 (s64 addr) demo_monitor = Ok (ACCESS_TO_HEAP, 21, 2) ->
  allowed_access mprotect_all false demo_monitor 21 demo_vfs (65540, 69700, addr).
Proof.
  intros Hw Hst. exists ACCESS_TO_HEAP, 2, demo_ramfs. split; [exact Hst|]. split; [reflexivity|].
  split; [right; right; right; exists demo_ramfs; split; [reflexivity|exact Hw]|].
  split; [exact (demo_serviceable addr)|reflexivity].
Qed.

