(* ===== verification/Boot.v ===== *)
(** Boot of the monitor: scanning the modules, reading the memory map,
    redirecting the PLT entries to the cross-cubicle hooks, and locking the
    cubicles (kernel/loader.c, with [is_must], [install_hook] and [get_id] as
    kernel/fig.py generates them). *)
From S2P Require Import Prelude Windows Monitor Faults.
From Stdlib Require Import Ascii.
From stdpp Require Import base numbers strings gmap list.
#[local] Open Scope Z_scope.

(** ** Module classification *)

Definition must : list string :=
  ["app.so"; "libramfs.so"; "libposix_sysinfo.so"; "libdevfs.so"; "libukbus.so";
   "liblinuxuplat.so"; "libuktime.so"; "libukswrand.so"; "libuklibparam.so";
   "libukblkdev.so"; "libuknetdev.so"; "libfdt.so"; "libvfscore.so"; "libukboot.so";
   "libukalloc.so"; "libposix_libdl.so"; "liblwip.so"]%string.

Definition shared : list string :=
  ["libnewlibm.so"; "libnewlibglue.so"; "libnewlibc.so"; "libnolibc.so";
   "libposix_process.so"; "libposix_user.so"; "libsyscall_shim.so"; "libukdebug.so";
   "libukboot_main.so"; "libpthread-embedded.so"; "libukargparse.so"; "libukmpi.so";
   "libuksglist.so"; "libuktimeconv.so"; "libuklock.so"; "libukallocbbuddy.so";
   "lib9pfs.so"; "libuk9p.so"; "libuksched.so"; "libukschedcoop.so"; "libukmmap.so"]%string.

Definition mem_string (x : string) (l : list string) : bool := existsb (String.eqb x) l.

Definition is_must (module : string) : outcome bool :=
  if mem_string module must then Ok true
  else if mem_string module shared then Ok false
  else Spin.

Fixpoint get_id_from (l : list string) (i : Z) (name : string) : Z :=
  match l with
  | [] => -1
  | m :: l' => if String.eqb m name then i else get_id_from l' (i + 1) name
  end.

Definition get_id (name : string) : Z := get_id_from modnames 0 name.

(** [pkey_alloc(0, 0)]: the kernel's next free key, or -1. *)
Definition pkey_alloc : M monitor Z :=
  ks ← gets free_pkeys;
  match ks with
  | [] => mret (-1)
  | k :: ks' => modify (set_free_pkeys ks');; mret k
  end.

(** The body of the [readdir] loop of [scan_modules]. *)
Definition scan_module (d_name : string) : M monitor unit :=
  if String.eqb d_name "." then mret tt else
  if String.eqb d_name ".." then mret tt else
  pmax ← gets pmap_max;
  let mid := if get_id d_name =? -1 then pmax else get_id d_name in
  p ← get_pmap mid;
  m ← lift (is_must d_name);
  put_pmap mid (Pmap d_name 0 0 0 m (pm_stack_tab p) (pm_globals_tab p) (pm_heap_tab p) 0 0 0);;
  (if m : bool then
     pkey ← pkey_alloc;
     if pkey =? -1 then spin else
     put_pmap mid (Pmap d_name 0 0 pkey m (pm_stack_tab p) (pm_globals_tab p) (pm_heap_tab p) 0 0 0)
   else mret tt);;
  if get_id d_name =? -1 then modify (set_pmap_max (pmax + 1)) else mret tt.

Fixpoint scan_entries (names : list string) : M monitor unit :=
  match names with
  | [] => mret tt
  | n :: names' => scan_module n;; scan_entries names'
  end.

(** [scan_modules]: [None] is a directory that cannot be opened. *)
Definition scan_modules (dir : option (list string)) : M monitor unit :=
  match dir with
  | None => spin
  | Some names => scan_entries names
  end.

(** ** /proc/self/maps

    A line the [sscanf] of the reading loop accepted: its text and the fields
    it scanned ([ml_path] is absent when only six matched). *)
Record maps_line := Mline {
  ml_text : string;
  ml_start : Z;
  ml_end : Z;
  ml_na : Z;
  ml_path : option string
}.

Fixpoint strstr (hay needle : string) : bool :=
  String.prefix needle hay ||
  match hay with
  | EmptyString => false
  | String _ h => strstr h needle
  end.

(** The path [parse_proc] looks for. *)
Definition module_path (cwd gpath name : string) : string :=
  (match gpath with
   | String "/"%char _ => gpath ++ "/" ++ name
   | _ => cwd ++ "/" ++ gpath ++ "/" ++ name
   end)%string.

(** The search loop: [lpath] keeps its value when a line has no path. *)
Fixpoint find_line (wd lpath : string) (lines : list maps_line) : option (list maps_line) :=
  match lines with
  | [] => None
  | l :: rest =>
      let lpath' := default lpath (ml_path l) in
      if String.eqb lpath' wd then Some lines else find_line wd lpath' rest
  end.

Definition starts_with_bracket (s : string) : bool :=
  match s with String "["%char _ => true | _ => false end.

(** The [do ... while(1)] loop: from the first line of the module on, add up
    the regions that carry its path and the anonymous ones in between. *)
Fixpoint sum_regions (wd : string) (lines : list maps_line) (mstart msize : Z) : outcome (Z * Z) :=
  match lines with
  | [] => Undef
  | l :: rest =>
      let lpath := default ""%string (ml_path l) in
      if starts_with_bracket lpath then Ok (mstart, msize) else
      if negb (String.eqb lpath wd) && negb (ml_na l =? 0) then Ok (mstart, msize) else
      e ← (if ml_na l =? 0 then
             match rest with
             | [] => Undef
             | nxt :: _ =>
                 if strstr (ml_text nxt) "libc-"
                 then if ml_end l <? 12288 then Spin else Ok (ml_end l - 12288)
                 else Ok (ml_end l)
             end
           else Ok (ml_end l));
      sum_regions wd rest (if mstart =? 0 then ml_start l else mstart)
                  (u64 (msize + (e - ml_start l)))
  end.

(** [None]: the module is not loaded and [*mstart], [*msize] are left alone. *)
Definition parse_proc (cwd gpath name lpath0 : string) (lines : list maps_line)
  : outcome (option (Z * Z)) :=
  let wd := module_path cwd gpath name in
  match find_line wd lpath0 lines with
  | None => Ok None
  | Some from => r ← sum_regions wd from 0 0; Ok (Some r)
  end.

(** ** The page map *)

(** The first line with "[heap]". *)
Fixpoint find_heap (lines : list maps_line) (i : nat) : option nat :=
  match lines with
  | [] => None
  | l :: rest => if strstr (ml_text l) "[heap]" then Some i else find_heap rest (S i)
  end.

(** The downward loop [for (i = max_lines-1; i >= 0; i--)] over the reversed
    lines: the index of the last line that contains [wd], or -1. *)
Fixpoint find_end (wd : string) (rlines : list maps_line) : Z :=
  match rlines with
  | [] => -1
  | l :: rest => if strstr (ml_text l) wd then Z.of_nat (length rest) else find_end wd rest
  end.

(** The loop that fills [mmap_cfg], one entry per page from address [a] on. *)
Fixpoint fill_mmap_cfg (a lo : Z) (n : nat) (b : cblock) (s : monitor) : outcome cblock :=
  match n with
  | O => Ok b
  | S n' =>
      id ← get_module_id (mem_to_lib a s) s;
      let id' := if id =? -1 then Z.lor (stack_to_lib_id_old a s) 128 else id in
      b' ← cb_set b (Z.shiftr (a - lo) 12) id';
      fill_mmap_cfg (a + 4096) lo n' b' s
  end.

Definition line_at (lines : list maps_line) (i : Z) : outcome maps_line :=
  match (if 0 <=? i then lines !! Z.to_nat i else None) with
  | Some l => Ok l
  | None => Undef
  end.

Definition pages_between (lo hi : Z) : nat := Z.to_nat ((hi - lo + 4095) / 4096).

(** [gen_memory_map] from the lines it has read; [malloc_ok] is the outcome of
    its [malloc]. *)
Definition gen_memory_map (malloc_ok : bool) (wd : string) (lines : list maps_line) : M monitor unit :=
  match find_heap lines 0 with
  | None => spin
  | Some i =>
      let begin_l := Z.of_nat i + 1 in
      let end_l := find_end wd (reverse lines) in
      if end_l =? 0 then spin else
      lb ← lift (line_at lines begin_l);
      le ← lift (line_at lines end_l);
      let lo := s64 (ml_start lb) in
      let hi := s64 (ml_end le) in
      if negb malloc_ok then spin else
      modify (set_mmap (Cblock (Z.shiftr (hi - lo) 12) (-1) ∅) lo hi);;
      s ← gets id;
      b ← lift (fill_mmap_cfg lo lo (pages_between lo hi) (mmap_cfg s) s);
      modify (set_mmap b lo hi)
  end.

(** ** Redirecting the PLT *)

(** An entry of the generated [hooks] table. *)
Record hooks_s := Hook { hk_func : string; hk_module : string; hk_hook : Z }.

(** While the PLTs are patched the state also holds the GOT slots. *)
Definition boot_state : Type := monitor * gmap Z Z.

Definition on_monitor {A} (m : M monitor A) : M boot_state A := fun bs =>
  match m bs.1 with
  | Ok (a, s) => Ok (a, (s, bs.2))
  | Spin => Spin
  | Abort => Abort
  | Undef => Undef
  end.

Definition slot_get (a : Z) : M boot_state Z := deref (fun bs => bs.2 !! a).
Definition slot_set (a v : Z) : M boot_state unit :=
  modify (fun bs => (bs.1, <[a := v]> bs.2)).

Section Patch.

(** [hooks] is the generated table; [perm_ok] says that the page of a slot is
    mapped and can be made writable; [dladdr_fbase] is the load address
    [dladdr] reports for a code address. *)
Context (hooks : list hooks_s) (perm_ok : Z -> bool) (dladdr_fbase : Z -> Z).

Fixpoint find_hook (l : list hooks_s) (module func : string) : option hooks_s :=
  match l with
  | [] => None
  | h :: l' => if String.eqb module (hk_module h) && String.eqb func (hk_func h)
               then Some h else find_hook l' module func
  end.

Definition install_hook (addr : Z) (module func : string) : M boot_state Z :=
  if mem_string module shared then mret 1 else
  match find_hook hooks module func with
  | Some h =>
      if hk_hook h =? 0 then mret 2 else
      if negb (perm_ok addr) then spin else
      slot_set addr (hk_hook h);; mret 0
  | None =>
      m ← lift (is_must module);
      if m : bool then mret 2 else spin
  end.

(** One iteration of the [plthook_enum] loop. *)
Definition patch_entry (id : Z) (filename : string) (entry : string * Z) : M boot_state unit :=
  let '(name, addr) := entry in
  target ← slot_get addr;
  lib ← gets (fun bs => mem_to_lib target bs.1);
  match lib with
  | None =>
      p ← on_monitor (get_pmap id);
      if negb (dladdr_fbase target =? pm_start p) then spin else
      on_monitor (put_pmap id (Pmap (pm_name p) (pm_start p)
        (u64 (Z.shiftl (Z.shiftr target 12 + 1) 12 - pm_start p)) (pm_pkey p) (pm_must p)
        (pm_stack_tab p) (pm_globals_tab p) (pm_heap_tab p)
        (pm_stack_nr p) (pm_globals_nr p) (pm_heap_nr p)))
  | Some lib =>
      if String.eqb filename lib then mret tt else
      ret ← install_hook addr lib name;
      if (ret =? 0) || (ret =? 1) || (ret =? 2) then mret tt else spin
  end.

Fixpoint patch_entries (id : Z) (filename : string) (plt : list (string * Z)) : M boot_state unit :=
  match plt with
  | [] => mret tt
  | e :: plt' => patch_entry id filename e;; patch_entries id filename plt'
  end.

(** [None]: [plthook_open] failed. *)
Definition patch_plt (id : Z) (plt : option (list (string * Z))) : M boot_state unit :=
  p ← on_monitor (get_pmap id);
  match plt with
  | None => mret tt
  | Some l => patch_entries id (pm_name p) l
  end.

(** ** The protection phase of [main] *)

Context (mprotect_ok : Z -> Z -> Z -> bool).
Context (plt_of : string -> option (list (string * Z))).

Fixpoint patch_and_protect (n : nat) (i : Z) : M boot_state unit :=
  match n with
  | O => mret tt
  | S n' =>
      p ← on_monitor (get_pmap i);
      (if negb (pm_size p =? 0) then
         patch_plt i (plt_of (pm_name p));;
         p' ← on_monitor (get_pmap i);
         if pm_must p' then on_monitor (prot_init mprotect_ok i) else mret tt
       else mret tt);;
      patch_and_protect n' (i + 1)
  end.

Fixpoint lock_all (n : nat) (i : Z) : M monitor unit :=
  match n with
  | O => mret tt
  | S n' =>
      p ← get_pmap i;
      (if pm_must p then cmp_lock i else mret tt);;
      lock_all n' (i + 1)
  end.

Definition protect_modules : M boot_state unit :=
  n ← gets (fun bs => pmap_max bs.1);
  patch_and_protect (Z.to_nat n) 0;;
  on_monitor (lock_all (Z.to_nat n) 0).

(** [cmp_unlock(get_module_id("liblinuxuplat.so"))]. *)
Definition unlock_platform : M monitor unit :=
  s ← gets id;
  mid ← lift (get_module_id (Some "liblinuxuplat.so"%string) s);
  cmp_unlock mid.

End Patch.

(** ** Isolated modules get distinct keys *)

(** No two isolated modules share a key, and none has a key the kernel may
    still hand out. *)
Definition keys_ok (s : monitor) : Prop :=
  length (pmap s) = PMAP_LEN /\ NoDup (free_pkeys s) /\
  (forall k, k ∈ free_pkeys s -> 1 <= k <= 15) /\
  (forall i p, pmap s !! i = Some p -> pm_must p = true ->
     1 <= pm_pkey p <= 15 /\ pm_pkey p ∉ free_pkeys s) /\
  (forall i j p q, pmap s !! i = Some p -> pmap s !! j = Some q ->
     pm_must p = true -> pm_must q = true -> pm_pkey p = pm_pkey q -> i = j).

Lemma put_pmap_ok mid p s s' :
  put_pmap mid p s = Ok (tt, s') ->
  0 <= mid /\ (Z.to_nat mid < length (pmap s))%nat /\
  s' = set_pmap (<[Z.to_nat mid := p]> (pmap s)) s.
Proof.
  unfold put_pmap. intros (q & s1 & [Hq ->]%deref_ok & H)%bind_ok.
  apply modify_ok in H. unfold pmap_at in Hq. destruct (Z.leb_spec 0 mid); [|done].
  split; [done|]. split; [by eapply lookup_lt_Some|done].
Qed.

Lemma keys_ok_shared s mid p :
  keys_ok s -> pm_must p = false -> keys_ok (set_pmap (<[mid := p]> (pmap s)) s).
Proof.
  intros (Hl & Hnd & Hf & Hm & Hinj) Hp. unfold keys_ok. simpl.
  split; [by rewrite length_insert|]. do 2 (split; [done|]). split.
  - intros i q [(-> & <- & ?)|[? Hq]]%list_lookup_insert_Some Hq'; [congruence|by eapply Hm].
  - intros i j q r [(-> & <- & ?)|[? Hq]]%list_lookup_insert_Some
      [(-> & <- & ?)|[? Hr]]%list_lookup_insert_Some ? ? ?; try congruence. by eapply Hinj.
Qed.

Lemma keys_ok_isolated s mid p k ks :
  keys_ok s -> free_pkeys s = k :: ks -> pm_pkey p = k ->
  keys_ok (set_pmap (<[mid := p]> (pmap s)) (set_free_pkeys ks s)).
Proof.
  intros (Hl & Hnd & Hf & Hm & Hinj) Hks Hk. unfold keys_ok. simpl.
  rewrite Hks in Hnd, Hf, Hm. apply NoDup_cons in Hnd as [Hk1 Hnd].
  split; [by rewrite length_insert|]. split; [done|]. split; [intros; apply Hf; set_solver|]. split.
  - intros i q [(-> & <- & ?)|[? Hq]]%list_lookup_insert_Some Hq'.
    + rewrite Hk. split; [apply Hf; set_solver|done].
    + destruct (Hm i q Hq Hq') as [? Hn]. split; [done|set_solver].
  - intros i j q r [(-> & <- & ?)|[? Hq]]%list_lookup_insert_Some
      [(-> & <- & ?)|[? Hr]]%list_lookup_insert_Some Hmq Hmr Heq.
    + done.
    + destruct (Hm j r Hr Hmr) as [_ Hn]. set_solver.
    + destruct (Hm i q Hq Hmq) as [_ Hn]. set_solver.
    + by eapply Hinj.
Qed.

Lemma scan_module_keys name s s' :
  keys_ok s -> scan_module name s = Ok (tt, s') -> keys_ok s'.
Proof.
  unfold scan_module. intros Hok H.
  destruct (String.eqb name "."); [by inv_ok|]. destruct (String.eqb name ".."); [by inv_ok|].
  apply bind_ok in H as (pmax & s1 & [-> ->]%gets_ok & H).
  apply bind_ok in H as (p & s1 & [Hp ->]%deref_ok & H).
  apply bind_ok in H as (m & s1 & [Hm ->]%lift_ok & H).
  apply bind_ok in H as ([] & s1 & (_ & _ & ->)%put_pmap_ok & H).
  apply bind_ok in H as ([] & s2 & H2 & H).
  assert (keys_ok s2) as Hok2.
  { destruct m; [|inv_ok; by apply keys_ok_shared].
    apply bind_ok in H2 as (k & s3 & Hk & H2). unfold pkey_alloc in Hk.
    apply bind_ok in Hk as (ks & s4 & [-> ->]%gets_ok & Hk). simpl in Hk.
    destruct (free_pkeys s) as [|k' ks] eqn:Hks; [by inv_ok|].
    apply bind_ok in Hk as ([] & s5 & ->%modify_ok & Hk). injection Hk as <- <-.
    destruct (k' =? -1); [done|]. apply put_pmap_ok in H2 as (_ & _ & ->). simpl.
    set (mid := Z.to_nat _). rewrite list_insert_insert_eq.
    apply (keys_ok_isolated _ mid _ k' ks Hok Hks). done. }
  destruct (_ =? -1); [|by inv_ok]. apply modify_ok in H as ->.
  destruct Hok2 as (? & ? & ? & ? & ?). done.
Qed.

Lemma scan_entries_keys names s s' :
  keys_ok s -> scan_entries names s = Ok (tt, s') -> keys_ok s'.
Proof.
  revert s. induction names as [|n names IH]; simpl; intros s Hok H; [by inv_ok|].
  apply bind_ok in H as ([] & s1 & H1 & H). apply scan_module_keys in H1; [|done]. by apply (IH s1).
Qed.

(** C26. Distinct keys: after [scan_modules] has filled the module table from any
    directory listing, starting with an empty table and distinct kernel keys,
    every isolated module has a valid non-zero protection key and no two
    isolated modules share one. *)
Theorem scan_modules_distinct_keys names s s' :
  pmap s = replicate PMAP_LEN pmap_zero -> NoDup (free_pkeys s) ->
  (forall k, k ∈ free_pkeys s -> 1 <= k <= 15) ->
  scan_modules (Some names) s = Ok (tt, s') ->
  (forall i p, pmap s' !! i = Some p -> pm_must p = true -> 1 <= pm_pkey p <= 15) /\
  (forall i j p q, pmap s' !! i = Some p -> pmap s' !! j = Some q -> i <> j ->
     pm_must p = true -> pm_must q = true -> pm_pkey p <> pm_pkey q).
Proof.
  intros Hp Hnd Hk Hrun. simpl in Hrun.
  assert (keys_ok s) as Hok.
  { split; [by rewrite Hp, length_replicate|]. split; [done|]. split; [done|].
    rewrite Hp. split.
    - by intros i p [-> _]%lookup_replicate.
    - by intros i j p q [-> _]%lookup_replicate. }
  apply scan_entries_keys in Hrun as (_ & _ & _ & Hm & Hinj); [|done]. split.
  - intros i p Hi Hmi. by apply (Hm i p).
  - intros i j p q Hi Hj Hij Hmi Hmj Heq. apply Hij. by apply (Hinj i j p q).
Qed.

Definition boot_monitor : monitor :=
  Monitor (replicate PMAP_LEN pmap_zero) E_END [] (Cblock 0 0 ∅) 0 0 (Cblock 0 0 ∅) 0 0
    ∅ ∅ [1; 2; 3; 4; 5; 6; 7; 8; 9; 10; 11; 12; 13; 14; 15] ∅ ∅.

Definition demo_dir : list string :=
  ["."; ".."; "app.so"; "libvfscore.so"; "libramfs.so"; "libnewlibc.so"; "liblinuxuplat.so"]%string.

Lemma scan_modules_distinct_keys_witness :
  exists s', scan_modules (Some demo_dir) boot_monitor = Ok (tt, s') /\
    (forall i p, pmap s' !! i = Some p -> pm_must p = true -> 1 <= pm_pkey p <= 15) /\
    (forall i j p q, pmap s' !! i = Some p -> pmap s' !! j = Some q -> i <> j ->
       pm_must p = true -> pm_must q = true -> pm_pkey p <> pm_pkey q).
Proof.
  eexists. split; [vm_compute; reflexivity|].
  apply (scan_modules_distinct_keys demo_dir boot_monitor).
  - reflexivity.
  - apply (bool_decide_unpack (NoDup (free_pkeys boot_monitor))). vm_compute. exact I.
  - intros k Hk. apply list_elem_of_In in Hk. simpl in Hk. lia.
  - vm_compute. reflexivity.
Defined.

(** ** Calls between modules go through the hooks *)

(** What a PLT slot of module [own] ends up with, [old] being its target and
    [lib] the module of that target. *)
Definition hooked_value (hooks : list hooks_s) (own lib func : string) (old : Z) : Z :=
  if String.eqb own lib then old else
  if mem_string lib shared then old else
  match find_hook hooks lib func with
  | Some h => if hk_hook h =? 0 then old else hk_hook h
  | None => old
  end.

Section PatchProofs.
Context (hooks : list hooks_s) (perm_ok : Z -> bool) (dladdr_fbase : Z -> Z).

Lemma install_hook_ok addr lib func s g r bs' :
  install_hook hooks perm_ok addr lib func (s, g) = Ok (r, bs') ->
  bs' = (s, if mem_string lib shared then g else
            match find_hook hooks lib func with
            | Some h => if hk_hook h =? 0 then g else <[addr := hk_hook h]> g
            | None => g
            end).
Proof.
  unfold install_hook. intros H. destruct (mem_string lib shared); [by inv_ok|].
  destruct (find_hook hooks lib func) as [h|].
  - destruct (hk_hook h =? 0); [by inv_ok|]. destruct (negb _); [done|].
    apply bind_ok in H as ([] & bs1 & ->%modify_ok & H). by inv_ok.
  - apply bind_ok in H as (m & bs1 & [_ ->]%lift_ok & H). destruct m; [by inv_ok|done].
Qed.

Lemma patch_entry_ok id own name a s g t lib bs' :
  g !! a = Some t -> mem_to_lib t s = Some lib ->
  patch_entry hooks perm_ok dladdr_fbase id own (name, a) (s, g) = Ok (tt, bs') ->
  bs' = (s, <[a := hooked_value hooks own lib name t]> g).
Proof.
  intros Ht Hlib H. unfold patch_entry in H.
  rewrite (bind_ret _ _ _ t (s, g)) in H by (by apply deref_ok).
  rewrite (bind_ret _ _ _ (Some lib) (s, g)) in H by (by apply gets_ok).
  unfold hooked_value. destruct (String.eqb own lib).
  { inv_ok. by rewrite insert_id. }
  apply bind_ok in H as (r & bs1 & ->%install_hook_ok & H).
  destruct (_ || _); [|done]. destruct (mem_string lib shared).
  { inv_ok. by rewrite insert_id. }
  destruct (find_hook hooks lib name) as [h|]; [|inv_ok; by rewrite insert_id].
  destruct (hk_hook h =? 0); inv_ok; [by rewrite insert_id|done].
Qed.

Lemma patch_entries_ok id own plt s g bs' :
  NoDup plt.*2 ->
  (forall name a, (name, a) ∈ plt -> exists t lib, g !! a = Some t /\ mem_to_lib t s = Some lib) ->
  patch_entries hooks perm_ok dladdr_fbase id own plt (s, g) = Ok (tt, bs') ->
  bs'.1 = s /\
  (forall name a t lib, (name, a) ∈ plt -> g !! a = Some t -> mem_to_lib t s = Some lib ->
     bs'.2 !! a = Some (hooked_value hooks own lib name t)) /\
  (forall a, a ∉ plt.*2 -> bs'.2 !! a = g !! a).
Proof.
  revert g. induction plt as [|[name a] plt IH]; simpl; intros g Hnd Hall H.
  { inv_ok. split; [done|]. split; [|done]. intros. set_solver. }
  apply NoDup_cons in Hnd as [Ha Hnd].
  destruct (Hall name a ltac:(set_solver)) as (t & lib & Ht & Hlib).
  apply bind_ok in H as ([] & bs1 & H1 & H).
  apply (patch_entry_ok _ _ _ _ _ _ t lib) in H1 as ->; [|done|done].
  set (g1 := <[a := _]> g) in H.
  assert (Hkeep : forall b, b <> a -> g1 !! b = g !! b) by (intros b Hb; unfold g1; by rewrite lookup_insert_ne).
  apply IH in H as (Hs & Hin & Hout); [|done|].
  - split; [done|]. split.
    + intros name' a' t' lib' [Heq|Hin']%elem_of_cons Ht' Hlib'.
      * injection Heq as -> ->. rewrite Hout by done. unfold g1. rewrite lookup_insert_eq. congruence.
      * assert (a' <> a) as Hne.
        { intros ->. apply Ha. apply list_elem_of_fmap. by exists (name', a). }
        apply (Hin name' a' t' lib'); [done| |done]. by rewrite Hkeep.
    + intros b Hb. rewrite Hout by set_solver. apply Hkeep. set_solver.
  - intros name' a' Hin'. destruct (Hall name' a' ltac:(set_solver)) as (t' & lib' & Ht' & Hlib').
    exists t', lib'. split; [|done]. rewrite Hkeep; [done|].
    intros ->. apply Ha. apply list_elem_of_fmap. by exists (name', a).
Qed.

(** C27. Control-flow redirection: when every import of a module resolves to a loaded
    module, [patch_plt] leaves the module table alone and sets each PLT slot to the hook
    of the imported function if the function lives in another, isolated module and has a
    hook; imports of the module itself, of shared modules and of functions without a
    hook keep their target, and slots outside the module's PLT are not touched. The
    slots of the PLT are distinct, and the patching returns. *)
Theorem patch_plt_redirects id p plt s g s' g' :
  pmap_at id s = Some p -> NoDup plt.*2 ->
  (forall name a, (name, a) ∈ plt -> exists t lib, g !! a = Some t /\ mem_to_lib t s = Some lib) ->
  patch_plt hooks perm_ok dladdr_fbase id (Some plt) (s, g) = Ok (tt, (s', g')) ->
  s' = s /\
  (forall name a t lib, (name, a) ∈ plt -> g !! a = Some t -> mem_to_lib t s = Some lib ->
     g' !! a = Some (hooked_value hooks (pm_name p) lib name t)) /\
  (forall a, a ∉ plt.*2 -> g' !! a = g !! a).
Proof.
  intros Hp Hnd Hall H. unfold patch_plt in H.
  rewrite (bind_ret _ _ _ p (s, g)) in H.
  2:{ unfold on_monitor, get_pmap, deref. simpl. by rewrite Hp. }
  by apply patch_entries_ok in H.
Qed.

End PatchProofs.

(** A small system: the application, two isolated libraries and a shared one. *)
Definition small_mod (name : string) (start : Z) (key : Z) : proc_map_s :=
  Pmap name start 4096 key (negb (key =? 0)) 0 0 0 0 0 0.

Definition small_monitor : monitor :=
  set_pmap (<[26%nat := small_mod "libnewlibc.so" 16384 0]>
            (<[21%nat := small_mod "libvfscore.so" 12288 3]>
            (<[19%nat := small_mod "liblinuxuplat.so" 8192 2]>
            (<[0%nat := small_mod "app.so" 4096 1]> (replicate PMAP_LEN pmap_zero)))))
    (set_pmap_max 27 (set_stacks [Smap "libvfscore.so" 24576 4096 21] boot_monitor)).

Definition small_hooks : list hooks_s :=
  [Hook "open" "libvfscore.so" 90000; Hook "memcpy" "libnewlibc.so" 90008; Hook "ioctl" "libvfscore.so" 0].

Definition small_plt : list (string * Z) :=
  [("open", 100); ("memcpy", 108); ("ioctl", 116); ("helper", 124)]%string.

Definition small_got : gmap Z Z := list_to_map [(100, 12300); (108, 16400); (116, 12304); (124, 4100); (132, 12300)].

Lemma patch_plt_redirects_witness :
  exists s' g',
    patch_plt small_hooks (fun _ => true) (fun _ => 0) 0 (Some small_plt) (small_monitor, small_got)
      = Ok (tt, (s', g')) /\
    s' = small_monitor /\
    (forall name a t lib, (name, a) ∈ small_plt -> small_got !! a = Some t ->
       mem_to_lib t small_monitor = Some lib ->
       g' !! a = Some (hooked_value small_hooks "app.so" lib name t)) /\
    (forall a, a ∉ small_plt.*2 -> g' !! a = small_got !! a).
Proof.
  eexists _, _. split; [vm_compute; reflexivity|].
  apply (patch_plt_redirects small_hooks (fun _ => true) (fun _ => 0) 0
           (small_mod "app.so" 4096 1) small_plt small_monitor small_got).
  - reflexivity.
  - apply (bool_decide_unpack (NoDup small_plt.*2)). vm_compute. exact I.
  - intros name a Hin. apply list_elem_of_In in Hin. simpl in Hin.
    destruct Hin as [E|[E|[E|[E|[]]]]]; injection E as <- <-; eexists _, _;
      (split; [vm_compute; reflexivity|vm_compute; reflexivity]).
  - vm_compute. reflexivity.
Defined.

(** ** Every cubicle is locked before the system starts *)

Lemma lock_all_ok n i s s' :
  0 <= i -> lock_all n i s = Ok (tt, s') ->
  pmap s' = pmap s /\ pmap_max s' = pmap_max s /\
  (forall k, pkru s !! k = Some PKEY_DISABLE_ACCESS -> pkru s' !! k = Some PKEY_DISABLE_ACCESS) /\
  (forall j p, i <= j < i + Z.of_nat n -> pmap_at j s = Some p -> pm_must p = true ->
     pkru s' !! pm_pkey p = Some PKEY_DISABLE_ACCESS).
Proof.
  revert i s. induction n as [|n IH]; intros i s Hi H; simpl in H.
  { inv_ok. do 3 (split; [done|]). intros. lia. }
  apply bind_ok in H as (p & s1 & [Hp ->]%deref_ok & H).
  apply bind_ok in H as ([] & s1 & H1 & H). apply IH in H as (Hpm & Hmax & Hkeep & Hall); [|lia].
  assert (pmap s1 = pmap s /\ pmap_max s1 = pmap_max s /\
          (forall k, pkru s !! k = Some PKEY_DISABLE_ACCESS -> pkru s1 !! k = Some PKEY_DISABLE_ACCESS) /\
          (pm_must p = true -> pkru s1 !! pm_pkey p = Some PKEY_DISABLE_ACCESS))
    as (Hpm1 & Hmax1 & Hkeep1 & Hp1).
  { destruct (pm_must p); [|by inv_ok]. apply cmp_lock_ok in H1 as (q & Hq & _ & ->).
    simpl. do 2 (split; [done|]). split.
    - intros k Hk. destruct (decide (k = pm_pkey q)) as [->|]; [by rewrite lookup_insert_eq|by rewrite lookup_insert_ne].
    - intros _. rewrite Hp in Hq. injection Hq as ->. by rewrite lookup_insert_eq. }
  rewrite Hpm, Hmax. split; [done|]. split; [done|]. split; [auto|].
  intros j q Hj Hq Hm. destruct (decide (j = i)) as [->|].
  - apply Hkeep. rewrite Hp in Hq. injection Hq as <-. auto.
  - apply (Hall j q); [lia| |done]. unfold pmap_at in *. by rewrite Hpm1.
Qed.

(** C28. Start-up isolation: once the boot loop has locked the modules and the platform
    has been unlocked, the platform's key is open and the keys of all other isolated
    modules deny every access. The isolated modules have distinct valid keys, the
    platform is one of them, and locking and unlocking return. *)
Theorem boot_leaves_only_platform_open n s s1 s2 mid pl :
  pmap_max s = Z.of_nat n -> keys_ok s ->
  get_module_id (Some "liblinuxuplat.so"%string) s = Ok mid -> pmap_at mid s = Some pl ->
  pm_must pl = true ->
  lock_all n 0 s = Ok (tt, s1) -> unlock_platform s1 = Ok (tt, s2) ->
  pkru s2 !! pm_pkey pl = Some 0 /\
  (forall j p, 0 <= j < Z.of_nat n -> j <> mid -> pmap_at j s = Some p -> pm_must p = true ->
     pkru s2 !! pm_pkey p = Some PKEY_DISABLE_ACCESS).
Proof.
  intros Hn (_ & _ & _ & _ & Hinj) Hmid Hpl Hm H1 H2.
  apply lock_all_ok in H1 as (Hpm & Hmax & _ & Hall); [|lia].
  apply bind_ok in H2 as (s3 & s4 & [-> ->]%gets_ok & H2).
  apply bind_ok in H2 as (mid' & s5 & [Hid ->]%lift_ok & H2).
  unfold get_module_id in Hmid, Hid. unfold id in Hid. rewrite Hpm, Hmax, Hmid in Hid. injection Hid as <-.
  apply cmp_unlock_ok in H2 as (q & Hq & _ & ->). unfold pmap_at in Hq, Hpl. rewrite Hpm, Hpl in Hq.
  injection Hq as <-. simpl. split; [by rewrite lookup_insert_eq|].
  intros j p Hj Hne Hp Hmp. rewrite lookup_insert_ne; [by apply (Hall j p)|].
  intros Heq. unfold pmap_at in Hp. destruct (Z.leb_spec 0 mid); [|done]. destruct (Z.leb_spec 0 j); [|lia].
  assert (Z.to_nat mid = Z.to_nat j) by (by eapply Hinj). lia.
Qed.

Definition booted : monitor :=
  match scan_entries demo_dir boot_monitor with Ok (_, s) => s | _ => boot_monitor end.

Lemma keys_ok_booted : keys_ok booted.
Proof.
  apply (scan_entries_keys demo_dir boot_monitor).
  - split; [reflexivity|]. split; [apply (bool_decide_unpack (NoDup _)); vm_compute; exact I|].
    split; [intros k Hk; apply list_elem_of_In in Hk; simpl in Hk; lia|].
    change (pmap boot_monitor) with (replicate PMAP_LEN pmap_zero).
    split; [by intros i p [-> _]%lookup_replicate|by intros i j p q [-> _]%lookup_replicate].
  - vm_compute. reflexivity.
Qed.

Lemma boot_leaves_only_platform_open_witness :
  exists s1 s2 pl,
    lock_all 27 0 booted = Ok (tt, s1) /\ unlock_platform s1 = Ok (tt, s2) /\
    pmap_at 19 booted = Some pl /\
    pkru s2 !! pm_pkey pl = Some 0 /\
    (forall j p, 0 <= j < 27 -> j <> 19 -> pmap_at j booted = Some p -> pm_must p = true ->
       pkru s2 !! pm_pkey p = Some PKEY_DISABLE_ACCESS).
Proof.
  eexists _, _, _. split; [vm_compute; reflexivity|]. split; [vm_compute; reflexivity|].
  split; [vm_compute; reflexivity|].
  eapply (boot_leaves_only_platform_open 27 booted).
  - vm_compute. reflexivity.
  - exact keys_ok_booted.
  - vm_compute. reflexivity.
  - vm_compute. reflexivity.
  - reflexivity.
  - vm_compute. reflexivity.
  - vm_compute. reflexivity.
Defined.

(** ** The page map *)

(** The entry the loop of [gen_memory_map] computes for the page at [a]. *)
Definition page_tag (a : Z) (s : monitor) : outcome Z :=
  id ← get_module_id (mem_to_lib a s) s;
  Ok (schar (if id =? -1 then Z.lor (stack_to_lib_id_old a s) 128 else id)).

Lemma shiftr_pages k : Z.shiftr (4096 * k) 12 = k.
Proof. rewrite Z.shiftr_div_pow2 by lia. change (2 ^ 12) with 4096. rewrite Z.mul_comm. by apply Z.div_mul. Qed.

Lemma fill_mmap_cfg_ok s lo n j b b' :
  0 <= j -> fill_mmap_cfg (lo + 4096 * j) lo n b s = Ok b' ->
  cb_len b' = cb_len b /\ cb_fill b' = cb_fill b /\
  (forall i, i < j \/ j + Z.of_nat n <= i -> cb_data b' !! i = cb_data b !! i) /\
  (forall i, j <= i < j + Z.of_nat n -> exists v,
     page_tag (lo + 4096 * i) s = Ok v /\ 0 <= i < cb_len b /\ cb_data b' !! i = Some v).
Proof.
  revert j b. induction n as [|n IH]; intros j b Hj H; simpl in H.
  { injection H as <-. do 3 (split; [done|]). intros. lia. }
  destruct (get_module_id (mem_to_lib (lo + 4096 * j) s) s) as [id| | |] eqn:Hid; try done. simpl in H.
  replace (lo + 4096 * j - lo) with (4096 * j) in H by lia. rewrite shiftr_pages in H.
  unfold cb_set in H. destruct ((0 <=? j) && (j <? cb_len b)) eqn:Hr; [|done]. simpl in H.
  set (v := schar _) in H.
  replace (lo + 4096 * j + 4096) with (lo + 4096 * (j + 1)) in H by lia.
  apply IH in H as (Hlen & Hfill & Hout & Hin); [|lia]. simpl in *.
  split; [done|]. split; [done|]. split.
  - intros i Hi. rewrite Hout by lia. rewrite lookup_insert_ne by lia. done.
  - intros i Hi. destruct (decide (i = j)) as [->|].
    + exists v. unfold page_tag. rewrite Hid. split; [done|]. split; [lia|].
      rewrite Hout by lia. by rewrite lookup_insert_eq.
    + destruct (Hin i ltac:(lia)) as (w & ? & ? & ?). eauto.
Qed.

(** Reading a byte of the page map back. *)
Lemma tag_module_bits id : 0 <= id < 128 -> schar id = id /\ Z.land id 128 = 0.
Proof.
  intros H. assert (Forall (fun z => schar z = z /\ Z.land z 128 = 0) (seqZ 0 128)) as HF.
  { apply (bool_decide_unpack (Forall _ _)). vm_compute. exact I. }
  rewrite Forall_forall in HF. apply HF, elem_of_seqZ. lia.
Qed.

Lemma tag_stack_bits mid :
  0 <= mid < 128 ->
  let v := schar (Z.lor mid 128) in Z.land v 128 = 128 /\ Z.land v 127 = mid.
Proof.
  intros H. assert (Forall (fun z => let v := schar (Z.lor z 128) in Z.land v 128 = 128 /\ Z.land v 127 = z)
                      (seqZ 0 128)) as HF.
  { apply (bool_decide_unpack (Forall (fun z => Z.land (schar (Z.lor z 128)) 128 = 128 /\
                                         Z.land (schar (Z.lor z 128)) 127 = z) _)). vm_compute. exact I. }
  rewrite Forall_forall in HF. apply HF, elem_of_seqZ. lia.
Qed.

Lemma gen_memory_map_entry malloc_ok wd lines s s' a :
  gen_memory_map malloc_ok wd lines s = Ok (tt, s') -> in_mmap a s' = true ->
  pmap s' = pmap s /\
  exists v, page_tag (mmap_start s' + 4096 * Z.shiftr (a - mmap_start s') 12)
              (set_mmap (Cblock (Z.shiftr (mmap_end s' - mmap_start s') 12) (-1) ∅)
                        (mmap_start s') (mmap_end s') s) = Ok v /\
            mmap_entry a s' = Ok v.
Proof.
  unfold gen_memory_map. intros H Ha. destruct (find_heap lines 0) as [h|]; [|done].
  destruct (_ =? 0); [done|].
  apply bind_ok in H as (lb & s1 & [_ ->]%lift_ok & H).
  apply bind_ok in H as (le & s1 & [_ ->]%lift_ok & H). destruct (negb malloc_ok); [done|].
  set (lo := s64 (ml_start lb)) in *. set (hi := s64 (ml_end le)) in *. clearbody lo hi.
  apply bind_ok in H as ([] & s1 & ->%modify_ok & H).
  apply bind_ok in H as (s2 & s3 & [-> ->]%gets_ok & H).
  apply bind_ok in H as (b & s4 & [Hb ->]%lift_ok & H). apply modify_ok in H as ->.
  unfold id in *. simpl in *. split; [done|]. unfold in_mmap, mmap_entry in *. simpl in *.
  pose proof (fill_mmap_cfg_ok (set_mmap (Cblock (Z.shiftr (hi - lo) 12) (-1) ∅) lo hi s)
                lo (pages_between lo hi) 0 (Cblock (Z.shiftr (hi - lo) 12) (-1) ∅) b) as Hf.
  replace (lo + 4096 * 0) with lo in Hf by lia. specialize (Hf ltac:(lia) Hb). clear Hb.
  destruct Hf as (Hlen & _ & _ & Hin).
  destruct (Hin (Z.shiftr (a - lo) 12)) as (v & Hv & Hr & Hd).
  { unfold pages_between. rewrite Z.shiftr_div_pow2 by lia. change (2 ^ 12) with 4096.
    apply andb_prop in Ha as [?%Z.leb_le ?%Z.ltb_lt].
    divlia. }
  exists v. split; [done|]. unfold cb_get. rewrite Hlen, Hd.
  by replace (_ && _) with true by lia.
Qed.

(** The page map answers as it should for owned pages: after
    [gen_memory_map] a page of a loaded module is reported as that module's
    code or data and as nobody's stack; a page of a registered stack is
    reported as the stack of its owner and as nobody's data.  A page of
    neither kind is reported by [stack_to_lib] as unowned, but
    [stack_to_lib_id] reports it as the stack of cubicle 127. *)
Theorem memory_map_classifies malloc_ok wd lines s s' a :
  gen_memory_map malloc_ok wd lines s = Ok (tt, s') -> in_mmap a s' = true ->
  let page := mmap_start s' + 4096 * Z.shiftr (a - mmap_start s') 12 in
  (forall id, get_module_id (mem_to_lib page s) s = Ok id -> 0 <= id < 128 ->
     mem_to_lib_id a s' = Ok id /\ stack_to_lib_id a s' = Ok (-1)) /\
  (forall mid, get_module_id (mem_to_lib page s) s = Ok (-1) ->
     stack_to_lib_id_old page s = mid -> 0 <= mid < 128 ->
     mem_to_lib_id a s' = Ok (-1) /\ stack_to_lib_id a s' = Ok mid) /\
  (get_module_id (mem_to_lib page s) s = Ok (-1) -> stack_to_lib_id_old page s = -1 ->
     mem_to_lib_id a s' = Ok (-1) /\ stack_to_lib a s' = Ok None /\ stack_to_lib_id a s' = Ok 127).
Proof.
  intros H Ha page. apply (gen_memory_map_entry _ _ _ _ _ a) in H as (_ & v & Hv & He); [|done].
  unfold page_tag in Hv. fold page in Hv. unfold mem_to_lib_id, stack_to_lib_id, stack_to_lib.
  rewrite Ha, He. simpl.
  unfold get_module_id, mem_to_lib, stack_to_lib_id_old in *. simpl in Hv. split_and!.
  - intros id Hid Hr. rewrite Hid in Hv. simpl in Hv.
    replace (id =? -1) with false in Hv by lia. injection Hv as <-.
    by destruct (tag_module_bits id Hr) as [-> ->].
  - intros mid Hid Hmid Hr. rewrite Hid in Hv. simpl in Hv. rewrite Hmid in Hv.
    injection Hv as <-. by destruct (tag_stack_bits mid Hr) as [-> ->].
  - intros Hid Hmid. rewrite Hid in Hv. simpl in Hv. rewrite Hmid in Hv. injection Hv as <-. done.
Qed.

Definition small_maps : list maps_line :=
  [Mline "1000-2000 rw-p 0 00:00 0 [heap]" 4096 8192 0 (Some "[heap]"%string);
   Mline "1000-5000 r-xp 0 08:01 7 /w/build/app.so" 4096 20480 7 (Some "/w/build/app.so"%string);
   Mline "5000-7000 rw-p 0 08:01 7 /w/build/libvfscore.so" 20480 28672 7 (Some "/w/build/libvfscore.so"%string)].

Lemma memory_map_classifies_witness :
  exists s', gen_memory_map true "/w/build" small_maps small_monitor = Ok (tt, s') /\
    (mem_to_lib_id 12300 s' = Ok 21 /\ stack_to_lib_id 12300 s' = Ok (-1)) /\
    (mem_to_lib_id 24580 s' = Ok (-1) /\ stack_to_lib_id 24580 s' = Ok 21) /\
    (mem_to_lib_id 20484 s' = Ok (-1) /\ stack_to_lib 20484 s' = Ok None /\ stack_to_lib_id 20484 s' = Ok 127).
Proof.
  eexists. split; [vm_compute; reflexivity|]. split; [|split].
  - apply (memory_map_classifies true "/w/build" small_maps small_monitor _ 12300);
      vm_compute; done.
  - apply (memory_map_classifies true "/w/build" small_maps small_monitor _ 24580);
      vm_compute; done.
  - apply (memory_map_classifies true "/w/build" small_maps small_monitor _ 20484);
      vm_compute; done.
Defined.

(** An instruction of shared code whose stack pointer lies in an unowned page
    makes the fault handler index the module table out of bounds. *)
Definition orphan_monitor : monitor :=
  match gen_memory_map true "/w/build" small_maps small_monitor with Ok (_, s) => s | _ => small_monitor end.

(** The fault handler is not defensive against unowned stacks: in a booted
    system there is a fault (shared library code running with its stack pointer
    in an unowned page, touching another module) on which [sig_handler] reads
    outside the module table. *)
Theorem orphan_stack_undefined :
  stack_to_lib_id 20484 orphan_monitor = Ok 127 /\ pmap_at 127 orphan_monitor = None /\
  sig_handler mprotect_all 16400 20484 12300 orphan_monitor = Undef.
Proof. split_and!; vm_compute; reflexivity. Qed.

(** The missing-end check of [gen_memory_map] tests for index 0 instead of
    a negative index: when no line of the map contains the working directory
    the function indexes [lines] at -1 instead of reporting the error, and when
    the match is the first line it reports an error although the end was found. *)
Theorem memory_map_end_check wd lines s h :
  find_heap lines 0 = Some h -> (S h < length lines)%nat ->
  (find_end wd (reverse lines) = -1 -> gen_memory_map true wd lines s = Undef) /\
  (find_end wd (reverse lines) = 0 -> gen_memory_map true wd lines s = Spin).
Proof.
  intros Hh Hl. unfold gen_memory_map. rewrite Hh.
  destruct (lookup_lt_is_Some_2 lines (S h) Hl) as [lb Hlb].
  split; intros ->; simpl; [|done].
  rewrite (bind_ret _ _ _ lb s); [done|].
  unfold line_at. replace (0 <=? Z.of_nat h + 1) with true by lia.
  replace (Z.to_nat (Z.of_nat h + 1)) with (S h) by lia. by rewrite Hlb.
Qed.

Lemma memory_map_end_check_witness :
  gen_memory_map true "/elsewhere" small_maps small_monitor = Undef.
Proof.
  apply (memory_map_end_check "/elsewhere" small_maps small_monitor 0); vm_compute; [reflexivity|lia|reflexivity].
Defined.
