(* ===== verification/CrossCall.v ===== *)
(** Calls across cubicles: the hook that kernel/fig.py generates for every
    exported function ([hooked_<name>] and [_<name>_entry_point], with the code that
    [get_hook], [gen_pre_wrap] and [gen_post_wrap] put into the hooks of particular
    functions) and the coroutine switch it uses (kernel/coro.h).

    A call tree is executed with the protection keys as the hooks set them; the
    theorems show that each function runs with exactly the key of its own cubicle
    open, and that a call restores the state of its caller but for the memory that
    the hooks of the allocator hand over. *)
From S2P Require Import Prelude Windows Monitor Faults Boot.
From stdpp Require Import base numbers strings gmap list.
#[local] Open Scope Z_scope.

(** ** State *)

Inductive coro_state_t : Type :=
| CORO_NEW
| CORO_RUNNING
| CORO_FINISHED.

#[global] Instance coro_state_eq_dec : EqDecision coro_state_t.
Proof. solve_decision. Defined.

(** The globals of the generated code: one coroutine per hooked function.  [words] is
    the memory that the hooks read. *)
Record xstate := Xstate {
  xmon : monitor;
  layer : Z;
  prev_module : list Z;          (* enum modules prev_module[16] *)
  remap : list Z;                (* char remap[E_END] *)
  coros : gmap Z coro_state_t;
  words : gmap Z Z               (* address -> 64-bit word *)
}.

Definition MAX_LAYERS : nat := 16.

Definition set_xmon (m : monitor) (s : xstate) : xstate :=
  Xstate m (layer s) (prev_module s) (remap s) (coros s) (words s).

Definition on_mon {A} (m : M monitor A) : M xstate A := fun s =>
  match m (xmon s) with
  | Ok (a, x) => Ok (a, set_xmon x s)
  | Spin => Spin
  | Abort => Abort
  | Undef => Undef
  end.

Definition get_prev (i : Z) : M xstate Z := deref (fun s => arr_at (prev_module s) i).
Definition set_prev (i v : Z) : M xstate unit :=
  _ ← get_prev i;
  modify (fun s => Xstate (xmon s) (layer s) (<[Z.to_nat i := v]> (prev_module s)) (remap s) (coros s) (words s)).
Definition get_remap (m : Z) : M xstate Z := deref (fun s => arr_at (remap s) m).
Definition set_layer (v : Z) : M xstate unit :=
  modify (fun s => Xstate (xmon s) v (prev_module s) (remap s) (coros s) (words s)).
Definition set_coro (fn : Z) (c : coro_state_t) : M xstate unit :=
  modify (fun s => Xstate (xmon s) (layer s) (prev_module s) (remap s) (<[fn := c]> (coros s)) (words s)).
Definition get_word (a : Z) : M xstate Z := deref (fun s => words s !! u64 a).
Definition set_word (a v : Z) : M xstate unit :=
  modify (fun s => Xstate (xmon s) (layer s) (prev_module s) (remap s) (coros s) (<[u64 a := u64 v]> (words s))).

(** ** Coroutines *)

(** [coro_yield] from the entry point: control goes back to [coro_resume]. *)
Definition coro_yield (fn : Z) : M xstate unit := mret tt.

(** [coro_resume]: the entry point runs until it yields. *)
Definition coro_resume {A} (fn : Z) (entry : M xstate A) (zero : A) : M xstate A :=
  c ← gets (fun s => coros s !! fn);
  match c with
  | None => undef
  | Some CORO_FINISHED => mret zero
  | Some CORO_NEW => set_coro fn CORO_RUNNING;; entry
  | Some CORO_RUNNING => entry
  end.

(** ** Hooks *)

(** What a build fixes: the modules that it puts into one cubicle, and for each exported
    function the [E_<module>] constant in its hook and the names of its library and of the
    function.  [mprotect_ok] is the kernel's answer to [pkey_mprotect], [host_dl] what the
    host's dynamic loader returns for [dlsym2] and [dlopen2]. *)
Record image := Image {
  mprotect_ok : Z -> Z -> Z -> bool;
  flist : list Z;
  fn_module : Z -> Z;
  fn_lib : Z -> string;
  fn_name : Z -> string;
  host_dl : string -> Z -> Z -> Z
}.

(** [friends]. *)
Definition friends (flist : list Z) (a b : Z) : bool :=
  (a =? b) || (existsb (Z.eqb a) flist && existsb (Z.eqb b) flist).

Section Hooks.
Context (im : image).

(** The [{pre_hook}] of a function: the value that its hook returns at once. *)
Definition get_hook (module name : string) (arg0 arg1 : Z) : option Z :=
  if bool_decide (name = "ukplat_lcpu_restore_irqf" /\ module = "linuxuplat")%string then Some 0 else
  if bool_decide (name = "ukplat_lcpu_save_irqf" /\ module = "linuxuplat")%string then Some 0 else
  if bool_decide (name = "dlsym2" /\ module = "posix_libdl")%string then Some (host_dl im name arg0 arg1) else
  if bool_decide (name = "dlopen2" /\ module = "posix_libdl")%string then Some (host_dl im name arg0 arg1) else
  None.

(** An attach made by a hook, which is recorded. *)
Definition attach_now (a : attach) : M xstate (list attach) := on_mon (do_attach (mprotect_ok im) a);; mret [a].

(** [struct metadata_ifpages]: the number of pages and the start of the run. *)
Definition SIZEOF_METADATA_IFPAGES : Z := 16.

(** The module [mid] gets the page of the metadata [tmp], by [first], and then the run of
    pages that the metadata describe, less [fix] pages. *)
Definition attach_run (first : attach) (mid tmp fix_ : Z) : M xstate (list attach) :=
  a ← attach_now first;
  base ← get_word (tmp + 8);
  num_pages ← get_word tmp;
  b ← attach_now (HeapAttach mid (s64 base) (u64 (u64 (num_pages - fix_) * 4096)));
  mret (a ++ b).

(** Where the [{pre_wrap}] of a function looks for metadata; [None] if it does nothing. *)
Definition pre_metadata (module name : string) (arg1 : Z) : option Z :=
  if bool_decide (module = "ukalloc" /\ name = "uk_free_ifpages")%string then
    if arg1 =? 0 then None else
    Some (u64 (arg1 - (if negb (Z.land arg1 4095 =? 0) then SIZEOF_METADATA_IFPAGES else 4096)))
  else if bool_decide (module = "ukalloc" /\ name = "uk_realloc_ifpages")%string then
    if arg1 =? 0 then None else Some (u64 (arg1 - SIZEOF_METADATA_IFPAGES))
  else None.

Definition gen_pre_wrap (module name : string) (callee arg1 : Z) : M xstate (list attach) :=
  match pre_metadata module name arg1 with
  | None => mret []
  | Some tmp => attach_run (PageAttach callee tmp 4096) callee tmp 0
  end.

(** [remap[prev_module[layer-1]]]. *)
Definition caller_id : M xstate Z := l ← gets layer; pm ← get_prev (l - 1); get_remap pm.

(** The metadata of an object that [uk_posix_memalign_ifpages] has returned, and [fix]. *)
Definition memalign_metadata (ptr : Z) : Z * Z :=
  let page_begin := Z.shiftl (Z.shiftr ptr 12) 12 in
  if page_begin =? ptr then (u64 (page_begin - 4096), 1) else (page_begin, 0).

(** The [{post_wrap}] of a function. *)
Definition gen_post_wrap (module name : string) (arg0 arg1 ret : Z) : M xstate (list attach) :=
  if bool_decide (module = "ukalloc" /\ name = "uk_posix_memalign_ifpages")%string then
    if negb (ret =? 0) then mret [] else
    ptr ← get_word arg1;
    let '(tmp, fix_) := memalign_metadata ptr in
    caller ← caller_id;
    attach_run (PageAttach caller tmp 4096) caller tmp fix_
  else if bool_decide (module = "ukalloc" /\ (name = "uk_malloc_ifpages" \/ name = "uk_calloc_compat"))%string then
    if ret =? 0 then mret [] else
    let tmp := u64 (ret - SIZEOF_METADATA_IFPAGES) in
    caller ← caller_id;
    attach_run (PageAttach caller tmp 4096) caller tmp 0
  else if bool_decide (module = "ukalloc" /\ name = "uk_realloc_ifpages")%string then
    if ret =? 0 then mret [] else
    let tmp := u64 (ret - SIZEOF_METADATA_IFPAGES) in
    caller ← caller_id;
    attach_run (HeapAttach caller (s64 tmp) 4096) caller tmp 0
  else if bool_decide (module = "linuxuplat" /\ name = "ukplat_memregion_get")%string then
    if ret =? 4294967295 then mret [] else
    caller ← caller_id;
    a ← attach_now (PageAttach caller arg1 4096);
    base ← get_word arg1;
    len ← get_word (arg1 + 8);
    b ← attach_now (HeapSetup (s64 base) len);
    mret (a ++ b)
  else mret [].

(** [_<name>_entry_point]: [run] is the hooked function. *)
Definition entry_point {A} (fn : Z) (run : M xstate A) : M xstate A :=
  l ← gets layer;
  pm ← get_prev (l - 1);
  prev ← get_remap pm;
  on_mon (cmp_lock prev);;
  r ← run;
  on_mon (cmp_unlock prev);;
  set_coro fn CORO_FINISHED;;
  coro_yield fn;;
  mret r.

(** [hooked_<name>], with the return value of the call, what [run] produced, and the attaches
    made before and after it.  The hook of a function whose coroutine is suspended in an
    outer call builds the new context on the stack that call still uses. *)
Definition hooked {A} (fn arg0 arg1 : Z) (run : M xstate (Z * A)) (zero : A)
  : M xstate (Z * (list attach * A * list attach)) :=
  match get_hook (fn_lib im fn) (fn_name im fn) arg0 arg1 with
  | Some v => mret (v, ([], zero, []))
  | None =>
      l ← gets layer;
      pm ← get_prev l;
      if friends (flist im) pm (fn_module im fn) then r ← run; mret (r.1, ([], r.2, [])) else
      set_layer (l + 1);;
      set_prev (l + 1) (fn_module im fn);;
      c ← gets (fun s => coros s !! fn);
      if decide (c = None \/ c = Some CORO_RUNNING) then undef else
      set_coro fn CORO_NEW;;
      callee ← get_remap (fn_module im fn);
      on_mon (cmp_unlock callee);;
      pre ← gen_pre_wrap (fn_lib im fn) (fn_name im fn) callee arg1;
      ret ← coro_resume fn (entry_point fn run) (0, zero);
      on_mon (cmp_lock callee);;
      post ← gen_post_wrap (fn_lib im fn) (fn_name im fn) arg0 arg1 ret.1;
      l' ← gets layer;
      set_layer (l' - 1);;
      mret (ret.1, (pre, ret.2, post))
  end.

End Hooks.

(** ** Call trees *)

(** What a function of a cubicle does: it accesses memory tagged with a key, writes a
    word (whether or not the write would fault), or calls an exported function, which
    runs [body] and returns [ret], through its hook. *)
#[warnings="-register-all"]
Inductive op : Type :=
| Touch (key : Z)
| Write (a v : Z)
| Call (fn arg0 arg1 ret : Z) (body : list op).

(** An access: the module of the running function, the key, and whether the access goes
    through without a fault; or an attach by the hook of [fn], called by a function of
    the module [m]. *)
Inductive event : Type :=
| Access (m key : Z) (ok : bool)
| Attached (m fn : Z) (a : attach).

(** One operation after the other. *)
Definition run_list (f : op -> M xstate (list event)) : list op -> M xstate (list event) :=
  fix go l :=
    match l with
    | [] => mret []
    | o :: l' => e ← f o; es ← go l'; mret (e ++ es)
    end.

Definition with_ret (ret : Z) (m : M xstate (list event)) : M xstate (Z * list event) := log ← m; mret (ret, log).

Definition call_log (m fn : Z) (r : Z * (list attach * list event * list attach)) : list event :=
  (Attached m fn <$> r.2.1.1) ++ r.2.1.2 ++ (Attached m fn <$> r.2.2).

(** The body of a function of module [cur]. *)
Fixpoint exec (im : image) (cur : Z) (o : op) : M xstate (list event) :=
  match o with
  | Touch k => ok ← gets (fun s => bool_decide (pkru (xmon s) !! k = Some 0)); mret [Access cur k ok]
  | Write a v => set_word a v;; mret []
  | Call fn arg0 arg1 ret body =>
      r ← hooked im fn arg0 arg1 (with_ret ret (run_list (exec im (fn_module im fn)) body)) [];
      mret (call_log cur fn r)
  end.

Definition exec_list im cur := run_list (exec im cur).

(** The attaches of a run, and what they do to the monitor. *)
Definition attaches (log : list event) : list attach :=
  flat_map (fun e => match e with Attached _ _ a => [a] | Access _ _ _ => [] end) log.

Fixpoint do_all (mok : Z -> Z -> Z -> bool) (l : list attach) : M monitor unit :=
  match l with
  | [] => mret tt
  | a :: l => do_attach mok a;; do_all mok l
  end.

(** ** Invariants of the hooks *)

(** The deployed modules [isolated]; [key a] is the protection key of the
    cubicle of module [a].  Modules share a key exactly when the build makes
    them friends. *)
Class CubicleLayout (im : image) (isolated : Z -> Prop) (key : Z -> Z) := {
  layout_fn : forall fn, isolated (fn_module im fn);
  layout_key : forall a, isolated a -> 1 <= key a <= 15;
  layout_friends : forall a b, isolated a -> isolated b -> friends (flist im) a b = true <-> key a = key b
}.

(** *** Attaches *)

(** The memory goes to the module [mid]. *)
Definition attach_to (mid : Z) (a : attach) : Prop :=
  match a with
  | PageAttach m _ _ | HeapAttach m _ _ | StackAttach m _ _ => m = mid
  | HeapSetup _ _ => True
  end.

Section Attaches.
Context (mok : Z -> Z -> Z -> bool).

Lemma cmp_attach_pkru mid start size m u :
  cmp_attach mok mid start size (set_pkru u m) = in_state (set_pkru u) (cmp_attach mok mid start size m).
Proof.
  unfold cmp_attach, pkey_mprotect, get_pmap, deref, mbind, M_bind, pmap_at. simpl.
  destruct (size =? 0); [done|]. destruct (if 0 <=? mid then _ else _); [|done].
  destruct (_ && _); [|done]. done.
Qed.

(** An attach does not look at the rights. *)
Lemma do_attach_pkru a m u : do_attach mok a (set_pkru u m) = in_state (set_pkru u) (do_attach mok a m).
Proof.
  destruct a as [mid start size|mid start size|mid start size|base len]; simpl; [apply cmp_attach_pkru| | |done].
  - unfold heap_attach, gets, lift, modify, mbind, M_bind, mret, M_ret. destruct (size =? 0); [done|].
    simpl. destruct (negb _); [done|]. destruct (fill_heap_cfg _ _ _ _) as [cfg| | |]; try done.
    change (set_heap cfg (heap_start m) (heap_end m) (set_pkru u m)) with (set_pkru u (set_heap cfg (heap_start m) (heap_end m) m)).
    apply cmp_attach_pkru.
  - unfold stack_attach. destruct (size =? 0); [done|]. unfold gets, get_pmap, deref, modify, mbind, M_bind, mret, M_ret, pmap_at. simpl.
    destruct (_ =? SMAX); [done|]. destruct (if 0 <=? mid then _ else _); [|done]. rewrite cmp_attach_pkru.
    by destruct (cmp_attach mok mid start size m) as [[? ?]| | |].
Qed.

Lemma do_attach_frame a m m' : do_attach mok a m = Ok (tt, m') -> pkru m' = pkru m /\ pmap m' = pmap m.
Proof.
  assert (forall mid start size m1, cmp_attach mok mid start size m1 = Ok (tt, m') -> pkru m' = pkru m1 /\ pmap m' = pmap m1) as Hc.
  { by intros mid start size m1 [[_ ->]|(_ & p & _ & _ & _ & ->)]%cmp_attach_ok. }
  destruct a as [mid start size|mid start size|mid start size|base len]; simpl.
  - apply Hc.
  - intros [[_ ->]|(_ & _ & cfg & _ & H)]%heap_attach_ok; [done|]. by apply Hc in H.
  - unfold stack_attach. destruct (size =? 0); [intros; by inv_ok|].
    intros (st & s1 & [-> ->]%gets_ok & H)%bind_ok. destruct (_ =? SMAX); [done|].
    apply bind_ok in H as (pm & s1 & [Hp ->]%deref_ok & H). apply bind_ok in H as ([] & s1 & Ha & H).
    apply cmp_attach_ok in Ha as [[_ ->]|(_ & p & _ & _ & _ & ->)]; by injection H as <-.
  - unfold setup_heap. intros H. by injection H as <-.
Qed.

Lemma do_all_frame l m m' : do_all mok l m = Ok (tt, m') -> pkru m' = pkru m /\ pmap m' = pmap m.
Proof.
  revert m. induction l as [|a l IH]; intros m; simpl; [intros; by inv_ok|].
  intros ([] & m1 & Ha & H)%bind_ok. apply do_attach_frame in Ha as [<- <-]. by apply IH.
Qed.

Lemma do_all_pkru l m m' u : do_all mok l m = Ok (tt, m') -> do_all mok l (set_pkru u m) = Ok (tt, set_pkru u m').
Proof.
  revert m. induction l as [|a l IH]; intros m; simpl; [intros; by inv_ok|].
  intros ([] & m1 & Ha & H)%bind_ok. unfold mbind, M_bind. rewrite do_attach_pkru, Ha. simpl. by apply IH.
Qed.

Lemma do_all_app l1 l2 m m1 m2 :
  do_all mok l1 m = Ok (tt, m1) -> do_all mok l2 m1 = Ok (tt, m2) -> do_all mok (l1 ++ l2) m = Ok (tt, m2).
Proof.
  revert m. induction l1 as [|a l IH]; intros m; simpl; [intros; by inv_ok|].
  intros ([] & m3 & Ha & H)%bind_ok Hd. rewrite (bind_ret _ _ _ _ _ Ha). by apply IH.
Qed.

End Attaches.

Lemma attaches_app l1 l2 : attaches (l1 ++ l2) = attaches l1 ++ attaches l2.
Proof. apply flat_map_app. Qed.

Lemma attaches_of m fn l : attaches (Attached m fn <$> l) = l.
Proof. unfold attaches. induction l as [|a l IH]; [done|]. simpl. by f_equal. Qed.

Lemma pmap_at_same mid m m' : pmap m' = pmap m -> pmap_at mid m' = pmap_at mid m.
Proof. unfold pmap_at. by intros ->. Qed.

(** The functions whose hooks hand over memory. *)
Definition hands_over (module name : string) : bool :=
  bool_decide (module = "ukalloc" /\ name ∈ ["uk_free_ifpages"; "uk_realloc_ifpages"; "uk_posix_memalign_ifpages";
    "uk_malloc_ifpages"; "uk_calloc_compat"])%string ||
  bool_decide (module = "linuxuplat" /\ name = "ukplat_memregion_get")%string.

Section Balance.
Context {im : image} {isolated : Z -> Prop} {key : Z -> Z}.
Context `{Hlay : !CubicleLayout im isolated key}.

(** [remap] and the module table agree with the layout. *)
Definition xc_ok (s : xstate) : Prop :=
  length (prev_module s) = MAX_LAYERS /\
  forall a, isolated a -> exists mid p,
    arr_at (remap s) a = Some mid /\ pmap_at mid (xmon s) = Some p /\ pm_pkey p = key a.

(** Only the cubicle of module [cur] is open. *)
Definition runs_in (s : xstate) (cur : Z) : Prop :=
  (exists a, arr_at (prev_module s) (layer s) = Some a /\ isolated a /\ key a = key cur) /\
  pkru (xmon s) !! key cur = Some 0 /\
  (forall b, isolated b -> key b <> key cur -> pkru (xmon s) !! key b = Some PKEY_DISABLE_ACCESS).

(** What a completed call leaves as it was: everything but [words], and but for the
    attaches [l], which account for all changes to the monitor. *)
Definition restored (s : xstate) (l : list attach) (s' : xstate) : Prop :=
  do_all (mprotect_ok im) l (xmon s) = Ok (tt, xmon s') /\ layer s' = layer s /\ remap s' = remap s /\
  length (prev_module s') = length (prev_module s) /\
  (forall i, i <= layer s -> arr_at (prev_module s') i = arr_at (prev_module s) i) /\
  (forall f, coros s' !! f = Some CORO_RUNNING <-> coros s !! f = Some CORO_RUNNING) /\
  (forall f, is_Some (coros s !! f) -> is_Some (coros s' !! f)).

Lemma restored_refl s : restored s [] s.
Proof. by repeat split. Qed.

Lemma restored_trans s1 l s2 l' s3 : restored s1 l s2 -> restored s2 l' s3 -> restored s1 (l ++ l') s3.
Proof.
  intros (A1 & A2 & A3 & A4 & A5 & A6 & A7) (B1 & B2 & B3 & B4 & B5 & B6 & B7).
  split_and!; [by eapply do_all_app|congruence..| | |].
  - intros i Hi. rewrite B5 by lia. auto.
  - intros f. by rewrite B6.
  - auto.
Qed.

Lemma restored_pmap s l s' : restored s l s' -> pmap (xmon s') = pmap (xmon s).
Proof. intros (E1 & _). by apply do_all_frame in E1 as [_ ?]. Qed.

Lemma restored_xc_ok s l s' : restored s l s' -> xc_ok s -> xc_ok s'.
Proof.
  intros Hr [Hl Ha]. pose proof (restored_pmap _ _ _ Hr) as Hp. destruct Hr as (E1 & E2 & E3 & E4 & _).
  split; [congruence|]. intros a Hia. destruct (Ha a Hia) as (mid & p & ? & Hpm & ?). exists mid, p.
  rewrite E3, (pmap_at_same _ _ _ Hp). done.
Qed.

Lemma restored_runs_in s l s' cur : restored s l s' -> runs_in s cur -> runs_in s' cur.
Proof.
  intros (E1 & E2 & E3 & E4 & E5 & _) ((a & Ha & ?) & H2). apply do_all_frame in E1 as [Ek _].
  unfold runs_in. rewrite Ek, E2, E5 by lia. eauto.
Qed.

Lemma on_mon_run {A} (m : M monitor A) s a x : m (xmon s) = Ok (a, x) -> on_mon m s = Ok (a, set_xmon x s).
Proof. unfold on_mon. by intros ->. Qed.

Lemma cmp_lock_run mid s p :
  pmap_at mid s = Some p -> 1 <= pm_pkey p <= 15 ->
  cmp_lock mid s = Ok (tt, set_pkru (<[pm_pkey p := PKEY_DISABLE_ACCESS]> (pkru s)) s).
Proof. intros Hp Hk. apply cmp_lock_ok. by exists p. Qed.

Lemma cmp_unlock_run mid s p :
  pmap_at mid s = Some p -> 1 <= pm_pkey p <= 15 ->
  cmp_unlock mid s = Ok (tt, set_pkru (<[pm_pkey p := 0]> (pkru s)) s).
Proof. intros Hp Hk. apply cmp_unlock_ok. exists p. split; [done|]. split; [lia|done]. Qed.

(** Opening and closing cubicles by module, through [remap]. *)
Definition with_key (k r : Z) (s : xstate) : xstate :=
  set_xmon (set_pkru (<[k := r]> (pkru (xmon s))) (xmon s)) s.

Lemma lock_module s a mid :
  xc_ok s -> isolated a -> arr_at (remap s) a = Some mid ->
  on_mon (cmp_lock mid) s = Ok (tt, with_key (key a) PKEY_DISABLE_ACCESS s).
Proof.
  intros [_ Hok] Ha Hmid. destruct (Hok a Ha) as (mid' & p & Hm' & Hp & Hk).
  rewrite Hmid in Hm'. injection Hm' as <-. pose proof (layout_key a Ha).
  apply on_mon_run. rewrite (cmp_lock_run _ _ p); [|done|lia]. by rewrite Hk.
Qed.

Lemma unlock_module s a mid :
  xc_ok s -> isolated a -> arr_at (remap s) a = Some mid ->
  on_mon (cmp_unlock mid) s = Ok (tt, with_key (key a) 0 s).
Proof.
  intros [_ Hok] Ha Hmid. destruct (Hok a Ha) as (mid' & p & Hm' & Hp & Hk).
  rewrite Hmid in Hm'. injection Hm' as <-. pose proof (layout_key a Ha).
  apply on_mon_run. rewrite (cmp_unlock_run _ _ p); [|done|lia]. by rewrite Hk.
Qed.

(** *** The stages of a cross-cubicle call *)

(** [fn] is about to be called: its cubicle is open. *)
Definition opened (s : xstate) (fn : Z) : xstate :=
  Xstate (set_pkru (<[key (fn_module im fn) := 0]> (pkru (xmon s))) (xmon s)) (layer s + 1)
    (<[Z.to_nat (layer s + 1) := fn_module im fn]> (prev_module s)) (remap s) (<[fn := CORO_NEW]> (coros s)) (words s).

(** The state in which the function starts: the cubicle of the caller is locked. *)
Definition entering (a fn : Z) (s : xstate) : xstate :=
  Xstate (set_pkru (<[key a := PKEY_DISABLE_ACCESS]> (pkru (xmon s))) (xmon s))
    (layer s) (prev_module s) (remap s) (<[fn := CORO_RUNNING]> (coros s)) (words s).

(** The function has ended in [s], and the hook has locked its cubicle. *)
Definition closing (a fn : Z) (s : xstate) : xstate :=
  Xstate (set_pkru (<[key (fn_module im fn) := PKEY_DISABLE_ACCESS]> (<[key a := 0]> (pkru (xmon s)))) (xmon s))
    (layer s) (prev_module s) (remap s) (<[fn := CORO_FINISHED]> (coros s)) (words s).

Definition leaving (s : xstate) : xstate :=
  Xstate (xmon s) (layer s - 1) (prev_module s) (remap s) (coros s) (words s).

Lemma friends_key a b : isolated a -> isolated b -> friends (flist im) a b = bool_decide (key a = key b).
Proof.
  intros Ha Hb. pose proof (layout_friends a b Ha Hb) as [H1 H2].
  destruct (friends (flist im) a b).
  - rewrite bool_decide_true; auto.
  - rewrite bool_decide_false; [done|]. intros Hk. by specialize (H2 Hk).
Qed.

Lemma set_prev_run s i v :
  0 <= i -> (Z.to_nat i < length (prev_module s))%nat ->
  set_prev i v s = Ok (tt, Xstate (xmon s) (layer s) (<[Z.to_nat i := v]> (prev_module s)) (remap s) (coros s) (words s)).
Proof.
  intros Hi Hl. unfold set_prev, get_prev. destruct (lookup_lt_is_Some_2 _ _ Hl) as [w Hw].
  rewrite (bind_ret _ _ _ w s); [done|]. apply deref_ok. unfold arr_at.
  by replace (0 <=? i) with true by lia.
Qed.

(** What [wrap] attaches goes to [mid], and it does nothing else. *)
Definition wraps (mid : Z) (wrap : M xstate (list attach)) (s : xstate) : Prop :=
  forall l s', wrap s = Ok (l, s') ->
    exists m, do_all (mprotect_ok im) l (xmon s) = Ok (tt, m) /\ s' = set_xmon m s /\ Forall (attach_to mid) l.

Lemma wraps_nil mid s : wraps mid (mret []) s.
Proof. intros l s' H. injection H as <- <-. exists (xmon s). split; [done|]. split; [by destruct s|constructor]. Qed.

Lemma attach_now_ok a s l s' : attach_now im a s = Ok (l, s') ->
  l = [a] /\ exists m, do_attach (mprotect_ok im) a (xmon s) = Ok (tt, m) /\ s' = set_xmon m s.
Proof.
  intros ([] & s1 & Ha & H)%bind_ok. injection H as <- <-. split; [done|]. unfold on_mon in Ha.
  destruct (do_attach _ _ _) as [[[] m]| | |]; try done. injection Ha as <-. by exists m.
Qed.

Lemma get_word_ok a s x s' : get_word a s = Ok (x, s') <-> words s !! u64 a = Some x /\ s' = s.
Proof. exact (deref_ok (fun s => words s !! u64 a) s x s'). Qed.

Lemma two_attaches_wrap mid a1 b1 b2 (f : Z -> Z -> attach) s :
  attach_to mid a1 -> (forall x y, attach_to mid (f x y)) ->
  wraps mid (a ← attach_now im a1; x ← get_word b1; y ← get_word b2; b ← attach_now im (f x y); mret (a ++ b)) s.
Proof.
  intros Hf Hg l s' (l1 & s1 & [-> (m1 & E1 & ->)]%attach_now_ok & H)%bind_ok.
  apply bind_ok in H as (x & s2 & [_ ->]%get_word_ok & H). apply bind_ok in H as (y & s2 & [_ ->]%get_word_ok & H).
  apply bind_ok in H as (l2 & s2 & [-> (m2 & E2 & ->)]%attach_now_ok & H). injection H as <- <-.
  exists m2. split; [|split; [done|repeat constructor; auto]]. simpl.
  rewrite (bind_ret _ _ _ _ _ E1). simpl in E2. by rewrite (bind_ret _ _ _ _ _ E2).
Qed.

Lemma gen_pre_wrap_wraps module name callee arg1 s : wraps callee (gen_pre_wrap im module name callee arg1) s.
Proof. unfold gen_pre_wrap. destruct (pre_metadata _ _ _); [|apply wraps_nil]. by apply two_attaches_wrap. Qed.

Lemma caller_bind mid (f : Z -> M xstate (list attach)) s :
  caller_id s = Ok (mid, s) -> wraps mid (f mid) s -> wraps mid (c ← caller_id; f c) s.
Proof. intros Hc Hw l s' H. rewrite (bind_ret _ _ _ _ _ Hc) in H. by apply Hw. Qed.

Lemma gen_post_wrap_wraps module name mid arg0 arg1 ret s :
  caller_id s = Ok (mid, s) -> wraps mid (gen_post_wrap im module name arg0 arg1 ret) s.
Proof.
  intros Hc. unfold gen_post_wrap. repeat case_bool_decide.
  - destruct (negb _); [apply wraps_nil|]. intros l s' (ptr & s1 & [_ ->]%get_word_ok & Hrun)%bind_ok.
    destruct (memalign_metadata ptr) as [tmp f]. revert Hrun. apply (caller_bind mid); [done|by apply two_attaches_wrap].
  - destruct (ret =? 0); [apply wraps_nil|]. apply (caller_bind mid); [done|by apply two_attaches_wrap].
  - destruct (ret =? 0); [apply wraps_nil|]. apply (caller_bind mid); [done|by apply two_attaches_wrap].
  - destruct (ret =? _); [apply wraps_nil|]. apply (caller_bind mid); [done|].
    by apply (two_attaches_wrap mid _ _ _ (fun x y => HeapSetup (s64 x) y)).
  - apply wraps_nil.
Qed.

Lemma no_wraps module name callee arg0 arg1 ret : hands_over module name = false ->
  gen_pre_wrap im module name callee arg1 = mret [] /\ gen_post_wrap im module name arg0 arg1 ret = mret [].
Proof.
  unfold hands_over. rewrite orb_false_iff, !bool_decide_eq_false. intros [Hn Hm].
  unfold gen_pre_wrap, pre_metadata, gen_post_wrap.
  rewrite !bool_decide_false by (intros H; first [apply Hm; tauto|apply Hn; destruct H as [-> H]; set_solver]). done.
Qed.

Lemma entry_point_run {A} (run : M xstate A) t a fn prev :
  xc_ok t -> arr_at (prev_module t) (layer t - 1) = Some a -> isolated a -> arr_at (remap t) a = Some prev ->
  (forall r s2, run (with_key (key a) PKEY_DISABLE_ACCESS t) = Ok (r, s2) -> xc_ok s2 /\ remap s2 = remap t) ->
  entry_point fn run t =
  in_state (fun s2 => Xstate (set_pkru (<[key a := 0]> (pkru (xmon s2))) (xmon s2))
     (layer s2) (prev_module s2) (remap s2) (<[fn := CORO_FINISHED]> (coros s2)) (words s2))
    (run (with_key (key a) PKEY_DISABLE_ACCESS t)).
Proof.
  intros Hok Ha Hia Hprev Hrun. unfold entry_point.
  rewrite (bind_ret _ _ _ (layer t) t) by (by apply gets_ok).
  rewrite (bind_ret _ _ _ a t) by (by apply deref_ok).
  rewrite (bind_ret _ _ _ prev t) by (by apply deref_ok).
  rewrite (bind_ret _ _ _ _ _ (lock_module t a prev Hok Hia Hprev)).
  unfold mbind at 1, M_bind at 1. destruct (run _) as [[r s2]| | |] eqn:Hr; try done.
  destruct (Hrun r s2 eq_refl) as [Hok2 Hre].
  rewrite (bind_ret _ _ _ _ _ (unlock_module s2 a prev Hok2 Hia ltac:(by rewrite Hre))). done.
Qed.

(** Both sides of an equation start with a computation. *)
Lemma bind_eq {S A B} (m : M S A) (f : A -> M S B) s :
  (m ≫= f) s = match m s with Ok (a, s') => f a s' | Spin => Spin | Abort => Abort | Undef => Undef end.
Proof. unfold mbind, M_bind. by destruct (m s) as [[? ?]| | |]. Qed.

Ltac bind_both := etrans; [apply bind_eq|]; symmetry; etrans; [apply bind_eq|]; symmetry.

(** A call into another cubicle, stage by stage. *)
Definition crossing {A} (a fn arg0 arg1 callee : Z) (run : M xstate (Z * A)) : M xstate (Z * (list attach * A * list attach)) :=
  pre ← gen_pre_wrap im (fn_lib im fn) (fn_name im fn) callee arg1;
  modify (entering a fn);;
  r ← run;
  modify (closing a fn);;
  post ← gen_post_wrap im (fn_lib im fn) (fn_name im fn) arg0 arg1 r.1;
  modify leaving;;
  mret (r.1, (pre, r.2, post)).

Lemma opened_xc_ok s fn m : xc_ok s -> pmap m = pmap (xmon s) -> xc_ok (set_xmon m (opened s fn)).
Proof.
  intros [Hl Hm] Hp. split; [simpl; by rewrite length_insert|]. intros b Hb. destruct (Hm b Hb) as (mid & p & ? & ? & ?).
  exists mid, p. simpl. by rewrite (pmap_at_same _ _ _ Hp).
Qed.

Lemma opened_caller s a fn m :
  xc_ok s -> arr_at (prev_module s) (layer s) = Some a -> layer s + 1 < Z.of_nat MAX_LAYERS ->
  arr_at (prev_module (set_xmon m (opened s fn))) (layer s) = Some a /\
  arr_at (prev_module (set_xmon m (opened s fn))) (layer s + 1) = Some (fn_module im fn).
Proof.
  intros [Hlen _] Ha Hl. pose proof (arr_at_Some _ _ _ Ha) as [Hl0 _]. simpl.
  rewrite !arr_at_insert by (rewrite ?Hlen; unfold MAX_LAYERS in *; lia).
  by rewrite decide_False, decide_True by lia.
Qed.

(** The hook from where the cubicle of the function is open. *)
Lemma hook_stages {A} (run : M xstate (Z * A)) zero s a fn arg0 arg1 callee :
  xc_ok s -> arr_at (prev_module s) (layer s) = Some a -> isolated a -> layer s + 1 < Z.of_nat MAX_LAYERS ->
  arr_at (remap s) (fn_module im fn) = Some callee ->
  (forall m r s2, pmap m = pmap (xmon s) -> pkru m = pkru (xmon (opened s fn)) ->
     run (entering a fn (set_xmon m (opened s fn))) = Ok (r, s2) -> xc_ok s2 /\ remap s2 = remap s) ->
  (pre ← gen_pre_wrap im (fn_lib im fn) (fn_name im fn) callee arg1;
   ret ← coro_resume fn (entry_point fn run) (0, zero);
   on_mon (cmp_lock callee);;
   post ← gen_post_wrap im (fn_lib im fn) (fn_name im fn) arg0 arg1 ret.1;
   l' ← gets layer;
   set_layer (l' - 1);;
   mret (ret.1, (pre, ret.2, post))) (opened s fn) = crossing a fn arg0 arg1 callee run (opened s fn).
Proof.
  intros Hok Ha Hia Hl Hcallee Hrun. pose proof Hok as [_ Hm]. destruct (Hm a Hia) as (prev & p & Hprev & _ & _).
  unfold crossing. bind_both.
  destruct (gen_pre_wrap _ _ _ _ _ (opened s fn)) as [[pre s1]| | |] eqn:Hpre; try done.
  apply gen_pre_wrap_wraps in Hpre as (m & Hm1 & -> & _). apply do_all_frame in Hm1 as [Hu Hp]. simpl in Hp.
  set (s1 := set_xmon m (opened s fn)).
  set (t := Xstate (xmon s1) (layer s1) (prev_module s1) (remap s1) (<[fn := CORO_RUNNING]> (coros s1)) (words s1)).
  symmetry. rewrite (bind_ret _ _ _ tt (entering a fn s1)) by (by apply modify_ok). symmetry. bind_both.
  assert (coro_resume fn (entry_point fn run) (0, zero) s1 = entry_point fn run t) as ->.
  { unfold coro_resume. rewrite (bind_ret _ _ _ (Some CORO_NEW) s1) by (apply gets_ok; simpl; by rewrite lookup_insert_eq).
    unfold set_coro. by rewrite (bind_ret _ _ _ tt t) by (by apply modify_ok). }
  change (entering a fn s1) with (with_key (key a) PKEY_DISABLE_ACCESS t).
  destruct (opened_caller s a fn m Hok Ha Hl) as [Hprev1 _].
  rewrite (entry_point_run run t a fn prev); [|by apply (opened_xc_ok s fn m)|
    simpl; by replace (layer s + 1 - 1) with (layer s) by lia|done|done|intros r s2; by apply (Hrun m r s2)].
  destruct (run _) as [[r s2]| | |] eqn:Hr; try done. cbn [in_state]. destruct (Hrun m r s2 Hp Hu Hr) as [Hok2 Hre].
  set (s3 := Xstate _ _ _ _ _ _).
  assert (xc_ok s3) as Hok3 by (destruct Hok2 as [Hlen2 Hm2]; split; [exact Hlen2|exact Hm2]).
  rewrite (bind_ret _ _ _ _ _ (lock_module s3 (fn_module im fn) callee Hok3 (layout_fn fn) ltac:(simpl; by rewrite Hre))).
  by rewrite (bind_ret _ _ _ tt (closing a fn s2)) by (by apply modify_ok).
Qed.

Lemma hooked_cross {A} (run : M xstate (Z * A)) zero s a fn arg0 arg1 c callee :
  get_hook im (fn_lib im fn) (fn_name im fn) arg0 arg1 = None ->
  xc_ok s -> arr_at (prev_module s) (layer s) = Some a -> isolated a ->
  key a <> key (fn_module im fn) -> layer s + 1 < Z.of_nat MAX_LAYERS ->
  coros s !! fn = Some c -> c <> CORO_RUNNING -> arr_at (remap s) (fn_module im fn) = Some callee ->
  (forall m r s2, pmap m = pmap (xmon s) -> pkru m = pkru (xmon (opened s fn)) ->
     run (entering a fn (set_xmon m (opened s fn))) = Ok (r, s2) -> xc_ok s2 /\ remap s2 = remap s) ->
  hooked im fn arg0 arg1 run zero s = crossing a fn arg0 arg1 callee run (opened s fn).
Proof.
  intros Hg Hok Ha Hia Hk Hl Hc Hnr Hcallee Hrun. unfold hooked. rewrite Hg.
  pose proof (layout_fn fn) as Him. pose proof (arr_at_Some _ _ _ Ha) as [Hl0 _].
  pose proof Hok as [Hlen Hm].
  rewrite (bind_ret _ _ _ (layer s) s) by (by apply gets_ok).
  rewrite (bind_ret _ _ _ a s) by (by apply deref_ok).
  rewrite friends_key by done. rewrite bool_decide_false by done.
  unfold set_layer at 1. rewrite (bind_ret _ _ _ tt _) by (by apply modify_ok).
  rewrite (bind_ret _ _ _ _ _ (set_prev_run (Xstate (xmon s) (layer s + 1) (prev_module s) (remap s) (coros s) (words s))
             (layer s + 1) _ ltac:(lia) ltac:(simpl; lia))). simpl.
  rewrite (bind_ret _ _ _ (Some c) _) by (by apply gets_ok).
  rewrite decide_False by naive_solver. unfold set_coro at 1.
  rewrite (bind_ret _ _ _ tt _) by (by apply modify_ok).
  rewrite (bind_ret _ _ _ callee _) by (by apply deref_ok). simpl.
  set (s0 := Xstate (xmon s) _ _ _ _ _).
  assert (xc_ok s0) as Hok0 by (split; [simpl; by rewrite length_insert|exact Hm]).
  rewrite (bind_ret _ _ _ _ _ (unlock_module s0 (fn_module im fn) callee Hok0 Him Hcallee)).
  change (with_key (key (fn_module im fn)) 0 s0) with (opened s fn).
  by apply hook_stages.
Qed.

(** The seventeenth level does not fit [prev_module]. *)
Lemma hooked_overflow {A} (run : M xstate (Z * A)) zero s a fn arg0 arg1 :
  get_hook im (fn_lib im fn) (fn_name im fn) arg0 arg1 = None ->
  xc_ok s -> arr_at (prev_module s) (layer s) = Some a -> isolated a ->
  key a <> key (fn_module im fn) -> layer s + 1 = Z.of_nat MAX_LAYERS ->
  hooked im fn arg0 arg1 run zero s = Undef.
Proof.
  intros Hg [Hlen _] Ha Hia Hk Hl. unfold hooked. rewrite Hg.
  rewrite (bind_ret _ _ _ (layer s) s) by (by apply gets_ok).
  rewrite (bind_ret _ _ _ a s) by (by apply deref_ok).
  rewrite friends_key by (apply layout_fn || done). rewrite bool_decide_false by done.
  unfold set_layer at 1. rewrite (bind_ret _ _ _ tt _) by (by apply modify_ok).
  unfold set_prev, get_prev, deref, mbind, M_bind. simpl. unfold arr_at.
  replace (0 <=? layer s + 1) with true by lia.
  by rewrite (lookup_ge_None_2 (prev_module s)) by lia.
Qed.

Lemma hooked_no_coro {A} (run : M xstate (Z * A)) zero s a fn arg0 arg1 :
  get_hook im (fn_lib im fn) (fn_name im fn) arg0 arg1 = None ->
  xc_ok s -> arr_at (prev_module s) (layer s) = Some a -> isolated a ->
  key a <> key (fn_module im fn) -> layer s + 1 < Z.of_nat MAX_LAYERS ->
  coros s !! fn = None \/ coros s !! fn = Some CORO_RUNNING ->
  hooked im fn arg0 arg1 run zero s = Undef.
Proof.
  intros Hg [Hlen _] Ha Hia Hk Hl Hc. unfold hooked. rewrite Hg. pose proof (arr_at_Some _ _ _ Ha) as [Hl0 _].
  rewrite (bind_ret _ _ _ (layer s) s) by (by apply gets_ok).
  rewrite (bind_ret _ _ _ a s) by (by apply deref_ok).
  rewrite friends_key by (apply layout_fn || done). rewrite bool_decide_false by done.
  unfold set_layer at 1. rewrite (bind_ret _ _ _ tt _) by (by apply modify_ok).
  rewrite (bind_ret _ _ _ _ _ (set_prev_run (Xstate (xmon s) (layer s + 1) (prev_module s) (remap s) (coros s) (words s))
             (layer s + 1) _ ltac:(lia) ltac:(simpl; lia))). simpl.
  rewrite (bind_ret _ _ _ (coros s !! fn) _) by (by apply gets_ok).
  by rewrite decide_True by done.
Qed.

Lemma hooked_friend {A} (run : M xstate (Z * A)) zero s a fn arg0 arg1 :
  get_hook im (fn_lib im fn) (fn_name im fn) arg0 arg1 = None ->
  arr_at (prev_module s) (layer s) = Some a -> isolated a -> key a = key (fn_module im fn) ->
  hooked im fn arg0 arg1 run zero s = (r ← run; mret (r.1, ([], r.2, []))) s.
Proof.
  intros Hg Ha Hia Hk. unfold hooked. rewrite Hg. rewrite (bind_ret _ _ _ (layer s) s) by (by apply gets_ok).
  rewrite (bind_ret _ _ _ a s) by (by apply deref_ok).
  rewrite friends_key by (apply layout_fn || done). by rewrite bool_decide_true by done.
Qed.

Lemma entering_xc_ok a fn s : xc_ok s -> xc_ok (entering a fn s).
Proof. intros [Hl Hm]. split; [exact Hl|exact Hm]. Qed.

(** The function starts in its own cubicle. *)
Lemma entering_runs_in s a fn m :
  xc_ok s -> runs_in s a -> isolated a -> arr_at (prev_module s) (layer s) = Some a ->
  layer s + 1 < Z.of_nat MAX_LAYERS -> key a <> key (fn_module im fn) -> pkru m = pkru (xmon (opened s fn)) ->
  runs_in (entering a fn (set_xmon m (opened s fn))) (fn_module im fn).
Proof.
  intros Hok (_ & Hopen & Hlock) Hia Ha Hl Hk Hu. split; [|split]; simpl.
  - exists (fn_module im fn). split; [by apply (opened_caller s a fn m)|]. split; [apply layout_fn|done].
  - rewrite lookup_insert_ne by done. rewrite Hu. apply lookup_insert_eq.
  - intros b Hb' Hkb. destruct (decide (key b = key a)) as [->|Hba].
    + apply lookup_insert_eq.
    + rewrite lookup_insert_ne, Hu by done. simpl. rewrite lookup_insert_ne by done. by apply Hlock.
Qed.

(** Opening and closing leave the rights of a caller in whose cubicle it ran. *)
Lemma rights_back (u : gmap Z Z) a fn :
  u !! key a = Some 0 -> u !! key (fn_module im fn) = Some PKEY_DISABLE_ACCESS -> key a <> key (fn_module im fn) ->
  <[key (fn_module im fn) := PKEY_DISABLE_ACCESS]> (<[key a := 0]>
    (<[key a := PKEY_DISABLE_ACCESS]> (<[key (fn_module im fn) := 0]> u))) = u.
Proof.
  intros Ha Hf Hk. apply map_eq. intros k. destruct (decide (k = key (fn_module im fn))) as [->|].
  { by rewrite lookup_insert_eq. }
  rewrite lookup_insert_ne by done. destruct (decide (k = key a)) as [->|]; [by rewrite lookup_insert_eq|].
  by rewrite !lookup_insert_ne by done.
Qed.

Lemma set_pkru_same m : set_pkru (pkru m) m = m.
Proof. by destruct m. Qed.

(** A call puts everything back. *)
Lemma crossing_restored s a fn c pre m1 log s2 post m3 :
  xc_ok s -> runs_in s a -> arr_at (prev_module s) (layer s) = Some a -> layer s + 1 < Z.of_nat MAX_LAYERS ->
  key a <> key (fn_module im fn) -> coros s !! fn = Some c -> c <> CORO_RUNNING ->
  do_all (mprotect_ok im) pre (xmon (opened s fn)) = Ok (tt, m1) ->
  restored (entering a fn (set_xmon m1 (opened s fn))) log s2 ->
  do_all (mprotect_ok im) post (xmon (closing a fn s2)) = Ok (tt, m3) ->
  restored s (pre ++ log ++ post) (leaving (set_xmon m3 (closing a fn s2))).
Proof.
  intros Hok (_ & Hopen & Hlock) Ha Hl Hk Hc Hnr Hpre (E1 & E2 & E3 & E4 & E5 & E6 & E7) Hpost.
  pose proof Hok as [Hlen _]. apply arr_at_Some in Ha as Hb. simpl in *. split_and!; simpl.
  - pose proof (do_all_frame _ _ _ _ Hpre) as [U1 _]. pose proof (do_all_frame _ _ _ _ E1) as [U2 _].
    pose proof (do_all_frame _ _ _ _ Hpost) as [U3 _]. simpl in U1, U2, U3.
    rewrite U2, U1, rights_back in U3; [|done|apply Hlock; [apply layout_fn|done]|done].
    apply (do_all_pkru _ _ _ _ (pkru (xmon s))) in Hpre, E1, Hpost. simpl in Hpre, E1, Hpost.
    rewrite <- U3, set_pkru_same in Hpost. rewrite <- (set_pkru_same (xmon s)).
    eapply do_all_app; [exact Hpre|]. eapply do_all_app; [exact E1|]. rewrite <- U3. exact Hpost.
  - lia.
  - done.
  - by rewrite E4, length_insert.
  - intros i Hi. rewrite E5 by lia. rewrite arr_at_insert by lia. by rewrite decide_False by lia.
  - intros f. destruct (decide (f = fn)) as [->|].
    + rewrite lookup_insert_eq, Hc. naive_solver.
    + rewrite lookup_insert_ne by done. rewrite E6. by rewrite !lookup_insert_ne by done.
  - intros f Hf. destruct (decide (f = fn)) as [->|].
    + rewrite lookup_insert_eq. eauto.
    + rewrite lookup_insert_ne by done. apply E7. by rewrite !lookup_insert_ne by done.
Qed.

Lemma runs_in_key s a b : key a = key b -> runs_in s a -> runs_in s b.
Proof. unfold runs_in. by intros ->. Qed.

(** An access succeeds without a fault exactly when the memory belongs to the cubicle of
    the accessing function.  An attach is made by the hook of one of the functions that
    hand over memory, and goes to the cubicle of the function that makes the call or to
    that of the called function. *)
Definition own_event (s : xstate) (e : event) : Prop :=
  match e with
  | Access m k ok => forall b, isolated b -> key b = k -> ok = bool_decide (k = key m)
  | Attached m fn a =>
      hands_over (fn_lib im fn) (fn_name im fn) = true /\
      exists mid p, attach_to mid a /\ pmap_at mid (xmon s) = Some p /\
        (pm_pkey p = key m \/ pm_pkey p = key (fn_module im fn))
  end.

Lemma own_event_same s s' e : pmap (xmon s') = pmap (xmon s) -> own_event s' e -> own_event s e.
Proof. intros Hp. destruct e as [m k ok|m fn a]; simpl; [done|]. by setoid_rewrite (pmap_at_same _ _ _ Hp). Qed.

Lemma attached_own s m fn mid p l :
  Forall (attach_to mid) l -> (hands_over (fn_lib im fn) (fn_name im fn) = false -> l = []) ->
  pmap_at mid (xmon s) = Some p -> pm_pkey p = key m \/ pm_pkey p = key (fn_module im fn) ->
  Forall (own_event s) (Attached m fn <$> l).
Proof.
  intros Hl Hn Hp Hk. apply Forall_fmap. destruct (hands_over _ _) eqn:Hh; [|by rewrite Hn].
  eapply Forall_impl; [exact Hl|]. intros a Ha. split; [done|]. by exists mid, p.
Qed.

Lemma op_ind' (P : op -> Prop) :
  (forall k, P (Touch k)) -> (forall a v, P (Write a v)) ->
  (forall fn arg0 arg1 ret body, Forall P body -> P (Call fn arg0 arg1 ret body)) -> forall o, P o.
Proof.
  intros HT HW HC. fix IH 1. intros [k|a v|fn arg0 arg1 ret body]; [apply HT|apply HW|]. apply HC.
  induction body as [|o body IHb]; [constructor|]. constructor; [apply IH|exact IHb].
Qed.

(** Contract of a computation of module [cur]. *)
Definition confined (cur : Z) (m : M xstate (list event)) : Prop :=
  forall s log s', xc_ok s -> runs_in s cur -> m s = Ok (log, s') ->
    restored s (attaches log) s' /\ Forall (own_event s) log.

Lemma run_list_confined cur f l :
  Forall (fun o => confined cur (f o)) l -> confined cur (run_list f l).
Proof.
  induction 1 as [|o l Ho Hl IH]; intros s log s' Hok Hr Hrun; simpl in Hrun.
  { injection Hrun as <- <-. split; [apply restored_refl|constructor]. }
  apply bind_ok in Hrun as (e & s1 & E1 & Hrun). apply bind_ok in Hrun as (es & s2 & E2 & Hrun).
  injection Hrun as <- <-. destruct (Ho s e s1 Hok Hr E1) as [R1 F1].
  destruct (IH s1 es s2) as [R2 F2]; [by eapply restored_xc_ok|by eapply restored_runs_in|done|].
  rewrite attaches_app. split; [by eapply restored_trans|]. apply Forall_app. split; [done|].
  eapply Forall_impl; [exact F2|]. intros ev. apply own_event_same. by eapply restored_pmap.
Qed.

Lemma with_ret_ok ret m s r s' : with_ret ret m s = Ok (r, s') -> r.1 = ret /\ m s = Ok (r.2, s').
Proof. intros (log & s1 & E & Hr)%bind_ok. by injection Hr as <- <-. Qed.

(** After the call the hook still finds the caller. *)
Lemma closing_caller s a fn m l s2 caller :
  xc_ok s -> arr_at (prev_module s) (layer s) = Some a -> layer s + 1 < Z.of_nat MAX_LAYERS ->
  restored (entering a fn (set_xmon m (opened s fn))) l s2 -> arr_at (remap s) a = Some caller ->
  caller_id (closing a fn s2) = Ok (caller, closing a fn s2).
Proof.
  intros Hok Ha Hl (_ & E2 & E3 & _ & E5 & _) Hc. unfold caller_id. simpl in E2, E5.
  rewrite (bind_ret _ _ _ (layer s2) _) by (by apply gets_ok).
  rewrite (bind_ret _ _ _ a (closing a fn s2)); [apply deref_ok; simpl; by rewrite E3|].
  apply deref_ok. split; [|done]. simpl. rewrite E5 by lia. replace (layer s2 - 1) with (layer s) by lia.
  by apply (opened_caller s a fn m).
Qed.

(** The stages of a call whose function is confined. *)
Lemma crossing_confined s a cur fn arg0 arg1 ret m c callee r s' :
  xc_ok s -> runs_in s a -> arr_at (prev_module s) (layer s) = Some a -> isolated a -> key a = key cur ->
  key a <> key (fn_module im fn) -> layer s + 1 < Z.of_nat MAX_LAYERS ->
  coros s !! fn = Some c -> c <> CORO_RUNNING -> arr_at (remap s) (fn_module im fn) = Some callee ->
  confined (fn_module im fn) m ->
  crossing a fn arg0 arg1 callee (with_ret ret m) (opened s fn) = Ok (r, s') ->
  restored s (attaches (call_log cur fn r)) s' /\ Forall (own_event s) (call_log cur fn r).
Proof.
  intros Hok Hr Ha Hia Hka Hk Hl Hc Hnr Hcallee Hm (pre & s1 & Hpre & Hrun)%bind_ok.
  pose proof Hok as [_ Hmods]. destruct (Hmods _ (layout_fn fn)) as (callee' & pe & Hce & Hpe & Hke).
  rewrite Hcallee in Hce. injection Hce as <-. destruct (Hmods a Hia) as (caller & pc & Hca & Hpc & Hkc).
  assert (hands_over (fn_lib im fn) (fn_name im fn) = false -> pre = []) as Hno.
  { intros Hn. rewrite (proj1 (no_wraps _ _ callee arg0 arg1 0 Hn)) in Hpre. by injection Hpre as <-. }
  apply gen_pre_wrap_wraps in Hpre as (m1 & Hm1 & -> & Hto). pose proof (do_all_frame _ _ _ _ Hm1) as [Hu Hp]. simpl in Hp.
  rewrite (bind_ret _ _ _ tt _) in Hrun by (by apply modify_ok).
  apply bind_ok in Hrun as (rl & s2 & [Hret Hbody]%with_ret_ok & Hrun).
  apply Hm in Hbody as [R F]; [|by apply entering_xc_ok, opened_xc_ok|by apply entering_runs_in].
  pose proof (restored_pmap _ _ _ R) as Hp2. simpl in Hp2. rewrite Hp in Hp2.
  rewrite (bind_ret _ _ _ tt _) in Hrun by (by apply modify_ok).
  apply bind_ok in Hrun as (post & s3 & Hpost & Hrun). rewrite (bind_ret _ _ _ tt _) in Hrun by (by apply modify_ok).
  injection Hrun as <- <-. unfold call_log. simpl.
  assert (hands_over (fn_lib im fn) (fn_name im fn) = false -> post = []) as Hno'.
  { intros Hn. rewrite (proj2 (no_wraps _ _ callee arg0 arg1 rl.1 Hn)) in Hpost. by injection Hpost as <-. }
  apply (gen_post_wrap_wraps _ _ caller) in Hpost as (m3 & Hm3 & -> & Hto').
  2:{ apply (closing_caller s a fn m1 (attaches rl.2)); done. }
  rewrite !attaches_app, !attaches_of. split; [by eapply crossing_restored|].
  apply Forall_app. split; [|apply Forall_app; split].
  - eapply attached_own; [exact Hto|done|exact Hpe|by right].
  - eapply Forall_impl; [exact F|]. intros e. by apply own_event_same.
  - eapply attached_own; [exact Hto'|done|exact Hpc|left; congruence].
Qed.

Lemma hooked_confined cur fn arg0 arg1 ret m : confined (fn_module im fn) m ->
  confined cur (r ← hooked im fn arg0 arg1 (with_ret ret m) []; mret (call_log cur fn r)).
Proof.
  intros Hm s log s' Hok Hr (r & s1 & Hrun & Hlog)%bind_ok. injection Hlog as <- <-.
  destruct (get_hook im (fn_lib im fn) (fn_name im fn) arg0 arg1) as [v|] eqn:Hg.
  { unfold hooked in Hrun. rewrite Hg in Hrun. injection Hrun as <- <-. split; [apply restored_refl|constructor]. }
  pose proof Hr as ((a & Ha & Hia & Hka) & _). apply (runs_in_key s cur a (eq_sym Hka)) in Hr.
  destruct (decide (key a = key (fn_module im fn))) as [Hk|Hk].
  { rewrite (hooked_friend _ _ s a) in Hrun by done. apply bind_ok in Hrun as (rl & s2 & [_ Hb]%with_ret_ok & Hrun).
    injection Hrun as <- <-. unfold call_log. simpl. rewrite app_nil_r. apply Hm; [done| |done]. by apply (runs_in_key s a). }
  pose proof (arr_at_Some _ _ _ Ha) as [Hl0 Hl1]. pose proof (proj1 Hok) as Hlen. unfold MAX_LAYERS in Hlen.
  destruct (decide (layer s + 1 = Z.of_nat MAX_LAYERS)) as [Hl|Hl]; [by rewrite (hooked_overflow _ [] s a fn) in Hrun|].
  assert (layer s + 1 < Z.of_nat MAX_LAYERS) by (unfold MAX_LAYERS in *; lia).
  destruct (proj2 Hok _ (layout_fn fn)) as (callee & _ & Hcallee & _ & _).
  destruct (decide (coros s !! fn = None \/ coros s !! fn = Some CORO_RUNNING)) as [|Hc];
    [by rewrite (hooked_no_coro _ [] s a fn) in Hrun|].
  destruct (coros s !! fn) as [c|] eqn:Hcf; [|naive_solver]. assert (c <> CORO_RUNNING) by naive_solver.
  rewrite (hooked_cross _ _ s a fn arg0 arg1 c callee) in Hrun; [by eapply crossing_confined|done..|].
  intros m1 rl s2 Hp Hu [_ Hb]%with_ret_ok.
  apply Hm in Hb as [R _]; [|by apply entering_xc_ok, opened_xc_ok|by apply entering_runs_in].
  split; [eapply restored_xc_ok; [exact R|by apply entering_xc_ok, opened_xc_ok]|]. destruct R as (_ & _ & Hre & _). exact Hre.
Qed.

Lemma exec_confined o : forall cur, confined cur (exec im cur o).
Proof.
  induction o as [k|a v|fn arg0 arg1 ret body IH] using op_ind'; intros cur; simpl.
  - intros s log s' Hok (_ & Hopen & Hlock) Hrun. inv_ok. split; [apply restored_refl|].
    constructor; [|constructor]. intros b Hb Hkb. simpl. subst k.
    apply bool_decide_ext. split; [|by intros ->].
    intros Hz. destruct (decide (key b = key cur)) as [|Hne]; [done|].
    rewrite (Hlock b Hb Hne) in Hz. done.
  - intros s log s' Hok Hr Hrun. rewrite (bind_ret _ _ _ tt _) in Hrun by (by apply modify_ok). injection Hrun as <- <-.
    split; [by repeat split|constructor].
  - apply hooked_confined, run_list_confined. eapply Forall_impl; [exact IH|]. simpl. auto.
Qed.

(** *** Completion *)

(** The nesting depth of calls; whether a tree calls only functions of [fns]
    and none that is already suspended in it. *)
Fixpoint depth (o : op) : nat :=
  match o with
  | Call _ _ _ _ body => S (foldr (fun o n => Nat.max (depth o) n) O body)
  | _ => O
  end.

Fixpoint enters_once (fns running : list Z) (o : op) : bool :=
  match o with
  | Call fn _ _ _ body =>
      existsb (Z.eqb fn) fns && negb (existsb (Z.eqb fn) running) &&
      forallb (enters_once fns (fn :: running)) body
  | _ => true
  end.

(** The memory after a tree has run. *)
Fixpoint stores (w : gmap Z Z) (o : op) : gmap Z Z :=
  match o with
  | Touch _ => w
  | Write a v => <[u64 a := u64 v]> w
  | Call fn arg0 arg1 _ body =>
      match get_hook im (fn_lib im fn) (fn_name im fn) arg0 arg1 with
      | Some _ => w
      | None => fold_left stores body w
      end
  end.

(** The attach succeeds for a module with key [k] and a heap from [lo] to [hi]: the start is
    that of a page, the range is in the heap and the kernel agrees. *)
Definition attach_fits (lo hi k : Z) (a : attach) : bool :=
  match a with
  | PageAttach _ start size => (start mod PAGE_SIZE =? 0) && mprotect_ok im start size k
  | HeapAttach _ start size =>
      (size =? 0) || (0 <? size) && (lo <=? start) && (start + size <=? hi) &&
      (start mod PAGE_SIZE =? 0) && mprotect_ok im start size k
  | _ => false
  end.

(** The metadata [tmp] are there, and both attaches succeed. *)
Definition run_fits (lo hi k : Z) (first : attach) (tmp fix_ : Z) (w : gmap Z Z) : bool :=
  attach_fits lo hi k first &&
  match w !! u64 (tmp + 8), w !! u64 tmp with
  | Some base, Some num_pages => attach_fits lo hi k (HeapAttach 0 (s64 base) (u64 (u64 (num_pages - fix_) * 4096)))
  | _, _ => false
  end.

Definition pre_fits (lo hi k : Z) (module name : string) (arg1 : Z) (w : gmap Z Z) : bool :=
  match pre_metadata module name arg1 with
  | None => true
  | Some tmp => run_fits lo hi k (PageAttach 0 tmp 4096) tmp 0 w
  end.

(** A hook that sets up the heap is not covered. *)
Definition post_fits (lo hi k : Z) (module name : string) (arg1 ret : Z) (w : gmap Z Z) : bool :=
  let tmp := u64 (ret - SIZEOF_METADATA_IFPAGES) in
  if bool_decide (module = "ukalloc" /\ name = "uk_posix_memalign_ifpages")%string then
    negb (ret =? 0) ||
    match w !! u64 arg1 with
    | Some ptr => run_fits lo hi k (PageAttach 0 (memalign_metadata ptr).1 4096) (memalign_metadata ptr).1 (memalign_metadata ptr).2 w
    | None => false
    end
  else if bool_decide (module = "ukalloc" /\ (name = "uk_malloc_ifpages" \/ name = "uk_calloc_compat"))%string then
    (ret =? 0) || run_fits lo hi k (PageAttach 0 tmp 4096) tmp 0 w
  else if bool_decide (module = "ukalloc" /\ name = "uk_realloc_ifpages")%string then
    (ret =? 0) || run_fits lo hi k (HeapAttach 0 (s64 tmp) 4096) tmp 0 w
  else if bool_decide (module = "linuxuplat" /\ name = "ukplat_memregion_get")%string then
    ret =? 4294967295
  else true.

(** One operation after the other, each with the memory that the ones before left. *)
Definition all_from (f : gmap Z Z -> op -> bool) : gmap Z Z -> list op -> bool :=
  fix go w l :=
    match l with
    | [] => true
    | o :: l' => f w o && go (stores w o) l'
    end.

(** Every attach that a hook makes when a function of [cur] runs the tree in the memory [w]
    succeeds. *)
Fixpoint serviced (lo hi cur : Z) (w : gmap Z Z) (o : op) : bool :=
  match o with
  | Call fn arg0 arg1 ret body =>
      match get_hook im (fn_lib im fn) (fn_name im fn) arg0 arg1 with
      | Some _ => true
      | None =>
          all_from (serviced lo hi (fn_module im fn)) w body &&
          ((key cur =? key (fn_module im fn)) ||
           pre_fits lo hi (key (fn_module im fn)) (fn_lib im fn) (fn_name im fn) arg1 w &&
           post_fits lo hi (key cur) (fn_lib im fn) (fn_name im fn) arg1 ret (fold_left stores body w))
      end
  | _ => true
  end.

(** The heap is set up, with a table that covers it. *)
Definition heap_ready (lo hi : Z) (m : monitor) : Prop :=
  heap_start m = lo /\ heap_end m = hi /\ hi - lo <= 2 ^ 43 /\ hi - lo <= cb_len (heap_cfg m).

Lemma fill_heap_cfg_run n : forall b idx mid, 0 <= idx -> idx + Z.of_nat n <= cb_len b ->
  exists b', fill_heap_cfg b idx n mid = Ok b' /\ cb_len b' = cb_len b.
Proof.
  induction n as [|n IH]; intros b idx mid Hi Hn; simpl; [by eexists|].
  unfold cb_set. replace ((0 <=? idx) && (idx <? cb_len b)) with true by lia. simpl.
  by destruct (IH (Cblock (cb_len b) (cb_fill b) (<[idx := schar mid]> (cb_data b))) (idx + 1) mid) as (b' & ? & ?); [lia|simpl; lia|exists b'].
Qed.

Lemma do_attach_run lo hi mid p a m :
  heap_ready lo hi m -> pmap_at mid m = Some p -> attach_to mid a -> attach_fits lo hi (pm_pkey p) a = true ->
  exists m', do_attach (mprotect_ok im) a m = Ok (tt, m') /\ heap_ready lo hi m'.
Proof.
  intros Hh Hp Hto Hf. destruct a as [mid' start size|mid' start size|mid' start size|base len]; simpl in *; try done; subst mid'.
  - apply andb_prop in Hf as [Hal Hm]. destruct (decide (size = 0)) as [->|Hs].
    { exists m. split; [|done]. apply cmp_attach_ok. by left. }
    eexists. split; [apply cmp_attach_ok; right; split; [done|]; exists p; split_and!; [done|lia|done|reflexivity]|exact Hh].
  - destruct (decide (size = 0)) as [->|Hs]. { exists m. split; [|done]. apply heap_attach_ok. by left. }
    replace (size =? 0) with false in Hf by lia. simpl in Hf. destruct Hh as (<- & <- & Hmax & Hlen).
    apply andb_prop in Hf as [[[[Hpos Hlo]%andb_prop Hhi]%andb_prop Hal]%andb_prop Hm].
    assert (0 <= Z.shiftr (start - heap_start m) 12 /\
      Z.shiftr (start - heap_start m) 12 + size / 4096 <= heap_end m - heap_start m /\
      Z.shiftr (start - heap_start m) 12 < 2 ^ 31) as (I1 & I2 & I3).
    { rewrite Z.shiftr_div_pow2 by lia. change (2 ^ 12) with 4096. change (2 ^ 43) with (2 ^ 31 * 4096) in Hmax.
      assert (start - heap_start m < 2 ^ 31 * 4096) by lia. split_and!; [apply Z.div_pos; lia| |apply Z.div_lt_upper_bound; lia].
      pose proof (Z.div_le_upper_bound (start - heap_start m) 4096 (start - heap_start m)).
      pose proof (Z.div_le_upper_bound size 4096 size). lia. }
    assert (s32 (Z.shiftr (start - heap_start m) 12) = Z.shiftr (start - heap_start m) 12) as Hs32.
    { by apply s32_small. }
    destruct (fill_heap_cfg_run (Z.to_nat (size / 4096)) (heap_cfg m) (Z.shiftr (start - heap_start m) 12) mid) as (cfg & Hfill & Hcl); [done| |].
    { rewrite Z2Nat.id by (apply Z.div_pos; lia). lia. }
    eexists. split.
    + apply heap_attach_ok. right. split; [done|]. split; [lia|]. exists cfg. rewrite Hs32. split; [exact Hfill|].
      apply cmp_attach_ok. right. split; [done|]. exists p. split_and!; [done|lia|done|reflexivity].
    + unfold heap_ready. simpl. rewrite Hcl. done.
Qed.

Lemma two_attaches_run lo hi mid p first tmp fix_ s :
  heap_ready lo hi (xmon s) -> pmap_at mid (xmon s) = Some p -> attach_to mid first ->
  run_fits lo hi (pm_pkey p) first tmp fix_ (words s) = true ->
  exists l m, attach_run im first mid tmp fix_ s = Ok (l, set_xmon m s) /\ heap_ready lo hi m.
Proof.
  intros Hh Hp Hto [H1 H2]%andb_prop. destruct (words s !! u64 (tmp + 8)) as [base|] eqn:Hb; [|done].
  destruct (words s !! u64 tmp) as [n|] eqn:Hn; [|done].
  destruct (do_attach_run lo hi mid p first (xmon s) Hh Hp Hto H1) as (m1 & E1 & Hh1).
  set (a2 := HeapAttach mid (s64 base) (u64 (u64 (n - fix_) * 4096))).
  assert (pmap_at mid m1 = Some p) as Hp1 by (rewrite (pmap_at_same _ (xmon s)); [done|by apply do_attach_frame in E1 as [_ ?]]).
  destruct (do_attach_run lo hi mid p a2 m1 Hh1 Hp1 eq_refl H2) as (m2 & E2 & Hh2).
  exists ([first] ++ [a2]), m2. split; [|done]. unfold attach_run, attach_now.
  rewrite (bind_ret _ _ _ [first] (set_xmon m1 s)) by (by rewrite (bind_ret _ _ _ _ _ (on_mon_run _ _ _ _ E1))).
  rewrite (bind_ret _ _ _ base (set_xmon m1 s)) by (by apply get_word_ok).
  rewrite (bind_ret _ _ _ n (set_xmon m1 s)) by (by apply get_word_ok).
  rewrite (bind_ret _ _ _ [a2] (set_xmon m2 s)); [done|].
  by rewrite (bind_ret _ _ _ _ _ (on_mon_run _ (set_xmon m1 s) _ _ E2)).
Qed.

Lemma set_xmon_same s : set_xmon (xmon s) s = s.
Proof. by destruct s. Qed.

Lemma nothing_run lo hi s : heap_ready lo hi (xmon s) ->
  exists l m, (mret [] : M xstate (list attach)) s = Ok (l, set_xmon m s) /\ heap_ready lo hi m.
Proof. intros Hh. exists [], (xmon s). by rewrite set_xmon_same. Qed.

Lemma gen_pre_wrap_run lo hi module name callee p arg1 s :
  heap_ready lo hi (xmon s) -> pmap_at callee (xmon s) = Some p ->
  pre_fits lo hi (pm_pkey p) module name arg1 (words s) = true ->
  exists l m, gen_pre_wrap im module name callee arg1 s = Ok (l, set_xmon m s) /\ heap_ready lo hi m.
Proof.
  intros Hh Hp Hf. unfold gen_pre_wrap, pre_fits in *.
  destruct (pre_metadata _ _ _) as [tmp|]; [by eapply two_attaches_run|by apply nothing_run].
Qed.

Lemma gen_post_wrap_run lo hi module name caller p arg0 arg1 ret s :
  heap_ready lo hi (xmon s) -> caller_id s = Ok (caller, s) -> pmap_at caller (xmon s) = Some p ->
  post_fits lo hi (pm_pkey p) module name arg1 ret (words s) = true ->
  exists l m, gen_post_wrap im module name arg0 arg1 ret s = Ok (l, set_xmon m s) /\ heap_ready lo hi m.
Proof.
  intros Hh Hc Hp Hf. unfold gen_post_wrap, post_fits in *. repeat case_bool_decide.
  - destruct (ret =? 0); [|by apply nothing_run]. simpl in Hf.
    destruct (words s !! u64 arg1) as [ptr|] eqn:Hw; [|done]. cbn [negb].
    rewrite (bind_ret _ _ _ ptr s) by (by apply get_word_ok). destruct (memalign_metadata ptr) as [tmp f].
    rewrite (bind_ret _ _ _ _ _ Hc). by eapply two_attaches_run.
  - destruct (ret =? 0); [by apply nothing_run|]. rewrite (bind_ret _ _ _ _ _ Hc). by eapply two_attaches_run.
  - destruct (ret =? 0); [by apply nothing_run|]. rewrite (bind_ret _ _ _ _ _ Hc). by eapply two_attaches_run.
  - rewrite Hf. by apply nothing_run.
  - by apply nothing_run.
Qed.

(** The functions of [fns] have their coroutine, and the suspended ones are in
    [running]. *)
Definition coros_ok (fns running : list Z) (s : xstate) : Prop :=
  forall f, (f ∈ fns -> is_Some (coros s !! f)) /\ (coros s !! f = Some CORO_RUNNING -> f ∈ running).

Lemma coros_ok_restored fns running s l s' :
  restored s l s' -> coros_ok fns running s -> coros_ok fns running s'.
Proof.
  intros (_ & _ & _ & _ & _ & E6 & E7) Hc f. destruct (Hc f) as [Hs Hr].
  split; [auto|]. by rewrite E6.
Qed.

Lemma existsb_elem f l : existsb (Z.eqb f) l = true <-> f ∈ l.
Proof.
  rewrite existsb_exists, list_elem_of_In. split; [|intros; exists f; by rewrite Z.eqb_refl].
  by intros (x & Hx & ->%Z.eqb_eq).
Qed.

(** The function's coroutine added to the suspended ones. *)
Lemma coros_ok_enter fns running fn s t :
  coros_ok fns running s -> (forall f, f <> fn -> coros t !! f = coros s !! f) ->
  is_Some (coros t !! fn) -> coros_ok fns (fn :: running) t.
Proof.
  intros Hc Ht Hs f. destruct (decide (f = fn)) as [->|Hne]; [split; [done|set_solver]|].
  rewrite Ht by done. destruct (Hc f) as [? Hf]. split; [done|]. intros ?%Hf. set_solver.
Qed.

Lemma coros_ok_entering fns running a fn s m :
  coros_ok fns running s -> coros_ok fns (fn :: running) (entering a fn (set_xmon m (opened s fn))).
Proof.
  intros Hc. apply (coros_ok_enter _ _ _ s); [done| |]; simpl;
    [intros; by rewrite !lookup_insert_ne by done|by rewrite lookup_insert_eq].
Qed.

(** The computation ends, with [w'] in memory. *)
Definition completes (lo hi cur : Z) (d : nat) (fns running : list Z) (w w' : gmap Z Z) (m : M xstate (list event)) : Prop :=
  forall s, xc_ok s -> runs_in s cur -> coros_ok fns running s -> heap_ready lo hi (xmon s) -> words s = w ->
    layer s + Z.of_nat d < Z.of_nat MAX_LAYERS ->
    exists log s', m s = Ok (log, s') /\ words s' = w' /\ heap_ready lo hi (xmon s').

Lemma completes_mono lo hi cur d d' fns running w w' m :
  (d <= d')%nat -> completes lo hi cur d fns running w w' m -> completes lo hi cur d' fns running w w' m.
Proof. intros Hd Hm s Hok Hr Hc Hh Hw Hl. apply Hm; try done. lia. Qed.

Lemma run_list_completes lo hi cur d fns running f l : forall w,
  Forall (fun o => confined cur (f o)) l ->
  (forall o w, o ∈ l -> serviced lo hi cur w o = true -> completes lo hi cur d fns running w (stores w o) (f o)) ->
  all_from (serviced lo hi cur) w l = true ->
  completes lo hi cur d fns running w (fold_left stores l w) (run_list f l).
Proof.
  induction l as [|o l IH]; intros w HF HD Hsv s Hok Hr Hc Hh Hw Hd; simpl.
  { by eexists _, _. }
  apply Forall_cons in HF as [Ho HF]. simpl in Hsv. apply andb_prop in Hsv as [Hs Hsv].
  destruct (HD o w ltac:(set_solver) Hs s) as (e & s1 & E1 & Hw1 & Hh1); [done..|].
  destruct (Ho s e s1 Hok Hr E1) as [R _].
  destruct (IH (stores w o) HF ltac:(intros; apply HD; [set_solver|done]) Hsv s1) as (es & s2 & E2 & Hw2 & Hh2);
    [by eapply restored_xc_ok|by eapply restored_runs_in|by eapply coros_ok_restored|done|done| |].
  { destruct R as (_ & -> & _). done. }
  exists (e ++ es), s2. rewrite (bind_ret _ _ _ _ _ E1). by rewrite (bind_ret _ _ _ _ _ E2).
Qed.

(** The stages of a call into another cubicle end. *)
Lemma crossing_completes lo hi s a fn arg0 arg1 ret d fns running callee w' m :
  xc_ok s -> runs_in s a -> arr_at (prev_module s) (layer s) = Some a -> isolated a ->
  key a <> key (fn_module im fn) -> layer s + 1 + Z.of_nat d < Z.of_nat MAX_LAYERS ->
  arr_at (remap s) (fn_module im fn) = Some callee -> coros_ok fns running s -> heap_ready lo hi (xmon s) ->
  confined (fn_module im fn) m -> completes lo hi (fn_module im fn) d fns (fn :: running) (words s) w' m ->
  pre_fits lo hi (key (fn_module im fn)) (fn_lib im fn) (fn_name im fn) arg1 (words s) = true ->
  post_fits lo hi (key a) (fn_lib im fn) (fn_name im fn) arg1 ret w' = true ->
  exists r s', crossing a fn arg0 arg1 callee (with_ret ret m) (opened s fn) = Ok (r, s') /\
    words s' = w' /\ heap_ready lo hi (xmon s').
Proof.
  intros Hok Hr Ha Hia Hk Hl Hcallee Hc Hh Hconf Hm Hpre Hpost. assert (layer s + 1 < Z.of_nat MAX_LAYERS) as Hl1 by lia.
  pose proof Hok as [_ Hmods]. destruct (Hmods _ (layout_fn fn)) as (callee' & pe & Hce & Hpe & Hke).
  rewrite Hcallee in Hce. injection Hce as <-. destruct (Hmods a Hia) as (caller & pc & Hca & Hpc & Hkc).
  rewrite <- Hke in Hpre. rewrite <- Hkc in Hpost. unfold crossing.
  destruct (gen_pre_wrap_run lo hi _ _ callee pe arg1 (opened s fn) Hh Hpe Hpre) as (pre & m1 & E1 & Hh1).
  rewrite (bind_ret _ _ _ _ _ E1). rewrite (bind_ret _ _ _ tt _) by (by apply modify_ok).
  apply gen_pre_wrap_wraps in E1 as (m1' & Hm1 & [= <-] & _). apply do_all_frame in Hm1 as [Hu Hp]. simpl in Hp.
  set (s1 := entering a fn (set_xmon m1 (opened s fn))).
  assert (xc_ok s1) as Hok1 by (by apply entering_xc_ok, opened_xc_ok).
  assert (runs_in s1 (fn_module im fn)) as Hr1 by (by apply entering_runs_in).
  destruct (Hm s1) as (log & s2 & E2 & Hw2 & Hh2); [done|done|by apply coros_ok_entering|exact Hh1|done|simpl; lia|].
  destruct (Hconf s1 log s2 Hok1 Hr1 E2) as [R _].
  rewrite (bind_ret _ _ _ (ret, log) s2) by (unfold with_ret; by rewrite (bind_ret _ _ _ _ _ E2)).
  rewrite (bind_ret _ _ _ tt _) by (by apply modify_ok). cbn [fst snd].
  assert (pmap_at caller (xmon (closing a fn s2)) = Some pc) as Hpc2.
  { rewrite (pmap_at_same _ (xmon s)); [done|]. simpl. rewrite (restored_pmap _ _ _ R). exact Hp. }
  rewrite <- Hw2 in Hpost.
  destruct (gen_post_wrap_run lo hi _ _ caller pc arg0 arg1 ret (closing a fn s2) Hh2
    (closing_caller s a fn m1 _ s2 caller Hok Ha Hl1 R Hca) Hpc2 Hpost) as (post & m3 & E3 & Hh3).
  rewrite (bind_ret _ _ _ _ _ E3). rewrite (bind_ret _ _ _ tt _) by (by apply modify_ok).
  by eexists _, _.
Qed.

Lemma hooked_completes lo hi cur fn arg0 arg1 ret d fns running w body m :
  confined (fn_module im fn) m -> fn ∈ fns -> fn ∉ running ->
  get_hook im (fn_lib im fn) (fn_name im fn) arg0 arg1 = None ->
  completes lo hi (fn_module im fn) d fns (fn :: running) w (fold_left stores body w) m ->
  (key cur =? key (fn_module im fn)) ||
    pre_fits lo hi (key (fn_module im fn)) (fn_lib im fn) (fn_name im fn) arg1 w &&
    post_fits lo hi (key cur) (fn_lib im fn) (fn_name im fn) arg1 ret (fold_left stores body w) = true ->
  completes lo hi cur (S d) fns running w (fold_left stores body w)
    (r ← hooked im fn arg0 arg1 (with_ret ret m) []; mret (call_log cur fn r)).
Proof.
  intros Hconf Hin Hfn Hg Hm Hfit s Hok Hr Hc Hh <- Hd. pose proof Hr as ((a & Ha & Hia & Hka) & _).
  apply (runs_in_key s cur a (eq_sym Hka)) in Hr.
  assert (exists r s', hooked im fn arg0 arg1 (with_ret ret m) [] s = Ok (r, s') /\
    words s' = fold_left stores body (words s) /\ heap_ready lo hi (xmon s')) as (r & s' & E & Hw & Hh').
  { destruct (decide (key a = key (fn_module im fn))) as [Hk|Hk].
    - destruct (Hm s) as (log & s2 & E2 & Hw2 & Hh2);
        [done|by apply (runs_in_key s a)|apply (coros_ok_enter _ _ _ s); [done|done|by apply Hc]|done|done|lia|].
      rewrite (hooked_friend _ _ s a) by done. exists (ret, ([], log, [])), s2. split; [|done].
      by rewrite (bind_ret _ _ _ (ret, log) s2) by (unfold with_ret; by rewrite (bind_ret _ _ _ _ _ E2)).
    - destruct (Hc fn) as [Hs Hnr]. destruct (Hs Hin) as [c Hcf]. assert (c <> CORO_RUNNING) by (intros ->; auto).
      replace (key cur =? key (fn_module im fn)) with false in Hfit by lia. apply andb_prop in Hfit as [Hpre Hpost].
      destruct (proj2 Hok _ (layout_fn fn)) as (callee & _ & Hcallee & _ & _). rewrite <- Hka in Hpost.
      rewrite (hooked_cross _ _ s a fn arg0 arg1 c callee); [eapply crossing_completes; try done; lia|done..|lia|done|done|done|].
      intros m1 rl s2 Hp Hu [_ Hb]%with_ret_ok.
      apply Hconf in Hb as [R _]; [|by apply entering_xc_ok, opened_xc_ok|apply entering_runs_in; try done; lia].
      split; [eapply restored_xc_ok; [exact R|by apply entering_xc_ok, opened_xc_ok]|]. destruct R as (_ & _ & Hre & _). exact Hre. }
  exists (call_log cur fn r), s'. by rewrite (bind_ret _ _ _ _ _ E).
Qed.

Lemma depth_body fn arg0 arg1 ret body :
  Forall (fun o => (depth o < depth (Call fn arg0 arg1 ret body))%nat) body.
Proof.
  simpl. induction body as [|o body IH]; constructor; simpl; [lia|].
  eapply Forall_impl; [exact IH|]. simpl. lia.
Qed.

Lemma exec_completes lo hi o : forall cur fns running w,
  enters_once fns running o = true -> serviced lo hi cur w o = true ->
  completes lo hi cur (depth o) fns running w (stores w o) (exec im cur o).
Proof.
  induction o as [k|a v|fn arg0 arg1 ret body IH] using op_ind'; intros cur fns running w Hone Hsv.
  - intros s _ _ _ Hh Hw _. by eexists _, _.
  - intros s _ _ _ Hh Hw _. eexists _, _. split; [reflexivity|]. simpl. by rewrite Hw.
  - simpl in Hone, Hsv. apply andb_prop in Hone as [[Hin Hn]%andb_prop Hbody].
    cbn [exec stores depth]. set (d := foldr _ O body). destruct (get_hook im (fn_lib im fn) (fn_name im fn) arg0 arg1) as [v|] eqn:Hg.
    { intros s _ _ _ Hh Hw _. exists [], s. split; [|done]. unfold hooked. by rewrite Hg. }
    apply andb_prop in Hsv as [Hall Hfit]. apply hooked_completes; [| | |done| |done].
    + apply run_list_confined, Forall_forall. intros. apply exec_confined.
    + by apply existsb_elem.
    + intros Hrun%existsb_elem. by rewrite Hrun in Hn.
    + apply run_list_completes; [apply Forall_forall; intros; apply exec_confined| |done].
      intros o w1 Ho Hs1. rewrite Forall_forall in IH. pose proof (depth_body fn arg0 arg1 ret body) as Hd.
      rewrite Forall_forall in Hd. specialize (Hd o Ho). cbn [depth] in Hd. fold d in Hd.
      rewrite forallb_forall in Hbody. apply (completes_mono _ _ _ (depth o)); [lia|].
      apply IH; [done| |done]. apply Hbody. by apply list_elem_of_In.
Qed.

(** C1. Isolation across calls: in a booted system in which only the cubicle of module
    [cur] is open, whatever tree of calls a function of [cur] makes, at every access of
    every function in the tree exactly the memory of that function's own cubicle is
    accessible, and when the tree has run the rights, the layer and the caller stack are
    as before. All that the tree changes in the monitor is what the recorded attaches
    do, in their order; each is made by the hook of one of the functions that hand over
    memory (malloc, calloc, memalign, realloc and free of the allocator, and the one
    that reports the memory regions), to the cubicle of the function that makes the call
    or to the one of the called function. A tree without such calls leaves the monitor
    as it was. Modules share a key exactly if the build makes them friends; functions
    that fault are not part of the trees. *)
Theorem cross_calls_isolated cur ops s log s' :
  xc_ok s -> runs_in s cur -> exec_list im cur ops s = Ok (log, s') ->
  restored s (attaches log) s' /\ runs_in s' cur /\ Forall (own_event s) log.
Proof.
  intros Hok Hr Hrun. assert (confined cur (exec_list im cur ops)) as Hc.
  { apply run_list_confined, Forall_forall. intros. apply exec_confined. }
  destruct (Hc s log s' Hok Hr Hrun) as [R F]. split; [done|]. split; [by eapply restored_runs_in|done].
Qed.

(** C40. Calls complete: a call tree that fits the 16 entries of [prev_module], enters
    no function that is already suspended, and in which every attach by a hook finds its
    metadata, starts at a page and stays in the heap (and is accepted by the kernel),
    runs to its end. Without the last condition hooks hang. The heap is set up before;
    the hook that does so is not covered. *)
Theorem cross_calls_complete lo hi cur o fns running s :
  xc_ok s -> runs_in s cur -> coros_ok fns running s -> heap_ready lo hi (xmon s) ->
  enters_once fns running o = true -> serviced lo hi cur (words s) o = true ->
  layer s + Z.of_nat (depth o) < Z.of_nat MAX_LAYERS ->
  exists log s', exec im cur o s = Ok (log, s').
Proof.
  intros Hok Hr Hc Hh Hone Hsv Hd.
  destruct (exec_completes lo hi o cur fns running (words s) Hone Hsv s) as (log & s' & E & _); [done..|]. by exists log, s'.
Qed.

(** Calls through distinct functions, each made by the one before, with their arguments
    and results. *)
Fixpoint chain (l : list (Z * Z * Z * Z)) : list op :=
  match l with
  | [] => []
  | (f, arg0, arg1, ret) :: l' => [Call f arg0 arg1 ret (chain l')]
  end.

Definition callee_of (c : Z * Z * Z * Z) : Z := c.1.1.1.

Fixpoint alternates (k : Z) (fns : list Z) : bool :=
  match fns with
  | [] => true
  | f :: fns' => negb (k =? key (fn_module im f)) && alternates (key (fn_module im f)) fns'
  end.

(** The hook has nothing to do but to call the function. *)
Definition plain_call (c : Z * Z * Z * Z) : bool :=
  let '(f, arg0, arg1, _) := c in
  bool_decide (get_hook im (fn_lib im f) (fn_name im f) arg0 arg1 = None) &&
  bool_decide (pre_metadata (fn_lib im f) (fn_name im f) arg1 = None).

(** C39. The depth limit is unchecked: when a chain of calls between different
    cubicles reaches 16 levels the hook writes past the end of [prev_module].  The
    functions are any but the four whose hooks do not call them; memory is not freed or
    reallocated by the calls of the chain. *)
Theorem deep_calls_overflow all l : forall cur running s,
  xc_ok s -> runs_in s cur -> coros_ok all running s -> forallb plain_call l = true ->
  NoDup (callee_of <$> l) -> (forall f, f ∈ callee_of <$> l -> f ∈ all /\ f ∉ running) ->
  alternates (key cur) (callee_of <$> l) = true ->
  Z.of_nat MAX_LAYERS <= layer s + Z.of_nat (length l) ->
  exec_list im cur (chain l) s = Undef.
Proof.
  induction l as [|[[[fn arg0] arg1] ret] l IH]; intros cur running s Hok Hr Hc Hpl Hnd Hrun Halt Hl;
    pose proof Hr as ((a & Ha & Hia & Hka) & _); pose proof (arr_at_Some _ _ _ Ha) as [Hl0 Hl1];
    pose proof (proj1 Hok) as Hlen; simpl in Hl; [lia|].
  cbn [forallb] in Hpl. apply andb_prop in Hpl as [[Hg%bool_decide_eq_true Hpm%bool_decide_eq_true]%andb_prop Hpl].
  rewrite fmap_cons in Hnd, Hrun, Halt. apply NoDup_cons in Hnd as [Hfn Hnd]. cbn [alternates callee_of fst] in *.
  apply andb_prop in Halt as [Hk Halt].
  assert (key a <> key (fn_module im fn)) as Hk' by (rewrite Hka; by apply negb_true_iff, Z.eqb_neq in Hk).
  apply (runs_in_key s cur a (eq_sym Hka)) in Hr. cbn [chain exec_list run_list exec].
  fold (exec_list im (fn_module im fn) (chain l)). rewrite bind_eq, bind_eq.
  destruct (decide (layer s + 1 = Z.of_nat MAX_LAYERS)) as [Hmax|Hmax].
  { by rewrite (hooked_overflow _ [] s a fn). }
  destruct (Hc fn) as [Hs Hnr]. destruct (Hrun fn ltac:(set_solver)) as [Hall Hnot].
  destruct (Hs Hall) as [c Hcf]. assert (c <> CORO_RUNNING) by (intros ->; auto).
  assert (layer s + 1 < Z.of_nat MAX_LAYERS) by lia.
  destruct (proj2 Hok _ (layout_fn fn)) as (callee & _ & Hcallee & _ & _).
  assert (confined (fn_module im fn) (exec_list im (fn_module im fn) (chain l))) as Hconf.
  { apply run_list_confined, Forall_forall. intros. apply exec_confined. }
  rewrite (hooked_cross _ [] s a fn arg0 arg1 c callee); [|done..|].
  - unfold crossing, gen_pre_wrap. rewrite Hpm. rewrite (bind_ret _ _ _ [] (opened s fn)) by done.
    rewrite (bind_ret _ _ _ tt _) by (by apply modify_ok). rewrite <- (set_xmon_same (opened s fn)).
    set (s1 := entering a fn _). rewrite bind_eq. unfold with_ret. rewrite bind_eq.
    rewrite (IH (fn_module im fn) (fn :: running) s1); [done|by apply entering_xc_ok, opened_xc_ok|by apply entering_runs_in|
      by apply coros_ok_entering|done|done| |done|simpl; lia].
    intros f Hf. destruct (Hrun f ltac:(set_solver)). split; [done|]. apply not_elem_of_cons. split; [by intros ->|done].
  - intros m1 rl s2 Hp Hu [_ Hb]%with_ret_ok.
    apply Hconf in Hb as [R _]; [|by apply entering_xc_ok, opened_xc_ok|by apply entering_runs_in].
    split; [eapply restored_xc_ok; [exact R|by apply entering_xc_ok, opened_xc_ok]|]. destruct R as (_ & _ & Hre & _). exact Hre.
Qed.

End Balance.

(** ** A concrete deployment: platform, application, VFS and allocator *)

Definition demo_fn_module (fn : Z) : Z :=
  if 100 <=? fn then E_UKALLOC else if Z.even fn then E_VFSCORE else E_APP.
Definition demo_isolated (a : Z) : Prop := a = E_APP \/ a = E_LINUXUPLAT \/ a = E_VFSCORE \/ a = E_UKALLOC.
Definition demo_key (a : Z) : Z :=
  if a =? E_APP then 1 else if a =? E_LINUXUPLAT then 2 else if a =? E_VFSCORE then 3 else if a =? E_UKALLOC then 4 else 15.

Definition demo_image : image :=
  Image mprotect_all [] demo_fn_module
    (fun fn => if 100 <=? fn then "ukalloc"%string else if Z.even fn then "vfscore"%string else "app"%string)
    (fun fn => if fn =? 100 then "uk_malloc_ifpages"%string else if fn =? 101 then "uk_free_ifpages"%string else "f"%string)
    (fun _ _ _ => 0).

#[export] Instance demo_layout : CubicleLayout demo_image demo_isolated demo_key.
Proof.
  split.
  - intros fn. simpl. unfold demo_fn_module, demo_isolated. destruct (100 <=? fn); [auto|]. destruct (Z.even fn); auto.
  - intros a [->|[->|[->| ->]]]; vm_compute; split; discriminate.
  - intros a b [->|[->|[->| ->]]] [->|[->|[->| ->]]]; vm_compute; split; discriminate || reflexivity.
Qed.

Definition demo_fns : list Z := seqZ 0 20 ++ [100; 101].

Definition demo_xmon : monitor :=
  set_heap (Cblock 65536 E_UKALLOC ∅) 1048576 1114112
    (set_pkru (list_to_map [(1, 1); (2, 0); (3, 1); (4, 1)])
      (set_pmap (<[6%nat := small_mod "libukalloc.so" 20480 4]> (pmap small_monitor)) small_monitor)).

Definition demo_xstate : xstate :=
  Xstate demo_xmon 0 (E_LINUXUPLAT :: replicate 15 0) (seqZ 0 26)
    (list_to_map ((fun f => (f, CORO_FINISHED)) <$> demo_fns)) ∅.

Lemma demo_xc_ok : xc_ok (isolated := demo_isolated) (key := demo_key) demo_xstate.
Proof. split; [reflexivity|]. intros a [->|[->|[->| ->]]]; eexists _, _; split_and!; vm_compute; reflexivity. Qed.

Lemma demo_runs_in : runs_in (isolated := demo_isolated) (key := demo_key) demo_xstate E_LINUXUPLAT.
Proof.
  split; [exists E_LINUXUPLAT; split; [reflexivity|split; [by right; left|reflexivity]]|].
  split; [reflexivity|]. intros b [->|[->|[->| ->]]] Hk; [reflexivity|by destruct Hk|reflexivity|reflexivity].
Qed.

Lemma demo_coros_ok : coros_ok demo_fns [] demo_xstate.
Proof.
  intros f. change (coros demo_xstate) with (list_to_map (M := gmap Z coro_state_t) ((fun f => (f, CORO_FINISHED)) <$> demo_fns)). split.
  - intros Hf. rewrite <- not_eq_None_Some. intros Hn.
    apply not_elem_of_list_to_map in Hn. apply Hn. rewrite <- list_fmap_compose. apply list_elem_of_fmap. by exists f.
  - intros Hf%elem_of_list_to_map_2. apply list_elem_of_fmap in Hf as (? & ? & ?). done.
Qed.

(** The platform calls the application, which accesses its own memory and that of the VFS,
    calls the VFS, which does the same, allocates a page and frees it. *)
Definition demo_tree : op :=
  Call 1 0 0 0 [Touch 1; Touch 3; Call 2 0 0 0 [Touch 1; Touch 3];
    Call 100 0 100 1048592 [Touch 4; Touch 1; Write 1048576 1; Write 1048584 1048576];
    Call 101 0 1048592 0 [Touch 4]; Touch 1].

Definition demo_log : list event :=
  [Access 0 1 true; Access 0 3 false; Access 21 1 false; Access 21 3 true; Access 6 4 true; Access 6 1 false;
   Attached 0 100 (PageAttach 0 1048576 4096); Attached 0 100 (HeapAttach 0 1048576 4096);
   Attached 0 101 (PageAttach 6 1048576 4096); Attached 0 101 (HeapAttach 6 1048576 4096);
   Access 6 4 true; Access 0 1 true].

Lemma cross_calls_isolated_witness :
  exists s', exec_list demo_image E_LINUXUPLAT [demo_tree] demo_xstate = Ok (demo_log, s') /\
    restored (im := demo_image) demo_xstate (attaches demo_log) s' /\
    runs_in (isolated := demo_isolated) (key := demo_key) s' E_LINUXUPLAT /\
    Forall (own_event (im := demo_image) (isolated := demo_isolated) (key := demo_key) demo_xstate) demo_log.
Proof.
  eexists. split; [vm_compute; reflexivity|].
  apply (cross_calls_isolated (im := demo_image) E_LINUXUPLAT [demo_tree]).
  - exact demo_xc_ok.
  - exact demo_runs_in.
  - vm_compute. reflexivity.
Defined.

Lemma cross_calls_complete_witness :
  exists log s', exec demo_image E_LINUXUPLAT demo_tree demo_xstate = Ok (log, s').
Proof.
  apply (cross_calls_complete (im := demo_image) (isolated := demo_isolated) (key := demo_key) 1048576 1114112 E_LINUXUPLAT demo_tree demo_fns []).
  - exact demo_xc_ok.
  - exact demo_runs_in.
  - exact demo_coros_ok.
  - vm_compute. split; [reflexivity|]. split; [reflexivity|]. split; discriminate.
  - vm_compute. reflexivity.
  - vm_compute. reflexivity.
  - vm_compute. reflexivity.
Defined.

Lemma deep_calls_overflow_witness :
  exec_list demo_image E_LINUXUPLAT (chain ((fun f => (f, 0, 0, 0)) <$> seqZ 1 16)) demo_xstate = Undef.
Proof.
  apply (deep_calls_overflow (im := demo_image) (isolated := demo_isolated) (key := demo_key) demo_fns _ E_LINUXUPLAT []).
  - exact demo_xc_ok.
  - exact demo_runs_in.
  - exact demo_coros_ok.
  - vm_compute. reflexivity.
  - apply (bool_decide_unpack (NoDup _)). vm_compute. exact I.
  - intros f Hf. split; [|apply not_elem_of_nil]. rewrite <- list_fmap_compose in Hf. apply list_elem_of_fmap in Hf as (f' & -> & Hf%elem_of_seqZ).
    apply elem_of_app. left. apply elem_of_seqZ. unfold compose, callee_of. simpl fst. lia.
  - vm_compute. reflexivity.
  - vm_compute. discriminate.
Defined.

(** Freeing an object that [uk_posix_memalign_ifpages] has aligned, say, to 64 bytes: the hook
    looks for the metadata right below the object, where they are not, and hangs in
    [cmp_attach] on an address that is not that of a page. *)
Lemma misaligned_free_hangs im s callee p arg1 :
  pmap_at callee (xmon s) = Some p -> Z.land arg1 4095 <> 0 ->
  u64 (arg1 - SIZEOF_METADATA_IFPAGES) mod PAGE_SIZE <> 0 ->
  gen_pre_wrap im "ukalloc" "uk_free_ifpages" callee arg1 s = Spin.
Proof.
  intros Hp Hlow Hmod. unfold gen_pre_wrap, pre_metadata. rewrite bool_decide_true by done.
  destruct (Z.eqb_spec arg1 0) as [->|_]; [done|]. rewrite (proj2 (Z.eqb_neq _ _) Hlow). cbn [negb].
  unfold attach_run, attach_now. rewrite bind_eq, bind_eq. unfold on_mon. cbn [do_attach]. unfold cmp_attach, pkey_mprotect.
  change (4096 =? 0) with false. cbv iota. rewrite (bind_ret _ _ _ p (xmon s)) by (by apply deref_ok).
  by rewrite (proj2 (Z.eqb_neq _ _) Hmod).
Qed.

Lemma misaligned_free_example : exec demo_image E_LINUXUPLAT (Call 101 0 1048640 0 []) demo_xstate = Spin.
Proof. vm_compute. reflexivity. Qed.
