(* ===== verification/BuddyMap.v ===== *)
(** The binary buddy page allocator, part 1: its data and the allocation bitmap
    (unikraft/lib/ukallocbbuddy/bbuddy.c, [map_get_memr], [allocated_in_map],
    [map_alloc], [map_free]).

    Pages are named by their byte address.  The theorems relate the word-wise
    mask arithmetic of [map_alloc] and [map_free] to one bit per page. *)
From S2P Require Import Prelude.
From stdpp Require Import base numbers gmap list.
#[local] Open Scope Z_scope.

(** ** Data *)

(** A [chunk_head_t *]: a free chunk at an address, the list end
    [&free_tail[i]], or null. *)
Inductive chunkp : Type :=
| PChunk (a : Z)
| PTail (i : Z)
| PNull.

(** A [chunk_head_t **]: [&free_head[i]] or the [next] field of a chunk. *)
Inductive pploc : Type :=
| LHead (i : Z)
| LNext (a : Z).

#[global] Instance chunkp_eq_dec : EqDecision chunkp.
Proof. solve_decision. Defined.
#[global] Instance pploc_eq_dec : EqDecision pploc.
Proof. solve_decision. Defined.

Record chunk_head_st := Chunk { c_next : chunkp; c_pprev : pploc; c_level : Z }.

Definition FREELIST_SIZE : Z := 52.

Record uk_bbpalloc_memr := Memr {
  first_page : Z;
  nr_pages : Z;
  mm_alloc_bitmap_size : Z;
  mm_alloc_bitmap : list Z
}.

(** [uk_bbpalloc] with the memory it manages: the chunk headers and the levels
    in the chunk tails, by address.  The region list is in list order. *)
Record uk_bbpalloc := Bbpalloc {
  nr_free_pages : Z;
  free_head : list chunkp;
  free_tail : list chunk_head_st;
  memr_head : list uk_bbpalloc_memr;
  heads : gmap Z chunk_head_st;
  tails : gmap Z Z
}.

Definition set_nr_free v b :=
  Bbpalloc v (free_head b) (free_tail b) (memr_head b) (heads b) (tails b).
Definition set_free_head v b :=
  Bbpalloc (nr_free_pages b) v (free_tail b) (memr_head b) (heads b) (tails b).
Definition set_free_tail v b :=
  Bbpalloc (nr_free_pages b) (free_head b) v (memr_head b) (heads b) (tails b).
Definition set_memr v b :=
  Bbpalloc (nr_free_pages b) (free_head b) (free_tail b) v (heads b) (tails b).
Definition set_heads v b :=
  Bbpalloc (nr_free_pages b) (free_head b) (free_tail b) (memr_head b) v (tails b).
Definition set_tails v b :=
  Bbpalloc (nr_free_pages b) (free_head b) (free_tail b) (memr_head b) (heads b) v.

(** ** The allocation bitmap *)

Definition PAGES_PER_MAPWORD : Z := 64.

Definition memr_end (r : uk_bbpalloc_memr) : Z :=
  u64 (first_page r + u64 (Z.shiftl (nr_pages r) PAGE_SHIFT)).

(** The position in the region list of the region of a page. *)
Fixpoint map_get_memr (rs : list uk_bbpalloc_memr) (page_va : Z) : option nat :=
  match rs with
  | [] => None
  | r :: rs' =>
      if (first_page r <=? page_va) && (page_va <? memr_end r) then Some O
      else S <$> map_get_memr rs' page_va
  end.

Definition allocated_in_map (rs : list uk_bbpalloc_memr) (page_va : Z) : outcome Z :=
  match map_get_memr rs page_va ≫= (rs !!.) with
  | None => Ok 1
  | Some r =>
      let page_idx := Z.shiftr (page_va - first_page r) PAGE_SHIFT in
      let bm_idx := page_idx / PAGES_PER_MAPWORD in
      let bm_off := Z.land page_idx (PAGES_PER_MAPWORD - 1) in
      match mm_alloc_bitmap r !! Z.to_nat bm_idx with
      | None => Undef
      | Some w => Ok (Z.land w (Z.shiftl 1 bm_off))
      end
  end.

(** [(1UL << n) - 1] and [-(1UL << n)]. *)
Definition bits_below (n : Z) : Z := Z.shiftl 1 n - 1.
Definition bits_from (n : Z) : Z := u64 (- Z.shiftl 1 n).

(** [bitmap[idx] = f(bitmap[idx])]. *)
Definition upd_word (f : Z -> Z) (idx : Z) (bm : list Z) : outcome (list Z) :=
  match bm !! Z.to_nat idx with
  | None => Undef
  | Some w => Ok (<[Z.to_nat idx := f w]> bm)
  end.

(** The update of the last word of a run.  A run that ends on a word boundary
    rewrites the word behind it with its own value; for a run at the end of a
    full bitmap that word is the first one of the region's first page. *)
Definition upd_last (f : Z -> Z) (end_off idx : Z) (bm : list Z) : outcome (list Z) :=
  if end_off =? 0 then Ok bm else upd_word f idx bm.

(** The inner [while] loop: [n] words from [idx] on. *)
Fixpoint fill_words (v : Z) (n : nat) (idx : Z) (bm : list Z) : outcome (list Z) :=
  match n with
  | O => Ok bm
  | S n' => bm' ← upd_word (fun _ => v) idx bm; fill_words v n' (idx + 1) bm'
  end.

(** The bitmap update of [map_alloc] for pages [first .. first+nr-1]. *)
Definition set_bits (first nr : Z) (bm : list Z) : outcome (list Z) :=
  let curr_idx := first / PAGES_PER_MAPWORD in
  let start_off := Z.land first (PAGES_PER_MAPWORD - 1) in
  let end_page_idx := first + nr in
  let end_idx := end_page_idx / PAGES_PER_MAPWORD in
  let end_off := Z.land end_page_idx (PAGES_PER_MAPWORD - 1) in
  if curr_idx =? end_idx then
    upd_word (fun w => Z.lor w (Z.land (bits_below end_off) (bits_from start_off))) curr_idx bm
  else
    bm1 ← upd_word (fun w => Z.lor w (bits_from start_off)) curr_idx bm;
    bm2 ← fill_words (2 ^ 64 - 1) (Z.to_nat (end_idx - curr_idx - 1)) (curr_idx + 1) bm1;
    upd_last (fun w => Z.lor w (bits_below end_off)) end_off end_idx bm2.

(** The bitmap update of [map_free]. *)
Definition clear_bits (first nr : Z) (bm : list Z) : outcome (list Z) :=
  let curr_idx := first / PAGES_PER_MAPWORD in
  let start_off := Z.land first (PAGES_PER_MAPWORD - 1) in
  let end_page_idx := first + nr in
  let end_idx := end_page_idx / PAGES_PER_MAPWORD in
  let end_off := Z.land end_page_idx (PAGES_PER_MAPWORD - 1) in
  if curr_idx =? end_idx then
    upd_word (fun w => Z.land w (Z.lor (bits_from end_off) (bits_below start_off))) curr_idx bm
  else
    bm1 ← upd_word (fun w => Z.land w (bits_below start_off)) curr_idx bm;
    bm2 ← fill_words 0 (Z.to_nat (end_idx - curr_idx - 1)) (curr_idx + 1) bm1;
    upd_last (fun w => Z.land w (bits_from end_off)) end_off end_idx bm2.

(** The shared frame of [map_alloc] and [map_free]: find the region, check the
    bounds, update its bitmap with [f]. *)
Definition map_update (f : Z -> Z -> list Z -> outcome (list Z)) (first nr : Z)
  : M uk_bbpalloc unit :=
  rs ← gets memr_head;
  match map_get_memr rs first with
  | None => abort
  | Some k =>
      r ← deref (fun _ => rs !! k);
      uk_assert (u64 (first + u64 (Z.shiftl nr PAGE_SHIFT)) <=? memr_end r);;
      bm ← lift (f (Z.shiftr (first - first_page r) PAGE_SHIFT) nr (mm_alloc_bitmap r));
      modify (set_memr (<[k := Memr (first_page r) (nr_pages r) (mm_alloc_bitmap_size r) bm]> rs))
  end.

Definition map_alloc (first nr : Z) : M uk_bbpalloc unit :=
  map_update set_bits first nr;;
  modify (fun b => set_nr_free (u64 (nr_free_pages b - nr)) b).

Definition map_free (first nr : Z) : M uk_bbpalloc unit :=
  map_update clear_bits first nr;;
  modify (fun b => set_nr_free (u64 (nr_free_pages b + nr)) b).

(** ** One bit per page *)

Definition page_bit (bm : list Z) (k : Z) : bool :=
  match bm !! Z.to_nat (k / 64) with Some w => Z.testbit w (k mod 64) | None => true end.

Lemma land_63 k : Z.land k (PAGES_PER_MAPWORD - 1) = k mod 64.
Proof. change (PAGES_PER_MAPWORD - 1) with (Z.ones 6). by rewrite Z.land_ones by lia. Qed.

Lemma bits_below_spec n i : 0 <= n -> 0 <= i -> Z.testbit (bits_below n) i = (i <? n).
Proof.
  intros Hn Hi. unfold bits_below.
  replace (Z.shiftl 1 n - 1) with (Z.ones n) by (rewrite Z.ones_equiv, Z.shiftl_mul_pow2; lia).
  by apply Z.testbit_ones_nonneg.
Qed.

Lemma bits_from_spec n i : 0 <= n -> 0 <= i < 64 -> Z.testbit (bits_from n) i = (n <=? i).
Proof.
  intros Hn Hi. unfold bits_from, u64. rewrite Z.mod_pow2_bits_low by lia.
  replace (- Z.shiftl 1 n) with (Z.lnot (Z.ones n)) by (rewrite Z.ones_equiv, Z.shiftl_mul_pow2, Z.lnot_eq_pred_opp; lia).
  rewrite Z.lnot_spec by lia. rewrite Z.testbit_ones_nonneg by lia. lia.
Qed.

Lemma upd_word_ok f idx bm :
  0 <= idx < Z.of_nat (length bm) ->
  exists w, bm !! Z.to_nat idx = Some w /\ upd_word f idx bm = Ok (<[Z.to_nat idx := f w]> bm).
Proof.
  intros Hi. unfold upd_word. destruct (lookup_lt_is_Some_2 bm (Z.to_nat idx)) as [w Hw]; [lia|].
  exists w. by rewrite Hw.
Qed.

Lemma fill_words_ok v n idx bm :
  0 <= idx -> idx + Z.of_nat n <= Z.of_nat (length bm) ->
  exists bm', fill_words v n idx bm = Ok bm' /\ length bm' = length bm /\
    (forall j, idx <= j < idx + Z.of_nat n -> bm' !! Z.to_nat j = Some v) /\
    (forall j, 0 <= j -> j < idx \/ idx + Z.of_nat n <= j -> bm' !! Z.to_nat j = bm !! Z.to_nat j).
Proof.
  revert idx bm. induction n as [|n IH]; intros idx bm Hi Hl; simpl.
  { exists bm. split_and!; try done. lia. }
  destruct (upd_word_ok (fun _ => v) idx bm ltac:(lia)) as (w & Hw & ->). simpl.
  destruct (IH (idx + 1) (<[Z.to_nat idx := v]> bm)) as (bm' & H1 & H2 & H3 & H4);
    [lia|rewrite length_insert; lia|].
  rewrite length_insert in H2. exists bm'. split_and!; [done|done| |].
  - intros j Hj. destruct (decide (j = idx)) as [->|]; [|apply H3; lia].
    rewrite H4 by lia. apply list_lookup_insert_eq. lia.
  - intros j Hj0 Hj. rewrite H4 by lia. apply list_lookup_insert_ne. lia.
Qed.

Lemma page_bit_other bm idx k w :
  0 <= idx -> 0 <= k -> k / 64 <> idx -> page_bit (<[Z.to_nat idx := w]> bm) k = page_bit bm k.
Proof.
  intros Hi Hk Hne. unfold page_bit. assert (0 <= k / 64) by (apply Z.div_pos; lia).
  by rewrite list_lookup_insert_ne by lia.
Qed.

(** The word-wise update [g1], [v], [g2] of a run of bits agrees with a
    bit-wise one. *)
Lemma word_run_spec (g1 g2 : Z -> Z) v (upd : bool) first nr bm :
  let s := first / 64 in let e := (first + nr) / 64 in
  0 <= first -> s < e -> first + nr <= 64 * Z.of_nat (length bm) ->
  (forall w i, 0 <= i < 64 -> Z.testbit (g1 w) i = if first mod 64 <=? i then upd else Z.testbit w i) ->
  (forall i, 0 <= i < 64 -> Z.testbit v i = upd) ->
  (forall w i, 0 <= i < 64 -> Z.testbit (g2 w) i = if i <? (first + nr) mod 64 then upd else Z.testbit w i) ->
  exists bm', (bm1 ← upd_word g1 s bm; bm2 ← fill_words v (Z.to_nat (e - s - 1)) (s + 1) bm1;
               upd_last g2 ((first + nr) mod 64) e bm2) = Ok bm' /\ length bm' = length bm /\
    forall k, 0 <= k -> page_bit bm' k =
      if (first <=? k) && (k <? first + nr) then upd else page_bit bm k.
Proof.
  intros s e Hf Hse Hel Hg1 Hv Hg2. assert (0 <= s) by (apply Z.div_pos; lia).
  assert (e <= Z.of_nat (length bm)) by (subst e; divlia).
  destruct (upd_word_ok g1 s bm ltac:(lia)) as (w1 & Hw1 & ->). simpl.
  destruct (fill_words_ok v (Z.to_nat (e - s - 1)) (s + 1) (<[Z.to_nat s := g1 w1]> bm))
    as (bm2 & -> & Hl2 & Hin & Hout); [lia|rewrite length_insert; lia|]. simpl.
  rewrite length_insert in Hl2.
  assert (Hbm2 : forall k, 0 <= k -> page_bit bm2 k =
            if (first <=? k) && (k <? 64 * e) then upd else page_bit bm k).
  { intros k Hk. assert (Hkq : 0 <= k mod 64 < 64) by (apply Z.mod_pos_bound; lia).
    assert (0 <= k / 64) by (apply Z.div_pos; lia). unfold page_bit.
    destruct (decide (k / 64 = s)) as [Hs|Hs].
    { rewrite Hs, Hout, list_lookup_insert_eq, Hw1, Hg1 by lia.
      replace ((first <=? k) && (k <? 64 * e)) with (first mod 64 <=? k mod 64); [done|]. subst s e. divlia. }
    destruct (decide (s < k / 64 < e)) as [Hm|Hm].
    { rewrite Hin, Hv by lia. replace ((first <=? k) && (k <? 64 * e)) with true; [done|]. subst s e. divlia. }
    rewrite Hout, list_lookup_insert_ne by lia.
    replace ((first <=? k) && (k <? 64 * e)) with false; [done|]. subst s e. divlia. }
  unfold upd_last. destruct (Z.eqb_spec ((first + nr) mod 64) 0) as [Hz|Hz].
  { exists bm2. split; [done|]. split; [done|]. intros k Hk. rewrite Hbm2 by done.
    replace (64 * e) with (first + nr) by (subst e; divlia). done. }
  destruct (upd_word_ok g2 e bm2) as (w2 & Hw2 & ->); [subst e; divlia|].
  eexists. split; [done|]. split; [by rewrite length_insert|]. intros k Hk.
  destruct (decide (k / 64 = e)) as [He|He].
  - pose proof (Hbm2 k Hk) as Hb. unfold page_bit in *. rewrite He in *. rewrite Hw2 in Hb.
    assert (0 <= k mod 64 < 64) by (apply Z.mod_pos_bound; lia).
    rewrite list_lookup_insert_eq, Hg2, Hb by (lia || (rewrite Hl2; subst e; divlia)).
    replace (k <? 64 * e) with false by (subst e; divlia). rewrite andb_false_r.
    replace ((first <=? k) && (k <? first + nr)) with (k mod 64 <? (first + nr) mod 64); [done|]. subst s e. divlia.
  - rewrite (page_bit_other _ e k) by (done || lia). rewrite Hbm2 by done.
    replace (k <? 64 * e) with (k <? first + nr); [done|]. subst e. divlia.
Qed.

(** Same, when the run lies within one word. *)
Lemma word_one_spec (g : Z -> Z) (upd : bool) first nr bm :
  let s := first / 64 in
  0 <= first -> 0 <= nr -> s = (first + nr) / 64 -> s < Z.of_nat (length bm) ->
  (forall w i, 0 <= i < 64 -> Z.testbit (g w) i =
     if (first mod 64 <=? i) && (i <? (first + nr) mod 64) then upd else Z.testbit w i) ->
  exists bm', upd_word g s bm = Ok bm' /\ length bm' = length bm /\
    forall k, 0 <= k -> page_bit bm' k =
      if (first <=? k) && (k <? first + nr) then upd else page_bit bm k.
Proof.
  intros s Hf Hn Hse Hl Hg. assert (0 <= s) by (apply Z.div_pos; lia).
  destruct (upd_word_ok g s bm ltac:(lia)) as (w & Hw & ->).
  eexists. split; [done|]. split; [by rewrite length_insert|]. intros k Hk.
  assert (Hkq : 0 <= k mod 64 < 64) by (apply Z.mod_pos_bound; lia).
  unfold page_bit. destruct (decide (k / 64 = s)) as [Hs|Hs].
  - rewrite Hs, list_lookup_insert_eq, Hw, Hg by lia.
    replace ((first <=? k) && (k <? first + nr))
      with ((first mod 64 <=? k mod 64) && (k mod 64 <? (first + nr) mod 64)); [done|]. subst s. divlia.
  - rewrite list_lookup_insert_ne by (assert (0 <= k / 64) by (apply Z.div_pos; lia); lia).
    replace ((first <=? k) && (k <? first + nr)) with false; [done|]. subst s. divlia.
Qed.

(** [map_alloc] sets exactly the bits of the run, [map_free] clears exactly them. *)
Lemma set_bits_spec first nr bm :
  0 <= first -> first + nr <= 64 * Z.of_nat (length bm) -> 0 < nr ->
  exists bm', set_bits first nr bm = Ok bm' /\ length bm' = length bm /\
    forall k, 0 <= k -> page_bit bm' k =
      if (first <=? k) && (k <? first + nr) then true else page_bit bm k.
Proof.
  intros Hf Hl Hn. unfold set_bits. rewrite !land_63. change PAGES_PER_MAPWORD with 64.
  assert (0 <= first mod 64 < 64 /\ 0 <= (first + nr) mod 64 < 64) as [Hm1 Hm2]
    by (split; apply Z.mod_pos_bound; lia).
  destruct (Z.eqb_spec (first / 64) ((first + nr) / 64)) as [He|He].
  - apply word_one_spec; try done; [lia|divlia|]. intros w i Hi.
    rewrite Z.lor_spec, Z.land_spec, bits_below_spec, bits_from_spec by lia.
    destruct (Z.testbit w i), (first mod 64 <=? i), (i <? (first + nr) mod 64); done.
  - apply word_run_spec; try done; [divlia| | |].
    + intros w i Hi. rewrite Z.lor_spec, bits_from_spec by lia.
      destruct (Z.testbit w i), (first mod 64 <=? i); done.
    + intros i Hi. change (2 ^ 64 - 1) with (Z.ones 64). rewrite Z.testbit_ones_nonneg; lia.
    + intros w i Hi. rewrite Z.lor_spec, bits_below_spec by lia.
      destruct (Z.testbit w i), (i <? (first + nr) mod 64); done.
Qed.

Lemma clear_bits_spec first nr bm :
  0 <= first -> first + nr <= 64 * Z.of_nat (length bm) -> 0 < nr ->
  exists bm', clear_bits first nr bm = Ok bm' /\ length bm' = length bm /\
    forall k, 0 <= k -> page_bit bm' k =
      if (first <=? k) && (k <? first + nr) then false else page_bit bm k.
Proof.
  intros Hf Hl Hn. unfold clear_bits. rewrite !land_63. change PAGES_PER_MAPWORD with 64.
  assert (0 <= first mod 64 < 64 /\ 0 <= (first + nr) mod 64 < 64) as [Hm1 Hm2]
    by (split; apply Z.mod_pos_bound; lia).
  destruct (Z.eqb_spec (first / 64) ((first + nr) / 64)) as [He|He].
  - apply word_one_spec; try done; [lia|divlia|]. intros w i Hi.
    rewrite Z.land_spec, Z.lor_spec, bits_below_spec, bits_from_spec by lia.
    destruct (Z.testbit w i), (Z.leb_spec ((first + nr) mod 64) i), (Z.leb_spec (first mod 64) i),
      (Z.ltb_spec i (first mod 64)), (Z.ltb_spec i ((first + nr) mod 64)); try done; lia.
  - apply word_run_spec; try done; [divlia| | |].
    + intros w i Hi. rewrite Z.land_spec, bits_below_spec by lia.
      destruct (Z.testbit w i), (Z.leb_spec (first mod 64) i), (Z.ltb_spec i (first mod 64)); try done; lia.
    + intros i Hi. by rewrite Z.testbit_0_l.
    + intros w i Hi. rewrite Z.land_spec, bits_from_spec by lia.
      destruct (Z.testbit w i), (Z.leb_spec ((first + nr) mod 64) i), (Z.ltb_spec i ((first + nr) mod 64)); try done; lia.
Qed.

(** ** Regions *)

Definition end_page (r : uk_bbpalloc_memr) : Z := first_page r + 4096 * nr_pages r.

Definition region_wf (r : uk_bbpalloc_memr) : Prop :=
  first_page r mod 4096 = 0 /\ 0 < first_page r /\ 0 <= nr_pages r /\ end_page r < 2 ^ 64 /\
  nr_pages r <= 64 * Z.of_nat (length (mm_alloc_bitmap r)).

(** Regions are apart: each one is preceded by its own descriptor. *)
Definition regions_ok (rs : list uk_bbpalloc_memr) : Prop :=
  (forall k r, rs !! k = Some r -> region_wf r) /\
  (forall i j r r', rs !! i = Some r -> rs !! j = Some r' -> i <> j ->
     end_page r < first_page r' \/ end_page r' < first_page r).

(** A page is free: it lies in a region whose bitmap has its bit cleared. *)
Definition page_free (rs : list uk_bbpalloc_memr) (va : Z) : bool :=
  match map_get_memr rs va ≫= (rs !!.) with
  | None => false
  | Some r => negb (page_bit (mm_alloc_bitmap r) ((va - first_page r) / 4096))
  end.

(** [n] pages from [a] on lie within one region. *)
Definition span_in (rs : list uk_bbpalloc_memr) (a n : Z) : Prop :=
  exists k r, rs !! k = Some r /\ first_page r <= a /\ a + 4096 * n <= end_page r.

Lemma memr_end_wf r : region_wf r -> memr_end r = end_page r.
Proof.
  intros (_ & H1 & H2 & H3 & _). unfold memr_end, end_page, u64, PAGE_SHIFT in *.
  rewrite Z.shiftl_mul_pow2 by lia. change (2 ^ 12) with 4096.
  rewrite (Z.mod_small (nr_pages r * 4096)) by lia. rewrite Z.mod_small by lia. lia.
Qed.

Lemma map_get_memr_Some rs va k :
  (forall k r, rs !! k = Some r -> region_wf r) -> map_get_memr rs va = Some k ->
  exists r, rs !! k = Some r /\ first_page r <= va < end_page r.
Proof.
  revert k. induction rs as [|r rs IH]; simpl; intros k Hwf H; [done|].
  pose proof (Hwf O r eq_refl) as Hr. destruct (_ && _) eqn:E.
  - injection H as <-. exists r. rewrite memr_end_wf in E by done. split; [done|lia].
  - destruct (map_get_memr rs va) as [k'|]; [|done]. injection H as <-.
    apply IH; [|done]. intros j r' Hj. by apply (Hwf (S j)).
Qed.

Lemma map_get_memr_None rs va k r :
  (forall k r, rs !! k = Some r -> region_wf r) -> map_get_memr rs va = None ->
  rs !! k = Some r -> ~ first_page r <= va < end_page r.
Proof.
  revert k. induction rs as [|r0 rs IH]; simpl; intros k Hwf H Hk; [done|].
  pose proof (Hwf O r0 eq_refl) as Hr. destruct (_ && _) eqn:E; [done|].
  destruct (map_get_memr rs va) eqn:E2; [done|]. destruct k as [|k]; simpl in Hk.
  - injection Hk as <-. rewrite memr_end_wf in E by done. lia.
  - apply (IH k); [|done|done]. intros j r' Hj. by apply (Hwf (S j)).
Qed.

Lemma map_get_memr_at rs va k r :
  regions_ok rs -> rs !! k = Some r -> first_page r <= va < end_page r -> map_get_memr rs va = Some k.
Proof.
  intros [Hwf Hap] Hk Hr. destruct (map_get_memr rs va) as [j|] eqn:E.
  - apply map_get_memr_Some in E as (r' & Hj & Hr'); [|done].
    destruct (decide (j = k)) as [->|Hne]; [done|]. pose proof (Hap j k r' r Hj Hk Hne). lia.
  - by pose proof (map_get_memr_None rs va k r Hwf E Hk).
Qed.

Lemma page_free_at rs va k r :
  regions_ok rs -> rs !! k = Some r -> first_page r <= va < end_page r ->
  page_free rs va = negb (page_bit (mm_alloc_bitmap r) ((va - first_page r) / 4096)).
Proof.
  intros Hok Hk Hr. unfold page_free. rewrite (map_get_memr_at rs va k r) by done. simpl. by rewrite Hk.
Qed.

Lemma page_free_in rs va :
  regions_ok rs -> page_free rs va = true -> exists k r, rs !! k = Some r /\ first_page r <= va < end_page r.
Proof.
  intros [Hwf _] H. unfold page_free in H. destruct (map_get_memr rs va) as [k|] eqn:E; [|done].
  apply map_get_memr_Some in E as (r & Hk & Hr); eauto.
Qed.

Lemma allocated_in_map_spec rs va :
  regions_ok rs -> exists v, allocated_in_map rs va = Ok v /\ (v =? 0) = page_free rs va.
Proof.
  intros Hok. pose proof Hok as [Hwf _]. unfold allocated_in_map, page_free.
  destruct (map_get_memr rs va) as [k|] eqn:E; simpl; [|by exists 1].
  apply map_get_memr_Some in E as (r & Hk & Hr); [|done]. rewrite Hk.
  destruct (Hwf k r Hk) as (_ & H1 & H2 & H3 & H4). unfold end_page in *.
  rewrite land_63. unfold PAGE_SHIFT, PAGES_PER_MAPWORD. rewrite Z.shiftr_div_pow2 by lia.
  change (2 ^ 12) with 4096. set (p := (va - first_page r) / 4096).
  assert (0 <= p < nr_pages r) by (subst p; divlia).
  assert (0 <= p / 64 < Z.of_nat (length (mm_alloc_bitmap r))) as Hp by divlia.
  unfold page_bit. destruct (lookup_lt_is_Some_2 (mm_alloc_bitmap r) (Z.to_nat (p / 64))) as [w Hw]; [lia|].
  rewrite Hw. eexists. split; [done|].
  assert (0 <= p mod 64) by (apply Z.mod_pos_bound; lia).
  destruct (Z.testbit w (p mod 64)) eqn:Hb; simpl.
  - apply Z.eqb_neq. intros Hz. assert (Z.testbit (Z.land w (Z.shiftl 1 (p mod 64))) (p mod 64) = true) as Ht.
    { rewrite Z.land_spec, Hb, Z.shiftl_spec, Z.sub_diag by lia. done. }
    by rewrite Hz, Z.testbit_0_l in Ht.
  - apply Z.eqb_eq, Z.bits_inj'. intros i Hi. rewrite Z.land_spec, Z.shiftl_spec, Z.testbit_0_l by lia.
    destruct (decide (i = p mod 64)) as [->|]; [by rewrite Hb|].
    replace (Z.testbit 1 (i - p mod 64)) with false; [by rewrite andb_false_r|].
    symmetry. destruct (decide (i < p mod 64)); [by rewrite Z.testbit_neg_r by lia|].
    change 1 with (2 ^ 0). apply Z.pow2_bits_false. lia.
Qed.

(** What the bitmap updates do not change. *)
Definition same_shape (rs rs' : list uk_bbpalloc_memr) : Prop :=
  (fun r => (first_page r, nr_pages r)) <$> rs = (fun r => (first_page r, nr_pages r)) <$> rs'.

Lemma same_shape_span rs rs' a n : same_shape rs rs' -> span_in rs a n -> span_in rs' a n.
Proof.
  intros Hs (k & r & Hk & H1 & H2). unfold same_shape in Hs.
  assert (Hk' : ((fun r => (first_page r, nr_pages r)) <$> rs') !! k = Some (first_page r, nr_pages r)).
  { rewrite <- Hs, list_lookup_fmap, Hk. done. }
  rewrite list_lookup_fmap in Hk'. destruct (rs' !! k) as [r'|] eqn:E; [|done].
  injection Hk' as E1 E2. exists k, r'. unfold end_page in *. rewrite E1, E2. auto.
Qed.

(** Replacing the bitmap of one region. *)
Section Replace.
Context (rs : list uk_bbpalloc_memr) (k : nat) (r : uk_bbpalloc_memr) (bm : list Z).
Context (Hok : regions_ok rs) (Hk : rs !! k = Some r) (Hlen : length bm = length (mm_alloc_bitmap r)).

Let r' := Memr (first_page r) (nr_pages r) (mm_alloc_bitmap_size r) bm.
Let rs' := <[k := r']> rs.

Lemma replace_ok : regions_ok rs'.
Proof.
  destruct Hok as [Hwf Hap].
  assert (Hlook : forall j q, rs' !! j = Some q -> exists q0, rs !! j = Some q0 /\
            first_page q = first_page q0 /\ nr_pages q = nr_pages q0 /\
            length (mm_alloc_bitmap q) = length (mm_alloc_bitmap q0)).
  { intros j q [(-> & <- & _)|[_ Hq]]%list_lookup_insert_Some; [by exists r|by exists q]. }
  split.
  - intros j q Hq. destruct (Hlook j q Hq) as (q0 & Hq0 & E1 & E2 & E3).
    destruct (Hwf j q0 Hq0) as (A1 & A2 & A3 & A4 & A5). unfold region_wf, end_page in *.
    by rewrite E1, E2, E3.
  - intros j j' q q' Hq Hq' Hne. destruct (Hlook j q Hq) as (q0 & Hq0 & E1 & E2 & _).
    destruct (Hlook j' q' Hq') as (q0' & Hq0' & E1' & E2' & _).
    unfold end_page in *. rewrite E1, E2, E1', E2'. by apply (Hap j j').
Qed.

Lemma replace_shape : same_shape rs rs'.
Proof.
  unfold same_shape, rs'. rewrite list_fmap_insert. rewrite list_insert_id; [done|].
  by rewrite list_lookup_fmap, Hk.
Qed.

Lemma replace_page_free va :
  page_free rs' va =
    if decide (first_page r <= va < end_page r)
    then negb (page_bit bm ((va - first_page r) / 4096)) else page_free rs va.
Proof.
  pose proof replace_ok as Hok'.
  assert (Hk' : rs' !! k = Some r') by (apply list_lookup_insert_eq; by eapply lookup_lt_Some).
  destruct (decide _) as [Hin|Hout]; [by rewrite (page_free_at rs' va k r' Hok' Hk')|].
  assert (Hiff : forall j q, j <> k -> rs' !! j = Some q <-> rs !! j = Some q).
  { intros j q Hne. unfold rs'. by rewrite list_lookup_insert_ne by done. }
  destruct (page_free rs' va) eqn:E.
  - apply page_free_in in E as Hreg; [|done]. destruct Hreg as (j & q & Hq & Hv).
    destruct (decide (j = k)) as [->|Hne]; [rewrite Hk' in Hq; by injection Hq as <-|].
    rewrite (page_free_at rs' va j q Hok' Hq Hv) in E. apply Hiff in Hq; [|done].
    by rewrite (page_free_at _ va j q Hok Hq Hv).
  - symmetry. destruct (page_free rs va) eqn:E2; [|done].
    apply page_free_in in E2 as Hreg; [|done]. destruct Hreg as (j & q & Hq & Hv).
    destruct (decide (j = k)) as [->|Hne]; [rewrite Hk in Hq; by injection Hq as <-|].
    rewrite (page_free_at _ va j q Hok Hq Hv) in E2. apply Hiff in Hq; [|done].
    rewrite (page_free_at rs' va j q Hok' Hq Hv) in E. congruence.
Qed.

End Replace.

(** A bitmap update [f] that gives the pages of a run the status [upd]. *)
Lemma map_update_spec f (upd : bool) first nr b :
  (forall i n bm, 0 <= i -> i + n <= 64 * Z.of_nat (length bm) -> 0 < n ->
     exists bm', f i n bm = Ok bm' /\ length bm' = length bm /\
       forall k, 0 <= k -> page_bit bm' k =
         if (i <=? k) && (k <? i + n) then upd else page_bit bm k) ->
  regions_ok (memr_head b) -> span_in (memr_head b) first nr -> first mod 4096 = 0 -> 0 < nr ->
  exists rs', map_update f first nr b = Ok (tt, set_memr rs' b) /\
    regions_ok rs' /\ same_shape (memr_head b) rs' /\
    forall va, page_free rs' va =
      if (first <=? va) && (va <? first + 4096 * nr) then negb upd else page_free (memr_head b) va.
Proof.
  intros Hf Hok (k & r & Hk & H1 & H2) Hal Hnr. unfold map_update.
  rewrite (bind_ret _ _ _ (memr_head b) b) by (by apply gets_ok).
  pose proof (proj1 Hok k r Hk) as Hr. pose proof Hr as (W1 & W2 & W3 & W4 & W5).
  rewrite (map_get_memr_at _ first k r Hok Hk) by lia.
  rewrite (bind_ret _ _ _ r b) by (by apply deref_ok).
  rewrite memr_end_wf by done. unfold PAGE_SHIFT, u64. rewrite Z.shiftl_mul_pow2, Z.shiftr_div_pow2 by lia.
  change (2 ^ 12) with 4096. unfold end_page in *.
  rewrite (Z.mod_small (nr * 4096)) by lia. rewrite Z.mod_small by lia.
  rewrite (bind_ret _ _ _ tt b) by (unfold uk_assert; by replace (_ <=? _) with true by lia).
  set (i := (first - first_page r) / 4096).
  assert (first = first_page r + 4096 * i) as Hi by (subst i; divlia).
  destruct (Hf i nr (mm_alloc_bitmap r)) as (bm & Hbm & Hl & Hbits); [lia..|].
  rewrite (bind_ret _ _ _ bm b) by (by apply lift_ok). eexists. split; [done|].
  split; [by apply replace_ok|]. split; [by apply replace_shape|].
  intros va. rewrite replace_page_free by done. unfold end_page. destruct (decide _) as [Hin|Hout].
  - rewrite (page_free_at _ va k r Hok Hk) by (unfold end_page; done). rewrite Hbits by divlia.
    replace ((first <=? va) && (va <? first + 4096 * nr))
      with ((i <=? (va - first_page r) / 4096) && ((va - first_page r) / 4096 <? i + nr)) by divlia.
    by destruct (_ && _).
  - by replace ((first <=? va) && (va <? first + 4096 * nr)) with false by lia.
Qed.

(** ** Functional behaviour of the two map operations *)

Definition with_map rs' n b := set_nr_free n (set_memr rs' b).

(** The status of every page after a run of pages got the status [st]. *)
Definition run_status (rs rs' : list uk_bbpalloc_memr) (first nr : Z) (st : bool) : Prop :=
  forall va, page_free rs' va =
    if (first <=? va) && (va <? first + 4096 * nr) then st else page_free rs va.

Lemma map_alloc_spec first nr b :
  regions_ok (memr_head b) -> span_in (memr_head b) first nr -> first mod 4096 = 0 -> 0 < nr ->
  exists rs', map_alloc first nr b = Ok (tt, with_map rs' (u64 (nr_free_pages b - nr)) b) /\
    regions_ok rs' /\ same_shape (memr_head b) rs' /\ run_status (memr_head b) rs' first nr false.
Proof.
  intros Hok Hs Ha Hn.
  destruct (map_update_spec set_bits true first nr b set_bits_spec Hok Hs Ha Hn) as (rs' & E & H).
  exists rs'. split; [|exact H]. unfold map_alloc. by rewrite (bind_ret _ _ _ _ _ E).
Qed.

Lemma map_free_spec first nr b :
  regions_ok (memr_head b) -> span_in (memr_head b) first nr -> first mod 4096 = 0 -> 0 < nr ->
  exists rs', map_free first nr b = Ok (tt, with_map rs' (u64 (nr_free_pages b + nr)) b) /\
    regions_ok rs' /\ same_shape (memr_head b) rs' /\ run_status (memr_head b) rs' first nr true.
Proof.
  intros Hok Hs Ha Hn.
  destruct (map_update_spec clear_bits false first nr b clear_bits_spec Hok Hs Ha Hn) as (rs' & E & H).
  exists rs'. split; [|exact H]. unfold map_free. by rewrite (bind_ret _ _ _ _ _ E).
Qed.
