(* ===== verification/BuddyList.v ===== *)
(** The binary buddy page allocator, part 2: its free lists
    (unikraft/lib/ukallocbbuddy/bbuddy.c).

    Free chunks of one order form a doubly linked list threaded through the
    chunk headers, with [free_head[i]] at one end and [free_tail[i]] at the
    other; [pprev] points to the pointer that points to the chunk.  The lemmas
    relate the pointer operations to operations on lists of addresses. *)
From S2P Require Import Prelude BuddyMap.
From stdpp Require Import base numbers gmap list.
#[local] Open Scope Z_scope.

(** ** Pointer operations *)

Definition load_chunk (p : chunkp) : M uk_bbpalloc chunk_head_st :=
  deref (fun b => match p with
                  | PChunk a => heads b !! a
                  | PTail i => arr_at (free_tail b) i
                  | PNull => None
                  end).

Definition store_chunk (p : chunkp) (c : chunk_head_st) : M uk_bbpalloc unit :=
  match p with
  | PChunk a => modify (fun b => set_heads (<[a := c]> (heads b)) b)
  | PTail i =>
      _ ← deref (fun b => arr_at (free_tail b) i);
      modify (fun b => set_free_tail (<[Z.to_nat i := c]> (free_tail b)) b)
  | PNull => undef
  end.

(** [p->pprev = l]. *)
Definition set_pprev (p : chunkp) (l : pploc) : M uk_bbpalloc unit :=
  c ← load_chunk p;
  store_chunk p (Chunk (c_next c) l (c_level c)).

Definition get_free_head (i : Z) : M uk_bbpalloc chunkp := deref (fun b => arr_at (free_head b) i).

Definition put_free_head (i : Z) (p : chunkp) : M uk_bbpalloc unit :=
  _ ← get_free_head i;
  modify (fun b => set_free_head (<[Z.to_nat i := p]> (free_head b)) b).

(** [*l = p]. *)
Definition store_at (l : pploc) (p : chunkp) : M uk_bbpalloc unit :=
  match l with
  | LHead i => put_free_head i p
  | LNext a =>
      c ← load_chunk (PChunk a);
      store_chunk (PChunk a) (Chunk p (c_pprev c) (c_level c))
  end.

(** [FREELIST_EMPTY(free_head[i])]. *)
Definition freelist_empty (i : Z) : M uk_bbpalloc bool :=
  p ← get_free_head i;
  c ← load_chunk p;
  mret (bool_decide (c_next c = PNull)).

(** Take the chunk [*pprev] out of its list. *)
Definition unlink_chunk (a : Z) : M uk_bbpalloc unit :=
  c ← load_chunk (PChunk a);
  store_at (c_pprev c) (c_next c);;
  c' ← load_chunk (PChunk a);
  set_pprev (c_next c') (c_pprev c').

(** Take the first chunk of list [i]. *)
Definition pop_chunk (i : Z) : M uk_bbpalloc Z :=
  p ← get_free_head i;
  c ← load_chunk p;
  put_free_head i (c_next c);;
  set_pprev (c_next c) (c_pprev c);;
  match p with
  | PChunk a => mret a
  | _ => undef
  end.

(** Make the memory at [a] a free chunk of order [i] and put it in front of its
    list; [ct] is the address of the chunk's tail. *)
Definition link_chunk (a i ct : Z) : M uk_bbpalloc unit :=
  hd ← get_free_head i;
  store_chunk (PChunk a) (Chunk hd (LHead i) i);;
  modify (fun b => set_tails (<[ct := i]> (tails b)) b);;
  set_pprev hd (LNext a);;
  put_free_head i (PChunk a).

(** ** Lists of free chunks *)

Definition ploc (i : Z) (prev : option Z) : pploc :=
  match prev with Some x => LNext x | None => LHead i end.
Definition nptr (i : Z) (next : option Z) : chunkp :=
  match next with Some y => PChunk y | None => PTail i end.

(** Every chunk of [l] points to its neighbours. *)
Definition nodes_ok (hs : gmap Z chunk_head_st) (i : Z) (l : list Z) : Prop :=
  forall l1 a l2, l = l1 ++ a :: l2 ->
    hs !! a = Some (Chunk (nptr i (head l2)) (ploc i (last l1)) i).

Definition list_ok (b : uk_bbpalloc) (i : Z) (l : list Z) : Prop :=
  NoDup l /\ nodes_ok (heads b) i l /\
  arr_at (free_head b) i = Some (nptr i (head l)) /\
  exists t, arr_at (free_tail b) i = Some t /\ c_next t = PNull /\ c_pprev t = ploc i (last l).

(** The free lists hold the addresses [L]. *)
Definition lists_ok (b : uk_bbpalloc) (L : Z -> list Z) : Prop :=
  forall i, 0 <= i < FREELIST_SIZE -> list_ok b i (L i).

Definition upd (L : Z -> list Z) (i : Z) (l : list Z) (j : Z) : list Z :=
  if decide (j = i) then l else L j.

Lemma nodes_ok_level hs i l a :
  nodes_ok hs i l -> a ∈ l -> exists c, hs !! a = Some c /\ c_level c = i.
Proof.
  intros Hn Ha. apply list_elem_of_split in Ha as (l1 & l2 & ->).
  rewrite (Hn l1 a l2 eq_refl). by eexists.
Qed.

Lemma nodes_ok_frame hs hs' i l :
  (forall a, a ∈ l -> hs' !! a = hs !! a) -> nodes_ok hs i l -> nodes_ok hs' i l.
Proof. intros Hf Hn l1 a l2 ->. rewrite Hf by set_solver. by apply Hn. Qed.

(** The chunks of different lists are different. *)
Lemma lists_ok_disjoint b L i j a :
  lists_ok b L -> 0 <= i < FREELIST_SIZE -> 0 <= j < FREELIST_SIZE -> a ∈ L i -> a ∈ L j -> i = j.
Proof.
  intros Hok Hi Hj Hai Haj. destruct (Hok i Hi) as (_ & Hni & _). destruct (Hok j Hj) as (_ & Hnj & _).
  destruct (nodes_ok_level _ _ _ _ Hni Hai) as (c & Hc & <-).
  destruct (nodes_ok_level _ _ _ _ Hnj Haj) as (c' & Hc' & <-). congruence.
Qed.

(** Updating list [i]: the other lists keep their headers, heads and tails. *)
Lemma lists_ok_upd b b' L i l :
  0 <= i < FREELIST_SIZE -> lists_ok b L -> list_ok b' i l ->
  (forall j a, 0 <= j < FREELIST_SIZE -> j <> i -> a ∈ L j -> heads b' !! a = heads b !! a) ->
  (forall j, j <> i -> arr_at (free_head b') j = arr_at (free_head b) j) ->
  (forall j, j <> i -> arr_at (free_tail b') j = arr_at (free_tail b) j) ->
  lists_ok b' (upd L i l).
Proof.
  intros Hi Hok Hl Hh Hf Ht j Hj. unfold upd. destruct (decide (j = i)) as [->|Hne]; [done|].
  destruct (Hok j Hj) as (Hnd & Hn & Hfh & Hft). split; [done|].
  rewrite Hf, Ht by done. split; [|by split].
  eapply nodes_ok_frame; [|done]. intros a Ha. by apply (Hh j).
Qed.

Lemma put_free_head_run b i q p :
  arr_at (free_head b) i = Some q ->
  put_free_head i p b = Ok (tt, set_free_head (<[Z.to_nat i := p]> (free_head b)) b).
Proof. intros H. unfold put_free_head, get_free_head. by rewrite (bind_ret _ _ _ q b) by (by apply deref_ok). Qed.

(** The header of a chunk after its neighbour [a] between [l1] and [l2] has
    been taken out. *)
Definition bypassed (i : Z) (l1 l2 : list Z) (x : Z) (c : chunk_head_st) : chunk_head_st :=
  Chunk (if decide (last l1 = Some x) then nptr i (head l2) else c_next c)
        (if decide (head l2 = Some x) then ploc i (last l1) else c_pprev c) (c_level c).

Lemma nodes_ok_remove hs hs' i l1 a l2 :
  NoDup (l1 ++ a :: l2) -> nodes_ok hs i (l1 ++ a :: l2) ->
  (forall x c, x ∈ l1 ++ l2 -> hs !! x = Some c -> hs' !! x = Some (bypassed i l1 l2 x c)) ->
  nodes_ok hs' i (l1 ++ l2).
Proof.
  intros Hnd Hn Hs m1 x m2 Heq. assert (x ∈ l1 ++ l2) as Hx by (rewrite Heq; set_solver).
  apply NoDup_app in Hnd as (Hnd1 & Hdis & [_ Hnd2]%NoDup_cons).
  assert ((exists k, l1 = m1 ++ x :: k /\ m2 = k ++ l2) \/ (exists k, m1 = l1 ++ k /\ l2 = k ++ x :: m2)) as [(k & -> & ->)|(k & -> & ->)].
  { apply app_eq_app in Heq as (k & [[-> E]|[-> E]]); [|by eauto].
    destruct k as [|y k]; simpl in E; [right; exists []; by rewrite !app_nil_r|].
    injection E as -> ->. eauto. }
  - rewrite (Hs x _ Hx (Hn m1 x (k ++ a :: l2) ltac:(by rewrite <- app_assoc))). unfold bypassed. simpl.
    rewrite (decide_False (P := head l2 = Some x)).
    2:{ intros E. destruct l2 as [|y l2]; [done|]. injection E as ->. apply (Hdis x); set_solver. }
    destruct k as [|y k]; [by rewrite decide_True by (by rewrite last_snoc)|].
    rewrite decide_False; [done|]. rewrite last_app_cons, last_cons_cons. intros E.
    apply last_Some_elem_of in E. apply NoDup_app in Hnd1 as (_ & _ & [? _]%NoDup_cons). done.
  - rewrite (Hs x _ Hx (Hn (l1 ++ a :: k) x m2 ltac:(by rewrite <- app_assoc))). unfold bypassed. simpl.
    rewrite (decide_False (P := last l1 = Some x)).
    2:{ intros E. apply last_Some_elem_of in E. apply (Hdis x); set_solver. }
    destruct k as [|y k]; [by rewrite app_nil_r, decide_True|].
    rewrite decide_False; [by rewrite !last_app_cons, last_cons_cons|].
    simpl. intros [= ->]. apply NoDup_cons in Hnd2 as [? _]. set_solver.
Qed.

Lemma nodes_ok_cons hs hs' i a l :
  a ∉ l -> nodes_ok hs i l ->
  hs' !! a = Some (Chunk (nptr i (head l)) (LHead i) i) ->
  (forall x c, x ∈ l -> hs !! x = Some c ->
     hs' !! x = Some (Chunk (c_next c) (if decide (head l = Some x) then LNext a else c_pprev c) (c_level c))) ->
  NoDup l -> nodes_ok hs' i (a :: l).
Proof.
  intros Ha Hn Hnew Hold Hnd m1 x m2 Heq. destruct m1 as [|y m1].
  { injection Heq as <- <-. done. }
  injection Heq as <- ->. rewrite (Hold x _ ltac:(set_solver) (Hn m1 x m2 eq_refl)). simpl.
  destruct m1 as [|z m1]; [by rewrite decide_True|]. rewrite decide_False; [done|].
  simpl. intros [= ->]. apply NoDup_cons in Hnd as [? _]. set_solver.
Qed.

(** [p->pprev = loc] for the pointer that starts the rest [l] of list [i]. *)
Definition repoint (b : uk_bbpalloc) (i : Z) (l : list Z) (loc : pploc) : uk_bbpalloc :=
  match l with
  | y :: _ => match heads b !! y with
              | Some c => set_heads (<[y := Chunk (c_next c) loc (c_level c)]> (heads b)) b
              | None => b
              end
  | [] => match arr_at (free_tail b) i with
          | Some t => set_free_tail (<[Z.to_nat i := Chunk (c_next t) loc (c_level t)]> (free_tail b)) b
          | None => b
          end
  end.

Lemma set_pprev_run b i l loc :
  (forall y, head l = Some y -> is_Some (heads b !! y)) -> is_Some (arr_at (free_tail b) i) ->
  set_pprev (nptr i (head l)) loc b = Ok (tt, repoint b i l loc).
Proof.
  intros Hy [t Ht]. unfold set_pprev, load_chunk, repoint. destruct l as [|y l]; simpl.
  - rewrite (bind_ret _ _ _ t b) by (by apply deref_ok). rewrite Ht.
    by rewrite (bind_ret _ _ _ t b) by (by apply deref_ok).
  - destruct (Hy y eq_refl) as [c Hc]. rewrite (bind_ret _ _ _ c b) by (by apply deref_ok). by rewrite Hc.
Qed.

Lemma repoint_heads b i l loc x :
  heads (repoint b i l loc) !! x =
    (fun c => Chunk (c_next c) (if decide (head l = Some x) then loc else c_pprev c) (c_level c)) <$> heads b !! x.
Proof.
  assert (Hid : forall c : chunk_head_st, Chunk (c_next c) (c_pprev c) (c_level c) = c) by (by intros []).
  assert (Hkeep : forall o : option chunk_head_st,
    (fun c => Chunk (c_next c) (c_pprev c) (c_level c)) <$> o = o) by (intros [c|]; [simpl; by rewrite Hid|done]).
  unfold repoint. destruct (decide (head l = Some x)) as [E|E]; destruct l as [|y l]; simpl in E; try done.
  - injection E as ->. destruct (heads b !! x) eqn:Ex; simpl; [by rewrite lookup_insert_eq|by rewrite Ex].
  - rewrite Hkeep. by destruct (arr_at (free_tail b) i).
  - rewrite Hkeep. destruct (heads b !! y); [|done]. simpl. apply lookup_insert_ne. congruence.
Qed.

Lemma repoint_tail b i l loc j :
  0 <= i -> is_Some (arr_at (free_tail b) i) ->
  arr_at (free_tail (repoint b i l loc)) j =
    if decide (l = [] /\ j = i) then (fun t => Chunk (c_next t) loc (c_level t)) <$> arr_at (free_tail b) i
    else arr_at (free_tail b) j.
Proof.
  intros Hi [t Ht]. unfold repoint. destruct l as [|y l].
  - rewrite Ht. simpl. destruct (arr_at_Some _ _ _ Ht). rewrite arr_at_insert by done.
    destruct (decide (i = j)) as [->|]; [by rewrite decide_True|by rewrite decide_False by naive_solver].
  - rewrite decide_False by naive_solver. by destruct (heads b !! y).
Qed.

Lemma repoint_rest b i l loc :
  let b' := repoint b i l loc in
  free_head b' = free_head b /\ memr_head b' = memr_head b /\
  nr_free_pages b' = nr_free_pages b /\ tails b' = tails b.
Proof. unfold repoint. destruct l; [by destruct (arr_at (free_tail b) i)|by destruct (heads b !! _)]. Qed.

(** What the list operations do not touch. *)
Definition same_map (b b' : uk_bbpalloc) : Prop :=
  memr_head b' = memr_head b /\ nr_free_pages b' = nr_free_pages b.

Lemma link_chunk_ok b L i a ct :
  lists_ok b L -> 0 <= i < FREELIST_SIZE -> (forall j, 0 <= j < FREELIST_SIZE -> a ∉ L j) ->
  exists b', link_chunk a i ct b = Ok (tt, b') /\ lists_ok b' (upd L i (a :: L i)) /\ same_map b b'.
Proof.
  intros Hok Hi Ha. destruct (Hok i Hi) as (Hnd & Hn & Hfh & t & Ht & Htn & Htp).
  destruct (arr_at_Some _ _ _ Hfh) as [_ Hlen]. unfold link_chunk, get_free_head.
  rewrite (bind_ret _ _ _ (nptr i (head (L i))) b) by (by apply deref_ok). simpl.
  rewrite (bind_ret _ _ _ tt _) by (by apply modify_ok). rewrite (bind_ret _ _ _ tt _) by (by apply modify_ok).
  set (b1 := set_tails _ _).
  assert (Hh1 : forall x, x <> a -> heads b1 !! x = heads b !! x) by (intros; by apply lookup_insert_ne).
  assert (forall y, head (L i) = Some y -> is_Some (heads b1 !! y)) as Hy.
  { intros y Hy%head_Some_elem_of. rewrite Hh1 by (intros ->; by apply (Ha i Hi)).
    destruct (nodes_ok_level _ _ _ _ Hn Hy) as (c & -> & _). eauto. }
  rewrite (bind_ret _ _ _ _ _ (set_pprev_run b1 i (L i) (LNext a) Hy (ltac:(by exists t)))).
  set (b2 := repoint _ _ _ _).
  destruct (repoint_rest b1 i (L i) (LNext a)) as (R1 & R2 & R3 & _). fold b2 in R1, R2, R3.
  rewrite (put_free_head_run _ i (nptr i (head (L i)))) by (by rewrite R1).
  eexists. split; [done|]. split; [|by split].
  assert (Hh2 : forall x, heads b2 !! x = (fun c => Chunk (c_next c) (if decide (head (L i) = Some x) then LNext a else c_pprev c) (c_level c)) <$> heads b1 !! x)
    by (intros; apply repoint_heads).
  assert (head (L i) <> Some a) as Hane by (intros E%head_Some_elem_of; by apply (Ha i Hi)).
  apply (lists_ok_upd b); [done|done| | | |].
  - split; [apply NoDup_cons; split; [by apply Ha|done]|]. split.
    { apply (nodes_ok_cons (heads b)); [by apply Ha|done| | |done].
      - simpl. rewrite Hh2. unfold b1. simpl. rewrite lookup_insert_eq. simpl. by rewrite decide_False.
      - intros x c Hx Hc. simpl. rewrite Hh2, Hh1 by (intros ->; by apply (Ha i Hi)). by rewrite Hc. }
    split; [simpl; rewrite R1; rewrite arr_at_insert by (simpl; lia); by rewrite decide_True|].
    simpl. unfold b2. rewrite repoint_tail by (lia || by exists t). simpl.
    destruct (L i) as [|y l] eqn:EL.
    + rewrite decide_True by done. rewrite Ht. simpl. by eexists.
    + rewrite decide_False by naive_solver. exists t. by rewrite Ht.
  - intros j x Hj Hne Hx. simpl. rewrite Hh2, Hh1 by (intros ->; by apply (Ha j Hj)).
    destruct (Hok j Hj) as (_ & Hnj & _). destruct (nodes_ok_level _ _ _ _ Hnj Hx) as (c & Hc & _). rewrite Hc.
    simpl. rewrite decide_False; [by destruct c|]. intros E%head_Some_elem_of.
    apply Hne. by eapply (lists_ok_disjoint b L j i x).
  - intros j Hne. simpl. rewrite R1. rewrite arr_at_insert by (simpl; lia). by rewrite decide_False.
  - intros j Hne. simpl. unfold b2. rewrite repoint_tail by (lia || by exists t). rewrite decide_False by naive_solver. done.
Qed.

(** The state after [*(c->pprev) = c->next] for the chunk between [l1] and [l2]. *)
Definition redirected (b : uk_bbpalloc) (i : Z) (l1 l2 : list Z) : uk_bbpalloc :=
  match last l1 with
  | None => set_free_head (<[Z.to_nat i := nptr i (head l2)]> (free_head b)) b
  | Some x => match heads b !! x with
              | Some c => set_heads (<[x := Chunk (nptr i (head l2)) (c_pprev c) (c_level c)]> (heads b)) b
              | None => b
              end
  end.

Lemma redirected_heads b i l1 l2 x :
  heads (redirected b i l1 l2) !! x =
    (fun c => Chunk (if decide (last l1 = Some x) then nptr i (head l2) else c_next c) (c_pprev c) (c_level c))
      <$> heads b !! x.
Proof.
  assert (Hkeep : forall o : option chunk_head_st,
    (fun c => Chunk (c_next c) (c_pprev c) (c_level c)) <$> o = o) by (by intros [[]|]).
  unfold redirected. destruct (last l1) as [y|]; [|by rewrite Hkeep].
  destruct (decide (Some y = Some x)) as [[= ->]|E].
  - destruct (heads b !! x) eqn:Ex; simpl; [by rewrite lookup_insert_eq|by rewrite Ex].
  - rewrite Hkeep. destruct (heads b !! y); [|done]. simpl. apply lookup_insert_ne. congruence.
Qed.

Lemma redirected_rest b i l1 l2 :
  let b' := redirected b i l1 l2 in free_tail b' = free_tail b /\ same_map b b'.
Proof. unfold redirected. destruct (last l1) as [x|]; [by destruct (heads b !! x)|done]. Qed.

Lemma redirected_head b i l1 l2 j :
  0 <= i -> is_Some (arr_at (free_head b) i) ->
  arr_at (free_head (redirected b i l1 l2)) j =
    if decide (last l1 = None /\ j = i) then Some (nptr i (head l2)) else arr_at (free_head b) j.
Proof.
  intros Hi [p Hp]. destruct (arr_at_Some _ _ _ Hp). unfold redirected. destruct (last l1) as [x|].
  - rewrite decide_False by naive_solver. by destruct (heads b !! x).
  - simpl. rewrite arr_at_insert by done.
    destruct (decide (i = j)) as [->|]; [by rewrite decide_True|by rewrite decide_False by naive_solver].
Qed.

Lemma unlink_run b i l1 a l2 :
  0 <= i -> list_ok b i (l1 ++ a :: l2) ->
  unlink_chunk a b = Ok (tt, repoint (redirected b i l1 l2) i l2 (ploc i (last l1))).
Proof.
  intros Hi (Hnd & Hn & Hfh & t & Ht & _). unfold unlink_chunk. pose proof (Hn l1 a l2 eq_refl) as Ha.
  apply NoDup_app in Hnd as (Hnd1 & Hdis & [Hal2 Hnd2]%NoDup_cons).
  rewrite (bind_ret _ _ _ _ b) by (apply deref_ok; split; [exact Ha|done]). simpl.
  assert (store_at (ploc i (last l1)) (nptr i (head l2)) b = Ok (tt, redirected b i l1 l2)) as Hst.
  { unfold redirected. destruct (last l1) as [x|] eqn:Hx; simpl.
    - apply last_Some_elem_of in Hx.
      destruct (nodes_ok_level (heads b) i (l1 ++ a :: l2) x Hn ltac:(set_solver)) as (c & Hc & _). unfold load_chunk.
      rewrite (bind_ret _ _ _ c b) by (by apply deref_ok). by rewrite Hc.
    - by apply (put_free_head_run b i _ _ Hfh). }
  rewrite (bind_ret _ _ _ _ _ Hst).
  set (b1 := redirected b i l1 l2).
  assert (last l1 <> Some a) as Hla by (intros E%last_Some_elem_of; apply (Hdis a); set_solver).
  assert (heads b1 !! a = Some (Chunk (nptr i (head l2)) (ploc i (last l1)) i)) as Ha1.
  { unfold b1. rewrite redirected_heads, Ha. simpl. by rewrite decide_False. }
  unfold load_chunk at 1. rewrite (bind_ret _ _ _ _ b1) by (apply deref_ok; split; [exact Ha1|done]). simpl.
  apply set_pprev_run.
  - intros y Hy%head_Some_elem_of. unfold b1. rewrite redirected_heads.
    destruct (nodes_ok_level (heads b) i (l1 ++ a :: l2) y Hn ltac:(set_solver)) as (c & -> & _). simpl. eauto.
  - unfold b1. destruct (redirected_rest b i l1 l2) as [-> _]. by exists t.
Qed.

Lemma unlink_chunk_ok b L i l1 a l2 :
  lists_ok b L -> 0 <= i < FREELIST_SIZE -> L i = l1 ++ a :: l2 ->
  exists b', unlink_chunk a b = Ok (tt, b') /\ lists_ok b' (upd L i (l1 ++ l2)) /\ same_map b b'.
Proof.
  intros Hok Hi HL. pose proof (Hok i Hi) as Hli. rewrite HL in Hli.
  rewrite (unlink_run b i l1 a l2) by (done || lia). eexists. split; [done|].
  destruct Hli as (Hnd & Hn & Hfh & t & Ht & Htn & Htp).
  set (b1 := redirected b i l1 l2). destruct (redirected_rest b i l1 l2) as (Rt & Rm & Rn). fold b1 in Rt, Rm, Rn.
  set (b2 := repoint b1 i l2 _).
  destruct (repoint_rest b1 i l2 (ploc i (last l1))) as (R1 & R2 & R3 & _). fold b2 in R1, R2, R3.
  assert (Hh : forall x, heads b2 !! x = bypassed i l1 l2 x <$> heads b !! x).
  { intros x. unfold b2. rewrite repoint_heads. unfold b1. rewrite redirected_heads.
    by destruct (heads b !! x). }
  assert (Htl : is_Some (arr_at (free_tail b1) i)) by (rewrite Rt; by exists t).
  split; [|split; congruence].
  apply (lists_ok_upd b); [done|done| | | |].
  - split; [apply NoDup_app in Hnd as (? & Hd & [? ?]%NoDup_cons); apply NoDup_app; split_and!; set_solver|].
    split; [|split].
    + apply (nodes_ok_remove (heads b) _ i l1 a l2); [done|done|]. intros x c _ Hx. by rewrite Hh, Hx.
    + rewrite R1. unfold b1. rewrite redirected_head by (lia || by eexists). destruct l1 as [|x l1].
      * by rewrite decide_True.
      * rewrite decide_False; [by rewrite Hfh|]. intros [E _]. apply last_None in E. done.
    + unfold b2. rewrite repoint_tail by (lia || done). rewrite Rt. destruct l2 as [|y l2].
      * rewrite decide_True by done. rewrite Ht. simpl. eexists. rewrite app_nil_r. by split.
      * rewrite decide_False by naive_solver. exists t. split; [done|]. split; [done|].
        rewrite Htp. by rewrite !last_app_cons, last_cons_cons.
  - intros j x Hj Hne Hx. rewrite Hh. destruct (Hok j Hj) as (_ & Hnj & _).
    destruct (nodes_ok_level _ _ _ _ Hnj Hx) as (c & Hc & _). rewrite Hc. simpl. unfold bypassed.
    assert (x ∉ l1 ++ a :: l2) as Hni by (rewrite <- HL; intros Hx'; apply Hne; by eapply (lists_ok_disjoint b L j i x)).
    rewrite !decide_False; [by destruct c|intros E%head_Some_elem_of; set_solver|intros E%last_Some_elem_of; set_solver].
  - intros j Hne. rewrite R1. unfold b1. rewrite redirected_head by (lia || by eexists). by rewrite decide_False by naive_solver.
  - intros j Hne. unfold b2. rewrite repoint_tail by (lia || done). rewrite decide_False by naive_solver. by rewrite Rt.
Qed.

Lemma pop_chunk_ok b L i a l :
  lists_ok b L -> 0 <= i < FREELIST_SIZE -> L i = a :: l ->
  exists b', pop_chunk i b = Ok (a, b') /\ lists_ok b' (upd L i l) /\ same_map b b'.
Proof.
  intros Hok Hi HL. destruct (unlink_chunk_ok b L i [] a l Hok Hi HL) as (b' & Hun & H). exists b'. split; [|exact H].
  destruct (Hok i Hi) as (Hnd & Hn & Hfh & t & Ht & _). rewrite HL in *. simpl in Hfh.
  pose proof (Hn [] a l eq_refl) as Ha. simpl in Ha.
  unfold pop_chunk, get_free_head. rewrite (bind_ret _ _ _ (PChunk a) b) by (by apply deref_ok).
  unfold unlink_chunk in Hun.
  rewrite (bind_ret (load_chunk (PChunk a)) _ b _ b) in Hun by (apply deref_ok; split; [exact Ha|done]).
  rewrite (bind_ret (load_chunk (PChunk a)) _ b _ b) by (apply deref_ok; split; [exact Ha|done]). simpl in *.
  rewrite (bind_ret _ _ _ _ _ (put_free_head_run b i _ _ Hfh)) in Hun.
  rewrite (bind_ret _ _ _ _ _ (put_free_head_run b i _ _ Hfh)).
  unfold load_chunk at 1 in Hun. rewrite (bind_ret _ _ _ _ _) in Hun by (apply deref_ok; split; [exact Ha|done]).
  simpl in Hun. by rewrite (bind_ret _ _ _ _ _ Hun).
Qed.

Lemma freelist_empty_ok b L i :
  lists_ok b L -> 0 <= i < FREELIST_SIZE ->
  freelist_empty i b = Ok (bool_decide (L i = []), b).
Proof.
  intros Hok Hi. destruct (Hok i Hi) as (_ & Hn & Hfh & t & Ht & Htn & _). unfold freelist_empty, get_free_head.
  rewrite (bind_ret _ _ _ _ b) by (apply deref_ok; split; [exact Hfh|done]). unfold load_chunk.
  destruct (L i) as [|a l] eqn:EL; simpl.
  - rewrite (bind_ret _ _ _ t b) by (by apply deref_ok). by rewrite Htn.
  - rewrite (bind_ret _ _ _ _ b) by (apply deref_ok; split; [exact (Hn [] a l eq_refl)|done]). by destruct l.
Qed.
