(* ===== verification/Bbuddy.v ===== *)
(** The binary buddy page allocator, part 3: allocation, release and setup
    (unikraft/lib/ukallocbbuddy/bbuddy.c, [bbuddy_palloc], [bbuddy_pfree],
    [bbuddy_addmem], [uk_allocbbuddy_init]).

    The theorems show that the allocator never fails internally on well-formed
    requests, hands out aligned runs of free pages, keeps live allocations
    disjoint whatever their owners write into them, and merges what is
    released. *)
From S2P Require Import Prelude BuddyMap BuddyList.
From stdpp Require Import base numbers gmap list.
#[local] Open Scope Z_scope.

(** ** Operations *)

(** [ukarch_flsl] is the [bsr] instruction. *)
Definition ukarch_flsl (w : Z) : Z := Z.log2 w.

Definition num_pages_to_order (num_pages : Z) : outcome Z :=
  if num_pages =? 0 then Abort else
  if num_pages =? 1 then Ok 0 else
  Ok (ukarch_flsl (num_pages - 1) + 1).

(** The search loop of [bbuddy_palloc]; [fuel] is the number of lists left. *)
Fixpoint find_order (fuel : nat) (i : Z) : M uk_bbpalloc Z :=
  match fuel with
  | O => mret i
  | S f => e ← freelist_empty i; if e : bool then find_order f (i + 1) else mret i
  end.

Definition chunk_size (i : Z) : Z := Z.shiftl 1 (i + PAGE_SHIFT).
Definition SIZEOF_TAIL : Z := 4.

(** The splitting loop: [fuel] is [i - order]. *)
Fixpoint split_chunk (fuel : nat) (i alloc_ch : Z) : M uk_bbpalloc unit :=
  match fuel with
  | O => mret tt
  | S f =>
      let i' := i - 1 in
      let spare_ch := alloc_ch + chunk_size i' in
      let spare_ct := spare_ch + chunk_size i' - SIZEOF_TAIL in
      link_chunk spare_ch i' spare_ct;;
      split_chunk f i' alloc_ch
  end.

(** [None] is NULL with [errno = ENOMEM]. *)
Definition bbuddy_palloc (num_pages : Z) : M uk_bbpalloc (option Z) :=
  order ← lift (num_pages_to_order num_pages);
  i ← find_order (Z.to_nat (FREELIST_SIZE - order)) order;
  if i =? FREELIST_SIZE then mret None else
  alloc_ch ← pop_chunk i;
  split_chunk (Z.to_nat (i - order)) i alloc_ch;;
  map_alloc alloc_ch (Z.shiftl 1 order);;
  mret (Some alloc_ch).

(** The merging loop: returns the chunk, its tail and its order. *)
Fixpoint merge_chunk (fuel : nat) (freed_ch freed_ct order : Z) : M uk_bbpalloc (Z * Z * Z) :=
  match fuel with
  | O => mret (freed_ch, freed_ct, order)
  | S f =>
      let mask := chunk_size order in
      let pred := negb (Z.land freed_ch mask =? 0) in
      let to_merge_ch := if pred then freed_ch - mask else u64 (freed_ch + mask) in
      v ← (fun b => lift (allocated_in_map (memr_head b) to_merge_ch) b);
      if negb (v =? 0) then mret (freed_ch, freed_ct, order) else
      c ← load_chunk (PChunk to_merge_ch);
      if negb (c_level c =? order) then mret (freed_ch, freed_ct, order) else
      unlink_chunk to_merge_ch;;
      if pred then merge_chunk f to_merge_ch freed_ct (order + 1)
      else merge_chunk f freed_ch (to_merge_ch + mask - SIZEOF_TAIL) (order + 1)
  end.

Definition bbuddy_pfree (obj num_pages : Z) : M uk_bbpalloc unit :=
  order ← lift (num_pages_to_order num_pages);
  uk_assert (Z.land obj (PAGE_SIZE - 1) =? 0);;
  map_free obj (Z.shiftl 1 order);;
  r ← merge_chunk (Z.to_nat (FREELIST_SIZE - order)) obj (obj + chunk_size order - SIZEOF_TAIL) order;
  let '(freed_ch, freed_ct, order') := r in
  link_chunk freed_ch order' freed_ct.

(** [round_pgup], [round_pgdown]. *)
Definition round_pgdown (a : Z) : Z := Z.ldiff a (PAGE_SIZE - 1).
Definition round_pgup (a : Z) : Z := round_pgdown (u64 (a + (PAGE_SIZE - 1))).

(** The order of the next chunk: limited by the alignment of [min] and the
    remaining [range]. *)
Fixpoint chunk_shift (fuel : nat) (i min range : Z) : Z :=
  match fuel with
  | O => i
  | S f => if Z.shiftl 1 (i + 1) <=? range then
             if negb (Z.land min (Z.shiftl 1 i) =? 0) then i else chunk_shift f (i + 1) min range
           else i
  end.

(** The loop that puts the pages of a new region into the free lists. *)
Fixpoint add_chunks (fuel : nat) (min range : Z) : M uk_bbpalloc unit :=
  if range =? 0 then mret tt else
  match fuel with
  | O => undef
  | S f =>
      let i := chunk_shift 64 PAGE_SHIFT min range in
      let size := Z.shiftl 1 i in
      link_chunk min (i - PAGE_SHIFT) (min + size - SIZEOF_TAIL);;
      add_chunks f (min + size) (range - size)
  end.

Definition SIZEOF_MEMR : Z := 40.
Definition EINVAL : Z := 22.

Definition memr_nr_pages (range : Z) : Z := u64 (8 * (range - SIZEOF_MEMR)) / (8 * PAGE_SIZE + 1).
Definition memr_size (nr : Z) : Z := round_pgup (SIZEOF_MEMR + (nr + 8 - 1) / 8).

Definition bbuddy_addmem (base len : Z) : M uk_bbpalloc Z :=
  uk_assert (negb (base =? 0));;
  let min := round_pgup base in
  let max := round_pgdown (u64 (base + len)) in
  if max <? min then mret (- EINVAL) else
  let range := max - min in
  if range <? round_pgup (SIZEOF_MEMR + 8) + PAGE_SIZE then mret (- EINVAL) else
  let nr := memr_nr_pages range in
  let size := memr_size nr in
  let bm := replicate (Z.to_nat ((size - SIZEOF_MEMR) / 8)) (2 ^ 64 - 1) in
  modify (fun b => set_memr (Memr (min + size) nr (size - SIZEOF_MEMR) bm :: memr_head b) b);;
  map_free (min + size) nr;;
  add_chunks (Z.to_nat ((range - size) / PAGE_SIZE)) (min + size) (range - size);;
  mret 0.

(** [sizeof(struct uk_alloc) + sizeof(struct uk_bbpalloc)]. *)
Definition SIZEOF_ALLOCATOR : Z := 80 + 1680.

Definition bbpalloc_empty : uk_bbpalloc :=
  Bbpalloc 0 (PTail <$> seqZ 0 FREELIST_SIZE)
    ((fun i => Chunk PNull (LHead i) 0) <$> seqZ 0 FREELIST_SIZE) [] ∅ ∅.

(** [None] is NULL. *)
Definition uk_allocbbuddy_init (base len : Z) : outcome (option uk_bbpalloc) :=
  let min := round_pgup base in
  let max := round_pgdown (u64 (base + len)) in
  if negb (min <? max) then Abort else
  let metalen := round_pgup SIZEOF_ALLOCATOR in
  if max <? u64 (min + metalen) then Ok None else
  let min := min + metalen in
  if u64 (min + metalen) <? max then
    match bbuddy_addmem (min + metalen) (max - min - metalen) bbpalloc_empty with
    | Ok (_, b) => Ok (Some b)
    | Spin => Spin
    | Abort => Abort
    | Undef => Undef
    end
  else Ok (Some bbpalloc_empty).

(** ** Blocks *)

(** The size in bytes of a chunk of order [i]. *)
Definition blk (i : Z) : Z := 4096 * 2 ^ i.

Lemma chunk_size_blk i : 0 <= i -> chunk_size i = blk i.
Proof.
  intros Hi. unfold chunk_size, blk, PAGE_SHIFT. rewrite Z.shiftl_mul_pow2, Z.pow_add_r by lia. lia.
Qed.

Lemma blk_pos i : 0 <= i -> 4096 <= blk i.
Proof. intros Hi. unfold blk. pose proof (Z.pow_pos_nonneg 2 i). lia. Qed.

Lemma blk_succ i : 0 <= i -> blk (i + 1) = 2 * blk i.
Proof. intros Hi. unfold blk. rewrite Z.pow_add_r by lia. lia. Qed.

Lemma blk_divide i j : 0 <= i <= j -> (blk i | blk j).
Proof.
  intros H. exists (2 ^ (j - i)). unfold blk. replace j with ((j - i) + i) at 1 by lia.
  rewrite Z.pow_add_r by lia. lia.
Qed.

(** Blocks start on page boundaries. *)
Lemma blk_page i a : (blk i | a) -> a mod 4096 = 0.
Proof.
  intros H. apply Z.mod_divide; [done|]. etrans; [|exact H]. exists (2 ^ i). unfold blk. lia.
Qed.

(** Multiples of [n] less than [n] apart are equal. *)
Lemma multiple_unique n x y : (n | x) -> (n | y) -> x <= y < x + n -> y = x.
Proof. intros [p ->] [q ->] H. assert (p = q) as -> by nia. done. Qed.

Lemma multiple_next n x y : (n | x) -> (n | y) -> x < y -> x + n <= y.
Proof. intros [p ->] [q ->] H. destruct (decide (0 <= n)); [|nia]. assert (p + 1 <= q) by nia. nia. Qed.

Lemma half_not_multiple n p q : 0 < n -> q * (2 * n) + n <> p * (2 * n).
Proof.
  intros Hn H. assert ((2 * (p - q) - 1) * n = 0) as [?|?]%Z.mul_eq_0 by lia; lia.
Qed.

(** An aligned block that starts inside a block at least as large lies in it. *)
Lemma block_inside i j x y :
  0 <= i <= j -> (blk i | y) -> (blk j | x) -> x <= y < x + blk j -> y + blk i <= x + blk j.
Proof.
  intros Hij Hy Hx Hin. apply multiple_next; [done| |lia].
  apply Z.divide_add_r; (etrans; [by apply blk_divide|]); [done|reflexivity].
Qed.

(** ** Free chunks and the bitmap *)

(** [C i a]: there is a free chunk of order [i] at [a]. *)
Definition chunkset : Type := Z -> Z -> Prop.

Definition covers (i a va : Z) : Prop := a <= va < a + blk i.

Record chunks_ok (rs : list uk_bbpalloc_memr) (C : chunkset) : Prop := {
  co_order : forall i a, C i a -> 0 <= i < FREELIST_SIZE;
  co_align : forall i a, C i a -> (blk i | a);
  co_span : forall i a, C i a -> span_in rs a (2 ^ i);
  co_unique : forall i a j a' va, C i a -> C j a' -> covers i a va -> covers j a' va -> i = j /\ a = a';
  co_free : forall va, page_free rs va = true <-> exists i a, C i a /\ covers i a va
}.

(** Whether two chunks are apart or the same. *)
Lemma chunks_ok_apart rs C i a j a' :
  chunks_ok rs C -> C i a -> C j a' -> (i <> j \/ a <> a') -> a + blk i <= a' \/ a' + blk j <= a.
Proof.
  intros Hok Hi Hj Hne. pose proof (co_order _ _ Hok _ _ Hi). pose proof (co_order _ _ Hok _ _ Hj).
  pose proof (blk_pos i). pose proof (blk_pos j).
  destruct (decide (a + blk i <= a')); [by left|]. destruct (decide (a' + blk j <= a)); [by right|].
  destruct (co_unique _ _ Hok i a j a' (Z.max a a') Hi Hj); unfold covers; lia.
Qed.

Lemma chunks_ok_split rs C C' i a :
  chunks_ok rs C -> C i a -> 0 < i ->
  (forall j x, C' j x <-> (C j x /\ (j <> i \/ x <> a)) \/ (j = i - 1 /\ (x = a \/ x = a + blk (i - 1)))) ->
  chunks_ok rs C'.
Proof.
  intros Hok Hia Hi HC. assert (Hb : blk i = 2 * blk (i - 1)) by (rewrite <- blk_succ by lia; f_equal; lia).
  pose proof (blk_pos (i - 1) ltac:(lia)). pose proof (co_order _ _ Hok _ _ Hia) as Ho.
  assert (Hsub : forall j x va, C' j x -> covers j x va ->
            C j x /\ (j <> i \/ x <> a) \/ (j = i - 1 /\ (x = a \/ x = a + blk (i - 1)) /\ covers i a va)).
  { intros j x va [H1|[-> [-> | ->]]]%HC Hv; [by left|right..]; unfold covers in *; (split_and!; auto; lia). }
  split.
  - intros j x [[H1 _]|[-> _]]%HC; [by eapply co_order|lia].
  - intros j x [[H1 _]|[-> Hx]]%HC; [by eapply co_align|].
    assert (blk (i - 1) | a) by (etrans; [apply (blk_divide _ i); lia|by eapply co_align]).
    destruct Hx as [->| ->]; [done|]. apply Z.divide_add_r; [done|reflexivity].
  - intros j x [[H1 _]|[-> Hx]]%HC; [by eapply co_span|].
    destruct (co_span _ _ Hok _ _ Hia) as (k & r & Hk & H1 & H2). exists k, r. split; [done|].
    fold (blk i) in H2. fold (blk (i - 1)). lia.
  - intros j x j' x' va H1 H2 V1 V2.
    destruct (Hsub _ _ va H1 V1) as [[K1 N1]|(-> & K1 & W1)];
    destruct (Hsub _ _ va H2 V2) as [[K2 N2]|(-> & K2 & W2)].
    + by eapply (co_unique _ _ Hok).
    + destruct (co_unique _ _ Hok j x i a va); [done..|]. lia.
    + destruct (co_unique _ _ Hok j' x' i a va); [done..|]. lia.
    + unfold covers in *. lia.
  - intros va. rewrite (co_free _ _ Hok). split.
    + intros (j & x & H1 & V). destruct (decide (j = i /\ x = a)) as [[-> ->]|Hne].
      * destruct (decide (va < a + blk (i - 1))).
        -- exists (i - 1), a. split; [apply HC; auto|unfold covers in *; lia].
        -- exists (i - 1), (a + blk (i - 1)). split; [apply HC; auto|unfold covers in *; lia].
      * exists j, x. split; [apply HC; left; split; [done|lia]|done].
    + intros (j & x & H1 & V). destruct (Hsub _ _ va H1 V) as [[K1 _]|(_ & _ & W)]; eauto.
Qed.

(** Adjacent free runs lie in the same region. *)
Lemma span_in_join rs a m n :
  regions_ok rs -> 0 < m -> 0 < n -> span_in rs a m -> span_in rs (a + 4096 * m) n -> span_in rs a (m + n).
Proof.
  intros [_ Hap] Hm Hn (k & r & Hk & H1 & H2) (k' & r' & Hk' & H3 & H4).
  destruct (decide (k = k')) as [<-|Hne].
  - rewrite Hk in Hk'. injection Hk' as <-. exists k, r. split; [done|lia].
  - pose proof (Hap k k' r r' Hk Hk' Hne). lia.
Qed.

Lemma span_in_order rs a i : regions_ok rs -> 0 <= i -> span_in rs a (2 ^ i) -> i < FREELIST_SIZE.
Proof.
  intros [Hwf _] Hi (k & r & Hk & H1 & H2). destruct (Hwf k r Hk) as (_ & W2 & _ & W4 & _).
  assert (2 ^ i < 2 ^ 52) by lia. apply (Z.pow_lt_mono_r_iff 2); unfold FREELIST_SIZE; lia.
Qed.

Lemma chunks_ok_merge rs C C' i a :
  regions_ok rs -> chunks_ok rs C -> C i a -> C i (a + blk i) -> (blk (i + 1) | a) ->
  (forall j x, C' j x <-> (C j x /\ (j <> i \/ (x <> a /\ x <> a + blk i))) \/ (j = i + 1 /\ x = a)) ->
  chunks_ok rs C'.
Proof.
  intros Hrs Hok Ha Hb Hal HC. pose proof (co_order _ _ Hok _ _ Ha) as Ho.
  pose proof (blk_succ i ltac:(lia)) as Hs. pose proof (blk_pos i ltac:(lia)).
  assert (Hspan : span_in rs a (2 ^ (i + 1))).
  { replace (2 ^ (i + 1)) with (2 ^ i + 2 ^ i) by (rewrite Z.pow_add_r by lia; lia).
    apply span_in_join; [done|lia..|by apply (co_span _ _ Hok)|]. fold (blk i). by apply (co_span _ _ Hok). }
  assert (Hnew : forall j x va, C j x -> j <> i \/ (x <> a /\ x <> a + blk i) -> covers j x va -> ~ covers (i + 1) a va).
  { intros j x va Hj Hne V W. unfold covers in W. rewrite Hs in W.
    destruct (decide (va < a + blk i)).
    - destruct (co_unique _ _ Hok j x i a va); [done..|unfold covers; lia|]. lia.
    - destruct (co_unique _ _ Hok j x i (a + blk i) va); [done..|unfold covers; lia|]. lia. }
  split.
  - intros j x [[H1 _]|[-> ->]]%HC; [by eapply co_order|]. split; [lia|]. eapply span_in_order; [done|lia|done].
  - intros j x [[H1 _]|[-> ->]]%HC; [by eapply co_align|done].
  - intros j x [[H1 _]|[-> ->]]%HC; [by eapply co_span|done].
  - intros j x j' x' va H1 H2 V1 V2.
    apply HC in H1 as [[K1 N1]|[-> ->]]; apply HC in H2 as [[K2 N2]|[-> ->]].
    + by eapply (co_unique _ _ Hok).
    + by destruct (Hnew j x va).
    + by destruct (Hnew j' x' va).
    + done.
  - intros va. rewrite (co_free _ _ Hok). split.
    + intros (j & x & H1 & V). destruct (decide (j = i /\ (x = a \/ x = a + blk i))) as [[-> Hx]|Hne].
      * exists (i + 1), a. split; [apply HC; auto|]. unfold covers in *. lia.
      * exists j, x. split; [apply HC; left; split; [done|lia]|done].
    + intros (j & x & [[K _]|[-> ->]]%HC & V); [eauto|].
      unfold covers in V. destruct (decide (va < a + blk i)).
      * exists i, a. split; [done|unfold covers; lia].
      * exists i, (a + blk i). split; [done|unfold covers; lia].
Qed.

(** Allocating a free chunk. *)
Lemma chunks_ok_remove rs rs' C C' i a :
  chunks_ok rs C -> C i a -> same_shape rs rs' -> run_status rs rs' a (2 ^ i) false ->
  (forall j x, C' j x <-> C j x /\ (j <> i \/ x <> a)) -> chunks_ok rs' C'.
Proof.
  intros Hok Ha Hsh Hst HC. split.
  - intros j x [H1 _]%HC. by eapply co_order.
  - intros j x [H1 _]%HC. by eapply co_align.
  - intros j x [H1 _]%HC. eapply same_shape_span; [done|]. by eapply co_span.
  - intros j x j' x' va [H1 _]%HC [H2 _]%HC. by eapply co_unique.
  - intros va. rewrite Hst. fold (blk i). destruct ((a <=? va) && (va <? a + blk i)) eqn:E.
    + split; [done|]. intros (j & x & [H1 Hne]%HC & V).
      destruct (co_unique _ _ Hok j x i a va); [done..|unfold covers; lia|]. lia.
    + rewrite (co_free _ _ Hok). split; intros (j & x & H1 & V).
      * exists j, x. split; [|done]. apply HC. split; [done|]. destruct (decide (j = i)) as [->|]; [|by left].
        right. intros ->. unfold covers in V. lia.
      * apply HC in H1 as [H1 _]. eauto.
Qed.

(** Releasing an allocated run. *)
Lemma chunks_ok_add rs rs' C C' i a :
  chunks_ok rs C -> 0 <= i < FREELIST_SIZE -> (blk i | a) -> span_in rs a (2 ^ i) ->
  (forall va, covers i a va -> page_free rs va = false) ->
  same_shape rs rs' -> run_status rs rs' a (2 ^ i) true ->
  (forall j x, C' j x <-> C j x \/ (j = i /\ x = a)) -> chunks_ok rs' C'.
Proof.
  intros Hok Hi Hal Hsp Hno Hsh Hst HC.
  assert (Hdis : forall j x va, C j x -> covers j x va -> ~ covers i a va).
  { intros j x va Hj V W%Hno. assert (page_free rs va = true) by (apply (co_free _ _ Hok); eauto). congruence. }
  split.
  - intros j x [H1|[-> ->]]%HC; [by eapply co_order|done].
  - intros j x [H1|[-> ->]]%HC; [by eapply co_align|done].
  - intros j x [H1|[-> ->]]%HC; (eapply same_shape_span; [done|]); [by eapply co_span|done].
  - intros j x j' x' va H1 H2 V1 V2.
    apply HC in H1 as [K1|[-> ->]]; apply HC in H2 as [K2|[-> ->]].
    + by eapply (co_unique _ _ Hok).
    + by destruct (Hdis j x va).
    + by destruct (Hdis j' x' va).
    + done.
  - intros va. rewrite Hst. fold (blk i). destruct ((a <=? va) && (va <? a + blk i)) eqn:E.
    + split; [|done]. intros _. exists i, a. split; [apply HC; auto|unfold covers; lia].
    + rewrite (co_free _ _ Hok). split; intros (j & x & H1 & V).
      * exists j, x. split; [apply HC; auto|done].
      * apply HC in H1 as [H1|[-> ->]]; [eauto|]. unfold covers in V. lia.
Qed.

(** ** The allocator's invariant

    [L i] are the addresses in free list [i]; [X] is a chunk that is free but
    held by the running operation. *)
Definition held (L : Z -> list Z) (X : option (Z * Z)) : chunkset := fun i a =>
  (0 <= i < FREELIST_SIZE /\ a ∈ L i) \/ X = Some (i, a).

(** No chunk of list [i] is the buddy of [a]. *)
Definition lonely (L : Z -> list Z) (i a : Z) : Prop :=
  ((blk (i + 1) | a) -> a + blk i ∉ L i) /\ ((blk (i + 1) | a - blk i) -> a - blk i ∉ L i).

(** Buddies in the lists have been merged. *)
Definition coalesced (L : Z -> list Z) : Prop :=
  forall i a, 0 <= i < FREELIST_SIZE -> a ∈ L i -> lonely L i a.

Record buddy_inv (b : uk_bbpalloc) (L : Z -> list Z) (X : option (Z * Z)) : Prop := {
  bi_regions : regions_ok (memr_head b);
  bi_lists : lists_ok b L;
  bi_chunks : chunks_ok (memr_head b) (held L X);
  bi_held : forall i a, X = Some (i, a) -> a ∉ L i;
  bi_coalesced : coalesced L
}.

Lemma upd_same L i l : upd L i l i = l.
Proof. unfold upd. by rewrite decide_True. Qed.
Lemma upd_other L i l j : j <> i -> upd L i l j = L j.
Proof. intros. unfold upd. by rewrite decide_False. Qed.

Lemma coalesced_sub L L' :
  (forall j x, x ∈ L' j -> x ∈ L j) -> coalesced L -> coalesced L'.
Proof. intros Hs Hc i a Hi Ha. destruct (Hc i a Hi (Hs i a Ha)) as [A B].
  split; intros H1 H2%Hs; [by apply A|by apply B].
Qed.

Lemma coalesced_cons L i a :
  0 <= i -> coalesced L -> lonely L i a -> coalesced (upd L i (a :: L i)).
Proof.
  intros Hi Hc [Ha1 Ha2] j x Hj. pose proof (blk_pos i Hi). destruct (decide (j = i)) as [->|Hne].
  - unfold lonely. rewrite upd_same, !elem_of_cons. intros [->|Hx].
    + split; intros Hd [E|E]; [lia|by apply Ha1|lia|by apply Ha2].
    + destruct (Hc i x Hj Hx) as [X1 X2]. split; intros Hd [E|E]; [|by apply X1| |by apply X2].
      * replace x with (a - blk i) in * by lia. by apply Ha2.
      * replace x with (a + blk i) in * by lia. apply Ha1; [|done]. by replace a with (a + blk i - blk i) by lia.
  - unfold lonely. rewrite upd_other by done. apply Hc. done.
Qed.

Lemma held_In L X i a : 0 <= i < FREELIST_SIZE -> a ∈ L i -> held L X i a.
Proof. by left. Qed.
Lemma held_X L i a : held L (Some (i, a)) i a.
Proof. by right. Qed.

(** No list contains an address inside the held chunk. *)
Lemma held_not_listed b L i a j x :
  buddy_inv b L (Some (i, a)) -> covers i a x -> 0 <= j < FREELIST_SIZE -> x ∉ L j.
Proof.
  intros Hinv V Hj Hx. destruct (bi_chunks _ _ _ Hinv) as [_ _ _ Hu _].
  assert (covers j x x) by (unfold covers; pose proof (blk_pos j); lia).
  destruct (Hu j x i a x) as [-> ->]; [by apply held_In|by apply held_X|done|done|].
  by apply (bi_held _ _ _ Hinv i a).
Qed.

Lemma held_order b L i a : buddy_inv b L (Some (i, a)) -> 0 <= i < FREELIST_SIZE.
Proof. intros Hinv. exact (co_order _ _ (bi_chunks _ _ _ Hinv) _ _ (held_X L i a)). Qed.

(** Putting the held chunk into its list. *)
Lemma link_inv b L i a ct :
  buddy_inv b L (Some (i, a)) -> lonely L i a ->
  exists b', link_chunk a i ct b = Ok (tt, b') /\ same_map b b' /\ buddy_inv b' (upd L i (a :: L i)) None.
Proof.
  intros Hinv Hlone. pose proof (held_order _ _ _ _ Hinv) as Hi. pose proof (blk_pos i ltac:(lia)).
  destruct (link_chunk_ok b L i a ct) as (b' & Hb & Hl & Hm); [apply Hinv|done| |].
  { intros j Hj. eapply held_not_listed; [done| |done]. unfold covers. lia. }
  exists b'. split; [done|]. split; [done|]. destruct Hm as [Hm _].
  split; rewrite ?Hm; [apply Hinv|done| |done|apply coalesced_cons; [lia|apply Hinv|done]].
  destruct (bi_chunks _ _ _ Hinv) as [C1 C2 C3 C4 C5].
  assert (Heq : forall j x, held (upd L i (a :: L i)) None j x <-> held L (Some (i, a)) j x).
  { intros j x. unfold held. destruct (decide (j = i)) as [->|Hne].
    - rewrite upd_same, elem_of_cons. naive_solver.
    - rewrite upd_other by done. naive_solver. }
  split; setoid_rewrite Heq; done.
Qed.

(** One iteration of the splitting loop. *)
Lemma split_inv b L i a ct :
  buddy_inv b L (Some (i, a)) -> 0 < i ->
  exists b' L', link_chunk (a + chunk_size (i - 1)) (i - 1) ct b = Ok (tt, b') /\ same_map b b' /\
    buddy_inv b' L' (Some (i - 1, a)).
Proof.
  intros Hinv Hi. pose proof (held_order _ _ _ _ Hinv) as Ho. rewrite chunk_size_blk by lia.
  pose proof (blk_succ (i - 1) ltac:(lia)) as Hb. replace (i - 1 + 1) with i in Hb by lia.
  pose proof (blk_pos (i - 1) ltac:(lia)). set (sp := a + blk (i - 1)).
  assert (Hsp : forall j, 0 <= j < FREELIST_SIZE -> sp ∉ L j).
  { intros j Hj. eapply held_not_listed; [done| |done]. unfold covers, sp. lia. }
  assert (Ha : forall j, 0 <= j < FREELIST_SIZE -> a ∉ L j).
  { intros j Hj. eapply held_not_listed; [done| |done]. unfold covers. lia. }
  destruct (link_chunk_ok b L (i - 1) sp ct) as (b' & Hb' & Hl & Hm); [apply Hinv|lia|done|].
  exists b', (upd L (i - 1) (sp :: L (i - 1))). split; [done|]. split; [done|]. destruct Hm as [Hm _].
  split; rewrite ?Hm; [apply Hinv|done| | |].
  - eapply (chunks_ok_split _ _ _ i a (bi_chunks _ _ _ Hinv)); [by apply held_X|lia|].
    intros j x. unfold held. fold sp. destruct (decide (j = i - 1)) as [->|Hne].
    + rewrite upd_same, elem_of_cons.
      assert (a ∉ L (i - 1)) by (apply Ha; lia).
      destruct (decide (x = a)) as [->|]; naive_solver lia.
    + rewrite upd_other by done. destruct (decide (j = i)) as [->|]; [|naive_solver lia].
      destruct (decide (x = a)) as [->|]; naive_solver lia.
  - intros j x [= <- <-]. rewrite upd_same. apply not_elem_of_cons. split; [unfold sp; lia|]. apply Ha. lia.
  - apply coalesced_cons; [lia|apply Hinv|]. pose proof (co_align _ _ (bi_chunks _ _ _ Hinv) _ _ (held_X L i a)) as [q Hq].
    unfold sp. split; [|intros _; replace (a + blk (i - 1) - blk (i - 1)) with a by lia; apply Ha; lia].
    replace (i - 1 + 1) with i by lia. rewrite Hb in Hq |- *. intros [p Hp].
    destruct (half_not_multiple (blk (i - 1)) p q); lia.
Qed.

(** ** Allocation *)

Lemma num_pages_to_order_ok n : 1 <= n -> num_pages_to_order n = Ok (Z.log2_up n).
Proof.
  intros Hn. unfold num_pages_to_order, ukarch_flsl. replace (n =? 0) with false by lia.
  destruct (Z.eqb_spec n 1) as [->|]; [done|]. rewrite Z.log2_up_eqn by lia.
  by replace (Z.pred n) with (n - 1) by lia.
Qed.

Lemma order_bounds n : 1 <= n <= 2 ^ 52 -> 0 <= Z.log2_up n <= 52 /\ n <= 2 ^ Z.log2_up n.
Proof.
  intros Hn. pose proof (Z.log2_up_nonneg n). assert (Z.log2_up n <= 52).
  { rewrite <- (Z.log2_up_pow2 52) by lia. apply Z.log2_up_le_mono. lia. }
  split; [done|]. destruct (decide (n = 1)) as [->|]; [done|]. apply Z.log2_up_spec. lia.
Qed.

Lemma find_order_ok b L fuel i :
  lists_ok b L -> 0 <= i -> i + Z.of_nat fuel = FREELIST_SIZE ->
  exists k, find_order fuel i b = Ok (k, b) /\ i <= k <= FREELIST_SIZE /\
    (forall j, i <= j < k -> L j = []) /\ (k < FREELIST_SIZE -> L k <> []).
Proof.
  intros Hok. revert i. induction fuel as [|f IH]; intros i Hi Hf; simpl.
  { exists i. split_and!; try done; lia. }
  rewrite (bind_ret _ _ _ _ _ (freelist_empty_ok b L i Hok ltac:(lia))).
  destruct (bool_decide_reflect (L i = [])) as [He|He].
  - destruct (IH (i + 1)) as (k & Hk & H1 & H2 & H3); [lia|lia|]. exists k. split; [done|]. split; [lia|].
    split; [|done]. intros j Hj. destruct (decide (j = i)) as [->|]; [done|]. apply H2. lia.
  - exists i. split_and!; try done; lia.
Qed.

Lemma split_chunk_inv fuel : forall b L i order a,
  buddy_inv b L (Some (i, a)) -> 0 <= order -> i = order + Z.of_nat fuel ->
  exists b' L', split_chunk fuel i a b = Ok (tt, b') /\ same_map b b' /\ buddy_inv b' L' (Some (order, a)).
Proof.
  induction fuel as [|f IH]; intros b L i order a Hinv Ho Hi; simpl.
  { exists b, L. replace order with i by lia. done. }
  destruct (split_inv b L i a (a + chunk_size (i - 1) + chunk_size (i - 1) - SIZEOF_TAIL) Hinv ltac:(lia))
    as (b1 & L1 & H1 & [M1 M2] & I1).
  destruct (IH b1 L1 (i - 1) order a I1 Ho ltac:(lia)) as (b2 & L2 & H2 & [M3 M4] & I2).
  exists b2, L2. rewrite (bind_ret _ _ _ _ _ H1). split; [done|]. split; [|done]. split; congruence.
Qed.

(** Taking the first chunk of a list. *)
Lemma pop_inv b L i a l :
  buddy_inv b L None -> 0 <= i < FREELIST_SIZE -> L i = a :: l ->
  exists b', pop_chunk i b = Ok (a, b') /\ same_map b b' /\ buddy_inv b' (upd L i l) (Some (i, a)).
Proof.
  intros Hinv Hi HL. pose proof (bi_lists _ _ _ Hinv) as Hlo.
  destruct (pop_chunk_ok b L i a l Hlo Hi HL) as (b' & Hp & Hl & Hm).
  exists b'. split; [done|]. split; [done|]. destruct Hm as [Hm _].
  destruct (Hlo i Hi) as (Hnd & _). rewrite HL in Hnd. apply NoDup_cons in Hnd as [Hal _].
  assert (Heq : forall j x, held (upd L i l) (Some (i, a)) j x <-> held L None j x).
  { intros j x. unfold held. destruct (decide (j = i)) as [->|Hne].
    - rewrite upd_same, HL, elem_of_cons. naive_solver.
    - rewrite upd_other by done. naive_solver. }
  split; rewrite ?Hm; [apply Hinv|done| |intros j x [= <- <-]; by rewrite upd_same|].
  2:{ eapply coalesced_sub; [|apply Hinv]. intros j x. destruct (decide (j = i)) as [->|]; [|by rewrite upd_other].
      rewrite upd_same, HL. set_solver. }
  destruct (bi_chunks _ _ _ Hinv) as [C1 C2 C3 C4 C5]. split; setoid_rewrite Heq; done.
Qed.

(** Marking the held chunk allocated. *)
Lemma map_alloc_inv b L i a :
  buddy_inv b L (Some (i, a)) ->
  exists b', map_alloc a (Z.shiftl 1 i) b = Ok (tt, b') /\ buddy_inv b' L None /\
    run_status (memr_head b) (memr_head b') a (2 ^ i) false /\ same_shape (memr_head b) (memr_head b') /\
    nr_free_pages b' = u64 (nr_free_pages b - 2 ^ i).
Proof.
  intros Hinv. pose proof (held_order _ _ _ _ Hinv) as Hi. pose proof (bi_chunks _ _ _ Hinv) as Hc.
  rewrite Z.shiftl_mul_pow2, Z.mul_1_l by lia.
  destruct (map_alloc_spec a (2 ^ i) b) as (rs' & E & Hok & Hsh & Hst);
    [apply Hinv|by apply (co_span _ _ Hc), held_X|by eapply blk_page, (co_align _ _ Hc), held_X|lia|].
  eexists. split; [exact E|]. simpl. split; [|done]. split; simpl; [done|apply Hinv| |done|apply Hinv].
  eapply (chunks_ok_remove _ _ _ _ i a Hc); [by apply held_X|done|done|].
  intros j x. unfold held. split.
  - intros [[Hj Hx]|?]; [|done]. split; [by left|]. destruct (decide (j = i)) as [->|]; [|by left].
    right. intros ->. by apply (bi_held _ _ _ Hinv i a).
  - intros [[H1|[= <- <-]] Hne]; [by left|]. lia.
Qed.

Lemma palloc_ok b L n :
  buddy_inv b L None -> 1 <= n <= 2 ^ 52 ->
  let o := Z.log2_up n in
  exists r b' L', bbuddy_palloc n b = Ok (r, b') /\ buddy_inv b' L' None /\
    match r with
    | None => b' = b /\ forall i, o <= i < FREELIST_SIZE -> L i = []
    | Some a =>
        n <= 2 ^ o /\ (blk o | a) /\ span_in (memr_head b) a (2 ^ o) /\
        (forall va, covers o a va -> page_free (memr_head b) va = true) /\
        run_status (memr_head b) (memr_head b') a (2 ^ o) false /\
        same_shape (memr_head b) (memr_head b') /\
        nr_free_pages b' = u64 (nr_free_pages b - 2 ^ o)
    end.
Proof.
  intros Hinv Hn o. destruct (order_bounds n Hn) as [Ho Hno]. fold o in Ho, Hno. unfold bbuddy_palloc.
  rewrite (bind_ret _ _ _ o b) by (apply lift_ok; split; [by apply num_pages_to_order_ok; lia|done]).
  destruct (find_order_ok b L (Z.to_nat (FREELIST_SIZE - o)) o) as (i & Hf & Hi & He & Hne);
    [apply Hinv|lia|unfold FREELIST_SIZE; lia|].
  rewrite (bind_ret _ _ _ _ _ Hf). destruct (Z.eqb_spec i FREELIST_SIZE) as [->|Hi'].
  { exists None, b, L. split; [done|]. split; [done|]. split; [done|]. intros j Hj. by apply He. }
  destruct (L i) as [|a l] eqn:HL; [by destruct Hne; [lia|]|].
  destruct (pop_inv b L i a l Hinv ltac:(lia) HL) as (b1 & H1 & [M1 N1] & I1). rewrite (bind_ret _ _ _ _ _ H1).
  destruct (split_chunk_inv (Z.to_nat (i - o)) b1 (upd L i l) i o a I1) as (b2 & L2 & H2 & [M2 N2] & I2); [lia..|].
  rewrite (bind_ret _ _ _ _ _ H2).
  destruct (map_alloc_inv b2 L2 o a I2) as (b3 & H3 & I3 & S3 & Sh3 & N3). rewrite (bind_ret _ _ _ _ _ H3).
  pose proof (bi_chunks _ _ _ I2) as Hc. pose proof (held_X L2 o a) as HX.
  rewrite M1 in M2. rewrite N1 in N2. rewrite M2 in Hc, S3, Sh3. rewrite N2 in N3.
  exists (Some a), b3, L2. split_and!; try done.
  - by apply (co_align _ _ Hc).
  - by apply (co_span _ _ Hc).
  - intros va V. apply (co_free _ _ Hc). eauto.
Qed.

(** ** Release *)

Lemma land_pow2 a i : 0 <= i -> (2 ^ i | a) -> Z.land a (2 ^ i) = 0 <-> (2 ^ (i + 1) | a).
Proof.
  intros Hi [q ->]. assert (Hb : Z.testbit (q * 2 ^ i) i = Z.odd q)
    by (rewrite Z.mul_pow2_bits by lia; by rewrite Z.sub_diag, Z.bit0_odd).
  rewrite Z.pow_add_r by lia. change (2 ^ 1) with 2. split.
  - intros H0. assert (Z.odd q = false) as Ho.
    { rewrite <- Hb. destruct (Z.testbit (q * 2 ^ i) i) eqn:E; [|done].
      assert (Z.testbit (Z.land (q * 2 ^ i) (2 ^ i)) i = true) as Ht
        by (rewrite Z.land_spec, E, Z.pow2_bits_true by lia; done).
      by rewrite H0, Z.testbit_0_l in Ht. }
    rewrite <- Z.negb_even, negb_false_iff in Ho. apply Z.even_spec in Ho as [p ->]. exists p. lia.
  - intros [p Hp]. pose proof (Z.pow_pos_nonneg 2 i). assert (q = 2 * p) as -> by nia.
    apply Z.bits_inj'. intros n Hn. rewrite Z.land_spec, Z.testbit_0_l.
    destruct (decide (n = i)) as [->|]; [rewrite Hb|rewrite Z.pow2_bits_false by lia; apply andb_false_r].
    by rewrite Z.odd_mul.
Qed.

Lemma blk_pow2 i : 0 <= i -> blk i = 2 ^ (i + 12).
Proof. intros Hi. unfold blk. rewrite Z.pow_add_r by lia. lia. Qed.

Lemma land_blk a i :
  0 <= i -> (blk i | a) ->
  if Z.land a (chunk_size i) =? 0 then (blk (i + 1) | a) else (blk (i + 1) | a - blk i).
Proof.
  intros Hi Ha. rewrite chunk_size_blk, (blk_pow2 (i + 1)), blk_pow2 in * by lia.
  replace (i + 1 + 12) with (i + 12 + 1) by lia.
  destruct (Z.eqb_spec (Z.land a (2 ^ (i + 12))) 0) as [H0|H0]; [by apply land_pow2 in H0; [|lia|]|].
  destruct Ha as [q ->]. destruct (Z.Even_or_Odd q) as [[p ->]|[p ->]].
  - destruct H0. apply land_pow2; [lia|by eexists|]. exists p. rewrite (Z.pow_add_r _ _ 1) by lia. lia.
  - exists p. rewrite (Z.pow_add_r _ _ 1) by lia. lia.
Qed.

(** A free page at the buddy's address starts a free chunk that is not larger
    than the held one. *)
Lemma buddy_listed b L i a base to :
  buddy_inv b L (Some (i, a)) -> (blk (i + 1) | base) ->
  (a = base /\ to = base + blk i) \/ (to = base /\ a = base + blk i) ->
  page_free (memr_head b) to = true -> exists j, 0 <= j <= i /\ to ∈ L j.
Proof.
  intros Hinv Hbase Hat Hfree. pose proof (held_order _ _ _ _ Hinv) as Hi.
  pose proof (bi_chunks _ _ _ Hinv) as Hc. pose proof (blk_succ i ltac:(lia)). pose proof (blk_pos i ltac:(lia)).
  apply (co_free _ _ Hc) in Hfree as (j & x & Hx & V). pose proof (co_order _ _ Hc _ _ Hx) as Hj.
  pose proof (co_align _ _ Hc _ _ Hx) as Hxa. unfold covers in V.
  assert (Hlist : held L (Some (i, a)) j x -> j <> i \/ x <> a -> x ∈ L j).
  { intros [[_ ?]|[= <- <-]] ?; [done|lia]. }
  destruct (decide (j <= i)) as [Hji|Hji].
  - assert (x = to) as <-.
    { symmetry. apply (multiple_unique (blk j)); [done| |done].
      assert (blk j | base) by (etrans; [apply (blk_divide j (i + 1)); lia|done]).
      assert (blk j | blk i) by (apply blk_divide; lia).
      destruct Hat as [[-> ->]|[-> ->]]; [by apply Z.divide_add_r|done]. }
    exists j. split; [lia|]. apply Hlist; [done|]. right. lia.
  - exfalso. assert (blk (i + 1) | x) by (etrans; [apply (blk_divide _ j); lia|done]).
    assert (x <= base).
    { destruct (decide (x <= base)); [done|]. pose proof (multiple_next (blk (i + 1)) base x Hbase ltac:(done) ltac:(lia)). lia. }
    assert (base + blk (i + 1) <= x + blk j) by (apply block_inside; (done || lia)).
    destruct (co_unique _ _ Hc j x i a a Hx (held_X L i a)); unfold covers; lia.
Qed.

(** One successful iteration of the merging loop. *)
Lemma merge_inv b L i a base to :
  buddy_inv b L (Some (i, a)) -> (blk (i + 1) | base) ->
  (a = base /\ to = base + blk i) \/ (to = base /\ a = base + blk i) -> to ∈ L i ->
  exists b' L', unlink_chunk to b = Ok (tt, b') /\ same_map b b' /\ buddy_inv b' L' (Some (i + 1, base)).
Proof.
  intros Hinv Hbase Hat Hto. pose proof (held_order _ _ _ _ Hinv) as Hi. pose proof (blk_pos i ltac:(lia)).
  pose proof (bi_chunks _ _ _ Hinv) as Hc. pose proof (bi_lists _ _ _ Hinv) as Hl.
  apply list_elem_of_split in Hto as Hsplit. destruct Hsplit as (l1 & l2 & HL).
  destruct (unlink_chunk_ok b L i l1 to l2 Hl Hi HL) as (b' & Hu & Hl' & Hm).
  destruct (Hl i Hi) as (Hnd & _). rewrite HL in Hnd. apply NoDup_app in Hnd as (_ & Hd & [Hto2 _]%NoDup_cons).
  assert (to ∉ l1) as Hto1 by (intros E; apply (Hd to); set_solver).
  pose proof (bi_held _ _ _ Hinv i a eq_refl) as Ha.
  assert (chunks_ok (memr_head b) (held (upd L i (l1 ++ l2)) (Some (i + 1, base)))) as Hc'.
  { eapply (chunks_ok_merge _ _ _ i base); [apply Hinv|exact Hc| | |done|].
    - destruct Hat as [[<- ->]|[<- ->]]; [by apply held_X|by apply held_In].
    - destruct Hat as [[<- ->]|[<- ->]]; [by apply held_In|by apply held_X].
    - intros j x. unfold held. destruct (decide (j = i)) as [->|Hne].
      + rewrite upd_same, HL, !elem_of_app, elem_of_cons.
        rewrite HL, elem_of_app, elem_of_cons in Ha.
        assert (Some (i + 1, base) <> Some (i, x)) by (intros [= ? ?]; lia).
        assert ((x <> base /\ x <> base + blk i) <-> (x <> a /\ x <> to)) as -> by lia.
        assert (Some (i, a) = Some (i, x) <-> x = a) as -> by naive_solver.
        split; [|intros [[[[_ [?|[?|?]]]|?] [?|?]]|?]; naive_solver lia].
        intros [[_ Hx]|?]; [|done]. left. split; [naive_solver|]. right. split; intros ->; naive_solver.
      + rewrite upd_other by done. naive_solver lia. }
  exists b', (upd L i (l1 ++ l2)). split; [done|]. split; [done|]. destruct Hm as [Hm _].
  split; rewrite ?Hm; [apply Hinv|done|done| |].
  2:{ eapply coalesced_sub; [|apply Hinv]. intros j x. destruct (decide (j = i)) as [->|]; [|by rewrite upd_other].
      rewrite upd_same, HL. set_solver. }
  intros j x [= <- <-]. rewrite upd_other by lia. intros Hb.
  pose proof (co_order _ _ Hc' _ _ (held_X _ _ _)) as Hj. destruct Hat as [[<- ->]|[<- ->]].
  - eapply (held_not_listed b L i a (i + 1) a); [done|unfold covers; lia|done|done].
  - pose proof (lists_ok_disjoint b L i (i + 1) to Hl Hi Hj Hto Hb). lia.
Qed.

Lemma lonely_buddy L i a base to :
  0 <= i -> (blk (i + 1) | base) ->
  (a = base /\ to = base + blk i) \/ (to = base /\ a = base + blk i) -> to ∉ L i -> lonely L i a.
Proof.
  intros Hi [p Hp] Hat Hto. rewrite blk_succ in Hp by done. pose proof (blk_pos i Hi).
  unfold lonely. rewrite blk_succ by done. destruct Hat as [[-> ->]|[-> ->]]; split.
  - done.
  - intros [q Hq]. destruct (half_not_multiple (blk i) p q); lia.
  - intros [q Hq]. destruct (half_not_multiple (blk i) q p); lia.
  - intros _. by replace (base + blk i - blk i) with base by lia.
Qed.

Lemma merge_chunk_inv fuel : forall b L i a ct,
  buddy_inv b L (Some (i, a)) -> i + Z.of_nat fuel = FREELIST_SIZE ->
  exists a' ct' i' b' L', merge_chunk fuel a ct i b = Ok ((a', ct', i'), b') /\ same_map b b' /\
    buddy_inv b' L' (Some (i', a')) /\ lonely L' i' a'.
Proof.
  induction fuel as [|f IH]; intros b L i a ct Hinv Hfuel; pose proof (held_order _ _ _ _ Hinv) as Hi; simpl; [lia|].
  pose proof (bi_chunks _ _ _ Hinv) as Hc.
  pose proof (land_blk a i ltac:(lia) (co_align _ _ Hc _ _ (held_X L i a))) as Hal.
  destruct (co_span _ _ Hc _ _ (held_X L i a)) as (k & r & Hk & Hr1 & Hr2). fold (blk i) in Hr2.
  destruct (proj1 (bi_regions _ _ _ Hinv) k r Hk) as (_ & W2 & _ & W4 & _).
  pose proof (blk_pos i ltac:(lia)). rewrite chunk_size_blk in * by lia.
  set (pr := negb (Z.land a (blk i) =? 0)) in *. set (to := if pr then a - blk i else u64 (a + blk i)).
  set (base := if pr then to else a).
  assert ((blk (i + 1) | base) /\ ((a = base /\ to = base + blk i) \/ (to = base /\ a = base + blk i))) as [Hbase Hat].
  { subst base to pr. unfold u64. rewrite Z.mod_small by lia. destruct (Z.land a (blk i) =? 0); simpl; split; auto; lia. }
  assert (Hstop : to ∉ L i -> exists a' ct' i' b' L', Ok ((a, ct, i), b) = Ok ((a', ct', i'), b') /\ same_map b b' /\
            buddy_inv b' L' (Some (i', a')) /\ lonely L' i' a').
  { intros Hto. exists a, ct, i, b, L. split_and!; try done. eapply lonely_buddy; (done || lia). }
  destruct (allocated_in_map_spec (memr_head b) to (bi_regions _ _ _ Hinv)) as (v & Hv & Hvf).
  unfold mbind at 1, M_bind at 1. rewrite Hv. simpl. rewrite Hvf.
  destruct (page_free (memr_head b) to) eqn:Hfree; [simpl|simpl; apply Hstop].
  2:{ intros Hto. assert (page_free (memr_head b) to = true); [|congruence]. apply (co_free _ _ Hc).
      exists i, to. split; [by apply held_In|unfold covers; lia]. }
  destruct (buddy_listed b L i a base to Hinv Hbase Hat Hfree) as (j & Hj & Hto).
  destruct (bi_lists _ _ _ Hinv j ltac:(lia)) as (_ & Hn & _).
  destruct (nodes_ok_level _ _ _ _ Hn Hto) as (c & Hcl & Hlev). unfold load_chunk.
  rewrite (bind_ret _ _ _ c b) by (by apply deref_ok). rewrite Hlev.
  destruct (Z.eqb_spec j i) as [->|Hne]; simpl.
  2:{ apply Hstop. intros Hto'. apply Hne. eapply (lists_ok_disjoint b L j i to); (apply Hinv || done || lia). }
  destruct (merge_inv b L i a base to Hinv Hbase Hat Hto) as (b1 & L1 & H1 & [M1 N1] & I1).
  rewrite (bind_ret _ _ _ _ _ H1).
  destruct pr; (edestruct (IH b1 L1 (i + 1)) as (a' & ct' & i' & b' & L' & H2 & [M2 N2] & I2); [exact I1|lia|];
    exists a', ct', i', b', L'; split; [exact H2|]; split; [split; congruence|done]).
Qed.

(** Marking an allocated run free. *)
Lemma map_free_inv b L i a :
  buddy_inv b L None -> 0 <= i < FREELIST_SIZE -> (blk i | a) -> span_in (memr_head b) a (2 ^ i) ->
  (forall va, covers i a va -> page_free (memr_head b) va = false) ->
  exists b', map_free a (Z.shiftl 1 i) b = Ok (tt, b') /\ buddy_inv b' L (Some (i, a)) /\
    run_status (memr_head b) (memr_head b') a (2 ^ i) true /\ same_shape (memr_head b) (memr_head b') /\
    nr_free_pages b' = u64 (nr_free_pages b + 2 ^ i).
Proof.
  intros Hinv Hi Hal Hsp Hno. pose proof (blk_pos i ltac:(lia)). pose proof (bi_chunks _ _ _ Hinv) as Hc.
  rewrite Z.shiftl_mul_pow2, Z.mul_1_l by lia.
  destruct (map_free_spec a (2 ^ i) b) as (rs' & E & Hok & Hsh & Hst); [apply Hinv|done|by eapply blk_page|lia|].
  eexists. split; [exact E|]. simpl. split; [|done]. split; simpl; [done|apply Hinv| | |apply Hinv].
  - eapply (chunks_ok_add _ _ _ _ i a Hc); try done. intros j x. unfold held. naive_solver.
  - intros j x [= <- <-] Hx. assert (page_free (memr_head b) a = true) as Hf.
    { apply (co_free _ _ Hc). exists i, a. split; [by apply held_In|unfold covers; lia]. }
    rewrite Hno in Hf; [done|unfold covers; lia].
Qed.

Lemma pfree_ok b L obj n :
  buddy_inv b L None -> 1 <= n <= 2 ^ 51 ->
  let o := Z.log2_up n in
  (blk o | obj) -> span_in (memr_head b) obj (2 ^ o) ->
  (forall va, covers o obj va -> page_free (memr_head b) va = false) ->
  exists b' L', bbuddy_pfree obj n b = Ok (tt, b') /\ buddy_inv b' L' None /\
    run_status (memr_head b) (memr_head b') obj (2 ^ o) true /\
    same_shape (memr_head b) (memr_head b') /\
    nr_free_pages b' = u64 (nr_free_pages b + 2 ^ o).
Proof.
  intros Hinv Hn o Hal Hsp Hno. assert (0 <= o <= 51) as Ho.
  { split; [apply Z.log2_up_nonneg|]. rewrite <- (Z.log2_up_pow2 51) by lia. apply Z.log2_up_le_mono. lia. }
  unfold bbuddy_pfree.
  rewrite (bind_ret _ _ _ o b) by (apply lift_ok; split; [by apply num_pages_to_order_ok; lia|done]).
  rewrite (bind_ret _ _ _ tt b).
  2:{ unfold uk_assert. change (PAGE_SIZE - 1) with (Z.ones 12). rewrite Z.land_ones by lia.
      change (2 ^ 12) with 4096. by rewrite (blk_page o obj). }
  destruct (map_free_inv b L o obj Hinv ltac:(unfold FREELIST_SIZE; lia) Hal Hsp Hno) as (b1 & H1 & I1 & S1 & Sh1 & N1).
  rewrite (bind_ret _ _ _ _ _ H1).
  edestruct (merge_chunk_inv (Z.to_nat (FREELIST_SIZE - o)) b1 L o obj) as (a' & ct' & i' & b2 & L2 & H2 & [M2 N2] & I2 & Lo2);
    [done|unfold FREELIST_SIZE; lia|].
  rewrite (bind_ret _ _ _ _ _ H2).
  destruct (link_inv b2 L2 i' a' ct' I2 Lo2) as (b3 & H3 & [M3 N3] & I3).
  exists b3. eexists. split; [exact H3|]. split; [exact I3|]. rewrite M3, M2, N3, N2. done.
Qed.

(** ** Adding memory *)

(** The invariant while the pages [lo .. hi) of a new region are free in the
    bitmap but not yet in the lists. *)
Record partial_ok (rs : list uk_bbpalloc_memr) (C : chunkset) (lo hi : Z) : Prop := {
  po_order : forall i a, C i a -> 0 <= i < FREELIST_SIZE;
  po_align : forall i a, C i a -> (blk i | a);
  po_span : forall i a, C i a -> span_in rs a (2 ^ i);
  po_unique : forall i a j a' va, C i a -> C j a' -> covers i a va -> covers j a' va -> i = j /\ a = a';
  po_out : forall i a va, C i a -> covers i a va -> ~ lo <= va < hi;
  po_free : forall va, page_free rs va = true <-> (exists i a, C i a /\ covers i a va) \/ lo <= va < hi
}.

Lemma partial_ok_start rs rs' C lo n :
  chunks_ok rs C -> same_shape rs rs' -> run_status rs rs' lo n true ->
  (forall va, lo <= va < lo + 4096 * n -> page_free rs va = false) ->
  partial_ok rs' C lo (lo + 4096 * n).
Proof.
  intros Hok Hsh Hst Hno. split.
  - by apply Hok.
  - by apply Hok.
  - intros i a H. eapply same_shape_span; [done|]. by apply Hok.
  - by apply Hok.
  - intros i a va H V Hin%Hno. assert (page_free rs va = true) by (apply (co_free _ _ Hok); eauto). congruence.
  - intros va. rewrite Hst. destruct ((lo <=? va) && (va <? lo + 4096 * n)) eqn:E.
    + split; [right; lia|done].
    + rewrite (co_free _ _ Hok). split; [by left|]. intros [?|?]; [done|lia].
Qed.

Lemma partial_ok_step rs C C' lo hi i :
  partial_ok rs C lo hi -> 0 <= i < FREELIST_SIZE -> (blk i | lo) -> lo + blk i <= hi ->
  span_in rs lo (2 ^ i) -> (forall j x, C' j x <-> C j x \/ (j = i /\ x = lo)) ->
  partial_ok rs C' (lo + blk i) hi.
Proof.
  intros Hok Hi Hal Hle Hsp HC. pose proof (blk_pos i ltac:(lia)). split.
  - intros j x [H1|[-> ->]]%HC; [by eapply po_order|done].
  - intros j x [H1|[-> ->]]%HC; [by eapply po_align|done].
  - intros j x [H1|[-> ->]]%HC; [by eapply po_span|done].
  - intros j x j' x' va H1 H2 V1 V2.
    apply HC in H1 as [K1|[-> ->]]; apply HC in H2 as [K2|[-> ->]].
    + by eapply (po_unique _ _ _ _ Hok).
    + destruct (po_out _ _ _ _ Hok j x va K1 V1). unfold covers in *. lia.
    + destruct (po_out _ _ _ _ Hok j' x' va K2 V2). unfold covers in *. lia.
    + done.
  - intros j x va [K|[-> ->]]%HC V; [pose proof (po_out _ _ _ _ Hok j x va K V); lia|]. unfold covers in V. lia.
  - intros va. rewrite (po_free _ _ _ _ Hok). split.
    + intros [(j & x & K & V)|Hin]; [left; exists j, x; split; [apply HC; auto|done]|].
      destruct (decide (va < lo + blk i)); [|right; lia].
      left. exists i, lo. split; [apply HC; auto|unfold covers; lia].
    + intros [(j & x & [K|[-> ->]]%HC & V)|?]; [left; eauto|right; unfold covers in V; lia|right; lia].
Qed.

Lemma partial_ok_done rs C lo : partial_ok rs C lo lo -> chunks_ok rs C.
Proof.
  intros Hok. split; try apply Hok. intros va. rewrite (po_free _ _ _ _ Hok). split; [intros [?|?]; [done|lia]|by left].
Qed.

(** The chosen shift fits alignment and range, and is the largest that does. *)
Lemma chunk_shift_ok fuel : forall i min range,
  0 <= i -> (2 ^ i | min) -> 2 ^ i <= range < 2 ^ (i + Z.of_nat fuel) ->
  let s := chunk_shift fuel i min range in
  i <= s /\ (2 ^ s | min) /\ 2 ^ s <= range /\ (range < 2 ^ (s + 1) \/ ~ (2 ^ (s + 1) | min)).
Proof.
  induction fuel as [|f IH]; intros i min range Hi Hd Hr; simpl; [rewrite Z.add_0_r in Hr; lia|].
  rewrite !Z.shiftl_mul_pow2, !Z.mul_1_l by lia.
  destruct (Z.leb_spec (2 ^ (i + 1)) range) as [Hle|Hgt]; [|split_and!; (done || lia || by left)].
  destruct (Z.eqb_spec (Z.land min (2 ^ i)) 0) as [H0|H0]; simpl.
  - apply land_pow2 in H0; [|done|done]. destruct (IH (i + 1) min range ltac:(lia) H0) as (A & B & D & E).
    { replace (i + 1 + Z.of_nat f) with (i + Z.of_nat (S f)) by lia. lia. }
    split_and!; (done || lia).
  - split_and!; try (done || lia). right. intros Hd'. apply H0. by apply land_pow2.
Qed.

#[local] Arguments chunk_shift : simpl never.

Lemma span_in_prefix rs a m n : span_in rs a n -> m <= n -> span_in rs a m.
Proof. intros (k & r & Hk & H1 & H2) Hm. exists k, r. split; [done|lia]. Qed.

Lemma span_in_suffix rs a m n : span_in rs a n -> 0 <= m -> span_in rs (a + 4096 * m) (n - m).
Proof. intros (k & r & Hk & H1 & H2) Hm. exists k, r. split; [done|lia]. Qed.

(** The last chunk added cannot be merged with the next one. *)
Definition closed_below (L : Z -> list Z) (lo k : Z) : Prop :=
  forall j, 0 <= j < FREELIST_SIZE -> lo - blk j ∈ L j -> (blk (j + 1) | lo - blk j) -> 4096 * k < blk j.

(** The state of the loop with [k] pages left from [lo] on. *)
Record filling (b : uk_bbpalloc) (L : Z -> list Z) (lo k : Z) : Prop := {
  fi_regions : regions_ok (memr_head b);
  fi_lists : lists_ok b L;
  fi_partial : partial_ok (memr_head b) (held L None) lo (lo + 4096 * k);
  fi_coalesced : coalesced L;
  fi_closed : closed_below L lo k;
  fi_end : forall j, 0 <= j < FREELIST_SIZE -> lo + 4096 * k ∉ L j;
  fi_align : lo mod 4096 = 0;
  fi_span : span_in (memr_head b) lo k
}.

(** Chunks in the lists stay clear of the pages that are left. *)
Lemma filling_apart b L lo k j x :
  filling b L lo k -> 0 <= j < FREELIST_SIZE -> x ∈ L j -> 0 < k ->
  ~ lo <= x < lo + 4096 * k /\ ~ lo < x + blk j <= lo + 4096 * k.
Proof.
  intros Hf Hj Hx Hk. pose proof (blk_pos j ltac:(lia)).
  pose proof (fun va => po_out _ _ _ _ (fi_partial _ _ _ _ Hf) j x va (held_In L None j x Hj Hx)) as Hout.
  unfold covers in Hout. split; intros ?; [apply (Hout x)|apply (Hout (x + blk j - 1))]; lia.
Qed.

Lemma filling_lonely b L lo k i :
  filling b L lo k -> 0 <= i < FREELIST_SIZE -> blk i <= 4096 * k -> lonely L i lo.
Proof.
  intros Hf Hi Hle. pose proof (blk_pos i ltac:(lia)). split; intros Hd Hx.
  - destruct (decide (blk i = 4096 * k)) as [E|]; [rewrite E in Hx; by apply (fi_end _ _ _ _ Hf i)|].
    destruct (filling_apart b L lo k i _ Hf Hi Hx); lia.
  - pose proof (fi_closed _ _ _ _ Hf i Hi Hx Hd). lia.
Qed.

(** Putting the next chunk into its list. *)
Lemma filling_step b L lo k i ct :
  filling b L lo k -> 0 <= i -> (blk i | lo) -> 2 ^ i <= k -> (4096 * k < blk (i + 1) \/ ~ (blk (i + 1) | lo)) ->
  exists b', link_chunk lo i ct b = Ok (tt, b') /\ same_map b b' /\
    filling b' (upd L i (lo :: L i)) (lo + blk i) (k - 2 ^ i).
Proof.
  intros Hf Hi Hd Hik Hmax. pose proof (Z.pow_pos_nonneg 2 i). pose proof (blk_pos i Hi). pose proof (blk_succ i Hi).
  assert (span_in (memr_head b) lo (2 ^ i)) as Hspi by (eapply span_in_prefix; [exact (fi_span _ _ _ _ Hf)|done]).
  assert (i < FREELIST_SIZE) as Hi' by (eapply span_in_order; [apply Hf|done|done]).
  assert (blk i <= 4096 * k) by (unfold blk; lia).
  destruct (link_chunk_ok b L i lo ct (fi_lists _ _ _ _ Hf) ltac:(lia)) as (b1 & E1 & Hl1 & [M1 N1]).
  { intros j Hj Hx. destruct (filling_apart b L lo k j lo Hf Hj Hx); lia. }
  exists b1. split; [done|]. split; [done|].
  assert (Hnext : lo + blk i + 4096 * (k - 2 ^ i) = lo + 4096 * k) by (unfold blk; lia).
  split; rewrite ?M1, ?Hnext.
  - apply Hf.
  - done.
  - eapply partial_ok_step; [apply Hf|done|done|lia|done|].
    intros j x. unfold held. destruct (decide (j = i)) as [->|Hne].
    + rewrite upd_same, elem_of_cons. naive_solver.
    + rewrite upd_other by done. naive_solver.
  - apply coalesced_cons; [done|apply Hf|by eapply filling_lonely].
  - intros j Hj Hx Hdj. destruct (decide (j = i)) as [->|Hne].
    + replace (lo + blk i - blk i) with lo in Hdj by lia. destruct Hmax; [lia|done].
    + rewrite upd_other in Hx by done. destruct (filling_apart b L lo k j _ Hf Hj Hx); lia.
  - intros j Hj. pose proof (fi_end _ _ _ _ Hf j Hj). destruct (decide (j = i)) as [->|Hne]; [|by rewrite upd_other].
    rewrite upd_same. apply not_elem_of_cons. split; [lia|done].
  - rewrite (Z.add_comm lo), Z.add_mod, (fi_align _ _ _ _ Hf) by done. unfold blk.
    by rewrite Z.mul_comm, Z.mod_mul by done.
  - unfold blk. apply span_in_suffix; [apply Hf|lia].
Qed.

Lemma filling_done b L lo : filling b L lo 0 -> buddy_inv b L None.
Proof.
  intros [F1 F2 F3 F4 _ _ _ _]. rewrite Z.add_0_r in F3. split; try done. by apply partial_ok_done in F3.
Qed.

Lemma add_chunks_inv fuel : forall b L lo k,
  filling b L lo k -> 0 <= k <= Z.of_nat fuel -> k < 2 ^ 52 ->
  exists b' L', add_chunks fuel lo (4096 * k) b = Ok (tt, b') /\ same_map b b' /\ buddy_inv b' L' None.
Proof.
  induction fuel as [|f IH]; intros b L lo k Hf Hk Hk52; simpl; destruct (Z.eqb_spec (4096 * k) 0) as [Hz|Hz].
  1,3: exists b, L; split; [done|]; split; [done|]; replace k with 0 in Hf by lia; by eapply filling_done.
  { lia. }
  destruct (chunk_shift_ok 64 PAGE_SHIFT lo (4096 * k)) as (S1 & S2 & S3 & S4);
    [done|apply Z.mod_divide; [done|apply Hf]|unfold PAGE_SHIFT; lia|].
  set (sh := chunk_shift 64 PAGE_SHIFT lo (4096 * k)) in *. clearbody sh. unfold PAGE_SHIFT in *.
  set (i := sh - 12). assert (0 <= i) by (subst i; lia).
  assert (Hb : 2 ^ sh = blk i) by (rewrite blk_pow2 by done; f_equal; lia).
  assert (Hb1 : 2 ^ (sh + 1) = blk (i + 1)) by (rewrite blk_pow2 by lia; f_equal; lia).
  rewrite Z.shiftl_mul_pow2, Z.mul_1_l by lia. rewrite Hb in *. rewrite Hb1 in S4.
  assert (2 ^ i <= k) by (unfold blk in S3; lia). pose proof (Z.pow_pos_nonneg 2 i).
  destruct (filling_step b L lo k i (lo + blk i - SIZEOF_TAIL)) as (b1 & E1 & [M1 N1] & F1); [done..|].
  rewrite (bind_ret _ _ _ _ _ E1).
  replace (4096 * k - blk i) with (4096 * (k - 2 ^ i)) by (unfold blk; lia).
  destruct (IH _ _ _ _ F1) as (b2 & L2 & E2 & [M2 N2] & I2); [lia..|].
  exists b2, L2. split; [exact E2|]. split; [split; congruence|done].
Qed.

Lemma round_pgdown_eq a : round_pgdown a = 4096 * (a / 4096).
Proof.
  unfold round_pgdown. change (PAGE_SIZE - 1) with (Z.ones 12).
  rewrite Z.ldiff_ones_r, Z.shiftl_mul_pow2, Z.shiftr_div_pow2 by lia. change (2 ^ 12) with 4096. lia.
Qed.

Lemma round_pgup_eq a : 0 <= a -> a + 4096 <= 2 ^ 64 -> round_pgup a = 4096 * ((a + 4095) / 4096).
Proof.
  intros H1 H2. unfold round_pgup, u64, PAGE_SIZE. rewrite Z.mod_small by lia. rewrite round_pgdown_eq.
  by replace (a + (4096 - 1)) with (a + 4095) by lia.
Qed.

(** Adding a region all of whose pages are allocated. *)
Lemma regions_ok_cons r rs :
  regions_ok rs -> region_wf r ->
  (forall k r', rs !! k = Some r' -> end_page r' < first_page r \/ end_page r < first_page r') ->
  regions_ok (r :: rs).
Proof.
  intros [Hwf Hap] Hr Hnew. split.
  - intros [|k] q Hq; simpl in Hq; [by injection Hq as <-|by eapply Hwf].
  - intros [|i] [|j] q q' Hq Hq' Hne; simpl in *; try done; simplify_eq.
    + destruct (Hnew j q' Hq'); auto.
    + destruct (Hnew i q Hq); auto.
    + apply (Hap i j); auto.
Qed.

Lemma page_free_cons r rs va :
  regions_ok (r :: rs) -> (forall k, 0 <= k -> page_bit (mm_alloc_bitmap r) k = true) ->
  page_free (r :: rs) va = page_free rs va.
Proof.
  intros Hok Hbits. unfold page_free at 1. simpl.
  destruct ((first_page r <=? va) && (va <? memr_end r)) eqn:E; simpl.
  - rewrite Hbits by (apply Z.div_pos; lia). simpl. destruct (page_free rs va) eqn:Ef; [|done]. exfalso.
    rewrite memr_end_wf in E by (by apply (proj1 Hok O)).
    unfold page_free in Ef. destruct (map_get_memr rs va) as [k|] eqn:Ek; [|done].
    apply map_get_memr_Some in Ek as (q & Hq & Hv); [|intros j q; apply (proj1 Hok (S j))].
    destruct (proj2 Hok O (S k) r q eq_refl Hq); lia.
  - unfold page_free. by destruct (map_get_memr rs va).
Qed.

Lemma page_bit_full n k : 0 <= k -> page_bit (replicate n (2 ^ 64 - 1)) k = true.
Proof.
  intros Hk. unfold page_bit. destruct (_ !! _) eqn:E; [|done]. apply lookup_replicate in E as [-> _].
  change (2 ^ 64 - 1) with (Z.ones 64). pose proof (Z.mod_pos_bound k 64). rewrite Z.testbit_ones_nonneg; lia.
Qed.

(** Adding a fully allocated region keeps the invariant. *)
Lemma buddy_inv_region b L r :
  buddy_inv b L None -> region_wf r ->
  (forall k r', memr_head b !! k = Some r' -> end_page r' < first_page r \/ end_page r < first_page r') ->
  (forall k, 0 <= k -> page_bit (mm_alloc_bitmap r) k = true) ->
  buddy_inv (set_memr (r :: memr_head b) b) L None.
Proof.
  intros Hinv Hr Hnew Hbits. pose proof (regions_ok_cons r _ (bi_regions _ _ _ Hinv) Hr Hnew) as Hok.
  split; [done|apply Hinv| |done|apply Hinv]. destruct (bi_chunks _ _ _ Hinv) as [C1 C2 C3 C4 C5]. split; try done.
  - intros i a (k & q & Hk & Hq)%C3. by exists (S k), q.
  - intros va. simpl. rewrite page_free_cons by done. apply C5.
Qed.

(** The arithmetic of [bbuddy_addmem]. *)
Lemma memr_size_ok nr :
  0 <= nr < 2 ^ 52 ->
  memr_size nr mod 4096 = 0 /\ 4096 <= memr_size nr /\
  nr <= 64 * Z.of_nat (Z.to_nat ((memr_size nr - SIZEOF_MEMR) / 8)).
Proof.
  intros Hn. unfold memr_size, SIZEOF_MEMR. rewrite round_pgup_eq by divlia. split_and!; divlia.
Qed.

(** A new region whose pages have all been marked free. *)
Lemma filling_start b L r :
  buddy_inv b L None -> region_wf r -> 0 < nr_pages r ->
  (forall k r', memr_head b !! k = Some r' -> end_page r' < first_page r \/ end_page r < first_page r') ->
  (forall k, 0 <= k -> page_bit (mm_alloc_bitmap r) k = true) ->
  let b1 := set_memr (r :: memr_head b) b in
  exists b2, map_free (first_page r) (nr_pages r) b1 = Ok (tt, b2) /\
    filling b2 L (first_page r) (nr_pages r) /\
    nr_free_pages b2 = u64 (nr_free_pages b + nr_pages r) /\
    forall va, page_free (memr_head b2) va =
      page_free (memr_head b) va || (first_page r <=? va) && (va <? end_page r).
Proof.
  intros Hinv Hr Hnr Hnew Hbits b1. pose proof (buddy_inv_region b L r Hinv Hr Hnew Hbits) as I1. fold b1 in I1.
  assert (Hsp : span_in (memr_head b1) (first_page r) (nr_pages r)) by (exists O, r; split; [done|unfold end_page; lia]).
  assert (Hpf : forall va, page_free (memr_head b1) va = page_free (memr_head b) va)
    by (intros va; apply page_free_cons; [apply I1|done]).
  destruct (map_free_spec (first_page r) (nr_pages r) b1 (bi_regions _ _ _ I1) Hsp (proj1 Hr) Hnr) as (rs' & E2 & R2 & Sh2 & St2).
  eexists. split; [exact E2|].
  assert (Hold : forall j x, 0 <= j < FREELIST_SIZE -> x ∈ L j -> x + blk j < first_page r \/ end_page r < x).
  { intros j x Hj Hx. destruct (co_span _ _ (bi_chunks _ _ _ Hinv) j x (held_In L None j x Hj Hx)) as (k & q & Hk & Q1 & Q2).
    fold (blk j) in Q2. destruct (Hnew k q Hk); lia. }
  split; [|split; [done|]].
  - split; try apply I1; try done.
    + apply (partial_ok_start (memr_head b1) rs'); [apply I1|done|done|].
      intros va Hva. rewrite (page_free_at _ va O r (bi_regions _ _ _ I1) eq_refl) by (unfold end_page; lia).
      by rewrite Hbits by (apply Z.div_pos; lia).
    + intros j Hj Hx. pose proof (blk_pos j ltac:(lia)). destruct (Hold j _ Hj Hx); unfold end_page in *; lia.
    + intros j Hj Hx. pose proof (blk_pos j ltac:(lia)). destruct (Hold j _ Hj Hx); unfold end_page in *; lia.
    + apply Hr.
    + by eapply same_shape_span.
  - intros va. simpl. rewrite St2, Hpf. unfold end_page.
    by destruct ((first_page r <=? va) && _), (page_free _ va).
Qed.

(** Adding memory: for a range in which the page count computed for the bitmap
    is the number of pages left after the descriptor, [bbuddy_addmem] succeeds
    and makes exactly these pages free in addition to the ones that were. *)
Lemma addmem_ok b L base len :
  let min := round_pgup base in
  let max := round_pgdown (base + len) in
  let nr := memr_nr_pages (max - min) in
  let first := min + memr_size nr in
  buddy_inv b L None -> 0 < base -> 0 <= len -> base + len + 4096 <= 2 ^ 64 ->
  8192 <= max - min -> first + 4096 * nr = max -> 0 < nr ->
  (forall k r, memr_head b !! k = Some r -> end_page r <= min \/ max < first_page r) ->
  exists b' L', bbuddy_addmem base len b = Ok (0, b') /\ buddy_inv b' L' None /\
    (forall va, page_free (memr_head b') va = page_free (memr_head b) va || (first <=? va) && (va <? max)) /\
    nr_free_pages b' = u64 (nr_free_pages b + nr).
Proof.
  intros min max nr first Hinv Hb Hlen Hw Hrange Hfit Hnr Hapart. unfold bbuddy_addmem.
  assert (u64 (base + len) = base + len) as -> by (apply Z.mod_small; lia). fold min max.
  assert (Hmin : min = 4096 * ((base + 4095) / 4096)) by (apply round_pgup_eq; lia).
  assert (Hmax : max = 4096 * ((base + len) / 4096)) by apply round_pgdown_eq.
  assert (0 < min /\ max < 2 ^ 64) as [Hm1 Hm2] by divlia.
  rewrite (bind_ret _ _ _ tt b) by (unfold uk_assert; by replace (base =? 0) with false by lia).
  replace (max <? min) with false by lia.
  replace (max - min <? round_pgup (SIZEOF_MEMR + 8) + PAGE_SIZE) with false
    by (change (round_pgup (SIZEOF_MEMR + 8) + PAGE_SIZE) with 8192; lia).
  fold nr. fold first. assert (nr < 2 ^ 52).
  { subst nr. unfold memr_nr_pages, u64, PAGE_SIZE. apply Z.div_lt_upper_bound; [lia|].
    pose proof (Z.mod_pos_bound (8 * (max - min - SIZEOF_MEMR)) (2 ^ 64)). lia. }
  destruct (memr_size_ok nr ltac:(lia)) as (S1 & S2 & S3).
  set (bm := replicate _ _). set (r := Memr first nr (memr_size nr - SIZEOF_MEMR) bm).
  assert (Hfirst : first mod 4096 = 0) by (subst first; rewrite Hmin in *; clear -S1; divlia).
  assert (region_wf r) as Hr.
  { unfold region_wf, end_page. simpl. unfold bm. rewrite length_replicate.
    split_and!; [done| | | |exact S3]; clear -Hm1 Hm2 S2 Hfit Hnr; subst first; lia. }
  rewrite (bind_ret _ _ _ tt _) by (by apply modify_ok).
  destruct (filling_start b L r Hinv Hr Hnr) as (b2 & E2 & F2 & N2 & P2).
  { intros k r' Hk. unfold end_page at 2. simpl. destruct (Hapart k r' Hk); lia. }
  { intros. by apply page_bit_full. }
  simpl in E2. rewrite (bind_ret _ _ _ _ _ E2).
  replace (max - min - memr_size nr) with (4096 * nr) by lia.
  destruct (add_chunks_inv (Z.to_nat (4096 * nr / PAGE_SIZE)) b2 L first nr F2) as (b3 & L3 & E3 & [M3 N3] & I3);
    [unfold PAGE_SIZE; divlia|done|].
  rewrite (bind_ret _ _ _ _ _ E3). exists b3, L3. split; [done|]. split; [done|]. rewrite M3, N3. split; [|done].
  intros va. rewrite P2. unfold end_page. simpl. by rewrite Hfit.
Qed.

(** ** Correctness *)

Definition well_formed (b : uk_bbpalloc) : Prop := exists L, buddy_inv b L None.

(** An aligned run of free pages lies in one free chunk. *)
Lemma free_run_chunk rs L X o : forall x,
  chunks_ok rs (held L X) -> X = None -> coalesced L -> 0 <= o -> (blk o | x) ->
  (forall va, covers o x va -> page_free rs va = true) ->
  exists i a, o <= i /\ held L X i a /\ covers i a x.
Proof.
  intros x Hc -> Hco Ho. revert x. pattern o. apply natlike_ind; [| |done]; clear o Ho.
  - intros x _ Hf. destruct (proj1 (co_free _ _ Hc x)) as (i & a & Ha & V).
    { apply Hf. unfold covers. pose proof (blk_pos 0). lia. }
    exists i, a. split; [|done]. pose proof (co_order _ _ Hc _ _ Ha). lia.
  - intros j Hj IH x Hx Hf. rewrite <- Z.add_1_r in *. pose proof (blk_succ j Hj) as Hb. pose proof (blk_pos j Hj).
    assert (blk j | x) as Hx0 by (etrans; [apply (blk_divide j (j + 1)); lia|done]).
    destruct (IH x Hx0) as (i1 & a1 & Hi1 & H1 & V1); [intros va V; apply Hf; unfold covers in *; lia|].
    destruct (decide (j + 1 <= i1)) as [|Hlt]; [by exists i1, a1|]. assert (i1 = j) as -> by lia.
    assert (a1 = x) as -> by (symmetry; apply (multiple_unique (blk j)); [by apply (co_align _ _ Hc)|done|exact V1]).
    destruct (IH (x + blk j)) as (i2 & a2 & Hi2 & H2 & V2);
      [apply Z.divide_add_r; [done|reflexivity]|intros va V; apply Hf; unfold covers in *; lia|].
    exfalso. destruct (decide (j + 1 <= i2)) as [Hge|Hlt2].
    + pose proof (co_align _ _ Hc _ _ H2) as Ha2. unfold covers in V2.
      assert (a2 <= x).
      { destruct (decide (a2 <= x)); [done|]. assert (blk (j + 1) | a2) by (etrans; [apply (blk_divide _ i2); lia|done]).
        pose proof (multiple_next (blk (j + 1)) x a2 Hx ltac:(done) ltac:(lia)). lia. }
      destruct (co_unique _ _ Hc i2 a2 j x x H2 H1); unfold covers; lia.
    + assert (i2 = j) as -> by lia.
      assert (x + blk j = a2) as <- by (apply (multiple_unique (blk j)); [by apply (co_align _ _ Hc)|apply Z.divide_add_r; [done|reflexivity]|exact V2]).
      destruct H1 as [[Hj1 H1]|?]; [|done]. destruct H2 as [[_ H2]|?]; [|done].
      destruct (Hco j x Hj1 H1) as [Hl _]. by apply Hl.
Qed.

(** C9. Page allocation is correct: in a well-formed allocator a request for [n] pages
    returns. It fails, changing nothing, only if no aligned run of free pages of the
    request's order exists; otherwise it returns an aligned run of at least [n] pages
    inside one region, all of them free before and allocated afterwards, leaves the
    status of all other pages alone, counts the pages, and keeps the allocator
    well-formed. Requests are for 1 to 2^52 pages. *)
Theorem palloc_correct b n :
  well_formed b -> 1 <= n <= 2 ^ 52 ->
  let o := Z.log2_up n in
  exists r b', bbuddy_palloc n b = Ok (r, b') /\ well_formed b' /\
    match r with
    | None => b' = b /\ forall x, (blk o | x) -> ~ forall va, covers o x va -> page_free (memr_head b) va = true
    | Some a =>
        n <= 2 ^ o /\ (blk o | a) /\ span_in (memr_head b) a (2 ^ o) /\
        (forall va, covers o a va -> page_free (memr_head b) va = true) /\
        run_status (memr_head b) (memr_head b') a (2 ^ o) false /\
        same_shape (memr_head b) (memr_head b') /\
        nr_free_pages b' = u64 (nr_free_pages b - 2 ^ o)
    end.
Proof.
  intros [L Hinv] Hn o. destruct (palloc_ok b L n Hinv Hn) as (r & b' & L' & H & I & Hr).
  exists r, b'. split; [done|]. split; [by exists L'|]. destruct r as [a|]; [done|].
  destruct Hr as [-> He]. split; [done|]. intros x Hx Hfree.
  destruct (free_run_chunk _ L None o x (bi_chunks _ _ _ Hinv) eq_refl (bi_coalesced _ _ _ Hinv)
              (Z.log2_up_nonneg n) Hx Hfree) as (i & a & Hi & [[Hio Ha]|?] & _); [|done].
  rewrite He in Ha by (subst o; lia). by apply elem_of_nil in Ha.
Qed.

(** C16. Page release is correct: releasing an allocated, aligned run of the order that
    its page count asks for returns, marks exactly these pages free, counts them, and
    keeps the allocator well-formed (lists consistent with the bitmap, chunks disjoint,
    free buddies merged). The run is of 1 to 2^51 pages. *)
Theorem pfree_correct b obj n :
  well_formed b -> 1 <= n <= 2 ^ 51 ->
  let o := Z.log2_up n in
  (blk o | obj) -> span_in (memr_head b) obj (2 ^ o) ->
  (forall va, covers o obj va -> page_free (memr_head b) va = false) ->
  exists b', bbuddy_pfree obj n b = Ok (tt, b') /\ well_formed b' /\
    run_status (memr_head b) (memr_head b') obj (2 ^ o) true /\
    same_shape (memr_head b) (memr_head b') /\
    nr_free_pages b' = u64 (nr_free_pages b + 2 ^ o).
Proof.
  intros [L Hinv] Hn o Hal Hsp Hno. destruct (pfree_ok b L obj n Hinv Hn Hal Hsp Hno) as (b' & L' & H & I & Hr).
  exists b'. split; [done|]. split; [by exists L'|done].
Qed.

(** ** Runs of a program that uses the allocator

    [live] maps the addresses of the allocations the program holds to their
    orders.  It may write anything into them. *)
Definition bstate : Type := uk_bbpalloc * gmap Z Z.

Inductive buddy_step : bstate -> bstate -> Prop :=
| step_palloc b live n a b' :
    1 <= n <= 2 ^ 51 -> bbuddy_palloc n b = Ok (Some a, b') ->
    buddy_step (b, live) (b', <[a := Z.log2_up n]> live)
| step_palloc_fail b live n b' :
    1 <= n <= 2 ^ 51 -> bbuddy_palloc n b = Ok (None, b') -> buddy_step (b, live) (b', live)
| step_pfree b live n a b' :
    1 <= n <= 2 ^ 51 -> live !! a = Some (Z.log2_up n) -> bbuddy_pfree a n b = Ok (tt, b') ->
    buddy_step (b, live) (b', delete a live)
| step_write b live o a x c :
    live !! a = Some o -> covers o a x ->
    buddy_step (b, live) (set_heads (<[x := c]> (heads b)) b, live)
| step_write_tail b live o a x v :
    live !! a = Some o -> covers o a x ->
    buddy_step (b, live) (set_tails (<[x := v]> (tails b)) b, live).

Record sys_ok (s : bstate) : Prop := {
  so_wf : well_formed s.1;
  so_live : forall a o, s.2 !! a = Some o ->
    0 <= o < FREELIST_SIZE /\ (blk o | a) /\ span_in (memr_head s.1) a (2 ^ o) /\
    forall va, covers o a va -> page_free (memr_head s.1) va = false;
  so_apart : forall a o a' o' va, s.2 !! a = Some o -> s.2 !! a' = Some o' ->
    covers o a va -> covers o' a' va -> a = a'
}.

Lemma palloc_sys b live n a b' :
  sys_ok (b, live) -> 1 <= n <= 2 ^ 51 -> bbuddy_palloc n b = Ok (Some a, b') ->
  sys_ok (b', <[a := Z.log2_up n]> live).
Proof.
  intros [[L Hinv] Hlive Hap] Hn H. simpl in *.
  destruct (palloc_ok b L n Hinv ltac:(lia)) as (r & b1 & L1 & E & I & Hr). rewrite H in E. injection E as <- <-.
  destruct Hr as (_ & Hal & Hsp & Hfree & Hst & Hsh & _). set (o := Z.log2_up n) in *.
  assert (Ho : 0 <= o < FREELIST_SIZE).
  { split; [apply Z.log2_up_nonneg|]. eapply span_in_order; [apply Hinv|apply Z.log2_up_nonneg|done]. }
  split; simpl.
  - by exists L1.
  - intros x ox. destruct (decide (x = a)) as [->|Hne].
    + rewrite lookup_insert_eq. intros [= <-]. split_and!; try done; try lia; [by eapply same_shape_span|].
      intros va V. rewrite Hst. fold (blk o). unfold covers in V. by replace ((a <=? va) && (va <? a + blk o)) with true by lia.
    + rewrite lookup_insert_ne by done. intros Hx. destruct (Hlive x ox Hx) as (A & B & C & D).
      split_and!; try done; try lia; [by eapply same_shape_span|]. intros va V. rewrite Hst, D by done. by destruct (_ && _).
  - intros x ox y oy va Hx Hy Vx Vy.
    assert (Hnew : forall z oz, live !! z = Some oz -> covers oz z va -> covers o a va -> False).
    { intros z oz Hz Vz Va%Hfree. destruct (Hlive z oz Hz) as (_ & _ & _ & D). rewrite D in Va; done. }
    apply lookup_insert_Some in Hx as [[<- <-]|[_ Hx]]; apply lookup_insert_Some in Hy as [[<- <-]|[_ Hy]].
    + done.
    + destruct (Hnew y oy Hy Vy Vx).
    + destruct (Hnew x ox Hx Vx Vy).
    + by eapply Hap.
Qed.

Lemma pfree_sys b live n a b' :
  sys_ok (b, live) -> 1 <= n <= 2 ^ 51 -> live !! a = Some (Z.log2_up n) ->
  bbuddy_pfree a n b = Ok (tt, b') -> sys_ok (b', delete a live).
Proof.
  intros [[L Hinv] Hlive Hap] Hn Ha H. simpl in *. destruct (Hlive a _ Ha) as (Ho & Hal & Hsp & Hno).
  destruct (pfree_ok b L a n Hinv Hn Hal Hsp Hno) as (b1 & L1 & E & I & Hst & Hsh & _).
  rewrite H in E. injection E as <-. set (o := Z.log2_up n) in *. split; simpl.
  - by exists L1.
  - intros x ox [Hne Hx]%lookup_delete_Some. destruct (Hlive x ox Hx) as (A & B & C & D).
    split_and!; try done; try lia; [by eapply same_shape_span|]. intros va V. rewrite Hst, D by done. fold (blk o).
    destruct ((a <=? va) && (va <? a + blk o)) eqn:E; [|done]. exfalso. apply Hne.
    apply (Hap a o x ox va); try done. unfold covers. lia.
  - intros x ox y oy va [_ Hx]%lookup_delete_Some [_ Hy]%lookup_delete_Some. by eapply Hap.
Qed.

(** Writing into a live allocation does not reach the allocator's lists. *)
Lemma write_sys b live a o x c :
  sys_ok (b, live) -> live !! a = Some o -> covers o a x ->
  sys_ok (set_heads (<[x := c]> (heads b)) b, live).
Proof.
  intros [[L Hinv] Hlive Hap] Ha V. simpl in *. destruct (Hlive a o Ha) as (_ & _ & _ & Hno).
  assert (Hx : forall j y, 0 <= j < FREELIST_SIZE -> y ∈ L j -> y <> x).
  { intros j y Hj Hy ->. assert (page_free (memr_head b) x = true) as Hf.
    { apply (co_free _ _ (bi_chunks _ _ _ Hinv)). exists j, x. split; [by apply held_In|].
      unfold covers. pose proof (blk_pos j). lia. }
    rewrite Hno in Hf; done. }
  split; [|done|done]. exists L. destruct Hinv as [I1 I2 I3 I4 I5]. split; try done.
  intros j Hj. destruct (I2 j Hj) as (Hnd & Hn & Hfh & Hft). split; [done|]. split; [|done].
  eapply nodes_ok_frame; [|exact Hn]. intros y Hy. simpl. apply lookup_insert_ne. intros ->. by apply (Hx j y).
Qed.

Lemma buddy_step_ok s s' : sys_ok s -> buddy_step s s' -> sys_ok s'.
Proof.
  intros Hok Hst. destruct Hst as [b live n a b' Hn H|b live n b' Hn H|b live n a b' Hn Ha H|b live o a x c Ha V|b live o a x v Ha V].
  - by eapply palloc_sys.
  - pose proof (so_wf _ Hok) as [L Hinv]. destruct (palloc_ok b L n Hinv ltac:(lia)) as (r & b1 & L1 & E & _ & Hr).
    rewrite H in E. injection E as <- <-. by destruct Hr as [-> _].
  - by eapply pfree_sys.
  - by eapply write_sys.
  - destruct Hok as [[L [I1 I2 I3 I4 I5]] Hlive Hap]. split; [|done|done]. by exists L.
Qed.

Lemma sys_ok_start b : well_formed b -> sys_ok (b, ∅).
Proof.
  intros Hwf. split; [done|intros a o H|intros a o a' o' va H]; simpl in H; by rewrite lookup_empty in H.
Qed.

(** C3. Allocator safety over whole runs: from a well-formed allocator without live
    allocations, after any sequence of allocations, releases of live allocations and
    arbitrary writes into live allocations, the live allocations are pairwise disjoint
    and made of allocated pages only, and every further request and every release of a
    live allocation returns. Requests and releases are for 1 to 2^51 pages. *)
Theorem buddy_runs_safe b s :
  well_formed b -> rtc buddy_step (b, ∅) s ->
  (forall a o a' o' va, s.2 !! a = Some o -> s.2 !! a' = Some o' ->
     covers o a va -> covers o' a' va -> a = a') /\
  (forall a o va, s.2 !! a = Some o -> covers o a va -> page_free (memr_head s.1) va = false) /\
  (forall n, 1 <= n <= 2 ^ 51 -> exists r b', bbuddy_palloc n s.1 = Ok (r, b')) /\
  (forall n a, 1 <= n <= 2 ^ 51 -> s.2 !! a = Some (Z.log2_up n) -> exists b', bbuddy_pfree a n s.1 = Ok (tt, b')).
Proof.
  intros Hwf Hrun. assert (sys_ok s) as Hok.
  { pose proof (sys_ok_start b Hwf) as H0.
    induction Hrun as [|x y z Hs _ IH]; [done|]. apply IH. by eapply buddy_step_ok. }
  destruct Hok as [[L Hinv] Hlive Hap]. split; [done|]. split; [intros a o va Ha; by apply (Hlive a o)|]. split.
  - intros n Hn. destruct (palloc_ok _ L n Hinv ltac:(lia)) as (r & b' & _ & H & _). eauto.
  - intros n a Hn Ha. destruct (Hlive a _ Ha) as (_ & Hal & Hsp & Hno).
    destruct (pfree_ok _ L a n Hinv Hn Hal Hsp Hno) as (b' & _ & H & _). eauto.
Qed.

(** Round trip: a page request that succeeds can be released again, and then
    every page has the status, and the allocator the page count, it had before. *)
Theorem palloc_pfree_roundtrip b n a b1 :
  well_formed b -> 1 <= n <= 2 ^ 51 -> 0 <= nr_free_pages b < 2 ^ 64 ->
  bbuddy_palloc n b = Ok (Some a, b1) ->
  exists b2, bbuddy_pfree a n b1 = Ok (tt, b2) /\ nr_free_pages b2 = nr_free_pages b /\
    forall va, page_free (memr_head b2) va = page_free (memr_head b) va.
Proof.
  intros [L Hinv] Hn Hcount H. destruct (palloc_ok b L n Hinv ltac:(lia)) as (r & b' & L' & E & I & Hr).
  rewrite H in E. injection E as <- <-. destruct Hr as (_ & Hal & Hsp & Hfree & Hst & Hsh & Hnr).
  set (o := Z.log2_up n) in *.
  destruct (pfree_ok b1 L' a n I Hn Hal) as (b2 & L2 & H2 & _ & Hst2 & _ & Hnr2).
  { by eapply same_shape_span. }
  { intros va V. rewrite Hst. fold (blk o). fold o in V. unfold covers in V. by replace ((a <=? va) && (va <? a + blk o)) with true by lia. }
  exists b2. split; [done|]. split.
  - rewrite Hnr2, Hnr. unfold u64. rewrite Zplus_mod_idemp_l. fold o. rewrite Z.sub_add. by apply Z.mod_small.
  - intros va. rewrite Hst2, Hst. fold o. fold (blk o).
    destruct ((a <=? va) && (va <? a + blk o)) eqn:E; [|done]. symmetry. apply Hfree. unfold covers. lia.
Qed.

(** ** Setup *)

Lemma buddy_inv_empty : buddy_inv bbpalloc_empty (fun _ => []) None.
Proof.
  assert (Hhead : forall i, 0 <= i < FREELIST_SIZE -> arr_at (free_head bbpalloc_empty) i = Some (PTail i)).
  { intros i Hi. unfold arr_at, bbpalloc_empty. cbn [free_head]. replace (0 <=? i) with true by lia.
    rewrite list_lookup_fmap, lookup_seqZ_lt by lia. simpl. f_equal. f_equal. lia. }
  assert (Htail : forall i, 0 <= i < FREELIST_SIZE -> arr_at (free_tail bbpalloc_empty) i = Some (Chunk PNull (LHead i) 0)).
  { intros i Hi. unfold arr_at, bbpalloc_empty. cbn [free_tail]. replace (0 <=? i) with true by lia.
    rewrite list_lookup_fmap, lookup_seqZ_lt by lia. simpl. f_equal. f_equal. f_equal. lia. }
  split.
  - split; intros; done.
  - intros i Hi. split; [constructor|]. split; [intros [|] ? ? [=]|]. split; [by apply Hhead|].
    eexists. split; [by apply Htail|done].
  - assert (forall i a, ~ held (fun _ => []) None i a) as Hno by (intros i a [[_ Ha]|?]; [by apply elem_of_nil in Ha|done]).
    split; try (intros i a; intros; by destruct (Hno i a)). intros va. split; [done|].
    intros (i & a & Ha & _). by destruct (Hno i a).
  - done.
  - intros i a _ Ha. by apply elem_of_nil in Ha.
Qed.

(** Setup is correct: for a memory range in which the page count computed
    for the bitmap fits, [uk_allocbbuddy_init] yields a well-formed allocator
    whose free pages are exactly the ones behind its descriptors. *)
Theorem init_correct base len :
  let min := round_pgup base in
  let max := round_pgdown (base + len) in
  let range := max - min - 8192 in
  let nr := memr_nr_pages range in
  let first := min + 8192 + memr_size nr in
  0 <= base -> 0 <= len -> base + len + 4096 <= 2 ^ 64 -> 8192 <= range -> first + 4096 * nr = max ->
  exists b, uk_allocbbuddy_init base len = Ok (Some b) /\ well_formed b /\ nr_free_pages b = nr /\
    forall va, page_free (memr_head b) va = (first <=? va) && (va <? max).
Proof.
  intros min max range nr first Hb Hlen Hw Hrange Hfit. unfold uk_allocbbuddy_init.
  assert (u64 (base + len) = base + len) as -> by (apply Z.mod_small; lia). fold min max.
  assert (Hmin : min = 4096 * ((base + 4095) / 4096)) by (apply round_pgup_eq; lia).
  assert (Hmax : max = 4096 * ((base + len) / 4096)) by apply round_pgdown_eq.
  assert (0 <= min /\ max < 2 ^ 64) as [Hm1 Hm2] by divlia.
  change (round_pgup SIZEOF_ALLOCATOR) with 4096. replace (min <? max) with true by lia. cbn [negb].
  unfold u64 at 1 2. rewrite !Z.mod_small by lia.
  replace (max <? min + 4096) with false by lia. replace (min + 4096 + 4096 <? max) with true by lia.
  assert (H1 : round_pgup (min + 4096 + 4096) = min + 8192) by (rewrite round_pgup_eq by lia; divlia).
  assert (H2 : round_pgdown (min + 4096 + 4096 + (max - (min + 4096) - 4096)) = max) by (rewrite round_pgdown_eq; divlia).
  assert (0 <= nr < 2 ^ 52) as Hnr.
  { subst nr. unfold memr_nr_pages, u64, PAGE_SIZE.
    pose proof (Z.mod_pos_bound (8 * (range - SIZEOF_MEMR)) (2 ^ 64)).
    split; [apply Z.div_pos; lia|apply Z.div_lt_upper_bound; lia]. }
  assert (nr <> 0) by (intros E; subst first; rewrite E in Hfit; change (memr_size 0) with 4096 in Hfit; lia).
  destruct (addmem_ok bbpalloc_empty (fun _ => []) (min + 4096 + 4096) (max - (min + 4096) - 4096)) as (b & L & E & I & P & N);
    rewrite ?H1, ?H2; replace (max - (min + 8192)) with range by lia; try (done || lia).
  { exact buddy_inv_empty. }
  rewrite E. exists b. split; [done|]. split; [by exists L|]. rewrite H1, H2 in N, P.
  replace (max - (min + 8192)) with range in N, P by lia. split; [|exact P].
  rewrite N. simpl. apply Z.mod_small. lia.
Qed.

(** The page count of [bbuddy_addmem] can disagree with the pages it puts
    into the free lists: for a range of 32452 pages the bitmap covers one page
    less than the lists, and an ordinary request for four pages that hits the
    last chunk fails an assertion instead of returning. *)
Theorem addmem_page_count_mismatch :
  exists b, uk_allocbbuddy_init 4194304 (32452 * 4096) = Ok (Some b) /\
    nr_free_pages b = 32448 /\ bbuddy_palloc 4 b = Abort.
Proof. eexists. split; [vm_compute; reflexivity|]. split; vm_compute; reflexivity. Qed.

(** ** A concrete allocator with 15 pages *)

Definition demo_buddy : uk_bbpalloc :=
  match bbuddy_addmem 4194304 65536 bbpalloc_empty with Ok (_, b) => b | _ => bbpalloc_empty end.

Lemma demo_buddy_wf : well_formed demo_buddy.
Proof.
  destruct (addmem_ok bbpalloc_empty (fun _ => []) 4194304 65536) as (b & L & E & I & _);
    [exact buddy_inv_empty|vm_compute; (reflexivity || discriminate)..|done|].
  unfold demo_buddy. rewrite E. by exists L.
Qed.

(** A request for more than 2^52 pages has an order above the number of lists:
    the search loop ends with [i <> FREELIST_SIZE] and [free_head] is read out
    of bounds. *)
Lemma palloc_order_out_of_bounds : bbuddy_palloc (2 ^ 52 + 1) demo_buddy = Undef.
Proof. vm_compute. reflexivity. Qed.

Lemma palloc_correct_witness :
  exists r b', bbuddy_palloc 3 demo_buddy = Ok (r, b') /\ well_formed b' /\
    match r with
    | None => b' = demo_buddy /\ forall x, (blk 2 | x) -> ~ forall va, covers 2 x va -> page_free (memr_head demo_buddy) va = true
    | Some a =>
        3 <= 2 ^ 2 /\ (blk 2 | a) /\ span_in (memr_head demo_buddy) a (2 ^ 2) /\
        (forall va, covers 2 a va -> page_free (memr_head demo_buddy) va = true) /\
        run_status (memr_head demo_buddy) (memr_head b') a (2 ^ 2) false /\
        same_shape (memr_head demo_buddy) (memr_head b') /\
        nr_free_pages b' = u64 (nr_free_pages demo_buddy - 2 ^ 2)
    end.
Proof.
  pose proof (palloc_correct demo_buddy 3 demo_buddy_wf ltac:(lia)) as H.
  change (Z.log2_up 3) with 2 in H. exact H.
Defined.

(** The allocator after a request for three pages, and what was returned. *)
Definition demo_buddy1 : uk_bbpalloc :=
  match bbuddy_palloc 3 demo_buddy with Ok (_, b) => b | _ => demo_buddy end.

Lemma demo_palloc : bbuddy_palloc 3 demo_buddy = Ok (Some 4210688, demo_buddy1).
Proof. vm_compute. reflexivity. Qed.

Lemma demo_step : buddy_step (demo_buddy, ∅) (demo_buddy1, <[4210688 := 2]> ∅).
Proof. apply (step_palloc demo_buddy ∅ 3); [lia|exact demo_palloc]. Qed.

Lemma demo_sys : sys_ok (demo_buddy1, <[4210688 := 2]> ∅).
Proof.
  eapply (buddy_step_ok (demo_buddy, ∅)); [apply sys_ok_start; exact demo_buddy_wf|exact demo_step].
Qed.

Lemma pfree_correct_witness :
  exists b', bbuddy_pfree 4210688 3 demo_buddy1 = Ok (tt, b') /\ well_formed b' /\
    run_status (memr_head demo_buddy1) (memr_head b') 4210688 (2 ^ 2) true /\
    same_shape (memr_head demo_buddy1) (memr_head b') /\
    nr_free_pages b' = u64 (nr_free_pages demo_buddy1 + 2 ^ 2).
Proof.
  destruct (so_live _ demo_sys 4210688 2) as (_ & Hal & Hsp & Hno); [reflexivity|].
  pose proof (pfree_correct demo_buddy1 4210688 3 (so_wf _ demo_sys) ltac:(lia)) as H.
  change (Z.log2_up 3) with 2 in H. exact (H Hal Hsp Hno).
Defined.

Lemma buddy_runs_safe_witness :
  exists s, rtc buddy_step (demo_buddy, ∅) s /\ s.2 !! 4210688 = Some 2 /\
  (forall a o a' o' va, s.2 !! a = Some o -> s.2 !! a' = Some o' ->
     covers o a va -> covers o' a' va -> a = a') /\
  (forall a o va, s.2 !! a = Some o -> covers o a va -> page_free (memr_head s.1) va = false) /\
  (forall n, 1 <= n <= 2 ^ 51 -> exists r b', bbuddy_palloc n s.1 = Ok (r, b')) /\
  (forall n a, 1 <= n <= 2 ^ 51 -> s.2 !! a = Some (Z.log2_up n) -> exists b', bbuddy_pfree a n s.1 = Ok (tt, b')).
Proof.
  exists (demo_buddy1, <[4210688 := 2]> ∅). split; [apply rtc_once; exact demo_step|]. split; [reflexivity|].
  apply (buddy_runs_safe demo_buddy); [exact demo_buddy_wf|apply rtc_once; exact demo_step].
Defined.

Lemma palloc_pfree_roundtrip_witness :
  exists b2, bbuddy_pfree 4210688 3 demo_buddy1 = Ok (tt, b2) /\ nr_free_pages b2 = nr_free_pages demo_buddy /\
    forall va, page_free (memr_head b2) va = page_free (memr_head demo_buddy) va.
Proof.
  apply (palloc_pfree_roundtrip demo_buddy 3 4210688);
    [exact demo_buddy_wf|lia|vm_compute; split; [discriminate|reflexivity]|exact demo_palloc].
Defined.

Lemma init_correct_witness :
  exists b, uk_allocbbuddy_init 4194304 (64 * 4096) = Ok (Some b) /\ well_formed b /\ nr_free_pages b = 61 /\
    forall va, page_free (memr_head b) va = (4206592 <=? va) && (va <? 4456448).
Proof. apply (init_correct 4194304 (64 * 4096)); vm_compute; (reflexivity || discriminate). Defined.
