(* ===== verification/Alloc.v ===== *)
(** The allocator interface of ukalloc (unikraft/lib/ukalloc/alloc.c and
    include/uk/alloc_impl.h): the list of registered allocators and the
    malloc family on top of a page allocator.

    Objects carry a small record (page count and base of their page run) at the
    start of the page they begin in, or of the page before.  The client side is
    proved against the interface [PageAlloc]; the buddy allocator implements
    it. *)
From S2P Require Import Prelude BuddyMap BuddyList Bbuddy.
From stdpp Require Import base numbers gmap list.
#[local] Open Scope Z_scope.

(** ** Registered allocators

    [next] fields by allocator address; 0 is NULL. *)
Record alloc_list := AllocList { uk_alloc_head : Z; a_next : gmap Z Z }.

(** The walk to the last element of the list; [fuel] bounds its length. *)
Fixpoint list_last (fuel : nat) (this : Z) (nx : gmap Z Z) : outcome Z :=
  match fuel with
  | O => Spin
  | S f =>
      match nx !! this with
      | None => Undef
      | Some n => if n =? 0 then Ok this else list_last f n nx
      end
  end.

Definition uk_alloc_register (a : Z) : M alloc_list Z := fun s =>
  if uk_alloc_head s =? 0 then Ok (0, AllocList a (<[a := 0]> (a_next s))) else
  this ← list_last (S (size (a_next s))) (uk_alloc_head s) (a_next s);
  Ok (0, AllocList (uk_alloc_head s) (<[a := 0]> (<[this := a]> (a_next s)))).

(** The search loop of [uk_alloc_set_default]: the predecessor of [a]. *)
Fixpoint list_pred (fuel : nat) (a this : Z) (nx : gmap Z Z) : outcome (option Z) :=
  match fuel with
  | O => Spin
  | S f =>
      match nx !! this with
      | None => Undef
      | Some n => if n =? 0 then Ok None else if a =? n then Ok (Some this) else list_pred f a n nx
      end
  end.

Definition uk_alloc_set_default (a : Z) : M alloc_list Z := fun s =>
  let head := uk_alloc_head s in
  if a =? head then Ok (0, s) else
  if head =? 0 then Ok (0, AllocList a (a_next s)) else
  r ← list_pred (S (size (a_next s))) a head (a_next s);
  match r with
  | Some prev =>
      match a_next s !! a with
      | None => Undef
      | Some an =>
          let nx1 := <[prev := an]> (a_next s) in
          match nx1 !! head with
          | None => Undef
          | Some hn => Ok (0, AllocList (uk_alloc_head s) (<[a := hn]> nx1))
          end
      end
  | None => Ok (0, AllocList a (<[a := head]> (a_next s)))
  end.

(** ** Page allocators *)

(** A page allocator with state [P]; [pa_ok s runs] relates the state to the
    page runs that are handed out (address and number of pages asked for). *)
Class PageAlloc (P : Type) := {
  pa_palloc : Z -> M P (option Z);
  pa_pfree : Z -> Z -> M P unit;
  pa_ok : P -> gmap Z Z -> Prop;
  pa_palloc_spec s runs n : pa_ok s runs -> 1 <= n <= 2 ^ 51 ->
    exists r s', pa_palloc n s = Ok (r, s') /\
      match r with
      | None => pa_ok s' runs
      | Some a => runs !! a = None /\ pa_ok s' (<[a := n]> runs)
      end;
  pa_pfree_spec s runs a n : pa_ok s runs -> runs !! a = Some n ->
    exists s', pa_pfree a n s = Ok (tt, s') /\ pa_ok s' (delete a runs);
  pa_run s runs a n : pa_ok s runs -> runs !! a = Some n ->
    0 < a /\ a mod 4096 = 0 /\ 1 <= n <= 2 ^ 51 /\ a + 4096 * n < 2 ^ 64;
  pa_apart s runs a n a' n' : pa_ok s runs -> runs !! a = Some n -> runs !! a' = Some n' -> a <> a' ->
    a + 4096 * n <= a' \/ a' + 4096 * n' <= a
}.

(** ** Operations *)

Definition SIZEOF_METADATA : Z := 16.
Definition METADATA_IFPAGES_SIZE_POW2 : Z := 16.
Definition ENOMEM : Z := 12.

Definition ALIGN_UP (v a : Z) : Z := Z.ldiff (u64 (v + a - 1)) (a - 1).
Definition ALIGN_DOWN (v a : Z) : Z := Z.ldiff v (a - 1).
Definition size_to_num_pages (size : Z) : Z := ALIGN_UP size PAGE_SIZE / PAGE_SIZE.

Record metadata_ifpages := Metadata { md_num_pages : Z; md_base : Z }.

(** The page allocator, the metadata records in memory and the bytes of the
    objects. *)
Record astate (P : Type) := AState { a_pages : P; a_meta : gmap Z metadata_ifpages; a_bytes : Z -> Z }.
Arguments AState {P} _ _ _.
Arguments a_pages {P} _.
Arguments a_meta {P} _.
Arguments a_bytes {P} _.

Definition memcpy (f : Z -> Z) (dst src n : Z) : Z -> Z :=
  fun x => if (dst <=? x) && (x <? dst + n) then f (src + (x - dst)) else f x.
Definition memset (f : Z -> Z) (dst v n : Z) : Z -> Z :=
  fun x => if (dst <=? x) && (x <? dst + n) then v else f x.

Definition uk_get_metadata (ptr : Z) : outcome Z :=
  if ptr <? PAGE_SIZE + SIZEOF_METADATA then Abort else
  let metadata := ALIGN_DOWN ptr PAGE_SIZE in
  Ok (if metadata =? ptr then metadata - PAGE_SIZE else metadata).

(** The alignment used and the space left for the metadata. *)
Definition memalign_layout (align : Z) : Z * Z :=
  if PAGE_SIZE <=? align then (align, PAGE_SIZE)
  else if align <? METADATA_IFPAGES_SIZE_POW2 then (METADATA_IFPAGES_SIZE_POW2, 0)
  else (align, SIZEOF_METADATA).

Section Ops.
Context {P : Type} `{!PageAlloc P}.

Definition on_pages {A} (m : M P A) : M (astate P) A := fun st =>
  match m (a_pages st) with
  | Ok (x, p) => Ok (x, AState p (a_meta st) (a_bytes st))
  | Spin => Spin
  | Abort => Abort
  | Undef => Undef
  end.

Definition set_meta (m : Z) (v : metadata_ifpages) : M (astate P) unit :=
  modify (fun st => AState (a_pages st) (<[m := v]> (a_meta st)) (a_bytes st)).
Definition get_meta (m : Z) : M (astate P) metadata_ifpages := deref (fun st => a_meta st !! m).
Definition set_bytes (f : (Z -> Z) -> Z -> Z) : M (astate P) unit :=
  modify (fun st => AState (a_pages st) (a_meta st) (f (a_bytes st))).

Definition uk_getmallocsize (ptr : Z) : M (astate P) Z :=
  m ← lift (uk_get_metadata ptr);
  md ← get_meta m;
  mret (u64 (md_base md + md_num_pages md * PAGE_SIZE - ptr)).

Definition uk_malloc_ifpages (size : Z) : M (astate P) Z :=
  let realsize := u64 (SIZEOF_METADATA + size) in
  if size =? 0 then mret 0 else
  let num_pages := size_to_num_pages realsize in
  r ← on_pages (pa_palloc num_pages);
  match r with
  | None => mret 0
  | Some intptr => set_meta intptr (Metadata num_pages intptr);; mret (intptr + SIZEOF_METADATA)
  end.

Definition uk_free_ifpages (ptr : Z) : M (astate P) unit :=
  if ptr =? 0 then mret tt else
  m ← lift (uk_get_metadata ptr);
  md ← get_meta m;
  uk_assert (negb (md_base md =? 0));;
  uk_assert (negb (md_num_pages md =? 0));;
  on_pages (pa_pfree (md_base md) (md_num_pages md)).

Definition uk_realloc_ifpages (ptr size : Z) : M (astate P) Z :=
  if ptr =? 0 then uk_malloc_ifpages size else
  if size =? 0 then uk_free_ifpages ptr;; mret 0 else
  retptr ← uk_malloc_ifpages size;
  if retptr =? 0 then mret 0 else
  mallocsize ← uk_getmallocsize ptr;
  set_bytes (fun f => memcpy f retptr ptr (if size <? mallocsize then size else mallocsize));;
  uk_free_ifpages ptr;;
  mret retptr.

(** The result and the new [*memptr], if it is set. *)
Definition uk_posix_memalign_ifpages (align size : Z) : M (astate P) (Z * option Z) :=
  if negb (Z.land (u64 (align - 1)) align =? 0) || negb (align mod 8 =? 0) then mret (EINVAL, None) else
  if size =? 0 then mret (EINVAL, Some 0) else
  let '(align', padding) := memalign_layout align in
  let realsize := u64 (size + padding + align') in
  let num_pages := size_to_num_pages realsize in
  r ← on_pages (pa_palloc num_pages);
  match r with
  | None => mret (ENOMEM, None)
  | Some intptr =>
      let memptr := ALIGN_UP (intptr + SIZEOF_METADATA) align' in
      m ← lift (uk_get_metadata memptr);
      uk_assert (intptr <=? m);;
      set_meta m (Metadata num_pages intptr);;
      mret (0, Some memptr)
  end.

Definition uk_calloc_compat (nmemb size : Z) : M (astate P) Z :=
  let tlen := u64 (nmemb * size) in
  ptr ← uk_malloc_ifpages tlen;
  if ptr =? 0 then mret 0 else
  set_bytes (fun f => memset f ptr 0 tlen);;
  mret ptr.

Definition uk_memalign_compat (align size : Z) : M (astate P) Z :=
  r ← uk_posix_memalign_ifpages align size;
  if negb (r.1 =? 0) then mret 0 else
  match r.2 with
  | Some p => mret p
  | None => undef
  end.

End Ops.

(** For allocators that implement the malloc functions only: [malloc], [free]
    and [posix_memalign] are the function pointers of the allocator, [copy] is
    [memcpy] on its memory. *)
Section Compat.
Context {S : Type} (malloc : Z -> M S Z) (free : Z -> M S unit).
Context (posix_memalign : Z -> Z -> M S (Z * option Z)) (copy : Z -> Z -> Z -> M S unit).

Definition uk_pfree_compat (ptr num_pages : Z) : M S unit :=
  uk_assert (Z.land ptr (PAGE_SIZE - 1) =? 0);;
  free ptr.

Definition uk_palloc_compat (num_pages : Z) : M S Z :=
  r ← posix_memalign PAGE_SIZE (u64 (num_pages * PAGE_SIZE));
  if negb (r.1 =? 0) then mret 0 else
  match r.2 with
  | Some p => mret p
  | None => undef
  end.

Definition uk_realloc_compat (ptr size : Z) : M S Z :=
  if ptr =? 0 then malloc size else
  if size =? 0 then free ptr;; mret 0 else
  retptr ← malloc size;
  if retptr =? 0 then mret 0 else
  copy retptr ptr size;;
  free ptr;;
  mret retptr.

End Compat.

(** ** Arithmetic *)

Lemma ldiff_pow2 a k : 0 <= k -> Z.ldiff a (2 ^ k - 1) = 2 ^ k * (a / 2 ^ k).
Proof.
  intros Hk. replace (2 ^ k - 1) with (Z.ones k) by (rewrite Z.ones_equiv; lia).
  rewrite Z.ldiff_ones_r, Z.shiftl_mul_pow2, Z.shiftr_div_pow2 by lia. lia.
Qed.

Lemma ALIGN_DOWN_page v : ALIGN_DOWN v PAGE_SIZE = 4096 * (v / 4096).
Proof. unfold ALIGN_DOWN, PAGE_SIZE. change (4096 - 1) with (2 ^ 12 - 1). by rewrite ldiff_pow2. Qed.

Lemma ALIGN_UP_pow2 v k : 0 <= k -> 0 <= v -> v + 2 ^ k <= 2 ^ 64 -> ALIGN_UP v (2 ^ k) = 2 ^ k * ((v + 2 ^ k - 1) / 2 ^ k).
Proof.
  intros Hk Hv Hw. unfold ALIGN_UP, u64. pose proof (Z.pow_pos_nonneg 2 k).
  rewrite Z.mod_small by lia. by apply ldiff_pow2.
Qed.

Lemma size_to_num_pages_eq x : 0 <= x -> x + 4096 <= 2 ^ 64 -> size_to_num_pages x = (x + 4095) / 4096.
Proof.
  intros H1 H2. unfold size_to_num_pages, PAGE_SIZE. change 4096 with (2 ^ 12) at 1.
  rewrite ALIGN_UP_pow2 by lia. change (2 ^ 12) with 4096. rewrite Z.mul_comm, Z.div_mul by lia. f_equal. lia.
Qed.

(** Where the metadata of a pointer lies, for a pointer into a page run. *)
Lemma uk_get_metadata_spec base ptr :
  0 < base -> base mod 4096 = 0 -> base + 16 <= ptr -> ptr mod 16 = 0 ->
  exists m, uk_get_metadata ptr = Ok m /\ base <= m /\ m + 16 <= ptr /\ m mod 4096 = 0.
Proof.
  intros Hb Hm Hp H16. unfold uk_get_metadata, SIZEOF_METADATA. rewrite ALIGN_DOWN_page. unfold PAGE_SIZE.
  assert (4096 <= base) by divlia. replace (ptr <? 4096 + 16) with false by lia. eexists. split; [done|].
  destruct (Z.eqb_spec (4096 * (ptr / 4096)) ptr); split_and!; divlia.
Qed.

(** The alignment used is a power of two from 16 on, and the padding leaves room
    for the metadata. *)
Lemma memalign_layout_ok k :
  3 <= k <= 61 ->
  exists j pad, memalign_layout (2 ^ k) = (2 ^ j, pad) /\ 4 <= j <= 61 /\ k <= j /\ 2 ^ j <= 2 ^ 61 /\
    0 <= pad <= 4096 /\ (16 <= pad \/ j = 4).
Proof.
  intros Hk. assert (Hpk : 2 ^ 3 <= 2 ^ k <= 2 ^ 61) by (split; apply Z.pow_le_mono_r; lia).
  unfold memalign_layout, PAGE_SIZE, METADATA_IFPAGES_SIZE_POW2, SIZEOF_METADATA. destruct (Z.leb_spec 4096 (2 ^ k)).
  - exists k, 4096. split; [done|]. assert (2 ^ 4 <= 2 ^ k) as ?%Z.pow_le_mono_r_iff by lia; lia.
  - destruct (Z.ltb_spec (2 ^ k) 16).
    + exists 4, 0. split; [done|]. assert (2 ^ k < 2 ^ 4) as ?%Z.pow_lt_mono_r_iff by lia; lia.
    + exists k, 16. split; [done|]. assert (2 ^ 4 <= 2 ^ k) as ?%Z.pow_le_mono_r_iff by lia; lia.
Qed.

(** The checks of [uk_posix_memalign_ifpages] accept powers of two from 8 on. *)
Lemma memalign_valid k :
  3 <= k <= 61 -> negb (Z.land (u64 (2 ^ k - 1)) (2 ^ k) =? 0) || negb (2 ^ k mod 8 =? 0) = false.
Proof.
  intros Hk. assert (Hpk : 2 ^ 3 <= 2 ^ k <= 2 ^ 61) by (split; apply Z.pow_le_mono_r; lia).
  assert (Z.land (u64 (2 ^ k - 1)) (2 ^ k) = 0) as ->.
  { unfold u64. rewrite Z.mod_small by lia.
    replace (2 ^ k - 1) with (Z.ones k) by (rewrite Z.ones_equiv; lia).
    rewrite Z.land_comm, Z.land_ones by lia. apply Z.mod_same. lia. }
  assert (2 ^ k mod 8 = 0) as ->; [|done].
  replace k with (k - 3 + 3) by lia. rewrite Z.pow_add_r by lia. change (2 ^ 3) with 8. by rewrite Z.mod_mul by lia.
Qed.

(** The pointer returned: aligned, behind the metadata, and early enough. *)
Lemma ALIGN_UP_object base j :
  0 < base -> base mod 4096 = 0 -> base + 16 + 2 ^ j <= 2 ^ 64 -> 4 <= j ->
  let ptr := ALIGN_UP (base + 16) (2 ^ j) in
  (2 ^ j | ptr) /\ ptr mod 16 = 0 /\ base + 16 <= ptr < base + 16 + 2 ^ j /\ (j = 4 -> ptr = base + 16).
Proof.
  intros Hb Hm Hw Hj ptr. pose proof (Z.pow_pos_nonneg 2 j).
  assert (Hp : ptr = 2 ^ j * ((base + 16 + 2 ^ j - 1) / 2 ^ j)) by (apply ALIGN_UP_pow2; lia).
  assert (2 ^ j | ptr) as Hd by (rewrite Hp; by eexists; rewrite Z.mul_comm).
  split; [done|]. split.
  { apply Z.mod_divide; [done|]. etrans; [|exact Hd]. exists (2 ^ (j - 4)). change 16 with (2 ^ 4).
    rewrite <- Z.pow_add_r by lia. f_equal. lia. }
  pose proof (Z.div_mod (base + 16 + 2 ^ j - 1) (2 ^ j)). pose proof (Z.mod_pos_bound (base + 16 + 2 ^ j - 1) (2 ^ j)).
  split; [lia|]. intros ->. change (2 ^ 4) with 16 in *. divlia.
Qed.

(** ** Heap invariant *)

Section Heap.
Context {P : Type} `{!PageAlloc P}.

(** Object [ptr] of [sz] bytes lies in the run [base], behind its metadata. *)
Definition object_at (st : astate P) (runs : gmap Z Z) (ptr sz base n : Z) : Prop :=
  exists m, uk_get_metadata ptr = Ok m /\ a_meta st !! m = Some (Metadata n base) /\
    runs !! base = Some n /\ base <= m /\ m + SIZEOF_METADATA <= ptr /\ ptr + sz <= base + 4096 * n.

(** [objs] are the objects handed out, by address, with the size asked for. *)
Definition heap_ok (st : astate P) (objs : gmap Z Z) : Prop :=
  exists runs, pa_ok (a_pages st) runs /\
    (forall ptr sz, objs !! ptr = Some sz -> 0 < sz /\ exists base n, object_at st runs ptr sz base n) /\
    (forall ptr sz ptr' sz' base n, objs !! ptr = Some sz -> objs !! ptr' = Some sz' ->
       object_at st runs ptr sz base n -> object_at st runs ptr' sz' base n -> ptr = ptr').

Lemma object_at_frame st st' runs runs' ptr sz base n :
  (forall m, uk_get_metadata ptr = Ok m -> a_meta st' !! m = a_meta st !! m) ->
  (runs !! base = Some n -> runs' !! base = Some n) ->
  object_at st runs ptr sz base n -> object_at st' runs' ptr sz base n.
Proof.
  intros Hm Hr (m & E & Hmd & Hrun & H). exists m. split; [done|]. rewrite (Hm m E). auto.
Qed.

Lemma object_at_inj st runs ptr sz sz' base n base' n' :
  object_at st runs ptr sz base n -> object_at st runs ptr sz' base' n' -> base = base' /\ n = n'.
Proof.
  intros (m & E & Hm & _) (m' & E' & Hm' & _). rewrite E in E'. injection E' as <-.
  rewrite Hm in Hm'. by injection Hm' as -> ->.
Qed.

(** Metadata in a run that is not an object's own is not read for it. *)
Lemma object_meta_in_run st runs ptr sz base n base' n' m :
  pa_ok (a_pages st) runs -> object_at st runs ptr sz base n -> 0 < sz ->
  runs !! base' = Some n' -> base' <> base -> base' <= m < base' + 4096 * n' -> uk_get_metadata ptr <> Ok m.
Proof.
  intros Hok (m0 & E & _ & Hrun & Hb & Hp & He) Hsz Hrun' Hne Hm E'. rewrite E in E'. injection E' as <-.
  unfold SIZEOF_METADATA in Hp. destruct (pa_apart _ _ _ _ _ _ Hok Hrun Hrun'); (done || lia).
Qed.

(** ** Allocation *)

(** A new object in a fresh run. *)
Lemma heap_ok_new st objs runs p b base n m ptr sz :
  pa_ok (a_pages st) runs ->
  (forall ptr sz, objs !! ptr = Some sz -> 0 < sz /\ exists base n, object_at st runs ptr sz base n) ->
  (forall ptr sz ptr' sz' base n, objs !! ptr = Some sz -> objs !! ptr' = Some sz' ->
     object_at st runs ptr sz base n -> object_at st runs ptr' sz' base n -> ptr = ptr') ->
  runs !! base = None -> pa_ok p (<[base := n]> runs) ->
  uk_get_metadata ptr = Ok m -> base <= m -> m + SIZEOF_METADATA <= ptr -> 0 < sz -> ptr + sz <= base + 4096 * n ->
  let st' := AState p (<[m := Metadata n base]> (a_meta st)) b in
  objs !! ptr = None /\ heap_ok st' (<[ptr := sz]> objs).
Proof.
  intros Hok Hobj Hinj Hfresh Hok' Em Hm1 Hm2 Hsz Hfit st'. unfold SIZEOF_METADATA in *.
  assert (Hrun' : <[base := n]> runs !! base = Some n) by apply lookup_insert_eq.
  assert (Hkeep : forall q s q0 n0, objs !! q = Some s -> object_at st runs q s q0 n0 ->
            q0 <> base /\ object_at st' (<[base := n]> runs) q s q0 n0).
  { intros q s q0 n0 Hq Ho. pose proof Ho as (m0 & E0 & Hmd0 & Hr0 & B0 & B1 & B2). unfold SIZEOF_METADATA in *.
    assert (q0 <> base) as Hne by congruence. split; [done|].
    destruct (Hobj q s Hq) as [Hs _].
    assert (<[base := n]> runs !! q0 = Some n0) as Hr0' by (by rewrite lookup_insert_ne).
    exists m0. split_and!; try done. simpl. rewrite lookup_insert_ne; [done|]. intros <-.
    destruct (pa_apart _ _ _ _ _ _ Hok' Hr0' Hrun' Hne); lia. }
  assert (Hnone : objs !! ptr = None).
  { destruct (objs !! ptr) as [s|] eqn:E; [|done]. destruct (Hobj ptr s E) as (Hs & q0 & n0 & Ho).
    destruct (Hkeep ptr s q0 n0 E Ho) as [Hne (m0 & E0 & _ & Hr0 & B0 & B1 & B2)]. unfold SIZEOF_METADATA in *.
    destruct (pa_apart _ _ _ _ _ _ Hok' Hr0 Hrun' Hne); lia. }
  assert (Hnew : object_at st' (<[base := n]> runs) ptr sz base n).
  { exists m. split_and!; try done. simpl. apply lookup_insert_eq. }
  split; [done|]. exists (<[base := n]> runs). split; [done|]. split.
  - intros q s [[<- <-]|[Hne Hq]]%lookup_insert_Some; [eauto|].
    destruct (Hobj q s Hq) as (Hs & q0 & n0 & Ho). destruct (Hkeep q s q0 n0 Hq Ho). eauto.
  - assert (Hold : forall q s, objs !! q = Some s -> ~ object_at st' (<[base := n]> runs) q s base n).
    { intros q s Hq Ho'. destruct (Hobj q s Hq) as (Hs & q0 & n0 & Ho).
      destruct (Hkeep q s q0 n0 Hq Ho) as [Hne Ho2]. by destruct (object_at_inj _ _ _ _ _ _ _ _ _ Ho' Ho2). }
    intros q s q' s' b0 n0 Hq Hq' Ho Ho'.
    apply lookup_insert_Some in Hq as [[<- <-]|[Hne Hq]]; apply lookup_insert_Some in Hq' as [[<- <-]|[Hne' Hq']].
    + done.
    + destruct (object_at_inj _ _ _ _ _ _ _ _ _ Ho Hnew) as [-> ->]. by destruct (Hold q' s').
    + destruct (object_at_inj _ _ _ _ _ _ _ _ _ Ho' Hnew) as [-> ->]. by destruct (Hold q s).
    + destruct (Hobj q s Hq) as (_ & b1 & n1 & O1). destruct (Hkeep q s b1 n1 Hq O1) as [_ O1'].
      destruct (object_at_inj _ _ _ _ _ _ _ _ _ Ho O1') as [-> ->].
      destruct (Hobj q' s' Hq') as (_ & b2 & n2 & O2). destruct (Hkeep q' s' b2 n2 Hq' O2) as [_ O2'].
      destruct (object_at_inj _ _ _ _ _ _ _ _ _ Ho' O2') as [-> ->]. by eapply Hinj.
Qed.

Lemma heap_ok_bytes p m b b' objs : heap_ok (AState p m b) objs -> heap_ok (AState p m b') objs.
Proof. intros H. exact H. Qed.

Lemma on_pages_run {A} (m : M P A) st x p :
  m (a_pages st) = Ok (x, p) -> on_pages m st = Ok (x, AState p (a_meta st) (a_bytes st)).
Proof. unfold on_pages. by intros ->. Qed.

(** A run of [n] pages for an object: either the page allocator has none, or
    the continuation gets a fresh run. *)
Lemma palloc_cases st objs n :
  heap_ok st objs -> 1 <= n <= 2 ^ 51 ->
  (exists p, on_pages (pa_palloc n) st = Ok (None, AState p (a_meta st) (a_bytes st)) /\
     heap_ok (AState p (a_meta st) (a_bytes st)) objs) \/
  (exists p base, on_pages (pa_palloc n) st = Ok (Some base, AState p (a_meta st) (a_bytes st)) /\
     0 < base /\ base mod 4096 = 0 /\ base + 4096 * n < 2 ^ 64 /\
     forall m ptr sz b, uk_get_metadata ptr = Ok m -> base <= m -> m + SIZEOF_METADATA <= ptr -> 0 < sz ->
       ptr + sz <= base + 4096 * n ->
       objs !! ptr = None /\ heap_ok (AState p (<[m := Metadata n base]> (a_meta st)) b) (<[ptr := sz]> objs)).
Proof.
  intros (runs & Hok & Hobj & Hinj) Hn.
  destruct (pa_palloc_spec _ _ n Hok Hn) as (r & p & E & Hr). rewrite (on_pages_run _ _ _ _ E).
  destruct r as [base|]; [right|left].
  - destruct Hr as [Hfresh Hok']. exists p, base. split; [done|].
    destruct (pa_run _ _ _ _ Hok' (lookup_insert_eq runs base n)) as (A & B & _ & D). split_and!; try done.
    intros m ptr sz b Em Hm1 Hm2 Hsz Hfit. by eapply (heap_ok_new st objs runs p b base n m ptr sz).
  - exists p. split; [done|]. by exists runs.
Qed.

Definition malloc_max : Z := 2 ^ 62.

Lemma malloc_ok st objs size :
  heap_ok st objs -> 0 < size <= malloc_max ->
  exists r st', uk_malloc_ifpages size st = Ok (r, st') /\ a_bytes st' = a_bytes st /\
    (r = 0 /\ heap_ok st' objs \/
     r <> 0 /\ r mod 16 = 0 /\ objs !! r = None /\ heap_ok st' (<[r := size]> objs)).
Proof.
  intros Hok Hs. unfold malloc_max in Hs. unfold uk_malloc_ifpages, SIZEOF_METADATA. replace (size =? 0) with false by lia.
  unfold u64. rewrite Z.mod_small by lia. rewrite size_to_num_pages_eq by lia.
  set (n := (16 + size + 4095) / 4096). assert (1 <= n <= 2 ^ 51) as Hn by (subst n; divlia).
  destruct (palloc_cases st objs n Hok Hn) as [(p & E & H)|(p & base & E & B1 & B2 & B3 & H)];
    rewrite (bind_ret _ _ _ _ _ E).
  - eexists _, _. split; [done|]. split; [done|]. by left.
  - rewrite (bind_ret _ _ _ tt _) by (by apply modify_ok). eexists _, _. split; [done|]. split; [done|]. right.
    assert (base + 16 <> 0 /\ (base + 16) mod 16 = 0) as [H0 H16] by divlia.
    split; [done|]. split; [done|]. simpl.
    assert (Em : uk_get_metadata (base + 16) = Ok base).
    { unfold uk_get_metadata, SIZEOF_METADATA. rewrite ALIGN_DOWN_page. unfold PAGE_SIZE.
      assert (4096 <= base) by divlia. replace (base + 16 <? 4096 + 16) with false by lia.
      replace (4096 * ((base + 16) / 4096)) with base by divlia. by replace (base =? base + 16) with false by lia. }
    apply H; [done|lia|unfold SIZEOF_METADATA; lia|lia|]. subst n. divlia.
Qed.

Lemma memalign_ok st objs k size :
  heap_ok st objs -> 3 <= k <= 61 -> 0 < size <= malloc_max ->
  exists r st', uk_posix_memalign_ifpages (2 ^ k) size st = Ok (r, st') /\ a_bytes st' = a_bytes st /\
    (r = (ENOMEM, None) /\ heap_ok st' objs \/
     exists ptr, r = (0, Some ptr) /\ ptr <> 0 /\ (2 ^ k | ptr) /\ objs !! ptr = None /\ heap_ok st' (<[ptr := size]> objs)).
Proof.
  intros Hok Hk Hs. unfold malloc_max in Hs. unfold uk_posix_memalign_ifpages.
  rewrite memalign_valid by done. replace (size =? 0) with false by lia.
  destruct (memalign_layout_ok k Hk) as (j & pad & -> & Hj & Hkj & Hpj & Hpad & Hcase).
  pose proof (Z.pow_pos_nonneg 2 j). unfold u64. rewrite Z.mod_small by lia. rewrite size_to_num_pages_eq by lia.
  set (n := (size + pad + 2 ^ j + 4095) / 4096).
  assert (size + pad + 2 ^ j <= 4096 * n < size + pad + 2 ^ j + 4096) as Hn by (subst n; divlia).
  assert (16 + 2 ^ j <= 4096 * n) by (destruct Hcase as [?|E]; [lia|rewrite E in *; lia]).
  destruct (palloc_cases st objs n Hok ltac:(lia)) as [(p & E & H1)|(p & base & E & B1 & B2 & B3 & H1)];
    rewrite (bind_ret _ _ _ _ _ E).
  - eexists _, _. split; [done|]. split; [done|]. by left.
  - destruct (ALIGN_UP_object base j) as (D1 & D2 & D3 & D4); [done|done|lia|lia|]. unfold SIZEOF_METADATA.
    set (ptr := ALIGN_UP (base + 16) (2 ^ j)) in *.
    destruct (uk_get_metadata_spec base ptr) as (m & Em & M1 & M2 & _); [lia..|].
    rewrite (bind_ret _ _ _ m _) by (by apply lift_ok).
    rewrite (bind_ret _ _ _ tt _) by (unfold uk_assert; by replace (base <=? m) with true by lia).
    rewrite (bind_ret _ _ _ tt _) by (by apply modify_ok).
    eexists _, _. split; [done|]. split; [done|]. right. exists ptr. split; [done|]. split; [lia|]. split.
    { etrans; [|exact D1]. exists (2 ^ (j - k)). rewrite <- Z.pow_add_r by lia. f_equal. lia. }
    apply H1; [done|done|done|lia|]. destruct Hcase as [|Hcase]; [lia|]. rewrite (D4 Hcase). subst j. lia.
Qed.

(** ** Release *)

Lemma free_ok st objs ptr sz :
  heap_ok st objs -> objs !! ptr = Some sz ->
  exists st', uk_free_ifpages ptr st = Ok (tt, st') /\ a_bytes st' = a_bytes st /\ heap_ok st' (delete ptr objs).
Proof.
  intros (runs & Hok & Hobj & Hinj) Hp. destruct (Hobj ptr sz Hp) as (Hsz & base & n & Ho).
  pose proof Ho as (m & Em & Hm & Hrun & B1 & B2 & B3). destruct (pa_run _ _ _ _ Hok Hrun) as (R1 & R2 & R3 & R4).
  unfold uk_free_ifpages. unfold SIZEOF_METADATA in B2. replace (ptr =? 0) with false by lia.
  rewrite (bind_ret _ _ _ m st) by (by apply lift_ok).
  rewrite (bind_ret _ _ _ (Metadata n base) st) by (by apply deref_ok). simpl.
  rewrite (bind_ret _ _ _ tt st) by (unfold uk_assert; by replace (base =? 0) with false by lia).
  rewrite (bind_ret _ _ _ tt st) by (unfold uk_assert; by replace (n =? 0) with false by lia).
  destruct (pa_pfree_spec _ _ _ _ Hok Hrun) as (p & E & Hok'). rewrite (on_pages_run _ _ _ _ E).
  eexists. split; [done|]. split; [done|]. exists (delete base runs). split; [done|].
  assert (Hkeep : forall q s, delete ptr objs !! q = Some s -> exists b0 n0,
            object_at st runs q s b0 n0 /\ object_at (AState p (a_meta st) (a_bytes st)) (delete base runs) q s b0 n0).
  { intros q s [Hne Hq]%lookup_delete_Some. destruct (Hobj q s Hq) as (_ & b0 & n0 & Oq). exists b0, n0. split; [done|].
    pose proof Oq as (m0 & E0 & Hm0 & Hr0 & C). exists m0. split_and!; try done; try apply C.
    rewrite lookup_delete_ne; [done|]. intros <-. apply Hne.
    rewrite Hrun in Hr0. injection Hr0 as <-. by eapply Hinj. }
  split.
  - intros q s Hq. destruct (Hkeep q s Hq) as (b0 & n0 & _ & Oq). apply lookup_delete_Some in Hq as [_ Hq].
    destruct (Hobj q s Hq) as (Hs & _). eauto.
  - intros q s q' s' b0 n0 Hq Hq' O1 O2.
    destruct (Hkeep q s Hq) as (b1 & n1 & O1' & O1''). destruct (Hkeep q' s' Hq') as (b2 & n2 & O2' & O2'').
    destruct (object_at_inj _ _ _ _ _ _ _ _ _ O1 O1'') as [<- <-]. destruct (object_at_inj _ _ _ _ _ _ _ _ _ O2 O2'') as [<- <-].
    apply lookup_delete_Some in Hq as [_ Hq], Hq' as [_ Hq']. by eapply Hinj.
Qed.

(** ** Objects *)

Lemma objects_disjoint st objs p s q t :
  heap_ok st objs -> objs !! p = Some s -> objs !! q = Some t -> p <> q -> p + s <= q \/ q + t <= p.
Proof.
  intros (runs & Hok & Hobj & Hinj) Hp Hq Hne.
  destruct (Hobj p s Hp) as (Hs & b1 & n1 & O1). destruct (Hobj q t Hq) as (Ht & b2 & n2 & O2).
  pose proof O1 as (m1 & _ & _ & R1 & A1 & A2 & A3). pose proof O2 as (m2 & _ & _ & R2 & B1 & B2 & B3).
  unfold SIZEOF_METADATA in *. destruct (decide (b1 = b2)) as [<-|Hb].
  - rewrite R1 in R2. injection R2 as <-. destruct Hne. by eapply Hinj.
  - destruct (pa_apart _ _ _ _ _ _ Hok R1 R2 Hb); lia.
Qed.

(** The metadata of any object lies outside of every object. *)
Lemma metadata_disjoint st objs p s q t m :
  heap_ok st objs -> objs !! p = Some s -> objs !! q = Some t -> uk_get_metadata q = Ok m ->
  m + SIZEOF_METADATA <= p \/ p + s <= m.
Proof.
  intros (runs & Hok & Hobj & Hinj) Hp Hq Em.
  destruct (Hobj p s Hp) as (Hs & b1 & n1 & O1). destruct (Hobj q t Hq) as (Ht & b2 & n2 & O2).
  pose proof O1 as (m1 & _ & _ & R1 & A1 & A2 & A3). pose proof O2 as (m2 & E2 & _ & R2 & B1 & B2 & B3).
  rewrite Em in E2. injection E2 as <-. unfold SIZEOF_METADATA in *. destruct (decide (b1 = b2)) as [<-|Hb].
  - rewrite R1 in R2. injection R2 as <-. assert (p = q) as -> by (by eapply Hinj). lia.
  - destruct (pa_apart _ _ _ _ _ _ Hok R1 R2 Hb); lia.
Qed.

Lemma mallocsize_ok st objs ptr sz :
  heap_ok st objs -> objs !! ptr = Some sz ->
  exists ms, uk_getmallocsize ptr st = Ok (ms, st) /\ sz <= ms.
Proof.
  intros (runs & Hok & Hobj & _) Hp. destruct (Hobj ptr sz Hp) as (Hsz & base & n & (m & Em & Hm & Hrun & B1 & B2 & B3)).
  destruct (pa_run _ _ _ _ Hok Hrun) as (R1 & R2 & R3 & R4). unfold uk_getmallocsize.
  rewrite (bind_ret _ _ _ m st) by (by apply lift_ok).
  rewrite (bind_ret _ _ _ (Metadata n base) st) by (by apply deref_ok). eexists. split; [done|].
  unfold SIZEOF_METADATA, u64, PAGE_SIZE in *. simpl. rewrite Z.mod_small; lia.
Qed.

Lemma realloc_ok st objs ptr osz size :
  heap_ok st objs -> objs !! ptr = Some osz -> 0 < size <= malloc_max ->
  exists r st', uk_realloc_ifpages ptr size st = Ok (r, st') /\
    (r = 0 /\ heap_ok st' objs /\ a_bytes st' = a_bytes st \/
     r <> 0 /\ objs !! r = None /\ heap_ok st' (<[r := size]> (delete ptr objs)) /\
     (forall i, 0 <= i < Z.min osz size -> a_bytes st' (r + i) = a_bytes st (ptr + i)) /\
     (forall q t i, objs !! q = Some t -> 0 <= i < t -> a_bytes st' (q + i) = a_bytes st (q + i))).
Proof.
  intros Hok Hp Hs. destruct (malloc_ok st objs size Hok Hs) as (r & st1 & E1 & Hb1 & Hr).
  assert (ptr <> 0) as Hp0.
  { destruct Hok as (runs & _ & Hobj & _). destruct (Hobj ptr osz Hp) as (_ & b & n & (m & Em & _)).
    intros ->. done. }
  unfold uk_realloc_ifpages. replace (ptr =? 0) with false by lia. replace (size =? 0) with false by lia.
  rewrite (bind_ret _ _ _ _ _ E1). destruct Hr as [[-> Hok1]|(Hr0 & _ & Hnone & Hok1)].
  { eexists _, _. split; [done|]. left. split; [done|]. split; [exact Hok1|done]. }
  replace (r =? 0) with false by lia. assert (r <> ptr) as Hne by congruence.
  assert (Hp1 : <[r := size]> objs !! ptr = Some osz) by (by rewrite lookup_insert_ne).
  destruct (mallocsize_ok st1 _ ptr osz Hok1 Hp1) as (ms & E2 & Hms). rewrite (bind_ret _ _ _ _ _ E2).
  set (len := if size <? ms then size else ms). rewrite (bind_ret _ _ _ tt _) by (by apply modify_ok).
  set (st2 := AState (a_pages st1) (a_meta st1) (memcpy (a_bytes st1) r ptr len)).
  destruct (free_ok st2 _ ptr osz (Hok1 : heap_ok st2 _) Hp1) as (st3 & E3 & Hb3 & Hok3).
  rewrite (bind_ret _ _ _ _ _ E3). rewrite delete_insert_ne in Hok3 by done.
  eexists _, _. split; [done|]. right. split; [done|]. split; [done|]. split; [done|].
  rewrite Hb3. unfold st2. simpl. rewrite Hb1. unfold memcpy.
  assert (Z.min osz size <= len <= size) by (subst len; destruct (Z.ltb_spec size ms); lia). split.
  - intros i Hi. replace ((r <=? r + i) && (r + i <? r + len)) with true by lia. f_equal. lia.
  - intros q t i Hq Hi. assert (q <> r) as Hqr by congruence.
    assert (Hq1 : <[r := size]> objs !! q = Some t) by (by rewrite lookup_insert_ne).
    destruct (objects_disjoint st1 _ q t r size Hok1 Hq1 (lookup_insert_eq _ _ _) Hqr);
      by replace ((r <=? q + i) && (q + i <? r + len)) with false by lia.
Qed.

Lemma calloc_ok st objs nmemb size :
  heap_ok st objs -> 0 < nmemb * size <= malloc_max ->
  exists r st', uk_calloc_compat nmemb size st = Ok (r, st') /\
    (r = 0 /\ heap_ok st' objs \/
     r <> 0 /\ objs !! r = None /\ heap_ok st' (<[r := nmemb * size]> objs) /\
     (forall i, 0 <= i < nmemb * size -> a_bytes st' (r + i) = 0) /\
     (forall q t i, objs !! q = Some t -> 0 <= i < t -> a_bytes st' (q + i) = a_bytes st (q + i))).
Proof.
  intros Hok Hs. unfold uk_calloc_compat, u64. rewrite Z.mod_small by (unfold malloc_max in Hs; lia).
  destruct (malloc_ok st objs _ Hok Hs) as (r & st1 & E1 & Hb1 & Hr). rewrite (bind_ret _ _ _ _ _ E1).
  destruct Hr as [[-> Hok1]|(Hr0 & _ & Hnone & Hok1)].
  { eexists _, _. split; [done|]. by left. }
  replace (r =? 0) with false by lia. rewrite (bind_ret _ _ _ tt _) by (by apply modify_ok).
  eexists _, _. split; [done|]. right. split; [done|]. split; [done|]. split; [exact Hok1|]. simpl. unfold memset.
  split.
  - intros i Hi. by replace ((r <=? r + i) && (r + i <? r + nmemb * size)) with true by lia.
  - intros q t i Hq Hi. assert (q <> r) as Hqr by congruence.
    assert (Hq1 : <[r := nmemb * size]> objs !! q = Some t) by (by rewrite lookup_insert_ne).
    rewrite Hb1. destruct (objects_disjoint st1 _ q t r _ Hok1 Hq1 (lookup_insert_eq _ _ _) Hqr);
      by replace ((r <=? q + i) && (q + i <? r + nmemb * size)) with false by lia.
Qed.

(** ** Runs of a program that uses the heap *)

Inductive heap_step : astate P * gmap Z Z -> astate P * gmap Z Z -> Prop :=
| hs_malloc st objs size r st' :
    0 < size <= malloc_max -> uk_malloc_ifpages size st = Ok (r, st') ->
    heap_step (st, objs) (st', if r =? 0 then objs else <[r := size]> objs)
| hs_calloc st objs nmemb size r st' :
    0 < nmemb * size <= malloc_max -> uk_calloc_compat nmemb size st = Ok (r, st') ->
    heap_step (st, objs) (st', if r =? 0 then objs else <[r := nmemb * size]> objs)
| hs_memalign st objs k size e p st' :
    3 <= k <= 61 -> 0 < size <= malloc_max -> uk_posix_memalign_ifpages (2 ^ k) size st = Ok ((e, p), st') ->
    heap_step (st, objs) (st', match p with Some r => <[r := size]> objs | None => objs end)
| hs_realloc st objs ptr osz size r st' :
    objs !! ptr = Some osz -> 0 < size <= malloc_max -> uk_realloc_ifpages ptr size st = Ok (r, st') ->
    heap_step (st, objs) (st', if r =? 0 then objs else <[r := size]> (delete ptr objs))
| hs_free st objs ptr sz st' :
    objs !! ptr = Some sz -> uk_free_ifpages ptr st = Ok (tt, st') -> heap_step (st, objs) (st', delete ptr objs)
| hs_write st objs ptr sz x v :
    objs !! ptr = Some sz -> ptr <= x < ptr + sz ->
    heap_step (st, objs) (AState (a_pages st) (a_meta st) (fun y => if y =? x then v else a_bytes st y), objs).

Lemma heap_step_ok s s' : heap_ok s.1 s.2 -> heap_step s s' -> heap_ok s'.1 s'.2.
Proof.
  intros Hok Hst. destruct Hst as [st objs size r st' Hs E|st objs nm size r st' Hs E|st objs k size e p st' Hk Hs E|
    st objs ptr osz size r st' Hp Hs E|st objs ptr sz st' Hp E|st objs ptr sz x v Hp Hx]; simpl in *.
  - destruct (malloc_ok st objs size Hok Hs) as (r1 & st1 & E1 & _ & Hr). rewrite E in E1. injection E1 as <- <-.
    destruct Hr as [[-> H]|(H0 & _ & _ & H)]; [done|]. by replace (r =? 0) with false by lia.
  - destruct (calloc_ok st objs nm size Hok Hs) as (r1 & st1 & E1 & Hr). rewrite E in E1. injection E1 as <- <-.
    destruct Hr as [[-> H]|(H0 & _ & H & _)]; [done|]. by replace (r =? 0) with false by lia.
  - destruct (memalign_ok st objs k size Hok Hk Hs) as (r1 & st1 & E1 & _ & Hr). rewrite E in E1. injection E1 as <- <-.
    destruct Hr as [[[= -> ->] H]|(ptr & [= -> ->] & _ & _ & _ & H)]; done.
  - destruct (realloc_ok st objs ptr osz size Hok Hp Hs) as (r1 & st1 & E1 & Hr). rewrite E in E1. injection E1 as <- <-.
    destruct Hr as [(-> & H & _)|(H0 & _ & H & _)]; [done|]. by replace (r =? 0) with false by lia.
  - destruct (free_ok st objs ptr sz Hok Hp) as (st1 & E1 & _ & H). rewrite E in E1. by injection E1 as <-.
  - exact Hok.
Qed.

Lemma heap_step_pair st objs st' objs' :
  heap_ok st objs -> heap_step (st, objs) (st', objs') -> heap_ok st' objs'.
Proof. intros Hok Hst. exact (heap_step_ok (st, objs) (st', objs') Hok Hst). Qed.

(** C10. Heap safety over whole runs: whatever sequence of malloc, calloc, memalign,
    realloc, free and writes a program makes on a well-formed heap, with requests of 1 to
    2^62 bytes, alignments of 2^3 to 2^61, and pointers of live objects, its live objects
    do not overlap each other or the metadata of any object, and every further malloc,
    calloc, memalign, and realloc or free of a live object, within the same bounds,
    returns.  (Larger requests wrap around in malloc and calloc, as shown below.) *)
Theorem heap_runs_safe st s :
  heap_ok st ∅ -> rtc heap_step (st, ∅) s ->
  (forall p t q u, s.2 !! p = Some t -> s.2 !! q = Some u -> p <> q -> p + t <= q \/ q + u <= p) /\
  (forall p t q u m, s.2 !! p = Some t -> s.2 !! q = Some u -> uk_get_metadata q = Ok m ->
     m + SIZEOF_METADATA <= p \/ p + t <= m) /\
  (forall size, 0 < size <= malloc_max -> exists r st', uk_malloc_ifpages size s.1 = Ok (r, st')) /\
  (forall nmemb size, 0 < nmemb * size <= malloc_max -> exists r st', uk_calloc_compat nmemb size s.1 = Ok (r, st')) /\
  (forall k size, 3 <= k <= 61 -> 0 < size <= malloc_max ->
     exists r st', uk_posix_memalign_ifpages (2 ^ k) size s.1 = Ok (r, st')) /\
  (forall p t size, s.2 !! p = Some t -> 0 < size <= malloc_max ->
     exists r st', uk_realloc_ifpages p size s.1 = Ok (r, st')) /\
  (forall p t, s.2 !! p = Some t -> exists st', uk_free_ifpages p s.1 = Ok (tt, st')).
Proof.
  intros H0 Hrun. assert (heap_ok s.1 s.2) as Hok.
  { change (heap_ok (st, ∅ : gmap Z Z).1 (st, ∅ : gmap Z Z).2) in H0.
    induction Hrun as [|x y z Hs _ IH]; [done|]. apply IH. by eapply heap_step_ok. }
  split_and!.
  - intros p t q u Hp Hq Hne. by eapply objects_disjoint.
  - intros p t q u m Hp Hq Em. by eapply metadata_disjoint.
  - intros size Hs. destruct (malloc_ok _ _ size Hok Hs) as (r & st' & E & _). eauto.
  - intros nmemb size Hs. destruct (calloc_ok _ _ nmemb size Hok Hs) as (r & st' & E & _). eauto.
  - intros k size Hk Hs. destruct (memalign_ok _ _ k size Hok Hk Hs) as (r & st' & E & _). eauto.
  - intros p t size Hp Hs. destruct (realloc_ok _ _ p t size Hok Hp Hs) as (r & st' & E & _). eauto.
  - intros p t Hp. destruct (free_ok _ _ p t Hok Hp) as (st' & E & _). eauto.
Qed.

(** Reallocation keeps the contents: growing or shrinking a live object
    either fails and changes nothing, or returns a new object with the common
    prefix of the old contents; the old object is gone and the bytes of all
    other objects are untouched. *)
Theorem realloc_preserves st objs ptr osz size :
  heap_ok st objs -> objs !! ptr = Some osz -> 0 < size <= malloc_max ->
  exists r st', uk_realloc_ifpages ptr size st = Ok (r, st') /\
    (r = 0 /\ heap_ok st' objs /\ a_bytes st' = a_bytes st \/
     r <> 0 /\ objs !! r = None /\ heap_ok st' (<[r := size]> (delete ptr objs)) /\
     (forall i, 0 <= i < Z.min osz size -> a_bytes st' (r + i) = a_bytes st (ptr + i)) /\
     (forall q t i, objs !! q = Some t -> 0 <= i < t -> a_bytes st' (q + i) = a_bytes st (q + i))).
Proof. apply realloc_ok. Qed.

(** Aligned allocation: for every power-of-two alignment from 8 bytes on,
    [uk_posix_memalign_ifpages] either reports ENOMEM or returns a fresh object
    at a multiple of the alignment, with its metadata where
    [uk_get_metadata] finds it, so that it can be freed. *)
Theorem memalign_aligned st objs k size :
  heap_ok st objs -> 3 <= k <= 61 -> 0 < size <= malloc_max ->
  exists r st1, uk_posix_memalign_ifpages (2 ^ k) size st = Ok (r, st1) /\
    (r = (ENOMEM, None) \/
     exists ptr st2, r = (0, Some ptr) /\ (2 ^ k | ptr) /\ objs !! ptr = None /\
       uk_free_ifpages ptr st1 = Ok (tt, st2) /\ heap_ok st2 objs).
Proof.
  intros Hok Hk Hs. destruct (memalign_ok st objs k size Hok Hk Hs) as (r & st1 & E & _ & Hr).
  exists r, st1. split; [done|]. destruct Hr as [[-> _]|(ptr & -> & _ & Hd & Hn & Hok1)]; [by left|]. right.
  destruct (free_ok st1 _ ptr size Hok1 (lookup_insert_eq _ _ _)) as (st2 & E2 & _ & Hok2).
  exists ptr, st2. rewrite delete_insert_eq in Hok2. rewrite (delete_id objs ptr Hn) in Hok2. done.
Qed.

End Heap.

(** ** The buddy allocator as a page allocator *)

Definition bbuddy_ok (b : uk_bbpalloc) (runs : gmap Z Z) : Prop :=
  sys_ok (b, Z.log2_up <$> runs) /\ forall a n, runs !! a = Some n -> 1 <= n <= 2 ^ 51.

Lemma bbuddy_palloc_spec b runs n :
  bbuddy_ok b runs -> 1 <= n <= 2 ^ 51 ->
  exists r b', bbuddy_palloc n b = Ok (r, b') /\
    match r with
    | None => bbuddy_ok b' runs
    | Some a => runs !! a = None /\ bbuddy_ok b' (<[a := n]> runs)
    end.
Proof.
  intros [Hok Hb] Hn. pose proof (so_wf _ Hok) as [L Hinv].
  destruct (palloc_ok b L n Hinv ltac:(lia)) as (r & b' & L' & E & _ & Hr). exists r, b'. split; [done|].
  destruct r as [a|].
  - destruct Hr as (_ & _ & _ & Hfree & _). split.
    + destruct (runs !! a) as [k|] eqn:Ha; [|done]. exfalso.
      destruct (so_live _ Hok a (Z.log2_up k)) as (Ho & _ & _ & Hno); [simpl; by rewrite lookup_fmap, Ha|].
      pose proof (blk_pos (Z.log2_up n) (Z.log2_up_nonneg n)). pose proof (blk_pos (Z.log2_up k) ltac:(lia)).
      specialize (Hno a). specialize (Hfree a). simpl in Hno. rewrite Hfree in Hno by (unfold covers; lia).
      discriminate Hno. unfold covers. lia.
    + split; [rewrite fmap_insert; by eapply palloc_sys|].
      intros x k [[<- <-]|[_ Hx]]%lookup_insert_Some; [done|by eapply Hb].
  - destruct Hr as [-> _]. done.
Qed.

Lemma bbuddy_pfree_spec b runs a n :
  bbuddy_ok b runs -> runs !! a = Some n -> exists b', bbuddy_pfree a n b = Ok (tt, b') /\ bbuddy_ok b' (delete a runs).
Proof.
  intros [Hok Hb] Ha. pose proof (so_wf _ Hok) as [L Hinv].
  assert (Hl : (Z.log2_up <$> runs) !! a = Some (Z.log2_up n)) by (by rewrite lookup_fmap, Ha).
  destruct (so_live _ Hok a _ Hl) as (_ & Hal & Hsp & Hno).
  destruct (pfree_ok b L a n Hinv (Hb a n Ha) Hal Hsp Hno) as (b' & L' & E & _). exists b'. split; [done|].
  split; [rewrite fmap_delete; eapply pfree_sys; [exact Hok|by apply (Hb a n)|exact Hl|exact E]|].
  intros x k [_ Hx]%lookup_delete_Some. by eapply Hb.
Qed.

Lemma log2_up_covers n : 1 <= n -> 4096 * n <= blk (Z.log2_up n).
Proof.
  intros Hn. unfold blk. destruct (decide (n = 1)) as [->|]; [done|].
  pose proof (Z.log2_up_spec n). lia.
Qed.

Lemma bbuddy_run b runs a n :
  bbuddy_ok b runs -> runs !! a = Some n -> 0 < a /\ a mod 4096 = 0 /\ 1 <= n <= 2 ^ 51 /\ a + 4096 * n < 2 ^ 64.
Proof.
  intros [Hok Hb] Ha. destruct (so_wf _ Hok) as [L Hinv].
  destruct (so_live _ Hok a (Z.log2_up n)) as (Ho & Hal & (k & r & Hk & S1 & S2) & _); [simpl; by rewrite lookup_fmap, Ha|].
  destruct (proj1 (bi_regions _ _ _ Hinv) k r Hk) as (W1 & W2 & W3 & W4 & W5).
  pose proof (log2_up_covers n ltac:(pose proof (Hb a n Ha); lia)) as Hc. unfold blk in *.
  split_and!; [lia| |by apply (Hb a n)..|lia].
  destruct Hal as [q ->]. rewrite Z.mul_assoc, (Z.mul_comm q), <- Z.mul_assoc, Z.mul_comm. apply Z_mod_mult.
Qed.

Lemma bbuddy_apart b runs a n a' n' :
  bbuddy_ok b runs -> runs !! a = Some n -> runs !! a' = Some n' -> a <> a' ->
  a + 4096 * n <= a' \/ a' + 4096 * n' <= a.
Proof.
  intros [Hok Hb] Ha Ha' Hne.
  pose proof (log2_up_covers n ltac:(pose proof (Hb a n Ha); lia)).
  pose proof (log2_up_covers n' ltac:(pose proof (Hb a' n' Ha'); lia)).
  pose proof (Hb a n Ha). pose proof (Hb a' n' Ha').
  destruct (decide (a + 4096 * n <= a' \/ a' + 4096 * n' <= a)) as [|Hno]; [done|]. destruct Hne.
  apply (so_apart _ Hok a (Z.log2_up n) a' (Z.log2_up n') (Z.max a a'));
    [by (simpl; rewrite lookup_fmap, Ha)|by (simpl; rewrite lookup_fmap, Ha')|unfold covers; lia..].
Qed.

#[export] Instance bbuddy_page_alloc : PageAlloc uk_bbpalloc := {|
  pa_palloc := bbuddy_palloc;
  pa_pfree := bbuddy_pfree;
  pa_ok := bbuddy_ok;
  pa_palloc_spec := bbuddy_palloc_spec;
  pa_pfree_spec := bbuddy_pfree_spec;
  pa_run := bbuddy_run;
  pa_apart := bbuddy_apart
|}.

(** ** A concrete heap on the allocator with 15 pages *)

Definition demo_heap : astate uk_bbpalloc := AState demo_buddy ∅ (fun _ => 0).

Lemma heap_ok_start b : well_formed b -> heap_ok (AState b ∅ (fun _ => 0)) ∅.
Proof.
  intros Hwf. exists ∅. split; [split; [rewrite fmap_empty; by apply sys_ok_start|intros a n H; by rewrite lookup_empty in H]|].
  split; [intros p s H; by rewrite lookup_empty in H|intros p s q t k n H; by rewrite lookup_empty in H].
Qed.

Lemma demo_heap_ok : heap_ok demo_heap ∅.
Proof. exact (heap_ok_start demo_buddy demo_buddy_wf). Qed.

(** The heap after [malloc(100)], and the address that was returned. *)
Definition demo_heap1 : astate uk_bbpalloc :=
  match uk_malloc_ifpages 100 demo_heap with Ok (_, st) => st | _ => demo_heap end.

Lemma demo_malloc : uk_malloc_ifpages 100 demo_heap = Ok (4198416, demo_heap1).
Proof. vm_compute. reflexivity. Qed.

Lemma heap_step_malloc (st st' : astate uk_bbpalloc) objs size r :
  0 < size <= malloc_max -> uk_malloc_ifpages size st = Ok (r, st') -> r <> 0 ->
  heap_step (st, objs) (st', <[r := size]> objs).
Proof.
  intros Hs E Hr. pose proof (hs_malloc st objs size r st' Hs E) as H. by replace (r =? 0) with false in H by lia.
Qed.

Lemma demo_heap_step : heap_step (demo_heap, ∅) (demo_heap1, <[4198416 := 100]> ∅).
Proof.
  refine (heap_step_malloc demo_heap demo_heap1 ∅ 100 4198416 _ demo_malloc _); [unfold malloc_max; lia|lia].
Qed.

Lemma demo_heap1_ok : heap_ok demo_heap1 (<[4198416 := 100]> ∅).
Proof. exact (heap_step_pair _ _ _ _ demo_heap_ok demo_heap_step). Qed.

Lemma heap_runs_safe_witness :
  exists s, rtc heap_step (demo_heap, ∅) s /\ s.2 !! 4198416 = Some 100 /\
  (forall p t q u, s.2 !! p = Some t -> s.2 !! q = Some u -> p <> q -> p + t <= q \/ q + u <= p) /\
  (forall p t q u m, s.2 !! p = Some t -> s.2 !! q = Some u -> uk_get_metadata q = Ok m ->
     m + SIZEOF_METADATA <= p \/ p + t <= m) /\
  (forall size, 0 < size <= malloc_max -> exists r st', uk_malloc_ifpages size s.1 = Ok (r, st')) /\
  (forall nmemb size, 0 < nmemb * size <= malloc_max -> exists r st', uk_calloc_compat nmemb size s.1 = Ok (r, st')) /\
  (forall k size, 3 <= k <= 61 -> 0 < size <= malloc_max ->
     exists r st', uk_posix_memalign_ifpages (2 ^ k) size s.1 = Ok (r, st')) /\
  (forall p t size, s.2 !! p = Some t -> 0 < size <= malloc_max ->
     exists r st', uk_realloc_ifpages p size s.1 = Ok (r, st')) /\
  (forall p t, s.2 !! p = Some t -> exists st', uk_free_ifpages p s.1 = Ok (tt, st')).
Proof.
  exists (demo_heap1, <[4198416 := 100]> ∅). split; [apply rtc_once; exact demo_heap_step|]. split; [reflexivity|].
  exact (heap_runs_safe demo_heap _ demo_heap_ok (rtc_once _ _ demo_heap_step)).
Defined.

Lemma realloc_preserves_witness :
  exists r st', uk_realloc_ifpages 4198416 5000 demo_heap1 = Ok (r, st') /\
    (r = 0 /\ heap_ok st' (<[4198416 := 100]> ∅) /\ a_bytes st' = a_bytes demo_heap1 \/
     r <> 0 /\ (<[4198416 := 100]> ∅ : gmap Z Z) !! r = None /\
     heap_ok st' (<[r := 5000]> (delete 4198416 (<[4198416 := 100]> ∅))) /\
     (forall i, 0 <= i < Z.min 100 5000 -> a_bytes st' (r + i) = a_bytes demo_heap1 (4198416 + i)) /\
     (forall q t i, (<[4198416 := 100]> ∅ : gmap Z Z) !! q = Some t -> 0 <= i < t ->
        a_bytes st' (q + i) = a_bytes demo_heap1 (q + i))).
Proof.
  refine (realloc_preserves demo_heap1 _ 4198416 100 5000 demo_heap1_ok _ _); [reflexivity|unfold malloc_max; lia].
Defined.

Lemma memalign_aligned_witness :
  exists r st1, uk_posix_memalign_ifpages (2 ^ 6) 100 demo_heap = Ok (r, st1) /\
    (r = (ENOMEM, None) \/
     exists ptr st2, r = (0, Some ptr) /\ (2 ^ 6 | ptr) /\ (∅ : gmap Z Z) !! ptr = None /\
       uk_free_ifpages ptr st1 = Ok (tt, st2) /\ heap_ok st2 ∅).
Proof.
  refine (memalign_aligned demo_heap ∅ 6 100 demo_heap_ok _ _); [lia|unfold malloc_max; lia].
Defined.

(** ** Request sizes that wrap around *)

(** [uk_calloc_compat] does not check the product for overflow: a request
    for 2^63 + 1 members of 2 bytes returns a non-null object whose run is a
    single page. *)
Theorem calloc_overflow :
  result ((p ← uk_calloc_compat (2 ^ 63 + 1) 2; n ← uk_getmallocsize p; mret (p, n)) demo_heap) = Some (4198416, 4080).
Proof. vm_compute. reflexivity. Qed.

(** [uk_malloc_ifpages] does not check the size with the metadata for
    overflow: a request for 2^64 - 1 bytes returns a non-null object in a
    single page. *)
Theorem malloc_overflow :
  result ((p ← uk_malloc_ifpages (2 ^ 64 - 1); n ← uk_getmallocsize p; mret (p, n)) demo_heap) = Some (4198416, 4080).
Proof. vm_compute. reflexivity. Qed.

(** ** The list of allocators *)

(** The walk ends at the last element of the list. *)
Lemma list_last_ok nx a l fuel :
  linked nx a l -> a <> 0 -> (length l <= fuel)%nat ->
  exists l' this, l = l' ++ [this] /\ list_last fuel a nx = Ok this.
Proof.
  intros Hr. revert fuel. induction Hr as [|a n l Ha Hn Hl IH]; intros fuel H0 Hf; [done|].
  destruct fuel as [|fuel]; simpl in Hf; [lia|]. simpl. rewrite Hn. destruct (Z.eqb_spec n 0) as [->|Hn0].
  - assert (l = []) as -> by (by inversion Hl). by exists [], a.
  - destruct (IH fuel Hn0 ltac:(lia)) as (l' & this & -> & E). by exists (a :: l'), this.
Qed.

(** Registration appends: registering an allocator that is not on the list
    puts it behind all others and keeps their order, so the default allocator
    is the first one that registered. *)
Theorem register_appends s l a :
  linked (a_next s) (uk_alloc_head s) l -> NoDup l -> a <> 0 -> a ∉ l ->
  exists s', uk_alloc_register a s = Ok (0, s') /\ linked (a_next s') (uk_alloc_head s') (l ++ [a]).
Proof.
  intros Hr Hnd Ha Hal. unfold uk_alloc_register. destruct (Z.eqb_spec (uk_alloc_head s) 0) as [H0|H0].
  - eexists. split; [done|]. rewrite H0 in Hr. assert (l = []) as -> by (by inversion Hr). simpl.
    apply (linked_cons _ _ 0); [done|by rewrite lookup_insert_eq|constructor].
  - pose proof (linked_length _ _ _ Hr Hnd).
    destruct (list_last_ok _ _ l (S (size (a_next s))) Hr H0 ltac:(lia)) as (l' & this & -> & E).
    rewrite E. eexists. split; [done|]. by apply linked_snoc.
Qed.

Lemma register_appends_witness :
  exists s', uk_alloc_register 300 (AllocList 100 {[100 := 200; 200 := 0]}) = Ok (0, s') /\
    linked (a_next s') (uk_alloc_head s') ([100; 200] ++ [300]).
Proof.
  apply register_appends.
  - apply (linked_cons _ _ 200); [done|reflexivity|]. apply (linked_cons _ _ 0); [done|reflexivity|constructor].
  - repeat constructor; set_solver.
  - done.
  - set_solver.
Defined.

(** Making a registered allocator the default does not: the head of the
    list stays what it was, and the allocator is no longer reached from it. *)
Theorem set_default_loses_allocator :
  exists s', uk_alloc_set_default 300 (AllocList 100 {[100 := 200; 200 := 300; 300 := 0]}) = Ok (0, s') /\
    uk_alloc_head s' = 100 /\ linked (a_next s') (uk_alloc_head s') [100; 200].
Proof.
  eexists. split; [vm_compute; reflexivity|]. split; [done|].
  apply (linked_cons _ _ 200); [done|reflexivity|]. apply (linked_cons _ _ 0); [done|reflexivity|constructor].
Qed.
