(* ===== verification/Uio.v ===== *)
(** Scatter/gather lists of vfscore (vfscore/include/vfscore/uio.h and
    subr_uio.c): [vfscore_uioforeach] and [vfscore_uiomove].

    The memory of the caller is a function from addresses to bytes; a buffer of
    the file system is a list of bytes, and accesses outside of it are
    undefined.  File offsets and byte counts are below 2^63, so their updates
    are not wrapped. *)
From S2P Require Import Prelude.
From stdpp Require Import base numbers list list_numbers.
#[local] Open Scope Z_scope.

(** ** Memory *)

Definition mem : Type := Z -> Z.

(** [memcpy] from caller memory, and to it. *)
Definition load (m : mem) (a n : Z) : list Z := m <$> seqZ a n.
Definition store (m : mem) (a : Z) (l : list Z) : mem := fun x =>
  if (a <=? x) && (x <? a + Z.of_nat (length l)) then l !!! Z.to_nat (x - a) else m x.

(** [memcpy] from a buffer, and to it. *)
Definition seg_get (buf : list Z) (off n : Z) : outcome (list Z) :=
  if (0 <=? off) && (0 <=? n) && (off + n <=? Z.of_nat (length buf))
  then Ok (take (Z.to_nat n) (drop (Z.to_nat off) buf)) else Undef.
Definition seg_put (buf : list Z) (off : Z) (l : list Z) : outcome (list Z) :=
  if (0 <=? off) && (off + Z.of_nat (length l) <=? Z.of_nat (length buf))
  then Ok (take (Z.to_nat off) buf ++ l ++ drop (Z.to_nat off + length l) buf) else Undef.

(** ** Data *)

Record iovec := Iovec { iov_base : Z; iov_len : Z }.

Inductive uio_rw := UIO_READ | UIO_WRITE.

Record uio := Uio {
  uio_iov : list iovec;
  uio_iovcnt : Z;
  uio_offset : Z;
  uio_resid : Z;
  uio_op : uio_rw
}.

(** ** Operations *)

Section Foreach.
Context {S : Type} (f : uio_rw -> Z -> Z -> Z -> M S (Z * Z)).

(** [f rw base cp cnt] is the call [f(iov_base, cp, &cnt)] or, for writes,
    [f(cp, iov_base, &cnt)]; it returns its result and the new [cnt]. *)
Fixpoint vfscore_uioforeach (fuel : nat) (cp n : Z) (u : uio) : M S (Z * uio) :=
  if (0 <? n) && negb (uio_resid u =? 0) then
    match fuel, uio_iov u with
    | O, _ => spin
    | _, [] => undef
    | Datatypes.S fuel', iov :: rest =>
        if iov_len iov =? 0
        then vfscore_uioforeach fuel' cp n (Uio rest (uio_iovcnt u - 1) (uio_offset u) (uio_resid u) (uio_op u))
        else
          r ← f (uio_op u) (iov_base iov) cp (if n <? iov_len iov then n else iov_len iov);
          let '(ret, cnt) := r in
          let u' := Uio (Iovec (iov_base iov + cnt) (iov_len iov - cnt) :: rest) (uio_iovcnt u)
                        (uio_offset u + cnt) (uio_resid u - cnt) (uio_op u) in
          if negb (ret =? 0) then mret (ret, u') else vfscore_uioforeach fuel' (cp + cnt) (n - cnt) u'
    end
  else mret (0, u).

End Foreach.

(** The caller's memory and the file-system buffer [cp] points into. *)
Definition iostate : Type := mem * list Z.

Definition memcpy_wrapper (rw : uio_rw) (base cp cnt : Z) : M iostate (Z * Z) := fun s =>
  match rw with
  | UIO_READ => l ← seg_get s.2 cp cnt; Ok ((0, cnt), (store s.1 base l, s.2))
  | UIO_WRITE => b ← seg_put s.2 cp (load s.1 base cnt); Ok ((0, cnt), (s.1, b))
  end.

(** Every element of the list takes at most two turns of the loop. *)
Definition vfscore_uiomove (cp n : Z) (u : uio) : M iostate (Z * uio) :=
  vfscore_uioforeach memcpy_wrapper (2 * length (uio_iov u)) cp (u64 (s32 n)) u.

(** ** Memory lemmas *)

(** The addresses a scatter/gather list covers, in order. *)
Definition addrs (iov : list iovec) : list Z := iov ≫= fun v => seqZ (iov_base v) (iov_len v).

Lemma load_app m a n k : 0 <= n -> 0 <= k -> load m a (n + k) = load m a n ++ load m (a + n) k.
Proof. intros Hn Hk. unfold load. by rewrite seqZ_app, fmap_app. Qed.

Lemma load_length m a n : length (load m a n) = Z.to_nat n.
Proof. unfold load. by rewrite length_fmap, length_seqZ. Qed.

Lemma store_out m a l x : x ∉ seqZ a (Z.of_nat (length l)) -> store m a l x = m x.
Proof.
  intros Hx. unfold store. rewrite elem_of_seqZ in Hx.
  by replace ((a <=? x) && (x <? a + Z.of_nat (length l))) with false by lia.
Qed.

Lemma load_store m a l : load (store m a l) a (Z.of_nat (length l)) = l.
Proof.
  apply list_eq. intros i. unfold load. rewrite list_lookup_fmap.
  destruct (decide (i < length l)%nat) as [Hi|Hi].
  - rewrite lookup_seqZ_lt by lia. simpl. unfold store.
    replace ((a <=? a + Z.of_nat i) && (a + Z.of_nat i <? a + Z.of_nat (length l))) with true by lia.
    replace (Z.to_nat (a + Z.of_nat i - a)) with i by lia. by rewrite list_lookup_lookup_total_lt by done.
  - rewrite lookup_seqZ_ge by lia. symmetry. apply lookup_ge_None. lia.
Qed.

Lemma fmap_ext_elem {A B} (f g : A -> B) (l : list A) : (forall x, x ∈ l -> f x = g x) -> f <$> l = g <$> l.
Proof.
  induction l as [|x l IH]; intros H; [done|]. simpl. f_equal; [apply H; left|]. apply IH. intros y Hy. apply H. by right.
Qed.

Lemma seg_get_ok buf off n :
  0 <= off -> 0 <= n -> off + n <= Z.of_nat (length buf) ->
  seg_get buf off n = Ok (take (Z.to_nat n) (drop (Z.to_nat off) buf)).
Proof.
  intros. unfold seg_get. by replace ((0 <=? off) && (0 <=? n) && (off + n <=? Z.of_nat (length buf))) with true by lia.
Qed.

Lemma seg_put_ok buf off l :
  0 <= off -> off + Z.of_nat (length l) <= Z.of_nat (length buf) ->
  seg_put buf off l = Ok (take (Z.to_nat off) buf ++ l ++ drop (Z.to_nat off + length l) buf).
Proof.
  intros. unfold seg_put.
  by replace ((0 <=? off) && (off + Z.of_nat (length l) <=? Z.of_nat (length buf))) with true by lia.
Qed.

(** Two adjacent pieces put into a buffer are one piece. *)
Lemma seg_put_join {A} (buf l l' : list A) off :
  (off + length l <= length buf)%nat ->
  let b := take off buf ++ l ++ drop (off + length l) buf in
  take (off + length l) b ++ l' ++ drop (off + length l + length l') b =
  take off buf ++ (l ++ l') ++ drop (off + length (l ++ l')) buf.
Proof.
  intros H b. assert (length (take off buf) = off) as Hl by (rewrite length_take; lia).
  assert (take (off + length l) b = take off buf ++ l) as ->.
  { unfold b. rewrite app_assoc, take_app_length'; [done|rewrite length_app; lia]. }
  assert (drop (off + length l + length l') b = drop (off + length (l ++ l')) buf) as ->.
  { unfold b. rewrite app_assoc, <- drop_drop, drop_app_length' by (rewrite length_app; lia).
    rewrite drop_drop, length_app. f_equal. lia. }
  by rewrite <- !app_assoc.
Qed.

(** ** Moving bytes *)

(** Loop iterations left: two per element, one for an element of length 0. *)
Definition turns (iov : list iovec) : nat :=
  sum_list_with (fun v => if iov_len v =? 0 then 1%nat else 2%nat) iov.

Lemma turns_bound iov : (turns iov <= 2 * length iov)%nat.
Proof. induction iov as [|v r IH]; simpl; [lia|]. unfold turns in *. simpl. destruct (_ =? _); lia. Qed.

(** A consistent request: lengths are not negative and [uio_resid] is their sum. *)
Definition uio_ok (u : uio) : Prop :=
  Forall (fun v => 0 <= iov_len v) (uio_iov u) /\ uio_resid u = Z.of_nat (length (addrs (uio_iov u))).

#[global] Arguments addrs _ : simpl never.

Lemma addrs_cons v r : addrs (v :: r) = seqZ (iov_base v) (iov_len v) ++ addrs r.
Proof. done. Qed.

(** [u'] is [u] after [k] bytes. *)
Definition uio_advanced (u u' : uio) (k : nat) : Prop :=
  uio_ok u' /\ addrs (uio_iov u') = drop k (addrs (uio_iov u)) /\
  uio_offset u' = uio_offset u + Z.of_nat k /\ uio_resid u' = uio_resid u - Z.of_nat k /\ uio_op u' = uio_op u.

Lemma uio_advanced_trans u1 u2 u3 j k :
  uio_advanced u1 u2 j -> uio_advanced u2 u3 k -> uio_advanced u1 u3 (j + k).
Proof.
  intros (_ & A1 & O1 & R1 & W1) (Ok3 & A2 & O2 & R2 & W2). split; [done|].
  rewrite A2, A1, drop_drop. split; [done|]. split; [lia|]. split; [lia|congruence].
Qed.

(** One non-empty piece: [cnt] bytes from the first element. *)
Definition uio_piece (u : uio) (v : iovec) (rest : list iovec) (cnt : Z) : uio :=
  Uio (Iovec (iov_base v + cnt) (iov_len v - cnt) :: rest) (uio_iovcnt u)
      (uio_offset u + cnt) (uio_resid u - cnt) (uio_op u).

Lemma addrs_piece u v rest cnt :
  0 <= cnt <= iov_len v ->
  addrs (v :: rest) = seqZ (iov_base v) cnt ++ addrs (uio_iov (uio_piece u v rest cnt)).
Proof.
  intros Hc. simpl. rewrite !addrs_cons. simpl. rewrite app_assoc, <- seqZ_app by lia. do 2 f_equal. lia.
Qed.

Lemma uio_piece_advanced u v rest cnt :
  uio_ok u -> uio_iov u = v :: rest -> 0 <= cnt <= iov_len v ->
  uio_advanced u (uio_piece u v rest cnt) (Z.to_nat cnt).
Proof.
  intros [Hf Hr] Hv Hc. rewrite Hv in Hf, Hr. apply Forall_cons in Hf as [Hv0 Hf].
  pose proof (addrs_piece u v rest cnt Hc) as Ha.
  pose proof (f_equal length Ha) as Hl. rewrite length_app, length_seqZ in Hl. split; [split|].
  - simpl. apply Forall_cons. simpl. split; [lia|done].
  - cbn [uio_resid uio_piece]. rewrite Hr. lia.
  - rewrite Hv, Ha, drop_app_length' by (by rewrite length_seqZ). split; [done|]. cbn [uio_offset uio_resid uio_op uio_piece].
    split; [lia|]. split; [lia|done].
Qed.

Lemma uio_skip_advanced u v rest :
  uio_ok u -> uio_iov u = v :: rest -> iov_len v = 0 ->
  uio_advanced u (Uio rest (uio_iovcnt u - 1) (uio_offset u) (uio_resid u) (uio_op u)) 0.
Proof.
  intros [Hf Hr] Hv H0. rewrite Hv in Hf, Hr. apply Forall_cons in Hf as [_ Hf].
  rewrite addrs_cons, H0 in Hr. split; [done|]. simpl. rewrite Hv, addrs_cons, H0. simpl. rewrite !Z.add_0_r, Z.sub_0_r. done.
Qed.

Definition moved (n : Z) (u : uio) : nat := Z.to_nat (Z.min n (uio_resid u)).

(** What the copies of one run did to memory and buffer. *)
Definition copied (rw : uio_rw) (as_ : list Z) (cp : Z) (s s' : iostate) : Prop :=
  match rw with
  | UIO_READ => s'.2 = s.2 /\ (forall x, x ∉ as_ -> s'.1 x = s.1 x) /\
      s'.1 <$> as_ = take (length as_) (drop (Z.to_nat cp) s.2)
  | UIO_WRITE => s'.1 = s.1 /\
      s'.2 = take (Z.to_nat cp) s.2 ++ (s.1 <$> as_) ++ drop (Z.to_nat cp + length as_) s.2
  end.

Lemma copied_nil rw cp s : copied rw [] cp s s.
Proof.
  destruct rw; simpl; [done|]. split; [done|]. by rewrite Nat.add_0_r, take_drop.
Qed.

Lemma copied_app rw l1 l2 cp s1 s2 s3 :
  0 <= cp -> cp + Z.of_nat (length l1 + length l2) <= Z.of_nat (length s1.2) -> NoDup (l1 ++ l2) ->
  copied rw l1 cp s1 s2 -> copied rw l2 (cp + Z.of_nat (length l1)) s2 s3 -> copied rw (l1 ++ l2) cp s1 s3.
Proof.
  intros Hcp Hb Hnd. apply NoDup_app in Hnd as (_ & Hdis & _).
  destruct rw; simpl.
  - intros (B1 & F1 & V1) (B2 & F2 & V2). split; [congruence|]. split.
    + intros x Hx. rewrite elem_of_app in Hx. rewrite F2, F1; tauto.
    + rewrite fmap_app, V2, B1. rewrite (fmap_ext_elem s3.1 s2.1 l1), V1 by (intros x Hx; apply F2; by apply Hdis).
      rewrite length_app. replace (Z.to_nat (cp + Z.of_nat (length l1))) with (Z.to_nat cp + length l1)%nat by lia.
      by rewrite <- drop_drop, take_take_drop.
  - intros (B1 & V1) (B2 & V2). split; [congruence|]. rewrite V2, V1, B1.
    replace (Z.to_nat (cp + Z.of_nat (length l1))) with (Z.to_nat cp + length (s1.1 <$> l1))%nat by (rewrite length_fmap; lia).
    rewrite fmap_app, <- (length_fmap s1.1 l2), <- (length_fmap s1.1 l1). rewrite seg_put_join; [|rewrite length_fmap; lia].
    by rewrite !length_app, !length_fmap.
Qed.

Lemma copied_buf rw l cp s s' :
  0 <= cp -> cp + Z.of_nat (length l) <= Z.of_nat (length s.2) -> copied rw l cp s s' -> length s'.2 = length s.2.
Proof.
  intros H0 H1. destruct rw; simpl; [by intros [-> _]|]. intros [_ ->].
  rewrite !length_app, length_take, length_fmap, length_drop. lia.
Qed.

Lemma memcpy_wrapper_ok rw base cp cnt s :
  0 <= cp -> 0 <= cnt -> cp + cnt <= Z.of_nat (length s.2) ->
  exists s', memcpy_wrapper rw base cp cnt s = Ok ((0, cnt), s') /\ copied rw (seqZ base cnt) cp s s'.
Proof.
  intros H0 Hc Hb. unfold memcpy_wrapper. destruct rw.
  - rewrite seg_get_ok by done. eexists. split; [done|]. simpl. set (l := take _ _).
    assert (Hl : Z.of_nat (length l) = cnt) by (subst l; rewrite length_take, length_drop; lia).
    rewrite length_seqZ. split; [done|]. split; [intros x Hx; apply store_out; by rewrite Hl|].
    pose proof (load_store s.1 base l) as H. rewrite Hl in H. exact H.
  - pose proof (load_length s.1 base cnt) as Hl. rewrite seg_put_ok by lia. eexists. split; [done|]. simpl.
    split; [done|]. by rewrite Hl, length_seqZ.
Qed.

(** The result of a run of the loop from [u], [s]. *)
Definition foreach_result (fuel : nat) (cp n : Z) (u : uio) (s : iostate) : Prop :=
  exists u' s', vfscore_uioforeach memcpy_wrapper fuel cp n u s = Ok ((0, u'), s') /\
    uio_advanced u u' (moved n u) /\ copied (uio_op u) (take (moved n u) (addrs (uio_iov u))) cp s s'.

Lemma foreach_stop fuel cp n u s :
  uio_ok u -> (0 <? n) && negb (uio_resid u =? 0) = false -> 0 <= n -> foreach_result fuel cp n u s.
Proof.
  intros Hu Hc Hn. pose proof Hu as [_ Hr]. exists u, s. assert (moved n u = 0%nat) as -> by (unfold moved; lia).
  rewrite take_0. split; [destruct fuel; simpl; by rewrite Hc|].
  split; [split; [done|]; rewrite drop_0; split_and!; [done|lia..|done]|apply copied_nil].
Qed.

(** A piece of [cnt] bytes followed by a run for the rest. *)
Lemma foreach_piece fuel cp n u s s1 v r cnt :
  uio_ok u -> uio_iov u = v :: r -> NoDup (addrs (uio_iov u)) ->
  0 < cnt <= iov_len v -> cnt <= n -> cnt <= uio_resid u ->
  0 <= cp -> cp + Z.min n (uio_resid u) <= Z.of_nat (length s.2) ->
  copied (uio_op u) (seqZ (iov_base v) cnt) cp s s1 ->
  foreach_result fuel (cp + cnt) (n - cnt) (uio_piece u v r cnt) s1 ->
  exists u' s', vfscore_uioforeach memcpy_wrapper fuel (cp + cnt) (n - cnt) (uio_piece u v r cnt) s1 = Ok ((0, u'), s') /\
    uio_advanced u u' (moved n u) /\ copied (uio_op u) (take (moved n u) (addrs (uio_iov u))) cp s s'.
Proof.
  intros Hu Hv Hnd Hc Hcn Hcr Hcp Hb C1 (u' & s' & E & A & C). exists u', s'. split; [exact E|].
  pose proof (uio_piece_advanced u v r cnt Hu Hv ltac:(lia)) as Ha.
  assert (moved n u = (Z.to_nat cnt + moved (n - cnt) (uio_piece u v r cnt))%nat) as -> by (unfold moved; simpl; lia).
  split; [by eapply uio_advanced_trans|]. rewrite Hv, (addrs_piece u v r cnt) in * by lia.
  replace (Z.to_nat cnt) with (length (seqZ (iov_base v) cnt)) by (apply length_seqZ). rewrite take_app_add.
  eapply copied_app; [done| |eapply sublist_NoDup; [exact Hnd|apply sublist_app; [done|apply sublist_take]]|exact C1|].
  - rewrite length_take, length_seqZ. unfold moved. simpl. lia.
  - rewrite length_seqZ, Z2Nat.id by lia. exact C.
Qed.

Lemma uioforeach_ok fuel cp n u s :
  uio_ok u -> 0 <= n -> 0 <= cp -> cp + Z.min n (uio_resid u) <= Z.of_nat (length s.2) ->
  NoDup (addrs (uio_iov u)) -> (turns (uio_iov u) <= fuel)%nat -> foreach_result fuel cp n u s.
Proof.
  revert cp n u s. induction fuel as [|fuel IH]; intros cp n u s Hu Hn Hcp Hb Hnd Hf; pose proof Hu as [Hlen Hres].
  all: destruct ((0 <? n) && negb (uio_resid u =? 0)) eqn:Hc; [|by apply foreach_stop].
  all: destruct (uio_iov u) as [|v r] eqn:Hv; [simpl in Hres; lia|]; unfold turns in Hf; simpl in Hf; fold (turns r) in Hf.
  - destruct (_ =? _); lia.
  - unfold foreach_result. simpl. rewrite Hc, Hv. apply Forall_cons in Hlen as [Hv0 Hlen].
    destruct (Z.eqb_spec (iov_len v) 0) as [H0|H0].
    + pose proof (uio_skip_advanced u v r Hu Hv H0) as Ha. rewrite addrs_cons, H0 in *. simpl in Hnd |- *.
      destruct (IH cp n _ s (proj1 Ha) Hn Hcp) as (u' & s' & E & A & C); simpl; [done..|lia|].
      exists u', s'. split; [exact E|]. split; [exact (uio_advanced_trans _ _ _ 0 _ Ha A)|exact C].
    + set (cnt := if n <? iov_len v then n else iov_len v).
      assert (Hcnt : 0 < cnt <= iov_len v /\ cnt <= n /\ cnt <= uio_resid u).
      { rewrite addrs_cons, length_app, length_seqZ in Hres. subst cnt. destruct (Z.ltb_spec n (iov_len v)); lia. }
      destruct (memcpy_wrapper_ok (uio_op u) (iov_base v) cp cnt s Hcp) as (s1 & E1 & C1); [lia..|].
      rewrite (bind_ret _ _ _ _ _ E1). simpl. rewrite <- Hv in Hnd |- *.
      assert (length s1.2 = length s.2) by (eapply copied_buf, C1; rewrite ?length_seqZ; lia).
      pose proof (uio_piece_advanced u v r cnt Hu Hv ltac:(lia)) as Ha.
      eapply foreach_piece; [done..|lia|lia|lia|lia|lia|exact C1|].
      destruct (decide (n = cnt)); [apply foreach_stop; [apply Ha|simpl; lia|lia]|].
      apply IH; [apply Ha|lia|lia|simpl; lia| |].
      * rewrite Hv, (addrs_piece u v r cnt) in Hnd by lia. by apply NoDup_app in Hnd as (_ & _ & ?).
      * simpl. unfold turns. simpl. fold (turns r). replace (iov_len v - cnt =? 0) with true; [lia|].
        subst cnt. destruct (Z.ltb_spec n (iov_len v)); lia.
Qed.

(** C29. Scatter/gather copies are exact: for a consistent request over distinct
    addresses, [vfscore_uiomove] returns 0 after moving the smaller of [n] and the
    remaining bytes, in order and between exactly these addresses and the buffer, and
    advances the request by that many bytes. The buffer is large enough for the request. *)
Theorem uiomove_exact cp n u s :
  uio_ok u -> 0 <= n < 2 ^ 31 -> 0 <= cp -> cp + Z.min n (uio_resid u) <= Z.of_nat (length s.2) ->
  NoDup (addrs (uio_iov u)) ->
  exists u' s', vfscore_uiomove cp n u s = Ok ((0, u'), s') /\
    uio_advanced u u' (moved n u) /\ copied (uio_op u) (take (moved n u) (addrs (uio_iov u))) cp s s'.
Proof.
  intros Hu Hn Hcp Hb Hnd. unfold vfscore_uiomove. rewrite u64_s32 by done.
  by apply uioforeach_ok; [..|apply turns_bound]; [|lia|..].
Qed.

Lemma uiomove_exact_witness :
  exists u' s', vfscore_uiomove 1 3 (Uio [Iovec 100 2; Iovec 50 4] 2 7 6 UIO_READ) (fun _ => 0, [10; 11; 12; 13; 14]) = Ok ((0, u'), s') /\
    uio_advanced (Uio [Iovec 100 2; Iovec 50 4] 2 7 6 UIO_READ) u' 3 /\
    copied UIO_READ [100; 101; 50] 1 (fun _ => 0, [10; 11; 12; 13; 14]) s'.
Proof.
  apply (uiomove_exact 1 3 (Uio [Iovec 100 2; Iovec 50 4] 2 7 6 UIO_READ) (fun _ => 0, [10; 11; 12; 13; 14]));
    [split; [repeat constructor; simpl; lia|reflexivity]|lia|lia|simpl; lia|].
  change (addrs _) with [100; 101; 50; 51; 52; 53]. apply (bool_decide_unpack _). reflexivity.
Defined.
