(* ===== verification/Pipe.v ===== *)
(** Anonymous pipes (vfscore/pipe.c): the ring buffer and the read, write,
    close and ioctl operations.

    The whole of pipe.c stands between [#if 0] and [#endif]: the file is on the
    build's list, but nothing of it is compiled, and no image of the system has
    pipes.  What is proved here is about that disabled source, as it would
    behave if it were enabled, and not about the running program.

    With a cooperative scheduler a thread that runs one of the operations is
    interrupted only where it waits.  ([uk_sched_yield], sched.h:108, returns at
    once in this tree, so a wait would spin instead of giving way.)
    [pipe_write] and [pipe_read] are therefore given as functions that run one turn of the calling thread: from
    a position in its request up to the end, or to the wait.  The locks and wait
    queues carry no data and are left out. *)
From S2P Require Import Prelude Uio.
From stdpp Require Import base numbers list list_numbers relations.
Import Errno.
#[local] Open Scope Z_scope.

(** ** The ring buffer *)

Record pipe_buf := PipeBuf { data : list Z; capacity : Z; prod : Z; cons : Z }.

Definition pstate : Type := mem * pipe_buf.

Definition POWER_OF_2 (v : Z) : bool := negb (v =? 0) && (Z.land v (v - 1) =? 0).

(** [bytes] is what [malloc] leaves in the buffer. *)
Definition pipe_buf_alloc (bytes : list Z) (cap : Z) : outcome pipe_buf :=
  if POWER_OF_2 cap then Ok (PipeBuf bytes cap 0 0) else Abort.

Definition PIPE_BUF_IDX (b : pipe_buf) (n : Z) : Z := Z.land n (u64 (capacity b - 1)).

Definition pipe_buf_get_available (b : pipe_buf) : Z := u64 (prod b - cons b).
Definition pipe_buf_get_free_space (b : pipe_buf) : Z := u64 (capacity b - pipe_buf_get_available b).
Definition pipe_buf_can_write (b : pipe_buf) : bool := 0 <? pipe_buf_get_free_space b.
Definition pipe_buf_can_read (b : pipe_buf) : bool := 0 <? pipe_buf_get_available b.

Definition pipe_buf_write (iovec : iovec) (iovec_off : Z) : M pstate Z := fun s =>
  let '(m, b) := s in
  let iovec_data := iov_base iovec + iovec_off in
  let len := u64 (iov_len iovec - iovec_off) in
  let prod_idx := PIPE_BUF_IDX b (prod b) in
  let to_write := Z.min (pipe_buf_get_free_space b) len in
  if to_write =? 0 then Ok (to_write, s) else
  d ← (if prod_idx + to_write <=? capacity b then seg_put (data b) prod_idx (load m iovec_data to_write)
       else
         let first_copy_bytes := s32 (u64 (capacity b - prod_idx)) in
         let second_copy_bytes := s32 (u64 (prod_idx + to_write - capacity b)) in
         d1 ← seg_put (data b) prod_idx (load m iovec_data (u64 first_copy_bytes));
         seg_put d1 0 (load m (iovec_data + first_copy_bytes) (u64 second_copy_bytes)));
  Ok (to_write, (m, PipeBuf d (capacity b) (u64 (prod b + to_write)) (cons b))).

Definition pipe_buf_read (iovec : iovec) (iovec_off : Z) : M pstate Z := fun s =>
  let '(m, b) := s in
  let iovec_data := iov_base iovec + iovec_off in
  let len := u64 (iov_len iovec - iovec_off) in
  let cons_idx := PIPE_BUF_IDX b (cons b) in
  let to_read := Z.min (pipe_buf_get_available b) len in
  if to_read =? 0 then Ok (to_read, s) else
  m' ← (if cons_idx + to_read <=? capacity b then
          l ← seg_get (data b) cons_idx to_read; Ok (store m iovec_data l)
        else
          let first_copy_bytes := s32 (u64 (capacity b - cons b)) in
          let second_copy_bytes := s32 (u64 (cons_idx + to_read - capacity b)) in
          l1 ← seg_get (data b) cons_idx (u64 first_copy_bytes);
          l2 ← seg_get (data b) 0 (u64 second_copy_bytes);
          Ok (store (store m iovec_data l1) (iovec_data + first_copy_bytes) l2));
  Ok (to_read, (m', PipeBuf (data b) (capacity b) (prod b) (u64 (cons b + to_read)))).

(** ** The pipe *)

(** How a turn ends: with the result of the call, or waiting at offset [off] of
    the first element of [iovs] with [resid] bytes left. *)
Inductive turn := Done (ret resid : Z) | Wait (iovs : list iovec) (off resid : Z).

(** The inner loop: [None] when the element is done, [Some off] for no
    progress at [off].  A turn makes at most two calls. *)
Fixpoint transfer (op : iovec -> Z -> M pstate Z) (fuel : nat) (v : iovec) (off resid : Z) : M pstate (option Z * Z) :=
  if off <? iov_len v then
    match fuel with
    | O => spin
    | S f =>
        n ← op v off;
        if n =? 0 then mret (Some off, resid) else transfer op f v (off + n) (resid - n)
    end
  else mret (None, resid).

(** The outer loop from offset [off] of the first element on. *)
Fixpoint transfer_all (op : iovec -> Z -> M pstate Z) (nonblocking : bool) (iovs : list iovec) (off resid : Z) : M pstate turn :=
  match iovs with
  | [] => mret (Done 0 resid)
  | v :: rest =>
      r ← transfer op 2 v off resid;
      match r with
      | (None, resid') => transfer_all op nonblocking rest 0 resid'
      | (Some off', resid') => if nonblocking then mret (Done 0 resid') else mret (Wait iovs off' resid')
      end
  end.

Record pipe_file := PipeFile { pf_buf : pipe_buf; w_refcount : Z; r_refcount : Z; pf_flags : Z }.

Definition UK_FREAD : Z := 1.
Definition UK_FWRITE : Z := 2.

Definition pipe_file_alloc (bytes : list Z) (cap flags : Z) : outcome pipe_file :=
  b ← pipe_buf_alloc bytes cap; Ok (PipeFile b 1 1 flags).

(** Run a buffer operation on the buffer of the file. *)
Definition on_buf {A} (op : M pstate A) : M (mem * pipe_file) A := fun s =>
  '(a, (m, b)) ← op (s.1, pf_buf s.2);
  Ok (a, (m, PipeFile b (w_refcount s.2) (r_refcount s.2) (pf_flags s.2))).

(** A call starts at the first element; after a wait it goes on where it was. *)
Definition pipe_write_resume (iovs : list iovec) (off resid : Z) : M (mem * pipe_file) turn :=
  on_buf (transfer_all pipe_buf_write false iovs off resid).

Definition pipe_write (u : uio) : M (mem * pipe_file) turn :=
  f ← gets snd;
  if r_refcount f =? 0 then mret (Done (- EPIPE) (uio_resid u)) else
  pipe_write_resume (uio_iov u) 0 (uio_resid u).

Definition pipe_read_resume (nonblocking : bool) (iovs : list iovec) (off resid : Z) : M (mem * pipe_file) turn :=
  on_buf (transfer_all pipe_buf_read nonblocking iovs off resid).

Definition pipe_read (nonblocking : bool) (u : uio) : M (mem * pipe_file) turn :=
  f ← gets snd;
  if nonblocking && negb (pipe_buf_can_read (pf_buf f)) then mret (Done EAGAIN (uio_resid u)) else
  pipe_read_resume nonblocking (uio_iov u) 0 (uio_resid u).

(** The file afterwards, and whether it was freed; [same_vnode] and [v_refcnt]
    are what the two assertions look at. *)
Definition pipe_close (same_vnode : bool) (v_refcnt f_flags : Z) (p : pipe_file) : outcome (pipe_file * bool) :=
  if negb (same_vnode && (v_refcnt =? 1)) then Abort else
  let r := if negb (Z.land f_flags UK_FREAD =? 0) then s32 (r_refcount p - 1) else r_refcount p in
  let w := if negb (Z.land f_flags UK_FWRITE =? 0) then s32 (w_refcount p - 1) else w_refcount p in
  Ok (PipeFile (pf_buf p) w r (pf_flags p), (r =? 0) && (w =? 0)).

(** The result and the value stored through [data]; [FIONREAD] is a constant of
    the C library. *)
Definition pipe_ioctl (FIONREAD com : Z) (p : pipe_file) : Z * option Z :=
  if com =? FIONREAD then (0, Some (s32 (pipe_buf_get_available (pf_buf p)))) else (- EINVAL, None).

(** ** The contents of the ring *)

Record ring_ok (b : pipe_buf) (k : Z) : Prop := {
  ro_cap : capacity b = 2 ^ k;
  ro_order : 0 <= k <= 30;
  ro_data : Z.of_nat (length (data b)) = capacity b;
  ro_prod : 0 <= prod b < 2 ^ 64;
  ro_cons : 0 <= cons b < 2 ^ 64;
  ro_avail : pipe_buf_get_available b <= capacity b
}.

(** [n] bytes of the ring [d] from position [p] on. *)
Definition window (d : list Z) (p n : Z) : list Z :=
  (fun i => d !!! Z.to_nat ((p + i) mod Z.of_nat (length d))) <$> seqZ 0 n.

(** The bytes in the pipe, oldest first. *)
Definition queue (b : pipe_buf) : list Z := window (data b) (cons b) (pipe_buf_get_available b).

Lemma ring_idx b k n : ring_ok b k -> 0 <= n -> PIPE_BUF_IDX b n = n mod capacity b.
Proof.
  intros H Hn. pose proof (Z.pow_pos_nonneg 2 k). pose proof (ro_order _ _ H). unfold PIPE_BUF_IDX. rewrite (ro_cap _ _ H).
  assert (2 ^ k < 2 ^ 64) by (apply Z.pow_lt_mono_r; lia).
  rewrite u64_small by lia. replace (2 ^ k - 1) with (Z.ones k) by (rewrite Z.ones_equiv; lia). apply Z.land_ones. lia.
Qed.

Lemma ring_cap b k : ring_ok b k -> 0 < capacity b <= 2 ^ 30.
Proof.
  intros H. pose proof (ro_order _ _ H). rewrite (ro_cap _ _ H). split; [apply Z.pow_pos_nonneg; lia|].
  apply Z.pow_le_mono_r; lia.
Qed.

Lemma window_length d p n : length (window d p n) = Z.to_nat n.
Proof. unfold window. by rewrite length_fmap, length_seqZ. Qed.

Lemma window_lookup d p n (i : nat) :
  (0 < length d)%nat -> Z.of_nat i < n -> window d p n !! i = d !! Z.to_nat ((p + Z.of_nat i) mod Z.of_nat (length d)).
Proof.
  intros Hd Hi. unfold window. rewrite list_lookup_fmap, lookup_seqZ_lt by lia. simpl. rewrite Z.add_0_l. symmetry.
  apply list_lookup_lookup_total_lt. pose proof (Z.mod_pos_bound (p + Z.of_nat i) (Z.of_nat (length d)) ltac:(lia)). lia.
Qed.

Lemma window_shift d p n k : (fun i => d !!! Z.to_nat ((p + i) mod Z.of_nat (length d))) <$> seqZ k n = window d (p + k) n.
Proof.
  unfold window. apply list_eq. intros i. rewrite !list_lookup_fmap.
  destruct (decide (Z.of_nat i < n)); [rewrite !lookup_seqZ_lt by lia|by rewrite !lookup_seqZ_ge by lia].
  simpl. do 4 f_equal. lia.
Qed.

Lemma window_app d p n k : 0 <= n -> 0 <= k -> window d p (n + k) = window d p n ++ window d (p + n) k.
Proof.
  intros Hn Hk. unfold window at 1. rewrite seqZ_app by lia. rewrite fmap_app, Z.add_0_l, !window_shift, Z.add_0_r. done.
Qed.

Lemma window_mod d p q n :
  p mod Z.of_nat (length d) = q mod Z.of_nat (length d) -> window d p n = window d q n.
Proof.
  intros H. unfold window. apply list_fmap_ext. intros _ i _. do 2 f_equal.
  rewrite <- (Zplus_mod_idemp_l p), H. apply Zplus_mod_idemp_l.
Qed.

(** A window that does not wrap around is a segment. *)
Lemma window_seg d p n :
  0 <= p -> 0 <= n -> p + n <= Z.of_nat (length d) -> window d p n = take (Z.to_nat n) (drop (Z.to_nat p) d).
Proof.
  intros Hp Hn Hb. destruct (decide (n = 0)) as [->|]; [done|]. apply list_eq. intros i.
  destruct (decide (Z.of_nat i < n)) as [Hi|Hi].
  - rewrite window_lookup by lia. rewrite lookup_take_lt, lookup_drop by lia. f_equal.
    rewrite Z.mod_small by lia. lia.
  - rewrite !(proj2 (lookup_ge_None _ _)); [done|rewrite length_take; lia|rewrite window_length; lia].
Qed.

(** [d'] is [d] with [l] written from position [p] on. *)
Definition written (d d' : list Z) (p : Z) (l : list Z) : Prop :=
  length d' = length d /\
  forall x : nat, (x < length d)%nat ->
    d' !! x = let j := (Z.of_nat x - p) mod Z.of_nat (length d) in
              if j <? Z.of_nat (length l) then l !! Z.to_nat j else d !! x.

Lemma written_same d d' p l :
  (length l <= length d)%nat -> written d d' p l -> window d' p (Z.of_nat (length l)) = l.
Proof.
  intros Hl [Hd H]. apply list_eq. intros i. destruct (decide (i < length l)%nat) as [Hi|Hi].
  - pose proof (Z.mod_pos_bound (p + Z.of_nat i) (Z.of_nat (length d)) ltac:(lia)).
    rewrite window_lookup, Hd, H by lia. simpl. rewrite Z2Nat.id by lia.
    rewrite Zminus_mod_idemp_l, Z.add_simpl_l, Z.mod_small by lia.
    replace (Z.of_nat i <? Z.of_nat (length l)) with true by lia. f_equal. lia.
  - rewrite !(proj2 (lookup_ge_None _ _)); [done|lia|rewrite window_length; lia].
Qed.

Lemma written_other d d' p l q n :
  written d d' p l -> 0 <= n -> (q + n) mod Z.of_nat (length d) = p mod Z.of_nat (length d) ->
  n + Z.of_nat (length l) <= Z.of_nat (length d) -> window d' q n = window d q n.
Proof.
  intros [Hd H] Hn Hq Hb. apply list_eq. intros i. destruct (decide (Z.of_nat i < n)) as [Hi|Hi].
  - pose proof (Z.mod_pos_bound (q + Z.of_nat i) (Z.of_nat (length d)) ltac:(lia)).
    rewrite !window_lookup, Hd, H by lia. simpl. rewrite Z2Nat.id by lia.
    assert (((q + Z.of_nat i) mod Z.of_nat (length d) - p) mod Z.of_nat (length d) = Z.of_nat (length d) + Z.of_nat i - n) as ->.
    { rewrite Zminus_mod_idemp_l, <- Zminus_mod_idemp_r, <- Hq, Zminus_mod_idemp_r.
      symmetry. apply (Z.mod_unique_pos _ _ (-1)); lia. }
    by replace (Z.of_nat (length d) + Z.of_nat i - n <? Z.of_nat (length l)) with false by lia.
  - rewrite !(proj2 (lookup_ge_None _ _)); [done|rewrite window_length; lia..].
Qed.

Lemma seg_put_lookup (d l : list Z) s x :
  (s + length l <= length d)%nat ->
  (take s d ++ l ++ drop (s + length l) d) !! x =
  if decide (s <= x < s + length l)%nat then l !! (x - s)%nat else d !! x.
Proof.
  intros Hb. assert (length (take s d) = s) by (rewrite length_take; lia). destruct (decide _) as [Hx|Hx].
  - rewrite lookup_app_r by lia. rewrite lookup_app_l by lia. f_equal. lia.
  - destruct (decide (x < s)%nat).
    + rewrite lookup_app_l by lia. by apply lookup_take_lt.
    + rewrite lookup_app_r by lia. rewrite lookup_app_r, lookup_drop by lia. f_equal. lia.
Qed.

Lemma put_one d p l :
  let idx := p mod Z.of_nat (length d) in
  (0 < length d)%nat -> idx + Z.of_nat (length l) <= Z.of_nat (length d) ->
  exists d', seg_put d idx l = Ok d' /\ written d d' p l.
Proof.
  intros idx Hd Hb. pose proof (Z.mod_pos_bound p (Z.of_nat (length d)) ltac:(lia)) as Hi. fold idx in Hi.
  eexists. split; [apply seg_put_ok; lia|]. split; [rewrite !length_app, length_take, length_drop; lia|].
  intros x Hx. rewrite seg_put_lookup by lia. cbv zeta. rewrite <- Zminus_mod_idemp_r. fold idx.
  destruct (decide (Z.to_nat idx <= x)%nat).
  - rewrite (Z.mod_small (Z.of_nat x - idx)) by lia. destruct (decide _), (Z.ltb_spec (Z.of_nat x - idx) (Z.of_nat (length l))); try lia; [|done].
    f_equal. lia.
  - rewrite <- (Z.mod_unique_pos (Z.of_nat x - idx) (Z.of_nat (length d)) (-1) (Z.of_nat x - idx + Z.of_nat (length d))) by lia.
    destruct (decide _); [lia|]. by replace (Z.of_nat x - idx + Z.of_nat (length d) <? Z.of_nat (length l)) with false by lia.
Qed.

Lemma put_two d p l1 l2 :
  let idx := p mod Z.of_nat (length d) in
  (0 < length d)%nat -> idx + Z.of_nat (length l1) = Z.of_nat (length d) -> Z.of_nat (length l2) <= idx ->
  exists d1 d', seg_put d idx l1 = Ok d1 /\ seg_put d1 0 l2 = Ok d' /\ written d d' p (l1 ++ l2).
Proof.
  intros idx Hd H1 H2. pose proof (Z.mod_pos_bound p (Z.of_nat (length d)) ltac:(lia)) as Hi. fold idx in Hi.
  set (d1 := take (Z.to_nat idx) d ++ l1 ++ drop (Z.to_nat idx + length l1) d).
  assert (length d1 = length d) as Hl by (unfold d1; rewrite !length_app, length_take, length_drop; lia).
  eexists d1, _. split; [apply seg_put_ok; lia|]. split; [apply seg_put_ok; lia|].
  split; [rewrite !length_app, length_take, length_drop; lia|]. intros x Hx. rewrite seg_put_lookup by lia.
  cbv zeta. rewrite <- Zminus_mod_idemp_r. fold idx. rewrite length_app, Nat2Z.inj_add. destruct (decide (Z.to_nat idx <= x)%nat).
  - rewrite (Z.mod_small (Z.of_nat x - idx)) by lia. destruct (decide _); [lia|].
    unfold d1. rewrite seg_put_lookup by lia. destruct (decide _); [|lia].
    replace (Z.of_nat x - idx <? Z.of_nat (length l1) + Z.of_nat (length l2)) with true by lia.
    rewrite lookup_app_l by lia. f_equal. lia.
  - rewrite <- (Z.mod_unique_pos (Z.of_nat x - idx) (Z.of_nat (length d)) (-1) (Z.of_nat x - idx + Z.of_nat (length d))) by lia.
    destruct (decide _) as [Hx2|Hx2].
    + replace (Z.of_nat x - idx + Z.of_nat (length d) <? Z.of_nat (length l1) + Z.of_nat (length l2)) with true by lia.
      rewrite lookup_app_r by lia. f_equal. lia.
    + replace (Z.of_nat x - idx + Z.of_nat (length d) <? Z.of_nat (length l1) + Z.of_nat (length l2)) with false by lia.
      unfold d1. rewrite seg_put_lookup by lia. by destruct (decide _); [lia|].
Qed.

(** ** The counters *)

Lemma u64_mod_cap b k x : ring_ok b k -> u64 x mod capacity b = x mod capacity b.
Proof.
  intros H. unfold u64. rewrite (ro_cap _ _ H). apply Z.mod_mod_divide. pose proof (ro_order _ _ H).
  exists (2 ^ (64 - k)). rewrite <- Z.pow_add_r by lia. f_equal. lia.
Qed.

Lemma avail_range b k : ring_ok b k -> 0 <= pipe_buf_get_available b <= capacity b.
Proof. intros H. split; [apply Z.mod_pos_bound; lia|apply (ro_avail _ _ H)]. Qed.

Lemma free_space b k : ring_ok b k -> pipe_buf_get_free_space b = capacity b - pipe_buf_get_available b.
Proof.
  intros H. pose proof (avail_range b k H). pose proof (ring_cap b k H). unfold pipe_buf_get_free_space.
  apply u64_small. lia.
Qed.

Lemma prod_idx b k : ring_ok b k -> (cons b + pipe_buf_get_available b) mod capacity b = prod b mod capacity b.
Proof.
  intros H. rewrite <- Zplus_mod_idemp_r. unfold pipe_buf_get_available. rewrite (u64_mod_cap b k) by done.
  rewrite Zplus_mod_idemp_r. f_equal. lia.
Qed.

Lemma queue_length b k : ring_ok b k -> Z.of_nat (length (queue b)) = pipe_buf_get_available b.
Proof. intros H. pose proof (avail_range b k H). unfold queue. rewrite window_length. lia. Qed.

(** The number of bytes after producing and after consuming [n]. *)
Lemma avail_produce d c p e n :
  0 <= u64 (p - e) + n < 2 ^ 64 ->
  pipe_buf_get_available (PipeBuf d c (u64 (p + n)) e) = u64 (p - e) + n.
Proof.
  intros H. unfold pipe_buf_get_available. simpl. unfold u64 in *. rewrite Zminus_mod_idemp_l.
  rewrite <- (Z.mod_small ((p - e) mod 2 ^ 64 + n) (2 ^ 64)) by done. rewrite Zplus_mod_idemp_l. f_equal. lia.
Qed.

Lemma avail_consume d c p e n :
  0 <= n <= u64 (p - e) ->
  pipe_buf_get_available (PipeBuf d c p (u64 (e + n))) = u64 (p - e) - n.
Proof.
  intros H. unfold pipe_buf_get_available. simpl. unfold u64 in *. rewrite Zminus_mod_idemp_r.
  pose proof (Z.mod_pos_bound (p - e) (2 ^ 64) ltac:(lia)).
  rewrite <- (Z.mod_small ((p - e) mod 2 ^ 64 - n) (2 ^ 64)) by lia. rewrite Zminus_mod_idemp_l. f_equal. lia.
Qed.

(** ** Writing to the ring *)

Lemma pipe_buf_write_ok m b k v off :
  ring_ok b k -> 0 <= off <= iov_len v -> iov_len v < 2 ^ 63 ->
  let w := Z.min (capacity b - Z.of_nat (length (queue b))) (iov_len v - off) in
  exists b', pipe_buf_write v off (m, b) = Ok (w, (m, b')) /\ ring_ok b' k /\ capacity b' = capacity b /\
    queue b' = queue b ++ load m (iov_base v + off) w /\ cons b' = cons b.
Proof.
  intros H Hoff Hlen w. pose proof (avail_range b k H) as Ha. pose proof (ring_cap b k H) as Hc.
  unfold pipe_buf_write. rewrite (free_space b k H), u64_small, (ring_idx b k _ H) by (try apply (ro_prod _ _ H); lia).
  subst w. rewrite (queue_length b k H). set (w := Z.min _ _). pose proof (ro_data _ _ H) as Hd.
  destruct (Z.eqb_spec w 0) as [->|Hw]; [exists b; by rewrite app_nil_r|].
  pose proof (Z.mod_pos_bound (prod b) (capacity b) ltac:(lia)) as Hi. set (a := iov_base v + off).
  assert (exists d, (if prod b mod capacity b + w <=? capacity b then seg_put (data b) (prod b mod capacity b) (load m a w)
      else d1 ← seg_put (data b) (prod b mod capacity b) (load m a (u64 (s32 (u64 (capacity b - prod b mod capacity b)))));
           seg_put d1 0 (load m (a + s32 (u64 (capacity b - prod b mod capacity b))) (u64 (s32 (u64 (prod b mod capacity b + w - capacity b)))))) = Ok d /\
      written (data b) d (prod b) (load m a w)) as (d & E & W).
  { rewrite <- Hd in Hi |- *. destruct (Z.leb_spec (prod b mod Z.of_nat (length (data b)) + w) (Z.of_nat (length (data b)))).
    - apply put_one; [lia|]. rewrite load_length. lia.
    - set (first := Z.of_nat (length (data b)) - prod b mod Z.of_nat (length (data b))) in *.
      rewrite !s32_u64 by lia. rewrite (u64_small first), u64_small by lia.
      replace w with (first + (w - first)) by lia. rewrite load_app by lia.
      replace (prod b mod Z.of_nat (length (data b)) + (first + (w - first)) - Z.of_nat (length (data b))) with (w - first) by lia.
      destruct (put_two (data b) (prod b) (load m a first) (load m (a + first) (w - first))) as (d1 & d' & -> & E & W);
        rewrite ?load_length; [lia..|]. by exists d'. }
  rewrite E. eexists. split; [done|].
  assert (Hav : pipe_buf_get_available (PipeBuf d (capacity b) (u64 (prod b + w)) (cons b)) = pipe_buf_get_available b + w)
    by (apply (avail_produce d); change (u64 (prod b - cons b)) with (pipe_buf_get_available b); lia).
  pose proof W as [Wl _].
  split; [split; simpl; [apply (ro_cap _ _ H)|apply (ro_order _ _ H)|lia|apply Z.mod_pos_bound; lia|apply (ro_cons _ _ H)|rewrite Hav; lia]|].
  split; [done|]. split; [|done].
  unfold queue. rewrite Hav. simpl. rewrite window_app by lia. f_equal.
  - eapply written_other; [exact W|lia|rewrite Hd; by apply (prod_idx b k)|rewrite load_length; lia].
  - rewrite (window_mod d _ (prod b)) by (rewrite Wl, Hd; by apply (prod_idx b k)).
    pose proof (written_same (data b) d (prod b) (load m a w) ltac:(rewrite load_length; lia) W) as E2. rewrite load_length, Z2Nat.id in E2 by lia. exact E2.
Qed.

(** ** Reading from the ring *)

(** A read of [r] bytes that wraps around is safe only while the low 32 bits of
    the consumer counter are below the capacity. *)
Definition read_safe (b : pipe_buf) (r : Z) : Prop :=
  cons b mod capacity b + r <= capacity b \/ cons b mod 2 ^ 32 < capacity b.

Lemma first_copy_bytes_ok b k :
  ring_ok b k -> cons b mod capacity b <> 0 ->
  let first := s32 (u64 (capacity b - cons b)) in
  (cons b mod 2 ^ 32 < capacity b -> first = capacity b - cons b mod capacity b) /\
  (capacity b <= cons b mod 2 ^ 32 -> capacity b - cons b mod capacity b < u64 first).
Proof.
  intros H Hi first. pose proof (ring_cap b k H) as Hc. pose proof (ro_order _ _ H) as Hk.
  pose proof (Z.mod_pos_bound (cons b) (2 ^ 32) ltac:(lia)) as H32.
  assert (Hmod : cons b mod capacity b = (cons b mod 2 ^ 32) mod capacity b).
  { symmetry. rewrite (ro_cap _ _ H). apply Z.mod_mod_divide. exists (2 ^ (32 - k)). rewrite <- Z.pow_add_r by lia. f_equal. lia. }
  set (c := cons b mod 2 ^ 32) in *. pose proof (Z.mod_pos_bound c (capacity b) ltac:(lia)).
  assert (Hm : (capacity b - cons b) mod 2 ^ 32 = (capacity b - c) mod 2 ^ 32) by (unfold c; by rewrite Zminus_mod_idemp_r).
  subst first. rewrite s32_trunc. unfold s32, signed. rewrite Hm. split; intros Hlt.
  - rewrite (Z.mod_small c) in Hmod by lia. rewrite (Z.mod_small (capacity b - c)) by lia.
    destruct (Z.ltb_spec (capacity b - c) (2 ^ (32 - 1))); lia.
  - assert (c <> capacity b) by (intros E; rewrite E, Z_mod_same_full in Hmod; lia).
    rewrite <- (Z.mod_unique_pos (capacity b - c) (2 ^ 32) (-1) (capacity b - c + 2 ^ 32)) by lia. unfold u64.
    destruct (Z.ltb_spec (capacity b - c + 2 ^ 32) (2 ^ (32 - 1))); [rewrite (Z.mod_small (capacity b - c + 2 ^ 32)) by lia; lia|].
    rewrite <- (Z.mod_unique_pos (capacity b - c + 2 ^ 32 - 2 ^ 32) (2 ^ 64) (-1) (capacity b - c + 2 ^ 64)) by lia. lia.
Qed.

Lemma store_pair m a l1 l2 :
  let m' := store (store m a l1) (a + Z.of_nat (length l1)) l2 in
  load m' a (Z.of_nat (length (l1 ++ l2))) = l1 ++ l2 /\
  forall x, x ∉ seqZ a (Z.of_nat (length (l1 ++ l2))) -> m' x = m x.
Proof.
  intros m'. rewrite length_app, Nat2Z.inj_add. split.
  - rewrite load_app by lia. f_equal; [|apply load_store]. rewrite <- (load_store m a l1) at 2. unfold load.
    apply fmap_ext_elem. intros x Hx%elem_of_seqZ. apply store_out. rewrite elem_of_seqZ. lia.
  - intros x Hx. rewrite elem_of_seqZ in Hx. unfold m'. rewrite !store_out; [done|rewrite elem_of_seqZ; lia..].
Qed.

(** The copy of a read: the oldest [r] bytes, if it is safe. *)
Lemma read_copy m b k a r :
  ring_ok b k -> 0 < r <= pipe_buf_get_available b ->
  let copy := if cons b mod capacity b + r <=? capacity b then
      l ← seg_get (data b) (cons b mod capacity b) r; Ok (store m a l)
    else
      l1 ← seg_get (data b) (cons b mod capacity b) (u64 (s32 (u64 (capacity b - cons b))));
      l2 ← seg_get (data b) 0 (u64 (s32 (u64 (cons b mod capacity b + r - capacity b))));
      Ok (store (store m a l1) (a + s32 (u64 (capacity b - cons b))) l2) in
  (read_safe b r -> exists m', copy = Ok m' /\ load m' a r = window (data b) (cons b) r /\
     forall x, x ∉ seqZ a r -> m' x = m x) /\
  (~ read_safe b r -> copy = Undef).
Proof.
  intros H Hr copy. pose proof (avail_range b k H). pose proof (ring_cap b k H). pose proof (ro_data _ _ H) as Hd.
  pose proof (Z.mod_pos_bound (cons b) (capacity b) ltac:(lia)) as Hi. set (idx := cons b mod capacity b) in *.
  rewrite (window_mod (data b) (cons b) idx) by (rewrite Hd; unfold idx; by rewrite Z.mod_mod by lia).
  unfold copy. clear copy. destruct (Z.leb_spec (idx + r) (capacity b)) as [Hle|Hgt].
  - rewrite seg_get_ok by lia. split; [|intros Hn; destruct Hn; by left]. intros _. eexists. split; [done|].
    rewrite <- window_seg by lia. pose proof (window_length (data b) idx r) as Hl.
    assert (Z.of_nat (length (window (data b) idx r)) = r) as Hr' by lia. split.
    + rewrite <- Hr' at 2. apply load_store.
    + intros x Hx. apply store_out. by rewrite Hr'.
  - destruct (first_copy_bytes_ok b k H ltac:(lia)) as [F1 F2]. fold idx in F1, F2. rewrite (s32_u64 (idx + r - capacity b)) by lia.
    destruct (decide (cons b mod 2 ^ 32 < capacity b)) as [Hs|Hs].
    + rewrite F1 by done. rewrite !u64_small by lia. rewrite !seg_get_ok by lia. rewrite <- !window_seg by lia. split; [|intros Hn; destruct Hn; by right].
      intros _. eexists. split; [done|].
      replace (window (data b) idx r) with (window (data b) idx (capacity b - idx) ++ window (data b) 0 (idx + r - capacity b)).
      2:{ replace r with (capacity b - idx + (idx + r - capacity b)) at 2 by lia. rewrite window_app by lia. f_equal.
          apply window_mod. rewrite Hd, Z.add_sub_assoc, Z.add_simpl_l. by rewrite Z_mod_same_full. }
      pose proof (window_length (data b) idx (capacity b - idx)) as L1. pose proof (window_length (data b) 0 (idx + r - capacity b)) as L2.
      pose proof (store_pair m a (window (data b) idx (capacity b - idx)) (window (data b) 0 (idx + r - capacity b))) as HS.
      cbv zeta in HS. rewrite length_app, L1, L2, Nat2Z.inj_add, !Z2Nat.id in HS by lia.
      replace (capacity b - idx + (idx + r - capacity b)) with r in HS by lia. exact HS.
    + specialize (F2 ltac:(lia)). split; [intros [?|?]; lia|]. intros _. unfold seg_get.
      set (f := u64 (s32 (u64 (capacity b - cons b)))) in *.
      by replace ((0 <=? idx) && (0 <=? f) && (idx + f <=? Z.of_nat (length (data b)))) with false by lia.
Qed.

Lemma pipe_buf_read_ok m b k v off :
  ring_ok b k -> 0 <= off <= iov_len v -> iov_len v < 2 ^ 63 ->
  let r := Z.min (Z.of_nat (length (queue b))) (iov_len v - off) in
  (read_safe b r -> exists m' b', pipe_buf_read v off (m, b) = Ok (r, (m', b')) /\ ring_ok b' k /\ capacity b' = capacity b /\
     queue b' = drop (Z.to_nat r) (queue b) /\ cons b' = u64 (cons b + r) /\
     load m' (iov_base v + off) r = take (Z.to_nat r) (queue b) /\
     forall x, x ∉ seqZ (iov_base v + off) r -> m' x = m x) /\
  (~ read_safe b r -> pipe_buf_read v off (m, b) = Undef).
Proof.
  intros H Hoff Hlen r. pose proof (avail_range b k H) as Ha. pose proof (ring_cap b k H) as Hc.
  pose proof (Z.mod_pos_bound (cons b) (capacity b) ltac:(lia)) as Hi.
  unfold pipe_buf_read. rewrite u64_small, (ring_idx b k _ H) by (try apply (ro_cons _ _ H); lia).
  subst r. rewrite (queue_length b k H). set (r := Z.min _ _).
  destruct (Z.eqb_spec r 0) as [->|Hr].
  { split; [|intros Hn; destruct Hn; left; lia]. intros _. exists m, b. split; [done|]. split; [done|]. split; [done|].
    rewrite drop_0, Z.add_0_r, u64_small by apply (ro_cons _ _ H). done. }
  destruct (read_copy m b k (iov_base v + off) r H ltac:(lia)) as [R1 R2]. cbv zeta in R1, R2. split.
  - intros (m' & -> & L & F)%R1. eexists _, _. split; [done|].
    assert (Hav : pipe_buf_get_available (PipeBuf (data b) (capacity b) (prod b) (u64 (cons b + r))) = pipe_buf_get_available b - r)
      by (apply (avail_consume (data b)); change (u64 (prod b - cons b)) with (pipe_buf_get_available b); lia).
    split; [split; simpl; [apply H|apply H|apply H|apply H|apply Z.mod_pos_bound; lia|rewrite Hav; lia]|]. split; [done|].
    assert (Hq : queue b = window (data b) (cons b) r ++ window (data b) (cons b + r) (pipe_buf_get_available b - r)).
    { rewrite <- window_app by lia. unfold queue. f_equal. lia. }
    rewrite Hq. pose proof (window_length (data b) (cons b) r) as Hl. split; [|split; [done|]].
    + rewrite drop_app_length' by done. unfold queue. rewrite Hav. simpl. apply window_mod. rewrite (ro_data _ _ H).
      by apply (u64_mod_cap b k).
    + rewrite take_app_length' by done. done.
  - intros Hn. by rewrite R2.
Qed.

(** ** Turns

    The loops over the elements are the same for reading and writing: [L] is
    the number of bytes the buffer can take or give, [Eff l] the effect of
    moving bytes at the addresses [l]. *)

(** A position in a request: offset [off] of the first element. *)
Definition pos_ok (iovs : list iovec) (off : Z) : Prop :=
  Forall (fun v => 0 <= iov_len v < 2 ^ 63) iovs /\ 0 <= off /\
  match iovs with [] => off = 0 | v :: _ => off <= iov_len v end.

Definition rest (iovs : list iovec) (off : Z) : list Z := drop (Z.to_nat off) (addrs iovs).

Lemma rest_cons v iovs off :
  0 <= off <= iov_len v -> rest (v :: iovs) off = seqZ (iov_base v + off) (iov_len v - off) ++ addrs iovs.
Proof.
  intros H. unfold rest. rewrite addrs_cons. replace (iov_len v) with (off + (iov_len v - off)) at 1 by lia.
  rewrite seqZ_app by lia. rewrite <- app_assoc, drop_app_length' by (by rewrite length_seqZ). done.
Qed.

Section Turn.
Context (op : iovec -> Z -> M pstate Z) (P : pstate -> Prop) (L : pstate -> Z) (Eff : list Z -> pstate -> pstate -> Prop).
Hypothesis L_pos : forall s, P s -> 0 <= L s.
Hypothesis op_ok : forall v off s, P s -> 0 <= off <= iov_len v -> iov_len v < 2 ^ 63 ->
  let n := Z.min (L s) (iov_len v - off) in
  exists s', op v off s = Ok (n, s') /\ P s' /\ L s' = L s - n /\ Eff (seqZ (iov_base v + off) n) s s'.
Hypothesis Eff_nil : forall s, Eff [] s s.
Hypothesis Eff_app : forall l1 l2 s1 s2 s3, NoDup (l1 ++ l2) -> Eff l1 s1 s2 -> Eff l2 s2 s3 -> Eff (l1 ++ l2) s1 s3.

Lemma transfer_ok v off resid s :
  P s -> 0 <= off <= iov_len v -> iov_len v < 2 ^ 63 ->
  let n := Z.min (L s) (iov_len v - off) in
  exists s', transfer op 2 v off resid s = Ok ((if off + n =? iov_len v then None else Some (off + n), resid - n), s') /\
    P s' /\ L s' = L s - n /\ Eff (seqZ (iov_base v + off) n) s s'.
Proof.
  intros HP Hoff Hlen n. pose proof (L_pos s HP). simpl.
  destruct (Z.ltb_spec off (iov_len v)) as [Hlt|Hge].
  2:{ assert (n = 0) as -> by lia. exists s. rewrite Z.add_0_r, !Z.sub_0_r. replace (off =? iov_len v) with true by lia.
      split; [done|]. split; [done|]. split; [done|apply Eff_nil]. }
  destruct (op_ok v off s HP Hoff Hlen) as (s1 & E1 & P1 & L1 & F1). fold n in E1, L1, F1.
  rewrite (bind_ret _ _ _ _ _ E1). destruct (Z.eqb_spec n 0) as [Hn|Hn].
  { exists s1. rewrite Hn, Z.add_0_r, Z.sub_0_r. replace (off =? iov_len v) with false by lia.
    rewrite Hn in L1, F1. done. }
  destruct (Z.ltb_spec (off + n) (iov_len v)) as [Hlt2|Hge2].
  - destruct (op_ok v (off + n) s1 P1 ltac:(lia) Hlen) as (s2 & E2 & P2 & L2 & F2).
    replace (Z.min (L s1) (iov_len v - (off + n))) with 0 in * by lia.
    rewrite (bind_ret _ _ _ _ _ E2). simpl. replace (off + n =? iov_len v) with false by lia. exists s2.
    split; [done|]. split; [done|]. split; [lia|]. rewrite <- (app_nil_r (seqZ _ _)). eapply Eff_app; [|exact F1|exact F2].
    rewrite app_nil_r. apply NoDup_seqZ.
  - exists s1. replace (off + n =? iov_len v) with true by lia. done.
Qed.

Lemma transfer_all_ok nonblocking iovs off resid s :
  P s -> pos_ok iovs off -> NoDup (addrs iovs) ->
  let all := rest iovs off in
  let n := Z.min (L s) (Z.of_nat (length all)) in
  exists t s', transfer_all op nonblocking iovs off resid s = Ok (t, s') /\
    P s' /\ L s' = L s - n /\ Eff (take (Z.to_nat n) all) s s' /\
    if (Z.of_nat (length all) <=? L s) || nonblocking then t = Done 0 (resid - n)
    else exists iovs' off', t = Wait iovs' off' (resid - n) /\ pos_ok iovs' off' /\
           NoDup (addrs iovs') /\ rest iovs' off' = drop (Z.to_nat n) all.
Proof.
  revert off resid s. induction iovs as [|v iovs IH]; intros off resid s HP (Hall & H0 & Hoff) Hnd all n; pose proof (L_pos s HP) as HL.
  - simpl in Hoff. subst off. assert (length all = 0%nat) as Hl by done. assert (n = 0) as -> by lia. exists (Done 0 resid), s. rewrite !Z.sub_0_r.
    replace (Z.of_nat (length all) <=? L s) with true by lia.
    split; [done|]. split; [done|]. split; [done|]. split; [apply Eff_nil|done].
  - pose proof Hall as [Hv Hall']%Forall_cons. pose proof Hnd as (_ & _ & Hnd')%NoDup_app.
    assert (Hr : all = seqZ (iov_base v + off) (iov_len v - off) ++ addrs iovs) by (apply rest_cons; lia).
    assert (HndA : NoDup all) by (unfold all, rest; eapply sublist_NoDup; [exact Hnd|apply sublist_drop]).
    destruct (transfer_ok v off resid s HP ltac:(lia) ltac:(lia)) as (s1 & E1 & P1 & L1 & F1). cbn [transfer_all].
    rewrite (bind_ret _ _ _ _ _ E1). set (n1 := Z.min (L s) (iov_len v - off)) in *.
    assert (Hlen : Z.of_nat (length all) = iov_len v - off + Z.of_nat (length (addrs iovs))) by (rewrite Hr, length_app, length_seqZ; lia).
    destruct (Z.eqb_spec (off + n1) (iov_len v)) as [He|He].
    + destruct (IH 0 (resid - n1) s1 P1) as (t & s2 & E2 & P2 & L2 & F2 & Ht); [split; [done|]; split; [lia|]|done|].
      { destruct iovs; [done|]. by apply Forall_cons in Hall' as [? _]; lia. }
      replace (rest iovs 0) with (addrs iovs) in * by done. set (n2 := Z.min (L s1) _) in *.
      assert (n = n1 + n2) as Hn by lia. exists t, s2. split; [exact E2|]. split; [done|]. split; [lia|].
      assert (take (Z.to_nat n) all = seqZ (iov_base v + off) n1 ++ take (Z.to_nat n2) (addrs iovs)) as ->.
      { rewrite Hr. replace (iov_len v - off) with n1 by lia. rewrite take_app, length_seqZ, (take_ge (seqZ _ _)) by (rewrite length_seqZ; lia).
        do 2 f_equal. lia. }
      split.
      { eapply Eff_app; [|exact F1|exact F2]. rewrite Hr in HndA. replace (iov_len v - off) with n1 in HndA by lia.
        eapply sublist_NoDup; [exact HndA|apply sublist_app; [done|apply sublist_take]]. }
      replace (Z.of_nat (length all) <=? L s) with (Z.of_nat (length (addrs iovs)) <=? L s1)
        by (destruct (Z.leb_spec (Z.of_nat (length all)) (L s)), (Z.leb_spec (Z.of_nat (length (addrs iovs))) (L s1)); done || lia).
      replace (resid - n1 - n2) with (resid - n) in Ht by lia. destruct (_ || _); [done|].
      destruct Ht as (iovs' & off' & -> & Hp & Hnd2 & Hre). exists iovs', off'. split; [done|]. split; [done|]. split; [done|].
      rewrite Hre, Hr, drop_app, length_seqZ. rewrite (drop_ge (seqZ _ _)) by (rewrite length_seqZ; lia). simpl. f_equal. lia.
    + assert (n = n1) as -> by lia. assert (n1 = L s) by lia. replace (Z.of_nat (length all) <=? L s) with false by lia. simpl.
      assert (take (Z.to_nat n1) all = seqZ (iov_base v + off) n1) as Htk.
      { rewrite Hr. replace (iov_len v - off) with (n1 + (iov_len v - off - n1)) by lia. rewrite seqZ_app by lia.
        rewrite <- app_assoc, take_app_length' by (by rewrite length_seqZ). done. }
      rewrite Htk. destruct nonblocking; (eexists _, s1; split; [done|]; split; [done|]; split; [done|]; split; [done|]); [done|].
      exists (v :: iovs), (off + n1). split; [done|]. split; [split; [done|split; [lia|lia]]|]. split; [done|].
      rewrite rest_cons, Hr by lia. rewrite drop_app, length_seqZ.
      replace (iov_len v - off) with (n1 + (iov_len v - off - n1)) at 1 by lia. rewrite seqZ_app by lia.
      rewrite drop_app_length' by (by rewrite length_seqZ). replace (Z.to_nat n1 - _)%nat with 0%nat by lia. rewrite drop_0.
      do 2 f_equal; lia.
Qed.

End Turn.

(** ** Writing and reading turns *)

Definition write_eff (l : list Z) (s s' : pstate) : Prop :=
  s'.1 = s.1 /\ capacity s'.2 = capacity s.2 /\ queue s'.2 = queue s.2 ++ (s.1 <$> l) /\ cons s'.2 = cons s.2.

Definition room (b : pipe_buf) : Z := capacity b - Z.of_nat (length (queue b)).

Lemma write_turn_ok k nonblocking iovs off resid m b :
  ring_ok b k -> pos_ok iovs off -> NoDup (addrs iovs) ->
  let all := rest iovs off in
  let n := Z.min (room b) (Z.of_nat (length all)) in
  exists t b', transfer_all pipe_buf_write nonblocking iovs off resid (m, b) = Ok (t, (m, b')) /\
    ring_ok b' k /\ cons b' = cons b /\ queue b' = queue b ++ (m <$> take (Z.to_nat n) all) /\
    if (Z.of_nat (length all) <=? room b) || nonblocking then t = Done 0 (resid - n)
    else exists iovs' off', t = Wait iovs' off' (resid - n) /\ pos_ok iovs' off' /\
           NoDup (addrs iovs') /\ rest iovs' off' = drop (Z.to_nat n) all.
Proof.
  intros H Hp Hnd all n.
  destruct (transfer_all_ok pipe_buf_write (fun s => ring_ok s.2 k) (fun s => room s.2) write_eff)
    with (s := (m, b)) (nonblocking := nonblocking) (iovs := iovs) (off := off) (resid := resid)
    as (t & [m' b'] & E & P' & _ & (M' & _ & Q' & C') & Ht); try done.
  - intros s Hs. unfold room. rewrite (queue_length s.2 k Hs). pose proof (avail_range _ _ Hs). lia.
  - intros v o [m1 b1] Hs Ho Hl w. simpl in Hs.
    destruct (pipe_buf_write_ok m1 b1 k v o Hs Ho Hl) as (b2 & E2 & P2 & C2 & Q2 & D2). fold (room b1) in *. simpl in w.
    exists (m1, b2). split; [exact E2|]. split; [done|]. unfold room in *. simpl. rewrite C2, Q2, length_app, load_length.
    assert (0 <= w) by (pose proof (queue_length b1 k Hs); pose proof (avail_range _ _ Hs); subst w; simpl; lia).
    split; [fold w; lia|]. split; [done|]. split; [done|]. split; [exact Q2|done].
  - intros s. unfold write_eff. by rewrite app_nil_r.
  - intros l1 l2 s1 s2 s3 _ (A1 & A2 & A3 & A4) (B1 & B2 & B3 & B4). unfold write_eff. rewrite B1, B2, B3, B4, A1, A2, A3, A4.
    by rewrite fmap_app, app_assoc.
  - simpl in *. subst m'. exists t, b'. done.
Qed.

Definition read_eff (l : list Z) (s s' : pstate) : Prop :=
  queue s'.2 = drop (length l) (queue s.2) /\ s'.1 <$> l = take (length l) (queue s.2) /\
  forall x, x ∉ l -> s'.1 x = s.1 x.

(** A pipe whose whole contents can be read safely stays so while it is read. *)
Definition all_safe (b : pipe_buf) : Prop := read_safe b (Z.of_nat (length (queue b))).

Lemma all_safe_read b b' k r :
  ring_ok b k -> all_safe b -> 0 <= r <= Z.of_nat (length (queue b)) -> capacity b' = capacity b ->
  cons b' = u64 (cons b + r) -> Z.of_nat (length (queue b')) = Z.of_nat (length (queue b)) - r -> all_safe b'.
Proof.
  intros H Hs Hr Hc Hcons Hq. unfold all_safe, read_safe in *. rewrite Hc, Hcons, Hq.
  pose proof (ring_cap b k H). pose proof (avail_range b k H). rewrite (queue_length b k H) in *.
  rewrite (u64_mod_cap b k) by done.
  assert (Hm : cons b mod capacity b = (cons b mod 2 ^ 32) mod capacity b).
  { symmetry. rewrite (ro_cap _ _ H). apply Z.mod_mod_divide. pose proof (ro_order _ _ H).
    exists (2 ^ (32 - k)). rewrite <- Z.pow_add_r by lia. f_equal. lia. }
  assert (H32 : u64 (cons b + r) mod 2 ^ 32 = (cons b mod 2 ^ 32 + r) mod 2 ^ 32).
  { unfold u64. rewrite Z.mod_mod_divide by (by exists (2 ^ 32)). by rewrite Zplus_mod_idemp_l. }
  rewrite H32, <- Zplus_mod_idemp_l. pose proof (Z.mod_pos_bound (cons b) (capacity b) ltac:(lia)).
  pose proof (Z.mod_pos_bound (cons b) (2 ^ 32) ltac:(lia)). set (i := cons b mod capacity b) in *.
  destruct (decide (i + r < capacity b)).
  - rewrite (Z.mod_small (i + r)) by lia. destruct Hs as [?|Hs]; [left; lia|].
    rewrite Z.mod_small in Hm by lia. right. rewrite Z.mod_small by lia. lia.
  - left. rewrite <- (Z.mod_unique_pos (i + r) (capacity b) 1 (i + r - capacity b)) by lia. lia.
Qed.

Lemma read_turn_ok k nonblocking iovs off resid m b :
  ring_ok b k -> all_safe b -> pos_ok iovs off -> NoDup (addrs iovs) ->
  let all := rest iovs off in
  let n := Z.min (Z.of_nat (length (queue b))) (Z.of_nat (length all)) in
  exists t m' b', transfer_all pipe_buf_read nonblocking iovs off resid (m, b) = Ok (t, (m', b')) /\
    ring_ok b' k /\ queue b' = drop (Z.to_nat n) (queue b) /\
    m' <$> take (Z.to_nat n) all = take (Z.to_nat n) (queue b) /\ (forall x, x ∉ take (Z.to_nat n) all -> m' x = m x) /\
    if (Z.of_nat (length all) <=? Z.of_nat (length (queue b))) || nonblocking then t = Done 0 (resid - n)
    else exists iovs' off', t = Wait iovs' off' (resid - n) /\ pos_ok iovs' off' /\
           NoDup (addrs iovs') /\ rest iovs' off' = drop (Z.to_nat n) all.
Proof.
  intros H Hsafe Hp Hnd all n.
  destruct (transfer_all_ok pipe_buf_read (fun s => ring_ok s.2 k /\ all_safe s.2) (fun s => Z.of_nat (length (queue s.2))) read_eff)
    with (s := (m, b)) (nonblocking := nonblocking) (iovs := iovs) (off := off) (resid := resid)
    as (t & [m' b'] & E & [P' _] & _ & (Q' & V' & F') & Ht); try done.
  - intros. lia.
  - intros v o [m1 b1] [Hs Hsf] Ho Hl w. simpl in *.
    destruct (pipe_buf_read_ok m1 b1 k v o Hs Ho Hl) as [R _].
    destruct R as (m2 & b2 & E2 & P2 & C2 & Q2 & D2 & V2 & F2); [destruct Hsf; [left; lia|by right]|].
    assert (0 <= w <= Z.of_nat (length (queue b1))) by lia.
    assert (Hl2 : Z.of_nat (length (queue b2)) = Z.of_nat (length (queue b1)) - w) by (rewrite Q2, length_drop; fold w; lia).
    exists (m2, b2). split; [exact E2|]. split; [split; [done|exact (all_safe_read b1 b2 k w Hs Hsf ltac:(lia) C2 D2 Hl2)]|]. split; [exact Hl2|].
    split; [|split]; rewrite ?length_seqZ; [exact Q2|exact V2|exact F2].
  - intros l1 l2 s1 s2 s3 Hn (A1 & A2 & A3) (B1 & B2 & B3). apply NoDup_app in Hn as (_ & Hdis & _). unfold read_eff.
    rewrite length_app, B1, A1, drop_drop, fmap_app, B2, A1. split; [done|]. split.
    + rewrite (fmap_ext_elem s3.1 s2.1 l1), A2 by (intros x Hx; apply B3; by apply Hdis). by rewrite take_take_drop.
    + intros x Hx. rewrite elem_of_app in Hx. rewrite B3, A3; tauto.
  - simpl in *. fold all n in Q', V', F'. exists t, m', b'.
    assert (Hl : length (take (Z.to_nat n) all) = Z.to_nat n) by (rewrite length_take; lia). rewrite Hl in Q', V'. done.
Qed.

(** ** The pipe as a byte queue *)

Lemma ring_ok_fresh bytes k :
  0 <= k <= 30 -> Z.of_nat (length bytes) = 2 ^ k ->
  exists b, pipe_buf_alloc bytes (2 ^ k) = Ok b /\ ring_ok b k /\ queue b = [] /\ all_safe b /\ capacity b = 2 ^ k /\ cons b = 0.
Proof.
  intros Hk Hb. assert (0 < 2 ^ k) by (apply Z.pow_pos_nonneg; lia). unfold pipe_buf_alloc, POWER_OF_2.
  replace (2 ^ k =? 0) with false by lia.
  replace (2 ^ k - 1) with (Z.ones k) by (rewrite Z.ones_equiv; lia). rewrite Z.land_ones, Z_mod_same_full by lia.
  exists (PipeBuf bytes (2 ^ k) 0 0). split; [done|]. split; [by split; simpl; try done; change (0 <= 2 ^ k); lia|].
  split; [done|]. split; [|done]. left. cbn [cons capacity]. rewrite Z.mod_0_l by lia. simpl. lia.
Qed.

(** Buffer operations of any threads, with the bytes written and read so far.
    Memory is arbitrary at each of them: the threads may change it in between. *)
Inductive pipe_step : pipe_buf * list Z * list Z -> pipe_buf * list Z * list Z -> Prop :=
| ps_write m v off b W R n m' b' :
    0 <= off <= iov_len v -> iov_len v < 2 ^ 63 -> pipe_buf_write v off (m, b) = Ok (n, (m', b')) ->
    pipe_step (b, W, R) (b', W ++ load m (iov_base v + off) n, R)
| ps_read m v off b W R n m' b' :
    0 <= off <= iov_len v -> iov_len v < 2 ^ 63 -> pipe_buf_read v off (m, b) = Ok (n, (m', b')) ->
    pipe_step (b, W, R) (b', W, R ++ load m' (iov_base v + off) n).

Definition fifo (k : Z) (s : pipe_buf * list Z * list Z) : Prop :=
  ring_ok s.1.1 k /\ s.1.2 = s.2 ++ queue s.1.1.

Lemma pipe_step_fifo k s s' : fifo k s -> pipe_step s s' -> fifo k s'.
Proof.
  intros [H HW] Hst. destruct Hst as [m v off b W R n m' b' Ho Hl E|m v off b W R n m' b' Ho Hl E]; unfold fifo in *; cbn [fst snd] in *.
  - destruct (pipe_buf_write_ok m b k v off H Ho Hl) as (b1 & E1 & H1 & _ & Q1 & _). rewrite E in E1. injection E1 as -> -> ->.
    split; [done|]. by rewrite HW, Q1, app_assoc.
  - destruct (pipe_buf_read_ok m b k v off H Ho Hl) as [R1 R2]. set (r := Z.min _ _) in *.
    assert (read_safe b r) as Hs.
    { unfold read_safe. destruct (decide (cons b mod capacity b + r <= capacity b)); [by left|].
      destruct (decide (cons b mod 2 ^ 32 < capacity b)); [by right|]. rewrite R2 in E; [done|]. intros [?|?]; lia. }
    destruct (R1 Hs) as (m1 & b1 & E1 & H1 & _ & Q1 & _ & V1 & _). rewrite E in E1. injection E1 as -> -> ->.
    split; [done|]. rewrite HW, V1, Q1, <- app_assoc. by rewrite take_drop.
Qed.

(** A pipe is a bounded FIFO: whatever reads and writes threads make on a
    new pipe, in any order and also after the counters wrap around, the bytes
    read so far followed by the contents of the ring are the bytes written so
    far, and the ring never holds more than its capacity. *)
Theorem pipe_fifo bytes k b s :
  0 <= k <= 30 -> Z.of_nat (length bytes) = 2 ^ k -> pipe_buf_alloc bytes (2 ^ k) = Ok b ->
  rtc pipe_step (b, [], []) s ->
  s.1.2 = s.2 ++ queue s.1.1 /\ Z.of_nat (length (queue s.1.1)) <= 2 ^ k.
Proof.
  intros Hk Hb E Hrun. destruct (ring_ok_fresh bytes k Hk Hb) as (b1 & E1 & H1 & Q1 & _). rewrite E in E1. injection E1 as <-.
  assert (fifo k s) as [Hs HW].
  { assert (fifo k (b, [], [])) as H0 by (split; [done|]; simpl; by rewrite Q1).
    induction Hrun as [|x y z Hst _ IH]; [done|]. by eapply IH, pipe_step_fifo. }
  split; [done|]. rewrite (queue_length _ k Hs), <- (ro_cap _ _ Hs). apply (ro_avail _ _ Hs).
Qed.

Lemma demo_write_step :
  pipe_step (PipeBuf [0; 0; 0; 0] 4 0 0, [], []) (PipeBuf [7; 7; 7; 0] 4 3 0, [7; 7; 7], []).
Proof.
  eapply (ps_write (fun _ => 7) (Iovec 100 3) 0 _ [] [] 3); [simpl; lia|simpl; lia|vm_compute; reflexivity].
Qed.

Lemma pipe_fifo_witness :
  exists s, rtc pipe_step (PipeBuf [0; 0; 0; 0] 4 0 0, [], []) s /\ s.1.2 = [7; 7; 7] /\
    s.1.2 = s.2 ++ queue s.1.1 /\ Z.of_nat (length (queue s.1.1)) <= 2 ^ 2.
Proof.
  exists (PipeBuf [7; 7; 7; 0] 4 3 0, [7; 7; 7], []). split; [apply rtc_once, demo_write_step|]. split; [reflexivity|].
  eapply (pipe_fifo [0; 0; 0; 0] 2); [lia|reflexivity|vm_compute; reflexivity|apply rtc_once, demo_write_step].
Defined.

(** What a read of the ring does, exactly: it returns the oldest bytes and
    removes them, unless it wraps around while the low 32 bits of the consumer
    counter are not below the capacity; then the length of its first copy is
    computed from the counter instead of the index, and the behaviour is
    undefined.  So a pipe that has carried more than its capacity fails on the
    next read that wraps. *)
Theorem pipe_buf_read_decided m b k v off :
  ring_ok b k -> 0 <= off <= iov_len v -> iov_len v < 2 ^ 63 ->
  let r := Z.min (Z.of_nat (length (queue b))) (iov_len v - off) in
  (read_safe b r -> exists m' b', pipe_buf_read v off (m, b) = Ok (r, (m', b')) /\ ring_ok b' k /\
     queue b' = drop (Z.to_nat r) (queue b) /\
     load m' (iov_base v + off) r = take (Z.to_nat r) (queue b) /\
     forall x, x ∉ seqZ (iov_base v + off) r -> m' x = m x) /\
  (~ read_safe b r -> pipe_buf_read v off (m, b) = Undef).
Proof.
  intros H Ho Hl r. destruct (pipe_buf_read_ok m b k v off H Ho Hl) as [R1 R2]. split; [|exact R2].
  intros (m' & b' & E & P & _ & Q & _ & V & F)%R1. exists m', b'. done.
Qed.

(** Twelve bytes have gone through a ring of eight, six more are in it. *)
Lemma pipe_buf_read_decided_witness :
  pipe_buf_read (Iovec 100 6) 0 (fun _ => 0, PipeBuf (replicate 8 5) 8 18 12) = Undef.
Proof.
  refine (proj2 (pipe_buf_read_decided (fun _ => 0) (PipeBuf (replicate 8 5) 8 18 12) 3 (Iovec 100 6) 0 _ _ _) _).
  - split; [reflexivity|lia|reflexivity|simpl; lia|simpl; lia|vm_compute; discriminate].
  - simpl. lia.
  - simpl. lia.
  - unfold read_safe. vm_compute. intros [H|H]; [by apply H|discriminate].
Defined.

(** ** Whole calls *)

Lemma on_buf_ok {A} (op : M pstate A) m p a m' b' :
  op (m, pf_buf p) = Ok (a, (m', b')) ->
  on_buf op (m, p) = Ok (a, (m', PipeFile b' (w_refcount p) (r_refcount p) (pf_flags p))).
Proof. intros E. unfold on_buf. simpl. by rewrite E. Qed.

Definition request_ok (u : uio) : Prop :=
  uio_ok u /\ Forall (fun v => iov_len v < 2 ^ 63) (uio_iov u) /\ NoDup (addrs (uio_iov u)).

Lemma request_pos u : request_ok u -> pos_ok (uio_iov u) 0 /\ rest (uio_iov u) 0 = addrs (uio_iov u).
Proof.
  intros ([Hf _] & Hl & _). split; [|done]. split; [by apply Forall_and|]. split; [done|].
  destruct (uio_iov u); [done|]. by apply Forall_cons in Hf as [? _].
Qed.

(** Round trip through a pipe: a write of up to the capacity into a new pipe
    completes without waiting, and a read of as many bytes, blocking or not,
    and with a different scatter list, completes and delivers them in order; it
    changes no other memory and leaves the pipe empty. *)
Theorem pipe_roundtrip bytes k flags p nonblocking uw ur m m1 :
  0 <= k <= 30 -> Z.of_nat (length bytes) = 2 ^ k -> pipe_file_alloc bytes (2 ^ k) flags = Ok p ->
  request_ok uw -> request_ok ur -> uio_resid uw = uio_resid ur -> 0 < uio_resid uw <= 2 ^ k ->
  exists p1 m2 p2, pipe_write uw (m, p) = Ok (Done 0 0, (m, p1)) /\
    pipe_read nonblocking ur (m1, p1) = Ok (Done 0 0, (m2, p2)) /\
    m2 <$> addrs (uio_iov ur) = m <$> addrs (uio_iov uw) /\
    (forall x, x ∉ addrs (uio_iov ur) -> m2 x = m1 x) /\ queue (pf_buf p2) = [].
Proof.
  intros Hk Hb E Hw Hr Heq Hres. destruct (ring_ok_fresh bytes k Hk Hb) as (b & Eb & H & Q & Hs & Hc & H0).
  unfold pipe_file_alloc in E. rewrite Eb in E. injection E as <-.
  destruct (request_pos uw Hw) as [Pw Rw]. destruct (request_pos ur Hr) as [Pr Rr].
  destruct Hw as ([_ Lw] & _ & Nw). destruct Hr as ([_ Lr] & _ & Nr).
  destruct (write_turn_ok k false (uio_iov uw) 0 (uio_resid uw) m b H Pw Nw) as (t & b1 & E1 & H1 & C1 & Q1 & Ht).
  assert (Hroom : room b = 2 ^ k) by (unfold room; rewrite Q, Hc; simpl; lia).
  assert (Hn : Z.min (room b) (Z.of_nat (length (addrs (uio_iov uw)))) = uio_resid uw) by lia.
  rewrite Rw, Hn in Q1, Ht. rewrite Q, Lw, Nat2Z.id, take_ge in Q1 by lia. simpl in Q1.
  replace (Z.of_nat _ <=? _) with true in Ht by lia. simpl in Ht. rewrite Z.sub_diag in Ht. subst t.
  assert (Hl1 : Z.of_nat (length (queue b1)) = uio_resid uw) by (rewrite Q1, length_fmap; lia).
  assert (Hs1 : all_safe b1).
  { unfold all_safe, read_safe. rewrite C1, H0, (ro_cap _ _ H1), (Z.mod_0_l (2 ^ 32)) by lia. right. lia. }
  destruct (read_turn_ok k nonblocking (uio_iov ur) 0 (uio_resid ur) m1 b1 H1 Hs1 Pr Nr) as (t & m2 & b2 & E2 & _ & Q2 & V2 & F2 & Ht).
  rewrite Rr in Q2, V2, F2, Ht. replace (Z.min _ _) with (uio_resid ur) in Q2, V2, F2, Ht by lia.
  rewrite Lr, Nat2Z.id, !take_ge in V2 by lia. rewrite Lr, Nat2Z.id, take_ge in F2 by lia.
  replace (Z.of_nat _ <=? _) with true in Ht by lia. simpl in Ht. rewrite Z.sub_diag in Ht. subst t.
  eexists _, m2, _. split; [unfold pipe_write, pipe_write_resume; simpl; rewrite (bind_ret _ _ _ _ _ eq_refl); simpl; by apply on_buf_ok, E1|].
  split.
  - unfold pipe_read, pipe_read_resume. rewrite (bind_ret _ _ _ _ _ eq_refl). simpl.
    unfold pipe_buf_can_read. rewrite <- (queue_length b1 k H1). replace (0 <? Z.of_nat (length (queue b1))) with true by lia.
    rewrite andb_false_r. apply on_buf_ok, E2.
  - split; [congruence|]. split; [done|]. simpl. rewrite Q2. apply drop_ge. lia.
Qed.

Lemma pipe_roundtrip_witness :
  exists p1 m2 p2,
    pipe_write (Uio [Iovec 100 3] 1 0 3 UIO_WRITE) (fun x => x, PipeFile (PipeBuf (replicate 4 0) 4 0 0) 1 1 0) = Ok (Done 0 0, (fun x => x, p1)) /\
    pipe_read false (Uio [Iovec 200 1; Iovec 300 2] 2 0 3 UIO_READ) (fun _ => 0, p1) = Ok (Done 0 0, (m2, p2)) /\
    m2 <$> [200; 300; 301] = [100; 101; 102] /\
    (forall x, x ∉ [200; 300; 301] -> m2 x = 0) /\ queue (pf_buf p2) = [].
Proof.
  apply (pipe_roundtrip (replicate 4 0) 2 0 (PipeFile (PipeBuf (replicate 4 0) 4 0 0) 1 1 0) false
           (Uio [Iovec 100 3] 1 0 3 UIO_WRITE) (Uio [Iovec 200 1; Iovec 300 2] 2 0 3 UIO_READ) (fun x => x) (fun _ => 0));
    [lia|reflexivity|vm_compute; reflexivity| | |reflexivity|simpl; lia].
  - split; [split; [repeat constructor; simpl; lia|reflexivity]|]. split; [repeat constructor; simpl; lia|].
    change (addrs _) with [100; 101; 102]. apply (bool_decide_unpack _). reflexivity.
  - split; [split; [repeat constructor; simpl; lia|reflexivity]|]. split; [repeat constructor; simpl; lia|].
    change (addrs _) with [200; 300; 301]. apply (bool_decide_unpack _). reflexivity.
Defined.

(** A blocking read on an empty pipe waits even if no writer is left. *)
Lemma pipe_read_no_eof :
  pipe_read false (Uio [Iovec 100 1] 1 0 1 UIO_READ) (fun _ => 0, PipeFile (PipeBuf (replicate 4 0) 4 0 0) 0 1 0) =
  Ok (Wait [Iovec 100 1] 0 1, (fun _ => 0, PipeFile (PipeBuf (replicate 4 0) 4 0 0) 0 1 0)).
Proof. vm_compute. reflexivity. Qed.
