(* ===== verification/Ramfs.v ===== *)
(** The RAM file system cubicle (ramfs/ramfs_vnops.c and ramfs.h): nodes,
    directories, file data, and the windows it opens on its buffers for the
    cubicles that read and write them.

    Nodes, vnodes and file buffers are objects in maps from addresses; an access
    to an object that does not exist, or outside of a buffer, is undefined.  What
    the allocator [dl_ramfs_malloc] returns is an argument of the operation that
    calls it (0 is NULL), and so are the bytes it leaves in a new buffer.
    [CONFIG_LIBUKSCHED1] is not set, so the lock is compiled out. *)
From S2P Require Import Prelude VfsTypes Windows Bbuddy Uio.
From stdpp Require Import base numbers strings gmap list list_numbers.
Import Errno.
#[local] Open Scope Z_scope.

(** ** Data *)

Definition timespec : Type := Z * Z.

Record ramfs_node := Node {
  rn_next : Z;
  rn_child : Z;
  rn_type : vtype;
  rn_name : string;
  rn_namelen : Z;
  rn_size : Z;
  rn_buf : Z;
  rn_bufsize : Z;
  rn_ctime : timespec;
  rn_atime : timespec;
  rn_mtime : timespec;
  rn_mode : Z;
  rn_owns_buf : bool
}.

(** The fields of a vnode that the file system uses. *)
Record vnode := Vnode { v_ino : Z; v_type : vtype; v_mode : Z; v_size : Z; v_data : Z }.

Record rstate := RState {
  nodes : gmap Z ramfs_node;
  vnodes : gmap Z vnode;
  bufs : gmap Z (list Z);
  wins : ipc_tables;
  r_mem : mem;
  inode_count : Z
}.

Definition set_nodes v s := RState v (vnodes s) (bufs s) (wins s) (r_mem s) (inode_count s).
Definition set_vnodes v s := RState (nodes s) v (bufs s) (wins s) (r_mem s) (inode_count s).
Definition set_bufs v s := RState (nodes s) (vnodes s) v (wins s) (r_mem s) (inode_count s).
Definition set_wins v s := RState (nodes s) (vnodes s) (bufs s) v (r_mem s) (inode_count s).
Definition set_mem v s := RState (nodes s) (vnodes s) (bufs s) (wins s) v (inode_count s).
Definition set_inode v s := RState (nodes s) (vnodes s) (bufs s) (wins s) (r_mem s) v.

Definition node (p : Z) : M rstate ramfs_node := deref (fun s => nodes s !! p).
Definition vnode_at (p : Z) : M rstate vnode := deref (fun s => vnodes s !! p).
Definition upd_node (p : Z) (f : ramfs_node -> ramfs_node) : M rstate unit :=
  n ← node p; modify (fun s => set_nodes (<[p := f n]> (nodes s)) s).
Definition upd_vnode (p : Z) (f : vnode -> vnode) : M rstate unit :=
  v ← vnode_at p; modify (fun s => set_vnodes (<[p := f v]> (vnodes s)) s).

Definition with_next v n := Node v (rn_child n) (rn_type n) (rn_name n) (rn_namelen n) (rn_size n) (rn_buf n) (rn_bufsize n) (rn_ctime n) (rn_atime n) (rn_mtime n) (rn_mode n) (rn_owns_buf n).
Definition with_child v n := Node (rn_next n) v (rn_type n) (rn_name n) (rn_namelen n) (rn_size n) (rn_buf n) (rn_bufsize n) (rn_ctime n) (rn_atime n) (rn_mtime n) (rn_mode n) (rn_owns_buf n).
Definition with_name v n := Node (rn_next n) (rn_child n) (rn_type n) v (Z.of_nat (String.length v)) (rn_size n) (rn_buf n) (rn_bufsize n) (rn_ctime n) (rn_atime n) (rn_mtime n) (rn_mode n) (rn_owns_buf n).
Definition with_size v n := Node (rn_next n) (rn_child n) (rn_type n) (rn_name n) (rn_namelen n) v (rn_buf n) (rn_bufsize n) (rn_ctime n) (rn_atime n) (rn_mtime n) (rn_mode n) (rn_owns_buf n).
Definition with_buf b sz n := Node (rn_next n) (rn_child n) (rn_type n) (rn_name n) (rn_namelen n) (rn_size n) b sz (rn_ctime n) (rn_atime n) (rn_mtime n) (rn_mode n) (rn_owns_buf n).
Definition with_owns v n := Node (rn_next n) (rn_child n) (rn_type n) (rn_name n) (rn_namelen n) (rn_size n) (rn_buf n) (rn_bufsize n) (rn_ctime n) (rn_atime n) (rn_mtime n) (rn_mode n) v.
Definition with_mode v n := Node (rn_next n) (rn_child n) (rn_type n) (rn_name n) (rn_namelen n) (rn_size n) (rn_buf n) (rn_bufsize n) (rn_ctime n) (rn_atime n) (rn_mtime n) v (rn_owns_buf n).
Definition with_times c a m n := Node (rn_next n) (rn_child n) (rn_type n) (rn_name n) (rn_namelen n) (rn_size n) (rn_buf n) (rn_bufsize n) (default (rn_ctime n) c) (default (rn_atime n) a) (default (rn_mtime n) m) (rn_mode n) (rn_owns_buf n).
Definition with_vsize v n := Vnode (v_ino n) (v_type n) (v_mode n) v (v_data n).

(** ** Operations on nodes *)

(** The clock is not implemented: the current time is 0. *)
Definition now : option timespec := Some (0, 0).

Definition NAME_MAX : Z := 255.

Definition strlen (s : string) : Z := Z.of_nat (String.length s).

(** [a_node] and [a_name] are the results of the two allocations. *)
Definition ramfs_allocate_node (a_node a_name : Z) (name : string) (type : vtype) : M rstate Z :=
  if a_node =? 0 then mret 0 else
  if a_name =? 0 then mret 0 else
  let mode := match type with VDIR => S_IFDIR | VLNK => S_IFLNK | _ => S_IFREG end in
  modify (fun s => set_nodes
    (<[a_node := Node 0 0 type name (strlen name) 0 0 0 (0, 0) (0, 0) (0, 0) (Z.lor mode 511) true]> (nodes s)) s);;
  mret a_node.

(** Run a window operation. *)
Definition on_wins (m : M ipc_tables unit) : M rstate unit := fun s =>
  match m (wins s) with
  | Ok (_, t) => Ok (tt, set_wins t s)
  | Spin => Spin
  | Abort => Abort
  | Undef => Undef
  end.

Definition free_buf (p : Z) : M rstate unit :=
  _ ← deref (fun s => bufs s !! p); modify (fun s => set_bufs (delete p (bufs s)) s).

Definition ramfs_free_node (np : Z) : M rstate unit :=
  n ← node np;
  (if negb (rn_buf n =? 0) && rn_owns_buf n
   then on_wins (ramfs_ipc_remove_heap (rn_buf n));; free_buf (rn_buf n) else mret tt);;
  modify (fun s => set_nodes (delete np (nodes s)) s).

(** The walk to the last child; [fuel] bounds its length. *)
Fixpoint last_node (fuel : nat) (prev : Z) : M rstate Z :=
  match fuel with
  | O => spin
  | S f => n ← node prev; if rn_next n =? 0 then mret prev else last_node f (rn_next n)
  end.

Definition ramfs_add_node (dnp : Z) (a_node a_name : Z) (name : string) (type : vtype) : M rstate Z :=
  np ← ramfs_allocate_node a_node a_name name type;
  if np =? 0 then mret 0 else
  d ← node dnp;
  (if rn_child d =? 0 then upd_node dnp (with_child np)
   else
     fuel ← gets (fun s => size (nodes s));
     prev ← last_node fuel (rn_child d);
     upd_node prev (with_next np));;
  upd_node dnp (with_times now None now);;
  mret np.

(** The search for the predecessor of [np]. *)
Fixpoint prev_node (fuel : nat) (prev np : Z) : M rstate (option Z) :=
  match fuel with
  | O => spin
  | S f =>
      n ← node prev;
      if rn_next n =? np then mret (Some prev) else
      if rn_next n =? 0 then mret None else prev_node f (rn_next n) np
  end.

Definition ramfs_remove_node (dnp np : Z) : M rstate Z :=
  d ← node dnp;
  if rn_child d =? 0 then mret EBUSY else
  if rn_child d =? np then
    n ← node np;
    upd_node dnp (with_child (rn_next n));;
    upd_node dnp (with_times now None now);;
    mret 0
  else
    fuel ← gets (fun s => size (nodes s));
    r ← prev_node fuel (rn_child d) np;
    match r with
    | None => mret ENOENT
    | Some prev =>
        n ← node np;
        upd_node prev (with_next (rn_next n));;
        upd_node dnp (with_times now None now);;
        mret 0
    end.

(** [a_name] is the result of the allocation for a longer name. *)
Definition ramfs_rename_node (np a_name : Z) (name : string) : M rstate Z :=
  if NAME_MAX <? strlen name then mret ENAMETOOLONG else
  n ← node np;
  if (rn_namelen n <? strlen name) && (a_name =? 0) then mret ENOMEM else
  upd_node np (with_name name);;
  upd_node np (with_times now None None);;
  mret 0.

(** ** Vnode operations *)

Fixpoint find_child (fuel : nat) (np : Z) (name : string) : M rstate Z :=
  if np =? 0 then mret 0 else
  match fuel with
  | O => spin
  | S f =>
      n ← node np;
      if (rn_namelen n =? strlen name) && String.eqb name (rn_name n) then mret np
      else find_child f (rn_next n) name
  end.

Definition UK_ALLPERMS : Z := 4095.

(** [vget ino] is [vfscore_vget]: whether the vnode was in the cache, and its
    address.  It stores through a variable at [pad] on the stack of this cubicle,
    which the window on the stack is moved to. *)
Definition ramfs_lookup (vget : Z -> M rstate (bool * Z)) (pad dvp : Z) (name : string) : M rstate (Z * Z) :=
  modify (fun s => set_wins (set_tab_stack (alter (fun e => Ipc pad (ipc_size e) (ipc_mask e)) 0%nat (tab_stack (wins s))) (wins s)) s);;
  if String.eqb name "" then mret (ENOENT, 0) else
  d ← vnode_at dvp;
  dn ← node (v_data d);
  fuel ← gets (fun s => size (nodes s));
  np ← find_child fuel (rn_child dn) name;
  if np =? 0 then mret (ENOENT, 0) else
  ino ← gets inode_count;
  modify (set_inode (u64 (ino + 1)));;
  r ← vget ino;
  let '(found, vp) := r in
  if found : bool then mret (0, vp) else
  if vp =? 0 then mret (ENOMEM, 0) else
  n ← node np;
  upd_vnode vp (fun v => Vnode (v_ino v) (rn_type n) UK_ALLPERMS (rn_size n) np);;
  mret (0, vp).

Definition ramfs_mkdir (dvp a_node a_name : Z) (name : string) (mode : Z) : M rstate Z :=
  if NAME_MAX <? strlen name then mret ENAMETOOLONG else
  if negb (Z.land mode S_IFMT =? S_IFDIR) then mret EINVAL else
  d ← vnode_at dvp;
  np ← ramfs_add_node (v_data d) a_node a_name name VDIR;
  if np =? 0 then mret ENOMEM else
  upd_node np (with_size 0);;
  mret 0.

Definition ramfs_create (dvp a_node a_name : Z) (name : string) (mode : Z) : M rstate Z :=
  if NAME_MAX <? strlen name then mret ENAMETOOLONG else
  if negb (Z.land mode S_IFMT =? S_IFREG) then mret EINVAL else
  d ← vnode_at dvp;
  np ← ramfs_add_node (v_data d) a_node a_name name VREG;
  if np =? 0 then mret ENOMEM else mret 0.

(** [a_link] is the copy of the target that [strndup] returns. *)
Definition ramfs_symlink (dvp a_node a_name a_link : Z) (name : string) (link : list Z) : M rstate Z :=
  if NAME_MAX <? strlen name then mret ENAMETOOLONG else
  d ← vnode_at dvp;
  np ← ramfs_add_node (v_data d) a_node a_name name VLNK;
  if np =? 0 then mret ENOMEM else
  let len := Z.of_nat (length link) in
  (if a_link =? 0 then mret tt else modify (fun s => set_bufs (<[a_link := link ++ [0]]> (bufs s)) s));;
  upd_node np (with_buf a_link len);;
  upd_node np (with_size len);;
  mret 0.

(** [vfscore_uiomove(rn_buf + cp, n, uio)]. *)
Definition move_buf (p cp n : Z) (u : uio) : M rstate (Z * uio) := fun s =>
  match bufs s !! p with
  | None => Undef
  | Some b =>
      match vfscore_uiomove cp n u (r_mem s, b) with
      | Ok (r, (m, b')) => Ok (r, set_mem m (set_bufs (<[p := b']> (bufs s)) s))
      | Spin => Spin
      | Abort => Abort
      | Undef => Undef
      end
  end.

(** The common part of [ramfs_read] and [ramfs_readlink]. *)
Definition read_data (v : vnode) (u : uio) : M rstate (Z * uio) :=
  if uio_offset u <? 0 then mret (EINVAL, u) else
  if uio_resid u =? 0 then mret (0, u) else
  if v_size v <=? uio_offset u then mret (0, u) else
  let len := if v_size v - uio_offset u <? uio_resid u then v_size v - uio_offset u else uio_resid u in
  upd_node (v_data v) (with_times None now None);;
  n ← node (v_data v);
  move_buf (rn_buf n) (uio_offset u) len u.

Definition ramfs_readlink (vp : Z) (u : uio) : M rstate (Z * uio) :=
  v ← vnode_at vp;
  if negb (bool_decide (v_type v = VLNK)) then mret (EINVAL, u) else read_data v u.

Definition ramfs_read (vp : Z) (u : uio) : M rstate (Z * uio) :=
  v ← vnode_at vp;
  if bool_decide (v_type v = VDIR) then mret (EISDIR, u) else
  if negb (bool_decide (v_type v = VREG)) then mret (EINVAL, u) else read_data v u.

Definition ramfs_rmdir (dvp vp : Z) : M rstate Z :=
  d ← vnode_at dvp; v ← vnode_at vp; ramfs_remove_node (v_data d) (v_data v).

Definition ramfs_remove (dvp vp : Z) : M rstate Z :=
  d ← vnode_at dvp; v ← vnode_at vp; ramfs_remove_node (v_data d) (v_data v).

(** [memcpy(new_buf, rn_buf, n)]. *)
Definition copy_buf (dst src n : Z) : M rstate unit :=
  b ← deref (fun s => bufs s !! src);
  l ← lift (seg_get b 0 n);
  c ← deref (fun s => bufs s !! dst);
  c' ← lift (seg_put c 0 l);
  modify (fun s => set_bufs (<[dst := c']> (bufs s)) s).

(** [new_buf] is the result of the allocation and [junk] the bytes in it. *)
Definition ramfs_truncate (vp length new_buf : Z) (junk : list Z) : M rstate Z :=
  v ← vnode_at vp;
  let np := v_data v in
  n ← node np;
  let finish :=
    upd_node np (with_size (u64 length));;
    upd_vnode vp (with_vsize length);;
    upd_node np (with_times now None now);;
    mret 0 in
  if length =? 0 then
    (if rn_buf n =? 0 then mret tt
     else (if rn_owns_buf n then free_buf (rn_buf n) else mret tt);; upd_node np (with_buf 0 0));;
    finish
  else if rn_bufsize n <? u64 length then
    let new_size := round_pgup length in
    if new_buf =? 0 then mret EIO else
    modify (fun s => set_bufs (<[new_buf := junk]> (bufs s)) s);;
    (if rn_size n =? 0 then mret tt
     else copy_buf new_buf (rn_buf n) (v_size v);; if rn_owns_buf n then free_buf (rn_buf n) else mret tt);;
    upd_node np (with_buf new_buf new_size);;
    upd_node np (with_owns true);;
    finish
  else finish.

Definition ramfs_set_file_data (vp data : Z) (bytes : list Z) : M rstate Z :=
  v ← vnode_at vp;
  if bool_decide (v_type v = VDIR) then mret EISDIR else
  if negb (bool_decide (v_type v = VREG)) then mret EINVAL else
  n ← node (v_data v);
  if negb (rn_buf n =? 0) then mret EINVAL else
  let size := Z.of_nat (length bytes) in
  modify (fun s => set_bufs (<[data := bytes]> (bufs s)) s);;
  upd_node (v_data v) (with_buf data size);;
  upd_node (v_data v) (with_size size);;
  upd_vnode vp (with_vsize size);;
  upd_node (v_data v) (with_owns false);;
  mret 0.

Definition LONG_MAX : Z := 2 ^ 63 - 1.
Definition IO_APPEND : Z := 1.
Definition RAMFS_MASK : Z := Z.lor (Z.shiftl 1 21) (Z.shiftl 1 2).

(** The data moves to the larger buffer [new_buf], which is zero. *)
Definition grow_buffer (np new_buf new_size : Z) (v : vnode) (n : ramfs_node) : M rstate unit :=
  modify (fun s => set_bufs (<[new_buf := replicate (Z.to_nat new_size) 0]> (bufs s)) s);;
  on_wins (ramfs_ipc_add_heap new_buf new_size RAMFS_MASK);;
  (if rn_size n =? 0 then mret tt
   else
     copy_buf new_buf (rn_buf n) (v_size v);;
     if rn_owns_buf n then free_buf (rn_buf n);; on_wins (ramfs_ipc_remove_heap (rn_buf n)) else mret tt);;
  upd_node np (with_buf new_buf new_size).

(** The file is extended to [end_pos]; false if there is no memory. *)
Definition extend_file (vp np end_pos new_buf : Z) : M rstate bool :=
  v ← vnode_at vp;
  n ← node np;
  grown ← (if s64 (rn_bufsize n) <? end_pos then
             if new_buf =? 0 then mret false
             else grow_buffer np new_buf (round_pgup end_pos) v n;; mret true
           else mret true);
  if grown : bool then
    upd_node np (with_size end_pos);;
    upd_vnode vp (with_vsize end_pos);;
    upd_node np (with_owns true);;
    mret true
  else mret false.

Definition ramfs_write (vp : Z) (u : uio) (ioflag new_buf : Z) : M rstate (Z * uio) :=
  v ← vnode_at vp;
  let np := v_data v in
  if bool_decide (v_type v = VDIR) then mret (EISDIR, u) else
  if negb (bool_decide (v_type v = VREG)) then mret (EINVAL, u) else
  if uio_offset u <? 0 then mret (EINVAL, u) else
  if LONG_MAX <=? uio_offset u then mret (EFBIG, u) else
  if uio_resid u =? 0 then mret (0, u) else
  n ← node np;
  let u1 := if Z.land ioflag IO_APPEND =? 0 then u
            else Uio (uio_iov u) (uio_iovcnt u) (s64 (rn_size n)) (uio_resid u) (uio_op u) in
  ok ← (if u64 (v_size v) <? u64 (uio_offset u1 + uio_resid u1)
        then extend_file vp np (s64 (uio_offset u1 + uio_resid u1)) new_buf else mret true);
  if ok : bool then
    upd_node np (with_times now None now);;
    n1 ← node np;
    move_buf (rn_buf n1) (uio_offset u1) (uio_resid u1) u1
  else mret (EIO, u1).

(** [vp2 = 0]: there is no destination file. *)
Definition ramfs_rename (dvp1 vp1 dvp2 vp2 a_node a_name : Z) (name2 : string) : M rstate Z :=
  error ← (if vp2 =? 0 then mret 0
           else d2 ← vnode_at dvp2; v2 ← vnode_at vp2; ramfs_remove_node (v_data d2) (v_data v2));
  if negb (error =? 0) then mret error else
  v1 ← vnode_at vp1;
  if dvp1 =? dvp2 then ramfs_rename_node (v_data v1) a_name name2
  else
    let old_np := v_data v1 in
    o ← node old_np;
    d2 ← vnode_at dvp2;
    np ← ramfs_add_node (v_data d2) a_node a_name name2 (rn_type o);
    if np =? 0 then mret ENOMEM else
    (if rn_buf o =? 0 then mret tt
     else
       upd_node np (with_buf (rn_buf o) (rn_bufsize o));;
       upd_node np (with_size (rn_size o));;
       upd_node old_np (with_buf 0 (rn_bufsize o)));;
    d1 ← vnode_at dvp1;
    _ ← ramfs_remove_node (v_data d1) old_np;
    mret 0.

Record dirent := Dirent { d_isdir : bool; d_islnk : bool; d_name : string; d_fileno : Z }.

(** The [i]-th next node; 0 past the end. *)
Fixpoint skip_nodes (i : nat) (np : Z) : M rstate Z :=
  match i with
  | O => mret np
  | S j => n ← node np; if rn_next n =? 0 then mret 0 else skip_nodes j (rn_next n)
  end.

(** The result, the entry and the new offset of the file.  With a negative
    offset the loop runs to the end of the list. *)
Definition ramfs_readdir (vp f_offset : Z) : M rstate (Z * option dirent * Z) :=
  v ← vnode_at vp;
  upd_node (v_data v) (with_times None now None);;
  if f_offset =? 0 then mret (0, Some (Dirent true false "." 0), 1) else
  if f_offset =? 1 then mret (0, Some (Dirent true false ".." 1), 2) else
  dn ← node (v_data v);
  if rn_child dn =? 0 then mret (ENOENT, None, f_offset) else
  total ← gets (fun s => size (nodes s));
  np ← skip_nodes (if f_offset <? 0 then total else Z.to_nat (f_offset - 2)) (rn_child dn);
  if np =? 0 then mret (ENOENT, None, f_offset) else
  n ← node np;
  mret (0, Some (Dirent (bool_decide (rn_type n = VDIR)) (bool_decide (rn_type n = VLNK)) (rn_name n) f_offset), f_offset + 1).

Record vattr := Vattr { va_mask : Z; va_type : vtype; va_mode : Z; va_nodeid : Z; va_atime : timespec; va_mtime : timespec; va_ctime : timespec; va_size : Z }.

Definition AT_MODE : Z := 2.
Definition AT_ATIME : Z := 0x100.
Definition AT_MTIME : Z := 0x200.
Definition AT_CTIME : Z := 0x400.

Definition ramfs_getattr (vp : Z) (attr : vattr) : M rstate (Z * vattr) :=
  v ← vnode_at vp;
  n ← node (v_data v);
  mret (0, Vattr (va_mask attr) (rn_type n) (rn_mode n) (v_ino v) (rn_atime n) (rn_mtime n) (rn_ctime n) (v_size v)).

Definition ramfs_setattr (vp : Z) (attr : vattr) : M rstate Z :=
  v ← vnode_at vp;
  let sel f x := if Z.land (va_mask attr) f =? 0 then None else Some x in
  upd_node (v_data v) (with_times (sel AT_CTIME (va_ctime attr)) (sel AT_ATIME (va_atime attr)) (sel AT_MTIME (va_mtime attr)));;
  (if Z.land (va_mask attr) AT_MODE =? 0 then mret tt else upd_node (v_data v) (with_mode (va_mode attr)));;
  mret 0.

(** ** Directories *)

Definition nexts (ns : gmap Z ramfs_node) : gmap Z Z := rn_next <$> ns.

(** The directory [dnp] has the entries [ents], in order. *)
Record dir_ok (s : rstate) (dnp : Z) (ents : list (string * Z)) : Prop := {
  do_dir : exists d, nodes s !! dnp = Some d /\ linked (nexts (nodes s)) (rn_child d) ents.*2;
  do_nodup : NoDup (dnp :: ents.*2);
  do_names : forall name p, (name, p) ∈ ents ->
    exists n, nodes s !! p = Some n /\ rn_name n = name /\ rn_namelen n = strlen name
}.

(** The first entry with a name. *)
Fixpoint lookup_dir (ents : list (string * Z)) (name : string) : option Z :=
  match ents with
  | [] => None
  | (x, p) :: r => if String.eqb name x then Some p else lookup_dir r name
  end.

(** What of a node does not concern directories. *)
Definition file_part (n : ramfs_node) :=
  (rn_type n, rn_name n, rn_namelen n, rn_size n, rn_buf n, rn_bufsize n, rn_owns_buf n).

(** Only the directory structure differs. *)
Definition same_files (s s' : rstate) (except : Z) : Prop :=
  vnodes s' = vnodes s /\ bufs s' = bufs s /\ wins s' = wins s /\ r_mem s' = r_mem s /\
  forall p, p <> except -> file_part <$> nodes s' !! p = file_part <$> nodes s !! p.

Lemma upd_node_ok s p n f :
  nodes s !! p = Some n -> upd_node p f s = Ok (tt, set_nodes (<[p := f n]> (nodes s)) s).
Proof. intros H. unfold upd_node. by rewrite (bind_ret _ _ _ n s) by (by apply deref_ok). Qed.

Lemma upd_vnode_ok s p v f :
  vnodes s !! p = Some v -> upd_vnode p f s = Ok (tt, set_vnodes (<[p := f v]> (vnodes s)) s).
Proof. intros H. unfold upd_vnode. by rewrite (bind_ret _ _ _ v s) by (by apply deref_ok). Qed.

Lemma nexts_keep ns p n n' : ns !! p = Some n -> rn_next n' = rn_next n -> nexts (<[p := n']> ns) = nexts ns.
Proof.
  intros H E. unfold nexts. rewrite fmap_insert, E. apply insert_id. by rewrite lookup_fmap, H.
Qed.

Lemma last_node_ok s fuel a l last :
  linked (nexts (nodes s)) a (l ++ [last]) -> (length (l ++ [last]) <= fuel)%nat -> last_node fuel a s = Ok (last, s).
Proof.
  revert a fuel. induction l as [|x l IH]; intros a fuel Hl Hf; destruct fuel as [|fuel]; simpl in Hf; try lia;
    simpl in Hl; inversion Hl as [|a' nx l' Ha Hn Hr]; subst; unfold nexts in Hn; rewrite lookup_fmap in Hn;
    apply fmap_Some in Hn as (n & Hn & ->); simpl; rewrite (bind_ret _ _ _ n s) by (by apply deref_ok).
  - destruct (Z.eqb_spec (rn_next n) 0); [done|by inversion Hr].
  - destruct (Z.eqb_spec (rn_next n) 0) as [H0|H0]; [|apply IH; [done|lia]].
    rewrite H0 in Hr. by destruct l; inversion Hr.
Qed.

Lemma prev_node_ok s fuel a l np :
  linked (nexts (nodes s)) a l -> l <> [] -> np ∉ take 1 l -> np <> 0 -> NoDup l -> (length l <= fuel)%nat ->
  ((np ∉ l) /\ prev_node fuel a np s = Ok (None, s)) \/
  (exists l1 prev l2, l = l1 ++ prev :: np :: l2 /\ prev_node fuel a np s = Ok (Some prev, s)).
Proof.
  intros Hl. revert fuel. induction Hl as [|a nx l Ha Hn Hr IH]; intros fuel Hne Hnp H0 Hnd Hf; [done|].
  destruct fuel as [|fuel]; simpl in Hf; [lia|]. apply NoDup_cons in Hnd as [Hal Hnd]. simpl in Hnp.
  pose proof Hn as Hn'. unfold nexts in Hn'. rewrite lookup_fmap in Hn'. apply fmap_Some in Hn' as (n & Hn' & ->). simpl.
  rewrite (bind_ret _ _ _ n s) by (by apply deref_ok). destruct (Z.eqb_spec (rn_next n) np) as [E|E].
  - right. inversion Hr as [E1|]; subst; [by destruct H0|]. by exists [], a, l0.
  - destruct (Z.eqb_spec (rn_next n) 0) as [E0|E0].
    + left. inversion Hr as [E1|]; subst; [|done]. split; [set_solver|done].
    + destruct l as [|b l]; [by inversion Hr|]. assert (b = rn_next n) as -> by (by inversion Hr).
      destruct (IH fuel) as [[Hin E1]|(l1 & prev & l2 & El & E1)]; [done|set_solver|done|done|lia|left; split; [set_solver|done]|].
      right. exists (a :: l1), prev, l2. by rewrite El.
Qed.

Lemma find_child_ok s fuel a ents name :
  linked (nexts (nodes s)) a ents.*2 -> (length ents <= fuel)%nat ->
  (forall nm p, (nm, p) ∈ ents -> exists n, nodes s !! p = Some n /\ rn_name n = nm /\ rn_namelen n = strlen nm) ->
  find_child fuel a name s = Ok (default 0 (lookup_dir ents name), s).
Proof.
  revert a fuel. induction ents as [|[nm p] ents IH]; intros a fuel Hl Hf Hnm; simpl in Hl; inversion Hl as [|a' nx l' Ha Hn Hr]; subst.
  - by destruct fuel.
  - destruct fuel as [|fuel]; simpl in Hf; [lia|]. simpl. replace (p =? 0) with false by lia.
    destruct (Hnm nm p) as (n & Hp & Hname & Hlen); [left|]. rewrite (bind_ret _ _ _ n s) by (by apply deref_ok).
    unfold nexts in Hn. rewrite lookup_fmap, Hp in Hn. injection Hn as <-. rewrite Hname, Hlen.
    destruct (String.eqb_spec name nm) as [->|Hne]; [by rewrite Z.eqb_refl|]. rewrite andb_false_r.
    apply IH; [done|lia|]. intros nm' p' Hin. apply Hnm. by right.
Qed.

Lemma dir_fuel s dnp ents : dir_ok s dnp ents -> (length ents.*2 <= size (nodes s))%nat.
Proof.
  intros [(d & _ & Hl) Hnd _]. apply NoDup_cons in Hnd as [_ Hnd].
  pose proof (linked_length _ _ _ Hl Hnd) as H. unfold nexts in H. by rewrite map_size_fmap in H.
Qed.

(** Changing a node without touching its name and [next] keeps a directory. *)
Lemma dir_ok_upd s dnp ents p n n' :
  dir_ok s dnp ents -> nodes s !! p = Some n ->
  rn_next n' = rn_next n -> rn_child n' = rn_child n -> rn_name n' = rn_name n -> rn_namelen n' = rn_namelen n ->
  dir_ok (set_nodes (<[p := n']> (nodes s)) s) dnp ents.
Proof.
  intros [(d & Hd & Hl) Hnd Hnm] Hp E1 E2 E3 E4. split; [|done|].
  - simpl. rewrite (nexts_keep _ _ n n') by done. destruct (decide (p = dnp)) as [->|Hne].
    + exists n'. rewrite lookup_insert_eq. split; [done|]. rewrite Hd in Hp. injection Hp as ->. by rewrite E2.
    + exists d. by rewrite lookup_insert_ne.
  - intros nm q Hin. simpl. destruct (Hnm nm q Hin) as (m & Hm & H1 & H2). destruct (decide (p = q)) as [->|Hne].
    + rewrite lookup_insert_eq. exists n'. rewrite Hm in Hp. injection Hp as ->. split; [done|]. by rewrite E3, E4.
    + rewrite lookup_insert_ne by done. eauto.
Qed.

Lemma same_files_refl s e : same_files s s e.
Proof. done. Qed.

Lemma same_files_trans s1 s2 s3 e : same_files s1 s2 e -> same_files s2 s3 e -> same_files s1 s3 e.
Proof.
  intros (A1 & A2 & A3 & A4 & A5) (B1 & B2 & B3 & B4 & B5). split_and!; try congruence.
  intros p Hp. by rewrite B5, A5.
Qed.

Lemma same_files_upd s p n n' e :
  nodes s !! p = Some n -> (p = e \/ file_part n' = file_part n) ->
  same_files s (set_nodes (<[p := n']> (nodes s)) s) e.
Proof.
  intros Hp Hf. split_and!; try done. intros q Hq. simpl. destruct (decide (p = q)) as [->|Hne].
  - rewrite lookup_insert_eq, Hp. destruct Hf as [->|Hf]; [done|]. simpl. by rewrite Hf.
  - by rewrite lookup_insert_ne.
Qed.

Definition new_node (name : string) (type : vtype) : ramfs_node :=
  let mode := match type with VDIR => S_IFDIR | VLNK => S_IFLNK | _ => S_IFREG end in
  Node 0 0 type name (strlen name) 0 0 0 (0, 0) (0, 0) (0, 0) (Z.lor mode 511) true.

(** A directory whose list got the new node [np] behind its entries. *)
Lemma dir_ok_grow s s2 dnp d ents name np new :
  dir_ok s dnp ents -> nodes s !! np = None -> same_files s s2 np ->
  nodes s2 !! dnp = Some d -> linked (nexts (nodes s2)) (rn_child d) (ents.*2 ++ [np]) ->
  nodes s2 !! np = Some new -> rn_name new = name -> rn_namelen new = strlen name ->
  dir_ok s2 dnp (ents ++ [(name, np)]).
Proof.
  intros [(d0 & Hd0 & _) Hnd Hnm] Hfresh (_ & _ & _ & _ & Hsame) Hd Hl Hnew Hname Hlen.
  assert (Hin : np ∉ ents.*2) by (intros ((nm & q) & -> & Hq)%list_elem_of_fmap; destruct (Hnm nm q Hq) as (? & ? & _); simpl in *; congruence).
  split.
  - exists d. by rewrite fmap_app.
  - apply NoDup_cons in Hnd as [H1 H2]. rewrite fmap_app. simpl. apply NoDup_cons. split.
    + assert (dnp <> np) by congruence. set_solver.
    + apply NoDup_app. split; [done|]. split; [set_solver|apply NoDup_singleton].
  - intros nm q [Hq|Hq%list_elem_of_singleton]%elem_of_app; [|injection Hq as -> ->; eauto].
    destruct (Hnm nm q Hq) as (n & Hn & H1 & H2). specialize (Hsame q ltac:(congruence)). rewrite Hn in Hsame. simpl in Hsame.
    destruct (nodes s2 !! q) as [n2|] eqn:E; [|done]. injection Hsame as _ E1 E2 _ _ _ _. exists n2. split; [done|]. by rewrite E1, E2.
Qed.

(** The node [np] has become the first child of [dnp], or the next one of a node
    that was the last of its list. *)
Definition grown (f : rstate) (dnp np : Z) (f2 : rstate) : Prop :=
  (exists d, nodes f !! dnp = Some d /\ f2 = set_nodes (<[dnp := with_child np d]> (nodes f)) f) \/
  (exists q nl, nodes f !! q = Some nl /\ rn_next nl = 0 /\ q <> np /\ f2 = set_nodes (<[q := with_next np nl]> (nodes f)) f).

(** Linking a new node behind the entries of a directory. *)
Lemma link_new s dnp d ents name np new :
  dir_ok s dnp ents -> nodes s !! dnp = Some d -> np <> 0 -> nodes s !! np = None ->
  rn_next new = 0 -> rn_name new = name -> rn_namelen new = strlen name ->
  exists s2, (if rn_child d =? 0 then upd_node dnp (with_child np)
              else fuel ← gets (fun s => size (nodes s)); prev ← last_node fuel (rn_child d); upd_node prev (with_next np))
               (set_nodes (<[np := new]> (nodes s)) s) = Ok (tt, s2) /\
    dir_ok s2 dnp (ents ++ [(name, np)]) /\ nodes s2 !! np = Some new /\ same_files s s2 np /\
    grown (set_nodes (<[np := new]> (nodes s)) s) dnp np s2.
Proof.
  intros Hok Hd Hnp Hfresh Hn0 Hname Hlen. pose proof Hok as [(d' & Hd' & Hl) Hnd Hnm].
  rewrite Hd in Hd'. injection Hd' as <-. assert (Hne : dnp <> np) by congruence. pose proof Hnd as [_ Hnd']%NoDup_cons.
  assert (Hin : np ∉ ents.*2) by (intros ((nm & q) & -> & Hq)%list_elem_of_fmap; destruct (Hnm nm q Hq) as (? & ? & _); simpl in *; congruence).
  assert (Hnx : nexts (<[np := new]> (nodes s)) = <[np := 0]> (nexts (nodes s))) by (unfold nexts; by rewrite fmap_insert, Hn0).
  destruct (Z.eqb_spec (rn_child d) 0) as [H0|H0].
  - rewrite (upd_node_ok _ dnp d) by (simpl; by rewrite lookup_insert_ne). simpl.
    match goal with |- context [Ok (tt, ?x)] => set (s2 := x) end.
    assert (Hs : same_files s s2 np).
    { split_and!; try done. intros p Hp. simpl. destruct (decide (p = dnp)) as [->|];
        [by rewrite lookup_insert_eq, Hd|by rewrite !lookup_insert_ne]. }
    assert (Hnew : nodes s2 !! np = Some new) by (simpl; by rewrite lookup_insert_ne, lookup_insert_eq).
    exists s2. split; [done|]. split; [|split; [done|split; [done|left; exists d; split; [simpl; by rewrite lookup_insert_ne|done]]]].
    eapply dir_ok_grow; [exact Hok|exact Hfresh|exact Hs|simpl; by rewrite lookup_insert_eq| |exact Hnew|exact Hname|exact Hlen].
    rewrite H0 in Hl. assert (ents.*2 = []) as -> by (by inversion Hl). simpl.
    rewrite (nexts_keep _ _ d) by (done || by rewrite lookup_insert_ne). rewrite Hnx.
    apply (linked_cons _ _ 0); [done|by rewrite lookup_insert_eq|constructor].
  - destruct (exists_last (l := ents.*2)) as (l0 & last & El); [intros E; rewrite E in Hl; by inversion Hl|].
    assert (Hlast : last ∈ ents.*2) by (rewrite El; set_solver).
    pose proof Hlast as ((nm & q) & -> & Hq)%list_elem_of_fmap. simpl in *. destruct (Hnm _ _ Hq) as (nl & Hnl & _).
    assert (q <> np) by congruence. rewrite (bind_ret _ _ _ _ _ (proj2 (gets_ok _ _ _ _) (conj eq_refl eq_refl))).
    erewrite bind_ret.
    2:{ eapply (last_node_ok _ _ _ l0).
        - simpl. rewrite Hnx. eapply linked_frame; [rewrite El in Hl; exact Hl|]. intros x Hx. apply lookup_insert_ne. rewrite El in Hin. set_solver.
        - simpl. rewrite map_size_insert_None by done. pose proof (dir_fuel _ _ _ Hok) as Hf. rewrite El in Hf. lia. }
    rewrite (upd_node_ok _ q nl) by (simpl; by rewrite lookup_insert_ne). simpl.
    match goal with |- context [Ok (tt, ?x)] => set (s2 := x) end.
    assert (Hs : same_files s s2 np).
    { split_and!; try done. intros p Hp. simpl. destruct (decide (p = q)) as [->|];
        [by rewrite lookup_insert_eq, Hnl|by rewrite !lookup_insert_ne]. }
    assert (Hnew : nodes s2 !! np = Some new) by (simpl; by rewrite lookup_insert_ne, lookup_insert_eq).
    assert (q <> dnp) by (intros ->; by apply NoDup_cons in Hnd as [? _]).
    assert (rn_next nl = 0) as Hz by (rewrite El in Hl; apply linked_last in Hl; unfold nexts in Hl; rewrite lookup_fmap, Hnl in Hl; by injection Hl).
    exists s2. split; [done|]. split; [|split; [done|split; [done|right; exists q, nl; split; [simpl; by rewrite lookup_insert_ne|done]]]].
    eapply dir_ok_grow; [exact Hok|exact Hfresh|exact Hs|simpl; by rewrite !lookup_insert_ne| |exact Hnew|exact Hname|exact Hlen].
    simpl. unfold nexts. rewrite fmap_insert. fold (nexts (<[np := new]> (nodes s))). rewrite Hnx, El in *. simpl.
    rewrite insert_insert_ne by done. by apply linked_snoc.
Qed.

Lemma add_node_ok s dnp ents np a_name name type :
  dir_ok s dnp ents -> np <> 0 -> a_name <> 0 -> nodes s !! np = None ->
  exists s', ramfs_add_node dnp np a_name name type s = Ok (np, s') /\
    dir_ok s' dnp (ents ++ [(name, np)]) /\ nodes s' !! np = Some (new_node name type) /\ same_files s s' np.
Proof.
  intros Hok Hnp Ha Hfresh. unfold ramfs_add_node, ramfs_allocate_node.
  replace (np =? 0) with false by lia. replace (a_name =? 0) with false by lia.
  erewrite bind_ret by (rewrite (bind_ret _ _ _ tt _) by (by apply modify_ok); done).
  replace (np =? 0) with false by lia. pose proof (do_dir _ _ _ Hok) as (d & Hd & _).
  assert (dnp <> np) as Hne by congruence.
  rewrite (bind_ret _ _ _ d _) by (apply deref_ok; split; [simpl; by rewrite lookup_insert_ne|done]).
  destruct (link_new s dnp d ents name np (new_node name type) Hok Hd Hnp Hfresh eq_refl eq_refl eq_refl) as (s2 & E & Hok2 & Hnew & Hs & _).
  rewrite (bind_ret _ _ _ _ _ E). pose proof (do_dir _ _ _ Hok2) as (d2 & Hd2 & _).
  rewrite (bind_ret _ _ _ _ _ (upd_node_ok s2 dnp d2 _ Hd2)). eexists. split; [done|]. split; [by eapply dir_ok_upd|].
  split; [simpl; by rewrite lookup_insert_ne|]. eapply same_files_trans; [exact Hs|]. eapply same_files_upd; [done|by right].
Qed.

Definition without (np : Z) (ents : list (string * Z)) : list (string * Z) := filter (fun e => e.2 <> np) ents.

Lemma without_split np ents l1 l2 :
  ents.*2 = l1 ++ np :: l2 -> NoDup ents.*2 -> (without np ents).*2 = l1 ++ l2.
Proof.
  revert l1. induction ents as [|[nm p] ents IH]; intros l1 E Hnd; [by destruct l1|]. simpl in *.
  apply NoDup_cons in Hnd as [Hp Hnd]. unfold without. destruct l1 as [|q l1]; injection E as -> E.
  - rewrite filter_cons_False by (simpl; tauto). rewrite <- E. clear -Hp. induction ents as [|[nm' p'] ents IH]; [done|].
    rewrite filter_cons_True by (simpl in *; set_solver). simpl. f_equal. apply IH. set_solver.
  - assert (q <> np) by (intros ->; apply Hp; rewrite E; set_solver). rewrite filter_cons_True by done. simpl. f_equal. by apply IH.
Qed.

(** A directory whose list lost the node [np]. *)
Lemma dir_ok_shrink s s2 dnp d ents np :
  dir_ok s dnp ents -> (forall e, same_files s s2 e) ->
  nodes s2 !! dnp = Some d -> linked (nexts (nodes s2)) (rn_child d) (without np ents).*2 ->
  dir_ok s2 dnp (without np ents).
Proof.
  intros [_ Hnd Hnm] Hs Hd Hl.
  assert (Hsub : (without np ents).*2 `sublist_of` ents.*2) by (apply fmap_sublist, sublist_filter). split.
  - eauto.
  - eapply sublist_NoDup; [exact Hnd|]. by apply sublist_skip.
  - intros nm p [_ Hin]%list_elem_of_filter. destruct (Hnm nm p Hin) as (n & Hn & H1 & H2).
    destruct (Hs (p + 1)) as (_ & _ & _ & _ & Hsame). specialize (Hsame p ltac:(lia)). rewrite Hn in Hsame. simpl in Hsame.
    destruct (nodes s2 !! p) as [n2|] eqn:E; [|done]. injection Hsame as _ E1 E2 _ _ _ _. exists n2. split; [done|]. by rewrite E1, E2.
Qed.

(** The first child of [dnp] is another one, or the next one of one of its children. *)
Definition shrunk (f : rstate) (dnp : Z) (ents : list (string * Z)) (f2 : rstate) : Prop :=
  exists d, nodes f !! dnp = Some d /\
    ((exists x, f2 = set_nodes (<[dnp := with_times now None now (with_child x d)]> (nodes f)) f) \/
     (exists q m x, q ∈ ents.*2 /\ q <> dnp /\ nodes f !! q = Some m /\
        f2 = set_nodes (<[dnp := with_times now None now d]> (<[q := with_next x m]> (nodes f))) f)).

Lemma remove_node_ok s dnp ents np :
  dir_ok s dnp ents -> np ∈ ents.*2 ->
  exists s', ramfs_remove_node dnp np s = Ok (0, s') /\ dir_ok s' dnp (without np ents) /\ (forall e, same_files s s' e) /\ shrunk s dnp ents s'.
Proof.
  intros Hok Hin. pose proof Hok as [(d & Hd & Hl) Hnd Hnm]. pose proof Hnd as [Hdn Hnd']%NoDup_cons.
  pose proof Hin as ((nm & q) & E & Hq)%list_elem_of_fmap. simpl in E. subst q. destruct (Hnm nm np Hq) as (n & Hn & _).
  assert (Hnp : np <> 0) by (by eapply linked_dom in Hin as [_ ?]). assert (Hne : dnp <> np) by (intros ->; done).
  unfold ramfs_remove_node. rewrite (bind_ret _ _ _ d s) by (by apply deref_ok).
  destruct (Z.eqb_spec (rn_child d) 0) as [H0|H0]; [rewrite H0 in Hl; destruct ents; [by apply elem_of_nil in Hin|by inversion Hl]|].
  destruct (Z.eqb_spec (rn_child d) np) as [Hc|Hc].
  - rewrite (bind_ret _ _ _ n s) by (by apply deref_ok). rewrite (bind_ret _ _ _ _ _ (upd_node_ok s dnp d _ Hd)).
    erewrite bind_ret by (apply (upd_node_ok _ dnp (with_child (rn_next n) d)); simpl; by rewrite lookup_insert_eq).
    simpl. rewrite insert_insert_eq. eexists. split; [done|].
    match goal with |- dir_ok ?x _ _ /\ _ => set (s2 := x) end.
    assert (Hs : forall e, same_files s s2 e) by (intros e; exact (same_files_upd s dnp d (with_times now None now (with_child (rn_next n) d)) e Hd (or_intror eq_refl))). split; [|split; [done|by exists d; split; [|left; eexists]]].
    eapply dir_ok_shrink; [exact Hok|exact Hs|simpl; by rewrite lookup_insert_eq|]. simpl. rewrite (nexts_keep _ _ d) by done.
    rewrite Hc in Hl. inversion Hl as [E|a nx l Ha Hx Hr E]; [congruence|]. subst a. rewrite (without_split np ents [] l) by done.
    unfold nexts in Hx. rewrite lookup_fmap, Hn in Hx. by injection Hx as <-.
  - rewrite (bind_ret _ _ _ _ _ (proj2 (gets_ok _ _ _ _) (conj eq_refl eq_refl))).
    destruct (prev_node_ok s (size (nodes s)) (rn_child d) ents.*2 np) as [[? _]|(l1 & prev & l2 & El & E)]; try done.
    { intros E. rewrite E in Hin. set_solver. }
    { inversion Hl as [E|a nx l Ha Hx Hr E]; [congruence|]. simpl. by intros ->%list_elem_of_singleton. }
    { by eapply dir_fuel. }
    rewrite (bind_ret _ _ _ _ _ E). assert (Hprev : prev ∈ ents.*2) by (rewrite El; set_solver).
    pose proof Hprev as ((pn & q) & Eq & Hq2)%list_elem_of_fmap. simpl in Eq. subst q. destruct (Hnm pn prev Hq2) as (m & Hm & _).
    assert (prev <> dnp) by (intros ->; done). rewrite (bind_ret _ _ _ n s) by (by apply deref_ok).
    rewrite (bind_ret _ _ _ _ _ (upd_node_ok s prev m _ Hm)).
    erewrite bind_ret by (apply (upd_node_ok _ dnp d); simpl; by rewrite lookup_insert_ne). simpl. eexists. split; [done|].
    match goal with |- dir_ok ?x _ _ /\ _ => set (s2 := x) end.
    assert (Hs : forall e, same_files s s2 e).
    { intros e. eapply (same_files_trans _ (set_nodes (<[prev := with_next (rn_next n) m]> (nodes s)) s));
        [eapply same_files_upd; [done|by right]|]. eapply (same_files_upd (set_nodes _ s)); [simpl; by rewrite lookup_insert_ne|by right]. }
    split; [|split; [done|exists d; split; [done|right; by exists prev, m, (rn_next n)]]].
    eapply dir_ok_shrink; [exact Hok|exact Hs|simpl; by rewrite lookup_insert_eq|]. simpl. rewrite (nexts_keep _ _ d) by (done || by rewrite lookup_insert_ne). unfold nexts. rewrite fmap_insert. fold (nexts (nodes s)).
    rewrite (without_split np ents (l1 ++ [prev]) l2) by (rewrite <- ?app_assoc; done). rewrite <- app_assoc. simpl.
    rewrite El in *. eapply linked_unlink; [done..|]. unfold nexts. by rewrite lookup_fmap, Hn.
Qed.

(** Removing what is not an entry changes nothing. *)
Lemma remove_node_absent s dnp ents np :
  dir_ok s dnp ents -> np <> 0 -> np ∉ ents.*2 ->
  ramfs_remove_node dnp np s = Ok (match ents with [] => EBUSY | _ => ENOENT end, s).
Proof.
  intros Hok Hnp Hin. pose proof Hok as [(d & Hd & Hl) Hnd Hnm]. pose proof Hnd as [_ Hnd']%NoDup_cons.
  unfold ramfs_remove_node. rewrite (bind_ret _ _ _ d s) by (by apply deref_ok).
  destruct ents as [|[nm p] ents]; [by inversion Hl|].
  assert (rn_child d = p) as Ec by (by inversion Hl). rewrite Ec in *. simpl in *. apply not_elem_of_cons in Hin as [Hne Hin].
  destruct (linked_dom _ _ _ p Hl ltac:(left)) as [_ Hp0].
  replace (p =? 0) with false by lia. replace (p =? np) with false by lia.
  rewrite (bind_ret _ _ _ _ _ (proj2 (gets_ok _ _ _ _) (conj eq_refl eq_refl))).
  destruct (prev_node_ok s (size (nodes s)) p (p :: ents.*2) np) as [[_ E]|(l1 & prev & l2 & El & _)]; try done.
  - simpl. by intros ->%list_elem_of_singleton.
  - pose proof (dir_fuel _ _ _ Hok) as Hf. done.
  - by rewrite (bind_ret _ _ _ _ _ E).
  - exfalso. assert (np ∈ p :: ents.*2) by (rewrite El; set_solver). set_solver.
Qed.

(** Looking a name up: the first entry with it. *)
Lemma find_entry s dnp d ents name :
  dir_ok s dnp ents -> nodes s !! dnp = Some d ->
  find_child (size (nodes s)) (rn_child d) name s = Ok (default 0 (lookup_dir ents name), s).
Proof.
  intros Hok Hd. pose proof (dir_fuel _ _ _ Hok) as Hf. rewrite length_fmap in Hf. destruct Hok as [(d' & Hd' & Hl) _ Hnm].
  rewrite Hd in Hd'. injection Hd' as <-. by apply find_child_ok.
Qed.

Lemma lookup_dir_app ents ents' name :
  lookup_dir (ents ++ ents') name = match lookup_dir ents name with Some p => Some p | None => lookup_dir ents' name end.
Proof. induction ents as [|[nm p] ents IH]; [done|]. simpl. by destruct (String.eqb name nm). Qed.

Lemma lookup_dir_elem ents name p : lookup_dir ents name = Some p -> (name, p) ∈ ents.
Proof.
  induction ents as [|[nm q] ents IH]; [done|]. simpl. destruct (String.eqb_spec name nm) as [->|]; [intros [= ->]; left|right; auto].
Qed.

(** The vnode layer hands out a fresh vnode [vp]. *)
Definition vget_new (vp : Z) (v : vnode) : Z -> M rstate (bool * Z) := fun ino =>
  modify (fun s => set_vnodes (<[vp := v]> (vnodes s)) s);; mret (false, vp).

Lemma vget_new_ok vp v ino s :
  vget_new vp v ino s = Ok ((false, vp), set_vnodes (<[vp := v]> (vnodes s)) s).
Proof. done. Qed.

Definition lookup_state (pad vp np : Z) (v : vnode) (n : ramfs_node) (s : rstate) : rstate :=
  RState (nodes s) (<[vp := Vnode (v_ino v) (rn_type n) UK_ALLPERMS (rn_size n) np]> (vnodes s)) (bufs s)
    (set_tab_stack (alter (fun e => Ipc pad (ipc_size e) (ipc_mask e)) 0%nat (tab_stack (wins s))) (wins s)) (r_mem s) (u64 (inode_count s + 1)).

Lemma lookup_ok s dvp d ents pad vp v name :
  vnodes s !! dvp = Some d -> dir_ok s (v_data d) ents -> name <> ""%string -> vp <> 0 ->
  match lookup_dir ents name with
  | None => exists s', ramfs_lookup (vget_new vp v) pad dvp name s = Ok ((ENOENT, 0), s') /\ nodes s' = nodes s /\ vnodes s' = vnodes s
  | Some np => exists n, nodes s !! np = Some n /\
      ramfs_lookup (vget_new vp v) pad dvp name s = Ok ((0, vp), lookup_state pad vp np v n s)
  end.
Proof.
  intros Hd Hok Hname Hvp. pose proof (do_dir _ _ _ Hok) as (dn & Hdn & _). unfold ramfs_lookup.
  rewrite (bind_ret _ _ _ tt _) by (by apply modify_ok). destruct (String.eqb_spec name "") as [|_]; [done|].
  rewrite (bind_ret _ _ _ d _) by (by apply deref_ok). rewrite (bind_ret _ _ _ dn _) by (by apply deref_ok).
  erewrite bind_ret by (by apply gets_ok). match goal with |- context [set_wins ?w s] => set (s1 := set_wins w s) end.
  assert (Hok1 : dir_ok s1 (v_data d) ents) by (by destruct Hok).
  rewrite (bind_ret _ _ _ _ _ (find_entry s1 (v_data d) dn ents name Hok1 Hdn)).
  destruct (lookup_dir ents name) as [np|] eqn:E; [|by exists s1].
  apply lookup_dir_elem in E. destruct (do_names _ _ _ Hok name np E) as (n & Hn & _). exists n. split; [done|].
  pose proof (do_dir _ _ _ Hok) as (d' & _ & Hl).
  destruct (linked_dom _ _ _ np Hl) as [_ Hnp]; [apply list_elem_of_fmap; by exists (name, np)|]. cbn [default id].
  replace (np =? 0) with false by lia. erewrite bind_ret by (by apply gets_ok). rewrite (bind_ret _ _ _ tt _) by (by apply modify_ok).
  rewrite (bind_ret _ _ _ _ _ (vget_new_ok vp v _ _)). cbv beta iota.
  replace (vp =? 0) with false by lia. rewrite (bind_ret _ _ _ n _) by (by apply deref_ok).
  erewrite bind_ret by (apply (upd_vnode_ok _ vp v); simpl; by rewrite lookup_insert_eq). simpl. by rewrite insert_insert_eq.
Qed.

(** Creating a file and looking it up: in a well-formed directory without
    the name, [ramfs_create] adds a regular, empty file behind all entries;
    [ramfs_lookup] then returns a vnode for the new file, and every other name
    is found, or not, as before. *)
Theorem create_lookup s dvp d ents name mode np a_name :
  vnodes s !! dvp = Some d -> dir_ok s (v_data d) ents -> lookup_dir ents name = None -> name <> ""%string ->
  strlen name <= NAME_MAX -> Z.land mode S_IFMT = S_IFREG -> np <> 0 -> a_name <> 0 -> nodes s !! np = None ->
  exists s', ramfs_create dvp np a_name name mode s = Ok (0, s') /\
    dir_ok s' (v_data d) (ents ++ [(name, np)]) /\ same_files s s' np /\
    (forall pad vp v, vp <> 0 -> exists s'', ramfs_lookup (vget_new vp v) pad dvp name s' = Ok ((0, vp), s'') /\
       vnodes s'' !! vp = Some (Vnode (v_ino v) VREG UK_ALLPERMS 0 np)) /\
    (forall other, other <> name -> lookup_dir (ents ++ [(name, np)]) other = lookup_dir ents other).
Proof.
  intros Hd Hok Habs Hname Hlen Hmode Hnp Ha Hfresh.
  destruct (add_node_ok s (v_data d) ents np a_name name VREG Hok Hnp Ha Hfresh) as (s' & E & Hok' & Hnew & Hs).
  exists s'. split.
  { unfold ramfs_create. replace (NAME_MAX <? strlen name) with false by lia. rewrite Hmode, Z.eqb_refl. cbn [negb].
    rewrite (bind_ret _ _ _ d s) by (by apply deref_ok). rewrite (bind_ret _ _ _ _ _ E). by replace (np =? 0) with false by lia. }
  split; [done|]. split; [done|]. split.
  - intros pad vp v Hvp. assert (Hd' : vnodes s' !! dvp = Some d) by (destruct Hs as (-> & _); done).
    pose proof (lookup_ok s' dvp d (ents ++ [(name, np)]) pad vp v name Hd' Hok' Hname Hvp) as HL.
    rewrite lookup_dir_app, Habs in HL. simpl in HL. rewrite String.eqb_refl in HL. destruct HL as (n & Hn & HL).
    rewrite Hnew in Hn. injection Hn as <-. eexists. split; [exact HL|]. simpl. by rewrite lookup_insert_eq.
  - intros other Hne. rewrite lookup_dir_app. simpl. destruct (String.eqb_spec other name); [done|]. by destruct (lookup_dir ents other).
Qed.

(** Removing a file: [ramfs_remove] of an entry returns 0, takes exactly that
    entry out of the directory and touches no other data; removing a node that is not
    an entry returns an error and changes nothing. *)
Theorem remove_exact s dvp d vp v ents :
  vnodes s !! dvp = Some d -> vnodes s !! vp = Some v -> dir_ok s (v_data d) ents -> v_data v <> 0 ->
  (v_data v ∈ ents.*2 /\
     exists s', ramfs_remove dvp vp s = Ok (0, s') /\ dir_ok s' (v_data d) (without (v_data v) ents) /\ forall e, same_files s s' e) \/
  ((v_data v ∉ ents.*2) /\ exists err, ramfs_remove dvp vp s = Ok (err, s) /\ (err = EBUSY \/ err = ENOENT)).
Proof.
  intros Hd Hv Hok H0. unfold ramfs_remove. rewrite (bind_ret _ _ _ d s) by (by apply deref_ok).
  rewrite (bind_ret _ _ _ v s) by (by apply deref_ok). destruct (decide (v_data v ∈ ents.*2)) as [Hin|Hin].
  - left. split; [done|]. destruct (remove_node_ok s _ ents _ Hok Hin) as (s' & ? & ? & ? & _). by exists s'.
  - right. split; [done|]. rewrite (remove_node_absent s _ ents) by done. eexists. split; [done|]. destruct ents; auto.
Qed.
