(* ===== verification/RamfsData.v ===== *)
(** File data of the RAM file system: reading, writing, truncating, and the
    windows on the buffers.

    The invariant [fs_ok] ties the three parts of the cubicle's state together:
    every file buffer is an object of the recorded size, no two files share one,
    and the windows that are open are exactly one for each buffer. *)
From S2P Require Import Prelude VfsTypes Windows Bbuddy Uio Ramfs.
From stdpp Require Import base numbers strings gmap list list_numbers.
Import Errno.
#[local] Open Scope Z_scope.

(** ** The invariant *)

Definition win_of (n : ramfs_node) : list ipc_struct :=
  if rn_buf n =? 0 then [] else [Ipc (rn_buf n) (rn_bufsize n) (ulong_of_int RAMFS_MASK)].

Definition owned_windows (ns : gmap Z ramfs_node) : list ipc_struct := (map_to_list ns).*2 ≫= win_of.

Definition node_ok (s : rstate) (n : ramfs_node) : Prop :=
  rn_owns_buf n = true /\ 0 <= rn_size n <= rn_bufsize n /\ rn_bufsize n < 2 ^ 62 /\
  (rn_buf n = 0 -> rn_bufsize n = 0) /\
  (rn_buf n <> 0 -> 0 < rn_size n /\ exists b, bufs s !! rn_buf n = Some b /\ Z.of_nat (length b) = rn_bufsize n).

Record fs_ok (s : rstate) : Prop := {
  fo_wf : heap_wf HEAP_MAX (wins s);
  fo_wins : live (tab_heap (wins s)) ≡ₚ owned_windows (nodes s);
  fo_node : forall p n, nodes s !! p = Some n -> node_ok s n;
  fo_apart : forall p q n m, nodes s !! p = Some n -> nodes s !! q = Some m -> p <> q -> rn_buf n <> 0 -> rn_buf n <> rn_buf m
}.

(** The bytes of a file. *)
Definition contents (s : rstate) (np : Z) : list Z :=
  match nodes s !! np with
  | Some n => take (Z.to_nat (rn_size n)) (default [] (bufs s !! rn_buf n))
  | None => []
  end.

Lemma owned_insert ns p n : ns !! p = None -> owned_windows (<[p := n]> ns) ≡ₚ win_of n ++ owned_windows ns.
Proof. intros Hp. unfold owned_windows. by rewrite map_to_list_insert. Qed.

Lemma owned_update ns p n n' :
  ns !! p = Some n -> win_of n ++ owned_windows (<[p := n']> ns) ≡ₚ win_of n' ++ owned_windows ns.
Proof.
  intros Hp. rewrite <- (insert_delete_id ns p n Hp) at 2. rewrite <- insert_delete_eq.
  rewrite !owned_insert by apply lookup_delete_eq. rewrite !(Permutation_app_comm (win_of n')), !(Permutation_app_comm (win_of n)).
  rewrite <- !app_assoc. by rewrite (Permutation_app_comm (win_of n) (win_of n')).
Qed.

Lemma contents_length s np n : fs_ok s -> nodes s !! np = Some n -> Z.of_nat (length (contents s np)) = rn_size n.
Proof.
  intros Hok Hn. unfold contents. rewrite Hn. destruct (fo_node _ Hok np n Hn) as (_ & Hs & _ & H0 & Hb). rewrite length_take.
  destruct (decide (rn_buf n = 0)) as [E|E]; [rewrite H0 in Hs by done; lia|]. destruct (Hb E) as (_ & b & -> & Hl). simpl. lia.
Qed.

(** A state that differs in the node [np] and its buffer only. *)
Lemma fs_ok_replace s s' np n n' b :
  fs_ok s -> nodes s !! np = Some n -> nodes s' = <[np := n']> (nodes s) ->
  heap_wf HEAP_MAX (wins s') -> win_of n ++ live (tab_heap (wins s')) ≡ₚ win_of n' ++ live (tab_heap (wins s)) ->
  rn_owns_buf n' = true -> 0 < rn_size n' <= rn_bufsize n' -> rn_bufsize n' < 2 ^ 62 -> rn_buf n' <> 0 ->
  bufs s' !! rn_buf n' = Some b -> Z.of_nat (length b) = rn_bufsize n' ->
  (rn_buf n' = rn_buf n \/ bufs s !! rn_buf n' = None) ->
  (forall a, a <> rn_buf n' -> a <> rn_buf n -> bufs s' !! a = bufs s !! a) ->
  fs_ok s' /\ forall q, q <> np -> contents s' q = contents s q.
Proof.
  intros Hok Hn Hns Hwf Hw Hown Hsz Hbs Hb0 Hb Hlen Hnew Hfr.
  assert (Hother : forall q m, q <> np -> nodes s !! q = Some m -> rn_buf m <> 0 -> bufs s' !! rn_buf m = bufs s !! rn_buf m).
  { intros q m Hq Hm H0. destruct (fo_node _ Hok q m Hm) as (_ & _ & _ & _ & Hbm). destruct (Hbm H0) as (_ & b1 & Hb1 & _).
    apply Hfr; [|by eapply (fo_apart _ Hok q np)]. destruct Hnew as [->|Hnew]; [by eapply (fo_apart _ Hok q np)|congruence]. }
  split; [split|].
  - done.
  - rewrite Hns. apply (Permutation_app_inv_l (win_of n)). rewrite Hw, (owned_update _ _ n) by done. by rewrite (fo_wins _ Hok).
  - intros p m. rewrite Hns. destruct (decide (p = np)) as [->|Hne].
    + rewrite lookup_insert_eq. intros [= <-]. split; [done|]. split; [lia|]. split; [done|]. split; [done|].
      intros _. split; [lia|]. eauto.
    + rewrite lookup_insert_ne by done. intros Hm. destruct (fo_node _ Hok p m Hm) as (A & B & C & D & E).
      split; [done|]. split; [done|]. split; [done|]. split; [done|]. intros H0. rewrite (Hother p m Hne Hm H0). by apply E.
  - intros p q m k. rewrite Hns. destruct (decide (p = np)) as [->|Hp], (decide (q = np)) as [->|Hq];
      rewrite ?lookup_insert_eq, ?lookup_insert_ne by done; intros Hm Hk Hpq H0; try done; simplify_eq.
    + intros E. destruct Hnew as [Hnew|Hnew]; [by apply (fo_apart _ Hok np q n k); [..|rewrite <- Hnew|rewrite <- Hnew]|].
      destruct (fo_node _ Hok q k Hk) as (_ & _ & _ & _ & Hbk). destruct Hbk as (_ & b1 & Hb1 & _); [congruence|]. congruence.
    + intros E. destruct Hnew as [Hnew|Hnew]; [by apply (fo_apart _ Hok p np m n); [..|congruence]|].
      destruct (fo_node _ Hok p m Hm) as (_ & _ & _ & _ & Hbk). destruct Hbk as (_ & b1 & Hb1 & _); [done|]. congruence.
    + by eapply (fo_apart _ Hok p q).
  - intros q Hq. unfold contents. rewrite Hns, lookup_insert_ne by done. destruct (nodes s !! q) as [m|] eqn:Hm; [|done].
    destruct (decide (rn_buf m = 0)) as [E|E]; [|by rewrite (Hother q m)].
    destruct (fo_node _ Hok q m Hm) as (_ & Hs & _ & H0 & _). rewrite H0 in Hs by done. by replace (Z.to_nat (rn_size m)) with 0%nat by lia.
Qed.

(** ** Extending a file *)

Lemma on_wins_ok m s t : m (wins s) = Ok (tt, t) -> on_wins m s = Ok (tt, set_wins t s).
Proof. intros E. unfold on_wins. by rewrite E. Qed.

Lemma free_buf_ok s p b : bufs s !! p = Some b -> free_buf p s = Ok (tt, set_bufs (delete p (bufs s)) s).
Proof. intros E. unfold free_buf. by rewrite (bind_ret _ _ _ b s) by (by apply deref_ok). Qed.

Lemma copy_buf_ok s dst src n b c :
  bufs s !! src = Some b -> bufs s !! dst = Some c -> 0 <= n <= Z.of_nat (length b) -> n <= Z.of_nat (length c) ->
  copy_buf dst src n s = Ok (tt, set_bufs (<[dst := take (Z.to_nat n) b ++ drop (Z.to_nat n) c]> (bufs s)) s).
Proof.
  intros Hb Hc Hn Hc2. unfold copy_buf. rewrite (bind_ret _ _ _ b s) by (by apply deref_ok).
  rewrite (bind_ret _ _ _ _ s) by (apply lift_ok; split; [apply seg_get_ok; lia|done]).
  rewrite (bind_ret _ _ _ c s) by (by apply deref_ok). simpl. rewrite drop_0.
  assert (Hl : length (take (Z.to_nat n) b) = Z.to_nat n) by (rewrite length_take; lia).
  rewrite (bind_ret _ _ _ _ s) by (apply lift_ok; split; [apply seg_put_ok; lia|done]). by rewrite Hl.
Qed.

Lemma live_room t : length (live (tab_heap t)) <> HEAP_MAX -> heap_wf HEAP_MAX t -> forall b sz, sz <> 0 ->
  exists t', ramfs_ipc_add_heap b sz RAMFS_MASK t = Ok (tt, t') /\ heap_wf HEAP_MAX t' /\
    live (tab_heap t') ≡ₚ Ipc b sz (ulong_of_int RAMFS_MASK) :: live (tab_heap t).
Proof.
  intros Hr Hwf b sz Hsz. destruct (hw_add (HeapWindows := ramfs_windows) b sz RAMFS_MASK t Hwf Hsz) as [(t' & E & H1 & H2 & _)|[_ H]]; [eauto|done].
Qed.

(** Closing the window of the old buffer. *)
Lemma close_window t b sz (L : list ipc_struct) :
  heap_wf HEAP_MAX t -> b <> 0 -> live (tab_heap t) ≡ₚ Ipc b sz (ulong_of_int RAMFS_MASK) :: L ->
  (forall e, e ∈ L -> ipc_begin e <> b) ->
  exists t', ramfs_ipc_remove_heap b t = Ok (tt, t') /\ heap_wf HEAP_MAX t' /\ live (tab_heap t') ≡ₚ L.
Proof.
  intros Hwf Hb Hl Hu. destruct (hw_remove (HeapWindows := ramfs_windows) b t Hwf Hb) as [(t' & e & E & H1 & H2 & H3 & _)|[_ H]].
  - exists t'. split; [done|]. split; [done|]. rewrite Hl in H3.
    assert (Hin : e ∈ Ipc b sz (ulong_of_int RAMFS_MASK) :: L) by (rewrite H3; left).
    apply elem_of_cons in Hin as [->|Hin]; [by apply Permutation_cons_inv in H3|]. destruct (Hu e Hin H2).
  - exfalso. apply (H (Ipc b sz (ulong_of_int RAMFS_MASK))); [rewrite Hl; left|done].
Qed.

(** The windows of the other files do not begin at the buffer of [np]. *)
Lemma other_windows s np n :
  fs_ok s -> nodes s !! np = Some n -> rn_buf n <> 0 ->
  exists L, owned_windows (nodes s) ≡ₚ win_of n ++ L /\ forall e, e ∈ L -> ipc_begin e <> rn_buf n.
Proof.
  intros Hok Hn H0. exists (owned_windows (delete np (nodes s))). split.
  - rewrite <- (insert_delete_id _ np n Hn) at 1. apply owned_insert, lookup_delete_eq.
  - intros e (m & He & Hm)%list_elem_of_bind. apply list_elem_of_fmap in Hm as ([q k] & -> & Hq). simpl in He.
    apply elem_of_map_to_list in Hq. apply lookup_delete_Some in Hq as [Hne Hq]. unfold win_of in He.
    destruct (Z.eqb_spec (rn_buf k) 0); [by apply elem_of_nil in He|]. apply list_elem_of_singleton in He as ->. simpl.
    intros E. by apply (fo_apart _ Hok np q n k).
Qed.

(** What the extension of file [np] to [end_pos] bytes leaves. *)
Definition extended (s s' : rstate) (vp np end_pos : Z) (v : vnode) (n : ramfs_node) : Prop :=
  fs_ok s' /\ r_mem s' = r_mem s /\ vnodes s' = <[vp := with_vsize end_pos v]> (vnodes s) /\
  (forall q, q <> np -> contents s' q = contents s q) /\
  exists n' b, nodes s' !! np = Some n' /\ rn_size n' = end_pos /\ rn_buf n' <> 0 /\ bufs s' !! rn_buf n' = Some b /\
    take (Z.to_nat (rn_size n)) b = contents s np.

Lemma extend_in_place s vp np v n end_pos new_buf :
  fs_ok s -> vnodes s !! vp = Some v -> nodes s !! np = Some n -> rn_size n < end_pos <= rn_bufsize n ->
  exists s', extend_file vp np end_pos new_buf s = Ok (true, s') /\ extended s s' vp np end_pos v n.
Proof.
  intros Hok Hv Hn He. pose proof (fo_node _ Hok np n Hn) as (H1 & H2 & H3 & H4 & H5).
  assert (Hb0 : rn_buf n <> 0) by (intros E; rewrite H4 in He by done; lia). destruct (H5 Hb0) as (Hs0 & b & Hb & Hl).
  unfold extend_file. rewrite (bind_ret _ _ _ v s) by (by apply deref_ok). rewrite (bind_ret _ _ _ n s) by (by apply deref_ok).
  assert (s64 (rn_bufsize n) = rn_bufsize n) as -> by (apply signed_small; lia).
  replace (rn_bufsize n <? end_pos) with false by lia. rewrite (bind_ret _ _ _ true s) by done.
  rewrite (bind_ret _ _ _ _ _ (upd_node_ok s np n _ Hn)).
  erewrite bind_ret by (by apply (upd_vnode_ok _ vp v)).
  erewrite bind_ret by (apply (upd_node_ok _ np (with_size end_pos n)); simpl; by rewrite lookup_insert_eq).
  eexists. split; [done|]. simpl. rewrite insert_insert_eq. set (n' := with_owns true (with_size end_pos n)).
  match goal with |- extended _ ?x _ _ _ _ _ => set (s' := x) end.
  destruct (fs_ok_replace s s' np n n' b) as [Hok' Hc]; try done; [apply (fo_wf _ Hok)|simpl; lia|simpl; by left|].
  split; [done|]. split; [done|]. split; [done|]. split; [done|]. exists n', b. simpl. rewrite lookup_insert_eq.
  split; [done|]. split; [done|]. split; [done|]. split; [done|]. unfold contents. by rewrite Hn, Hb.
Qed.

Lemma win_of_buf n : rn_buf n <> 0 -> win_of n = [Ipc (rn_buf n) (rn_bufsize n) (ulong_of_int RAMFS_MASK)].
Proof. intros H. unfold win_of. by replace (rn_buf n =? 0) with false by lia. Qed.

(** Moving the data of [np] to a new buffer moves its window too. *)
Lemma grow_buffer_ok s np v n new_buf sz :
  fs_ok s -> nodes s !! np = Some n -> v_size v = rn_size n -> rn_size n < sz ->
  length (live (tab_heap (wins s))) <> HEAP_MAX -> new_buf <> 0 -> bufs s !! new_buf = None ->
  exists B t b, grow_buffer np new_buf sz v n s =
      Ok (tt, RState (<[np := with_buf new_buf sz n]> (nodes s)) (vnodes s) B t (r_mem s) (inode_count s)) /\
    heap_wf HEAP_MAX t /\ win_of n ++ live (tab_heap t) ≡ₚ Ipc new_buf sz (ulong_of_int RAMFS_MASK) :: live (tab_heap (wins s)) /\
    B !! new_buf = Some b /\ Z.of_nat (length b) = sz /\ take (Z.to_nat (rn_size n)) b = contents s np /\
    forall a, a <> new_buf -> a <> rn_buf n -> B !! a = bufs s !! a.
Proof.
  intros Hok Hn Hvs Hsz Hroom Hnb Hfresh. pose proof (fo_node _ Hok np n Hn) as (H1 & H2 & H3 & H4 & H5).
  set (zeros := replicate (Z.to_nat sz) 0). assert (Hzl : Z.of_nat (length zeros) = sz) by (unfold zeros; rewrite length_replicate; lia).
  destruct (live_room (wins s) Hroom (fo_wf _ Hok) new_buf sz ltac:(lia)) as (t1 & Et1 & Hwf1 & Hl1).
  unfold grow_buffer. rewrite (bind_ret _ _ _ tt _) by (by apply modify_ok).
  rewrite (bind_ret _ _ _ _ _ (on_wins_ok _ (set_bufs _ s) t1 Et1)). destruct (Z.eqb_spec (rn_size n) 0) as [E0|E0].
  - assert (rn_buf n = 0) as Hb0 by (destruct (decide (rn_buf n = 0)) as [|Hb]; [done|]; destruct (H5 Hb); lia).
    rewrite (bind_ret _ _ _ tt _) by done. erewrite upd_node_ok by exact Hn.
    eexists _, t1, zeros. split; [done|]. split; [done|]. unfold win_of, contents. rewrite Hb0, Hn, E0. simpl.
    split; [done|]. rewrite lookup_insert_eq. split; [done|]. split; [done|]. split; [done|]. intros a Ha _. by rewrite lookup_insert_ne.
  - assert (rn_buf n <> 0) as Hb0 by (intros Eb; rewrite H4 in H2 by done; lia). destruct (H5 Hb0) as (Hs0 & b & Hb & Hl).
    assert (Hnbb : new_buf <> rn_buf n) by congruence. rewrite H1, (win_of_buf n Hb0).
    destruct (other_windows s np n Hok Hn Hb0) as (L & HL & HLb). rewrite (win_of_buf n Hb0) in HL.
    destruct (close_window t1 (rn_buf n) (rn_bufsize n) (Ipc new_buf sz (ulong_of_int RAMFS_MASK) :: L)) as (t2 & Et2 & Hwf2 & Hl2); [done|done| | |].
    { rewrite Hl1, (fo_wins _ Hok), HL. apply Permutation_swap. }
    { intros e [->|He']%elem_of_cons; [simpl; congruence|by apply HLb]. }
    erewrite bind_ret.
    2:{ erewrite bind_ret; [|eapply (copy_buf_ok _ new_buf (rn_buf n) (v_size v) b zeros); simpl;
           [by rewrite lookup_insert_ne|by rewrite lookup_insert_eq|lia|lia]].
        erewrite bind_ret; [|eapply (free_buf_ok _ _ b); simpl; rewrite !lookup_insert_ne by done; exact Hb].
        apply on_wins_ok. exact Et2. }
    erewrite upd_node_ok by exact Hn. eexists _, t2, (take (Z.to_nat (v_size v)) b ++ drop (Z.to_nat (v_size v)) zeros).
    split; [done|]. split; [done|]. split; [rewrite Hl2, (fo_wins _ Hok), HL; apply Permutation_swap|]. simpl.
    rewrite lookup_delete_ne, lookup_insert_eq by done. split; [done|]. rewrite Hvs.
    split; [rewrite length_app, length_take, length_drop; lia|]. split.
    + rewrite take_app_length' by (rewrite length_take; lia). unfold contents. by rewrite Hn, Hb.
    + intros a Ha1 Ha2. by rewrite lookup_delete_ne, !lookup_insert_ne.
Qed.

Lemma extend_move s vp np v n end_pos new_buf :
  fs_ok s -> vnodes s !! vp = Some v -> nodes s !! np = Some n -> v_size v = rn_size n ->
  rn_bufsize n < end_pos < 2 ^ 61 -> length (live (tab_heap (wins s))) <> HEAP_MAX ->
  new_buf <> 0 -> bufs s !! new_buf = None ->
  exists s', extend_file vp np end_pos new_buf s = Ok (true, s') /\ extended s s' vp np end_pos v n.
Proof.
  intros Hok Hv Hn Hvs He Hroom Hnb Hfresh. pose proof (fo_node _ Hok np n Hn) as (H1 & H2 & H3 & _).
  unfold extend_file. rewrite (bind_ret _ _ _ v s) by (by apply deref_ok). rewrite (bind_ret _ _ _ n s) by (by apply deref_ok).
  assert (s64 (rn_bufsize n) = rn_bufsize n) as -> by (apply signed_small; lia).
  replace (rn_bufsize n <? end_pos) with true by lia. replace (new_buf =? 0) with false by lia.
  assert (Hsz : end_pos <= round_pgup end_pos < 2 ^ 62) by (rewrite round_pgup_eq by lia; divlia).
  set (sz := round_pgup end_pos) in *.
  destruct (grow_buffer_ok s np v n new_buf sz Hok Hn Hvs ltac:(lia) Hroom Hnb Hfresh) as (B & t & b & E & Hwf & Hl & HB & HBl & HBc & HBf).
  erewrite bind_ret by (rewrite (bind_ret _ _ _ _ _ E); done). cbv beta iota.
  erewrite bind_ret by (apply (upd_node_ok _ np (with_buf new_buf sz n)); simpl; by rewrite lookup_insert_eq).
  erewrite bind_ret by (by apply (upd_vnode_ok _ vp v)).
  erewrite bind_ret by (apply (upd_node_ok _ np (with_size end_pos (with_buf new_buf sz n))); simpl; by rewrite lookup_insert_eq).
  eexists. split; [done|]. simpl. rewrite !insert_insert_eq. set (n' := with_owns true (with_size end_pos (with_buf new_buf sz n))).
  match goal with |- extended _ ?x _ _ _ _ _ => set (s' := x) end.
  destruct (fs_ok_replace s s' np n n' b) as [Hok' Hc]; try done; [by rewrite (win_of_buf n')|simpl; lia|simpl; lia|by right|].
  split; [done|]. split; [done|]. split; [done|]. split; [done|]. exists n', b. simpl. by rewrite lookup_insert_eq.
Qed.

(** ** Reading and writing *)

Lemma move_buf_ok s p cp n u b :
  bufs s !! p = Some b -> uio_ok u -> NoDup (addrs (uio_iov u)) -> 0 <= n < 2 ^ 31 -> 0 <= cp ->
  cp + Z.min n (uio_resid u) <= Z.of_nat (length b) ->
  exists u' m' b', move_buf p cp n u s = Ok ((0, u'), set_mem m' (set_bufs (<[p := b']> (bufs s)) s)) /\
    uio_advanced u u' (moved n u) /\ copied (uio_op u) (take (moved n u) (addrs (uio_iov u))) cp (r_mem s, b) (m', b').
Proof.
  intros Hb Hu Hnd Hn Hcp Hlen. unfold move_buf. rewrite Hb. unfold vfscore_uiomove. rewrite u64_s32 by done.
  destruct (uioforeach_ok (2 * length (uio_iov u)) cp n u (r_mem s, b) Hu ltac:(lia) Hcp Hlen Hnd (turns_bound _))
    as (u' & [m' b'] & -> & A & C). exists u', m', b'. done.
Qed.

(** Overwriting [l] at [off] in the first [k] bytes of [b]. *)
Lemma take_splice {A} (b l : list A) off k :
  (off <= k)%nat -> (off + length l <= length b)%nat -> (k <= length b)%nat ->
  take (max k (off + length l)) (take off b ++ l ++ drop (off + length l) b) =
  take off (take k b) ++ l ++ drop (off + length l) (take k b).
Proof.
  intros H1 H2 H3. rewrite take_take. replace (min off k) with off by lia.
  assert (length (take off b) = off) by (rewrite length_take; lia).
  replace (max k (off + length l)) with (length (take off b) + (length l + (k - (off + length l))))%nat by lia.
  rewrite take_app_add, take_app_add. do 2 f_equal. by rewrite skipn_firstn_comm.
Qed.

(** The vnode [vp] is a regular file and agrees with its node. *)
Definition file_at (s : rstate) (vp : Z) (v : vnode) (n : ramfs_node) : Prop :=
  vnodes s !! vp = Some v /\ v_type v = VREG /\ nodes s !! v_data v = Some n /\ v_size v = rn_size n.

(** The part of [ramfs_write] after the checks, for a file that is big enough. *)
Lemma write_data_ok s np n u b :
  fs_ok s -> nodes s !! np = Some n -> rn_buf n <> 0 -> bufs s !! rn_buf n = Some b ->
  uio_ok u -> NoDup (addrs (uio_iov u)) -> uio_op u = UIO_WRITE -> 0 < uio_resid u ->
  0 <= uio_offset u -> uio_offset u + uio_resid u <= rn_size n -> rn_size n < 2 ^ 31 ->
  exists u' s', (upd_node np (with_times now None now);; n1 ← node np; move_buf (rn_buf n1) (uio_offset u) (uio_resid u) u) s = Ok ((0, u'), s') /\
    fs_ok s' /\ r_mem s' = r_mem s /\ vnodes s' = vnodes s /\ uio_resid u' = 0 /\
    (forall q, q <> np -> contents s' q = contents s q) /\
    (exists n', nodes s' !! np = Some n' /\ rn_size n' = rn_size n) /\
    contents s' np = take (Z.to_nat (rn_size n)) (take (Z.to_nat (uio_offset u)) b ++ (r_mem s <$> addrs (uio_iov u)) ++
                        drop (Z.to_nat (uio_offset u) + Z.to_nat (uio_resid u)) b).
Proof.
  intros Hok Hn Hb0 Hb Hu Hnd Hop Hres Hoff Hend Hsz. pose proof (fo_node _ Hok np n Hn) as (H1 & H2 & H3 & H4 & H5).
  destruct (H5 Hb0) as (Hs0 & b1 & Hb1 & Hl). rewrite Hb in Hb1. injection Hb1 as <-.
  rewrite (bind_ret _ _ _ _ _ (upd_node_ok s np n _ Hn)). set (n' := with_times now None now n).
  rewrite (bind_ret _ _ _ n' _) by (apply deref_ok; split; [simpl; by rewrite lookup_insert_eq|done]).
  change (rn_buf n') with (rn_buf n).
  destruct (move_buf_ok (set_nodes (<[np := n']> (nodes s)) s) (rn_buf n) (uio_offset u) (uio_resid u) u b Hb Hu Hnd) as (u' & m' & b' & E & A & C);
    [lia..|]. rewrite Hop in C. destruct C as [Cm Cb]. simpl in Cm, Cb. subst m'.
  pose proof Hu as [_ Hlen]. assert (moved (uio_resid u) u = length (addrs (uio_iov u))) as Hm by (unfold moved; lia).
  rewrite Hm, firstn_all in Cb. rewrite Hm in A. eexists u', _. split; [exact E|].
  match goal with |- fs_ok ?x /\ _ => set (s' := x) end.
  assert (Hlb' : length b' = length b).
  { rewrite Cb, !length_app, length_take, length_fmap, length_drop. lia. }
  destruct (fs_ok_replace s s' np n n' b') as [Hok' Hc]; try done; [apply (fo_wf _ Hok)|simpl; lia|simpl; by rewrite lookup_insert_eq|simpl; lia|simpl; by left| |].
  { intros a Ha _. simpl. by rewrite lookup_insert_ne. }
  split; [done|]. split; [done|]. split; [done|]. split; [destruct A as (_ & _ & _ & -> & _); lia|]. split; [done|]. split.
  - exists n'. simpl. by rewrite lookup_insert_eq.
  - unfold contents. simpl. rewrite lookup_insert_eq. simpl. rewrite lookup_insert_eq. simpl. rewrite Cb. do 4 f_equal. lia.
Qed.

Definition write_offset (ioflag : Z) (u : uio) (n : ramfs_node) : Z :=
  if Z.land ioflag IO_APPEND =? 0 then uio_offset u else rn_size n.

Lemma write_ok s vp v n u ioflag new_buf :
  fs_ok s -> file_at s vp v n ->
  uio_ok u -> NoDup (addrs (uio_iov u)) -> uio_op u = UIO_WRITE -> 0 < uio_resid u -> 0 <= uio_offset u < 2 ^ 31 ->
  let off := write_offset ioflag u n in
  0 <= off <= rn_size n -> rn_size n < 2 ^ 31 -> off + uio_resid u < 2 ^ 31 ->
  length (live (tab_heap (wins s))) <> HEAP_MAX -> new_buf <> 0 -> bufs s !! new_buf = None ->
  let c := contents s (v_data v) in
  exists u' s' n', ramfs_write vp u ioflag new_buf s = Ok ((0, u'), s') /\ fs_ok s' /\
    file_at s' vp (with_vsize (rn_size n') v) n' /\ r_mem s' = r_mem s /\ uio_resid u' = 0 /\
    contents s' (v_data v) = take (Z.to_nat off) c ++ (r_mem s <$> addrs (uio_iov u)) ++ drop (Z.to_nat (off + uio_resid u)) c /\
    forall q, q <> v_data v -> contents s' q = contents s q.
Proof.
  intros Hok (Hv & Hty & Hn & Hvs) Hu Hnd Hop Hres Huo off Hoff Hsz Hend Hroom Hnb Hfresh c.
  pose proof (fo_node _ Hok _ n Hn) as (H1 & H2 & H3 & H4 & H5). pose proof (contents_length s _ n Hok Hn) as Hcl. fold c in Hcl.
  unfold ramfs_write. rewrite (bind_ret _ _ _ v s) by (by apply deref_ok). rewrite Hty.
  rewrite bool_decide_eq_false_2 by done. rewrite bool_decide_eq_true_2 by done. cbn [negb].
  replace (uio_offset u <? 0) with false by lia. replace (LONG_MAX <=? uio_offset u) with false by (unfold LONG_MAX; lia).
  replace (uio_resid u =? 0) with false by lia. rewrite (bind_ret _ _ _ n s) by (by apply deref_ok).
  set (u1 := if Z.land ioflag IO_APPEND =? 0 then u else _).
  assert (Hu1 : uio_iov u1 = uio_iov u /\ uio_resid u1 = uio_resid u /\ uio_op u1 = UIO_WRITE /\ uio_offset u1 = off).
  { unfold u1, off, write_offset. destruct (_ =? 0); [done|]. simpl. split; [done|]. split; [done|]. split; [done|]. apply signed_small; lia. }
  destruct Hu1 as (U1 & U2 & U3 & U4). rewrite U2, U4.
  assert (s64 (off + uio_resid u) = off + uio_resid u) as -> by (apply signed_small; lia). rewrite !u64_small, Hvs by lia.
  assert (Hok1 : uio_ok u1) by (unfold uio_ok; by rewrite U1, U2). pose proof Hu as [_ Hlen].
  assert (Hgl : length (r_mem s <$> addrs (uio_iov u)) = Z.to_nat (uio_resid u)) by (rewrite length_fmap; lia).
  destruct (Z.ltb_spec (rn_size n) (off + uio_resid u)) as [Hlt|Hge].
  - assert (exists s1, extend_file vp (v_data v) (off + uio_resid u) new_buf s = Ok (true, s1) /\ extended s s1 vp (v_data v) (off + uio_resid u) v n) as (s1 & E & X).
    { destruct (decide (rn_bufsize n < off + uio_resid u)); [apply extend_move|apply extend_in_place]; (done || lia). }
    rewrite (bind_ret _ _ _ _ _ E). destruct X as (Hok2 & Hm2 & Hv2 & Hc2 & n1 & b1 & Hn1 & Hs1 & Hb1 & Hbb1 & Ht1).
    pose proof (fo_node _ Hok2 _ n1 Hn1) as (_ & K2 & _ & _ & K5). destruct (K5 Hb1) as (_ & b2 & Hb2 & Hl2). rewrite Hbb1 in Hb2. injection Hb2 as <-.
    destruct (write_data_ok s1 (v_data v) n1 u1 b1) as (u' & s' & E' & Hok' & Hm' & Hv' & Hr' & Hc' & (n' & Hn' & Hs') & Hcon);
      rewrite ?U1, ?U2, ?U4; try (done || lia). rewrite U1, U2, U4 in Hcon. rewrite U2, U4 in E'.
    exists u', s', n'. split; [exact E'|]. split; [done|]. split.
    { split; [rewrite Hv', Hv2, lookup_insert_eq, Hs', Hs1; done|]. split; [done|]. split; [done|]. by simpl. }
    split; [congruence|]. split; [done|]. split; [|intros q Hq; by rewrite Hc', Hc2].
    rewrite Hcon, Hm2, Hs1. fold c in Ht1. rewrite <- Ht1, <- Hgl.
    replace (Z.to_nat (off + uio_resid u)) with (max (Z.to_nat (rn_size n)) (Z.to_nat off + length (r_mem s <$> addrs (uio_iov u))))%nat at 1 by lia.
    rewrite take_splice by lia. do 3 f_equal. lia.
  - rewrite (bind_ret _ _ _ true s) by done. assert (Hb0 : rn_buf n <> 0) by (intros Eb; rewrite H4 in H2 by done; lia).
    destruct (H5 Hb0) as (_ & b & Hb & Hl).
    destruct (write_data_ok s (v_data v) n u1 b) as (u' & s' & E' & Hok' & Hm' & Hv' & Hr' & Hc' & (n' & Hn' & Hs') & Hcon);
      rewrite ?U1, ?U2, ?U4; try (done || lia). rewrite U1, U2, U4 in Hcon. rewrite U2, U4 in E'.
    exists u', s', n'. split; [exact E'|]. split; [done|]. split.
    { rewrite Hs', <- Hvs. split; [rewrite Hv', Hv; by destruct v|]. split; [done|]. split; [done|]. simpl. congruence. }
    split; [done|]. split; [done|]. split; [|done]. rewrite Hcon, <- Hgl.
    replace (Z.to_nat (rn_size n)) with (max (Z.to_nat (rn_size n)) (Z.to_nat off + length (r_mem s <$> addrs (uio_iov u))))%nat at 1 by lia.
    rewrite take_splice by lia. assert (c = take (Z.to_nat (rn_size n)) b) as -> by (unfold c, contents; by rewrite Hn, Hb). do 3 f_equal. lia.
Qed.

(** The bytes a read at the offset of [u] gets. *)
Definition read_count (u : uio) (n : ramfs_node) : Z := Z.min (uio_resid u) (Z.max 0 (rn_size n - uio_offset u)).

Lemma read_ok s vp v n u :
  fs_ok s -> file_at s vp v n -> uio_ok u -> NoDup (addrs (uio_iov u)) -> uio_op u = UIO_READ ->
  0 <= uio_offset u -> rn_size n < 2 ^ 31 ->
  let k := Z.to_nat (read_count u n) in
  exists u' s', ramfs_read vp u s = Ok ((0, u'), s') /\ fs_ok s' /\ uio_advanced u u' k /\
    r_mem s' <$> take k (addrs (uio_iov u)) = take k (drop (Z.to_nat (uio_offset u)) (contents s (v_data v))) /\
    (forall x, x ∉ take k (addrs (uio_iov u)) -> r_mem s' x = r_mem s x) /\ forall q, contents s' q = contents s q.
Proof.
  intros Hok (Hv & Hty & Hn & Hvs) Hu Hnd Hop Hoff Hsz k. pose proof Hu as [_ Hlen].
  pose proof (fo_node _ Hok _ n Hn) as (H1 & H2 & H3 & H4 & H5).
  unfold ramfs_read, read_data. rewrite (bind_ret _ _ _ v s) by (by apply deref_ok). rewrite Hty.
  rewrite bool_decide_eq_false_2 by done. rewrite bool_decide_eq_true_2 by done. cbn [negb].
  replace (uio_offset u <? 0) with false by lia. rewrite Hvs.
  assert (Hstop : k = 0%nat -> exists u' s', Ok ((0, u), s) = Ok ((0, u'), s') /\ fs_ok s' /\ uio_advanced u u' k /\
    r_mem s' <$> take k (addrs (uio_iov u)) = take k (drop (Z.to_nat (uio_offset u)) (contents s (v_data v))) /\
    (forall x, x ∉ take k (addrs (uio_iov u)) -> r_mem s' x = r_mem s x) /\ forall q, contents s' q = contents s q).
  { intros ->. exists u, s. split; [done|]. split; [done|]. split; [split; [done|]; rewrite drop_0; split_and!; done || lia|]. done. }
  unfold k, read_count in *. destruct (Z.eqb_spec (uio_resid u) 0); [apply Hstop; lia|].
  destruct (Z.leb_spec (rn_size n) (uio_offset u)); [apply Hstop; lia|]. clear Hstop.
  assert (Hb0 : rn_buf n <> 0) by (intros Eb; rewrite H4 in H2 by done; lia). destruct (H5 Hb0) as (_ & b & Hb & Hl).
  rewrite (bind_ret _ _ _ _ _ (upd_node_ok s _ n _ Hn)). set (n' := with_times None now None n).
  rewrite (bind_ret _ _ _ n' _) by (apply deref_ok; split; [simpl; by rewrite lookup_insert_eq|done]). change (rn_buf n') with (rn_buf n).
  set (len := if rn_size n - uio_offset u <? uio_resid u then _ else _).
  assert (Hlen' : len = Z.min (uio_resid u) (Z.max 0 (rn_size n - uio_offset u))).
  { unfold len. destruct (Z.ltb_spec (rn_size n - uio_offset u) (uio_resid u)); lia. }
  destruct (move_buf_ok (set_nodes (<[v_data v := n']> (nodes s)) s) (rn_buf n) (uio_offset u) len u b Hb Hu Hnd) as (u' & m' & b' & E & A & C);
    [lia..|]. rewrite Hop in C. destruct C as (Cb & Cf & Cv). simpl in Cb, Cf, Cv. subst b'.
  assert (moved len u = Z.to_nat (Z.min (uio_resid u) (Z.max 0 (rn_size n - uio_offset u)))) as Hm by (unfold moved; lia). rewrite Hm in *.
  eexists u', _. split; [exact E|]. match goal with |- fs_ok ?x /\ _ => set (s' := x) end.
  assert (Hbufs : bufs s' = bufs s) by (simpl; by apply insert_id).
  destruct (fs_ok_replace s s' (v_data v) n n' b) as [Hok' Hc]; try done; [apply (fo_wf _ Hok)|simpl; lia|by rewrite Hbufs|by left|by intros; rewrite Hbufs|].
  assert (Hcv : contents s (v_data v) = take (Z.to_nat (rn_size n)) b) by (unfold contents; by rewrite Hn, Hb).
  split; [done|]. split; [done|]. split; [|split; [exact Cf|]].
  - change (r_mem s') with m'. rewrite Cv, Hcv, skipn_firstn_comm, take_take, length_take. f_equal. lia.
  - intros q. destruct (decide (q = v_data v)) as [->|Hq]; [|by apply Hc]. rewrite Hcv. unfold contents. rewrite Hbufs. simpl.
    rewrite lookup_insert_eq. simpl. by rewrite Hb.
Qed.

(** C4. Writing a file: on a well-formed file system a write, at an offset inside the
    file or appending, returns 0 after replacing exactly the written range of that file,
    with the data moved to a larger buffer where needed; all other files keep their
    contents, and the open windows are again exactly one for each buffer (the window of
    a buffer that was freed is closed). There is at least one byte to write, from
    distinct addresses, the file stays below 2^31 bytes, and memory and a free window
    are there. *)
Theorem ramfs_write_correct s vp v n u ioflag new_buf :
  fs_ok s -> file_at s vp v n ->
  uio_ok u -> NoDup (addrs (uio_iov u)) -> uio_op u = UIO_WRITE -> 0 < uio_resid u -> 0 <= uio_offset u < 2 ^ 31 ->
  let off := write_offset ioflag u n in
  0 <= off <= rn_size n -> rn_size n < 2 ^ 31 -> off + uio_resid u < 2 ^ 31 ->
  length (live (tab_heap (wins s))) <> HEAP_MAX -> new_buf <> 0 -> bufs s !! new_buf = None ->
  let c := contents s (v_data v) in
  exists u' s' n', ramfs_write vp u ioflag new_buf s = Ok ((0, u'), s') /\
    contents s' (v_data v) = take (Z.to_nat off) c ++ (r_mem s <$> addrs (uio_iov u)) ++ drop (Z.to_nat (off + uio_resid u)) c /\
    (forall q, q <> v_data v -> contents s' q = contents s q) /\
    live (tab_heap (wins s')) ≡ₚ owned_windows (nodes s') /\ fs_ok s' /\ file_at s' vp (with_vsize (rn_size n') v) n'.
Proof.
  intros Hok Hf Hu Hnd Hop Hres Huo off Hoff Hsz Hend Hroom Hnb Hfresh c.
  destruct (write_ok s vp v n u ioflag new_buf Hok Hf Hu Hnd Hop Hres Huo Hoff Hsz Hend Hroom Hnb Hfresh)
    as (u' & s' & n' & E & Hok' & Hf' & _ & _ & Hc & Ho).
  exists u', s', n'. split; [done|]. split; [done|]. split; [done|]. split; [apply (fo_wins _ Hok')|done].
Qed.

(** Round trip through a file: what a write stores is what a read at the same
    offset returns, into other memory and with a different scatter list. *)
Theorem ramfs_write_read s vp v n u ur new_buf :
  fs_ok s -> file_at s vp v n -> uio_ok u -> NoDup (addrs (uio_iov u)) -> uio_op u = UIO_WRITE ->
  0 < uio_resid u -> 0 <= uio_offset u <= rn_size n -> rn_size n < 2 ^ 31 -> uio_offset u + uio_resid u < 2 ^ 31 ->
  length (live (tab_heap (wins s))) <> HEAP_MAX -> new_buf <> 0 -> bufs s !! new_buf = None ->
  uio_ok ur -> NoDup (addrs (uio_iov ur)) -> uio_op ur = UIO_READ ->
  uio_offset ur = uio_offset u -> uio_resid ur = uio_resid u ->
  exists u1 s1 u2 s2, ramfs_write vp u 0 new_buf s = Ok ((0, u1), s1) /\
    ramfs_read vp ur s1 = Ok ((0, u2), s2) /\ uio_resid u2 = 0 /\
    r_mem s2 <$> addrs (uio_iov ur) = r_mem s <$> addrs (uio_iov u).
Proof.
  intros Hok Hf Hu Hnd Hop Hres Huo Hsz Hend Hroom Hnb Hfresh Hur Hndr Hopr Eo Er.
  destruct (write_ok s vp v n u 0 new_buf Hok Hf Hu Hnd Hop Hres ltac:(lia) Huo Hsz Hend Hroom Hnb Hfresh)
    as (u1 & s1 & n1 & E1 & Hok1 & Hf1 & Hm1 & _ & Hc & _). change (write_offset 0 u n) with (uio_offset u) in Hc.
  pose proof Hu as [_ Hlu]. pose proof Hur as [_ Hlr]. pose proof Hf as (_ & _ & Hn & _). pose proof (contents_length s _ n Hok Hn) as Hcl.
  pose proof (contents_length s1 _ n1 Hok1 (proj1 (proj2 (proj2 Hf1)))) as Hcl1. simpl in Hcl1.
  rewrite Hc, !length_app, length_take, length_fmap, length_drop in Hcl1.
  destruct (read_ok s1 vp _ n1 ur Hok1 Hf1 Hur Hndr Hopr ltac:(lia) ltac:(lia)) as (u2 & s2 & E2 & _ & A & V & _).
  assert (Hk : Z.to_nat (read_count ur n1) = length (addrs (uio_iov ur))) by (unfold read_count; lia). rewrite Hk in *. simpl in V.
  rewrite firstn_all, Eo, Hc in V. exists u1, s1, u2, s2. split; [done|]. split; [done|].
  split; [destruct A as (_ & _ & _ & -> & _); lia|]. rewrite V, drop_app_length' by (rewrite length_take; lia).
  apply take_app_length'. rewrite length_fmap. lia.
Qed.

(** Truncating to nothing leaves a window behind: the buffer is freed, but
    the window that gives other cubicles access to it stays open. *)
Theorem truncate_leaves_window s vp v n :
  fs_ok s -> file_at s vp v n -> 0 < rn_size n ->
  exists s', ramfs_truncate vp 0 0 [] s = Ok (0, s') /\ bufs s' !! rn_buf n = None /\
    Ipc (rn_buf n) (rn_bufsize n) (ulong_of_int RAMFS_MASK) ∈ live (tab_heap (wins s')).
Proof.
  intros Hok (Hv & Hty & Hn & Hvs) Hsz. pose proof (fo_node _ Hok _ n Hn) as (H1 & H2 & H3 & H4 & H5).
  assert (Hb0 : rn_buf n <> 0) by (intros Eb; rewrite H4 in H2 by done; lia). destruct (H5 Hb0) as (_ & b & Hb & Hl).
  unfold ramfs_truncate. rewrite (bind_ret _ _ _ v s) by (by apply deref_ok). rewrite (bind_ret _ _ _ n s) by (by apply deref_ok).
  cbv zeta. change (0 =? 0) with true. cbv iota. replace (rn_buf n =? 0) with false by lia. rewrite H1.
  erewrite bind_ret by (erewrite bind_ret by (by apply free_buf_ok with b); by apply (upd_node_ok _ _ n)).
  erewrite bind_ret by (apply (upd_node_ok _ (v_data v) (with_buf 0 0 n)); simpl; by rewrite lookup_insert_eq).
  erewrite bind_ret by (by apply (upd_vnode_ok _ vp v)).
  erewrite bind_ret by (apply (upd_node_ok _ (v_data v) (with_size (u64 0) (with_buf 0 0 n))); simpl; by rewrite lookup_insert_eq).
  eexists. split; [done|]. simpl. split; [apply lookup_delete_eq|].
  rewrite (fo_wins _ Hok), <- (insert_delete_id _ _ n Hn), owned_insert by apply lookup_delete_eq. rewrite (win_of_buf n Hb0). left.
Qed.

(** ** A file system with one empty file *)

Definition demo_dir : ramfs_node := with_child 20 (new_node "/" VDIR).
Definition demo_fs : rstate :=
  RState (<[10 := demo_dir]> (<[20 := new_node "a" VREG]> ∅))
         (<[1 := Vnode 0 VDIR 0 0 10]> (<[2 := Vnode 1 VREG 0 0 20]> ∅)) ∅ ramfs_tables_init (fun x => x) 1.
#[local] Opaque ramfs_write ramfs_read.

Lemma demo_nodes p n : nodes demo_fs !! p = Some n -> n = demo_dir \/ n = new_node "a" VREG.
Proof.
  unfold demo_fs. simpl. intros [[_ <-]|[_ H]]%lookup_insert_Some; [by left|]. apply lookup_insert_Some in H as [[_ <-]|[_ H]]; [by right|].
  by rewrite lookup_empty in H.
Qed.

Lemma demo_fs_ok : fs_ok demo_fs.
Proof.
  split.
  - split; [reflexivity|]. apply Forall_replicate. done.
  - assert (live (tab_heap (wins demo_fs)) = []) as -> by (vm_compute; reflexivity).
    assert (owned_windows (nodes demo_fs) = []) as -> by (vm_compute; reflexivity). done.
  - intros p n [->| ->]%demo_nodes; (split; [done|]; split; [simpl; lia|]; split; [simpl; lia|]; split; [done|]; intros H; by destruct H).
  - intros p q n m [->| ->]%demo_nodes _ _ H; by destruct H.
Qed.

Lemma demo_file : file_at demo_fs 2 (Vnode 1 VREG 0 0 20) (new_node "a" VREG).
Proof. split; [reflexivity|]. split; [reflexivity|]. split; reflexivity. Qed.

Definition demo_write : uio := Uio [Iovec 100 3] 1 0 3 UIO_WRITE.
Definition demo_read : uio := Uio [Iovec 200 1; Iovec 300 2] 2 0 3 UIO_READ.

Lemma demo_write_ok : uio_ok demo_write.
Proof. split; [repeat constructor; simpl; lia|reflexivity]. Qed.

Lemma demo_write_addrs : NoDup (addrs (uio_iov demo_write)).
Proof. change (addrs _) with [100; 101; 102]. apply (bool_decide_unpack _). reflexivity. Qed.

Lemma demo_read_ok : uio_ok demo_read /\ NoDup (addrs (uio_iov demo_read)).
Proof.
  split; [split; [repeat constructor; simpl; lia|reflexivity]|].
  change (addrs _) with [200; 300; 301]. apply (bool_decide_unpack _). reflexivity.
Qed.

Lemma demo_room : length (live (tab_heap (wins demo_fs))) <> HEAP_MAX.
Proof. vm_compute. discriminate. Qed.

Lemma ramfs_write_correct_witness :
  exists u' s' n', ramfs_write 2 demo_write 0 4096 demo_fs = Ok ((0, u'), s') /\
    contents s' 20 = [100; 101; 102] /\ (forall q, q <> 20 -> contents s' q = contents demo_fs q) /\
    live (tab_heap (wins s')) ≡ₚ owned_windows (nodes s') /\ fs_ok s' /\
    file_at s' 2 (with_vsize (rn_size n') (Vnode 1 VREG 0 0 20)) n'.
Proof.
  exact (ramfs_write_correct demo_fs 2 (Vnode 1 VREG 0 0 20) (new_node "a" VREG) demo_write 0 4096 demo_fs_ok demo_file demo_write_ok
           demo_write_addrs eq_refl eq_refl ltac:(simpl; lia) ltac:(split; discriminate) eq_refl eq_refl demo_room ltac:(lia) eq_refl).
Defined.

Lemma ramfs_write_read_witness :
  exists u1 s1 u2 s2, ramfs_write 2 demo_write 0 4096 demo_fs = Ok ((0, u1), s1) /\
    ramfs_read 2 demo_read s1 = Ok ((0, u2), s2) /\ uio_resid u2 = 0 /\
    r_mem s2 <$> [200; 300; 301] = [100; 101; 102].
Proof.
  exact (ramfs_write_read demo_fs 2 (Vnode 1 VREG 0 0 20) (new_node "a" VREG) demo_write demo_read 4096 demo_fs_ok demo_file demo_write_ok
           demo_write_addrs eq_refl eq_refl ltac:(simpl; lia) ltac:(simpl; lia) ltac:(simpl; lia) demo_room ltac:(lia) eq_refl
           (proj1 demo_read_ok) (proj2 demo_read_ok) eq_refl eq_refl eq_refl).
Defined.

(** The file system after a write of three bytes. *)
Definition demo_fs1 : rstate :=
  match ramfs_write 2 demo_write 0 4096 demo_fs with Ok (_, s) => s | _ => demo_fs end.

Lemma demo_fs1_ok : exists n, fs_ok demo_fs1 /\ file_at demo_fs1 2 (with_vsize (rn_size n) (Vnode 1 VREG 0 0 20)) n /\ rn_size n = 3.
Proof.
  destruct (write_ok demo_fs 2 (Vnode 1 VREG 0 0 20) (new_node "a" VREG) demo_write 0 4096 demo_fs_ok demo_file demo_write_ok
           demo_write_addrs eq_refl eq_refl ltac:(simpl; lia) ltac:(split; discriminate) eq_refl eq_refl demo_room ltac:(lia) eq_refl)
    as (u' & s' & n' & E & Hok & Hf & _ & _ & Hc & _).
  exists n'. unfold demo_fs1. rewrite E. split; [done|]. split; [done|].
  rewrite <- (contents_length s' 20 n' Hok) by apply Hf. change (v_data _) with 20 in Hc. by rewrite Hc.
Qed.

Lemma truncate_leaves_window_witness :
  exists n s', 0 < rn_size n /\ ramfs_truncate 2 0 0 [] demo_fs1 = Ok (0, s') /\ bufs s' !! rn_buf n = None /\
    Ipc (rn_buf n) (rn_bufsize n) (ulong_of_int RAMFS_MASK) ∈ live (tab_heap (wins s')).
Proof.
  destruct demo_fs1_ok as (n & Hok & Hf & Hs). assert (0 < rn_size n) as H0 by lia.
  destruct (truncate_leaves_window demo_fs1 2 _ n Hok Hf H0) as (s' & H). exists n, s'. split; [exact H0|exact H].
Defined.

(** A buffer that [ramfs_truncate] allocates has no window.  A write that
    outgrows it closes the window all the same, which never returns. *)
Lemma truncate_then_write_spins :
  (ramfs_truncate 2 100 4096 (replicate 4096 0);; ramfs_write 2 (Uio [Iovec 8192 5000] 1 0 5000 UIO_WRITE) 0 12288) demo_fs = Spin.
Proof. vm_compute. reflexivity. Qed.

Lemma demo_dir_ok : dir_ok demo_fs 10 [("a"%string, 20)].
Proof.
  split.
  - exists demo_dir. split; [reflexivity|]. apply (linked_cons _ _ 0); [done|reflexivity|constructor].
  - apply (bool_decide_unpack _). reflexivity.
  - intros name p H%list_elem_of_singleton. injection H as -> ->. exists (new_node "a" VREG). split; [reflexivity|]. split; reflexivity.
Qed.

Lemma create_lookup_witness :
  exists s', ramfs_create 1 30 31 "b" 33188 demo_fs = Ok (0, s') /\
    dir_ok s' 10 ([("a"%string, 20)] ++ [("b"%string, 30)]) /\ same_files demo_fs s' 30 /\
    (forall pad vp v, vp <> 0 -> exists s'', ramfs_lookup (vget_new vp v) pad 1 "b" s' = Ok ((0, vp), s'') /\
       vnodes s'' !! vp = Some (Vnode (v_ino v) VREG UK_ALLPERMS 0 30)) /\
    (forall other, other <> "b"%string -> lookup_dir ([("a"%string, 20)] ++ [("b"%string, 30)]) other = lookup_dir [("a"%string, 20)] other).
Proof.
  exact (create_lookup demo_fs 1 (Vnode 0 VDIR 0 0 10) [("a"%string, 20)] "b" 33188 30 31 eq_refl demo_dir_ok eq_refl ltac:(done)
           ltac:(vm_compute; discriminate) eq_refl ltac:(lia) ltac:(lia) eq_refl).
Defined.

Lemma remove_exact_witness :
  (20 ∈ [("a"%string, 20)].*2 /\
     exists s', ramfs_remove 1 2 demo_fs = Ok (0, s') /\ dir_ok s' 10 (without 20 [("a"%string, 20)]) /\ forall e, same_files demo_fs s' e) \/
  ((20 ∉ [("a"%string, 20)].*2) /\ exists err, ramfs_remove 1 2 demo_fs = Ok (err, demo_fs) /\ (err = EBUSY \/ err = ENOENT)).
Proof.
  exact (remove_exact demo_fs 1 (Vnode 0 VDIR 0 0 10) 2 (Vnode 1 VREG 0 0 20) [("a"%string, 20)] eq_refl eq_refl demo_dir_ok ltac:(done)).
Defined.
