(* ===== verification/PathConv.v ===== *)
(** Path names (vfscore/task.c): [path_conv], which turns a path of a task into
    a full path, against a resolver that works on lists of components.

    Strings are the lists of their bytes without the terminator.  Of the buffer
    [full] only the part before [tgt] is ever read, and [len] is always
    [tgt - full]; the model keeps that part.  A store at [PATH_MAX] or beyond,
    and a read before the buffer, are undefined. *)
From S2P Require Import Prelude VfsTypes.
From stdpp Require Import base numbers sets list.
Import Errno.
#[local] Open Scope Z_scope.

Definition SLASH : Z := 47.
Definition DOT : Z := 46.

(** ** The code *)

(** [*tgt++ = c]. *)
Definition put (c : Z) (acc : list Z) : outcome (list Z) :=
  if decide (length acc < PATH_MAX)%nat then Ok (acc ++ [c]) else Undef.

Fixpoint puts (cs acc : list Z) : outcome (list Z) :=
  match cs with
  | [] => Ok acc
  | c :: r => match put c acc with Ok acc' => puts r acc' | Spin => Spin | Abort => Abort | Undef => Undef end
  end.

(** [while ( *tgt != '/') tgt--], from index [n]. *)
Fixpoint back_to (n : nat) (acc : list Z) : outcome nat :=
  if decide (acc !! n = Some SLASH) then Ok n
  else match n with O => Undef | S m => back_to m acc end.

(** The branch for two dots. *)
Definition dotdot (acc : list Z) : outcome (list Z) :=
  if decide (2 <= length acc)%nat then
    match back_to (length acc - 2) acc with
    | Ok O => Ok (take 1 acc)
    | Ok n => Ok (take n acc)
    | Spin => Spin | Abort => Abort | Undef => Undef
    end
  else Ok acc.

(** What one turn does with the component [c]. *)
Definition component (c acc : list Z) : outcome (list Z) :=
  if decide (c = [DOT; DOT]) then dotdot acc
  else if decide (c = [DOT]) then Ok acc
  else puts c acc.

(** The slash after a component that is not the last. *)
Definition separator (acc : list Z) : outcome (list Z) :=
  match last acc with
  | Some x => if decide (x = SLASH) then Ok acc else put SLASH acc
  | None => Ok acc
  end.

(** The component [src] points to, and what follows its slash, if it has one. *)
Fixpoint split_component (src : list Z) : list Z * option (list Z) :=
  match src with
  | [] => ([], None)
  | x :: r => if decide (x = SLASH) then ([], Some r)
              else let '(c, o) := split_component r in (x :: c, o)
  end.

(** [while ( *src)]; every turn but the last consumes a slash. *)
Fixpoint conv_loop (fuel : nat) (src acc : list Z) : outcome (list Z) :=
  match src, fuel with
  | [], _ => Ok acc
  | _, O => Spin
  | _, S n =>
      let '(c, o) := split_component src in
      match component c acc with
      | Ok acc1 =>
          match o with
          | None => Ok acc1
          | Some rest =>
              match separator acc1 with
              | Ok acc2 => conv_loop n rest acc2
              | Spin => Spin | Abort => Abort | Undef => Undef
              end
          end
      | Spin => Spin | Abort => Abort | Undef => Undef
      end
  end.

(** What [full] holds before the loop, and where [src] points. *)
Definition conv_start (wd path : list Z) : outcome (list Z * list Z) :=
  match path with
  | x :: r =>
      if decide (x = SLASH) then Ok ([SLASH], r)
      else if decide ((1 < length wd)%nat /\ x <> DOT)
           then match put SLASH wd with Ok acc => Ok (acc, path) | Spin => Spin | Abort => Abort | Undef => Undef end
           else Ok (wd, path)
  | [] => if decide (1 < length wd)%nat
          then match put SLASH wd with Ok acc => Ok (acc, path) | Spin => Spin | Abort => Abort | Undef => Undef end
          else Ok (wd, path)
  end.

(** The return value, and the string in [full] if it is 0. *)
Definition path_conv (wd cpath : list Z) : outcome (Z * list Z) :=
  let path := take (PATH_MAX - 1) cpath in
  if decide (PATH_MAX <= length wd + length path)%nat then Ok (ENAMETOOLONG, []) else
  match conv_start wd path with
  | Ok (acc, src) =>
      match conv_loop (S (length src)) src acc with
      | Ok full => if decide (length full < PATH_MAX)%nat then Ok (0, full) else Undef
      | Spin => Spin | Abort => Abort | Undef => Undef
      end
  | Spin => Spin | Abort => Abort | Undef => Undef
  end.

(** ** Reference: components *)

Definition resolve1 (stk : list (list Z)) (c : list Z) : list (list Z) :=
  if decide (c = [DOT; DOT]) then take (length stk - 1) stk
  else if decide (c = [DOT]) then stk
  else if decide (c = []) then stk
  else stk ++ [c].

(** The components of a string, empty ones included. *)
Fixpoint comps (s : list Z) : list (list Z) :=
  match s with
  | [] => [[]]
  | x :: r => if decide (x = SLASH) then [] :: comps r
              else match comps r with c :: cs => (x :: c) :: cs | [] => [[x]] end
  end.

Definition segs (s : list Z) : list (list Z) := filter (fun c => c <> []) (comps s).
Definition resolve (stk : list (list Z)) (s : list Z) : list (list Z) := foldl resolve1 stk (comps s).

Definition name_ok (c : list Z) : Prop := c <> [] /\ SLASH ∉ c.

Definition render (stk : list (list Z)) : list Z := concat (map (fun c => SLASH :: c) stk).

(** The directory whose components are [stk]. *)
Definition dir_string (stk : list (list Z)) : list Z :=
  match stk with [] => [SLASH] | _ => render stk end.

(** A buffer that denotes [stk]: with a slash at its end or, but for the root,
    without. *)
Definition denotes (acc : list Z) (stk : list (list Z)) : Prop :=
  acc = render stk ++ [SLASH] \/ (stk <> [] /\ acc = render stk).

(** ** Lemmas on the reference *)

Lemma render_snoc stk c : render (stk ++ [c]) = render stk ++ SLASH :: c.
Proof. unfold render. by rewrite map_app, concat_app; simpl; rewrite app_nil_r. Qed.

Lemma render_last stk : stk <> [] -> Forall name_ok stk ->
  exists x, last (render stk) = Some x /\ x <> SLASH.
Proof.
  intros Hne HF. destruct stk as [|c stk _] using rev_ind; [done|].
  apply Forall_app in HF as [_ [[Hc Hs] _]%Forall_cons].
  destruct c as [|x c _] using rev_ind; [done|]. exists x.
  rewrite render_snoc, app_comm_cons, app_assoc, last_snoc. split; [done|]. set_solver.
Qed.

Lemma split_component_comps src :
  (SLASH ∉ (split_component src).1) /\
  match (split_component src).2 with
  | None => comps src = [(split_component src).1] /\ length src = length (split_component src).1
  | Some r => comps src = (split_component src).1 :: comps r /\
              length src = S (length (split_component src).1 + length r)
  end.
Proof.
  induction src as [|x r [IHs IH]]; simpl; [set_solver|].
  destruct (decide (x = SLASH)); simpl; [split; [set_solver|done]|].
  destruct (split_component r) as [c o]; simpl in *. split; [set_solver|].
  destruct o; destruct IH as [-> ->]; split; done || lia.
Qed.

Lemma comps_app_noslash c s : SLASH ∉ c ->
  comps (c ++ s) = match comps s with d :: ds => (c ++ d) :: ds | [] => [c] end.
Proof.
  induction c as [|x c IH]; intros Hs; simpl.
  - destruct s as [|y s]; simpl; [done|]. destruct (decide _); [done|]. by destruct (comps s).
  - rewrite decide_False by set_solver. rewrite IH by set_solver. by destruct (comps s).
Qed.

Lemma comps_render stk s : Forall name_ok stk ->
  segs (render stk ++ SLASH :: s) = stk ++ segs s.
Proof.
  unfold segs. induction stk as [|c stk IH]; intros HF.
  - simpl. rewrite filter_cons_False; [done|]. naive_solver.
  - apply Forall_cons in HF as [[Hc Hs] HF]. specialize (IH HF).
    change (render (c :: stk)) with ((SLASH :: c) ++ render stk). simpl.
    rewrite <- app_assoc, filter_cons_False by naive_solver.
    rewrite comps_app_noslash by done.
    destruct (render stk ++ SLASH :: s) as [|y t] eqn:E; [by destruct (render stk)|].
    assert (y = SLASH) as -> by (destruct stk; simpl in E; congruence).
    simpl in *. rewrite app_nil_r, filter_cons_True by done.
    rewrite filter_cons_False in IH by naive_solver. by rewrite IH.
Qed.

Lemma segs_denotes acc stk : Forall name_ok stk -> denotes acc stk -> segs acc = stk.
Proof.
  intros HF [->|[Hne ->]].
  - rewrite comps_render by done. unfold segs. simpl. rewrite filter_cons_False by naive_solver.
    by rewrite app_nil_r.
  - destruct stk as [|c stk _] using rev_ind; [done|].
    apply Forall_app in HF as [HF [[Hc Hs] _]%Forall_cons].
    rewrite render_snoc, comps_render by done. f_equal. unfold segs.
    rewrite <- (app_nil_r c) at 1. rewrite comps_app_noslash by done. simpl.
    by rewrite app_nil_r, filter_cons_True.
Qed.

Lemma denotes_head acc stk : denotes acc stk -> head acc = Some SLASH.
Proof. intros [->|[Hne ->]]; by destruct stk. Qed.

Lemma resolve1_ok stk c : SLASH ∉ c -> Forall name_ok stk -> Forall name_ok (resolve1 stk c).
Proof.
  intros Hs HF. unfold resolve1. repeat case_decide; try done.
  - by apply Forall_take.
  - apply Forall_app; split; [done|]. by apply Forall_singleton.
Qed.

(** ** Lemmas on the code *)

Lemma puts_ok cs acc : (length acc + length cs <= PATH_MAX)%nat -> puts cs acc = Ok (acc ++ cs).
Proof.
  revert acc. induction cs as [|c cs IH]; intros acc Hl; simpl in *; [by rewrite app_nil_r|].
  unfold put. rewrite decide_True by lia. rewrite IH by (rewrite length_app; simpl; lia).
  by rewrite <- app_assoc.
Qed.

Lemma back_to_ok n k acc : (k <= n)%nat -> acc !! k = Some SLASH ->
  (forall j, (k < j <= n)%nat -> acc !! j <> Some SLASH) -> back_to n acc = Ok k.
Proof.
  intros Hk Hs Hn. induction n as [|n IH]; simpl.
  - assert (k = 0)%nat as -> by lia. by rewrite decide_True.
  - destruct (decide (k = S n)) as [->|]; [by rewrite decide_True|].
    rewrite decide_False by (apply Hn; lia). apply IH; [lia|]. intros j Hj. apply Hn. lia.
Qed.

Lemma dotdot_ok acc stk : Forall name_ok stk -> denotes acc stk ->
  exists acc', dotdot acc = Ok acc' /\ denotes acc' (take (length stk - 1) stk) /\
    (length acc' <= length acc)%nat.
Proof.
  intros HF Hd. destruct stk as [|c stk _] using rev_ind.
  { destruct Hd as [->|[? _]]; [|done]. exists [SLASH]. repeat split; [by left|simpl; lia]. }
  apply Forall_app in HF as [HF [[Hc Hs] _]%Forall_cons].
  rewrite length_app, Nat.add_sub, take_app_length.
  assert (exists t, acc = render stk ++ SLASH :: c ++ t /\ (t = [] \/ t = [SLASH])) as (t & -> & Ht).
  { destruct Hd as [->|[_ ->]]; rewrite render_snoc; [exists [SLASH]|exists []].
    - split; [by rewrite <- app_assoc|by right].
    - split; [by rewrite app_nil_r|by left]. }
  assert (length c <> 0)%nat by (by destruct c).
  unfold dotdot. rewrite decide_True by (rewrite length_app; simpl; rewrite length_app; lia).
  rewrite (back_to_ok _ (length (render stk))).
  - destruct stk as [|d stk].
    { exists [SLASH]. split; [done|]. split; [by left|]. simpl. lia. }
    change (length (render (d :: stk))) with (S (length (d ++ render stk))) at 1. cbv iota.
    exists (render (d :: stk)). split; [|split; [by right|rewrite length_app; lia]].
    f_equal. exact (take_app_length (render (d :: stk)) _).
  - rewrite !length_app. simpl. rewrite length_app. destruct Ht as [->| ->]; simpl; lia.
  - rewrite lookup_app_r, Nat.sub_diag by lia. done.
  - intros j Hj Hl. rewrite !length_app in Hj. simpl in Hj. rewrite length_app in Hj.
    rewrite lookup_app_r in Hl by lia.
    destruct (j - length (render stk))%nat as [|i] eqn:E; [lia|]. simpl in Hl.
    rewrite lookup_app_l in Hl by (destruct Ht as [->| ->]; simpl in *; lia).
    by apply list_elem_of_lookup_2 in Hl.
Qed.

(** A component after a slash. *)
Lemma component_ok c stk : (SLASH ∉ c) -> Forall name_ok stk ->
  (length (render stk ++ [SLASH]) + length c <= PATH_MAX)%nat ->
  exists acc', component c (render stk ++ [SLASH]) = Ok acc' /\ denotes acc' (resolve1 stk c) /\
    (length acc' <= length (render stk ++ [SLASH]) + length c)%nat.
Proof.
  intros Hs HF Hl. unfold component, resolve1. case_decide.
  { destruct (dotdot_ok (render stk ++ [SLASH]) stk) as (a & -> & ? & ?); [done|by left|].
    exists a. repeat split; [done|lia]. }
  case_decide; [eexists; repeat split; [by left|lia]|].
  rewrite puts_ok by done. eexists. split; [done|].
  split; [|rewrite !length_app; lia]. case_decide as Hc.
  - subst c. left. by rewrite app_nil_r.
  - right. split; [by destruct stk|]. by rewrite render_snoc, <- app_assoc.
Qed.

Lemma separator_ok acc stk : Forall name_ok stk -> denotes acc stk -> (length acc < PATH_MAX)%nat ->
  separator acc = Ok (render stk ++ [SLASH]).
Proof.
  intros HF [->|[Hne ->]] Hl; unfold separator.
  - by rewrite last_snoc, decide_True.
  - destruct (render_last stk Hne HF) as (x & -> & Hx). rewrite decide_False by done.
    unfold put. by rewrite decide_True.
Qed.

Lemma resolve_cons stk c s o : split_component s = (c, o) ->
  resolve stk s = match o with None => resolve1 stk c | Some r => resolve (resolve1 stk c) r end.
Proof.
  intros E. pose proof (split_component_comps s) as [_ H]. rewrite E in H. simpl in H.
  unfold resolve. destruct o; destruct H as [-> _]; done.
Qed.

Lemma conv_loop_ok fuel : forall src stk,
  (length src < fuel)%nat -> Forall name_ok stk ->
  (length (render stk ++ [SLASH]) + length src < PATH_MAX)%nat ->
  exists full, conv_loop fuel src (render stk ++ [SLASH]) = Ok full /\
    denotes full (resolve stk src) /\ Forall name_ok (resolve stk src) /\
    (length full <= length (render stk ++ [SLASH]) + length src)%nat.
Proof.
  induction fuel as [|fuel IH]; intros src stk Hf HF Hl; [lia|].
  destruct src as [|x src'].
  { exists (render stk ++ [SLASH]). repeat split; [by left|done|lia]. }
  remember (x :: src') as src eqn:Esrc.
  pose proof (split_component_comps src) as [Hs HC].
  assert (conv_loop (S fuel) src (render stk ++ [SLASH]) =
    let '(c, o) := split_component src in
    match component c (render stk ++ [SLASH]) with
    | Ok acc1 => match o with None => Ok acc1 | Some rest =>
        match separator acc1 with Ok acc2 => conv_loop fuel rest acc2
        | Spin => Spin | Abort => Abort | Undef => Undef end end
    | Spin => Spin | Abort => Abort | Undef => Undef end) as -> by (by subst src).
  destruct (split_component src) as [c o] eqn:E. rewrite (resolve_cons _ _ _ _ E). simpl in *.
  assert (length c <= length src)%nat by (destruct o; destruct HC; lia).
  destruct (component_ok c stk) as (a1 & -> & Hd & Hla); [done..|lia|].
  pose proof (resolve1_ok stk c Hs HF) as HF1.
  destruct o as [rest|]; [|exists a1; repeat split; [done|done|lia]].
  destruct HC as [_ HC]. rewrite (separator_ok a1 (resolve1 stk c)) by (done || lia).
  assert (length (render (resolve1 stk c) ++ [SLASH]) <= S (length a1))%nat.
  { destruct Hd as [->|[_ ->]]; rewrite ?length_app; simpl; lia. }
  destruct (IH rest (resolve1 stk c)) as (full & -> & ? & ? & ?); [lia|done|lia|].
  exists full. repeat split; [done..|lia].
Qed.

(** The first component is glued to the last one of the working directory. *)
Definition glued (wd path : list Z) : Prop :=
  (1 < length wd)%nat /\ head path = Some DOT /\
  (split_component path).1 <> [DOT] /\ (split_component path).1 <> [DOT; DOT].

(** A relative path that starts with a component of one or two dots, where no
    slash is added to the working directory. *)
Lemma conv_loop_dots src stk : stk <> [] -> Forall name_ok stk ->
  ((split_component src).1 = [DOT] \/ (split_component src).1 = [DOT; DOT]) ->
  (length (render stk) + length src + 1 < PATH_MAX)%nat ->
  exists full, conv_loop (S (length src)) src (render stk) = Ok full /\
    denotes full (resolve stk src) /\ Forall name_ok (resolve stk src) /\
    (length full < PATH_MAX)%nat.
Proof.
  intros Hne HF Hdots Hl. pose proof (split_component_comps src) as [Hs HC].
  destruct src as [|x src']; [by destruct Hdots|]. remember (x :: src') as src eqn:Esrc.
  assert (exists a1, component (split_component src).1 (render stk) = Ok a1 /\
    denotes a1 (resolve1 stk (split_component src).1) /\ (length a1 <= length (render stk))%nat)
    as (a1 & Hc & Hd & Hla).
  { unfold component, resolve1. destruct Hdots as [-> | ->].
    - eexists. repeat split; [by right|lia].
    - destruct (dotdot_ok (render stk) stk) as (a & -> & ? & ?); [done|by right|]. by exists a. }
  assert (conv_loop (S (length src)) src (render stk) =
    let '(c, o) := split_component src in
    match component c (render stk) with
    | Ok acc1 => match o with None => Ok acc1 | Some rest =>
        match separator acc1 with Ok acc2 => conv_loop (length src) rest acc2
        | Spin => Spin | Abort => Abort | Undef => Undef end end
    | Spin => Spin | Abort => Abort | Undef => Undef end) as -> by (by subst src).
  destruct (split_component src) as [c o] eqn:E. rewrite (resolve_cons _ _ _ _ E). simpl in *.
  rewrite Hc. pose proof (resolve1_ok stk c Hs HF) as HF1.
  destruct o as [rest|]; [|exists a1; repeat split; [done|done|lia]].
  destruct HC as [_ HC]. rewrite (separator_ok a1 (resolve1 stk c)) by (done || lia).
  assert (length (render (resolve1 stk c) ++ [SLASH]) <= S (length a1))%nat.
  { destruct Hd as [->|[_ ->]]; rewrite ?length_app; simpl; lia. }
  destruct (conv_loop_ok (length src) rest (resolve1 stk c)) as (full & -> & ? & ? & ?);
    [lia|done|lia|].
  exists full. repeat split; [done..|lia].
Qed.

(** ** The theorem *)

(** What the start of the conversion leaves to the loop: the directory the path
    is relative to. *)
Definition start_dir (stk : list (list Z)) (path : list Z) : list (list Z) :=
  if decide (head path = Some SLASH) then [] else stk.

Lemma dir_string_long stk : stk <> [] -> Forall name_ok stk ->
  dir_string stk = render stk /\ (1 < length (render stk))%nat.
Proof.
  intros Hne HF. destruct stk as [|c stk]; [done|]. split; [done|].
  apply Forall_cons in HF as [[Hc _] _]. simpl. rewrite length_app. destruct c; simpl; [done|lia].
Qed.

Lemma conv_start_ok stk path : Forall name_ok stk ->
  (length (dir_string stk) + length path + 1 < PATH_MAX)%nat -> ~ glued (dir_string stk) path ->
  exists acc src full, conv_start (dir_string stk) path = Ok (acc, src) /\
    conv_loop (S (length src)) src acc = Ok full /\
    denotes full (resolve (start_dir stk path) path) /\
    Forall name_ok (resolve (start_dir stk path) path) /\ (length full < PATH_MAX)%nat.
Proof.
  intros HF Hl Hg. unfold start_dir. case_decide as Habs.
  { destruct path as [|x r]; [done|]. injection Habs as ->.
    destruct (conv_loop_ok (S (length r)) r []) as (full & ? & ? & ? & ?);
      [lia|done|simpl in *; lia|].
    exists [SLASH], r, full. repeat split; [done..|simpl in *; lia]. }
  destruct (decide (stk = [])) as [->|Hne].
  { destruct (conv_loop_ok (S (length path)) path []) as (full & ? & ? & ? & ?);
      [lia|done|simpl in *; lia|].
    exists [SLASH], path, full. split; [|repeat split; [done..|simpl in *; lia]].
    destruct path as [|x r]; [done|]. unfold conv_start.
    rewrite decide_False by (intros ->; done). rewrite decide_False; [done|]. simpl. lia. }
  destruct (dir_string_long stk Hne HF) as [Hd Hlong]. rewrite Hd in *.
  destruct (decide (head path = Some DOT)) as [Hdot|Hdot].
  - assert ((split_component path).1 = [DOT] \/ (split_component path).1 = [DOT; DOT]) as Hdots.
    { destruct (decide ((split_component path).1 = [DOT])); [by left|].
      destruct (decide ((split_component path).1 = [DOT; DOT])); [by right|]. by destruct Hg. }
    destruct (conv_loop_dots path stk Hne HF Hdots) as (full & ? & ? & ? & ?); [lia|].
    exists (render stk), path, full. split; [|done].
    destruct path as [|x r]; [done|]. injection Hdot as ->. unfold conv_start.
    rewrite decide_False by done. by rewrite decide_False by naive_solver.
  - destruct (conv_loop_ok (S (length path)) path stk) as (full & ? & ? & ? & Hfl);
      [lia|done|rewrite length_app; simpl; lia|]. rewrite length_app in Hfl. simpl in Hfl.
    exists (render stk ++ [SLASH]), path, full. split; [|repeat split; [done..|lia]].
    unfold conv_start, put. destruct path as [|x r].
    + rewrite decide_True by done. by rewrite decide_True by (simpl in *; lia).
    + rewrite decide_False by (intros ->; done).
      rewrite decide_True by (split; [done|intros ->; done]).
      by rewrite decide_True by (simpl in *; lia).
Qed.

Lemma dir_string_length stk : Forall name_ok stk -> (1 <= length (dir_string stk))%nat.
Proof. destruct stk as [|c stk]; simpl; lia. Qed.

(** C21. [path_conv] resolves a path as the reference does on lists of components.  With a
    canonical working directory, and if the lengths of directory and path add up to less
    than PATH_MAX - 1, it returns 0 and an absolute path whose components are those of the
    working directory (none, if the path is absolute) followed by those of the path, with
    the single dots dropped and every double dot removing its predecessor.  The only paths
    of that length left out are the relative ones whose first component starts with a dot
    and is neither one nor two dots, in a directory other than the root.  If the lengths
    add up to PATH_MAX or more the result is ENAMETOOLONG.  Nothing is claimed where they
    add up to PATH_MAX - 1: there the code may write behind its buffer (see below). *)
Theorem path_conv_resolves stk path :
  Forall name_ok stk ->
  ((length (dir_string stk) + length path + 1 < PATH_MAX)%nat -> ~ glued (dir_string stk) path ->
   exists full, path_conv (dir_string stk) path = Ok (0, full) /\
     head full = Some SLASH /\ segs full = resolve (start_dir stk path) path) /\
  ((PATH_MAX <= length (dir_string stk) + length path)%nat ->
   path_conv (dir_string stk) path = Ok (ENAMETOOLONG, [])).
Proof.
  intros HF. split.
  - intros Hl Hg. unfold path_conv. rewrite take_ge by (unfold PATH_MAX in *; lia).
    rewrite decide_False by lia.
    destruct (conv_start_ok stk path HF Hl Hg) as (acc & src & full & -> & -> & Hd & HFr & Hfl).
    rewrite decide_True by done. exists full. split; [done|].
    split; [by eapply denotes_head|by apply segs_denotes].
  - intros Hl. pose proof (dir_string_length stk HF). unfold path_conv. rewrite decide_True; [done|].
    rewrite length_take. lia.
Qed.

(** In the directory /a/b the path ../c/./d leads to /a/c/d. *)
Lemma path_conv_resolves_witness :
  exists full, path_conv (dir_string [[97]; [98]]) [46; 46; 47; 99; 47; 46; 47; 100] = Ok (0, full) /\
    head full = Some SLASH /\ segs full = [[97]; [99]; [100]].
Proof.
  destruct (path_conv_resolves [[97]; [98]] [46; 46; 47; 99; 47; 46; 47; 100]) as [Hres _].
  - repeat constructor; try discriminate; intros H; apply list_elem_of_singleton in H; discriminate.
  - destruct Hres as (full & H1 & H2 & H3).
    + unfold PATH_MAX. simpl. lia.
    + intros (_ & _ & _ & H). apply H. reflexivity.
    + exists full. split; [exact H1|]. split; [exact H2|]. rewrite H3. vm_compute. reflexivity.
Defined.

(** The path .b in the directory /a becomes /a.b, a name in the root. *)
Lemma path_conv_glues : path_conv [47; 97] [46; 98] = Ok (0, [47; 97; 46; 98]).
Proof. vm_compute. reflexivity. Qed.

(** A relative path that just passes the length check leaves no room for the
    slash after the working directory: the terminator is stored behind [full]. *)
Lemma path_conv_overflows : path_conv [47; 97] (replicate (PATH_MAX - 3) 120) = Undef.
Proof. vm_compute. reflexivity. Qed.
