(* ===== verification/Bitmap.v ===== *)
(** Bitmaps of 64-bit words (include/uk/bitops.h and bitmap.h): the operations
    the table of file descriptors uses, against their meaning bit by bit.

    [UK_BITMAP_LAST_WORD_MASK(n)] shifts by [64 - n], which the callers let run
    below 0 for [n > 64].  C leaves such a shift undefined; the model has the
    shift instruction of x86-64, which takes the count modulo 64. *)
From S2P Require Import Prelude.
From stdpp Require Import base numbers list.
#[local] Open Scope Z_scope.

Definition BITS_PER_LONG : Z := 64.
Definition ONES : Z := Z.ones 64.

(** [~w] on an unsigned long. *)
Definition not64 (w : Z) : Z := Z.lxor w ONES.

Definition UK_BITMAP_FIRST_WORD_MASK (start : Z) : Z := Z.land (Z.shiftl ONES (start mod 64)) ONES.
Definition UK_BITMAP_LAST_WORD_MASK (n : Z) : Z := Z.shiftr ONES ((64 - n) mod 64).

(** The position of the lowest bit from [i] on. *)
Fixpoint lowest (n : nat) (i w : Z) : option Z :=
  match n with
  | O => None
  | S m => if Z.testbit w i then Some i else lowest m (i + 1) w
  end.

(** [bsfq]: undefined on 0. *)
Definition ukarch_ffsl (w : Z) : outcome Z :=
  match lowest 64 0 w with Some i => Ok i | None => Undef end.

(** The loop of [uk_find_next_zero_bit] and what follows it. *)
Fixpoint zero_from (ws : list Z) (size bit : Z) : outcome Z :=
  if 64 <=? size then
    match ws with
    | [] => Undef
    | w :: r => if not64 w =? 0 then zero_from r (size - 64) (bit + 64)
                else (fun i => bit + i) <$> ukarch_ffsl (not64 w)
    end
  else if size =? 0 then Ok bit
  else match ws with
       | [] => Undef
       | w :: _ => let mask := Z.land (not64 w) (UK_BITMAP_LAST_WORD_MASK size) in
                   if mask =? 0 then Ok (bit + size) else (fun i => bit + i) <$> ukarch_ffsl mask
       end.

Definition uk_find_next_zero_bit (ws : list Z) (size offset : Z) : outcome Z :=
  if size <=? offset then Ok size else
  let pos := offset / 64 in
  let offs := offset mod 64 in
  let bit := 64 * pos in
  let ws := drop (Z.to_nat pos) ws in
  if offs =? 0 then zero_from ws (size - bit) bit else
  match ws with
  | [] => Undef
  | w :: r =>
      let mask := Z.land (not64 w) (not64 (UK_BITMAP_LAST_WORD_MASK offs)) in
      if negb (mask =? 0) then (fun i => bit + i) <$> ukarch_ffsl mask
      else if size - bit <=? 64 then Ok size
      else zero_from r (size - (bit + 64)) (bit + 64)
  end.

(** The loop of [uk_bitmap_set] and [uk_bitmap_clear] from the word of [start];
    [f w mask] is the update of one word. *)
Fixpoint update_words (f : Z -> Z -> Z) (size nr bits mask : Z) (ws : list Z) : outcome (list Z) :=
  if 0 <=? nr - bits then
    match ws with
    | [] => Undef
    | w :: r => (cons (f w mask)) <$> update_words f size (nr - bits) 64 ONES r
    end
  else if nr =? 0 then Ok ws
  else match ws with
       | [] => Undef
       | w :: r => Ok (f w (Z.land mask (UK_BITMAP_LAST_WORD_MASK size)) :: r)
       end.

Definition update_from (f : Z -> Z -> Z) (ws : list Z) (start nr : Z) : outcome (list Z) :=
  if start <? 0 then Undef else
  let k := Z.to_nat (start / 64) in
  (fun r => take k ws ++ r) <$>
    update_words f (start + nr) nr (64 - start mod 64) (UK_BITMAP_FIRST_WORD_MASK start) (drop k ws).

Definition uk_bitmap_set (ws : list Z) (start nr : Z) : outcome (list Z) :=
  update_from Z.lor ws start nr.
Definition uk_bitmap_clear (ws : list Z) (start nr : Z) : outcome (list Z) :=
  update_from (fun w mask => Z.land w (not64 mask)) ws start nr.

(** Byte [nr >> 3] of the map is part of the word [nr >> 6]. *)
Definition uk_test_bit (nr : Z) (ws : list Z) : outcome bool :=
  match arr_at ws (Z.shiftr nr 6) with
  | Some w => Ok (negb (Z.land (Z.shiftl 1 (Z.land nr 7))
                               (Z.land (Z.shiftr w (8 * Z.land (Z.shiftr nr 3) 7)) 255) =? 0))
  | None => Undef
  end.

(** ** Meaning *)

Definition word_ok (w : Z) : Prop := 0 <= w < 2 ^ 64.
Definition bit (ws : list Z) (i : Z) : bool :=
  match arr_at ws (i / 64) with Some w => Z.testbit w (i mod 64) | None => false end.

(** ** Words *)

Lemma ONES_bit i : 0 <= i -> Z.testbit ONES i = (i <? 64).
Proof. intros. unfold ONES. rewrite Z.testbit_ones_nonneg by lia. done. Qed.

Lemma not64_bit w i : 0 <= i < 64 -> Z.testbit (not64 w) i = negb (Z.testbit w i).
Proof.
  intros. unfold not64. rewrite Z.lxor_spec, ONES_bit by lia.
  rewrite (proj2 (Z.ltb_lt i 64)) by lia. by destruct (Z.testbit w i).
Qed.

Lemma word_bit w i : 0 <= i < 64 -> Z.testbit w i = negb (Z.testbit (not64 w) i).
Proof. intros. by rewrite not64_bit, negb_involutive. Qed.

Lemma word_high w i : word_ok w -> 64 <= i -> Z.testbit w i = false.
Proof.
  intros [H0 H1] Hi. destruct (decide (w = 0)) as [->|]; [apply Z.testbit_0_l|].
  apply Z.bits_above_log2; [lia|]. apply Z.log2_lt_pow2; [lia|].
  eapply Z.lt_le_trans; [exact H1|]. apply Z.pow_le_mono_r; lia.
Qed.

Lemma not64_high w i : word_ok w -> 64 <= i -> Z.testbit (not64 w) i = false.
Proof.
  intros Hw Hi. unfold not64. rewrite Z.lxor_spec, (word_high w), ONES_bit by (done || lia).
  by rewrite (proj2 (Z.ltb_ge i 64)).
Qed.

Lemma not64_nonneg w : word_ok w -> 0 <= not64 w.
Proof.
  intros [H _]. apply Z.lxor_nonneg. split; intros _; [|done]. by apply Z.leb_le.
Qed.

Lemma last_mask_bit n i : 0 < n < 64 -> 0 <= i -> Z.testbit (UK_BITMAP_LAST_WORD_MASK n) i = (i <? n).
Proof.
  intros Hn Hi. unfold UK_BITMAP_LAST_WORD_MASK. rewrite Z.mod_small by lia.
  rewrite Z.shiftr_spec, ONES_bit by lia.
  destruct (Z.ltb_spec i n), (Z.ltb_spec (i + (64 - n)) 64); first [done|exfalso; lia].
Qed.

Lemma lowest_spec n : forall i w, 0 <= i ->
  match lowest n i w with
  | Some k => i <= k < i + Z.of_nat n /\ Z.testbit w k = true /\
              forall j, i <= j < k -> Z.testbit w j = false
  | None => forall j, i <= j < i + Z.of_nat n -> Z.testbit w j = false
  end.
Proof.
  induction n as [|n IH]; intros i w Hi; cbn [lowest]; [intros; exfalso; lia|].
  destruct (Z.testbit w i) eqn:E; [split; [lia|split; [done|intros; exfalso; lia]]|].
  specialize (IH (i + 1) w ltac:(lia)). destruct (lowest n (i + 1) w) as [k|].
  - destruct IH as (? & ? & Hb). split; [lia|]. split; [done|]. intros j Hj.
    destruct (decide (j = i)) as [->|]; [done|]. apply Hb. lia.
  - intros j Hj. destruct (decide (j = i)) as [->|]; [done|]. apply IH. lia.
Qed.

Lemma ffsl_ok w : w <> 0 -> (forall i, 64 <= i -> Z.testbit w i = false) -> 0 <= w ->
  exists k, ukarch_ffsl w = Ok k /\ 0 <= k < 64 /\ Z.testbit w k = true /\
    forall j, 0 <= j < k -> Z.testbit w j = false.
Proof.
  intros Hn Hh Hp. unfold ukarch_ffsl. pose proof (lowest_spec 64 0 w ltac:(lia)) as H.
  destruct (lowest 64 0 w) as [k|]; [destruct H as (? & ? & ?); exists k; repeat split; auto; lia|].
  destruct Hn. apply Z.bits_inj'. intros i Hi. rewrite Z.testbit_0_l.
  destruct (Z.lt_ge_cases i 64); [apply H; simpl; lia|by apply Hh].
Qed.

(** ** Searching *)

Lemma bit_cons w ws i : 0 <= i -> bit (w :: ws) i = if i <? 64 then Z.testbit w i else bit ws (i - 64).
Proof.
  intros Hi. unfold bit, arr_at. destruct (Z.ltb_spec i 64).
  - rewrite Z.div_small, Z.mod_small by lia. done.
  - rewrite !(proj2 (Z.leb_le 0 _)) by divlia.
    replace (i / 64) with ((i - 64) / 64 + 1) by divlia.
    rewrite Z2Nat.inj_add by divlia. rewrite Nat.add_1_r. simpl.
    by replace (i mod 64) with ((i - 64) mod 64) by divlia.
Qed.

(** [k] is the first clear bit of [ws] from [lo] on and below [size], or [size]. *)
Definition first_zero (ws : list Z) (lo size k : Z) : Prop :=
  lo <= k <= size /\ (forall j, lo <= j < k -> bit ws j = true) /\ (k < size -> bit ws k = false).

Lemma zero_from_ok ws : forall size b, 0 <= size -> size <= 64 * Z.of_nat (length ws) ->
  Forall word_ok ws ->
  exists k, zero_from ws size b = Ok (b + k) /\ first_zero ws 0 size k.
Proof.
  induction ws as [|w ws IH]; intros size b H0 Hl HF.
  { simpl in Hl. assert (size = 0) as -> by lia. exists 0. simpl. rewrite Z.add_0_r.
    split; [done|]. split; [lia|split; intros; exfalso; lia]. }
  apply Forall_cons in HF as [Hw HF]. simpl length in Hl. rewrite Nat2Z.inj_succ in Hl.
  pose proof (not64_nonneg w Hw).
  simpl. destruct (Z.leb_spec 64 size).
  - destruct (Z.eqb_spec (not64 w) 0) as [E|E].
    + destruct (IH (size - 64) (b + 64)) as (k & -> & (Hk & Hb & Hz)); [lia..|done|].
      exists (k + 64). split; [f_equal; lia|]. split; [lia|]. split; intros.
      * rewrite bit_cons by lia. destruct (Z.ltb_spec j 64); [|apply Hb; lia].
        by rewrite word_bit, E, Z.testbit_0_l by lia.
      * rewrite bit_cons by lia. rewrite (proj2 (Z.ltb_ge _ 64)) by lia.
        replace (k + 64 - 64) with k by lia. apply Hz. lia.
    + destruct (ffsl_ok (not64 w) E) as (k & -> & Hk & Hb & Hz); [intros; by apply not64_high|done|].
      exists k. split; [done|]. split; [lia|]. split; intros; rewrite bit_cons by lia;
        rewrite (proj2 (Z.ltb_lt _ 64)), word_bit by lia; [by rewrite Hz by lia|by rewrite Hb].
  - destruct (Z.eqb_spec size 0) as [->|].
    { exists 0. rewrite Z.add_0_r. split; [done|]. split; [lia|split; intros; exfalso; lia]. }
    set (m := Z.land (not64 w) (UK_BITMAP_LAST_WORD_MASK size)).
    assert (forall j, 0 <= j < 64 -> Z.testbit m j = negb (Z.testbit w j) && (j <? size)) as Hm.
    { intros j Hj. unfold m. by rewrite Z.land_spec, not64_bit, last_mask_bit by lia. }
    destruct (Z.eqb_spec m 0) as [E|E].
    + exists size. split; [done|]. split; [lia|]. split; [|intros; exfalso; lia]. intros j Hj.
      rewrite bit_cons by lia. rewrite (proj2 (Z.ltb_lt _ 64)) by lia.
      specialize (Hm j ltac:(lia)). rewrite E, Z.testbit_0_l, (proj2 (Z.ltb_lt j size)) in Hm by lia.
      by destruct (Z.testbit w j).
    + destruct (ffsl_ok m E) as (k & -> & Hk & Hb & Hz).
      { intros i Hi. unfold m. by rewrite Z.land_spec, not64_high. }
      { unfold m. apply Z.land_nonneg. by left. }
      rewrite Hm in Hb by lia. apply andb_true_iff in Hb as [Hb1 Hb2%Z.ltb_lt].
      exists k. split; [done|]. split; [lia|]. split; intros; rewrite bit_cons by lia;
        rewrite (proj2 (Z.ltb_lt _ 64)) by lia; [|by destruct (Z.testbit w k)].
      specialize (Hz j ltac:(lia)). rewrite Hm, (proj2 (Z.ltb_lt j size)) in Hz by lia.
      by destruct (Z.testbit w j).
Qed.

(** ** One bit *)

Lemma first_mask_bit start i : 0 <= i < 64 ->
  Z.testbit (UK_BITMAP_FIRST_WORD_MASK start) i = (start mod 64 <=? i).
Proof.
  intros Hi. pose proof (Z.mod_pos_bound start 64 ltac:(lia)).
  unfold UK_BITMAP_FIRST_WORD_MASK. rewrite Z.land_spec, Z.shiftl_spec, (ONES_bit i) by lia.
  rewrite (proj2 (Z.ltb_lt i 64)), andb_true_r by lia.
  destruct (Z.leb_spec (start mod 64) i); [|by rewrite Z.testbit_neg_r by lia].
  rewrite ONES_bit by lia. apply Z.ltb_lt. lia.
Qed.

Lemma mask_last start : start mod 64 = 63 -> UK_BITMAP_FIRST_WORD_MASK start = 2 ^ 63.
Proof. intros H. unfold UK_BITMAP_FIRST_WORD_MASK. rewrite H. reflexivity. Qed.

Lemma mask_inner start : start mod 64 <> 63 ->
  Z.land (UK_BITMAP_FIRST_WORD_MASK start) (UK_BITMAP_LAST_WORD_MASK (start + 1)) = 2 ^ (start mod 64).
Proof.
  intros Hn. pose proof (Z.mod_pos_bound start 64 ltac:(lia)).
  assert (UK_BITMAP_LAST_WORD_MASK (start + 1) = UK_BITMAP_LAST_WORD_MASK (start mod 64 + 1)) as ->.
  { unfold UK_BITMAP_LAST_WORD_MASK. f_equal. divlia. }
  apply Z.bits_inj'. intros i Hi. rewrite Z.land_spec, last_mask_bit, Z.pow2_bits_eqb by lia.
  destruct (Z.ltb_spec i (start mod 64 + 1)).
  - rewrite first_mask_bit, andb_true_r by lia.
    destruct (Z.leb_spec (start mod 64) i), (Z.eqb_spec (start mod 64) i); first [done|exfalso; lia].
  - rewrite andb_false_r. symmetry. apply Z.eqb_neq. lia.
Qed.

(** Both updates of a single bit change its word by the mask of the bit. *)
Lemma update_one f ws i w : 0 <= i -> arr_at ws (i / 64) = Some w ->
  update_from f ws i 1 = Ok (<[Z.to_nat (i / 64) := f w (2 ^ (i mod 64))]> ws).
Proof.
  intros Hi Hw. pose proof (Z.mod_pos_bound i 64 ltac:(lia)).
  unfold arr_at in Hw. destruct (Z.leb_spec 0 (i / 64)); [|done].
  unfold update_from. rewrite (proj2 (Z.ltb_ge i 0)) by lia.
  rewrite (drop_S ws w) by done. rewrite (insert_take_drop _ _ _ (lookup_lt_Some _ _ _ Hw)). simpl.
  destruct (Z.eq_dec (i mod 64) 63) as [E|E].
  - rewrite E, mask_last by done. simpl. by destruct (drop _ ws).
  - rewrite (proj2 (Z.leb_gt 0 _)) by lia. by rewrite mask_inner.
Qed.

Lemma bit_insert ws i j w v : 0 <= i -> 0 <= j -> arr_at ws (i / 64) = Some w ->
  (forall k, 0 <= k < 64 -> k <> i mod 64 -> Z.testbit v k = Z.testbit w k) ->
  bit (<[Z.to_nat (i / 64) := v]> ws) j = if j =? i then Z.testbit v (i mod 64) else bit ws j.
Proof.
  intros Hi Hj Hw Hv. unfold arr_at in Hw. destruct (Z.leb_spec 0 (i / 64)); [|done].
  pose proof (lookup_lt_Some _ _ _ Hw). unfold bit, arr_at.
  rewrite (proj2 (Z.leb_le 0 (j / 64))) by divlia.
  destruct (Z.eq_dec (j / 64) (i / 64)) as [E|E].
  - rewrite E, list_lookup_insert_eq, Hw by done. destruct (Z.eqb_spec j i) as [->|]; [done|].
    apply Hv; [divlia|]. intros E2. assert (j = i); [|done]. divlia.
  - rewrite list_lookup_insert_ne by (intros E2%Z2Nat.inj; [congruence|divlia..]).
    destruct (Z.eqb_spec j i) as [->|]; done.
Qed.

(** What a caller sees of the map: [size] bits in words. *)
Definition bitmap_ok (ws : list Z) (size : Z) : Prop :=
  Forall word_ok ws /\ size <= 64 * Z.of_nat (length ws).

Lemma bitmap_word ws size i : bitmap_ok ws size -> 0 <= i < size ->
  exists w, arr_at ws (i / 64) = Some w /\ word_ok w.
Proof.
  intros [HF Hl] Hi. unfold arr_at. rewrite (proj2 (Z.leb_le 0 _)) by divlia.
  destruct (lookup_lt_is_Some_2 ws (Z.to_nat (i / 64))) as [w Hw]; [divlia|].
  exists w. split; [done|]. by eapply Forall_lookup_1.
Qed.

Lemma word_bits w : (forall i, 64 <= i -> Z.testbit w i = false) -> 0 <= w -> word_ok w.
Proof.
  intros Hb Hp. split; [done|]. apply Z.nle_gt. intros Hge.
  assert (64 <= Z.log2 w) by (apply Z.log2_le_pow2; lia).
  pose proof (Z.bit_log2 w ltac:(lia)) as E. rewrite Hb in E by lia. done.
Qed.

Lemma bit_drop ws k i : 0 <= k -> 0 <= i -> bit (drop (Z.to_nat k) ws) i = bit ws (64 * k + i).
Proof.
  intros Hk Hi. unfold bit, arr_at. rewrite !(proj2 (Z.leb_le 0 _)) by divlia.
  rewrite lookup_drop. replace ((64 * k + i) / 64) with (k + i / 64) by divlia.
  rewrite Z2Nat.inj_add by divlia. by replace ((64 * k + i) mod 64) with (i mod 64) by divlia.
Qed.

Lemma set_bit_ok ws size i : bitmap_ok ws size -> 0 <= i < size ->
  exists ws', uk_bitmap_set ws i 1 = Ok ws' /\ bitmap_ok ws' size /\
    forall j, 0 <= j -> bit ws' j = (j =? i) || bit ws j.
Proof.
  intros Hok Hi. destruct (bitmap_word ws size i Hok Hi) as (w & Hw & Hww).
  pose proof (Z.mod_pos_bound i 64 ltac:(lia)).
  eexists. split; [by apply update_one; [lia|]|]. split.
  - destruct Hok as [HF Hl]. split; [|by rewrite length_insert]. apply Forall_insert; [done|].
    destruct Hww. apply word_bits; [|apply Z.lor_nonneg; split; [done|apply Z.pow_nonneg; lia]].
    intros k Hk. rewrite Z.lor_spec, (word_high w), Z.pow2_bits_false by (done || lia). done.
  - intros j Hj. rewrite (bit_insert ws i j w) by
      (done || lia || (intros k Hk Hne; rewrite Z.lor_spec, Z.pow2_bits_false, orb_false_r by lia; done)).
    destruct (j =? i); [|done]. by rewrite Z.lor_spec, Z.pow2_bits_true, orb_true_r by lia.
Qed.

Lemma clear_bit_ok ws size i : bitmap_ok ws size -> 0 <= i < size ->
  exists ws', uk_bitmap_clear ws i 1 = Ok ws' /\ bitmap_ok ws' size /\
    forall j, 0 <= j -> bit ws' j = negb (j =? i) && bit ws j.
Proof.
  intros Hok Hi. destruct (bitmap_word ws size i Hok Hi) as (w & Hw & Hww).
  pose proof (Z.mod_pos_bound i 64 ltac:(lia)).
  eexists. split; [by apply update_one; [lia|]|]. split.
  - destruct Hok as [HF Hl]. split; [|by rewrite length_insert]. apply Forall_insert; [done|].
    destruct Hww. apply word_bits; [|apply Z.land_nonneg; by left].
    intros k Hk. rewrite Z.land_spec, (word_high w) by (done || lia). done.
  - intros j Hj. rewrite (bit_insert ws i j w) by
      (done || lia || (intros k Hk Hne; rewrite Z.land_spec, not64_bit, Z.pow2_bits_false, andb_true_r by lia; done)).
    destruct (j =? i); [|done]. by rewrite Z.land_spec, not64_bit, Z.pow2_bits_true, andb_false_r by lia.
Qed.

Lemma single_bit_test x k : 0 <= k -> negb (Z.land (Z.shiftl 1 k) x =? 0) = Z.testbit x k.
Proof.
  intros Hk. rewrite Z.shiftl_1_l. destruct (Z.testbit x k) eqn:E.
  - apply negb_true_iff, Z.eqb_neq. intros H. apply (f_equal (fun z => Z.testbit z k)) in H.
    by rewrite Z.land_spec, Z.pow2_bits_true, E, Z.testbit_0_l in H by lia.
  - apply negb_false_iff, Z.eqb_eq. apply Z.bits_inj'. intros i Hi.
    rewrite Z.land_spec, Z.testbit_0_l, Z.pow2_bits_eqb by lia.
    destruct (Z.eqb_spec k i) as [->|]; [by rewrite E|done].
Qed.

Lemma test_bit_ok ws size i : bitmap_ok ws size -> 0 <= i < size -> uk_test_bit i ws = Ok (bit ws i).
Proof.
  intros Hok Hi. destruct (bitmap_word ws size i Hok Hi) as (w & Hw & _).
  unfold uk_test_bit, bit. rewrite Z.shiftr_div_pow2 by lia. change (2 ^ 6) with 64. rewrite Hw.
  assert (forall x, Z.land x 7 = x mod 8) as H7 by (intros x; exact (Z.land_ones x 3 ltac:(lia))).
  assert (forall x, Z.land x 255 = x mod 2 ^ 8) as H255 by (intros x; exact (Z.land_ones x 8 ltac:(lia))).
  rewrite !H7, H255, (Z.shiftr_div_pow2 i 3) by lia. change (2 ^ 3) with 8.
  pose proof (Z.mod_pos_bound i 8 ltac:(lia)). pose proof (Z.mod_pos_bound (i / 8) 8 ltac:(lia)).
  rewrite single_bit_test by lia.
  rewrite Z.mod_pow2_bits_low, Z.shiftr_spec by lia. do 2 f_equal. divlia.
Qed.

Lemma find_zero_ok ws size : bitmap_ok ws size -> 0 <= size ->
  exists k, uk_find_next_zero_bit ws size 0 = Ok k /\ first_zero ws 0 size k.
Proof.
  intros [HF Hl] Hs. unfold uk_find_next_zero_bit. destruct (Z.leb_spec size 0).
  - exists size. split; [done|]. split; [lia|]. split; intros; exfalso; lia.
  - change (0 mod 64 =? 0) with true. change (drop (Z.to_nat (0 / 64)) ws) with ws.
    change (64 * (0 / 64)) with 0. cbv iota zeta. rewrite Z.sub_0_r.
    exact (zero_from_ok ws size 0 Hs Hl HF).
Qed.
