(* ===== verification/FdTable.v ===== *)
(** The table of file descriptors and the reference counts of open files
    (vfscore/fd.c, file.c, and vfs_close of fops.c).

    Files are addresses in a heap; [free] takes a file out of it, so that any
    later use is undefined.  [vop_close] is the result of the file system's close
    operation.  [drele] (dentry.c) is represented by the list of the dentries it
    was called with.  The sections with interrupts off have no effect here. *)
From S2P Require Import Prelude Bitmap.
From stdpp Require Import base numbers gmap list relations.
Import Errno.
#[local] Open Scope Z_scope.

Definition FDTABLE_MAX_FILES : Z := 1024.

Record vfscore_file := File {
  f_fd : Z;
  f_flags : Z;
  f_count : Z;
  f_offset : Z;
  f_dentry : Z
}.

Record fdtable := FdTable {
  bitmap : list Z;
  files : list Z;
  heap : gmap Z vfscore_file;
  released : list Z
}.

Definition set_bitmap b s := FdTable b (files s) (heap s) (released s).
Definition set_files l s := FdTable (bitmap s) l (heap s) (released s).
Definition set_heap h s := FdTable (bitmap s) (files s) h (released s).

Definition with_count c f := File (f_fd f) (f_flags f) c (f_offset f) (f_dentry f).
Definition with_fd d f := File d (f_flags f) (f_count f) (f_offset f) (f_dentry f).
Definition with_dentry d f := File (f_fd f) (f_flags f) (f_count f) (f_offset f) d.

Section Code.
Context (vop_close : Z -> Z).

Definition file (fp : Z) : M fdtable vfscore_file := deref (fun s => heap s !! fp).
Definition upd_file (fp : Z) (g : vfscore_file -> vfscore_file) : M fdtable unit :=
  f ← file fp; modify (fun s => set_heap (<[fp := g f]> (heap s)) s).
Definition drele (d : Z) : M fdtable unit :=
  modify (fun s => FdTable (bitmap s) (files s) (heap s) (released s ++ [d])).

Definition vfs_close (fp : Z) : M fdtable Z :=
  f ← file fp;
  let error := vop_close fp in
  if negb (error =? 0) then mret error else
  drele (f_dentry f);;
  upd_file fp (with_dentry 0);;
  mret 0.

Definition fhold (fp : Z) : M fdtable unit := upd_file fp (fun f => with_count (s32 (f_count f + 1)) f).

Definition fdrop (fp : Z) : M fdtable Z :=
  uk_assert (negb (fp =? 0));;
  f ← file fp;
  uk_assert (0 <? f_count f);;
  upd_file fp (with_count (s32 (f_count f - 1)));;
  if f_count f =? 0 then abort else
  if f_count f =? 1 then
    error ← vfs_close fp;
    (if negb (error =? 0) then drele (f_dentry f) else mret tt);;
    modify (fun s => set_heap (delete fp (heap s)) s);;
    mret 1
  else mret 0.

Definition vfscore_alloc_fd : M fdtable Z :=
  b ← gets bitmap;
  ret ← lift (uk_find_next_zero_bit b FDTABLE_MAX_FILES 0);
  if ret =? FDTABLE_MAX_FILES then mret (- ENFILE) else
  b' ← lift (uk_bitmap_set b ret 1);
  modify (set_bitmap b');;
  mret ret.

Definition vfscore_reserve_fd (fd : Z) : M fdtable Z :=
  b ← gets bitmap;
  t ← lift (uk_test_bit fd b);
  if t : bool then mret (- EBUSY) else
  b' ← lift (uk_bitmap_set b fd 1);
  modify (set_bitmap b');;
  mret 0.

Definition slot (fd : Z) : M fdtable Z := deref (fun s => arr_at (files s) fd).
Definition set_slot (fd v : Z) : M fdtable unit :=
  modify (fun s => set_files (<[Z.to_nat fd := v]> (files s)) s).

Definition vfscore_put_fd (fd : Z) : M fdtable Z :=
  uk_assert (fd <? FDTABLE_MAX_FILES);;
  b ← gets bitmap;
  b' ← lift (uk_bitmap_clear b fd 1);
  modify (set_bitmap b');;
  fp ← slot fd;
  set_slot fd 0;;
  (if negb (fp =? 0) then r ← fdrop fp; mret tt else mret tt);;
  mret 0.

Definition vfscore_install_fd (fd fp : Z) : M fdtable Z :=
  if (FDTABLE_MAX_FILES <=? fd) || (fp =? 0) then mret (- EBADF) else
  fhold fp;;
  upd_file fp (with_fd fd);;
  orig ← slot fd;
  set_slot fd fp;;
  _ ← fdrop fp;
  (if negb (orig =? 0) then r ← fdrop orig; mret tt else mret tt);;
  mret 0.

Definition vfscore_get_file (fd : Z) : M fdtable Z :=
  uk_assert (fd <? FDTABLE_MAX_FILES);;
  b ← gets bitmap;
  t ← lift (uk_test_bit fd b);
  if negb t then mret 0 else
  ret ← slot fd;
  fhold ret;;
  mret ret.

Definition vfscore_put_file (fp : Z) : M fdtable unit := _ ← fdrop fp; mret tt.

(** The result and [*out_fp], which is only set on success. *)
Definition fget (fd : Z) : M fdtable (Z * option Z) :=
  fp ← vfscore_get_file fd;
  mret (if fp =? 0 then (EBADF, None) else (0, Some fp)).

(** The result and [*newfd]. *)
Definition fdalloc (fp : Z) : M fdtable (Z * option Z) :=
  fhold fp;;
  fd ← vfscore_alloc_fd;
  if fd <? 0 then mret (fd, None) else
  ret ← vfscore_install_fd fd fp;
  if negb (ret =? 0) then _ ← fdrop fp; mret (ret, None) else mret (0, Some fd).

(** [memset] of the table; [init_stdio] follows it. *)
Definition fdtable_clear (s : fdtable) : fdtable :=
  FdTable (replicate 16 0) (replicate 1024 0) (heap s) (released s).

End Code.

(** ** Invariant *)

(** How many descriptors lead to [p]. *)
Definition refs (l : list Z) (p : Z) : Z := Z.of_nat (length (filter (fun x => x = p) l)).

(** [held p]: how many references to [p] callers have. *)
Record fd_ok (s : fdtable) (held : Z -> Z) : Prop := {
  ok_bitmap : bitmap_ok (bitmap s) FDTABLE_MAX_FILES;
  ok_length : length (files s) = 1024%nat;
  ok_slot : forall fd p, files s !! fd = Some p -> p <> 0 -> is_Some (heap s !! p);
  ok_null : heap s !! 0 = None;
  ok_count : forall p f, heap s !! p = Some f ->
    f_count f = refs (files s) p + held p /\ 0 < f_count f < 2 ^ 31;
  ok_held : forall p, 0 <= held p /\ (0 < held p -> is_Some (heap s !! p))
}.

(** The bit of a descriptor is set exactly if it has a file. *)
Definition fd_tight (s : fdtable) : Prop :=
  forall fd p, arr_at (files s) fd = Some p -> bit (bitmap s) fd = negb (p =? 0).

(** ** Reference counts *)

Section Proofs.
Context (vop_close : Z -> Z).

Lemma refs_insert l i x y p : l !! i = Some x ->
  refs (<[i := y]> l) p = refs l p - (if x =? p then 1 else 0) + (if y =? p then 1 else 0).
Proof.
  intros Hl. unfold refs. rewrite (insert_take_drop _ _ _ (lookup_lt_Some _ _ _ Hl)).
  rewrite <- (take_drop_middle l i x Hl) at 3.
  rewrite !filter_app, !length_app, !filter_cons, !Nat2Z.inj_add.
  destruct (Z.eqb_spec x p), (Z.eqb_spec y p); repeat case_decide; try done; simpl length; lia.
Qed.

Lemma refs_nonneg l p : 0 <= refs l p.
Proof. unfold refs. lia. Qed.

Lemma refs_pos l i p : l !! i = Some p -> 0 < refs l p.
Proof.
  intros Hl. pose proof (refs_insert l i p (p + 1) p Hl) as H. pose proof (refs_nonneg (<[i:=p + 1]> l) p).
  rewrite Z.eqb_refl, (proj2 (Z.eqb_neq (p + 1) p)) in H by lia. lia.
Qed.

(** A change of one file that keeps the accounts. *)
Lemma fd_ok_update s held p f f' d : fd_ok s held -> heap s !! p = Some f ->
  f_count f' = f_count f + d -> 0 < f_count f' < 2 ^ 31 -> 0 <= held p + d ->
  fd_ok (set_heap (<[p := f']> (heap s)) s) (add_held held p d).
Proof.
  intros [] Hp Hc Hb Hd. split; simpl; try done.
  - intros fd q Hq Hn. destruct (decide (q = p)) as [->|]; [by rewrite lookup_insert_eq|].
    rewrite lookup_insert_ne by done. eauto.
  - rewrite lookup_insert_ne; [done|]. intros ->. congruence.
  - intros q g Hg. destruct (decide (q = p)) as [->|].
    + rewrite lookup_insert_eq in Hg. injection Hg as <-. rewrite add_held_eq.
      destruct (ok_count0 p f Hp). lia.
    + rewrite lookup_insert_ne in Hg by done. rewrite add_held_ne by done. eauto.
  - intros q. destruct (decide (q = p)) as [->|].
    + rewrite add_held_eq, lookup_insert_eq. split; [lia|done].
    + rewrite add_held_ne, lookup_insert_ne by done. apply ok_held0.
Qed.

Lemma upd_file_ok p g s f : heap s !! p = Some f ->
  upd_file p g s = Ok (tt, set_heap (<[p := g f]> (heap s)) s).
Proof. intros Hp. unfold upd_file, file. by rewrite (bind_ret _ _ _ f s) by (by apply deref_ok). Qed.

Lemma fhold_ok s held p f : fd_ok s held -> heap s !! p = Some f -> f_count f + 1 < 2 ^ 31 ->
  fhold p s = Ok (tt, set_heap (<[p := with_count (f_count f + 1) f]> (heap s)) s) /\
  fd_ok (set_heap (<[p := with_count (f_count f + 1) f]> (heap s)) s) (add_held held p 1).
Proof.
  intros Hok Hp Hb. destruct (ok_count _ _ Hok p f Hp). destruct (ok_held _ _ Hok p). split.
  - unfold fhold. rewrite (upd_file_ok _ _ _ f) by done. by rewrite s32_small by lia.
  - eapply fd_ok_update; simpl; [done|done|done|lia|lia].
Qed.

(** [vfs_close] releases the dentry unless the file system reports an error, in
    which case [fdrop] does. *)
Lemma close_ok p s f : heap s !! p = Some f ->
  exists e g s', vfs_close vop_close p s = Ok (e, s') /\
    (if negb (e =? 0) then drele (f_dentry f) else mret tt) s' =
      Ok (tt, FdTable (bitmap s) (files s) (<[p := g]> (heap s)) (released s ++ [f_dentry f])).
Proof.
  intros Hp. unfold vfs_close. unfold file at 1.
  rewrite (bind_ret _ _ _ f s) by (by apply deref_ok). cbv zeta.
  destruct (Z.eqb_spec (vop_close p) 0) as [E|E]; simpl negb; cbv iota.
  - exists 0, (with_dentry 0 f). eexists. split; [|reflexivity]. simpl.
    unfold drele. rewrite (bind_ret _ _ _ tt _) by (by apply modify_ok).
    by rewrite (bind_ret _ _ _ _ _ (upd_file_ok p (with_dentry 0)
      (FdTable (bitmap s) (files s) (heap s) (released s ++ [f_dentry f])) f Hp)).
  - exists (vop_close p), f. eexists. split; [reflexivity|].
    rewrite (proj2 (Z.eqb_neq _ 0)) by done. simpl. unfold drele, modify.
    rewrite insert_id by done. done.
Qed.

(** What [fdrop] leaves. *)
Definition dropped (s : fdtable) (p : Z) (f : vfscore_file) : fdtable :=
  if f_count f =? 1
  then FdTable (bitmap s) (files s) (delete p (heap s)) (released s ++ [f_dentry f])
  else set_heap (<[p := with_count (f_count f - 1) f]> (heap s)) s.

Lemma fdrop_run s p f : p <> 0 -> heap s !! p = Some f -> 0 < f_count f < 2 ^ 31 ->
  fdrop vop_close p s = Ok (if f_count f =? 1 then 1 else 0, dropped s p f).
Proof.
  intros Hp0 Hp Hc. unfold fdrop, dropped. rewrite (proj2 (Z.eqb_neq p 0)) by done.
  rewrite (bind_ret _ _ _ tt s) by done. unfold file.
  rewrite (bind_ret _ _ _ f s) by (by apply deref_ok).
  rewrite (proj2 (Z.ltb_lt 0 _)) by lia. rewrite (bind_ret _ _ _ tt s) by done.
  rewrite (bind_ret _ _ _ _ _ (upd_file_ok p _ s f Hp)).
  rewrite (proj2 (Z.eqb_neq (f_count f) 0)) by lia. rewrite s32_small by lia.
  destruct (Z.eqb_spec (f_count f) 1); [|done].
  set (s1 := set_heap _ s).
  destruct (close_ok p s1 (with_count (f_count f - 1) f)) as (err & g & s2 & H1 & H2);
    [by apply lookup_insert_eq|].
  rewrite (bind_ret _ _ _ _ _ H1). simpl f_dentry in H2. rewrite (bind_ret _ _ _ _ _ H2).
  cbv [mbind M_bind modify mret M_ret]. simpl. by rewrite !delete_insert_eq.
Qed.

Lemma fdrop_result s p f : p <> 0 -> heap s !! p = Some f -> 0 < f_count f < 2 ^ 31 ->
  exists r, fdrop vop_close p s = Ok (r, dropped s p f).
Proof. intros. eexists. by apply fdrop_run. Qed.

Lemma fdrop_ok s held p : fd_ok s held -> 0 < held p ->
  exists r f, heap s !! p = Some f /\ fdrop vop_close p s = Ok (r, dropped s p f) /\
    fd_ok (dropped s p f) (add_held held p (-1)).
Proof.
  intros Hok Hh. destruct (ok_held _ _ Hok p) as [_ [f Hf]%(fun H => H Hh)].
  assert (p <> 0) by (intros ->; rewrite (ok_null _ _ Hok) in Hf; done).
  destruct (ok_count _ _ Hok p f Hf) as [Hc Hb].
  destruct (fdrop_result s p f) as [r Hr]; [done..|]. exists r, f. split; [done|]. split; [done|].
  unfold dropped. destruct (Z.eqb_spec (f_count f) 1) as [E|E].
  2:{ eapply fd_ok_update; simpl; [done|done|lia|lia|lia]. }
  pose proof (refs_nonneg (files s) p). destruct Hok. split; simpl; try done.
  - intros fd q Hq Hn. rewrite lookup_delete_ne; [by eauto|]. intros ->.
    pose proof (refs_pos _ _ _ Hq). lia.
  - by rewrite lookup_delete_ne.
  - intros q g Hg. apply lookup_delete_Some in Hg as [Hne Hg]. rewrite add_held_ne by done. eauto.
  - intros q. destruct (decide (q = p)) as [->|].
    + rewrite add_held_eq. split; [lia|]. intros. exfalso. lia.
    + rewrite add_held_ne, lookup_delete_ne by done. apply ok_held0.
Qed.

(** Storing into a slot moves one reference of the old file to the caller and one
    of the new file from the caller; 0 stands for no file. *)
Definition moved (held : Z -> Z) (old new : Z) : Z -> Z := fun x =>
  if x =? 0 then held x
  else held x + (if old =? x then 1 else 0) - (if new =? x then 1 else 0).

Lemma store_ok s held fd old new : fd_ok s held -> files s !! fd = Some old ->
  (new <> 0 -> 0 < held new) -> fd_ok (set_files (<[fd := new]> (files s)) s) (moved held old new).
Proof.
  intros Hok Hold Hnew. pose proof Hok as Hok'. destruct Hok. split; simpl; try done.
  - by rewrite length_insert.
  - intros k q Hq Hn. apply list_lookup_insert_Some in Hq as [(_ & <- & _)|[_ Hq]]; [|by eauto].
    apply ok_held0. auto.
  - intros q f Hf. destruct (ok_count0 q f Hf) as [E ?]. split; [|done].
    assert (q <> 0) by congruence. unfold moved. rewrite (proj2 (Z.eqb_neq q 0)) by done.
    rewrite (refs_insert _ _ old) by done. lia.
  - intros q. unfold moved. destruct (Z.eqb_spec q 0) as [->|Hq]; [apply ok_held0|].
    destruct (ok_held0 q) as [H1 H2].
    assert (new = q -> 0 < held q) by (intros <-; auto).
    assert (old = q -> is_Some (heap s !! q)) by (intros <-; eauto).
    destruct (Z.eqb_spec old q), (Z.eqb_spec new q); split; auto with lia; intros; apply H2; lia.
Qed.

Lemma fd_ok_ext s held held' : (forall x, held x = held' x) -> fd_ok s held -> fd_ok s held'.
Proof.
  intros E []. split; try done.
  - intros p f Hf. rewrite <- E. eauto.
  - intros p. rewrite <- E. apply ok_held0.
Qed.

Lemma fd_ok_bitmap s held b : fd_ok s held -> bitmap_ok b FDTABLE_MAX_FILES -> fd_ok (set_bitmap b s) held.
Proof. intros [] Hb. by split. Qed.

Lemma slot_ok s held fd : fd_ok s held -> 0 <= fd < FDTABLE_MAX_FILES ->
  exists p, files s !! Z.to_nat fd = Some p /\ arr_at (files s) fd = Some p /\ slot fd s = Ok (p, s).
Proof.
  intros Hok Hfd. unfold FDTABLE_MAX_FILES in Hfd.
  destruct (lookup_lt_is_Some_2 (files s) (Z.to_nat fd)) as [p Hp].
  { rewrite (ok_length _ _ Hok). lia. }
  assert (arr_at (files s) fd = Some p) by (unfold arr_at; by rewrite (proj2 (Z.leb_le 0 fd)) by lia).
  exists p. split; [done|]. split; [done|]. by apply deref_ok.
Qed.

(** ** The operations *)

(** [vfscore_alloc_fd]: the lowest free descriptor, or an error if all are taken. *)
Lemma alloc_fd_ok s held : fd_ok s held ->
  (exists k b, 0 <= k < FDTABLE_MAX_FILES /\ vfscore_alloc_fd s = Ok (k, set_bitmap b s) /\
    bitmap_ok b FDTABLE_MAX_FILES /\ bit (bitmap s) k = false /\
    (forall j, 0 <= j < k -> bit (bitmap s) j = true) /\
    forall j, 0 <= j -> bit b j = (j =? k) || bit (bitmap s) j) \/
  (vfscore_alloc_fd s = Ok (- ENFILE, s) /\
    forall j, 0 <= j < FDTABLE_MAX_FILES -> bit (bitmap s) j = true).
Proof.
  intros Hok. pose proof (ok_bitmap _ _ Hok) as Hb.
  destruct (find_zero_ok _ _ Hb) as (k & Hk & Hr & H1 & H0); [done|].
  unfold vfscore_alloc_fd. rewrite (bind_ret _ _ _ (bitmap s) s) by (by apply gets_ok).
  rewrite (bind_ret _ _ _ k s) by (by apply lift_ok).
  destruct (Z.eqb_spec k FDTABLE_MAX_FILES) as [->|Hne]; [by right|]. left.
  destruct (set_bit_ok _ _ k Hb) as (b & Hs & Hb' & Hbit); [lia|].
  rewrite (bind_ret _ _ _ b s) by (by apply lift_ok).
  exists k, b. split; [lia|]. split; [done|]. repeat split; try done; try apply Hb'. apply H0. lia.
Qed.

Lemma install_ok s held fd fp f old : fd_ok s held -> 0 < held fp -> heap s !! fp = Some f ->
  f_count f + 1 < 2 ^ 31 -> 0 <= fd < FDTABLE_MAX_FILES -> files s !! Z.to_nat fd = Some old ->
  exists s', vfscore_install_fd vop_close fd fp s = Ok (0, s') /\ fd_ok s' (add_held held fp (-1)) /\
    files s' = <[Z.to_nat fd := fp]> (files s) /\ bitmap s' = bitmap s /\
    (old = 0 -> heap s' = <[fp := with_fd fd f]> (heap s) /\ released s' = released s).
Proof.
  intros Hok Hh Hf Hc Hfd Hold.
  assert (fp <> 0) by (intros ->; rewrite (ok_null _ _ Hok) in Hf; done).
  unfold vfscore_install_fd. rewrite (proj2 (Z.leb_gt _ fd)), (proj2 (Z.eqb_neq fp 0)) by (done || lia).
  cbv beta iota delta [orb].
  destruct (fhold_ok s held fp f Hok Hf Hc) as [H1 Hok1]. rewrite (bind_ret _ _ _ _ _ H1).
  set (s1 := set_heap _ s) in *.
  assert (heap s1 !! fp = Some (with_count (f_count f + 1) f)) as Hf1 by apply lookup_insert_eq.
  rewrite (bind_ret _ _ _ _ _ (upd_file_ok fp (with_fd fd) s1 _ Hf1)).
  destruct (ok_count _ _ Hok1 fp _ Hf1) as [_ Hc1].
  pose proof (fd_ok_update s1 _ fp _ (with_fd fd (with_count (f_count f + 1) f)) 0 Hok1 Hf1
    ltac:(simpl; lia) Hc1 ltac:(rewrite add_held_eq; lia)) as Hok2.
  set (s2 := set_heap _ s1) in *.
  rewrite (bind_ret _ _ _ old s2) by (apply deref_ok; split; [|done];
    unfold arr_at; by rewrite (proj2 (Z.leb_le 0 fd)) by lia).
  unfold set_slot. rewrite (bind_ret _ _ _ tt _) by (by apply modify_ok).
  pose proof (store_ok s2 _ (Z.to_nat fd) old fp Hok2 Hold
    ltac:(intros _; rewrite !add_held_eq; lia)) as Hok3.
  set (s3 := set_files _ s2) in *. set (h3 := moved _ old fp) in *.
  assert (0 < h3 fp) as Hh3.
  { unfold h3, moved. rewrite (proj2 (Z.eqb_neq fp 0)), Z.eqb_refl, !add_held_eq by done. destruct (old =? fp); lia. }
  destruct (fdrop_ok s3 h3 fp Hok3 Hh3) as (r & g & Hg & Hd & Hok4). rewrite (bind_ret _ _ _ _ _ Hd).
  assert (heap (dropped s3 fp g) = <[fp := with_fd fd f]> (heap s) /\ released (dropped s3 fp g) = released s) as Hheap4.
  { simpl in Hg. rewrite lookup_insert_eq in Hg. injection Hg as <-. destruct (ok_count _ _ Hok fp f Hf) as [_ Hpos]. unfold dropped. simpl.
    rewrite (proj2 (Z.eqb_neq (f_count f + 1) 1)) by lia. simpl. split; [|done]. rewrite !insert_insert_eq. f_equal. unfold with_count, with_fd. simpl. f_equal. lia. }
  set (s4 := dropped s3 fp g) in *.
  assert (files s4 = files s3 /\ bitmap s4 = bitmap s3) as [Ef Eb] by (unfold s4, dropped; by case_match).
  destruct (Z.eqb_spec old 0) as [->|Ho]; cbv beta iota delta [negb].
  { exists s4. split; [done|]. split; [|by split_and!]. eapply fd_ok_ext; [|exact Hok4]. intros x.
    unfold h3, moved, add_held. destruct (Z.eqb_spec x 0), (Z.eqb_spec x fp), (Z.eqb_spec 0 x), (Z.eqb_spec fp x); lia. }
  assert (0 < add_held h3 fp (-1) old) as Hh4.
  { pose proof (proj1 (ok_held _ _ Hok old)). unfold h3, moved, add_held. rewrite (proj2 (Z.eqb_neq old 0)), Z.eqb_refl by done.
    destruct (Z.eqb_spec old fp), (Z.eqb_spec fp old); subst; lia. }
  destruct (fdrop_ok s4 _ old Hok4 Hh4) as (r' & g' & _ & Hd' & Hok5).
  unfold mbind at 1, M_bind at 1. rewrite (bind_ret _ _ _ _ _ Hd'). cbn.
  exists (dropped s4 old g'). split; [done|]. split.
  - eapply fd_ok_ext; [|exact Hok5]. intros x. unfold h3, moved, add_held.
    destruct (Z.eqb_spec x 0), (Z.eqb_spec x fp), (Z.eqb_spec x old), (Z.eqb_spec old x), (Z.eqb_spec fp x); lia.
  - split_and!; [| |done]; unfold dropped; case_match; by rewrite <- ?Ef, <- ?Eb.
Qed.

Lemma tight_store s s' fd p : 0 <= fd < Z.of_nat (length (files s)) -> fd_tight s ->
  files s' = <[Z.to_nat fd := p]> (files s) ->
  (forall j, 0 <= j -> bit (bitmap s') j = if j =? fd then negb (p =? 0) else bit (bitmap s) j) ->
  fd_tight s'.
Proof.
  intros Hfd Ht Ef Hb j q Hq. unfold arr_at in Hq. destruct (Z.leb_spec 0 j); [|done].
  rewrite Hb by done. rewrite Ef in Hq. destruct (Z.eqb_spec j fd) as [->|Hne].
  - rewrite list_lookup_insert_eq in Hq by lia. by injection Hq as ->.
  - rewrite list_lookup_insert_ne in Hq by lia. apply Ht. unfold arr_at.
    by rewrite (proj2 (Z.leb_le 0 j)).
Qed.

Lemma fdalloc_ok s held p f : fd_ok s held -> fd_tight s -> 0 < held p -> heap s !! p = Some f ->
  f_count f + 2 < 2 ^ 31 ->
  (exists k s', 0 <= k < FDTABLE_MAX_FILES /\ fdalloc vop_close p s = Ok ((0, Some k), s') /\
    fd_ok s' held /\ fd_tight s' /\ files s' = <[Z.to_nat k := p]> (files s) /\
    bit (bitmap s) k = false /\ (forall j, 0 <= j < k -> bit (bitmap s) j = true) /\
    (forall j, 0 <= j -> bit (bitmap s') j = (j =? k) || bit (bitmap s) j) /\
    heap s' = <[p := with_count (f_count f + 1) (with_fd k f)]> (heap s) /\ released s' = released s) \/
  (exists s', fdalloc vop_close p s = Ok ((- ENFILE, None), s') /\ fd_ok s' (add_held held p 1) /\
    fd_tight s' /\ (forall j, 0 <= j < FDTABLE_MAX_FILES -> bit (bitmap s) j = true) /\
    s' = set_heap (<[p := with_count (f_count f + 1) f]> (heap s)) s).
Proof.
  intros Hok Ht Hh Hf Hc. destruct (fhold_ok s held p f Hok Hf ltac:(lia)) as [H1 Hok1].
  unfold fdalloc. rewrite (bind_ret _ _ _ _ _ H1). set (s1 := set_heap _ s) in *.
  destruct (alloc_fd_ok s1 _ Hok1) as [(k & b & Hk & Ha & Hb & H0 & Hlow & Hbit)|[Ha Hall]];
    rewrite (bind_ret _ _ _ _ _ Ha); [left|right].
  2:{ exists s1. simpl. split; [done|]. split; [done|]. split; [exact Ht|]. split; [exact Hall|done]. }
  rewrite (proj2 (Z.ltb_ge k 0)) by lia.
  destruct (slot_ok s held k Hok Hk) as (old & Hold & Hold' & _).
  pose proof (Ht k old Hold') as Hnull. change (bitmap s1) with (bitmap s) in *. rewrite H0 in Hnull.
  assert (p <> 0) by (intros ->; rewrite (ok_null _ _ Hok) in Hf; done).
  destruct (install_ok (set_bitmap b s1) (add_held held p 1) k p (with_count (f_count f + 1) f) old)
    as (s' & Hi & Hok' & Ef & Eb & Hheap); try done.
  { by apply fd_ok_bitmap. } { rewrite add_held_eq. lia. } { apply lookup_insert_eq. } { simpl. lia. }
  rewrite (bind_ret _ _ _ _ _ Hi). exists k, s'. split; [done|]. split; [done|].
  split; [eapply fd_ok_ext; [|exact Hok']; intros x; unfold add_held; destruct (x =? p); lia|].
  assert (forall j, 0 <= j -> bit (bitmap s') j = (j =? k) || bit (bitmap s) j) as Hbits.
  { intros j Hj. rewrite Eb. by apply Hbit. }
  split; [|split; [done|split; [done|split; [done|split; [done|]]]]].
  - eapply (tight_store s s' k p); [rewrite (ok_length _ _ Hok); exact Hk|done|done|].
    intros j Hj. rewrite Hbits by done. rewrite (proj2 (Z.eqb_neq p 0)) by done. by destruct (j =? k).
  - destruct Hheap as [E1 E2]; [by apply Z.eqb_eq, negb_false_iff|]. rewrite E1. simpl. by rewrite insert_insert_eq.
Qed.

Lemma get_file_ok s held fd : fd_ok s held -> fd_tight s -> 0 <= fd < FDTABLE_MAX_FILES ->
  (forall p f, arr_at (files s) fd = Some p -> heap s !! p = Some f -> f_count f + 1 < 2 ^ 31) ->
  exists p s', arr_at (files s) fd = Some p /\ vfscore_get_file fd s = Ok (p, s') /\
    fd_ok s' (if p =? 0 then held else add_held held p 1) /\ fd_tight s' /\
    files s' = files s /\ bitmap s' = bitmap s.
Proof.
  intros Hok Ht Hfd Hc. destruct (slot_ok s held fd Hok Hfd) as (p & Hp & Hp' & Hs).
  exists p. unfold vfscore_get_file. rewrite (proj2 (Z.ltb_lt fd _)) by lia.
  rewrite (bind_ret _ _ _ tt s) by done. rewrite (bind_ret _ _ _ (bitmap s) s) by (by apply gets_ok).
  rewrite (bind_ret _ _ _ (bit (bitmap s) fd) s)
    by (apply lift_ok; split; [by apply (test_bit_ok _ _ _ (ok_bitmap _ _ Hok))|done]).
  rewrite (Ht fd p Hp'), negb_involutive. destruct (Z.eqb_spec p 0) as [->|Hn]; [by exists s|].
  rewrite (bind_ret _ _ _ _ _ Hs). destruct (ok_slot _ _ Hok _ _ Hp Hn) as [f Hf].
  destruct (fhold_ok s held p f Hok Hf (Hc p f Hp' Hf)) as [H1 Hok1].
  rewrite (bind_ret _ _ _ _ _ H1). eexists. by split; [|split; [|split]].
Qed.

Lemma put_fd_ok s held fd : fd_ok s held -> fd_tight s -> 0 <= fd < FDTABLE_MAX_FILES ->
  exists s', vfscore_put_fd vop_close fd s = Ok (0, s') /\ fd_ok s' held /\ fd_tight s' /\
    files s' = <[Z.to_nat fd := 0]> (files s) /\ (forall j, 0 <= j -> bit (bitmap s') j = negb (j =? fd) && bit (bitmap s) j) /\
    forall p f, arr_at (files s) fd = Some p -> heap s !! p = Some f -> 1 < f_count f ->
      heap s' = <[p := with_count (f_count f - 1) f]> (heap s) /\ released s' = released s.
Proof.
  intros Hok Ht Hfd. destruct (slot_ok s held fd Hok Hfd) as (p & Hp & Hp' & _).
  destruct (clear_bit_ok _ _ fd (ok_bitmap _ _ Hok) Hfd) as (b & Hcl & Hb & Hbit).
  unfold vfscore_put_fd. rewrite (proj2 (Z.ltb_lt fd _)) by lia.
  rewrite (bind_ret _ _ _ tt s) by done. rewrite (bind_ret _ _ _ (bitmap s) s) by (by apply gets_ok).
  rewrite (bind_ret _ _ _ b s) by (by apply lift_ok).
  rewrite (bind_ret _ _ _ tt _) by (by apply modify_ok).
  rewrite (bind_ret _ _ _ p (set_bitmap b s)) by (by apply deref_ok).
  unfold set_slot. rewrite (bind_ret _ _ _ tt _) by (by apply modify_ok).
  pose proof (store_ok (set_bitmap b s) held (Z.to_nat fd) p 0 (fd_ok_bitmap _ _ _ Hok Hb) Hp
    ltac:(done)) as Hok1.
  set (s1 := set_files _ (set_bitmap b s)) in *.
  assert (forall s', files s' = files s1 -> bitmap s' = b -> fd_tight s') as Htight.
  { intros s' Ef Eb. eapply (tight_store s s' fd 0); [rewrite (ok_length _ _ Hok); exact Hfd|done|done|].
    intros j Hj. rewrite Eb, Hbit by done. by destruct (j =? fd). }
  destruct (Z.eqb_spec p 0) as [->|Hn]; cbv beta iota delta [negb].
  - exists s1. split; [done|]. split; [|split; [by apply Htight|split; [done|split; [exact Hbit|]]]].
    2:{ intros p f. rewrite Hp'. intros [= <-]. by rewrite (ok_null _ _ Hok). }
    eapply fd_ok_ext; [|exact Hok1]. intros x. unfold moved. destruct (Z.eqb_spec x 0), (Z.eqb_spec 0 x); lia.
  - destruct (fdrop_ok s1 _ p Hok1) as (r & g & Hg & Hd & Hok2).
    { unfold moved. rewrite (proj2 (Z.eqb_neq p 0)), Z.eqb_refl, (proj2 (Z.eqb_neq 0 p)) by done.
      pose proof (proj1 (ok_held _ _ Hok p)). lia. }
    unfold mbind at 1, M_bind at 1. rewrite (bind_ret _ _ _ _ _ Hd). cbn.
    exists (dropped s1 p g). split; [done|].
    assert (files (dropped s1 p g) = files s1 /\ bitmap (dropped s1 p g) = b) as [Ef Eb]
      by (unfold dropped; by case_match).
    split; [|split; [by apply Htight|split; [by rewrite Ef|split; [by rewrite Eb|]]]].
    2:{ intros q f. rewrite Hp'. intros [= <-] Hq Hc. change (heap s !! p = Some g) in Hg. rewrite Hg in Hq. injection Hq as ->. unfold dropped.
        by rewrite (proj2 (Z.eqb_neq _ 1)) by lia. }
    eapply fd_ok_ext; [|exact Hok2]. intros x.
    unfold moved, add_held. destruct (Z.eqb_spec x 0), (Z.eqb_spec x p), (Z.eqb_spec p x), (Z.eqb_spec 0 x); lia.
Qed.
End Proofs.

(** ** Runs of callers *)

(** What callers do: open a file (with one reference, theirs), give it a
    descriptor, look a descriptor up, return a reference, close a descriptor. *)
Inductive op :=
  | ONew (p d : Z)
  | OAlloc (p : Z)
  | OGet (fd : Z)
  | OPutFile (p : Z)
  | OPut (fd : Z).

Definition exec (vop_close : Z -> Z) (o : op) : M fdtable Z :=
  match o with
  | ONew p d => modify (fun s => set_heap (<[p := File 0 0 1 0 d]> (heap s)) s);; mret 0
  | OAlloc p => r ← fdalloc vop_close p; mret r.1
  | OGet fd => vfscore_get_file fd
  | OPutFile p => vfscore_put_file vop_close p;; mret 0
  | OPut fd => vfscore_put_fd vop_close fd
  end.

(** The references callers have afterwards, [r] being the result.  A call of
    [fdalloc] that fails keeps the one it took. *)
Definition held_after (o : op) (r : Z) (held : Z -> Z) : Z -> Z :=
  match o with
  | ONew p _ => add_held held p 1
  | OAlloc p => if r =? 0 then held else add_held held p 1
  | OGet _ => if r =? 0 then held else add_held held r 1
  | OPutFile p => add_held held p (-1)
  | OPut _ => held
  end.

(** Callers use descriptors in range and files they hold, and counts stay below
    [INT_MAX]. *)
Definition legal (s : fdtable) (held : Z -> Z) (o : op) : Prop :=
  match o with
  | ONew p _ => p <> 0 /\ heap s !! p = None
  | OAlloc p => 0 < held p /\ forall f, heap s !! p = Some f -> f_count f + 2 < 2 ^ 31
  | OGet fd => 0 <= fd < FDTABLE_MAX_FILES /\
      forall p f, arr_at (files s) fd = Some p -> heap s !! p = Some f -> f_count f + 1 < 2 ^ 31
  | OPutFile p => 0 < held p
  | OPut fd => 0 <= fd < FDTABLE_MAX_FILES
  end.

Inductive step (vop_close : Z -> Z) : fdtable * (Z -> Z) -> fdtable * (Z -> Z) -> Prop :=
  step_op o s held r s' : legal s held o -> exec vop_close o s = Ok (r, s') ->
    step vop_close (s, held) (s', held_after o r held).

Definition fd_init : fdtable := fdtable_clear (FdTable [] [] ∅ []).

Lemma fd_init_ok : fd_ok fd_init (fun _ => 0) /\ fd_tight fd_init.
Proof.
  split.
  - unfold fd_init, fdtable_clear. split; cbn [bitmap files heap].
    + split; [apply Forall_replicate; by split|]. by rewrite length_replicate.
    + by rewrite length_replicate.
    + intros fd p Hp Hn. apply lookup_replicate in Hp as [-> _]. done.
    + done.
    + intros p f Hf. by rewrite lookup_empty in Hf.
    + intros p. split; [done|]. intros H. exfalso. lia.
  - intros fd p Hp. unfold arr_at in Hp. destruct (Z.leb_spec 0 fd); [|done].
    apply lookup_replicate in Hp as [-> _]. unfold bit, arr_at, fd_init, fdtable_clear. cbn [bitmap].
    destruct (0 <=? fd / 64); [|done]. case_match eqn:E; [|done].
    apply lookup_replicate in E as [-> _]. apply Z.testbit_0_l.
Qed.

Lemma new_ok s held p fl d : fd_ok s held -> p <> 0 -> heap s !! p = None ->
  fd_ok (set_heap (<[p := File 0 fl 1 0 d]> (heap s)) s) (add_held held p 1).
Proof.
  intros [] Hp Hn. destruct (ok_held0 p) as [Hh0 Hh1].
  assert (held p = 0) as Hh.
  { destruct (Z.eq_dec (held p) 0); [done|]. destruct Hh1 as [f Hf]; [lia|]. congruence. }
  assert (refs (files s) p = 0) as Hr.
  { unfold refs. destruct (filter _ _) as [|x l] eqn:E; [done|].
    assert (x ∈ filter (fun x => x = p) (files s)) as [-> [i Hi]%list_elem_of_lookup_1]%list_elem_of_filter
      by (rewrite E; left).
    destruct (ok_slot0 i p Hi Hp). congruence. }
  split; simpl; try done.
  - intros fd q Hq Hq0. destruct (decide (q = p)) as [->|]; [by rewrite lookup_insert_eq|].
    rewrite lookup_insert_ne by done. eauto.
  - by rewrite lookup_insert_ne.
  - intros q f Hf. destruct (decide (q = p)) as [->|].
    + rewrite lookup_insert_eq in Hf. injection Hf as <-. rewrite add_held_eq. simpl. lia.
    + rewrite lookup_insert_ne in Hf by done. rewrite add_held_ne by done. eauto.
  - intros q. destruct (decide (q = p)) as [->|].
    + rewrite add_held_eq, lookup_insert_eq. split; [lia|done].
    + rewrite add_held_ne, lookup_insert_ne by done. apply ok_held0.
Qed.

(** Every legal operation returns and keeps the accounts. *)
Lemma exec_ok vop_close s held o : fd_ok s held -> fd_tight s -> legal s held o ->
  exists r s', exec vop_close o s = Ok (r, s') /\ fd_ok s' (held_after o r held) /\ fd_tight s'.
Proof.
  intros Hok Ht Hl. destruct o as [p d|p|fd|p|fd]; simpl in Hl.
  - destruct Hl. exists 0. eexists. split; [done|]. split; [by apply new_ok|exact Ht].
  - destruct Hl as [Hh Hc]. destruct (proj2 (ok_held _ _ Hok p) Hh) as [f Hf].
    destruct (fdalloc_ok vop_close s held p f Hok Ht Hh Hf (Hc f Hf))
      as [(k & s' & _ & H & ? & ? & _)|(s' & H & ? & ? & _)]; simpl exec; rewrite (bind_ret _ _ _ _ _ H);
      by eexists _, s'.
  - destruct Hl as [Hfd Hc]. destruct (get_file_ok s held fd Hok Ht Hfd Hc) as (p & s' & _ & H & ? & ? & _).
    by exists p, s'.
  - destruct (fdrop_ok vop_close s held p Hok Hl) as (r & f & _ & H & Hok').
    exists 0, (dropped s p f). simpl exec. unfold vfscore_put_file.
    rewrite (bind_ret _ _ _ tt (dropped s p f)) by (by rewrite (bind_ret _ _ _ _ _ H)).
    split; [done|]. split; [done|]. unfold dropped. case_match; exact Ht.
  - destruct (put_fd_ok vop_close s held fd Hok Ht Hl) as (s' & H & ? & ? & _). by exists 0, s'.
Qed.

Lemma runs_ok vop_close c c' : fd_ok c.1 c.2 /\ fd_tight c.1 -> rtc (step vop_close) c c' ->
  fd_ok c'.1 c'.2 /\ fd_tight c'.1.
Proof.
  intros H Hr. induction Hr as [|c1 c2 c3 Hs _ IH]; [done|]. apply IH.
  destruct Hs as [o s h r s' Hl He]. destruct H as [Hok Ht]. simpl in *.
  destruct (exec_ok vop_close s h o Hok Ht Hl) as (r' & s1 & He' & ?).
  rewrite He in He'. by injection He' as <- <-.
Qed.

(** C19. Over every run of callers that use descriptors in range and files they
    hold, from the cleared table: the count of each open file is the number of
    descriptors that lead to it plus the number of references callers hold, each
    used descriptor leads to a file that is still there, a descriptor's bit is set
    exactly if it has a file, and no call fails an assertion, uses a freed file or
    leaves the table. *)
Theorem fd_runs_safe vop_close s held :
  rtc (step vop_close) (fd_init, fun _ => 0) (s, held) ->
  fd_ok s held /\ fd_tight s /\
  forall o, legal s held o -> exists r s', exec vop_close o s = Ok (r, s').
Proof.
  intros Hr. assert (fd_ok s held /\ fd_tight s) as [Hok Ht].
  { exact (runs_ok vop_close (fd_init, fun _ => 0) (s, held) fd_init_ok Hr). }
  split; [done|]. split; [done|]. intros o Hl.
  destruct (exec_ok vop_close s held o Hok Ht Hl) as (r & s' & ? & _). by exists r, s'.
Qed.

(** In every consistent table [fdalloc] gives a file the lowest free
    descriptor, with which [vfscore_get_file] then finds that file; or all 1024
    descriptors are taken and it returns -ENFILE. *)
Theorem fdalloc_get_file vop_close s held p f :
  fd_ok s held -> fd_tight s -> 0 < held p -> heap s !! p = Some f -> f_count f + 2 < 2 ^ 31 ->
  (exists k s', fdalloc vop_close p s = Ok ((0, Some k), s') /\ 0 <= k < FDTABLE_MAX_FILES /\
     bit (bitmap s) k = false /\ (forall j, 0 <= j < k -> bit (bitmap s) j = true) /\
     ((forall g, heap s' !! p = Some g -> f_count g + 1 < 2 ^ 31) ->
      exists s'', vfscore_get_file k s' = Ok (p, s''))) \/
  ((exists s', fdalloc vop_close p s = Ok ((- ENFILE, None), s')) /\
   forall j, 0 <= j < FDTABLE_MAX_FILES -> bit (bitmap s) j = true).
Proof.
  intros Hok Ht Hh Hf Hc.
  destruct (fdalloc_ok vop_close s held p f Hok Ht Hh Hf Hc)
    as [(k & s' & Hk & H & Hok' & Ht' & Ef & H0 & Hlow & _)|(s' & H & _ & _ & Hall & _)]; [left|right; eauto].
  exists k, s'. split; [done|]. split; [done|]. split; [done|]. split; [done|]. intros Hg.
  assert (arr_at (files s') k = Some p) as Hs.
  { unfold arr_at. rewrite (proj2 (Z.leb_le 0 k)) by lia. rewrite Ef.
    apply list_lookup_insert_eq. rewrite (ok_length _ _ Hok). unfold FDTABLE_MAX_FILES in Hk. lia. }
  destruct (get_file_ok s' held k Hok' Ht' Hk) as (q & s'' & Hq & Hget & _).
  { intros q g Hq. rewrite Hs in Hq. injection Hq as <-. apply Hg. }
  rewrite Hs in Hq. injection Hq as <-. by exists s''.
Qed.

(** ** Witnesses and what goes wrong *)

Definition demo_fd : fdtable := set_heap {[100 := File 0 0 1 0 7]} fd_init.

Lemma demo_fd_ok : fd_ok demo_fd (add_held (fun _ => 0) 100 1) /\ fd_tight demo_fd.
Proof.
  destruct fd_init_ok as [Hok Ht]. split; [|exact Ht]. exact (new_ok fd_init _ 100 0 7 Hok ltac:(done) eq_refl).
Qed.

Lemma fd_runs_safe_witness :
  fd_ok demo_fd (add_held (fun _ => 0) 100 1) /\
  exists r s', exec (fun _ => 0) (OAlloc 100) demo_fd = Ok (r, s').
Proof.
  destruct (fd_runs_safe (fun _ => 0) demo_fd (add_held (fun _ => 0) 100 1)) as (Hok & _ & Hop).
  - apply rtc_once. apply (step_op (fun _ => 0) (ONew 100 7) fd_init (fun _ => 0) 0).
    + split; [discriminate|reflexivity].
    + reflexivity.
  - split; [exact Hok|]. apply Hop. split; [reflexivity|]. intros f Hf.
    assert (f = File 0 0 1 0 7) as -> by (vm_compute in Hf; congruence). reflexivity.
Defined.

Lemma fdalloc_get_file_witness :
  (exists k s', fdalloc (fun _ => 0) 100 demo_fd = Ok ((0, Some k), s') /\ 0 <= k < FDTABLE_MAX_FILES /\
     bit (bitmap demo_fd) k = false /\ (forall j, 0 <= j < k -> bit (bitmap demo_fd) j = true) /\
     ((forall g, heap s' !! 100 = Some g -> f_count g + 1 < 2 ^ 31) ->
      exists s'', vfscore_get_file k s' = Ok (100, s''))) \/
  ((exists s', fdalloc (fun _ => 0) 100 demo_fd = Ok ((- ENFILE, None), s')) /\
   forall j, 0 <= j < FDTABLE_MAX_FILES -> bit (bitmap demo_fd) j = true).
Proof.
  destruct demo_fd_ok as [Hok Ht].
  apply (fdalloc_get_file (fun _ => 0) demo_fd (add_held (fun _ => 0) 100 1) 100 (File 0 0 1 0 7) Hok Ht).
  - reflexivity.
  - reflexivity.
  - reflexivity.
Defined.

(** A descriptor that is allocated but has no file yet is dereferenced. *)
Lemma reserved_fd_undefined :
  match vfscore_alloc_fd fd_init with Ok (fd, s) => vfscore_get_file fd s = Undef | _ => False end.
Proof. vm_compute. reflexivity. Qed.

(** A negative descriptor reads before the table. *)
Lemma negative_fd_undefined : vfscore_get_file (-1) fd_init = Undef.
Proof. vm_compute. reflexivity. Qed.
