(* ===== verification/Vnode.v ===== *)
(** The cache of vnodes (vfscore/vnode.c, vfs_busy and vfs_unbusy of mount.c):
    look-up by inode number, reference counts, permissions and attributes.

    Vnodes are addresses in a heap; [free] takes a vnode out of it.  What [malloc]
    returns is an argument (0 is NULL), and so is what it leaves in the fields
    that [vfscore_vget] does not set.  The buckets are lists, and taking an
    element off a list it is not on is undefined.  [CONFIG_LIBUKSCHED1] is not
    set, so the locks are compiled out.  The operations of the file system are
    arguments; [VOP_INACTIVE] does nothing in the file systems of the image. *)
From S2P Require Import Prelude VfsTypes Windows.
From stdpp Require Import base numbers gmap fin_maps sets list.
Import Errno.
#[local] Open Scope Z_scope.

(** ** State *)

Record vnode := Vnode {
  v_ino : Z;
  v_mount : Z;
  v_refcnt : Z;
  v_type : vtype;
  v_flags : Z;
  v_mode : Z;
  v_size : Z;
  v_names : list Z;
  v_data : Z
}.

Definition VNODE_BUCKETS : Z := 32.

(** [m_counts] has the field [m_count] of each mount. *)
Record vcache := VCache {
  vnodes : gmap Z vnode;
  vtable : list (list Z);
  m_counts : gmap Z Z;
  wins : ipc_tables
}.

Definition set_vnodes x s := VCache x (vtable s) (m_counts s) (wins s).
Definition set_vtable x s := VCache (vnodes s) x (m_counts s) (wins s).
Definition set_counts x s := VCache (vnodes s) (vtable s) x (wins s).
Definition set_wins x s := VCache (vnodes s) (vtable s) (m_counts s) x.

Definition with_refcnt x v := Vnode (v_ino v) (v_mount v) x (v_type v) (v_flags v) (v_mode v) (v_size v) (v_names v) (v_data v).
Definition with_names x v := Vnode (v_ino v) (v_mount v) (v_refcnt v) (v_type v) (v_flags v) (v_mode v) (v_size v) x (v_data v).
Definition with_attrs t m z d v := Vnode (v_ino v) (v_mount v) (v_refcnt v) t (v_flags v) m z (v_names v) d.

(** What the caches themselves never change. *)
Definition vstatic (v : vnode) : Z * Z * vtype * Z * Z * Z * Z :=
  (v_ino v, v_mount v, v_type v, v_flags v, v_mode v, v_size v, v_data v).

Definition vnode_at (vp : Z) : M vcache vnode := deref (fun s => vnodes s !! vp).
Definition upd_vnode (vp : Z) (f : vnode -> vnode) : M vcache unit :=
  v ← vnode_at vp; modify (fun s => set_vnodes (<[vp := f v]> (vnodes s)) s).

Definition on_wins (m : M ipc_tables unit) : M vcache unit := zoom wins set_wins m.

(** ** The mount's count *)

Definition add_count (mp d : Z) : M vcache unit :=
  c ← deref (fun s => m_counts s !! mp);
  modify (fun s => set_counts (<[mp := s32 (c + d)]> (m_counts s)) s).

Definition vfs_busy (mp : Z) : M vcache unit := add_count mp 1.
Definition vfs_unbusy (mp : Z) : M vcache unit := add_count mp (-1).

(** ** Look-up *)

Definition vn_hash (mp ino : Z) : Z := Z.land (Z.lxor ino mp) (VNODE_BUCKETS - 1).

Fixpoint find_vnode (mp ino : Z) (l : list Z) : M vcache Z :=
  match l with
  | [] => mret 0
  | vp :: r => v ← vnode_at vp;
      if (v_mount v =? mp) && (v_ino v =? ino) then mret vp else find_vnode mp ino r
  end.

Definition vn_lookup (mp ino : Z) : M vcache Z :=
  l ← deref (fun s => arr_at (vtable s) (vn_hash mp ino));
  vp ← find_vnode mp ino l;
  if vp =? 0 then mret 0 else
  upd_vnode vp (fun v => with_refcnt (s32 (v_refcnt v + 1)) v);;
  mret vp.

Definition vn_lock (vp : Z) : M vcache unit :=
  uk_assert (negb (vp =? 0));;
  v ← vnode_at vp; uk_assert (0 <? v_refcnt v).

Definition vn_unlock (vp : Z) : M vcache unit :=
  uk_assert (negb (vp =? 0));;
  v ← vnode_at vp; uk_assert (0 <=? v_refcnt v).

(** The mask of the windows on vnodes and dentries. *)
Definition VFS_MASK : Z := Z.lor (Z.lor (bit 21) (bit 2)) (bit 17).

(** [uk_list_add] into, and [uk_list_del] from, the table. *)
Definition table_add (vp mp ino : Z) : M vcache unit :=
  l ← deref (fun s => arr_at (vtable s) (vn_hash mp ino));
  modify (fun s => set_vtable (<[Z.to_nat (vn_hash mp ino) := vp :: l]> (vtable s)) s).

Definition table_del (vp : Z) : M vcache unit :=
  t ← gets vtable;
  if decide (vp ∈ concat t) then modify (set_vtable (map (filter (fun x => x <> vp)) t)) else undef.

Section Code.
Context (sizeof_vnode : Z) (vfs_vget : Z -> Z -> Z).

(** The return value and [*vpp]: 1 if the vnode was in the cache.  [a] is what
    [malloc] returns and [junk] what is in the memory. *)
Definition vfscore_vget (a : Z) (junk : vnode) (mp ino : Z) : M vcache (Z * Z) :=
  vp ← vn_lookup mp ino;
  if negb (vp =? 0) then mret (1, vp) else
  if a =? 0 then mret (0, 0) else
  on_wins (vfs_ipc_add_heap a sizeof_vnode VFS_MASK);;
  _ ← deref (fun s => m_counts s !! mp);
  modify (fun s => set_vnodes (<[a := Vnode ino mp 1 (v_type junk) (v_flags junk) (v_mode junk) (v_size junk) [] (v_data junk)]> (vnodes s)) s);;
  if negb (vfs_vget mp a =? 0) then
    modify (fun s => set_vnodes (delete a (vnodes s)) s);;
    mret (vfs_vget mp a, 0)
  else
  vfs_busy mp;;
  table_add a mp ino;;
  mret (0, a).

End Code.

(** The end of [vput] and [vrele], when the count has reached 0. *)
Definition vfree (vp : Z) : M vcache unit :=
  table_del vp;;
  v ← vnode_at vp;
  vfs_unbusy (v_mount v);;
  modify (fun s => set_vnodes (delete vp (vnodes s)) s).

Definition vput (vp : Z) : M vcache unit :=
  uk_assert (negb (vp =? 0));;
  v ← vnode_at vp;
  uk_assert (0 <? v_refcnt v);;
  upd_vnode vp (with_refcnt (s32 (v_refcnt v - 1)));;
  if 0 <? s32 (v_refcnt v - 1) then vn_unlock vp else vfree vp.

Definition vref (vp : Z) : M vcache unit :=
  uk_assert (negb (vp =? 0));;
  v ← vnode_at vp;
  uk_assert (0 <? v_refcnt v);;
  upd_vnode vp (with_refcnt (s32 (v_refcnt v + 1))).

Definition vrele (vp : Z) : M vcache unit :=
  uk_assert (negb (vp =? 0));;
  v ← vnode_at vp;
  uk_assert (0 <? v_refcnt v);;
  upd_vnode vp (with_refcnt (s32 (v_refcnt v - 1)));;
  if 0 <? s32 (v_refcnt v - 1) then mret tt else vfree vp.

(** [uk_list_add] puts the name in front. *)
Definition vn_add_name (vp dp : Z) : M vcache unit := upd_vnode vp (fun v => with_names (dp :: v_names v) v).
Definition vn_del_name (vp dp : Z) : M vcache unit :=
  v ← vnode_at vp;
  if decide (dp ∈ v_names v) then upd_vnode vp (with_names (filter (fun x => x <> dp) (v_names v))) else undef.

Definition vnode_init (s : vcache) : vcache := set_vtable (replicate (Z.to_nat VNODE_BUCKETS) []) s.

(** ** Permissions and attributes *)

Definition VREAD : Z := 4.
Definition VWRITE : Z := 2.
Definition VEXEC : Z := 1.
Definition MNT_RDONLY : Z := 1.

(** [flag x m]: a bit of [m] is set in [x]. *)
Definition flag (x m : Z) : bool := negb (Z.land x m =? 0).

(** [mode] is [v_mode], [m_flags] those of the mount; 73, 292 and 146 are octal
    0111, 0444 and 0222. *)
Definition vn_access (mode m_flags flags : Z) : Z :=
  if flag flags VEXEC && negb (flag mode 73) then EACCES else
  if flag flags VREAD && negb (flag mode 292) then EACCES else
  if flag flags VWRITE then
    if flag m_flags MNT_RDONLY then EROFS else
    if negb (flag mode 146) then EACCES else 0
  else 0.

(** The type bits [vn_stat] adds to the mode, or [None] for its error EBADF. *)
Definition stat_bits (t : vtype) : option Z :=
  match t with
  | VREG => Some S_IFREG | VDIR => Some S_IFDIR | VBLK => Some S_IFBLK | VCHR => Some S_IFCHR
  | VLNK => Some S_IFLNK | VSOCK => Some S_IFSOCK | VFIFO => Some S_IFIFO | VNON | VBAD => None
  end.

Record stat := Stat { st_ino : Z; st_size : Z; st_mode : Z; st_blksize : Z; st_blocks : Z }.

(** [va_*] are what [VOP_GETATTR] reports and [error] its result.  The fields
    left out (nlink, uid, gid, dev, rdev, times) are copied.  [Z.quot] is the
    division of C. *)
Definition vn_stat (BSIZE error : Z) (t : vtype) (va_nodeid va_size va_mode : Z) : Z * option stat :=
  if negb (error =? 0) then (error, None) else
  match stat_bits t with
  | None => (EBADF, None)
  | Some b => (0, Some (Stat va_nodeid va_size (Z.lor va_mode b) BSIZE (Z.quot va_size 512)))
  end.

(** The type in the mode [vn_stat] reports. *)
Lemma stat_bits_type t b : stat_bits t = Some b ->
  VTTOIF t = Some b /\ Z.land b S_IFMT = b /\ IFTOVT b = Some t /\ Z.land b 4095 = 0.
Proof. by destruct t; intros [= <-]. Qed.

(** ** Invariant *)

(** The vnodes of a mount. *)
Definition of_mount (m : gmap Z vnode) (mp : Z) : gmap Z vnode := filter (fun kv => v_mount kv.2 = mp) m.

(** A vnode hangs in the bucket of its mount and number, and no two have the
    same; its count is the number of references held; the count of a mount is the
    number of its vnodes. *)
Record vc_ok (s : vcache) (held : Z -> Z) : Prop := {
  vc_wins : vfs_inv (wins s);
  vc_len : Z.of_nat (length (vtable s)) = VNODE_BUCKETS;
  vc_null : vnodes s !! 0 = None;
  vc_count : forall vp v, vnodes s !! vp = Some v -> v_refcnt v = held vp /\ 0 < v_refcnt v < 2 ^ 31;
  vc_held : forall vp, 0 <= held vp /\ (0 < held vp -> is_Some (vnodes s !! vp));
  vc_bucket : forall i l vp, arr_at (vtable s) i = Some l -> vp ∈ l ->
    exists v, vnodes s !! vp = Some v /\ i = vn_hash (v_mount v) (v_ino v);
  vc_in : forall vp v, vnodes s !! vp = Some v ->
    exists l, arr_at (vtable s) (vn_hash (v_mount v) (v_ino v)) = Some l /\ vp ∈ l;
  vc_nodup : forall i l, arr_at (vtable s) i = Some l -> NoDup l;
  vc_unique : forall vp1 vp2 v1 v2, vnodes s !! vp1 = Some v1 -> vnodes s !! vp2 = Some v2 ->
    v_mount v1 = v_mount v2 -> v_ino v1 = v_ino v2 -> vp1 = vp2;
  vc_mcount : forall mp c, m_counts s !! mp = Some c -> c = s32 (Z.of_nat (size (of_mount (vnodes s) mp)));
  vc_mounts : forall vp v, vnodes s !! vp = Some v -> is_Some (m_counts s !! v_mount v)
}.

(** ** Windows *)

Definition slot_available (t : ipc_tables) : Prop :=
  exists i e, tab_heap t !! i = Some e /\ ipc_size e = 0.

Lemma vfs_add_ok b z m t : vfs_inv t -> slot_available t ->
  exists t', vfs_ipc_add_heap b z m t = Ok (tt, t') /\ vfs_inv t'.
Proof.
  intros Hi (i & e & He & Hz). assert (exists t', vfs_ipc_add_heap b z m t = Ok (tt, t')) as [t' Ht].
  { destruct Hi as (Hl & _ & _). pose proof (lookup_lt_Some _ _ _ He).
    destruct (scan_hit slot_free VFS_HEAP_MAX 0 (tab_heap t) i e) as [j Hj]; [lia|lia|done|by apply Z.eqb_eq|].
    unfold vfs_ipc_add_heap. cbv [mbind M_bind gets lift modify mret M_ret]. rewrite Hj. simpl.
    case_match; by eexists. }
  exists t'. split; [done|]. by apply (vfs_inv_step (OpAdd b z m) t).
Qed.

Lemma vfs_add_full b z m t : vfs_inv t -> ~ slot_available t -> vfs_ipc_add_heap b z m t = Spin.
Proof.
  intros (Hl & _ & _) Hn. destruct (scan_total slot_free VFS_HEAP_MAX 0 (tab_heap t)) as [[j|] Hj]; [lia| |].
  - apply scan_some in Hj as (_ & (e & He & Hf) & _). destruct Hn. exists j, e. by rewrite <- Z.eqb_eq.
  - unfold vfs_ipc_add_heap. cbv [mbind M_bind gets lift modify]. by rewrite Hj.
Qed.

Lemma slot_dec t : slot_available t \/ ~ slot_available t.
Proof.
  destruct (decide (Exists (fun e => ipc_size e = 0) (tab_heap t))) as [H|H].
  - left. apply Exists_exists in H as (e & [i Hi]%list_elem_of_lookup & He). by exists i, e.
  - right. intros (i & e & Hi & He). apply H, Exists_exists. exists e. split; [|done]. by apply list_elem_of_lookup_2 with i.
Qed.

(** How many windows can still be opened. *)
Definition zero_slots (l : list ipc_struct) : nat := length (filter (fun e => ipc_size e = 0) l).
Definition free_slots (t : ipc_tables) : nat := zero_slots (tab_heap t).

Lemma free_slots_insert (l : list ipc_struct) i (e : ipc_struct) :
  (zero_slots l <= S (zero_slots (<[i := e]> l)))%nat /\ (ipc_size e = 0 -> (zero_slots l <= zero_slots (<[i := e]> l))%nat).
Proof.
  unfold zero_slots. revert i. induction l as [|x l IH]; intros [|i]; simpl; try (split; lia).
  - rewrite !filter_cons. repeat case_decide; simpl; split; try lia; done.
  - destruct (IH i) as [H1 H2]. rewrite !filter_cons. case_decide; simpl; split; try lia; intros H%H2; lia.
Qed.

Lemma vfs_add_slots b z m t t' : vfs_ipc_add_heap b z m t = Ok (tt, t') -> (free_slots t <= S (free_slots t'))%nat.
Proof. intros (i & old & _ & _ & _ & Hh & _)%vfs_add_effect. unfold free_slots. rewrite Hh. apply free_slots_insert. Qed.

Lemma vfs_remove_slots b t t' : vfs_ipc_remove_heap b t = Ok (tt, t') -> (free_slots t <= free_slots t')%nat.
Proof.
  intros [_ [[Hh _]|(i & e & _ & _ & _ & Hh)]]%vfs_remove_effect; unfold free_slots; rewrite Hh; [done|].
  by apply free_slots_insert.
Qed.

Lemma free_slot_available t : (0 < free_slots t)%nat -> slot_available t.
Proof.
  unfold free_slots, zero_slots. destruct (filter _ _) as [|e l] eqn:E; [simpl; lia|]. intros _.
  assert (e ∈ filter (fun e => ipc_size e = 0) (tab_heap t)) as [He [i Hi]%list_elem_of_lookup]%list_elem_of_filter by (rewrite E; left).
  by exists i, e.
Qed.

Lemma vfs_remove_ok b t : vfs_inv t -> exists t', vfs_ipc_remove_heap b t = Ok (tt, t') /\ vfs_inv t'.
Proof.
  intros Hi. assert (exists t', vfs_ipc_remove_heap b t = Ok (tt, t')) as [t' Ht].
  { destruct Hi as (Hl & Hnr & _).
    destruct (scan_total (slot_begins b) (Z.to_nat (tab_heap_nr_real t)) 0 (tab_heap t)) as [o Ho]; [lia|].
    unfold vfs_ipc_remove_heap. cbv [mbind M_bind gets lift modify]. rewrite Ho. destruct o; by eexists. }
  exists t'. split; [done|]. by apply (vfs_inv_step (OpRemove b) t).
Qed.

Lemma vfs_wins_ok m s t : m (wins s) = Ok (tt, t) -> on_wins m s = Ok (tt, set_wins t s).
Proof. apply zoom_ok. Qed.

Lemma vc_ok_wins s held t : vc_ok s held -> vfs_inv t -> vc_ok (set_wins t s) held.
Proof. intros [] Ht. by split. Qed.

Lemma vc_ok_ext s held held' : (forall x, held x = held' x) -> vc_ok s held -> vc_ok s held'.
Proof.
  intros E []. split; try done.
  - intros vp v Hv. rewrite <- E. eauto.
  - intros vp. rewrite <- E. apply vc_held0.
Qed.

(** ** Changes of one vnode *)

Lemma vn_hash_range mp ino : 0 <= vn_hash mp ino < VNODE_BUCKETS.
Proof. unfold vn_hash, VNODE_BUCKETS. change (32 - 1) with (Z.ones 5). rewrite Z.land_ones by lia. divlia. Qed.

Lemma of_mount_update m vp v v' mp : m !! vp = Some v -> v_mount v' = v_mount v ->
  size (of_mount (<[vp := v']> m) mp) = size (of_mount m mp).
Proof.
  intros Hv Hm. unfold of_mount. destruct (decide (v_mount v = mp)).
  - rewrite map_filter_insert_True by (simpl; congruence). apply map_size_insert_Some.
    exists v. by apply map_lookup_filter_Some.
  - rewrite map_filter_insert_False by (simpl; congruence).
    rewrite map_filter_delete, delete_id; [done|].
    apply map_lookup_filter_None. right. simpl. congruence.
Qed.

Lemma of_mount_insert m vp v mp : m !! vp = None ->
  size (of_mount (<[vp := v]> m) mp) = (size (of_mount m mp) + if decide (v_mount v = mp) then 1 else 0)%nat.
Proof.
  intros Hv. unfold of_mount. case_decide.
  - rewrite map_filter_insert_True by done. rewrite map_size_insert_None; [lia|].
    apply map_lookup_filter_None. by left.
  - rewrite map_filter_insert_False by done. rewrite delete_id by done. lia.
Qed.

Lemma of_mount_delete m vp v mp : m !! vp = Some v ->
  size (of_mount m mp) = (size (of_mount (delete vp m) mp) + if decide (v_mount v = mp) then 1 else 0)%nat.
Proof.
  intros Hv. rewrite <- (of_mount_insert (delete vp m) vp v mp) by apply lookup_delete_eq.
  by rewrite insert_delete_eq, insert_id.
Qed.

Lemma vc_ok_update s held vp v v' d : vc_ok s held -> vnodes s !! vp = Some v ->
  v_mount v' = v_mount v -> v_ino v' = v_ino v -> v_refcnt v' = v_refcnt v + d ->
  0 < v_refcnt v' < 2 ^ 31 ->
  vc_ok (set_vnodes (<[vp := v']> (vnodes s)) s) (add_held held vp d).
Proof.
  intros Hok Hv Hm Hi Hc Hb. pose proof Hok as []. destruct (vc_count0 vp v Hv) as [Hr _].
  assert (forall q w, <[vp := v']> (vnodes s) !! q = Some w ->
    exists w0, vnodes s !! q = Some w0 /\ v_mount w = v_mount w0 /\ v_ino w = v_ino w0) as Hget.
  { intros q w Hw. destruct (decide (q = vp)) as [->|].
    - rewrite lookup_insert_eq in Hw. injection Hw as <-. eauto.
    - rewrite lookup_insert_ne in Hw by done. eauto. }
  split; simpl; try done.
  - rewrite lookup_insert_ne; [done|]. intros ->. congruence.
  - intros q w Hw. destruct (decide (q = vp)) as [->|].
    + rewrite lookup_insert_eq in Hw. injection Hw as <-. rewrite add_held_eq. lia.
    + rewrite lookup_insert_ne in Hw by done. rewrite add_held_ne by done. eauto.
  - intros q. destruct (decide (q = vp)) as [->|].
    + rewrite add_held_eq, lookup_insert_eq. split; [lia|done].
    + rewrite add_held_ne, lookup_insert_ne by done. apply vc_held0.
  - intros i l q Hl Hq. destruct (vc_bucket0 i l q Hl Hq) as (w & Hw & ->).
    destruct (decide (q = vp)) as [->|].
    + exists v'. rewrite lookup_insert_eq. split; [done|]. congruence.
    + exists w. by rewrite lookup_insert_ne.
  - intros q w (w0 & Hw0 & -> & ->)%Hget. eauto.
  - intros q1 q2 w1 w2 (u1 & Hu1 & -> & ->)%Hget (u2 & Hu2 & -> & ->)%Hget. eauto.
  - intros mp c Hmc. rewrite (of_mount_update _ _ v) by done. eauto.
  - intros q w (w0 & Hw0 & -> & _)%Hget. eauto.
Qed.

Lemma update_vnode_ok vp f s v : vnodes s !! vp = Some v ->
  upd_vnode vp f s = Ok (tt, set_vnodes (<[vp := f v]> (vnodes s)) s).
Proof. intros Hv. unfold upd_vnode, vnode_at. by rewrite (bind_ret _ _ _ v s) by (by apply deref_ok). Qed.

Lemma vc_live s held vp : vc_ok s held -> 0 < held vp ->
  exists v, vnodes s !! vp = Some v /\ vp <> 0 /\ v_refcnt v = held vp /\ 0 < v_refcnt v < 2 ^ 31.
Proof.
  intros Hok Hh. destruct (proj2 (vc_held _ _ Hok vp) Hh) as [v Hv]. exists v. split; [done|].
  split; [|by apply (vc_count _ _ Hok)]. intros ->. rewrite (vc_null _ _ Hok) in Hv. done.
Qed.

(** ** The operations *)

(** The state after the last reference to [vp] is gone. *)
Definition freed (s : vcache) (vp : Z) (v : vnode) (c : Z) : vcache :=
  VCache (delete vp (vnodes s)) (map (filter (fun x => x <> vp)) (vtable s))
    (<[v_mount v := s32 (c - 1)]> (m_counts s)) (wins s).

Lemma vc_ok_freed s held vp v c : vc_ok s held -> vnodes s !! vp = Some v -> held vp = 1 ->
  m_counts s !! v_mount v = Some c -> vc_ok (freed s vp v c) (add_held held vp (-1)).
Proof.
  intros Hok Hv Hh Hc. destruct Hok. split; simpl; try done.
  - by rewrite length_map.
  - by apply lookup_delete_None; right.
  - intros q w [Hne Hw]%lookup_delete_Some. rewrite add_held_ne by done. eauto.
  - intros q. destruct (decide (q = vp)) as [->|].
    + rewrite add_held_eq. split; [lia|]. intros. exfalso. lia.
    + rewrite add_held_ne, lookup_delete_ne by done. apply vc_held0.
  - intros i l q Hl Hq. rewrite arr_at_map in Hl. apply fmap_Some in Hl as (l0 & Hl0 & ->).
    apply list_elem_of_filter in Hq as [Hne Hq]. destruct (vc_bucket0 i l0 q Hl0 Hq) as (w & Hw & ->).
    exists w. by rewrite lookup_delete_ne.
  - intros q w [Hne Hw]%lookup_delete_Some. destruct (vc_in0 q w Hw) as (l & Hl & Hq).
    exists (filter (fun x => x <> vp) l). rewrite arr_at_map, Hl. split; [done|].
    by apply list_elem_of_filter.
  - intros i l Hl. rewrite arr_at_map in Hl. apply fmap_Some in Hl as (l0 & Hl0 & ->).
    apply NoDup_filter. eauto.
  - intros q1 q2 w1 w2 [_ H1]%lookup_delete_Some [_ H2]%lookup_delete_Some. eauto.
  - intros mp c' Hc'. pose proof (of_mount_delete (vnodes s) vp v mp Hv) as Hs.
    destruct (decide (mp = v_mount v)) as [->|Hne].
    + rewrite lookup_insert_eq in Hc'. injection Hc' as <-. rewrite decide_True in Hs by done.
      rewrite (vc_mcount0 _ _ Hc). replace (s32 _ - 1) with (s32 (Z.of_nat (size (of_mount (vnodes s) (v_mount v)))) + -1) by lia.
      rewrite s32_add. f_equal. lia.
    + rewrite lookup_insert_ne in Hc' by done. rewrite decide_False in Hs by done.
      rewrite (vc_mcount0 _ _ Hc'). do 2 f_equal. lia.
  - intros q w [_ Hw]%lookup_delete_Some. destruct (decide (v_mount w = v_mount v)) as [->|].
    + by rewrite lookup_insert_eq.
    + rewrite lookup_insert_ne by done. eauto.
Qed.

Lemma vfree_ok s held vp v : vc_ok s held -> vnodes s !! vp = Some v ->
  exists c, m_counts s !! v_mount v = Some c /\ forall x,
    vfree vp (set_vnodes (<[vp := with_refcnt x v]> (vnodes s)) s) = Ok (tt, freed s vp v c).
Proof.
  intros Hok Hv. destruct (vc_mounts _ _ Hok vp v Hv) as [c Hc]. exists c. split; [done|]. intros x.
  destruct (vc_in _ _ Hok vp v Hv) as (l & Hl & Hin). unfold vfree, table_del.
  erewrite (bind_ret _ _ _ tt).
  2:{ erewrite bind_ret by (by apply gets_ok). simpl. rewrite decide_True; [by apply modify_ok|].
      apply elem_of_concat. eauto. }
  rewrite (bind_ret _ _ _ (with_refcnt x v) _) by (apply deref_ok; split; [apply lookup_insert_eq|done]).
  unfold vfs_unbusy, add_count. simpl v_mount.
  erewrite (bind_ret _ _ _ tt).
  2:{ rewrite (bind_ret _ _ _ c _) by (by apply deref_ok). by apply modify_ok. }
  unfold modify, freed. simpl. by rewrite delete_insert_eq.
Qed.

Lemma vref_ok s held vp v : vc_ok s held -> vnodes s !! vp = Some v -> v_refcnt v + 1 < 2 ^ 31 ->
  vref vp s = Ok (tt, set_vnodes (<[vp := with_refcnt (v_refcnt v + 1) v]> (vnodes s)) s) /\
  vc_ok (set_vnodes (<[vp := with_refcnt (v_refcnt v + 1) v]> (vnodes s)) s) (add_held held vp 1).
Proof.
  intros Hok Hv Hb. destruct (vc_count _ _ Hok vp v Hv). split; [|eapply vc_ok_update; simpl; [done|done|done|done|lia|lia]].
  assert (vp <> 0) by (intros ->; rewrite (vc_null _ _ Hok) in Hv; done).
  unfold vref. rewrite (proj2 (Z.eqb_neq vp 0)) by done. rewrite (bind_ret _ _ _ tt s) by done.
  rewrite (bind_ret _ _ _ v s) by (by apply deref_ok). rewrite (proj2 (Z.ltb_lt 0 _)) by lia.
  rewrite (bind_ret _ _ _ tt s) by done. rewrite (update_vnode_ok _ _ _ v) by done. by rewrite s32_small by lia.
Qed.

(** What is left when one reference is dropped. *)
Definition released (s : vcache) (vp : Z) (v : vnode) (c : Z) : vcache :=
  if v_refcnt v =? 1 then freed s vp v c
  else set_vnodes (<[vp := with_refcnt (v_refcnt v - 1) v]> (vnodes s)) s.

Lemma released_static s vp v c : vnodes s !! vp = Some v -> vstatic <$> vnodes (released s vp v c) ⊆ vstatic <$> vnodes s.
Proof.
  intros Hv. unfold released. case_match; simpl.
  - rewrite fmap_delete. apply delete_subseteq.
  - rewrite fmap_insert. change (vstatic _) with (vstatic v). by rewrite <- fmap_insert, insert_id.
Qed.

(** [vrele] and [vput] have the same effect. *)
Lemma vrele_ok s held vp : vc_ok s held -> 0 < held vp ->
  exists v c, vnodes s !! vp = Some v /\ m_counts s !! v_mount v = Some c /\
    vrele vp s = Ok (tt, released s vp v c) /\ vput vp s = Ok (tt, released s vp v c) /\
    vc_ok (released s vp v c) (add_held held vp (-1)).
Proof.
  intros Hok Hh. destruct (vc_live s held vp Hok Hh) as (v & Hv & H0 & Hr & Hb).
  destruct (vfree_ok s held vp v Hok Hv) as (c & Hc & Hfree). exists v, c. split; [done|]. split; [done|].
  assert (forall k : M vcache unit,
    (uk_assert (negb (vp =? 0));; v ← vnode_at vp; uk_assert (0 <? v_refcnt v);;
     upd_vnode vp (with_refcnt (s32 (v_refcnt v - 1)));;
     if 0 <? s32 (v_refcnt v - 1) then k else vfree vp) s =
    (if v_refcnt v =? 1 then Ok (tt, freed s vp v c)
     else k (set_vnodes (<[vp := with_refcnt (v_refcnt v - 1) v]> (vnodes s)) s))) as Hrun.
  { intros k. rewrite (proj2 (Z.eqb_neq vp 0)) by done. rewrite (bind_ret _ _ _ tt s) by done.
    rewrite (bind_ret _ _ _ v s) by (by apply deref_ok). rewrite (proj2 (Z.ltb_lt 0 (v_refcnt v))) by lia.
    rewrite (bind_ret _ _ _ tt s) by done. rewrite (bind_ret _ _ _ _ _ (update_vnode_ok vp _ s v Hv)).
    rewrite s32_small by lia. destruct (Z.eqb_spec (v_refcnt v) 1) as [E|E].
    - rewrite (proj2 (Z.ltb_ge 0 _)) by lia. apply Hfree.
    - by rewrite (proj2 (Z.ltb_lt 0 _)) by lia. }
  unfold vrele, vput. rewrite !Hrun. unfold released. destruct (Z.eqb_spec (v_refcnt v) 1) as [E|E].
  { split; [done|]. split; [done|]. apply vc_ok_freed; try done. lia. }
  split; [done|]. split; [|eapply vc_ok_update; simpl; [done|done|done|done|lia|lia]].
  unfold vn_unlock. rewrite (proj2 (Z.eqb_neq vp 0)) by done. erewrite (bind_ret _ _ _ tt) by done.
  erewrite (bind_ret _ _ _ (with_refcnt (v_refcnt v - 1) v)) by (apply deref_ok; split; [apply lookup_insert_eq|done]).
  simpl v_refcnt. by rewrite (proj2 (Z.leb_le 0 _)) by lia.
Qed.

(** *** vfscore_vget *)

Definition matches (mp ino : Z) (v : vnode) : Prop := v_mount v = mp /\ v_ino v = ino.

Lemma find_vnode_spec s mp ino l : (forall vp, vp ∈ l -> is_Some (vnodes s !! vp)) ->
  (exists vp v, find_vnode mp ino l s = Ok (vp, s) /\ vp ∈ l /\ vnodes s !! vp = Some v /\ matches mp ino v) \/
  (find_vnode mp ino l s = Ok (0, s) /\ forall vp v, vp ∈ l -> vnodes s !! vp = Some v -> ~ matches mp ino v).
Proof.
  induction l as [|x l IH]; intros Hl; simpl.
  { right. split; [done|]. by intros ? ? ?%elem_of_nil. }
  destruct (Hl x) as [v Hv]; [left|]. rewrite (bind_ret _ _ _ v s) by (by apply deref_ok).
  destruct (Z.eqb_spec (v_mount v) mp), (Z.eqb_spec (v_ino v) ino); simpl;
    try (left; exists x, v; split; [done|split; [left|done]]; fail).
  all: destruct IH as [(vp & w & -> & Hin & Hw & Hm)|[-> Hno]]; [intros; apply Hl; by right| |];
    [left; exists vp, w; split; [done|split; [by right|done]]|].
  all: right; split; [done|]; intros vp w [->|Hin]%elem_of_cons Hw [Hm1 Hm2]; [congruence|by eapply Hno].
Qed.

(** Within the cache, a pair of a mount and a number finds its vnode. *)
Lemma vn_lookup_spec s held mp ino : vc_ok s held ->
  (exists vp v, vnodes s !! vp = Some v /\ matches mp ino v /\ vp <> 0 /\
    vn_lookup mp ino s = Ok (vp, set_vnodes (<[vp := with_refcnt (s32 (v_refcnt v + 1)) v]> (vnodes s)) s)) \/
  ((forall vp v, vnodes s !! vp = Some v -> ~ matches mp ino v) /\ vn_lookup mp ino s = Ok (0, s)).
Proof.
  intros Hok. pose proof Hok as []. unfold vn_lookup.
  assert (exists l, arr_at (vtable s) (vn_hash mp ino) = Some l) as [l Hl].
  { pose proof (vn_hash_range mp ino). unfold arr_at. rewrite (proj2 (Z.leb_le 0 _)) by lia.
    apply lookup_lt_is_Some. lia. }
  rewrite (bind_ret _ _ _ l s) by (by apply deref_ok).
  destruct (find_vnode_spec s mp ino l) as [(vp & v & Hf & Hin & Hv & Hm)|[Hf Hno]].
  - intros vp Hin. destruct (vc_bucket0 _ _ _ Hl Hin) as (v & Hv & _). eauto.
  - left. exists vp, v. assert (vp <> 0) by congruence. rewrite (bind_ret _ _ _ _ _ Hf).
    rewrite (proj2 (Z.eqb_neq vp 0)) by done. by rewrite (bind_ret _ _ _ _ _ (update_vnode_ok vp _ s v Hv)).
  - right. rewrite (bind_ret _ _ _ _ _ Hf). split; [|done]. intros vp v Hv Hm.
    destruct (vc_in0 vp v Hv) as (l' & Hl' & Hin). eapply (Hno vp v); [|done|done].
    destruct Hm as [<- <-]. congruence.
Qed.

(** The cache with a new vnode. *)
Definition added (s : vcache) (a : Z) (v : vnode) (c : Z) (l : list Z) (t : ipc_tables) : vcache :=
  VCache (<[a := v]> (vnodes s)) (<[Z.to_nat (vn_hash (v_mount v) (v_ino v)) := a :: l]> (vtable s))
    (<[v_mount v := s32 (c + 1)]> (m_counts s)) t.

Lemma vc_ok_added s held a v c l t : vc_ok s held -> vnodes s !! a = None -> a <> 0 ->
  v_refcnt v = 1 -> (forall vp w, vnodes s !! vp = Some w -> ~ matches (v_mount v) (v_ino v) w) ->
  m_counts s !! v_mount v = Some c -> arr_at (vtable s) (vn_hash (v_mount v) (v_ino v)) = Some l ->
  vfs_inv t -> vc_ok (added s a v c l t) (add_held held a 1).
Proof.
  intros Hok Ha H0 Hr Hno Hc Hl Ht. destruct Hok.
  assert (Hha : held a = 0).
  { destruct (vc_held0 a) as [? Hs]. destruct (decide (0 < held a)) as [Hp|]; [|lia].
    destruct (Hs Hp) as [? ?]. congruence. }
  assert (Hnl : a ∉ l).
  { intros Hin. destruct (vc_bucket0 _ _ _ Hl Hin) as (w & Hw & _). congruence. }
  pose proof (arr_at_Some _ _ _ Hl) as [Hh0 Hh1].
  split; simpl; try done.
  - by rewrite length_insert.
  - by rewrite lookup_insert_ne.
  - intros q w [[<- <-]|[Hne Hw]]%lookup_insert_Some; [rewrite add_held_eq; lia|].
    rewrite add_held_ne by done. eauto.
  - intros q. destruct (decide (q = a)) as [->|].
    + rewrite add_held_eq, lookup_insert_eq. split; [lia|done].
    + rewrite add_held_ne, lookup_insert_ne by done. apply vc_held0.
  - intros i l' q Hl' Hq. rewrite arr_at_insert in Hl' by done. case_decide as E.
    + injection Hl' as <-. apply elem_of_cons in Hq as [->|Hq]; [exists v; by rewrite lookup_insert_eq|].
      destruct (vc_bucket0 _ _ _ Hl Hq) as (w & Hw & E'). exists w. rewrite lookup_insert_ne by congruence.
      split; [done|congruence].
    + destruct (vc_bucket0 _ _ _ Hl' Hq) as (w & Hw & E'). exists w. by rewrite lookup_insert_ne by congruence.
  - intros q w [[<- <-]|[Hne Hw]]%lookup_insert_Some.
    + exists (a :: l). rewrite arr_at_insert, decide_True by done. split; [done|left].
    + destruct (vc_in0 q w Hw) as (l' & Hl' & Hin). rewrite arr_at_insert by done. case_decide as E; [|eauto].
      exists (a :: l). split; [done|]. right. congruence.
  - intros i l' Hl'. rewrite arr_at_insert in Hl' by done. case_decide; [|eauto].
    injection Hl' as <-. apply NoDup_cons. eauto.
  - intros q1 q2 w1 w2 [[<- <-]|[Hn1 H1]]%lookup_insert_Some [[<- <-]|[Hn2 H2]]%lookup_insert_Some E1 E2; try done.
    + by destruct (Hno _ _ H2).
    + by destruct (Hno _ _ H1).
    + eauto.
  - intros mp c' Hc'. rewrite of_mount_insert by done. destruct (decide (mp = v_mount v)) as [->|Hne].
    + rewrite lookup_insert_eq in Hc'. injection Hc' as <-. rewrite (vc_mcount0 _ _ Hc), s32_add, decide_True by done.
      f_equal. lia.
    + rewrite lookup_insert_ne in Hc' by done. rewrite decide_False by done. rewrite (vc_mcount0 _ _ Hc').
      do 2 f_equal. lia.
  - intros q w [[<- <-]|[Hne Hw]]%lookup_insert_Some; [by rewrite lookup_insert_eq|].
    destruct (decide (v_mount w = v_mount v)) as [->|]; [by rewrite lookup_insert_eq|].
    rewrite lookup_insert_ne by done. eauto.
Qed.

Section Vget.
Context (sizeof_vnode : Z) (vfs_vget : Z -> Z -> Z).

Definition new_vnode (junk : vnode) (mp ino : Z) : vnode :=
  Vnode ino mp 1 (v_type junk) (v_flags junk) (v_mode junk) (v_size junk) [] (v_data junk).

Definition no_vnode (s : vcache) (mp ino : Z) : Prop := forall vp v, vnodes s !! vp = Some v -> ~ matches mp ino v.

(** A miss: what is left of the call. *)
Lemma vget_alloc s held a junk mp ino : vc_ok s held -> no_vnode s mp ino ->
  vfscore_vget sizeof_vnode vfs_vget a junk mp ino s =
  (if a =? 0 then mret (0, 0) else
   on_wins (vfs_ipc_add_heap a sizeof_vnode VFS_MASK);;
   _ ← deref (fun s => m_counts s !! mp);
   modify (fun s => set_vnodes (<[a := new_vnode junk mp ino]> (vnodes s)) s);;
   if negb (vfs_vget mp a =? 0) then
     modify (fun s => set_vnodes (delete a (vnodes s)) s);; mret (vfs_vget mp a, 0)
   else vfs_busy mp;; table_add a mp ino;; mret (0, a)) s.
Proof.
  intros Hok Hno. destruct (vn_lookup_spec s held mp ino Hok) as [(vp & v & Hv & Hm & _)|[_ Hk]]; [by destruct (Hno vp v Hv)|].
  unfold vfscore_vget. by rewrite (bind_ret _ _ _ _ _ Hk).
Qed.

(** A miss with memory and a window to be had, in a file system that accepts the vnode. *)
Lemma vget_miss s held a junk mp ino c : vc_ok s held -> no_vnode s mp ino ->
  a <> 0 -> vnodes s !! a = None -> slot_available (wins s) -> m_counts s !! mp = Some c -> vfs_vget mp a = 0 ->
  exists l t, vfs_ipc_add_heap a sizeof_vnode VFS_MASK (wins s) = Ok (tt, t) /\
    vfscore_vget sizeof_vnode vfs_vget a junk mp ino s = Ok ((0, a), added s a (new_vnode junk mp ino) c l t) /\
    vc_ok (added s a (new_vnode junk mp ino) c l t) (add_held held a 1).
Proof.
  intros Hok Hno H0 Ha Hw Hc Hf. pose proof (vc_wins _ _ Hok) as Hwi.
  destruct (vfs_add_ok a sizeof_vnode VFS_MASK (wins s) Hwi Hw) as (t & Ht & Hti).
  assert (exists l, arr_at (vtable s) (vn_hash mp ino) = Some l) as [l Hl].
  { pose proof (vn_hash_range mp ino). pose proof (vc_len _ _ Hok). unfold arr_at.
    rewrite (proj2 (Z.leb_le 0 _)) by lia. apply lookup_lt_is_Some. lia. }
  exists l, t. split; [done|]. split; [|by apply vc_ok_added].
  rewrite (vget_alloc s held) by done. rewrite (proj2 (Z.eqb_neq a 0)) by done.
  rewrite (bind_ret _ _ _ _ _ (vfs_wins_ok _ _ _ Ht)).
  rewrite (bind_ret _ _ _ c _) by (by apply deref_ok). erewrite (bind_ret _ _ _ tt) by (by apply modify_ok).
  rewrite Hf, Z.eqb_refl. unfold negb, vfs_busy, add_count.
  erewrite (bind_ret _ _ _ tt); [|rewrite (bind_ret _ _ _ c _) by (by apply deref_ok); by apply modify_ok].
  unfold table_add. erewrite (bind_ret _ _ _ tt); [|rewrite (bind_ret _ _ _ l _) by (by apply deref_ok); by apply modify_ok].
  done.
Qed.

(** No memory: the result says "not in the cache, no error", with no vnode. *)
Lemma vget_nomem s held junk mp ino : vc_ok s held -> no_vnode s mp ino ->
  vfscore_vget sizeof_vnode vfs_vget 0 junk mp ino s = Ok ((0, 0), s).
Proof. intros Hok Hno. by rewrite (vget_alloc s held). Qed.

(** No free slot in the table of windows: the call does not return. *)
Lemma vget_full s held a junk mp ino : vc_ok s held -> no_vnode s mp ino ->
  a <> 0 -> ~ slot_available (wins s) -> vfscore_vget sizeof_vnode vfs_vget a junk mp ino s = Spin.
Proof.
  intros Hok Hno H0 Hw. rewrite (vget_alloc s held) by done. rewrite (proj2 (Z.eqb_neq a 0)) by done.
  unfold mbind at 1, M_bind at 1. unfold on_wins, zoom. by rewrite (vfs_add_full a _ _ _ (vc_wins _ _ Hok) Hw).
Qed.

(** The file system refuses the vnode: it is gone again, but not its window. *)
Lemma vget_refused s held a junk mp ino c : vc_ok s held -> no_vnode s mp ino ->
  a <> 0 -> vnodes s !! a = None -> slot_available (wins s) -> m_counts s !! mp = Some c -> vfs_vget mp a <> 0 ->
  exists t, vfs_ipc_add_heap a sizeof_vnode VFS_MASK (wins s) = Ok (tt, t) /\
    vfscore_vget sizeof_vnode vfs_vget a junk mp ino s = Ok ((vfs_vget mp a, 0), set_wins t s) /\
    vc_ok (set_wins t s) held.
Proof.
  intros Hok Hno H0 Ha Hw Hc Hf. pose proof (vc_wins _ _ Hok) as Hwi.
  destruct (vfs_add_ok a sizeof_vnode VFS_MASK (wins s) Hwi Hw) as (t & Ht & Hti). exists t. split; [done|].
  split; [|by apply vc_ok_wins]. rewrite (vget_alloc s held) by done. rewrite (proj2 (Z.eqb_neq a 0)) by done.
  rewrite (bind_ret _ _ _ _ _ (vfs_wins_ok _ _ _ Ht)).
  rewrite (bind_ret _ _ _ c _) by (by apply deref_ok). erewrite (bind_ret _ _ _ tt) by (by apply modify_ok).
  rewrite (proj2 (Z.eqb_neq (vfs_vget mp a) 0)) by done. unfold negb. erewrite (bind_ret _ _ _ tt) by (by apply modify_ok).
  unfold set_vnodes, set_wins. simpl. by rewrite delete_insert_id.
Qed.

(** A hit takes one more reference. *)
Lemma vget_hit s held a junk vp v : vc_ok s held -> vnodes s !! vp = Some v -> v_refcnt v + 1 < 2 ^ 31 ->
  vfscore_vget sizeof_vnode vfs_vget a junk (v_mount v) (v_ino v) s =
    Ok ((1, vp), set_vnodes (<[vp := with_refcnt (v_refcnt v + 1) v]> (vnodes s)) s) /\
  vc_ok (set_vnodes (<[vp := with_refcnt (v_refcnt v + 1) v]> (vnodes s)) s) (add_held held vp 1).
Proof.
  intros Hok Hv Hb. destruct (vc_count _ _ Hok vp v Hv). split; [|eapply vc_ok_update; simpl; [done|done|done|done|lia|lia]].
  destruct (vn_lookup_spec s held (v_mount v) (v_ino v) Hok) as [(vp' & v' & Hv' & [Hm Hi] & Hn0 & Hk)|[Hno _]].
  - assert (vp' = vp) as -> by (by apply (vc_unique _ _ Hok vp' vp v' v)). rewrite Hv in Hv'. injection Hv' as <-.
    unfold vfscore_vget. rewrite (bind_ret _ _ _ _ _ Hk). rewrite (proj2 (Z.eqb_neq vp 0)) by done.
    by rewrite s32_small by lia.
  - by destruct (Hno vp v Hv).
Qed.

End Vget.

(** ** Attributes *)

(** C38. What [vn_stat] reports is typed as the vnode is: it fails with EBADF
    exactly when the vnode has no type that [stat] knows (and with the error of
    the file system before that); otherwise the type that [IFTOVT] finds in the
    reported mode is the type of the vnode, the bits added are those of
    [VTTOIF], and the twelve permission bits are those of the file system.  This
    needs that the mode of the file system has either no type bits or those of
    the vnode's type. *)
Theorem vn_stat_typed BSIZE error t ino size mode :
  (forall b, VTTOIF t = Some b -> Z.land mode S_IFMT = 0 \/ Z.land mode S_IFMT = b) ->
  match vn_stat BSIZE error t ino size mode with
  | (e, None) => (error <> 0 /\ e = error) \/ (error = 0 /\ e = EBADF /\ (t = VNON \/ t = VBAD))
  | (e, Some st) => error = 0 /\ e = 0 /\ IFTOVT (st_mode st) = Some t /\
      (exists b, VTTOIF t = Some b /\ st_mode st = Z.lor mode b) /\
      Z.land (st_mode st) 4095 = Z.land mode 4095
  end.
Proof.
  intros Hb. unfold vn_stat. destruct (Z.eqb_spec error 0) as [->|]; simpl; [|by left].
  destruct (stat_bits t) as [b|] eqn:E; [|right; by destruct t; auto].
  destruct (stat_bits_type t b E) as (Hv & Hm & Hi & Hl). simpl. split; [done|]. split; [done|].
  split; [|split; [eauto|by rewrite Z.land_lor_distr_l, Hl, Z.lor_0_r]].
  rewrite <- Hi. unfold IFTOVT. do 2 f_equal. rewrite Z.land_lor_distr_l, Hm.
  destruct (Hb b Hv) as [->| ->]; [done|apply Z.lor_diag].
Qed.

Lemma vn_stat_typed_witness :
  (forall b, VTTOIF VREG = Some b -> Z.land 420 S_IFMT = 0 \/ Z.land 420 S_IFMT = b) /\
  IFTOVT (Z.lor 420 S_IFREG) = Some VREG.
Proof.
  split; [by left|]. apply (vn_stat_typed 512 0 VREG 7 100 420). by left.
Defined.

(** [vn_access] grants what is asked exactly if some bit of the mode allows each
    kind of access, and for writing the mount is not read-only. *)
Lemma vn_access_spec mode m_flags flags :
  vn_access mode m_flags flags = 0 <->
  (flag flags VEXEC = true -> flag mode 73 = true) /\ (flag flags VREAD = true -> flag mode 292 = true) /\
  (flag flags VWRITE = true -> flag m_flags MNT_RDONLY = false /\ flag mode 146 = true).
Proof.
  unfold vn_access, EACCES, EROFS.
  destruct (flag flags VEXEC), (flag mode 73), (flag flags VREAD), (flag mode 292), (flag flags VWRITE),
    (flag m_flags MNT_RDONLY), (flag mode 146); simpl; split; naive_solver.
Qed.
