(* ===== verification/Dentry.v ===== *)
(** The cache of dentries (vfscore/dentry.c) on top of the cache of vnodes.

    A dentry names a vnode by a path; it holds a reference to its vnode and to its
    parent, and is found through a hash table.  [malloc] and [strdup] appear as
    arguments: the address (0 is NULL) and whether the copy could be made.  The
    lists are lists of addresses.  Unlinking an element that is on no list writes
    through stale links in the code; the model stops with [Undef] there.  [drele]
    calls itself on the parent; as many calls as there are dentries are enough
    unless the parents form a cycle. *)
From S2P Require Import Prelude VfsTypes Windows Vnode.
From stdpp Require Import base numbers gmap fin_maps sets list relations.
#[local] Open Scope Z_scope.

(** ** State *)

Record dentry := Dentry {
  d_refcnt : Z;
  d_path : option (list Z);
  d_vnode : Z;
  d_mount : Z;
  d_parent : Z;
  d_children : list Z
}.

Definition DENTRY_BUCKETS : Z := 32.

Record dcache := DCache {
  vc : vcache;
  dentries : gmap Z dentry;
  dtable : list (list Z);
  fake : list Z
}.

Definition set_vc x s := DCache x (dentries s) (dtable s) (fake s).
Definition set_dentries x s := DCache (vc s) x (dtable s) (fake s).
Definition set_tables t f s := DCache (vc s) (dentries s) t f.

Definition with_count x d := Dentry x (d_path d) (d_vnode d) (d_mount d) (d_parent d) (d_children d).
Definition with_parent x d := Dentry (d_refcnt d) (d_path d) (d_vnode d) (d_mount d) x (d_children d).
Definition with_children x d := Dentry (d_refcnt d) (d_path d) (d_vnode d) (d_mount d) (d_parent d) x.
Definition with_path x d := Dentry (d_refcnt d) x (d_vnode d) (d_mount d) (d_parent d) (d_children d).

Definition on_vc {A} (m : M vcache A) : M dcache A := zoom vc set_vc m.
Definition dentry_at (dp : Z) : M dcache dentry := deref (fun s => dentries s !! dp).
Definition upd_dentry (dp : Z) (f : dentry -> dentry) : M dcache unit :=
  d ← dentry_at dp; modify (fun s => set_dentries (<[dp := f d]> (dentries s)) s).

(** ** Lists *)

(** The characters of a path are [char]s, which are signed. *)
Definition dentry_hash (mp : Z) (path : option (list Z)) : Z :=
  let val := match path with
             | None => 0
             | Some p => fold_left (fun val c => u32 (u32 (u32 (Z.shiftl val 5) + val) + c)) p 0
             end in
  Z.land (Z.lxor val mp) (DENTRY_BUCKETS - 1).

Definition hlist_add (dp mp : Z) (path : list Z) : M dcache unit :=
  l ← deref (fun s => arr_at (dtable s) (dentry_hash mp (Some path)));
  modify (fun s => set_tables (<[Z.to_nat (dentry_hash mp (Some path)) := dp :: l]> (dtable s)) (fake s) s).

(** All the lists that a dentry may be on. *)
Definition hlists (s : dcache) : list Z := concat (dtable s) ++ fake s.

Definition hlist_del (dp : Z) : M dcache unit :=
  l ← gets hlists;
  if decide (dp ∈ l) then
    modify (fun s => set_tables (map (filter (fun x => x <> dp)) (dtable s)) (filter (fun x => x <> dp) (fake s)) s)
  else undef.

Definition child_add (p dp : Z) : M dcache unit := upd_dentry p (fun d => with_children (dp :: d_children d) d).
Definition child_del (p dp : Z) : M dcache unit :=
  d ← dentry_at p;
  if decide (dp ∈ d_children d) then upd_dentry p (with_children (filter (fun x => x <> dp) (d_children d))) else undef.

(** ** Operations *)

Definition dref (dp : Z) : M dcache unit :=
  uk_assert (negb (dp =? 0));;
  d ← dentry_at dp;
  uk_assert (0 <? d_refcnt d);;
  upd_dentry dp (with_count (s32 (d_refcnt d + 1))).

Fixpoint drele_rec (fuel : nat) (dp : Z) : M dcache unit :=
  match fuel with
  | O => undef
  | S fuel =>
      uk_assert (negb (dp =? 0));;
      d ← dentry_at dp;
      uk_assert (0 <? d_refcnt d);;
      upd_dentry dp (with_count (s32 (d_refcnt d - 1)));;
      if negb (s32 (d_refcnt d - 1) =? 0) then mret tt else
      hlist_del dp;;
      on_vc (on_wins (vfs_ipc_remove_heap (d_vnode d)));;
      on_vc (vn_del_name (d_vnode d) dp);;
      (if negb (d_parent d =? 0) then child_del (d_parent d) dp;; drele_rec fuel (d_parent d) else mret tt);;
      d' ← dentry_at dp;
      on_vc (vrele (d_vnode d'));;
      on_vc (on_wins (vfs_ipc_remove_heap dp));;
      modify (fun s => set_dentries (delete dp (dentries s)) s)
  end.

Definition drele (dp : Z) : M dcache unit :=
  n ← gets (fun s => size (dentries s)); drele_rec n dp.

(** [a] is what [calloc] returns, [dup] whether [strdup] could copy the path. *)
Definition dentry_alloc (sizeof_dentry a : Z) (dup : bool) (parent_dp vp : Z) (path : list Z) : M dcache Z :=
  v ← on_vc (vnode_at vp);
  if a =? 0 then mret 0 else
  on_vc (on_wins (vfs_ipc_add_heap a sizeof_dentry VFS_MASK));;
  on_vc (vref vp);;
  modify (fun s => set_dentries (<[a := Dentry 1 (if dup then Some path else None) vp (v_mount v) 0 []]> (dentries s)) s);;
  (if negb (parent_dp =? 0) then dref parent_dp;; child_add parent_dp a else mret tt);;
  upd_dentry a (with_parent parent_dp);;
  on_vc (vn_add_name vp a);;
  hlist_add a (v_mount v) path;;
  mret a.

(** [strncmp (p, q, PATH_MAX)] is 0, for strings without their terminator. *)
Definition same_path (p q : list Z) : bool := bool_decide (take PATH_MAX p = take PATH_MAX q).

Fixpoint find_dentry (mp : Z) (path : list Z) (l : list Z) : M dcache Z :=
  match l with
  | [] => mret 0
  | dp :: r => d ← dentry_at dp;
      if d_mount d =? mp then
        p ← deref (fun _ => d_path d);
        if same_path p path then mret dp else find_dentry mp path r
      else find_dentry mp path r
  end.

Definition dentry_lookup (mp : Z) (path : list Z) : M dcache Z :=
  l ← deref (fun s => arr_at (dtable s) (dentry_hash mp (Some path)));
  dp ← find_dentry mp path l;
  if dp =? 0 then mret 0 else
  upd_dentry dp (fun d => with_count (s32 (d_refcnt d + 1)) d);;
  mret dp.

Fixpoint unhash_all (l : list Z) : M dcache unit :=
  match l with
  | [] => mret tt
  | c :: r => uk_assert (negb (c =? 0));;
      d ← dentry_at c; uk_assert (0 <? d_refcnt d);; hlist_del c;; unhash_all r
  end.

Definition dentry_children_remove (dp : Z) : M dcache unit := d ← dentry_at dp; unhash_all (d_children d).

Definition dentry_move (dup : bool) (dp parent_dp : Z) (path : list Z) : M dcache unit :=
  d ← dentry_at dp;
  (if negb (d_parent d =? 0) then child_del (d_parent d) dp else mret tt);;
  (if negb (parent_dp =? 0) then dref parent_dp;; child_add parent_dp dp else mret tt);;
  dentry_children_remove dp;;
  hlist_del dp;;
  upd_dentry dp (fun d => with_parent parent_dp (with_path (if dup then Some path else None) d));;
  hlist_add dp (d_mount d) path;;
  (if negb (d_parent d =? 0) then drele (d_parent d) else mret tt).

Definition dentry_remove (dp : Z) : M dcache unit :=
  hlist_del dp;; modify (fun s => set_tables (dtable s) (dp :: fake s) s).

Definition dentry_init (s : dcache) : dcache := set_tables (replicate (Z.to_nat DENTRY_BUCKETS) []) (fake s) s.

(** ** Invariant

    The live dentries are a map [m]: all of them, except while [drele] is busy
    with some that have lost their last reference. *)

(** The tree of parents.  A count is the number of references that clients hold
    and of children. *)
Record tree_ok (m : gmap Z dentry) (hd : Z -> Z) : Prop := {
  t_null : m !! 0 = None;
  t_count : forall dp d, m !! dp = Some d ->
    d_refcnt d = hd dp + Z.of_nat (length (d_children d)) /\ 0 < d_refcnt d < 2 ^ 31;
  t_held : forall dp, 0 <= hd dp /\ (0 < hd dp -> is_Some (m !! dp));
  t_child : forall dp d, m !! dp = Some d -> NoDup (d_children d) /\
    forall c, c ∈ d_children d <-> (d_parent <$> m) !! c = Some dp;
  t_chain : forall dp, is_Some (m !! dp) -> exists l, linked (d_parent <$> m) dp l
}.

(** The names of a vnode are the dentries that refer to it. *)
Definition link_of (d : dentry) : Z * Z := (d_vnode d, d_mount d).
Record names_ok (vn : gmap Z vnode) (m : gmap Z dentry) : Prop := {
  n_names : forall vp v, vn !! vp = Some v -> NoDup (v_names v) /\
    forall dp, dp ∈ v_names v <-> (d_vnode <$> m) !! dp = Some vp;
  n_vnode : forall dp vp mp, (link_of <$> m) !! dp = Some (vp, mp) ->
    exists v, vn !! vp = Some v /\ mp = v_mount v
}.

(** A dentry is on one list: in the bucket of its path, or on the fake list. *)
Definition key_of (d : dentry) : Z * option (list Z) := (d_mount d, d_path d).
Record table_ok (t : list (list Z)) (f : list Z) (m : gmap Z dentry) : Prop := {
  h_len : Z.of_nat (length t) = DENTRY_BUCKETS;
  h_nodup : NoDup (concat t ++ f);
  h_in : forall dp, dp ∈ concat t ++ f <-> is_Some ((key_of <$> m) !! dp);
  h_bucket : forall i l dp, arr_at t i = Some l -> dp ∈ l ->
    exists mp path, (key_of <$> m) !! dp = Some (mp, path) /\ i = dentry_hash mp path;
  h_path : forall dp mp path, (key_of <$> m) !! dp = Some (mp, path) -> is_Some path
}.

(** The references to a vnode: those of clients and those of its names. *)
Definition vheld (hv : Z -> Z) (vn : gmap Z vnode) (vp : Z) : Z :=
  hv vp + match vn !! vp with Some v => Z.of_nat (length (v_names v)) | None => 0 end.

Record dc_inv (s : dcache) (m : gmap Z dentry) (hd hv : Z -> Z) : Prop := {
  dc_vc : vc_ok (vc s) (vheld hv (vnodes (vc s)));
  dc_hv : forall vp, 0 <= hv vp;
  dc_sub : m ⊆ dentries s;
  dc_tree : tree_ok m hd;
  dc_names : names_ok (vnodes (vc s)) m;
  dc_table : table_ok (dtable s) (fake s) m
}.

Definition dc_ok (s : dcache) (hd hv : Z -> Z) : Prop := dc_inv s (dentries s) hd hv.

(** ** The tree *)

Lemma fmap_same {A B} (f : A -> B) (m : gmap Z A) k x y : m !! k = Some x -> f y = f x -> f <$> <[k := y]> m = f <$> m.
Proof. intros Hk E. rewrite fmap_insert, E, <- fmap_insert. by rewrite insert_id. Qed.

(** A chain of parents passes only through dentries with children. *)
Lemma chain_pred nx a l x : linked nx a l -> x ∈ l -> x = a \/ exists y, y ∈ l /\ nx !! y = Some x.
Proof.
  induction 1 as [|a n l Ha Hn Hl IH]; [by intros ?%elem_of_nil|].
  intros [->|Hx]%elem_of_cons; [by left|]. destruct (IH Hx) as [->|(y & Hy & Hnx)].
  - right. exists a. split; [left|done].
  - right. exists y. split; [by right|done].
Qed.

(** One more or less reference held, or another change that the tree does not see. *)
Lemma tree_update m hd dp d d' k : tree_ok m hd -> m !! dp = Some d ->
  d_parent d' = d_parent d -> d_children d' = d_children d -> d_refcnt d' = d_refcnt d + k ->
  0 <= hd dp + k -> 0 < d_refcnt d' < 2 ^ 31 -> tree_ok (<[dp := d']> m) (add_held hd dp k).
Proof.
  intros [] Hd Hp Hc Hr Hk Hb. destruct (t_count0 dp d Hd) as [Hrd _]. pose proof (fmap_same d_parent m dp d d' Hd Hp) as Hf.
  split.
  - rewrite lookup_insert_ne; [done|]. intros ->. congruence.
  - intros q e [[<- <-]|[Hne He]]%lookup_insert_Some; [rewrite add_held_eq, Hc; lia|]. rewrite add_held_ne by done. eauto.
  - intros q. destruct (decide (q = dp)) as [->|]; [rewrite add_held_eq, lookup_insert_eq; split; [lia|done]|].
    rewrite add_held_ne, lookup_insert_ne by done. apply t_held0.
  - intros q e [[<- <-]|[Hne He]]%lookup_insert_Some; rewrite Hf; [rewrite Hc|]; eauto.
  - intros q Hq. rewrite Hf. apply t_chain0. destruct (decide (q = dp)) as [->|]; [by eexists|].
    by rewrite lookup_insert_ne in Hq.
Qed.

Lemma tree_parent m hd dp d : tree_ok m hd -> m !! dp = Some d -> d_parent d <> 0 ->
  exists p, m !! d_parent d = Some p /\ dp ∈ d_children p /\ d_parent d <> dp.
Proof.
  intros [] Hd Hp. destruct (t_chain0 dp) as [l Hl]; [eauto|]. inversion Hl as [|a n l' Ha Hn Hl']; subst; [congruence|].
  rewrite lookup_fmap, Hd in Hn. simpl in Hn. injection Hn as <-. inversion Hl' as [|a n l'' Ha' Hn' Hl'']; subst; [done|].
  rewrite lookup_fmap in Hn'. apply fmap_Some in Hn' as (p & Hm & ->). exists p. split; [done|].
  destruct (t_child0 _ p Hm) as [_ Hc]. split; [apply Hc; by rewrite lookup_fmap, Hd|].
  intros E. apply linked_nodup in Hl. rewrite E in Hl. apply NoDup_cons in Hl as [Hl _]. apply Hl. left.
Qed.

Definition drop_child (c : Z) (d : dentry) : dentry := with_children (filter (fun x => x <> c) (d_children d)) d.
Definition push_child (c : Z) (d : dentry) : dentry := with_children (c :: d_children d) d.

Lemma length_filter_ne (c : Z) l : NoDup l -> c ∈ l -> length l = S (length (filter (fun x => x <> c) l)).
Proof.
  induction l as [|x l IH]; intros Hnd Hin; [by apply elem_of_nil in Hin|]. apply NoDup_cons in Hnd as [Hx Hnd].
  rewrite filter_cons. apply elem_of_cons in Hin as [->|Hin].
  - rewrite decide_False by naive_solver. simpl. f_equal. clear IH.
    induction l as [|y l IH]; [done|]. rewrite filter_cons, decide_True by set_solver. simpl.
    apply NoDup_cons in Hnd as [_ Hnd]. f_equal. apply IH; [set_solver|done].
  - rewrite decide_True by set_solver. simpl. f_equal. auto.
Qed.

Lemma tree_ext m hd hd' : (forall x, hd x = hd' x) -> tree_ok m hd -> tree_ok m hd'.
Proof.
  intros E []. split; try done.
  - intros dp d Hd. rewrite <- E. eauto.
  - intros dp. rewrite <- E. apply t_held0.
Qed.

(** A dentry leaves its parent: the reference it held becomes one of a client. *)
Lemma tree_unlink m hd dp d p : tree_ok m hd -> m !! dp = Some d -> d_parent d <> 0 -> m !! d_parent d = Some p ->
  tree_ok (<[dp := with_parent 0 d]> (<[d_parent d := drop_child dp p]> m)) (add_held hd (d_parent d) 1).
Proof.
  intros Hok Hd H0 Hp. destruct (tree_parent m hd dp d Hok Hd H0) as (p' & Hp' & Hin & Hne).
  rewrite Hp in Hp'. injection Hp' as <-. destruct Hok.
  assert (d_parent <$> (<[dp := with_parent 0 d]> (<[d_parent d := drop_child dp p]> m)) = <[dp := 0]> (d_parent <$> m)) as Hf
    by (rewrite fmap_insert; by rewrite (fmap_same d_parent m _ p)).
  assert (forall q, is_Some ((<[dp := with_parent 0 d]> (<[d_parent d := drop_child dp p]> m)) !! q) <-> is_Some (m !! q)) as Hdom.
  { intros q. rewrite !lookup_insert_is_Some. split; [|intros; destruct (decide (dp = q)), (decide (d_parent d = q)); auto].
    intros [<-|[_ [<-|[_ ?]]]]; eauto. }
  assert (dp <> 0) by congruence. split.
  - rewrite !lookup_insert_ne; congruence.
  - intros q e [[<- <-]|[Hn [[<- <-]|[Hn' He]]%lookup_insert_Some]]%lookup_insert_Some; simpl.
    + rewrite add_held_ne by done. eauto.
    + rewrite add_held_eq. destruct (t_count0 _ _ Hp). destruct (t_child0 _ _ Hp) as [Hnd _].
      pose proof (length_filter_ne dp (d_children p) Hnd Hin). lia.
    + rewrite add_held_ne by done. eauto.
  - intros q. rewrite Hdom. destruct (t_held0 q), (decide (q = d_parent d)) as [->|]; [|by rewrite add_held_ne].
    rewrite add_held_eq. split; [lia|eauto].
  - intros q e He. rewrite Hf. destruct (decide (q = d_parent d)) as [->|Hq].
    + rewrite lookup_insert_ne, lookup_insert_eq in He by done. injection He as <-. simpl.
      destruct (t_child0 _ _ Hp) as [Hnd Hc]. split; [by apply NoDup_filter|]. intros c.
      rewrite list_elem_of_filter, Hc. destruct (decide (c = dp)) as [->|].
      * rewrite lookup_insert_eq. split; [naive_solver|intros [= ?]; congruence].
      * rewrite lookup_insert_ne by done. naive_solver.
    + assert (exists e0, m !! q = Some e0 /\ d_children e = d_children e0) as (e0 & He0 & ->).
      { destruct (decide (q = dp)) as [->|]; [rewrite lookup_insert_eq in He; injection He as <-; eauto|].
        rewrite !lookup_insert_ne in He by done. eauto. }
      destruct (t_child0 q e0 He0) as [Hnd Hc]. split; [done|]. intros c. rewrite Hc.
      destruct (decide (c = dp)) as [->|]; [|by rewrite lookup_insert_ne].
      rewrite lookup_fmap, Hd, lookup_insert_eq. simpl. split; intros [= E]; congruence.
  - intros q Hq. rewrite Hf. apply Hdom in Hq. destruct (t_chain0 q Hq) as [l Hl]. clear -Hl H. 
    induction Hl as [|a n l Ha Hn Hl IH]; [exists []; constructor|]. destruct (decide (a = dp)) as [->|].
    + exists [dp]. apply (linked_cons _ _ 0); [done|apply lookup_insert_eq|constructor].
    + destruct IH as [l' Hl']. exists (a :: l'). apply (linked_cons _ _ n); [done|by rewrite lookup_insert_ne|done].
Qed.

(** A dentry without parent and children gets a parent, which the client loses a
    reference to. *)
Lemma tree_link m hd dp d q p : tree_ok m hd -> m !! dp = Some d -> d_parent d = 0 -> d_children d = [] ->
  q <> 0 -> q <> dp -> m !! q = Some p -> 0 < hd q ->
  tree_ok (<[dp := with_parent q d]> (<[q := push_child dp p]> m)) (add_held hd q (-1)).
Proof.
  intros Hok Hd H0 Hc0 Hq0 Hq Hp Hh. destruct Hok.
  assert (d_parent <$> (<[dp := with_parent q d]> (<[q := push_child dp p]> m)) = <[dp := q]> (d_parent <$> m)) as Hf
    by (rewrite fmap_insert; by rewrite (fmap_same d_parent m _ p)).
  assert (forall x, is_Some ((<[dp := with_parent q d]> (<[q := push_child dp p]> m)) !! x) <-> is_Some (m !! x)) as Hdom.
  { intros x. rewrite !lookup_insert_is_Some. split; [|intros; destruct (decide (dp = x)), (decide (q = x)); auto].
    intros [<-|[_ [<-|[_ ?]]]]; eauto. }
  assert (dp <> 0) by congruence.
  assert (Hno : forall x l, linked (d_parent <$> m) x l -> x <> dp -> linked (<[dp := q]> (d_parent <$> m)) x l).
  { intros x l Hl Hx. eapply linked_frame; [done|]. intros y Hy. apply lookup_insert_ne. intros <-.
    destruct (chain_pred _ _ _ _ Hl Hy) as [->|(z & _ & Hz)]; [done|]. apply (t_child0 dp d Hd) in Hz.
    rewrite Hc0 in Hz. by apply elem_of_nil in Hz. }
  split.
  - rewrite !lookup_insert_ne; congruence.
  - intros x e [[<- <-]|[Hn [[<- <-]|[Hn' He]]%lookup_insert_Some]]%lookup_insert_Some; simpl.
    + rewrite add_held_ne by done. eauto.
    + rewrite add_held_eq. destruct (t_count0 _ _ Hp). lia.
    + rewrite add_held_ne by done. eauto.
  - intros x. rewrite Hdom. destruct (t_held0 x), (decide (x = q)) as [->|]; [|by rewrite add_held_ne].
    rewrite add_held_eq. split; [lia|eauto].
  - intros x e He. rewrite Hf. destruct (decide (x = q)) as [->|Hx].
    + rewrite lookup_insert_ne, lookup_insert_eq in He by done. injection He as <-. simpl.
      destruct (t_child0 _ _ Hp) as [Hnd Hc]. split.
      * apply NoDup_cons. split; [|done]. rewrite Hc, lookup_fmap, Hd. simpl. congruence.
      * intros c. rewrite elem_of_cons, Hc. destruct (decide (c = dp)) as [->|]; [rewrite lookup_insert_eq; naive_solver|].
        rewrite lookup_insert_ne by done. naive_solver.
    + assert (exists e0, m !! x = Some e0 /\ d_children e = d_children e0) as (e0 & He0 & ->).
      { destruct (decide (x = dp)) as [->|]; [rewrite lookup_insert_eq in He; injection He as <-; eauto|].
        rewrite !lookup_insert_ne in He by done. eauto. }
      destruct (t_child0 x e0 He0) as [Hnd Hc]. split; [done|]. intros c. rewrite Hc.
      destruct (decide (c = dp)) as [->|]; [|by rewrite lookup_insert_ne].
      rewrite lookup_fmap, Hd, lookup_insert_eq. simpl. split; intros [= E]; congruence.
  - intros x Hx. rewrite Hf. apply Hdom in Hx. destruct (t_chain0 x Hx) as [l Hl]. destruct (decide (x = dp)) as [->|].
    + destruct (t_chain0 q) as [lq Hlq]; [eauto|]. exists (dp :: lq).
      apply (linked_cons _ _ q); [done|apply lookup_insert_eq|by apply Hno].
    + exists l. by apply Hno.
Qed.

Lemma tree_add m hd a d : tree_ok m hd -> m !! a = None -> a <> 0 ->
  d_refcnt d = 1 -> d_parent d = 0 -> d_children d = [] -> tree_ok (<[a := d]> m) (add_held hd a 1).
Proof.
  intros [] Ha H0 Hr Hp Hc. assert (Hha : hd a = 0).
  { destruct (t_held0 a) as [? Hs]. destruct (decide (0 < hd a)) as [Hlt|]; [|lia]. destruct (Hs Hlt). congruence. }
  split.
  - by rewrite lookup_insert_ne.
  - intros q e [[<- <-]|[Hn He]]%lookup_insert_Some; [rewrite add_held_eq, Hc; simpl; lia|].
    rewrite add_held_ne by done. eauto.
  - intros q. destruct (decide (q = a)) as [->|]; [rewrite add_held_eq, lookup_insert_eq; split; [lia|done]|].
    rewrite add_held_ne, lookup_insert_ne by done. apply t_held0.
  - intros q e He. rewrite fmap_insert, Hp. apply lookup_insert_Some in He as [[<- <-]|[Hn He]].
    + rewrite Hc. split; [constructor|]. intros c. split; [by intros ?%elem_of_nil|].
      intros [[_ ?]|[_ Hpc]]%lookup_insert_Some; [congruence|]. rewrite lookup_fmap in Hpc.
      apply fmap_Some in Hpc as (dc & Hdc & ->). destruct (tree_parent m hd c dc) as (p & Hp' & _); [by split|done|done|congruence].
    + destruct (t_child0 q e He) as [Hnd Hch]. split; [done|]. intros c. rewrite Hch. destruct (decide (c = a)) as [->|].
      * rewrite lookup_insert_eq, lookup_fmap, Ha. simpl. split; [done|]. intros [= <-]. congruence.
      * by rewrite lookup_insert_ne.
  - intros q Hq. rewrite fmap_insert, Hp. destruct (decide (q = a)) as [->|].
    + exists [a]. apply (linked_cons _ _ 0); [done|apply lookup_insert_eq|constructor].
    + rewrite lookup_insert_ne in Hq by done. destruct (t_chain0 q Hq) as [l Hl]. exists l. eapply linked_frame; [done|].
      intros x [Hx _]%(linked_dom _ _ _ _ Hl). apply lookup_insert_ne. intros <-.
      rewrite lookup_fmap, Ha in Hx. by destruct Hx.
Qed.

Lemma tree_del m hd dp d : tree_ok m hd -> m !! dp = Some d -> d_parent d = 0 -> d_refcnt d = 1 -> hd dp = 1 ->
  tree_ok (delete dp m) (add_held hd dp (-1)).
Proof.
  intros [] Hd Hp Hr Hh. destruct (t_child0 dp d Hd) as [_ Hc]. destruct (t_count0 dp d Hd) as [Hcount _].
  assert (d_children d = []) as Hnil by (apply nil_length_inv; lia). rewrite Hnil in Hc.
  split.
  - rewrite lookup_delete_None. by right.
  - intros q e [Hn He]%lookup_delete_Some. rewrite add_held_ne by done. eauto.
  - intros q. destruct (decide (q = dp)) as [->|]; [rewrite add_held_eq; split; [lia|intros; exfalso; lia]|].
    rewrite add_held_ne, lookup_delete_ne by done. apply t_held0.
  - intros q e [Hn He]%lookup_delete_Some. destruct (t_child0 q e He) as [Hnd Hch]. split; [done|]. intros c.
    rewrite Hch, fmap_delete. destruct (decide (c = dp)) as [->|]; [|by rewrite lookup_delete_ne].
    rewrite lookup_delete_eq, lookup_fmap, Hd. simpl. split; [|done]. intros [= E].
    rewrite <- E, Hp in He. congruence.
  - intros q [e He]. apply lookup_delete_Some in He as [Hn He]. destruct (t_chain0 q) as [l Hl]; [eauto|]. exists l.
    rewrite fmap_delete. eapply linked_frame; [done|]. intros x Hx. apply lookup_delete_ne. intros <-.
    destruct (chain_pred _ _ _ _ Hl Hx) as [->|(z & _ & Hz)]; [done|]. apply Hc in Hz. by apply elem_of_nil in Hz.
Qed.

(** ** Names *)

Lemma vnode_of_link m : d_vnode <$> m = fst <$> (link_of <$> m :> gmap Z (Z * Z)).
Proof. rewrite <- map_fmap_compose. done. Qed.

Lemma names_ext vn m m' : names_ok vn m -> link_of <$> m' = link_of <$> m -> names_ok vn m'.
Proof. intros [] E. split; [rewrite vnode_of_link, E, <- vnode_of_link|rewrite E]; done. Qed.

(** A change of a vnode that leaves its names. *)
Lemma names_vnode vn m vp v v' : names_ok vn m -> vn !! vp = Some v -> v_names v' = v_names v -> v_mount v' = v_mount v ->
  names_ok (<[vp := v']> vn) m.
Proof.
  intros [] Hv Hn Hm. split.
  - intros q w [[<- <-]|[Hne Hw]]%lookup_insert_Some; [rewrite Hn|]; eauto.
  - intros dp q mp Hq. destruct (n_vnode0 dp q mp Hq) as (w & Hw & ->). destruct (decide (q = vp)) as [->|].
    + exists v'. rewrite lookup_insert_eq. split; [done|]. congruence.
    + exists w. by rewrite lookup_insert_ne.
Qed.

Lemma names_add vn m vp v a d : names_ok vn m -> vn !! vp = Some v -> m !! a = None -> link_of d = (vp, v_mount v) ->
  names_ok (<[vp := with_names (a :: v_names v) v]> vn) (<[a := d]> m).
Proof.
  intros [] Hv Ha Hd. injection Hd as Hd1 Hd2. split.
  - intros q w Hw. rewrite fmap_insert, Hd1. apply lookup_insert_Some in Hw as [[<- <-]|[Hne Hw]]; simpl.
    + destruct (n_names0 vp v Hv) as [Hnd Hc]. split.
      * apply NoDup_cons. split; [|done]. rewrite Hc, lookup_fmap, Ha. done.
      * intros dp. rewrite elem_of_cons, Hc. destruct (decide (dp = a)) as [->|]; [rewrite lookup_insert_eq; naive_solver|].
        rewrite lookup_insert_ne by done. naive_solver.
    + destruct (n_names0 q w Hw) as [Hnd Hc]. split; [done|]. intros dp. rewrite Hc.
      destruct (decide (dp = a)) as [->|]; [|by rewrite lookup_insert_ne].
      rewrite lookup_insert_eq, lookup_fmap, Ha. simpl. split; [done|]. intros [= E]. done.
  - intros dp q mp. rewrite fmap_insert. intros [[<- E]|[Hne Hq]]%lookup_insert_Some.
    + injection E as <- <-. rewrite Hd1. eexists. rewrite lookup_insert_eq. done.
    + destruct (n_vnode0 dp q mp Hq) as (w & Hw & ->). destruct (decide (q = vp)) as [->|].
      * eexists. rewrite lookup_insert_eq. split; [done|]. simpl. congruence.
      * exists w. by rewrite lookup_insert_ne.
Qed.

Definition drop_name (dp : Z) (v : vnode) : vnode := with_names (filter (fun x => x <> dp) (v_names v)) v.

Lemma names_del vn m dp d v : names_ok vn m -> m !! dp = Some d -> vn !! d_vnode d = Some v ->
  names_ok (<[d_vnode d := drop_name dp v]> vn) (delete dp m).
Proof.
  intros [] Hd Hv. split.
  - intros q w Hw. rewrite fmap_delete. apply lookup_insert_Some in Hw as [[<- <-]|[Hne Hw]]; simpl.
    + destruct (n_names0 _ v Hv) as [Hnd Hc]. split; [by apply NoDup_filter|]. intros x.
      rewrite list_elem_of_filter, Hc. destruct (decide (x = dp)) as [->|]; [rewrite lookup_delete_eq; naive_solver|].
      rewrite lookup_delete_ne by done. naive_solver.
    + destruct (n_names0 q w Hw) as [Hnd Hc]. split; [done|]. intros x. rewrite Hc.
      destruct (decide (x = dp)) as [->|]; [|by rewrite lookup_delete_ne].
      rewrite lookup_delete_eq, lookup_fmap, Hd. simpl. split; [|done]. intros [= E]. done.
  - intros x q mp. rewrite fmap_delete. intros [Hne Hq]%lookup_delete_Some.
    destruct (n_vnode0 x q mp Hq) as (w & Hw & ->). destruct (decide (q = d_vnode d)) as [->|].
    + eexists. rewrite lookup_insert_eq. split; [done|]. simpl. congruence.
    + exists w. by rewrite lookup_insert_ne.
Qed.

Lemma names_new vn m vp v : names_ok vn m -> vn !! vp = None -> v_names v = [] -> names_ok (<[vp := v]> vn) m.
Proof.
  intros [] Hv Hn. split.
  - intros q w [[<- <-]|[Hne Hw]]%lookup_insert_Some; [|eauto]. rewrite Hn. split; [constructor|]. intros dp.
    split; [by intros ?%elem_of_nil|]. rewrite lookup_fmap. intros (d & Hd & ->)%fmap_Some.
    destruct (n_vnode0 dp (d_vnode d) (d_mount d)) as (w & Hw & _); [by rewrite lookup_fmap, Hd|congruence].
  - intros dp q mp Hq. destruct (n_vnode0 dp q mp Hq) as (w & Hw & ->). exists w. by rewrite lookup_insert_ne by congruence.
Qed.

Lemma names_free vn m vp v : names_ok vn m -> vn !! vp = Some v -> v_names v = [] -> names_ok (delete vp vn) m.
Proof.
  intros [] Hv Hn. split.
  - intros q w [Hne Hw]%lookup_delete_Some. eauto.
  - intros dp q mp Hq. destruct (n_vnode0 dp q mp Hq) as (w & Hw & ->). exists w. rewrite lookup_delete_ne; [done|].
    intros <-. destruct (n_names0 vp v Hv) as [_ Hc]. specialize (Hc dp). rewrite Hn in Hc.
    rewrite vnode_of_link, lookup_fmap, Hq in Hc. simpl in Hc. eapply elem_of_nil, Hc. done.
Qed.

(** ** The hash table *)

Lemma dentry_hash_range mp path : 0 <= dentry_hash mp path < DENTRY_BUCKETS.
Proof. unfold dentry_hash, DENTRY_BUCKETS. change (32 - 1) with (Z.ones 5). rewrite Z.land_ones by lia. divlia. Qed.

Lemma concat_filter {A} (P : A -> Prop) `{forall x, Decision (P x)} (t : list (list A)) :
  concat (map (filter P) t) = filter P (concat t).
Proof. induction t as [|l t IH]; [done|]. simpl. by rewrite IH, filter_app. Qed.

Lemma concat_push {A} (t : list (list A)) i l (a : A) : t !! i = Some l -> concat (<[i := a :: l]> t) ≡ₚ a :: concat t.
Proof.
  revert i. induction t as [|x t IH]; intros [|i] Hl; simplify_eq/=; [done|]. rewrite (IH i Hl).
  by rewrite Permutation_middle.
Qed.

Lemma table_ext t f m m' : table_ok t f m -> key_of <$> m' = key_of <$> m -> table_ok t f m'.
Proof. intros [] E. split; try rewrite E; done. Qed.

Lemma table_bucket t f m mp path : table_ok t f m ->
  exists l, t !! Z.to_nat (dentry_hash mp path) = Some l /\ arr_at t (dentry_hash mp path) = Some l.
Proof.
  intros []. pose proof (dentry_hash_range mp path).
  destruct (lookup_lt_is_Some_2 t (Z.to_nat (dentry_hash mp path))) as [l Hl]; [lia|]. exists l. split; [done|].
  unfold arr_at. by rewrite (proj2 (Z.leb_le 0 _)) by lia.
Qed.

Lemma dtable_del t f m dp : table_ok t f m ->
  table_ok (map (filter (fun x => x <> dp)) t) (filter (fun x => x <> dp) f) (delete dp m).
Proof.
  intros []. split.
  - by rewrite length_map.
  - rewrite concat_filter, <- filter_app. by apply NoDup_filter.
  - intros q. rewrite concat_filter, <- filter_app, list_elem_of_filter, h_in0, fmap_delete.
    rewrite lookup_delete_is_Some. naive_solver.
  - intros i l q Hl Hq. rewrite arr_at_map in Hl. apply fmap_Some in Hl as (l0 & Hl0 & ->).
    apply list_elem_of_filter in Hq as [Hne Hq]. rewrite fmap_delete, lookup_delete_ne by done. eauto.
  - intros q mp path. rewrite fmap_delete. intros [_ ?]%lookup_delete_Some. eauto.
Qed.

Lemma dtable_add t f m a d p l : table_ok t f m -> m !! a = None -> d_path d = Some p ->
  t !! Z.to_nat (dentry_hash (d_mount d) (Some p)) = Some l ->
  table_ok (<[Z.to_nat (dentry_hash (d_mount d) (Some p)) := a :: l]> t) f (<[a := d]> m).
Proof.
  intros [] Ha Hp Hl. pose proof (dentry_hash_range (d_mount d) (Some p)). pose proof (lookup_lt_Some _ _ _ Hl).
  assert (key_of d = (d_mount d, Some p)) as Hk by (unfold key_of; congruence).
  assert (a ∉ concat t ++ f) as Hna by (rewrite h_in0, lookup_fmap, Ha; by intros []).
  assert (concat (<[Z.to_nat (dentry_hash (d_mount d) (Some p)) := a :: l]> t) ++ f ≡ₚ a :: (concat t ++ f)) as Hperm
    by (rewrite (concat_push t _ l a Hl); done).
  split.
  - by rewrite length_insert.
  - rewrite Hperm. by apply NoDup_cons.
  - intros q. rewrite Hperm, elem_of_cons, h_in0, fmap_insert, lookup_insert_is_Some'. naive_solver.
  - intros i l' q Hl' Hq. rewrite arr_at_insert in Hl' by lia. rewrite fmap_insert, Hk. case_decide as E.
    + injection Hl' as <-. apply elem_of_cons in Hq as [->|Hq].
      * exists (d_mount d), (Some p). by rewrite lookup_insert_eq.
      * assert (arr_at t i = Some l) as Hi by (unfold arr_at; rewrite (proj2 (Z.leb_le 0 _)) by lia; by subst i).
        rewrite lookup_insert_ne; [by eapply h_bucket0|]. intros <-. apply Hna, elem_of_app. left. apply elem_of_concat. eauto.
    + rewrite lookup_insert_ne; [by eapply h_bucket0|]. intros <-. apply Hna, elem_of_app. left. apply elem_of_concat. eauto.
  - intros q mp path. rewrite fmap_insert, Hk. intros [[_ [= _ <-]]|[_ ?]]%lookup_insert_Some; eauto.
Qed.

(** [dentry_remove]: off its list, and onto the fake list. *)
Lemma table_fake t f m dp d : table_ok t f (delete dp m) -> m !! dp = Some d -> is_Some (d_path d) ->
  table_ok t (dp :: f) m.
Proof.
  intros [] Hd Hp. rewrite fmap_delete in *. split.
  - done.
  - rewrite <- Permutation_middle. apply NoDup_cons. split; [|done]. rewrite h_in0, lookup_delete_eq. by intros [].
  - intros q. rewrite <- Permutation_middle, elem_of_cons, h_in0, lookup_delete_is_Some. split.
    + intros [->|[_ ?]]; [by rewrite lookup_fmap, Hd|done].
    + intros. destruct (decide (q = dp)); [by left|right; split; [congruence|done]].
  - intros i l q Hl Hq. destruct (h_bucket0 i l q Hl Hq) as (mp & path & [_ ?]%lookup_delete_Some & ?). eauto.
  - intros q mp path Hq. destruct (decide (q = dp)) as [->|].
    + rewrite lookup_fmap, Hd in Hq. by injection Hq as _ <-.
    + eapply h_path0. by rewrite lookup_delete_ne.
Qed.

(** ** Changes of the whole state *)

(** Dropping references only takes things out of the caches and closes windows. *)
Record shrinks (s s' : dcache) : Prop := {
  sh_vnodes : vstatic <$> vnodes (vc s') ⊆ vstatic <$> vnodes (vc s);
  sh_table : forall x, x ∈ concat (dtable s') -> x ∈ concat (dtable s);
  sh_fake : forall x, x ∈ fake s' -> x ∈ fake s;
  sh_slots : (free_slots (wins (vc s)) <= free_slots (wins (vc s')))%nat;
  sh_mounts : forall mp, is_Some (m_counts (vc s) !! mp) -> is_Some (m_counts (vc s') !! mp)
}.

#[global] Instance shrinks_refl : Reflexive shrinks.
Proof. by split. Qed.
#[global] Instance shrinks_trans : Transitive shrinks.
Proof. intros s1 s2 s3 [] []. split; [by etrans|naive_solver|naive_solver|lia|naive_solver]. Qed.

Lemma shrinks_vnode s vp v v' : vnodes (vc s) !! vp = Some v -> vstatic v' = vstatic v ->
  shrinks s (set_vc (set_vnodes (<[vp := v']> (vnodes (vc s))) (vc s)) s).
Proof. intros Hv E. split; try done. simpl. by rewrite fmap_insert, E, <- fmap_insert, insert_id. Qed.

Lemma shrinks_wins s b t : vfs_ipc_remove_heap b (wins (vc s)) = Ok (tt, t) -> shrinks s (set_vc (set_wins t (vc s)) s).
Proof. intros H. split; try done. by eapply vfs_remove_slots. Qed.

Lemma dc_inv_wins s m hd hv t : dc_inv s m hd hv -> vfs_inv t -> dc_inv (set_vc (set_wins t (vc s)) s) m hd hv.
Proof. intros [] Ht. split; try done. by apply vc_ok_wins. Qed.

Lemma dc_inv_ext s m hd hv hd' hv' : (forall x, hd x = hd' x) -> (forall x, hv x = hv' x) ->
  dc_inv s m hd hv -> dc_inv s m hd' hv'.
Proof.
  intros E1 E2 []. split; try done.
  - eapply vc_ok_ext; [|done]. intros x. unfold vheld. by rewrite E2.
  - intros. by rewrite <- E2.
  - by eapply tree_ext.
Qed.

(** A change of a vnode. *)
Lemma dc_inv_vnode s m hd hv vp v v' k : dc_inv s m hd hv -> vnodes (vc s) !! vp = Some v ->
  v_mount v' = v_mount v -> v_ino v' = v_ino v -> v_names v' = v_names v -> v_refcnt v' = v_refcnt v + k ->
  0 < v_refcnt v' < 2 ^ 31 -> 0 <= hv vp + k ->
  dc_inv (set_vc (set_vnodes (<[vp := v']> (vnodes (vc s))) (vc s)) s) m hd (add_held hv vp k).
Proof.
  intros [] Hv Hm Hi Hn Hr Hb Hk. split; try done; simpl.
  - eapply vc_ok_ext; [|by eapply vc_ok_update]. intros x. unfold vheld. destruct (decide (x = vp)) as [->|].
    + rewrite !add_held_eq, lookup_insert_eq, Hv, Hn. lia.
    + by rewrite !add_held_ne, lookup_insert_ne.
  - intros x. destruct (decide (x = vp)) as [->|]; [by rewrite add_held_eq|by rewrite add_held_ne].
  - by eapply names_vnode.
Qed.

Lemma dc_live s m hd hv vp : dc_inv s m hd hv -> 0 < hv vp ->
  exists v, vnodes (vc s) !! vp = Some v /\ 0 < vheld hv (vnodes (vc s)) vp.
Proof.
  intros [] Hh. assert (0 < vheld hv (vnodes (vc s)) vp) as Hp by (unfold vheld; case_match; lia).
  destruct (vc_live _ _ _ dc_vc0 Hp) as (v & Hv & _). eauto.
Qed.

Lemma held_zero s m hd hv vp : dc_inv s m hd hv -> vnodes (vc s) !! vp = None -> hv vp = 0.
Proof.
  intros Hok Hv. pose proof (dc_hv _ _ _ _ Hok vp). destruct (decide (0 < hv vp)) as [Hp|]; [|lia].
  destruct (dc_live _ _ _ _ _ Hok Hp) as (v & ? & _). congruence.
Qed.

(** A new vnode has no names. *)
Lemma dc_inv_new s hd hv a w t : dc_ok s hd hv -> vnodes (vc s) !! a = None -> v_names w = [] ->
  vnodes t = <[a := w]> (vnodes (vc s)) -> vc_ok t (add_held (vheld hv (vnodes (vc s))) a 1) ->
  dc_ok (set_vc t s) hd (add_held hv a 1).
Proof.
  intros Hok Ha Hn Ht Hvc. pose proof (held_zero _ _ _ _ _ Hok Ha). destruct Hok as [_ Hhv Hsub Htree Hnames Htab].
  split; try done; simpl; rewrite ?Ht.
  - eapply vc_ok_ext; [|done]. intros x. unfold vheld. destruct (decide (x = a)) as [->|].
    + rewrite !add_held_eq, lookup_insert_eq, Ha, Hn. simpl. lia.
    + by rewrite !add_held_ne, lookup_insert_ne.
  - intros x. pose proof (Hhv x). unfold add_held. case_match; lia.
  - by apply names_new.
Qed.

(** [vrele] and [vput] of a client's reference. *)
Lemma dc_vrele s m hd hv vp : dc_inv s m hd hv -> 0 < hv vp ->
  exists t, on_vc (vrele vp) s = Ok (tt, set_vc t s) /\ on_vc (vput vp) s = Ok (tt, set_vc t s) /\
    dc_inv (set_vc t s) m hd (add_held hv vp (-1)) /\ shrinks s (set_vc t s).
Proof.
  intros Hok Hh. destruct (dc_live s m hd hv vp Hok Hh) as (v & Hv & Hp).
  destruct (vrele_ok (vc s) _ vp (dc_vc _ _ _ _ Hok) Hp) as (v' & c & Hv' & Hc & H1 & H2 & Hrel).
  rewrite Hv in Hv'. injection Hv' as <-. exists (released (vc s) vp v c).
  split; [by apply zoom_ok|]. split; [by apply zoom_ok|].
  assert (shrinks s (set_vc (released (vc s) vp v c) s)) as Hsh.
  { split; [by apply released_static|done|done|..]; simpl; unfold released; case_match; try done.
    simpl. intros mp. rewrite lookup_insert_is_Some'. by right. }
  split; [|done]. unfold released in *. destruct (vc_count _ _ (dc_vc _ _ _ _ Hok) vp v Hv) as [Hr Hb]. unfold vheld in Hr. rewrite Hv in Hr.
  destruct (Z.eqb_spec (v_refcnt v) 1) as [E|E].
  - destruct Hok. assert (v_names v = []) as Hnil by (apply nil_length_inv; lia). split; try done; simpl.
    + eapply vc_ok_ext; [|done]. intros x. unfold vheld. simpl. destruct (decide (x = vp)) as [->|].
      * rewrite !add_held_eq, lookup_delete_eq, Hv, Hnil. simpl. lia.
      * by rewrite !add_held_ne, lookup_delete_ne.
    + intros x. destruct (decide (x = vp)) as [->|]; [rewrite add_held_eq; lia|by rewrite add_held_ne].
    + by eapply names_free.
  - apply (dc_inv_vnode s m hd hv vp v); try done; simpl; lia.
Qed.

Lemma dc_vref s m hd hv vp v : dc_inv s m hd hv -> vnodes (vc s) !! vp = Some v -> v_refcnt v + 1 < 2 ^ 31 ->
  exists t, on_vc (vref vp) s = Ok (tt, set_vc t s) /\
    t = set_vnodes (<[vp := with_refcnt (v_refcnt v + 1) v]> (vnodes (vc s))) (vc s) /\
    dc_inv (set_vc t s) m hd (add_held hv vp 1).
Proof.
  intros Hok Hv Hb. destruct (vref_ok (vc s) _ vp v (dc_vc _ _ _ _ Hok) Hv Hb) as [Hr _].
  eexists. split; [by apply zoom_ok|]. split; [done|].
  destruct (vc_count _ _ (dc_vc _ _ _ _ Hok) vp v Hv) as [_ Hpos]. pose proof (dc_hv _ _ _ _ Hok vp).
  apply (dc_inv_vnode s m hd hv vp v); try done; simpl; lia.
Qed.

Lemma upd_dentry_ok dp f s d : dentries s !! dp = Some d ->
  upd_dentry dp f s = Ok (tt, set_dentries (<[dp := f d]> (dentries s)) s).
Proof. intros Hd. unfold upd_dentry, dentry_at. by rewrite (bind_ret _ _ _ d s) by (by apply deref_ok). Qed.

Lemma live_get s m hd hv dp d : dc_inv s m hd hv -> m !! dp = Some d -> dentries s !! dp = Some d /\ dp <> 0.
Proof.
  intros [] Hd. split; [by eapply lookup_weaken|]. intros ->. rewrite (t_null _ _ dc_tree0) in Hd. done.
Qed.

(** A change of a count. *)
Lemma dc_inv_count s m hd hv dp d k : dc_inv s m hd hv -> m !! dp = Some d -> 0 <= hd dp + k ->
  0 < d_refcnt d + k < 2 ^ 31 ->
  dc_inv (set_dentries (<[dp := with_count (d_refcnt d + k) d]> (dentries s)) s)
    (<[dp := with_count (d_refcnt d + k) d]> m) (add_held hd dp k) hv.
Proof.
  intros [] Hd Hk Hb. split; try done; simpl.
  - by apply insert_mono.
  - by eapply tree_update.
  - eapply names_ext; [done|]. by eapply fmap_same.
  - eapply table_ext; [done|]. by eapply fmap_same.
Qed.

Lemma dref_ok s m hd hv dp d : dc_inv s m hd hv -> m !! dp = Some d -> d_refcnt d + 1 < 2 ^ 31 ->
  dref dp s = Ok (tt, set_dentries (<[dp := with_count (d_refcnt d + 1) d]> (dentries s)) s) /\
  dc_inv (set_dentries (<[dp := with_count (d_refcnt d + 1) d]> (dentries s)) s)
    (<[dp := with_count (d_refcnt d + 1) d]> m) (add_held hd dp 1) hv.
Proof.
  intros Hok Hd Hb. destruct (live_get _ _ _ _ _ _ Hok Hd) as [Hs H0].
  destruct (t_count _ _ (dc_tree _ _ _ _ Hok) dp d Hd) as [_ Hpos].
  destruct (t_held _ _ (dc_tree _ _ _ _ Hok) dp) as [Hh _].
  split; [|apply dc_inv_count; try done; lia].
  unfold dref. rewrite (proj2 (Z.eqb_neq dp 0)) by done. rewrite (bind_ret _ _ _ tt s) by done.
  rewrite (bind_ret _ _ _ d s) by (by apply deref_ok). rewrite (proj2 (Z.ltb_lt 0 _)) by lia.
  rewrite (bind_ret _ _ _ tt s) by done. rewrite (upd_dentry_ok _ _ _ d) by done. by rewrite s32_small by lia.
Qed.

(** ** drele *)

(** The state when a dentry has left its list and the names of its vnode. *)
Definition cut (s : dcache) (dp vp : Z) (v : vnode) (t : ipc_tables) (dm : gmap Z dentry) : dcache :=
  DCache (set_vnodes (<[vp := drop_name dp v]> (vnodes (vc s))) (set_wins t (vc s))) dm
    (map (filter (fun x => x <> dp)) (dtable s)) (filter (fun x => x <> dp) (fake s)).

(** The reference that the dentry held to its vnode is one of a client then. *)
Lemma dc_inv_cut s m hd hv dp d v t dm m1 hd1 : dc_inv s m hd hv -> m !! dp = Some d ->
  vnodes (vc s) !! d_vnode d = Some v -> vfs_inv t -> tree_ok (delete dp m1) hd1 ->
  link_of <$> m1 = link_of <$> m -> key_of <$> m1 = key_of <$> m -> delete dp m1 ⊆ dm ->
  dc_inv (cut s dp (d_vnode d) v t dm) (delete dp m1) hd1 (add_held hv (d_vnode d) 1).
Proof.
  intros [] Hd Hv Ht Htree Hl Hk Hsub. destruct (n_names _ _ dc_names0 _ v Hv) as [Hnd Hc].
  assert (dp ∈ v_names v) as Hin by (apply Hc; by rewrite lookup_fmap, Hd).
  pose proof (length_filter_ne dp _ Hnd Hin) as Hlen. destruct (vc_count _ _ dc_vc0 _ v Hv) as [_ Hb].
  split; simpl; try done.
  - eapply vc_ok_ext; [|apply (vc_ok_update (set_wins t (vc s)) (vheld hv (vnodes (vc s))) (d_vnode d) v _ 0)]; try done; simpl; try lia.
    2:{ by apply vc_ok_wins. }
    intros x. unfold vheld. destruct (decide (x = d_vnode d)) as [->|].
    + rewrite !add_held_eq, lookup_insert_eq, Hv. simpl. lia.
    + by rewrite !add_held_ne, lookup_insert_ne.
  - intros x. pose proof (dc_hv0 x). destruct (decide (x = d_vnode d)) as [->|]; [rewrite add_held_eq; lia|by rewrite add_held_ne].
  - eapply names_ext; [by eapply names_del|]. by rewrite !fmap_delete, Hl.
  - eapply table_ext; [by apply dtable_del|]. by rewrite !fmap_delete, Hk.
Qed.

Lemma shrinks_cut s dp vp v t dm : vnodes (vc s) !! vp = Some v -> vfs_ipc_remove_heap vp (wins (vc s)) = Ok (tt, t) ->
  shrinks s (cut s dp vp v t dm).
Proof.
  intros Hv Ht. split; simpl; try done.
  - rewrite fmap_insert. change (vstatic _) with (vstatic v). by rewrite <- fmap_insert, insert_id.
  - intros x. rewrite concat_filter. by intros [_ ?]%list_elem_of_filter.
  - by intros x [_ ?]%list_elem_of_filter.
  - by eapply vfs_remove_slots.
Qed.

(** Without a parent; with a parent the reference to it is one of a client, too. *)
Lemma dc_inv_cut_root s m hd hv dp d v t : dc_inv s m hd hv -> m !! dp = Some d -> d_refcnt d = 1 -> 0 < hd dp ->
  vnodes (vc s) !! d_vnode d = Some v -> vfs_inv t -> d_parent d = 0 ->
  dc_inv (cut s dp (d_vnode d) v t (<[dp := with_count 0 d]> (dentries s))) (delete dp m)
    (add_held hd dp (-1)) (add_held hv (d_vnode d) 1).
Proof.
  intros Hok Hd Hr Hh Hv Ht Hp. eapply dc_inv_cut; try done.
  - destruct (t_count _ _ (dc_tree _ _ _ _ Hok) dp d Hd). eapply tree_del; [apply Hok|done|done|done|lia].
  - apply map_subseteq_spec. intros q e [Hn He]%lookup_delete_Some. rewrite lookup_insert_ne by done.
    by apply (live_get _ _ _ _ _ _ Hok He).
Qed.

Lemma dc_inv_cut_child s m hd hv dp d v t p : dc_inv s m hd hv -> m !! dp = Some d -> d_refcnt d = 1 -> 0 < hd dp ->
  vnodes (vc s) !! d_vnode d = Some v -> vfs_inv t -> d_parent d <> 0 -> m !! d_parent d = Some p ->
  dc_inv (cut s dp (d_vnode d) v t (<[d_parent d := drop_child dp p]> (<[dp := with_count 0 d]> (dentries s))))
    (delete dp (<[d_parent d := drop_child dp p]> m))
    (add_held (add_held hd (d_parent d) 1) dp (-1)) (add_held hv (d_vnode d) 1).
Proof.
  intros Hok Hd Hr Hh Hv Ht Hp Hm. pose proof (dc_tree _ _ _ _ Hok) as Htree.
  destruct (tree_parent m hd dp d Htree Hd Hp) as (p' & Hp' & _ & Hne). rewrite Hm in Hp'. injection Hp' as <-.
  eapply dc_inv_cut; try done.
  - destruct (t_count _ _ Htree dp d Hd). rewrite <- (delete_insert_eq _ dp (with_parent 0 d)).
    eapply tree_del; [by apply tree_unlink|apply lookup_insert_eq|done|done|]. rewrite add_held_ne by congruence. lia.
  - by eapply fmap_same.
  - by eapply fmap_same.
  - apply map_subseteq_spec. intros q e [Hn He]%lookup_delete_Some. apply lookup_insert_Some in He as [[<- <-]|[Hn' He]].
    + by rewrite lookup_insert_eq.
    + rewrite !lookup_insert_ne by done. by apply (live_get _ _ _ _ _ _ Hok He).
Qed.

(** What never changes while a dentry is in use by others. *)
Definition static (d : dentry) : option (list Z) * Z * Z * Z := (d_path d, d_vnode d, d_mount d, d_parent d).

Lemma static_parent (m m' : gmap Z dentry) : static <$> m' ⊆ static <$> m -> d_parent <$> m' ⊆ d_parent <$> m.
Proof.
  intros H. apply (map_fmap_mono snd) in H. by rewrite <- !map_fmap_compose in H.
Qed.

Lemma static_same (m : gmap Z dentry) k x y : m !! k = Some x -> static y = static x -> static <$> <[k := y]> m = static <$> m.
Proof. apply fmap_same. Qed.

Lemma in_hlists s m hd hv dp : dc_inv s m hd hv -> is_Some (m !! dp) -> dp ∈ hlists s.
Proof. intros Hok Hd. apply (h_in _ _ _ (dc_table _ _ _ _ Hok)). by rewrite lookup_fmap, fmap_is_Some. Qed.

Lemma hlist_del_ok s dp : dp ∈ hlists s ->
  hlist_del dp s = Ok (tt, set_tables (map (filter (fun x => x <> dp)) (dtable s)) (filter (fun x => x <> dp) (fake s)) s).
Proof.
  intros Hd. unfold hlist_del. rewrite (bind_ret _ _ _ (hlists s) s) by (by apply gets_ok). by rewrite decide_True.
Qed.

(** The end of [drele], from the reference to the vnode on. *)
Lemma drele_end s m hd hv dp d : dc_inv s m hd (add_held hv (d_vnode d) 1) -> (forall x, 0 <= hv x) ->
  dentries s !! dp = Some d -> m !! dp = None ->
  exists s', (d' ← dentry_at dp; on_vc (vrele (d_vnode d'));; on_vc (on_wins (vfs_ipc_remove_heap dp));;
     modify (fun s => set_dentries (delete dp (dentries s)) s)) s = Ok (tt, s') /\
    dc_inv s' m hd hv /\ dentries s' = delete dp (dentries s) /\ shrinks s s'.
Proof.
  intros Hok Hhv Hd Hm. rewrite (bind_ret _ _ _ d s) by (by apply deref_ok).
  destruct (dc_vrele _ _ _ _ (d_vnode d) Hok) as (t & Hrun & _ & Hok1 & Hsh1).
  { rewrite add_held_eq. specialize (Hhv (d_vnode d)). lia. }
  rewrite (bind_ret _ _ _ _ _ Hrun).
  destruct (vfs_remove_ok dp (wins t) (vc_wins _ _ (dc_vc _ _ _ _ Hok1))) as (w & Hw & Hwi).
  erewrite (bind_ret _ _ _ tt); [|by apply zoom_ok, zoom_ok].
  eexists. split; [by apply modify_ok|].
  split; [|split; [done|]]; [|etrans; [exact Hsh1|]; etrans; [by eapply shrinks_wins|by split]].
  apply (dc_inv_ext _ _ hd (add_held (add_held hv (d_vnode d) 1) (d_vnode d) (-1))); [done| |].
  { intros x. destruct (decide (x = d_vnode d)) as [->|]; [rewrite !add_held_eq; lia|by rewrite !add_held_ne]. }
  apply (dc_inv_wins _ _ _ _ w) in Hok1; [|done]. destruct Hok1. split; try done. simpl in *.
  apply map_subseteq_spec. intros q e He. rewrite lookup_delete_ne by congruence. by eapply lookup_weaken.
Qed.

(** The beginning, when the last reference is dropped. *)
Lemma drele_begin fuel s m hd hv dp d : dc_inv s m hd hv -> m !! dp = Some d -> d_refcnt d = 1 ->
  exists v t, vnodes (vc s) !! d_vnode d = Some v /\ vfs_inv t /\
    vfs_ipc_remove_heap (d_vnode d) (wins (vc s)) = Ok (tt, t) /\
    drele_rec (S fuel) dp s =
    ((if negb (d_parent d =? 0) then child_del (d_parent d) dp;; drele_rec fuel (d_parent d) else mret tt);;
     d' ← dentry_at dp; on_vc (vrele (d_vnode d'));; on_vc (on_wins (vfs_ipc_remove_heap dp));;
     modify (fun s => set_dentries (delete dp (dentries s)) s))
    (cut s dp (d_vnode d) v t (<[dp := with_count 0 d]> (dentries s))).
Proof.
  intros Hok Hd Hr. destruct (live_get _ _ _ _ _ _ Hok Hd) as [Hs H0].
  destruct (n_vnode _ _ (dc_names _ _ _ _ Hok) dp (d_vnode d) (d_mount d)) as (v & Hv & _).
  { by rewrite lookup_fmap, Hd. }
  destruct (vfs_remove_ok (d_vnode d) (wins (vc s)) (vc_wins _ _ (dc_vc _ _ _ _ Hok))) as (t & Ht & Hti).
  exists v, t. split; [done|]. split; [done|]. split; [done|].
  assert (dp ∈ v_names v) as Hin by (apply (n_names _ _ (dc_names _ _ _ _ Hok) _ v Hv); by rewrite lookup_fmap, Hd).
  cbn [drele_rec]. rewrite (proj2 (Z.eqb_neq dp 0)) by done. rewrite (bind_ret _ _ _ tt s) by done.
  rewrite (bind_ret _ _ _ d s) by (by apply deref_ok). rewrite Hr. change (0 <? 1) with true.
  rewrite (bind_ret _ _ _ tt s) by done. rewrite (bind_ret _ _ _ _ _ (upd_dentry_ok dp _ s d Hs)).
  change (s32 (1 - 1)) with 0. change (negb (0 =? 0)) with false. cbv iota.
  erewrite (bind_ret _ _ _ tt); [|by apply hlist_del_ok, (in_hlists s m hd hv)].
  erewrite (bind_ret _ _ _ tt); [|by apply zoom_ok, zoom_ok].
  erewrite (bind_ret _ _ _ tt).
  2:{ apply zoom_ok. unfold vn_del_name. rewrite (bind_ret _ _ _ v _) by (by apply deref_ok).
      rewrite decide_True by done. by apply update_vnode_ok. }
  done.
Qed.

Lemma child_del_ok p dp s d : dentries s !! p = Some d -> dp ∈ d_children d ->
  child_del p dp s = Ok (tt, set_dentries (<[p := drop_child dp d]> (dentries s)) s).
Proof.
  intros Hd Hin. unfold child_del. rewrite (bind_ret _ _ _ d s) by (by apply deref_ok). rewrite decide_True by done.
  by rewrite (upd_dentry_ok _ _ _ d Hd).
Qed.

Lemma drele_keep fuel s m hd hv dp d : dc_inv s m hd hv -> m !! dp = Some d -> d_refcnt d <> 1 ->
  drele_rec (S fuel) dp s = Ok (tt, set_dentries (<[dp := with_count (d_refcnt d - 1) d]> (dentries s)) s).
Proof.
  intros Hok Hd Hr. destruct (live_get _ _ _ _ _ _ Hok Hd) as [Hs H0].
  destruct (t_count _ _ (dc_tree _ _ _ _ Hok) dp d Hd) as [_ Hb].
  cbn [drele_rec]. rewrite (proj2 (Z.eqb_neq dp 0)) by done. rewrite (bind_ret _ _ _ tt s) by done.
  rewrite (bind_ret _ _ _ d s) by (by apply deref_ok). rewrite (proj2 (Z.ltb_lt 0 _)) by lia.
  rewrite (bind_ret _ _ _ tt s) by done. rewrite (bind_ret _ _ _ _ _ (upd_dentry_ok dp _ s d Hs)).
  rewrite s32_small by lia. by rewrite (proj2 (Z.eqb_neq (d_refcnt d - 1) 0)) by lia.
Qed.

Lemma drele_finish s m hd hv x d s2 m2 hd2 : dc_inv s m hd hv -> m !! x = Some d ->
  dc_inv s2 m2 hd2 (add_held hv (d_vnode d) 1) -> shrinks s s2 -> dentries s2 !! x = Some (with_count 0 d) ->
  m2 !! x = None -> (forall y, hd2 y = add_held hd x (-1) y) -> static <$> m2 ⊆ static <$> m ->
  (forall q, q <> x -> dentries s2 !! q = match m !! q with Some _ => m2 !! q | None => dentries s !! q end) ->
  exists s' m', (d' ← dentry_at x; on_vc (vrele (d_vnode d'));; on_vc (on_wins (vfs_ipc_remove_heap x));;
    modify (fun s => set_dentries (delete x (dentries s)) s)) s2 = Ok (tt, s') /\ dc_inv s' m' (add_held hd x (-1)) hv /\
    static <$> m' ⊆ static <$> m /\ shrinks s s' /\
    forall q, dentries s' !! q = match m !! q with Some _ => m' !! q | None => dentries s !! q end.
Proof.
  intros Hok Hd Hok2 Hsh2 Hx Hm2 Hhd Hst Hq.
  destruct (drele_end s2 m2 hd2 hv x (with_count 0 d) Hok2 (dc_hv _ _ _ _ Hok) Hx Hm2) as (s3 & Hrun3 & Hok3 & Hd3 & Hsh3).
  exists s3, m2. split; [done|]. split; [by eapply dc_inv_ext|]. split; [done|]. split; [by etrans|]. intros q. rewrite Hd3.
  destruct (decide (q = x)) as [->|]; [by rewrite lookup_delete_eq, Hd, Hm2|]. rewrite lookup_delete_ne by done. auto.
Qed.

(** Dropping a reference, along the chain of parents.  The dentries outside [m]
    are left alone. *)
Lemma drele_rec_ok l : forall fuel dp s m hd hv, dc_inv s m hd hv -> linked (d_parent <$> m) dp l -> 0 < hd dp ->
  (length l <= fuel)%nat ->
  exists s' m', drele_rec fuel dp s = Ok (tt, s') /\ dc_inv s' m' (add_held hd dp (-1)) hv /\
    static <$> m' ⊆ static <$> m /\ shrinks s s' /\
    forall q, dentries s' !! q = match m !! q with Some _ => m' !! q | None => dentries s !! q end.
Proof.
  induction l as [|x l IH]; intros fuel dp s m hd hv Hok Hl Hh Hf.
  { inversion Hl; subst. destruct (t_held _ _ (dc_tree _ _ _ _ Hok) 0) as [_ Hs].
    rewrite (t_null _ _ (dc_tree _ _ _ _ Hok)) in Hs. by destruct (Hs Hh). }
  destruct fuel as [|fuel]; [simpl in Hf; lia|]. inversion Hl as [|? p ? H0 Hp Hl']; subst.
  rewrite lookup_fmap in Hp. apply fmap_Some in Hp as (d & Hd & ->).
  destruct (t_count _ _ (dc_tree _ _ _ _ Hok) x d Hd) as [Hc Hb].
  destruct (decide (d_refcnt d = 1)) as [Hr|Hr].
  2:{ exists (set_dentries (<[x := with_count (d_refcnt d - 1) d]> (dentries s)) s), (<[x := with_count (d_refcnt d - 1) d]> m).
      split; [by eapply drele_keep|]. split; [apply dc_inv_count; try done; lia|].
      split; [by rewrite (static_same m x d)|]. split; [by split|]. intros q. simpl. destruct (decide (q = x)) as [->|].
      - by rewrite Hd, !lookup_insert_eq.
      - rewrite !lookup_insert_ne by done. case_match eqn:E; [|done]. by apply (live_get _ _ _ _ _ _ Hok E). }
  destruct (drele_begin fuel s m hd hv x d Hok Hd Hr) as (v & t & Hv & Ht & Htrun & Hrun). rewrite Hrun.
  pose proof (fun s2 m2 hd2 => drele_finish s m hd hv x d s2 m2 hd2 Hok Hd) as Hend.
  destruct (decide (d_parent d = 0)) as [Hp|Hp].
  - rewrite (proj2 (Z.eqb_eq _ 0)) by done. simpl negb. erewrite (bind_ret _ _ _ tt) by done.
    eapply Hend; [by apply dc_inv_cut_root|by apply shrinks_cut|apply lookup_insert_eq|apply lookup_delete_eq|done| |].
    + rewrite fmap_delete. apply delete_subseteq.
    + intros q Hq. simpl. rewrite lookup_insert_ne, lookup_delete_ne by done.
      destruct (m !! q) eqn:E; [|done]. by apply (live_get _ _ _ _ _ _ Hok E).
  - rewrite (proj2 (Z.eqb_neq _ 0)) by done. simpl negb.
    destruct (tree_parent m hd x d (dc_tree _ _ _ _ Hok) Hd Hp) as (p & Hm & Hin & Hne).
    set (m1 := delete x (<[d_parent d := drop_child x p]> m)).
    pose proof (dc_inv_cut_child s m hd hv x d v t p Hok Hd Hr Hh Hv Ht Hp Hm) as Hcut. fold m1 in Hcut.
    assert (Hlive : forall q e, m !! q = Some e -> dentries s !! q = Some e) by (intros q e He; by apply (live_get _ _ _ _ _ _ Hok He)).
    assert (Hst : static <$> m1 ⊆ static <$> m).
    { unfold m1. rewrite fmap_delete, (static_same m _ p) by done. apply delete_subseteq. }
    destruct (IH fuel (d_parent d) _ m1 _ _ Hcut) as (s2 & m2 & Hrun2 & Hok2 & Hst2 & Hsh2 & Hq2).
    { unfold m1. rewrite fmap_delete, (fmap_same d_parent m _ p) by done. eapply linked_frame; [done|].
      intros y Hy. apply lookup_delete_ne. intros <-. apply linked_nodup, NoDup_cons in Hl as [Hx _]. done. }
    { rewrite add_held_ne, add_held_eq by done. destruct (t_held _ _ (dc_tree _ _ _ _ Hok) (d_parent d)). lia. }
    { simpl in Hf. lia. }
    erewrite (bind_ret _ _ _ tt s2).
    2:{ erewrite (bind_ret _ _ _ tt); [|apply child_del_ok; [simpl; rewrite lookup_insert_ne; [by apply Hlive|congruence]|done]]. done. }
    assert (m2 !! x = None) as Hx2.
    { destruct (m2 !! x) as [e|] eqn:E; [|done]. exfalso.
      assert ((static <$> m1) !! x = Some (static e)) as E1 by (eapply lookup_weaken; [|done]; by rewrite lookup_fmap, E).
      unfold m1 in E1. by rewrite lookup_fmap, lookup_delete_eq in E1. }
    eapply Hend; [done|etrans; [by eapply shrinks_cut|exact Hsh2]| |done| |by etrans|].
    + rewrite Hq2. unfold m1. rewrite lookup_delete_eq. simpl. rewrite lookup_insert_ne, lookup_insert_eq by congruence. done.
    + intros y. destruct (decide (y = d_parent d)) as [->|]; [rewrite add_held_eq, !(add_held_ne _ x) by done|rewrite add_held_ne by done].
      * rewrite add_held_eq. lia.
      * destruct (decide (y = x)) as [->|]; [rewrite !add_held_eq; rewrite add_held_ne by congruence; lia|by rewrite !add_held_ne].
    + intros q Hq. rewrite Hq2. unfold m1. rewrite lookup_delete_ne by done. destruct (decide (q = d_parent d)) as [->|].
      * by rewrite lookup_insert_eq, Hm.
      * rewrite lookup_insert_ne by done. destruct (m !! q) eqn:E; [done|]. simpl. by rewrite !lookup_insert_ne by congruence.
Qed.

Lemma drele_ok s hd hv dp : dc_ok s hd hv -> 0 < hd dp ->
  exists s', drele dp s = Ok (tt, s') /\ dc_ok s' (add_held hd dp (-1)) hv /\
    static <$> dentries s' ⊆ static <$> dentries s /\ shrinks s s'.
Proof.
  intros Hok Hh. destruct (t_held _ _ (dc_tree _ _ _ _ Hok) dp) as [_ Hs].
  destruct (t_chain _ _ (dc_tree _ _ _ _ Hok) dp (Hs Hh)) as [l Hl].
  destruct (drele_rec_ok l (size (dentries s)) dp s _ hd hv Hok Hl Hh) as (s' & m' & Hrun & Hok' & Hst & Hsh & Hq).
  { rewrite <- (map_size_fmap d_parent). eapply linked_length; [done|by eapply linked_nodup]. }
  exists s'. unfold drele. rewrite (bind_ret _ _ _ (size (dentries s)) s) by (by apply gets_ok). split; [done|].
  assert (dentries s' = m') as E; [|unfold dc_ok; by rewrite E].
  apply map_eq. intros q. rewrite Hq. destruct (dentries s !! q) eqn:Eq; [done|].
  destruct (m' !! q) as [e|] eqn:E; [|done].
  assert ((static <$> dentries s) !! q = Some (static e)) as E1 by (eapply lookup_weaken; [|done]; by rewrite lookup_fmap, E).
  by rewrite lookup_fmap, Eq in E1.
Qed.

(** ** dentry_alloc *)

(** The state with a new dentry [d] for the vnode [v]; [m1] are the dentries. *)
Definition grown (s : dcache) (a : Z) (d : dentry) (v : vnode) (t : ipc_tables) (p : list Z) (l : list Z) (m1 : gmap Z dentry) : dcache :=
  DCache (set_vnodes (<[d_vnode d := with_names (a :: v_names v) (with_refcnt (v_refcnt v + 1) v)]> (vnodes (vc s))) (set_wins t (vc s))) m1
    (<[Z.to_nat (dentry_hash (d_mount d) (Some p)) := a :: l]> (dtable s)) (fake s).

Lemma dc_inv_grown s hd hv a d v t p l m1 hd1 : dc_ok s hd hv -> dentries s !! a = None ->
  vnodes (vc s) !! d_vnode d = Some v -> d_mount d = v_mount v -> d_path d = Some p -> v_refcnt v + 1 < 2 ^ 31 ->
  dtable s !! Z.to_nat (dentry_hash (d_mount d) (Some p)) = Some l -> vfs_inv t -> tree_ok m1 hd1 ->
  link_of <$> m1 = link_of <$> <[a := d]> (dentries s) -> key_of <$> m1 = key_of <$> <[a := d]> (dentries s) ->
  dc_ok (grown s a d v t p l m1) hd1 hv.
Proof.
  intros [] Ha Hv Hm Hp Hr Hl Ht Htree Hl1 Hk1. destruct (vc_count _ _ dc_vc0 _ v Hv) as [_ Hb].
  split; simpl; try done.
  - eapply vc_ok_ext; [|apply (vc_ok_update (set_wins t (vc s)) (vheld hv (vnodes (vc s))) (d_vnode d) v _ 1)]; try done; simpl; try lia.
    2:{ by apply vc_ok_wins. }
    intros x. unfold vheld. destruct (decide (x = d_vnode d)) as [->|].
    + rewrite !add_held_eq, lookup_insert_eq, Hv. simpl. lia.
    + by rewrite !add_held_ne, lookup_insert_ne.
  - eapply names_ext; [|done]. rewrite <- (insert_insert_eq (vnodes (vc s)) _ _ (with_refcnt (v_refcnt v + 1) v)).
    change (v_names v) with (v_names (with_refcnt (v_refcnt v + 1) v)).
    apply names_add; [by eapply names_vnode|apply lookup_insert_eq|done|unfold link_of; simpl; congruence].
  - eapply table_ext; [|done]. by apply dtable_add.
Qed.

Lemma insert_twice {A} (m : gmap Z A) i j x y x' y' : <[i := x]> (<[j := y]> (<[i := x']> (<[j := y']> m))) = <[i := x]> (<[j := y]> m).
Proof.
  apply map_eq. intros k. destruct (decide (k = i)) as [->|]; [by rewrite !lookup_insert_eq|].
  rewrite !(lookup_insert_ne _ i) by done. destruct (decide (k = j)) as [->|]; [by rewrite !lookup_insert_eq|].
  by rewrite !(lookup_insert_ne _ j), (lookup_insert_ne _ i), lookup_insert_ne by done.
Qed.

(** The new dentry, below [q] (0: no parent). *)
Definition new_dentry (path : list Z) (vp mp q : Z) : dentry := Dentry 1 (Some path) vp mp q [].

Definition parent_ok (m : gmap Z dentry) (q : Z) : Prop :=
  q <> 0 -> exists p, m !! q = Some p /\ d_refcnt p + 1 < 2 ^ 31.

(** What the parent becomes. *)
Definition adopt (a : Z) (p : dentry) : dentry := push_child a (with_count (d_refcnt p + 1) p).

Definition with_child (m : gmap Z dentry) (q a : Z) : gmap Z dentry :=
  match m !! q with Some p => <[q := adopt a p]> m | None => m end.

Lemma tree_new m hd a q path vp mp : tree_ok m hd -> m !! a = None -> a <> 0 -> parent_ok m q ->
  tree_ok (<[a := new_dentry path vp mp q]> (with_child m q a)) (add_held hd a 1).
Proof.
  intros Hok Ha H0 Hq. unfold with_child. destruct (decide (q = 0)) as [->|Hq0].
  { rewrite (t_null _ _ Hok). by apply tree_add. }
  destruct (Hq Hq0) as (p & Hp & Hb). rewrite Hp. assert (a <> q) by congruence.
  destruct (t_count _ _ Hok q p Hp) as [Hc Hb']. destruct (t_held _ _ Hok q) as [Hh _].
  pose proof (tree_update m hd q p (with_count (d_refcnt p + 1) p) 1 Hok Hp eq_refl eq_refl eq_refl ltac:(lia) ltac:(simpl; lia)) as H1.
  pose proof (tree_add _ _ a (new_dentry path vp mp 0) H1 ltac:(by rewrite lookup_insert_ne by congruence) H0 eq_refl eq_refl eq_refl) as H2.
  apply (tree_link _ _ a (new_dentry path vp mp 0) q (with_count (d_refcnt p + 1) p)) in H2; try done.
  - rewrite insert_twice in H2. revert H2. apply tree_ext. intros x.
    destruct (decide (x = q)) as [->|]; [rewrite add_held_eq, !(add_held_ne _ a), add_held_eq by congruence; lia|].
    rewrite (add_held_ne _ q) by done. unfold add_held. repeat case_match; lia.
  - by rewrite lookup_insert_eq.
  - by rewrite lookup_insert_ne, lookup_insert_eq.
  - rewrite add_held_ne, add_held_eq by done. lia.
Qed.

(** The reference of the child to its parent. *)
Lemma adopt_run s q a : dentries s !! 0 = None -> parent_ok (dentries s) q ->
  (forall p, dentries s !! q = Some p -> 0 < d_refcnt p) ->
  (if negb (q =? 0) then dref q;; child_add q a else mret tt) s = Ok (tt, set_dentries (with_child (dentries s) q a) s).
Proof.
  intros H0 Hq Hpos. unfold with_child. destruct (Z.eqb_spec q 0) as [->|Hq0]; unfold negb.
  { rewrite H0. by destruct s. }
  destruct (Hq Hq0) as (p & Hp & Hb). specialize (Hpos p Hp). rewrite Hp. unfold dref.
  erewrite (bind_ret _ _ _ tt).
  2:{ rewrite (proj2 (Z.eqb_neq q 0)) by done. rewrite (bind_ret _ _ _ tt s) by done.
      rewrite (bind_ret _ _ _ p s) by (by apply deref_ok). rewrite (proj2 (Z.ltb_lt 0 _)) by lia.
      rewrite (bind_ret _ _ _ tt s) by done. rewrite (upd_dentry_ok _ _ _ p) by done. by rewrite s32_small by lia. }
  unfold child_add. erewrite (upd_dentry_ok q _ _ (with_count (d_refcnt p + 1) p)) by apply lookup_insert_eq.
  unfold set_dentries. simpl. by rewrite insert_insert_eq.
Qed.

Lemma parent_fresh m a q d : parent_ok m q -> m !! a = None -> m !! 0 = None -> a <> 0 ->
  with_child (<[a := d]> m) q a = <[a := d]> (with_child m q a).
Proof.
  intros Hq Ha Hn H0. unfold with_child. destruct (decide (q = 0)) as [->|Hq0]; [by rewrite lookup_insert_ne, Hn|].
  destruct (Hq Hq0) as (p & Hp & _). assert (a <> q) by congruence. rewrite lookup_insert_ne, Hp by done.
  by rewrite insert_insert_ne.
Qed.

Lemma dentry_alloc_ok sizeof_dentry s hd hv a q vp v path : dc_ok s hd hv -> vnodes (vc s) !! vp = Some v ->
  v_refcnt v + 1 < 2 ^ 31 -> a <> 0 -> dentries s !! a = None -> slot_available (wins (vc s)) ->
  parent_ok (dentries s) q ->
  exists t l, let d := new_dentry path vp (v_mount v) q in
    let s' := grown s a d v t path l (<[a := d]> (with_child (dentries s) q a)) in
    dtable s !! Z.to_nat (dentry_hash (v_mount v) (Some path)) = Some l /\
    vfs_ipc_add_heap a sizeof_dentry VFS_MASK (wins (vc s)) = Ok (tt, t) /\
    dentry_alloc sizeof_dentry a true q vp path s = Ok (a, s') /\ dc_ok s' (add_held hd a 1) hv.
Proof.
  intros Hok Hv Hr H0 Ha Hw Hq. pose proof (dc_vc _ _ _ _ Hok) as Hvc. pose proof (dc_tree _ _ _ _ Hok) as Htree.
  destruct (vfs_add_ok a sizeof_dentry VFS_MASK (wins (vc s)) (vc_wins _ _ Hvc) Hw) as (t & Ht & Hti).
  destruct (table_bucket _ _ _ (v_mount v) (Some path) (dc_table _ _ _ _ Hok)) as (l & Hl & Hl').
  exists t, l. cbv zeta. split; [done|]. split; [done|]. split.
  - unfold dentry_alloc. rewrite (bind_ret _ _ _ v s).
    2:{ unfold on_vc, zoom, vnode_at, deref. rewrite Hv. by destruct s. }
    rewrite (proj2 (Z.eqb_neq a 0)) by done. erewrite (bind_ret _ _ _ tt); [|by apply zoom_ok, zoom_ok].
    destruct (vref_ok (set_wins t (vc s)) _ vp v (vc_ok_wins _ _ t Hvc Hti) Hv Hr) as [Hvref _].
    erewrite (bind_ret _ _ _ tt); [|by apply zoom_ok]. erewrite (bind_ret _ _ _ tt) by (by apply modify_ok).
    erewrite (bind_ret _ _ _ tt).
    2:{ apply adopt_run; simpl.
        - rewrite lookup_insert_ne by done. apply (t_null _ _ Htree).
        - intros Hq0. destruct (Hq Hq0) as (p & Hp & Hb). exists p. by rewrite lookup_insert_ne by congruence.
        - intros p [[_ <-]|[_ Hp]]%lookup_insert_Some; [simpl; lia|]. by apply (t_count _ _ Htree q p Hp). }
    simpl dentries. rewrite parent_fresh by (try done; apply (t_null _ _ Htree)).
    erewrite (bind_ret _ _ _ tt); [|apply upd_dentry_ok; apply lookup_insert_eq].
    erewrite (bind_ret _ _ _ tt); [|apply zoom_ok, update_vnode_ok, lookup_insert_eq].
    unfold hlist_add. erewrite (bind_ret _ _ _ tt).
    2:{ erewrite (bind_ret _ _ _ l) by (by apply deref_ok). by apply modify_ok. }
    unfold grown, set_tables, set_vc, set_dentries, set_vnodes, set_wins. simpl. by rewrite !insert_insert_eq.
  - eapply dc_inv_grown; try done.
    + by apply tree_new.
    + rewrite !fmap_insert. f_equal. unfold with_child. case_match eqn:E; [|done]. by eapply fmap_same.
    + rewrite !fmap_insert. f_equal. unfold with_child. case_match eqn:E; [|done]. by eapply fmap_same.
Qed.

(** ** dentry_lookup *)

Definition names_path (d : dentry) (mp : Z) (path : list Z) : Prop :=
  d_mount d = mp /\ exists p, d_path d = Some p /\ same_path p path = true.

Lemma find_dentry_spec s mp path l : (forall dp, dp ∈ l -> exists d p, dentries s !! dp = Some d /\ d_path d = Some p) ->
  (exists dp d, find_dentry mp path l s = Ok (dp, s) /\ dp ∈ l /\ dentries s !! dp = Some d /\ names_path d mp path) \/
  (find_dentry mp path l s = Ok (0, s) /\ forall dp d, dp ∈ l -> dentries s !! dp = Some d -> ~ names_path d mp path).
Proof.
  induction l as [|x l IH]; intros Hl; simpl.
  { right. split; [done|]. by intros ? ? ?%elem_of_nil. }
  destruct (Hl x) as (d & p & Hd & Hp); [left|]. rewrite (bind_ret _ _ _ d s) by (by apply deref_ok).
  assert (Hrest : ~ names_path d mp path ->
    (exists dp e, find_dentry mp path l s = Ok (dp, s) /\ dp ∈ x :: l /\ dentries s !! dp = Some e /\ names_path e mp path) \/
    (find_dentry mp path l s = Ok (0, s) /\ forall dp e, dp ∈ x :: l -> dentries s !! dp = Some e -> ~ names_path e mp path)).
  { intros Hn. destruct IH as [(dp & e & Hf & Hin & He)|[Hf Hno]]; [intros; apply Hl; by right| |].
    - left. exists dp, e. split; [done|]. split; [by right|done].
    - right. split; [done|]. intros dp e [->|Hin]%elem_of_cons He; [congruence|eauto]. }
  destruct (Z.eqb_spec (d_mount d) mp) as [Hm|Hm]; [|apply Hrest; by intros [? _]].
  rewrite (bind_ret _ _ _ p s) by (by apply deref_ok). destruct (same_path p path) eqn:E.
  - left. exists x, d. split; [done|]. split; [left|]. split; [done|]. split; [done|eauto].
  - apply Hrest. intros (_ & p' & Hp' & E'). congruence.
Qed.

Lemma bucket_dentry s hd hv i l dp : dc_ok s hd hv -> arr_at (dtable s) i = Some l -> dp ∈ l ->
  exists d p, dentries s !! dp = Some d /\ d_path d = Some p /\ i = dentry_hash (d_mount d) (Some p).
Proof.
  intros [] Hl Hin. destruct dc_table0. destruct (h_bucket0 i l dp Hl Hin) as (mp & path & Hk & ->).
  destruct (h_path0 dp mp path Hk) as [p ->]. rewrite lookup_fmap in Hk. apply fmap_Some in Hk as (d & Hd & [= -> E]).
  exists d, p. split; [done|]. split; [congruence|done].
Qed.

(** A look-up finds a hashed dentry of the mount with this path, and takes a
    reference, or there is none. *)
Lemma dentry_lookup_ok s hd hv mp path : dc_ok s hd hv ->
  (forall dp d, dentries s !! dp = Some d -> d_refcnt d + 1 < 2 ^ 31) ->
  (exists dp d, dentries s !! dp = Some d /\ names_path d mp path /\ dp ∈ concat (dtable s) /\ dp <> 0 /\
    let s' := set_dentries (<[dp := with_count (d_refcnt d + 1) d]> (dentries s)) s in
    dentry_lookup mp path s = Ok (dp, s') /\ dc_ok s' (add_held hd dp 1) hv) \/
  (dentry_lookup mp path s = Ok (0, s) /\
   forall dp d, dp ∈ concat (dtable s) -> dentries s !! dp = Some d -> d_mount d = mp -> d_path d <> Some path).
Proof.
  intros Hok Hb. destruct (table_bucket _ _ _ mp (Some path) (dc_table _ _ _ _ Hok)) as (l & _ & Hl).
  unfold dentry_lookup. rewrite (bind_ret _ _ _ l s) by (by apply deref_ok).
  destruct (find_dentry_spec s mp path l) as [(dp & d & Hf & Hin & Hd & Hn)|[Hf Hno]].
  - intros dp Hin. destruct (bucket_dentry s hd hv _ l dp Hok Hl Hin) as (d & p & Hd & Hp & _). eauto.
  - left. exists dp, d. destruct (live_get _ _ _ _ _ _ Hok Hd) as [_ H0]. split; [done|]. split; [done|].
    split; [apply elem_of_concat; eauto|]. split; [done|]. cbv zeta. rewrite (bind_ret _ _ _ _ _ Hf).
    rewrite (proj2 (Z.eqb_neq dp 0)) by done. rewrite (bind_ret _ _ _ _ _ (upd_dentry_ok dp _ s d Hd)).
    destruct (t_count _ _ (dc_tree _ _ _ _ Hok) dp d Hd) as [_ Hpos]. destruct (t_held _ _ (dc_tree _ _ _ _ Hok) dp) as [Hh _].
    specialize (Hb dp d Hd). rewrite s32_small by lia. split; [done|]. apply dc_inv_count; try done; lia.
  - right. rewrite (bind_ret _ _ _ _ _ Hf). split; [done|]. intros dp d Hin Hd Hm Hp.
    apply elem_of_concat in Hin as (i & l' & Hl' & Hin). destruct (bucket_dentry s hd hv i l' dp Hok Hl' Hin) as (d' & p' & Hd' & Hp' & ->).
    rewrite Hd in Hd'. injection Hd' as <-. rewrite Hp in Hp'. injection Hp' as <-. rewrite Hm, Hl in Hl'. injection Hl' as <-.
    eapply Hno; [done|done|]. split; [done|]. exists path. split; [done|]. unfold same_path. by rewrite bool_decide_true.
Qed.

(** ** dentry_remove *)

Lemma dentry_remove_ok s hd hv dp d : dc_ok s hd hv -> dentries s !! dp = Some d ->
  exists s', dentry_remove dp s = Ok (tt, s') /\ dc_ok s' hd hv /\ dentries s' = dentries s /\ (dp ∉ concat (dtable s')) /\ vc s' = vc s /\
    (forall x, x ∈ concat (dtable s') -> x ∈ concat (dtable s)) /\ forall x, x ∈ fake s' -> x = dp \/ x ∈ fake s.
Proof.
  intros Hok Hd. unfold dentry_remove.
  rewrite (bind_ret _ _ _ _ _ (hlist_del_ok s dp (in_hlists _ _ _ _ _ Hok ltac:(eauto)))).
  eexists. split; [by apply modify_ok|]. split; [|split; [done|split; [|split; [done|split]]]].
  - pose proof (dc_table _ _ _ _ Hok) as Ht. destruct Hok. split; try done. simpl. eapply table_fake; [by apply dtable_del|done|].
    eapply (h_path _ _ _ Ht dp (d_mount d)). by rewrite lookup_fmap, Hd.
  - simpl. rewrite concat_filter, list_elem_of_filter. by intros [? _].
  - intros x. simpl. rewrite concat_filter, list_elem_of_filter. by intros [_ ?].
  - intros x. simpl. rewrite elem_of_cons, list_elem_of_filter. by intros [?|[_ ?]]; [left|right].
Qed.

(** ** dentry_move *)

(** The dentries without [dp] among the children of its parent. *)
Definition orphaned (m : gmap Z dentry) (dp : Z) (d : dentry) : gmap Z dentry :=
  match m !! d_parent d with Some p => <[d_parent d := drop_child dp p]> m | None => m end.

(** The reference to the old parent is one of the client then. *)
Definition orphan_held (hd : Z -> Z) (d : dentry) : Z -> Z := if d_parent d =? 0 then hd else add_held hd (d_parent d) 1.

Lemma orphaned_get m hd dp d q : tree_ok m hd -> m !! dp = Some d -> d_children d = [] ->
  orphaned m dp d !! dp = Some d /\ orphaned m dp d !! 0 = None /\
  forall p, m !! q = Some p -> exists p', orphaned m dp d !! q = Some p' /\ d_refcnt p' = d_refcnt p.
Proof.
  intros Hok Hd Hc. unfold orphaned. destruct (decide (d_parent d = 0)) as [E|E].
  { rewrite E, (t_null _ _ Hok). split; [done|]. split; [apply (t_null _ _ Hok)|eauto]. }
  destruct (tree_parent m hd dp d Hok Hd E) as (p & Hp & Hin & Hne). rewrite Hp.
  rewrite (lookup_insert_ne _ _ dp), (lookup_insert_ne _ _ 0) by done.
  split; [done|]. split; [apply (t_null _ _ Hok)|]. intros p' Hp'. destruct (decide (q = d_parent d)) as [->|].
  - rewrite lookup_insert_eq. eexists. split; [done|]. simpl. congruence.
  - rewrite lookup_insert_ne by done. eauto.
Qed.

Lemma tree_orphaned m hd dp d : tree_ok m hd -> m !! dp = Some d ->
  tree_ok (<[dp := with_parent 0 d]> (orphaned m dp d)) (orphan_held hd d).
Proof.
  intros Hok Hd. unfold orphaned, orphan_held. destruct (Z.eqb_spec (d_parent d) 0) as [E|E].
  - rewrite E, (t_null _ _ Hok). rewrite insert_id; [done|]. rewrite Hd. destruct d; simpl in *. by subst.
  - destruct (tree_parent m hd dp d Hok Hd E) as (p & Hp & _ & _). rewrite Hp. by apply tree_unlink.
Qed.

Lemma tree_moved m hd dp d q x : tree_ok m hd -> m !! dp = Some d -> d_children d = [] -> q <> dp -> parent_ok m q ->
  tree_ok (<[dp := with_parent q (with_path x d)]> (with_child (orphaned m dp d) q dp)) (orphan_held hd d).
Proof.
  intros Hok Hd Hc Hq Hpar. pose proof (tree_orphaned m hd dp d Hok Hd) as H1.
  destruct (orphaned_get m hd dp d q Hok Hd Hc) as (Hdp & H0 & Hget). set (mo := orphaned m dp d) in *.
  assert (tree_ok (<[dp := with_parent q d]> (with_child mo q dp)) (orphan_held hd d)) as H2.
  { unfold with_child. destruct (decide (q = 0)) as [->|Hq0]; [by rewrite H0|].
    destruct (Hpar Hq0) as (p & Hp & Hb). destruct (Hget p Hp) as (p' & Hp' & Hr). rewrite Hp'.
    assert (<[dp := with_parent 0 d]> mo !! q = Some p') as Hp1 by (by rewrite lookup_insert_ne).
    destruct (t_count _ _ H1 q p' Hp1) as [Hcnt Hpos]. destruct (t_held _ _ H1 q) as [Hh _].
    pose proof (tree_update _ _ q p' (with_count (d_refcnt p' + 1) p') 1 H1 Hp1 eq_refl eq_refl eq_refl ltac:(lia) ltac:(simpl; lia)) as H3.
    apply (tree_link _ _ dp (with_parent 0 d) q (with_count (d_refcnt p' + 1) p')) in H3; try done.
    - rewrite insert_insert_eq, (insert_insert_ne _ q dp), insert_insert_eq in H3 by done. revert H3. apply tree_ext. intros y.
      unfold add_held. repeat case_match; lia.
    - by rewrite lookup_insert_ne, lookup_insert_eq.
    - by rewrite lookup_insert_eq.
    - rewrite add_held_eq. lia. }
  destruct (t_count _ _ H2 dp (with_parent q d) (lookup_insert_eq _ _ _)) as [_ Hpos].
  apply (tree_update _ _ dp (with_parent q d) (with_parent q (with_path x d)) 0) in H2; try done; try (apply lookup_insert_eq); try (simpl; lia).
  - rewrite insert_insert_eq in H2. revert H2. apply tree_ext. intros y. unfold add_held. case_match; lia.
  - rewrite Z.add_0_r. apply (t_held _ _ H2).
Qed.

(** The state before the reference to the old parent is dropped. *)
Definition moved (s : dcache) (dp : Z) (d : dentry) (q : Z) (path l : list Z) : dcache :=
  DCache (vc s) (<[dp := with_parent q (with_path (Some path) d)]> (with_child (orphaned (dentries s) dp d) q dp))
    (<[Z.to_nat (dentry_hash (d_mount d) (Some path)) := dp :: l]> (map (filter (fun x => x <> dp)) (dtable s)))
    (filter (fun x => x <> dp) (fake s)).

Lemma fmap_with_child {A} (f : dentry -> A) m q a : (forall d, f (adopt a d) = f d) -> f <$> with_child m q a = f <$> m.
Proof. intros E. unfold with_child. case_match eqn:H; [|done]. by eapply fmap_same. Qed.

Lemma fmap_orphaned {A} (f : dentry -> A) m dp d : (forall d, f (drop_child dp d) = f d) -> f <$> orphaned m dp d = f <$> m.
Proof. intros E. unfold orphaned. case_match eqn:H; [|done]. by eapply fmap_same. Qed.

Lemma dc_inv_moved s hd hv dp d q path l : dc_ok s hd hv -> dentries s !! dp = Some d -> d_children d = [] -> q <> dp ->
  parent_ok (dentries s) q ->
  map (filter (fun x => x <> dp)) (dtable s) !! Z.to_nat (dentry_hash (d_mount d) (Some path)) = Some l ->
  dc_ok (moved s dp d q path l) (orphan_held hd d) hv.
Proof.
  intros [] Hd Hc Hq Hpar Hl. split; simpl; try done.
  - by apply tree_moved.
  - eapply names_ext; [done|]. rewrite fmap_insert, fmap_with_child, fmap_orphaned by done.
    change (link_of _) with (link_of d). by rewrite <- fmap_insert, insert_id.
  - eapply table_ext; [by apply (dtable_add _ _ (delete dp (dentries s)) dp (with_parent q (with_path (Some path) d)));
      [apply dtable_del|apply lookup_delete_eq| |]|].
    rewrite !fmap_insert, fmap_with_child, fmap_orphaned, fmap_delete by done. by rewrite insert_delete_eq.
Qed.

(** Moving a dentry without children: it has the new path and the new parent, and
    the old parent may be freed. *)
Lemma dentry_move_ok s hd hv dp d q path : dc_ok s hd hv -> dentries s !! dp = Some d -> d_children d = [] -> q <> dp ->
  parent_ok (dentries s) q ->
  exists l s', dc_ok (moved s dp d q path l) (orphan_held hd d) hv /\ dentry_move true dp q path s = Ok (tt, s') /\
    dc_ok s' hd hv /\ static <$> dentries s' ⊆ static <$> dentries (moved s dp d q path l).
Proof.
  intros Hok Hd Hc Hq Hpar. pose proof (dc_tree _ _ _ _ Hok) as Htree.
  destruct (orphaned_get _ hd dp d q Htree Hd Hc) as (Hdp & H0 & Hget).
  destruct (table_bucket _ _ _ (d_mount d) (Some path) (dtable_del _ _ _ dp (dc_table _ _ _ _ Hok))) as (l & Hl & Hl').
  pose proof (dc_inv_moved s hd hv dp d q path l Hok Hd Hc Hq Hpar Hl) as Hmv. exists l.
  assert (Hpar' : parent_ok (orphaned (dentries s) dp d) q).
  { intros Hq0. destruct (Hpar Hq0) as (p & Hp & Hb). destruct (Hget p Hp) as (p' & Hp' & Hr). exists p'. by rewrite Hr. }
  assert (Hrun : dentry_move true dp q path s = (if negb (d_parent d =? 0) then drele (d_parent d) else mret tt) (moved s dp d q path l)).
  { unfold dentry_move. rewrite (bind_ret _ _ _ d s) by (by apply deref_ok).
    rewrite (bind_ret _ _ _ tt (set_dentries (orphaned (dentries s) dp d) s)).
    2:{ unfold orphaned. destruct (Z.eqb_spec (d_parent d) 0) as [E|E]; unfold negb.
        - rewrite E, (t_null _ _ Htree). by destruct s.
        - destruct (tree_parent _ hd dp d Htree Hd E) as (p & Hp & Hin & _). rewrite Hp. by apply child_del_ok. }
    erewrite (bind_ret _ _ _ tt).
    2:{ apply adopt_run; [done|done|]. simpl. intros p Hp. unfold orphaned in Hp. destruct (dentries s !! d_parent d) as [e|] eqn:E.
        - apply lookup_insert_Some in Hp as [[<- <-]|[_ Hp]]; [by apply (t_count _ _ Htree _ e E)|by apply (t_count _ _ Htree _ _ Hp)].
        - by apply (t_count _ _ Htree _ _ Hp). }
    assert (with_child (orphaned (dentries s) dp d) q dp !! dp = Some d) as Hdp'.
    { unfold with_child. case_match; [|done]. by rewrite lookup_insert_ne. }
    unfold dentry_children_remove. simpl dentries.
    erewrite (bind_ret _ _ _ tt); [|erewrite (bind_ret _ _ _ d) by (by apply deref_ok); rewrite Hc; done].
    erewrite (bind_ret _ _ _ tt); [|by apply hlist_del_ok, (in_hlists s (dentries s) hd hv)].
    erewrite (bind_ret _ _ _ tt); [|by apply upd_dentry_ok].
    unfold hlist_add. erewrite (bind_ret _ _ _ tt); [|erewrite (bind_ret _ _ _ l) by (by apply deref_ok); by apply modify_ok].
    done. }
  rewrite Hrun. unfold orphan_held in *. destruct (Z.eqb_spec (d_parent d) 0) as [E|E]; unfold negb.
  - by exists (moved s dp d q path l).
  - destruct (drele_ok _ _ _ (d_parent d) Hmv) as (s' & Hdr & Hok' & Hst & _).
    { rewrite add_held_eq. destruct (t_held _ _ Htree (d_parent d)). lia. }
    exists s'. split; [done|]. split; [done|]. split; [|done]. eapply dc_inv_ext; [|done|done].
    intros y. unfold add_held. repeat case_match; lia.
Qed.

(** ** What is in the cache *)

(** A dentry is needed if a client holds it or one of its descendants. *)
Definition needed (nx : gmap Z Z) (hd : Z -> Z) (q : Z) : Prop := exists r l, 0 < hd r /\ linked nx r l /\ q ∈ l.

Lemma cached_needed m hd q : tree_ok m hd -> is_Some (m !! q) <-> needed (d_parent <$> m) hd q.
Proof.
  intros Hok. split.
  - intros Hq. destruct (t_chain _ _ Hok q Hq) as [l Hl].
    remember (size m - length l)%nat as n eqn:En. revert q l Hq Hl En.
    induction n as [n IH] using lt_wf_ind. intros q l [d Hd] Hl En.
    destruct (t_count _ _ Hok q d Hd) as [Hc Hb]. destruct (decide (0 < hd q)) as [Hh|Hh].
    { exists q, l. split; [done|]. split; [done|]. inversion Hl; subst; [by rewrite (t_null _ _ Hok) in Hd|left]. }
    destruct (t_child _ _ Hok q d Hd) as [_ Hch]. destruct (d_children d) as [|c cs] eqn:E.
    { simpl in Hc. lia. }
    assert ((d_parent <$> m) !! c = Some q) as Hcq by (apply Hch; left).
    assert (linked (d_parent <$> m) c (c :: l)) as Hcl.
    { apply (linked_cons _ _ q); [|done|done]. intros ->. by rewrite lookup_fmap, (t_null _ _ Hok) in Hcq. }
    assert (length (c :: l) <= size m)%nat as Hlen.
    { rewrite <- (map_size_fmap d_parent). eapply linked_length; [done|by eapply linked_nodup]. }
    destruct (IH (size m - length (c :: l))%nat ltac:(simpl in *; lia) c (c :: l)) as (r & l' & Hr & Hl' & Hin); [|done|done|].
    { rewrite lookup_fmap in Hcq. by apply fmap_Some in Hcq as (dc & -> & _). }
    exists r, l'. split; [done|]. split; [done|]. destruct (linked_suffix _ _ _ _ Hl' Hin) as (l1 & l2 & -> & Hl2).
    assert (c :: l2 = c :: l) as [= ->] by (by eapply linked_det). apply elem_of_app. right. right.
    inversion Hl; subst; [by rewrite (t_null _ _ Hok) in Hd|left].
  - intros (r & l & _ & Hl & Hin). destruct (linked_dom _ _ _ _ Hl Hin) as [Hs _]. by rewrite lookup_fmap, fmap_is_Some in Hs.
Qed.

Lemma linked_weaken nx nx' a l : linked nx a l -> nx ⊆ nx' -> linked nx' a l.
Proof. intros Hl Hsub. eapply linked_frame; [done|]. intros x [[y Hy] _]%(linked_dom _ _ _ _ Hl). rewrite Hy. by eapply lookup_weaken. Qed.

(** A vnode is in the cache if a client holds it or a dentry names it. *)
Lemma vnode_cached s m hd hv vp : dc_inv s m hd hv ->
  is_Some (vnodes (vc s) !! vp) <-> 0 < hv vp \/ exists q d, m !! q = Some d /\ d_vnode d = vp.
Proof.
  intros Hok. split.
  - intros [v Hv]. destruct (vc_count _ _ (dc_vc _ _ _ _ Hok) vp v Hv) as [Hr Hb]. unfold vheld in Hr. rewrite Hv in Hr.
    destruct (n_names _ _ (dc_names _ _ _ _ Hok) vp v Hv) as [_ Hn]. destruct (v_names v) as [|q l] eqn:E.
    + left. simpl in Hr. lia.
    + right. assert ((d_vnode <$> m) !! q = Some vp) as Hq by (apply Hn; left). rewrite lookup_fmap in Hq.
      apply fmap_Some in Hq as (d & Hd & ->). eauto.
  - intros [Hh|(q & d & Hd & <-)].
    + destruct (dc_live _ _ _ _ _ Hok Hh) as (v & -> & _). done.
    + destruct (n_vnode _ _ (dc_names _ _ _ _ Hok) q (d_vnode d) (d_mount d)) as (v & -> & _); [by rewrite lookup_fmap, Hd|done].
Qed.
