(* ===== verification/Dcache.v ===== *)
(** Clients of the two caches: every sequence of calls by callers that drop only
    references they hold (vfscore/vnode.c and dentry.c together). *)
From S2P Require Import Prelude VfsTypes Windows Vnode Dentry.
From stdpp Require Import base numbers gmap fin_maps sets list relations.
#[local] Open Scope Z_scope.

(** ** Calls *)

Inductive dc_op :=
| CVget (a : Z) (junk : vnode) (mp ino : Z)
| CVref (vp : Z)
| CVput (vp : Z)
| CVrele (vp : Z)
| CAlloc (a parent_dp vp : Z) (path : list Z)
| CLookup (mp : Z) (path : list Z)
| CDref (dp : Z)
| CDrele (dp : Z)
| CRemove (dp : Z)
| CMove (dp parent_dp : Z) (path : list Z).

Section Clients.
Context (sizeof_vnode sizeof_dentry : Z) (vfs_vget : Z -> Z -> Z).

Definition dc_exec (o : dc_op) : M dcache Z :=
  match o with
  | CVget a junk mp ino => r ← on_vc (vfscore_vget sizeof_vnode vfs_vget a junk mp ino); mret r.2
  | CVref vp => on_vc (vref vp);; mret 0
  | CVput vp => on_vc (vput vp);; mret 0
  | CVrele vp => on_vc (vrele vp);; mret 0
  | CAlloc a q vp path => dentry_alloc sizeof_dentry a true q vp path
  | CLookup mp path => dentry_lookup mp path
  | CDref dp => dref dp;; mret 0
  | CDrele dp => drele dp;; mret 0
  | CRemove dp => dentry_remove dp;; mret 0
  | CMove dp q path => dentry_move true dp q path;; mret 0
  end.

(** The references held after a call that returned [r]. *)
Definition hd_after (o : dc_op) (r : Z) (hd : Z -> Z) : Z -> Z :=
  match o with
  | CAlloc _ _ _ _ | CLookup _ _ => if r =? 0 then hd else add_held hd r 1
  | CDref dp => add_held hd dp 1
  | CDrele dp => add_held hd dp (-1)
  | _ => hd
  end.

Definition hv_after (o : dc_op) (r : Z) (hv : Z -> Z) : Z -> Z :=
  match o with
  | CVget _ _ _ _ => if r =? 0 then hv else add_held hv r 1
  | CVref vp => add_held hv vp 1
  | CVput vp | CVrele vp => add_held hv vp (-1)
  | _ => hv
  end.

(** Counts below their limit, and callers that use what they hold: the allocator
    returns addresses that are not in use (or 0), a directory that is moved has no
    cached children and does not move below itself. *)
Definition roomy (s : dcache) : Prop :=
  map_Forall (fun _ v => v_refcnt v + 1 < 2 ^ 31) (vnodes (vc s)) /\
  map_Forall (fun _ d => d_refcnt d + 1 < 2 ^ 31) (dentries s).

Definition dc_legal (o : dc_op) (s : dcache) (hd hv : Z -> Z) : Prop :=
  roomy s /\
  match o with
  | CVget a _ mp _ => vnodes (vc s) !! a = None /\ is_Some (m_counts (vc s) !! mp)
  | CVref vp => is_Some (vnodes (vc s) !! vp)
  | CVput vp | CVrele vp => 0 < hv vp
  | CAlloc a q vp _ => dentries s !! a = None /\ is_Some (vnodes (vc s) !! vp) /\ (q <> 0 -> is_Some (dentries s !! q))
  | CLookup _ _ => True
  | CDref dp => is_Some (dentries s !! dp)
  | CDrele dp => 0 < hd dp
  | CRemove dp => is_Some (dentries s !! dp)
  | CMove dp q _ => match dentries s !! dp with Some d => d_children d = [] | None => False end /\ q <> dp /\ (q <> 0 -> is_Some (dentries s !! q))
  end.

#[global] Instance dc_legal_dec o s hd hv : Decision (dc_legal o s hd hv).
Proof. unfold dc_legal, roomy. destruct o; try apply _. case_match; apply _. Defined.

(** The calls that open a window. *)
Definition opens (o : dc_op) : bool := match o with CVget _ _ _ _ | CAlloc _ _ _ _ => true | _ => false end.

Inductive dc_step : dcache * (Z -> Z) * (Z -> Z) -> dcache * (Z -> Z) * (Z -> Z) -> Prop :=
| DcStep o s hd hv r s' : dc_legal o s hd hv -> dc_exec o s = Ok (r, s') ->
    dc_step (s, hd, hv) (s', hd_after o r hd, hv_after o r hv).

Definition dc_init (mounts : gmap Z Z) (t : ipc_tables) : dcache :=
  dentry_init (DCache (vnode_init (VCache ∅ [] mounts t)) ∅ [] []).

(** ** Proofs *)

Lemma dc_init_ok mounts t : (forall mp c, mounts !! mp = Some c -> c = 0) -> vfs_inv t ->
  dc_ok (dc_init mounts t) (fun _ => 0) (fun _ => 0).
Proof.
  intros Hm Ht.
  assert (forall i (l : list Z), arr_at (replicate 32 []) i = Some l -> l = []) as Hrep.
  { intros i l. unfold arr_at. case_match; [|done]. by intros [-> _]%lookup_replicate. }
  assert (concat (replicate 32 ([] : list Z)) = []) as Hcat by done.
  split; simpl; [split; simpl|..|split|split|split]; try done.
  - intros i l vp ->%Hrep Hin. by apply elem_of_nil in Hin.
  - intros i l ->%Hrep. constructor.
  - intros dp. rewrite lookup_empty. by intros [].
  - constructor.
  - intros dp. rewrite lookup_fmap, lookup_empty. split; [by intros ?%elem_of_nil|by intros []].
  - intros i l dp ->%Hrep Hin. by apply elem_of_nil in Hin.
Qed.

Lemma dc_vget s hd hv a junk mp ino : dc_ok s hd hv -> roomy s ->
  vnodes (vc s) !! a = None -> is_Some (m_counts (vc s) !! mp) ->
  (on_vc (vfscore_vget sizeof_vnode vfs_vget a junk mp ino) s = Spin /\ ~ slot_available (wins (vc s))) \/
  exists e vp t, on_vc (vfscore_vget sizeof_vnode vfs_vget a junk mp ino) s = Ok ((e, vp), set_vc t s) /\
    dc_ok (set_vc t s) hd (if vp =? 0 then hv else add_held hv vp 1).
Proof.
  intros Hok [Hrv _] Ha [c Hc]. pose proof (dc_vc _ _ _ _ Hok) as Hvc.
  destruct (vn_lookup_spec (vc s) _ mp ino Hvc) as [(vp & v & Hv & [Hm Hi] & H0 & _)|[Hno _]].
  { right. assert (v_refcnt v + 1 < 2 ^ 31) as Hb by exact (Hrv vp v Hv). destruct (vget_hit sizeof_vnode vfs_vget (vc s) _ a junk vp v Hvc Hv Hb) as [Hrun _].
    rewrite Hm, Hi in Hrun. eexists 1, vp, _. split; [by apply zoom_ok|]. rewrite (proj2 (Z.eqb_neq vp 0)) by done.
    destruct (vc_count _ _ Hvc vp v Hv). pose proof (dc_hv _ _ _ _ Hok vp). apply dc_inv_vnode with v; try done; simpl; lia. }
  destruct (decide (a = 0)) as [->|H0].
  { right. exists 0, 0, (vc s). split; [|by destruct s]. apply zoom_ok. by eapply vget_nomem. }
  destruct (slot_dec (wins (vc s))) as [Hw|Hw].
  - right. destruct (decide (vfs_vget mp a = 0)) as [Hf|Hf].
    + destruct (vget_miss sizeof_vnode vfs_vget (vc s) _ a junk mp ino c Hvc Hno H0 Ha Hw Hc Hf) as (l & t & _ & Hrun & Hok').
      eexists 0, a, _. split; [by apply zoom_ok|]. rewrite (proj2 (Z.eqb_neq a 0)) by done.
      by apply (dc_inv_new s hd hv a (new_vnode junk mp ino)).
    + destruct (vget_refused sizeof_vnode vfs_vget (vc s) _ a junk mp ino c Hvc Hno H0 Ha Hw Hc Hf) as (t & _ & Hrun & Hok').
      eexists _, 0, _. split; [by apply zoom_ok|]. apply dc_inv_wins; [done|]. apply (vc_wins _ _ Hok').
  - left. split; [|done]. unfold on_vc, zoom. by rewrite (vget_full sizeof_vnode vfs_vget (vc s) _ a junk mp ino Hvc Hno H0 Hw).
Qed.

Lemma alloc_full s hd hv a q vp path v : dc_ok s hd hv -> vnodes (vc s) !! vp = Some v -> a <> 0 ->
  ~ slot_available (wins (vc s)) -> dentry_alloc sizeof_dentry a true q vp path s = Spin.
Proof.
  intros Hok Hv H0 Hw. unfold dentry_alloc. rewrite (bind_ret _ _ _ v s).
  2:{ unfold on_vc, zoom, vnode_at, deref. rewrite Hv. by destruct s. }
  rewrite (proj2 (Z.eqb_neq a 0)) by done. unfold mbind at 1, M_bind at 1. unfold on_vc, zoom, on_wins, zoom.
  by rewrite (vfs_add_full a sizeof_dentry VFS_MASK _ (vc_wins _ _ (dc_vc _ _ _ _ Hok)) Hw).
Qed.

Lemma alloc_nomem s q vp path v : vnodes (vc s) !! vp = Some v -> dentry_alloc sizeof_dentry 0 true q vp path s = Ok (0, s).
Proof.
  intros Hv. unfold dentry_alloc. rewrite (bind_ret _ _ _ v s); [done|].
  unfold on_vc, zoom, vnode_at, deref. rewrite Hv. by destruct s.
Qed.

(** A legal call returns, with the references accounted for, or it opens a window
    and finds no slot for it. *)
Lemma dc_exec_ok o s hd hv : dc_ok s hd hv -> dc_legal o s hd hv ->
  (dc_exec o s = Spin /\ ~ slot_available (wins (vc s)) /\ opens o = true) \/
  exists r s', dc_exec o s = Ok (r, s') /\ dc_ok s' (hd_after o r hd) (hv_after o r hv).
Proof.
  intros Hok [Hr Hl]. destruct o as [a junk mp ino|vp|vp|vp|a q vp path|mp path|dp|dp|dp|dp q path]; simpl in Hl; unfold dc_exec.
  - destruct Hl as [Ha Hm]. destruct (dc_vget s hd hv a junk mp ino Hok Hr Ha Hm) as [[H ?]|(e & vp & t & H & ?)].
    + left. split; [|done]. unfold mbind, M_bind. by rewrite H.
    + right. rewrite (bind_ret _ _ _ _ _ H). by exists vp, (set_vc t s).
  - right. destruct Hl as [v Hv], Hr as [Hr _]. destruct (dc_vref s _ hd hv vp v Hok Hv (Hr _ _ Hv)) as (t & H & _ & ?).
    rewrite (bind_ret _ _ _ _ _ H). by exists 0, (set_vc t s).
  - right. destruct (dc_vrele s _ hd hv vp Hok Hl) as (t & _ & H & ? & _). rewrite (bind_ret _ _ _ _ _ H). by exists 0, (set_vc t s).
  - right. destruct (dc_vrele s _ hd hv vp Hok Hl) as (t & H & _ & ? & _). rewrite (bind_ret _ _ _ _ _ H). by exists 0, (set_vc t s).
  - destruct Hl as (Ha & [v Hv] & Hq), Hr as [Hrv Hrd]. destruct (decide (a = 0)) as [->|H0].
    { right. exists 0, s. split; [by eapply alloc_nomem|done]. }
    destruct (slot_dec (wins (vc s))) as [Hw|Hw]; [right|left; split; [by eapply alloc_full|done]].
    destruct (dentry_alloc_ok sizeof_dentry s hd hv a q vp v path Hok Hv (Hrv _ _ Hv) H0 Ha Hw) as (t & l & _ & _ & H & ?).
    { intros Hq0. destruct (Hq Hq0) as [p Hp]. eauto. }
    eexists a, _. split; [done|]. simpl. by rewrite (proj2 (Z.eqb_neq a 0)).
  - right. destruct (dentry_lookup_ok s hd hv mp path Hok (proj2 Hr)) as [(dp & d & _ & _ & _ & H0 & H & ?)|[H _]].
    + eexists dp, _. split; [done|]. simpl. by rewrite (proj2 (Z.eqb_neq dp 0)).
    + by exists 0, s.
  - right. destruct Hl as [d Hd]. destruct (dref_ok s _ hd hv dp d Hok Hd (proj2 Hr _ _ Hd)) as [H ?].
    rewrite (bind_ret _ _ _ _ _ H). by eexists 0, _.
  - right. destruct (drele_ok s hd hv dp Hok Hl) as (s' & H & ? & _). rewrite (bind_ret _ _ _ _ _ H). by exists 0, s'.
  - right. destruct Hl as [d Hd]. destruct (dentry_remove_ok s hd hv dp d Hok Hd) as (s' & H & ? & _).
    rewrite (bind_ret _ _ _ _ _ H). by exists 0, s'.
  - right. destruct Hl as (Hc & Hq & Hp). destruct (dentries s !! dp) as [d|] eqn:Hd; [|done]. destruct (dentry_move_ok s hd hv dp d q path Hok Hd Hc Hq) as (l & s' & _ & H & ? & _).
    { intros Hq0. destruct (Hp Hq0) as [p ?]. exists p. split; [done|]. by eapply (proj2 Hr). }
    rewrite (bind_ret _ _ _ _ _ H). by exists 0, s'.
Qed.

Lemma dc_runs_ok c c' : dc_ok c.1.1 c.1.2 c.2 -> rtc dc_step c c' -> dc_ok c'.1.1 c'.1.2 c'.2.
Proof.
  intros H Hr. induction Hr as [|c1 c2 c3 Hs _ IH]; [done|]. apply IH. destruct Hs as [o s hd hv r s' Hl He]. simpl in *.
  destruct (dc_exec_ok o s hd hv H Hl) as [[E _]|(r' & s1 & E & ?)]; [congruence|]. rewrite He in E. by injection E as <- <-.
Qed.

(** Nothing stays in the caches that nobody refers to. *)
Lemma dc_empty s hd hv : dc_ok s hd hv -> (forall x, hd x = 0) -> (forall x, hv x = 0) ->
  dentries s = ∅ /\ vnodes (vc s) = ∅ /\ concat (dtable s) ++ fake s = [] /\ forall mp c, m_counts (vc s) !! mp = Some c -> c = 0.
Proof.
  intros Hok Hd Hv. assert (dentries s = ∅) as Ed.
  { apply map_empty. intros q. destruct (dentries s !! q) as [d|] eqn:E; [|done]. exfalso.
    destruct (proj1 (cached_needed (dentries s) hd q (dc_tree _ _ _ _ Hok)) ltac:(eauto)) as (r & l & Hr & _). rewrite Hd in Hr. lia. }
  assert (vnodes (vc s) = ∅) as Ev.
  { apply map_empty. intros q. destruct (vnodes (vc s) !! q) as [v|] eqn:E; [|done]. exfalso.
    destruct (proj1 (vnode_cached s _ hd hv q Hok) ltac:(eauto)) as [Hh|(x & d & Hx & _)]; [rewrite Hv in Hh; lia|].
    by rewrite Ed in Hx. }
  split; [done|]. split; [done|]. split.
  - destruct (concat (dtable s) ++ fake s) as [|x l] eqn:E; [done|].
    assert (is_Some ((key_of <$> dentries s) !! x)) as [y Hy] by (apply (h_in _ _ _ (dc_table _ _ _ _ Hok)); rewrite E; left).
    by rewrite Ed, lookup_fmap in Hy.
  - intros mp c Hc. rewrite (vc_mcount _ _ (dc_vc _ _ _ _ Hok) mp c Hc), Ev. unfold of_mount. by rewrite map_filter_empty, map_size_empty.
Qed.

(** C7. Over every run of callers that drop only references they hold, from empty
    caches: each count of a dentry is the number of references callers hold plus
    its children, each count of a vnode the number held plus its names, and no two
    vnodes have the same mount and number; no call fails an assertion or touches a
    freed object, and the only way not to return is a call that opens a window
    when all slots are taken; and once callers hold nothing, both caches are
    empty and the counts of the mounts are 0. *)
Theorem dcache_runs_safe mounts t s hd hv :
  (forall mp c, mounts !! mp = Some c -> c = 0) -> vfs_inv t ->
  rtc dc_step (dc_init mounts t, fun _ => 0, fun _ => 0) (s, hd, hv) ->
  dc_ok s hd hv /\
  (forall o, dc_legal o s hd hv ->
    (exists r s', dc_exec o s = Ok (r, s')) \/
    (dc_exec o s = Spin /\ opens o = true /\ ~ slot_available (wins (vc s)))) /\
  ((forall x, hd x = 0) -> (forall x, hv x = 0) ->
    dentries s = ∅ /\ vnodes (vc s) = ∅ /\ forall mp c, m_counts (vc s) !! mp = Some c -> c = 0).
Proof.
  intros Hm Ht Hr. pose proof (dc_runs_ok (dc_init mounts t, fun _ => 0, fun _ => 0) (s, hd, hv) (dc_init_ok mounts t Hm Ht) Hr) as Hok.
  simpl in Hok.
  split; [done|]. split.
  - intros o Hl. destruct (dc_exec_ok o s hd hv Hok Hl) as [(? & ? & ?)|(r & s' & ? & _)]; [by right|left; eauto].
  - intros Hd Hv. destruct (dc_empty s hd hv Hok Hd Hv) as (? & ? & _ & ?). done.
Qed.

End Clients.

(** C24. Dropping a reference to a dentry always completes, frees exactly what nobody
    needs any more and leaves the rest as it was: afterwards a dentry is in the cache if
    and only if it was before and a client still holds it or one of its descendants; its
    path, vnode, mount and parent are unchanged; the invariant of both caches holds
    again, so the vnodes in the cache are those that a client or a name refers to. The
    caller holds a reference to the dentry. *)
Theorem drele_exact s hd hv dp : dc_ok s hd hv -> 0 < hd dp ->
  exists s', drele dp s = Ok (tt, s') /\ dc_ok s' (add_held hd dp (-1)) hv /\
    static <$> dentries s' ⊆ static <$> dentries s /\
    (forall q, is_Some (dentries s' !! q) <->
      is_Some (dentries s !! q) /\ needed (d_parent <$> dentries s) (add_held hd dp (-1)) q) /\
    (forall vp, is_Some (vnodes (vc s') !! vp) <-> 0 < hv vp \/ exists q d, dentries s' !! q = Some d /\ d_vnode d = vp).
Proof.
  intros Hok Hh. destruct (drele_ok s hd hv dp Hok Hh) as (s' & Hrun & Hok' & Hst & _). exists s'.
  split; [done|]. split; [done|]. split; [done|]. pose proof (static_parent _ _ Hst) as Hpar.
  pose proof (dc_tree _ _ _ _ Hok') as Htree. split; [|intros vp; by eapply vnode_cached].
  intros q. split.
  - intros Hq. split.
    + destruct Hq as [e He]. assert ((static <$> dentries s) !! q = Some (static e)) as E by
        (eapply lookup_weaken; [|done]; by rewrite lookup_fmap, He).
      rewrite lookup_fmap in E. by apply fmap_Some in E as (? & -> & _).
    + apply (cached_needed _ _ _ Htree) in Hq as (r & l & Hr & Hl & Hin). exists r, l. split; [done|]. split; [|done].
      by eapply linked_weaken.
  - intros [_ (r & l & Hr & Hl & Hin)]. destruct (t_held _ _ Htree r) as [_ Hs].
    destruct (t_chain _ _ Htree r (Hs Hr)) as [l' Hl']. assert (l' = l) as -> by (eapply linked_det; [by eapply linked_weaken|done]).
    apply (cached_needed _ _ _ Htree). by exists r, l.
Qed.

(** ** Witnesses *)

(** A mount at 7, its root directory (vnode 4096, dentry 8192) and a file in it
    (vnode 12288, dentry 16384), all dentries held. *)
Definition demo_junk : vnode := Vnode 0 0 0 VNON 0 0 0 [] 0.
Definition demo_ops : list dc_op :=
  [CVget 4096 demo_junk 7 0; CAlloc 8192 0 4096 [47]; CVput 4096;
   CVget 12288 demo_junk 7 1; CAlloc 16384 8192 12288 [47; 97]; CVput 12288].

Fixpoint demo_run (l : list dc_op) (c : dcache * (Z -> Z) * (Z -> Z)) : option (dcache * (Z -> Z) * (Z -> Z)) :=
  match l with
  | [] => Some c
  | o :: l => if decide (dc_legal o c.1.1 c.1.2 c.2) then
                match dc_exec 200 120 (fun _ _ => 0) o c.1.1 with
                | Ok (r, s') => demo_run l (s', hd_after o r c.1.2, hv_after o r c.2)
                | _ => None
                end
              else None
  end.

Lemma demo_run_steps l c c' : demo_run l c = Some c' -> rtc (dc_step 200 120 (fun _ _ => 0)) c c'.
Proof.
  revert c. induction l as [|o l IH]; intros [[s hd] hv]; simpl; [by intros [= <-]|].
  case_decide as Hl; [|done]. destruct (dc_exec _ _ _ o s) as [[r s']| | |] eqn:E; try done.
  intros H%IH. eapply rtc_l; [by econstructor|done].
Qed.

Definition demo_start : dcache := dc_init {[7 := 0]} (vfs_tables_init 40 96 4096).
Definition demo_end : dcache * (Z -> Z) * (Z -> Z) :=
  default (demo_start, fun _ => 0, fun _ => 0) (demo_run demo_ops (demo_start, fun _ => 0, fun _ => 0)).

Lemma demo_end_run : rtc (dc_step 200 120 (fun _ _ => 0)) (demo_start, fun _ => 0, fun _ => 0) demo_end.
Proof.
  apply (demo_run_steps demo_ops). unfold demo_end.
  destruct (demo_run demo_ops _) eqn:E; [done|]. exfalso. assert (is_Some (demo_run demo_ops (demo_start, fun _ => 0, fun _ => 0))) as [? ?]; [|congruence].
  clear E. vm_compute. by eexists.
Qed.

Lemma demo_end_eta : demo_end = (demo_end.1.1, demo_end.1.2, demo_end.2).
Proof. by rewrite <- !surjective_pairing. Qed.

Lemma demo_start_ok : (forall mp c, ({[7 := 0]} : gmap Z Z) !! mp = Some c -> c = 0) /\ vfs_inv (vfs_tables_init 40 96 4096).
Proof.
  split; [by intros mp c [_ <-]%lookup_singleton_Some|]. split; [done|]. split; [done|].
  intros i e He. unfold vfs_tables_init in He. cbn [tab_heap] in He. by apply lookup_replicate in He as [-> _].
Qed.

Lemma dcache_runs_safe_witness :
  dc_ok demo_end.1.1 demo_end.1.2 demo_end.2 /\ map_size (dentries demo_end.1.1) = 2%nat /\
  exists r s', dc_exec 200 120 (fun _ _ => 0) (CDrele 16384) demo_end.1.1 = Ok (r, s').
Proof.
  destruct (dcache_runs_safe 200 120 (fun _ _ => 0) {[7 := 0]} (vfs_tables_init 40 96 4096) demo_end.1.1 demo_end.1.2 demo_end.2)
    as (Hok & Hop & _); [apply demo_start_ok|apply demo_start_ok|rewrite <- demo_end_eta; exact demo_end_run|].
  split; [exact Hok|]. split; [by vm_compute|].
  destruct (Hop (CDrele 16384)) as [H|(_ & H & _)]; [|exact H|discriminate H].
  apply (bool_decide_unpack _). by vm_compute.
Defined.

Lemma drele_exact_witness :
  exists s', drele 16384 demo_end.1.1 = Ok (tt, s') /\ dentries s' !! 16384 = None /\ is_Some (dentries s' !! 8192).
Proof.
  destruct (drele_exact demo_end.1.1 demo_end.1.2 demo_end.2 16384) as (s' & Hrun & _ & _ & Hq & _).
  - destruct demo_start_ok as [H1 H2]. exact (dc_runs_ok _ _ _ (demo_start, fun _ => 0, fun _ => 0) demo_end (dc_init_ok _ _ H1 H2) demo_end_run).
  - by vm_compute.
  - exists s'. split; [exact Hrun|]. vm_compute in Hrun. injection Hrun as <-. split; [done|by eexists].
Defined.

(** ** What goes wrong *)

Definition window_on (s : dcache) (a : Z) : bool :=
  existsb (fun e => (ipc_begin e =? a) && negb (ipc_size e =? 0)) (tab_heap (wins (vc s))).

(** The last dentry of a vnode takes the window of the vnode with it, also when
    the vnode itself stays in the cache because a caller holds it. *)
Lemma drele_closes_live_window :
  match demo_run [CVget 4096 demo_junk 7 0; CAlloc 8192 0 4096 [47]] (demo_start, fun _ => 0, fun _ => 0) with
  | Some (s, _, hv) => hv 4096 = 1 /\ window_on s 4096 = true /\
      match drele 8192 s with
      | Ok (_, s') => is_Some (vnodes (vc s') !! 4096) /\ window_on s' 4096 = false
      | _ => False
      end
  | None => False
  end.
Proof. vm_compute. split; [done|]. split; [done|]. split; [by eexists|done]. Qed.

(** Moving a directory takes its cached children off the hash table; dropping the
    last reference to such a child unlinks it a second time. *)
Lemma move_unhashes_children :
  match dentry_move true 8192 0 [47; 98] demo_end.1.1 with
  | Ok (_, s') => bool_decide (16384 ∈ hlists s') = false /\ drele 16384 s' = Undef
  | _ => False
  end.
Proof. vm_compute. done. Qed.
