(* ===== verification/Namei.v ===== *)
(** Path look-up (vfscore/lookup.c, and count_match and vfs_findroot of mount.c):
    a path is walked through the cache of dentries and the file system.

    The file system is an interface: its [VOP_LOOKUP] and [VOP_READLINK], and what
    they promise in terms of a tree of nodes.  Strings are the lists of their
    bytes without the terminator, and a pointer into a string is what follows it.
    [calloc] of a dentry is a function of the state (0 is NULL); its [strdup] is
    taken to succeed. *)
From S2P Require Import Prelude VfsTypes Windows PathConv Vnode Dentry.
From stdpp Require Import base numbers gmap fin_maps sets list.
Import Errno.
#[local] Open Scope Z_scope.

(** ** Strings *)

Definition strlcpy (src : list Z) (n : nat) : list Z := take (n - 1) src.
Definition strlcat (dst src : list Z) (n : nat) : list Z :=
  if decide (n <= length dst)%nat then dst else dst ++ take (n - 1 - length dst) src.

(** The string in a buffer. *)
Fixpoint cstr (l : list Z) : list Z := match l with x :: r => if x =? 0 then [] else x :: cstr r | [] => [] end.

(** [while ( *p == '/') p++]. *)
Fixpoint skip_slashes (p : list Z) : list Z :=
  match p with x :: r => if x =? SLASH then skip_slashes r else p | [] => [] end.

(** The characters up to the next slash or the end, and the rest. *)
Fixpoint take_name (p : list Z) : list Z * list Z :=
  match p with
  | x :: r => if x =? SLASH then ([], p) else let '(n, q) := take_name r in (x :: n, q)
  | [] => ([], [])
  end.

(** ** Mounts *)

(** [m_addr] is the address; [m_op] is the number of the type in the table of file
    systems.  The field [m_count] is in the cache of vnodes. *)
Record mount := Mount { m_addr : Z; m_path : list Z; m_root : Z; m_covered : Z; m_flags : Z; m_op : nat }.

(** The length of [mount_root] if it covers [path], and 0 if not. *)
Fixpoint match_loop (path mount_root : list Z) (len : nat) : nat * list Z * list Z :=
  match path, mount_root with
  | x :: p, y :: r => if x =? y then match_loop p r (S len) else (len, path, mount_root)
  | _, _ => (len, path, mount_root)
  end.

Definition count_match (path mount_root : list Z) : nat :=
  let '(len, p, r) := match_loop path mount_root 0 in
  if negb (bool_decide (r = [])) then 0%nat else
  if bool_decide (len = 1%nat) && bool_decide (head path = Some SLASH) then 1%nat else
  match p with
  | [] => len
  | x :: _ => if x =? SLASH then len else 0%nat
  end.

Fixpoint best_mount (path : list Z) (l : list mount) (m : option mount) (max_len : nat) : option mount * nat :=
  match l with
  | [] => (m, max_len)
  | tmp :: l =>
      if bool_decide (max_len < count_match path (m_path tmp))%nat
      then best_mount path l (Some tmp) (count_match path (m_path tmp))
      else best_mount path l m max_len
  end.

(** The mount and the part of the path below it. *)
Definition vfs_findroot (mounts : list mount) (path : list Z) : option (mount * list Z) :=
  match best_mount path mounts None 0 with
  | (Some m, len) =>
      let root := drop len path in
      Some (m, match root with x :: r => if x =? SLASH then r else root | [] => [] end)
  | (None, _) => None
  end.

(** ** The interface of a file system *)

Class FileSystem (F : Type) := {
  vop_lookup : Z -> list Z -> M (F * vcache) (Z * Z);
  vop_readlink : Z -> nat -> M (F * vcache) (Z * list Z);
  (** The tree: the node of a name in a directory, and the type of a node. *)
  entry : F -> Z -> list Z -> option Z;
  kind : F -> Z -> vtype;
  fs_inv : F -> vcache -> Prop;
  (** How many more vnodes the file system can number. *)
  lookups_left : F -> Z
}.

Section Code.
Context {F : Type} `{FileSystem F}.
Context (sizeof_dentry : Z) (calloc : dcache -> Z).

Record vfs := Vfs { dcs : dcache; fss : F; mounts : list mount }.
Definition set_dcs x s := Vfs x (fss s) (mounts s).

Definition on_dc {A} (m : M dcache A) : M vfs A := zoom dcs set_dcs m.
Definition on_fs {A} (m : M (F * vcache) A) : M vfs A :=
  zoom (fun s => (fss s, vc (dcs s))) (fun x s => Vfs (set_vc x.2 (dcs s)) x.1 (mounts s)) m.

(** The window on a variable of the stack is moved to it. *)
Definition stack_window (i : nat) (a : Z) : M vfs unit :=
  on_dc (on_vc (on_wins (modify (fun t =>
    set_tab_stack (alter (fun e => Ipc a (ipc_size e) (ipc_mask e)) i (tab_stack t)) t)))).

Definition read_link (vp : Z) (bufsz : nat) : M vfs (Z * list Z) :=
  on_dc (on_vc (vn_lock vp));;
  r ← on_fs (vop_readlink vp bufsz);
  on_dc (on_vc (vn_unlock vp));;
  mret (if r.1 =? 0 then r else (r.1, [])).

(** The error, and the path to go on with.  The terminator of a link that fills
    the buffer is stored behind it; so is, perhaps, what [path_conv] builds.  The
    string that [path_conv] leaves when it fails is the old one. *)
Definition namei_follow_link (dp : Z) (node name fp : list Z) (mountpoint_len : nat) : M vfs (Z * list Z) :=
  d ← on_dc (dentry_at dp);
  r ← read_link (d_vnode d) PATH_MAX;
  if negb (r.1 =? 0) then mret (r.1, fp) else
  if decide (PATH_MAX <= length r.2)%nat then undef else
  let link := cstr r.2 in
  if decide (length fp < mountpoint_len + length node)%nat then undef else
  let p := drop (mountpoint_len + length node) fp in
  let c := (length node - length name - 1)%nat in
  if bool_decide (head link = Some SLASH) then
    mret (0, strlcpy (strlcat link p PATH_MAX) PATH_MAX)
  else
    let t := strlcpy p PATH_MAX in
    let node := strlcpy fp (mountpoint_len + c + 1) in
    r ← lift (path_conv node link);
    mret (0, strlcat (if r.1 =? 0 then r.2 else fp) t PATH_MAX).

(** How the walk over the components ends: with a result and [*dpp], or with a
    link and the path to go on with. *)
Inductive walked := Done (error dp : Z) | Link (fp : list Z).

(** The dentry for [node], whose last name is [name], below the directory [ddp]
    with vnode [dvp]: from the cache, or a new one. *)
Definition get_dentry (mp ddp dvp : Z) (node name : list Z) : M vfs (Z * Z) :=
  dp ← on_dc (dentry_lookup mp node);
  if negb (dp =? 0) then mret (0, dp) else
  l ← on_fs (vop_lookup dvp name);
  if negb (l.1 =? 0) then mret l else
  a ← gets (fun s => calloc (dcs s));
  dp ← on_dc (dentry_alloc sizeof_dentry a true ddp l.2 node);
  on_dc (on_vc (vput l.2));;
  mret (if dp =? 0 then ENOMEM else 0, dp).

(** One component [name] of the path below the dentry [ddp]: the error, or 0 and
    the dentry of the component, which takes the place of [ddp]. *)
Definition walk_step (mp ddp : Z) (node name : list Z) : M vfs (Z * Z) :=
  d ← on_dc (dentry_at ddp);
  on_dc (on_vc (vn_lock (d_vnode d)));;
  r ← get_dentry mp ddp (d_vnode d) node name;
  on_dc (on_vc (vn_unlock (d_vnode d)));;
  on_dc (drele ddp);;
  mret (if r.1 =? 0 then r else (r.1, 0)).

(** [while ( *p != '\0')]; every turn but the last takes a character off [p].
    [dp] is what the variable of this name holds. *)
Fixpoint walk (n : nat) (m : mount) (fp : list Z) (mountpoint_len : nat) (ddp dp : Z) (node p : list Z) : M vfs walked :=
  match n, skip_slashes p with
  | O, _ => undef
  | _, [] => mret (Done 0 dp)
  | S n, p =>
      let '(name, p) := take_name p in
      if decide (PATH_MAX <= length name)%nat then undef else
      let node := strlcat (strlcat node [SLASH] PATH_MAX) name PATH_MAX in
      r ← walk_step (m_addr m) ddp node name;
      if negb (r.1 =? 0) then mret (Done r.1 0) else
      let dp := r.2 in
      d ← on_dc (dentry_at dp);
      v ← on_dc (on_vc (vnode_at (d_vnode d)));
      if bool_decide (v_type v = VLNK) then
        r ← namei_follow_link dp node name fp mountpoint_len;
        on_dc (drele dp);;
        mret (if negb (r.1 =? 0) then Done r.1 0 else Link r.2)
      else if bool_decide (head p = Some SLASH) && negb (bool_decide (v_type v = VDIR)) then
        on_dc (drele dp);; mret (Done ENOTDIR 0)
      else walk n m fp mountpoint_len dp dp node p
  end.

(** [do ... while (need_continue)]; [k] counts the links that may still be followed. *)
Fixpoint namei_loop (k : nat) (fp : list Z) : M vfs (Z * Z) :=
  ms ← gets mounts;
  match vfs_findroot ms fp with
  | None => mret (ENOTDIR, 0)
  | Some (m, p) =>
      let mountpoint_len := (length fp - length p - 1)%nat in
      let node := strlcat [SLASH] p PATH_MAX in
      dp ← on_dc (dentry_lookup (m_addr m) node);
      if negb (dp =? 0) then mret (0, dp) else
      if m_root m =? 0 then abort else
      on_dc (dref (m_root m));;
      w ← walk (S (length p)) m fp mountpoint_len (m_root m) 0 [] p;
      match w, k with
      | Done e dp, _ => mret (e, dp)
      | Link fp', S (S _ as k') => namei_loop k' fp'
      | Link _, _ => mret (ELOOP, 0)
      end
  end.

(** [pad_vp] and [pad_name] are the addresses of variables on the stack. *)
Definition namei (pad_vp pad_name : Z) (path : list Z) : M vfs (Z * Z) :=
  stack_window 3 pad_vp;;
  stack_window 4 pad_name;;
  namei_loop MAXSYMLINKS (strlcpy path PATH_MAX).

(** [strrchr (path, '/')]: the part before the last slash and the part behind it. *)
Fixpoint strrchr (path : list Z) : option (list Z * list Z) :=
  match path with
  | [] => None
  | x :: r => match strrchr r with
              | Some (a, b) => Some (x :: a, b)
              | None => if x =? SLASH then Some ([], r) else None
              end
  end.

Definition namei_last_nofollow (pad_vp : Z) (path : list Z) (ddp : Z) : M vfs (Z * Z) :=
  stack_window 3 pad_vp;;
  if negb (bool_decide (head path = Some SLASH)) then mret (ENOTDIR, 0) else
  match strrchr path with
  | None => mret (ENOENT, 0)
  | Some (_, name) =>
      ms ← gets mounts;
      match vfs_findroot ms path with
      | None => mret (ENOTDIR, 0)
      | Some (m, p) =>
          let node := strlcat [SLASH] p PATH_MAX in
          let l := (length node - 1)%nat in
          let node := if bool_decide (l <> 0%nat) && bool_decide (node !! l = Some SLASH) then take l node else node in
          d ← on_dc (dentry_at ddp);
          on_dc (on_vc (vn_lock (d_vnode d)));;
          r ← get_dentry (m_addr m) ddp (d_vnode d) node name;
          on_dc (on_vc (vn_unlock (d_vnode d)));;
          mret (if r.1 =? 0 then r else (r.1, 0))
      end
  end.

(** The dentry of the directory of [path], and the name in it.  A path without a
    slash makes [file] NULL, and the store through it is undefined. *)
Definition lookup (pad_vp pad_name : Z) (path : list Z) : M vfs (Z * Z * list Z) :=
  let buf := strlcpy path PATH_MAX in
  if bool_decide (buf = []) then mret (ENOTDIR, 0, []) else
  match strrchr buf, strrchr path with
  | None, _ | _, None => undef
  | Some (before, _), Some (_, name) =>
      let dir := match before with [] => [SLASH] | _ => before end in
      r ← namei pad_vp pad_name dir;
      if negb (r.1 =? 0) then mret (r.1, 0, []) else
      let dp := r.2 in
      d ← on_dc (dentry_at dp);
      v ← on_dc (on_vc (vnode_at (d_vnode d)));
      if negb (bool_decide (v_type v = VDIR)) then on_dc (drele dp);; mret (ENOTDIR, 0, []) else
      mret (0, dp, name)
  end.

End Code.

(** ** Mounts: the longest path wins *)

(** [root] is the root directory or a directory that [path] lies in. *)
Definition covers (root path : list Z) : Prop :=
  root <> [] /\ exists rest, path = root ++ rest /\ (root = [SLASH] \/ rest = [] \/ head rest = Some SLASH).

Lemma match_loop_spec path root len :
  let '(l, p, r) := match_loop path root len in
  exists pre, path = pre ++ p /\ root = pre ++ r /\ l = (len + length pre)%nat /\
    (r = [] \/ p = [] \/ head p <> head r).
Proof.
  revert root len. induction path as [|x path IH]; intros [|y root] len; simpl.
  - exists []. split; [done|]. split; [done|]. split; [simpl; lia|by left].
  - exists []. split; [done|]. split; [done|]. split; [simpl; lia|by right; left].
  - exists []. split; [done|]. split; [done|]. split; [simpl; lia|by left].
  - destruct (Z.eqb_spec x y) as [->|Hxy].
    + specialize (IH root (S len)). destruct (match_loop path root (S len)) as [[l p] r].
      destruct IH as (pre & -> & -> & -> & Hend). exists (y :: pre). split; [done|]. split; [done|]. split; [simpl; lia|done].
    + exists []. split; [done|]. split; [done|]. split; [simpl; lia|]. right. right. simpl. congruence.
Qed.

Lemma count_match_spec path root :
  (covers root path /\ count_match path root = length root) \/ (~ covers root path /\ count_match path root = 0%nat).
Proof.
  unfold count_match. pose proof (match_loop_spec path root 0) as Hm. destruct (match_loop path root 0) as [[l p] r].
  destruct Hm as (pre & -> & -> & -> & Hend). simpl. rewrite bool_decide_decide. destruct (decide (r = [])) as [->|Hr]; simpl.
  2:{ right. split; [|done]. intros (_ & rest & E & _). rewrite <- app_assoc in E. apply app_inv_head in E.
      destruct Hend as [?|[->|Hh]]; [done|by destruct r|]. apply Hh. rewrite E. by destruct r. }
  rewrite app_nil_r in *. case_bool_decide as H1; simpl.
  - destruct pre as [|x [|]]; try done. simpl. case_bool_decide as H2; simpl.
    + injection H2 as ->. left. split; [|done]. split; [done|]. exists p. split; [done|by left].
    + destruct p as [|y p]; simpl.
      * left. split; [|done]. split; [done|]. exists []. split; [done|by right; left].
      * destruct (Z.eqb_spec y SLASH) as [->|Hy].
        -- left. split; [|done]. split; [done|]. eexists. split; [done|by right; right].
        -- right. split; [|done]. intros (_ & rest & E & Hc). simpl in E. injection E as <-. simpl in Hc.
           destruct Hc as [[= ->]|[?|[= ?]]]; done.
  - destruct pre as [|x pre].
    + right. split; [by intros [? _]|]. simpl. destruct p as [|y p]; [done|]. by destruct (y =? SLASH).
    + destruct p as [|y p]; simpl.
      * left. split; [|done]. split; [done|]. exists []. split; [done|by right; left].
      * destruct (Z.eqb_spec y SLASH) as [->|Hy].
        -- left. split; [|done]. split; [done|]. eexists. split; [done|by right; right].
        -- right. split; [|done]. intros (_ & rest & E & Hc). simpl in E. injection E as E. apply app_inv_head in E as <-.
           destruct Hc as [[= -> ->]|[?|[= ?]]]; done.
Qed.

Lemma best_mount_spec path l m0 len0 :
  (match m0 with Some m => covers (m_path m) path /\ len0 = length (m_path m) | None => len0 = 0%nat end) ->
  match best_mount path l m0 len0 with
  | (Some m, len) => (m0 = Some m \/ m ∈ l) /\ covers (m_path m) path /\ len = length (m_path m) /\ (len0 <= len)%nat /\
      forall m', m' ∈ l -> covers (m_path m') path -> (length (m_path m') <= len)%nat
  | (None, len) => m0 = None /\ forall m', m' ∈ l -> ~ covers (m_path m') path
  end.
Proof.
  revert m0 len0. induction l as [|t l IH]; intros m0 len0 H0; simpl.
  { destruct m0 as [m|]; [destruct H0 as [? ->]|]; [split; [by left|]; split; [done|]; split; [done|]; split; [lia|]|split; [done|]];
      by intros ? ?%elem_of_nil. }
  destruct (count_match_spec path (m_path t)) as [[Hc E]|[Hc E]]; rewrite E; case_bool_decide as Hlt.
  - specialize (IH (Some t) (length (m_path t)) (conj Hc eq_refl)). destruct (best_mount _ _ _ _) as [[m|] len]; [|by destruct IH].
    destruct IH as (Hin & Hcv & Hl & Hle & Hmax). split; [right|split; [done|split; [done|split; [lia|]]]].
    + destruct Hin as [[= ->]|]; [left|by right].
    + intros m' [->|Hm]%elem_of_cons Hcm; [lia|by apply Hmax].
  - specialize (IH m0 len0 H0). destruct (best_mount _ _ _ _) as [[m|] len].
    + destruct IH as (Hin & Hcv & Hl & Hle & Hmax). split; [destruct Hin; [by left|right; by right]|].
      split; [done|]. split; [done|]. split; [done|]. intros m' [->|Hm]%elem_of_cons Hcm; [lia|by apply Hmax].
    + destruct IH as [-> _]. exfalso. subst len0. destruct Hc as [Hne _]. destruct (m_path t); [done|simpl in *; lia].
  - lia.
  - specialize (IH m0 len0 H0). destruct (best_mount _ _ _ _) as [[m|] len].
    + destruct IH as (Hin & Hcv & Hl & Hle & Hmax). split; [destruct Hin; [by left|right; by right]|].
      split; [done|]. split; [done|]. split; [done|]. intros m' [->|Hm]%elem_of_cons Hcm; [done|by apply Hmax].
    + destruct IH as [? Hno]. split; [done|]. intros m' [->|Hm]%elem_of_cons; [done|by apply Hno].
Qed.

Lemma findroot_spec ms path :
  match vfs_findroot ms path with
  | Some (m, p) => m ∈ ms /\ covers (m_path m) path /\
      (forall m', m' ∈ ms -> covers (m_path m') path -> (length (m_path m') <= length (m_path m))%nat) /\
      (path = m_path m ++ p \/ path = m_path m ++ SLASH :: p)
  | None => forall m', m' ∈ ms -> ~ covers (m_path m') path
  end.
Proof.
  unfold vfs_findroot. pose proof (best_mount_spec path ms None 0 eq_refl) as Hb.
  destruct (best_mount path ms None 0) as [[m|] len]; [|by destruct Hb].
  destruct Hb as ([?|Hin] & Hc & -> & _ & Hmax); [done|]. split; [done|]. split; [done|]. split; [done|].
  destruct Hc as (_ & rest & -> & _). rewrite drop_app_length. destruct rest as [|x rest]; [by left|].
  destruct (Z.eqb_spec x SLASH) as [->|]; [by right|by left].
Qed.

(** The mount that is found is the first with its length. *)
Lemma best_mount_first path l : forall m0 len0 m len, best_mount path l m0 len0 = (Some m, len) ->
  (m0 = Some m /\ len = len0) \/
  exists pre post, l = pre ++ m :: post /\ (len0 < len)%nat /\
    forall m', m' ∈ pre -> covers (m_path m') path -> (length (m_path m') < len)%nat.
Proof.
  induction l as [|t l IH]; intros m0 len0 m len Hb; simpl in Hb; [left; by injection Hb as -> ->|].
  assert (covers (m_path t) path -> length (m_path t) = count_match path (m_path t)) as Ht.
  { intros Hc. destruct (count_match_spec path (m_path t)) as [[_ E]|[? _]]; [done|done]. }
  case_bool_decide as Hlt; apply IH in Hb as [[E ->]|(pre & post & -> & Hl & Hpre)].
  - injection E as <-. right. exists [], l. split; [done|]. split; [done|]. by intros ? ?%elem_of_nil.
  - right. exists (t :: pre), post. split; [done|]. split; [lia|].
    intros m' [->|Hm]%elem_of_cons Hc; [rewrite (Ht Hc); lia|by apply Hpre].
  - by left.
  - right. exists (t :: pre), post. split; [done|]. split; [done|].
    intros m' [->|Hm]%elem_of_cons Hc; [rewrite (Ht Hc); lia|by apply Hpre].
Qed.

(** C32. [vfs_findroot] picks, of all mounts whose path is the root directory or a directory
    that the given path lies in, the first of those with the longest path: those before
    it in the list that cover the path have shorter paths, those after it no longer
    ones.  The rest it returns is what follows the path of the mount, without the slash
    if there is one.  It fails exactly if no mount covers the path. *)
Theorem findroot_longest ms path :
  match vfs_findroot ms path with
  | Some (m, p) => exists pre post, ms = pre ++ m :: post /\ covers (m_path m) path /\
      (forall m', m' ∈ pre -> covers (m_path m') path -> (length (m_path m') < length (m_path m))%nat) /\
      (forall m', m' ∈ post -> covers (m_path m') path -> (length (m_path m') <= length (m_path m))%nat) /\
      (path = m_path m ++ SLASH :: p \/ path = m_path m ++ p /\ head p <> Some SLASH)
  | None => forall m', m' ∈ ms -> ~ covers (m_path m') path
  end.
Proof.
  unfold vfs_findroot. pose proof (best_mount_spec path ms None 0 eq_refl) as Hb.
  destruct (best_mount path ms None 0) as [[m|] len] eqn:E; [|by destruct Hb].
  destruct Hb as (_ & Hc & -> & _ & Hmax). apply best_mount_first in E as [[? _]|(pre & post & -> & _ & Hpre)]; [done|].
  exists pre, post. split; [done|]. split; [done|]. split; [done|]. split; [intros m' Hm; apply Hmax; set_solver|].
  destruct Hc as (_ & rest & -> & _). rewrite drop_app_length. destruct rest as [|x rest]; [by right|].
  destruct (Z.eqb_spec x SLASH) as [->|]; [by left|right; split; [done|simpl; congruence]].
Qed.

(** Two mounts on /m, below the root: /m/a is found in the first of them. *)
Definition demo_mounts : list mount :=
  [Mount 1 [47] 0 0 0 0; Mount 2 [47; 109] 0 0 0 0; Mount 3 [47; 109] 0 0 0 0].

Lemma findroot_longest_witness :
  vfs_findroot demo_mounts [47; 109; 47; 97] = Some (Mount 2 [47; 109] 0 0 0 0, [97]) /\
  exists pre post, demo_mounts = pre ++ Mount 2 [47; 109] 0 0 0 0 :: post /\ covers [47; 109] [47; 109; 47; 97] /\
    (forall m', m' ∈ pre -> covers (m_path m') [47; 109; 47; 97] -> (length (m_path m') < 2)%nat) /\
    (forall m', m' ∈ post -> covers (m_path m') [47; 109; 47; 97] -> (length (m_path m') <= 2)%nat) /\
    ([47; 109; 47; 97] = [47; 109] ++ SLASH :: [97] \/ [47; 109; 47; 97] = [47; 109] ++ [97] /\ head [97] <> Some SLASH).
Proof. split; [reflexivity|]. exact (findroot_longest demo_mounts [47; 109; 47; 97]). Defined.

(** ** Strings and components *)

Lemma segs_slash p : segs (SLASH :: p) = segs p.
Proof. unfold segs. simpl. rewrite filter_cons_False; [done|]. naive_solver. Qed.

Lemma skip_slashes_spec p : exists k, p = replicate k SLASH ++ skip_slashes p /\ head (skip_slashes p) <> Some SLASH /\
  segs p = segs (skip_slashes p).
Proof.
  induction p as [|x p (k & IH & Hh & Hs)]; [by exists 0%nat|]. simpl. destruct (Z.eqb_spec x SLASH) as [->|].
  - exists (S k). simpl. rewrite <- IH. split; [done|]. split; [done|]. by rewrite segs_slash.
  - exists 0%nat. split; [done|]. split; [simpl; congruence|done].
Qed.

Lemma take_name_spec p : let '(name, q) := take_name p in
  p = name ++ q /\ (SLASH ∉ name) /\ (q = [] \/ head q = Some SLASH) /\ (head p <> Some SLASH -> p <> [] -> name <> []).
Proof.
  induction p as [|x p IH]; simpl; [set_solver|]. destruct (Z.eqb_spec x SLASH) as [->|Hx].
  - split; [done|]. split; [set_solver|]. split; [by right|done].
  - destruct (take_name p) as [name q]. destruct IH as (-> & Hs & Hq & _). split; [done|]. split; [set_solver|].
    split; [done|]. done.
Qed.

Lemma segs_name name q : name_ok name -> q = [] \/ head q = Some SLASH -> segs (name ++ q) = name :: segs q.
Proof.
  intros [Hn Hs] Hq. unfold segs. rewrite comps_app_noslash by done. destruct q as [|y q].
  - simpl. rewrite app_nil_r. rewrite filter_cons_True by done. by rewrite filter_cons_False by naive_solver.
  - destruct Hq as [?|[= ->]]; [done|]. simpl. rewrite app_nil_r. rewrite filter_cons_True by done. done.
Qed.

(** The path ends with a slash. *)
Definition ends_slash (p : list Z) : bool := bool_decide (last p = Some SLASH).

(** One turn of the walk takes one component. *)
Lemma walk_split p : match skip_slashes p with
  | [] => segs p = []
  | _ => let '(name, q) := take_name (skip_slashes p) in
      name_ok name /\ segs p = name :: segs q /\ (q = [] \/ head q = Some SLASH) /\ ends_slash p = ends_slash q /\
      (length name + length q <= length p)%nat /\ (head p = Some SLASH -> (S (length name + length q) <= length p)%nat) /\
      (q <> [] -> segs q = [] -> ends_slash q = true)
  end.
Proof.
  destruct (skip_slashes_spec p) as (k & Hp & Hh & Hs). destruct (skip_slashes p) as [|x r] eqn:E; [done|].
  pose proof (take_name_spec (x :: r)) as Ht. destruct (take_name (x :: r)) as [name q].
  destruct Ht as (Heq & Hns & Hq & Hne). specialize (Hne Hh ltac:(done)). rewrite Heq in *.
  assert (length p = k + (length name + length q))%nat as Hlen by (rewrite Hp, !length_app, length_replicate; done).
  split; [done|]. split; [rewrite Hs; by apply segs_name|]. split; [done|]. split; [|split; [lia|split]].
  - unfold ends_slash. rewrite Hp. destruct q as [|y q _] using rev_ind.
    + rewrite app_nil_r. destruct name as [|z name _] using rev_ind; [done|]. rewrite app_assoc, last_snoc. simpl.
      rewrite bool_decide_false; [done|]. intros [= ->]. set_solver.
    + by rewrite !app_assoc, !last_snoc.
  - intros Hhp. destruct k; [|lia]. exfalso. apply Hh. by rewrite <- Hhp, Hp.
  - clear -Hq. intros Hqn Hsq. unfold ends_slash. apply bool_decide_true.
    destruct (skip_slashes_spec q) as (k & Hp & Hh & Hs). destruct (skip_slashes q) as [|y r] eqn:E.
    + rewrite app_nil_r in Hp. rewrite Hp. destruct k; [by rewrite Hp in Hqn|]. rewrite replicate_S_end. apply last_snoc.
    + exfalso. pose proof (take_name_spec (y :: r)) as Ht. destruct (take_name (y :: r)) as [name q'].
      destruct Ht as (Heq & Hns & Hq' & Hne). specialize (Hne Hh ltac:(done)). rewrite Hs, Heq, segs_name in Hsq; done.
Qed.

Lemma strlcat_fits dst src n : (length dst + length src < n)%nat -> strlcat dst src n = dst ++ src.
Proof. intros Hl. unfold strlcat. rewrite decide_False by lia. by rewrite take_ge by lia. Qed.

Lemma strlcpy_fits src n : (length src < n)%nat -> strlcpy src n = src.
Proof. intros Hl. unfold strlcpy. by rewrite take_ge by lia. Qed.

Lemma node_fits done name : (length (render done) + S (length name) < PATH_MAX)%nat ->
  strlcat (strlcat (render done) [SLASH] PATH_MAX) name PATH_MAX = render (done ++ [name]).
Proof.
  intros Hl. rewrite (strlcat_fits (render done)) by (simpl; lia). rewrite strlcat_fits by (rewrite length_app; simpl; lia).
  rewrite render_snoc. by rewrite <- app_assoc.
Qed.

Lemma segs_dir_string cs : Forall name_ok cs -> segs (dir_string cs) = cs.
Proof.
  intros HF. apply segs_denotes; [done|]. destruct cs; [by left|]. right. done.
Qed.

Lemma same_path_eq p q : (length p < PATH_MAX)%nat -> (length q < PATH_MAX)%nat -> same_path p q = true -> p = q.
Proof. intros Hp Hq E%bool_decide_eq_true. by rewrite !take_ge in E by lia. Qed.

(** ** The tree *)

Inductive resolved := RFound (n : Z) | RErr (error : Z).

Section Tree.
Context {F : Type} `{FileSystem F}.

(** The node that a list of names leads to from [n]; [slash] says that the last
    one has to be a directory, too. *)
Fixpoint lookup_tree (f : F) (n : Z) (cs : list (list Z)) (slash : bool) : resolved :=
  match cs with
  | [] => RFound n
  | c :: cs =>
      match entry f n c with
      | None => RErr ENOENT
      | Some n' =>
          if (negb (bool_decide (cs = [])) || slash) && negb (bool_decide (kind f n' = VDIR)) then RErr ENOTDIR
          else lookup_tree f n' cs slash
      end
  end.

Definition fs_same (f f' : F) : Prop := forall n, kind f' n = kind f n /\ forall c, entry f' n c = entry f n c.

#[global] Instance fs_same_refl : Reflexive fs_same.
Proof. by intros f n. Qed.
#[global] Instance fs_same_trans : Transitive fs_same.
Proof.
  intros f1 f2 f3 H1 H2 n. destruct (H1 n) as [K1 E1], (H2 n) as [K2 E2]. split; [congruence|]. intros c. by rewrite E2, E1.
Qed.

Lemma lookup_tree_same f f' n cs slash : fs_same f f' -> lookup_tree f' n cs slash = lookup_tree f n cs slash.
Proof.
  intros Hs. revert n. induction cs as [|c cs IH]; intros n; simpl; [done|]. destruct (Hs n) as [_ ->].
  destruct (entry f n c) as [n'|]; [|done]. destruct (Hs n') as [-> _]. by rewrite IH.
Qed.

(** One more name below a directory. *)
Lemma lookup_tree_snoc f r cs c n : lookup_tree f r cs false = RFound n -> cs = [] \/ kind f n = VDIR ->
  lookup_tree f r (cs ++ [c]) false = match entry f n c with Some n' => RFound n' | None => RErr ENOENT end.
Proof.
  revert r. induction cs as [|x cs IH]; intros r Hr Hd; simpl in *.
  - injection Hr as ->. by destruct (entry f n c).
  - destruct (entry f r x) as [r'|]; [|done]. destruct Hd as [?|Hd]; [done|].
    rewrite bool_decide_false by (by destruct cs). simpl. destruct cs as [|y cs].
    + simpl in *. injection Hr as ->. rewrite bool_decide_true by done. simpl. by destruct (entry f n c).
    + rewrite bool_decide_false in Hr by done. simpl in Hr. case_bool_decide; [|done]. simpl in *. apply IH; [done|by right].
Qed.

End Tree.
