(* ===== verification/Resolve.v ===== *)
(** Path look-up is correct: [namei] (vfscore/lookup.c) finds the node that the
    tree of the file system has under a path, whatever is in the caches, and
    accounts for every reference.

    The file system is known by the laws of its interface only.  They are stated
    for a file system that gives out a new vnode at every look-up, as those of the
    image do. *)
From S2P Require Import Prelude VfsTypes Windows PathConv Vnode Dentry Namei.
From stdpp Require Import base numbers gmap fin_maps sets list.
Import Errno.
#[local] Open Scope Z_scope.

(** ** What a file system promises *)

(** What a vnode stands for. *)
Definition vnamed (v : vnode) : Z * Z * vtype * Z * Z := (v_ino v, v_mount v, v_type v, v_size v, v_data v).

Lemma vstatic_named (m m' : gmap Z vnode) : vstatic <$> m' ⊆ vstatic <$> m -> vnamed <$> m' ⊆ vnamed <$> m.
Proof.
  intros H. apply (map_fmap_mono (fun x => let '(i, mp, t, _, _, z, d) := x in (i, mp, t, z, d))) in H.
  by rewrite <- !map_fmap_compose in H.
Qed.

(** [s'] is [s] with the vnode [w] at [a], to which the caller holds a reference. *)
Record new_vnode_at (s s' : vcache) (held : Z -> Z) (a : Z) (w : vnode) : Prop := {
  nv_null : a <> 0;
  nv_fresh : vnodes s !! a = None;
  nv_vnodes : vnodes s' = <[a := w]> (vnodes s);
  nv_names : v_names w = [];
  nv_ok : vc_ok s' (add_held held a 1);
  nv_slots : (free_slots (wins s) <= S (free_slots (wins s')))%nat;
  nv_mounts : forall mp, is_Some (m_counts s !! mp) -> is_Some (m_counts s' !! mp)
}.

Class FileSystemLaws (F : Type) `{FileSystem F} := {
  (** A look-up in a directory finds the entry of the tree and makes a vnode for
      it, or returns ENOENT. *)
  law_lookup (f : F) s held dvp v name :
    vc_ok s held -> fs_inv f s -> vnodes s !! dvp = Some v -> kind f (v_data v) = VDIR -> name_ok name ->
    0 < lookups_left f -> (0 < free_slots (wins s))%nat -> is_Some (m_counts s !! v_mount v) ->
    exists f', fs_same f f' /\ lookups_left f - 1 <= lookups_left f' /\
      match entry f (v_data v) name with
      | None => vop_lookup dvp name (f, s) = Ok ((ENOENT, 0), (f', s)) /\ fs_inv f' s
      | Some n => exists a w s', vop_lookup dvp name (f, s) = Ok ((0, a), (f', s')) /\ fs_inv f' s' /\
          new_vnode_at s s' held a w /\ v_data w = n /\ v_mount w = v_mount v /\ v_type w = kind f n
      end;
  (** The caches may drop vnodes and change their counts, names, flags and modes. *)
  law_inv (f : F) s s' : fs_inv f s -> vnamed <$> vnodes s' ⊆ vnamed <$> vnodes s -> fs_inv f s'
}.

Section Resolve.
Context {F : Type} `{FileSystemLaws F}.
Context (sizeof_dentry : Z) (calloc : dcache -> Z).
(** There is memory, and what the allocator returns is not in use. *)
Hypothesis calloc_fresh : forall s, calloc s <> 0 /\ dentries s !! calloc s = None.
(** The root node of each mount, and the mounts that there is a structure for
    (there may be one more than on the list, while it is being set up). *)
Context (roots : Z -> option Z) (live : list Z).

(** ** Invariant *)

(** A hashed dentry names the node that its path leads to, and its vnode has the
    type of the node. *)
Definition good_dentry (s : @vfs F) (d : dentry) : Prop :=
  exists cs v r, Forall name_ok cs /\ d_path d = Some (dir_string cs) /\ (length (dir_string cs) < PATH_MAX)%nat /\
    vnodes (vc (dcs s)) !! d_vnode d = Some v /\ roots (d_mount d) = Some r /\
    lookup_tree (fss s) r cs false = RFound (v_data v) /\ v_type v = kind (fss s) (v_data v).

Record vfs_ok (s : @vfs F) (hd hv : Z -> Z) : Prop := {
  ok_dc : dc_ok (dcs s) hd hv;
  ok_fs : fs_inv (fss s) (vc (dcs s));
  ok_dentry : forall dp d, dp ∈ concat (dtable (dcs s)) -> dentries (dcs s) !! dp = Some d -> good_dentry s d;
  ok_unique : forall dp dp' d d', dp ∈ concat (dtable (dcs s)) -> dp' ∈ concat (dtable (dcs s)) -> dentries (dcs s) !! dp = Some d ->
    dentries (dcs s) !! dp' = Some d' -> d_mount d = d_mount d' -> d_path d = d_path d' -> dp = dp';
  ok_mount : forall m, m ∈ mounts s -> 0 < hd (m_root m) /\ (m_root m ∉ fake (dcs s)) /\
    exists d r, dentries (dcs s) !! m_root m = Some d /\ d_mount d = m_addr m /\ d_path d = Some [SLASH] /\
      roots (m_addr m) = Some r /\ kind (fss s) r = VDIR;
  ok_vnode : forall vp v, vnodes (vc (dcs s)) !! vp = Some v -> exists m, m ∈ mounts s /\ m_addr m = v_mount v;
  ok_live : forall mp, mp ∈ live -> is_Some (m_counts (vc (dcs s)) !! mp)
}.

(** Counts, windows and numbers suffice for [n] more components. *)
Record room (s : @vfs F) (hd hv : Z -> Z) (n : nat) : Prop := {
  rm_hd : forall x, hd x + Z.of_nat (size (dentries (dcs s))) + Z.of_nat n + 2 < 2 ^ 31;
  rm_hv : forall x, hv x + Z.of_nat (size (dentries (dcs s))) + Z.of_nat n + 2 < 2 ^ 31;
  rm_fs : Z.of_nat n <= lookups_left (fss s);
  rm_slots : (2 * n <= free_slots (wins (vc (dcs s))))%nat
}.

(** ** Counts *)

Lemma children_bound m hd dp d : tree_ok m hd -> m !! dp = Some d -> (length (d_children d) <= size m)%nat.
Proof.
  intros Hok Hd. destruct (t_child _ _ Hok dp d Hd) as [Hnd Hc].
  rewrite <- (size_list_to_set (C := gset Z) (d_children d)) by done. rewrite <- size_dom. apply subseteq_size.
  intros x Hx%elem_of_list_to_set%Hc. rewrite lookup_fmap in Hx. apply fmap_Some in Hx as (e & He & _). by apply elem_of_dom_2 in He.
Qed.

Lemma names_bound vn m vp v : names_ok vn m -> vn !! vp = Some v -> (length (v_names v) <= size m)%nat.
Proof.
  intros Hok Hv. destruct (n_names _ _ Hok vp v Hv) as [Hnd Hc].
  rewrite <- (size_list_to_set (C := gset Z) (v_names v)) by done. rewrite <- size_dom. apply subseteq_size.
  intros x Hx%elem_of_list_to_set%Hc. rewrite lookup_fmap in Hx. apply fmap_Some in Hx as (e & He & _). by apply elem_of_dom_2 in He.
Qed.

Lemma count_le s hd hv dp d : dc_ok s hd hv -> dentries s !! dp = Some d ->
  d_refcnt d <= hd dp + Z.of_nat (size (dentries s)).
Proof.
  intros Hok Hd. destruct (t_count _ _ (dc_tree _ _ _ _ Hok) dp d Hd) as [-> _].
  pose proof (children_bound _ _ _ _ (dc_tree _ _ _ _ Hok) Hd). lia.
Qed.

Lemma vcount_le s hd hv vp v : dc_ok s hd hv -> vnodes (vc s) !! vp = Some v ->
  v_refcnt v <= hv vp + Z.of_nat (size (dentries s)).
Proof.
  intros Hok Hv. destruct (vc_count _ _ (dc_vc _ _ _ _ Hok) vp v Hv) as [-> _]. unfold vheld. rewrite Hv.
  pose proof (names_bound _ _ _ _ (dc_names _ _ _ _ Hok) Hv). lia.
Qed.

(** ** Steps that only take things out *)

Definition roots_held (s : @vfs F) (hd : Z -> Z) : Prop := forall m, m ∈ mounts s -> 0 < hd (m_root m).

Lemma static_get {A B} {f : A -> B} (m m' : gmap Z A) q x' : f <$> m' ⊆ f <$> m -> m' !! q = Some x' ->
  exists x, m !! q = Some x /\ f x = f x'.
Proof.
  intros Hs Hd. assert ((f <$> m) !! q = Some (f x')) as E by (eapply lookup_weaken; [|done]; by rewrite lookup_fmap, Hd).
  rewrite lookup_fmap in E. apply fmap_Some in E as (x & ? & ?). eauto.
Qed.

(** The vnode of a live dentry. *)
Lemma dentry_vnode s m hd hv dp d : dc_inv s m hd hv -> m !! dp = Some d ->
  exists v, vnodes (vc s) !! d_vnode d = Some v /\ v_mount v = d_mount d.
Proof.
  intros Hok Hd. destruct (n_vnode _ _ (dc_names _ _ _ _ Hok) dp (d_vnode d) (d_mount d)) as (v & Hv & E); [by rewrite lookup_fmap, Hd|].
  by exists v.
Qed.

Lemma vfs_ok_trim s t ms hd hv hd' hv' : vfs_ok s hd hv -> dc_ok t hd' hv' ->
  static <$> dentries t ⊆ static <$> dentries (dcs s) -> vstatic <$> vnodes (vc t) ⊆ vstatic <$> vnodes (vc (dcs s)) ->
  (forall x, x ∈ concat (dtable t) -> x ∈ concat (dtable (dcs s))) -> (forall x, x ∈ fake t -> x ∈ fake (dcs s)) ->
  (forall mp, mp ∈ live -> is_Some (m_counts (vc t) !! mp)) -> (forall m, m ∈ ms -> m ∈ mounts s /\ 0 < hd' (m_root m)) ->
  (forall vp v, vnodes (vc t) !! vp = Some v -> exists m, m ∈ ms /\ m_addr m = v_mount v) ->
  vfs_ok (Vfs t (fss s) ms) hd' hv'.
Proof.
  intros Hok Hdc Hst Hvn Htab Hfk Hlv Hr Hms. destruct Hok. split; simpl; [done| | | | |done|done].
  - eapply law_inv; [done|]. by apply vstatic_named.
  - intros dp d' Hin Hd'. destruct (static_get _ _ dp d' Hst Hd') as (d & Hd & [= Ep Ev Em _]).
    destruct (ok_dentry0 dp d (Htab _ Hin) Hd) as (cs & v & r & HF & Hp & Hl & Hv & Hroot & Hn & Hty).
    destruct (dentry_vnode _ _ _ _ dp d' Hdc Hd') as (v' & Hv' & _).
    destruct (static_get _ _ _ _ Hvn Hv') as (v0 & Hv0 & [= _ _ Ety _ _ _ Edata]).
    exists cs, v', r. split; [done|]. split; [congruence|]. split; [done|]. split; [done|]. split; [congruence|].
    simpl. rewrite Hn. split; [f_equal; congruence|]. rewrite <- Edata, <- Ety. congruence.
  - intros dp dp' d d' Hin Hin' Hd Hd' Em Ep. destruct (static_get _ _ dp d Hst Hd) as (e & He & [= Ep1 _ Em1 _]).
    destruct (static_get _ _ dp' d' Hst Hd') as (e' & He' & [= Ep2 _ Em2 _]). eapply (ok_unique0 dp dp' e e'); eauto; congruence.
  - intros m Hm. destruct (Hr m Hm) as [Hin Hh]. destruct (ok_mount0 m Hin) as (_ & Hf & d & r & Hd & Hmp & Hp & Hroot & Hk).
    split; [done|]. split; [intros Hx; by apply Hf, Hfk|].
    destruct (proj2 (t_held _ _ (dc_tree _ _ _ _ Hdc) (m_root m)) Hh) as [d' Hd'].
    destruct (static_get _ _ _ d' Hst Hd') as (d0 & Hd0 & [= Ep Ev Em _]). rewrite Hd in Hd0. injection Hd0 as <-.
    exists d', r. split; [done|]. split; [congruence|]. split; [congruence|done].
Qed.

Lemma vfs_ok_sub s t hd hv hd' hv' : vfs_ok s hd hv -> dc_ok t hd' hv' ->
  static <$> dentries t ⊆ static <$> dentries (dcs s) -> vstatic <$> vnodes (vc t) ⊆ vstatic <$> vnodes (vc (dcs s)) ->
  (forall x, x ∈ concat (dtable t) -> x ∈ concat (dtable (dcs s))) -> (forall x, x ∈ fake t -> x ∈ fake (dcs s)) ->
  (forall mp, mp ∈ live -> is_Some (m_counts (vc t) !! mp)) -> roots_held s hd' ->
  vfs_ok (set_dcs t s) hd' hv'.
Proof.
  intros Hok Hdc Hst Hvn Htab Hfk Hlv Hr. eapply vfs_ok_trim; try done; [by intros m Hm; auto|].
  intros vp v' Hv'. destruct (static_get _ _ _ _ Hvn Hv') as (v & Hv & [= _ <- _ _ _ _ _]). by eapply (ok_vnode _ _ _ Hok).
Qed.

Lemma vfs_ok_le s t hd hv hd' hv' : vfs_ok s hd hv -> dc_ok t hd' hv' ->
  static <$> dentries t ⊆ static <$> dentries (dcs s) -> shrinks (dcs s) t -> roots_held s hd' ->
  vfs_ok (set_dcs t s) hd' hv'.
Proof.
  intros Hok Hdc Hst [] Hr. eapply vfs_ok_sub; try done. intros mp Hmp. by apply sh_mounts, (ok_live _ _ _ Hok).
Qed.

Lemma vfs_ok_ext s hd hv hd' hv' : (forall x, hd x = hd' x) -> (forall x, hv x = hv' x) -> vfs_ok s hd hv -> vfs_ok s hd' hv'.
Proof.
  intros E1 E2 []. split; [by eapply dc_inv_ext|done|done|done| |done|done]. intros m Hm. rewrite <- E1. auto.
Qed.

Lemma room_le s t hd hv n : room s hd hv n -> static <$> dentries t ⊆ static <$> dentries (dcs s) -> shrinks (dcs s) t ->
  room (set_dcs t s) hd hv n.
Proof.
  intros [] Hst Hsh. assert (size (dentries t) <= size (dentries (dcs s)))%nat as Hsz.
  { rewrite <- (map_size_fmap static (dentries t)), <- (map_size_fmap static (dentries (dcs s))). by apply map_subseteq_size. }
  pose proof (sh_slots _ _ Hsh). split; simpl; [intros x; specialize (rm_hd0 x); lia|intros x; specialize (rm_hv0 x); lia|done|lia].
Qed.

Lemma on_dc_id {A} (m : M dcache A) (s : @vfs F) a : m (dcs s) = Ok (a, dcs s) -> on_dc m s = Ok (a, s).
Proof. apply zoom_id. by destruct s. Qed.

Lemma on_vc_id {A} (m : M vcache A) (s : dcache) a : m (vc s) = Ok (a, vc s) -> on_vc m s = Ok (a, s).
Proof. apply zoom_id. by destruct s. Qed.

(** The locks only check. *)
Lemma lock_ok s hd hv vp v : dc_ok s hd hv -> vnodes (vc s) !! vp = Some v ->
  on_vc (vn_lock vp) s = Ok (tt, s) /\ on_vc (vn_unlock vp) s = Ok (tt, s).
Proof.
  intros Hok Hv. destruct (vc_count _ _ (dc_vc _ _ _ _ Hok) vp v Hv) as [_ Hb].
  assert (vp <> 0) by (intros ->; rewrite (vc_null _ _ (dc_vc _ _ _ _ Hok)) in Hv; done).
  split; apply on_vc_id; unfold vn_lock, vn_unlock; rewrite (proj2 (Z.eqb_neq vp 0)) by done;
    rewrite (bind_ret _ _ _ tt (vc s)) by done; rewrite (bind_ret _ _ _ v (vc s)) by (by apply deref_ok).
  - by rewrite (proj2 (Z.ltb_lt 0 _)) by lia.
  - by rewrite (proj2 (Z.leb_le 0 _)) by lia.
Qed.

(** The end of a step: the vnode is unlocked and the reference to [ddp] dropped. *)
Lemma step_end {A} s hd hv ddp vp v (e : A) n : vfs_ok s hd hv -> 0 < hd ddp -> roots_held s (add_held hd ddp (-1)) ->
  vnodes (vc (dcs s)) !! vp = Some v ->
  exists t, (on_dc (on_vc (vn_unlock vp));; on_dc (drele ddp);; mret e) s = Ok (e, set_dcs t s) /\
    vfs_ok (set_dcs t s) (add_held hd ddp (-1)) hv /\ static <$> dentries t ⊆ static <$> dentries (dcs s) /\
    shrinks (dcs s) t /\ forall hd0 hv0, room s hd0 hv0 n -> room (set_dcs t s) hd0 hv0 n.
Proof.
  intros Hok Hh Hr Hv. destruct (lock_ok _ _ _ _ _ (ok_dc _ _ _ Hok) Hv) as [_ Hul].
  destruct (drele_ok _ _ _ _ (ok_dc _ _ _ Hok) Hh) as (t & Hrun & Hdc & Hst & Hsh).
  exists t. rewrite (bind_ret _ _ _ tt s) by (by apply on_dc_id). erewrite (bind_ret _ _ _ tt); [|by apply zoom_ok].
  split; [done|]. split; [by eapply vfs_ok_le|]. split; [done|]. split; [done|]. intros. by apply room_le.
Qed.

(** ** A dentry for one component *)

(** After a look-up in the file system. *)
Lemma vfs_ok_lookup s hd hv a w f' t : vfs_ok s hd hv -> fs_same (fss s) f' -> fs_inv f' t ->
  (exists m, m ∈ mounts s /\ m_addr m = v_mount w) ->
  new_vnode_at (vc (dcs s)) t (vheld hv (vnodes (vc (dcs s)))) a w ->
  vfs_ok (Vfs (set_vc t (dcs s)) f' (mounts s)) hd (add_held hv a 1).
Proof.
  intros [] Hsame Hinv Hm0 []. split; simpl; [|done| |done| | |].
  - by eapply dc_inv_new.
  - intros dp d Hin Hd. destruct (ok_dentry0 dp d Hin Hd) as (cs & v & r & HF & Hp & Hl & Hv & Hroot & Hn & Hty).
    exists cs, v, r. split; [done|]. split; [done|]. split; [done|]. split; [|split; [done|split]]; simpl.
    + rewrite nv_vnodes0, lookup_insert_ne by congruence. done.
    + by rewrite (lookup_tree_same _ _ _ _ _ Hsame).
    + by rewrite (proj1 (Hsame _)).
  - intros m Hm. destruct (ok_mount0 m Hm) as (Hh & Hf & d & r & Hd & Hmp & Hp & Hroot & Hk).
    split; [done|]. split; [done|]. exists d, r. destruct (Hsame r) as [-> _]. done.
  - intros vp v. rewrite nv_vnodes0. intros [[<- <-]|[_ Hv]]%lookup_insert_Some; eauto.
  - intros mp Hmp. by apply nv_mounts0, ok_live0.
Qed.

(** After a dentry with a good name has been added. *)
Lemma vfs_ok_alloc s hd hv ad q vp w t l cs r :
  let d := new_dentry (dir_string cs) vp (v_mount w) q in
  let s' := grown (dcs s) ad d w t (dir_string cs) l (<[ad := d]> (with_child (dentries (dcs s)) q ad)) in
  vfs_ok s hd hv -> vnodes (vc (dcs s)) !! vp = Some w -> dentries (dcs s) !! ad = None ->
  dtable (dcs s) !! Z.to_nat (dentry_hash (v_mount w) (Some (dir_string cs))) = Some l ->
  Forall name_ok cs -> (length (dir_string cs) < PATH_MAX)%nat -> roots (v_mount w) = Some r ->
  lookup_tree (fss s) r cs false = RFound (v_data w) -> v_type w = kind (fss s) (v_data w) ->
  (forall dp e, dp ∈ concat (dtable (dcs s)) -> dentries (dcs s) !! dp = Some e -> d_mount e = v_mount w -> d_path e <> Some (dir_string cs)) ->
  dc_ok s' (add_held hd ad 1) hv -> vfs_ok (set_dcs s' s) (add_held hd ad 1) hv.
Proof.
  intros d s' Hok Hw Had Hl HF Hlen Hroot Hn Hty Hno Hdc. destruct Hok.
  assert (forall x v, vnodes (vc (dcs s)) !! x = Some v -> exists v', vnodes (vc s') !! x = Some v' /\ v_data v' = v_data v /\ v_type v' = v_type v) as Hvn.
  { intros x v Hv. simpl. destruct (decide (x = vp)) as [->|]; [|rewrite lookup_insert_ne by done; eauto].
    rewrite lookup_insert_eq. eexists. split; [done|]. simpl. split; congruence. }
  assert (forall x e, x <> ad -> dentries s' !! x = Some e ->
    exists e0, dentries (dcs s) !! x = Some e0 /\ static e0 = static e) as Hde.
  { intros x e Hx He. simpl in He. rewrite lookup_insert_ne in He by done. unfold with_child in He.
    destruct (dentries (dcs s) !! q) as [p|] eqn:Eq; [|eauto]. apply lookup_insert_Some in He as [[<- <-]|[_ He]]; eauto. }
  assert (forall x, x <> ad -> x ∈ concat (dtable s') -> x ∈ concat (dtable (dcs s))) as Hin'.
  { intros x Hx Hin. simpl in Hin. rewrite (concat_push _ _ _ _ Hl) in Hin. by apply elem_of_cons in Hin as [?|?]. }
  split; simpl; [done| | | | | |done].
  - eapply law_inv; [done|]. simpl. rewrite fmap_insert. change (vnamed _) with (vnamed w). by rewrite <- fmap_insert, insert_id.
  - intros dp e Hin He. destruct (decide (dp = ad)) as [->|Hne].
    + rewrite lookup_insert_eq in He. injection He as <-. eexists cs, _, r. split; [done|]. split; [done|]. split; [done|].
      split; [apply lookup_insert_eq|]. done.
    + pose proof (Hin' dp Hne Hin) as Hin0. destruct (Hde dp e Hne He) as (e0 & He0 & [= Ep Ev Em _]).
      destruct (ok_dentry0 dp e0 Hin0 He0) as (cs' & v & r' & HF' & Hp' & Hl' & Hv' & Hroot' & Hn' & Hty').
      destruct (Hvn _ _ Hv') as (v' & Hv'' & Edata & Ety).
      exists cs', v', r'. split; [done|]. split; [congruence|]. split; [done|]. split; [by rewrite <- Ev|]. split; [congruence|].
      simpl. by rewrite Edata, Ety.
  - intros x x' e e' Hx Hx' He He' Em Ep.
    assert (forall y y' g', y = ad -> y' <> ad -> dentries s' !! y' = Some g' -> y' ∈ concat (dtable s') -> d_mount g' = v_mount w ->
      d_path g' = Some (dir_string cs) -> False) as Hnew.
    { intros y y' g' -> Hy Hg Hyin Emg Epg. destruct (Hde y' g' Hy Hg) as (g0 & Hg0 & [= Ep0 _ Em0 _]). eapply (Hno y' g0); eauto; congruence. }
    destruct (decide (x = ad)) as [->|Hne], (decide (x' = ad)) as [->|Hne']; [done| | |].
    + rewrite lookup_insert_eq in He. injection He as <-. exfalso. by eapply (Hnew ad x' e').
    + rewrite lookup_insert_eq in He'. injection He' as <-. exfalso. by eapply (Hnew ad x e).
    + destruct (Hde x e Hne He) as (e0 & He0 & [= Ep1 _ Em1 _]). destruct (Hde x' e' Hne' He') as (e0' & He0' & [= Ep2 _ Em2 _]).
      eapply (ok_unique0 x x' e0 e0'); eauto; congruence.
  - intros m Hm. destruct (ok_mount0 m Hm) as (Hh & Hf & e & r' & He & Hmp & Hp & Hr' & Hk).
    assert (m_root m <> ad) by congruence. split; [by rewrite add_held_ne|]. split; [done|].
    destruct (proj2 (t_held _ _ (dc_tree _ _ _ _ Hdc) (m_root m))) as [e' He']; [by rewrite add_held_ne|].
    destruct (Hde _ e' ltac:(done) He') as (e0 & He0 & [= Ep Ev Em _]). rewrite He in He0. injection He0 as <-.
    exists e', r'. split; [done|]. split; [congruence|]. split; [congruence|done].
  - intros x v [[<- <-]|[_ Hv]]%lookup_insert_Some; [by apply (ok_vnode0 vp w)|eauto].
Qed.

(** No hashed dentry of the mount [mp] has the path of [cs]. *)
Definition uncached (s : @vfs F) (mp : Z) (cs : list (list Z)) : Prop :=
  forall dp e, dp ∈ concat (dtable (dcs s)) -> dentries (dcs s) !! dp = Some e -> d_mount e = mp -> d_path e <> Some (dir_string cs).

(** The dentry [dp] of the mount [mp] names the node [n] under the components [cs]. *)
Definition at_node (s : @vfs F) (dp mp r : Z) (cs : list (list Z)) (n : Z) : Prop :=
  exists d v, dentries (dcs s) !! dp = Some d /\ d_mount d = mp /\ d_path d = Some (dir_string cs) /\
    vnodes (vc (dcs s)) !! d_vnode d = Some v /\ v_data v = n /\ roots mp = Some r /\
    lookup_tree (fss s) r cs false = RFound n /\ Forall name_ok cs /\ v_type v = kind (fss s) n.

Lemma room_weaken s hd hv n n' : room s hd hv n -> (n' <= n)%nat -> room s hd hv n'.
Proof. intros [] Hn. split; [intros x; specialize (rm_hd0 x); lia|intros x; specialize (rm_hv0 x); lia|lia|lia]. Qed.

Lemma dir_string_inj cs cs' : Forall name_ok cs -> Forall name_ok cs' -> dir_string cs = dir_string cs' -> cs = cs'.
Proof. intros HF HF' E. by rewrite <- (segs_dir_string cs), <- (segs_dir_string cs'), E. Qed.

(** A hit in the cache is the right node. *)
Lemma cached_node s hd hv dp e mp r cs : vfs_ok s hd hv -> dentries (dcs s) !! dp = Some e -> dp ∈ concat (dtable (dcs s)) ->
  names_path e mp (dir_string cs) -> Forall name_ok cs -> (length (dir_string cs) < PATH_MAX)%nat -> roots mp = Some r ->
  exists n, at_node s dp mp r cs n.
Proof.
  intros Hok He Hin (Hm & p & Hp & Hsame) HF Hl Hr.
  destruct (ok_dentry _ _ _ Hok dp e Hin He) as (cs' & v & r' & HF' & Hp' & Hl' & Hv & Hr' & Hn & Hty).
  rewrite Hp in Hp'. injection Hp' as ->. apply same_path_eq in Hsame; [|done|done].
  apply dir_string_inj in Hsame as ->; [|done|done]. rewrite Hm, Hr in Hr'. injection Hr' as <-.
  exists (v_data v), e, v. done.
Qed.

(** Taking a reference. *)
Lemma vfs_ok_count s hd hv dp e : vfs_ok s hd hv -> dentries (dcs s) !! dp = Some e -> d_refcnt e + 1 < 2 ^ 31 ->
  let t := set_dentries (<[dp := with_count (d_refcnt e + 1) e]> (dentries (dcs s))) (dcs s) in
  vfs_ok (set_dcs t s) (add_held hd dp 1) hv /\ static <$> dentries t ⊆ static <$> dentries (dcs s) /\ shrinks (dcs s) t.
Proof.
  intros Hok He Hb t. assert (static <$> dentries t = static <$> dentries (dcs s)) as Hst by (by eapply static_same).
  assert (shrinks (dcs s) t) as Hsh by (by split). rewrite Hst. split; [|done].
  destruct (t_count _ _ (dc_tree _ _ _ _ (ok_dc _ _ _ Hok)) dp e He) as [_ Hpos].
  destruct (t_held _ _ (dc_tree _ _ _ _ (ok_dc _ _ _ Hok)) dp) as [Hh _].
  eapply vfs_ok_le; [done| |by rewrite Hst|done|].
  - apply (dc_inv_count _ _ _ _ dp e 1 (ok_dc _ _ _ Hok)); [done|lia|lia].
  - intros m Hm. destruct (ok_mount _ _ _ Hok m Hm) as [Hrt _]. unfold add_held. case_match; lia.
Qed.

Lemma at_node_le s t dp mp r cs n : at_node s dp mp r cs n -> static <$> dentries t ⊆ static <$> dentries (dcs s) ->
  shrinks (dcs s) t -> is_Some (dentries t !! dp) -> forall hd hv, dc_ok t hd hv -> at_node (set_dcs t s) dp mp r cs n.
Proof.
  intros (d & v & Hd & Hm & Hp & Hv & Hn & Hr & Hl & HF & Hty) Hst Hsh [d' Hd'] hd hv Hdc.
  destruct (static_get _ _ _ _ Hst Hd') as (d0 & Hd0 & [= Ep Ev Em _]). rewrite Hd in Hd0. injection Hd0 as <-.
  destruct (dentry_vnode _ _ _ _ _ _ Hdc Hd') as (v' & Hv' & _).
  destruct (static_get _ _ _ _ (sh_vnodes _ _ Hsh) Hv') as (v0 & Hv0 & [= _ _ Ety _ _ _ Edata]).
  exists d', v'. split; [done|]. split; [congruence|]. split; [congruence|]. split; [done|]. split; [congruence|]. split; [done|]. split; [done|].
  split; [done|]. simpl. congruence.
Qed.

(** Vnodes that are there before and after are the same. *)
Definition same_vnodes (s s' : vcache) : Prop :=
  forall vp v v', vnodes s !! vp = Some v -> vnodes s' !! vp = Some v' -> vstatic v' = vstatic v.

Lemma get_dentry_hit s hd hv hd0 ddp dvp mp r cs name n : vfs_ok s hd hv -> (forall x, hd x <= hd0 x + 1) ->
  room s hd0 hv (S n) -> Forall name_ok (cs ++ [name]) -> (length (dir_string (cs ++ [name])) < PATH_MAX)%nat -> roots mp = Some r ->
  (exists s' dp nd, get_dentry sizeof_dentry calloc mp ddp dvp (dir_string (cs ++ [name])) name s = Ok ((0, dp), s') /\
    vfs_ok s' (add_held hd dp 1) hv /\ room s' hd0 hv n /\ at_node s' dp mp r (cs ++ [name]) nd /\
    fss s' = fss s /\ mounts s' = mounts s /\ static <$> dentries (dcs s') = static <$> dentries (dcs s) /\ dp ∈ concat (dtable (dcs s')) /\
    vc (dcs s') = vc (dcs s)) \/
  on_dc (dentry_lookup mp (dir_string (cs ++ [name]))) s = Ok (0, s) /\ uncached s mp (cs ++ [name]).
Proof.
  intros Hok Hle Hrm HF Hl Hr. pose proof (ok_dc _ _ _ Hok) as Hdc.
  assert (forall dp d, dentries (dcs s) !! dp = Some d -> d_refcnt d + 1 < 2 ^ 31) as Hb.
  { intros dp d Hd. pose proof (count_le _ _ _ _ _ Hdc Hd). pose proof (rm_hd _ _ _ _ Hrm dp). specialize (Hle dp). lia. }
  destruct (dentry_lookup_ok _ _ _ mp (dir_string (cs ++ [name])) Hdc Hb) as [(dp & e & He & Hnp & Hin & Hn0 & Hrun & _)|[Hrun Hno]].
  2:{ right. split; [by apply on_dc_id|done]. }
  left. destruct (vfs_ok_count s hd hv dp e Hok He (Hb dp e He)) as (Hok' & Hst & Hsh).
  destruct (cached_node s hd hv dp e mp r _ Hok He Hin Hnp HF Hl Hr) as [nd Hat].
  eexists _, dp, nd. split.
  { unfold get_dentry. erewrite bind_ret by (by apply zoom_ok). by rewrite (proj2 (Z.eqb_neq dp 0)). }
  split; [done|]. split; [eapply room_le; [eapply room_weaken; [done|lia]|done|done]|].
  split; [|split; [done|]; split; [done|]; split; [by eapply static_same|done]].
  eapply at_node_le; [done|done|done| |exact (ok_dc _ _ _ Hok')]. simpl. by rewrite lookup_insert_eq.
Qed.

(** A name that is not in the directory. *)
Lemma get_dentry_none s hd hv ddp d v node name : vfs_ok s hd hv ->
  on_dc (dentry_lookup (d_mount d) node) s = Ok (0, s) ->
  dentries (dcs s) !! ddp = Some d -> vnodes (vc (dcs s)) !! d_vnode d = Some v -> kind (fss s) (v_data v) = VDIR -> name_ok name ->
  0 < lookups_left (fss s) -> (0 < free_slots (wins (vc (dcs s))))%nat -> entry (fss s) (v_data v) name = None ->
  exists f', fs_same (fss s) f' /\ lookups_left (fss s) - 1 <= lookups_left f' /\
    get_dentry sizeof_dentry calloc (d_mount d) ddp (d_vnode d) node name s = Ok ((ENOENT, 0), Vfs (dcs s) f' (mounts s)) /\
    vfs_ok (Vfs (dcs s) f' (mounts s)) hd hv.
Proof.
  intros Hok Hmiss Hd Hv Hk Hnm Hlk Hsl Hent. pose proof (ok_dc _ _ _ Hok) as Hdc.
  destruct (law_lookup (fss s) (vc (dcs s)) _ (d_vnode d) v name (dc_vc _ _ _ _ Hdc) (ok_fs _ _ _ Hok) Hv Hk Hnm Hlk Hsl) as (f' & Hsame & Hleft & Hlook).
  { by eapply (vc_mounts _ _ (dc_vc _ _ _ _ Hdc)). }
  rewrite Hent in Hlook. destruct Hlook as [Hlook Hinv]. exists f'. split; [done|]. split; [done|]. split.
  - unfold get_dentry. rewrite (bind_ret _ _ _ _ _ Hmiss). change (negb (0 =? 0)) with false. cbv iota.
    erewrite bind_ret by (by apply zoom_ok). by destruct s as [[]].
  - destruct Hok. split; simpl; try done.
    + intros dp e Hin He. destruct (ok_dentry0 dp e Hin He) as (cs & w & r & ? & ? & ? & ? & ? & Hn & ?). exists cs, w, r.
      simpl. by rewrite (lookup_tree_same _ _ _ _ _ Hsame), (proj1 (Hsame _)).
    + intros m Hm. destruct (ok_mount0 m Hm) as (? & ? & e & r & ? & ? & ? & ? & ?). split; [done|]. split; [done|].
      exists e, r. by destruct (Hsame r) as [-> _].
Qed.

Lemma held_new s s' held a w : new_vnode_at s s' held a w -> vnodes s' !! a = Some w.
Proof. intros []. rewrite nv_vnodes0. apply lookup_insert_eq. Qed.

(** A dentry for the new vnode [a] below [ddp], and the reference to the vnode dropped. *)
Lemma new_dentry_ok s hd hv a w ddp d r cs nd : vfs_ok s hd (add_held hv a 1) -> 0 <= hv a ->
  vnodes (vc (dcs s)) !! a = Some w -> v_refcnt w + 1 < 2 ^ 31 -> dentries (dcs s) !! ddp = Some d -> d_refcnt d + 1 < 2 ^ 31 ->
  slot_available (wins (vc (dcs s))) -> v_mount w = d_mount d -> v_data w = nd -> Forall name_ok cs ->
  (length (dir_string cs) < PATH_MAX)%nat -> roots (d_mount d) = Some r -> lookup_tree (fss s) r cs false = RFound nd ->
  v_type w = kind (fss s) nd -> uncached s (d_mount d) cs ->
  exists t ad, (a' ← gets (fun s => calloc (dcs s)); dp ← on_dc (dentry_alloc sizeof_dentry a' true ddp a (dir_string cs));
      on_dc (on_vc (vput a));; mret (if dp =? 0 then ENOMEM else 0, dp)) s = Ok ((0, ad), set_dcs t s) /\
    vfs_ok (set_dcs t s) (add_held hd ad 1) hv /\ at_node (set_dcs t s) ad (d_mount d) r cs nd /\
    size (dentries t) = S (size (dentries (dcs s))) /\ (free_slots (wins (vc (dcs s))) <= S (free_slots (wins (vc t))))%nat /\
    static <$> dentries (dcs s) ⊆ static <$> dentries t /\ ad ∈ concat (dtable t) /\ same_vnodes (vc (dcs s)) (vc t).
Proof.
  intros Hok Hhv Hw Hwr Hd Hdr Hsl Hwm Hdata HF Hl Hr Htree Hty Hno. pose proof (ok_dc _ _ _ Hok) as Hdc.
  destruct (calloc_fresh (dcs s)) as [Hc0 Hcn]. set (ad := calloc (dcs s)) in *.
  destruct (dentry_alloc_ok sizeof_dentry (dcs s) hd _ ad ddp a w (dir_string cs) Hdc Hw Hwr Hc0 Hcn Hsl) as (t2 & l & Hbk & Ht2 & Hrun & Hdc2).
  { intros _. by exists d. }
  set (d' := new_dentry (dir_string cs) a (v_mount w) ddp) in *. set (m2 := <[ad := d']> (with_child (dentries (dcs s)) ddp ad)) in *.
  rewrite <- Hwm in Hr, Hno. rewrite <- Hdata in Htree, Hty.
  pose proof (vfs_ok_alloc s hd _ ad ddp a w t2 l cs r Hok Hw Hcn Hbk HF Hl Hr Htree Hty Hno Hdc2) as Hok2.
  fold d' m2 in Hok2. set (g := grown (dcs s) ad d' w t2 (dir_string cs) l m2) in *.
  destruct (dc_vrele g _ _ _ a (ok_dc _ _ _ Hok2)) as (t3 & _ & Hput & Hdc3 & Hsh3); [rewrite add_held_eq; lia|].
  assert (at_node (set_dcs g s) ad (v_mount w) r cs (v_data w)) as Hat.
  { eexists d', _. simpl. split; [apply lookup_insert_eq|]. split; [done|]. split; [done|]. split; [apply lookup_insert_eq|]. done. }
  assert (static <$> m2 = <[ad := static d']> (static <$> dentries (dcs s))) as Hst.
  { unfold m2. rewrite fmap_insert. f_equal. unfold with_child. rewrite Hd. by eapply static_same. }
  exists (set_vc t3 g), ad. split; [|split; [|split; [|split; [|split; [|split; [|split]]]]]].
  - rewrite (bind_ret _ _ _ ad s) by (by apply gets_ok). erewrite (bind_ret _ _ _ ad); [|by apply zoom_ok].
    erewrite (bind_ret _ _ _ tt); [|by apply zoom_ok]. by rewrite (proj2 (Z.eqb_neq ad 0)).
  - eapply (vfs_ok_ext _ _ (add_held (add_held hv a 1) a (-1))); [done| |].
    { intros x. unfold add_held. repeat case_match; lia. }
    refine (vfs_ok_le (set_dcs g s) (set_vc t3 g) _ _ _ _ Hok2 Hdc3 _ Hsh3 _); [done|].
    intros m Hm. by destruct (ok_mount _ _ _ Hok2 m Hm).
  - rewrite <- Hwm, <- Hdata. refine (at_node_le (set_dcs g s) (set_vc t3 g) ad _ _ _ _ Hat _ Hsh3 _ _ _ Hdc3); [done|].
    simpl. unfold m2. by rewrite lookup_insert_eq.
  - simpl. rewrite <- (map_size_fmap static m2), Hst, map_size_insert_None, map_size_fmap; [done|]. by rewrite lookup_fmap, Hcn.
  - pose proof (vfs_add_slots _ _ _ _ _ Ht2). pose proof (sh_slots _ _ Hsh3). simpl in *. lia.
  - simpl. rewrite Hst. apply insert_subseteq. by rewrite lookup_fmap, Hcn.
  - simpl. rewrite (concat_push _ _ _ _ Hbk). by left.
  - intros vp v v' Hv Hv'. destruct (static_get _ _ _ _ (sh_vnodes _ _ Hsh3) Hv') as (v1 & Hv1 & <-). simpl in Hv1.
    apply lookup_insert_Some in Hv1 as [[<- <-]|[_ Hv1]]; [rewrite Hw in Hv; by injection Hv as ->|congruence].
Qed.

(** A name in the directory that is not in the cache gets a vnode and a dentry. *)
Lemma get_dentry_new s hd hv hd0 ddp d v r cs name n nd : vfs_ok s hd hv -> (forall x, hd x <= hd0 x + 1) -> room s hd0 hv (S n) ->
  on_dc (dentry_lookup (d_mount d) (dir_string (cs ++ [name]))) s = Ok (0, s) -> uncached s (d_mount d) (cs ++ [name]) ->
  dentries (dcs s) !! ddp = Some d -> vnodes (vc (dcs s)) !! d_vnode d = Some v -> kind (fss s) (v_data v) = VDIR ->
  Forall name_ok (cs ++ [name]) -> name_ok name -> (length (dir_string (cs ++ [name])) < PATH_MAX)%nat ->
  roots (d_mount d) = Some r -> lookup_tree (fss s) r (cs ++ [name]) false = RFound nd -> entry (fss s) (v_data v) name = Some nd ->
  exists s' dp, get_dentry sizeof_dentry calloc (d_mount d) ddp (d_vnode d) (dir_string (cs ++ [name])) name s = Ok ((0, dp), s') /\
    vfs_ok s' (add_held hd dp 1) hv /\ room s' hd0 hv n /\ at_node s' dp (d_mount d) r (cs ++ [name]) nd /\
    fs_same (fss s) (fss s') /\ mounts s' = mounts s /\ static <$> dentries (dcs s) ⊆ static <$> dentries (dcs s') /\
    dp ∈ concat (dtable (dcs s')) /\ same_vnodes (vc (dcs s)) (vc (dcs s')).
Proof.
  intros Hok Hle Hrm Hmiss Hno Hd Hv Hk HF Hnm Hl Hr Htree Hent. pose proof (ok_dc _ _ _ Hok) as Hdc.
  destruct (law_lookup (fss s) (vc (dcs s)) _ (d_vnode d) v name (dc_vc _ _ _ _ Hdc) (ok_fs _ _ _ Hok) Hv Hk Hnm) as (f' & Hsame & Hleft & Hlook).
  { pose proof (rm_fs _ _ _ _ Hrm). lia. } { pose proof (rm_slots _ _ _ _ Hrm). lia. } { by eapply (vc_mounts _ _ (dc_vc _ _ _ _ Hdc)). }
  rewrite Hent in Hlook. destruct Hlook as (a & w & t & Hlook & Hinv & Hnew & Hdata & Hmnt & Hty).
  assert (exists m, m ∈ mounts s /\ m_addr m = v_mount w) as Hm0 by (rewrite Hmnt; by eapply (ok_vnode _ _ _ Hok)).
  pose proof (vfs_ok_lookup s hd hv a w f' t Hok Hsame Hinv Hm0 Hnew) as Hok1. set (s1 := Vfs (set_vc t (dcs s)) f' (mounts s)) in *.
  pose proof (held_new _ _ _ _ _ Hnew) as Hw. pose proof (nv_slots _ _ _ _ _ Hnew) as Hsl. destruct Hrm as [Rhd Rhv Rfs Rsl].
  destruct (new_dentry_ok s1 hd hv a w ddp d r (cs ++ [name]) nd Hok1 (dc_hv _ _ _ _ Hdc a) Hw) as (t' & ad & Hrun & Hok3 & Hat & Hsz & Hsl' & Hst & Hin & Hvs); try done.
  - pose proof (vcount_le _ _ _ _ _ (ok_dc _ _ _ Hok1) Hw) as Hc. rewrite add_held_eq, (held_zero _ _ _ _ _ Hdc (nv_fresh _ _ _ _ _ Hnew)) in Hc.
    specialize (Rhv a). pose proof (dc_hv _ _ _ _ Hdc a). simpl in Hc. lia.
  - pose proof (count_le _ _ _ _ _ Hdc Hd). specialize (Rhd ddp). specialize (Hle ddp). lia.
  - apply free_slot_available. simpl. lia.
  - destruct (dentry_vnode _ _ _ _ ddp d Hdc Hd) as (v' & Hv' & <-). congruence.
  - simpl. by rewrite (lookup_tree_same _ _ _ _ _ Hsame).
  - simpl. by rewrite (proj1 (Hsame _)).
  - exists (set_dcs t' s1), ad. split.
    { unfold get_dentry. rewrite (bind_ret _ _ _ _ _ Hmiss). change (negb (0 =? 0)) with false. cbv iota.
      erewrite bind_ret by (by apply zoom_ok). exact Hrun. }
    split; [done|]. split; [simpl in *; split; simpl; [intros x; specialize (Rhd x); lia|intros x; specialize (Rhv x); lia|lia|lia]|].
    split; [done|]. split; [done|]. split; [done|]. split; [done|]. split; [done|]. intros vp v1 v2 Hv1. apply Hvs. simpl.
    rewrite (nv_vnodes _ _ _ _ _ Hnew), lookup_insert_ne; [done|]. intros <-. pose proof (nv_fresh _ _ _ _ _ Hnew). congruence.
Qed.

(** ** One component *)

(** The end of a step that found a dentry. *)
Lemma step_found s hd hv ddp d dp r cs nd n : vfs_ok s (add_held (add_held hd ddp 1) dp 1) hv -> roots_held s hd ->
  (forall x, 0 <= hd x) -> room s hd hv n -> dentries (dcs s) !! ddp = Some d -> at_node s dp (d_mount d) r cs nd ->
  exists s', (on_dc (on_vc (vn_unlock (d_vnode d)));; on_dc (drele ddp);; mret (0, dp)) s = Ok ((0, dp), s') /\
    vfs_ok s' (add_held hd dp 1) hv /\ room s' hd hv n /\ at_node s' dp (d_mount d) r cs nd /\ fss s' = fss s /\ mounts s' = mounts s.
Proof.
  intros Hok Hr Hh Hrm Hd Hat. pose proof (ok_dc _ _ _ Hok) as Hdc. destruct (dentry_vnode _ _ _ _ _ _ Hdc Hd) as (v & Hv & _).
  assert (forall x, add_held (add_held (add_held hd ddp 1) dp 1) ddp (-1) x = add_held hd dp 1 x) as E
    by (intros x; unfold add_held; repeat case_match; lia).
  assert (forall x, 0 <= add_held hd dp 1 x) as Hnn by (intros x; specialize (Hh x); unfold add_held; case_match; lia).
  destruct (step_end s _ hv ddp (d_vnode d) v (0, dp) n Hok) as (t & Hrun & Hok' & Hst & Hsh & Hrm'); [| |done|].
  { specialize (E ddp). rewrite add_held_eq in E. specialize (Hnn ddp). lia. }
  { intros m Hm. rewrite E. specialize (Hr m Hm). unfold add_held. case_match; lia. }
  exists (set_dcs t s). split; [done|]. split; [by eapply vfs_ok_ext|]. split; [by apply Hrm'|]. split; [|done].
  apply (vfs_ok_ext _ _ _ _ hv E ltac:(done)) in Hok'. eapply at_node_le; [done|done|done| |exact (ok_dc _ _ _ Hok')].
  apply (proj2 (t_held _ _ (dc_tree _ _ _ _ (ok_dc _ _ _ Hok')) dp)). rewrite add_held_eq. specialize (Hh dp). lia.
Qed.

Lemma walk_step_ok s hd hv ddp d v r cs name n : vfs_ok s (add_held hd ddp 1) hv -> roots_held s hd -> (forall x, 0 <= hd x) ->
  room s hd hv (S n) -> dentries (dcs s) !! ddp = Some d -> vnodes (vc (dcs s)) !! d_vnode d = Some v ->
  kind (fss s) (v_data v) = VDIR -> roots (d_mount d) = Some r -> lookup_tree (fss s) r cs false = RFound (v_data v) ->
  Forall name_ok (cs ++ [name]) -> (length (dir_string (cs ++ [name])) < PATH_MAX)%nat ->
  exists s', fs_same (fss s) (fss s') /\ mounts s' = mounts s /\ room s' hd hv n /\
    match entry (fss s) (v_data v) name with
    | None => walk_step sizeof_dentry calloc (d_mount d) ddp (dir_string (cs ++ [name])) name s = Ok ((ENOENT, 0), s') /\ vfs_ok s' hd hv
    | Some nd => exists dp,
        walk_step sizeof_dentry calloc (d_mount d) ddp (dir_string (cs ++ [name])) name s = Ok ((0, dp), s') /\
        vfs_ok s' (add_held hd dp 1) hv /\ at_node s' dp (d_mount d) r (cs ++ [name]) nd
    end.
Proof.
  intros Hok Hr Hh Hrm Hd Hv Hk Hroot Htree HF Hl. pose proof (ok_dc _ _ _ Hok) as Hdc.
  assert (forall x, add_held hd ddp 1 x <= hd x + 1) as Hle by (intros x; unfold add_held; case_match; lia).
  assert (name_ok name) as Hnm by (by apply Forall_app in HF as [_ [? _]%Forall_cons]).
  pose proof (lookup_tree_snoc (fss s) r cs name (v_data v) Htree (or_intror Hk)) as Hsnoc.
  destruct (lock_ok _ _ _ _ _ Hdc Hv) as [Hlock _].
  unfold walk_step. rewrite (bind_ret _ _ _ d s) by (apply on_dc_id; by apply deref_ok).
  rewrite (bind_ret _ _ _ tt s) by (by apply on_dc_id).
  destruct (get_dentry_hit s _ hv hd ddp (d_vnode d) (d_mount d) r cs name n Hok Hle Hrm HF Hl Hroot)
    as [(s1 & dp & nd & Hrun & Hok1 & Hrm1 & Hat1 & Ef & Em & Hst & _)|[Hmiss Hno]].
  - rewrite (bind_ret _ _ _ _ _ Hrun).
    assert (entry (fss s) (v_data v) name = Some nd) as ->.
    { destruct Hat1 as (? & ? & _ & _ & _ & _ & _ & Hr1 & Hn1 & _). rewrite Ef in Hn1. rewrite Hn1 in Hsnoc.
      destruct (entry (fss s) (v_data v) name); congruence. }
    destruct (static_get (f := static) (dentries (dcs s1)) (dentries (dcs s)) ddp d) as (d1 & Hd1 & [= _ Ev1 Em1 _]); [by rewrite Hst|done|].
    rewrite <- Em1 in Hat1. destruct (step_found s1 hd hv ddp d1 dp r (cs ++ [name]) nd n Hok1) as (s2 & Hrun2 & Hok2 & Hrm2 & Hat2 & Ef2 & Em2); try done.
    { intros m. rewrite Em. apply Hr. }
    exists s2. rewrite Ef2, Em2, Ef, Em. split; [done|]. split; [done|]. split; [done|]. exists dp. rewrite <- Ev1, <- Em1. done.
  - destruct (entry (fss s) (v_data v) name) as [nd|] eqn:Hent.
    + destruct (get_dentry_new s _ hv hd ddp d v r cs name n nd Hok Hle Hrm Hmiss Hno Hd Hv Hk HF Hnm Hl Hroot Hsnoc Hent)
        as (s1 & dp & Hrun & Hok1 & Hrm1 & Hat1 & Ef & Em & Hst & _).
      rewrite (bind_ret _ _ _ _ _ Hrun).
      destruct (static_get (dentries (dcs s1)) (dentries (dcs s)) ddp d Hst Hd) as (d1 & Hd1 & [= _ Ev1 Em1 _]).
      rewrite <- Em1 in Hat1. destruct (step_found s1 hd hv ddp d1 dp r (cs ++ [name]) nd n Hok1) as (s2 & Hrun2 & Hok2 & Hrm2 & Hat2 & Ef2 & Em2); try done.
      { intros m. rewrite Em. apply Hr. }
      exists s2. rewrite Ef2, Em2. split; [done|]. split; [done|]. split; [done|]. exists dp. rewrite <- Ev1, <- Em1. done.
    + destruct (get_dentry_none s _ hv ddp d v (dir_string (cs ++ [name])) name Hok Hmiss Hd Hv Hk Hnm) as (f' & Hsame & Hleft & Hrun & Hok1); [| |done|].
      { pose proof (rm_fs _ _ _ _ Hrm). lia. } { pose proof (rm_slots _ _ _ _ Hrm). lia. }
      rewrite (bind_ret _ _ _ _ _ Hrun). set (s1 := Vfs (dcs s) f' (mounts s)) in *.
      destruct (step_end s1 _ hv ddp (d_vnode d) v (ENOENT, 0) n Hok1) as (t & Hrun2 & Hok2 & _ & _ & Hrm2); [| |done|].
      { rewrite add_held_eq. specialize (Hh ddp). lia. }
      { intros m Hm. specialize (Hr m Hm). unfold add_held. repeat case_match; lia. }
      exists (set_dcs t s1). split; [done|]. split; [done|]. split.
      { apply Hrm2. destruct Hrm as [Rhd Rhv Rfs Rsl].
        split; simpl; [intros x; specialize (Rhd x); lia|intros x; specialize (Rhv x); lia|lia|lia]. }
      split; [exact Hrun2|]. eapply vfs_ok_ext; [|done|done]. intros x. unfold add_held. repeat case_match; lia.
Qed.

(** ** The walk *)

Lemma drele_vfs s hd hv dp : vfs_ok s (add_held hd dp 1) hv -> roots_held s hd -> (forall x, 0 <= hd x) ->
  exists t, on_dc (drele dp) s = Ok (tt, set_dcs t s) /\ vfs_ok (set_dcs t s) hd hv /\
    forall hd0 hv0 n, room s hd0 hv0 n -> room (set_dcs t s) hd0 hv0 n.
Proof.
  intros Hok Hr Hh. assert (forall x, add_held (add_held hd dp 1) dp (-1) x = hd x) as E by (intros x; unfold add_held; repeat case_match; lia).
  destruct (drele_ok _ _ _ dp (ok_dc _ _ _ Hok)) as (t & Hrun & Hdc & Hst & Hsh).
  { rewrite add_held_eq. specialize (Hh dp). lia. }
  exists t. split; [by apply zoom_ok|]. split; [|intros; by apply room_le].
  eapply vfs_ok_ext; [exact E|done|]. eapply vfs_ok_le; [done|done|done|done|].
  intros m Hm. rewrite E. by apply Hr.
Qed.

(** The type that a walk sees is that of the tree. *)
Lemma at_node_type s hd hv dp mp r cs n : vfs_ok s hd hv -> at_node s dp mp r cs n ->
  exists d v, on_dc (dentry_at dp) s = Ok (d, s) /\ on_dc (on_vc (vnode_at (d_vnode d))) s = Ok (v, s) /\ v_type v = kind (fss s) n.
Proof.
  intros Hok (d & v & Hd & _ & _ & Hv & <- & _ & _ & _ & Hty). exists d, v. split; [apply on_dc_id; by apply deref_ok|].
  split; [apply on_dc_id, on_vc_id; by apply deref_ok|]. done.
Qed.

Definition no_links (f : F) : Prop := forall n c n', entry f n c = Some n' -> kind f n' <> VLNK.

Lemma no_links_same f f' : fs_same f f' -> no_links f -> no_links f'.
Proof. intros Hs Hn n c n'. destruct (Hs n) as [_ ->], (Hs n') as [-> _]. apply Hn. Qed.

Section Walk.
(** What there is room for when the walk is over. *)
Context (spare : nat).

(** Where the walk stands: at [ddp], which names [nd] under [cs], with [p] to go. *)
Record walk_at (s : @vfs F) (hd hv : Z -> Z) (ddp mp r : Z) (cs : list (list Z)) (nd : Z) (p : list Z) : Prop := {
  wa_ok : vfs_ok s (add_held hd ddp 1) hv;
  wa_roots : roots_held s hd;
  wa_held : forall x, 0 <= hd x;
  wa_room : room s hd hv (length (segs p) + spare);
  wa_node : at_node s ddp mp r cs nd;
  wa_dir : kind (fss s) nd = VDIR \/ segs p = [];
  wa_len : (length (render cs) + length p + 1 < PATH_MAX)%nat \/
           (length (render cs) + length p < PATH_MAX)%nat /\ (p = [] \/ head p = Some SLASH);
  wa_links : no_links (fss s)
}.

(** How it ends. *)
Definition walk_result (s s' : @vfs F) (hd hv : Z -> Z) (mp r : Z) (cs : list (list Z)) (res : resolved) (w : walked) : Prop :=
  fs_same (fss s) (fss s') /\ mounts s' = mounts s /\ room s' hd hv spare /\
  match res with
  | RFound n => exists dp, w = Done 0 dp /\ vfs_ok s' (add_held hd dp 1) hv /\ at_node s' dp mp r cs n
  | RErr e => w = Done e 0 /\ vfs_ok s' hd hv
  end.

Lemma segs_ok p : Forall name_ok (segs p).
Proof.
  remember (length p) as k eqn:Hk. revert p Hk. induction k as [k IH] using lt_wf_ind. intros p ->.
  pose proof (walk_split p) as Hs. destruct (skip_slashes p) as [|x q]; [by rewrite Hs|].
  destruct (take_name (x :: q)) as [name p']. destruct Hs as (Hn & -> & _ & _ & Hlen & _). constructor; [done|].
  eapply IH; [|done]. destruct Hn as [Hn _]. destruct name; [done|simpl in Hlen; lia].
Qed.

Lemma slash_check p q name : segs p = name :: segs q -> (q = [] \/ head q = Some SLASH) -> ends_slash p = ends_slash q ->
  (q <> [] -> segs q = [] -> ends_slash q = true) ->
  bool_decide (head q = Some SLASH) = negb (bool_decide (segs q = [])) || ends_slash p.
Proof.
  intros Hs Hq He Ht. rewrite He. destruct Hq as [->|Hq]; [done|]. rewrite bool_decide_true by done.
  assert (q <> []) by (by destruct q). case_bool_decide; simpl; [symmetry; auto|done].
Qed.

Lemma dir_string_snoc cs name : dir_string (cs ++ [name]) = render (cs ++ [name]).
Proof. by destruct cs. Qed.

(** Where the walk stands after one component. *)
Lemma walk_at_next s hd hv ddp mp r cs nd p q name s' dp nd' :
  walk_at s hd hv ddp mp r cs nd p -> segs p = name :: segs q -> (q = [] \/ head q = Some SLASH) ->
  (length name + length q <= length p)%nat -> (head p = Some SLASH -> (S (length name + length q) <= length p)%nat) ->
  fs_same (fss s) (fss s') -> mounts s' = mounts s -> room s' hd hv (length (segs q) + spare) ->
  vfs_ok s' (add_held hd dp 1) hv -> at_node s' dp mp r (cs ++ [name]) nd' ->
  kind (fss s) nd' = VDIR \/ segs q = [] -> walk_at s' hd hv dp mp r (cs ++ [name]) nd' q.
Proof.
  intros [] Hs Hq Hl1 Hl2 Hsame Hm Hrm Hok Hat Hk. destruct (Hsame nd') as [Hkind _]. split; try done.
  - intros m. rewrite Hm. apply wa_roots0.
  - by rewrite Hkind.
  - right. split; [|done]. rewrite render_snoc, length_app. simpl.
    destruct wa_len0 as [?|[? [->|Hh]]]; [lia|done|specialize (Hl2 Hh); lia].
  - by eapply no_links_same.
Qed.

Lemma walk_ok k : forall s hd hv ddp mp r cs nd p m fp ml dp0, (length p < k)%nat ->
  walk_at s hd hv ddp mp r cs nd p -> m_addr m = mp -> (segs p = [] -> dp0 = ddp) ->
  exists s' w, walk sizeof_dentry calloc k m fp ml ddp dp0 (render cs) p s = Ok (w, s') /\
    walk_result s s' hd hv mp r (cs ++ segs p) (lookup_tree (fss s) nd (segs p) (ends_slash p)) w.
Proof.
  induction k as [|k IH]; [lia|]. intros s hd hv ddp mp r cs nd p m fp ml dp0 Hk Hat Hm Hdp0.
  pose proof (walk_split p) as Hsp. cbn [walk]. destruct (skip_slashes p) as [|x p1].
  { pose proof (wa_room _ _ _ _ _ _ _ _ _ Hat) as Hrm. rewrite Hsp in *. exists s, (Done 0 dp0). split; [done|]. split; [done|]. split; [done|].
    split; [done|]. exists ddp.
    rewrite Hdp0 by done. rewrite app_nil_r. split; [done|]. split; apply Hat. }
  destruct (take_name (x :: p1)) as [name q]. destruct Hsp as (Hnm & Hs & Hq & He & Hl1 & Hl2 & Ht).
  pose proof (slash_check p q name Hs Hq He Ht) as Hcheck. rewrite Hs. pose proof Hat as [Hok Hr Hh Hrm Hnode Hdir Hlen Hlk].
  destruct Hnode as (d & v & Hd & <- & Hp & Hv & <- & Hroot & Htree & HF & _).
  assert (length (render cs) + S (length name) < PATH_MAX)%nat as Hfit.
  { destruct Hlen as [?|[? [->|Hhp]]]; [lia|destruct Hnm; by destruct name|specialize (Hl2 Hhp); lia]. }
  rewrite decide_False by lia. rewrite node_fits, <- dir_string_snoc by done. rewrite Hs in Hrm.
  destruct (walk_step_ok s hd hv ddp d v r cs name (length (segs q) + spare) Hok Hr Hh Hrm Hd Hv) as (s1 & Hsame & Hms & Hrm1 & Hres); try done.
  { destruct Hdir as [?|?]; congruence. }
  { apply Forall_app. split; [done|]. by constructor. }
  { rewrite dir_string_snoc, render_snoc, length_app. simpl. lia. }
  rewrite Hm. cbn [lookup_tree]. destruct (entry (fss s) (v_data v) name) as [nd'|] eqn:Hent.
  2:{ destruct Hres as [Hrun Hok1]. rewrite (bind_ret _ _ _ _ _ Hrun). exists s1, (Done ENOENT 0).
      split; [done|]. split; [done|]. split; [done|]. split; [|done]. eapply room_weaken; [done|lia]. }
  destruct Hres as (dp & Hrun & Hok1 & Hat1). rewrite (bind_ret _ _ _ _ _ Hrun). change (negb ((0, dp).1 =? 0)) with false. cbv iota.
  destruct (at_node_type _ _ _ _ _ _ _ _ Hok1 Hat1) as (d1 & v1 & Hr1 & Hr2 & Hty). destruct (Hsame nd') as [Hkind _].
  cbn [snd]. rewrite (bind_ret _ _ _ _ _ Hr1), (bind_ret _ _ _ _ _ Hr2), Hty, Hkind.
  rewrite (bool_decide_false (kind (fss s) nd' = VLNK)) by (by eapply Hlk). rewrite Hcheck.
  destruct ((negb (bool_decide (segs q = [])) || ends_slash p) && negb (bool_decide (kind (fss s) nd' = VDIR))) eqn:Ech.
  - assert (roots_held s1 hd) as Hr' by (intros m'; rewrite Hms; apply Hr).
    destruct (drele_vfs s1 hd hv dp Hok1 Hr' Hh) as (t & Hrun2 & Hok2 & Hrm2). rewrite (bind_ret _ _ _ _ _ Hrun2).
    exists (set_dcs t s1), (Done ENOTDIR 0). split; [done|]. split; [done|]. split; [done|]. split; [|done].
    apply Hrm2. eapply room_weaken; [done|lia].
  - assert (walk_at s1 hd hv dp (d_mount d) r (cs ++ [name]) nd' q) as Hat2.
    { eapply walk_at_next; try done. case_bool_decide as E1; [by right|]. simpl in Ech. case_bool_decide; [by left|done]. }
    destruct (IH s1 hd hv dp (d_mount d) r (cs ++ [name]) nd' q m fp ml dp) as (s2 & w & Hrun2 & Hsame2 & Hms2 & Hrm2 & Hres2); try done.
    { destruct Hnm. destruct name; [done|simpl in Hl1; lia]. }
    rewrite dir_string_snoc. exists s2, w. split; [done|]. split; [by etrans|]. split; [congruence|]. split; [done|].
    rewrite <- (lookup_tree_same _ _ nd' (segs q) _ Hsame), He. by rewrite <- app_assoc in Hres2.
Qed.

(** ** namei *)

Lemma vfs_held s hd hv : vfs_ok s hd hv -> (forall x, 0 <= hd x) /\ roots_held s hd.
Proof.
  intros Hok. split; [intros x; apply (t_held _ _ (dc_tree _ _ _ _ (ok_dc _ _ _ Hok)))|].
  intros m Hm. by apply (ok_mount _ _ _ Hok).
Qed.

(** The root of a mount is in the cache, under its path. *)
Lemma root_node s hd hv m r : vfs_ok s hd hv -> m ∈ mounts s -> roots (m_addr m) = Some r ->
  at_node s (m_root m) (m_addr m) r [] r /\ m_root m ∈ concat (dtable (dcs s)) /\ kind (fss s) r = VDIR.
Proof.
  intros Hok Hm Hr. destruct (ok_mount _ _ _ Hok m Hm) as (_ & Hf & d & r' & Hd & Hmp & Hp & Hr' & Hk).
  rewrite Hr in Hr'. injection Hr' as <-.
  assert (m_root m ∈ concat (dtable (dcs s))) as Hin.
  { assert (m_root m ∈ hlists (dcs s)) as [?|?]%elem_of_app; [|done|done]. eapply in_hlists; [apply Hok|eauto]. }
  split; [|done]. destruct (ok_dentry _ _ _ Hok _ d Hin Hd) as (cs & v & r' & HF & Hp' & _ & Hv & Hr' & Hn & Hty).
  rewrite Hp in Hp'. injection Hp' as Hp'. assert (cs = []) as -> by (apply dir_string_inj; done).
  rewrite Hmp, Hr in Hr'. injection Hr' as <-. injection Hn as Hn. rewrite <- Hn in Hty. by exists d, v.
Qed.

Lemma stack_window_ok s hd hv i a : vfs_ok s hd hv -> exists t, stack_window i a s = Ok (tt, set_dcs t s) /\
  vfs_ok (set_dcs t s) hd hv /\ forall n, room s hd hv n -> room (set_dcs t s) hd hv n.
Proof.
  intros Hok. eexists. split; [apply zoom_ok, zoom_ok, zoom_ok; by apply modify_ok|].
  assert (shrinks (dcs s) (set_vc (set_wins (set_tab_stack (alter (fun e => Ipc a (ipc_size e) (ipc_mask e)) i (tab_stack (wins (vc (dcs s))))) (wins (vc (dcs s)))) (vc (dcs s))) (dcs s))) as Hsh
    by (by split).
  split; [|intros n Hn; by apply room_le]. eapply vfs_ok_le; [done| |done|done|by apply (vfs_held s hd hv)].
  apply dc_inv_wins; [apply Hok|]. destruct (vc_wins _ _ (dc_vc _ _ _ _ (ok_dc _ _ _ Hok))) as (? & ? & ?). by split.
Qed.

(** A path in the cache under its full name has no slash at its end. *)
Lemma full_name cs p : Forall name_ok cs -> dir_string cs = SLASH :: p -> cs = segs p /\ ends_slash p = false.
Proof.
  intros HF E. assert (cs = segs p) as Hcs by (by rewrite <- (segs_dir_string cs HF), E, segs_slash). split; [done|].
  destruct cs as [|c cs']; [by injection E as <-|]. destruct (render_last (c :: cs') ltac:(done) HF) as (x & Hx & Hne).
  unfold ends_slash. apply bool_decide_false. intros Hl. change (render (c :: cs')) with (dir_string (c :: cs')) in Hx.
  rewrite E in Hx. destruct p as [|y p]; [done|]. simpl last in Hx. rewrite Hl in Hx. congruence.
Qed.

Definition namei_result (s s' : @vfs F) (hd hv : Z -> Z) (mp r : Z) (p : list Z) (e : Z * Z) : Prop :=
  fs_same (fss s) (fss s') /\ mounts s' = mounts s /\ room s' hd hv spare /\
  match lookup_tree (fss s) r (segs p) (ends_slash p) with
  | RFound n => exists dp, e = (0, dp) /\ vfs_ok s' (add_held hd dp 1) hv /\ at_node s' dp mp r (segs p) n
  | RErr err => e = (err, 0) /\ vfs_ok s' hd hv
  end.

Lemma namei_loop_unfold k fp : exists cont : list Z -> M (@vfs F) (Z * Z), namei_loop sizeof_dentry calloc k fp =
  (ms ← gets mounts;
   match vfs_findroot ms fp with
   | None => mret (ENOTDIR, 0)
   | Some (m, p) =>
       dp ← on_dc (dentry_lookup (m_addr m) (strlcat [SLASH] p PATH_MAX));
       if negb (dp =? 0) then mret (0, dp) else
       if m_root m =? 0 then abort else
       on_dc (dref (m_root m));;
       w ← walk sizeof_dentry calloc (S (length p)) m fp (length fp - length p - 1)%nat (m_root m) 0 [] p;
       match w with Done e dp => mret (e, dp) | Link fp' => cont fp' end
   end).
Proof. destruct k as [|[|k]]; [exists (fun _ => mret (ELOOP, 0))|exists (fun _ => mret (ELOOP, 0))|exists (namei_loop sizeof_dentry calloc (S k))]; done. Qed.

Lemma namei_loop_ok k s hd hv m p r fp : vfs_ok s hd hv -> vfs_findroot (mounts s) fp = Some (m, p) -> roots (m_addr m) = Some r ->
  (length fp < PATH_MAX)%nat -> p = [] \/ segs p <> [] -> no_links (fss s) -> room s hd hv (length (segs p) + spare) ->
  exists s' e, namei_loop sizeof_dentry calloc k fp s = Ok (e, s') /\ namei_result s s' hd hv (m_addr m) r p e.
Proof.
  intros Hok Hfind Hr Hlen Hp Hlk Hrm. pose proof (findroot_spec (mounts s) fp) as Hfr. rewrite Hfind in Hfr.
  destruct Hfr as (Hm & [Hne _] & _ & Hpath). destruct (vfs_held s hd hv Hok) as [Hh Hroots].
  destruct (root_node s hd hv m r Hok Hm Hr) as (Hroot & Hin & Hkind).
  assert (S (length p) < PATH_MAX)%nat as Hpl.
  { destruct (m_path m); [done|]. destruct Hpath as [->| ->]; rewrite length_app in Hlen; simpl in Hlen; lia. }
  assert (forall dp d, dentries (dcs s) !! dp = Some d -> d_refcnt d + 1 < 2 ^ 31) as Hb.
  { intros dp d Hd. pose proof (count_le _ _ _ _ _ (ok_dc _ _ _ Hok) Hd). pose proof (rm_hd _ _ _ _ Hrm dp). lia. }
  assert (strlcat [SLASH] p PATH_MAX = SLASH :: p) as Hnode by (apply strlcat_fits; simpl; lia).
  destruct (namei_loop_unfold k fp) as [cont ->]. rewrite (bind_ret _ _ _ (mounts s) s) by (by apply gets_ok). rewrite Hfind, Hnode.
  destruct (dentry_lookup_ok _ _ _ (m_addr m) (SLASH :: p) (ok_dc _ _ _ Hok) Hb) as [(dp & e & He & Hnp & Hdin & Hn0 & Hrun & _)|[Hrun Hno]].
  - erewrite bind_ret by (by apply zoom_ok). rewrite (proj2 (Z.eqb_neq dp 0)) by done. unfold negb.
    destruct (vfs_ok_count s hd hv dp e Hok He (Hb dp e He)) as (Hok' & Hst & Hsh).
    destruct (ok_dentry _ _ _ Hok dp e Hdin He) as (cs & _ & _ & HF & Hpe & Hl & _).
    assert (dir_string cs = SLASH :: p) as Hcs.
    { destruct Hnp as (_ & p' & Hp' & Hsame). rewrite Hpe in Hp'. injection Hp' as <-. apply same_path_eq in Hsame; [done|done|simpl; lia]. }
    destruct (full_name cs p HF Hcs) as [-> Hends]. rewrite <- Hcs in Hnp.
    destruct (cached_node s hd hv dp e (m_addr m) r (segs p) Hok He Hdin Hnp HF Hl Hr) as [n Hat].
    eexists _, (0, dp). split; [done|]. split; [done|]. split; [done|].
    split; [eapply room_weaken; [by apply room_le|lia]|]. rewrite Hends.
    pose proof Hat as (_ & _ & _ & _ & _ & _ & _ & _ & -> & _). exists dp. split; [done|]. split; [done|].
    eapply at_node_le; [done|done|done| |exact (ok_dc _ _ _ Hok')]. simpl. by rewrite lookup_insert_eq.
  - rewrite (bind_ret _ _ _ 0 s) by (by apply on_dc_id). change (negb (0 =? 0)) with false. cbv iota.
    destruct Hroot as (d & v & Hd & Hmp & Hdp & Hrest). destruct (live_get _ _ _ _ _ _ (ok_dc _ _ _ Hok) Hd) as [_ Hd0].
    rewrite (proj2 (Z.eqb_neq (m_root m) 0)) by done.
    destruct (dref_ok _ _ _ _ _ _ (ok_dc _ _ _ Hok) Hd (Hb _ _ Hd)) as [Hdref _].
    erewrite (bind_ret _ _ _ tt); [|by apply zoom_ok]. destruct (vfs_ok_count s hd hv (m_root m) d Hok Hd (Hb _ _ Hd)) as (Hok' & Hst & Hsh).
    assert (segs p <> []) as Hsegs.
    { destruct Hp as [->|?]; [|done]. exfalso. eapply (Hno _ d Hin Hd Hmp). by rewrite Hdp. }
    set (s1' := set_dcs (set_dentries (<[m_root m := with_count (d_refcnt d + 1) d]> (dentries (dcs s))) (dcs s)) s) in *.
    assert (walk_at s1' hd hv (m_root m) (m_addr m) r [] r p) as Hwa.
    { split; [done|done|done|by apply room_le| |by left|left; simpl; lia|done].
      refine (at_node_le s _ (m_root m) _ _ _ _ _ Hst Hsh _ _ _ (ok_dc _ _ _ Hok')); [by exists d, v|].
      simpl. by rewrite lookup_insert_eq. }
    destruct (walk_ok (S (length p)) s1' hd hv (m_root m) (m_addr m) r [] r p m fp (length fp - length p - 1)%nat 0
      (Nat.lt_succ_diag_r _) Hwa eq_refl) as (s' & w & Hw & Hs1 & Hs2 & Hs3 & Hres); [done|].
    rewrite (bind_ret _ _ _ _ _ Hw). change (fss s1') with (fss s) in *. simpl app in Hres. unfold namei_result.
    destruct (lookup_tree (fss s) r (segs p) (ends_slash p)) as [n|err].
    + destruct Hres as (dp & -> & ? & ?). exists s', (0, dp). split; [done|]. split; [done|]. split; [done|]. split; [done|]. by exists dp.
    + destruct Hres as [-> ?]. by exists s', (err, 0).
Qed.

Lemma namei_ok s hd hv m p r path pad_vp pad_name :
  vfs_ok s hd hv -> vfs_findroot (mounts s) path = Some (m, p) -> roots (m_addr m) = Some r ->
  (length path < PATH_MAX)%nat -> p = [] \/ segs p <> [] -> no_links (fss s) -> room s hd hv (length (segs p) + spare) ->
  exists s' e, namei sizeof_dentry calloc pad_vp pad_name path s = Ok (e, s') /\ namei_result s s' hd hv (m_addr m) r p e.
Proof.
  intros Hok Hfind Hr Hlen Hp Hlk Hrm. destruct (stack_window_ok s hd hv 3 pad_vp Hok) as (t1 & Hw1 & Hok1 & Hrm1).
  destruct (stack_window_ok _ hd hv 4 pad_name Hok1) as (t2 & Hw2 & Hok2 & Hrm2).
  destruct (namei_loop_ok MAXSYMLINKS _ hd hv m p r path Hok2) as (s' & e & Hrun & Hres); try done; [by apply Hrm2, Hrm1|].
  exists s', e. split; [|done]. unfold namei.
  by rewrite (bind_ret _ _ _ _ _ Hw1), (bind_ret _ _ _ _ _ Hw2), strlcpy_fits, Hrun by done.
Qed.

End Walk.

(** C5. [namei] resolves a path as the tree of the file system does, whatever
    is in the caches: for a path below the mount [m], with [p] the part below it,
    it returns 0 and a dentry of that mount whose path has the components of [p]
    and whose vnode stands for the node that the tree has there, with one more
    reference held to the dentry; or ENOENT or ENOTDIR, exactly as the walk over
    the tree fails, with no reference more or less than before.  The caches stay
    consistent in every case, the call returns and no assertion fails.  This is
    for trees without symbolic links, paths that are not too long and do not
    consist of further slashes only, and as long as memory, windows and counts
    suffice. *)
Theorem namei_resolves s hd hv m p r path pad_vp pad_name :
  vfs_ok s hd hv -> vfs_findroot (mounts s) path = Some (m, p) -> roots (m_addr m) = Some r ->
  (length path < PATH_MAX)%nat -> p = [] \/ segs p <> [] -> no_links (fss s) -> room s hd hv (length (segs p)) ->
  exists s', fs_same (fss s) (fss s') /\ mounts s' = mounts s /\
    match lookup_tree (fss s) r (segs p) (ends_slash p) with
    | RFound n => exists dp, namei sizeof_dentry calloc pad_vp pad_name path s = Ok ((0, dp), s') /\
        vfs_ok s' (add_held hd dp 1) hv /\ at_node s' dp (m_addr m) r (segs p) n
    | RErr e => namei sizeof_dentry calloc pad_vp pad_name path s = Ok ((e, 0), s') /\ vfs_ok s' hd hv
    end.
Proof.
  intros Hok Hfind Hr Hlen Hp Hlk Hrm.
  destruct (namei_ok 0 s hd hv m p r path pad_vp pad_name) as (s' & e & Hrun & Hs & Hm & _ & Hres); try done; [by rewrite Nat.add_0_r|].
  exists s'. split; [done|]. split; [done|]. destruct (lookup_tree (fss s) r (segs p) (ends_slash p)) as [n|err].
  - destruct Hres as (dp & -> & ? & ?). by exists dp.
  - by destruct Hres as [-> ?].
Qed.

(** ** A file system that grows *)

(** Directories stay and keep their entries, with their types; they may get more. *)
Definition fs_more (f f' : F) : Prop :=
  forall n, kind f n = VDIR -> kind f' n = VDIR /\ forall c n', entry f n c = Some n' -> entry f' n c = Some n' /\ kind f' n' = kind f n'.

Lemma lookup_tree_more f f' r cs n : fs_more f f' -> kind f r = VDIR ->
  lookup_tree f r cs false = RFound n -> lookup_tree f' r cs false = RFound n.
Proof.
  intros Hg. revert r. induction cs as [|c cs IH]; intros r Hr; simpl; [done|].
  destruct (entry f r c) as [n'|] eqn:E; [|done]. rewrite (proj1 (proj2 (Hg r Hr) _ _ E)). rewrite orb_false_r.
  destruct cs as [|c' cs]; [done|]. cbn [bool_decide negb andb].
  rewrite !bool_decide_decide. destruct (decide (kind f n' = VDIR)) as [Hk|]; [|done].
  destruct (decide (kind f' n' = VDIR)) as [_|Hk']; [|by destruct Hk'; apply (Hg n' Hk)]. simpl. by apply IH.
Qed.

(** A node that a path leads to keeps its type. *)
Lemma found_kind f f' r cs n : fs_more f f' -> kind f r = VDIR -> lookup_tree f r cs false = RFound n -> kind f' n = kind f n.
Proof.
  intros Hg. revert r. induction cs as [|c cs IH]; intros r Hr; simpl; [intros [= <-]; rewrite Hr; by apply Hg|].
  destruct (entry f r c) as [n'|] eqn:E; [|done]. rewrite orb_false_r. destruct cs as [|c' cs]; [intros [= <-]; by apply (proj2 (Hg r Hr) _ _ E)|].
  cbn [bool_decide negb andb]. rewrite !bool_decide_decide. destruct (decide (kind f n' = VDIR)) as [Hk|]; [|done]. simpl. by apply IH.
Qed.

(** The root that a dentry is looked up from is a directory. *)
Lemma dentry_root s hd hv dp d r : vfs_ok s hd hv -> dentries (dcs s) !! dp = Some d -> roots (d_mount d) = Some r ->
  kind (fss s) r = VDIR.
Proof.
  intros Hok Hd Hr. destruct (dentry_vnode _ _ _ _ dp d (ok_dc _ _ _ Hok) Hd) as (v & Hv & E).
  destruct (ok_vnode _ _ _ Hok _ v Hv) as (m & Hm & Em). destruct (ok_mount _ _ _ Hok m Hm) as (_ & _ & _ & r' & _ & _ & _ & Hr' & Hk).
  congruence.
Qed.

(** What is cached stays right when the file system gets more entries. *)
Lemma vfs_ok_more s hd hv f' : vfs_ok s hd hv -> fs_more (fss s) f' -> fs_inv f' (vc (dcs s)) -> vfs_ok (Vfs (dcs s) f' (mounts s)) hd hv.
Proof.
  intros Hok Hm Hi. split; simpl; try apply Hok; [done| |].
  - intros dp d Hin Hd. destruct (ok_dentry _ _ _ Hok dp d Hin Hd) as (cs & v & r & ? & ? & ? & ? & Hr & Hn & Hty). exists cs, v, r.
    pose proof (dentry_root _ _ _ _ _ _ Hok Hd Hr) as Hk.
    split; [done|]. split; [done|]. split; [done|]. split; [done|]. split; [done|]. simpl.
    split; [by eapply lookup_tree_more|]. rewrite Hty. symmetry. by eapply found_kind.
  - intros m Hin. destruct (ok_mount _ _ _ Hok m Hin) as (? & ? & d & r & ? & ? & ? & ? & Hk). split; [done|]. split; [done|].
    exists d, r. split; [done|]. split; [done|]. split; [done|]. split; [done|]. by apply Hm.
Qed.

(** A path that no mount covers. *)
Lemma namei_no_mount s hd hv path pad_vp pad_name : vfs_ok s hd hv -> vfs_findroot (mounts s) path = None ->
  (length path < PATH_MAX)%nat -> exists s', namei sizeof_dentry calloc pad_vp pad_name path s = Ok ((ENOTDIR, 0), s') /\ vfs_ok s' hd hv.
Proof.
  intros Hok Hfind Hlen. destruct (stack_window_ok s hd hv 3 pad_vp Hok) as (t1 & Hw1 & Hok1 & _).
  destruct (stack_window_ok _ hd hv 4 pad_name Hok1) as (t2 & Hw2 & Hok2 & _).
  eexists. split; [|done]. unfold namei. rewrite (bind_ret _ _ _ _ _ Hw1), (bind_ret _ _ _ _ _ Hw2), strlcpy_fits by done.
  cbn [namei_loop MAXSYMLINKS]. erewrite bind_ret by (by apply gets_ok). cbn [mounts set_dcs]. by rewrite Hfind.
Qed.

End Resolve.
