(* ===== verification/Mount.v ===== *)
(** Mounting (vfscore/mount.c: fs_getfs, mount, vfscore_release_mp_dentries,
    umount2) and the root of the RAM file system (ramfs/ramfs_vfsops.c).

    [mount] makes the root vnode and the root dentry of a file system and puts the
    mount on the list that path look-up goes through; the theorems show that it
    establishes the invariant that [namei] relies on.  The result of [malloc] for
    the mount is an argument; for a vnode and a dentry it is a function of the
    state, as in [Namei]. *)
From S2P Require Import Prelude VfsTypes Windows PathConv Vnode Dentry Dcache Namei Resolve.
From stdpp Require Import base numbers gmap fin_maps sets list.
Import Errno.
#[local] Open Scope Z_scope.

(** ** Code *)

Definition FSMAXNAMES : nat := 16.
Definition VROOT : Z := 1.
Definition MNT_FORCE : Z := 1.
Definition MAXPATHLEN : nat := PATH_MAX.
(** [S_IRUSR | S_IWUSR | S_IXUSR] and [S_IWUSR]. *)
Definition S_IRWXU : Z := 448.
Definition S_IWUSR : Z := 128.
(** The mask of the window on a mount. *)
Definition MOUNT_MASK : Z := Z.lor (bit 21) (bit 2).

Definition with_flags t fl m v := Vnode (v_ino v) (v_mount v) (v_refcnt v) t fl m (v_size v) (v_names v) (v_data v).
Definition with_vmode m v := Vnode (v_ino v) (v_mount v) (v_refcnt v) (v_type v) (v_flags v) m (v_size v) (v_names v) (v_data v).

(** "/dev/" *)
Definition dev_prefix : list Z := [47; 100; 101; 118; 47].

Section Code.
Context {F : Type} `{FileSystem F}.
Context (sizeof_mount sizeof_vnode sizeof_dentry : Z) (malloc : vcache -> Z) (calloc : dcache -> Z) (junk : vnode).

(** A type of file systems: [VFS_MOUNT], [VFS_UNMOUNT] and [VFS_VGET]. *)
Record fs_type := FsType {
  vs_name : list Z;
  vfs_mount : mount -> M (@vfs F) Z;
  vfs_unmount : mount -> M (@vfs F) Z;
  vfs_vget : Z -> Z -> Z
}.
Context (fses : list fs_type).

Fixpoint find_fs (i : nat) (l : list fs_type) (name : list Z) : option (nat * fs_type) :=
  match l with
  | [] => None
  | fs :: l => if bool_decide (take FSMAXNAMES name = take FSMAXNAMES (vs_name fs)) then Some (i, fs) else find_fs (S i) l name
  end.

Definition fs_getfs (name : list Z) : option (nat * fs_type) := find_fs 0 fses name.

Definition set_mounts x (s : @vfs F) := Vfs (dcs s) (fss s) x.
Definition on_cache {A} (m : M vcache A) : M (@vfs F) A := on_dc (on_vc m).

(** [free] of a mount; its window stays. *)
Definition free_mount (a : Z) : M (@vfs F) unit :=
  _ ← on_cache (deref (fun s => m_counts s !! a));
  on_cache (modify (fun s => set_counts (delete a (m_counts s)) s)).

Definition drele_opt (dp : Z) : M (@vfs F) unit := if dp =? 0 then mret tt else on_dc (drele dp).

(** The dentry to be covered by a mount at [dir]; NULL for the root. *)
Definition covered (pad_vp pad_name : Z) (dir : list Z) : M (@vfs F) (Z * Z) :=
  if bool_decide (dir = [SLASH]) then mret (0, 0) else
  r ← namei sizeof_dentry calloc pad_vp pad_name dir;
  if negb (r.1 =? 0) then mret (ENOENT, 0) else
  d ← on_dc (dentry_at r.2);
  v ← on_cache (vnode_at (d_vnode d));
  mret (if bool_decide (v_type v = VDIR) then (0, r.2) else (ENOTDIR, r.2)).

(** The root vnode, or NULL. *)
Definition make_vnode (fs : fs_type) (mp : Z) : M vcache Z :=
  a ← gets malloc;
  r ← vfscore_vget sizeof_vnode (vfs_vget fs) a junk mp 0;
  let vp := r.2 in
  if vp =? 0 then mret 0 else
  upd_vnode vp (with_flags VDIR VROOT (Z.lor S_IFDIR S_IRWXU));;
  mret vp.

(** The root vnode and the root dentry (NULL when there is no memory). *)
Definition make_root (fs : fs_type) (mp : Z) : M dcache (Z * Z) :=
  vp ← on_vc (make_vnode fs mp);
  if vp =? 0 then mret (0, 0) else
  a ← gets calloc;
  dp ← dentry_alloc sizeof_dentry a true 0 vp [SLASH];
  on_vc (vput vp);;
  mret (vp, dp).

(** [mount] from [err3] on. *)
Definition mount_failed (a_mp dp_covered error : Z) : M (@vfs F) Z := drele_opt dp_covered;; free_mount a_mp;; mret error.

(** [mount] from where [dp_covered] is known; [stale] is what the variable [error]
    holds when it has not been set. *)
Definition mount_at (fs : fs_type) (i : nat) (a_mp stale : Z) (dir : list Z) (flags dp_covered : Z) : M (@vfs F) Z :=
  r ← on_dc (make_root fs a_mp);
  if r.1 =? 0 then mount_failed a_mp dp_covered ENOMEM else
  if r.2 =? 0 then mount_failed a_mp dp_covered (if dp_covered =? 0 then stale else 0) else
  let mp := Mount a_mp (strlcpy dir PATH_MAX) r.2 dp_covered (s32 flags) i in
  e ← vfs_mount fs mp;
  if negb (e =? 0) then on_dc (drele r.2);; mount_failed a_mp dp_covered e else
  (if flag (m_flags mp) MNT_RDONLY
   then on_cache (upd_vnode r.1 (fun v => with_vmode (Z.land (v_mode v) (Z.lnot S_IWUSR)) v)) else mret tt);;
  modify (fun s => set_mounts (mounts s ++ [mp]) s);;
  mret 0.

(** [a_mp] is the result of [malloc] for the mount.  A device cannot be opened:
    [device_open] crashes. *)
Definition do_mount (pad_vp pad_name a_mp stale : Z) (dev dir fsname : option (list Z)) (flags : Z) : M (@vfs F) Z :=
  match dir with
  | None | Some [] => mret ENOENT
  | Some dir =>
      match fsname with
      | None => abort
      | Some fsname =>
          match fs_getfs fsname with
          | None => mret ENODEV
          | Some (i, fs) =>
              if match dev with Some dev => bool_decide (take 5 dev = dev_prefix) | None => false end then abort else
              ms ← gets mounts;
              if existsb (fun mp => bool_decide (m_path mp = dir)) ms then mret EBUSY else
              if a_mp =? 0 then mret ENOMEM else
              on_cache (on_wins (vfs_ipc_add_heap a_mp sizeof_mount MOUNT_MASK));;
              on_cache (modify (fun s => set_counts (<[a_mp := 0]> (m_counts s)) s));;
              match dev with
              | None => undef
              | Some _ =>
                  c ← covered pad_vp pad_name dir;
                  if negb (c.1 =? 0) then mount_failed a_mp c.2 c.1 else
                  mount_at fs i a_mp stale dir flags c.2
              end
          end
      end
  end.

Definition vfscore_release_mp_dentries (mp : mount) : M (@vfs F) unit :=
  drele_opt (m_covered mp);;
  on_dc (drele (m_root mp)).

Fixpoint find_mount (path : list Z) (l : list mount) : option mount :=
  match l with
  | [] => None
  | mp :: l => if bool_decide (path = m_path mp) then Some mp else find_mount path l
  end.

Definition umount2 (path : list Z) (flags : Z) : M (@vfs F) Z :=
  if decide (MAXPATHLEN <= length path)%nat then mret ENAMETOOLONG else
  ms ← gets mounts;
  match find_mount path ms with
  | None => mret EINVAL
  | Some mp =>
      if (m_covered mp =? 0) && negb (flag flags MNT_FORCE) then mret EINVAL else
      match fses !! m_op mp with
      | None => undef
      | Some fs =>
          e ← vfs_unmount fs mp;
          if negb (e =? 0) then mret e else
          modify (fun s => set_mounts (filter (fun m => m_addr m <> m_addr mp) (mounts s)) s);;
          free_mount (m_addr mp);;
          mret 0
      end
  end.

End Code.

(** ** What mounting a file system promises *)

Section Correct.
Context {F : Type} `{FileSystemLaws F}.
Context (sizeof_mount sizeof_vnode sizeof_dentry : Z) (malloc : vcache -> Z) (calloc : dcache -> Z) (junk : vnode).
(** There is memory, and what the allocator returns is not in use. *)
Hypothesis malloc_fresh : forall s, malloc s <> 0 /\ vnodes s !! malloc s = None.
Hypothesis calloc_fresh : forall s, calloc s <> 0 /\ dentries s !! calloc s = None.

(** Directories stay and have the same entries, with the same types. *)
Definition fs_grows (f f' : F) : Prop :=
  forall n, kind f n = VDIR -> kind f' n = VDIR /\ forall c, entry f' n c = entry f n c /\ forall n', entry f n c = Some n' -> kind f' n' = kind f n'.

Definition empty_dir (f : F) (n : Z) : Prop := kind f n = VDIR /\ forall c, entry f n c = None.

Definition with_data x v := Vnode (v_ino v) (v_mount v) (v_refcnt v) (v_type v) (v_flags v) (v_mode v) (v_size v) (v_names v) x.

(** [VFS_MOUNT] makes a new, empty directory and stores it in the root vnode, or it fails
    and changes nothing.  [VFS_VGET] accepts every vnode. *)
Record fs_type_ok (fs : @fs_type F) : Prop := {
  ft_vget : forall mp a, vfs_vget fs mp a = 0;
  ft_mount : forall s m d v, dentries (dcs s) !! m_root m = Some d -> vnodes (vc (dcs s)) !! d_vnode d = Some v ->
    v_type v = VDIR -> v_ino v = 0 ->
    fs_inv (fss s) (set_vnodes (delete (d_vnode d) (vnodes (vc (dcs s)))) (vc (dcs s))) ->
    (exists e, e <> 0 /\ vfs_mount fs m s = Ok (e, s)) \/
    exists np f', let c' := set_vnodes (<[d_vnode d := with_data np v]> (vnodes (vc (dcs s)))) (vc (dcs s)) in
      vfs_mount fs m s = Ok (0, Vfs (set_vc c' (dcs s)) f' (mounts s)) /\
      fs_grows (fss s) f' /\ empty_dir f' np /\ fs_inv f' c'
}.

Lemma grows_more f f' : fs_grows f f' -> fs_more f f'.
Proof. intros Hg n Hk. destruct (Hg n Hk) as [? Hc]. split; [done|]. intros c n' E. destruct (Hc c) as [-> Hn]. auto. Qed.

Lemma lookup_tree_err f r cs slash e : lookup_tree f r cs slash = RErr e -> e <> 0.
Proof.
  revert r. induction cs as [|c cs IH]; intros r; simpl; [done|]. case_match; [|by intros [= <-]].
  case_match; [by intros [= <-]|apply IH].
Qed.

(** ** The invariant with one more mount *)

(** [t] is the cache [s] with the dentry [a] and its vnode [vp] for the root of
    the mount [mp]; other things may have been dropped. *)
Record rooted (s t : dcache) (a vp mp np : Z) : Prop := {
  rt_dentry : exists d, dentries t !! a = Some d /\ static d = (Some [SLASH], vp, mp, 0);
  rt_vnode : exists v, vnodes (vc t) !! vp = Some v /\ v_data v = np /\ mp = v_mount v /\ v_type v = VDIR;
  rt_fresh : dentries s !! a = None /\ vnodes (vc s) !! vp = None;
  rt_dentries : forall x d', x <> a -> dentries t !! x = Some d' -> exists d, dentries s !! x = Some d /\ static d = static d';
  rt_vnodes : forall x v', x <> vp -> vnodes (vc t) !! x = Some v' -> exists v, vnodes (vc s) !! x = Some v /\ vstatic v = vstatic v';
  rt_table : forall x, x ∈ concat (dtable t) -> x = a \/ x ∈ concat (dtable s);
  rt_fake : forall x, x ∈ fake t -> x ∈ fake s
}.

Definition roots_with (roots : Z -> option Z) (mp np : Z) : Z -> option Z := fun x => if x =? mp then Some np else roots x.

Lemma vfs_ok_mount roots live s t f' hd hv m vp np :
  vfs_ok roots live s hd hv -> rooted (dcs s) t (m_root m) vp (m_addr m) np ->
  dc_ok t (add_held hd (m_root m) 1) hv -> (forall m', m' ∈ mounts s -> m_addr m' <> m_addr m) ->
  (forall x, is_Some (m_counts (vc (dcs s)) !! x) -> is_Some (m_counts (vc t) !! x)) ->
  fs_grows (fss s) f' -> kind f' np = VDIR -> fs_inv f' (vc t) ->
  vfs_ok (roots_with roots (m_addr m) np) live (Vfs t f' (mounts s ++ [m])) (add_held hd (m_root m) 1) hv.
Proof.
  intros Hok [(d0 & Hd0 & Hst0) (v0 & Hv0 & Hnp & Hvmp & Hv0ty) [Ha Hvp] Hds Hvs Htab Hfk] Hdc' Hmp Hcnt Hg Hk Hinv.
  pose proof Hok as [Hdc Hfs Hde Hun Hmo Hvm Hlv].
  injection Hst0 as Ep0 Ev0 Em0 Epar0.
  assert (m_root m ∉ fake (dcs s)) as Hnf.
  { intros Hin. assert (m_root m ∈ concat (dtable (dcs s)) ++ fake (dcs s)) as Hin' by (apply elem_of_app; by right).
    apply (h_in _ _ _ (dc_table _ _ _ _ Hdc)) in Hin'. rewrite lookup_fmap, Ha in Hin'. by destruct Hin'. }
  assert (forall mp r, mp <> m_addr m -> roots mp = Some r -> roots_with roots (m_addr m) np mp = Some r) as Hrw.
  { intros mp r Hne Hr. unfold roots_with. by rewrite (proj2 (Z.eqb_neq _ _) Hne). }
  assert (forall x d, dentries (dcs s) !! x = Some d -> d_mount d <> m_addr m /\ d_vnode d <> vp) as Hold.
  { intros x d Hd. destruct (dentry_vnode _ _ _ _ x d Hdc Hd) as (v & Hv & E). destruct (Hvm _ v Hv) as (m1 & Hm1 & E1).
    rewrite <- E, <- E1. split; [by apply Hmp|congruence]. }
  assert (roots_with roots (m_addr m) np (m_addr m) = Some np) as Hself by (unfold roots_with; by rewrite Z.eqb_refl).
  split; simpl; [done|done| | | | |].
  - intros dp d Hin Hd. destruct (decide (dp = m_root m)) as [->|Hne].
    + rewrite Hd0 in Hd. injection Hd as <-. exists [], v0, np. rewrite Ep0, Ev0, Em0, Hnp. simpl.
      split; [done|]. split; [done|]. split; [unfold PATH_MAX; lia|]. by rewrite Hv0ty, Hk.
    + destruct (Htab dp Hin) as [?|Hin0]; [done|]. destruct (Hds dp d Hne Hd) as (d1 & Hd1 & [= Ep Ev Em _]).
      destruct (Hold dp d1 Hd1) as (Hm1 & Hv1).
      destruct (Hde dp d1 Hin0 Hd1) as (cs & v & r & HF & Hp & Hl & Hv & Hr & Ht & Hty).
      destruct (dentry_vnode _ _ _ _ dp d Hdc' Hd) as (v' & Hv' & _).
      destruct (Hvs (d_vnode d) v' ltac:(congruence) Hv') as (v1 & Hv1' & [= _ _ Et _ _ _ Ed]).
      pose proof (dentry_root _ _ _ _ _ _ _ _ Hok Hd1 Hr) as Hkr. exists cs, v', r. split; [done|]. split; [congruence|]. split; [done|]. split; [done|].
      split; [apply Hrw; congruence|]. simpl. replace (v_data v') with (v_data v) by congruence.
      split; [eapply lookup_tree_more; [by apply grows_more|done|done]|].
      rewrite (found_kind _ _ _ _ _ (grows_more _ _ Hg) Hkr Ht), <- Hty. congruence.
  - assert (forall x d, x <> m_root m -> dentries t !! x = Some d -> d_mount d <> m_addr m) as Hother.
    { intros x d Hx Hd. destruct (Hds x d Hx Hd) as (d1 & Hd1 & [= _ _ Em _]). rewrite <- Em. by apply (Hold x d1). }
    intros x x' d d' Hin Hin' Hd Hd' Em Ep. destruct (decide (x = m_root m)) as [->|Hne], (decide (x' = m_root m)) as [->|Hne']; [done| | |].
    + exfalso. apply (Hother x' d' Hne' Hd'). congruence.
    + exfalso. apply (Hother x d Hne Hd). congruence.
    + destruct (Hds x d Hne Hd) as (e & He & [= Ep1 _ Em1 _]), (Hds x' d' Hne' Hd') as (e' & He' & [= Ep2 _ Em2 _]).
      destruct (Htab x Hin) as [?|Hx], (Htab x' Hin') as [?|Hx']; try done. eapply (Hun x x' e e'); eauto; congruence.
  - intros m' [Hm'|Hm']%elem_of_app; [|apply list_elem_of_singleton in Hm' as ->].
    + destruct (Hmo m' Hm') as (Hh & Hf & d & r & Hd & Hmp' & Hp & Hr & Hkr).
      assert (m_root m' <> m_root m) as Hne by congruence. split; [by rewrite add_held_ne|]. split; [intros ?%Hfk; done|].
      destruct (proj2 (t_held _ _ (dc_tree _ _ _ _ Hdc') (m_root m'))) as [d' Hd']; [by rewrite add_held_ne|].
      destruct (Hds _ d' Hne Hd') as (d1 & Hd1 & [= Ep Ev Em _]). rewrite Hd in Hd1. injection Hd1 as <-.
      exists d', r. split; [done|]. split; [congruence|]. split; [congruence|]. split; [apply Hrw; [by apply Hmp|done]|]. by apply Hg.
    + split; [rewrite add_held_eq; pose proof (proj1 (t_held _ _ (dc_tree _ _ _ _ Hdc) (m_root m))); lia|].
      split; [intros ?%Hfk; done|]. exists d0, np. done.
  - intros x v Hx. destruct (decide (x = vp)) as [->|Hne].
    + rewrite Hv0 in Hx. injection Hx as <-. exists m. split; [apply elem_of_app; right; by left|done].
    + destruct (Hvs x v Hne Hx) as (v1 & Hv1 & [= _ E _ _ _ _ _]). destruct (Hvm x v1 Hv1) as (m1 & Hm1 & E1).
      exists m1. split; [apply elem_of_app; by left|congruence].
  - intros mp Hin. by apply Hcnt, Hlv.
Qed.

(** ** The root of a file system *)

(** The root vnode before the file system has seen it. *)
Definition root_vnode (mp : Z) : vnode := with_flags VDIR VROOT (Z.lor S_IFDIR S_IRWXU) (new_vnode junk mp 0).

Lemma make_vnode_ok fs s hd hv mp : fs_type_ok fs -> dc_ok s hd hv ->
  (forall vp v, vnodes (vc s) !! vp = Some v -> v_mount v <> mp) -> is_Some (m_counts (vc s) !! mp) ->
  (0 < free_slots (wins (vc s)))%nat ->
  exists c, make_vnode sizeof_vnode malloc junk fs mp (vc s) = Ok (malloc (vc s), c) /\
    vnodes c = <[malloc (vc s) := root_vnode mp]> (vnodes (vc s)) /\
    dc_ok (set_vc c s) hd (add_held hv (malloc (vc s)) 1) /\ (free_slots (wins (vc s)) <= S (free_slots (wins c)))%nat /\
    (forall x, is_Some (m_counts (vc s) !! x) -> is_Some (m_counts c !! x)).
Proof.
  intros Hfs Hdc Hno [c Hc] Hsl. destruct (malloc_fresh (vc s)) as [Ha0 Han]. set (vp := malloc (vc s)) in *.
  destruct (vget_miss sizeof_vnode (vfs_vget fs) (vc s) _ vp junk mp 0 c (dc_vc _ _ _ _ Hdc)
    ltac:(intros x v Hx [E _]; by apply (Hno x v)) Ha0 Han (free_slot_available (wins (vc s)) ltac:(lia)) Hc (ft_vget _ Hfs mp vp))
    as (l & w & Hw & Hrun & Hvc).
  set (c1 := added (vc s) vp (new_vnode junk mp 0) c l w) in *.
  assert (dc_ok (set_vc c1 s) hd (add_held hv vp 1)) as Hdc1 by (by apply (dc_inv_new s hd hv vp (new_vnode junk mp 0))).
  exists (set_vnodes (<[vp := root_vnode mp]> (vnodes c1)) c1). split; [|split; [simpl; apply insert_insert_eq|split; [|split]]].
  - unfold make_vnode. erewrite (bind_ret _ _ _ vp) by (by apply gets_ok). erewrite (bind_ret _ _ _ (0, vp)); [|exact Hrun].
    cbn [snd]. cbv zeta. rewrite (proj2 (Z.eqb_neq vp 0)) by done.
    by erewrite (bind_ret _ _ _ tt); [|apply update_vnode_ok; apply lookup_insert_eq].
  - eapply dc_inv_ext; [done| |apply (dc_inv_vnode (set_vc c1 s) (dentries s) hd (add_held hv vp 1) vp (new_vnode junk mp 0) (root_vnode mp) 0)];
      try done; [intros x; unfold add_held; case_match; lia|simpl; apply lookup_insert_eq|].
    rewrite add_held_eq. pose proof (dc_hv _ _ _ _ Hdc vp). lia.
  - simpl. by eapply vfs_add_slots.
  - intros x Hx. simpl. rewrite lookup_insert_is_Some'. by right.
Qed.

Lemma make_root_ok fs s hd hv mp : fs_type_ok fs -> dc_ok s hd hv ->
  (forall vp v, vnodes (vc s) !! vp = Some v -> v_mount v <> mp) -> is_Some (m_counts (vc s) !! mp) ->
  (2 <= free_slots (wins (vc s)))%nat ->
  exists vp dp t, make_root sizeof_vnode sizeof_dentry malloc calloc junk fs mp s = Ok ((vp, dp), t) /\ vp <> 0 /\ dp <> 0 /\
    dc_ok t (add_held hd dp 1) hv /\ rooted s t dp vp mp (v_data junk) /\
    (exists v, vnodes (vc t) !! vp = Some v /\ v_type v = VDIR /\ v_ino v = 0) /\
    (forall x, is_Some (m_counts (vc s) !! x) -> is_Some (m_counts (vc t) !! x)).
Proof.
  intros Hfs Hdc Hno Hc Hsl. destruct (malloc_fresh (vc s)) as [Ha0 Han].
  destruct (make_vnode_ok fs s hd hv mp Hfs Hdc Hno Hc ltac:(lia)) as (c & Hrun & Hvn & Hdc2 & Hw1 & Hmc).
  set (vp := malloc (vc s)) in *. destruct (calloc_fresh (set_vc c s)) as [Hd0 Hdn]. set (dp := calloc (set_vc c s)) in *.
  destruct (dentry_alloc_ok sizeof_dentry (set_vc c s) hd (add_held hv vp 1) dp 0 vp (root_vnode mp) [SLASH] Hdc2)
    as (w2 & l2 & Hl2 & _ & Hal & Hdc3); try done.
  { simpl. rewrite Hvn. apply lookup_insert_eq. }
  { apply free_slot_available. simpl. lia. }
  { by intros []. }
  cbv zeta in *. set (s3 := grown _ _ _ _ _ _ _ _) in *.
  destruct (dc_vrele s3 _ _ _ vp Hdc3) as (t & _ & Hput & Hdc4 & Hsh).
  { rewrite add_held_eq. pose proof (dc_hv _ _ _ _ Hdc vp). lia. }
  assert (dc_ok (set_vc t s3) (add_held hd dp 1) hv) as Hdc5.
  { eapply dc_inv_ext; [done| |exact Hdc4]. intros x. unfold add_held. repeat case_match; lia. }
  assert (dentries s3 = <[dp := new_dentry [SLASH] vp mp 0]> (dentries s)) as Hds.
  { simpl. unfold with_child. by rewrite (t_null _ _ (dc_tree _ _ _ _ Hdc)). }
  pose proof (fun x v' => static_get (vnodes (vc s3)) (vnodes t) x v' (sh_vnodes _ _ Hsh)) as Hvs.
  destruct (dentry_vnode _ _ _ _ dp (new_dentry [SLASH] vp mp 0) Hdc5) as (v & Hv & _).
  { change (dentries (set_vc t s3)) with (dentries s3). rewrite Hds. apply lookup_insert_eq. }
  simpl in Hv. destruct (Hvs vp v Hv) as (v3 & Hv3 & [= Ei Em Et _ _ _ Ed]). simpl in Hv3. rewrite lookup_insert_eq in Hv3. injection Hv3 as <-.
  exists vp, dp, (set_vc t s3). split; [|split; [done|split; [done|split; [done|split; [split|split]]]]].
  - unfold make_root. erewrite (bind_ret _ _ _ vp); [|apply zoom_ok; exact Hrun]. rewrite (proj2 (Z.eqb_neq vp 0)) by done.
    erewrite (bind_ret _ _ _ dp) by (by apply gets_ok). erewrite (bind_ret _ _ _ dp); [|exact Hal].
    by erewrite (bind_ret _ _ _ tt).
  - exists (new_dentry [SLASH] vp mp 0). split; [|done]. change (dentries (set_vc t s3)) with (dentries s3). rewrite Hds. apply lookup_insert_eq.
  - exists v. by rewrite <- Ed, <- Em, <- Et.
  - done.
  - intros x d' Hx Hd'. change (dentries (set_vc t s3)) with (dentries s3) in Hd'. rewrite Hds, lookup_insert_ne in Hd' by done. eauto.
  - intros x v' Hx (v1 & Hv1 & E)%Hvs. simpl in Hv1. rewrite Hvn, !lookup_insert_ne in Hv1 by done. eauto.
  - intros x Hx. change (dtable (set_vc t s3)) with (dtable s3) in Hx. simpl in Hx. rewrite (concat_push _ _ _ _ Hl2) in Hx.
    by apply elem_of_cons in Hx.
  - done.
  - exists v. by rewrite <- Et, <- Ei.
  - intros x Hx. apply (sh_mounts _ _ Hsh). simpl. by apply Hmc.
Qed.

(** ** Failure *)

Lemma vc_ok_counts s held m : vc_ok s held ->
  (forall mp c, m !! mp = Some c -> c = s32 (Z.of_nat (size (of_mount (vnodes s) mp)))) ->
  (forall vp v, vnodes s !! vp = Some v -> is_Some (m !! v_mount v)) -> vc_ok (set_counts m s) held.
Proof. intros [] H1 H2. by split. Qed.

Lemma dc_ok_counts s hd hv m : dc_ok s hd hv ->
  (forall mp c, m !! mp = Some c -> c = s32 (Z.of_nat (size (of_mount (vnodes (vc s)) mp)))) ->
  (forall vp v, vnodes (vc s) !! vp = Some v -> is_Some (m !! v_mount v)) -> dc_ok (set_vc (set_counts m (vc s)) s) hd hv.
Proof. intros [] H1 H2. split; try done. by apply vc_ok_counts. Qed.

Lemma of_mount_none m mp : (forall vp v, m !! vp = Some v -> v_mount v <> mp) -> of_mount m mp = ∅.
Proof. intros Hn. apply map_empty_filter_2. intros vp v Hv. by apply (Hn vp). Qed.

Definition apart (s : @vfs F) (a : Z) : Prop := forall m, m ∈ mounts s -> m_addr m <> a.

Lemma apart_vnodes roots live s hd hv a : vfs_ok roots live s hd hv -> apart s a ->
  forall vp v, vnodes (vc (dcs s)) !! vp = Some v -> v_mount v <> a.
Proof. intros Hok Ha vp v Hv. destruct (ok_vnode _ _ _ _ _ Hok vp v Hv) as (m & Hm & <-). by apply Ha. Qed.

Lemma vfs_ok_live roots live live' s hd hv : vfs_ok roots live s hd hv -> (forall x, x ∈ live' -> x ∈ live) -> vfs_ok roots live' s hd hv.
Proof. intros [] Hl. split; try done. intros mp Hmp. by apply ok_live, Hl. Qed.

(** The structure of a mount that is not on the list goes. *)
Lemma free_mount_ok roots live s hd hv a : vfs_ok roots (a :: live) s hd hv -> apart s a -> a ∉ live ->
  exists s', free_mount a s = Ok (tt, s') /\ vfs_ok roots live s' hd hv /\ mounts s' = mounts s /\ fss s' = fss s.
Proof.
  intros Hok Ha Hl. destruct (ok_live _ _ _ _ _ Hok a) as [c Hc]; [by left|]. pose proof (apart_vnodes _ _ _ _ _ _ Hok Ha) as Hno.
  pose proof (ok_dc _ _ _ _ _ Hok) as Hdc. unfold free_mount.
  rewrite (bind_ret _ _ _ c s) by (apply on_dc_id, on_vc_id; by apply deref_ok).
  eexists. split; [apply zoom_ok, zoom_ok; by apply modify_ok|]. split; [|done].
  assert (dc_ok (set_vc (set_counts (delete a (m_counts (vc (dcs s)))) (vc (dcs s))) (dcs s)) hd hv) as Hdc'.
  { apply dc_ok_counts; [done| |].
    - intros mp k [_ Hk]%lookup_delete_Some. by apply (vc_mcount _ _ (dc_vc _ _ _ _ Hdc)).
    - intros vp v Hv. rewrite lookup_delete_ne by (apply not_eq_sym; by eapply Hno). by eapply (vc_mounts _ _ (dc_vc _ _ _ _ Hdc)). }
  eapply vfs_ok_sub; [eapply (vfs_ok_live _ _ live); [done|intros; by right]|done|done|done|done|done| |by apply (vfs_held _ _ _ _ _ Hok)].
  intros mp Hmp. simpl. rewrite lookup_delete_ne by (intros ->; done). apply (ok_live _ _ _ _ _ Hok). by right.
Qed.

Lemma mount_failed_ok roots live s hd hv a dp e : vfs_ok roots (a :: live) s (if dp =? 0 then hd else add_held hd dp 1) hv ->
  roots_held s hd -> (forall x, 0 <= hd x) -> apart s a -> a ∉ live ->
  exists s', mount_failed a dp e s = Ok (e, s') /\ vfs_ok roots live s' hd hv /\ mounts s' = mounts s /\ fss s' = fss s.
Proof.
  intros Hok Hr Hh Ha Hl. unfold mount_failed, drele_opt. destruct (Z.eqb_spec dp 0) as [->|Hdp].
  - destruct (free_mount_ok _ _ _ _ _ _ Hok Ha Hl) as (s' & Hrun & Hres). exists s'. split; [|done].
    rewrite (bind_ret _ _ _ tt s) by done. by rewrite (bind_ret _ _ _ _ _ Hrun).
  - destruct (drele_vfs _ _ _ _ _ _ Hok Hr Hh) as (t & Hrun & Hok1 & _).
    destruct (free_mount_ok _ _ _ _ _ _ Hok1 Ha Hl) as (s' & Hrun2 & Hres). exists s'. split; [|done].
    by rewrite (bind_ret _ _ _ _ _ Hrun), (bind_ret _ _ _ _ _ Hrun2).
Qed.

(** What nobody refers to is not there. *)
Lemma dentry_gone t hd hv dp : dc_ok t hd hv -> hd dp = 0 ->
  (forall x e, dentries t !! x = Some e -> d_parent e <> dp) -> dentries t !! dp = None.
Proof.
  intros Hdc Hz Hno. pose proof (dc_tree _ _ _ _ Hdc) as Ht. destruct (dentries t !! dp) as [d|] eqn:Hd; [|done]. exfalso.
  destruct (t_count _ _ Ht dp d Hd) as [Hc Hb]. destruct (t_child _ _ Ht dp d Hd) as [_ Hch].
  destruct (d_children d) as [|c l]; [simpl in Hc; lia|].
  assert ((d_parent <$> dentries t) !! c = Some dp) as Hpar by (apply Hch; by left).
  rewrite lookup_fmap in Hpar. apply fmap_Some in Hpar as (e & He & Hpe). by apply (Hno c e).
Qed.

Lemma vnode_gone t hd hv vp : dc_ok t hd hv -> hv vp = 0 ->
  (forall x e, dentries t !! x = Some e -> d_vnode e <> vp) -> vnodes (vc t) !! vp = None.
Proof.
  intros Hdc Hz Hno. destruct (vnodes (vc t) !! vp) as [v|] eqn:Hv; [|done]. exfalso.
  destruct (vc_count _ _ (dc_vc _ _ _ _ Hdc) vp v Hv) as [Hc Hb]. unfold vheld in Hc. rewrite Hv, Hz in Hc.
  destruct (n_names _ _ (dc_names _ _ _ _ Hdc) vp v Hv) as [_ Hn]. destruct (v_names v) as [|x l]; [simpl in Hc; lia|].
  assert ((d_vnode <$> dentries t) !! x = Some vp) as Hx by (apply Hn; by left).
  rewrite lookup_fmap in Hx. apply fmap_Some in Hx as (e & He & Hve). by apply (Hno x e).
Qed.

(** Without its root dentry nothing of the new file system is left. *)
Lemma root_gone s t hd hv dp vp mp np t' : dc_ok s hd hv -> rooted s t dp vp mp np -> dc_ok t' hd hv ->
  static <$> dentries t' ⊆ static <$> dentries t -> dentries t' !! dp = None /\ vnodes (vc t') !! vp = None.
Proof.
  intros Hdc [(d0 & Hd0 & [= _ _ _ Epar]) _ [Ha Hvp] Hds _ _ _] Hdc' Hst. pose proof (dc_tree _ _ _ _ Hdc) as Ht.
  assert (forall x e, x <> dp -> dentries t' !! x = Some e -> exists e0, dentries s !! x = Some e0 /\ static e0 = static e) as Hold.
  { intros x e Hx He. destruct (static_get _ _ _ _ Hst He) as (e1 & He1 & <-). by apply Hds. }
  assert (dentries t' !! dp = None) as Hgone.
  { destruct (decide (dp = 0)) as [->|Hd00]; [apply (t_null _ _ (dc_tree _ _ _ _ Hdc'))|]. apply (dentry_gone _ hd hv); [done| |].
    - destruct (t_held _ _ Ht dp) as [? Hh]. destruct (decide (0 < hd dp)) as [Hx%Hh|]; [|lia]. rewrite Ha in Hx. by destruct Hx.
    - intros c e He Hpe. destruct (decide (c = dp)) as [->|Hne].
      + destruct (static_get _ _ _ _ Hst He) as (e1 & He1 & [= _ _ _ E]). congruence.
      + destruct (Hold c e Hne He) as (e0 & He0 & [= _ _ _ E]). destruct (tree_parent _ _ c e0 Ht He0) as (p & Hp & _); congruence. }
  split; [done|]. apply (vnode_gone _ hd hv); [done|exact (held_zero _ _ _ _ _ Hdc Hvp)|]. intros x e He Hve.
  destruct (Hold x e) as (e0 & He0 & [= _ E _ _]); [congruence|done|].
  destruct (dentry_vnode _ _ _ _ x e0 Hdc He0) as (v' & Hv' & _). congruence.
Qed.

Lemma drop_root roots live s hd hv t dp vp mp np : vfs_ok roots live s hd hv -> rooted (dcs s) t dp vp mp np ->
  dc_ok t (add_held hd dp 1) hv -> (forall x, is_Some (m_counts (vc (dcs s)) !! x) -> is_Some (m_counts (vc t) !! x)) ->
  exists t', drele dp t = Ok (tt, t') /\ vfs_ok roots live (set_dcs t' s) hd hv.
Proof.
  intros Hok Hrt Hdc Hcnt. destruct (vfs_held _ _ _ _ _ Hok) as [Hh Hr].
  destruct (drele_ok t _ hv dp Hdc) as (t' & Hrun & Hdc' & Hst & Hsh); [rewrite add_held_eq; specialize (Hh dp); lia|].
  exists t'. split; [done|]. apply (dc_inv_ext _ _ _ _ hd hv) in Hdc'; [|intros x; unfold add_held; repeat case_match; lia|done].
  destruct (root_gone _ _ _ _ _ _ _ _ _ (ok_dc _ _ _ _ _ Hok) Hrt Hdc' Hst) as [Hd Hv]. destruct Hrt.
  eapply vfs_ok_sub; try done.
  - apply map_subseteq_spec. intros x y Hx. rewrite lookup_fmap in Hx. apply fmap_Some in Hx as (d & Hx & ->).
    destruct (static_get _ _ _ _ Hst Hx) as (d1 & Hd1 & <-). destruct (rt_dentries0 x d1) as (d2 & Hd2 & <-); [congruence|done|].
    by rewrite lookup_fmap, Hd2.
  - apply map_subseteq_spec. intros x y Hx. rewrite lookup_fmap in Hx. apply fmap_Some in Hx as (v & Hx & ->).
    destruct (static_get _ _ _ _ (sh_vnodes _ _ Hsh) Hx) as (v1 & Hv1 & <-). destruct (rt_vnodes0 x v1) as (v2 & Hv2 & <-); [congruence|done|].
    by rewrite lookup_fmap, Hv2.
  - intros x Hx. destruct (rt_table0 x) as [->|?]; [by apply (sh_table _ _ Hsh)| |done]. exfalso.
    assert (dp ∈ concat (dtable t') ++ fake t') as Hin by (apply elem_of_app; by left).
    apply (h_in _ _ _ (dc_table _ _ _ _ Hdc')) in Hin. rewrite lookup_fmap, Hd in Hin. by destruct Hin.
  - intros x Hx. by apply rt_fake0, (sh_fake _ _ Hsh).
  - intros x Hx. apply (sh_mounts _ _ Hsh), Hcnt. by apply (ok_live _ _ _ _ _ Hok).
Qed.

(** ** Success *)

(** [s'] is [s] with the mount [m] of a file system with the root [np]. *)
Definition mounted (roots : Z -> option Z) (live : list Z) (s s' : @vfs F) (hd hv : Z -> Z) (m : mount) (np : Z) : Prop :=
  mounts s' = mounts s ++ [m] /\ fs_grows (fss s) (fss s') /\ empty_dir (fss s') np /\
  vfs_ok (roots_with roots (m_addr m) np) (m_addr m :: live) s' (add_held hd (m_root m) 1) hv.

(** The file system has refused to mount. *)
Definition refused (fs : @fs_type F) (e : Z) : Prop := exists m s, vfs_mount fs m s = Ok (e, s).

(** The root vnode may change in what the caches do not look at. *)
Lemma rooted_vnode s t hd hv dp vp mp np v v' : dc_ok t hd hv -> rooted s t dp vp mp np -> vnodes (vc t) !! vp = Some v ->
  v_mount v' = v_mount v -> v_ino v' = v_ino v -> v_names v' = v_names v -> v_refcnt v' = v_refcnt v -> v_type v' = v_type v ->
  let t' := set_vc (set_vnodes (<[vp := v']> (vnodes (vc t))) (vc t)) t in
  dc_ok t' hd hv /\ rooted s t' dp vp mp (v_data v').
Proof.
  intros Hdc Hrt Hv Hm Hi Hn Hr Hty t'. destruct (vc_count _ _ (dc_vc _ _ _ _ Hdc) vp v Hv) as [_ Hb]. split.
  - eapply dc_inv_ext; [done| |eapply (dc_inv_vnode t (dentries t) hd hv vp v v' 0)]; try done; try lia.
    + intros x. unfold add_held. case_match; lia.
    + pose proof (dc_hv _ _ _ _ Hdc vp). lia.
  - destruct Hrt as [? (w & Hw & _ & E & Ht) ? ? Hvs ? ?]. split; try done; simpl.
    + exists v'. rewrite lookup_insert_eq. split; [done|]. split; [done|]. split; congruence.
    + intros x w' Hx. rewrite lookup_insert_ne by done. by apply Hvs.
Qed.

Lemma fs_inv_without f s t dp vp mp np : fs_inv f (vc s) -> rooted s t dp vp mp np ->
  fs_inv f (set_vnodes (delete vp (vnodes (vc t))) (vc t)).
Proof.
  intros Hi []. eapply law_inv; [done|]. apply vstatic_named. apply map_subseteq_spec. intros x y Hx. rewrite lookup_fmap in Hx.
  apply fmap_Some in Hx as (v & Hx & ->). simpl in Hx. apply lookup_delete_Some in Hx as [Hne Hx].
  destruct (rt_vnodes0 x v) as (v0 & Hv0 & <-); [done|done|]. by rewrite lookup_fmap, Hv0.
Qed.

(** A dentry that is held keeps its place and its node. *)
Lemma rooted_at_node roots live s hd hv t f' ms x dp vp mp np mp' r cs n :
  vfs_ok roots live s hd hv -> rooted (dcs s) t dp vp mp np -> dc_ok t (add_held hd dp 1) hv -> fs_grows (fss s) f' ->
  0 < hd x -> at_node roots s x mp' r cs n -> at_node roots (Vfs t f' ms) x mp' r cs n.
Proof.
  intros Hok [_ _ [Ha Hvp] Hds Hvs _ _] Hdc Hg Hx (d & v & Hd & Hm & Hp & Hv & Hn & Hr & Ht & HF & Hty).
  assert (x <> dp) as Hne by congruence.
  destruct (proj2 (t_held _ _ (dc_tree _ _ _ _ Hdc) x)) as [d' Hd']; [by rewrite add_held_ne|].
  destruct (Hds x d' Hne Hd') as (d1 & Hd1 & [= Ep Ev Em _]). rewrite Hd in Hd1. injection Hd1 as <-.
  destruct (dentry_vnode _ _ _ _ x d' Hdc Hd') as (v' & Hv' & _). rewrite <- Ev in Hv'.
  destruct (Hvs (d_vnode d) v') as (v1 & Hv1 & [= _ _ Et _ _ _ Ed]); [congruence|done|].
  rewrite Hv in Hv1. injection Hv1 as <-.
  assert (kind (fss s) r = VDIR) as Hkr by (eapply dentry_root; [exact Hok|exact Hd|congruence]).
  exists d', v'. cbn [dcs fss]. split; [done|]. split; [congruence|]. split; [congruence|]. split; [by rewrite <- Ev|].
  split; [congruence|]. split; [done|]. split; [eapply lookup_tree_more; [by apply grows_more|done|done]|]. split; [done|].
  rewrite (found_kind _ _ _ _ _ (grows_more _ _ Hg) Hkr Ht). congruence.
Qed.

Lemma mount_at_ok roots live s hd hv fs i a stale dir flags cov : (length dir < PATH_MAX)%nat ->
  let hd1 := if cov =? 0 then hd else add_held hd cov 1 in
  vfs_ok roots (a :: live) s hd1 hv -> roots_held s hd -> (forall x, 0 <= hd x) -> apart s a -> a ∉ live -> fs_type_ok fs ->
  (2 <= free_slots (wins (vc (dcs s))))%nat ->
  exists s' e, mount_at sizeof_vnode sizeof_dentry malloc calloc junk fs i a stale dir flags cov s = Ok (e, s') /\
    (e <> 0 /\ refused fs e /\ mounts s' = mounts s /\ fss s' = fss s /\ vfs_ok roots live s' hd hv \/
     e = 0 /\ (forall x mp r cs n, 0 < hd1 x -> at_node roots s x mp r cs n -> at_node roots s' x mp r cs n) /\
     exists root np, mounted roots live s s' hd1 hv (Mount a dir root cov (s32 flags) i) np).
Proof.
  intros Hlen hd1 Hok Hr Hh Hap Hl Hfs Hsl. pose proof (apart_vnodes _ _ _ _ _ _ Hok Hap) as Hno.
  destruct (make_root_ok fs (dcs s) hd1 hv a Hfs (ok_dc _ _ _ _ _ Hok) Hno (ok_live _ _ _ _ _ Hok a ltac:(by left)) Hsl)
    as (vp & dp & t & Hrun & Hvp & Hdp & Hdc & Hrt & (v & Hv & Hty & Hino) & Hcnt).
  unfold mount_at. erewrite (bind_ret _ _ _ (vp, dp)); [|by apply zoom_ok]. cbn [fst snd]. cbv zeta.
  rewrite (proj2 (Z.eqb_neq vp 0)), (proj2 (Z.eqb_neq dp 0)), strlcpy_fits by done.
  set (m := Mount a dir dp cov (s32 flags) i). pose proof Hrt as [(d & Hd & [= _ Hdv _ _]) _ _ _ _ _ _].
  destruct (ft_mount _ Hfs (set_dcs t s) m d v Hd) as [(e & He & Hm)|(np & f' & Hm & Hg & Hk & Hinv)]; [by rewrite Hdv|done|done|..].
  - rewrite Hdv. by eapply fs_inv_without; [apply Hok|].
  - rewrite (bind_ret _ _ _ _ _ Hm), (proj2 (Z.eqb_neq e 0)) by done. cbn [negb].
    destruct (drop_root _ _ _ _ _ _ _ _ _ _ Hok Hrt Hdc Hcnt) as (t' & Hrun2 & Hok2).
    erewrite (bind_ret _ _ _ tt); [|by apply zoom_ok].
    destruct (mount_failed_ok roots live _ hd hv a cov e Hok2 Hr Hh Hap Hl) as (s' & Hrun3 & Hok3 & Hm3 & Hf3).
    exists s', e. split; [exact Hrun3|]. left. split; [done|]. split; [by eexists m, _|]. done.
  - rewrite Hdv in *. rewrite (bind_ret _ _ _ _ _ Hm). change (negb (0 =? 0)) with false. cbv iota.
    destruct (rooted_vnode _ _ _ _ _ _ _ _ v (with_data np v) Hdc Hrt Hv) as [Hdc2 Hrt2]; try done.
    set (t2 := set_vc _ t) in *. set (w := with_data np v) in *.
    set (w' := if flag (m_flags m) MNT_RDONLY then with_vmode (Z.land (v_mode w) (Z.lnot S_IWUSR)) w else w).
    assert (vnodes (vc t2) !! vp = Some w) as Hw by (simpl; apply lookup_insert_eq).
    destruct (rooted_vnode _ _ _ _ _ _ _ _ w w' Hdc2 Hrt2 Hw) as [Hdc3 Hrt3]; [unfold w'; by case_match..|].
    set (t3 := set_vc (set_vnodes (<[vp := w']> (vnodes (vc t2))) (vc t2)) t2) in *.
    assert (v_data w' = np) as Hnp by (unfold w'; by case_match). rewrite Hnp in Hrt3.
    eexists _, 0. split; [erewrite (bind_ret _ _ _ tt (Vfs t3 f' (mounts s)))|].
    + erewrite (bind_ret _ _ _ tt) by (by apply modify_ok). done.
    + unfold t3, w'. destruct (flag (m_flags m) MNT_RDONLY).
      * unfold on_cache, on_dc, on_vc, zoom. change (vc (dcs (Vfs _ f' _))) with (vc t2). by rewrite (update_vnode_ok _ _ _ _ Hw).
      * unfold t2, set_vc, set_vnodes. simpl. by rewrite insert_insert_eq.
    + right. split; [done|]. split; [intros x mp r cs n Hx; by eapply rooted_at_node|].
      exists dp, np. split; [done|]. split; [done|]. split; [done|].
      apply (vfs_ok_mount _ _ s t3 f' hd1 hv m vp np Hok Hrt3); try done; [apply Hk|].
      eapply law_inv; [exact Hinv|]. unfold t3, t2. simpl. rewrite insert_insert_eq, !fmap_insert. unfold w'. by case_match.
Qed.

(** ** mount *)

Lemma fs_grows_same f f' f'' : fs_same f f' -> fs_grows f' f'' -> fs_grows f f''.
Proof.
  intros Hs Hg n. destruct (Hs n) as [<- Hc]. intros Hk. destruct (Hg n Hk) as [? Hc']. split; [done|].
  intros c. destruct (Hc' c) as [-> Hn]. rewrite Hc. split; [done|]. intros n' E. rewrite <- (proj1 (Hs n')). apply Hn. by rewrite Hc.
Qed.

(** The structure is there, and its window. *)
Lemma mount_begin roots live s hd hv a : vfs_ok roots live s hd hv -> m_counts (vc (dcs s)) !! a = None ->
  (0 < free_slots (wins (vc (dcs s))))%nat ->
  exists t, (forall A (k : M (@vfs F) A), (on_cache (on_wins (vfs_ipc_add_heap a sizeof_mount MOUNT_MASK));;
      on_cache (modify (fun c => set_counts (<[a := 0]> (m_counts c)) c));; k) s = k (set_dcs t s)) /\
    vfs_ok roots (a :: live) (set_dcs t s) hd hv /\
    (free_slots (wins (vc (dcs s))) <= S (free_slots (wins (vc t))))%nat /\ (forall n, room s hd hv (S n) -> room (set_dcs t s) hd hv n).
Proof.
  intros Hok Ha Hsl. pose proof (ok_dc _ _ _ _ _ Hok) as Hdc. pose proof (vc_wins _ _ (dc_vc _ _ _ _ Hdc)) as Hwi.
  destruct (vfs_add_ok a sizeof_mount MOUNT_MASK _ Hwi (free_slot_available _ Hsl)) as (w & Hw & Hwi').
  pose proof (vfs_add_slots _ _ _ _ _ Hw) as Hsl'.
  assert (forall vp v, vnodes (vc (dcs s)) !! vp = Some v -> v_mount v <> a) as Hno.
  { intros vp v Hv E. destruct (vc_mounts _ _ (dc_vc _ _ _ _ Hdc) vp v Hv). congruence. }
  set (c1 := set_wins w (vc (dcs s))). exists (set_vc (set_counts (<[a := 0]> (m_counts c1)) c1) (dcs s)). split; [|split; [|split; [done|]]].
  - intros A k. erewrite (bind_ret _ _ _ tt); [|by apply zoom_ok, zoom_ok, vfs_wins_ok].
    by erewrite (bind_ret _ _ _ tt); [|apply zoom_ok, zoom_ok; by apply modify_ok].
  - assert (dc_ok (set_vc (set_counts (<[a := 0]> (m_counts c1)) c1) (dcs s)) hd hv) as Hdc'.
    { apply (dc_ok_counts (set_vc c1 (dcs s))); [by apply dc_inv_wins| |].
      - intros mp c [[<- <-]|[_ Hc]]%lookup_insert_Some; [simpl; by rewrite of_mount_none|]. by apply (vc_mcount _ _ (dc_vc _ _ _ _ Hdc)).
      - intros vp v Hv. rewrite lookup_insert_is_Some'. right. by eapply (vc_mounts _ _ (dc_vc _ _ _ _ Hdc)). }
    assert (vfs_ok roots live (set_dcs (set_vc (set_counts (<[a := 0]> (m_counts c1)) c1) (dcs s)) s) hd hv) as Hok'.
    { eapply vfs_ok_sub; try done; [|by apply (vfs_held _ _ _ _ _ Hok)].
      intros mp Hmp. simpl. rewrite lookup_insert_is_Some'. right. by apply (ok_live _ _ _ _ _ Hok). }
    destruct Hok' as [? ? ? ? ? ? Hlv]. split; try done. intros mp [->|Hmp]%elem_of_cons; [simpl; rewrite lookup_insert_eq; eauto|auto].
  - intros n [Rhd Rhv Rfs Rsl]. split; simpl; [intros x; specialize (Rhd x); lia|intros x; specialize (Rhv x); lia|lia|lia].
Qed.

(** What [mount] needs to find the directory. *)
Definition reachable_dir (roots : Z -> option Z) (s : @vfs F) (hd hv : Z -> Z) (dir : list Z) (spare : nat) : Prop :=
  dir <> [SLASH] -> exists m p r, vfs_findroot (mounts s) dir = Some (m, p) /\ roots (m_addr m) = Some r /\
    (p = [] \/ segs p <> []) /\ no_links (fss s) /\ room s hd hv (length (segs p) + spare).

(** What the path of a mount leads to: there is nothing to cover at "/"; elsewhere it is the
    node that the tree has there, or an error. *)
Definition mount_point (roots : Z -> option Z) (s : @vfs F) (dir : list Z) : option resolved :=
  if decide (dir = [SLASH]) then None else
  Some match vfs_findroot (mounts s) dir with
       | Some (m, p) =>
           match roots (m_addr m) with
           | Some r => lookup_tree (fss s) r (segs p) (ends_slash p)
           | None => RErr ENOENT
           end
       | None => RErr ENOENT
       end.

(** In [s'], [dp] is the dentry of the node [n] at the path [dir] of [s]. *)
Definition names_dir (roots : Z -> option Z) (s s' : @vfs F) (dir : list Z) (dp n : Z) : Prop :=
  dp <> 0 /\ exists m p r, vfs_findroot (mounts s) dir = Some (m, p) /\ roots (m_addr m) = Some r /\
    at_node roots s' dp (m_addr m) r (segs p) n.

Lemma covered_ok roots live s hd hv pad_vp pad_name dir : vfs_ok roots live s hd hv -> (length dir < PATH_MAX)%nat ->
  (2 <= free_slots (wins (vc (dcs s))))%nat -> reachable_dir roots s hd hv dir 1 ->
  exists s' c, covered sizeof_dentry calloc pad_vp pad_name dir s = Ok (c, s') /\ fs_same (fss s) (fss s') /\ mounts s' = mounts s /\
    (2 <= free_slots (wins (vc (dcs s'))))%nat /\ vfs_ok roots live s' (if c.2 =? 0 then hd else add_held hd c.2 1) hv /\
    match mount_point roots s dir with
    | None => c = (0, 0)
    | Some (RErr _) => c = (ENOENT, 0)
    | Some (RFound n) => names_dir roots s s' dir c.2 n /\ c.1 = if bool_decide (kind (fss s) n = VDIR) then 0 else ENOTDIR
    end.
Proof.
  intros Hok Hlen Hsl Hdir. unfold covered, mount_point. destruct (decide (dir = [SLASH])) as [->|Hne].
  { by exists s, (0, 0). }
  rewrite bool_decide_false by done. destruct (Hdir Hne) as (m & p & r & Hf & Hr & Hp & Hlk & Hrm). rewrite Hf, Hr.
  destruct (namei_ok sizeof_dentry calloc calloc_fresh roots live 1 s hd hv m p r dir pad_vp pad_name Hok Hf Hr Hlen Hp Hlk Hrm)
    as (s' & e & Hrun & Hsame & Hm & Hrm' & Hres). rewrite (bind_ret _ _ _ _ _ Hrun). exists s'. pose proof (rm_slots _ _ _ _ Hrm').
  destruct (lookup_tree (fss s) r (segs p) (ends_slash p)) as [n|err] eqn:Etree.
  - destruct Hres as (dp & -> & Hok' & Hat). destruct (at_node_type _ _ _ _ _ _ _ _ _ _ Hok' Hat) as (d & v & Hd & Hv & Hty).
    assert (dp <> 0) as Hdp.
    { destruct Hat as (d' & _ & Hd' & _). intros ->. by rewrite (t_null _ _ (dc_tree _ _ _ _ (ok_dc _ _ _ _ _ Hok'))) in Hd'. }
    cbn [fst snd]. change (negb (0 =? 0)) with false. cbv iota. rewrite (bind_ret _ _ _ _ _ Hd), (bind_ret _ _ _ _ _ Hv).
    eexists. split; [done|]. split; [done|]. split; [done|]. split; [lia|].
    assert ((if bool_decide (v_type v = VDIR) then (0, dp) else (ENOTDIR, dp)).2 = dp) as -> by (by case_match).
    rewrite (proj2 (Z.eqb_neq dp 0)) by done. split; [done|]. split; [split; [done|by exists m, p, r]|].
    rewrite Hty, (proj1 (Hsame n)). by case_match.
  - destruct Hres as [-> Hok']. cbn [fst snd].
    rewrite (proj2 (Z.eqb_neq err 0)) by (by eapply lookup_tree_err). exists (ENOENT, 0). split; [done|]. split; [done|]. split; [done|]. by split; [lia|].
Qed.

(** Nothing has changed but what is cached. *)
Definition unchanged (roots : Z -> option Z) (live : list Z) (s s' : @vfs F) (hd hv : Z -> Z) : Prop :=
  mounts s' = mounts s /\ fs_same (fss s) (fss s') /\ vfs_ok roots live s' hd hv.

(** The file system refuses, or it is mounted over a dentry [cov] with the property [P]. *)
Definition fs_decides (roots : Z -> option Z) (live : list Z) (s s' : @vfs F) (hd hv : Z -> Z) (fs : @fs_type F)
  (i : nat) (a : Z) (dir : list Z) (flags e : Z) (P : Z -> Prop) : Prop :=
  (e <> 0 /\ refused fs e /\ unchanged roots live s s' hd hv) \/
  (e = 0 /\ exists root cov np, P cov /\
     mounted roots live s s' (if cov =? 0 then hd else add_held hd cov 1) hv (Mount a dir root cov (s32 flags) i) np).

(** The result of a mount at a path that is not mounted on. *)
Definition mount_result (roots : Z -> option Z) (live : list Z) (s s' : @vfs F) (hd hv : Z -> Z) (fs : @fs_type F)
  (i : nat) (a : Z) (dir : list Z) (flags e : Z) : Prop :=
  match mount_point roots s dir with
  | None => fs_decides roots live s s' hd hv fs i a dir flags e (fun cov => cov = 0)
  | Some (RErr _) => e = ENOENT /\ unchanged roots live s s' hd hv
  | Some (RFound n) =>
      if bool_decide (kind (fss s) n = VDIR)
      then fs_decides roots live s s' hd hv fs i a dir flags e (fun cov => names_dir roots s s' dir cov n)
      else e = ENOTDIR /\ unchanged roots live s s' hd hv
  end.

Lemma mount_ok fses roots live s hd hv pad_vp pad_name a stale dev dir fsname flags i fs :
  vfs_ok roots live s hd hv -> fs_getfs fses fsname = Some (i, fs) -> fs_type_ok fs ->
  dir <> [] -> (length dir < PATH_MAX)%nat -> take 5 dev <> dev_prefix ->
  (forall m, m ∈ mounts s -> m_path m <> dir /\ m_addr m ∈ live) -> a <> 0 -> m_counts (vc (dcs s)) !! a = None ->
  (3 <= free_slots (wins (vc (dcs s))))%nat -> reachable_dir roots s hd hv dir 2 ->
  exists s' e, do_mount sizeof_mount sizeof_vnode sizeof_dentry malloc calloc junk fses pad_vp pad_name a stale
      (Some dev) (Some dir) (Some fsname) flags s = Ok (e, s') /\ mount_result roots live s s' hd hv fs i a dir flags e.
Proof.
  intros Hok Hfs Hft Hdir Hlen Hdev Hms Ha0 Ha Hsl Hreach. unfold do_mount. destruct dir as [|x dir0]; [done|].
  set (dir := x :: dir0) in *. rewrite Hfs, bool_decide_false by done. rewrite (bind_ret _ _ _ (mounts s) s) by (by apply gets_ok).
  assert (existsb (fun mp => bool_decide (m_path mp = dir)) (mounts s) = false) as ->.
  { apply not_true_iff_false. intros (m & Hm & E%bool_decide_eq_true)%existsb_exists. by apply (Hms m); [apply list_elem_of_In|]. }
  rewrite (proj2 (Z.eqb_neq a 0)) by done.
  assert (a ∉ live) as Hl by (intros Hin; destruct (ok_live _ _ _ _ _ Hok a Hin); congruence).
  assert (apart s a) as Hap by (intros m Hm E; destruct (Hms m Hm); congruence).
  destruct (mount_begin _ _ _ _ _ a Hok Ha ltac:(lia)) as (t & -> & Hok1 & Hsl1 & Hrm).
  destruct (covered_ok roots (a :: live) (set_dcs t s) hd hv pad_vp pad_name dir Hok1 Hlen) as (s1 & c & Hrun & Hsame & Hm1 & Hsl2 & Hok2 & Hc).
  { simpl. lia. }
  { intros Hne. destruct (Hreach Hne) as (m & p & r & ? & ? & ? & ? & Hr). exists m, p, r. split; [done|]. split; [done|]. split; [done|]. split; [done|].
    apply Hrm. by replace (S (length (segs p) + 1)) with (length (segs p) + 2)%nat by lia. }
  cbn [mounts fss set_dcs] in Hsame, Hm1. destruct (vfs_held _ _ _ _ _ Hok) as [Hh Hr]. assert (roots_held s1 hd) as Hr1 by (intros m; rewrite Hm1; apply Hr).
  assert (apart s1 a) as Hap1 by (intros m; rewrite Hm1; apply Hap). rewrite (bind_ret _ _ _ _ _ Hrun).
  destruct c as [e cov]. cbn [fst snd] in *. change (mount_point roots (set_dcs t s) dir) with (mount_point roots s dir) in Hc.
  destruct (Z.eqb_spec e 0) as [->|He0]; cbn [negb].
  - destruct (mount_at_ok roots live s1 hd hv fs i a stale dir flags cov Hlen Hok2 Hr1 Hh Hap1 Hl Hft Hsl2) as (s' & e & Hrun2 & Hres).
    exists s', e. split; [done|].
    assert (forall P : Z -> Prop, (e = 0 -> P cov) -> fs_decides roots live s s' hd hv fs i a dir flags e P) as Hdec.
    { intros P HP. destruct Hres as [(? & ? & ? & Ef & ?)|(-> & _ & root & np & Hm & Hg & Hk & Hok3)].
      - left. split; [done|]. split; [done|]. split; [congruence|]. split; [by rewrite Ef|done].
      - right. split; [done|]. exists root, cov, np. split; [by apply HP|].
        split; [by rewrite Hm, Hm1|]. split; [by eapply fs_grows_same|done]. }
    unfold mount_result. destruct (mount_point roots s dir) as [[n|err]|].
    + destruct Hc as [(Hcov & m & p & r & Hf & Hrt & Hat) He]. destruct (decide (kind (fss s) n = VDIR)) as [Hk|Hk];
        [rewrite bool_decide_true by done|by rewrite bool_decide_false in He].
      apply Hdec. intros ->. destruct Hres as [[? _]|(_ & Hkeep & _)]; [done|]. split; [done|]. exists m, p, r. split; [done|]. split; [done|].
      apply Hkeep; [|done]. rewrite (proj2 (Z.eqb_neq cov 0) Hcov), add_held_eq. specialize (Hh cov). lia.
    + by injection Hc as ? _.
    + injection Hc as ->. by apply Hdec.
  - destruct (mount_failed_ok roots live s1 hd hv a cov e Hok2 Hr1 Hh Hap1 Hl) as (s' & Hrun2 & Hok3 & Hm3 & Hf3).
    exists s', e. split; [done|].
    assert (unchanged roots live s s' hd hv) as Hu by (split; [congruence|]; split; [by rewrite Hf3|done]).
    unfold mount_result. destruct (mount_point roots s dir) as [[n|err]|].
    + destruct Hc as [_ He]. destruct (decide (kind (fss s) n = VDIR)) as [Hk|Hk];
        [by rewrite bool_decide_true in He|by rewrite bool_decide_false in He |- *].
    + by injection Hc as -> _.
    + by injection Hc as ? _.
Qed.

(** C23. [mount] sets up a mount or leaves things as they were, for a known type of file
    system, a non-empty path that look-up can get to (the path is not too long, there
    is memory, and windows and counts suffice; no symbolic links).  A device path
    "/dev/..." crashes, a path that is mounted on is answered with EBUSY.  In the other
    cases the call returns.  ENOENT is the result exactly if the path does not resolve in
    the tree, ENOTDIR if it leads to something that is not a directory; otherwise the
    result is that of the file system.  If it is 0, the list of mounts has one more,
    with the given path, whose root dentry and root vnode stand for a new, empty
    directory of the file system; other directories are as before, the invariant of path
    look-up holds with the new root, and the references held are the one of the mount to
    its root and, unless it is mounted on "/", the one to the dentry of the directory at
    that path.  If not, the mounts and the tree are the same, and no reference is held
    or lost. *)
Theorem mount_correct fses roots live s hd hv pad_vp pad_name a stale dev dir fsname flags i fs :
  vfs_ok roots live s hd hv -> fs_getfs fses fsname = Some (i, fs) -> fs_type_ok fs ->
  dir <> [] -> (length dir < PATH_MAX)%nat ->
  (forall m, m ∈ mounts s -> m_addr m ∈ live) -> a <> 0 -> m_counts (vc (dcs s)) !! a = None ->
  (3 <= free_slots (wins (vc (dcs s))))%nat -> reachable_dir roots s hd hv dir 2 ->
  let run := do_mount sizeof_mount sizeof_vnode sizeof_dentry malloc calloc junk fses pad_vp pad_name a stale
      (Some dev) (Some dir) (Some fsname) flags s in
  if bool_decide (take 5 dev = dev_prefix) then run = Abort else
  if bool_decide (dir ∈ m_path <$> mounts s) then run = Ok (EBUSY, s) else
  exists s' e, run = Ok (e, s') /\ mount_result roots live s s' hd hv fs i a dir flags e.
Proof.
  intros Hok Hfs Hft Hdir Hlen Hms Ha0 Ha Hsl Hreach. cbv zeta. case_bool_decide as Hdev; [|case_bool_decide as Hin].
  - unfold do_mount. destruct dir; [done|]. rewrite Hfs. by rewrite bool_decide_true.
  - unfold do_mount. destruct dir as [|x dir0]; [done|]. rewrite Hfs, bool_decide_false by done.
    rewrite (bind_ret _ _ _ (mounts s) s) by (by apply gets_ok). apply list_elem_of_fmap in Hin as (m & E & Hm).
    replace (existsb _ _) with true; [done|]. symmetry. apply existsb_exists. exists m.
    split; [by apply list_elem_of_In|by apply bool_decide_eq_true].
  - apply mount_ok; try done. intros m Hm. split; [|by apply Hms]. intros E. apply Hin. apply list_elem_of_fmap. by exists m.
Qed.

(** ** umount *)

(** The references of the mount [m] come on top of [hd]. *)
Definition with_refs (hd : Z -> Z) (m : mount) : Z -> Z :=
  add_held (if m_covered m =? 0 then hd else add_held hd (m_covered m) 1) (m_root m) 1.

(** Nobody but the mount itself uses its file system: the root is held by nobody
    else and has no children, and it is the only dentry of its vnode, which is the
    only vnode of the mount. *)
Record idle (s : @vfs F) (hd hv : Z -> Z) (m : mount) : Prop := {
  id_held : hd (m_root m) = 0;
  id_child : forall x e, dentries (dcs s) !! x = Some e -> d_parent e <> m_root m;
  id_vnode : forall d x e, dentries (dcs s) !! m_root m = Some d -> dentries (dcs s) !! x = Some e -> d_vnode e = d_vnode d -> x = m_root m;
  id_mount : forall d vp v, dentries (dcs s) !! m_root m = Some d -> vnodes (vc (dcs s)) !! vp = Some v ->
    v_mount v = m_addr m -> vp = d_vnode d /\ hv vp = 0
}.

Lemma idle_le s t hd hv m : idle s hd hv m -> static <$> dentries t ⊆ static <$> dentries (dcs s) ->
  vstatic <$> vnodes (vc t) ⊆ vstatic <$> vnodes (vc (dcs s)) -> idle (set_dcs t s) hd hv m.
Proof.
  intros [] Hst Hvs. split; simpl; [done| | |].
  - intros x e He. destruct (static_get _ _ _ _ Hst He) as (e0 & He0 & [= _ _ _ <-]). by eapply id_child0.
  - intros d x e Hd He E. destruct (static_get _ _ _ _ Hst He) as (e0 & He0 & [= _ Ee _ _]).
    destruct (static_get _ _ _ _ Hst Hd) as (d0 & Hd0 & [= _ Ed _ _]). apply (id_vnode0 d0 x e0); congruence.
  - intros d vp v Hd Hv E. destruct (static_get _ _ _ _ Hvs Hv) as (v0 & Hv0 & [= _ Em _ _ _ _ _]).
    destruct (static_get _ _ _ _ Hst Hd) as (d0 & Hd0 & [= _ <- _ _]). apply (id_mount0 d0 vp v0); congruence.
Qed.

(** The last reference to the root of an idle mount. *)
Lemma drele_root roots live s hd hv m : vfs_ok roots live s (add_held hd (m_root m) 1) hv -> m ∈ mounts s -> idle s hd hv m ->
  (forall x, 0 <= hd x) -> exists t, drele (m_root m) (dcs s) = Ok (tt, t) /\ dc_ok t hd hv /\
    static <$> dentries t ⊆ static <$> dentries (dcs s) /\ shrinks (dcs s) t /\
    forall vp v, vnodes (vc t) !! vp = Some v -> v_mount v <> m_addr m.
Proof.
  intros Hok Hm Hid Hh. destruct (drele_ok _ _ hv (m_root m) (ok_dc _ _ _ _ _ Hok)) as (t & Hrun & Hdc & Hst & Hsh).
  { rewrite add_held_eq. specialize (Hh (m_root m)). lia. }
  apply (dc_inv_ext _ _ _ _ hd hv) in Hdc; [|intros x; unfold add_held; repeat case_match; lia|done].
  exists t. split; [done|]. split; [done|]. split; [done|]. split; [done|]. intros vp v Hv E.
  destruct (ok_mount _ _ _ _ _ Hok m Hm) as (_ & _ & d & _ & Hd & _).
  pose proof (idle_le s t hd hv m Hid Hst (sh_vnodes _ _ Hsh)) as [_ Hc _ _].
  pose proof (dentry_gone t hd hv (m_root m) Hdc (id_held _ _ _ _ Hid) Hc) as Hgone.
  destruct (static_get _ _ _ _ (sh_vnodes _ _ Hsh) Hv) as (v0 & Hv0 & [= _ Em _ _ _ _ _]).
  destruct (id_mount _ _ _ _ Hid d vp v0 Hd Hv0 ltac:(congruence)) as [-> Hz].
  assert (vnodes (vc t) !! d_vnode d = None) as Hn; [|congruence]. apply (vnode_gone t hd hv); [done|done|].
  intros x e He Ee. destruct (static_get _ _ _ _ Hst He) as (e0 & He0 & [= _ Ev _ _]).
  assert (x = m_root m) as -> by (apply (id_vnode _ _ _ _ Hid d x e0); congruence). congruence.
Qed.

(** Taking an unused mount off the list. *)
Lemma vfs_ok_unlist roots live s t hd hd' hv m : vfs_ok roots live s hd' hv -> dc_ok t hd hv ->
  static <$> dentries t ⊆ static <$> dentries (dcs s) -> shrinks (dcs s) t ->
  (forall vp v, vnodes (vc t) !! vp = Some v -> v_mount v <> m_addr m) ->
  (forall m', m' ∈ mounts s -> m_addr m' <> m_addr m -> 0 < hd (m_root m')) ->
  vfs_ok roots live (set_mounts (filter (fun x => m_addr x <> m_addr m) (mounts s)) (set_dcs t s)) hd hv.
Proof.
  intros Hok Hdc Hst Hsh Hno Hr. eapply (vfs_ok_trim _ _ s t); [exact Hok|done|done|apply Hsh|apply Hsh|apply Hsh| | |].
  - intros mp Hmp. by apply (sh_mounts _ _ Hsh), (ok_live _ _ _ _ _ Hok).
  - intros m' [Hne Hm]%list_elem_of_filter. auto.
  - intros vp v Hv. destruct (static_get _ _ _ _ (sh_vnodes _ _ Hsh) Hv) as (v0 & Hv0 & [= _ Em _ _ _ _ _]).
    destruct (ok_vnode _ _ _ _ _ Hok vp v0 Hv0) as (m' & Hm' & E). exists m'. split; [|congruence]. apply list_elem_of_filter.
    split; [|done]. rewrite E, Em. by eapply Hno.
Qed.

Lemma find_mount_spec path ms : match find_mount path ms with
  | Some m => m ∈ ms /\ m_path m = path
  | None => forall m, m ∈ ms -> m_path m <> path
  end.
Proof.
  induction ms as [|m ms IH]; simpl; [by intros m ?%elem_of_nil|]. case_bool_decide as E; [split; [by left|done]|].
  destruct (find_mount path ms); [destruct IH; split; [by right|done]|]. intros m' [->|?]%elem_of_cons; [congruence|auto].
Qed.

(** C31. [umount2] undoes a mount that nobody uses any more. For the path of a mount
    that covers a directory, or with MNT_FORCE, whose file system has nothing cached but
    its unused root, the call returns 0; the mount is off the list, its references to
    its root and to the covered directory are dropped, and the invariant of path look-up
    holds for the other mounts. The path is shorter than MAXPATHLEN, and the unmount
    operation of the file system only releases its dentries, as that of ramfs does. *)
Theorem umount_correct fses roots live s hd hv m fs flags :
  vfs_ok roots (m_addr m :: live) s (with_refs hd m) hv -> find_mount (m_path m) (mounts s) = Some m -> m_addr m ∉ live ->
  fses !! m_op m = Some fs -> (forall s, vfs_unmount fs m s = (vfscore_release_mp_dentries m;; mret 0) s) ->
  (length (m_path m) < MAXPATHLEN)%nat -> m_covered m <> 0 \/ flag flags MNT_FORCE = true -> idle s hd hv m ->
  (forall x, 0 <= hd x) -> (forall m', m' ∈ mounts s -> m_addr m' <> m_addr m -> 0 < hd (m_root m')) ->
  (forall m', m' ∈ mounts s -> m_addr m' = m_addr m -> m' = m) ->
  exists s', umount2 fses (m_path m) flags s = Ok (0, s') /\ vfs_ok roots live s' hd hv /\ fss s' = fss s /\
    mounts s' = filter (fun x => m_addr x <> m_addr m) (mounts s).
Proof.
  intros Hok Hfind Hl Hfs Hun Hlen Hfl Hid Hh Hr Huniq. pose proof (find_mount_spec (m_path m) (mounts s)) as Hsp. rewrite Hfind in Hsp.
  destruct Hsp as [Hin _]. unfold umount2. rewrite decide_False by lia. rewrite (bind_ret _ _ _ (mounts s) s) by (by apply gets_ok).
  rewrite Hfind. assert ((m_covered m =? 0) && negb (flag flags MNT_FORCE) = false) as ->.
  { destruct Hfl as [?| ->]; [by rewrite (proj2 (Z.eqb_neq _ _))|by rewrite andb_false_r]. }
  rewrite Hfs. assert (exists t, vfs_ok roots (m_addr m :: live) (set_dcs t s) (add_held hd (m_root m) 1) hv /\
    drele_opt (m_covered m) s = Ok (tt, set_dcs t s) /\ idle (set_dcs t s) hd hv m) as (t1 & Hok1 & Hrun1 & Hid1).
  { unfold drele_opt. unfold with_refs in Hok. destruct (Z.eqb_spec (m_covered m) 0) as [E|E].
    - exists (dcs s). by destruct s.
    - destruct (drele_ok _ _ hv (m_covered m) (ok_dc _ _ _ _ _ Hok)) as (t & Hrun & Hdc & Hst & Hsh).
      { unfold add_held. rewrite Z.eqb_refl. specialize (Hh (m_covered m)). case_match; lia. }
      exists t. split; [|split; [by apply zoom_ok|by apply idle_le; [|done|apply Hsh]]].
      eapply vfs_ok_ext; [| |eapply vfs_ok_le; [exact Hok|exact Hdc|done|done|]]; [intros x; unfold add_held; repeat case_match; lia|done|].
      intros m' Hm'. specialize (Hr m' Hm'). specialize (Huniq m' Hm'). specialize (Hh (m_root m')). destruct (decide (m_addr m' = m_addr m)) as [Em|Em].
      + specialize (Huniq Em) as ->. unfold add_held. rewrite Z.eqb_refl. repeat case_match; lia.
      + specialize (Hr Em). unfold add_held. repeat case_match; lia. }
  destruct (drele_root _ _ _ _ _ _ Hok1 Hin Hid1 Hh) as (t2 & Hrun2 & Hdc2 & Hst2 & Hsh2 & Hno2).
  pose proof (vfs_ok_unlist _ _ _ t2 hd _ hv m Hok1 Hdc2 Hst2 Hsh2 Hno2 Hr) as Hok2.
  destruct (free_mount_ok roots live _ hd hv (m_addr m) Hok2) as (s' & Hrun3 & Hok3 & Hm3 & Hf3); [|done|].
  { by intros m' [? _]%list_elem_of_filter. }
  exists s'. split; [|done]. erewrite (bind_ret _ _ _ 0 (set_dcs t2 (set_dcs t1 s))).
  - change (negb (0 =? 0)) with false. cbv iota. erewrite (bind_ret _ _ _ tt) by (by apply modify_ok).
    by rewrite (bind_ret _ _ _ _ _ Hrun3).
  - rewrite Hun. unfold vfscore_release_mp_dentries. erewrite (bind_ret _ _ _ tt); [done|].
    rewrite (bind_ret _ _ _ _ _ Hrun1). by apply zoom_ok.
Qed.

End Correct.
