(* ===== verification/RamfsVfs.v ===== *)
(** The RAM file system below the caches: [ramfs_lookup] (ramfs/ramfs_vnops.c) on
    the vnodes of the cache, which it gets from [vfscore_vget], keeps the promises
    of a file system.  The nodes are those of [Ramfs]; names are turned into the
    strings used there.  [malloc] of a vnode is a function of the cache. *)
From S2P Require Import Prelude VfsTypes Windows Uio PathConv Vnode Dentry Dcache Namei Resolve Mount.
From S2P Require Ramfs.
From stdpp Require Import base numbers strings gmap fin_maps sets list.
Import Errno.
#[local] Open Scope Z_scope.

(** ** Code *)

(** A character as a byte: the values of [char] are -128 to 127, those of
    [unsigned char] 0 to 255.  Other numbers are no characters. *)
Definition byte_of (z : Z) : Ascii.ascii :=
  if (0 <? z) && (z <? 256) then Ascii.ascii_of_N (Z.to_N z)
  else if (-128 <=? z) && (z <? 0) then Ascii.ascii_of_N (Z.to_N (z + 256)) else Ascii.zero.

(** The string in memory: the bytes of its characters. *)
Definition str (name : list Z) : string := String.string_of_list_ascii (map byte_of name).

Section Code.
Context (sizeof_vnode : Z) (malloc : vcache -> Z) (junk : vnode) (pad : Z).

Definition on_r {A} (m : M Ramfs.rstate A) : M (Ramfs.rstate * vcache) A := zoom fst (fun x s => (x, s.2)) m.
Definition on_c {A} (m : M vcache A) : M (Ramfs.rstate * vcache) A := zoom snd (fun x s => (s.1, x)) m.

(** [VFS_VGET] of this file system does nothing. *)
Definition ramfs_vget (mp a : Z) : Z := 0.

Definition ramfs_vop_lookup (dvp : Z) (name : list Z) : M (Ramfs.rstate * vcache) (Z * Z) :=
  on_r (modify (fun s => Ramfs.set_wins (set_tab_stack (alter (fun e => Ipc pad (ipc_size e) (ipc_mask e)) 0%nat
    (tab_stack (Ramfs.wins s))) (Ramfs.wins s)) s));;
  if String.eqb (str name) "" then mret (ENOENT, 0) else
  d ← on_c (vnode_at dvp);
  dn ← on_r (Ramfs.node (v_data d));
  fuel ← on_r (gets (fun s => size (Ramfs.nodes s)));
  np ← on_r (Ramfs.find_child fuel (Ramfs.rn_child dn) (str name));
  if np =? 0 then mret (ENOENT, 0) else
  ino ← on_r (gets Ramfs.inode_count);
  on_r (modify (Ramfs.set_inode (u64 (ino + 1))));;
  a ← gets (fun s => malloc s.2);
  r ← on_c (vfscore_vget sizeof_vnode ramfs_vget a junk (v_mount d) ino);
  if negb (r.1 =? 0) then mret (0, r.2) else
  if r.2 =? 0 then mret (ENOMEM, 0) else
  n ← on_r (Ramfs.node np);
  on_c (upd_vnode r.2 (with_attrs (Ramfs.rn_type n) Ramfs.UK_ALLPERMS (Ramfs.rn_size n) np));;
  mret (0, r.2).

(** [ramfs_readlink] with a buffer of [bufsz] bytes. *)
Definition ramfs_vop_readlink (vp : Z) (bufsz : nat) : M (Ramfs.rstate * vcache) (Z * list Z) :=
  v ← on_c (vnode_at vp);
  if negb (bool_decide (v_type v = VLNK)) then mret (EINVAL, []) else
  if bool_decide (bufsz = 0%nat) then mret (0, []) else
  if v_size v <=? 0 then mret (0, []) else
  let len := if v_size v <? Z.of_nat bufsz then v_size v else Z.of_nat bufsz in
  on_r (Ramfs.upd_node (v_data v) (Ramfs.with_times None Ramfs.now None));;
  n ← on_r (Ramfs.node (v_data v));
  b ← on_r (deref (fun s => Ramfs.bufs s !! Ramfs.rn_buf n));
  l ← lift (seg_get b 0 len);
  mret (0, l).

(** [a_node] and [a_name] are the results of the allocations for the root node. *)
Definition ramfs_mount (a_node a_name : Ramfs.rstate -> Z) (mp : mount) : M (@vfs Ramfs.rstate) Z :=
  x ← gets (fun s => a_node (fss s));
  y ← gets (fun s => a_name (fss s));
  np ← on_fs (on_r (Ramfs.ramfs_allocate_node x y "/" VDIR));
  if np =? 0 then mret ENOMEM else
  d ← on_dc (dentry_at (m_root mp));
  on_cache (upd_vnode (d_vnode d) (with_data np));;
  mret 0.

Definition ramfs_unmount (mp : mount) : M (@vfs Ramfs.rstate) Z :=
  vfscore_release_mp_dentries mp;;
  mret 0.

(** "ramfs" *)
Definition fs_ramfs2 (a_node a_name : Ramfs.rstate -> Z) : @fs_type Ramfs.rstate :=
  FsType [114; 97; 109; 102; 115] (ramfs_mount a_node a_name) ramfs_unmount ramfs_vget.

End Code.

(** ** The tree *)

Definition ramfs_entry (f : Ramfs.rstate) (n : Z) (name : list Z) : option Z :=
  match Ramfs.nodes f !! n with
  | Some d => match Ramfs.find_child (size (Ramfs.nodes f)) (Ramfs.rn_child d) (str name) f with
              | Ok (np, _) => if np =? 0 then None else Some np
              | _ => None
              end
  | None => None
  end.

Definition ramfs_kind (f : Ramfs.rstate) (n : Z) : vtype :=
  match Ramfs.nodes f !! n with Some d => Ramfs.rn_type d | None => VNON end.

(** [g] has the entries of every node (a file has none): no name is twice in a
    directory, and no node in two. *)
Record tree_of (f : Ramfs.rstate) (g : Z -> list (string * Z)) : Prop := {
  tr_dir : forall n, is_Some (Ramfs.nodes f !! n) -> Ramfs.dir_ok f n (g n);
  tr_names : forall n, is_Some (Ramfs.nodes f !! n) -> NoDup (g n).*1;
  tr_apart : forall n n' x, is_Some (Ramfs.nodes f !! n) -> is_Some (Ramfs.nodes f !! n') -> x ∈ (g n).*2 -> x ∈ (g n').*2 -> n = n'
}.

(** The nodes make a tree, and the vnodes have numbers that have been given out. *)
Record ramfs_inv (f : Ramfs.rstate) (s : vcache) : Prop := {
  ri_tree : exists g, tree_of f g;
  ri_count : 0 < Ramfs.inode_count f < 2 ^ 64;
  ri_vnode : forall vp v, vnodes s !! vp = Some v -> v_ino v < Ramfs.inode_count f
}.

Lemma ri_dirs f s : ramfs_inv f s -> forall n, is_Some (Ramfs.nodes f !! n) -> exists ents, Ramfs.dir_ok f n ents.
Proof. intros Hinv n Hn. destruct (ri_tree _ _ Hinv) as [g Hg]. exists (g n). by apply (tr_dir _ _ Hg). Qed.

(** Only the nodes matter. *)
Lemma tree_of_nodes f f' g : Ramfs.nodes f' = Ramfs.nodes f -> tree_of f g -> tree_of f' g.
Proof. intros E [Hd Hn Ha]. split; rewrite E; [|done|done]. intros n Hx. destruct (Hd n Hx). by split; rewrite ?E. Qed.

Section Instance_.
Context (sizeof_vnode : Z) (malloc : vcache -> Z) (junk : vnode) (pad : Z).
(** There is memory, and what the allocator returns is not in use. *)
Hypothesis malloc_fresh : forall s, malloc s <> 0 /\ vnodes s !! malloc s = None.

#[local] Instance ramfs_fs : FileSystem Ramfs.rstate := {|
  vop_lookup := ramfs_vop_lookup sizeof_vnode malloc junk pad;
  vop_readlink := ramfs_vop_readlink;
  entry := ramfs_entry;
  kind := ramfs_kind;
  fs_inv := ramfs_inv;
  lookups_left := fun f => 2 ^ 64 - 1 - Ramfs.inode_count f
|}.

Lemma find_in_dir f n d name : (exists ents, Ramfs.dir_ok f n ents) -> Ramfs.nodes f !! n = Some d ->
  exists np, Ramfs.find_child (size (Ramfs.nodes f)) (Ramfs.rn_child d) name f = Ok (np, f) /\
    (np <> 0 -> is_Some (Ramfs.nodes f !! np)).
Proof.
  intros [ents Hok] Hd. pose proof (Ramfs.find_entry f n d ents name Hok Hd) as Hf. eexists. split; [done|].
  destruct (Ramfs.lookup_dir ents name) as [np|] eqn:E; [|done]. intros _. simpl.
  apply Ramfs.lookup_dir_elem in E. destruct (Ramfs.do_names _ _ _ Hok name np E) as (x & -> & _). done.
Qed.

(** Only the nodes matter to the tree. *)
Lemma find_child_nodes f f' fuel a name : Ramfs.nodes f' = Ramfs.nodes f ->
  fst <$> Ramfs.find_child fuel a name f' = fst <$> Ramfs.find_child fuel a name f.
Proof.
  intros E. revert a. induction fuel as [|fuel IH]; intros a; simpl; destruct (a =? 0); try done.
  unfold Ramfs.node, mbind, M_bind, deref. rewrite E. destruct (Ramfs.nodes f !! a) as [n|]; [|done].
  by destruct (_ && _).
Qed.

Lemma ramfs_same f f' : Ramfs.nodes f' = Ramfs.nodes f -> fs_same f f'.
Proof.
  intros E n. split; [simpl; unfold ramfs_kind; by rewrite E|]. intros c. simpl. unfold ramfs_entry. rewrite E.
  destruct (Ramfs.nodes f !! n) as [d|]; [|done]. pose proof (find_child_nodes f f' (size (Ramfs.nodes f)) (Ramfs.rn_child d) (str c) E) as Hf.
  destruct (Ramfs.find_child _ _ _ f') as [[? ?]| | |], (Ramfs.find_child _ _ _ f) as [[? ?]| | |]; try done. by injection Hf as ->.
Qed.

Lemma str_empty name : str name = ""%string -> name = [].
Proof. by destruct name. Qed.

Lemma ramfs_inv_nodes f f' s : ramfs_inv f s -> Ramfs.nodes f' = Ramfs.nodes f ->
  Ramfs.inode_count f <= Ramfs.inode_count f' < 2 ^ 64 -> ramfs_inv f' s.
Proof.
  intros [[g Hg] Hc Hv] E Hi. split; [exists g; by eapply tree_of_nodes|lia|]. intros vp v Hvp. specialize (Hv vp v Hvp). lia.
Qed.

(** The state after the window on the stack is moved. *)
Definition moved_window (f : Ramfs.rstate) : Ramfs.rstate :=
  Ramfs.set_wins (set_tab_stack (alter (fun e => Ipc pad (ipc_size e) (ipc_mask e)) 0%nat (tab_stack (Ramfs.wins f))) (Ramfs.wins f)) f.

(** The beginning of a look-up. *)
Lemma lookup_begin f s dvp v name d : name <> [] -> vnodes s !! dvp = Some v -> Ramfs.nodes f !! v_data v = Some d ->
  (exists ents, Ramfs.dir_ok f (v_data v) ents) ->
  exists np, ramfs_entry f (v_data v) name = (if np =? 0 then None else Some np) /\ (np <> 0 -> is_Some (Ramfs.nodes f !! np)) /\
    ramfs_vop_lookup sizeof_vnode malloc junk pad dvp name (f, s) =
    (if np =? 0 then mret (ENOENT, 0) else
     ino ← on_r (gets Ramfs.inode_count);
     on_r (modify (Ramfs.set_inode (u64 (ino + 1))));;
     a ← gets (fun s => malloc s.2);
     r ← on_c (vfscore_vget sizeof_vnode ramfs_vget a junk (v_mount v) ino);
     if negb (r.1 =? 0) then mret (0, r.2) else
     if r.2 =? 0 then mret (ENOMEM, 0) else
     n ← on_r (Ramfs.node np);
     on_c (upd_vnode r.2 (with_attrs (Ramfs.rn_type n) Ramfs.UK_ALLPERMS (Ramfs.rn_size n) np));;
     mret (0, r.2)) (moved_window f, s).
Proof.
  intros Hn Hv Hd [ents Hents]. assert (Ramfs.dir_ok (moved_window f) (v_data v) ents) as Hents' by (by destruct Hents).
  destruct (find_in_dir f (v_data v) d (str name) ltac:(eauto) Hd) as (np & Hf & Hlive).
  destruct (find_in_dir (moved_window f) (v_data v) d (str name) ltac:(eauto) Hd) as (np' & Hf' & _).
  pose proof (find_child_nodes f (moved_window f) (size (Ramfs.nodes f)) (Ramfs.rn_child d) (str name) eq_refl) as Heq.
  change (Ramfs.nodes (moved_window f)) with (Ramfs.nodes f) in Hf'. rewrite Hf, Hf' in Heq. injection Heq as ->.
  exists np. split; [unfold ramfs_entry; by rewrite Hd, Hf|]. split; [done|].
  unfold ramfs_vop_lookup. erewrite (bind_ret _ _ _ tt); [|apply zoom_ok; by apply modify_ok].
  destruct (String.eqb_spec (str name) "") as [E|_]; [by apply str_empty in E|].
  erewrite (bind_ret _ _ _ v); [|apply zoom_ok; by apply deref_ok]. erewrite (bind_ret _ _ _ d); [|apply zoom_ok; by apply deref_ok].
  erewrite bind_ret; [|apply zoom_ok; by apply gets_ok]. erewrite (bind_ret _ _ _ np); [|apply zoom_ok; exact Hf']. done.
Qed.

(** A vnode for the node [np]. *)
Definition node_vnode (np : Z) (n : Ramfs.ramfs_node) (mp ino : Z) : vnode :=
  with_attrs (Ramfs.rn_type n) Ramfs.UK_ALLPERMS (Ramfs.rn_size n) np (new_vnode junk mp ino).

Lemma ramfs_lookup_law f s held dvp v name : vc_ok s held -> ramfs_inv f s -> vnodes s !! dvp = Some v -> is_Some (Ramfs.nodes f !! v_data v) -> name <> [] ->
  0 < 2 ^ 64 - 1 - Ramfs.inode_count f -> slot_available (wins s) -> is_Some (m_counts s !! v_mount v) ->
  exists f', Ramfs.nodes f' = Ramfs.nodes f /\ Ramfs.inode_count f <= Ramfs.inode_count f' <= Ramfs.inode_count f + 1 /\
    match ramfs_entry f (v_data v) name with
    | None => ramfs_vop_lookup sizeof_vnode malloc junk pad dvp name (f, s) = Ok ((ENOENT, 0), (f', s)) /\ ramfs_inv f' s
    | Some np => exists a w s', ramfs_vop_lookup sizeof_vnode malloc junk pad dvp name (f, s) = Ok ((0, a), (f', s')) /\
        ramfs_inv f' s' /\ new_vnode_at s s' held a w /\ v_data w = np /\ v_mount w = v_mount v /\ v_type w = ramfs_kind f np
    end.
Proof.
  intros Hvc Hinv Hv [d Hd] Hn Hleft Hsl [c Hc].
  destruct (lookup_begin f s dvp v name d Hn Hv Hd (ri_dirs _ _ Hinv _ ltac:(eauto))) as (np & -> & Hlive & ->).
  pose proof (ri_count _ _ Hinv) as Hcnt. destruct (Z.eqb_spec np 0) as [->|Hnp].
  { exists (moved_window f). split; [done|]. split; [simpl; lia|]. split; [done|]. eapply ramfs_inv_nodes; [done|done|simpl; lia]. }
  destruct (Hlive Hnp) as [n Hnode]. destruct (malloc_fresh s) as [Ha0 Han].
  assert (no_vnode s (v_mount v) (Ramfs.inode_count f)) as Hno.
  { intros vp w Hw [_ Hi]. pose proof (ri_vnode _ _ Hinv vp w Hw). lia. }
  destruct (vget_miss sizeof_vnode ramfs_vget s held (malloc s) junk (v_mount v) (Ramfs.inode_count f) c Hvc Hno Ha0 Han Hsl Hc eq_refl) as (l & t & Ht & Hrun & Hvc1).
  set (s1 := added s (malloc s) (new_vnode junk (v_mount v) (Ramfs.inode_count f)) c l t) in *.
  set (w := node_vnode np n (v_mount v) (Ramfs.inode_count f)). set (s2 := set_vnodes (<[malloc s := w]> (vnodes s1)) s1).
  set (f1 := Ramfs.set_inode (u64 (Ramfs.inode_count f + 1)) (moved_window f)). exists f1.
  assert (u64 (Ramfs.inode_count f + 1) = Ramfs.inode_count f + 1) as Hu by (apply u64_small; lia).
  assert (vnodes s2 = <[malloc s := w]> (vnodes s)) as Hvn by (simpl; apply insert_insert_eq).
  split; [done|]. split; [simpl; lia|]. exists (malloc s), w, s2. split; [|split; [|split; [|split; [done|split; [done|unfold ramfs_kind; by rewrite Hnode]]]]].
  - erewrite bind_ret; [|apply zoom_ok; by apply gets_ok]. erewrite (bind_ret _ _ _ tt); [|apply zoom_ok; by apply modify_ok].
    erewrite bind_ret by (by apply gets_ok). erewrite (bind_ret _ _ _ (0, malloc s)); [|apply zoom_ok; exact Hrun].
    cbn [fst snd]. rewrite (proj2 (Z.eqb_neq (malloc s) 0)) by done. change (negb (0 =? 0)) with false. cbv iota.
    erewrite (bind_ret _ _ _ n); [|apply zoom_ok; by apply deref_ok].
    erewrite (bind_ret _ _ _ tt); [|apply zoom_ok, update_vnode_ok; simpl; apply lookup_insert_eq]. done.
  - destruct (ramfs_inv_nodes f f1 s Hinv eq_refl ltac:(simpl; lia)) as [H1 H2 H3]. split; [done|done|]. rewrite Hvn.
    intros vp x [[<- <-]|[_ Hx]]%lookup_insert_Some; [simpl; lia|by apply H3 in Hx].
  - split; [done|done|done|done| | |].
    + eapply vc_ok_ext; [|eapply (vc_ok_update s1 _ (malloc s) _ w 0); [exact Hvc1|simpl; apply lookup_insert_eq|done|done|done|simpl; lia]].
      intros x. unfold add_held. repeat case_match; lia.
    + simpl. by eapply vfs_add_slots.
    + intros mp Hmp. simpl. rewrite lookup_insert_is_Some'. by right.
Qed.

#[local] Instance ramfs_laws : FileSystemLaws Ramfs.rstate.
Proof.
  split.
  - intros f s held dvp v name Hvc Hinv Hv Hk [Hn _] Hleft Hsl Hm.
    assert (is_Some (Ramfs.nodes f !! v_data v)) as Hd by (simpl in Hk; unfold ramfs_kind in Hk; by destruct (Ramfs.nodes f !! v_data v)).
    destruct (ramfs_lookup_law f s held dvp v name Hvc Hinv Hv Hd Hn Hleft (free_slot_available _ Hsl) Hm) as (f' & E & Hi & Hres).
    exists f'. split; [by apply ramfs_same|]. split; [simpl; lia|]. done.
  - intros f s s' [Hd Hc Hv] Hst. split; [done|done|]. intros vp v' Hv'.
    destruct (static_get _ _ _ _ Hst Hv') as (v & Hvp & [= Ei _ Et _ Ed]). rewrite <- Ei. by apply Hv in Hvp.
Qed.

(** ** Mounting *)

(** A new node that nothing refers to. *)
Lemma dir_ok_new f a n p ents : Ramfs.nodes f !! a = None -> Ramfs.dir_ok f p ents ->
  Ramfs.dir_ok (Ramfs.set_nodes (<[a := n]> (Ramfs.nodes f)) f) p ents.
Proof.
  intros Ha [(d & Hd & Hl) Hnd Hnm]. assert (forall q x, Ramfs.nodes f !! q = Some x -> <[a := n]> (Ramfs.nodes f) !! q = Some x) as Hk.
  { intros q x Hq. rewrite lookup_insert_ne by congruence. done. }
  split; simpl; [|done|].
  - exists d. split; [auto|]. eapply linked_weaken; [done|]. unfold Ramfs.nexts. rewrite fmap_insert. apply insert_subseteq.
    by rewrite lookup_fmap, Ha.
  - intros name q Hin. destruct (Hnm name q Hin) as (x & Hx & ?). exists x. auto.
Qed.

Lemma dir_ok_leaf f p n : Ramfs.nodes f !! p = Some n -> Ramfs.rn_child n = 0 -> Ramfs.dir_ok f p [].
Proof.
  intros Hn Hc. split; [|apply NoDup_singleton|by intros ? ? ?%elem_of_nil]. exists n. split; [done|]. rewrite Hc. constructor.
Qed.

(** A new node without entries. *)
Lemma tree_of_new f g a n : tree_of f g -> Ramfs.nodes f !! a = None -> Ramfs.rn_child n = 0 ->
  tree_of (Ramfs.set_nodes (<[a := n]> (Ramfs.nodes f)) f) (fun p => if decide (p = a) then [] else g p).
Proof.
  intros [Hd Hn Hap] Ha Hc. assert (forall p, p <> a -> is_Some (<[a := n]> (Ramfs.nodes f) !! p) -> is_Some (Ramfs.nodes f !! p)) as Hold
    by (intros p Hp; by rewrite lookup_insert_ne).
  split; simpl.
  - intros p Hp. case_decide as E; [subst p; eapply dir_ok_leaf; [simpl; apply lookup_insert_eq|done]|]. apply dir_ok_new; auto.
  - intros p Hp. case_decide; [constructor|auto].
  - intros p p' x Hp Hp'. repeat case_decide; try (by intros ?%elem_of_nil); [by intros _ ?%elem_of_nil|]. apply Hap; auto.
Qed.

Lemma ramfs_empty f a n : Ramfs.rn_type n = VDIR -> Ramfs.rn_child n = 0 -> empty_dir (Ramfs.set_nodes (<[a := n]> (Ramfs.nodes f)) f) a.
Proof.
  intros Ht Hc. split; simpl; unfold ramfs_kind, ramfs_entry; simpl; rewrite lookup_insert_eq; [done|]. intros c. rewrite Hc. by destruct (size _).
Qed.

Lemma ramfs_grows f a n : (forall p, is_Some (Ramfs.nodes f !! p) -> exists ents, Ramfs.dir_ok f p ents) -> Ramfs.nodes f !! a = None ->
  fs_grows f (Ramfs.set_nodes (<[a := n]> (Ramfs.nodes f)) f).
Proof.
  intros Hdirs Ha p Hk. simpl in *. unfold ramfs_kind, ramfs_entry in *. cbn [Ramfs.nodes Ramfs.set_nodes].
  destruct (Ramfs.nodes f !! p) as [d|] eqn:Hd; [|done]. rewrite lookup_insert_ne, Hd by congruence. split; [done|]. intros c.
  assert (forall n', ramfs_entry f p c = Some n' -> ramfs_kind (Ramfs.set_nodes (<[a := n]> (Ramfs.nodes f)) f) n' = ramfs_kind f n') as Hkinds.
  { intros n'. unfold ramfs_entry. rewrite Hd. destruct (find_in_dir f p d (str c) (Hdirs p ltac:(eauto)) Hd) as (np & -> & Hlive).
    destruct (Z.eqb_spec np 0) as [|Hnp]; [done|]. intros [= <-]. destruct (Hlive Hnp). unfold ramfs_kind. simpl. by rewrite lookup_insert_ne by congruence. }
  split; [|unfold ramfs_entry, ramfs_kind in Hkinds; rewrite Hd in Hkinds; exact Hkinds].
  destruct (Hdirs p ltac:(eauto)) as [ents Hents]. rewrite (Ramfs.find_entry f p d ents (str c) Hents Hd).
  pose proof (dir_ok_new f a n p ents Ha Hents) as Hents'.
  assert (Ramfs.nodes (Ramfs.set_nodes (<[a := n]> (Ramfs.nodes f)) f) !! p = Some d) as Hd' by (simpl; rewrite lookup_insert_ne by congruence; done).
  pose proof (Ramfs.find_entry _ p d ents (str c) Hents' Hd') as E. simpl in E. by rewrite E.
Qed.

Context (a_node a_name : Ramfs.rstate -> Z).
Hypothesis a_node_fresh : forall f, Ramfs.nodes f !! a_node f = None.

Lemma ramfs_type_ok : fs_type_ok (fs_ramfs2 a_node a_name).
Proof.
  split; [done|]. intros s m d v Hd Hv Hty Hino Hinv. pose proof (ri_dirs _ _ Hinv) as Hdirs. destruct Hinv as [[g Hg] Hcnt Hvs]. simpl. unfold ramfs_mount.
  rewrite (bind_ret _ _ _ (a_node (fss s)) s), (bind_ret _ _ _ (a_name (fss s)) s) by (by apply gets_ok).
  set (a := a_node (fss s)). unfold Ramfs.ramfs_allocate_node.
  destruct (Z.eqb_spec a 0) as [H0|H0]; [left; exists ENOMEM; split; [done|]; by destruct s as [[]]|].
  destruct (Z.eqb_spec (a_name (fss s)) 0) as [H1|H1]; [left; exists ENOMEM; split; [done|]; by destruct s as [[]]|].
  right. set (n := Ramfs.Node 0 0 VDIR "/" _ _ _ _ _ _ _ _ _). exists a, (Ramfs.set_nodes (<[a := n]> (Ramfs.nodes (fss s))) (fss s)).
  assert (Ramfs.nodes (fss s) !! a = None) as Ha by apply a_node_fresh. split; [|split; [by apply ramfs_grows|split; [by apply ramfs_empty|split]]].
  - erewrite (bind_ret _ _ _ a); [|apply zoom_ok, zoom_ok; erewrite (bind_ret _ _ _ tt); [done|by apply modify_ok]].
    rewrite (proj2 (Z.eqb_neq a 0)) by done. erewrite (bind_ret _ _ _ d); [|apply on_dc_id; by apply deref_ok].
    erewrite (bind_ret _ _ _ tt); [|apply zoom_ok, zoom_ok, update_vnode_ok; exact Hv]. by destruct s as [[]].
  - exists (fun p => if decide (p = a) then [] else g p). by apply tree_of_new.
  - done.
  - simpl. intros vp w [[<- <-]|[Hne Hw]]%lookup_insert_Some; [simpl; lia|]. apply (Hvs vp w). simpl. by rewrite lookup_delete_ne.
Qed.

(** ** The same file system as in [Ramfs]

    There the vnodes are a part of the state of the file system; here they are in
    the cache.  [view] shows the cache in the way of [Ramfs]. *)

Definition vview (v : vnode) : Ramfs.vnode := Ramfs.Vnode (v_ino v) (v_type v) (v_mode v) (v_size v) (v_data v).
Definition view (f : Ramfs.rstate) (s : vcache) : Ramfs.rstate := Ramfs.set_vnodes (vview <$> vnodes s) f.

Definition cached_vget (s : vcache) (mp ino : Z) : M Ramfs.rstate (bool * Z) := fun r =>
  match vfscore_vget sizeof_vnode ramfs_vget (malloc s) junk mp ino s with
  | Ok ((e, vp), s1) => Ok ((negb (e =? 0), vp), Ramfs.set_vnodes (vview <$> vnodes s1) r)
  | Spin => Spin
  | Abort => Abort
  | Undef => Undef
  end.

Lemma find_child_view fuel a name f s :
  Ramfs.find_child fuel a name (view f s) =
  match Ramfs.find_child fuel a name f with Ok (np, _) => Ok (np, view f s) | Spin => Spin | Abort => Abort | Undef => Undef end.
Proof.
  revert a. induction fuel as [|fuel IH]; intros a; simpl; destruct (a =? 0); try done.
  unfold Ramfs.node, mbind, M_bind, deref. simpl. destruct (Ramfs.nodes f !! a) as [n|]; [|done]. by destruct (_ && _).
Qed.

Lemma find_child_reads fuel a name f np f' : Ramfs.find_child fuel a name f = Ok (np, f') -> f' = f.
Proof.
  revert a. induction fuel as [|fuel IH]; intros a; simpl; destruct (a =? 0); try (by intros [= _ <-]); try done.
  unfold Ramfs.node, mbind, M_bind, deref. destruct (Ramfs.nodes f !! a) as [n|]; [|done].
  destruct (_ && _); [by intros [= _ <-]|apply IH].
Qed.

(** [ramfs_vop_lookup] is [Ramfs.ramfs_lookup] with [vfscore_vget]. *)
Lemma lookup_is_ramfs f s dvp d name : vnodes s !! dvp = Some d ->
  Ramfs.ramfs_lookup (cached_vget s (v_mount d)) pad dvp (str name) (view f s) =
  match ramfs_vop_lookup sizeof_vnode malloc junk pad dvp name (f, s) with
  | Ok (r, (f', s')) => Ok (r, view f' s')
  | Spin => Spin | Abort => Abort | Undef => Undef
  end.
Proof.
  intros Hd. unfold ramfs_vop_lookup, Ramfs.ramfs_lookup, on_r, on_c, zoom. cbv [mbind M_bind modify gets mret M_ret]. simpl.
  destruct (String.eqb (str name) ""); [done|]. unfold Ramfs.vnode_at, vnode_at, Ramfs.node, deref. simpl. rewrite lookup_fmap, Hd. simpl.
  destruct (Ramfs.nodes f !! v_data d) as [dn|]; [|done].
  set (f1 := moved_window f). change (Ramfs.set_wins _ (view f s)) with (view f1 s). change (Ramfs.set_wins _ f) with f1.
  change (Ramfs.nodes (view f1 s)) with (Ramfs.nodes f). change (Ramfs.nodes f1) with (Ramfs.nodes f). rewrite find_child_view.
  destruct (Ramfs.find_child (size (Ramfs.nodes f)) (Ramfs.rn_child dn) (str name) f1) as [[np f2]| | |] eqn:Hf; [|by simpl; rewrite Hf..].
  pose proof Hf as E. apply find_child_reads in E as ->. simpl. rewrite Hf. destruct (np =? 0); [done|].
  unfold cached_vget. simpl. change (Ramfs.inode_count (view f1 s)) with (Ramfs.inode_count f1).
  destruct (vfscore_vget _ _ _ _ _ _ s) as [[[e vp] s1]| | |]; try done. simpl.
  destruct (e =? 0); simpl; [|done]. destruct (vp =? 0); [done|]. simpl.
  destruct (Ramfs.nodes f !! np) as [n|]; [|done]. unfold Ramfs.upd_vnode, Ramfs.vnode_at, upd_vnode, vnode_at, deref, mbind, M_bind, modify.
  simpl. rewrite lookup_fmap. destruct (vnodes s1 !! vp) as [w|]; [|done]. simpl. unfold view. simpl. by rewrite fmap_insert.
Qed.

End Instance_.
