(* ===== verification/Rootfs.v ===== *)
(** The root file system (vfscore/rootfs.c, and the table of file systems of
    vfscore/mount.c): at boot, [vfscore_rootfs] mounts the RAM file system on "/".
    From then on the invariant of path look-up holds.  The examples at the end run
    the model: mounting, creating a file, look-up and unmounting. *)
From S2P Require Import Prelude VfsTypes Windows Uio PathConv Vnode Dentry Dcache Namei Resolve Mount RamfsVfs.
From S2P Require Ramfs.
From stdpp Require Import base numbers strings gmap fin_maps sets list.
Import Errno.
#[local] Open Scope Z_scope.

(** ** Code *)

(** "devfs"; its [VFS_MOUNT] does nothing. *)
Definition fs_devfs2 {F} : @fs_type F :=
  FsType [100; 101; 118; 102; 115] (fun _ => mret 0) (fun mp => vfscore_release_mp_dentries mp;; mret 0) (fun _ _ => 0).

Section Code.
Context (sizeof_mount sizeof_vnode sizeof_dentry : Z) (malloc : vcache -> Z) (calloc : dcache -> Z) (junk : vnode) (pad : Z).
Context (a_node a_name : Ramfs.rstate -> Z).

(** The table that [add_fs] fills. *)
Definition add_fs : list (@fs_type Ramfs.rstate) := [fs_devfs2; fs_ramfs2 a_node a_name].

#[local] Instance rootfs_fs : FileSystem Ramfs.rstate := ramfs_fs sizeof_vnode malloc junk pad.

Definition vfscore_rootfs (pad_vp pad_name a_mp stale : Z) (rootfs rootdev : option (list Z)) (rootflags : Z) : M (@vfs Ramfs.rstate) Z :=
  match rootfs with
  | None | Some [] => mret (-1)
  | Some _ =>
      e ← do_mount sizeof_mount sizeof_vnode sizeof_dentry malloc calloc junk add_fs pad_vp pad_name a_mp stale
            rootdev (Some [SLASH]) rootfs rootflags;
      if negb (e =? 0) then mret (-1) else mret 0
  end.

End Code.

(** The caches and the file system at boot. *)
Definition vfs_boot (t : ipc_tables) (f : Ramfs.rstate) : @vfs Ramfs.rstate := Vfs (dc_init ∅ t) f [].

(** ** At boot *)

Section Boot.
Context (sizeof_mount sizeof_vnode sizeof_dentry : Z) (malloc : vcache -> Z) (calloc : dcache -> Z) (junk : vnode) (pad : Z).
Context (a_node a_name : Ramfs.rstate -> Z).
(** There is memory, and what the allocator returns is not in use. *)
Hypothesis malloc_fresh : forall s, malloc s <> 0 /\ vnodes s !! malloc s = None.
Hypothesis calloc_fresh : forall s, calloc s <> 0 /\ dentries s !! calloc s = None.
Hypothesis a_node_fresh : forall f, a_node f <> 0 /\ Ramfs.nodes f !! a_node f = None.
Hypothesis a_name_some : forall f, a_name f <> 0.

#[local] Instance boot_fs : FileSystem Ramfs.rstate := ramfs_fs sizeof_vnode malloc junk pad.
#[local] Instance boot_laws : FileSystemLaws Ramfs.rstate := ramfs_laws sizeof_vnode malloc junk pad malloc_fresh.

Lemma boot_ok t f : vfs_inv t -> Ramfs.nodes f = ∅ -> 0 < Ramfs.inode_count f < 2 ^ 64 ->
  vfs_ok (fun _ => None) [] (vfs_boot t f) (fun _ => 0) (fun _ => 0).
Proof.
  intros Ht Hn Hc. split; simpl.
  - by apply dc_init_ok.
  - split; [|done|by intros vp v Hv]. exists (fun _ => []). split; [|constructor|by intros ? ? ? ? ? ?%elem_of_nil].
    intros n. rewrite Hn, lookup_empty. by intros [].
  - intros dp d. by rewrite lookup_empty.
  - intros dp dp' d d' _ _. by rewrite lookup_empty.
  - by intros m ?%elem_of_nil.
  - intros vp v. by rewrite lookup_empty.
  - by intros mp ?%elem_of_nil.
Qed.

Lemma ramfs_accepts e : refused (fs_ramfs2 a_node a_name) e -> e = 0.
Proof.
  intros (m & s & Hrun). cbn [vfs_mount fs_ramfs2] in Hrun. unfold ramfs_mount in Hrun.
  rewrite (bind_ret _ _ _ (a_node (fss s)) s), (bind_ret _ _ _ (a_name (fss s)) s) in Hrun by (by apply gets_ok).
  destruct (a_node_fresh (fss s)) as [H0 _]. pose proof (a_name_some (fss s)) as H1.
  unfold Ramfs.ramfs_allocate_node in Hrun. rewrite (proj2 (Z.eqb_neq _ 0) H0), (proj2 (Z.eqb_neq _ 0) H1) in Hrun.
  erewrite (bind_ret _ _ _ (a_node (fss s))) in Hrun; [|apply zoom_ok, zoom_ok; erewrite (bind_ret _ _ _ tt); [done|by apply modify_ok]].
  rewrite (proj2 (Z.eqb_neq _ 0) H0) in Hrun. unfold mbind, M_bind, on_cache, on_dc, on_vc, zoom in Hrun.
  destruct (dentry_at _ _) as [[d t]| | |]; try done. destruct (upd_vnode _ _ _) as [[u c]| | |]; try done. by injection Hrun as <- _.
Qed.

Lemma rootfs_ok t f pad_vp pad_name a stale dev flags :
  vfs_inv t -> (3 <= free_slots t)%nat -> Ramfs.nodes f = ∅ -> 0 < Ramfs.inode_count f < 2 ^ 64 -> a <> 0 -> take 5 dev <> dev_prefix ->
  exists s' root np, vfscore_rootfs sizeof_mount sizeof_vnode sizeof_dentry malloc calloc junk pad a_node a_name pad_vp pad_name a stale
      (Some [114; 97; 109; 102; 115]) (Some dev) flags (vfs_boot t f) = Ok (0, s') /\
    mounts s' = [Mount a [SLASH] root 0 (s32 flags) 1] /\
    vfs_ok (roots_with (fun _ => None) a np) [a] s' (add_held (fun _ => 0) root 1) (fun _ => 0) /\ empty_dir (fss s') np.
Proof.
  intros Ht Hsl Hn Hc Ha Hdev.
  destruct (mount_ok sizeof_mount sizeof_vnode sizeof_dentry malloc calloc junk malloc_fresh calloc_fresh (add_fs a_node a_name) (fun _ => None) []
    (vfs_boot t f) (fun _ => 0) (fun _ => 0) pad_vp pad_name a stale dev [SLASH] [114; 97; 109; 102; 115] flags 1 (fs_ramfs2 a_node a_name))
    as (s' & e & Hrun & Hres); try done.
  - by apply boot_ok.
  - apply ramfs_type_ok. intros g. by apply a_node_fresh.
  - simpl. unfold PATH_MAX. lia.
  - by intros m ?%elem_of_nil.
  - by intros [].
  - unfold vfscore_rootfs. rewrite (bind_ret _ _ _ _ _ Hrun). destruct Hres as [(He & Hr & _)|(-> & root & cov & np & -> & Hm & _ & Hk & Hok)].
    + destruct He. by apply ramfs_accepts.
    + exists s', root, np. done.
Qed.

(** C30. The root file system is mounted at boot: with the caches empty and the window
    table initialised, [vfscore_rootfs] with the configured "ramfs" returns 0. The only
    mount is then on "/"; its root is an empty directory, and the invariant of path
    look-up holds, with one reference held, to the root dentry. There is memory and
    three windows are free, and the device is not a path below /dev/. *)
Theorem rootfs_mounted t f pad_vp pad_name a stale dev flags :
  vfs_inv t -> (3 <= free_slots t)%nat -> Ramfs.nodes f = ∅ -> 0 < Ramfs.inode_count f < 2 ^ 64 -> a <> 0 -> take 5 dev <> dev_prefix ->
  exists s' root np, vfscore_rootfs sizeof_mount sizeof_vnode sizeof_dentry malloc calloc junk pad a_node a_name pad_vp pad_name a stale
      (Some [114; 97; 109; 102; 115]) (Some dev) flags (vfs_boot t f) = Ok (0, s') /\
    mounts s' = [Mount a [SLASH] root 0 (s32 flags) 1] /\
    vfs_ok (roots_with (fun _ => None) a np) [a] s' (add_held (fun _ => 0) root 1) (fun _ => 0) /\ empty_dir (fss s') np.
Proof. apply rootfs_ok. Qed.

End Boot.

(** ** Witnesses *)

(** An allocator. *)
Definition next {A} (m : gmap Z A) : Z := map_fold (fun k _ x => Z.max (k + 16) x) 4096 m.

Lemma next_fresh {A} (m : gmap Z A) : next m <> 0 /\ m !! next m = None.
Proof.
  assert (4096 <= next m /\ forall k, is_Some (m !! k) -> k < next m) as [H1 H2].
  { unfold next. apply (map_fold_weak_ind (fun x m => 4096 <= x /\ forall k, is_Some (m !! k) -> k < x)).
    - split; [lia|]. intros k. rewrite lookup_empty. by intros [].
    - intros i y m' r _ [IH1 IH2]. split; [lia|]. intros k [->|[_ Hk]]%lookup_insert_is_Some; [lia|]. specialize (IH2 k Hk). lia. }
  split; [lia|]. destruct (m !! next m) eqn:E; [|done]. specialize (H2 (next m) ltac:(eauto)). lia.
Qed.

Definition demo_tables : ipc_tables := vfs_tables_init 40 96 4096.
Definition demo_empty : Ramfs.rstate := Ramfs.RState ∅ ∅ ∅ ramfs_tables_init (fun x => x) 1.
Definition demo_vmalloc (s : vcache) : Z := next (vnodes s).
Definition demo_calloc (s : dcache) : Z := next (dentries s).
Definition demo_node (f : Ramfs.rstate) : Z := next (Ramfs.nodes f).
Definition demo_name (f : Ramfs.rstate) : Z := 1.

Definition demo_rootfs : M (@vfs Ramfs.rstate) Z :=
  vfscore_rootfs 2184 200 120 demo_vmalloc demo_calloc demo_junk 9000 demo_node demo_name 9100 9200 64 7
    (Some [114; 97; 109; 102; 115]) (Some []) 0.

Lemma demo_tables_ok : vfs_inv demo_tables /\ (3 <= free_slots demo_tables)%nat.
Proof. split; [apply demo_start_ok|]. vm_compute. lia. Qed.

Lemma rootfs_mounted_witness : exists s', demo_rootfs (vfs_boot demo_tables demo_empty) = Ok (0, s') /\
  exists root np, vfs_findroot (mounts s') [SLASH; 97] = Some (Mount 64 [SLASH] root 0 0 1, [97]) /\ empty_dir (H := boot_fs 200 demo_vmalloc demo_junk 9000) (fss s') np.
Proof.
  destruct (rootfs_mounted 2184 200 120 demo_vmalloc demo_calloc demo_junk 9000 demo_node demo_name
    (fun s => next_fresh _) (fun s => next_fresh _) (fun f => next_fresh _) (fun _ => ltac:(done)) demo_tables demo_empty 9100 9200 64 7 [] 0
    (proj1 demo_tables_ok) (proj2 demo_tables_ok) eq_refl ltac:(simpl; lia) ltac:(lia) ltac:(done)) as (s' & root & np & Hrun & Hm & _ & He).
  exists s'. split; [exact Hrun|]. exists root, np. rewrite Hm. split; [done|exact He].
Defined.

(** The file system after boot. *)
Definition demo_root : @vfs Ramfs.rstate :=
  match demo_rootfs (vfs_boot demo_tables demo_empty) with Ok (_, s) => s | _ => vfs_boot demo_tables demo_empty end.

#[local] Instance demo_fs : FileSystem Ramfs.rstate := ramfs_fs 200 demo_vmalloc demo_junk 9000.
#[local] Instance demo_laws : FileSystemLaws Ramfs.rstate := ramfs_laws 200 demo_vmalloc demo_junk 9000 (fun s => next_fresh _).

Definition demo_mount : mount := Mount 64 [SLASH] 4096 0 0 1.
Definition demo_roots : Z -> option Z := roots_with (fun _ => None) 64 4096.

(** The same with an empty file "a" in the root directory. *)
Definition demo_tree : @vfs Ramfs.rstate :=
  match Ramfs.ramfs_add_node 4096 8192 1 "a" VREG (fss demo_root) with Ok (_, f) => Vfs (dcs demo_root) f (mounts demo_root) | _ => demo_root end.

Lemma demo_root_nodes : Ramfs.nodes (fss demo_root) = {[4096 := Ramfs.new_node "/" VDIR]}.
Proof. vm_compute. reflexivity. Qed.

Lemma demo_tree_nodes : Ramfs.nodes (fss demo_tree) =
  {[4096 := Ramfs.with_times Ramfs.now None Ramfs.now (Ramfs.with_child 8192 (Ramfs.new_node "/" VDIR)); 8192 := Ramfs.new_node "a" VREG]}.
Proof. vm_compute. reflexivity. Qed.

Lemma demo_roots_root : m_root <$> mounts demo_root = [4096].
Proof. vm_compute. reflexivity. Qed.

Lemma demo_tree_eq : demo_tree = Vfs (dcs demo_root) (fss demo_tree) (mounts demo_root).
Proof. vm_compute. reflexivity. Qed.

Lemma demo_tree_count : Ramfs.inode_count (fss demo_tree) = Ramfs.inode_count (fss demo_root).
Proof. vm_compute. reflexivity. Qed.

Lemma demo_root_eq s' : demo_rootfs (vfs_boot demo_tables demo_empty) = Ok (0, s') -> demo_root = s'.
Proof. unfold demo_root. by intros ->. Qed.
#[local] Opaque demo_root demo_tree.

Lemma demo_root_ok : vfs_ok demo_roots [64] demo_root (add_held (fun _ => 0) 4096 1) (fun _ => 0) /\ mounts demo_root = [demo_mount].
Proof.
  destruct (rootfs_ok 2184 200 120 demo_vmalloc demo_calloc demo_junk 9000 demo_node demo_name
    (fun s => next_fresh _) (fun s => next_fresh _) (fun f => next_fresh _) (fun _ => ltac:(done)) demo_tables demo_empty 9100 9200 64 7 [] 0
    (proj1 demo_tables_ok) (proj2 demo_tables_ok) eq_refl ltac:(simpl; lia) ltac:(lia) ltac:(done)) as (s' & root & np & Hrun & Hm & Hok & Hk & _).
  pose proof (demo_root_eq s' Hrun) as E. rewrite <- E in *. clear Hrun E.
  assert (np = 4096) as ->.
  { simpl in Hk. unfold ramfs_kind in Hk. rewrite demo_root_nodes in Hk. destruct (decide (np = 4096)); [done|].
    by rewrite lookup_singleton_ne in Hk. }
  assert (root = 4096) as ->; [|by rewrite Hm].
  pose proof demo_roots_root as E2. rewrite Hm in E2. by injection E2.
Qed.

Lemma demo_node_cases n d : Ramfs.nodes (fss demo_tree) !! n = Some d -> n = 4096 \/ n = 8192.
Proof.
  rewrite demo_tree_nodes. intros [[<- _]|[_ [<- _]%lookup_singleton_Some]]%lookup_insert_Some; [by left|by right].
Qed.

Lemma demo_tree_more : fs_more (fss demo_root) (fss demo_tree).
Proof.
  intros n Hk. simpl in Hk. unfold ramfs_kind in Hk. rewrite demo_root_nodes in Hk. destruct (decide (n = 4096)) as [->|]; [|by rewrite lookup_singleton_ne in Hk].
  split; [simpl; unfold ramfs_kind; by rewrite demo_tree_nodes|]. intros c n'. simpl. unfold ramfs_entry. rewrite demo_root_nodes, lookup_singleton_eq. done.
Qed.

Definition demo_dirs (n : Z) : list (string * Z) := if n =? 4096 then [("a"%string, 8192)] else [].

Lemma demo_tree_of : tree_of (fss demo_tree) demo_dirs.
Proof.
  unfold demo_dirs. split.
  - intros n [d Hd]. destruct (demo_node_cases n d Hd) as [->| ->]; cbn.
    + split.
      * eexists. split; [rewrite demo_tree_nodes; apply lookup_insert_eq|]. apply (linked_cons _ _ 0); [done|rewrite demo_tree_nodes; reflexivity|constructor].
      * apply NoDup_cons. split; [by intros ?%list_elem_of_singleton|apply NoDup_singleton].
      * intros name p [= -> ->]%list_elem_of_singleton. rewrite demo_tree_nodes.
        exists (Ramfs.new_node "a" VREG). split; [reflexivity|split; reflexivity].
    + eapply dir_ok_leaf; [rewrite demo_tree_nodes; reflexivity|done].
  - intros n _. destruct (n =? 4096); [apply NoDup_singleton|constructor].
  - intros n n' x _ _. clear. destruct (Z.eqb_spec n 4096), (Z.eqb_spec n' 4096); [by subst|by intros _ ?%elem_of_nil|by intros ?%elem_of_nil..].
Qed.

Lemma demo_tree_inv : ramfs_inv (fss demo_tree) (vc (dcs demo_tree)).
Proof.
  destruct demo_root_ok as [Hok _]. destruct (ok_fs _ _ _ _ _ Hok) as [_ Hc Hv].
  pose proof demo_tree_count as Ei.
  rewrite demo_tree_eq. cbn [dcs fss]. split.
  - exists demo_dirs. exact demo_tree_of.
  - by rewrite Ei.
  - intros vp v Hvp. rewrite Ei. by apply (Hv vp v).
Qed.

Lemma demo_tree_ok : vfs_ok demo_roots [64] demo_tree (add_held (fun _ => 0) 4096 1) (fun _ => 0).
Proof.
  rewrite demo_tree_eq. apply vfs_ok_more; [apply demo_root_ok|exact demo_tree_more|].
  pose proof demo_tree_inv as Hi. by rewrite demo_tree_eq in Hi at 2.
Qed.

Lemma demo_tree_kind n : kind (fss demo_tree) n <> VLNK.
Proof.
  simpl. unfold ramfs_kind. destruct (Ramfs.nodes (fss demo_tree) !! n) as [d|] eqn:Hd; [|done]. rewrite demo_tree_nodes in Hd.
  apply lookup_insert_Some in Hd as [[_ <-]|[_ [_ <-]%lookup_singleton_Some]]; done.
Qed.

Lemma demo_tree_room : room demo_tree (add_held (fun _ => 0) 4096 1) (fun _ => 0) 1.
Proof.
  assert (size (dentries (dcs demo_tree)) = 1%nat) as Hs by (vm_compute; reflexivity).
  split; rewrite ?Hs; [intros x; unfold add_held; case_match; lia|lia|vm_compute; discriminate|vm_compute; lia].
Qed.

Lemma demo_tree_find : vfs_findroot (mounts demo_tree) [SLASH; 97] = Some (demo_mount, [97]).
Proof. vm_compute. reflexivity. Qed.

Lemma demo_tree_lookup : lookup_tree (fss demo_tree) 4096 (segs [97]) (ends_slash [97]) = RFound 8192.
Proof. vm_compute. reflexivity. Qed.

Lemma namei_resolves_witness : exists s' dp, namei 120 demo_calloc 9100 9200 [SLASH; 97] demo_tree = Ok ((0, dp), s') /\
  vfs_ok demo_roots [64] s' (add_held (add_held (fun _ => 0) 4096 1) dp 1) (fun _ => 0) /\
  exists d v, dentries (dcs s') !! dp = Some d /\ vnodes (vc (dcs s')) !! d_vnode d = Some v /\ v_data v = 8192.
Proof.
  destruct (namei_resolves 120 demo_calloc (fun s => next_fresh _) demo_roots [64] demo_tree (add_held (fun _ => 0) 4096 1) (fun _ => 0)
    demo_mount [97] 4096 [SLASH; 97] 9100 9200) as (s' & _ & _ & Hres).
  - exact demo_tree_ok.
  - exact demo_tree_find.
  - reflexivity.
  - simpl. unfold PATH_MAX. lia.
  - right. discriminate.
  - exact (fun _ _ n' _ => demo_tree_kind n').
  - exact demo_tree_room.
  - rewrite demo_tree_lookup in Hres. destruct Hres as (dp & Hrun & Hok & d & v & Hd & _ & _ & Hv & Hn & _).
    exists s', dp. split; [exact Hrun|]. split; [exact Hok|]. exists d, v. split; [exact Hd|]. split; [exact Hv|exact Hn].
Defined.

Lemma demo_tree_rooms : room demo_tree (add_held (fun _ => 0) 4096 1) (fun _ => 0) 3 /\
  (3 <= free_slots (wins (vc (dcs demo_tree))))%nat.
Proof.
  assert (size (dentries (dcs demo_tree)) = 1%nat) as Hs by (vm_compute; reflexivity).
  split; [split; rewrite ?Hs; [intros x; unfold add_held; case_match; lia|lia|vm_compute; discriminate|vm_compute; lia]|vm_compute; lia].
Qed.

Lemma demo_tree_mounts : mounts demo_tree = [demo_mount].
Proof. vm_compute. reflexivity. Qed.

Lemma demo_tree_point : mount_point demo_roots demo_tree [SLASH; 97] = Some (RFound 8192) /\ kind (fss demo_tree) 8192 = VREG.
Proof. split; vm_compute; reflexivity. Qed.

(** The root is mounted at boot; then the file "/a" cannot be mounted on. *)
Lemma mount_correct_witness :
  (exists s', do_mount 2184 200 120 demo_vmalloc demo_calloc demo_junk (add_fs demo_node demo_name) 9100 9200 64 7
    (Some []) (Some [SLASH]) (Some [114; 97; 109; 102; 115]) 1 (vfs_boot demo_tables demo_empty) = Ok (0, s') /\ length (mounts s') = 1%nat) /\
  (exists s', do_mount 2184 200 120 demo_vmalloc demo_calloc demo_junk (add_fs demo_node demo_name) 9100 9200 96 7
    (Some []) (Some [SLASH; 97]) (Some [114; 97; 109; 102; 115]) 1 demo_tree = Ok (ENOTDIR, s') /\ mounts s' = mounts demo_tree).
Proof.
  split.
  - destruct (mount_correct 2184 200 120 demo_vmalloc demo_calloc demo_junk (fun s => next_fresh _) (fun s => next_fresh _)
      (add_fs demo_node demo_name) (fun _ => None) [] (vfs_boot demo_tables demo_empty) (fun _ => 0) (fun _ => 0) 9100 9200 64 7
      [] [SLASH] [114; 97; 109; 102; 115] 1 1 (fs_ramfs2 demo_node demo_name)) as (s' & e & Hrun & Hres).
    + apply (boot_ok 200 demo_vmalloc demo_junk 9000); [exact (proj1 demo_tables_ok)|reflexivity|simpl; lia].
    + reflexivity.
    + apply ramfs_type_ok. intros f. exact (proj2 (next_fresh _)).
    + discriminate.
    + simpl. unfold PATH_MAX. lia.
    + by intros m ?%elem_of_nil.
    + lia.
    + reflexivity.
    + exact (proj2 demo_tables_ok).
    + by intros [].
    + exists s'. destruct Hres as [(He & Hr & _)|(-> & root & cov & np & _ & Hm & _)].
      * destruct He. exact (ramfs_accepts demo_node demo_name (fun f => next_fresh _) (fun _ => ltac:(done)) e Hr).
      * split; [exact Hrun|]. by rewrite Hm.
  - pose proof (mount_correct 2184 200 120 demo_vmalloc demo_calloc demo_junk (fun s => next_fresh _) (fun s => next_fresh _)
      (add_fs demo_node demo_name) demo_roots [64] demo_tree (add_held (fun _ => 0) 4096 1) (fun _ => 0) 9100 9200 96 7
      [] [SLASH; 97] [114; 97; 109; 102; 115] 1 1 (fs_ramfs2 demo_node demo_name)) as Hmc.
    rewrite demo_tree_mounts in Hmc. destruct Hmc as (s' & e & Hrun & Hres).
    + exact demo_tree_ok.
    + reflexivity.
    + apply ramfs_type_ok. intros f. exact (proj2 (next_fresh _)).
    + discriminate.
    + simpl. unfold PATH_MAX. lia.
    + intros m ->%list_elem_of_singleton. by left.
    + lia.
    + vm_compute. reflexivity.
    + exact (proj2 demo_tree_rooms).
    + intros _. exists demo_mount, [97], 4096. split; [exact demo_tree_find|]. split; [reflexivity|]. split; [right; discriminate|].
      split; [exact (fun _ _ n' _ => demo_tree_kind n')|exact (proj1 demo_tree_rooms)].
    + exists s'. unfold mount_result in Hres. rewrite (proj1 demo_tree_point), (proj2 demo_tree_point) in Hres.
      rewrite bool_decide_false in Hres by done. destruct Hres as [-> (Hm & _)]. split; [exact Hrun|exact Hm].
Defined.

Lemma demo_root_idle : idle demo_root (fun _ => 0) (fun _ => 0) demo_mount.
Proof.
  assert (exists d v, dentries (dcs demo_root) = {[4096 := d]} /\ d_parent d = 0 /\ vnodes (vc (dcs demo_root)) = {[d_vnode d := v]}) as (d & v & Hd & Hp & Hv).
  { eexists _, _. split; [vm_compute; reflexivity|]. split; [reflexivity|vm_compute; reflexivity]. }
  split; rewrite ?Hd, ?Hv; cbn [m_root demo_mount].
  - done.
  - intros x e [_ <-]%lookup_singleton_Some. by rewrite Hp.
  - by intros e x e' _ [<- _]%lookup_singleton_Some.
  - intros e vp w [_ <-]%lookup_singleton_Some [<- _]%lookup_singleton_Some _. split; reflexivity.
Qed.

Lemma umount_correct_witness : exists s', umount2 (add_fs demo_node demo_name) [SLASH] MNT_FORCE demo_root = Ok (0, s') /\ mounts s' = [] /\
  vfs_ok demo_roots [] s' (fun _ => 0) (fun _ => 0).
Proof.
  destruct demo_root_ok as [Hok Hm].
  destruct (umount_correct (add_fs demo_node demo_name) demo_roots [] demo_root (fun _ => 0) (fun _ => 0) demo_mount (fs_ramfs2 demo_node demo_name) MNT_FORCE)
    as (s' & Hrun & Hok' & _ & Hm').
  - exact Hok.
  - by rewrite Hm.
  - by intros ?%elem_of_nil.
  - reflexivity.
  - reflexivity.
  - simpl. unfold MAXPATHLEN, PATH_MAX. lia.
  - by right.
  - exact demo_root_idle.
  - done.
  - rewrite Hm. intros m' ->%list_elem_of_singleton Hne. by destruct Hne.
  - rewrite Hm. by intros m' ->%list_elem_of_singleton.
  - exists s'. split; [exact Hrun|]. split; [|exact Hok']. rewrite Hm', Hm. reflexivity.
Defined.

(** ** Runs *)

(** [umount2] does not look whether the file system is in use: with a file still
    referred to, the mount is freed, and dropping the reference writes to it. *)
Lemma umount_busy :
  fst <$> (r ← namei 120 demo_calloc 9100 9200 [SLASH; 97]; e ← umount2 (add_fs demo_node demo_name) [SLASH] MNT_FORCE; mret (r.1, e)) demo_tree = Ok (0, 0) /\
  (r ← namei 120 demo_calloc 9100 9200 [SLASH; 97]; e ← umount2 (add_fs demo_node demo_name) [SLASH] MNT_FORCE; on_dc (drele r.2)) demo_tree = Undef.
Proof. split; vm_compute; reflexivity. Qed.

(** A path of slashes only: the result is 0 with no dentry, and the reference to
    the root is not dropped. *)
Lemma namei_slashes : match namei 120 demo_calloc 9100 9200 [SLASH; SLASH; SLASH] demo_tree with
  | Ok (r, s) => r = (0, 0) /\ (d_refcnt <$> dentries (dcs demo_tree) !! 4096) = Some 1 /\ (d_refcnt <$> dentries (dcs s) !! 4096) = Some 2
  | _ => False end.
Proof. vm_compute. done. Qed.

(** The tree with a symbolic link "l" in the root directory. *)
Definition demo_link (target : list Z) : @vfs Ramfs.rstate :=
  match (Ramfs.ramfs_add_node 4096 12288 1 "l" VLNK;;
         modify (fun f => Ramfs.set_bufs (<[5000 := target ++ [0]]> (Ramfs.bufs f)) f);;
         Ramfs.upd_node 12288 (Ramfs.with_buf 5000 (Z.of_nat (length target)));;
         Ramfs.upd_node 12288 (Ramfs.with_size (Z.of_nat (length target)))) (fss demo_tree) with
  | Ok (_, f) => Vfs (dcs demo_tree) f (mounts demo_tree) | _ => demo_tree end.

Definition result_node (r : outcome ((Z * Z) * @vfs Ramfs.rstate)) : option (Z * option Z) :=
  match r with
  | Ok ((e, dp), s) => Some (e, d ← dentries (dcs s) !! dp; v_data <$> vnodes (vc (dcs s)) !! d_vnode d)
  | _ => None
  end.

(** An absolute link is followed; a relative one in the root directory is not: the
    path that [path_conv] gets to start from is empty, and the result has no
    leading slash.  A link to itself gives ELOOP. *)
Lemma links_followed :
  result_node (namei 120 demo_calloc 9100 9200 [SLASH; 108] (demo_link [SLASH; 97])) = Some (0, Some 8192) /\
  result_node (namei 120 demo_calloc 9100 9200 [SLASH; 108] (demo_link [97])) = Some (ENOTDIR, None) /\
  result_node (namei 120 demo_calloc 9100 9200 [SLASH; 108] (demo_link [SLASH; 108])) = Some (ELOOP, None).
Proof. split; [|split]; vm_compute; reflexivity. Qed.

(** A mount that fails: the structure is freed, but the window on it stays open. *)
Lemma mount_leaves_window :
  match do_mount 2184 200 120 demo_vmalloc demo_calloc demo_junk (add_fs (fun _ => 0) demo_name) 9100 9200 64 7
    (Some []) (Some [SLASH]) (Some [114; 97; 109; 102; 115]) 0 (vfs_boot demo_tables demo_empty) with
  | Ok (e, s) => e = ENOMEM /\ m_counts (vc (dcs s)) !! 64 = None /\ window_on (dcs s) 64 = true
  | _ => False end.
Proof. vm_compute. done. Qed.

(** Without memory for the root dentry, [mount] returns what [error] happens to
    hold; without a device name, which the comment allows, it reads from NULL. *)
Lemma mount_stale :
  fst <$> do_mount 2184 200 120 demo_vmalloc (fun _ => 0) demo_junk (add_fs demo_node demo_name) 9100 9200 64 7
    (Some []) (Some [SLASH]) (Some [114; 97; 109; 102; 115]) 0 (vfs_boot demo_tables demo_empty) = Ok 7 /\
  do_mount 2184 200 120 demo_vmalloc demo_calloc demo_junk (add_fs demo_node demo_name) 9100 9200 64 7
    None (Some [SLASH]) (Some [114; 97; 109; 102; 115]) 0 (vfs_boot demo_tables demo_empty) = Undef.
Proof. split; vm_compute; reflexivity. Qed.
