(* ===== verification/Open.v ===== *)
(** Opening and closing a file by its path (vfscore/syscalls.c: open_no_follow_chk,
    sys_open; fops.c: vfs_close; file.c: fdrop).

    The open files are a heap of their own, with the record of [FdTable].  The
    operations of the file system beyond look-up are arguments: [VOP_CREATE],
    [VOP_TRUNCATE] and the results of [VOP_OPEN] and [VOP_CLOSE]. *)
From S2P Require Import Prelude VfsTypes Windows PathConv Vnode Dentry Dcache Namei Resolve Mount.
From S2P Require FdTable.
From stdpp Require Import base numbers gmap fin_maps sets list.
Import Errno.
#[local] Open Scope Z_scope.

(** ** Flags *)

Definition O_ACCMODE : Z := 3.
Definition O_CREAT : Z := 512.
Definition O_TRUNC : Z := 1024.
Definition O_EXCL : Z := 2048.
Definition O_DIRECTORY : Z := 65536.
Definition O_NOFOLLOW : Z := 131072.
Definition UK_FREAD : Z := 1.
Definition UK_FWRITE : Z := 2.

(** [x & ~m]. *)
Definition clear (x m : Z) : Z := Z.ldiff x m.

Definition vfscore_fflags (oflags : Z) : Z := Z.lor (Z.land oflags O_ACCMODE + 1) (clear oflags O_ACCMODE).
Definition vfscore_oflags (fflags : Z) : Z := Z.lor (Z.land fflags 3 - 1) (clear fflags 3).

(** ** Code *)

Section Code.
Context {F : Type} `{FileSystem F}.
Context (sizeof_dentry : Z) (calloc : dcache -> Z).
Context (vop_create : Z -> list Z -> Z -> M (F * vcache) Z) (vop_truncate : Z -> M (F * vcache) Z).
Context (vop_open vop_close : Z -> Z).

Record files := Files { fv : @vfs F; fheap : gmap Z FdTable.vfscore_file }.
Definition set_fv x s := Files x (fheap s).
Definition set_fheap x s := Files (fv s) x.
Definition on_v {A} (m : M (@vfs F) A) : M files A := zoom fv set_fv m.

(** The addresses of the variables on the stack of the three functions. *)
Record pads := Pads { pad_dp : Z; pad_ddp : Z; pad_filename : Z; pad_vp : Z; pad_name : Z }.
Context (p : pads).

Definition lookup_dentry (path : list Z) : M (@vfs F) (Z * Z) := namei sizeof_dentry calloc (pad_vp p) (pad_name p) path.

(** [dp->d_vnode] and the vnode. *)
Definition vnode_of (dp : Z) : M (@vfs F) (Z * vnode) :=
  d ← on_dc (dentry_at dp); v ← on_cache (vnode_at (d_vnode d)); mret (d_vnode d, v).

(** [vn_access (vp, VWRITE)]. *)
Definition write_access (v : vnode) : M (@vfs F) Z :=
  m ← deref (fun s => find (fun m => m_addr m =? v_mount v) (mounts s));
  mret (vn_access (v_mode v) (m_flags m) VWRITE).

Definition open_no_follow_chk (path : list Z) : M (@vfs F) Z :=
  l ← Namei.lookup sizeof_dentry calloc (pad_vp p) (pad_name p) path;
  let '(error, ddp, _) := l in
  if negb (error =? 0) then mret error else
  r ← namei_last_nofollow sizeof_dentry calloc (pad_vp p) path ddp;
  if negb (r.1 =? 0) then on_dc (drele ddp);; mret r.1 else
  v ← vnode_of r.2;
  on_cache (vn_lock v.1);;
  on_cache (vn_unlock v.1);;
  on_dc (drele r.2);;
  on_dc (drele ddp);;
  mret (if bool_decide (v_type v.2 = VLNK) then ELOOP else 0).

(** The error, the dentry to open and the flags to go on with. *)
Definition open_create (path : list Z) (flags mode : Z) : M (@vfs F) (Z * Z * Z) :=
  r ← lookup_dentry path;
  if r.1 =? ENOENT then
    l ← Namei.lookup sizeof_dentry calloc (pad_vp p) (pad_name p) path;
    let '(error, ddp, filename) := l in
    if negb (error =? 0) then mret (error, 0, flags) else
    v ← vnode_of ddp;
    on_cache (vn_lock v.1);;
    e ← write_access v.2;
    if negb (e =? 0) then on_cache (vn_unlock v.1);; on_dc (drele ddp);; mret (e, 0, flags) else
    e ← on_fs (vop_create v.1 filename (Z.lor (clear mode S_IFMT) S_IFREG));
    on_cache (vn_unlock v.1);;
    on_dc (drele ddp);;
    if negb (e =? 0) then mret (e, 0, flags) else
    r ← lookup_dentry path;
    if negb (r.1 =? 0) then mret (r.1, 0, flags) else
    mret (0, r.2, clear (clear flags O_TRUNC) O_CREAT)
  else if negb (r.1 =? 0) then mret (r.1, 0, flags) else
  if flag flags O_EXCL then drele_opt r.2;; mret (EEXIST, 0, flags) else
  mret (0, r.2, clear flags O_CREAT).

Definition open_existing (path : list Z) (flags : Z) : M (@vfs F) (Z * Z * Z) :=
  e ← (if flag flags O_NOFOLLOW then open_no_follow_chk path else mret 0);
  if negb (e =? 0) then mret (e, 0, flags) else
  r ← lookup_dentry path;
  if negb (r.1 =? 0) then mret (r.1, 0, flags) else
  v ← vnode_of r.2;
  e ← (if flag flags UK_FWRITE || flag flags O_TRUNC then
         e ← write_access v.2;
         mret (if negb (e =? 0) then e else if bool_decide (v_type v.2 = VDIR) then EISDIR else 0)
       else mret 0);
  if negb (e =? 0) then drele_opt r.2;; mret (e, 0, flags) else
  if flag flags O_DIRECTORY && negb (bool_decide (v_type v.2 = VDIR)) then drele_opt r.2;; mret (ENOTDIR, 0, flags) else
  mret (0, r.2, flags).

(** Truncation of the vnode [vp]. *)
Definition open_trunc (flags vp : Z) (t : vtype) : M (@vfs F) Z :=
  if flag flags O_TRUNC then
    if negb (flag flags UK_FWRITE) || bool_decide (t = VDIR) then mret EINVAL else on_fs (vop_truncate vp)
  else mret 0.

(** [sys_open] from where the dentry is known; [a] is what [calloc] returns for
    the file. *)
Definition open_finish (a dp flags : Z) : M files (Z * Z) :=
  v ← on_v (vnode_of dp);
  let vp := v.1 in
  on_v (on_cache (vn_lock vp));;
  e ← on_v (open_trunc flags vp (v_type v.2));
  if negb (e =? 0) then on_v (on_cache (vn_unlock vp);; on_dc (drele dp));; mret (e, 0) else
  if a =? 0 then on_v (on_cache (vn_unlock vp);; on_dc (drele dp));; mret (ENOMEM, 0) else
  modify (fun s => set_fheap (<[a := FdTable.File 0 flags 1 0 0]> (fheap s)) s);;
  on_v (on_dc (dref dp));;
  modify (fun s => set_fheap (<[a := FdTable.File 0 flags 1 0 dp]> (fheap s)) s);;
  if negb (vop_open a =? 0) then
    on_v (on_cache (vn_unlock vp);; on_dc (drele dp));;
    modify (fun s => set_fheap (delete a (fheap s)) s);;
    mret (vop_open a, 0)
  else
  on_v (on_cache (vn_unlock vp));;
  mret (0, a).

(** The result and [*fpp]. *)
Definition sys_open (a : Z) (path : list Z) (flags mode : Z) : M files (Z * Z) :=
  on_v (stack_window 2 (pad_dp p);; stack_window 1 (pad_ddp p);; stack_window 0 (pad_filename p));;
  let flags := vfscore_fflags flags in
  r ← on_v (if flag flags O_CREAT then open_create path flags mode else open_existing path flags);
  let '(error, dp, flags) := r in
  if negb (error =? 0) then mret (error, 0) else open_finish a dp flags.

Definition file_at (fp : Z) : M files FdTable.vfscore_file := deref (fun s => fheap s !! fp).

Definition vfs_close (fp : Z) : M files Z :=
  f ← file_at fp;
  v ← on_v (vnode_of (FdTable.f_dentry f));
  on_v (on_cache (vn_lock v.1);; on_cache (vn_unlock v.1));;
  if negb (vop_close fp =? 0) then mret (vop_close fp) else
  on_v (on_dc (drele (FdTable.f_dentry f)));;
  modify (fun s => set_fheap (<[fp := FdTable.with_dentry 0 f]> (fheap s)) s);;
  mret 0.

Definition fdrop (fp : Z) : M files Z :=
  uk_assert (negb (fp =? 0));;
  f ← file_at fp;
  uk_assert (0 <? FdTable.f_count f);;
  modify (fun s => set_fheap (<[fp := FdTable.with_count (s32 (FdTable.f_count f - 1)) f]> (fheap s)) s);;
  if FdTable.f_count f =? 1 then
    e ← vfs_close fp;
    (if negb (e =? 0) then on_v (on_dc (drele (FdTable.f_dentry f))) else mret tt);;
    modify (fun s => set_fheap (delete fp (fheap s)) s);;
    mret 1
  else mret 0.

End Code.

(** ** Opening what is there *)

(** The check of a vnode with [mode] and type [t] of a mount with [m_flags]. *)
Definition open_error (mode m_flags : Z) (t : vtype) (flags : Z) : Z :=
  let e := if flag flags UK_FWRITE || flag flags O_TRUNC then
             let e := vn_access mode m_flags VWRITE in
             if negb (e =? 0) then e else if bool_decide (t = VDIR) then EISDIR else 0
           else 0 in
  if negb (e =? 0) then e else
  if flag flags O_DIRECTORY && negb (bool_decide (t = VDIR)) then ENOTDIR else 0.

Section Correct.
Context {F : Type} `{FileSystemLaws F}.
Context (sizeof_dentry : Z) (calloc : dcache -> Z).
(** There is memory, and what the allocator returns is not in use. *)
Hypothesis calloc_fresh : forall s, calloc s <> 0 /\ dentries s !! calloc s = None.
Context (vop_create : Z -> list Z -> Z -> M (F * vcache) Z) (vop_truncate : Z -> M (F * vcache) Z).
Context (vop_open vop_close : Z -> Z) (p : pads) (roots : Z -> option Z) (live : list Z).

Definition mount_of (s : @vfs F) (mp : Z) : option mount := find (fun m => m_addr m =? mp) (mounts s).

Lemma mount_of_vnode s hd hv vp v : vfs_ok roots live s hd hv -> vnodes (vc (dcs s)) !! vp = Some v -> is_Some (mount_of s (v_mount v)).
Proof.
  intros Hok Hv. destruct (ok_vnode _ _ _ _ _ Hok vp v Hv) as (m & Hm & E). unfold mount_of.
  destruct (find _ (mounts s)) eqn:Ef; [by eexists|]. exfalso. eapply find_none in Ef; [|by apply list_elem_of_In]. simpl in Ef. lia.
Qed.

Lemma vnode_of_ok (s : @vfs F) dp d v : dentries (dcs s) !! dp = Some d -> vnodes (vc (dcs s)) !! d_vnode d = Some v ->
  vnode_of dp s = Ok ((d_vnode d, v), s).
Proof.
  intros Hd Hv. unfold vnode_of. rewrite (bind_ret _ _ _ d s) by (apply on_dc_id; by apply deref_ok).
  by rewrite (bind_ret _ _ _ v s) by (apply on_dc_id, on_vc_id; by apply deref_ok).
Qed.

Lemma write_access_ok (s : @vfs F) v m : mount_of s (v_mount v) = Some m -> write_access v s = Ok (vn_access (v_mode v) (m_flags m) VWRITE, s).
Proof. intros Hm. unfold write_access. by rewrite (bind_ret _ _ _ m s) by (by apply deref_ok). Qed.

(** A reference that is dropped again on the way out. *)
Lemma open_fails {A} (s : @vfs F) hd hv dp (e : A) : vfs_ok roots live s (add_held hd dp 1) hv -> roots_held s hd -> (forall x, 0 <= hd x) -> dp <> 0 ->
  exists t, (drele_opt dp;; mret e) s = Ok (e, set_dcs t s) /\ vfs_ok roots live (set_dcs t s) hd hv /\
    forall hd0 hv0 n, room s hd0 hv0 n -> room (set_dcs t s) hd0 hv0 n.
Proof.
  intros Hok Hr Hh Hdp. destruct (drele_vfs _ _ _ _ _ _ Hok Hr Hh) as (t & Hrun & Hok' & Hrm). exists t. split; [|done].
  unfold drele_opt. rewrite (proj2 (Z.eqb_neq dp 0)) by done. by rewrite (bind_ret _ _ _ _ _ Hrun).
Qed.

(** Path look-up can find out about [path]: [m] covers it, with [q] below. *)
Record resolvable (s : @vfs F) (hd hv : Z -> Z) (path : list Z) (m : mount) (q : list Z) (r : Z) (spare : nat) : Prop := {
  rs_find : vfs_findroot (mounts s) path = Some (m, q);
  rs_root : roots (m_addr m) = Some r;
  rs_len : (length path < PATH_MAX)%nat;
  rs_segs : q = [] \/ segs q <> [];
  rs_links : no_links (fss s);
  rs_room : room s hd hv (length (segs q) + spare)
}.

(** How [open_existing] ends, for a path that leads to [res]. *)
Definition existing_result (s s' : @vfs F) (hd hv : Z -> Z) (m : mount) (q : list Z) (r flags e dp : Z) (spare : nat) : Prop :=
  fs_same (fss s) (fss s') /\ mounts s' = mounts s /\ room s' hd hv spare /\
  match lookup_tree (fss s) r (segs q) (ends_slash q) with
  | RErr err => e = err /\ vfs_ok roots live s' hd hv
  | RFound n => exists mode mt, mount_of s (m_addr m) = Some mt /\ e = open_error mode (m_flags mt) (kind (fss s) n) flags /\
      if e =? 0 then vfs_ok roots live s' (add_held hd dp 1) hv /\ at_node roots s' dp (m_addr m) r (segs q) n
      else vfs_ok roots live s' hd hv
  end.

Lemma open_existing_ok s hd hv path m q r spare flags : vfs_ok roots live s hd hv -> resolvable s hd hv path m q r spare ->
  flag flags O_NOFOLLOW = false ->
  exists s' e dp, open_existing sizeof_dentry calloc p path flags s = Ok ((e, dp, flags), s') /\ existing_result s s' hd hv m q r flags e dp spare.
Proof.
  intros Hok [Hf Hr Hlen Hp Hlk Hrm] Hnf. destruct (vfs_held _ _ _ _ _ Hok) as [Hh Hroots]. unfold open_existing. rewrite Hnf, (bind_ret _ _ _ 0 s) by done.
  change (negb (0 =? 0)) with false. cbv iota. unfold lookup_dentry.
  destruct (namei_ok sizeof_dentry calloc calloc_fresh roots live spare s hd hv m q r path (pad_vp p) (pad_name p) Hok Hf Hr Hlen Hp Hlk Hrm)
    as (s1 & e1 & Hrun & Hsame & Hm1 & Hrm1 & Hres). rewrite (bind_ret _ _ _ _ _ Hrun). unfold existing_result.
  destruct (lookup_tree (fss s) r (segs q) (ends_slash q)) as [n|err] eqn:Etree.
  2:{ destruct Hres as [-> Hok1]. cbn [fst]. rewrite (proj2 (Z.eqb_neq err 0)) by (by eapply lookup_tree_err). by exists s1, err, 0. }
  destruct Hres as (dp & -> & Hok1 & Hat). pose proof Hat as (d & v & Hd & Hdm & _ & Hv & Hn & _ & _ & _ & Hty).
  cbn [fst snd]. change (negb (0 =? 0)) with false. cbv iota. rewrite (bind_ret _ _ _ _ _ (vnode_of_ok _ _ _ _ Hd Hv)). cbn [snd].
  destruct (mount_of_vnode _ _ _ _ _ Hok1 Hv) as [mt Hmt].
  assert (v_type v = kind (fss s) n) as Ht by (rewrite Hty; apply Hsame).
  assert (mount_of s (m_addr m) = Some mt) as Hmt'.
  { destruct (dentry_vnode _ _ _ _ dp d (ok_dc _ _ _ _ _ Hok1) Hd) as (v' & Hv' & E). rewrite Hv in Hv'. injection Hv' as <-.
    unfold mount_of in *. by rewrite <- Hdm, <- E, <- Hm1. }
  assert (dp <> 0) as Hdp by (intros ->; rewrite (t_null _ _ (dc_tree _ _ _ _ (ok_dc _ _ _ _ _ Hok1))) in Hd; done).
  assert (roots_held s1 hd) as Hroots1 by (intros m'; rewrite Hm1; apply Hroots).
  set (e0 := if flag flags UK_FWRITE || flag flags O_TRUNC then
     if negb (vn_access (v_mode v) (m_flags mt) VWRITE =? 0) then vn_access (v_mode v) (m_flags mt) VWRITE
     else if bool_decide (v_type v = VDIR) then EISDIR else 0 else 0).
  rewrite (bind_ret _ _ _ e0 s1); [|unfold e0; destruct (_ || _); [by rewrite (bind_ret _ _ _ _ _ (write_access_ok _ _ _ Hmt))|done]].
  assert (open_error (v_mode v) (m_flags mt) (kind (fss s) n) flags =
    if negb (e0 =? 0) then e0 else if flag flags O_DIRECTORY && negb (bool_decide (v_type v = VDIR)) then ENOTDIR else 0) as Herr
    by (unfold open_error, e0; by rewrite <- Ht).
  destruct (Z.eqb_spec e0 0) as [E0|E0]; cbn [negb] in *.
  - destruct (flag flags O_DIRECTORY && negb (bool_decide (v_type v = VDIR))).
    + destruct (open_fails s1 hd hv dp (ENOTDIR, 0, flags) Hok1 Hroots1 Hh Hdp) as (t & -> & Hok2 & Hrm2). eexists _, ENOTDIR, 0. split; [done|].
      split; [done|]. split; [done|]. split; [by apply Hrm2|]. by exists (v_mode v), mt.
    + exists s1, 0, dp. split; [done|]. split; [done|]. split; [done|]. split; [done|]. by exists (v_mode v), mt.
  - destruct (open_fails s1 hd hv dp (e0, 0, flags) Hok1 Hroots1 Hh Hdp) as (t & -> & Hok2 & Hrm2). eexists _, e0, 0. split; [done|].
    split; [done|]. split; [done|]. split; [by apply Hrm2|]. exists (v_mode v), mt. split; [done|]. split; [done|].
    by rewrite (proj2 (Z.eqb_neq e0 0)).
Qed.

(** ** sys_open *)

Lemma open_windows s hd hv : vfs_ok roots live s hd hv -> exists t,
  (stack_window 2 (pad_dp p);; stack_window 1 (pad_ddp p);; stack_window 0 (pad_filename p)) s = Ok (tt, set_dcs t s) /\
  vfs_ok roots live (set_dcs t s) hd hv /\ forall n, room s hd hv n -> room (set_dcs t s) hd hv n.
Proof.
  intros Hok. destruct (stack_window_ok _ _ _ _ _ 2 (pad_dp p) Hok) as (t1 & H1 & Hok1 & R1).
  destruct (stack_window_ok _ _ _ _ _ 1 (pad_ddp p) Hok1) as (t2 & H2 & Hok2 & R2).
  destruct (stack_window_ok _ _ _ _ _ 0 (pad_filename p) Hok2) as (t3 & H3 & Hok3 & R3). exists t3.
  rewrite (bind_ret _ _ _ _ _ H1), (bind_ret _ _ _ _ _ H2). split; [exact H3|]. split; [done|]. intros n Hn. by apply R3, R2, R1.
Qed.

Lemma on_v_ok {A} (m : M (@vfs F) A) (s : @files F) x t : m (fv s) = Ok (x, t) -> on_v m s = Ok (x, set_fv t s).
Proof. apply zoom_ok. Qed.

Lemma on_v_id {A} (m : M (@vfs F) A) (s : @files F) x : m (fv s) = Ok (x, fv s) -> on_v m s = Ok (x, s).
Proof. apply zoom_id. by destruct s. Qed.

Lemma cache_lock s hd hv vp v : vfs_ok roots live s hd hv -> vnodes (vc (dcs s)) !! vp = Some v ->
  on_cache (vn_lock vp) s = Ok (tt, s) /\ on_cache (vn_unlock vp) s = Ok (tt, s).
Proof. intros Hok Hv. destruct (lock_ok _ _ _ _ _ (ok_dc _ _ _ _ _ Hok) Hv) as [? ?]. split; by apply on_dc_id. Qed.

(** From the dentry on: the file is made and takes a reference of its own. *)
Lemma open_file s hd hv a dp d v flags : vfs_ok roots live (fv s) hd hv -> dentries (dcs (fv s)) !! dp = Some d ->
  vnodes (vc (dcs (fv s))) !! d_vnode d = Some v -> d_refcnt d + 1 < 2 ^ 31 -> flag flags O_TRUNC = false -> a <> 0 -> vop_open a = 0 ->
  let t := set_dentries (<[dp := with_count (d_refcnt d + 1) d]> (dentries (dcs (fv s)))) (dcs (fv s)) in
  open_finish vop_truncate vop_open a dp flags s =
  Ok ((0, a), Files (set_dcs t (fv s)) (<[a := FdTable.File 0 flags 1 0 dp]> (fheap s))).
Proof.
  intros Hok Hd Hv Hb Htr Ha Hop t. destruct (cache_lock _ _ _ _ _ Hok Hv) as [Hl _].
  destruct (vfs_ok_count _ _ _ _ _ dp d Hok Hd Hb) as (Hok' & _).
  destruct (cache_lock _ _ _ (d_vnode d) v Hok' Hv) as [_ Hu].
  unfold open_finish. rewrite (bind_ret _ _ _ _ _ (on_v_id _ _ _ (vnode_of_ok _ _ _ _ Hd Hv))). cbn [fst snd].
  rewrite (bind_ret _ _ _ _ _ (on_v_id _ _ _ Hl)). unfold open_trunc. rewrite Htr, (bind_ret _ _ _ 0 s) by (by apply on_v_id).
  change (negb (0 =? 0)) with false. cbv iota. rewrite (proj2 (Z.eqb_neq a 0)) by done.
  erewrite (bind_ret _ _ _ tt) by (by apply modify_ok).
  destruct (dref_ok _ _ _ _ _ _ (ok_dc _ _ _ _ _ Hok) Hd Hb) as [Hdref _].
  erewrite (bind_ret _ _ _ tt); [|apply on_v_ok, zoom_ok; exact Hdref]. erewrite (bind_ret _ _ _ tt) by (by apply modify_ok).
  rewrite Hop. change (negb (0 =? 0)) with false. cbv iota. erewrite (bind_ret _ _ _ tt); [|apply on_v_id; exact Hu].
  simpl. by rewrite insert_insert_eq.
Qed.

(** What [sys_open] leaves behind. *)
Definition open_result (s s' : @files F) (hd hv : Z -> Z) (m : mount) (q : list Z) (r a flags e fp : Z) : Prop :=
  fs_same (fss (fv s)) (fss (fv s')) /\ mounts (fv s') = mounts (fv s) /\
  match lookup_tree (fss (fv s)) r (segs q) (ends_slash q) with
  | RErr err => e = err /\ fheap s' = fheap s /\ vfs_ok roots live (fv s') hd hv
  | RFound n => exists mode mt, mount_of (fv s) (m_addr m) = Some mt /\ e = open_error mode (m_flags mt) (kind (fss (fv s)) n) flags /\
      if e =? 0 then exists dp, fp = a /\ fheap s' = <[a := FdTable.File 0 flags 1 0 dp]> (fheap s) /\
        at_node roots (fv s') dp (m_addr m) r (segs q) n /\ vfs_ok roots live (fv s') (add_held (add_held hd dp 1) dp 1) hv
      else fheap s' = fheap s /\ vfs_ok roots live (fv s') hd hv
  end.

Lemma sys_open_ok s hd hv path m q r a flags mode : vfs_ok roots live (fv s) hd hv -> resolvable (fv s) hd hv path m q r 0 ->
  flag (vfscore_fflags flags) O_CREAT = false -> flag (vfscore_fflags flags) O_NOFOLLOW = false ->
  flag (vfscore_fflags flags) O_TRUNC = false -> a <> 0 -> vop_open a = 0 ->
  exists s' e fp, sys_open sizeof_dentry calloc vop_create vop_truncate vop_open p a path flags mode s = Ok ((e, fp), s') /\
    open_result s s' hd hv m q r a (vfscore_fflags flags) e fp.
Proof.
  intros Hok [Hf Hr Hlen Hp Hlk Hrm] Hcr Hnf Htr Ha Hop. set (fl := vfscore_fflags flags) in *.
  destruct (open_windows _ _ _ Hok) as (t & Hw & Hok0 & Hrm0). unfold sys_open. fold fl.
  rewrite (bind_ret _ _ _ _ _ (on_v_ok _ _ _ _ Hw)), Hcr.
  destruct (open_existing_ok (set_dcs t (fv s)) hd hv path m q r 0 fl Hok0) as (s1 & e & dp & Hrun & Hsame & Hm1 & Hrm1 & Hres); [split; auto|done|].
  rewrite (bind_ret _ _ _ _ _ (on_v_ok _ (set_fv (set_dcs t (fv s)) s) _ _ Hrun)). unfold open_result. cbn [fss mounts set_dcs] in *.
  destruct (lookup_tree (fss (fv s)) r (segs q) (ends_slash q)) as [n|err] eqn:Etree.
  - destruct Hres as (md & mt & Hmt & He & Hres). destruct (Z.eqb_spec e 0) as [E|E]; cbn [negb].
    + destruct Hres as [Hok1 Hat]. pose proof Hat as (d & v & Hd & _ & _ & Hv & _).
      assert (d_refcnt d + 1 < 2 ^ 31) as Hb.
      { pose proof (count_le _ _ _ _ _ (ok_dc _ _ _ _ _ Hok1) Hd) as Hc. pose proof (rm_hd _ _ _ _ Hrm1 dp). rewrite add_held_eq in Hc. lia. }
      eexists _, 0, a. split; [exact (open_file (set_fv s1 (set_fv (set_dcs t (fv s)) s)) _ hv a dp d v fl Hok1 Hd Hv Hb Htr Ha Hop)|].
      destruct (vfs_ok_count _ _ _ _ _ dp d Hok1 Hd Hb) as (Hok2 & Hst & Hsh).
      split; [done|]. split; [done|]. exists md, mt. split; [done|]. split; [congruence|]. exists dp. split; [done|]. split; [done|]. split; [|done].
      eapply (at_node_le roots s1); [done|done|done| |exact (ok_dc _ _ _ _ _ Hok2)]. simpl. by rewrite lookup_insert_eq.
    + eexists _, e, 0. split; [done|]. split; [done|]. split; [done|]. exists md, mt. split; [done|]. split; [done|].
      by rewrite (proj2 (Z.eqb_neq e 0)).
  - destruct Hres as [-> Hok1]. rewrite (proj2 (Z.eqb_neq err 0)) by (by eapply lookup_tree_err). cbn [negb].
    eexists _, err, 0. split; [done|]. done.
Qed.

(** ** Closing *)

Lemma vfs_close_ok s hd hv fp f t : vfs_ok roots live (fv s) hd hv -> is_Some (dentries (dcs (fv s)) !! FdTable.f_dentry f) ->
  fheap s !! fp = Some f -> on_dc (drele (FdTable.f_dentry f)) (fv s) = Ok (tt, t) ->
  vfs_close vop_close fp s =
  if negb (vop_close fp =? 0) then Ok (vop_close fp, s) else Ok (0, Files t (<[fp := FdTable.with_dentry 0 f]> (fheap s))).
Proof.
  intros Hok [d Hd] Hf Hrun. destruct (dentry_vnode _ _ _ _ _ d (ok_dc _ _ _ _ _ Hok) Hd) as (v & Hv & _).
  destruct (cache_lock _ _ _ _ _ Hok Hv) as [Hl Hu]. unfold vfs_close. rewrite (bind_ret _ _ _ f s) by (by apply deref_ok).
  rewrite (bind_ret _ _ _ _ _ (on_v_id _ s _ (vnode_of_ok _ _ _ _ Hd Hv))). cbn [fst].
  rewrite (bind_ret _ _ _ tt s) by (apply on_v_id; by rewrite (bind_ret _ _ _ _ _ Hl)).
  destruct (negb _); [done|]. rewrite (bind_ret _ _ _ _ _ (on_v_ok _ _ _ _ Hrun)). by erewrite (bind_ret _ _ _ tt) by (by apply modify_ok).
Qed.

(** The last reference to a file: its dentry loses one reference, whatever
    [VOP_CLOSE] says. *)
Lemma fdrop_last s hd hv fp f : vfs_ok roots live (fv s) (add_held hd (FdTable.f_dentry f) 1) hv -> roots_held (fv s) hd -> (forall x, 0 <= hd x) ->
  fp <> 0 -> fheap s !! fp = Some f -> FdTable.f_count f = 1 ->
  exists t, fdrop vop_close fp s = Ok (1, Files (set_dcs t (fv s)) (delete fp (fheap s))) /\ vfs_ok roots live (set_dcs t (fv s)) hd hv.
Proof.
  intros Hok Hr Hh Hfp Hf Hc. set (dp := FdTable.f_dentry f) in *.
  destruct (drele_vfs _ _ _ _ _ _ Hok Hr Hh) as (t & Hrun & Hok' & _). exists t. split; [|done].
  assert (is_Some (dentries (dcs (fv s)) !! dp)) as Hd.
  { apply (proj2 (t_held _ _ (dc_tree _ _ _ _ (ok_dc _ _ _ _ _ Hok)) dp)). rewrite add_held_eq. specialize (Hh dp). lia. }
  unfold fdrop. rewrite (proj2 (Z.eqb_neq fp 0)), (bind_ret _ _ _ tt s) by done. rewrite (bind_ret _ _ _ f s) by (by apply deref_ok).
  rewrite Hc, (bind_ret _ _ _ tt s) by done. erewrite (bind_ret _ _ _ tt) by (by apply modify_ok). rewrite Z.eqb_refl.
  set (f0 := FdTable.with_count _ f). set (s0 := set_fheap (<[fp := f0]> (fheap s)) s).
  pose proof (vfs_close_ok s0 _ hv fp f0 _ Hok Hd ltac:(simpl; apply lookup_insert_eq) Hrun) as Hcl.
  destruct (Z.eqb_spec (vop_close fp) 0) as [E|E]; cbn [negb] in Hcl; rewrite (bind_ret _ _ _ _ _ Hcl).
  - change (negb (0 =? 0)) with false. cbv iota. rewrite (bind_ret _ _ _ tt _) by done. erewrite (bind_ret _ _ _ tt) by (by apply modify_ok).
    simpl. by rewrite insert_insert_eq, delete_insert_eq.
  - rewrite (proj2 (Z.eqb_neq _ 0) E). cbn [negb]. rewrite (bind_ret _ _ _ _ _ (on_v_ok _ s0 _ _ Hrun)). erewrite (bind_ret _ _ _ tt) by (by apply modify_ok).
    simpl. by rewrite delete_insert_eq.
Qed.

(** C33. Opening and closing a file leaves a reference behind: [sys_open] takes two
    references to the dentry, the one that [namei] returns and one more for the file,
    and closing drops one. After a successful open and the last close, the files are as
    before, but one more reference to the dentry is held, for ever: neither the dentry
    nor its vnode nor their windows are ever released. The open is without O_CREAT,
    O_TRUNC and O_NOFOLLOW, of a path that look-up can get to (see [resolvable]), on a
    file system whose open accepts the file. *)
Theorem open_close_leaks s hd hv path m q r a flags mode : vfs_ok roots live (fv s) hd hv -> resolvable (fv s) hd hv path m q r 0 ->
  flag (vfscore_fflags flags) O_CREAT = false -> flag (vfscore_fflags flags) O_NOFOLLOW = false ->
  flag (vfscore_fflags flags) O_TRUNC = false -> a <> 0 -> vop_open a = 0 -> fheap s !! a = None ->
  exists s' e fp, sys_open sizeof_dentry calloc vop_create vop_truncate vop_open p a path flags mode s = Ok ((e, fp), s') /\
    (e = 0 -> exists s'' dp, fdrop vop_close fp s' = Ok (1, s'') /\ fheap s'' = fheap s /\
       vfs_ok roots live (fv s'') (add_held hd dp 1) hv /\ is_Some (dentries (dcs (fv s'')) !! dp)).
Proof.
  intros Hok Hrs Hcr Hnf Htr Ha Hop Hfresh. destruct (vfs_held _ _ _ _ _ Hok) as [Hh Hr].
  destruct (sys_open_ok s hd hv path m q r a flags mode Hok Hrs Hcr Hnf Htr Ha Hop) as (s' & e & fp & Hrun & _ & Hm & Hres).
  exists s', e, fp. split; [done|]. intros ->. destruct (lookup_tree _ _ _ _) as [n|err] eqn:Etree.
  2:{ destruct Hres as (<- & _). by apply lookup_tree_err in Etree. }
  destruct Hres as (md & mt & _ & _ & dp & -> & Hf & _ & Hok').
  destruct (fdrop_last s' (add_held hd dp 1) hv a (FdTable.File 0 (vfscore_fflags flags) 1 0 dp) Hok') as (t & Hrun2 & Hok2); try done.
  - intros m'. rewrite Hm. intros Hm'. specialize (Hr m' Hm'). unfold add_held. case_match; lia.
  - intros x. specialize (Hh x). unfold add_held. case_match; lia.
  - by rewrite Hf, lookup_insert_eq.
  - exists (Files (set_dcs t (fv s')) (delete a (fheap s'))), dp. split; [done|]. split; [simpl; rewrite Hf; by rewrite delete_insert_id|].
    split; [done|]. apply (proj2 (t_held _ _ (dc_tree _ _ _ _ (ok_dc _ _ _ _ _ Hok2)) dp)). rewrite add_held_eq. specialize (Hh dp). lia.
Qed.

(** ** Creating *)

(** The directory part of a path. *)
Definition dir_part (before : list Z) : list Z := match before with [] => [SLASH] | _ => before end.

(** [lookup] finds the directory. *)
Lemma lookup_dir_ok s hd hv path before name m q r n spare : vfs_ok roots live s hd hv -> strrchr path = Some (before, name) ->
  (length path < PATH_MAX)%nat -> resolvable s hd hv (dir_part before) m q r spare ->
  lookup_tree (fss s) r (segs q) (ends_slash q) = RFound n -> kind (fss s) n = VDIR ->
  exists s' dp, Namei.lookup sizeof_dentry calloc (pad_vp p) (pad_name p) path s = Ok ((0, dp, name), s') /\
    fs_same (fss s) (fss s') /\ mounts s' = mounts s /\ room s' hd hv spare /\
    vfs_ok roots live s' (add_held hd dp 1) hv /\ at_node roots s' dp (m_addr m) r (segs q) n.
Proof.
  intros Hok Hs Hlen [Hf Hr Hl Hp Hlk Hrm] Htree Hk. unfold Namei.lookup. rewrite strlcpy_fits by done.
  rewrite bool_decide_false by (by intros ->). rewrite Hs. fold (dir_part before).
  destruct (namei_ok sizeof_dentry calloc calloc_fresh roots live spare s hd hv m q r (dir_part before) (pad_vp p) (pad_name p) Hok Hf Hr Hl Hp Hlk Hrm)
    as (s1 & e1 & Hrun & Hsame & Hm1 & Hrm1 & Hres). rewrite Htree in Hres. destruct Hres as (dp & -> & Hok1 & Hat).
  rewrite (bind_ret _ _ _ _ _ Hrun). cbn [fst snd]. change (negb (0 =? 0)) with false. cbv iota zeta.
  destruct (at_node_type _ _ _ _ _ _ _ _ _ _ Hok1 Hat) as (d & v & Hd & Hv & Ht). rewrite (bind_ret _ _ _ _ _ Hd), (bind_ret _ _ _ _ _ Hv).
  rewrite Ht, (proj1 (Hsame n)), Hk. rewrite bool_decide_true by done. cbn [negb]. by exists s1, dp.
Qed.

(** What an operation that makes an entry of the type [t] promises, as long as
    there is memory. *)
Definition makes (op : Z -> list Z -> M (F * vcache) Z) (t : vtype) : Prop :=
  forall f s held dvp v name, vc_ok s held -> fs_inv f s -> vnodes s !! dvp = Some v -> kind f (v_data v) = VDIR -> name_ok name ->
    (length name <= 255)%nat -> entry f (v_data v) name = None ->
    exists f' n, op dvp name (f, s) = Ok (0, (f', s)) /\ fs_more f f' /\ fs_inv f' s /\
      entry f' (v_data v) name = Some n /\ kind f' n = t /\ (no_links f -> no_links f') /\ lookups_left f <= lookups_left f'.

(** The promise of [VOP_CREATE]. *)
Definition create_law : Prop :=
  forall mode, Z.land mode S_IFMT = S_IFREG -> makes (fun dvp name => vop_create dvp name mode) VREG.

Lemma room_fs s f' hd hv n : room s hd hv n -> lookups_left (fss s) <= lookups_left f' -> room (Vfs (dcs s) f' (mounts s)) hd hv n.
Proof. intros [] Hl. split; simpl; try done. lia. Qed.

(** The mode that is passed to an operation that makes a node of a type. *)
Lemma typed_mode mode ty : Z.land ty S_IFMT = ty -> Z.land (Z.lor (clear mode S_IFMT) ty) S_IFMT = ty.
Proof.
  intros Hty. unfold clear. rewrite Z.land_lor_distr_l, Hty. assert (Z.land (Z.ldiff mode S_IFMT) S_IFMT = 0) as ->; [|done].
  apply Z.bits_inj'. intros n Hn. rewrite Z.land_spec, Z.ldiff_spec, Z.bits_0. by destruct (Z.testbit mode n), (Z.testbit S_IFMT n).
Qed.

Lemma lookup_tree_noslash (f : F) r cs n sl : lookup_tree f r cs sl = RFound n -> lookup_tree f r cs false = RFound n.
Proof.
  revert r. induction cs as [|c cs IH]; intros r; simpl; [done|]. destruct (entry f r c) as [n'|]; [|done]. rewrite orb_false_r.
  destruct (negb (bool_decide (cs = []))); simpl; [by destruct (bool_decide _); [apply IH|]|].
  destruct (sl && _); [done|apply IH].
Qed.

Lemma find_root_dir s hd hv path m q r : vfs_ok roots live s hd hv -> vfs_findroot (mounts s) path = Some (m, q) ->
  roots (m_addr m) = Some r -> kind (fss s) r = VDIR.
Proof.
  intros Hok Hf Hr. pose proof (findroot_spec (mounts s) path) as Hs. rewrite Hf in Hs. destruct Hs as [Hm _].
  by apply (root_node _ _ _ _ _ _ _ Hok Hm Hr).
Qed.

(** The last name of [path] is not in its directory, the node [nd]. *)
Record creatable (s : @vfs F) (hd hv : Z -> Z) (path before name : list Z) (m : mount) (q q' : list Z) (r nd : Z) : Prop := {
  cr_split : strrchr path = Some (before, name);
  cr_name : name_ok name /\ (length name <= 255)%nat;
  cr_path : resolvable s hd hv path m q r (length (segs q') + (length (segs q) + 0));
  cr_dir : vfs_findroot (mounts s) (dir_part before) = Some (m, q') /\ (length (dir_part before) < PATH_MAX)%nat /\ (q' = [] \/ segs q' <> []);
  cr_segs : segs q = segs q' ++ [name] /\ ends_slash q = false;
  cr_found : lookup_tree (fss s) r (segs q') (ends_slash q') = RFound nd /\ kind (fss s) nd = VDIR /\ entry (fss s) nd name = None
}.

(** The tree has a new node [n] of the type [ty] under [name] in [nd]. *)
Definition created (ty : vtype) (s s' : @vfs F) (nd : Z) (name : list Z) (n : Z) : Prop :=
  fs_more (fss s) (fss s') /\ entry (fss s') nd name = Some n /\ kind (fss s') n = ty.

(** The entry is made in the directory with the dentry [ddp]. *)
Lemma create_in op ty s hd hv ddp mp r cs nd name spare : makes op ty -> vfs_ok roots live s (add_held hd ddp 1) hv -> roots_held s hd -> (forall x, 0 <= hd x) ->
  at_node roots s ddp mp r cs nd -> name_ok name -> (length name <= 255)%nat -> kind (fss s) nd = VDIR -> entry (fss s) nd name = None ->
  no_links (fss s) -> room s hd hv spare ->
  exists vp v f' n t, let s1 := Vfs (dcs s) f' (mounts s) in
    vnode_of ddp s = Ok ((vp, v), s) /\ vnodes (vc (dcs s)) !! vp = Some v /\ v_mount v = mp /\
    on_fs (op vp name) s = Ok (0, s1) /\ on_cache (vn_unlock vp) s1 = Ok (tt, s1) /\
    on_dc (drele ddp) s1 = Ok (tt, set_dcs t s1) /\ vfs_ok roots live (set_dcs t s1) hd hv /\
    created ty s (set_dcs t s1) nd name n /\ no_links f' /\ room (set_dcs t s1) hd hv spare.
Proof.
  intros Hlaw Hok Hr Hh (d & v & Hd & Hmp & _ & Hv & Hn & _) Hnm Hl Hk Hent Hlk Hrm. subst nd.
  destruct (dentry_vnode _ _ _ _ ddp d (ok_dc _ _ _ _ _ Hok) Hd) as (v' & Hv' & Em). rewrite Hv in Hv'. injection Hv' as <-.
  destruct (Hlaw (fss s) (vc (dcs s)) _ (d_vnode d) v name (dc_vc _ _ _ _ (ok_dc _ _ _ _ _ Hok))
    (ok_fs _ _ _ _ _ Hok) Hv Hk Hnm Hl Hent) as (f' & n & Hrun & Hmore & Hinv & Hn & Hkn & Hlk' & Hleft).
  pose proof (vfs_ok_more _ _ _ _ _ _ Hok Hmore Hinv) as Hok1. destruct (cache_lock _ _ _ (d_vnode d) v Hok1 Hv) as [_ Hu].
  destruct (drele_vfs _ _ _ _ _ _ Hok1 Hr Hh) as (t & Hrun2 & Hok2 & Hrm2). exists (d_vnode d), v, f', n, t. cbv zeta.
  split; [by apply vnode_of_ok|]. split; [done|]. split; [congruence|]. split; [unfold on_fs, zoom; rewrite Hrun; by destruct s as [[]]|].
  split; [done|]. split; [done|]. split; [done|]. split; [done|]. split; [auto|]. apply Hrm2. by apply room_fs.
Qed.

(** How [open_create] ends. *)
Definition create_result (s s' : @vfs F) (hd hv : Z -> Z) (name : list Z) (m : mount) (q : list Z) (r nd flags e dp fl : Z) : Prop :=
  mounts s' = mounts s /\ room s' hd hv 0 /\
  exists md mt, mount_of s (m_addr m) = Some mt /\ e = vn_access md (m_flags mt) VWRITE /\
    if e =? 0 then fl = clear (clear flags O_TRUNC) O_CREAT /\ exists n, created VREG s s' nd name n /\
      vfs_ok roots live s' (add_held hd dp 1) hv /\ at_node roots s' dp (m_addr m) r (segs q) n
    else fs_same (fss s) (fss s') /\ vfs_ok roots live s' hd hv.

Lemma fs_more_same (f1 f2 f3 f4 : F) : fs_same f1 f2 -> fs_more f2 f3 -> fs_same f3 f4 -> fs_more f1 f4.
Proof.
  intros H12 H23 H34 n Hk. destruct (H12 n) as [E12 C12], (H34 n) as [E34 C34]. rewrite <- E12 in Hk. destruct (H23 n Hk) as [Hk3 Hc].
  rewrite E34. split; [done|]. intros c n' E. rewrite C34, (proj1 (H34 n')), <- (proj1 (H12 n')). apply Hc. by rewrite C12.
Qed.

(** Up to where the directory is known: the path leads nowhere, but its directory
    is there. *)
Lemma create_begin s hd hv path before name m q q' r nd : vfs_ok roots live s hd hv -> creatable s hd hv path before name m q q' r nd ->
  exists s1 s2 ddp, lookup_dentry sizeof_dentry calloc p path s = Ok ((ENOENT, 0), s1) /\
    Namei.lookup sizeof_dentry calloc (pad_vp p) (pad_name p) path s1 = Ok ((0, ddp, name), s2) /\
    fs_same (fss s) (fss s2) /\ mounts s2 = mounts s /\ room s2 hd hv (length (segs q) + 0) /\
    vfs_ok roots live s2 (add_held hd ddp 1) hv /\ at_node roots s2 ddp (m_addr m) r (segs q') nd.
Proof.
  intros Hok [Hsp _ [Hf Hr Hlen Hp Hlk Hrm] (Hfd & Hld & Hpd) [Hsegs Hends] (Htree & Hk & Hent)].
  assert (lookup_tree (fss s) r (segs q) (ends_slash q) = RErr ENOENT) as Hmiss.
  { rewrite Hsegs, Hends, (lookup_tree_snoc _ _ _ _ nd) by eauto using lookup_tree_noslash. by rewrite Hent. }
  destruct (namei_ok sizeof_dentry calloc calloc_fresh roots live _ s hd hv m q r path (pad_vp p) (pad_name p) Hok Hf Hr Hlen Hp Hlk Hrm)
    as (s1 & e1 & Hrun1 & Hsame1 & Hm1 & Hrm1 & Hres1). rewrite Hmiss in Hres1. destruct Hres1 as [-> Hok1].
  destruct (lookup_dir_ok s1 hd hv path before name m q' r nd (length (segs q) + 0) Hok1 Hsp Hlen) as (s2 & ddp & Hrun2 & Hsame2 & Hm2 & Hrm2 & Hok2 & Hat2).
  { split; [by rewrite Hm1|done|done|done|by eapply no_links_same|done]. }
  { by rewrite (lookup_tree_same _ _ _ _ _ Hsame1). } { by rewrite (proj1 (Hsame1 nd)). }
  exists s1, s2, ddp. split; [done|]. split; [done|]. split; [by etrans|]. split; [congruence|]. done.
Qed.

Lemma open_create_ok s hd hv path before name m q q' r nd flags mode : create_law -> vfs_ok roots live s hd hv ->
  creatable s hd hv path before name m q q' r nd ->
  exists s' e dp fl, open_create sizeof_dentry calloc vop_create p path flags mode s = Ok ((e, dp, fl), s') /\
    create_result s s' hd hv name m q r nd flags e dp fl.
Proof.
  intros Hlaw Hok Hcrt. destruct (create_begin _ _ _ _ _ _ _ _ _ _ _ Hok Hcrt) as (s1 & s2 & ddp & Hrun1 & Hrun2 & Hsame & Hm & Hrm2 & Hok2 & Hat2).
  destruct Hcrt as [_ [Hnm Hnl] [Hf Hr Hlen Hp Hlk _] _ [Hsegs Hends] (Htree & Hk & Hent)]. unfold open_create.
  destruct (vfs_held _ _ _ _ _ Hok) as [Hh Hroots]. pose proof (find_root_dir _ _ _ _ _ _ _ Hok Hf Hr) as Hkr.
  rewrite (bind_ret _ _ _ _ _ Hrun1). cbn [fst snd]. change (ENOENT =? ENOENT) with true. cbv iota.
  rewrite (bind_ret _ _ _ _ _ Hrun2). change (negb (0 =? 0)) with false. cbv iota.
  assert (roots_held s2 hd) as Hroots2 by (intros m'; rewrite Hm; apply Hroots).
  destruct (create_in _ VREG s2 hd hv ddp (m_addr m) r (segs q') nd name (length (segs q) + 0) (Hlaw _ (typed_mode mode S_IFREG eq_refl)) Hok2 Hroots2 Hh Hat2 Hnm Hnl)
    as (vp & v & f' & n & t & Hvn & Hv & Hvm & Hcr & Hul & Hdr & Hok3 & (Hmore & Hn & Hkn) & Hlk3 & Hrm3);
    [by rewrite (proj1 (Hsame nd))|by rewrite (proj2 (Hsame nd))|by eapply no_links_same|done|].
  cbv zeta in *. rewrite (bind_ret _ _ _ _ _ Hvn). cbn [fst snd]. destruct (cache_lock _ _ _ vp v Hok2 Hv) as [Hlock Hul2].
  rewrite (bind_ret _ _ _ _ _ Hlock). destruct (mount_of_vnode _ _ _ _ _ Hok2 Hv) as [mt Hmt].
  rewrite (bind_ret _ _ _ _ _ (write_access_ok _ _ _ Hmt)).
  assert (mount_of s (m_addr m) = Some mt) as Hmt' by (unfold mount_of in *; by rewrite <- Hvm, <- Hm).
  destruct (Z.eqb_spec (vn_access (v_mode v) (m_flags mt) VWRITE) 0) as [E|E]; cbn [negb].
  2:{ destruct (drele_vfs _ _ _ _ _ _ Hok2 Hroots2 Hh) as (t2 & Hdr2 & Hok4 & Hrm4). rewrite (bind_ret _ _ _ _ _ Hul2), (bind_ret _ _ _ _ _ Hdr2).
      eexists _, _, 0, flags. split; [done|]. split; [done|]. split; [apply Hrm4; eapply room_weaken; [done|lia]|].
      exists (v_mode v), mt. split; [done|]. split; [done|]. by rewrite (proj2 (Z.eqb_neq _ 0) E). }
  rewrite (bind_ret _ _ _ _ _ Hcr), (bind_ret _ _ _ _ _ Hul), (bind_ret _ _ _ _ _ Hdr). change (negb (0 =? 0)) with false. cbv iota.
  set (s3 := set_dcs t (Vfs (dcs s2) f' (mounts s2))) in *.
  assert (fs_more (fss s) f') as Hmore' by (by eapply (fs_more_same _ _ f' f')).
  assert (lookup_tree f' r (segs q) (ends_slash q) = RFound n) as Hfound.
  { rewrite Hsegs, Hends, (lookup_tree_snoc _ _ _ _ nd); [by change (entry f' nd name) with (entry (fss s3) nd name); rewrite Hn| |].
    - eapply lookup_tree_more; eauto using lookup_tree_noslash.
    - right. by apply Hmore'. }
  destruct (namei_ok sizeof_dentry calloc calloc_fresh roots live 0 s3 hd hv m q r path (pad_vp p) (pad_name p) Hok3) as (s4 & e4 & Hrun4 & Hsame4 & Hm4 & Hrm4 & Hres4);
    [by simpl; rewrite Hm|done|done|done|done|done|].
  change (fss s3) with f' in Hres4. rewrite Hfound in Hres4. destruct Hres4 as (dp & -> & Hok4 & Hat4). unfold lookup_dentry.
  rewrite (bind_ret _ _ _ _ _ Hrun4). cbn [fst snd]. change (negb (0 =? 0)) with false. cbv iota.
  eexists s4, 0, dp, _. split; [done|]. split; [simpl in Hm4; congruence|]. split; [done|]. exists (v_mode v), mt. split; [done|]. split; [done|].
  split; [done|]. exists n. split; [|done]. split; [by eapply fs_more_same|].
  by rewrite (proj2 (Hsame4 nd)), (proj1 (Hsame4 n)).
Qed.

Lemma clear_flag x a b : flag (clear (clear x a) b) a = false.
Proof.
  unfold flag, clear. assert (Z.land (Z.ldiff (Z.ldiff x a) b) a = 0) as ->; [|done].
  apply Z.bits_inj'. intros n Hn. rewrite Z.land_spec, !Z.ldiff_spec, Z.bits_0.
  by destruct (Z.testbit x n), (Z.testbit a n), (Z.testbit b n).
Qed.

(** C11. Opening a file that does not exist, with O_CREAT: if the directory may be
    written to, the call makes a regular file of that name in it, keeps every other
    entry of the tree, and returns an open file on it, with the caches consistent; if
    not, it returns EACCES or EROFS and changes nothing. (Two references to the dentry
    are held afterwards.) Look-up can get to the directory (see [creatable]: no symbolic
    links, and memory, windows and counts suffice), the create operation of the file
    system makes an empty file, and its open accepts it. *)
Theorem sys_open_creates s hd hv path before name m q q' r nd a flags mode : create_law -> vfs_ok roots live (fv s) hd hv ->
  creatable (fv s) hd hv path before name m q q' r nd -> flag (vfscore_fflags flags) O_CREAT = true -> a <> 0 -> vop_open a = 0 ->
  exists s' e fp, sys_open sizeof_dentry calloc vop_create vop_truncate vop_open p a path flags mode s = Ok ((e, fp), s') /\
    mounts (fv s') = mounts (fv s) /\
    exists md mt, mount_of (fv s) (m_addr m) = Some mt /\ e = vn_access md (m_flags mt) VWRITE /\
      if e =? 0 then exists n dp fl, fp = a /\ created VREG (fv s) (fv s') nd name n /\ fheap s' = <[a := FdTable.File 0 fl 1 0 dp]> (fheap s) /\
        at_node roots (fv s') dp (m_addr m) r (segs q) n /\ vfs_ok roots live (fv s') (add_held (add_held hd dp 1) dp 1) hv
      else fs_same (fss (fv s)) (fss (fv s')) /\ fheap s' = fheap s /\ vfs_ok roots live (fv s') hd hv.
Proof.
  intros Hlaw Hok Hcrt Hcr Ha Hop. set (fl := vfscore_fflags flags) in *. destruct (open_windows _ _ _ Hok) as (t & Hw & Hok0 & Hrm0).
  unfold sys_open. fold fl. rewrite (bind_ret _ _ _ _ _ (on_v_ok _ _ _ _ Hw)), Hcr.
  destruct (open_create_ok (set_dcs t (fv s)) hd hv path before name m q q' r nd fl mode Hlaw Hok0) as (s1 & e & dp & fl' & Hrun & Hm1 & Hrm1 & md & mt & Hmt & He & Hres).
  { destruct Hcrt as [? ? [] ? ? ?]. split; try done. split; auto. }
  rewrite (bind_ret _ _ _ _ _ (on_v_ok _ (set_fv (set_dcs t (fv s)) s) _ _ Hrun)). destruct (Z.eqb_spec e 0) as [E|E]; cbn [negb].
  - destruct Hres as (-> & n & Hcreated & Hok1 & Hat). pose proof Hat as (d & v & Hd & _ & _ & Hv & _).
    assert (d_refcnt d + 1 < 2 ^ 31) as Hb.
    { pose proof (count_le _ _ _ _ _ (ok_dc _ _ _ _ _ Hok1) Hd) as Hc. pose proof (rm_hd _ _ _ _ Hrm1 dp). rewrite add_held_eq in Hc. lia. }
    eexists _, 0, a. split; [exact (open_file (set_fv s1 (set_fv (set_dcs t (fv s)) s)) _ hv a dp d v _ Hok1 Hd Hv Hb (clear_flag fl O_TRUNC O_CREAT) Ha Hop)|].
    destruct (vfs_ok_count _ _ _ _ _ dp d Hok1 Hd Hb) as (Hok2 & Hst & Hsh). split; [done|]. exists md, mt. split; [done|]. split; [congruence|].
    eexists n, dp, _. split; [done|]. split; [done|]. split; [done|]. split; [|done].
    eapply (at_node_le roots s1); [done|done|done| |exact (ok_dc _ _ _ _ _ Hok2)]. simpl. by rewrite lookup_insert_eq.
  - eexists _, e, 0. split; [done|]. split; [done|]. exists md, mt. split; [done|]. split; [done|].
    rewrite (proj2 (Z.eqb_neq e 0)) by done. destruct Hres. done.
Qed.

End Correct.
