(* ===== verification/RamfsOpen.v ===== *)
(** Files made in the RAM file system by [sys_open] ([ramfs_create] of
    ramfs/ramfs_vnops.c on the vnodes of the cache): it keeps the promise that
    creation with O_CREAT relies on.  The witnesses of [Open] are here. *)
From S2P Require Import Prelude VfsTypes Windows Uio PathConv Vnode Dentry Dcache Namei Resolve Mount RamfsVfs Rootfs Open.
From S2P Require Ramfs FdTable.
From stdpp Require Import base numbers strings gmap fin_maps sets list.
Import Errno.
#[local] Open Scope Z_scope.

(** ** Code *)

(** [a_node] and [a_name] are the results of the allocations for the node. *)
Definition ramfs_vop_create (a_node a_name : Ramfs.rstate -> Z) (dvp : Z) (name : list Z) (mode : Z) : M (Ramfs.rstate * vcache) Z :=
  if Ramfs.NAME_MAX <? Ramfs.strlen (str name) then mret ENAMETOOLONG else
  if negb (Z.land mode S_IFMT =? S_IFREG) then mret EINVAL else
  d ← on_c (vnode_at dvp);
  x ← gets (fun s => a_node s.1);
  y ← gets (fun s => a_name s.1);
  np ← on_r (Ramfs.ramfs_add_node (v_data d) x y (str name) VREG);
  if np =? 0 then mret ENOMEM else mret 0.

(** ** A new entry, as the other directories see it *)

(** A node with another list of children does not concern other directories. *)
Lemma dir_ok_child f a d c p ents : Ramfs.nodes f !! a = Some d -> p <> a -> Ramfs.dir_ok f p ents ->
  Ramfs.dir_ok (Ramfs.set_nodes (<[a := Ramfs.with_child c d]> (Ramfs.nodes f)) f) p ents.
Proof.
  intros Ha Hp [(x & Hx & Hl) Hnd Hnm]. split; simpl; [|done|].
  - exists x. rewrite lookup_insert_ne by done. split; [done|]. by rewrite (Ramfs.nexts_keep _ _ d).
  - intros name q Hin. destruct (Hnm name q Hin) as (n & Hn & H1 & H2). destruct (decide (q = a)) as [->|].
    + rewrite lookup_insert_eq. rewrite Hn in Ha. injection Ha as ->. by eexists.
    + rewrite lookup_insert_ne by done. eauto.
Qed.

(** Nor does a node of another list with another successor. *)
Lemma dir_ok_next f q nl np p ents : Ramfs.nodes f !! q = Some nl -> q ∉ ents.*2 -> Ramfs.dir_ok f p ents ->
  Ramfs.dir_ok (Ramfs.set_nodes (<[q := Ramfs.with_next np nl]> (Ramfs.nodes f)) f) p ents.
Proof.
  intros Hq Hin [(d & Hd & Hl) Hnd Hnm]. split; simpl; [|done|].
  - assert (linked (Ramfs.nexts (<[q := Ramfs.with_next np nl]> (Ramfs.nodes f))) (Ramfs.rn_child d) ents.*2) as Hl'.
    { eapply linked_frame; [done|]. intros x Hx. unfold Ramfs.nexts. rewrite fmap_insert. apply lookup_insert_ne. by intros ->. }
    destruct (decide (p = q)) as [->|]; [|rewrite lookup_insert_ne by done; eauto]. rewrite lookup_insert_eq. rewrite Hq in Hd. injection Hd as ->. by eexists.
  - intros nm x Hx. destruct (Hnm nm x Hx) as (n & Hn & H1 & H2). assert (x <> q) by (intros ->; apply Hin, list_elem_of_fmap; by exists (nm, q)).
    rewrite lookup_insert_ne by done. eauto.
Qed.

(** The entries are determined by the nodes. *)
Lemma dir_ok_unique f p es es' : Ramfs.dir_ok f p es -> Ramfs.dir_ok f p es' -> es = es'.
Proof.
  set (name_of x := match Ramfs.nodes f !! x with Some n => Ramfs.rn_name n | None => ""%string end).
  assert (forall l, (forall nm x, (nm, x) ∈ l -> exists n, Ramfs.nodes f !! x = Some n /\ Ramfs.rn_name n = nm /\ Ramfs.rn_namelen n = Ramfs.strlen nm) ->
    l = map (fun x => (name_of x, x)) l.*2) as Hmap.
  { induction l as [|[nm x] l IH]; intros Hl; [done|]. simpl. f_equal; [|apply IH; intros; apply Hl; set_solver]. unfold name_of.
    destruct (Hl nm x) as (n & -> & <- & _); [set_solver|done]. }
  intros [(d & Hd & Hl) _ Hn] [(d' & Hd' & Hl') _ Hn']. rewrite Hd in Hd'. injection Hd' as <-.
  by rewrite (Hmap es Hn), (Hmap es' Hn'), (linked_det _ _ _ _ Hl Hl').
Qed.

(** A directory other than the one that gets the node. *)
Lemma grown_other f dnp np f2 p ents es e : Ramfs.grown f dnp np f2 -> Ramfs.dir_ok f dnp es -> Ramfs.dir_ok f2 dnp (es ++ [e]) ->
  p <> dnp -> (forall x, x ∈ es.*2 -> x ∉ ents.*2) -> Ramfs.dir_ok f p ents -> Ramfs.dir_ok f2 p ents.
Proof.
  intros [(d & Hd & ->)|(q & nl & Hq & Hq0 & Hqn & ->)] Hes Hes2 Hp Hap Hok; [by apply dir_ok_child|].
  apply dir_ok_next; [done| |done]. apply Hap. destruct (decide (q ∈ es.*2)) as [|Hin]; [done|]. exfalso.
  pose proof (dir_ok_unique _ _ _ _ (dir_ok_next _ _ _ np _ _ Hq Hin Hes) Hes2) as E. apply (f_equal length) in E. rewrite length_app in E. simpl in E. lia.
Qed.

(** The entries with the new one. *)
Definition with_entry (g : Z -> list (string * Z)) (dnp : Z) (name : string) (np : Z) : Z -> list (string * Z) :=
  fun p => if decide (p = dnp) then g dnp ++ [(name, np)] else if decide (p = np) then [] else g p.

Lemma same_kind f f' np n : Ramfs.same_files f f' np -> n <> np -> ramfs_kind f' n = ramfs_kind f n.
Proof.
  intros (_ & _ & _ & _ & Hs) Hn. specialize (Hs n Hn). unfold ramfs_kind. destruct (Ramfs.nodes f !! n) as [x|], (Ramfs.nodes f' !! n) as [y|]; try done.
  by injection Hs as ->.
Qed.

Lemma same_nodes f f' np p : Ramfs.same_files f f' np -> p <> np -> is_Some (Ramfs.nodes f' !! p) <-> is_Some (Ramfs.nodes f !! p).
Proof. intros (_ & _ & _ & _ & Hs) Hp. by rewrite <- (fmap_is_Some Ramfs.file_part), (Hs p Hp), fmap_is_Some. Qed.

(** The nodes in the entries of a tree are there. *)
Lemma tree_child f g p x : tree_of f g -> is_Some (Ramfs.nodes f !! p) -> x ∈ (g p).*2 -> is_Some (Ramfs.nodes f !! x) /\ x <> 0.
Proof.
  intros Hg Hp Hx. pose proof (tr_dir _ _ Hg p Hp) as [(d & _ & Hl) _ Hn]. split; [|by eapply (linked_dom _ _ _ x Hl)].
  apply list_elem_of_fmap in Hx as ((nm & y) & -> & Hx). destruct (Hn nm y Hx) as (n & Hy & _). by exists n.
Qed.

(** [ramfs_add_node], for the whole tree. *)
Lemma add_node_tree f g dnp np a_name name type : tree_of f g -> is_Some (Ramfs.nodes f !! dnp) -> np <> 0 -> a_name <> 0 -> Ramfs.nodes f !! np = None ->
  name ∉ (g dnp).*1 ->
  exists f', Ramfs.ramfs_add_node dnp np a_name name type f = Ok (np, f') /\ Ramfs.inode_count f' = Ramfs.inode_count f /\
    Ramfs.nodes f' !! np = Some (Ramfs.new_node name type) /\ Ramfs.same_files f f' np /\ tree_of f' (with_entry g dnp name np).
Proof.
  intros Hg Hdnp Hnp Ha Hfr Hnm. pose proof (tr_dir _ _ Hg dnp Hdnp) as Hok.
  destruct (Ramfs.add_node_ok f dnp (g dnp) np a_name name type Hok Hnp Ha Hfr) as (f' & Hrun & Hok' & Hnew & Hs).
  exists f'. split; [done|]. set (new := Ramfs.new_node name type) in *. pose proof (Ramfs.do_dir _ _ _ Hok) as (d & Hd & _).
  destruct (Ramfs.link_new f dnp d (g dnp) name np new Hok Hd Hnp Hfr eq_refl eq_refl eq_refl) as (s2 & E & Hok2 & Hnew2 & _ & Hgr).
  set (f1 := Ramfs.set_nodes (<[np := new]> (Ramfs.nodes f)) f) in *. pose proof (Ramfs.do_dir _ _ _ Hok2) as (d2 & Hd2 & _).
  assert (dnp <> np) as Hne by congruence.
  assert (f' = Ramfs.set_nodes (<[dnp := Ramfs.with_times Ramfs.now None Ramfs.now d2]> (Ramfs.nodes s2)) s2) as Ef'.
  { unfold Ramfs.ramfs_add_node, Ramfs.ramfs_allocate_node in Hrun. replace (np =? 0) with false in Hrun by lia. replace (a_name =? 0) with false in Hrun by lia.
    erewrite bind_ret in Hrun by (rewrite (bind_ret _ _ _ tt _) by (by apply modify_ok); done). cbv beta in Hrun.
    rewrite (proj2 (Z.eqb_neq np 0) Hnp) in Hrun.
    rewrite (bind_ret _ _ _ d _) in Hrun by (apply deref_ok; split; [simpl; by rewrite lookup_insert_ne|done]).
    rewrite (bind_ret _ _ _ _ _ E), (bind_ret _ _ _ _ _ (Ramfs.upd_node_ok s2 dnp d2 _ Hd2)) in Hrun. by injection Hrun. }
  split; [rewrite Ef'; by destruct Hgr as [(? & _ & ->)|(? & ? & _ & _ & _ & ->)]|]. split; [done|]. split; [done|].
  assert (forall p, p <> dnp -> p <> np -> is_Some (Ramfs.nodes f' !! p) -> Ramfs.dir_ok f' p (g p)) as Hoth.
  { intros p Hp Hpn Hex%(same_nodes f f' np p Hs Hpn). rewrite Ef'. eapply Ramfs.dir_ok_upd; [|done..].
    eapply (grown_other f1); [done|by apply dir_ok_new|done|done| |apply dir_ok_new; [done|by apply (tr_dir _ _ Hg)]].
    intros x Hx1 Hx2. by apply Hp, eq_sym, (tr_apart _ _ Hg dnp p x). }
  clear Ef'. assert (np ∉ (g dnp).*2) as Hin by (intros Hx; destruct (tree_child _ _ _ _ Hg Hdnp Hx) as [[? ?] _]; congruence).
  unfold with_entry. split.
  - intros p Hp. repeat case_decide; subst; [done| |by apply Hoth]. by eapply dir_ok_leaf.
  - intros p Hp. repeat case_decide; subst; [|apply NoDup_nil_2|apply (tr_names _ _ Hg); by apply (same_nodes f f' np)].
    rewrite fmap_app. apply NoDup_app. split; [by apply (tr_names _ _ Hg)|]. split; [by intros x Hx ->%list_elem_of_singleton|apply NoDup_singleton].
  - assert (forall p x, p <> dnp -> p <> np -> is_Some (Ramfs.nodes f' !! p) -> x ∈ (g p).*2 -> x ∈ (g dnp ++ [(name, np)]).*2 -> False) as Hx.
    { intros p x Hp Hpn Hex%(same_nodes f f' np p Hs Hpn) Hx1. rewrite fmap_app. intros [Hx2| ->%list_elem_of_singleton]%elem_of_app.
      - by apply Hp, (tr_apart _ _ Hg p dnp x).
      - destruct (tree_child _ _ _ _ Hg Hex Hx1) as [[? ?] _]. simpl in *. congruence. }
    intros p p' x Hp Hp'. repeat case_decide; subst; try done; try (by intros ?%elem_of_nil); try (by intros _ ?%elem_of_nil).
    + intros ? ?. exfalso. by eapply (Hx p' x).
    + intros ? ?. exfalso. by eapply (Hx p x).
    + apply (tr_apart _ _ Hg); by apply (same_nodes f f' np).
Qed.

(** ** The promise of VOP_CREATE *)

Lemma entry_dir f p es c : Ramfs.dir_ok f p es -> ramfs_entry f p c = Ramfs.lookup_dir es (str c).
Proof.
  intros Hes. destruct (Ramfs.do_dir _ _ _ Hes) as (d & Hd & Hl). unfold ramfs_entry.
  rewrite Hd, (Ramfs.find_entry f p d es (str c) Hes Hd). destruct (Ramfs.lookup_dir es (str c)) as [np|] eqn:E; [|done]. simpl.
  apply Ramfs.lookup_dir_elem in E. destruct (linked_dom _ _ _ np Hl) as [_ Hn]; [apply list_elem_of_fmap; by exists (str c, np)|].
  by rewrite (proj2 (Z.eqb_neq np 0) Hn).
Qed.

Lemma strlen_str name : Ramfs.strlen (str name) = Z.of_nat (length name).
Proof. unfold Ramfs.strlen, str. f_equal. induction name; simpl; congruence. Qed.

Lemma lookup_dir_none es name : Ramfs.lookup_dir es name = None <-> name ∉ es.*1.
Proof.
  induction es as [|[nm x] es IH]; simpl; [split; [intros _; apply not_elem_of_nil|done]|]. rewrite not_elem_of_cons.
  destruct (String.eqb_spec name nm) as [->|]; [split; [done|by intros [? _]]|]. rewrite IH. by split; [|intros [_ ?]].
Qed.

Lemma kind_node f n : ramfs_kind f n = VDIR -> is_Some (Ramfs.nodes f !! n).
Proof. unfold ramfs_kind. by destruct (Ramfs.nodes f !! n). Qed.

Lemma entry_node f n c n' : ramfs_entry f n c = Some n' -> is_Some (Ramfs.nodes f !! n).
Proof. unfold ramfs_entry. by destruct (Ramfs.nodes f !! n). Qed.

Lemma entry_tree f g n c : tree_of f g -> is_Some (Ramfs.nodes f !! n) -> ramfs_entry f n c = Ramfs.lookup_dir (g n) (str c).
Proof. intros Hg Hn. by apply entry_dir, (tr_dir _ _ Hg). Qed.

Section Create.
Context (sizeof_vnode : Z) (malloc : vcache -> Z) (junk : vnode) (pad : Z) (a_node a_name : Ramfs.rstate -> Z).
Hypothesis malloc_fresh : forall s, malloc s <> 0 /\ vnodes s !! malloc s = None.
(** There is memory for the node and its name. *)
Hypothesis a_node_fresh : forall f, a_node f <> 0 /\ Ramfs.nodes f !! a_node f = None.
Hypothesis a_name_some : forall f, a_name f <> 0.

#[local] Instance create_fs : FileSystem Ramfs.rstate := ramfs_fs sizeof_vnode malloc junk pad.

(** Creation in the RAM file system: the directory gets an entry for the new node
    behind its other ones, and the rest of the tree stays. *)
Lemma ramfs_makes (op : Z -> list Z -> M (Ramfs.rstate * vcache) Z) ty : ty <> VLNK ->
  (forall f s dvp v name np f', vnodes s !! dvp = Some v -> (length name <= 255)%nat -> np <> 0 ->
     Ramfs.ramfs_add_node (v_data v) (a_node f) (a_name f) (str name) ty f = Ok (np, f') -> Ramfs.nodes f' !! np = Some (Ramfs.new_node (str name) ty) ->
     Ramfs.vnodes f' = Ramfs.vnodes f -> op dvp name (f, s) = Ok (0, (f', s))) ->
  makes op ty.
Proof.
  intros Hty Hop f s held dvp v name Hvc Hinv Hv Hk%kind_node Hnm Hl Hent. destruct (ri_tree _ _ Hinv) as [g Hg].
  destruct (a_node_fresh f) as [Hnp Hfr]. set (np := a_node f) in *. simpl in Hent. rewrite (entry_tree _ _ _ _ Hg Hk) in Hent.
  destruct (add_node_tree f g (v_data v) np (a_name f) (str name) ty Hg Hk Hnp (a_name_some f) Hfr) as (f' & Hrun & Hi & Hnew & Hs & Hg').
  { by apply lookup_dir_none. }
  assert (forall n, is_Some (Ramfs.nodes f !! n) -> n <> np) as Hne by (intros n [? ?]; congruence).
  assert (forall n c n', is_Some (Ramfs.nodes f !! n) -> ramfs_entry f n c = Some n' -> n' <> np) as Hne'.
  { intros n c n' Hn. rewrite (entry_tree _ _ _ _ Hg Hn). intros Hx%Ramfs.lookup_dir_elem. apply Hne, (tree_child f g n); [done|done|].
    apply list_elem_of_fmap. by exists (str c, n'). }
  assert (forall n c, is_Some (Ramfs.nodes f !! n) -> ramfs_entry f' n c =
    if decide (n = v_data v) then match Ramfs.lookup_dir (g n) (str c) with Some x => Some x | None => if String.eqb (str c) (str name) then Some np else None end
    else ramfs_entry f n c) as Hent'.
  { intros n c Hn. rewrite (entry_tree f' _ n c Hg') by (apply (same_nodes f f' np); auto). rewrite (entry_tree _ _ _ _ Hg Hn). unfold with_entry.
    case_decide as E; [subst n; by rewrite Ramfs.lookup_dir_app|]. by rewrite decide_False by auto. }
  exists f', np. split_and!.
  - eapply Hop; try done. apply Hs.
  - intros n Hd. pose proof (kind_node _ _ Hd) as Hn. split; [by simpl; rewrite (same_kind f f' np) by auto|]. intros c n' He. simpl in He |- *.
    split; [|apply (same_kind f f' np); eauto]. rewrite (Hent' n c Hn). case_decide; [|done]. rewrite (entry_tree _ _ _ _ Hg Hn) in He. by rewrite He.
  - split; [by exists (with_entry g (v_data v) (str name) np)|rewrite Hi; apply (ri_count _ _ Hinv)|]. rewrite Hi. apply (ri_vnode _ _ Hinv).
  - simpl. rewrite (Hent' _ _ Hk), decide_True by done. by rewrite Hent, String.eqb_refl.
  - simpl. unfold ramfs_kind. by rewrite Hnew.
  - intros Hlk n c n' He. simpl in He |- *. destruct (decide (n' = np)) as [->|Hn']; [unfold ramfs_kind; by rewrite Hnew|].
    rewrite (same_kind f f' np) by done. destruct (decide (n = np)) as [->|Hn].
    + rewrite (entry_tree _ _ _ _ Hg') in He by (by rewrite Hnew). unfold with_entry in He. rewrite decide_False in He by (intros E; rewrite E in Hfr; destruct Hk; congruence).
      by rewrite decide_True in He.
    + pose proof (proj1 (same_nodes f f' np n Hs Hn) (entry_node _ _ _ _ He)) as Hex. apply (Hlk n c). simpl. rewrite (Hent' n c Hex) in He. case_decide; [|done].
      rewrite (entry_tree _ _ _ _ Hg Hex). destruct (Ramfs.lookup_dir (g n) (str c)); [done|]. destruct (String.eqb _ _); congruence.
  - simpl. rewrite Hi. lia.
Qed.

Lemma ramfs_create_law : create_law (ramfs_vop_create a_node a_name).
Proof.
  intros mode Hmode. apply ramfs_makes; [done|]. intros f s dvp v name np f' Hv Hl Hnp Hrun _ _.
  unfold ramfs_vop_create. rewrite strlen_str, (proj2 (Z.ltb_ge _ _)) by (unfold Ramfs.NAME_MAX; lia). rewrite Hmode, Z.eqb_refl. cbn [negb].
  rewrite (bind_ret _ _ _ v (f, s)) by (apply zoom_id; [done|]; by apply deref_ok).
  rewrite (bind_ret _ _ _ (a_node f) (f, s)) by (by apply gets_ok). rewrite (bind_ret _ _ _ (a_name f) (f, s)) by (by apply gets_ok).
  erewrite (bind_ret _ _ _ np) by (apply zoom_ok; exact Hrun). by rewrite (proj2 (Z.eqb_neq np 0) Hnp).
Qed.

End Create.

(** ** Witnesses *)

#[local] Opaque demo_root demo_tree.
#[local] Instance open_fs : FileSystem Ramfs.rstate := ramfs_fs 200 demo_vmalloc demo_junk 9000.
#[local] Instance open_laws : FileSystemLaws Ramfs.rstate := ramfs_laws 200 demo_vmalloc demo_junk 9000 (fun s => next_fresh _).

Definition demo_pads : pads := Pads 9100 9108 9116 9124 9132.
Definition demo_files : @files Ramfs.rstate := Files demo_tree ∅.
Definition demo_refs : Z -> Z := add_held (fun _ => 0) 4096 1.

Lemma demo_files_ok : vfs_ok demo_roots [64] (fv demo_files) demo_refs (fun _ => 0).
Proof. exact demo_tree_ok. Qed.

(** The file [/a], opened for reading. *)
Lemma open_close_leaks_witness : exists s' e fp,
  sys_open 96 demo_calloc (ramfs_vop_create demo_node demo_name) (fun _ => mret 0) (fun _ => 0) demo_pads 5000 [SLASH; 97] 0 0 demo_files = Ok ((e, fp), s') /\
  (e = 0 -> exists s'' dp, fdrop (fun _ => 0) fp s' = Ok (1, s'') /\ fheap s'' = ∅ /\
     vfs_ok demo_roots [64] (fv s'') (add_held demo_refs dp 1) (fun _ => 0) /\ is_Some (dentries (dcs (fv s'')) !! dp)).
Proof.
  apply (open_close_leaks 96 demo_calloc (fun s => next_fresh _) (ramfs_vop_create demo_node demo_name) (fun _ => mret 0) (fun _ => 0) (fun _ => 0) demo_pads demo_roots [64]
    demo_files demo_refs (fun _ => 0) [SLASH; 97] demo_mount [97] 4096 5000 0 0 demo_files_ok); [|reflexivity..|lia|reflexivity|reflexivity].
  split; [exact demo_tree_find|reflexivity|unfold PATH_MAX; simpl; lia|by right| |exact demo_tree_room].
  intros n c n' _. apply demo_tree_kind.
Defined.

Lemma demo_tree_space : room demo_tree demo_refs (fun _ => 0) 2.
Proof.
  assert (size (dentries (dcs demo_tree)) = 1%nat) as Hs by (vm_compute; reflexivity).
  split; rewrite ?Hs; [intros x; unfold demo_refs, add_held; case_match; lia|lia|vm_compute; discriminate|vm_compute; lia].
Qed.

Lemma demo_create : create_law (ramfs_vop_create demo_node demo_name).
Proof. apply ramfs_create_law; [intros f; apply next_fresh|done]. Qed.

(** The file [/b], created. *)
Lemma sys_open_creates_witness : exists s' e fp,
  sys_open 96 demo_calloc (ramfs_vop_create demo_node demo_name) (fun _ => mret 0) (fun _ => 0) demo_pads 5000 [SLASH; 98] O_CREAT 0 demo_files = Ok ((e, fp), s') /\
  mounts (fv s') = mounts (fv demo_files) /\
  exists md mt, mount_of (fv demo_files) 64 = Some mt /\ e = vn_access md (m_flags mt) VWRITE /\
    if e =? 0 then exists n dp fl, fp = 5000 /\ created VREG (fv demo_files) (fv s') 4096 [98] n /\ fheap s' = <[5000 := FdTable.File 0 fl 1 0 dp]> ∅ /\
      at_node demo_roots (fv s') dp 64 4096 (segs [98]) n /\ vfs_ok demo_roots [64] (fv s') (add_held (add_held demo_refs dp 1) dp 1) (fun _ => 0)
    else fs_same (fss (fv demo_files)) (fss (fv s')) /\ fheap s' = ∅ /\ vfs_ok demo_roots [64] (fv s') demo_refs (fun _ => 0).
Proof.
  apply (sys_open_creates 96 demo_calloc (fun s => next_fresh _) (ramfs_vop_create demo_node demo_name) (fun _ => mret 0) (fun _ => 0) demo_pads demo_roots [64]
    demo_files demo_refs (fun _ => 0) [SLASH; 98] [] [98] demo_mount [98] [] 4096 4096 5000 O_CREAT 0 demo_create demo_files_ok); [|reflexivity|lia|reflexivity].
  split; [reflexivity|split; [split; [done|by intros ?%list_elem_of_singleton]|simpl; lia]| | |split; reflexivity|split; [reflexivity|split; vm_compute; reflexivity]].
  - split; [vm_compute; reflexivity|reflexivity|unfold PATH_MAX; simpl; lia|by right| |exact demo_tree_space]. intros n c n' _. apply demo_tree_kind.
  - split; [vm_compute; reflexivity|split; [unfold PATH_MAX; simpl; lia|by left]].
Defined.
