(* ===== verification/Io.v ===== *)
(** Reading, writing and positioning of open files (vfscore/syscalls.c: sys_read,
    sys_write, sys_lseek, sys_rewinddir, sys_seekdir, sys_telldir; fops.c: vfs_read,
    vfs_write).

    The operations of the file system are arguments.  Of [f_vfs_flags], which none
    of these functions changes, [nopos] tells whether UK_VFSCORE_NOPOS is set. *)
From S2P Require Import Prelude VfsTypes Windows Uio PathConv Vnode Dentry Dcache Namei Resolve Mount Open.
From S2P Require FdTable.
From stdpp Require Import base numbers gmap fin_maps sets list list_numbers.
Import Errno.
#[local] Open Scope Z_scope.

Definition FOF_OFFSET : Z := 2048.
Definition IOSIZE_MAX : Z := 2 ^ 31 - 1.
Definition IO_APPEND : Z := 1.
Definition IO_SYNC : Z := 2.
(** fcntl.h of the C library. *)
Definition O_APPEND : Z := 8.
Definition O_DSYNC : Z := 4096.
Definition O_SYNC : Z := 8192.
Definition SEEK_SET : Z := 0.
Definition SEEK_CUR : Z := 1.
Definition SEEK_END : Z := 2.

Definition at_offset (o : Z) (u : uio) : uio := Uio (uio_iov u) (uio_iovcnt u) o (uio_resid u) (uio_op u).
Definition with_offset o (f : FdTable.vfscore_file) :=
  FdTable.File (FdTable.f_fd f) (FdTable.f_flags f) (FdTable.f_count f) o (FdTable.f_dentry f).

(** The sum of the lengths, unless it exceeds IOSIZE_MAX. *)
Fixpoint iov_bytes (bytes : Z) (iov : list iovec) : option Z :=
  match iov with
  | [] => Some bytes
  | v :: iov => if IOSIZE_MAX - bytes <? iov_len v then None else iov_bytes (bytes + iov_len v) iov
  end.

(** An addition of two [off_t], which must not overflow. *)
Definition add_off {S} (x y : Z) : M S Z :=
  if bool_decide (- 2 ^ 63 <= x + y < 2 ^ 63) then mret (x + y) else undef.

Section Code.
Context {F : Type}.
Context (vop_read : Z -> uio -> M (F * vcache) (Z * uio)) (vop_write : Z -> uio -> Z -> M (F * vcache) (Z * uio)).
Context (vop_seek : Z -> Z -> Z) (nopos : Z -> bool).

Definition set_file (fp : Z) (f : FdTable.vfscore_file) : M (@files F) unit :=
  modify (fun s => set_fheap (<[fp := f]> (fheap s)) s).

(** [fp->f_offset += count]. *)
Definition advance (fp : Z) (count : Z) : M (@files F) unit :=
  f ← file_at fp; set_file fp (with_offset (s64 (FdTable.f_offset f + count)) f).

Definition vfs_read (fp : Z) (u : uio) (flags : Z) : M (@files F) (Z * uio) :=
  f ← file_at fp;
  v ← on_v (vnode_of (FdTable.f_dentry f));
  let bytes := uio_resid u in
  on_v (on_cache (vn_lock v.1));;
  let u := if flag flags FOF_OFFSET then u else at_offset (FdTable.f_offset f) u in
  r ← on_v (on_fs (vop_read v.1 u));
  (if (r.1 =? 0) && (negb (flag flags FOF_OFFSET) && negb (nopos fp)) then advance fp (bytes - uio_resid r.2) else mret tt);;
  on_v (on_cache (vn_unlock v.1));;
  mret r.

Definition vfs_write (fp : Z) (u : uio) (flags : Z) : M (@files F) (Z * uio) :=
  f ← file_at fp;
  v ← on_v (vnode_of (FdTable.f_dentry f));
  let bytes := uio_resid u in
  on_v (on_cache (vn_lock v.1));;
  let ioflags := Z.lor (if flag (FdTable.f_flags f) O_APPEND then IO_APPEND else 0)
                       (if flag (FdTable.f_flags f) (Z.lor O_DSYNC O_SYNC) then IO_SYNC else 0) in
  let u := if flag flags FOF_OFFSET then u else at_offset (FdTable.f_offset f) u in
  r ← on_v (on_fs (vop_write v.1 u ioflags));
  (if (r.1 =? 0) && (negb (flag flags FOF_OFFSET) && negb (nopos fp)) then advance fp (bytes - uio_resid r.2) else mret tt);;
  on_v (on_cache (vn_unlock v.1));;
  mret r.

(** The result is the error and what is stored in [*count], if anything is; [a] is
    the memory for the copy of the list. *)
Definition sys_read (pad_uio a : Z) (fp : Z) (iov : list iovec) (offset : Z) : M (@files F) (Z * option Z) :=
  f ← file_at fp;
  if negb (flag (FdTable.f_flags f) UK_FREAD) then mret (EBADF, None) else
  match iov_bytes 0 iov with
  | None => mret (EINVAL, None)
  | Some bytes =>
      if bytes =? 0 then mret (0, Some 0) else
      on_v (stack_window 9 pad_uio);;
      if a =? 0 then mret (ENOMEM, None) else
      r ← vfs_read fp (Uio iov (Z.of_nat (length iov)) offset bytes UIO_READ) (if offset =? -1 then 0 else FOF_OFFSET);
      mret (r.1, Some (bytes - uio_resid r.2))
  end.

Definition sys_write (pad_uio a : Z) (fp : Z) (iov : list iovec) (offset : Z) : M (@files F) (Z * option Z) :=
  f ← file_at fp;
  if negb (flag (FdTable.f_flags f) UK_FWRITE) then mret (EBADF, None) else
  match iov_bytes 0 iov with
  | None => mret (EINVAL, None)
  | Some bytes =>
      if bytes =? 0 then mret (0, Some 0) else
      on_v (stack_window 8 pad_uio);;
      if a =? 0 then mret (ENOMEM, None) else
      on_v (on_cache (on_wins (vfs_ipc_add_heap a (16 * Z.of_nat (length iov)) VFS_MASK)));;
      r ← vfs_write fp (Uio iov (Z.of_nat (length iov)) offset bytes UIO_WRITE) (if offset =? -1 then 0 else FOF_OFFSET);
      on_v (on_cache (on_wins (vfs_ipc_remove_heap a)));;
      mret (r.1, Some (bytes - uio_resid r.2))
  end.

Definition sys_lseek (fp off type : Z) : M (@files F) (Z * option Z) :=
  f ← file_at fp;
  if FdTable.f_dentry f =? 0 then mret (ESPIPE, None) else
  v ← on_v (vnode_of (FdTable.f_dentry f));
  on_v (on_cache (vn_lock v.1));;
  off ← (if type =? SEEK_CUR then add_off (FdTable.f_offset f) off
         else if type =? SEEK_END then add_off (v_size v.2) off else mret off);
  r ← (if 0 <=? off then
         let error := vop_seek v.1 off in
         if error =? 0 then set_file fp (with_offset off f);; mret (0, Some off) else mret (error, None)
       else mret (EINVAL, None));
  on_v (on_cache (vn_unlock v.1));;
  mret r.

(** The position in a directory: [g] is what is done with the file. *)
Definition dir_position {A} (fp : Z) (g : FdTable.vfscore_file -> M (@files F) (Z * A)) (no : A) : M (@files F) (Z * A) :=
  f ← file_at fp;
  if FdTable.f_dentry f =? 0 then mret (ENOTDIR, no) else
  v ← on_v (vnode_of (FdTable.f_dentry f));
  on_v (on_cache (vn_lock v.1));;
  if negb (bool_decide (v_type v.2 = VDIR)) then on_v (on_cache (vn_unlock v.1));; mret (EBADF, no) else
  r ← g f;
  on_v (on_cache (vn_unlock v.1));;
  mret r.

Definition sys_rewinddir (fp : Z) : M (@files F) (Z * unit) :=
  dir_position fp (fun f => set_file fp (with_offset 0 f);; mret (0, tt)) tt.

Definition sys_seekdir (fp loc : Z) : M (@files F) (Z * unit) :=
  dir_position fp (fun f => set_file fp (with_offset loc f);; mret (0, tt)) tt.

Definition sys_telldir (fp : Z) : M (@files F) (Z * option Z) :=
  dir_position fp (fun f => mret (0, Some (FdTable.f_offset f))) None.

End Code.

(** ** Requests that are refused *)

Lemma iov_bytes_spec iov b0 : Forall (fun v => 0 <= iov_len v) iov -> 0 <= b0 <= IOSIZE_MAX ->
  iov_bytes b0 iov = let sum := b0 + foldr Z.add 0 (iov_len <$> iov) in if sum <=? IOSIZE_MAX then Some sum else None.
Proof.
  revert b0. induction iov as [|v iov IH]; intros b0 HF Hb; cbn [iov_bytes]; [simpl; rewrite Z.add_0_r; by rewrite (proj2 (Z.leb_le _ _)) by lia|].
  apply Forall_cons in HF as [Hv HF]. assert (0 <= foldr Z.add 0 (iov_len <$> iov)) as Hr.
  { clear -HF. induction HF as [|x l Hx HF IH]; simpl; [done|]. apply Z.add_nonneg_nonneg; [exact Hx|exact IH]. }
  change (foldr Z.add 0 (iov_len <$> v :: iov)) with (iov_len v + foldr Z.add 0 (iov_len <$> iov)). cbv zeta.
  destruct (Z.ltb_spec (IOSIZE_MAX - b0) (iov_len v)).
  - rewrite (proj2 (Z.leb_gt _ _)) by lia. done.
  - rewrite IH by (done || lia). cbv zeta. by rewrite Z.add_assoc.
Qed.

Lemma lock_run {F} (s : @files F) vp v : vnodes (vc (dcs (fv s))) !! vp = Some v -> vp <> 0 -> 0 < v_refcnt v ->
  on_v (on_cache (vn_lock vp)) s = Ok (tt, s) /\ on_v (on_cache (vn_unlock vp)) s = Ok (tt, s).
Proof.
  intros Hv Hvp Hc.
  split; apply on_v_id, on_dc_id, on_vc_id.
  - unfold vn_lock. rewrite (proj2 (Z.eqb_neq vp 0)) by done. cbn [negb]. rewrite (bind_ret _ _ _ tt (vc (dcs (fv s)))) by done. rewrite (bind_ret _ _ _ v (vc (dcs (fv s)))) by (by apply deref_ok). by rewrite (proj2 (Z.ltb_lt _ _)) by lia.
  - unfold vn_unlock. rewrite (proj2 (Z.eqb_neq vp 0)) by done. cbn [negb]. rewrite (bind_ret _ _ _ tt (vc (dcs (fv s)))) by done. rewrite (bind_ret _ _ _ v (vc (dcs (fv s)))) by (by apply deref_ok). by rewrite (proj2 (Z.leb_le _ _)) by lia.
Qed.

(** C37. Requests that cannot be served are refused before anything happens: on a
    file that is not open for the access, sys_read and sys_write return EBADF; if
    the lengths of the list add up to more than INT_MAX, they return EINVAL; and if
    they add up to nothing, they return 0 with the count 0.  In each case no state
    changes, the count is not stored on an error, and the file system is not
    called.  A seek that ends before the beginning of the file returns EINVAL and
    keeps the position. *)
Theorem io_refused {F} (vop_read : Z -> uio -> M (F * vcache) (Z * uio)) vop_write vop_seek nopos pad_uio a fp iov offset (s : @files F) fl :
  fheap s !! fp = Some fl -> Forall (fun v => 0 <= iov_len v) iov ->
  let sum := foldr Z.add 0 (iov_len <$> iov) in
  let refusal may := if negb (flag (FdTable.f_flags fl) may) then Some (EBADF, None) else
                     if IOSIZE_MAX <? sum then Some (EINVAL, None) else if sum =? 0 then Some (0, Some 0) else None in
  (forall r, refusal UK_FREAD = Some r -> sys_read vop_read nopos pad_uio a fp iov offset s = Ok (r, s)) /\
  (forall r, refusal UK_FWRITE = Some r -> sys_write vop_write nopos pad_uio a fp iov offset s = Ok (r, s)) /\
  (forall d v off, dentries (dcs (fv s)) !! FdTable.f_dentry fl = Some d -> FdTable.f_dentry fl <> 0 -> vnodes (vc (dcs (fv s))) !! d_vnode d = Some v ->
     d_vnode d <> 0 -> 0 < v_refcnt v -> - 2 ^ 63 <= FdTable.f_offset fl + off < 0 -> sys_lseek vop_seek fp off SEEK_CUR s = Ok ((EINVAL, None), s)).
Proof.
  intros Hf HF sum refusal. pose proof (iov_bytes_spec iov 0 HF ltac:(unfold IOSIZE_MAX; lia)) as Hb. cbv zeta in Hb. rewrite Z.add_0_l in Hb. fold sum in Hb. split_and!.
  - intros r. unfold refusal, sys_read. cbv beta. rewrite (bind_ret _ _ _ fl s) by (by apply deref_ok). destruct (negb _); [by intros [= <-]|]. rewrite Hb.
    destruct (Z.ltb_spec IOSIZE_MAX sum), (Z.leb_spec sum IOSIZE_MAX); try lia; [by intros [= <-]|]. destruct (sum =? 0); [by intros [= <-]|done].
  - intros r. unfold refusal, sys_write. cbv beta. rewrite (bind_ret _ _ _ fl s) by (by apply deref_ok). destruct (negb _); [by intros [= <-]|]. rewrite Hb.
    destruct (Z.ltb_spec IOSIZE_MAX sum), (Z.leb_spec sum IOSIZE_MAX); try lia; [by intros [= <-]|]. destruct (sum =? 0); [by intros [= <-]|done].
  - intros d v off Hd H0 Hv Hvp Hc Hoff. unfold sys_lseek. rewrite (bind_ret _ _ _ fl s) by (by apply deref_ok). rewrite (proj2 (Z.eqb_neq _ 0)) by done.
    rewrite (bind_ret _ _ _ _ _ (on_v_id _ _ _ (vnode_of_ok _ _ _ _ Hd Hv))). cbn [fst snd].
    destruct (lock_run s _ v Hv Hvp Hc) as [Hl Hu]. rewrite (bind_ret _ _ _ _ _ Hl). change (SEEK_CUR =? SEEK_CUR) with true. cbv iota.
    rewrite (bind_ret _ _ _ (FdTable.f_offset fl + off) s) by (unfold add_off; by rewrite bool_decide_true by lia).
    rewrite (proj2 (Z.leb_gt 0 _)) by lia. rewrite (bind_ret _ _ _ (EINVAL, None) s) by done. by rewrite (bind_ret _ _ _ _ _ Hu).
Qed.

Definition refused_files : @files unit := Files (Vfs (DCache (VCache ∅ [] ∅ (vfs_tables_init 40 96 4096)) ∅ [] []) tt []) {[ 8 := FdTable.File 3 1 1 0 0 ]}.

(** A file that is open for reading only, and a list that is too long. *)
Lemma io_refused_witness : sys_write (fun _ u _ => mret (0, u)) (fun _ => false) 9200 7000 8 [Iovec 100 3] (-1) refused_files = Ok ((EBADF, None), refused_files) /\
  sys_read (fun _ u => mret (0, u)) (fun _ => false) 9200 7000 8 [Iovec 100 (2 ^ 30); Iovec 100 (2 ^ 30)] (-1) refused_files = Ok ((EINVAL, None), refused_files).
Proof.
  split.
  - apply (io_refused (fun _ u => mret (0, u)) (fun _ u _ => mret (0, u)) (fun _ _ => 0) (fun _ => false) 9200 7000 8 [Iovec 100 3] (-1) refused_files (FdTable.File 3 1 1 0 0));
      [reflexivity|by repeat constructor|reflexivity].
  - apply (io_refused (fun _ u => mret (0, u)) (fun _ u _ => mret (0, u)) (fun _ _ => 0) (fun _ => false) 9200 7000 8 [Iovec 100 (2 ^ 30); Iovec 100 (2 ^ 30)] (-1)
      refused_files (FdTable.File 3 1 1 0 0)); [reflexivity|by repeat constructor|reflexivity].
Defined.

(** Any [type] but SEEK_CUR and SEEK_END is taken for SEEK_SET. *)
Lemma lseek_any_type {F} vop_seek fp off type (s : @files F) : type <> SEEK_CUR -> type <> SEEK_END ->
  sys_lseek vop_seek fp off type s = sys_lseek vop_seek fp off SEEK_SET s.
Proof. intros H1 H2. unfold sys_lseek. by rewrite (proj2 (Z.eqb_neq type SEEK_CUR) H1), (proj2 (Z.eqb_neq type SEEK_END) H2). Qed.
