(* ===== verification/RamfsIo.v ===== *)
(** File input and output through the whole stack: sys_read, sys_write and
    sys_lseek of vfscore on the RAM file system (ramfs_read and ramfs_write of
    ramfs/ramfs_vnops.c on the vnodes of the cache). *)
From S2P Require Import Prelude VfsTypes Windows Uio PathConv Vnode Dentry Dcache Namei Resolve Mount RamfsVfs Rootfs Open RamfsOpen Io.
From S2P Require Ramfs RamfsData FdTable.
From stdpp Require Import base numbers strings gmap fin_maps sets list list_numbers.
Import Errno.
#[local] Open Scope Z_scope.

(** ** Code *)

(** The vnode with the fields that the file system has changed. *)
Definition updated (g : Ramfs.rstate) (vp : Z) (v : vnode) : vnode :=
  match Ramfs.vnodes g !! vp with
  | Some w => with_attrs (Ramfs.v_type w) (Ramfs.v_mode w) (Ramfs.v_size w) (Ramfs.v_data w) v
  | None => v
  end.

(** An operation of [Ramfs] on the vnodes of the cache. *)
Definition on_view {A} (m : M Ramfs.rstate A) : M (Ramfs.rstate * vcache) A := fun x =>
  match m (view x.1 x.2) with
  | Ok (r, g) => Ok (r, (Ramfs.set_vnodes (Ramfs.vnodes x.1) g, set_vnodes (map_imap (fun vp v => Some (updated g vp v)) (vnodes x.2)) x.2))
  | Spin => Spin
  | Abort => Abort
  | Undef => Undef
  end.

Definition ramfs_vop_read (vp : Z) (u : uio) : M (Ramfs.rstate * vcache) (Z * uio) := on_view (Ramfs.ramfs_read vp u).

(** [alloc] returns the memory for a larger buffer. *)
Definition ramfs_vop_write (alloc : Ramfs.rstate -> Z) (vp : Z) (u : uio) (ioflag : Z) : M (Ramfs.rstate * vcache) (Z * uio) :=
  on_view (b ← gets alloc; Ramfs.ramfs_write vp u ioflag b).

(** ** The tree stays as it is *)

Definition shape (n : Ramfs.ramfs_node) := (Ramfs.rn_next n, Ramfs.rn_child n, Ramfs.rn_type n, Ramfs.rn_name n, Ramfs.rn_namelen n).
Definition vshape (v : Ramfs.vnode) := (Ramfs.v_ino v, Ramfs.v_type v, Ramfs.v_mode v, Ramfs.v_data v).

Definition kept (s s' : Ramfs.rstate) : Prop :=
  shape <$> Ramfs.nodes s' = shape <$> Ramfs.nodes s /\ vshape <$> Ramfs.vnodes s' = vshape <$> Ramfs.vnodes s /\
  Ramfs.inode_count s' = Ramfs.inode_count s.

#[local] Instance kept_refl : Reflexive kept.
Proof. done. Qed.
#[local] Instance kept_trans : Transitive kept.
Proof. intros a b c (? & ? & ?) (? & ? & ?). split_and!; congruence. Qed.

Definition keeps {A} (m : M Ramfs.rstate A) : Prop := forall s x s', m s = Ok (x, s') -> kept s s'.

Create HintDb keeps.

Lemma keeps_ret {A} (x : A) : keeps (mret x).
Proof. by intros s y s' [= _ <-]. Qed.

Lemma keeps_bind {A B} (m : M Ramfs.rstate A) (k : A -> M Ramfs.rstate B) : keeps m -> (forall x, keeps (k x)) -> keeps (m ≫= k).
Proof. intros Hm Hk s y s' (x & s1 & H1 & H2)%bind_ok. etrans; [by eapply Hm|by eapply Hk]. Qed.

Lemma keeps_deref {A} (g : Ramfs.rstate -> option A) : keeps (deref g).
Proof. intros s x s' [_ ->]%deref_ok. done. Qed.

Lemma keeps_lift {A} (o : outcome A) : keeps (lift o).
Proof. intros s x s' [_ ->]%lift_ok. done. Qed.

Lemma keeps_modify g : (forall s, kept s (g s)) -> keeps (modify g).
Proof. intros Hg s x s' ->%modify_ok. done. Qed.

Lemma keeps_upd_node p g : (forall n, shape (g n) = shape n) -> keeps (Ramfs.upd_node p g).
Proof.
  intros Hg s x s' (n & s1 & H & ->%modify_ok)%bind_ok. apply (deref_ok (fun s => Ramfs.nodes s !! p)) in H as [Hn ->]. split; [|done]. simpl.
  rewrite fmap_insert, Hg, <- fmap_insert. by rewrite insert_id.
Qed.

Lemma keeps_upd_vnode p g : (forall v, vshape (g v) = vshape v) -> keeps (Ramfs.upd_vnode p g).
Proof.
  intros Hg s x s' (v & s1 & H & ->%modify_ok)%bind_ok. apply (deref_ok (fun s => Ramfs.vnodes s !! p)) in H as [Hv ->]. split; [done|]. split; [|done]. simpl.
  rewrite fmap_insert, Hg, <- fmap_insert. by rewrite insert_id.
Qed.

Lemma keeps_wins m : keeps (Ramfs.on_wins m).
Proof. intros s x s'. unfold Ramfs.on_wins. destruct (m _) as [[? ?]| | |]; [|done..]. by intros [= _ <-]. Qed.

Lemma keeps_move_buf q cp k u : keeps (Ramfs.move_buf q cp k u).
Proof.
  intros s x s'. unfold Ramfs.move_buf. destruct (Ramfs.bufs s !! q); [|done]. destruct (vfscore_uiomove _ _ _ _) as [[? [? ?]]| | |]; [|done..].
  by intros [= _ <-].
Qed.

#[local] Hint Resolve keeps_ret keeps_deref keeps_lift keeps_wins keeps_move_buf : keeps.
#[local] Hint Extern 1 (keeps (_ ≫= _)) => apply keeps_bind; [|intros ?] : keeps.
#[local] Hint Extern 1 (keeps (modify _)) => by apply keeps_modify : keeps.
#[local] Hint Extern 1 (keeps (Ramfs.upd_node _ _)) => by apply keeps_upd_node : keeps.
#[local] Hint Extern 1 (keeps (Ramfs.upd_vnode _ _)) => by apply keeps_upd_vnode : keeps.
#[local] Hint Extern 2 (keeps (if ?b then _ else _)) => destruct b : keeps.

Lemma keeps_copy_buf a b k : keeps (Ramfs.copy_buf a b k).
Proof. unfold Ramfs.copy_buf. auto 10 with keeps. Qed.

Lemma keeps_free_buf a : keeps (Ramfs.free_buf a).
Proof. unfold Ramfs.free_buf. auto 10 with keeps. Qed.

#[local] Hint Resolve keeps_copy_buf keeps_free_buf : keeps.

Lemma keeps_grow np b z v n : keeps (Ramfs.grow_buffer np b z v n).
Proof. unfold Ramfs.grow_buffer. auto 20 with keeps. Qed.

#[local] Hint Resolve keeps_grow : keeps.

Lemma keeps_extend vp np e b : keeps (Ramfs.extend_file vp np e b).
Proof. unfold Ramfs.extend_file, Ramfs.vnode_at, Ramfs.node. auto 20 with keeps. Qed.

#[local] Hint Resolve keeps_extend : keeps.

Lemma keeps_write vp u io b : keeps (Ramfs.ramfs_write vp u io b).
Proof. unfold Ramfs.ramfs_write, Ramfs.vnode_at, Ramfs.node. auto 20 with keeps. Qed.

Lemma keeps_read vp u : keeps (Ramfs.ramfs_read vp u).
Proof. unfold Ramfs.ramfs_read, Ramfs.read_data, Ramfs.vnode_at, Ramfs.node. auto 20 with keeps. Qed.

Lemma kept_node {A B} (g : A -> B) (m m' : gmap Z A) p x : g <$> m' = g <$> m -> m !! p = Some x -> exists x', m' !! p = Some x' /\ g x' = g x.
Proof.
  intros E Hp. assert ((g <$> m') !! p = Some (g x)) as H by (by rewrite E, lookup_fmap, Hp). rewrite lookup_fmap in H.
  apply fmap_Some in H as (x' & ? & ?). by exists x'.
Qed.

Lemma dir_ok_kept s s' p es : kept s s' -> Ramfs.dir_ok s p es -> Ramfs.dir_ok s' p es.
Proof.
  intros (Hn & _) [(d & Hd & Hl) Hnd Hnm]. assert (Ramfs.nexts (Ramfs.nodes s') = Ramfs.nexts (Ramfs.nodes s)) as Hnx.
  { unfold Ramfs.nexts. apply (f_equal (fmap (fun x => x.1.1.1.1))) in Hn. by rewrite <- !map_fmap_compose in Hn. }
  split; [|done|].
  - destruct (kept_node _ _ _ _ _ Hn Hd) as (d' & Hd' & [= _ Hc _ _ _]). exists d'. split; [done|]. by rewrite Hnx, Hc.
  - intros nm q Hin. destruct (Hnm nm q Hin) as (x & Hx & H1 & H2). destruct (kept_node _ _ _ _ _ Hn Hx) as (x' & Hx' & [= _ _ _ E1 E2]).
    exists x'. split; [done|]. by rewrite E1, E2.
Qed.

(** ** The caches *)

(** A vnode without its size. *)
Definition unsized (v : vnode) : vnode := with_attrs (v_type v) (v_mode v) 0 (v_data v) v.

Lemma of_mount_unsized m m' mp : unsized <$> m' = unsized <$> m -> size (of_mount m' mp) = size (of_mount m mp).
Proof.
  intros E. assert (forall x : gmap Z vnode, size (of_mount x mp) = size (of_mount (unsized <$> x) mp)) as H.
  { intros x. unfold of_mount. rewrite map_filter_fmap, map_size_fmap. done. }
  by rewrite (H m), (H m'), E.
Qed.

Lemma vc_ok_unsized s m held : vc_ok s held -> unsized <$> m = unsized <$> vnodes s -> vc_ok (set_vnodes m s) held.
Proof.
  intros [] E. assert (unsized <$> vnodes s = unsized <$> m) as E' by done. split; simpl; try done.
  - destruct (m !! 0) eqn:H0; [|done]. destruct (kept_node _ _ _ _ _ E' H0) as (? & ? & _). congruence.
  - intros vp v Hv. destruct (kept_node _ _ _ _ _ E' Hv) as (w & Hw & [= _ _ Ec _ _ _ _ _]). rewrite <- Ec. by apply vc_count.
  - intros vp. split; [apply vc_held|]. intros H. destruct (vc_held vp) as [_ Hs]. destruct (Hs H) as [v Hv].
    destruct (kept_node _ _ _ _ _ E Hv) as (w & -> & _). done.
  - intros i l vp Hi Hin. destruct (vc_bucket i l vp Hi Hin) as (v & Hv & ->). destruct (kept_node _ _ _ _ _ E Hv) as (w & Hw & [= Ei Em _ _ _ _ _ _]).
    exists w. split; [done|]. by rewrite Ei, Em.
  - intros vp v Hv. destruct (kept_node _ _ _ _ _ E' Hv) as (w & Hw & [= Ei Em _ _ _ _ _ _]). rewrite <- Ei, <- Em. by apply vc_in.
  - intros vp1 vp2 v1 v2 H1 H2 Hm Hi. destruct (kept_node _ _ _ _ _ E' H1) as (w1 & Hw1 & [= Ei1 Em1 _ _ _ _ _ _]).
    destruct (kept_node _ _ _ _ _ E' H2) as (w2 & Hw2 & [= Ei2 Em2 _ _ _ _ _ _]). apply (vc_unique vp1 vp2 w1 w2); congruence.
  - intros mp c Hc. rewrite (of_mount_unsized _ _ _ E). by apply vc_mcount.
  - intros vp v Hv. destruct (kept_node _ _ _ _ _ E' Hv) as (w & Hw & [= _ Em _ _ _ _ _ _]). rewrite <- Em. by eapply vc_mounts.
Qed.

Lemma dc_ok_unsized s m hd hv : dc_ok s hd hv -> unsized <$> m = unsized <$> vnodes (vc s) -> dc_ok (set_vc (set_vnodes m (vc s)) s) hd hv.
Proof.
  intros [Hv Hh Hs Ht [Hn Hl] Hb] E. assert (unsized <$> vnodes (vc s) = unsized <$> m) as E' by done. split; simpl; try done.
  - apply vc_ok_unsized; [|done]. eapply vc_ok_ext; [|done]. intros vp. unfold vheld. f_equal. destruct (m !! vp) as [v|] eqn:Hm.
    + destruct (kept_node _ _ _ _ _ E' Hm) as (w & -> & [= _ _ _ _ _ _ En _]). by rewrite En.
    + destruct (vnodes (vc s) !! vp) as [v|] eqn:Hw; [|done]. destruct (kept_node _ _ _ _ _ E Hw) as (? & ? & _). congruence.
  - split.
    + intros vp v Hm. destruct (kept_node _ _ _ _ _ E' Hm) as (w & Hw & [= _ _ _ _ _ _ En _]). rewrite <- En. by apply Hn.
    + intros dp vp mp Hd. destruct (Hl dp vp mp Hd) as (v & Hw & ->). destruct (kept_node _ _ _ _ _ E Hw) as (w & Hm & [= _ Em _ _ _ _ _ _]).
      exists w. by rewrite Em.
Qed.

(** Sizes may change, as long as the file system says so. *)
Lemma vfs_ok_unsized {F} `{FileSystem F} roots live (s : @vfs F) hd hv f' m : vfs_ok roots live s hd hv -> fs_same (fss s) f' ->
  fs_inv f' (set_vnodes m (vc (dcs s))) -> unsized <$> m = unsized <$> vnodes (vc (dcs s)) ->
  vfs_ok roots live (Vfs (set_vc (set_vnodes m (vc (dcs s))) (dcs s)) f' (mounts s)) hd hv.
Proof.
  intros [Hdc Hfs Hd Hun Hm Hv Hl] Hsame Hinv E. assert (unsized <$> vnodes (vc (dcs s)) = unsized <$> m) as E' by done. split; simpl; try done.
  - by apply dc_ok_unsized.
  - intros dp d Hin Hdp. destruct (Hd dp d Hin Hdp) as (cs & v & r & ? & ? & ? & Hw & ? & Ht & Hty). destruct (kept_node _ _ _ _ _ E Hw) as (w & Hw' & [= _ _ _ Et _ _ _ Ed]).
    exists cs, w, r. simpl. split_and!; try done; [by rewrite (lookup_tree_same _ _ _ _ _ Hsame), Ed|]. by rewrite Et, Ed, (proj1 (Hsame _)).
  - intros mt Hin. destruct (Hm mt Hin) as (? & ? & d & r & ? & ? & ? & ? & Hk). split; [done|]. split; [done|]. exists d, r.
    destruct (Hsame r) as [-> _]. done.
  - intros vp v Hw. destruct (kept_node _ _ _ _ _ E' Hw) as (w & Hw' & [= _ Em _ _ _ _ _ _]). rewrite <- Em. by eapply Hv.
Qed.

Lemma on_view_ok {A} (m : M Ramfs.rstate A) f s r g : m (view f s) = Ok (r, g) -> kept (view f s) g ->
  let f' := Ramfs.set_vnodes (Ramfs.vnodes f) g in
  exists vn, on_view m (f, s) = Ok (r, (f', set_vnodes vn s)) /\ unsized <$> vn = unsized <$> vnodes s /\ view f' (set_vnodes vn s) = g.
Proof.
  intros Hrun (_ & Hv & _) f'. eexists. split; [unfold on_view; simpl; by rewrite Hrun|]. simpl in Hv.
  assert (forall vp v, vnodes s !! vp = Some v -> exists w, Ramfs.vnodes g !! vp = Some w /\ vshape w = vshape (vview v)) as Hget.
  { intros vp v Hvp. assert ((vshape <$> Ramfs.vnodes g) !! vp = Some (vshape (vview v))) as H by (by rewrite Hv, !lookup_fmap, Hvp).
    rewrite lookup_fmap in H. apply fmap_Some in H as (w & ? & ?). by exists w. }
  split.
  - apply map_eq. intros vp. rewrite !lookup_fmap, map_lookup_imap. destruct (vnodes s !! vp) as [v|] eqn:Hvp; [|done]. simpl.
    destruct (Hget vp v Hvp) as (w & Hw & [= E1 E2 E3 E4]). unfold updated. rewrite Hw. f_equal. unfold unsized, with_attrs. simpl. congruence.
  - unfold view. simpl. destruct g as [ns vs bs ws me ic]. simpl in *. unfold f', Ramfs.set_vnodes. simpl. f_equal. apply map_eq. intros vp.
    rewrite lookup_fmap, map_lookup_imap. destruct (vnodes s !! vp) as [v|] eqn:Hvp.
    + simpl. destruct (Hget vp v Hvp) as (w & Hw & [= E1 E2 E3 E4]). unfold updated. simpl. rewrite Hw. simpl. unfold vview, with_attrs. simpl.
      f_equal. destruct w. simpl in *. congruence.
    + simpl. destruct (vs !! vp) as [w|] eqn:Hw; [|done]. apply (f_equal (fun x => x !! vp)) in Hv. by rewrite !lookup_fmap, Hw, Hvp in Hv.
Qed.

(** ** Calls *)

Section Calls.
Context (sizeof_vnode : Z) (malloc : vcache -> Z) (junk : vnode) (pad : Z).
Context (alloc : Ramfs.rstate -> Z) (nopos : Z -> bool) (roots : Z -> option Z) (live : list Z).
(** There is memory. *)
Hypothesis alloc_fresh : forall f, alloc f <> 0 /\ Ramfs.bufs f !! alloc f = None.

#[local] Instance io_fs : FileSystem Ramfs.rstate := ramfs_fs sizeof_vnode malloc junk pad.

Lemma kept_same f s g : ramfs_inv f s -> kept (view f s) g -> fs_same f (Ramfs.set_vnodes (Ramfs.vnodes f) g).
Proof.
  intros Hinv Hk n. set (f' := Ramfs.set_vnodes _ g). pose proof Hk as (Hn & _). simpl. split.
  - unfold ramfs_kind. simpl. destruct (Ramfs.nodes f !! n) as [d|] eqn:Hd.
    + destruct (kept_node _ _ _ _ _ Hn Hd) as (d' & -> & [= _ _ Et _ _]). done.
    + destruct (Ramfs.nodes g !! n) as [d'|] eqn:Hd'; [|done]. apply (f_equal (fun x => x !! n)) in Hn. simpl in Hn. by rewrite !lookup_fmap, Hd, Hd' in Hn.
  - intros c. destruct (Ramfs.nodes f !! n) as [d|] eqn:Hd.
    + destruct (ri_dirs _ _ Hinv n ltac:(eauto)) as [es Hes]. rewrite (entry_dir _ _ _ _ Hes). apply entry_dir.
      assert (Ramfs.dir_ok (view f s) n es) as Hes' by (destruct Hes; by split). destruct (dir_ok_kept _ _ _ _ Hk Hes'). by split.
    + unfold ramfs_entry. simpl. rewrite Hd. destruct (Ramfs.nodes g !! n) as [d'|] eqn:Hd'; [|done].
      apply (f_equal (fun x => x !! n)) in Hn. simpl in Hn. by rewrite !lookup_fmap, Hd, Hd' in Hn.
Qed.

Lemma kept_inv f s g vn : ramfs_inv f s -> kept (view f s) g -> unsized <$> vn = unsized <$> vnodes s ->
  ramfs_inv (Ramfs.set_vnodes (Ramfs.vnodes f) g) (set_vnodes vn s).
Proof.
  intros [[t [Hd Hnm Hap]] Hc Hv] Hk E. pose proof Hk as (Hn & _ & Hi). simpl in Hn, Hi. split; simpl; [|by rewrite Hi|].
  - assert (forall n, is_Some (Ramfs.nodes g !! n) -> is_Some (Ramfs.nodes f !! n)) as Hs.
    { intros n [d Hn']. apply (f_equal (fun x => x !! n)) in Hn. rewrite !lookup_fmap, Hn' in Hn. by destruct (Ramfs.nodes f !! n). }
    exists t. split; simpl; [|auto|intros n n' x Hex Hex'; apply Hap; auto]. intros n Hex. assert (Ramfs.dir_ok (view f s) n (t n)) as Hes' by (destruct (Hd n (Hs n Hex)); by split).
    destruct (dir_ok_kept _ _ _ _ Hk Hes'). by split.
  - intros vp v Hvp. symmetry in E. destruct (kept_node _ _ _ _ _ E Hvp) as (w & Hw & [= Ei _ _ _ _ _ _ _]). rewrite Hi, <- Ei. by apply (Hv vp w).
Qed.

(** The RAM file system under the open files. *)
Definition fview (s : @files Ramfs.rstate) : Ramfs.rstate := view (fss (fv s)) (vc (dcs (fv s))).

(** The open file [fp] is a regular file, the node [n]. *)
Record opened (s : @files Ramfs.rstate) (fp : Z) (fl : FdTable.vfscore_file) (vp : Z) (v : vnode) (n : Ramfs.ramfs_node) : Prop := {
  op_file : fheap s !! fp = Some fl;
  op_dentry : exists d, dentries (dcs (fv s)) !! FdTable.f_dentry fl = Some d /\ d_vnode d = vp;
  op_vnode : vnodes (vc (dcs (fv s))) !! vp = Some v;
  op_node : RamfsData.file_at (fview s) vp (vview v) n
}.

(** A change of the windows. *)
Lemma window_step (s : @files Ramfs.rstate) hd hv m w : vfs_ok roots live (fv s) hd hv -> m (wins (vc (dcs (fv s)))) = Ok (tt, w) -> vfs_inv w ->
  exists t, on_v (on_cache (on_wins m)) s = Ok (tt, set_fv (set_dcs t (fv s)) s) /\ vfs_ok roots live (set_dcs t (fv s)) hd hv /\
    dentries t = dentries (dcs (fv s)) /\ vnodes (vc t) = vnodes (vc (dcs (fv s))) /\ wins (vc t) = w.
Proof.
  intros Hok Hm Hw. eexists. split; [apply zoom_ok, zoom_ok, zoom_ok, vfs_wins_ok; exact Hm|]. split; [|done].
  destruct Hok as [Hdc [] ? ? ? ? ?]. split; try done. by apply dc_inv_wins.
Qed.

Lemma opened_windows (s : @files Ramfs.rstate) t fp fl vp v n : opened s fp fl vp v n -> dentries t = dentries (dcs (fv s)) -> vnodes (vc t) = vnodes (vc (dcs (fv s))) ->
  opened (set_fv (set_dcs t (fv s)) s) fp fl vp v n /\ fview (set_fv (set_dcs t (fv s)) s) = fview s.
Proof.
  intros [] Ed Ev. assert (fview (set_fv (set_dcs t (fv s)) s) = fview s) as Hv by (unfold fview, view; simpl; by rewrite Ev).
  split; [|done]. split; [done|simpl; by rewrite Ed|simpl; by rewrite Ev|by rewrite Hv].
Qed.

(** An operation of the file system on the vnode of an open file. *)
Lemma fs_step {A} (m : M Ramfs.rstate A) (s : @files Ramfs.rstate) hd hv r g : vfs_ok roots live (fv s) hd hv -> m (fview s) = Ok (r, g) -> kept (fview s) g ->
  exists t, on_v (on_fs (on_view m)) s = Ok (r, set_fv t s) /\ vfs_ok roots live t hd hv /\ fview (set_fv t s) = g /\
    fs_same (fss (fv s)) (fss t) /\ mounts t = mounts (fv s) /\ dentries (dcs t) = dentries (dcs (fv s)) /\
    unsized <$> vnodes (vc (dcs t)) = unsized <$> vnodes (vc (dcs (fv s))).
Proof.
  intros Hok Hrun Hk. destruct (on_view_ok m _ _ r g Hrun Hk) as (vn & Hon & Hu & Hview).
  pose proof (kept_same _ _ _ (ok_fs _ _ _ _ _ Hok) Hk) as Hsame. eexists. split; [apply zoom_ok, zoom_ok; exact Hon|].
  split; [|by split_and!]. apply vfs_ok_unsized; try done. by apply kept_inv; [apply (ok_fs _ _ _ _ _ Hok)|..].
Qed.

(** The position after a call. *)
Definition moved_file (fp : Z) (fl : FdTable.vfscore_file) (given : bool) (k : Z) : FdTable.vfscore_file :=
  if given || nopos fp then fl else with_offset (s64 (FdTable.f_offset fl + k)) fl.

Lemma advance_ok (s : @files Ramfs.rstate) fp fl (given : bool) k : fheap s !! fp = Some fl ->
  (if (0 =? 0) && (negb given && negb (nopos fp)) then advance fp k else mret tt) s = Ok (tt, set_fheap (<[fp := moved_file fp fl given k]> (fheap s)) s).
Proof.
  intros Hf. unfold moved_file. change (0 =? 0) with true. destruct given, (nopos fp); simpl; try (rewrite insert_id by done; by destruct s).
  unfold advance. rewrite (bind_ret _ _ _ fl s) by (by apply deref_ok). done.
Qed.

Lemma locked (s : @files Ramfs.rstate) hd hv vp v : vfs_ok roots live (fv s) hd hv -> vnodes (vc (dcs (fv s))) !! vp = Some v ->
  on_v (on_cache (vn_lock vp)) s = Ok (tt, s) /\ on_v (on_cache (vn_unlock vp)) s = Ok (tt, s).
Proof. intros Hok Hv. destruct (cache_lock _ _ _ _ _ _ _ Hok Hv) as [? ?]. split; by apply on_v_id. Qed.

Lemma vfs_read_ok s hd hv fp fl vp v n u flags : vfs_ok roots live (fv s) hd hv -> RamfsData.fs_ok (fview s) -> opened s fp fl vp v n ->
  uio_ok u -> NoDup (addrs (uio_iov u)) -> uio_op u = UIO_READ ->
  let pos := if flag flags FOF_OFFSET then uio_offset u else FdTable.f_offset fl in
  0 <= pos -> Ramfs.rn_size n < 2 ^ 31 ->
  let k := RamfsData.read_count (at_offset pos u) n in
  exists u' s', vfs_read ramfs_vop_read nopos fp u flags s = Ok ((0, u'), s') /\ vfs_ok roots live (fv s') hd hv /\ RamfsData.fs_ok (fview s') /\
    uio_resid u' = uio_resid u - k /\ fheap s' = <[fp := moved_file fp fl (flag flags FOF_OFFSET) k]> (fheap s) /\
    fs_same (fss (fv s)) (fss (fv s')) /\ mounts (fv s') = mounts (fv s) /\
    Ramfs.r_mem (fview s') <$> take (Z.to_nat k) (addrs (uio_iov u)) = take (Z.to_nat k) (drop (Z.to_nat pos) (RamfsData.contents (fview s) (v_data v))) /\
    (forall x, x ∉ take (Z.to_nat k) (addrs (uio_iov u)) -> Ramfs.r_mem (fview s') x = Ramfs.r_mem (fview s) x) /\
    (forall q, RamfsData.contents (fview s') q = RamfsData.contents (fview s) q).
Proof.
  intros Hok Hfs [Hf (d & Hd & Ed) Hv Hn] Hu Hnd Hop pos Hpos Hsz k.
  destruct (RamfsData.read_ok (fview s) vp (vview v) n (at_offset pos u) Hfs Hn) as (u' & g & Hrun & Hg & (_ & _ & _ & Hres & _) & Hmem & Hoth & Hc); try done.
  destruct (fs_step (Ramfs.ramfs_read vp (at_offset pos u)) s hd hv (0, u') g Hok Hrun (keeps_read _ _ _ _ _ Hrun)) as (t & Hstep & Hok1 & Hview & Hsame & Hm & _ & Hun).
  assert (0 <= k) as Hk0 by (unfold k, RamfsData.read_count; simpl; destruct Hu; lia).
  exists u', (set_fheap (<[fp := moved_file fp fl (flag flags FOF_OFFSET) k]> (fheap s)) (set_fv t s)).
  split; [|change (fview (set_fheap _ (set_fv t s))) with (fview (set_fv t s)); rewrite Hview; split_and!; try done; simpl in *; lia].
  unfold vfs_read. rewrite (bind_ret _ _ _ fl s) by (by apply deref_ok). subst vp.
  rewrite (bind_ret _ _ _ _ _ (on_v_id _ _ _ (vnode_of_ok _ _ _ _ Hd Hv))). cbn [fst]. destruct (locked _ _ _ _ _ Hok Hv) as [Hl _].
  rewrite (bind_ret _ _ _ _ _ Hl). replace (if flag flags FOF_OFFSET then u else at_offset (FdTable.f_offset fl) u) with (at_offset pos u)
    by (unfold pos; destruct (flag flags FOF_OFFSET); [by destruct u|done]).
  rewrite (bind_ret _ _ _ _ _ Hstep). cbn [fst snd]. replace (uio_resid u - uio_resid u') with k by (simpl in Hres; lia).
  rewrite (bind_ret _ _ _ _ _ (advance_ok (set_fv t s) fp fl _ k Hf)). destruct (kept_node _ _ _ _ _ Hun Hv) as (v' & Hv' & _).
  destruct (locked (set_fheap (<[fp := moved_file fp fl (flag flags FOF_OFFSET) k]> (fheap s)) (set_fv t s)) hd hv (d_vnode d) v' Hok1 Hv') as [_ Hul].
  by rewrite (bind_ret _ _ _ _ _ Hul).
Qed.

(** Where a write goes. *)
Definition write_pos (fl : FdTable.vfscore_file) (n : Ramfs.ramfs_node) (pos : Z) : Z :=
  if flag (FdTable.f_flags fl) O_APPEND then Ramfs.rn_size n else pos.

(** The bytes [l] replace those of [c] from [off] on. *)
Definition spliced (c l : list Z) (off : Z) : list Z := take (Z.to_nat off) c ++ l ++ drop (Z.to_nat off + length l) c.

(** From [s] to [s'] the bytes at the addresses [l] were written to [off] in the
    file of the vnode [v], and nothing else has happened but that the file is now
    [fl'] and that windows may have changed. *)
Record wrote (s s' : @files Ramfs.rstate) (hd hv : Z -> Z) (fp : Z) (fl' : FdTable.vfscore_file) (vp : Z) (v : vnode) (l : list Z) (off : Z) : Prop := {
  wr_ok : vfs_ok roots live (fv s') hd hv;
  wr_fs : RamfsData.fs_ok (fview s');
  wr_heap : fheap s' = <[fp := fl']> (fheap s);
  wr_same : fs_same (fss (fv s)) (fss (fv s'));
  wr_mounts : mounts (fv s') = mounts (fv s);
  wr_mem : Ramfs.r_mem (fview s') = Ramfs.r_mem (fview s);
  wr_opened : exists v' n', opened s' fp fl' vp v' n' /\ v_data v' = v_data v;
  wr_contents : RamfsData.contents (fview s') (v_data v) = spliced (RamfsData.contents (fview s) (v_data v)) (Ramfs.r_mem (fview s) <$> l) off;
  wr_others : forall q, q <> v_data v -> RamfsData.contents (fview s') q = RamfsData.contents (fview s) q
}.

Lemma vfs_write_ok s hd hv fp fl vp v n u flags : vfs_ok roots live (fv s) hd hv -> RamfsData.fs_ok (fview s) -> opened s fp fl vp v n ->
  uio_ok u -> NoDup (addrs (uio_iov u)) -> uio_op u = UIO_WRITE -> 0 < uio_resid u ->
  let pos := if flag flags FOF_OFFSET then uio_offset u else FdTable.f_offset fl in let off := write_pos fl n pos in
  0 <= pos < 2 ^ 31 -> 0 <= off <= Ramfs.rn_size n -> Ramfs.rn_size n < 2 ^ 31 -> off + uio_resid u < 2 ^ 31 ->
  length (Windows.live (tab_heap (Ramfs.wins (fview s)))) <> HEAP_MAX ->
  exists u' s', vfs_write (ramfs_vop_write alloc) nopos fp u flags s = Ok ((0, u'), s') /\ uio_resid u' = 0 /\
    wrote s s' hd hv fp (moved_file fp fl (flag flags FOF_OFFSET) (uio_resid u)) vp v (addrs (uio_iov u)) off.
Proof.
  intros Hok Hfs [Hf (d & Hd & Ed) Hv Hn] Hu Hnd Hop Hres0 pos off Hpos Hoff Hsz Hend Hroom. destruct (alloc_fresh (fview s)) as [Ha Hfr].
  set (io := Z.lor (if flag (FdTable.f_flags fl) O_APPEND then IO_APPEND else 0) (if flag (FdTable.f_flags fl) (Z.lor O_DSYNC O_SYNC) then IO_SYNC else 0)).
  assert (RamfsData.write_offset io (at_offset pos u) n = off) as Eoff by
    (unfold RamfsData.write_offset, off, write_pos, io; destruct (flag (FdTable.f_flags fl) O_APPEND), (flag _ (Z.lor _ _)); done).
  destruct (RamfsData.write_ok (fview s) vp (vview v) n (at_offset pos u) io (alloc (fview s)) Hfs Hn) as (u' & g & n' & Hrun & Hg & Hfile & Hmem & Hres & Hc & Ho);
    try done; try (rewrite Eoff; done).
  rewrite Eoff in Hc. assert ((b ← gets alloc; Ramfs.ramfs_write vp (at_offset pos u) io b) (fview s) = Ok ((0, u'), g)) as Hrun2 by exact Hrun.
  destruct (fs_step _ s hd hv (0, u') g Hok Hrun2 (keeps_write _ _ _ _ _ _ _ Hrun)) as (t & Hstep & Hok1 & Hview & Hsame & Hm & Hdt & Hun).
  set (s' := set_fheap (<[fp := moved_file fp fl (flag flags FOF_OFFSET) (uio_resid u)]> (fheap s)) (set_fv t s)).
  destruct (kept_node _ _ _ _ _ Hun Hv) as (v' & Hv' & [= _ _ _ _ _ _ _ Edata]). assert (fview s' = g) as Hview' by exact Hview.
  assert (vview v' = Ramfs.with_vsize (Ramfs.rn_size n') (vview v)) as Evv.
  { destruct Hfile as (Hg' & _). rewrite <- Hview' in Hg'. unfold fview, view in Hg'. simpl in Hg'. rewrite lookup_fmap, Hv' in Hg'. by apply (inj Some) in Hg'. }
  exists u', s'. split; [|split; [done|split; rewrite ?Hview'; try done]].
  - unfold vfs_write. rewrite (bind_ret _ _ _ fl s) by (by apply deref_ok). subst vp.
    rewrite (bind_ret _ _ _ _ _ (on_v_id _ _ _ (vnode_of_ok _ _ _ _ Hd Hv))). cbn [fst]. destruct (locked _ _ _ _ _ Hok Hv) as [Hl _].
    rewrite (bind_ret _ _ _ _ _ Hl). fold io. replace (if flag flags FOF_OFFSET then u else at_offset (FdTable.f_offset fl) u) with (at_offset pos u)
      by (unfold pos; destruct (flag flags FOF_OFFSET); [by destruct u|done]).
    rewrite (bind_ret _ _ _ _ _ Hstep). cbn [fst snd]. rewrite Hres, Z.sub_0_r. rewrite (bind_ret _ _ _ _ _ (advance_ok (set_fv t s) fp fl _ _ Hf)).
    destruct (locked s' hd hv (d_vnode d) v' Hok1 Hv') as [_ Hul]. by rewrite (bind_ret _ _ _ _ _ Hul).
  - exists v', n'. split; [|done]. split; [simpl; apply lookup_insert_eq| |done|by rewrite Hview', Evv]. exists d. split; [|done].
    unfold moved_file. destruct (_ || _); simpl; by rewrite Hdt.
  - etrans; [exact Hc|]. unfold spliced. rewrite length_fmap. destruct Hu as [_ Hlen]. do 2 f_equal. f_equal. simpl. lia.
Qed.

(** ** System calls *)

Lemma iov_bytes_ok iov b0 b : Forall (fun x => 0 <= iov_len x) iov -> iov_bytes b0 iov = Some b -> b = b0 + Z.of_nat (length (addrs iov)).
Proof.
  revert b0. induction iov as [|x iov IH]; intros b0 HF; [intros [= ->]; simpl; lia|]. apply Forall_cons in HF as [Hx HF]. simpl.
  destruct (_ <? _); [done|]. intros Hb%IH; [|done]. rewrite addrs_cons, length_app, length_seqZ. lia.
Qed.

Lemma iov_bytes_max iov b0 b : b0 <= IOSIZE_MAX -> iov_bytes b0 iov = Some b -> b <= IOSIZE_MAX.
Proof.
  revert b0. induction iov as [|x iov IH]; intros b0 H0; simpl; [by intros [= ->]|]. destruct (Z.ltb_spec (IOSIZE_MAX - b0) (iov_len x)); [done|].
  apply IH. lia.
Qed.

(** The list of a call that transfers something. *)
Record transferable (iov : list iovec) (bytes : Z) : Prop := {
  tr_len : Forall (fun x => 0 <= iov_len x) iov;
  tr_apart : NoDup (addrs iov);
  tr_bytes : iov_bytes 0 iov = Some bytes;
  tr_some : 0 < bytes
}.

Lemma transfer_uio iov bytes k o rw : transferable iov bytes -> uio_ok (Uio iov k o bytes rw) /\ Z.of_nat (length (addrs iov)) = bytes.
Proof. intros []. pose proof (iov_bytes_ok _ _ _ tr_len0 tr_bytes0). split; [split; simpl; [done|lia]|lia]. Qed.

(** FOF_OFFSET is passed exactly if an offset is given. *)
Lemma fof_flag offset : flag (if offset =? -1 then 0 else FOF_OFFSET) FOF_OFFSET = negb (offset =? -1).
Proof. by destruct (offset =? -1). Qed.

Lemma wrote_windows s t0 s1 t1 hd hv fp fl' vp v l off : dentries t0 = dentries (dcs (fv s)) -> vnodes (vc t0) = vnodes (vc (dcs (fv s))) ->
  wrote (set_fv (set_dcs t0 (fv s)) s) s1 hd hv fp fl' vp v l off ->
  vfs_ok roots live (set_dcs t1 (fv s1)) hd hv -> dentries t1 = dentries (dcs (fv s1)) -> vnodes (vc t1) = vnodes (vc (dcs (fv s1))) ->
  wrote s (set_fv (set_dcs t1 (fv s1)) s1) hd hv fp fl' vp v l off.
Proof.
  intros Ed0 Ev0 [] Hok Ed1 Ev1. destruct wr_opened0 as (v' & n' & Hop & Edata).
  destruct (opened_windows s1 t1 fp fl' vp v' n' Hop Ed1 Ev1) as [Hop' Hview].
  assert (fview (set_fv (set_dcs t0 (fv s)) s) = fview s) as Hview0 by (unfold fview, view; simpl; by rewrite Ev0).
  rewrite Hview0 in *. split; rewrite ?Hview; try done. by exists v', n'.
Qed.

Definition stack_slot (i : nat) (a : Z) (t : ipc_tables) : ipc_tables := set_tab_stack (alter (fun e => Ipc a (ipc_size e) (ipc_mask e)) i (tab_stack t)) t.

Lemma stack_slot_ok (s : @files Ramfs.rstate) hd hv i a : vfs_ok roots live (fv s) hd hv ->
  exists t, on_v (stack_window i a) s = Ok (tt, set_fv (set_dcs t (fv s)) s) /\ vfs_ok roots live (set_dcs t (fv s)) hd hv /\
    dentries t = dentries (dcs (fv s)) /\ vnodes (vc t) = vnodes (vc (dcs (fv s))) /\ wins (vc t) = stack_slot i a (wins (vc (dcs (fv s)))).
Proof.
  intros Hok. destruct (vc_wins _ _ (dc_vc _ _ _ _ (ok_dc _ _ _ _ _ Hok))) as (H1 & H2 & H3).
  exact (window_step s hd hv (modify (stack_slot i a)) _ Hok eq_refl (conj H1 (conj H2 H3))).
Qed.

(** A write of an open file. *)
Lemma sys_write_ok s hd hv pad_uio a fp fl vp v n iov bytes offset : vfs_ok roots live (fv s) hd hv -> RamfsData.fs_ok (fview s) -> opened s fp fl vp v n ->
  flag (FdTable.f_flags fl) UK_FWRITE = true -> transferable iov bytes -> a <> 0 -> slot_available (wins (vc (dcs (fv s)))) ->
  let pos := if offset =? -1 then FdTable.f_offset fl else offset in let off := write_pos fl n pos in
  0 <= pos < 2 ^ 31 -> 0 <= off <= Ramfs.rn_size n -> Ramfs.rn_size n < 2 ^ 31 -> off + bytes < 2 ^ 31 ->
  length (Windows.live (tab_heap (Ramfs.wins (fview s)))) <> HEAP_MAX ->
  exists s', sys_write (ramfs_vop_write alloc) nopos pad_uio a fp iov offset s = Ok ((0, Some bytes), s') /\
    wrote s s' hd hv fp (moved_file fp fl (negb (offset =? -1)) bytes) vp v (addrs iov) off.
Proof.
  intros Hok Hfs Hop Hfl Htr Ha Hslot pos off Hpos Hoff Hsz Hend Hroom. pose proof Htr as [_ Hnd Hb H0].
  destruct (stack_slot_ok s hd hv 8 pad_uio Hok) as (t1 & Hrun1 & Hok1 & Ed1 & Ev1 & Ew1). destruct (opened_windows s t1 fp fl vp v n Hop Ed1 Ev1) as [Hop1 Hview1].
  set (s1 := set_fv (set_dcs t1 (fv s)) s) in *.
  destruct (vfs_add_ok a (16 * Z.of_nat (length iov)) VFS_MASK (wins (vc (dcs (fv s1))))) as (w & Hadd & Hw).
  { apply (vc_wins _ _ (dc_vc _ _ _ _ (ok_dc _ _ _ _ _ Hok1))). } { simpl. by rewrite Ew1. }
  destruct (window_step s1 hd hv _ w Hok1 Hadd Hw) as (t2 & Hrun2 & Hok2 & Ed2 & Ev2 & _). destruct (opened_windows s1 t2 fp fl vp v n Hop1 Ed2 Ev2) as [Hop2 Hview2].
  set (s2 := set_fv (set_dcs t2 (fv s1)) s1) in *. rewrite Hview1 in Hview2.
  destruct (transfer_uio iov bytes (Z.of_nat (length iov)) offset UIO_WRITE Htr) as [Hu _].
  destruct (vfs_write_ok s2 hd hv fp fl vp v n (Uio iov (Z.of_nat (length iov)) offset bytes UIO_WRITE) (if offset =? -1 then 0 else FOF_OFFSET) Hok2)
    as (u' & s3 & Hrun3 & Hres & Hwr); rewrite ?Hview2, ?fof_flag; try done; [by destruct (offset =? -1)..|].
  destruct (vfs_remove_ok a (wins (vc (dcs (fv s3)))) (vc_wins _ _ (dc_vc _ _ _ _ (ok_dc _ _ _ _ _ (wr_ok _ _ _ _ _ _ _ _ _ _ Hwr))))) as (w' & Hrm & Hw').
  destruct (window_step s3 hd hv _ w' (wr_ok _ _ _ _ _ _ _ _ _ _ Hwr) Hrm Hw') as (t4 & Hrun4 & Hok4 & Ed4 & Ev4 & _).
  exists (set_fv (set_dcs t4 (fv s3)) s3). split.
  - unfold sys_write. rewrite (bind_ret _ _ _ fl s) by (apply deref_ok; split; [by eapply op_file|done]). rewrite Hfl, Hb. cbn [negb].
    rewrite (proj2 (Z.eqb_neq bytes 0)) by lia. rewrite (bind_ret _ _ _ _ _ Hrun1), (proj2 (Z.eqb_neq a 0)) by done.
    rewrite (bind_ret _ _ _ _ _ Hrun2), (bind_ret _ _ _ _ _ Hrun3), (bind_ret _ _ _ _ _ Hrun4). cbn [fst snd]. by rewrite Hres, Z.sub_0_r.
  - rewrite fof_flag in Hwr. simpl in Hwr. apply (wrote_windows s t2); [by rewrite Ed2|by rewrite Ev2| |done..]. destruct (offset =? -1); exact Hwr.
Qed.

(** A read of an open file. *)
Lemma sys_read_ok s hd hv pad_uio a fp fl vp v n iov bytes offset : vfs_ok roots live (fv s) hd hv -> RamfsData.fs_ok (fview s) -> opened s fp fl vp v n ->
  flag (FdTable.f_flags fl) UK_FREAD = true -> transferable iov bytes -> a <> 0 ->
  let pos := if offset =? -1 then FdTable.f_offset fl else offset in 0 <= pos -> Ramfs.rn_size n < 2 ^ 31 ->
  let k := Z.min bytes (Z.max 0 (Ramfs.rn_size n - pos)) in
  exists s', sys_read ramfs_vop_read nopos pad_uio a fp iov offset s = Ok ((0, Some k), s') /\ vfs_ok roots live (fv s') hd hv /\ RamfsData.fs_ok (fview s') /\
    fheap s' = <[fp := moved_file fp fl (negb (offset =? -1)) k]> (fheap s) /\ fs_same (fss (fv s)) (fss (fv s')) /\ mounts (fv s') = mounts (fv s) /\
    Ramfs.r_mem (fview s') <$> take (Z.to_nat k) (addrs iov) = take (Z.to_nat k) (drop (Z.to_nat pos) (RamfsData.contents (fview s) (v_data v))) /\
    (forall x, x ∉ take (Z.to_nat k) (addrs iov) -> Ramfs.r_mem (fview s') x = Ramfs.r_mem (fview s) x) /\
    (forall q, RamfsData.contents (fview s') q = RamfsData.contents (fview s) q).
Proof.
  intros Hok Hfs Hop Hfl Htr Ha pos Hpos Hsz k. pose proof Htr as [_ Hnd Hb H0].
  destruct (stack_slot_ok s hd hv 9 pad_uio Hok) as (t1 & Hrun1 & Hok1 & Ed1 & Ev1 & _). destruct (opened_windows s t1 fp fl vp v n Hop Ed1 Ev1) as [Hop1 Hview1].
  set (s1 := set_fv (set_dcs t1 (fv s)) s) in *. destruct (transfer_uio iov bytes (Z.of_nat (length iov)) offset UIO_READ Htr) as [Hu _].
  destruct (vfs_read_ok s1 hd hv fp fl vp v n (Uio iov (Z.of_nat (length iov)) offset bytes UIO_READ) (if offset =? -1 then 0 else FOF_OFFSET) Hok1)
    as (u' & s2 & Hrun2 & Hok2 & Hfs2 & Hres & Hheap & Hsame & Hm & Hmem & Hoth & Hc); rewrite ?Hview1, ?fof_flag in *; try done; [by destruct (offset =? -1)|].
  replace (if negb (offset =? -1) then _ else _) with pos in * by (unfold pos; by destruct (offset =? -1)).
  change (RamfsData.read_count _ n) with k in *. simpl in Hres.
  exists s2. split; [|done]. unfold sys_read. rewrite (bind_ret _ _ _ fl s) by (apply deref_ok; split; [by eapply op_file|done]). rewrite Hfl, Hb. cbn [negb].
  rewrite (proj2 (Z.eqb_neq bytes 0)) by lia. rewrite (bind_ret _ _ _ _ _ Hrun1), (proj2 (Z.eqb_neq a 0)) by done.
  rewrite (bind_ret _ _ _ _ _ Hrun2). cbn [fst snd]. replace (bytes - uio_resid u') with k by lia. done.
Qed.

(** A position that is set; ramfs accepts every position. *)
Lemma sys_lseek_set (s : @files Ramfs.rstate) hd hv fp fl vp v n off : vfs_ok roots live (fv s) hd hv -> opened s fp fl vp v n -> 0 <= off ->
  sys_lseek (fun _ _ => 0) fp off SEEK_SET s = Ok ((0, Some off), set_fheap (<[fp := with_offset off fl]> (fheap s)) s).
Proof.
  intros Hok [Hf (d & Hd & <-) Hv Hn] Hoff. unfold sys_lseek. rewrite (bind_ret _ _ _ fl s) by (by apply deref_ok).
  rewrite (proj2 (Z.eqb_neq _ 0)).
  2:{ intros E. rewrite E in Hd. by rewrite (t_null _ _ (dc_tree _ _ _ _ (ok_dc _ _ _ _ _ Hok))) in Hd. }
  rewrite (bind_ret _ _ _ _ _ (on_v_id _ _ _ (vnode_of_ok _ _ _ _ Hd Hv))). cbn [fst snd]. destruct (locked _ _ _ _ _ Hok Hv) as [Hl _].
  rewrite (bind_ret _ _ _ _ _ Hl). change (SEEK_SET =? SEEK_CUR) with false. change (SEEK_SET =? SEEK_END) with false. cbv iota.
  rewrite (bind_ret _ _ _ off s) by done. rewrite (proj2 (Z.leb_le 0 off)) by done. change (0 =? 0) with true. cbv iota zeta.
  erewrite (bind_ret _ _ _ (0, Some off)); [|by erewrite (bind_ret _ _ _ tt) by (by apply modify_ok)].
  destruct (locked (set_fheap (<[fp := with_offset off fl]> (fheap s)) s) hd hv _ v Hok Hv) as [_ Hul]. by rewrite (bind_ret _ _ _ _ _ Hul).
Qed.

Lemma spliced_read c l off : (Z.to_nat off <= length c)%nat -> take (length l) (drop (Z.to_nat off) (spliced c l off)) = l.
Proof. intros Hl. unfold spliced. rewrite drop_app_length' by (rewrite length_take; lia). by rewrite take_app_length. Qed.

Lemma spliced_length c l off : (Z.to_nat off <= length c)%nat -> length (spliced c l off) = Nat.max (length c) (Z.to_nat off + length l).
Proof. intros Hl. unfold spliced. rewrite !length_app, length_take, length_drop. lia. Qed.

Lemma seekable s fp fl vp v n o : opened s fp fl vp v n -> opened (set_fheap (<[fp := with_offset o fl]> (fheap s)) s) fp (with_offset o fl) vp v n.
Proof. intros []. split; try done. apply lookup_insert_eq. Qed.

(** What a write left in the file, as a read at the same place finds it. *)
Lemma wrote_back s s1 hd hv fp fl fl' vp v n wr bytes off : RamfsData.fs_ok (fview s) -> opened s fp fl vp v n -> transferable wr bytes -> 0 <= off <= Ramfs.rn_size n ->
  Ramfs.rn_size n < 2 ^ 31 -> off + bytes < 2 ^ 31 -> wrote s s1 hd hv fp fl' vp v (addrs wr) off ->
  exists v1 n1, opened s1 fp fl' vp v1 n1 /\ v_data v1 = v_data v /\ off + bytes <= Ramfs.rn_size n1 < 2 ^ 31 /\
    take (Z.to_nat bytes) (drop (Z.to_nat off) (RamfsData.contents (fview s1) (v_data v1))) = Ramfs.r_mem (fview s) <$> addrs wr.
Proof.
  intros Hfs Hop Hwr Hoff Hsz Hend [_ Hfs1 _ _ _ _ (v1 & n1 & Hop1 & Edata) Hc1 _]. exists v1, n1. pose proof (tr_some _ _ Hwr).
  destruct (transfer_uio wr bytes 0 0 UIO_WRITE Hwr) as [_ Hlw].
  pose proof (RamfsData.contents_length _ _ n Hfs (proj1 (proj2 (proj2 (op_node _ _ _ _ _ _ Hop))))) as Hcl. change (Ramfs.v_data (vview v)) with (v_data v) in Hcl.
  pose proof (RamfsData.contents_length _ _ n1 Hfs1 (proj1 (proj2 (proj2 (op_node _ _ _ _ _ _ Hop1))))) as Hcl1. change (Ramfs.v_data (vview v1)) with (v_data v1) in Hcl1.
  rewrite Edata, Hc1 in Hcl1. pose proof (spliced_length (RamfsData.contents (fview s) (v_data v)) (Ramfs.r_mem (fview s) <$> addrs wr) off ltac:(lia)) as Hsl.
  rewrite length_fmap in Hsl. split; [done|]. split; [done|]. split; [lia|]. rewrite Edata, Hc1.
  replace (Z.to_nat bytes) with (length (Ramfs.r_mem (fview s) <$> addrs wr)) by (rewrite length_fmap; lia). apply spliced_read. lia.
Qed.

(** What is written to an open file is what is read from it, through the whole
    stack.  For a regular file of the RAM file system that is open for reading and
    writing, sys_write at the current position, sys_lseek back and sys_read into
    other memory, with any scatter lists of the same length, all return 0; both
    calls transfer every byte, the memory read into then holds the bytes that were
    written, and the position is behind them.  The tree and all other files are
    as before, and the caches, the windows on the file buffers and the counts are
    consistent again. *)
Theorem io_roundtrip s hd hv pad_uio a fp fl vp v n wr rd bytes : vfs_ok roots live (fv s) hd hv -> RamfsData.fs_ok (fview s) -> opened s fp fl vp v n ->
  flag (FdTable.f_flags fl) UK_FWRITE = true -> flag (FdTable.f_flags fl) UK_FREAD = true -> flag (FdTable.f_flags fl) O_APPEND = false -> nopos fp = false ->
  transferable wr bytes -> transferable rd bytes -> a <> 0 -> slot_available (wins (vc (dcs (fv s)))) ->
  0 <= FdTable.f_offset fl <= Ramfs.rn_size n -> Ramfs.rn_size n < 2 ^ 31 -> FdTable.f_offset fl + bytes < 2 ^ 31 ->
  length (Windows.live (tab_heap (Ramfs.wins (fview s)))) <> HEAP_MAX ->
  exists s1 s2 s3, sys_write (ramfs_vop_write alloc) nopos pad_uio a fp wr (-1) s = Ok ((0, Some bytes), s1) /\
    sys_lseek (fun _ _ => 0) fp (FdTable.f_offset fl) SEEK_SET s1 = Ok ((0, Some (FdTable.f_offset fl)), s2) /\
    sys_read ramfs_vop_read nopos pad_uio a fp rd (-1) s2 = Ok ((0, Some bytes), s3) /\
    Ramfs.r_mem (fview s3) <$> addrs rd = Ramfs.r_mem (fview s) <$> addrs wr /\
    fheap s3 = <[fp := with_offset (FdTable.f_offset fl + bytes) fl]> (fheap s) /\
    (forall q, q <> v_data v -> RamfsData.contents (fview s3) q = RamfsData.contents (fview s) q) /\
    fs_same (fss (fv s)) (fss (fv s3)) /\ mounts (fv s3) = mounts (fv s) /\ vfs_ok roots live (fv s3) hd hv /\ RamfsData.fs_ok (fview s3).
Proof.
  intros Hok Hfs Hop Hw Hr Happ Hpos Hwr Hrd Ha Hslot Hoff Hsz Hend Hroom.
  destruct (sys_write_ok s hd hv pad_uio a fp fl vp v n wr bytes (-1) Hok Hfs Hop Hw Hwr Ha Hslot) as (s1 & Hrun1 & Hwrote);
    unfold write_pos; rewrite ?Happ; simpl; try lia; [done|].
  unfold write_pos, moved_file in Hwrote. rewrite Happ, Hpos in Hwrote. change (-1 =? -1) with true in Hwrote. cbn [negb orb] in Hwrote.
  pose proof (tr_some _ _ Hwr). assert (s64 (FdTable.f_offset fl + bytes) = FdTable.f_offset fl + bytes) as Es by (apply signed_small; lia). rewrite Es in Hwrote. set (off := FdTable.f_offset fl) in *. set (fl1 := with_offset (off + bytes) fl) in *.
  destruct (wrote_back _ _ _ _ _ _ _ _ _ _ _ _ _ Hfs Hop Hwr Hoff Hsz Hend Hwrote) as (v1 & n1 & Hop1 & Edata & Hsz1 & Hback). destruct Hwrote as [Hok1 Hfs1 Hheap1 Hsame1 Hm1 Hmem1 _ _ Ho1].
  set (s2 := set_fheap (<[fp := with_offset off fl1]> (fheap s1)) s1). pose proof (seekable s1 fp fl1 vp v1 n1 off Hop1) as Hop2. destruct (transfer_uio rd bytes 0 0 UIO_READ Hrd) as [_ Hlr].
  destruct (sys_read_ok s2 hd hv pad_uio a fp (with_offset off fl1) vp v1 n1 rd bytes (-1) Hok1 Hfs1 Hop2 Hr Hrd Ha) as (s3 & Hrun3 & Hok3 & Hfs3 & Hheap3 & Hsame3 & Hm3 & Hmem3 & _ & Hc3);
    [simpl; lia|lia|].
  change (RamfsData.contents (fview s2)) with (RamfsData.contents (fview s1)) in *. change (FdTable.f_offset (with_offset off fl1)) with off in *.
  change (-1 =? -1) with true in *. cbv iota in *. replace (Z.min bytes (Z.max 0 (Ramfs.rn_size n1 - off))) with bytes in * by lia.
  exists s1, s2, s3. split; [done|]. split; [apply (sys_lseek_set s1 hd hv fp fl1 vp v1 n1); [done|done|lia]|]. split; [done|].
  split; [by rewrite Hback, take_ge in Hmem3 by lia|].
  split; [rewrite Hheap3; unfold moved_file; rewrite Hpos; simpl; by rewrite Es, Hheap1, !insert_insert_eq|].
  split; [intros q Hq; rewrite Hc3; by apply Ho1|]. split; [by etrans|]. split; [by rewrite Hm3|done].
Qed.

End Calls.

(** ** Witness *)

#[local] Opaque demo_root demo_tree.
#[local] Existing Instances open_fs open_laws.

Definition demo_open : outcome ((Z * Z) * @files Ramfs.rstate) :=
  sys_open 96 demo_calloc (ramfs_vop_create demo_node demo_name) (fun _ => mret 0) (fun _ => 0) demo_pads 5000 [SLASH; 97] 2 0 demo_files.

(** The file [/a] is open for reading and writing. *)
Definition demo_io : @files Ramfs.rstate := match demo_open with Ok (_, s) => s | _ => demo_files end.

Lemma demo_open_run : demo_open = Ok ((0, 5000), demo_io).
Proof. vm_compute. reflexivity. Qed.

#[local] Opaque demo_io demo_open.

Lemma demo_io_ok : exists dp, fheap demo_io = {[5000 := FdTable.File 0 3 1 0 dp]} /\ vfs_ok demo_roots [64] (fv demo_io) (add_held (add_held demo_refs dp 1) dp 1) (fun _ => 0).
Proof.
  destruct (sys_open_ok 96 demo_calloc (fun s => next_fresh _) (ramfs_vop_create demo_node demo_name) (fun _ => mret 0) (fun _ => 0) demo_pads demo_roots [64]
    demo_files demo_refs (fun _ => 0) [SLASH; 97] demo_mount [97] 4096 5000 2 0 demo_files_ok) as (s' & e & fp & Hrun & Hres); [|reflexivity..|lia|reflexivity|].
  { split; [exact demo_tree_find|reflexivity|unfold PATH_MAX; simpl; lia|by right| |exact demo_tree_room]. intros n c n' _. apply demo_tree_kind. }
  assert (demo_open = Ok ((e, fp), s')) as Hrun' by exact Hrun. rewrite demo_open_run in Hrun'. apply ok_inj in Hrun' as [[= <- <-] <-]. destruct Hres as (_ & _ & Hres).
  change (fss (fv demo_files)) with (fss demo_tree) in Hres. assert (lookup_tree (fss demo_tree) 4096 (segs [97]) (ends_slash [97]) = RFound 8192) as E by exact demo_tree_lookup. rewrite E in Hres.
  destruct Hres as (md & mt & _ & _ & dp & _ & Hh & _ & Hok). exists dp. split; [exact Hh|exact Hok].
Qed.

Lemma demo_io_nodes : Ramfs.nodes (fview demo_io) = Ramfs.nodes (fss demo_tree).
Proof. vm_compute. reflexivity. Qed.

Lemma demo_io_fs_ok : RamfsData.fs_ok (fview demo_io).
Proof.
  assert (forall p n, Ramfs.nodes (fview demo_io) !! p = Some n -> Ramfs.rn_owns_buf n = true /\ Ramfs.rn_size n = 0 /\ Ramfs.rn_buf n = 0 /\ Ramfs.rn_bufsize n = 0) as Hn.
  { intros p n. rewrite demo_io_nodes, demo_tree_nodes. intros [[_ <-]|[_ [_ <-]%lookup_singleton_Some]]%lookup_insert_Some; done. }
  split.
  - split; [vm_compute; reflexivity|]. assert (tab_heap (Ramfs.wins (fview demo_io)) = replicate HEAP_MAX ipc_zero) as -> by (vm_compute; reflexivity).
    by apply Forall_replicate.
  - assert (Windows.live (tab_heap (Ramfs.wins (fview demo_io))) = []) as -> by (vm_compute; reflexivity).
    assert (RamfsData.owned_windows (Ramfs.nodes (fview demo_io)) = []) as -> by (vm_compute; reflexivity). done.
  - intros p n (E1 & E2 & E3 & E4)%Hn. unfold RamfsData.node_ok. rewrite E1, E2, E3, E4. split; [done|]. split; [lia|]. split; [lia|]. by split.
  - intros p q n m (_ & _ & E3 & _)%Hn _ _ H. by destruct H.
Qed.

(** The vnode and the node of the open file. *)
Definition demo_open_file : FdTable.vfscore_file := default (FdTable.File 0 0 0 0 0) (fheap demo_io !! 5000).
Definition demo_vp : Z := match dentries (dcs (fv demo_io)) !! FdTable.f_dentry demo_open_file with Some d => d_vnode d | None => 0 end.
Definition demo_vnode : vnode := default demo_junk (vnodes (vc (dcs (fv demo_io))) !! demo_vp).

Lemma demo_opened : opened demo_io 5000 demo_open_file demo_vp demo_vnode (Ramfs.new_node "a" VREG).
Proof.
  split; [vm_compute; reflexivity| |vm_compute; reflexivity|split_and!; vm_compute; reflexivity].
  assert (exists d, dentries (dcs (fv demo_io)) !! FdTable.f_dentry demo_open_file = Some d) as [d Hd] by (eexists; vm_compute; reflexivity).
  exists d. split; [done|]. unfold demo_vp. by rewrite Hd.
Qed.

Lemma demo_transfers : transferable [Iovec 100 3] 3 /\ transferable [Iovec 200 1; Iovec 300 2] 3.
Proof.
  split; (split; [repeat constructor; simpl; lia| |reflexivity|lia]); apply (bool_decide_unpack _); vm_compute; exact I.
Qed.

Definition demo_alloc (f : Ramfs.rstate) : Z := next (Ramfs.bufs f).
Lemma demo_alloc_fresh f : demo_alloc f <> 0 /\ Ramfs.bufs f !! demo_alloc f = None.
Proof. apply next_fresh. Qed.

(** Three bytes at the address 100 are written, and read to 200, 300 and 301. *)
Lemma io_roundtrip_witness : exists s1 s2 s3,
  sys_write (ramfs_vop_write demo_alloc) (fun _ => false) 9200 7000 5000 [Iovec 100 3] (-1) demo_io = Ok ((0, Some 3), s1) /\
  sys_lseek (fun _ _ => 0) 5000 0 SEEK_SET s1 = Ok ((0, Some 0), s2) /\
  sys_read ramfs_vop_read (fun _ => false) 9200 7000 5000 [Iovec 200 1; Iovec 300 2] (-1) s2 = Ok ((0, Some 3), s3) /\
  Ramfs.r_mem (fview s3) <$> [200; 300; 301] = [100; 101; 102].
Proof.
  destruct demo_io_ok as (dp & _ & Hok).
  destruct (io_roundtrip 200 demo_vmalloc demo_junk 9000 demo_alloc (fun _ => false) demo_roots [64] demo_alloc_fresh demo_io
    (add_held (add_held demo_refs dp 1) dp 1) (fun _ => 0) 9200 7000 5000 demo_open_file demo_vp demo_vnode (Ramfs.new_node "a" VREG)
    [Iovec 100 3] [Iovec 200 1; Iovec 300 2] 3 Hok demo_io_fs_ok demo_opened) as (s1 & s2 & s3 & H1 & H2 & H3 & H4 & _).
  1-4: vm_compute; reflexivity.
  - apply demo_transfers.
  - apply demo_transfers.
  - lia.
  - exists 90%nat, ipc_zero. split; vm_compute; reflexivity.
  - vm_compute; split; discriminate.
  - vm_compute; reflexivity.
  - vm_compute; reflexivity.
  - vm_compute; discriminate.
  - exists s1, s2, s3. split; [exact H1|]. split; [exact H2|]. split; [exact H3|]. etrans; [exact H4|vm_compute; reflexivity].
Defined.
