(* ===== verification/Syscalls.v ===== *)
(** The system calls on names (vfscore/syscalls.c: sys_mkdir, sys_rmdir, sys_mknod,
    sys_rename, sys_symlink, sys_link, sys_unlink, sys_access, sys_stat, sys_lstat,
    sys_truncate, sys_readlink, sys_utimes, sys_chmod and those on open files that go
    with them; vnode.c: vn_settimes, vn_setmode; fops.c: vfs_ioctl, vfs_stat).

    The operations of the file system are a record of functions.  What the code
    leaves unset is made explicit: reading it is undefined. *)
From S2P Require Import Prelude VfsTypes Windows Uio PathConv Vnode Dentry Dcache Namei Resolve Mount Open Io.
From S2P Require Ramfs FdTable.
From stdpp Require Import base numbers gmap fin_maps sets list.
Import Errno.
#[local] Open Scope Z_scope.

(** fcntl.h, unistd.h and sys/stat.h of the C library. *)
Definition AT_SYMLINK_NOFOLLOW : Z := 2.
Definition R_OK : Z := 4.
Definition W_OK : Z := 2.
Definition X_OK : Z := 1.
Definition O_CLOEXEC : Z := 524288.
Definition FALLOC_FL_KEEP_SIZE : Z := 1.
Definition FALLOC_FL_PUNCH_HOLE : Z := 2.
Definition UTIME_OMIT : Z := 0x3ffffffe.
(** sys/ioctl.h. *)
Definition FIOCLEX : Z := 0x5451.
Definition FIONCLEX : Z := 0x5450.

(** The operations of a file system that these calls use; an operation without
    effect on the state is its result. *)
Record vnode_ops (F : Type) := VnodeOps {
  op_create : Z -> list Z -> Z -> M (F * vcache) Z;
  op_remove : Z -> Z -> list Z -> M (F * vcache) Z;
  op_rename : Z -> Z -> list Z -> Z -> Z -> list Z -> M (F * vcache) Z;
  op_mkdir : Z -> list Z -> Z -> M (F * vcache) Z;
  op_rmdir : Z -> Z -> list Z -> M (F * vcache) Z;
  op_getattr : Z -> M (F * vcache) (Z * Ramfs.vattr);
  op_setattr : Z -> Ramfs.vattr -> M (F * vcache) Z;
  op_truncate : Z -> Z -> M (F * vcache) Z;
  op_link : Z -> Z -> list Z -> M (F * vcache) Z;
  op_symlink : Z -> list Z -> list Z -> M (F * vcache) Z;
  (** The error, the name of the entry, if one was stored, and the new offset. *)
  op_readdir : Z -> Z -> M (F * vcache) (Z * option (list Z) * Z);
  op_fsync : Z -> Z;
  op_ioctl : Z -> Z -> Z;
  (** [None] is a null pointer in the table. *)
  op_fallocate : option (Z -> Z -> Z -> Z -> M (F * vcache) Z)
}.
#[global] Arguments VnodeOps {F}.
#[global] Arguments op_create {F}. #[global] Arguments op_remove {F}. #[global] Arguments op_rename {F}.
#[global] Arguments op_mkdir {F}. #[global] Arguments op_rmdir {F}. #[global] Arguments op_getattr {F}.
#[global] Arguments op_setattr {F}. #[global] Arguments op_truncate {F}. #[global] Arguments op_link {F}.
#[global] Arguments op_symlink {F}. #[global] Arguments op_readdir {F}. #[global] Arguments op_fsync {F}.
#[global] Arguments op_ioctl {F}. #[global] Arguments op_fallocate {F}.

(** ** Names *)

Definition has_trailing (path : list Z) (ch : Z) : bool := bool_decide (last path = Some ch).

Fixpoint drop_leading (ch : Z) (l : list Z) : list Z :=
  match l with x :: r => if x =? ch then drop_leading ch r else l | [] => [] end.
Definition strip_trailing (path : list Z) (ch : Z) : list Z := rev (drop_leading ch (rev path)).

(** [parent] is not empty. *)
Definition is_parent (parent child : list Z) : bool :=
  bool_decide (take (length parent) child = parent) &&
  (bool_decide (last parent = Some SLASH) || bool_decide (child !! length parent = Some SLASH)).

(** The path without its slashes at the end, and whether there were any. *)
Definition strip_slash (path : list Z) : list Z * bool :=
  if has_trailing path SLASH && negb (length path =? 1)%nat then (strip_trailing path SLASH, true) else (path, false).

Section Code.
Context {F : Type} `{FileSystem F}.
Context (sizeof_dentry : Z) (calloc : dcache -> Z) (p : pads) (ops : vnode_ops F) (BSIZE pad_attr : Z).

(** ** Attributes *)

Definition no_attr : Ramfs.vattr := Ramfs.Vattr 0 VNON 0 0 (0, 0) (0, 0) (0, 0) 0.

(** [vn_access] of any access. *)
Definition access_vnode (v : vnode) (flags : Z) : M (@vfs F) Z :=
  m ← deref (fun s => find (fun m => m_addr m =? v_mount v) (mounts s));
  mret (vn_access (v_mode v) (m_flags m) flags).

(** [vn_stat] with the attributes from the file system. *)
Definition stat_vnode (vp : Z) : M (@vfs F) (Z * option stat) :=
  stack_window 10 pad_attr;;
  a ← on_fs (op_getattr ops vp);
  v ← on_cache (vnode_at vp);
  mret (vn_stat BSIZE a.1 (v_type v) (Ramfs.va_nodeid a.2) (Ramfs.va_size a.2) (Ramfs.va_mode a.2)).

Definition vn_settimes (vp : Z) (times : Ramfs.timespec * Ramfs.timespec) : M (@vfs F) Z :=
  stack_window 10 pad_attr;;
  let mask := Z.lor (if times.1.2 =? UTIME_OMIT then 0 else Ramfs.AT_ATIME) (if times.2.2 =? UTIME_OMIT then 0 else Ramfs.AT_MTIME) in
  on_cache (vn_lock vp);;
  e ← on_fs (op_setattr ops vp (Ramfs.Vattr mask VNON 0 0 times.1 times.2 (0, 0) 0));
  on_cache (vn_unlock vp);;
  mret e.

Definition vn_setmode (vp new_mode : Z) : M (@vfs F) Z :=
  stack_window 10 pad_attr;;
  on_cache (vn_lock vp);;
  on_cache (upd_vnode vp (fun v => with_attrs (v_type v) new_mode (v_size v) (v_data v) v));;
  e ← on_fs (op_setattr ops vp (Ramfs.Vattr Ramfs.AT_MODE VNON new_mode 0 (0, 0) (0, 0) (0, 0) 0));
  on_cache (vn_unlock vp);;
  mret e.

(** [dp->d_mount->m_flags & MNT_RDONLY]. *)
Definition read_only (dp : Z) : M (@vfs F) bool :=
  d ← on_dc (dentry_at dp);
  m ← deref (fun s => find (fun m => m_addr m =? d_mount d) (mounts s));
  mret (flag (m_flags m) MNT_RDONLY).

(** ** Calls on a path that exists *)

(** [k] is what is done with the dentry of [path] before it is released. *)
Definition with_path {A} (path : list Z) (no : Z -> A) (k : Z -> M (@vfs F) A) : M (@vfs F) A :=
  r ← lookup_dentry sizeof_dentry calloc p path;
  if negb (r.1 =? 0) then mret (no r.1) else
  x ← k r.2; on_dc (drele r.2);; mret x.

Definition sys_access (path : list Z) (mode : Z) : M (@vfs F) Z :=
  with_path path id (fun dp =>
    v ← vnode_of dp;
    access_vnode v.2 (Z.lor (if flag mode R_OK then VREAD else 0)
                     (Z.lor (if flag mode W_OK then VWRITE else 0) (if flag mode X_OK then VEXEC else 0)))).

Definition sys_stat (path : list Z) : M (@vfs F) (Z * option stat) :=
  with_path path (fun e => (e, None)) (fun dp => v ← vnode_of dp; stat_vnode v.1).

Definition sys_truncate (path : list Z) (length : Z) : M (@vfs F) Z :=
  with_path path id (fun dp =>
    v ← vnode_of dp;
    on_cache (vn_lock v.1);; e ← on_fs (op_truncate ops v.1 length); on_cache (vn_unlock v.1);; mret e).

Definition sys_chmod (path : list Z) (mode : Z) : M (@vfs F) Z :=
  with_path path id (fun dp =>
    ro ← read_only dp;
    if ro : bool then mret EROFS else v ← vnode_of dp; vn_setmode v.1 mode).

Definition sys_lstat (path : list Z) : M (@vfs F) (Z * option stat) :=
  l ← Namei.lookup sizeof_dentry calloc (pad_vp p) (pad_name p) path;
  let '(error, ddp, _) := l in
  if negb (error =? 0) then mret (error, None) else
  r ← namei_last_nofollow sizeof_dentry calloc (pad_vp p) path ddp;
  if negb (r.1 =? 0) then on_dc (drele ddp);; mret (r.1, None) else
  v ← vnode_of r.2;
  st ← stat_vnode v.1;
  on_dc (drele r.2);;
  on_dc (drele ddp);;
  mret st.

(** The error and the bytes that were stored in the buffer. *)
Definition sys_readlink (path : list Z) (bufsize : nat) : M (@vfs F) (Z * list Z) :=
  l ← Namei.lookup sizeof_dentry calloc (pad_vp p) (pad_name p) path;
  let '(error, ddp, _) := l in
  if negb (error =? 0) then mret (error, []) else
  r ← namei_last_nofollow sizeof_dentry calloc (pad_vp p) path ddp;
  if negb (r.1 =? 0) then on_dc (drele ddp);; mret (r.1, []) else
  v ← vnode_of r.2;
  if negb (bool_decide (v_type v.2 = VLNK)) then on_dc (drele r.2);; on_dc (drele ddp);; mret (EINVAL, []) else
  on_cache (vn_lock v.1);;
  x ← on_fs (vop_readlink v.1 bufsize);
  on_cache (vn_unlock v.1);;
  on_dc (drele r.2);;
  on_dc (drele ddp);;
  mret (if negb (x.1 =? 0) then (x.1, []) else x).

(** Seconds and microseconds. *)
Definition is_timeval_valid (t : Z * Z) : bool := (0 <=? t.1) && ((0 <=? t.2) && (t.2 <? 1000000)).

(** [now] is what [clock_gettime] returns. *)
Definition convert_timeval (now : Ramfs.timespec) (from : option (Z * Z)) : Ramfs.timespec :=
  match from with Some t => (t.1, t.2 * 1000) | None => now end.

Definition sys_utimes (now : Ramfs.timespec) (path : list Z) (times : option ((Z * Z) * (Z * Z))) (flags : Z) : M (@vfs F) Z :=
  if match times with Some (a, b) => negb (is_timeval_valid a) || negb (is_timeval_valid b) | None => false end then mret EINVAL else
  let ts := (convert_timeval now (fst <$> times), convert_timeval now (snd <$> times)) in
  let set dp :=
    ro ← read_only dp;
    e ← (if ro : bool then mret EROFS else v ← vnode_of dp; vn_settimes v.1 ts);
    on_dc (drele dp);; mret e in
  if flag flags AT_SYMLINK_NOFOLLOW then
    l ← Namei.lookup sizeof_dentry calloc (pad_vp p) (pad_name p) path;
    let '(error, ddp, _) := l in
    if negb (error =? 0) then mret error else
    r ← namei_last_nofollow sizeof_dentry calloc (pad_vp p) path ddp;
    on_dc (drele ddp);;
    if negb (r.1 =? 0) then mret r.1 else set r.2
  else
    r ← lookup_dentry sizeof_dentry calloc p path;
    if negb (r.1 =? 0) then mret r.1 else set r.2.

(** ** Making names *)

(** From where the directory of [path] is looked up; [op] makes the entry. *)
Definition make_entry (op : Z -> list Z -> M (F * vcache) Z) (path : list Z) : M (@vfs F) Z :=
  l ← Namei.lookup sizeof_dentry calloc (pad_vp p) (pad_name p) path;
  let '(error, ddp, name) := l in
  if negb (error =? 0) then mret error else
  v ← vnode_of ddp;
  on_cache (vn_lock v.1);;
  e ← write_access v.2;
  e ← (if negb (e =? 0) then mret e else on_fs (op v.1 name));
  on_cache (vn_unlock v.1);;
  on_dc (drele ddp);;
  mret e.

Definition sys_mkdir (path : list Z) (mode : Z) : M (@vfs F) Z :=
  (stack_window 2 (pad_dp p);; stack_window 1 (pad_ddp p);; stack_window 0 (pad_filename p));;
  r ← lookup_dentry sizeof_dentry calloc p path;
  if r.1 =? 0 then on_dc (drele r.2);; mret EEXIST else
  make_entry (fun dvp name => op_mkdir ops dvp name (Z.lor (clear mode S_IFMT) S_IFDIR)) path.

Definition sys_mknod (path : list Z) (mode : Z) : M (@vfs F) Z :=
  let fmt := Z.land mode S_IFMT in
  if negb ((fmt =? S_IFREG) || (fmt =? S_IFDIR) || (fmt =? S_IFIFO) || (fmt =? S_IFSOCK)) then mret EINVAL else
  r ← lookup_dentry sizeof_dentry calloc p path;
  if r.1 =? 0 then on_dc (drele r.2);; mret EEXIST else
  make_entry (fun dvp name => if fmt =? S_IFDIR then op_mkdir ops dvp name mode else op_create ops dvp name mode) path.

(** [np] is the new path after [task_conv], with its result. *)
Definition sys_symlink (np : Z * list Z) (oldpath : list Z) : M (@vfs F) Z :=
  if negb (np.1 =? 0) then mret np.1 else
  l ← Namei.lookup sizeof_dentry calloc (pad_vp p) (pad_name p) np.2;
  let '(error, newdirdp, name) := l in
  if negb (error =? 0) then mret ENOENT else
  v ← vnode_of newdirdp;
  on_cache (vn_lock v.1);;
  r ← namei_last_nofollow sizeof_dentry calloc (pad_vp p) np.2 newdirdp;
  e ← (if r.1 =? 0 then on_dc (drele r.2);; mret EEXIST else
       e ← write_access v.2;
       if negb (e =? 0) then mret e else
       if (PATH_MAX - 1 <=? length oldpath)%nat then mret ENAMETOOLONG else
       on_fs (op_symlink ops v.1 name (strlcpy oldpath PATH_MAX)));
  on_cache (vn_unlock v.1);;
  on_dc (drele newdirdp);;
  mret e.

(** Where [newdp] is not set, the release of it at the end is undefined; [dup] is
    whether [strdup] could copy the path. *)
Definition sys_link (dup : bool) (oldpath newpath : list Z) : M (@vfs F) Z :=
  r ← lookup_dentry sizeof_dentry calloc p oldpath;
  if negb (r.1 =? 0) then mret r.1 else
  let olddp := r.2 in
  d ← on_dc (dentry_at olddp);
  v ← vnode_of olddp;
  on_cache (vn_lock v.1);;
  let out (newdp : option Z) e :=
    on_cache (vn_unlock v.1);; on_dc (drele olddp);;
    match newdp with Some x => on_dc (drele x);; mret e | None => undef end in
  if bool_decide (v_type v.2 = VDIR) then out None EPERM else
  r ← lookup_dentry sizeof_dentry calloc p newpath;
  if r.1 =? 0 then out (Some r.2) EEXIST else
  l ← Namei.lookup sizeof_dentry calloc (pad_vp p) (pad_name p) newpath;
  let '(error, newdirdp, name) := l in
  if negb (error =? 0) then out None error else
  dd ← on_dc (dentry_at newdirdp);
  w ← vnode_of newdirdp;
  on_cache (vn_lock w.1);;
  let out1 newdp e := on_cache (vn_unlock w.1);; on_dc (drele newdirdp);; out newdp e in
  if negb (d_mount d =? d_mount dd) then out1 None EXDEV else
  e ← write_access w.2;
  if negb (e =? 0) then out1 None e else
  a ← on_dc (gets calloc);
  newdp ← on_dc (dentry_alloc sizeof_dentry a dup newdirdp v.1 newpath);
  if newdp =? 0 then out1 (Some 0) ENOMEM else
  e ← on_fs (op_link ops w.1 v.1 name);
  out1 (Some newdp) e.

(** ** Removing names *)

(** The name that is passed to the file system is the text that the bytes of the
    pointer to the name make, [ptr]: the call passes the address of an array where
    [lookup] wants that of a pointer. *)
Definition sys_unlink (ptr : list Z) (path : list Z) : M (@vfs F) Z :=
  (stack_window 2 (pad_dp p);; stack_window 1 (pad_ddp p);; stack_window 0 (pad_filename p));;
  l ← Namei.lookup sizeof_dentry calloc (pad_vp p) (pad_name p) path;
  let '(error, ddp, _) := l in
  if negb (error =? 0) then mret error else
  r ← namei_last_nofollow sizeof_dentry calloc (pad_vp p) path ddp;
  if negb (r.1 =? 0) then on_dc (drele ddp);; mret r.1 else
  let dp := r.2 in
  v ← vnode_of dp;
  on_cache (vn_lock v.1);;
  let out e := on_cache (vn_unlock v.1);; on_dc (drele dp);; on_dc (drele ddp);; mret e in
  if bool_decide (v_type v.2 = VDIR) then out EISDIR else
  if flag (v_flags v.2) VROOT then out EBUSY else
  w ← vnode_of ddp;
  on_cache (vn_lock w.1);;
  e ← write_access w.2;
  if negb (e =? 0) then on_cache (vn_unlock w.1);; out e else
  e ← on_fs (op_remove ops w.1 v.1 ptr);
  on_cache (vn_unlock w.1);;
  on_cache (vn_unlock v.1);;
  on_dc (dentry_remove dp);;
  on_dc (drele ddp);;
  on_dc (drele dp);;
  mret e.

(** ** Open files *)

Context (vop_open vop_close : Z -> Z).

(** The vnode of an open file, locked, and what is done with it. *)
Definition locked_vnode {A} (fp : Z) (k : Z * vnode -> M (@files F) A) : M (@files F) A :=
  f ← file_at fp;
  v ← on_v (vnode_of (FdTable.f_dentry f));
  on_v (on_cache (vn_lock v.1));;
  x ← k v;
  on_v (on_cache (vn_unlock v.1));;
  mret x.

Definition vfs_ioctl (fp com : Z) : M (@files F) Z := locked_vnode fp (fun v => mret (op_ioctl ops v.1 com)).
Definition vfs_stat (fp : Z) : M (@files F) (Z * option stat) := locked_vnode fp (fun v => on_v (stat_vnode v.1)).
Definition sys_fstat (fp : Z) : M (@files F) (Z * option stat) := vfs_stat fp.

Definition with_flags fl (f : FdTable.vfscore_file) :=
  FdTable.File (FdTable.f_fd f) fl (FdTable.f_count f) (FdTable.f_offset f) (FdTable.f_dentry f).

Definition sys_ioctl (fp request : Z) : M (@files F) Z :=
  f ← file_at fp;
  if Z.land (FdTable.f_flags f) (Z.lor UK_FREAD UK_FWRITE) =? 0 then mret EBADF else
  if request =? FIOCLEX then set_file fp (with_flags (Z.lor (FdTable.f_flags f) O_CLOEXEC) f);; mret 0 else
  if request =? FIONCLEX then set_file fp (with_flags (clear (FdTable.f_flags f) O_CLOEXEC) f);; mret 0 else
  vfs_ioctl fp request.

(** [no] is the error for a file without a dentry. *)
Definition dentry_call {A} (fp : Z) (no : A) (k : Z * vnode -> M (@files F) A) : M (@files F) A :=
  f ← file_at fp;
  if FdTable.f_dentry f =? 0 then mret no else locked_vnode fp k.

Definition sys_fsync (fp : Z) : M (@files F) Z := dentry_call fp EINVAL (fun v => mret (op_fsync ops v.1)).

Definition sys_ftruncate (fp length : Z) : M (@files F) Z :=
  dentry_call fp EBADF (fun v => on_v (on_fs (op_truncate ops v.1 length))).

Definition sys_fallocate (fp mode offset len : Z) : M (@files F) Z :=
  f ← file_at fp;
  if (FdTable.f_dentry f =? 0) || negb (flag (FdTable.f_flags f) UK_FWRITE) then mret EBADF else
  if (offset <? 0) || (len <=? 0) then mret EINVAL else
  if flag mode FALLOC_FL_PUNCH_HOLE && negb (flag mode FALLOC_FL_KEEP_SIZE) then mret ENOTSUP else
  locked_vnode fp (fun v =>
    if negb (bool_decide (v_type v.2 = VREG)) && negb (bool_decide (v_type v.2 = VDIR)) then mret ENODEV else
    match op_fallocate ops with None => mret EOPNOTSUPP | Some op => on_v (on_fs (op v.1 mode offset len)) end).

(** The error and what is stored in [cwd]. *)
Definition sys_fchdir (fp : Z) : M (@files F) (Z * option (list Z)) :=
  f ← file_at fp;
  if FdTable.f_dentry f =? 0 then mret (EBADF, None) else
  locked_vnode fp (fun v =>
    if negb (bool_decide (v_type v.2 = VDIR)) then mret (EBADF, None) else
    d ← on_v (on_dc (dentry_at (FdTable.f_dentry f)));
    path ← on_v (deref (fun _ => d_path d));
    mret (0, Some (strlcpy path PATH_MAX))).

(** [d_name] is the name in [dir], if one is stored. *)
Definition sys_readdir (fp : Z) (d_name : option (list Z)) : M (@files F) (Z * option (list Z)) :=
  dentry_call fp (ENOTDIR, d_name) (fun v =>
    if negb (bool_decide (v_type v.2 = VDIR)) then mret (ENOTDIR, d_name) else
    f ← file_at fp;
    r ← on_v (on_fs (op_readdir ops v.1 (FdTable.f_offset f)));
    let '(error, name, offset) := r in
    set_file fp (with_offset offset f);;
    mret (error, match name with Some x => Some x | None => d_name end)).

(** [.] and [..]. *)
Definition is_dots (name : list Z) : bool := bool_decide (name = [DOT]) || bool_decide (name = [DOT; DOT]).

(** The loop over the entries; [fuel] bounds its rounds. *)
Fixpoint first_entry (fuel : nat) (fp : Z) (d_name : option (list Z)) : M (@files F) Z :=
  match fuel with
  | O => spin
  | S fuel =>
      r ← sys_readdir fp d_name;
      if negb (r.1 =? 0) && negb (r.1 =? EACCES) then mret r.1 else
      name ← deref (fun _ => r.2);
      if is_dots name then first_entry fuel fp r.2 else mret r.1
  end.

(** [a] is the memory for the file. *)
Definition check_dir_empty (fuel : nat) (a : Z) (path : list Z) : M (@files F) Z :=
  r ← sys_open sizeof_dentry calloc (op_create ops) (fun vp => op_truncate ops vp 0) vop_open p a path 0 0;
  if negb (r.1 =? 0) then mret r.1 else
  e ← first_entry fuel r.2 None;
  _ ← fdrop vop_close r.2;
  mret (if e =? ENOENT then 0 else if e =? 0 then ENOTEMPTY else e).

Definition sys_rmdir (fuel : nat) (a : Z) (path : list Z) : M (@files F) Z :=
  e ← check_dir_empty fuel a path;
  if negb (e =? 0) then mret e else
  on_v (
    r ← lookup_dentry sizeof_dentry calloc p path;
    if negb (r.1 =? 0) then mret r.1 else
    let dp := r.2 in
    v ← vnode_of dp;
    on_cache (vn_lock v.1);;
    let out e := on_cache (vn_unlock v.1);; on_dc (drele dp);; mret e in
    e ← write_access v.2;
    if negb (e =? 0) then out e else
    if negb (bool_decide (v_type v.2 = VDIR)) then out ENOTDIR else
    if flag (v_flags v.2) VROOT || (2 <=? v_refcnt v.2) then out EBUSY else
    l ← Namei.lookup sizeof_dentry calloc (pad_vp p) (pad_name p) path;
    let '(error, ddp, name) := l in
    if negb (error =? 0) then out error else
    w ← vnode_of ddp;
    on_cache (vn_lock w.1);;
    e ← on_fs (op_rmdir ops w.1 v.1 name);
    on_cache (vn_unlock w.1);;
    on_cache (vn_unlock v.1);;
    on_dc (dentry_remove dp);;
    on_dc (drele ddp);;
    on_dc (drele dp);;
    mret e).

(** ** Renaming *)

(** Whether the target may be replaced: the error, given the types and whether its
    path ended in a slash. *)
Definition rename_target (fuel : nat) (a : Z) (dest : list Z) (t1 t2 : vtype) (ts : bool) : M (@files F) Z :=
  if negb (bool_decide (t2 = VDIR)) && negb (bool_decide (t2 = VLNK)) then
    mret (if bool_decide (t1 = VDIR) || ts then ENOTDIR else 0)
  else if negb (bool_decide (t1 = VDIR)) && bool_decide (t2 = VDIR) then mret EISDIR
  else if bool_decide (t2 = VDIR) then
    e ← check_dir_empty fuel a dest; mret (if negb (e =? 0) then EEXIST else 0)
  else mret 0.

(** From where both directories are known.  [sname] is the pointer into [src] that
    [lookup] set; [dp2] and [vp2] are 0 if there is no target; [error] is the result
    of looking it up. *)
Definition rename_entry (dup : bool) (src dest sname : list Z) (ddp1 dp1 vp1 ddp2 dp2 vp2 error : Z) : M (@vfs F) Z :=
  let dest := if bool_decide (dest = [SLASH]) then dest else strip_trailing dest SLASH in
  let src := if bool_decide (src = [SLASH]) then src else strip_trailing src SLASH in
  if same_path src dest then mret error else
  if is_parent src dest then mret EINVAL else
  match strrchr dest with
  | None => mret ENOTDIR
  | Some (_, dname) =>
      w1 ← vnode_of ddp1;
      on_cache (vn_lock w1.1);;
      w2 ← vnode_of ddp2;
      on_cache (vn_lock w2.1);;
      e ← write_access w1.2;
      e ← (if negb (e =? 0) then mret e else write_access w2.2);
      e ← (if negb (e =? 0) then mret e else
           if negb (v_mount w1.2 =? v_mount w2.2) then mret EXDEV else
           e ← on_fs (op_rename ops w1.1 vp1 sname w2.1 vp2 dname);
           on_dc (dentry_move dup dp1 ddp2 dname);;
           (if negb (dp2 =? 0) then on_dc (dentry_remove dp2) else mret tt);;
           mret e);
      on_cache (vn_unlock w2.1);;
      on_cache (vn_unlock w1.1);;
      mret e
  end.

Definition sys_rename (fuel : nat) (a : Z) (dup : bool) (src dest : list Z) : M (@files F) Z :=
  let '(src, ts) := strip_slash src in
  l ← on_v (Namei.lookup sizeof_dentry calloc (pad_vp p) (pad_name p) src);
  let '(error, ddp1, sname) := l in
  if negb (error =? 0) then mret error else
  r ← on_v (namei_last_nofollow sizeof_dentry calloc (pad_vp p) src ddp1);
  if negb (r.1 =? 0) then on_v (on_dc (drele ddp1));; mret r.1 else
  let dp1 := r.2 in
  v1 ← on_v (vnode_of dp1);
  on_v (on_cache (vn_lock v1.1));;
  let err1 e := on_v (on_cache (vn_unlock v1.1);; on_dc (drele dp1);; on_dc (drele ddp1);; mret e) in
  let isdir := bool_decide (v_type v1.2 = VDIR) in
  if negb isdir && ts then err1 ENOTDIR else
  let '(dest, ts) := strip_slash dest in
  l ← on_v (Namei.lookup sizeof_dentry calloc (pad_vp p) (pad_name p) dest);
  let '(error, ddp2, _) := l in
  if negb (error =? 0) then err1 error else
  r ← on_v (namei_last_nofollow sizeof_dentry calloc (pad_vp p) dest ddp2);
  let dp2 := r.2 in
  if r.1 =? 0 then
    v2 ← on_v (vnode_of dp2);
    on_v (on_cache (vn_lock v2.1));;
    e ← rename_target fuel a dest (v_type v1.2) (v_type v2.2) ts;
    e ← (if negb (e =? 0) then mret e else on_v (rename_entry dup src dest sname ddp1 dp1 v1.1 ddp2 dp2 v2.1 0));
    on_v (on_cache (vn_unlock v2.1);; on_dc (drele dp2);; on_dc (drele ddp2));;
    err1 e
  else
    e ← (if r.1 =? ENOENT then
           if negb isdir && ts then mret ENOTDIR else on_v (rename_entry dup src dest sname ddp1 dp1 v1.1 ddp2 0 0 ENOENT)
         else mret r.1);
    on_v (on_dc (drele ddp2));;
    err1 e.

End Code.

(** ** New directories *)

Section Correct.
Context {F : Type} `{FileSystemLaws F}.
Context (sizeof_dentry : Z) (calloc : dcache -> Z).
Hypothesis calloc_fresh : forall s, calloc s <> 0 /\ dentries s !! calloc s = None.
Context (p : pads) (ops : vnode_ops F) (roots : Z -> option Z) (live : list Z).

(** The promise of [VOP_MKDIR]. *)
Definition mkdir_law : Prop :=
  forall mode, Z.land mode S_IFMT = S_IFDIR -> makes (fun dvp name => op_mkdir ops dvp name mode) VDIR.

(** How a call ends that makes the entry [name] of the type [ty] in [nd]. *)
Definition made (ty : vtype) (s s' : @vfs F) (hd hv : Z -> Z) (m : mount) (nd : Z) (name : list Z) (e : Z) : Prop :=
  mounts s' = mounts s /\ vfs_ok roots live s' hd hv /\
  exists md mt, mount_of s (m_addr m) = Some mt /\ e = vn_access md (m_flags mt) VWRITE /\
    if e =? 0 then exists n, created ty s s' nd name n else fs_same (fss s) (fss s').

(** A name that is not there is looked up and made. *)
Lemma make_new op ty s hd hv path before name m q q' r nd : makes op ty -> vfs_ok roots live s hd hv ->
  creatable roots s hd hv path before name m q q' r nd ->
  exists s1 s' e, lookup_dentry sizeof_dentry calloc p path s = Ok ((ENOENT, 0), s1) /\ make_entry sizeof_dentry calloc p op path s1 = Ok (e, s') /\
    made ty s s' hd hv m nd name e.
Proof.
  intros Hlaw Hok Hcrt. destruct (create_begin sizeof_dentry calloc calloc_fresh p roots live _ _ _ _ _ _ _ _ _ _ _ Hok Hcrt)
    as (s1 & s2 & ddp & Hrun1 & Hrun2 & Hsame & Hm & Hrm2 & Hok2 & Hat2).
  destruct Hcrt as [_ [Hnm Hnl] [Hf Hr Hlen Hp Hlk _] _ _ (Htree & Hk & Hent)]. destruct (vfs_held _ _ _ _ _ Hok) as [Hh Hroots].
  assert (roots_held s2 hd) as Hroots2 by (intros m'; rewrite Hm; apply Hroots).
  destruct (create_in roots live op ty s2 hd hv ddp (m_addr m) r (segs q') nd name (length (segs q) + 0) Hlaw Hok2 Hroots2 Hh Hat2 Hnm Hnl)
    as (vp & v & f' & n & t & Hvn & Hv & Hvm & Hcr & Hul & Hdr & Hok3 & (Hmore & Hn & Hkn) & _);
    [by rewrite (proj1 (Hsame nd))|by rewrite (proj2 (Hsame nd))|by eapply no_links_same|done|].
  cbv zeta in *. destruct (cache_lock roots live _ _ _ vp v Hok2 Hv) as [Hlock Hul2]. destruct (mount_of_vnode roots live _ _ _ _ _ Hok2 Hv) as [mt Hmt].
  assert (mount_of s (m_addr m) = Some mt) as Hmt' by (unfold mount_of in *; by rewrite <- Hvm, <- Hm).
  exists s1. unfold make_entry. rewrite (bind_ret _ _ _ _ _ Hrun2). change (negb (0 =? 0)) with false. cbv iota.
  rewrite (bind_ret _ _ _ _ _ Hvn). cbn [fst snd]. rewrite (bind_ret _ _ _ _ _ Hlock), (bind_ret _ _ _ _ _ (write_access_ok _ _ _ Hmt)).
  destruct (Z.eqb_spec (vn_access (v_mode v) (m_flags mt) VWRITE) 0) as [E|E]; cbn [negb].
  - rewrite (bind_ret _ _ _ _ _ Hcr), (bind_ret _ _ _ _ _ Hul), (bind_ret _ _ _ _ _ Hdr). eexists _, 0. split; [done|]. split; [done|].
    split; [done|]. split; [done|]. exists (v_mode v), mt. split; [done|]. split; [done|]. exists n. split; [by eapply fs_more_same|]. done.
  - destruct (drele_vfs _ _ _ _ _ _ Hok2 Hroots2 Hh) as (t2 & Hdr2 & Hok4 & _). rewrite (bind_ret _ _ _ (vn_access (v_mode v) (m_flags mt) VWRITE) s2) by done.
    rewrite (bind_ret _ _ _ _ _ Hul2), (bind_ret _ _ _ _ _ Hdr2). eexists _, _. split; [done|]. split; [done|].
    split; [done|]. split; [done|]. exists (v_mode v), mt. split; [done|]. split; [done|]. by rewrite (proj2 (Z.eqb_neq _ 0) E).
Qed.

(** C13. A new directory: for a path whose directory exists and does not have the last
    name of it, sys_mkdir makes a directory of that name there if the directory may be
    written to, and every other entry of the tree is kept; if not, it returns EACCES or
    EROFS and changes nothing. Either way the caches are consistent and no reference is
    left behind. Look-up can get to the directory (see [creatable]), and the mkdir
    operation of the file system makes an empty directory. *)
Theorem sys_mkdir_creates s hd hv path before name m q q' r nd mode : mkdir_law -> vfs_ok roots live s hd hv ->
  creatable roots s hd hv path before name m q q' r nd ->
  exists s' e, sys_mkdir sizeof_dentry calloc p ops path mode s = Ok (e, s') /\ made VDIR s s' hd hv m nd name e.
Proof.
  intros Hlaw Hok Hcrt. destruct (open_windows p roots live _ _ _ Hok) as (t & Hw & Hok0 & Hrm0). unfold sys_mkdir. rewrite (bind_ret _ _ _ _ _ Hw).
  destruct (make_new (fun dvp name => op_mkdir ops dvp name (Z.lor (clear mode S_IFMT) S_IFDIR)) VDIR (set_dcs t s) hd hv path before name m q q' r nd
    (Hlaw _ (typed_mode mode S_IFDIR eq_refl)) Hok0) as (s1 & s' & e & Hrun1 & Hrun2 & Hmade).
  { destruct Hcrt as [? ? [] ? ? ?]. split; try done. split; auto. }
  rewrite (bind_ret _ _ _ _ _ Hrun1). by exists s', e.
Qed.

(** A link to a directory is undefined: for an old path that leads to a
    directory, sys_link goes on to release the dentry of the new path before it has
    looked it up, through a variable that was never set. *)
Theorem sys_link_undefined s hd hv oldpath newpath m q r n dup : vfs_ok roots live s hd hv -> resolvable roots s hd hv oldpath m q r 0 ->
  lookup_tree (fss s) r (segs q) (ends_slash q) = RFound n -> kind (fss s) n = VDIR ->
  sys_link sizeof_dentry calloc p ops dup oldpath newpath s = Undef.
Proof.
  intros Hok [Hf Hr Hlen Hp Hlk Hrm] Htree Hk. destruct (vfs_held _ _ _ _ _ Hok) as [Hh Hroots].
  destruct (namei_ok sizeof_dentry calloc calloc_fresh roots live 0 s hd hv m q r oldpath (pad_vp p) (pad_name p) Hok Hf Hr Hlen Hp Hlk Hrm)
    as (s1 & e1 & Hrun & Hsame & Hm & _ & Hres). rewrite Htree in Hres. destruct Hres as (dp & -> & Hok1 & (d & v & Hd & _ & _ & Hv & _ & _ & _ & _ & Hty)).
  unfold sys_link, lookup_dentry. rewrite (bind_ret _ _ _ _ _ Hrun). cbn [fst snd]. change (negb (0 =? 0)) with false. cbv iota zeta.
  rewrite (bind_ret _ _ _ d s1) by (apply on_dc_id; by apply deref_ok). rewrite (bind_ret _ _ _ _ _ (vnode_of_ok _ _ _ _ Hd Hv)). cbn [fst snd].
  destruct (cache_lock roots live _ _ _ _ v Hok1 Hv) as [Hl Hul]. rewrite (bind_ret _ _ _ _ _ Hl), Hty, (proj1 (Hsame n)), Hk, (bool_decide_true _ eq_refl).
  destruct (drele_vfs _ _ _ _ _ _ Hok1) as (t & Hdr & _); [intros m'; rewrite Hm; apply Hroots|done|].
  by rewrite (bind_ret _ _ _ _ _ Hul), (bind_ret _ _ _ _ _ Hdr).
Qed.

End Correct.
