(* ===== verification/Unlink.v ===== *)
(** Removing a name: [sys_unlink] (vfscore/syscalls.c) takes exactly that name out
    of the tree and out of the cache of names.

    The invariant of the caches speaks of hashed dentries only.  The dentry of the
    removed name is no longer hashed, and stays for as long as somebody holds it. *)
From S2P Require Import Prelude VfsTypes Windows PathConv Vnode Dentry Dcache Namei Resolve Mount Open Syscalls.
From stdpp Require Import base numbers gmap fin_maps sets list.
Import Errno.
#[local] Open Scope Z_scope.

Section Unlink.
Context {F : Type} `{FileSystemLaws F}.
Context (sizeof_dentry : Z) (calloc : dcache -> Z).
Hypothesis calloc_fresh : forall s, calloc s <> 0 /\ dentries s !! calloc s = None.
Context (p : pads) (ops : vnode_ops F) (roots : Z -> option Z) (live : list Z).

(** ** A tree without a node *)

(** [f'] is [f] without the names of the node [x]. *)
Definition fs_less (f f' : F) (x : Z) : Prop :=
  (forall n, kind f' n = kind f n) /\
  forall n c, kind f n = VDIR -> entry f' n c = if decide (entry f n c = Some x) then None else entry f n c.

(** The promise of [VOP_REMOVE], which does not look at the name. *)
Definition remove_law : Prop :=
  forall f s held dvp d vp v name ptr, vc_ok s held -> fs_inv f s -> vnodes s !! dvp = Some d -> vnodes s !! vp = Some v ->
    kind f (v_data d) = VDIR -> entry f (v_data d) name = Some (v_data v) ->
    exists f', op_remove ops dvp vp ptr (f, s) = Ok (0, (f', s)) /\ fs_less f f' (v_data v) /\ fs_inv f' s.

(** Paths to other nodes lead where they did. *)
Lemma lookup_tree_less f f' n r cs x : fs_less f f' n -> kind f n <> VDIR -> kind f r = VDIR ->
  lookup_tree f r cs false = RFound x -> x <> n -> lookup_tree f' r cs false = RFound x.
Proof.
  intros [Hk He] Hn. revert r. induction cs as [|c cs IH]; intros r Hr; [done|]. cbn [lookup_tree].
  destruct (entry f r c) as [n1|] eqn:E; [|done]. intros Hx Hne.
  assert (n1 <> n) as Hn1.
  { intros ->. destruct cs; [simpl in Hx; congruence|]. by rewrite (bool_decide_false _ Hn) in Hx. }
  rewrite (He r c Hr), E, decide_False, Hk by congruence. destruct cs as [|c' cs]; [done|]. cbn [bool_decide negb orb] in *.
  rewrite !bool_decide_decide in *. destruct (decide (kind f n1 = VDIR)); [|done]. by apply IH.
Qed.

Lemma fs_less_same f f1 f' n : fs_same f f1 -> fs_less f1 f' n -> fs_less f f' n.
Proof.
  intros Hs [Hk He]. split; [intros x; rewrite Hk; apply Hs|]. intros x c Hx. destruct (Hs x) as [E Ec]. rewrite He, Ec; [done|congruence].
Qed.

(** The caches after the dentry of a removed node has been taken out. *)
Lemma vfs_ok_removed s hd hv dp mp r cs n f' t : vfs_ok roots live s hd hv -> at_node roots s dp mp r cs n -> cs <> [] -> dp ∈ concat (dtable (dcs s)) ->
  kind (fss s) n <> VDIR -> (forall mp' r' cs', roots mp' = Some r' -> lookup_tree (fss s) r' cs' false = RFound n -> mp' = mp /\ cs' = cs) ->
  fs_less (fss s) f' n -> fs_inv f' (vc (dcs s)) -> dc_ok t hd hv -> dentries t = dentries (dcs s) -> (dp ∉ concat (dtable t)) ->
  vc t = vc (dcs s) -> (forall x, x ∈ concat (dtable t) -> x ∈ concat (dtable (dcs s))) -> (forall x, x ∈ fake t -> x = dp \/ x ∈ fake (dcs s)) ->
  vfs_ok roots live (Vfs t f' (mounts s)) hd hv.
Proof.
  intros Hok (d & v & Hd & Hdm & Hdp & Hv & Hdn & Hr & Hl & HF & _) Hcs Hin Hkn Hsole Hless Hinv Hdc Ede Hout Evc Htab Hfk.
  split; simpl; rewrite ?Ede, ?Evc; [done|done| | | |apply Hok|apply Hok].
  - intros x e Hx He. destruct (ok_dentry _ _ _ _ _ Hok x e (Htab x Hx) He) as (cs' & w & r' & HF' & Hp' & Hl' & Hw & Hr' & Ht' & Hty).
    exists cs', w, r'. simpl. rewrite Evc. split; [done|]. split; [done|]. split; [done|]. split; [done|]. split; [done|].
    split; [|by rewrite (proj1 Hless)]. eapply lookup_tree_less; [done|done|by eapply dentry_root|done|]. intros Ewn. rewrite Ewn in Ht'.
    destruct (Hsole _ _ _ Hr' Ht') as [Em ->]. apply Hout. rewrite <- (ok_unique _ _ _ _ _ Hok x dp e d); auto; congruence.
  - intros x x' e e' Hx Hx'. apply (ok_unique _ _ _ _ _ Hok); auto.
  - intros m Hm. destruct (ok_mount _ _ _ _ _ Hok m Hm) as (? & Hf & e & r' & He & ? & Hp' & ? & Hk). split; [done|]. split.
    + intros [E|?]%Hfk; [|done]. rewrite E, Hd in He. injection He as ->. rewrite Hdp in Hp'. injection Hp' as E2. by apply Hcs, dir_string_inj.
    + exists e, r'. by rewrite (proj1 Hless).
Qed.

(** ** The dentry of the last name *)

Lemma at_node_keep s s' hd hv dp mp r cs n : at_node roots s dp mp r cs n -> vfs_ok roots live s' hd hv ->
  static <$> dentries (dcs s) ⊆ static <$> dentries (dcs s') -> same_vnodes (vc (dcs s)) (vc (dcs s')) -> fs_same (fss s) (fss s') ->
  at_node roots s' dp mp r cs n.
Proof.
  intros (d & v & Hd & <- & Hp & Hv & <- & Hr & Hl & HF & Hty) Hok Hst Hvs Hs.
  destruct (static_get _ _ dp d Hst Hd) as (d' & Hd' & [= Ep Ev Em _]). destruct (dentry_vnode _ _ _ _ _ _ (ok_dc _ _ _ _ _ Hok) Hd') as (v' & Hv' & _).
  rewrite Ev in Hv'. injection (Hvs _ _ _ Hv Hv') as _ _ Ety _ _ _ Edata. exists d', v'. rewrite Ep, Ev, Em, Ety, Edata, (proj1 (Hs _)).
  rewrite (lookup_tree_same _ _ _ _ _ Hs). done.
Qed.

(** The path of a dentry is not changed by the code that drops a slash at its end. *)
Lemma no_slash_end cs name : Forall name_ok (cs ++ [name]) ->
  let node := dir_string (cs ++ [name]) in
  let l := (length node - 1)%nat in
  (if bool_decide (l <> 0%nat) && bool_decide (node !! l = Some SLASH) then take l node else node) = node.
Proof.
  intros HF node l. rewrite (bool_decide_false (node !! l = Some SLASH)); [by rewrite andb_false_r|].
  destruct (render_last (cs ++ [name])) as (x & Hx & Hne); [by destruct cs|done|]. unfold l, node. rewrite dir_string_snoc.
  replace (length (render (cs ++ [name])) - 1)%nat with (pred (length (render (cs ++ [name])))) by lia. rewrite <- last_lookup, Hx. congruence.
Qed.

Lemma stack_window_at (s s' : @vfs F) i a dp mp r cs n : stack_window i a s = Ok (tt, s') -> at_node roots s dp mp r cs n -> at_node roots s' dp mp r cs n.
Proof. intros E. unfold stack_window, zoom in E. by injection E as <-. Qed.

Lemma stack_window_room (s s' : @vfs F) i a hd hv n : stack_window i a s = Ok (tt, s') -> room s hd hv n -> room s' hd hv n.
Proof. intros E. unfold stack_window, zoom in E. injection E as <-. by intros []. Qed.

Lemma nofollow_ok s hd hv path before name m q r cs ddp nd n : vfs_ok roots live s (add_held hd ddp 1) hv -> room s hd hv 1 ->
  head path = Some SLASH -> strrchr path = Some (before, name) -> vfs_findroot (mounts s) path = Some (m, q) ->
  SLASH :: q = dir_string (cs ++ [name]) -> (length q + 1 < PATH_MAX)%nat -> Forall name_ok (cs ++ [name]) ->
  at_node roots s ddp (m_addr m) r cs nd -> kind (fss s) nd = VDIR -> entry (fss s) nd name = Some n ->
  exists s' dp, namei_last_nofollow sizeof_dentry calloc (pad_vp p) path ddp s = Ok ((0, dp), s') /\ fs_same (fss s) (fss s') /\ mounts s' = mounts s /\
    vfs_ok roots live s' (add_held (add_held hd ddp 1) dp 1) hv /\ at_node roots s' ddp (m_addr m) r cs nd /\
    at_node roots s' dp (m_addr m) r (cs ++ [name]) n /\ dp ∈ concat (dtable (dcs s')).
Proof.
  intros Hok0 Hrm0 Hhd Hsp Hf Hq Hl HF Hat0 Hk Hent.
  destruct (stack_window_ok roots live s _ hv 3 (pad_vp p) Hok0) as (t & Hw & Hok & _). pose proof (stack_window_at _ _ _ _ _ _ _ _ _ Hw Hat0) as Hat.
  pose proof (stack_window_room _ _ _ _ _ _ _ Hw Hrm0) as Hrm.
  unfold namei_last_nofollow. rewrite (bind_ret _ _ _ _ _ Hw), (bool_decide_true _ Hhd), Hsp. cbn [negb].
  rewrite (bind_ret _ _ _ (mounts s) (set_dcs t s)) by (by apply gets_ok). rewrite Hf, strlcat_fits by (simpl; lia). cbn [app]. rewrite Hq.
  cbv zeta. rewrite (no_slash_end cs name HF). set (s1 := set_dcs t s) in *. pose proof Hat as (d & v & Hd & Hm & _ & Hv & Hn & Hr & Htree & _).
  destruct (lock_ok _ _ _ _ _ (ok_dc _ _ _ _ _ Hok) Hv) as [Hlock _].
  rewrite (bind_ret _ _ _ d s1) by (apply on_dc_id; by apply deref_ok). rewrite (bind_ret _ _ _ tt s1) by (by apply on_dc_id).
  assert (forall x, add_held hd ddp 1 x <= hd x + 1) as Hle by (intros x; unfold add_held; case_match; lia).
  assert (length (dir_string (cs ++ [name])) < PATH_MAX)%nat as Hlen by (rewrite <- Hq; simpl; lia).
  subst nd. pose proof (lookup_tree_snoc (fss s1) r cs name (v_data v) Htree (or_intror Hk)) as Hsnoc. change (fss s1) with (fss s) in Hsnoc. rewrite Hent in Hsnoc.
  assert (exists s' dp, get_dentry sizeof_dentry calloc (m_addr m) ddp (d_vnode d) (dir_string (cs ++ [name])) name s1 = Ok ((0, dp), s') /\
    vfs_ok roots live s' (add_held (add_held hd ddp 1) dp 1) hv /\ at_node roots s' dp (m_addr m) r (cs ++ [name]) n /\ fs_same (fss s) (fss s') /\
    mounts s' = mounts s /\ static <$> dentries (dcs s1) ⊆ static <$> dentries (dcs s') /\ dp ∈ concat (dtable (dcs s')) /\
    same_vnodes (vc (dcs s1)) (vc (dcs s'))) as (s2 & dp & Hrun & Hok2 & Hat2 & Hs & Hm2 & Hst & Hin & Hvs).
  { rewrite <- Hm. destruct (get_dentry_hit sizeof_dentry calloc roots live s1 _ hv hd ddp (d_vnode d) (d_mount d) r cs name 0 Hok Hle Hrm HF Hlen)
      as [(s2 & dp & n' & Hrun & Hok2 & _ & Hat2 & Ef & Em & Hst & Hin & Ev)|[Hmiss Hno]]; [congruence| |].
    - assert (n' = n) as -> by (destruct Hat2 as (? & ? & _ & _ & _ & _ & _ & _ & Ht2 & _); rewrite Ef in Ht2; simpl in Ht2; congruence).
      exists s2, dp. rewrite Ef, Em, Ev, Hst. split_and!; try done. intros vp x x' Hx Hx'. congruence.
    - destruct (get_dentry_new sizeof_dentry calloc calloc_fresh roots live s1 _ hv hd ddp d v r cs name 0 n Hok Hle Hrm Hmiss Hno Hd Hv Hk HF)
        as (s2 & dp & ? & ? & _ & ? & ? & ? & ? & ? & ?); try done; [by apply Forall_app in HF as [_ [? _]%Forall_cons]|congruence|]. by exists s2, dp. }
  rewrite (bind_ret _ _ _ _ _ Hrun). pose proof (at_node_keep s1 s2 _ hv _ _ _ _ _ Hat Hok2 Hst Hvs Hs) as Hat'.
  destruct (static_get _ _ ddp d Hst Hd) as (d2 & Hd2 & [= _ Ev2 _ _]). destruct (dentry_vnode _ _ _ _ _ _ (ok_dc _ _ _ _ _ Hok2) Hd2) as (v2 & Hv2 & _).
  rewrite Ev2 in Hv2. destruct (lock_ok _ _ _ _ _ (ok_dc _ _ _ _ _ Hok2) Hv2) as [_ Hul].
  rewrite (bind_ret _ _ _ tt s2) by (by apply on_dc_id). by exists s2, dp.
Qed.

(** ** sys_unlink *)

(** [path] is the only name of the node [n]: [name] in the directory [nd], which is
    found at [q'] below the mount [m].  It is spelt as the cache spells it. *)
Record removable (s : @vfs F) (hd hv : Z -> Z) (path before name : list Z) (m : mount) (q q' : list Z) (r nd n : Z) : Prop := {
  re_split : head path = Some SLASH /\ strrchr path = Some (before, name) /\ (length path < PATH_MAX)%nat;
  re_names : Forall name_ok (segs q' ++ [name]) /\ SLASH :: q = dir_string (segs q' ++ [name]) /\ (length q + 1 < PATH_MAX)%nat;
  re_find : vfs_findroot (mounts s) path = Some (m, q);
  re_dir : resolvable roots s hd hv (dir_part before) m q' r 1;
  re_found : lookup_tree (fss s) r (segs q') (ends_slash q') = RFound nd /\ kind (fss s) nd = VDIR /\ entry (fss s) nd name = Some n;
  re_file : kind (fss s) n <> VDIR;
  re_sole : forall mp r' cs, roots mp = Some r' -> lookup_tree (fss s) r' cs false = RFound n -> mp = m_addr m /\ cs = segs q' ++ [name]
}.

(** How it ends: [flags] is what the memory of the vnode had in its flags. *)
Definition unlinked (s s' : @vfs F) (hd hv : Z -> Z) (m : mount) (n e : Z) : Prop :=
  mounts s' = mounts s /\ vfs_ok roots live s' hd hv /\
  exists flags md mt, mount_of s (m_addr m) = Some mt /\ e = (if flag flags VROOT then EBUSY else vn_access md (m_flags mt) VWRITE) /\
    if e =? 0 then fs_less (fss s) (fss s') n else fs_same (fss s) (fss s').

(** Both references are dropped again, in either order. *)
Lemma drele_both s hd hv ddp dp : vfs_ok roots live s (add_held (add_held hd ddp 1) dp 1) hv -> roots_held s hd -> (forall x, 0 <= hd x) ->
  exists t, (on_dc (drele dp);; on_dc (drele ddp)) s = Ok (tt, set_dcs t s) /\ vfs_ok roots live (set_dcs t s) hd hv.
Proof.
  intros Hok Hr Hh. assert (forall x, hd x <= add_held hd ddp 1 x) as Hle by (intros x; unfold add_held; case_match; lia).
  destruct (drele_vfs _ _ _ _ _ _ Hok) as (t & Hrun & Hok1 & _).
  { intros m' Hm'. specialize (Hr m' Hm'). specialize (Hle (m_root m')). lia. } { intros x. specialize (Hh x). specialize (Hle x). lia. }
  destruct (drele_vfs _ _ _ _ _ _ Hok1 Hr Hh) as (t2 & Hrun2 & Hok2 & _). exists t2. by rewrite (bind_ret _ _ _ _ _ Hrun).
Qed.

(** The node is removed, and its dentry is taken out of the cache. *)
Lemma remove_node_dentry s hd hv ptr ddp dp mp r cs name nd n : remove_law -> vfs_ok roots live s hd hv -> at_node roots s ddp mp r cs nd ->
  at_node roots s dp mp r (cs ++ [name]) n -> dp ∈ concat (dtable (dcs s)) -> kind (fss s) nd = VDIR -> entry (fss s) nd name = Some n ->
  kind (fss s) n <> VDIR -> (forall mp' r' cs', roots mp' = Some r' -> lookup_tree (fss s) r' cs' false = RFound n -> mp' = mp /\ cs' = cs ++ [name]) ->
  exists wp w vp v f' t, let s1 := Vfs (dcs s) f' (mounts s) in
    vnode_of ddp s = Ok ((wp, w), s) /\ vnode_of dp s = Ok ((vp, v), s) /\ v_type v <> VDIR /\ v_mount w = mp /\
    vnodes (vc (dcs s)) !! wp = Some w /\ vnodes (vc (dcs s)) !! vp = Some v /\ on_fs (op_remove ops wp vp ptr) s = Ok (0, s1) /\
    fs_less (fss s) f' n /\ on_dc (dentry_remove dp) s1 = Ok (tt, set_dcs t s1) /\ vfs_ok roots live (set_dcs t s1) hd hv.
Proof.
  intros Hlaw Hok (dd & w & Hdd & Hddm & _ & Hw & Hwn & _) Hat Hin Hk Hent Hkn Hsole. subst nd. pose proof Hat as (d & v & Hd & _ & _ & Hv & Hvn & _ & _ & _ & Hty).
  pose proof (ok_dc _ _ _ _ _ Hok) as Hdc. destruct (dentry_vnode _ _ _ _ _ _ Hdc Hdd) as (w' & Hw' & Ew). rewrite Hw in Hw'. injection Hw' as <-.
  rewrite <- Hvn in Hent. destruct (Hlaw (fss s) (vc (dcs s)) _ (d_vnode dd) w (d_vnode d) v name ptr (dc_vc _ _ _ _ Hdc) (ok_fs _ _ _ _ _ Hok) Hw Hv Hk Hent)
    as (f' & Hrun & Hless & Hinv). rewrite Hvn in Hless.
  destruct (dentry_remove_ok (dcs s) hd hv dp d Hdc Hd) as (t & Hrun2 & Hdc2 & Ede & Hout & Evc & Htab & Hfk).
  exists (d_vnode dd), w, (d_vnode d), v, f', t. cbv zeta. split; [by apply vnode_of_ok|]. split; [by apply vnode_of_ok|]. split; [congruence|].
  split; [congruence|]. split; [done|]. split; [done|]. split; [unfold on_fs, zoom; rewrite Hrun; by destruct s as [[]]|]. split; [done|].
  split; [by apply zoom_ok|]. apply (vfs_ok_removed s hd hv dp mp r (cs ++ [name]) n f' t); try done. by destruct cs.
Qed.

(** Up to where the dentries of the directory and of the file are known. *)
Lemma unlink_find s hd hv path before name m q q' r nd n : vfs_ok roots live s hd hv -> removable s hd hv path before name m q q' r nd n ->
  exists s1 s2 ddp dp, Namei.lookup sizeof_dentry calloc (pad_vp p) (pad_name p) path s = Ok ((0, ddp, name), s1) /\
    namei_last_nofollow sizeof_dentry calloc (pad_vp p) path ddp s1 = Ok ((0, dp), s2) /\ fs_same (fss s) (fss s2) /\ mounts s2 = mounts s /\
    vfs_ok roots live s2 (add_held (add_held hd ddp 1) dp 1) hv /\ at_node roots s2 ddp (m_addr m) r (segs q') nd /\
    at_node roots s2 dp (m_addr m) r (segs q' ++ [name]) n /\ dp ∈ concat (dtable (dcs s2)).
Proof.
  intros Hok [(Hhd & Hsp & Hlen) (HF & Hq & Hlq) Hf Hrs (Htree & Hk & Hent) _ _].
  destruct (lookup_dir_ok sizeof_dentry calloc calloc_fresh p roots live s hd hv path before name m q' r nd 1 Hok Hsp Hlen Hrs Htree Hk)
    as (s1 & ddp & Hrun1 & Hs1 & Hm1 & Hrm1 & Hok1 & Hat1).
  destruct (nofollow_ok s1 hd hv path before name m q r (segs q') ddp nd n Hok1 Hrm1 Hhd Hsp) as (s2 & dp & Hrun2 & Hs2 & Hm2 & Hok2 & Hatd & Hat & Hin); try done.
  { by rewrite Hm1. } { by rewrite (proj1 (Hs1 nd)). } { by rewrite (proj2 (Hs1 nd)). }
  exists s1, s2, ddp, dp. split; [done|]. split; [done|]. split; [by etrans|]. split; [by rewrite Hm2, Hm1|]. done.
Qed.

(** C12. Removing a file: for a path that is the only name of a file, sys_unlink takes
    the file out of its directory if the directory may be written to, and every other
    entry of the tree is kept; if not, it returns EACCES or EROFS, and EBUSY if the
    memory of the vnode happens to have the flag of a root, and changes nothing. Either
    way no hashed dentry names what is not there, and no reference is left behind.
    Look-up can get to the file (see [removable]: no symbolic links, and memory, windows
    and counts suffice), and the remove operation of the file system takes it out. *)
Theorem sys_unlink_removes s hd hv path before name m q q' r nd n ptr : remove_law -> vfs_ok roots live s hd hv ->
  removable s hd hv path before name m q q' r nd n ->
  exists s' e, sys_unlink sizeof_dentry calloc p ops ptr path s = Ok (e, s') /\ unlinked s s' hd hv m n e.
Proof.
  intros Hlaw Hok0 Hre. destruct (vfs_held _ _ _ _ _ Hok0) as [Hh Hroots]. destruct (open_windows p roots live _ _ _ Hok0) as (t & Hw & Hok & Hrm0).
  unfold sys_unlink. rewrite (bind_ret _ _ _ _ _ Hw). set (s0 := set_dcs t s) in *.
  destruct (unlink_find s0 hd hv path before name m q q' r nd n Hok) as (s1 & s2 & ddp & dp & Hrun1 & Hrun2 & Hs & Hm & Hok2 & Hatd & Hat & Hin).
  { destruct Hre as [? ? ? [] ? ? ?]. split; try done. split; auto. }
  destruct Hre as [_ _ _ _ (_ & Hk & Hent) Hkn Hsole]. rewrite (bind_ret _ _ _ _ _ Hrun1). change (negb (0 =? 0)) with false. cbv iota.
  rewrite (bind_ret _ _ _ _ _ Hrun2). cbn [fst snd]. change (negb (0 =? 0)) with false. cbv iota zeta. change (fss s0) with (fss s) in Hs. change (mounts s0) with (mounts s) in Hm.
  destruct (remove_node_dentry s2 _ hv ptr ddp dp _ _ _ name nd n Hlaw Hok2 Hatd Hat Hin) as (wp & w & vp & v & f' & t2 & Hvw & Hvv & Hty & Hwm & Hw2 & Hv2 & Hrem & Hless & Hdr & Hok3).
  { by rewrite (proj1 (Hs nd)). } { by rewrite (proj2 (Hs nd)). } { by rewrite (proj1 (Hs n)). }
  { intros mp' r' cs' Hr'. rewrite (lookup_tree_same _ _ _ _ _ Hs). by apply Hsole. }
  cbv zeta in *. assert (roots_held s2 hd) as Hroots2 by (intros m'; rewrite Hm; apply Hroots).
  destruct (mount_of_vnode roots live _ _ _ _ _ Hok2 Hw2) as [mt Hmt].
  assert (mount_of s (m_addr m) = Some mt) as Hmt' by (unfold mount_of in *; by rewrite <- Hwm, <- Hm).
  destruct (cache_lock roots live _ _ _ vp v Hok2 Hv2) as [Hlv Huv]. destruct (cache_lock roots live _ _ _ wp w Hok2 Hw2) as [Hlw Huw].
  destruct (drele_both s2 hd hv ddp dp Hok2 Hroots2 Hh) as (t3 & Hout & Hok4).
  assert (forall e : Z, (on_cache (vn_unlock vp);; on_dc (drele dp);; on_dc (drele ddp);; mret e) s2 = Ok (e, set_dcs t3 s2)) as Hend.
  { intros e. rewrite (bind_ret _ _ _ _ _ Huv). apply bind_ok in Hout as ([] & u & H1 & H2). by rewrite (bind_ret _ _ _ _ _ H1), (bind_ret _ _ _ _ _ H2). }
  rewrite (bind_ret _ _ _ _ _ Hvv). cbn [fst snd]. rewrite (bind_ret _ _ _ _ _ Hlv), (bool_decide_false _ Hty).
  destruct (flag (v_flags v) VROOT) eqn:Efl.
  { rewrite Hend. eexists _, EBUSY. split; [done|]. split; [done|]. split; [done|]. exists (v_flags v), 0, mt. by rewrite Efl. }
  rewrite (bind_ret _ _ _ _ _ Hvw). cbn [fst snd]. rewrite (bind_ret _ _ _ _ _ Hlw), (bind_ret _ _ _ _ _ (write_access_ok _ _ _ Hmt)).
  set (e := vn_access (v_mode w) (m_flags mt) VWRITE). destruct (Z.eqb_spec e 0) as [E|E]; cbn [negb].
  2:{ rewrite (bind_ret _ _ _ _ _ Huw), Hend. eexists _, e. split; [done|]. split; [done|]. split; [done|]. exists (v_flags v), (v_mode w), mt.
      rewrite Efl, (proj2 (Z.eqb_neq e 0) E). done. }
  set (s3 := Vfs (dcs s2) f' (mounts s2)) in *. rewrite (bind_ret _ _ _ _ _ Hrem).
  destruct (lock_ok _ _ _ wp w (ok_dc _ _ _ _ _ Hok2) Hw2) as [_ Huw']. destruct (lock_ok _ _ _ vp v (ok_dc _ _ _ _ _ Hok2) Hv2) as [_ Huv'].
  rewrite (bind_ret _ _ _ tt s3) by (by apply on_dc_id). rewrite (bind_ret _ _ _ tt s3) by (by apply on_dc_id). rewrite (bind_ret _ _ _ _ _ Hdr).
  destruct (drele_both (set_dcs t2 s3) hd hv dp ddp) as (t4 & Hout2 & Hok5); [|done|done|].
  { eapply vfs_ok_ext; [|done|exact Hok3]. intros x. unfold add_held. repeat case_match; lia. }
  apply bind_ok in Hout2 as ([] & u & H1 & H2). rewrite (bind_ret _ _ _ _ _ H1), (bind_ret _ _ _ _ _ H2).
  eexists _, 0. split; [done|]. split; [done|]. split; [done|]. exists (v_flags v), (v_mode w), mt. rewrite Efl.
  split; [done|]. split; [done|]. by eapply fs_less_same.
Qed.

End Unlink.
