(* ===== verification/RamfsNames.v ===== *)
(** The names of the RAM file system as the system calls see them: its operations
    on the vnodes of the cache, and that they keep what the calls that make and
    remove names rely on.  The witnesses of [Syscalls] and [Unlink] are here. *)
From S2P Require Import Prelude VfsTypes Windows Uio PathConv Vnode Dentry Dcache Namei Resolve Mount RamfsVfs Rootfs Open RamfsOpen Io RamfsIo Syscalls Unlink.
From S2P Require Ramfs FdTable.
From stdpp Require Import base numbers strings gmap fin_maps sets list.
Import Errno.
#[local] Open Scope Z_scope.

(** ** Code *)

Definition chars (name : string) : list Z := map (fun c => Z.of_N (Ascii.N_of_ascii c)) (String.list_ascii_of_string name).

(** The table of operations.  [a_node], [a_name] and [a_link] are the results of the
    allocations for a node, its name and the target of a link; [alloc] returns the
    memory for a buffer, with the bytes [old] in it. *)
Definition ramfs_ops (a_node a_name a_link alloc : Ramfs.rstate -> Z) (old : Z -> list Z) : vnode_ops Ramfs.rstate := {|
  op_create := ramfs_vop_create a_node a_name;
  op_remove := fun dvp vp _ => on_view (Ramfs.ramfs_remove dvp vp);
  op_rename := fun dvp1 vp1 _ dvp2 vp2 name2 =>
    on_view (x ← gets a_node; y ← gets a_name; Ramfs.ramfs_rename dvp1 vp1 dvp2 vp2 x y (str name2));
  op_mkdir := fun dvp name mode => on_view (x ← gets a_node; y ← gets a_name; Ramfs.ramfs_mkdir dvp x y (str name) mode);
  op_rmdir := fun dvp vp _ => on_view (Ramfs.ramfs_rmdir dvp vp);
  op_getattr := fun vp => on_view (Ramfs.ramfs_getattr vp no_attr);
  op_setattr := fun vp attr => on_view (Ramfs.ramfs_setattr vp attr);
  op_truncate := fun vp len => on_view (b ← gets alloc; Ramfs.ramfs_truncate vp len b (old b));
  op_link := fun _ _ _ => mret EPERM;
  op_symlink := fun dvp name link =>
    on_view (x ← gets a_node; y ← gets a_name; z ← gets a_link; Ramfs.ramfs_symlink dvp x y z (str name) link);
  op_readdir := fun vp off => r ← on_view (Ramfs.ramfs_readdir vp off); mret (r.1.1, chars ∘ Ramfs.d_name <$> r.1.2, r.2);
  op_fsync := fun _ => 0;
  op_ioctl := fun _ _ => EINVAL;
  op_fallocate := Some (fun _ _ _ _ => mret 0)
|}.

(** ** Operations that do not look at vnodes *)

Definition lifted {A} (vn : gmap Z Ramfs.vnode) (o : outcome (A * Ramfs.rstate)) : outcome (A * Ramfs.rstate) :=
  match o with Ok (x, s) => Ok (x, Ramfs.set_vnodes vn s) | Spin => Spin | Abort => Abort | Undef => Undef end.

Definition blind {A} (m : M Ramfs.rstate A) : Prop := forall vn s, m (Ramfs.set_vnodes vn s) = lifted vn (m s).

Create HintDb blind.

Lemma blind_ret {A} (x : A) : blind (mret x).
Proof. done. Qed.

Lemma blind_spin {A} : blind (spin (A := A)).
Proof. done. Qed.

Lemma blind_bind {A B} (m : M Ramfs.rstate A) (k : A -> M Ramfs.rstate B) : blind m -> (forall x, blind (k x)) -> blind (m ≫= k).
Proof.
  intros Hm Hk vn s. unfold mbind, M_bind. cbv beta. rewrite (Hm vn s). destruct (m s) as [[x s']| | |]; [|done..]. apply Hk.
Qed.

Lemma blind_node p : blind (Ramfs.node p).
Proof. intros vn s. unfold Ramfs.node, deref. simpl. by destruct (Ramfs.nodes s !! p). Qed.

Lemma blind_upd_node p g : blind (Ramfs.upd_node p g).
Proof. apply blind_bind; [apply blind_node|]. by intros n vn s. Qed.

Lemma blind_fuel : blind (gets (fun s => size (Ramfs.nodes s))).
Proof. done. Qed.

Lemma blind_set_nodes g : blind (modify (fun s => Ramfs.set_nodes (g (Ramfs.nodes s)) s)).
Proof. done. Qed.

#[local] Hint Resolve blind_ret blind_spin blind_node blind_upd_node blind_fuel : blind.
#[local] Hint Extern 1 (blind (_ ≫= _)) => apply blind_bind; [|intros ?] : blind.
#[local] Hint Extern 2 (blind (match ?x with _ => _ end)) => destruct x : blind.
#[local] Hint Extern 1 (blind (modify _)) => apply (blind_set_nodes (insert _ _)) : blind.

Lemma blind_last_node fuel p : blind (Ramfs.last_node fuel p).
Proof. revert p. induction fuel; intros p; simpl; auto 10 with blind. Qed.

Lemma blind_prev_node fuel p q : blind (Ramfs.prev_node fuel p q).
Proof. revert p. induction fuel; intros p; simpl; auto 10 with blind. Qed.

#[local] Hint Resolve blind_last_node blind_prev_node : blind.

Lemma blind_remove_node dnp np : blind (Ramfs.ramfs_remove_node dnp np).
Proof. unfold Ramfs.ramfs_remove_node. auto 20 with blind. Qed.

Lemma blind_add_node dnp x y name ty : blind (Ramfs.ramfs_add_node dnp x y name ty).
Proof. unfold Ramfs.ramfs_add_node, Ramfs.ramfs_allocate_node. auto 20 with blind. Qed.

(** Vnodes that an operation leaves alone stay in the cache as they are. *)
Lemma on_view_same {A} (m : M Ramfs.rstate A) f s r g : m (view f s) = Ok (r, g) -> Ramfs.vnodes g = vview <$> vnodes s ->
  on_view m (f, s) = Ok (r, (Ramfs.set_vnodes (Ramfs.vnodes f) g, s)).
Proof.
  intros Hrun Hv. unfold on_view. simpl. rewrite Hrun. do 3 f_equal. destruct s as [vn ? ? ?]. unfold set_vnodes. simpl in *. f_equal.
  apply map_eq. intros vp. rewrite map_lookup_imap. destruct (vn !! vp) as [v|] eqn:E; [|done]. simpl. f_equal. unfold updated.
  rewrite Hv, lookup_fmap, E. simpl. by destruct v.
Qed.

(** ** The promise of VOP_REMOVE *)

Lemma lookup_dir_without es np name : NoDup es.*1 ->
  Ramfs.lookup_dir (Ramfs.without np es) name = if decide (Ramfs.lookup_dir es name = Some np) then None else Ramfs.lookup_dir es name.
Proof.
  unfold Ramfs.without. induction es as [|[x q] es IH]; intros Hnd; [done|]. apply NoDup_cons in Hnd as [Hx Hnd]. simpl.
  destruct (decide (q = np)) as [->|Hq].
  - rewrite filter_cons_False by (simpl; tauto). rewrite IH by done. destruct (String.eqb_spec name x) as [->|]; [|done].
    rewrite (decide_True _ _ eq_refl), (proj2 (lookup_dir_none es x) Hx). by case_decide.
  - rewrite filter_cons_True by done. simpl. destruct (String.eqb_spec name x); [|by apply IH]. rewrite decide_False by congruence. done.
Qed.

(** The entries without [np]. *)
Definition without_entry (g : Z -> list (string * Z)) (dnp np : Z) : Z -> list (string * Z) :=
  fun p => if decide (p = dnp) then Ramfs.without np (g dnp) else g p.

Lemma without_sub g dnp np p e : e ∈ without_entry g dnp np p -> e ∈ g p.
Proof. unfold without_entry. case_decide; [subst|done]. by intros [_ ?]%list_elem_of_filter. Qed.

(** A directory other than the one that loses a node. *)
Lemma shrunk_other f dnp es f' p ents : Ramfs.shrunk f dnp es f' -> p <> dnp -> (forall x, x ∈ es.*2 -> x ∉ ents.*2) -> Ramfs.dir_ok f p ents -> Ramfs.dir_ok f' p ents.
Proof.
  intros (d & Hd & [(x & ->)|(q & m & x & Hq & Hqd & Hm & ->)]) Hp Hap Hok.
  - set (d' := Ramfs.with_child x d). replace (<[dnp := _]> (Ramfs.nodes f)) with (<[dnp := Ramfs.with_times Ramfs.now None Ramfs.now d']> (<[dnp := d']> (Ramfs.nodes f))) by apply insert_insert_eq.
    exact (Ramfs.dir_ok_upd (Ramfs.set_nodes (<[dnp := d']> (Ramfs.nodes f)) f) p ents dnp d' (Ramfs.with_times Ramfs.now None Ramfs.now d')
      (dir_ok_child _ _ _ _ _ _ Hd Hp Hok) (lookup_insert_eq _ _ _) eq_refl eq_refl eq_refl eq_refl).
  - assert (Ramfs.nodes (Ramfs.set_nodes (<[q := Ramfs.with_next x m]> (Ramfs.nodes f)) f) !! dnp = Some d) as Hd' by (simpl; by rewrite lookup_insert_ne).
    exact (Ramfs.dir_ok_upd _ p ents dnp d (Ramfs.with_times Ramfs.now None Ramfs.now d) (dir_ok_next _ _ _ x _ _ Hm (Hap q Hq) Hok) Hd' eq_refl eq_refl eq_refl eq_refl).
Qed.

(** [ramfs_remove_node], for the whole tree. *)
Lemma remove_node_tree f g dnp np : tree_of f g -> is_Some (Ramfs.nodes f !! dnp) -> np ∈ (g dnp).*2 ->
  exists f', Ramfs.ramfs_remove_node dnp np f = Ok (0, f') /\ Ramfs.inode_count f' = Ramfs.inode_count f /\
    (forall e, Ramfs.same_files f f' e) /\ tree_of f' (without_entry g dnp np).
Proof.
  intros Hg Hdnp Hin. pose proof (tr_dir _ _ Hg dnp Hdnp) as Hok. destruct (Ramfs.remove_node_ok f dnp (g dnp) np Hok Hin) as (f' & Hrun & Hok' & Hs & Hsh).
  exists f'. split; [done|]. split; [by destruct Hsh as (d & _ & [(x & ->)|(q & m & x & _ & _ & _ & ->)])|]. split; [done|].
  assert (forall p, is_Some (Ramfs.nodes f' !! p) -> is_Some (Ramfs.nodes f !! p)) as Hex by (intros p; apply (same_nodes f f' (p + 1) p (Hs _)); lia).
  split.
  - intros p Hp. unfold without_entry. case_decide as E; [by subst|]. eapply shrunk_other; [done|done| |by apply (tr_dir _ _ Hg), Hex].
    intros x Hx Hx'. by apply E, (RamfsVfs.tr_apart _ _ Hg p dnp x); auto.
  - intros p Hp. unfold without_entry. case_decide as E; [|by apply (tr_names _ _ Hg), Hex]. eapply sublist_NoDup; [by apply (tr_names _ _ Hg dnp)|].
    apply fmap_sublist, sublist_filter.
  - intros p p' x Hp Hp' (e & -> & He%without_sub)%list_elem_of_fmap (e' & Ee & He'%without_sub)%list_elem_of_fmap.
    apply (RamfsVfs.tr_apart _ _ Hg p p' e.2); auto; apply list_elem_of_fmap; eauto.
Qed.

Section Laws.
Context (sizeof_vnode : Z) (malloc : vcache -> Z) (junk : vnode) (pad : Z).
Context (a_node a_name a_link alloc : Ramfs.rstate -> Z) (old : Z -> list Z).
Hypothesis malloc_fresh : forall s, malloc s <> 0 /\ vnodes s !! malloc s = None.
(** There is memory for nodes and names, and the allocator does not look at vnodes. *)
Hypothesis a_node_fresh : forall f, a_node f <> 0 /\ Ramfs.nodes f !! a_node f = None.
Hypothesis a_name_some : forall f, a_name f <> 0.
Hypothesis a_node_blind : forall vn f, a_node (Ramfs.set_vnodes vn f) = a_node f /\ a_name (Ramfs.set_vnodes vn f) = a_name f.

#[local] Instance names_fs : FileSystem Ramfs.rstate := ramfs_fs sizeof_vnode malloc junk pad.

Lemma ramfs_remove_law : remove_law (ramfs_ops a_node a_name a_link alloc old).
Proof.
  intros f s held dvp d vp v name ptr Hvc Hinv Hd Hv Hk%kind_node Hent. destruct (ri_tree _ _ Hinv) as [g Hg]. simpl in Hent.
  rewrite (entry_tree _ _ _ _ Hg Hk) in Hent. pose proof (Ramfs.lookup_dir_elem _ _ _ Hent) as Hin.
  assert (v_data v ∈ (g (v_data d)).*2) as Hin2 by (apply list_elem_of_fmap; by exists (str name, v_data v)).
  destruct (remove_node_tree f g (v_data d) (v_data v) Hg Hk Hin2) as (f' & Hrun & Hi & Hs & Hg'). destruct (Hs 0) as (Evn & _).
  assert (forall n, ramfs_kind f' n = ramfs_kind f n) as Hkind by (intros n; apply (same_kind f f' (n + 1)); [done|lia]).
  exists f'. split; [|split; [split|]].
  - simpl. erewrite (on_view_same _ f s 0 (Ramfs.set_vnodes (vview <$> vnodes s) f')); [|simpl; unfold Ramfs.ramfs_remove|done].
    + destruct f'. simpl in *. by rewrite Evn.
    + rewrite (bind_ret _ _ _ (vview d) (view f s)) by (apply deref_ok; split; [simpl; by rewrite lookup_fmap, Hd|done]).
      rewrite (bind_ret _ _ _ (vview v) (view f s)) by (apply deref_ok; split; [simpl; by rewrite lookup_fmap, Hv|done]).
      unfold view. rewrite blind_remove_node. cbn [vview Ramfs.v_data]. by rewrite Hrun.
  - exact Hkind.
  - intros n c Hn%kind_node. simpl. rewrite (entry_tree f' _ n c Hg') by (apply (same_nodes f f' (n + 1)); [done|lia|done]). rewrite (entry_tree _ _ _ _ Hg Hn).
    unfold without_entry. case_decide as E; [subst; by apply lookup_dir_without, (tr_names _ _ Hg)|]. rewrite decide_False; [done|].
    intros Hx%Ramfs.lookup_dir_elem. apply E, (RamfsVfs.tr_apart _ _ Hg n (v_data d) (v_data v)); [done|done| |done]. apply list_elem_of_fmap. by exists (str c, v_data v).
  - split; [by eexists|rewrite Hi; apply (ri_count _ _ Hinv)|]. rewrite Hi. apply (ri_vnode _ _ Hinv).
Qed.

Lemma ramfs_mkdir_law : mkdir_law (ramfs_ops a_node a_name a_link alloc old).
Proof.
  intros mode Hmode. eapply ramfs_makes; [done..|]. intros f s dvp v name np f' Hv Hl Hnp Hrun Hnew Evn. destruct (a_node_blind (vview <$> vnodes s) f) as [En Ea].
  simpl. erewrite (on_view_same _ f s 0 (Ramfs.set_vnodes (vview <$> vnodes s) f')); [destruct f'; simpl in *; by rewrite Evn| |done].
  rewrite (bind_ret _ _ _ (a_node f) (view f s)) by (by apply gets_ok). rewrite (bind_ret _ _ _ (a_name f) (view f s)) by (by apply gets_ok).
  unfold Ramfs.ramfs_mkdir. rewrite strlen_str, (proj2 (Z.ltb_ge _ _)) by (unfold Ramfs.NAME_MAX; lia). rewrite Hmode, Z.eqb_refl. cbn [negb].
  rewrite (bind_ret _ _ _ (vview v) (view f s)) by (apply deref_ok; split; [simpl; by rewrite lookup_fmap, Hv|done]).
  rewrite (bind_ret _ _ _ np (Ramfs.set_vnodes (vview <$> vnodes s) f')) by (unfold view; rewrite blind_add_node; cbn [vview Ramfs.v_data]; by rewrite Hrun).
  rewrite (proj2 (Z.eqb_neq np 0) Hnp). rewrite (bind_ret _ _ _ _ _ (Ramfs.upd_node_ok (Ramfs.set_vnodes (vview <$> vnodes s) f') np _ _ Hnew)).
  unfold Ramfs.with_size. simpl. rewrite insert_id by done. by destruct f'.
Qed.

End Laws.

(** ** Witnesses *)

#[local] Opaque demo_root demo_tree.
#[local] Instance demo_names_fs : FileSystem Ramfs.rstate := ramfs_fs 200 demo_vmalloc demo_junk 9000.
#[local] Instance demo_names_laws : FileSystemLaws Ramfs.rstate := ramfs_laws 200 demo_vmalloc demo_junk 9000 (fun s => next_fresh _).

Definition demo_ops : vnode_ops Ramfs.rstate := ramfs_ops demo_node demo_name (fun _ => 0) (fun _ => 0) (fun _ => []).

Lemma demo_mkdir : mkdir_law demo_ops.
Proof. apply ramfs_mkdir_law; [intros f; apply next_fresh|done|done]. Qed.

Lemma demo_remove : remove_law demo_ops.
Proof. apply ramfs_remove_law. Qed.

(** The directory [/b], made. *)
Lemma sys_mkdir_creates_witness : exists s' e, sys_mkdir 96 demo_calloc demo_pads demo_ops [SLASH; 98] 511 demo_tree = Ok (e, s') /\
  made demo_roots [64] VDIR demo_tree s' demo_refs (fun _ => 0) demo_mount 4096 [98] e.
Proof.
  apply (sys_mkdir_creates 96 demo_calloc (fun s => next_fresh _) demo_pads demo_ops demo_roots [64]
    demo_tree demo_refs (fun _ => 0) [SLASH; 98] [] [98] demo_mount [98] [] 4096 4096 511 demo_mkdir demo_files_ok).
  split; [reflexivity|split; [split; [done|by intros ?%list_elem_of_singleton]|simpl; lia]| | |split; reflexivity|split; [reflexivity|split; vm_compute; reflexivity]].
  - split; [vm_compute; reflexivity|reflexivity|unfold PATH_MAX; simpl; lia|by right| |exact demo_tree_space]. intros n c n' _. apply demo_tree_kind.
  - split; [vm_compute; reflexivity|split; [unfold PATH_MAX; simpl; lia|by left]].
Defined.

(** A name of ASCII characters is the only one with its string. *)
Lemma str_inj c c' : Forall (fun z => 0 < z < 128) c' -> str c = str c' -> c = c'.
Proof.
  intros Hc. revert c. induction Hc as [|z' c' Hz _ IH]; intros [|z c]; [done..|]. unfold str, byte_of. simpl.
  rewrite (proj2 (andb_true_iff (0 <? z') (z' <? 256))) by lia. intros [= E1 E2]. f_equal; [|by apply IH].
  apply (f_equal Ascii.N_of_ascii) in E1. rewrite (Ascii.N_ascii_embedding (Z.to_N z')) in E1 by lia.
  destruct ((0 <? z) && (z <? 256)) eqn:E; [rewrite Ascii.N_ascii_embedding in E1; lia|].
  destruct ((-128 <=? z) && (z <? 0)) eqn:E'; [rewrite Ascii.N_ascii_embedding in E1; lia|simpl in E1; lia].
Qed.

(** The entries of the tree. *)
Lemma demo_entries n c x : entry (fss demo_tree) n c = Some x -> n = 4096 /\ c = [97] /\ x = 8192.
Proof.
  intros He. pose proof (entry_node _ _ _ _ He) as Hn. simpl in He. rewrite (entry_tree _ _ _ _ demo_tree_of Hn) in He.
  unfold demo_dirs in He. destruct (Z.eqb_spec n 4096) as [->|]; [|done]. simpl in He. destruct (String.eqb_spec (str c) "a") as [E|]; [|done].
  injection He as <-. split; [done|]. split; [|done]. apply str_inj; [by repeat constructor|exact E].
Qed.

Lemma demo_sole mp r cs : demo_roots mp = Some r -> lookup_tree (fss demo_tree) r cs false = RFound 8192 -> mp = 64 /\ cs = [[97]].
Proof.
  unfold demo_roots, roots_with. destruct (Z.eqb_spec mp 64) as [->|]; [|done]. intros [= <-]. destruct cs as [|c cs]; [by intros [=]|]. cbn [lookup_tree].
  destruct (entry (fss demo_tree) 4096 c) as [x|] eqn:E; [|done]. apply demo_entries in E as (_ & -> & ->). destruct cs as [|c' cs]; [done|].
  cbn [bool_decide negb orb lookup_tree]. rewrite bool_decide_false by (vm_compute; discriminate). done.
Qed.

(** The file [/a], removed. *)
Lemma sys_unlink_removes_witness : exists s' e, sys_unlink 96 demo_calloc demo_pads demo_ops [7] [SLASH; 97] demo_tree = Ok (e, s') /\
  unlinked demo_roots [64] demo_tree s' demo_refs (fun _ => 0) demo_mount 8192 e.
Proof.
  apply (sys_unlink_removes 96 demo_calloc (fun s => next_fresh _) demo_pads demo_ops demo_roots [64]
    demo_tree demo_refs (fun _ => 0) [SLASH; 97] [] [97] demo_mount [97] [] 4096 4096 8192 [7] demo_remove demo_files_ok).
  split.
  - split; [reflexivity|split; [reflexivity|unfold PATH_MAX; simpl; lia]].
  - split; [|split; [reflexivity|unfold PATH_MAX; simpl; lia]]. constructor; [|constructor]. split; [done|by intros ?%list_elem_of_singleton].
  - exact demo_tree_find.
  - split; [vm_compute; reflexivity|reflexivity|unfold PATH_MAX; simpl; lia|by left| |exact demo_tree_room]. intros n c n' _. apply demo_tree_kind.
  - split; [reflexivity|split; vm_compute; reflexivity].
  - vm_compute. discriminate.
  - exact demo_sole.
Defined.

(** A link to the root directory. *)
Lemma sys_link_undefined_witness : sys_link 96 demo_calloc demo_pads demo_ops true [SLASH] [SLASH; 98] demo_tree = Undef.
Proof.
  apply (sys_link_undefined 96 demo_calloc (fun s => next_fresh _) demo_pads demo_ops demo_roots [64]
    demo_tree demo_refs (fun _ => 0) [SLASH] [SLASH; 98] demo_mount [] 4096 4096 true demo_files_ok).
  - split; [vm_compute; reflexivity|reflexivity|unfold PATH_MAX; simpl; lia|by left| |exact (room_weaken _ _ _ 1 0 demo_tree_room ltac:(lia))].
    intros n c n' _. apply demo_tree_kind.
  - reflexivity.
  - vm_compute. reflexivity.
Defined.
