(* ===== verification/Posix.v ===== *)
(** The calls that programs make (vfscore/main.c), over the descriptor table, the
    working directory and the file systems; with task_conv (task.c) and the system
    calls of syscalls.c that take a descriptor.

    The operations on descriptors are those of [FdTable], on the files of [Open]:
    where [FdTable] records that a dentry was released, it is released here.  A call
    returns -1 and sets [errno], or returns its result.  A null pointer as a path is
    [None] where the code looks for it. *)
From S2P Require Import Prelude VfsTypes Windows Uio PathConv Vnode Dentry Dcache Namei Resolve Mount Open Io Syscalls.
From S2P Require Ramfs FdTable.
From stdpp Require Import base numbers gmap fin_maps sets list.
Import Errno.
#[local] Open Scope Z_scope.

(** fcntl.h, sys/file.h and sys/stat.h of the C library. *)
Definition AT_FDCWD : Z := -2.
Definition AT_EMPTY_PATH : Z := 4096.
Definition O_WRONLY : Z := 1.
Definition O_ASYNC : Z := 8192.
Definition O_DIRECT : Z := 16384.
Definition O_NOATIME : Z := 262144.
Definition O_NONBLOCK : Z := 16384.
Definition SETFL : Z := Z.lor O_APPEND (Z.lor O_ASYNC (Z.lor O_DIRECT (Z.lor O_NOATIME O_NONBLOCK))).
Definition FD_CLOEXEC : Z := 1.
Definition F_DUPFD : Z := 0.
Definition F_GETFD : Z := 1.
Definition F_SETFD : Z := 2.
Definition F_GETFL : Z := 3.
Definition F_SETFL : Z := 4.
Definition F_SETOWN : Z := 6.
Definition F_GETLK : Z := 7.
Definition F_SETLK : Z := 8.
Definition F_SETLKW : Z := 9.
Definition F_DUPFD_CLOEXEC : Z := 14.
Definition FIONBIO : Z := 0x5421.
Definition FIOASYNC : Z := 0x5452.
Definition LOCK_SH : Z := 1.
Definition LOCK_EX : Z := 2.
Definition LOCK_NB : Z := 4.
Definition LOCK_UN : Z := 8.
Definition UTIME_NOW : Z := 0x3fffffff.
Definition VAPPEND : Z := 8.
Definition EWOULDBLOCK : Z := EAGAIN.

Definition has_error (error bytes : Z) : bool :=
  negb (error =? 0) && ((bytes =? 0) || (negb (error =? EWOULDBLOCK) && negb (error =? EINTR))).

(** The part of [path] behind its last slash, slashes at its end not counted. *)
Definition get_last_component (path : list Z) : list Z :=
  let p := strip_trailing path SLASH in
  match strrchr p with Some (_, name) => name | None => p end.

Definition posix_fadvise (advice : Z) : Z := if (0 <=? advice) && (advice <=? 5) then 0 else EINVAL.

Definition is_timespec_valid (t : Ramfs.timespec) : bool :=
  (0 <=? t.1) && (((0 <=? t.2) && (t.2 <=? 999999999)) || (t.2 =? UTIME_NOW) || (t.2 =? UTIME_OMIT)).

(** [now] is what [clock_gettime] returns. *)
Definition init_timespec (now : Ramfs.timespec) (times : option Ramfs.timespec) : Ramfs.timespec :=
  match times with Some t => if t.2 =? UTIME_NOW then now else t | None => now end.

(** ** State *)

Record posix (F : Type) := Posix {
  px : @files F;
  bits : list Z;
  slots : list Z;
  t_cwd : list Z;
  t_cwdfp : Z;
  errno : Z;
  global_umask : Z
}.
#[global] Arguments Posix {F}. #[global] Arguments px {F}. #[global] Arguments bits {F}. #[global] Arguments slots {F}.
#[global] Arguments t_cwd {F}. #[global] Arguments t_cwdfp {F}. #[global] Arguments errno {F}. #[global] Arguments global_umask {F}.

(** What the calls find around them: the operations of the file system, the
    addresses of the variables on the stack and the results of allocations. *)
Record image (F : Type) := Image {
  im_sizeof_dentry : Z;
  im_calloc : dcache -> Z;
  im_pads : pads;
  im_ops : vnode_ops F;
  im_read : Z -> uio -> M (F * vcache) (Z * uio);
  im_write : Z -> uio -> Z -> M (F * vcache) (Z * uio);
  im_open : Z -> Z;
  im_close : Z -> Z;
  im_seek : Z -> Z -> Z;
  im_nopos : Z -> bool;
  im_bsize : Z;
  im_pad_attr : Z;
  im_pad_uio : Z;
  im_pad_path : Z;
  im_file : @files F -> Z;
  im_iov : @files F -> Z;
  im_now : Ramfs.timespec
}.
#[global] Arguments im_sizeof_dentry {F}. #[global] Arguments im_calloc {F}. #[global] Arguments im_pads {F}. #[global] Arguments im_ops {F}.
#[global] Arguments im_read {F}. #[global] Arguments im_write {F}. #[global] Arguments im_open {F}. #[global] Arguments im_close {F}.
#[global] Arguments im_seek {F}. #[global] Arguments im_nopos {F}. #[global] Arguments im_bsize {F}. #[global] Arguments im_pad_attr {F}.
#[global] Arguments im_pad_uio {F}. #[global] Arguments im_pad_path {F}. #[global] Arguments im_file {F}. #[global] Arguments im_iov {F}. #[global] Arguments im_now {F}.

Section Code.
Context {F : Type} `{FileSystem F} (im : image F).

Definition set_px (x : @files F) (s : posix F) := Posix x (bits s) (slots s) (t_cwd s) (t_cwdfp s) (errno s) (global_umask s).
Definition set_fds b l (s : posix F) := Posix (px s) b l (t_cwd s) (t_cwdfp s) (errno s) (global_umask s).
Definition set_cwd c (s : posix F) := Posix (px s) (bits s) (slots s) c (t_cwdfp s) (errno s) (global_umask s).
Definition set_cwdfp x (s : posix F) := Posix (px s) (bits s) (slots s) (t_cwd s) x (errno s) (global_umask s).
Definition set_errno e (s : posix F) := Posix (px s) (bits s) (slots s) (t_cwd s) (t_cwdfp s) e (global_umask s).
Definition set_umask u (s : posix F) := Posix (px s) (bits s) (slots s) (t_cwd s) (t_cwdfp s) (errno s) u.

Definition on_f {A} (m : M (@files F) A) : M (posix F) A := zoom px set_px m.

(** What [vfs_close] does with the dentry. *)
Definition release (d : Z) : M (@files F) unit :=
  on_v (v ← vnode_of d; on_cache (vn_lock v.1);; on_cache (vn_unlock v.1);; on_dc (drele d)).

Fixpoint release_all (l : list Z) : M (@files F) unit :=
  match l with [] => mret tt | d :: l => release d;; release_all l end.

(** An operation on the descriptors. *)
Definition on_fd {A} (m : M FdTable.fdtable A) : M (posix F) A := fun s =>
  match m (FdTable.FdTable (bits s) (slots s) (fheap (px s)) []) with
  | Ok (x, t) =>
      (on_f (release_all (FdTable.released t));; mret x)
        (set_px (set_fheap (FdTable.heap t) (px s)) (set_fds (FdTable.bitmap t) (FdTable.files t) s))
  | Spin => Spin
  | Abort => Abort
  | Undef => Undef
  end.

Definition fget (fd : Z) : M (posix F) (Z * option Z) := on_fd (FdTable.fget fd).
Definition fdrop (fp : Z) : M (posix F) unit := _ ← on_fd (FdTable.fdrop (im_close im) fp); mret tt.

(** [errno = error; return -1]. *)
Definition libc_error (e : Z) : M (posix F) Z := modify (set_errno e);; mret (-1).

(** The end of most calls. *)
Definition result (e ret : Z) : M (posix F) Z := if negb (e =? 0) then libc_error e else mret ret.

Definition apply_umask (mode : Z) : M (posix F) Z := u ← gets global_umask; mret (clear mode u).

(** The error and the full path. *)
Definition task_conv (cpath : list Z) : M (posix F) (Z * list Z) := wd ← gets t_cwd; lift (path_conv wd cpath).

(** A call with the full path of [pathname]. *)
Definition with_name {A} (pathname : list Z) (no : A) (k : list Z -> M (posix F) (Z * A)) : M (posix F) (Z * A) :=
  c ← task_conv pathname;
  if negb (c.1 =? 0) then mret (c.1, no) else k c.2.

(** A call with the file of a descriptor, which is held while the call runs. *)
Definition with_fd {A} (fd : Z) (no : A) (k : Z -> M (@files F) (Z * A)) : M (posix F) (Z * A) :=
  r ← fget fd;
  if negb (r.1 =? 0) then mret (r.1, no) else
  fp ← deref (fun _ => r.2);
  x ← on_f (k fp);
  fdrop fp;;
  mret x.

(** With only an error as the result. *)
Definition err {S} (m : M S Z) : M S (Z * unit) := e ← m; mret (e, tt).
Definition done_with (m : M (posix F) (Z * unit)) : M (posix F) Z := r ← m; result r.1 0.
Definition name_call (pathname : option (list Z)) (k : list Z -> M (@vfs F) Z) : M (posix F) Z :=
  match pathname with
  | None => libc_error ENOENT
  | Some p => done_with (with_name p tt (fun path => err (on_f (on_v (k path)))))
  end.
Definition fd_call (fd : Z) (k : Z -> M (@files F) Z) : M (posix F) Z := done_with (with_fd fd tt (fun fp => err (k fp))).

(** The slot of the table of windows for the path on the stack. *)
Definition path_window (i : nat) : M (posix F) unit := on_f (on_v (stack_window i (im_pad_path im))).

Definition do_open (path : list Z) (flags mode : Z) : M (@files F) (Z * Z) :=
  a ← gets (im_file im);
  sys_open (im_sizeof_dentry im) (im_calloc im) (op_create (im_ops im)) (fun vp => op_truncate (im_ops im) vp 0) (im_open im) (im_pads im) a path flags mode.

(** ** Descriptors *)

(** [mode] is the third argument, if there is one. *)
Definition open (pathname : list Z) (flags mode : Z) : M (posix F) Z :=
  mode ← (if flag flags O_CREAT then apply_umask mode else mret 0);
  path_window 5;;
  c ← task_conv pathname;
  if negb (c.1 =? 0) then libc_error c.1 else
  r ← on_f (do_open c.2 flags mode);
  if negb (r.1 =? 0) then libc_error r.1 else
  fd ← on_fd (FdTable.fdalloc (im_close im) r.2);
  fdrop r.2;;
  if negb (fd.1 =? 0) then libc_error fd.1 else deref (fun _ => fd.2).

(** The path of [name] below the directory of a dentry. *)
Definition path_below (dp : Z) (name : list Z) : M (posix F) (list Z) :=
  d ← on_f (on_v (on_dc (dentry_at dp)));
  m ← deref (fun s => find (fun m => m_addr m =? d_mount d) (mounts (fv (px s))));
  path ← deref (fun _ => d_path d);
  mret (strlcat (strlcat (strlcat (strlcpy (m_path m) PATH_MAX) path PATH_MAX) [SLASH] PATH_MAX) name PATH_MAX).

(** [k] with the path below the directory of a descriptor. *)
Definition at_dir {A} (dirfd : Z) (pathname : list Z) (no : A) (k : list Z -> M (posix F) A) : M (posix F) A :=
  r ← fget dirfd;
  if negb (r.1 =? 0) then modify (set_errno r.1);; mret no else
  fp ← deref (fun _ => r.2);
  f ← on_f (file_at fp);
  v ← on_f (on_v (vnode_of (FdTable.f_dentry f)));
  on_f (on_v (on_cache (vn_lock v.1)));;
  path ← path_below (FdTable.f_dentry f) pathname;
  x ← k path;
  on_f (on_v (on_cache (vn_unlock v.1)));;
  fdrop fp;;
  mret x.

Definition is_absolute (dirfd : Z) (pathname : list Z) : bool := bool_decide (head pathname = Some SLASH) || (dirfd =? AT_FDCWD).

Definition openat (dirfd : Z) (pathname : list Z) (flags mode : Z) : M (posix F) Z :=
  mode ← (if flag flags O_CREAT then apply_umask mode else mret 0);
  if is_absolute dirfd pathname then open pathname flags mode else
  at_dir dirfd pathname (-1) (fun path => open path flags mode).

Definition creat (pathname : list Z) (mode : Z) : M (posix F) Z := open pathname (Z.lor O_CREAT (Z.lor O_WRONLY O_TRUNC)) mode.

Definition fdclose (fd : Z) : M (posix F) Z :=
  fp ← on_fd (FdTable.vfscore_get_file fd);
  if fp =? 0 then mret EBADF else
  e ← on_fd (FdTable.vfscore_put_fd (im_close im) fd);
  (if e =? 0 then fdrop fp else mret tt);;
  mret e.

Definition close (fd : Z) : M (posix F) Z := e ← fdclose fd; result e 0.

Definition dup (oldfd : Z) : M (posix F) Z :=
  r ← fget oldfd;
  if negb (r.1 =? 0) then libc_error r.1 else
  fp ← deref (fun _ => r.2);
  n ← on_fd (FdTable.fdalloc (im_close im) fp);
  fdrop fp;;
  if negb (n.1 =? 0) then libc_error n.1 else deref (fun _ => n.2).

Definition dup3 (oldfd newfd flags : Z) : M (posix F) Z :=
  if negb (clear flags O_CLOEXEC =? 0) then libc_error EINVAL else
  if oldfd =? newfd then libc_error EINVAL else
  r ← fget oldfd;
  if negb (r.1 =? 0) then libc_error r.1 else
  fp ← deref (fun _ => r.2);
  n ← fget newfd;
  e ← (if n.1 =? 0 then close newfd else mret 0);
  if negb (e =? 0) then libc_error e else
  e ← on_fd (FdTable.vfscore_reserve_fd newfd);
  if negb (e =? 0) then libc_error e else
  e ← on_fd (FdTable.vfscore_install_fd (im_close im) newfd fp);
  fdrop fp;;
  result e newfd.

Definition dup2 (oldfd newfd : Z) : M (posix F) Z := if oldfd =? newfd then mret newfd else dup3 oldfd newfd 0.

(** The error and the result of a command; [None]: the call ends at once. *)
Definition fcntl_cmd (fp cmd arg : Z) : M (posix F) (option (Z * Z)) :=
  f ← on_f (file_at fp);
  let fl := FdTable.f_flags f in
  if (cmd =? F_DUPFD) || (cmd =? F_DUPFD_CLOEXEC) then
    n ← on_fd (FdTable.fdalloc (im_close im) fp);
    if negb (n.1 =? 0) then modify (set_errno n.1);; mret None else
    fd ← deref (fun _ => n.2);
    g ← on_f (file_at fp);
    (if cmd =? F_DUPFD_CLOEXEC then on_f (set_file fp (with_flags (Z.lor (FdTable.f_flags g) O_CLOEXEC) g)) else mret tt);;
    mret (Some (0, fd))
  else if cmd =? F_GETFD then mret (Some (0, if flag fl O_CLOEXEC then FD_CLOEXEC else 0))
  else if cmd =? F_SETFD then
    on_f (set_file fp (with_flags (Z.lor (clear fl O_CLOEXEC) (if flag arg FD_CLOEXEC then O_CLOEXEC else 0)) f));; mret (Some (0, 0))
  else if cmd =? F_GETFL then mret (Some (0, Z.lor (clear (vfscore_oflags fl) O_CLOEXEC) 32768))
  else if cmd =? F_SETFL then
    on_f (set_file fp (with_flags (vfscore_fflags (Z.lor (clear (vfscore_oflags fl) SETFL) (Z.land arg SETFL))) f));;
    _ ← on_f (vfs_ioctl (im_ops im) fp FIONBIO);
    _ ← on_f (vfs_ioctl (im_ops im) fp FIOASYNC);
    mret (Some (0, 0))
  else if (cmd =? F_SETLK) || (cmd =? F_GETLK) || (cmd =? F_SETLKW) || (cmd =? F_SETOWN) then mret (Some (0, 0))
  else mret (Some (EINVAL, 0)).

Definition fcntl (fd cmd arg : Z) : M (posix F) Z :=
  r ← fget fd;
  if negb (r.1 =? 0) then libc_error r.1 else
  fp ← deref (fun _ => r.2);
  x ← fcntl_cmd fp cmd arg;
  match x with
  | None => mret (-1)
  | Some (e, ret) => fdrop fp;; result e ret
  end.

Definition flock (fd operation : Z) : M (posix F) Z :=
  r ← fget fd;
  if r.1 =? 0 then libc_error EBADF else
  if (operation =? LOCK_SH) || (operation =? Z.lor LOCK_SH LOCK_NB) || (operation =? LOCK_EX) || (operation =? Z.lor LOCK_EX LOCK_NB) || (operation =? LOCK_UN)
  then mret 0 else libc_error EINVAL.

(** ** Reading and writing *)

Definition lseek (fd offset whence : Z) : M (posix F) Z :=
  r ← with_fd fd None (fun fp => sys_lseek (im_seek im) fp offset whence);
  if negb (r.1 =? 0) then libc_error r.1 else deref (fun _ => r.2).

(** The end of a transfer; [bytes] is not set if nothing was stored. *)
Definition transferred (r : Z * option Z) : M (posix F) Z :=
  if has_error r.1 (default 0 r.2) then libc_error r.1 else mret (default 0 r.2).

Definition preadv (fd : Z) (iov : list iovec) (offset : Z) : M (posix F) Z :=
  r ← with_fd fd None (fun fp => a ← gets (im_iov im); sys_read (im_read im) (im_nopos im) (im_pad_uio im) a fp iov offset);
  transferred r.

Definition pwritev (fd : Z) (iov : list iovec) (offset : Z) : M (posix F) Z :=
  r ← with_fd fd None (fun fp => a ← gets (im_iov im); sys_write (im_write im) (im_nopos im) (im_pad_uio im) a fp iov offset);
  transferred r.

Definition pread (fd buf count offset : Z) : M (posix F) Z := preadv fd [Iovec buf count] offset.
Definition pwrite (fd buf count offset : Z) : M (posix F) Z := pwritev fd [Iovec buf count] offset.
Definition read (fd buf count : Z) : M (posix F) Z := pread fd buf count (-1).
Definition write (fd buf count : Z) : M (posix F) Z := pwrite fd buf count (-1).
Definition readv (fd : Z) (iov : list iovec) : M (posix F) Z := preadv fd iov (-1).
Definition writev (fd : Z) (iov : list iovec) : M (posix F) Z := pwritev fd iov (-1).

Definition fsync (fd : Z) : M (posix F) Z := fd_call fd (sys_fsync (im_ops im)).
Definition ftruncate (fd length : Z) : M (posix F) Z := fd_call fd (fun fp => sys_ftruncate (im_ops im) fp length).
Definition fallocate (fd mode offset len : Z) : M (posix F) Z := fd_call fd (fun fp => sys_fallocate (im_ops im) fp mode offset len).

(** ** Attributes *)

Definition fstat (fd : Z) : M (posix F) (Z * option Vnode.stat) :=
  r ← with_fd fd None (fun fp => sys_fstat (im_ops im) (im_bsize im) (im_pad_attr im) fp);
  ret ← result r.1 0;
  mret (ret, r.2).

Definition stat (pathname : option (list Z)) : M (posix F) (Z * option Vnode.stat) :=
  match pathname with
  | None => r ← libc_error EINVAL; mret (r, None)
  | Some p =>
      r ← with_name p None (fun path => on_f (on_v (sys_stat (im_sizeof_dentry im) (im_calloc im) (im_pads im) (im_ops im) (im_bsize im) (im_pad_attr im) path)));
      ret ← result r.1 0;
      mret (ret, r.2)
  end.

Definition lstat (pathname : list Z) : M (posix F) (Z * option Vnode.stat) :=
  path_window 7;;
  r ← with_name pathname None (fun path => on_f (on_v (sys_lstat (im_sizeof_dentry im) (im_calloc im) (im_pads im) (im_ops im) (im_bsize im) (im_pad_attr im) path)));
  ret ← result r.1 0;
  mret (ret, r.2).

Definition fstatat (dirfd : Z) (pathname : list Z) (flags : Z) : M (posix F) (Z * option Vnode.stat) :=
  if is_absolute dirfd pathname then stat (Some pathname) else
  if flag flags AT_EMPTY_PATH && bool_decide (pathname = []) then fstat dirfd else
  at_dir dirfd pathname (-1, None) (fun path => if flag flags AT_SYMLINK_NOFOLLOW then lstat path else stat (Some path)).

Definition access (pathname : list Z) (mode : Z) : M (posix F) Z :=
  name_call (Some pathname) (fun path => sys_access (im_sizeof_dentry im) (im_calloc im) (im_pads im) path mode).

Definition faccessat (dirfd : Z) (pathname : list Z) (mode flags : Z) : M (posix F) Z :=
  if flag flags AT_SYMLINK_NOFOLLOW then abort else
  if is_absolute dirfd pathname then access pathname mode else
  at_dir dirfd pathname (-1) (fun path => access path mode).

Definition truncate (pathname : option (list Z)) (length : Z) : M (posix F) Z :=
  name_call pathname (fun path => sys_truncate (im_sizeof_dentry im) (im_calloc im) (im_pads im) (im_ops im) path length).

Definition chmod (pathname : option (list Z)) (mode : Z) : M (posix F) Z :=
  name_call pathname (fun path => sys_chmod (im_sizeof_dentry im) (im_calloc im) (im_pads im) (im_ops im) (im_pad_attr im) path (Z.land mode Ramfs.UK_ALLPERMS)).

(** The reference to the file is kept. *)
Definition sys_fchmod (fd mode : Z) : M (posix F) Z :=
  fp ← on_fd (FdTable.vfscore_get_file fd);
  if fp =? 0 then mret EBADF else
  f ← on_f (file_at fp);
  if FdTable.f_dentry f =? 0 then mret 0 else
  ro ← on_f (on_v (read_only (FdTable.f_dentry f)));
  if ro : bool then mret EROFS else
  v ← on_f (on_v (vnode_of (FdTable.f_dentry f)));
  on_f (on_v (vn_setmode (im_ops im) (im_pad_attr im) v.1 mode)).

Definition fchmod (fd mode : Z) : M (posix F) Z := e ← sys_fchmod fd (Z.land mode Ramfs.UK_ALLPERMS); result e 0.

Definition do_utimes (pathname : list Z) (times : option ((Z * Z) * (Z * Z))) (flags : Z) : M (posix F) Z :=
  name_call (Some pathname) (fun path => sys_utimes (im_sizeof_dentry im) (im_calloc im) (im_pads im) (im_ops im) (im_pad_attr im) (im_now im) path times flags).

Definition utimes (pathname : list Z) (times : option ((Z * Z) * (Z * Z))) : M (posix F) Z := do_utimes pathname times 0.
Definition lutimes (pathname : list Z) (times : option ((Z * Z) * (Z * Z))) : M (posix F) Z := do_utimes pathname times AT_SYMLINK_NOFOLLOW.

(** A null path with [AT_FDCWD] is read by [path_conv]; [mem]: whether there is
    memory for the path, which the code does not look at. *)
Definition futimesat (mem : bool) (dirfd : Z) (pathname : option (list Z)) (times : option ((Z * Z) * (Z * Z))) : M (posix F) Z :=
  if match pathname with Some p => is_absolute dirfd p | None => dirfd =? AT_FDCWD end then
    match pathname with Some p => utimes p times | None => undef end
  else
  e ← (match pathname with
       | None => mret 0
       | Some _ => st ← fstat dirfd;
                   if negb (st.1 =? 0) then gets errno else
                   a ← deref (fun _ => st.2);
                   mret (if Z.land (st_mode a) S_IFMT =? S_IFDIR then 0 else ENOTDIR)
       end);
  if negb (e =? 0) then libc_error e else
  r ← fget dirfd;
  if negb (r.1 =? 0) then libc_error r.1 else
  fp ← deref (fun _ => r.2);
  f ← on_f (file_at fp);
  if negb mem then undef else
  d ← on_f (on_v (on_dc (dentry_at (FdTable.f_dentry f))));
  m ← deref (fun s => find (fun m => m_addr m =? d_mount d) (mounts (fv (px s))));
  path ← deref (fun _ => d_path d);
  let dir := strlcat (strlcpy (m_path m) PATH_MAX) path PATH_MAX in
  e ← utimes (match pathname with Some n => strlcat (strlcat dir [SLASH] PATH_MAX) n PATH_MAX | None => dir end) times;
  fdrop fp;;
  result e 0.

Definition futimes (mem : bool) (fd : Z) (times : option ((Z * Z) * (Z * Z))) : M (posix F) Z := futimesat mem fd None times.

(** The length that [asprintf] returns is taken for an error, so that every path
    that it builds ends the call; [dup] is whether [strdup] found memory. *)
Definition sys_utimensat (dup : bool) (dirfd : Z) (pathname : option (list Z)) (times : option (Ramfs.timespec * Ramfs.timespec)) (flags : Z) : M (posix F) Z :=
  if bool_decide (pathname = Some []) then mret ENOENT else
  if negb (flags =? 0) && negb (flag flags AT_SYMLINK_NOFOLLOW) then mret EINVAL else
  if match times with Some (a, b) => negb (is_timespec_valid a) || negb (is_timespec_valid b) | None => false end then mret EINVAL else
  let ts := (init_timespec (im_now im) (fst <$> times), init_timespec (im_now im) (snd <$> times)) in
  match pathname with
  | Some (47 :: rest) =>
      if negb dup then mret ENOMEM else
      on_f (on_v (
        r ← lookup_dentry (im_sizeof_dentry im) (im_calloc im) (im_pads im) (SLASH :: rest);
        if negb (r.1 =? 0) then mret r.1 else
        let dp := r.2 in
        ro ← read_only dp;
        if ro : bool then on_dc (drele dp);; mret EROFS else
        v ← vnode_of dp;
        e ← write_access v.2;
        if negb (e =? 0) then mret EACCES else
        if match times with
           | Some (a, b) => (negb (a.2 =? UTIME_NOW) || negb (b.2 =? UTIME_NOW)) && (negb (a.2 =? UTIME_OMIT) || negb (b.2 =? UTIME_OMIT)) &&
                            (clear (v_mode v.2) VAPPEND =? 0)
           | None => false
           end
        then mret EPERM else
        e ← vn_settimes (im_ops im) (im_pad_attr im) v.1 ts;
        on_dc (drele dp);;
        mret e))
  | _ =>
      if dirfd =? AT_FDCWD then mret (match pathname with None => EFAULT | Some _ => ENOMEM end) else
      fp ← on_fd (FdTable.vfscore_get_file dirfd);
      if fp =? 0 then mret EBADF else
      f ← on_f (file_at fp);
      if FdTable.f_dentry f =? 0 then mret EBADF else
      v ← on_f (on_v (vnode_of (FdTable.f_dentry f)));
      if negb (flag (Z.of_nat (vtype_index (v_type v.2))) (Z.of_nat (vtype_index VDIR))) then mret ENOTDIR else mret ENOMEM
  end.

Definition utimensat (dup : bool) (dirfd : Z) (pathname : option (list Z)) (times : option (Ramfs.timespec * Ramfs.timespec)) (flags : Z) : M (posix F) Z :=
  e ← sys_utimensat dup dirfd pathname times flags; result e 0.

Definition sys_futimens (dup : bool) (fd : Z) (times : option (Ramfs.timespec * Ramfs.timespec)) : M (posix F) Z :=
  fp ← on_fd (FdTable.vfscore_get_file fd);
  if fp =? 0 then mret EBADF else
  f ← on_f (file_at fp);
  if FdTable.f_dentry f =? 0 then mret EBADF else
  d ← on_f (on_v (on_dc (dentry_at (FdTable.f_dentry f))));
  sys_utimensat dup AT_FDCWD (d_path d) times 0.

Definition futimens (dup : bool) (fd : Z) (times : option (Ramfs.timespec * Ramfs.timespec)) : M (posix F) Z := e ← sys_futimens dup fd times; result e 0.

(** ** Directories *)

(** A directory stream is its descriptor; [mem]: whether there is memory for it. *)
Definition opendir (mem : bool) (path : list Z) : M (posix F) (option Z) :=
  if negb mem then modify (set_errno ENOMEM);; mret None else
  fd ← open path 0 0;
  if fd <? 0 then mret None else
  st ← fstat fd;
  if st.1 <? 0 then mret None else
  a ← deref (fun _ => st.2);
  if Z.land (st_mode a) S_IFMT =? S_IFDIR then mret (Some fd) else modify (set_errno ENOTDIR);; mret None.

Definition fdopendir (mem : bool) (fd : Z) : M (posix F) (option Z) :=
  st ← fstat fd;
  if st.1 <? 0 then mret None else
  a ← deref (fun _ => st.2);
  if negb (Z.land (st_mode a) S_IFMT =? S_IFDIR) then modify (set_errno ENOTDIR);; mret None else
  if mem then mret (Some fd) else modify (set_errno ENOMEM);; mret None.

Definition dirfd (dirp : option Z) : M (posix F) Z := match dirp with None => libc_error EINVAL | Some fd => mret fd end.

Definition closedir (fd : Z) : M (posix F) Z := _ ← close fd; mret 0.

(** The result, the entry and whether [*result] is the entry. *)
Definition readdir_r (fd : Z) (entry : option (list Z)) : M (posix F) (Z * option (list Z) * bool) :=
  r ← with_fd fd entry (fun fp => sys_readdir (im_ops im) fp entry);
  mret (if r.1 =? ENOENT then 0 else r.1, r.2, r.1 =? 0).

(** An error is returned as a pointer; [entry] is the static variable. *)
Definition readdir (fd : Z) (entry : option (list Z)) : M (posix F) ((Z + bool) * option (list Z)) :=
  r ← readdir_r fd entry;
  let '(ret, entry, found) := r in
  if negb (ret =? 0) then mret (inl (- ret), entry) else modify (set_errno 0);; mret (inr found, entry).

Definition rewinddir (fd : Z) : M (posix F) unit := _ ← with_fd fd tt sys_rewinddir; mret tt.
Definition seekdir (fd loc : Z) : M (posix F) unit := _ ← with_fd fd tt (fun fp => sys_seekdir fp loc); mret tt.
Definition telldir (fd : Z) : M (posix F) Z :=
  r ← with_fd fd None sys_telldir;
  if negb (r.1 =? 0) then libc_error r.1 else deref (fun _ => r.2).

Definition do_fchdir (fp : Z) : M (posix F) Z :=
  old ← gets t_cwdfp;
  r ← on_f (sys_fchdir fp);
  match r.2 with Some c => modify (set_cwd c) | None => mret tt end;;
  modify (set_cwdfp fp);;
  (if negb (old =? 0) then fdrop old else mret tt);;
  mret r.1.

Definition chdir (pathname : option (list Z)) : M (posix F) Z :=
  match pathname with
  | None => libc_error ENOENT
  | Some p =>
      c ← task_conv p;
      if negb (c.1 =? 0) then libc_error c.1 else
      r ← on_f (do_open c.2 O_DIRECTORY 0);
      if negb (r.1 =? 0) then libc_error r.1 else
      e ← do_fchdir r.2;
      if negb (e =? 0) then fdrop r.2;; libc_error e else mret 0
  end.

Definition fchdir (fd : Z) : M (posix F) Z :=
  r ← fget fd;
  if negb (r.1 =? 0) then libc_error r.1 else
  fp ← deref (fun _ => r.2);
  e ← do_fchdir fp;
  if negb (e =? 0) then fdrop fp;; libc_error e else mret 0.

(** [null]: whether the buffer is to be allocated, [mem] whether it can be. *)
Definition getcwd (null mem : bool) (size : Z) : M (posix F) (option (list Z)) :=
  cwd ← gets t_cwd;
  let len := Z.of_nat (length cwd) + 1 in
  let fail e := modify (set_errno e);; mret None in
  let size' := if null && (size =? 0) then len else size in
  if null && negb mem then fail ENOMEM else
  if negb null && (size =? 0) then fail EINVAL else
  if size' <? len then fail ERANGE else mret (Some cwd).

(** ** Names *)

Definition mkdir (pathname : list Z) (mode : Z) : M (posix F) Z :=
  path_window 5;;
  mode ← apply_umask mode;
  name_call (Some pathname) (fun path => sys_mkdir (im_sizeof_dentry im) (im_calloc im) (im_pads im) (im_ops im) path mode).

Definition mknod (pathname : list Z) (mode : Z) : M (posix F) Z :=
  name_call (Some pathname) (fun path => sys_mknod (im_sizeof_dentry im) (im_calloc im) (im_pads im) (im_ops im) path mode).

(** [fuel] bounds the search for an entry other than the dots. *)
Definition rmdir (fuel : nat) (pathname : option (list Z)) : M (posix F) Z :=
  match pathname with
  | None => libc_error ENOENT
  | Some p => done_with (with_name p tt (fun path => err (on_f (
      a ← gets (im_file im);
      sys_rmdir (im_sizeof_dentry im) (im_calloc im) (im_pads im) (im_ops im) (im_open im) (im_close im) fuel a path))))
  end.

Definition null_or_empty (str : option (list Z)) : bool := match str with None | Some [] => true | _ => false end.

Definition rename (fuel : nat) (dup : bool) (oldpath newpath : option (list Z)) : M (posix F) Z :=
  if null_or_empty oldpath || null_or_empty newpath then libc_error ENOENT else
  let old := default [] oldpath in
  let new := default [] newpath in
  if is_dots (get_last_component old) || is_dots (get_last_component new) then libc_error EINVAL else
  done_with (with_name old tt (fun src => with_name new tt (fun dest => err (on_f (
    a ← gets (im_file im);
    sys_rename (im_sizeof_dentry im) (im_calloc im) (im_pads im) (im_ops im) (im_open im) (im_close im) fuel a dup src dest))))).

Definition link (dup : bool) (oldpath newpath : option (list Z)) : M (posix F) Z :=
  match oldpath, newpath with
  | Some old, Some new =>
      done_with (with_name old tt (fun path1 => with_name new tt (fun path2 => err (on_f (on_v (
        sys_link (im_sizeof_dentry im) (im_calloc im) (im_pads im) (im_ops im) dup path1 path2))))))
  | _, _ => libc_error ENOENT
  end.

Definition symlink (oldpath newpath : option (list Z)) : M (posix F) Z :=
  match oldpath, newpath with
  | Some old, Some new =>
      np ← task_conv new;
      e ← on_f (on_v (sys_symlink (im_sizeof_dentry im) (im_calloc im) (im_pads im) (im_ops im) np old));
      result e 0
  | _, _ => libc_error ENOENT
  end.

Definition unlink (ptr : list Z) (pathname : option (list Z)) : M (posix F) Z :=
  path_window 6;;
  name_call pathname (sys_unlink (im_sizeof_dentry im) (im_calloc im) (im_pads im) (im_ops im) ptr).

(** The result and the bytes in the buffer. *)
Definition readlink (pathname : option (list Z)) (bufsize : nat) : M (posix F) (Z * list Z) :=
  let fail e := r ← libc_error e; mret (r, []) in
  if bool_decide (bufsize = 0%nat) then fail (- EINVAL) else
  match pathname with
  | None => fail ENOENT
  | Some p =>
      r ← with_name p [] (fun path => on_f (on_v (sys_readlink (im_sizeof_dentry im) (im_calloc im) (im_pads im) path bufsize)));
      if negb (r.1 =? 0) then fail r.1 else mret (Z.of_nat (length r.2), r.2)
  end.

Definition umask (newmask : Z) : M (posix F) Z := old ← gets global_umask; modify (set_umask newmask);; mret old.

Definition chroot : M (posix F) Z := libc_error ENOSYS.

(** [memset] of the task, the working directory and the caches of vnodes and dentries. *)
Definition vfscore_init (s : posix F) : posix F :=
  let d := dcs (fv (px s)) in
  let d := dentry_init (set_vc (vnode_init (vc d)) d) in
  set_cwd [SLASH] (set_cwdfp 0 (set_px (set_fv (set_dcs d (fv (px s))) (px s)) s)).

End Code.
