(* ===== verification/Descriptors.v ===== *)
(** Descriptors as programs see them (vfscore/main.c): what the calls do with one
    that is closed and with one that is open.  [fdrop] here is the one that closes
    a file in [Open]. *)
From S2P Require Import Prelude VfsTypes Windows Uio PathConv Bitmap Vnode Dentry Dcache Namei Resolve Mount Open Io Syscalls Posix.
From S2P Require FdTable.
From stdpp Require Import base numbers gmap fin_maps sets list.
Import Errno.
#[local] Open Scope Z_scope.

Section Descriptors.
Context {F : Type} `{FileSystem F} (im : image F).

(** The descriptors of [s]. *)
Definition table (s : posix F) : FdTable.fdtable := FdTable.FdTable (bits s) (slots s) (fheap (px s)) [].

(** ** Operations on the table *)

(** A step that releases no dentry. *)
Lemma on_fd_ok {A} (m : M FdTable.fdtable A) (s : posix F) x t : m (table s) = Ok (x, t) -> FdTable.released t = [] ->
  on_fd m s = Ok (x, set_px (set_fheap (FdTable.heap t) (px s)) (set_fds (FdTable.bitmap t) (FdTable.files t) s)).
Proof. intros Hm Hr. unfold on_fd. fold (table s). rewrite Hm, Hr. destruct s as [[? ?] ? ? ? ? ? ?]. reflexivity. Qed.

Lemma on_fd_id {A} (m : M FdTable.fdtable A) (s : posix F) x : m (table s) = Ok (x, table s) -> on_fd m s = Ok (x, s).
Proof. intros Hm. rewrite (on_fd_ok m s x _ Hm eq_refl). by destruct s as [[? ?] ? ? ? ? ? ?]. Qed.

(** The file [fp] is [f] now. *)
Definition with_file (fp : Z) (f : FdTable.vfscore_file) (s : posix F) : posix F := set_px (set_fheap (<[fp := f]> (fheap (px s))) (px s)) s.

(** The last reference to a file. *)
Lemma fdrop_last_run (x : @files F) fp f : fp <> 0 -> fheap x !! fp = Some f -> FdTable.f_count f = 1 ->
  Open.fdrop (im_close im) fp x =
  match release (FdTable.f_dentry f) x with Ok (_, y) => Ok (1, set_fheap (delete fp (fheap x)) y) | Spin => Spin | Abort => Abort | Undef => Undef end.
Proof.
  intros Hfp Hf Hc. destruct x as [v h]. simpl in Hf. unfold Open.fdrop, Open.vfs_close, release, uk_assert, file_at. rewrite (proj2 (Z.eqb_neq fp 0)) by done.
  cbv [mbind M_bind mret M_ret zoom on_v deref modify set_fheap set_fv fv fheap negb]. rewrite Hf, Hc. cbn [Z.ltb Z.compare Z.eqb Pos.eqb]. rewrite lookup_insert_eq.
  cbn [FdTable.f_dentry FdTable.with_count].
  destruct (vnode_of (FdTable.f_dentry f) v) as [[w v1]| | |]; [|done..]. destruct (on_cache (vn_lock w.1) v1) as [[? v2]| | |]; [|done..].
  destruct (on_cache (vn_unlock w.1) v2) as [[? v3]| | |]; [|done..].
  destruct (Z.eqb_spec (im_close im fp) 0) as [E|E]; cbn [Z.eqb]; rewrite ?(proj2 (Z.eqb_neq _ 0) E); destruct (on_dc (drele (FdTable.f_dentry f)) v3) as [[? v4]| | |];
    try done; change (0 =? 0) with true; cbv iota beta; by rewrite ?insert_insert_eq, ?delete_insert_eq.
Qed.

(** [fdrop] on the table of descriptors and [fdrop] on the open files are the same
    function, down to the references to dentries. *)
Lemma fdrop_agrees (s : posix F) fp f : fp <> 0 -> fheap (px s) !! fp = Some f -> 0 < FdTable.f_count f < 2 ^ 31 ->
  on_fd (FdTable.fdrop (im_close im) fp) s = on_f (Open.fdrop (im_close im) fp) s.
Proof.
  intros Hfp Hf Hc. pose proof (FdTable.fdrop_run (im_close im) (table s) fp f Hfp Hf Hc) as Hr. unfold FdTable.dropped in Hr.
  destruct (Z.eqb_spec (FdTable.f_count f) 1) as [E|E].
  - unfold on_f, zoom. rewrite (fdrop_last_run _ _ _ Hfp Hf E). unfold on_fd. fold (table s). rewrite Hr. destruct s as [[v h] b l c cf e u]. simpl in *.
    cbv [mbind M_bind mret M_ret on_f zoom px set_px set_fds set_fheap fheap fv]. simpl. unfold release, on_v, zoom. simpl.
    by destruct ((vnode_of _ ≫= _) v) as [[? ?]| | |].
  - rewrite (on_fd_ok _ s 0 _ Hr eq_refl). unfold on_f. erewrite zoom_ok; [by destruct s as [[? ?] ? ? ? ? ? ?]|].
    unfold Open.fdrop. rewrite (proj2 (Z.eqb_neq fp 0)) by done. rewrite (bind_ret _ _ _ tt (px s)) by done. rewrite (bind_ret _ _ _ f (px s)) by (by apply deref_ok).
    rewrite (proj2 (Z.ltb_lt 0 (FdTable.f_count f))) by lia. rewrite (bind_ret _ _ _ tt (px s)) by done. erewrite (bind_ret _ _ _ tt) by (by apply modify_ok).
    rewrite (proj2 (Z.eqb_neq _ 1) E), (s32_small (FdTable.f_count f - 1)) by lia. done.
Qed.

(** ** A closed descriptor *)

Lemma fget_closed (s : posix F) fd : bitmap_ok (bits s) FdTable.FDTABLE_MAX_FILES -> 0 <= fd < FdTable.FDTABLE_MAX_FILES -> bit (bits s) fd = false ->
  on_fd (FdTable.vfscore_get_file fd) s = Ok (0, s) /\ fget fd s = Ok ((EBADF, None), s).
Proof.
  intros Hb Hfd Hbit. assert (FdTable.vfscore_get_file fd (table s) = Ok (0, table s)) as Hg.
  { unfold FdTable.vfscore_get_file. rewrite (proj2 (Z.ltb_lt fd _)) by lia. rewrite (bind_ret _ _ _ tt (table s)) by done.
    rewrite (bind_ret _ _ _ (bits s) (table s)) by (by apply gets_ok).
    rewrite (bind_ret _ _ _ (bit (bits s) fd) (table s)) by (apply lift_ok; split; [by eapply test_bit_ok|done]). by rewrite Hbit. }
  split; apply on_fd_id; [done|]. unfold FdTable.fget. by rewrite (bind_ret _ _ _ _ _ Hg).
Qed.

Lemma with_fd_closed {A} (s : posix F) fd (no : A) k : bitmap_ok (bits s) FdTable.FDTABLE_MAX_FILES -> 0 <= fd < FdTable.FDTABLE_MAX_FILES ->
  bit (bits s) fd = false -> with_fd im fd no k s = Ok ((EBADF, no), s).
Proof. intros Hb Hfd Hbit. destruct (fget_closed s fd Hb Hfd Hbit) as [_ Hg]. unfold with_fd. by rewrite (bind_ret _ _ _ _ _ Hg). Qed.

Lemma bind_stop {S A B} (b : bool) (m : M S A) (f : A -> M S B) s :
  m s = (if b then Undef else Abort) -> (m ≫= f) s = if b then Undef else Abort.
Proof. unfold mbind, M_bind. intros ->. by destruct b. Qed.

(** A descriptor that is out of range: the assertion fails, or the bitmap is read before its start. *)
Lemma fget_stray (s : posix F) fd : ~ 0 <= fd < FdTable.FDTABLE_MAX_FILES ->
  on_fd (FdTable.vfscore_get_file fd) s = (if fd <? 0 then Undef else Abort) /\ fget fd s = if fd <? 0 then Undef else Abort.
Proof.
  intros Hfd. assert (FdTable.vfscore_get_file fd (table s) = if fd <? 0 then Undef else Abort) as Hg.
  { unfold FdTable.vfscore_get_file. destruct (Z.ltb_spec fd 0) as [Hneg|Hpos].
    - rewrite (proj2 (Z.ltb_lt fd _)) by (unfold FdTable.FDTABLE_MAX_FILES; lia). rewrite (bind_ret _ _ _ tt (table s)) by done.
      rewrite (bind_ret _ _ _ (bits s) (table s)) by (by apply gets_ok). apply (bind_stop true).
      unfold lift, uk_test_bit, arr_at. rewrite (proj2 (Z.leb_gt 0 (Z.shiftr fd 6))); [done|]. by apply Z.shiftr_neg.
    - apply (bind_stop false). by rewrite (proj2 (Z.ltb_ge fd FdTable.FDTABLE_MAX_FILES)) by lia. }
  assert (FdTable.fget fd (table s) = if fd <? 0 then Undef else Abort) as Hg2 by (unfold FdTable.fget; by apply bind_stop).
  unfold fget, on_fd. fold (table s). rewrite Hg, Hg2. by destruct (fd <? 0).
Qed.

(** The calls on a descriptor, with the result of those that return a number, of [fstat] and of [readdir_r]. *)
Definition each_call (s : posix F) (fd : Z) (r : outcome (Z * posix F)) (r_stat : outcome (Z * option Vnode.stat * posix F))
  (r_dir : option (list Z) -> outcome (Z * option (list Z) * bool * posix F)) : Prop :=
  close im fd s = r /\ dup im fd s = r /\ fchdir im fd s = r /\ fsync im fd s = r /\ telldir im fd s = r /\
  (forall off whence, lseek im fd off whence s = r) /\
  (forall iov off, preadv im fd iov off s = r /\ pwritev im fd iov off s = r) /\
  (forall len, ftruncate im fd len s = r) /\ (forall mode off len, fallocate im fd mode off len s = r) /\
  (forall cmd arg, fcntl im fd cmd arg s = r) /\ fstat im fd s = r_stat /\
  forall entry, readdir_r im fd entry s = r_dir entry.

Lemma each_call_closed (s : posix F) fd : bitmap_ok (bits s) FdTable.FDTABLE_MAX_FILES -> 0 <= fd < FdTable.FDTABLE_MAX_FILES ->
  bit (bits s) fd = false ->
  each_call s fd (Ok (-1, set_errno EBADF s)) (Ok ((-1, None), set_errno EBADF s)) (fun entry => Ok ((EBADF, entry, false), s)).
Proof.
  intros Hb Hfd Hbit. destruct (fget_closed s fd Hb Hfd Hbit) as [Hget Hg].
  assert (forall A (no : A) k, with_fd im fd no k s = Ok ((EBADF, no), s)) as Hw by (intros; by apply with_fd_closed).
  split_and!; intros; unfold close, fdclose, dup, fchdir, fsync, telldir, lseek, preadv, pwritev, ftruncate, fallocate, fcntl, fstat, readdir_r, fd_call, done_with.
  all: try split.
  all: rewrite ?(bind_ret _ _ _ _ _ Hg), ?(bind_ret _ _ _ _ _ (Hw _ _ _)); try done.
  by rewrite (bind_ret _ _ _ EBADF s) by (by rewrite (bind_ret _ _ _ _ _ Hget)).
Qed.

Lemma each_call_stray (s : posix F) fd : ~ 0 <= fd < FdTable.FDTABLE_MAX_FILES ->
  each_call s fd (if fd <? 0 then Undef else Abort) (if fd <? 0 then Undef else Abort) (fun _ => if fd <? 0 then Undef else Abort).
Proof.
  intros Hfd. destruct (fget_stray s fd Hfd) as [Hget Hg].
  assert (forall A (no : A) k, with_fd im fd no k s = if fd <? 0 then Undef else Abort) as Hw by (intros; by apply bind_stop).
  split_and!; intros; unfold close, fdclose, dup, fchdir, fsync, telldir, lseek, preadv, pwritev, ftruncate, fallocate, fcntl, fstat, readdir_r, fd_call, done_with.
  all: try split.
  all: repeat first [exact Hg|exact Hget|apply Hw|apply bind_stop].
Qed.

(** C34. A descriptor that is not open.  If it is in range, that is from 0 to below
    FDTABLE_MAX_FILES, then close, dup, lseek, the calls that read and write, fsync,
    ftruncate, fallocate, fstat, fcntl, fchdir and telldir all return -1 with errno set to
    EBADF, and nothing else changes; readdir_r returns EBADF.  If it is not, none of
    them returns: from FDTABLE_MAX_FILES on the assertion in [vfscore_get_file] crashes
    the system, and with a negative one the bitmap is read before its start. *)
Theorem closed_descriptor (s : posix F) fd : bitmap_ok (bits s) FdTable.FDTABLE_MAX_FILES ->
  (0 <= fd < FdTable.FDTABLE_MAX_FILES -> bit (bits s) fd = false ->
   each_call s fd (Ok (-1, set_errno EBADF s)) (Ok ((-1, None), set_errno EBADF s)) (fun entry => Ok ((EBADF, entry, false), s))) /\
  (FdTable.FDTABLE_MAX_FILES <= fd -> each_call s fd Abort Abort (fun _ => Abort)) /\
  (fd < 0 -> each_call s fd Undef Undef (fun _ => Undef)).
Proof.
  intros Hb. split; [by apply each_call_closed|]. split; intros Hfd.
  - pose proof (each_call_stray s fd ltac:(lia)) as Hs. rewrite (proj2 (Z.ltb_ge fd 0)) in Hs; [exact Hs|unfold FdTable.FDTABLE_MAX_FILES in Hfd; lia].
  - pose proof (each_call_stray s fd ltac:(lia)) as Hs. by rewrite (proj2 (Z.ltb_lt fd 0) Hfd) in Hs.
Qed.

(** ** An open descriptor *)

(** The descriptor [fd] is open on the file [fp], which is [f]. *)
Record open_fd (s : posix F) (fd fp : Z) (f : FdTable.vfscore_file) : Prop := {
  of_range : 0 <= fd < FdTable.FDTABLE_MAX_FILES;
  of_bits : bitmap_ok (bits s) FdTable.FDTABLE_MAX_FILES;
  of_bit : bit (bits s) fd = true;
  of_slot : arr_at (slots s) fd = Some fp;
  of_file : fheap (px s) !! fp = Some f;
  of_null : fp <> 0;
  of_count : 0 < FdTable.f_count f /\ FdTable.f_count f + 1 < 2 ^ 31
}.

(** The file is held while a call runs. *)
Lemma get_file_run (s : posix F) fd fp f : open_fd s fd fp f ->
  exists t, FdTable.vfscore_get_file fd (table s) = Ok (fp, t) /\ FdTable.released t = [] /\
    set_px (set_fheap (FdTable.heap t) (px s)) (set_fds (FdTable.bitmap t) (FdTable.files t) s) =
    with_file fp (FdTable.with_count (FdTable.f_count f + 1) f) s.
Proof.
  intros []. exists (FdTable.set_heap (<[fp := FdTable.with_count (FdTable.f_count f + 1) f]> (fheap (px s))) (table s)).
  split; [|split; [done|by destruct s as [[? ?] ? ? ? ? ? ?]]].
  unfold FdTable.vfscore_get_file. rewrite (proj2 (Z.ltb_lt fd _)) by lia. rewrite (bind_ret _ _ _ tt (table s)) by done.
  rewrite (bind_ret _ _ _ (bits s) (table s)) by (by apply gets_ok).
  rewrite (bind_ret _ _ _ true (table s)) by (apply lift_ok; split; [rewrite <- of_bit0; by eapply test_bit_ok|done]). cbn [negb].
  rewrite (bind_ret _ _ _ fp (table s)) by (by apply deref_ok). unfold FdTable.fhold.
  rewrite (bind_ret _ _ _ _ _ (FdTable.upd_file_ok fp _ (table s) f of_file0)). by rewrite s32_small by lia.
Qed.

Lemma get_file_open (s : posix F) fd fp f : open_fd s fd fp f ->
  on_fd (FdTable.vfscore_get_file fd) s = Ok (fp, with_file fp (FdTable.with_count (FdTable.f_count f + 1) f) s).
Proof. intros Hof. destruct (get_file_run _ _ _ _ Hof) as (t & Hg & Hr & Et). by rewrite (on_fd_ok _ _ _ _ Hg Hr), Et. Qed.

Lemma fget_open (s : posix F) fd fp f : open_fd s fd fp f ->
  fget fd s = Ok ((0, Some fp), with_file fp (FdTable.with_count (FdTable.f_count f + 1) f) s).
Proof.
  intros Hof. destruct (get_file_run _ _ _ _ Hof) as (t & Hg & Hr & Et). unfold fget. erewrite on_fd_ok; [exact (f_equal (fun y => Ok ((0, Some fp), y)) Et)| |exact Hr].
  unfold FdTable.fget. rewrite (bind_ret _ _ _ _ _ Hg). by rewrite (proj2 (Z.eqb_neq fp 0) (of_null _ _ _ _ Hof)).
Qed.

Lemma fdrop_held (s : posix F) fp f : fp <> 0 -> fheap (px s) !! fp = Some f -> 1 < FdTable.f_count f < 2 ^ 31 ->
  fdrop im fp s = Ok (tt, with_file fp (FdTable.with_count (FdTable.f_count f - 1) f) s).
Proof.
  intros Hfp Hf Hc. unfold fdrop. pose proof (FdTable.fdrop_run (im_close im) (table s) fp f Hfp Hf ltac:(lia)) as Hr. unfold FdTable.dropped in Hr.
  rewrite (proj2 (Z.eqb_neq _ 1)) in Hr by lia. rewrite (bind_ret _ _ _ _ _ (on_fd_ok _ s _ _ Hr eq_refl)). by destruct s as [[? ?] ? ? ? ? ? ?].
Qed.

(** A call on the file of an open descriptor. *)
Lemma with_fd_open {A} (s : posix F) fd fp f (no : A) k x t f' : open_fd s fd fp f ->
  k fp (set_fheap (<[fp := FdTable.with_count (FdTable.f_count f + 1) f]> (fheap (px s))) (px s)) = Ok (x, t) ->
  fheap t !! fp = Some f' -> FdTable.f_count f' = FdTable.f_count f + 1 ->
  with_fd im fd no k s = Ok (x, with_file fp (FdTable.with_count (FdTable.f_count f) f') (set_px t s)).
Proof.
  intros Hof Hk Hf' Hc. pose proof Hof as []. unfold with_fd. rewrite (bind_ret _ _ _ _ _ (fget_open _ _ _ _ Hof)). cbn [fst snd]. change (negb (0 =? 0)) with false. cbv iota.
  rewrite (bind_ret _ _ _ fp _) by (by apply deref_ok). erewrite (bind_ret _ _ _ x); [|by apply zoom_ok].
  erewrite (bind_ret _ _ _ tt); [|eapply (fdrop_held _ fp f'); [done|exact Hf'|lia]]. rewrite Hc. by replace (FdTable.f_count f + 1 - 1) with (FdTable.f_count f) by lia.
Qed.

End Descriptors.

Section Opening.
Context {F : Type} `{FileSystemLaws F} (im : image F) (roots : Z -> option Z) (live : list Z).
(** There is memory, and what the allocator returns is not in use; the vnodes can
    be opened. *)
Hypothesis calloc_fresh : forall s, im_calloc im s <> 0 /\ dentries s !! im_calloc im s = None.
Hypothesis file_fresh : forall x, im_file im x <> 0 /\ fheap x !! im_file im x = None.
Hypothesis open_allowed : forall fp, im_open im fp = 0.

(** The caches and the table of descriptors are in order; callers hold the
    references [hd], [hv] and [held]. *)
Record posix_ok (s : posix F) (hd hv held : Z -> Z) : Prop := {
  pk_vfs : vfs_ok roots live (fv (px s)) hd hv;
  pk_fd : FdTable.fd_ok (table s) held;
  pk_tight : FdTable.fd_tight (table s)
}.

(** The call failed with [e]: no descriptor and no reference is left. *)
Definition refused (s s' : posix F) (hd hv held : Z -> Z) (ret e : Z) : Prop :=
  ret = -1 /\ errno s' = e /\ table s' = table s /\ posix_ok s' hd hv held.

(** The call opened the node [n]: it has the lowest free descriptor, and without one
    the file stays behind. *)
Definition given_fd (s s' : posix F) (hd hv held : Z -> Z) (mp r : Z) (cs : list (list Z)) (n fl ret : Z) : Prop :=
  exists a dp, fheap (px s) !! a = None /\ at_node roots (fv (px s')) dp mp r cs n /\
  (bit (bits s) ret = false /\ (forall j, 0 <= j < ret -> bit (bits s) j = true) /\ open_fd s' ret a (FdTable.File ret fl 1 0 dp) /\
     posix_ok s' (add_held (add_held hd dp 1) dp 1) hv held \/
   ret = -1 /\ errno s' = - ENFILE /\ (forall j, 0 <= j < FdTable.FDTABLE_MAX_FILES -> bit (bits s) j = true) /\
     posix_ok s' (add_held (add_held hd dp 1) dp 1) hv (add_held held a 1)).

Lemma path_window_ok i s hd hv held : posix_ok s hd hv held -> exists v, path_window im i s = Ok (tt, set_px (set_fv v (px s)) s) /\
  posix_ok (set_px (set_fv v (px s)) s) hd hv held /\ fss v = fss (fv (px s)) /\ mounts v = mounts (fv (px s)) /\
  forall n, room (fv (px s)) hd hv n -> room v hd hv n.
Proof.
  intros [Hv Hf Ht]. destruct (stack_window_ok roots live _ _ _ i (im_pad_path im) Hv) as (t & Hw & Hok & Hr). exists (set_dcs t (fv (px s))).
  split; [|split; [by split|done]]. unfold path_window, on_f. apply zoom_ok. by apply on_v_ok.
Qed.

(** What [open] and [dup] end with. *)
Definition give_fd (fp : Z) : M (posix F) Z :=
  fd ← on_fd (FdTable.fdalloc (im_close im) fp);
  fdrop im fp;;
  if negb (fd.1 =? 0) then libc_error fd.1 else deref (fun _ => fd.2).

Lemma fd_held s hd hv held fp : posix_ok s hd hv held -> 0 < held fp -> fp <> 0.
Proof. intros [_ Hf _] Hh ->. destruct (proj2 (FdTable.ok_held _ _ Hf 0) Hh) as [f Hf0]. by rewrite (FdTable.ok_null _ _ Hf) in Hf0. Qed.

Lemma drop_table s held fp f : FdTable.fd_ok (table s) held -> FdTable.fd_tight (table s) -> 0 < held fp -> fheap (px s) !! fp = Some f -> 1 < FdTable.f_count f ->
  fdrop im fp s = Ok (tt, with_file fp (FdTable.with_count (FdTable.f_count f - 1) f) s) /\
  FdTable.fd_ok (table (with_file fp (FdTable.with_count (FdTable.f_count f - 1) f) s)) (add_held held fp (-1)) /\
  FdTable.fd_tight (table (with_file fp (FdTable.with_count (FdTable.f_count f - 1) f) s)).
Proof.
  intros Hok Ht Hh Hf Hc. destruct (FdTable.fdrop_ok (im_close im) _ held fp Hok Hh) as (r & g & Hg & _ & Hd). change (fheap (px s) !! fp = Some g) in Hg.
  rewrite Hf in Hg. injection Hg as <-. destruct (FdTable.ok_count _ _ Hok fp f Hf) as [_ Hb]. unfold FdTable.dropped in Hd. rewrite (proj2 (Z.eqb_neq _ 1)) in Hd by lia.
  assert (fp <> 0) by (intros ->; pose proof (FdTable.ok_null _ _ Hok) as E; simpl in E; congruence).
  split; [apply fdrop_held; [done|done|lia]|]. split; [exact Hd|exact Ht].
Qed.

Lemma give_fd_ok s hd hv held fp f : posix_ok s hd hv held -> 0 < held fp -> fheap (px s) !! fp = Some f -> FdTable.f_count f + 2 < 2 ^ 31 ->
  exists ret s', give_fd fp s = Ok (ret, s') /\ fv (px s') = fv (px s) /\
    (bit (bits s) ret = false /\ (forall j, 0 <= j < ret -> bit (bits s) j = true) /\ open_fd s' ret fp (FdTable.with_fd ret f) /\
       slots s' = <[Z.to_nat ret := fp]> (slots s) /\ posix_ok s' hd hv (add_held held fp (-1)) \/
     ret = -1 /\ errno s' = - ENFILE /\ (forall j, 0 <= j < FdTable.FDTABLE_MAX_FILES -> bit (bits s) j = true) /\ posix_ok s' hd hv held).
Proof.
  intros [Hv Hf Ht] Hh Hfp Hc. assert (fp <> 0) as Hn by (by eapply fd_held).
  destruct (FdTable.fdalloc_ok (im_close im) (table s) held fp f Hf Ht Hh Hfp Hc) as [(k & t & Hk & Hrun & Hok & Htt & Ef & Hfree & Hlow & Hb & Eh & Er)|(t & Hrun & Hok & Htt & Hall & Et)].
  - pose proof (on_fd_ok _ s _ _ Hrun Er) as H1. set (s1 := set_px _ _) in H1. assert (table s1 = t) as E1 by (destruct t; simpl in *; by subst).
    destruct (drop_table s1 held fp (FdTable.with_count (FdTable.f_count f + 1) (FdTable.with_fd k f))) as (H2 & Hok2 & Ht2).
    { by rewrite E1. } { by rewrite E1. } { done. } { simpl. rewrite Eh. apply lookup_insert_eq. } { pose proof (FdTable.ok_count _ _ Hf fp f Hfp). simpl. lia. }
    eexists k, _. split; [unfold give_fd; rewrite (bind_ret _ _ _ _ _ H1), (bind_ret _ _ _ _ _ H2); done|]. split; [done|]. left.
    split; [done|]. split; [done|]. split; [|split; [exact Ef|by split]].
    pose proof (FdTable.ok_count _ _ Hf fp f Hfp). split; simpl; try done; try lia.
    + exact (FdTable.ok_bitmap _ _ Hok).
    + rewrite Hb by lia. by rewrite Z.eqb_refl.
    + rewrite Ef. unfold arr_at. rewrite (proj2 (Z.leb_le 0 k)) by lia. apply list_lookup_insert_eq. rewrite (FdTable.ok_length _ _ Hf). unfold FdTable.FDTABLE_MAX_FILES in Hk. lia.
    + rewrite lookup_insert_eq. destruct f as [? ? c ? ?]. simpl. unfold FdTable.with_fd, FdTable.with_count. simpl. by replace (c + 1 - 1) with c by lia.
  - assert (FdTable.released t = []) as Er by (by rewrite Et). pose proof (on_fd_ok _ s _ _ Hrun Er) as H1. set (s1 := set_px _ _) in H1.
    assert (table s1 = t) as E1 by (destruct t; simpl in *; by subst).
    destruct (drop_table s1 (add_held held fp 1) fp (FdTable.with_count (FdTable.f_count f + 1) f)) as (H2 & Hok2 & Ht2).
    { by rewrite E1. } { by rewrite E1. } { rewrite add_held_eq. lia. } { simpl. rewrite Et. apply lookup_insert_eq. } { pose proof (FdTable.ok_count _ _ Hf fp f Hfp). simpl. lia. }
    eexists (-1), _. split; [unfold give_fd; rewrite (bind_ret _ _ _ _ _ H1), (bind_ret _ _ _ _ _ H2); done|]. split; [done|]. right.
    split; [done|]. split; [done|]. split; [done|]. split; [done| |done].
    eapply FdTable.fd_ok_ext; [|exact Hok2]. intros x. unfold add_held. repeat case_match; lia.
Qed.

(** The state after the file of [open] is there. *)
Lemma new_file_ok s hd hv held x a fl dp : posix_ok s hd hv held -> a <> 0 -> fheap (px s) !! a = None ->
  fheap x = <[a := FdTable.File 0 fl 1 0 dp]> (fheap (px s)) -> forall hd', vfs_ok roots live (fv x) hd' hv ->
  posix_ok (set_px x s) hd' hv (add_held held a 1).
Proof.
  intros [Hv Hf Ht] Ha Hn Ex hd' Hv'. split; [done| |exact Ht]. unfold table. simpl. rewrite Ex. exact (FdTable.new_ok (table s) held a fl dp Hf Ha Hn).
Qed.

(** C14. [open] without O_CREAT, O_TRUNC and O_NOFOLLOW, for a task whose working
    directory turns the name into a path that look-up can get to (see [resolvable]): the
    path resolves as in the tree of the file system; if there is no such node the call
    returns -1 with the error of the resolution, and if the mode, the mount or the kind
    of the node do not allow the access with that error; then the table of descriptors
    is as it was and no reference is kept. Otherwise the result is the lowest free
    descriptor, it is open on a new file with the flags given, offset 0 and one
    reference, whose dentry leads to the node. With all descriptors taken the result is
    -1 with [errno] set to [-ENFILE], and the file is never freed. The open of the file
    system accepts every file, as that of ramfs does. *)
Theorem open_descriptor s hd hv held pathname path flags mode m q r : posix_ok s hd hv held -> path_conv (t_cwd s) pathname = Ok (0, path) ->
  resolvable roots (fv (px s)) hd hv path m q r 0 -> flag (vfscore_fflags flags) O_CREAT = false -> flag (vfscore_fflags flags) O_NOFOLLOW = false ->
  flag (vfscore_fflags flags) O_TRUNC = false ->
  exists ret s', open im pathname flags mode s = Ok (ret, s') /\ fs_same (fss (fv (px s))) (fss (fv (px s'))) /\ mounts (fv (px s')) = mounts (fv (px s)) /\
    match lookup_tree (fss (fv (px s))) r (segs q) (ends_slash q) with
    | RErr e => refused s s' hd hv held ret e
    | RFound n => exists md mt, mount_of (fv (px s)) (m_addr m) = Some mt /\
        let e := open_error md (m_flags mt) (kind (fss (fv (px s))) n) (vfscore_fflags flags) in
        if e =? 0 then given_fd s s' hd hv held (m_addr m) r (segs q) n (vfscore_fflags flags) ret
        else refused s s' hd hv held ret e
    end.
Proof.
  intros Hok Hpath [Hfr Hrt Hlen Hsg Hlk Hrm] Hcr Hnf Htr. unfold open. rewrite (bind_ret _ _ _ (if flag flags O_CREAT then clear mode (global_umask s) else 0) s) by (by destruct (flag flags O_CREAT)).
  destruct (path_window_ok 5 s hd hv held Hok) as (v & Hw & Hok1 & Efs & Em & Hr). rewrite (bind_ret _ _ _ _ _ Hw). set (s1 := set_px _ s) in *.
  rewrite (bind_ret _ _ _ (0, path) s1) by (unfold task_conv; rewrite (bind_ret _ _ _ (t_cwd s) s1) by (by apply gets_ok); by apply lift_ok).
  change (negb ((0, path).1 =? 0)) with false. cbv iota.
  destruct (file_fresh (px s1)) as [Ha Hfresh]. set (a := im_file im (px s1)) in *.
  destruct (sys_open_ok (im_sizeof_dentry im) (im_calloc im) calloc_fresh (op_create (im_ops im)) (fun vp => op_truncate (im_ops im) vp 0) (im_open im) (im_pads im) roots live
    (px s1) hd hv path m q r a flags (if flag flags O_CREAT then clear mode (global_umask s) else 0)) as (x & e & fp & Hrun & Hsame & Hm & Hres); try done.
  { exact (pk_vfs _ _ _ _ Hok1). } { split; simpl; rewrite ?Em, ?Efs; auto. }
  assert (on_f (do_open im path flags (if flag flags O_CREAT then clear mode (global_umask s) else 0)) s1 = Ok ((e, fp), set_px x s1)) as H1.
  { apply zoom_ok. unfold do_open. rewrite (bind_ret _ _ _ a (px s1)) by (by apply gets_ok). exact Hrun. }
  rewrite (bind_ret _ _ _ _ _ H1). cbn [fst snd]. change (set_px x s1) with (set_px x s) in *. cbn [px set_px s1 fv set_fv] in Hsame, Hm, Hres. rewrite Efs in *. rewrite Em in *.
  assert (forall e', vfs_ok roots live (fv x) hd hv -> fheap x = fheap (px s) -> refused s (set_errno e' (set_px x s)) hd hv held (-1) e') as Hrefuse.
  { intros e' Hvx Hx. destruct Hok. assert (table (set_errno e' (set_px x s)) = table s) as Et by (unfold table; simpl; by rewrite Hx).
    split; [done|]. split; [done|]. split; [done|]. split; [done|by rewrite Et..]. }
  destruct (lookup_tree _ _ _ _) as [n|err] eqn:Etree.
  2:{ destruct Hres as (-> & Hx & Hvx). apply lookup_tree_err, Z.eqb_neq in Etree. rewrite Etree. eexists _, _. split; [done|]. auto. }
  destruct Hres as (md & mt & Hmt & -> & Hres). unfold mount_of in Hmt. rewrite Em in Hmt. set (e := open_error _ _ _ _) in *. destruct (e =? 0) eqn:E.
  2:{ destruct Hres as [Hx Hvx]. eexists _, _. split; [done|]. split; [done|]. split; [done|]. exists md, mt. split; [done|]. simpl. fold e. rewrite E. auto. }
  destruct Hres as (dp & -> & Hx & Hat & Hvx). pose proof (new_file_ok s hd hv held x a _ dp Hok Ha Hfresh Hx _ Hvx) as Hok2.
  destruct (give_fd_ok _ _ _ _ a (FdTable.File 0 (vfscore_fflags flags) 1 0 dp) Hok2) as (ret & s' & Hg & Ev & Hcase).
  { rewrite add_held_eq. pose proof (proj1 (FdTable.ok_held _ _ (pk_fd _ _ _ _ Hok) a)). lia. } { simpl. rewrite Hx. apply lookup_insert_eq. } { simpl. lia. }
  exists ret, s'. split; [exact Hg|]. rewrite Ev. split; [done|]. split; [done|]. exists md, mt. split; [done|]. simpl. fold e. rewrite E.
  exists a, dp. split; [done|]. rewrite Ev. split; [done|]. destruct Hcase as [(? & ? & ? & _ & Hok')|?]; [left|by right].
  split; [done|]. split; [done|]. split; [done|]. destruct Hok'. split; [done| |done]. eapply FdTable.fd_ok_ext; [|done]. intros y. unfold add_held. repeat case_match; lia.
Qed.

(** [fdclose] up to the reference it got first. *)
Lemma put_fd_run s hd hv held fd fp f : posix_ok s hd hv held -> open_fd s fd fp f ->
  exists s2, on_fd (FdTable.vfscore_put_fd (im_close im) fd) (with_file fp (FdTable.with_count (FdTable.f_count f + 1) f) s) = Ok (0, s2) /\
    px s2 = px s /\ errno s2 = errno s /\ t_cwdfp s2 = t_cwdfp s /\ posix_ok s2 hd hv (add_held held fp 1) /\ slots s2 = <[Z.to_nat fd := 0]> (slots s) /\
    forall j, 0 <= j -> bit (bits s2) j = negb (j =? fd) && bit (bits s) j.
Proof.
  intros [Hv Hf Ht] [Hr Hb Hbit Hs Hfile Hnull Hc]. destruct (FdTable.fhold_ok (table s) held fp f Hf Hfile) as [_ Hf1]; [lia|].
  set (s1 := with_file _ _ s). assert (table s1 = FdTable.set_heap (<[fp := FdTable.with_count (FdTable.f_count f + 1) f]> (FdTable.heap (table s))) (table s)) as E1 by done.
  rewrite <- E1 in Hf1. destruct (FdTable.put_fd_ok (im_close im) (table s1) _ fd Hf1 Ht Hr) as (t & Hrun & Hok & Htt & Ef & Eb & Hh).
  destruct (Hh fp (FdTable.with_count (FdTable.f_count f + 1) f)) as [Eh Er]; [done|apply lookup_insert_eq|simpl; lia|].
  pose proof (on_fd_ok _ s1 _ _ Hrun Er) as Hr1. eexists. split; [exact Hr1|].
  assert (FdTable.heap t = fheap (px s)) as Eh'.
  { rewrite Eh. simpl. rewrite insert_insert_eq. destruct f as [? ? c ? ?]. unfold FdTable.with_count. simpl. replace (c + 1 - 1) with c by lia. by apply insert_id. }
  split; [simpl; rewrite Eh'; by destruct (px s)|]. split; [done|]. split; [done|]. split; [|done]. split; [done| |].
  - destruct t; simpl in *; subst; exact Hok.
  - destruct t; simpl in *; subst; exact Htt.
Qed.

(** [close] gives back the reference of the descriptor. *)
Lemma close_run s hd hv held fd fp f : posix_ok s hd hv held -> open_fd s fd fp f ->
  exists s2, px s2 = px s /\ errno s2 = errno s /\ t_cwdfp s2 = t_cwdfp s /\ posix_ok s2 hd hv (add_held held fp 1) /\ slots s2 = <[Z.to_nat fd := 0]> (slots s) /\
    (forall j, 0 <= j -> bit (bits s2) j = negb (j =? fd) && bit (bits s) j) /\
    close im fd s = (fdrop im fp;; mret 0) s2.
Proof.
  intros Hok Hof. destruct (put_fd_run s hd hv held fd fp f Hok Hof) as (s2 & Hr2 & ? & ? & ? & ? & ? & ?). exists s2. split_and!; try done.
  unfold close, fdclose. pose proof (get_file_open s fd fp f Hof) as Hr1. unfold mbind, M_bind in *. rewrite Hr1. rewrite (proj2 (Z.eqb_neq fp 0)) by apply Hof.
  rewrite Hr2. cbn [Z.eqb]. by destruct (fdrop im fp s2) as [[? ?]| | |].
Qed.

(** [close] of a descriptor whose file has other references. *)
Lemma close_shared s hd hv held fd fp f : posix_ok s hd hv held -> open_fd s fd fp f -> 1 < FdTable.f_count f ->
  exists s', close im fd s = Ok (0, s') /\ errno s' = errno s /\ fv (px s') = fv (px s) /\
    fheap (px s') = <[fp := FdTable.with_count (FdTable.f_count f - 1) f]> (fheap (px s)) /\ posix_ok s' hd hv held /\
    slots s' = <[Z.to_nat fd := 0]> (slots s) /\ forall j, 0 <= j -> bit (bits s') j = negb (j =? fd) && bit (bits s) j.
Proof.
  intros Hok Hof Hc. destruct (close_run s hd hv held fd fp f Hok Hof) as (s2 & Epx & Ee & _ & Hok2 & Es & Eb & Hrun). destruct Hok2 as [Hv2 Hf2 Ht2].
  destruct (drop_table s2 _ fp f Hf2 Ht2) as (Hd & Hf3 & Ht3).
  { rewrite add_held_eq. pose proof (proj1 (FdTable.ok_held _ _ (pk_fd _ _ _ _ Hok) fp)). lia. } { rewrite Epx. apply Hof. } { done. }
  eexists. rewrite Hrun, (bind_ret _ _ _ _ _ Hd). split; [done|]. simpl. rewrite Epx. split_and!; try done. split; [exact Hv2| |exact Ht3].
  eapply FdTable.fd_ok_ext; [|exact Hf3]. intros x. unfold add_held. repeat case_match; lia.
Qed.

(** [close] of the last reference. *)
Lemma close_frees s hd hv held fd fp f : posix_ok s (add_held hd (FdTable.f_dentry f) 1) hv held -> open_fd s fd fp f -> FdTable.f_count f = 1 ->
  roots_held (fv (px s)) hd -> (forall x, 0 <= hd x) ->
  exists s', close im fd s = Ok (0, s') /\ errno s' = errno s /\ t_cwdfp s' = t_cwdfp s /\ fss (fv (px s')) = fss (fv (px s)) /\ mounts (fv (px s')) = mounts (fv (px s)) /\
    fheap (px s') = delete fp (fheap (px s)) /\ posix_ok s' hd hv held /\
    slots s' = <[Z.to_nat fd := 0]> (slots s) /\ forall j, 0 <= j -> bit (bits s') j = negb (j =? fd) && bit (bits s) j.
Proof.
  intros Hok Hof Hc Hroots Hpos. destruct (close_run s _ hv held fd fp f Hok Hof) as (s2 & Epx & Ee & Ec & [Hv2 Hf2 Ht2] & Es & Eb & Hrun).
  destruct Hof as [_ _ _ _ Hfile Hnull _]. rewrite <- Epx in Hfile, Hroots.
  destruct (fdrop_last (im_close im) roots live (px s2) hd hv fp f Hv2 Hroots Hpos Hnull Hfile Hc) as (t & Hd & Hv3).
  destruct (FdTable.fdrop_ok (im_close im) (table s2) _ fp Hf2) as (r & g & Hg & _ & Hf3).
  { rewrite add_held_eq. pose proof (proj1 (FdTable.ok_held _ _ (pk_fd _ _ _ _ Hok) fp)). lia. }
  change (fheap (px s2) !! fp = Some g) in Hg. rewrite Hfile in Hg. injection Hg as <-. unfold FdTable.dropped in Hf3. rewrite Hc in Hf3. change (1 =? 1) with true in Hf3. cbv iota in Hf3.
  assert (fdrop im fp s2 = Ok (tt, set_px (Files (set_dcs t (fv (px s2))) (delete fp (fheap (px s2)))) s2)) as Hd2.
  { unfold fdrop. by rewrite (bind_ret _ _ _ 1 (set_px (Files (set_dcs t (fv (px s2))) (delete fp (fheap (px s2)))) s2))
      by (rewrite (fdrop_agrees im s2 fp f) by (done || lia); by apply zoom_ok). }
  eexists. rewrite Hrun, (bind_ret _ _ _ _ _ Hd2). split; [done|]. simpl. rewrite <- Epx. split_and!; try done. split; [done| |done].
  eapply (FdTable.fd_ok_ext _ (add_held (add_held held fp 1) fp (-1))); [|by destruct Hf3; split]. intros x. unfold add_held. repeat case_match; lia.
Qed.

(** C18. [close] of the only descriptor of a file that nobody else uses returns 0 and
    leaves [errno] alone: the descriptor is free again and no other one changes, the
    file is freed, its reference to the dentry is given back, and the file system and
    the mounts are as they were. The roots of the mounts are held by others. *)
Theorem close_last s hd hv held fd fp f : posix_ok s (add_held hd (FdTable.f_dentry f) 1) hv held -> open_fd s fd fp f -> FdTable.f_count f = 1 ->
  roots_held (fv (px s)) hd -> (forall x, 0 <= hd x) ->
  exists s', close im fd s = Ok (0, s') /\ errno s' = errno s /\ fss (fv (px s')) = fss (fv (px s)) /\ mounts (fv (px s')) = mounts (fv (px s)) /\
    fheap (px s') = delete fp (fheap (px s)) /\ posix_ok s' hd hv held /\
    slots s' = <[Z.to_nat fd := 0]> (slots s) /\ forall j, 0 <= j -> bit (bits s') j = negb (j =? fd) && bit (bits s) j.
Proof.
  intros Hok Hof Hc Hroots Hpos. destruct (close_frees s hd hv held fd fp f Hok Hof Hc Hroots Hpos) as (s' & Hrun & He & _ & Hrest). by exists s'.
Qed.

(** [dup] of an open descriptor. *)
Lemma dup_run s hd hv held fd fp f : posix_ok s hd hv held -> open_fd s fd fp f -> FdTable.f_count f + 3 < 2 ^ 31 ->
  exists s1, dup im fd s = give_fd fp s1 /\ fv (px s1) = fv (px s) /\ slots s1 = slots s /\ bits s1 = bits s /\
    fheap (px s1) !! fp = Some (FdTable.with_count (FdTable.f_count f + 1) f) /\ posix_ok s1 hd hv (add_held held fp 1).
Proof.
  intros [Hv Hf Ht] Hof Hc. pose proof Hof as [_ _ _ _ Hfile _ _]. eexists (with_file fp _ s). split.
  { unfold dup. rewrite (bind_ret _ _ _ _ _ (fget_open s fd fp f Hof)). cbn [fst snd]. change (negb (0 =? 0)) with false. cbv iota. by rewrite (bind_ret _ _ _ fp _) by (by apply deref_ok). }
  split; [done|]. split; [done|]. split; [done|]. split; [apply lookup_insert_eq|]. split; [done| |done].
  exact (proj2 (FdTable.fhold_ok (table s) held fp f Hf Hfile ltac:(lia))).
Qed.

(** C17. [dup] then [close] of the old descriptor, while some descriptor is free: [dup]
    returns the lowest free descriptor, which names the same file, and after the [close]
    the old one is free, the new one is open on that file with the count, the flags and
    the offset it had, and no reference has been gained or lost. The count of the file
    is below 2^31 - 3. *)
Theorem dup_close_moves s hd hv held fd fp f free : posix_ok s hd hv held -> open_fd s fd fp f -> FdTable.f_count f + 3 < 2 ^ 31 ->
  0 <= free < FdTable.FDTABLE_MAX_FILES -> bit (bits s) free = false ->
  exists k s1 s2, dup im fd s = Ok (k, s1) /\ bit (bits s) k = false /\ (forall j, 0 <= j < k -> bit (bits s) j = true) /\
    open_fd s1 fd fp (FdTable.with_fd k (FdTable.with_count (FdTable.f_count f + 1) f)) /\
    close im fd s1 = Ok (0, s2) /\ bit (bits s2) fd = false /\ open_fd s2 k fp (FdTable.with_fd k f) /\
    posix_ok s2 hd hv held /\ fv (px s2) = fv (px s) /\ slots s2 = <[Z.to_nat fd := 0]> (<[Z.to_nat k := fp]> (slots s)).
Proof.
  intros Hok Hof Hc Hfree Hbit. destruct (dup_run s hd hv held fd fp f Hok Hof Hc) as (s0 & Hdup & Ev & Es & Eb & Hf0 & Hok0). pose proof Hof as [Hr Hbm Hb Hs Hfile Hn Hcount].
  pose proof (proj1 (FdTable.ok_held _ _ (pk_fd _ _ _ _ Hok) fp)) as Hh.
  destruct (give_fd_ok s0 hd hv (add_held held fp 1) fp _ Hok0 ltac:(rewrite add_held_eq; lia) Hf0 ltac:(simpl; lia)) as (k & s1 & Hg & Ev1 & Hcase). rewrite Eb, Es in Hcase.
  destruct Hcase as [(Hk & Hlow & Hof1 & Es1 & Hok1)|(_ & _ & Hall & _)]; [|by rewrite Hall in Hbit].
  exists k, s1. pose proof Hof1 as [Hr1 Hbm1 Hb1 Hs1 Hfile1 _ Hcount1]. assert (k <> fd) as Hkf by congruence.
  assert (posix_ok s1 hd hv held) as Hok1'.
  { destruct Hok1. split; [done| |done]. eapply FdTable.fd_ok_ext; [|done]. intros x. unfold add_held. repeat case_match; lia. }
  assert (open_fd s1 fd fp (FdTable.with_fd k (FdTable.with_count (FdTable.f_count f + 1) f))) as Hof2.
  { assert (arr_at (slots s1) fd = Some fp) as Hs2.
    { rewrite Es1. unfold arr_at in *. rewrite (proj2 (Z.leb_le 0 fd)) in * by lia. rewrite list_lookup_insert_ne by lia. done. }
    split; try done. rewrite (pk_tight _ _ _ _ Hok1' fd fp Hs2 : bit (bits s1) fd = _). by apply Z.eqb_neq in Hn as ->. }
  destruct (close_shared s1 hd hv held fd fp _ Hok1' Hof2) as (s2 & Hcl & _ & Ev2 & Eh2 & Hok2 & Es2 & Eb2); [simpl; lia|]. exists s2.
  split; [by rewrite Hdup|]. split; [done|]. split; [done|]. split; [done|]. split; [done|]. split; [by rewrite Eb2, Z.eqb_refl by lia|].
  split; [|split; [done|]; split; [congruence|by rewrite Es2, Es1]].
  split; try done.
  - exact (FdTable.ok_bitmap _ _ (pk_fd _ _ _ _ Hok2)).
  - rewrite Eb2, Hb1 by lia. by rewrite (proj2 (Z.eqb_neq k fd)).
  - rewrite Es2. unfold arr_at in *. rewrite (proj2 (Z.leb_le 0 k)) in * by lia. by rewrite list_lookup_insert_ne by lia.
  - rewrite Eh2, lookup_insert_eq. destruct f as [? ? c ? ?]. unfold FdTable.with_fd, FdTable.with_count. simpl. by replace (c + 1 - 1) with c by lia.
Qed.

(** ** The working directory *)

(** [sys_fchdir] changes nothing but the string. *)
Lemma sys_fchdir_run (x : @files F) hd hv fp f d v : vfs_ok roots live (fv x) hd hv -> fheap x !! fp = Some f -> dentries (dcs (fv x)) !! FdTable.f_dentry f = Some d ->
  vnodes (vc (dcs (fv x))) !! d_vnode d = Some v ->
  sys_fchdir fp x = if bool_decide (v_type v = VDIR) then match d_path d with Some p => Ok ((0, Some (strlcpy p PATH_MAX)), x) | None => Undef end else Ok ((EBADF, None), x).
Proof.
  intros Hok Hf Hd Hv. assert (FdTable.f_dentry f <> 0) as Hn.
  { intros E. rewrite E in Hd. by rewrite (t_null _ _ (dc_tree _ _ _ _ (ok_dc _ _ _ _ _ Hok))) in Hd. }
  destruct (cache_lock _ _ _ _ _ _ _ Hok Hv) as [Hl Hu]. pose proof (on_v_id _ x _ Hl) as Hl'. pose proof (on_v_id _ x _ Hu) as Hu'.
  unfold sys_fchdir, locked_vnode. rewrite (bind_ret _ _ _ f x) by (by apply deref_ok). rewrite (proj2 (Z.eqb_neq _ 0)) by done.
  rewrite (bind_ret _ _ _ f x) by (by apply deref_ok). rewrite (bind_ret _ _ _ _ _ (on_v_id _ _ _ (vnode_of_ok _ _ _ _ Hd Hv))). cbn [fst snd].
  rewrite (bind_ret _ _ _ _ _ Hl'). case_bool_decide; cbn [negb].
  - destruct (d_path d) as [q|] eqn:Eq.
    + erewrite (bind_ret _ _ _ (0, Some (strlcpy q PATH_MAX)) x).
      2:{ rewrite (bind_ret _ _ _ d x) by (apply on_v_id, on_dc_id; by apply deref_ok). by rewrite (bind_ret _ _ _ q x) by (apply on_v_id; by apply deref_ok). }
      by rewrite (bind_ret _ _ _ _ _ Hu').
    + unfold mbind at 1, M_bind at 1. rewrite (bind_ret _ _ _ d x) by (apply on_v_id, on_dc_id; by apply deref_ok). unfold on_v, zoom, deref, mbind, M_bind. by rewrite Eq.
  - rewrite (bind_ret _ _ _ (EBADF, None) x) by done. by rewrite (bind_ret _ _ _ _ _ Hu').
Qed.

(** A file that is not a directory. *)
Lemma fchdir_file s hd hv held fd fp f d v : posix_ok s hd hv held -> open_fd s fd fp f -> t_cwdfp s = 0 ->
  dentries (dcs (fv (px s))) !! FdTable.f_dentry f = Some d -> vnodes (vc (dcs (fv (px s)))) !! d_vnode d = Some v -> v_type v <> VDIR ->
  fchdir im fd s = Ok (-1, set_errno EBADF (set_cwdfp fp s)).
Proof.
  intros [Hok _ _] Hof Hcwd Hd Hv Ht. unfold fchdir. rewrite (bind_ret _ _ _ _ _ (fget_open s fd fp f Hof)). cbn [fst snd]. change (negb (0 =? 0)) with false. cbv iota.
  set (s1 := with_file _ _ s). rewrite (bind_ret _ _ _ fp s1) by (by apply deref_ok).
  assert (do_fchdir im fp s1 = Ok (EBADF, set_cwdfp fp s1)) as Hrun.
  { unfold do_fchdir. rewrite (bind_ret _ _ _ 0 s1) by (apply gets_ok; by split).
    pose proof (sys_fchdir_run (px s1) hd hv fp _ d v Hok (lookup_insert_eq _ _ _) Hd Hv) as Hr. rewrite bool_decide_false in Hr by done.
    rewrite (bind_ret _ _ _ _ s1 (zoom_id px set_px _ s1 _ ltac:(by destruct s1) Hr)). done. }
  rewrite (bind_ret _ _ _ _ _ Hrun). change (negb (EBADF =? 0)) with true. cbv iota. destruct Hof as [_ _ _ _ Hfile Hn Hc].
  rewrite (bind_ret _ _ _ _ _ (fdrop_held im (set_cwdfp fp s1) fp (FdTable.with_count (FdTable.f_count f + 1) f) Hn (lookup_insert_eq _ _ _) ltac:(simpl; lia))).
  unfold libc_error. f_equal. f_equal. unfold s1, with_file. destruct s as [[? ?] ? ? ? ? ? ?], f as [? ? c ? ?]. unfold set_px, set_errno, set_cwdfp, set_fheap, FdTable.with_count. simpl in *.
  rewrite insert_insert_eq. replace (c + 1 - 1) with c by lia. by rewrite insert_id.
Qed.

(** With a working directory whose file has been freed. *)
Lemma fchdir_freed s hd hv held fd fp f : posix_ok s hd hv held -> open_fd s fd fp f -> t_cwdfp s <> 0 -> fheap (px s) !! t_cwdfp s = None ->
  is_Some (dentries (dcs (fv (px s))) !! FdTable.f_dentry f) -> fchdir im fd s = Undef.
Proof.
  intros [Hok _ _] Hof Hcwd Hnone [d Hd]. destruct (dentry_vnode _ _ _ _ _ d (ok_dc _ _ _ _ _ Hok) Hd) as (v & Hv & _).
  unfold fchdir. rewrite (bind_ret _ _ _ _ _ (fget_open s fd fp f Hof)). cbn [fst snd]. change (negb (0 =? 0)) with false. cbv iota.
  set (s1 := with_file _ _ s). rewrite (bind_ret _ _ _ fp s1) by (by apply deref_ok).
  assert (do_fchdir im fp s1 = Undef) as Hrun; [|by unfold mbind, M_bind; rewrite Hrun].
  pose proof (sys_fchdir_run (px s1) hd hv fp _ d v Hok (lookup_insert_eq _ _ _) Hd Hv) as Hr. unfold do_fchdir. rewrite (bind_ret _ _ _ (t_cwdfp s) s1) by (by apply gets_ok).
  unfold mbind at 1, M_bind at 1. unfold on_f, zoom. destruct (sys_fchdir fp (px s1)) as [[r y]| | |]; [|by repeat case_match..].
  assert (y = px s1) as -> by (by repeat case_match; simplify_eq).
  assert (fp <> t_cwdfp s) as Hne by (intros ->; destruct Hof; congruence).
  assert (forall s3, px s3 = px s1 -> fdrop im (t_cwdfp s) s3 = Undef) as Hfree.
  { intros s3 E. unfold fdrop, on_fd, mbind, M_bind. rewrite E. simpl. unfold FdTable.fdrop, uk_assert. rewrite (proj2 (Z.eqb_neq _ 0) Hcwd). simpl.
    unfold FdTable.file, deref, mbind, M_bind. simpl. by rewrite lookup_insert_ne, Hnone. }
  rewrite (proj2 (Z.eqb_neq _ 0) Hcwd). destruct r.2 as [c|]; unfold mbind, M_bind; simpl; by rewrite Hfree.
Qed.

(** C35. [fchdir] to a descriptor of something other than a directory fails with EBADF,
    but the task keeps the file as that of its working directory without a reference to
    it. When the descriptor is closed, the last reference, the file is freed while the
    task still has its address: the next [fchdir], to any open descriptor, drops a
    reference to the freed file. The task had no file for its working directory before. *)
Theorem fchdir_dangling s hd hv held fd fp f d v : posix_ok s (add_held hd (FdTable.f_dentry f) 1) hv held -> open_fd s fd fp f -> FdTable.f_count f = 1 ->
  roots_held (fv (px s)) hd -> (forall x, 0 <= hd x) -> t_cwdfp s = 0 ->
  dentries (dcs (fv (px s))) !! FdTable.f_dentry f = Some d -> vnodes (vc (dcs (fv (px s)))) !! d_vnode d = Some v -> v_type v <> VDIR ->
  exists s1 s2, fchdir im fd s = Ok (-1, s1) /\ errno s1 = EBADF /\ close im fd s1 = Ok (0, s2) /\ t_cwdfp s2 = fp /\ fheap (px s2) !! fp = None /\
    forall fd' fp' f', open_fd s2 fd' fp' f' -> is_Some (dentries (dcs (fv (px s2))) !! FdTable.f_dentry f') -> fchdir im fd' s2 = Undef.
Proof.
  intros Hok Hof Hc Hroots Hpos Hcwd Hd Hv Ht. pose proof (fchdir_file s _ hv held fd fp f d v Hok Hof Hcwd Hd Hv Ht) as Hrun. set (s1 := set_errno EBADF (set_cwdfp fp s)) in *.
  assert (posix_ok s1 (add_held hd (FdTable.f_dentry f) 1) hv held) as Hok1 by (by destruct Hok). assert (open_fd s1 fd fp f) as Hof1 by (by destruct Hof).
  destruct (close_frees s1 hd hv held fd fp f Hok1 Hof1 Hc Hroots Hpos) as (s2 & Hcl & _ & Ecwd & _ & _ & Eh & Hok2 & _).
  assert (fheap (px s2) !! fp = None) as Hnone by (rewrite Eh; apply lookup_delete_eq).
  exists s1, s2. do 5 (split; [done|]). intros fd' fp' f' Hof' Hd'. apply (fchdir_freed s2 hd hv held fd' fp' f' Hok2 Hof'); [rewrite Ecwd; apply Hof|by rewrite Ecwd|done].
Qed.

(** The lock calls test the descriptor the wrong way round: [flock] of an open
    descriptor fails with EBADF and keeps a reference to its file, which is then never
    freed; of a closed one it succeeds. *)
Theorem flock_inverted (s : posix F) fd operation : operation ∈ [LOCK_SH; LOCK_EX; LOCK_UN] ->
  (forall fp f, open_fd s fd fp f -> flock fd operation s = Ok (-1, set_errno EBADF (with_file fp (FdTable.with_count (FdTable.f_count f + 1) f) s))) /\
  (bitmap_ok (bits s) FdTable.FDTABLE_MAX_FILES -> 0 <= fd < FdTable.FDTABLE_MAX_FILES -> bit (bits s) fd = false -> flock fd operation s = Ok (0, s)).
Proof.
  intros Hop. split.
  - intros fp f Hof. unfold flock. by rewrite (bind_ret _ _ _ _ _ (fget_open s fd fp f Hof)).
  - intros Hb Hfd Hbit. unfold flock. rewrite (bind_ret _ _ _ _ _ (proj2 (fget_closed s fd Hb Hfd Hbit))). cbn [fst]. change (EBADF =? 0) with false. cbv iota.
    by apply list_elem_of_In in Hop as [<-|[<-|[<-|[]]]].
Qed.

End Opening.
