(* ===== verification/PosixIo.v ===== *)
(** Reading and writing through descriptors (vfscore/main.c) over the RAM file
    system: what a program writes to a descriptor it reads back from it. *)
From S2P Require Import Prelude VfsTypes Windows Uio PathConv Bitmap Vnode Dentry Dcache Namei Resolve Mount RamfsVfs Rootfs Open RamfsOpen Io RamfsIo Syscalls Unlink RamfsNames Posix Descriptors.
From S2P Require Ramfs RamfsData FdTable.
From stdpp Require Import base numbers strings gmap fin_maps sets list.
Import Errno.
#[local] Open Scope Z_scope.

Section Calls.
Context (sizeof_vnode : Z) (malloc : vcache -> Z) (junk : vnode) (pad : Z).
Context (alloc : Ramfs.rstate -> Z) (roots : Z -> option Z) (live : list Z) (im : image Ramfs.rstate).
(** There is memory. *)
Hypothesis alloc_fresh : forall f, alloc f <> 0 /\ Ramfs.bufs f !! alloc f = None.
Hypothesis iov_fresh : forall x, im_iov im x <> 0.
(** The operations are those of ramfs, which accepts every position. *)
Hypothesis ramfs_read : im_read im = ramfs_vop_read.
Hypothesis ramfs_write : im_write im = ramfs_vop_write alloc.
Hypothesis ramfs_seek : im_seek im = fun _ _ => 0.

#[local] Instance io_fs : FileSystem Ramfs.rstate := ramfs_fs sizeof_vnode malloc junk pad.

(** The file of a descriptor, with one more reference. *)
Definition one_more (f : FdTable.vfscore_file) : FdTable.vfscore_file := FdTable.with_count (FdTable.f_count f + 1) f.

Lemma opened_as (s : @files Ramfs.rstate) fp fl g vp v n : opened s fp fl vp v n -> FdTable.f_dentry g = FdTable.f_dentry fl ->
  opened (set_fheap (<[fp := g]> (fheap s)) s) fp g vp v n.
Proof. intros [] E. split; try done; [apply lookup_insert_eq|by rewrite E]. Qed.

(** The count does not matter to a transfer. *)
Lemma moved_count fp fl given k : FdTable.with_count (FdTable.f_count fl) (moved_file (im_nopos im) fp (one_more fl) given k) = moved_file (im_nopos im) fp fl given k.
Proof. destruct fl. unfold moved_file. by case_match. Qed.

Lemma pwritev_ok (s : posix Ramfs.rstate) hd hv fd fp fl vp v n iov bytes offset : vfs_ok roots live (fv (px s)) hd hv -> RamfsData.fs_ok (fview (px s)) ->
  open_fd s fd fp fl -> opened (px s) fp fl vp v n -> flag (FdTable.f_flags fl) UK_FWRITE = true -> transferable iov bytes -> slot_available (wins (vc (dcs (fv (px s))))) ->
  let pos := if offset =? -1 then FdTable.f_offset fl else offset in let off := write_pos fl n pos in
  0 <= pos < 2 ^ 31 -> 0 <= off <= Ramfs.rn_size n -> Ramfs.rn_size n < 2 ^ 31 -> off + bytes < 2 ^ 31 ->
  length (Windows.live (tab_heap (Ramfs.wins (fview (px s))))) <> HEAP_MAX ->
  exists x, pwritev im fd iov offset s = Ok (bytes, set_px x s) /\
    wrote sizeof_vnode malloc junk pad roots live (px s) x hd hv fp (moved_file (im_nopos im) fp fl (negb (offset =? -1)) bytes) vp v (addrs iov) off.
Proof.
  intros Hok Hfs Hof Hop Hfl Htr Hslot pos off Hpos Hoff Hsz Hend Hroom.
  set (x0 := set_fheap (<[fp := one_more fl]> (fheap (px s))) (px s)).
  destruct (sys_write_ok sizeof_vnode malloc junk pad alloc (im_nopos im) roots live alloc_fresh x0 hd hv (im_pad_uio im) (im_iov im x0) fp (one_more fl) vp v n iov bytes offset)
    as (t & Hrun & Hwr); try done. { by apply (opened_as _ fp fl). }
  assert (FdTable.f_count (moved_file (im_nopos im) fp (one_more fl) (negb (offset =? -1)) bytes) = FdTable.f_count fl + 1) as Hc by (unfold moved_file; by destruct (_ || _)).
  pose proof (wr_heap _ _ _ _ _ _ _ _ _ _ _ _ _ _ _ _ Hwr) as Hheap.
  eexists. split.
  - unfold pwritev. erewrite (bind_ret _ _ _ (0, Some bytes)).
    2:{ apply (with_fd_open im s fd fp fl _ _ _ t (moved_file (im_nopos im) fp (one_more fl) (negb (offset =? -1)) bytes) Hof); [|rewrite Hheap; apply lookup_insert_eq|exact Hc].
        rewrite ramfs_write. exact Hrun. }
    reflexivity.
  - simpl. rewrite moved_count. destruct Hwr as [? ? ? ? ? ? (v' & n' & Hop' & Ed) ? ?]. split; try done.
    + simpl. rewrite Hheap. unfold x0. simpl. by rewrite !insert_insert_eq.
    + exists v', n'. split; [|done]. eapply opened_as; [exact Hop'|]. unfold moved_file. by destruct (_ || _).
Qed.

Lemma preadv_ok (s : posix Ramfs.rstate) hd hv fd fp fl vp v n iov bytes offset : vfs_ok roots live (fv (px s)) hd hv -> RamfsData.fs_ok (fview (px s)) ->
  open_fd s fd fp fl -> opened (px s) fp fl vp v n -> flag (FdTable.f_flags fl) UK_FREAD = true -> transferable iov bytes ->
  let pos := if offset =? -1 then FdTable.f_offset fl else offset in 0 <= pos -> Ramfs.rn_size n < 2 ^ 31 ->
  let k := Z.min bytes (Z.max 0 (Ramfs.rn_size n - pos)) in
  exists x, preadv im fd iov offset s = Ok (k, set_px x s) /\ vfs_ok roots live (fv x) hd hv /\ RamfsData.fs_ok (fview x) /\
    fheap x = <[fp := moved_file (im_nopos im) fp fl (negb (offset =? -1)) k]> (fheap (px s)) /\ fs_same (fss (fv (px s))) (fss (fv x)) /\ mounts (fv x) = mounts (fv (px s)) /\
    Ramfs.r_mem (fview x) <$> take (Z.to_nat k) (addrs iov) = take (Z.to_nat k) (drop (Z.to_nat pos) (RamfsData.contents (fview (px s)) (v_data v))) /\
    (forall a, a ∉ take (Z.to_nat k) (addrs iov) -> Ramfs.r_mem (fview x) a = Ramfs.r_mem (fview (px s)) a) /\
    (forall q, RamfsData.contents (fview x) q = RamfsData.contents (fview (px s)) q).
Proof.
  intros Hok Hfs Hof Hop Hfl Htr pos Hpos Hsz k. set (x0 := set_fheap (<[fp := one_more fl]> (fheap (px s))) (px s)).
  destruct (sys_read_ok sizeof_vnode malloc junk pad (im_nopos im) roots live x0 hd hv (im_pad_uio im) (im_iov im x0) fp (one_more fl) vp v n iov bytes offset)
    as (t & Hrun & Hok1 & Hfs1 & Hheap & Hsame & Hm & Hmem & Hoth & Hc1); try done. { by apply (opened_as _ fp fl). }
  assert (FdTable.f_count (moved_file (im_nopos im) fp (one_more fl) (negb (offset =? -1)) k) = FdTable.f_count fl + 1) as Hc by (unfold moved_file; by destruct (_ || _)).
  eexists. split.
  - unfold preadv. erewrite (bind_ret _ _ _ (0, Some k)).
    2:{ apply (with_fd_open im s fd fp fl _ _ _ t (moved_file (im_nopos im) fp (one_more fl) (negb (offset =? -1)) k) Hof); [|rewrite Hheap; apply lookup_insert_eq|exact Hc].
        rewrite ramfs_read. exact Hrun. }
    reflexivity.
  - simpl. rewrite moved_count. split; [done|]. split; [done|]. split; [rewrite Hheap; unfold x0; simpl; by rewrite !insert_insert_eq|done].
Qed.

Lemma lseek_ok (s : posix Ramfs.rstate) hd hv fd fp fl vp v n off : vfs_ok roots live (fv (px s)) hd hv -> open_fd s fd fp fl -> opened (px s) fp fl vp v n -> 0 <= off ->
  lseek im fd off SEEK_SET s = Ok (off, with_file fp (with_offset off fl) s).
Proof.
  intros Hok Hof Hop Hoff. set (x0 := set_fheap (<[fp := one_more fl]> (fheap (px s))) (px s)).
  assert (opened x0 fp (one_more fl) vp v n) as Hop0 by (by apply (opened_as _ fp fl)).
  pose proof (sys_lseek_set sizeof_vnode malloc junk pad roots live x0 hd hv fp (one_more fl) vp v n off Hok Hop0 Hoff) as Hrun. rewrite <- ramfs_seek in Hrun.
  pose proof (with_fd_open im s fd fp fl None (fun fp => sys_lseek (im_seek im) fp off SEEK_SET) _ _ (with_offset off (one_more fl)) Hof Hrun (lookup_insert_eq _ _ _) eq_refl) as Hw.
  unfold lseek. rewrite (bind_ret _ _ _ _ _ Hw). destruct s as [[? ?] ? ? ? ? ? ?], fl. unfold with_file, set_px, set_fheap. simpl. by rewrite !insert_insert_eq.
Qed.

Lemma open_fd_as (s : posix Ramfs.rstate) x fd fp fl g : open_fd s fd fp fl -> fheap x !! fp = Some g -> FdTable.f_count g = FdTable.f_count fl -> open_fd (set_px x s) fd fp g.
Proof. intros [] Hg E. split; try done. by rewrite E. Qed.

(** C6. What a program writes to a descriptor is what it reads from it. For a descriptor
    open on a regular file of the RAM file system for reading and writing, [writev] at
    the current position, [lseek] back to it and [readv] into other memory, with any
    lists of buffers of the same length: both transfers return the number of bytes,
    [lseek] the position, and [errno] and the descriptors are as before. The memory read
    into then holds the bytes that were written, and the position of the descriptor is
    behind them. The tree and all other files are as before, and the caches, the windows
    and the counts of references are consistent. The file is not open for appending and
    has a position, which is inside the file; each list has at least one byte and
    distinct addresses; the file stays below 2^31 bytes; memory and free windows are
    there. *)
Theorem posix_roundtrip (s : posix Ramfs.rstate) hd hv fd fp fl vp v n wr rd bytes : vfs_ok roots live (fv (px s)) hd hv -> RamfsData.fs_ok (fview (px s)) ->
  open_fd s fd fp fl -> opened (px s) fp fl vp v n ->
  flag (FdTable.f_flags fl) UK_FWRITE = true -> flag (FdTable.f_flags fl) UK_FREAD = true -> flag (FdTable.f_flags fl) O_APPEND = false -> im_nopos im fp = false ->
  transferable wr bytes -> transferable rd bytes -> slot_available (wins (vc (dcs (fv (px s))))) ->
  0 <= FdTable.f_offset fl <= Ramfs.rn_size n -> Ramfs.rn_size n < 2 ^ 31 -> FdTable.f_offset fl + bytes < 2 ^ 31 ->
  length (Windows.live (tab_heap (Ramfs.wins (fview (px s))))) <> HEAP_MAX ->
  exists s1 s2 x, writev im fd wr s = Ok (bytes, s1) /\ lseek im fd (FdTable.f_offset fl) SEEK_SET s1 = Ok (FdTable.f_offset fl, s2) /\
    readv im fd rd s2 = Ok (bytes, set_px x s) /\
    Ramfs.r_mem (fview x) <$> addrs rd = Ramfs.r_mem (fview (px s)) <$> addrs wr /\
    open_fd (set_px x s) fd fp (with_offset (FdTable.f_offset fl + bytes) fl) /\
    fheap x = <[fp := with_offset (FdTable.f_offset fl + bytes) fl]> (fheap (px s)) /\
    (forall q, q <> v_data v -> RamfsData.contents (fview x) q = RamfsData.contents (fview (px s)) q) /\
    fs_same (fss (fv (px s))) (fss (fv x)) /\ mounts (fv x) = mounts (fv (px s)) /\ vfs_ok roots live (fv x) hd hv /\ RamfsData.fs_ok (fview x).
Proof.
  intros Hok Hfs Hof Hop Hw Hr Happ Hpos Hwr Hrd Hslot Hoff Hsz Hend Hroom.
  destruct (pwritev_ok s hd hv fd fp fl vp v n wr bytes (-1) Hok Hfs Hof Hop Hw Hwr Hslot) as (x1 & Hrun1 & Hwrote); unfold write_pos; rewrite ?Happ; simpl; try lia; [done|].
  unfold write_pos, moved_file in Hwrote. rewrite Happ, Hpos in Hwrote. change (-1 =? -1) with true in Hwrote. cbn [negb orb] in Hwrote.
  pose proof (tr_some _ _ Hwr). assert (s64 (FdTable.f_offset fl + bytes) = FdTable.f_offset fl + bytes) as Es by (apply signed_small; lia). rewrite Es in Hwrote.
  set (off := FdTable.f_offset fl) in *. set (fl1 := with_offset (off + bytes) fl) in *.
  destruct (wrote_back _ _ _ _ _ _ _ _ _ _ _ _ _ _ _ _ _ _ _ Hfs Hop Hwr Hoff Hsz Hend Hwrote) as (v1 & n1 & Hop1 & Edata & Hsz1 & Hback).
  destruct Hwrote as [Hok1 Hfs1 Hheap1 Hsame1 Hm1 Hmem1 _ _ Ho1].
  pose proof (open_fd_as s x1 fd fp fl fl1 Hof ltac:(rewrite Hheap1; apply lookup_insert_eq) eq_refl) as Hof1. set (s1 := set_px x1 s) in *.
  pose proof (lseek_ok s1 hd hv fd fp fl1 vp v1 n1 off Hok1 Hof1 Hop1 ltac:(lia)) as Hrun2. set (fl2 := with_offset off fl1) in *.
  pose proof (open_fd_as s1 (set_fheap (<[fp := fl2]> (fheap x1)) x1) fd fp fl1 fl2 Hof1 (lookup_insert_eq _ _ _) eq_refl) as Hof2. set (s2 := with_file fp fl2 s1) in *.
  assert (opened (px s2) fp fl2 vp v1 n1) as Hop2 by (by apply (opened_as x1 fp fl1)). destruct (transfer_uio rd bytes 0 0 UIO_READ Hrd) as [_ Hlr].
  destruct (preadv_ok s2 hd hv fd fp fl2 vp v1 n1 rd bytes (-1) Hok1 Hfs1 Hof2 Hop2 Hr Hrd) as (x & Hrun3 & Hok3 & Hfs3 & Hheap3 & Hsame3 & Hm3 & Hmem3 & _ & Hc3); [simpl; lia|lia|].
  change (RamfsData.contents (fview (px s2))) with (RamfsData.contents (fview x1)) in *. change (FdTable.f_offset fl2) with off in *.
  change (-1 =? -1) with true in *. cbv iota in *. replace (Z.min bytes (Z.max 0 (Ramfs.rn_size n1 - off))) with bytes in * by lia.
  assert (fheap x = <[fp := fl1]> (fheap (px s))) as Hheap.
  { rewrite Hheap3. unfold moved_file. rewrite Hpos. simpl. by rewrite Es, Hheap1, !insert_insert_eq. }
  exists s1, s2, x. split; [done|]. split; [done|]. split; [done|]. split; [by rewrite Hback, take_ge in Hmem3 by lia|].
  split; [apply (open_fd_as s x fd fp fl fl1 Hof); [rewrite Hheap; apply lookup_insert_eq|done]|]. split; [done|].
  split; [intros q Hq; rewrite Hc3; by apply Ho1|]. split; [by etrans|]. split; [by rewrite Hm3|done].
Qed.

End Calls.

(** ** Witnesses *)

#[local] Opaque demo_root demo_tree demo_io demo_open.
#[local] Instance posix_fs : FileSystem Ramfs.rstate := ramfs_fs 200 demo_vmalloc demo_junk 9000.
#[local] Instance posix_laws : FileSystemLaws Ramfs.rstate := ramfs_laws 200 demo_vmalloc demo_junk 9000 (fun s => next_fresh _).

Definition demo_image : image Ramfs.rstate :=
  Image _ 96 demo_calloc demo_pads demo_ops ramfs_vop_read (ramfs_vop_write demo_alloc) (fun _ => 0) (fun _ => 0) (fun _ _ => 0) (fun _ => false) 512
    9140 9200 9300 (fun x => next (fheap x)) (fun _ => 7000) (0, 0).

(** A task that has just started, and one with the file [/a] open as descriptor 0. *)
Definition demo_task : posix Ramfs.rstate := Posix demo_files (replicate 16 0) (replicate 1024 0) [SLASH] 0 0 18.
Definition demo_posix : posix Ramfs.rstate := Posix demo_io (1 :: replicate 15 0) (5000 :: replicate 1023 0) [SLASH] 0 0 18.

Lemma demo_bits_ok (w : Z) : 0 <= w < 2 ^ 64 -> bitmap_ok (w :: replicate 15 0) FdTable.FDTABLE_MAX_FILES.
Proof. intros Hw. split; [|done]. constructor; [done|]. by apply Forall_replicate. Qed.

(** Descriptor 5 is not open, and 5000 is out of range. *)
Lemma closed_descriptor_witness : close demo_image 5 demo_task = Ok (-1, set_errno EBADF demo_task) /\
  read demo_image 5 100 3 demo_task = Ok (-1, set_errno EBADF demo_task) /\
  close demo_image 5000 demo_task = Abort /\ close demo_image (-1) demo_task = Undef.
Proof.
  destruct (closed_descriptor demo_image demo_task 5 (demo_bits_ok 0 ltac:(lia))) as [Hc _].
  destruct Hc as (H1 & _ & _ & _ & _ & _ & H2 & _); [done|vm_compute; reflexivity|].
  destruct (closed_descriptor demo_image demo_task 5000 (demo_bits_ok 0 ltac:(lia))) as (_ & Ha & _).
  destruct (closed_descriptor demo_image demo_task (-1) (demo_bits_ok 0 ltac:(lia))) as (_ & _ & Hu).
  split; [exact H1|]. split; [exact (proj1 (H2 [Iovec 100 3] (-1)))|]. split; [exact (proj1 (Ha ltac:(vm_compute; discriminate)))|exact (proj1 (Hu ltac:(lia)))].
Defined.

Lemma demo_task_ok : posix_ok demo_roots [64] demo_task demo_refs (fun _ => 0) (fun _ => 0).
Proof. destruct FdTable.fd_init_ok. split; [exact demo_files_ok|done|done]. Qed.

(** The file [/a], opened for reading. *)
Lemma open_descriptor_witness : exists ret s', open demo_image [97] 0 0 demo_task = Ok (ret, s') /\
  exists md mt, mount_of demo_tree 64 = Some mt /\
    let e := open_error md (m_flags mt) (kind (fss demo_tree) 8192) 1 in
    if e =? 0 then given_fd demo_roots [64] demo_task s' demo_refs (fun _ => 0) (fun _ => 0) 64 4096 [[97]] 8192 1 ret
    else refused demo_roots [64] demo_task s' demo_refs (fun _ => 0) (fun _ => 0) ret e.
Proof.
  destruct (open_descriptor demo_image demo_roots [64] (fun s => next_fresh _) (fun x => next_fresh _) (fun _ => eq_refl) demo_task demo_refs (fun _ => 0) (fun _ => 0)
    [97] [SLASH; 97] 0 0 demo_mount [97] 4096 demo_task_ok) as (ret & s' & Hrun & _ & _ & Hres); [vm_compute; reflexivity| |reflexivity..|].
  - split; [exact demo_tree_find|reflexivity|unfold PATH_MAX; simpl; lia|by right| |exact demo_tree_room]. intros n c n' _. apply demo_tree_kind.
  - exists ret, s'. split; [exact Hrun|]. change (fss (fv (px demo_task))) with (fss demo_tree) in Hres.
    assert (lookup_tree (fss demo_tree) 4096 (segs [97]) (ends_slash [97]) = RFound 8192) as E by exact demo_tree_lookup. rewrite E in Hres. exact Hres.
Defined.

Lemma demo_table_ok dp : fheap demo_io = {[5000 := FdTable.File 0 3 1 0 dp]} -> FdTable.fd_ok (table demo_posix) (fun _ => 0) /\ FdTable.fd_tight (table demo_posix).
Proof.
  intros Hh. destruct FdTable.fd_init_ok as [Hf Ht]. unfold table. cbn [px demo_posix bits slots]. rewrite Hh.
  pose proof (FdTable.new_ok FdTable.fd_init _ 5000 3 dp Hf ltac:(lia) eq_refl) as H1.
  pose proof (FdTable.fd_ok_bitmap _ _ (1 :: replicate 15 0) H1 (demo_bits_ok 1 ltac:(lia))) as H2.
  pose proof (FdTable.store_ok _ _ 0%nat 0 5000 H2 eq_refl ltac:(intros _; rewrite add_held_eq; lia)) as H3. split.
  - eapply FdTable.fd_ok_ext; [|exact H3]. intros x. unfold FdTable.moved, add_held. repeat case_match; lia.
  - eapply (FdTable.tight_store FdTable.fd_init _ 0 5000); [simpl; lia|exact Ht|reflexivity|]. intros j Hj.
    destruct (set_bit_ok (replicate 16 0) FdTable.FDTABLE_MAX_FILES 0 (demo_bits_ok 0 ltac:(lia)) ltac:(unfold FdTable.FDTABLE_MAX_FILES; lia)) as (ws & Hs & _ & Hb). assert (ws = 1 :: replicate 15 0) as -> by (vm_compute in Hs; by injection Hs as <-).
    simpl. rewrite Hb by done. by destruct (j =? 0).
Qed.

(** The task with the open file. *)
Lemma demo_posix_ok : exists dp, let f := FdTable.File 0 3 1 0 dp in
  posix_ok demo_roots [64] demo_posix (add_held (add_held demo_refs dp 1) dp 1) (fun _ => 0) (fun _ => 0) /\ open_fd demo_posix 0 5000 f /\ demo_open_file = f /\
  fheap demo_io = {[5000 := f]}.
Proof.
  destruct demo_io_ok as (dp & Hh & Hok). exists dp. destruct (demo_table_ok dp Hh) as [Hf Ht]. split; [by split|].
  split; [|split; [unfold demo_open_file; by rewrite Hh, lookup_singleton_eq|done]].
  split; [unfold FdTable.FDTABLE_MAX_FILES; lia|exact (demo_bits_ok 1 ltac:(lia))|reflexivity|reflexivity|cbn [px demo_posix]; rewrite Hh; apply lookup_singleton_eq|lia|simpl; lia].
Qed.

Lemma demo_refs_ok dp : roots_held (fv (px demo_posix)) (add_held demo_refs dp 1) /\ forall x, 0 <= add_held demo_refs dp 1 x.
Proof.
  split; [|intros x; unfold demo_refs, add_held; repeat case_match; lia]. intros m. assert (mounts (fv (px demo_posix)) = [demo_mount]) as -> by (vm_compute; reflexivity).
  intros ->%list_elem_of_singleton. unfold demo_refs, add_held. simpl. repeat case_match; lia.
Qed.

(** [/a] is closed. *)
Lemma close_last_witness : exists s', close demo_image 0 demo_posix = Ok (0, s') /\ fheap (px s') = ∅ /\ slots s' = replicate 1024 0.
Proof.
  destruct demo_posix_ok as (dp & Hok & Hof & _ & Hh). destruct (demo_refs_ok dp) as [Hr Hp].
  destruct (close_last demo_image demo_roots [64] demo_posix (add_held demo_refs dp 1) (fun _ => 0) (fun _ => 0) 0 5000 (FdTable.File 0 3 1 0 dp) Hok Hof eq_refl Hr Hp)
    as (s' & Hrun & _ & _ & _ & Eh & _ & Es & _).
  exists s'. split; [exact Hrun|]. split; [|exact Es]. rewrite Eh. cbn [px demo_posix]. rewrite Hh. apply delete_singleton_eq.
Defined.

(** [/a] gets the descriptor 1 and loses 0. *)
Lemma dup_close_moves_witness : exists k s1 s2, dup demo_image 0 demo_posix = Ok (k, s1) /\ close demo_image 0 s1 = Ok (0, s2) /\ bit (bits s2) 0 = false /\
  slots s2 = <[0%nat := 0]> (<[Z.to_nat k := 5000]> (slots demo_posix)).
Proof.
  destruct demo_posix_ok as (dp & Hok & Hof & _).
  destruct (dup_close_moves demo_image demo_roots [64] demo_posix _ (fun _ => 0) (fun _ => 0) 0 5000 (FdTable.File 0 3 1 0 dp) 1 Hok Hof)
    as (k & s1 & s2 & H1 & _ & _ & _ & H2 & H3 & _ & _ & _ & H4); [simpl; lia|done|reflexivity|]. exists k, s1, s2. split; [exact H1|]. split; [exact H2|]. split; [exact H3|exact H4].
Defined.

(** A regular file as the working directory. *)
Lemma fchdir_dangling_witness : exists s1 s2, fchdir demo_image 0 demo_posix = Ok (-1, s1) /\ close demo_image 0 s1 = Ok (0, s2) /\ t_cwdfp s2 = 5000 /\
  fheap (px s2) !! 5000 = None.
Proof.
  destruct demo_posix_ok as (dp & Hok & Hof & Ef & Hh). destruct (demo_refs_ok dp) as [Hr Hp]. pose proof demo_opened as [_ (d & Hd & Ev) Hv _]. rewrite Ef in Hd. rewrite <- Ev in Hv.
  destruct (fchdir_dangling demo_image demo_roots [64] demo_posix (add_held demo_refs dp 1) (fun _ => 0) (fun _ => 0) 0 5000 (FdTable.File 0 3 1 0 dp) d demo_vnode
    Hok Hof eq_refl Hr Hp eq_refl Hd Hv) as (s1 & s2 & H1 & _ & H2 & H3 & H4 & _); [vm_compute; discriminate|].
  exists s1, s2. split; [exact H1|]. split; [exact H2|]. split; [exact H3|exact H4].
Defined.

Lemma flock_inverted_witness : flock 0 LOCK_SH demo_task = Ok (0, demo_task) /\ exists s', flock 0 LOCK_EX demo_posix = Ok (-1, s').
Proof.
  destruct demo_posix_ok as (dp & _ & Hof & _). split.
  - apply (flock_inverted demo_task 0 LOCK_SH); [left|exact (demo_bits_ok 0 ltac:(lia))|done|vm_compute; reflexivity].
  - eexists. exact (proj1 (flock_inverted demo_posix 0 LOCK_EX ltac:(right; left)) 5000 (FdTable.File 0 3 1 0 dp) Hof).
Defined.

(** Three bytes at the address 100 are written, and read to 200, 300 and 301. *)
Lemma posix_roundtrip_witness : exists s1 s2 x,
  writev demo_image 0 [Iovec 100 3] demo_posix = Ok (3, s1) /\ lseek demo_image 0 0 SEEK_SET s1 = Ok (0, s2) /\
  readv demo_image 0 [Iovec 200 1; Iovec 300 2] s2 = Ok (3, set_px x demo_posix) /\ Ramfs.r_mem (fview x) <$> [200; 300; 301] = [100; 101; 102].
Proof.
  destruct demo_posix_ok as (dp & [Hok _ _] & Hof & Ef & _). pose proof demo_opened as Hop. rewrite Ef in Hop.
  destruct (posix_roundtrip 200 demo_vmalloc demo_junk 9000 demo_alloc demo_roots [64] demo_image demo_alloc_fresh (fun _ => ltac:(done)) eq_refl eq_refl eq_refl demo_posix
    _ (fun _ => 0) 0 5000 (FdTable.File 0 3 1 0 dp) demo_vp demo_vnode (Ramfs.new_node "a" VREG) [Iovec 100 3] [Iovec 200 1; Iovec 300 2] 3 Hok demo_io_fs_ok Hof Hop)
    as (s1 & s2 & x & H1 & H2 & H3 & H4 & _); [reflexivity|reflexivity|reflexivity|reflexivity|apply demo_transfers|apply demo_transfers| |
    vm_compute; split; discriminate|vm_compute; reflexivity|vm_compute; reflexivity|vm_compute; discriminate|].
  - exists 90%nat, ipc_zero. split; vm_compute; reflexivity.
  - exists s1, s2, x. split; [exact H1|]. split; [exact H2|]. split; [exact H3|]. etrans; [exact H4|vm_compute; reflexivity].
Defined.
