(* ===== verification/Devices.v ===== *)
(** Devices (devfs/device.c, devfs/null.c and the operations of devfs/devfs_vnops.c
    that forward to them): the list of devices, their reference counts, and the
    calls that go to a driver.

    This is the configuration without a scheduler, in which the locks are compiled
    out and [uk_mutex_is_locked] is the constant 0.  [asserts] tells whether
    [UK_ASSERT] is compiled in; in the image of the SQLite application it is.
    Drivers are parameters: an operation of a driver may change the devices. *)
From S2P Require Import Prelude VfsTypes Uio PathConv Vnode Namei.
From stdpp Require Import base numbers gmap fin_maps sets list.
Import Errno.
#[local] Open Scope Z_scope.

(** ** Code *)

Definition MAXDEVNAME : nat := 12.
Definition VPROTDEV : Z := 4.
Definition DO_RWMASK : Z := 3.
Definition D_CHR : Z := 1.
Definition D_BLK : Z := 2.
Definition D_TTY : Z := 16.
Definition UINT_MAX : Z := 2 ^ 32 - 1.

(** The members that device.c uses. *)
Record device := Device {
  dv_next : Z;
  dv_driver : Z;
  dv_name : list Z;
  dv_flags : Z;
  dv_active : bool;
  dv_refcnt : Z;
  dv_offset : Z;
  dv_max_io_size : Z;
  dv_private_data : Z
}.

Record devs := Devs { device_list : Z; devices : gmap Z device }.
Definition set_list x s := Devs x (devices s).
Definition set_devices x s := Devs (device_list s) x.
Definition with_next n d := Device n (dv_driver d) (dv_name d) (dv_flags d) (dv_active d) (dv_refcnt d) (dv_offset d) (dv_max_io_size d) (dv_private_data d).
Definition with_driver x d := Device (dv_next d) x (dv_name d) (dv_flags d) (dv_active d) (dv_refcnt d) (dv_offset d) (dv_max_io_size d) (dv_private_data d).
Definition with_active b d := Device (dv_next d) (dv_driver d) (dv_name d) (dv_flags d) b (dv_refcnt d) (dv_offset d) (dv_max_io_size d) (dv_private_data d).
Definition with_refcnt c d := Device (dv_next d) (dv_driver d) (dv_name d) (dv_flags d) (dv_active d) c (dv_offset d) (dv_max_io_size d) (dv_private_data d).

(** A missing operation is a null pointer. *)
Record devops := Devops {
  dop_open : option (Z -> Z -> M devs Z);
  dop_close : option (Z -> M devs Z);
  dop_read : option (Z -> uio -> Z -> M devs (Z * uio));
  dop_write : option (Z -> uio -> Z -> M devs (Z * uio));
  dop_ioctl : option (Z -> Z -> Z -> M devs Z)
}.
Record driver := Driver { dr_devops : devops; dr_devsz : Z }.

Record devinfo := Devinfo { di_cookie : Z; di_id : Z; di_flags : Z; di_name : list Z }.

(** [strncmp] of names, [strnlen]. *)
Definition same_name (x y : list Z) : bool := bool_decide (take MAXDEVNAME x = take MAXDEVNAME y).
Definition strnlen (name : list Z) (n : nat) : nat := Nat.min (length name) n.

Section Code.
Context (asserts : bool) (drivers : Z -> option driver).

Definition dev_assert (b : bool) : M devs unit := if asserts then uk_assert b else mret tt.
Definition uk_mutex_is_locked : bool := false.

Definition device_at (dev : Z) : M devs device := deref (fun s => devices s !! dev).
Definition upd_device (dev : Z) (g : device -> device) : M devs unit :=
  d ← device_at dev;
  modify (fun s => set_devices (<[dev := g d]> (devices s)) s).
Definition driver_of (dev : Z) : M devs driver := d ← device_at dev; deref (fun _ => drivers (dv_driver d)).

Fixpoint lookup_loop (fuel : nat) (dev : Z) (name : list Z) : M devs Z :=
  if dev =? 0 then mret 0 else
  match fuel with
  | O => spin
  | S fuel => d ← device_at dev; if same_name (dv_name d) name then mret dev else lookup_loop fuel (dv_next d) name
  end.

Definition device_lookup (name : list Z) : M devs Z := fun s => lookup_loop (size (devices s)) (device_list s) name s.

(** [priv] is what [malloc] returns for the private data. *)
Definition device_register (priv dev : Z) (name : list Z) (flags : Z) : M devs unit :=
  d ← device_at dev;
  dev_assert (negb (dv_driver d =? 0));;
  let len := strnlen name MAXDEVNAME in
  if bool_decide (len = 0%nat) || bool_decide (MAXDEVNAME <= len)%nat then mret tt else
  old ← device_lookup name;
  (if negb (old =? 0) then abort else mret tt);;
  drv ← driver_of dev;
  (if negb (dr_devsz drv =? 0) && (priv =? 0) then abort else mret tt);;
  head ← gets device_list;
  upd_device dev (fun d => Device head (dv_driver d) (strlcpy name (len + 1)) flags true 1 0 UINT_MAX (if dr_devsz drv =? 0 then 0 else priv));;
  modify (set_list dev).

(** [a] is what [malloc] returns for the device, and [junk] what it holds. *)
Definition device_create (a priv : Z) (junk : device) (drv : Z) (name : list Z) (flags : Z) : M devs Z :=
  dev_assert (negb (drv =? 0));;
  let len := strnlen name MAXDEVNAME in
  if bool_decide (len = 0%nat) || bool_decide (MAXDEVNAME <= len)%nat then mret 0 else
  if a =? 0 then mret 0 else
  modify (fun s => set_devices (<[a := with_driver drv junk]> (devices s)) s);;
  device_register priv a name flags;;
  mret a.

Fixpoint find_loop (fuel : nat) (tmp dev : Z) : M devs bool :=
  if tmp =? 0 then mret false else
  match fuel with
  | O => spin
  | S fuel => if tmp =? dev then mret true else d ← device_at tmp; find_loop fuel (dv_next d) dev
  end.

Definition device_valid (dev : Z) : M devs bool := fun s =>
  (found ← find_loop (size (devices s)) (device_list s) dev;
   if (found : bool) then d ← device_at dev; mret (dv_active d) else mret false) s.

Definition device_reference_locked (dev : Z) : M devs Z :=
  dev_assert uk_mutex_is_locked;;
  valid ← device_valid dev;
  if negb valid then mret ENODEV else
  upd_device dev (fun d => with_refcnt (s32 (dv_refcnt d + 1)) d);;
  mret 0.

Definition device_reference (dev : Z) : M devs Z :=
  ret ← device_reference_locked dev;
  if ret =? 0 then mret ret else mret 0.

(** The loop over the addresses of the links; [prev] 0 is that of [device_list]. *)
Fixpoint unlink_loop (fuel : nat) (prev cur dev : Z) : M devs unit :=
  if cur =? 0 then mret tt else
  match fuel with
  | O => spin
  | S fuel =>
      d ← device_at cur;
      if cur =? dev then (if prev =? 0 then modify (set_list (dv_next d)) else upd_device prev (with_next (dv_next d)))
      else unlink_loop fuel cur (dv_next d) dev
  end.

Definition device_release (dev : Z) : M devs unit :=
  upd_device dev (fun d => with_refcnt (s32 (dv_refcnt d - 1)) d);;
  d ← device_at dev;
  if 0 <? dv_refcnt d then mret tt else
  (fun s => unlink_loop (size (devices s)) 0 (device_list s) dev s);;
  modify (fun s => set_devices (delete dev (devices s)) s).

Definition device_destroy_locked (dev : Z) : M devs Z :=
  dev_assert uk_mutex_is_locked;;
  valid ← device_valid dev;
  if negb valid then mret ENODEV else
  upd_device dev (with_active false);;
  device_release dev;;
  mret 0.

Definition device_destroy (dev : Z) : M devs Z :=
  valid ← device_valid dev;
  if negb valid then mret ENODEV else
  upd_device dev (with_active false);;
  device_release dev;;
  mret 0.

(** The call of an operation of the driver, through a pointer that may be null. *)
Definition driver_op {A} (dev : Z) (sel : devops -> option A) : M devs A :=
  drv ← driver_of dev;
  dev_assert (bool_decide (is_Some (sel (dr_devops drv))));;
  deref (fun _ => sel (dr_devops drv)).

(** The error and what is stored in [*devp]. *)
Definition device_open (name : list Z) (mode : Z) : M devs (Z * option Z) :=
  dev ← device_lookup name;
  if dev =? 0 then mret (ENXIO, None) else
  error ← device_reference_locked dev;
  if negb (error =? 0) then mret (error, None) else
  op ← driver_op dev dop_open;
  error ← op dev mode;
  device_release dev;;
  mret (error, Some dev).

(** The calls on a device that is open. *)
Definition device_call {A B} (dev : Z) (fail : Z -> B) (sel : devops -> option A) (call : A -> M devs B) : M devs B :=
  error ← device_reference dev;
  if negb (error =? 0) then mret (fail error) else
  op ← driver_op dev sel;
  r ← call op;
  device_release dev;;
  mret r.

Definition device_close (dev : Z) : M devs Z := device_call dev id dop_close (fun op => op dev).
Definition device_read (dev : Z) (u : uio) (ioflags : Z) : M devs (Z * uio) := device_call dev (fun e => (e, u)) dop_read (fun op => op dev u ioflags).
Definition device_write (dev : Z) (u : uio) (ioflags : Z) : M devs (Z * uio) := device_call dev (fun e => (e, u)) dop_write (fun op => op dev u ioflags).
Definition device_ioctl (dev cmd arg : Z) : M devs Z := device_call dev id dop_ioctl (fun op => op dev cmd arg).

Fixpoint info_loop (fuel : nat) (dev i : Z) (info : devinfo) : M devs (Z * devinfo) :=
  if dev =? 0 then mret (ESRCH, info) else
  match fuel with
  | O => spin
  | S fuel =>
      d ← device_at dev;
      if i =? di_cookie info then mret (0, Devinfo (u64 (i + 1)) dev (dv_flags d) (strlcpy (dv_name d) MAXDEVNAME))
      else info_loop fuel (dv_next d) (u64 (i + 1)) info
  end.

Definition device_info (info : devinfo) : M devs (Z * devinfo) := fun s => info_loop (size (devices s)) (device_list s) 0 info s.

Definition enodev : Z := ENODEV.
Definition nullop : Z := 0.

(** ** devfs *)

(** [dev] is [v_data] of the vnode; the result is the error and its new [v_data]. *)
Definition devfs_open (path : list Z) (v_flags f_flags dev : Z) : M devs (Z * Z) :=
  if bool_decide (path = [SLASH]) then mret (0, dev) else
  if negb (Z.land v_flags VPROTDEV =? 0) then mret (EPERM, dev) else
  let path := match path with z :: p => if z =? SLASH then p else path | [] => [] end in
  r ← device_open path (Z.land f_flags DO_RWMASK);
  if negb (r.1 =? 0) then mret (r.1, dev) else
  x ← deref (fun _ => r.2);
  mret (0, x).

Definition devfs_close (path : list Z) (dev : Z) : M devs Z := if bool_decide (path = [SLASH]) then mret 0 else device_close dev.
Definition devfs_read (dev : Z) (u : uio) (ioflags : Z) : M devs (Z * uio) := device_read dev u ioflags.
Definition devfs_write (dev : Z) (u : uio) (ioflags : Z) : M devs (Z * uio) := device_write dev u ioflags.
Definition devfs_ioctl (dev cmd arg : Z) : M devs Z := device_ioctl dev cmd arg.

(** The devices in turn, until [found]; the count of those before it. *)
Fixpoint search_info (fuel : nat) (found : nat -> devinfo -> bool) (i : nat) (info : devinfo) : M devs (option devinfo) :=
  match fuel with
  | O => spin
  | S fuel =>
      r ← device_info info;
      if negb (r.1 =? 0) then mret None else
      if found i r.2 then mret (Some r.2) else search_info fuel found (S i) r.2
  end.

Definition search_devices (found : nat -> devinfo -> bool) (junk : devinfo) : M devs (option devinfo) := fun s =>
  search_info (S (size (devices s))) found 0 (Devinfo 0 (di_id junk) (di_flags junk) (di_name junk)) s.

(** What [devfs_lookup] finds before it makes the vnode. *)
Definition devfs_find (name : list Z) (junk : devinfo) : M devs (option devinfo) :=
  if bool_decide (name = []) then mret None else search_devices (fun _ info => same_name (di_name info) name) junk.

(** The type of the vnode of a device. *)
Definition devfs_type (flags : Z) : vtype := if negb (Z.land flags D_CHR =? 0) then VCHR else VBLK.

(** The error, the name and the new offset. *)
Definition devfs_readdir (f_offset : Z) (junk : devinfo) : M devs (Z * option (list Z) * Z) :=
  r ← search_devices (fun i _ => Z.of_nat i =? f_offset) junk;
  match r with None => mret (ENOENT, None, f_offset) | Some info => mret (0, Some (di_name info), s64 (f_offset + 1)) end.

(** ** /dev/null *)

Definition dev_null_open (dev mode : Z) : M devs Z := mret 0.
Definition dev_null_close (dev : Z) : M devs Z := mret 0.
Definition dev_null_write (dev : Z) (u : uio) (flags : Z) : M devs (Z * uio) :=
  mret (0, Uio (uio_iov u) (uio_iovcnt u) (uio_offset u) 0 (uio_op u)).

End Code.

(** ** The list of devices *)

Definition nexts (s : devs) : gmap Z Z := dv_next <$> devices s.

(** The list has every device once, names differ, and every count is one for a device
    that is not destroyed and one for each reference that is held. *)
Record dev_ok (s : devs) (held : Z -> Z) : Prop := {
  dk_list : exists l, linked (nexts s) (device_list s) l /\ forall x, is_Some (devices s !! x) -> x ∈ l;
  dk_names : forall x y dx dy, devices s !! x = Some dx -> devices s !! y = Some dy -> dv_name dx = dv_name dy -> x = y;
  dk_len : forall x d, devices s !! x = Some d -> (0 < length (dv_name d) < MAXDEVNAME)%nat;
  dk_count : forall x d, devices s !! x = Some d -> dv_refcnt d = (if dv_active d then 1 else 0) + held x /\ 0 < dv_refcnt d < 2 ^ 31;
  dk_held : forall x, 0 <= held x /\ (0 < held x -> is_Some (devices s !! x))
}.

(** Everything but the links. *)
Definition unlinked (d : device) : device := with_next 0 d.

Lemma nexts_lookup s x d : devices s !! x = Some d -> nexts s !! x = Some (dv_next d).
Proof. intros Hd. unfold nexts. by rewrite lookup_fmap, Hd. Qed.

Lemma nexts_some s x n : nexts s !! x = Some n -> exists d, devices s !! x = Some d /\ dv_next d = n.
Proof. unfold nexts. rewrite lookup_fmap. destruct (devices s !! x) as [d|]; [|done]. intros [= <-]. by exists d. Qed.

(** Whether [x] is a device of that name. *)
Definition named (s : devs) (name : list Z) (x : Z) : bool := match devices s !! x with Some d => same_name (dv_name d) name | None => false end.

Lemma lookup_loop_ok s name a l fuel : linked (nexts s) a l -> (length l <= fuel)%nat ->
  lookup_loop fuel a name s = Ok (default 0 (find (named s name) l), s).
Proof.
  intros Hl. revert fuel. induction Hl as [|a n l Ha Hn Hl IH]; intros fuel Hf; [by destruct fuel|].
  apply nexts_some in Hn as (d & Hd & <-). destruct fuel as [|fuel]; simpl in *; [lia|]. rewrite (proj2 (Z.eqb_neq a 0)) by done.
  rewrite (bind_ret _ _ _ d s) by (by apply deref_ok). unfold named at 1. rewrite Hd. case_match; [done|]. apply IH. lia.
Qed.

Lemma find_loop_ok s dev a l fuel : linked (nexts s) a l -> (length l <= fuel)%nat -> find_loop fuel a dev s = Ok (bool_decide (dev ∈ l), s).
Proof.
  intros Hl. revert fuel. induction Hl as [|a n l Ha Hn Hl IH]; intros fuel Hf.
  - rewrite bool_decide_false by (by intros ?%elem_of_nil). by destruct fuel.
  - apply nexts_some in Hn as (d & Hd & <-). destruct fuel as [|fuel]; simpl in *; [lia|]. rewrite (proj2 (Z.eqb_neq a 0)) by done.
    destruct (Z.eqb_spec a dev) as [->|E]; [by rewrite bool_decide_true by left|]. rewrite (bind_ret _ _ _ d s) by (by apply deref_ok).
    rewrite IH by lia. do 2 f_equal. apply bool_decide_ext. rewrite elem_of_cons. naive_solver.
Qed.

Lemma list_fuel s l : linked (nexts s) (device_list s) l -> (length l <= size (devices s))%nat.
Proof. intros Hl. pose proof (linked_length _ _ _ Hl (linked_nodup _ _ _ Hl)) as H. unfold nexts in H. by rewrite map_size_fmap in H. Qed.

Lemma device_lookup_ok s held name : dev_ok s held -> exists dev, device_lookup name s = Ok (dev, s) /\
  (if dev =? 0 then forall x d, devices s !! x = Some d -> dv_name d <> take MAXDEVNAME name
   else exists d, devices s !! dev = Some d /\ dv_name d = take MAXDEVNAME name).
Proof.
  intros [(l & Hl & Hall) _ Hlen _ _]. eexists. split; [apply (lookup_loop_ok s name _ l); [done|by apply list_fuel]|].
  destruct (find (named s name) l) as [x|] eqn:E; simpl.
  - apply find_some in E as [Hin%list_elem_of_In Hn]. destruct (linked_dom _ _ _ x Hl Hin) as [_ Hx]. rewrite (proj2 (Z.eqb_neq x 0)) by done.
    unfold named in Hn. destruct (devices s !! x) as [d|] eqn:Hd; [|done]. exists d. split; [done|]. unfold same_name in Hn. apply bool_decide_eq_true in Hn.
    rewrite <- Hn. symmetry. apply take_ge. specialize (Hlen x d Hd). lia.
  - intros x d Hd En. assert (x ∈ l) as Hin by (apply Hall; by eexists). apply list_elem_of_In in Hin.
    pose proof (find_none _ _ E x Hin) as Hf. unfold named in Hf. rewrite Hd in Hf. unfold same_name in Hf. apply bool_decide_eq_false in Hf. apply Hf.
    rewrite En, take_take. done.
Qed.

Lemma device_valid_ok s held dev : dev_ok s held ->
  device_valid dev s = Ok (match devices s !! dev with Some d => dv_active d | None => false end, s).
Proof.
  intros [(l & Hl & Hall) _ _ _ _]. unfold device_valid. rewrite (bind_ret _ _ _ _ _ (find_loop_ok s dev _ l _ Hl (list_fuel s l Hl))).
  destruct (devices s !! dev) as [d|] eqn:Hd.
  - rewrite bool_decide_true by (apply Hall; by eexists). by rewrite (bind_ret _ _ _ d s) by (by apply deref_ok).
  - rewrite bool_decide_false; [done|]. intros [[n Hn] _]%(linked_dom _ _ _ dev Hl). apply nexts_some in Hn as (d & Hd' & _). congruence.
Qed.

(** A change of one device that keeps its link and its name. *)
Lemma dev_ok_update s held dev d d' k : dev_ok s held -> devices s !! dev = Some d -> dv_next d' = dv_next d -> dv_name d' = dv_name d ->
  0 <= held dev + k -> dv_refcnt d' = (if dv_active d' then 1 else 0) + (held dev + k) -> 0 < dv_refcnt d' < 2 ^ 31 ->
  dev_ok (set_devices (<[dev := d']> (devices s)) s) (add_held held dev k).
Proof.
  intros [(l & Hl & Hall) Hnm Hlen Hc Hh] Hd En Em Hk Hr Hb.
  assert (nexts (set_devices (<[dev := d']> (devices s)) s) = nexts s) as Enx.
  { unfold nexts. simpl. rewrite fmap_insert, En. apply insert_id. by rewrite lookup_fmap, Hd. }
  assert (forall x dx, <[dev := d']> (devices s) !! x = Some dx -> exists d0, devices s !! x = Some d0 /\ dv_name dx = dv_name d0) as Hback.
  { intros x dx [[<- <-]|[_ Hx]]%lookup_insert_Some; [by exists d|by exists dx]. }
  split; simpl.
  - rewrite Enx. exists l. split; [done|]. intros x [dx Hx]. destruct (Hback x dx Hx) as (d0 & H0 & _). eauto.
  - intros x y dx dy Hx Hy E. destruct (Hback x dx Hx) as (d1 & H1 & E1), (Hback y dy Hy) as (d2 & H2 & E2). eapply Hnm; [done|done|congruence].
  - intros x dx Hx. destruct (Hback x dx Hx) as (d0 & H0 & ->). eauto.
  - intros x dx [[<- <-]|[Hne Hx]]%lookup_insert_Some; [by rewrite add_held_eq|]. rewrite add_held_ne by done. eauto.
  - intros x. destruct (decide (x = dev)) as [->|Hne]; [rewrite add_held_eq, lookup_insert_eq; eauto|]. rewrite add_held_ne, lookup_insert_ne by done. auto.
Qed.

Lemma nexts_relink s x n d : devices s !! x = Some d -> nexts (set_devices (<[x := with_next n d]> (devices s)) s) = <[x := n]> (nexts s).
Proof. intros Hd. unfold nexts. simpl. by rewrite fmap_insert. Qed.

Lemma filter_without (dev : Z) (l : list Z) : dev ∉ l -> filter (fun x => x <> dev) l = l.
Proof.
  induction l as [|x l IH]; intros Hin; [done|]. apply not_elem_of_cons in Hin as [Hne Hin]. rewrite filter_cons_True by done. by rewrite IH.
Qed.

(** The loop takes [dev] out of the list; [l1] is what it has passed. *)
Lemma unlink_loop_ok s dev l1 prev cur l fuel : linked (nexts s) (device_list s) (l1 ++ l) -> linked (nexts s) cur l -> dev ∈ l -> (length l <= fuel)%nat ->
  last l1 = (if prev =? 0 then None else Some prev) ->
  exists s', unlink_loop fuel prev cur dev s = Ok (tt, s') /\ unlinked <$> devices s' = unlinked <$> devices s /\
    linked (nexts s') (device_list s') (filter (fun x => x <> dev) (l1 ++ l)).
Proof.
  intros Hall Hl. revert l1 prev fuel Hall. induction Hl as [|a n l Ha Hn Hl IH]; intros l1 prev fuel Hall Hin Hf Hlast; [by apply elem_of_nil in Hin|].
  destruct fuel as [|fuel]; simpl in *; [lia|]. rewrite (proj2 (Z.eqb_neq a 0)) by done. pose proof (linked_nodup _ _ _ Hall) as Hnd.
  destruct (nexts_some _ _ _ Hn) as (d & Hd & <-). rewrite (bind_ret _ _ _ d s) by (by apply deref_ok).
  destruct (Z.eqb_spec a dev) as [->|E].
  - assert (filter (fun x => x <> dev) (l1 ++ dev :: l) = l1 ++ l) as Efil.
    { apply NoDup_app in Hnd as (_ & H1 & [H2 _]%NoDup_cons). rewrite filter_app, filter_cons_False by naive_solver.
      rewrite !filter_without; [done|done|intros Hx; apply (H1 dev Hx); left]. }
    rewrite Efil. destruct (Z.eqb_spec prev 0) as [->|Hp].
    + apply last_None in Hlast as ->. eexists. split; [done|]. by split.
    + apply last_Some in Hlast as [l0 ->]. rewrite <- app_assoc in *. simpl in *. destruct (linked_dom _ _ _ prev Hall) as [[np Hnp] _]; [set_solver|].
      destruct (nexts_some _ _ _ Hnp) as (dp & Hdp & _). eexists. unfold upd_device. rewrite (bind_ret _ _ _ dp s) by (by apply deref_ok). split; [done|]. split.
      * simpl. rewrite fmap_insert. apply insert_id. by rewrite lookup_fmap, Hdp.
      * rewrite (nexts_relink s prev _ dp Hdp). by eapply linked_unlink.
  - destruct (IH (l1 ++ [a]) a fuel) as (s' & Hrun & Hsame & Hlk); [by rewrite <- app_assoc|set_solver|lia| |].
    + rewrite last_snoc. by rewrite (proj2 (Z.eqb_neq a 0)).
    + exists s'. rewrite <- app_assoc in Hlk. done.
Qed.

(** A device as it is, but for its link. *)
Lemma unlinked_lookup (m m' : gmap Z device) x d : unlinked <$> m' = unlinked <$> m -> m' !! x = Some d -> exists d0, m !! x = Some d0 /\ unlinked d = unlinked d0.
Proof.
  intros E Hd. apply (f_equal (fun y => y !! x)) in E. rewrite !lookup_fmap, Hd in E. destruct (m !! x) as [d0|]; [|done]. apply (inj Some) in E. by exists d0.
Qed.

(** The last reference to a device goes, and the device leaves the list. *)
Lemma dev_ok_remove s s' held dev l : dev_ok s held -> held dev = 1 -> linked (nexts s) (device_list s) l ->
  unlinked <$> delete dev (devices s') = unlinked <$> delete dev (devices s) -> linked (nexts s') (device_list s') (filter (fun x => x <> dev) l) ->
  dev_ok (set_devices (delete dev (devices s')) s') (add_held held dev (-1)).
Proof.
  intros [(l' & Hl' & Hall) Hnm Hlen Hc Hh] H1 Hl Hsame Hlk. assert (l' = l) as -> by (by eapply linked_det).
  assert (forall x d, delete dev (devices s') !! x = Some d -> x <> dev /\ exists d0, devices s !! x = Some d0 /\ unlinked d = unlinked d0) as Hback.
  { intros x d Hx. destruct (unlinked_lookup _ _ _ _ Hsame Hx) as (d0 & [Hne H0]%lookup_delete_Some & E). split; [done|by exists d0]. }
  split; simpl.
  - exists (filter (fun x => x <> dev) l). split.
    + unfold nexts. simpl. rewrite fmap_delete. eapply linked_frame; [exact Hlk|]. intros x [Hx _]%list_elem_of_filter. by apply lookup_delete_ne.
    + intros x [d Hd]. destruct (Hback x d Hd) as (Hne & d0 & Hx & _). apply list_elem_of_filter. split; [done|]. apply Hall. by eexists.
  - intros x y dx dy Hx Hy E. destruct (Hback x dx Hx) as (_ & d1 & Hd1 & [= _ E1 _ _ _ _ _ _]), (Hback y dy Hy) as (_ & d2 & Hd2 & [= _ E2 _ _ _ _ _ _]).
    eapply Hnm; [done|done|congruence].
  - intros x d Hx. destruct (Hback x d Hx) as (_ & d0 & Hd0 & [= _ E1 _ _ _ _ _ _]). rewrite E1. eauto.
  - intros x d Hx. destruct (Hback x d Hx) as (Hne & d0 & Hd0 & [= _ _ _ E1 E2 _ _ _]). rewrite E1, E2, add_held_ne by done. eauto.
  - intros x. destruct (decide (x = dev)) as [->|Hne]; [rewrite add_held_eq, H1; by split|]. rewrite add_held_ne by done. destruct (Hh x) as [Hx Hs]. split; [done|].
    intros Hp. destruct (Hs Hp) as [d Hd]. symmetry in Hsame. destruct (unlinked_lookup _ _ x d Hsame) as (d0 & Hd0 & _); [by rewrite lookup_delete_ne|by eexists].
Qed.

(** ** Operations on the list *)

Section Proofs.
Context (asserts : bool) (drivers : Z -> option driver).

(** The other devices, but for their links. *)
Definition others_same (s s' : devs) (dev : Z) : Prop := forall x, x <> dev -> unlinked <$> (devices s' !! x) = unlinked <$> (devices s !! x).

Lemma device_release_ok s held dev d : dev_ok s held -> 0 < held dev -> devices s !! dev = Some d ->
  exists s', device_release dev s = Ok (tt, s') /\ dev_ok s' (add_held held dev (-1)) /\ others_same s s' dev /\
    (if dv_refcnt d =? 1 then devices s' !! dev = None else s' = set_devices (<[dev := with_refcnt (dv_refcnt d - 1) d]> (devices s)) s).
Proof.
  intros Hok Hh Hd. destruct (dk_count _ _ Hok dev d Hd) as [Hc Hb]. set (d' := with_refcnt (dv_refcnt d - 1) d). set (s1 := set_devices (<[dev := d']> (devices s)) s).
  unfold device_release. erewrite (bind_ret _ _ _ tt s1).
  2:{ unfold upd_device. rewrite (bind_ret _ _ _ d s) by (by apply deref_ok). rewrite s32_small by lia. done. }
  rewrite (bind_ret _ _ _ d' s1) by (apply deref_ok; split; [apply lookup_insert_eq|done]). cbn [dv_refcnt with_refcnt d'].
  destruct (Z.ltb_spec 0 (dv_refcnt d - 1)) as [Hpos|Hzero].
  - exists s1. split; [done|]. split; [|split; [intros x Hx; simpl; by rewrite lookup_insert_ne|by rewrite (proj2 (Z.eqb_neq _ 1)) by lia]].
    apply (dev_ok_update s held dev d d' (-1)); simpl; try done; lia.
  - assert (dv_refcnt d = 1) as E1 by lia. assert (held dev = 1 /\ dv_active d = false) as [Hh1 Ha] by (destruct (dv_active d); split; try done; lia).
    destruct (dk_list _ _ Hok) as (l & Hl & Hall). assert (nexts s1 = nexts s) as Enx.
    { unfold nexts. simpl. rewrite fmap_insert. apply insert_id. by rewrite lookup_fmap, Hd. }
    assert (linked (nexts s1) (device_list s1) l) as Hl1 by (by rewrite Enx).
    destruct (unlink_loop_ok s1 dev [] 0 (device_list s1) l (size (devices s1))) as (s2 & Hrun & Hsame & Hlk); [done|done|apply Hall; by eexists|by apply list_fuel|done|].
    erewrite (bind_ret _ _ _ tt s2) by exact Hrun. eexists. split; [done|].
    assert (unlinked <$> delete dev (devices s2) = unlinked <$> delete dev (devices s)) as Hsame'.
    { rewrite fmap_delete, Hsame. simpl. by rewrite fmap_insert, delete_insert_eq, fmap_delete. }
    split; [by eapply dev_ok_remove|]. split.
    + intros x Hx. apply (f_equal (fun y => y !! x)) in Hsame'. by rewrite !lookup_fmap, (lookup_delete_ne (devices s)) in Hsame'.
    + rewrite E1. apply lookup_delete_eq.
Qed.

Lemma device_destroy_ok s held dev : dev_ok s held ->
  exists r s', device_destroy dev s = Ok (r, s') /\ dev_ok s' held /\ others_same s s' dev /\
    match devices s !! dev with
    | Some d => if dv_active d then r = 0 /\ (if held dev =? 0 then devices s' !! dev = None else devices s' !! dev = Some (with_refcnt (held dev) (with_active false d)))
                else r = ENODEV /\ s' = s
    | None => r = ENODEV /\ s' = s
    end.
Proof.
  intros Hok. unfold device_destroy. rewrite (bind_ret _ _ _ _ _ (device_valid_ok s held dev Hok)).
  destruct (devices s !! dev) as [d|] eqn:Hd; [|exists ENODEV, s; by split_and!]. destruct (dv_active d) eqn:Ha; [|exists ENODEV, s; by split_and!]. cbn [negb].
  destruct (dk_count _ _ Hok dev d Hd) as [Hc Hcb]. rewrite Ha in Hc. set (s1 := set_devices (<[dev := with_active false d]> (devices s)) s).
  erewrite (bind_ret _ _ _ tt s1) by (unfold upd_device; by rewrite (bind_ret _ _ _ d s) by (by apply deref_ok)).
  pose proof (proj1 (dk_held _ _ Hok dev)) as Hh. assert (dev_ok s1 (add_held held dev 1)) as Hok1 by (apply (dev_ok_update s held dev d); simpl; try done; lia).
  destruct (device_release_ok s1 _ dev (with_active false d) Hok1) as (s2 & Hrun & Hok2 & Hoth & Hres); [rewrite add_held_eq; lia|apply lookup_insert_eq|].
  rewrite (bind_ret _ _ _ _ _ Hrun). exists 0, s2. split; [done|]. split.
  { destruct Hok2 as [? ? ? Hc2 Hh2]. assert (forall x, add_held (add_held held dev 1) dev (-1) x = held x) as E by (intros x; unfold add_held; repeat case_match; lia).
    split; try done; [intros x dx; rewrite <- E; apply Hc2|intros x; rewrite <- E; apply Hh2]. }
  split; [intros x Hx; rewrite (Hoth x Hx); simpl; by rewrite lookup_insert_ne|]. split; [done|]. simpl in Hres.
  destruct (Z.eqb_spec (held dev) 0) as [E|E]; [by rewrite (proj2 (Z.eqb_eq _ 1)) in Hres by lia|]. rewrite (proj2 (Z.eqb_neq _ 1)) in Hres by lia.
  rewrite Hres. simpl. rewrite lookup_insert_eq. do 2 f_equal. lia.
Qed.

(** A reference to a device that is not destroyed, without the assertions. *)
Lemma device_reference_ok s held dev d : asserts = false -> dev_ok s held -> devices s !! dev = Some d -> dv_active d = true -> dv_refcnt d + 1 < 2 ^ 31 ->
  let s' := set_devices (<[dev := with_refcnt (dv_refcnt d + 1) d]> (devices s)) s in
  device_reference_locked asserts dev s = Ok (0, s') /\ device_reference asserts dev s = Ok (0, s') /\ dev_ok s' (add_held held dev 1).
Proof.
  intros Has Hok Hd Ha Hb s'. assert (device_reference_locked asserts dev s = Ok (0, s')) as Hrun.
  { unfold device_reference_locked, dev_assert. rewrite Has, (bind_ret _ _ _ tt s) by done. rewrite (bind_ret _ _ _ _ _ (device_valid_ok s held dev Hok)), Hd, Ha. cbn [negb].
    destruct (dk_count _ _ Hok dev d Hd). unfold upd_device. erewrite (bind_ret _ _ _ tt s'); [done|]. rewrite (bind_ret _ _ _ d s) by (by apply deref_ok).
    by rewrite s32_small by lia. }
  split; [done|]. split; [unfold device_reference; by rewrite (bind_ret _ _ _ _ _ Hrun)|].
  destruct (dk_count _ _ Hok dev d Hd) as [Hc Hcb]. pose proof (proj1 (dk_held _ _ Hok dev)). apply (dev_ok_update s held dev d); simpl; try done; lia.
Qed.

(** [device_lookup] while a new device is allocated but not in the list. *)
Lemma lookup_allocated s held a junk name : dev_ok s held -> devices s !! a = None ->
  let s0 := set_devices (<[a := junk]> (devices s)) s in
  exists dev, device_lookup name s0 = Ok (dev, s0) /\ device_lookup name s = Ok (dev, s).
Proof.
  intros [(l & Hl & Hall) _ _ _ _] Ha s0. exists (default 0 (find (named s name) l)).
  assert (forall x, x ∈ l -> x <> a) as Hne by (intros x Hx ->; destruct (linked_dom _ _ _ a Hl Hx) as [[n (d & Hd & _)%nexts_some] _]; congruence).
  assert (linked (nexts s0) (device_list s0) l) as Hl0.
  { eapply linked_frame; [exact Hl|]. intros x Hx. unfold nexts. simpl. rewrite fmap_insert, lookup_insert_ne; [done|]. intros E. by apply (Hne x). }
  split; [|apply lookup_loop_ok; [done|by apply list_fuel]]. unfold device_lookup. rewrite (lookup_loop_ok s0 name _ l _ Hl0 (list_fuel s0 l Hl0)). do 3 f_equal.
  clear -Hne. induction l as [|x l IH]; [done|]. simpl. assert (named s0 name x = named s name x) as ->.
  { unfold named. simpl. rewrite lookup_insert_ne; [done|]. intros E. by apply (Hne x); [left|]. }
  rewrite IH; [done|]. intros y Hy. apply Hne. by right.
Qed.

(** A new device at the head of the list. *)
Lemma dev_ok_create s held a d : dev_ok s held -> a <> 0 -> devices s !! a = None -> dv_next d = device_list s -> (0 < length (dv_name d) < MAXDEVNAME)%nat ->
  (forall x dx, devices s !! x = Some dx -> dv_name dx <> dv_name d) -> dv_active d = true -> dv_refcnt d = 1 ->
  dev_ok (Devs a (<[a := d]> (devices s))) held.
Proof.
  intros [(l & Hl & Hall) Hnm Hlen Hc Hh] Ha Hfresh En Hln Hdiff Hact Href.
  assert (held a = 0) as Hz by (destruct (Hh a) as [? Hs]; destruct (Z.eq_dec (held a) 0); [done|destruct Hs as [x Hx]; [lia|congruence]]).
  split; simpl.
  - exists (a :: l). split.
    + apply (linked_cons _ _ (device_list s)); [done|unfold nexts; simpl; by rewrite fmap_insert, lookup_insert_eq, En|].
      eapply linked_frame; [exact Hl|]. intros x Hx. unfold nexts. simpl. rewrite fmap_insert, lookup_insert_ne; [done|].
      intros <-. destruct (linked_dom _ _ _ a Hl Hx) as [[n (d0 & Hd & _)%nexts_some] _]. congruence.
    + intros x [dx [[<- _]|[_ Hx]]%lookup_insert_Some]; [left|right; eauto].
  - intros x y dx dy [[<- <-]|[Hx Hdx]]%lookup_insert_Some [[<- <-]|[Hy Hdy]]%lookup_insert_Some E; [done|by destruct (Hdiff y dy Hdy)|by destruct (Hdiff x dx Hdx)|eauto].
  - intros x dx [[<- <-]|[_ Hx]]%lookup_insert_Some; eauto.
  - intros x dx [[<- <-]|[_ Hx]]%lookup_insert_Some; [rewrite Hact, Href, Hz; lia|eauto].
  - intros x. split; [apply Hh|]. intros Hp. destruct (proj2 (Hh x) Hp) as [dx Hx]. rewrite lookup_insert_ne by congruence. by eexists.
Qed.

(** The device that [device_create] makes. *)
Definition new_device (s : devs) (drv : Z) (dr : driver) (name : list Z) (flags priv : Z) : device :=
  Device (device_list s) drv name flags true 1 0 UINT_MAX (if dr_devsz dr =? 0 then 0 else priv).

Definition name_fits (name : list Z) : Prop := (0 < length name < MAXDEVNAME)%nat.

Lemma length_check name : bool_decide (strnlen name MAXDEVNAME = 0%nat) || bool_decide (MAXDEVNAME <= strnlen name MAXDEVNAME)%nat = negb (bool_decide (name_fits name)).
Proof. unfold strnlen, name_fits. repeat case_bool_decide; simpl; try done; lia. Qed.

Lemma device_create_ok s held a priv junk drv dr name flags : dev_ok s held -> a <> 0 -> devices s !! a = None -> drv <> 0 -> drivers drv = Some dr ->
  dr_devsz dr = 0 \/ priv <> 0 ->
  exists dev, device_lookup name s = Ok (dev, s) /\
  device_create asserts drivers a priv junk drv name flags s =
    if negb (bool_decide (name_fits name)) then Ok (0, s) else
    if negb (dev =? 0) then Abort else Ok (a, Devs a (<[a := new_device s drv dr name flags priv]> (devices s))).
Proof.
  intros Hok Ha Hfresh Hdrv Hdr Hpriv. destruct (lookup_allocated s held a (with_driver drv junk) name Hok Hfresh) as (dev & Hlk0 & Hlk). exists dev. split; [done|].
  assert (forall s1 : devs, dev_assert asserts true s1 = Ok (tt, s1)) as Hass by (intros s1; unfold dev_assert; by destruct asserts).
  unfold device_create. rewrite (proj2 (Z.eqb_neq drv 0)) by done. rewrite (bind_ret _ _ _ tt s) by apply Hass. cbv zeta. rewrite length_check.
  case_bool_decide as Hfit; cbn [negb]; [|done]. rewrite (proj2 (Z.eqb_neq a 0)) by done.
  set (s0 := set_devices (<[a := with_driver drv junk]> (devices s)) s) in *. rewrite (bind_ret _ _ _ tt s0) by done.
  assert (forall g, upd_device a g s0 = Ok (tt, set_devices (<[a := g (with_driver drv junk)]> (devices s)) s)) as Hupd.
  { intros g. unfold upd_device. rewrite (bind_ret _ _ _ (with_driver drv junk) s0) by (apply deref_ok; split; [apply lookup_insert_eq|done]).
    unfold modify, s0. simpl. by rewrite insert_insert_eq. }
  assert (device_at a s0 = Ok (with_driver drv junk, s0)) as Hat by (apply deref_ok; split; [apply lookup_insert_eq|done]).
  unfold device_register at 1. unfold mbind at 1, M_bind at 1. rewrite (bind_ret _ _ _ _ _ Hat). cbn [dv_driver with_driver]. rewrite (proj2 (Z.eqb_neq drv 0)) by done.
  rewrite (bind_ret _ _ _ tt s0) by apply Hass. cbv zeta. rewrite length_check, bool_decide_true by done. cbn [negb]. rewrite (bind_ret _ _ _ _ _ Hlk0).
  destruct (Z.eqb_spec dev 0) as [->|Hne]; cbn [negb]; [|done]. rewrite (bind_ret _ _ _ tt s0) by done.
  rewrite (bind_ret _ _ _ dr s0) by (unfold driver_of; rewrite (bind_ret _ _ _ _ _ Hat); by apply deref_ok).
  rewrite (bind_ret _ _ _ tt s0) by (destruct (Z.eqb_spec (dr_devsz dr) 0), (Z.eqb_spec priv 0); naive_solver).
  rewrite (bind_ret _ _ _ (device_list s) s0) by (by apply gets_ok). rewrite (bind_ret _ _ _ _ _ (Hupd _)). unfold modify, set_list, set_devices, new_device. simpl.
  unfold name_fits in Hfit. rewrite strlcpy_fits; [done|]. unfold strnlen. lia.
Qed.

(** ** Runs *)

Inductive dev_op :=
| DCreate (a priv : Z) (junk : device) (drv : Z) (name : list Z) (flags : Z)
| DDestroy (dev : Z)
| DReference (dev : Z)
| DRelease (dev : Z).

Definition dev_exec (o : dev_op) : M devs Z :=
  match o with
  | DCreate a priv junk drv name flags => device_create asserts drivers a priv junk drv name flags
  | DDestroy dev => device_destroy dev
  | DReference dev => device_reference_locked asserts dev
  | DRelease dev => device_release dev;; mret 0
  end.

Definition dev_held (o : dev_op) (r : Z) (held : Z -> Z) : Z -> Z :=
  match o with
  | DReference dev => if r =? 0 then add_held held dev 1 else held
  | DRelease dev => add_held held dev (-1)
  | _ => held
  end.

(** Memory is fresh, names are not used twice, and only references that are held are
    released. *)
Definition dev_legal (s : devs) (held : Z -> Z) (o : dev_op) : Prop :=
  match o with
  | DCreate a priv _ drv name _ => a <> 0 /\ devices s !! a = None /\ drv <> 0 /\
      (exists dr, drivers drv = Some dr /\ (dr_devsz dr = 0 \/ priv <> 0)) /\
      forall x d, devices s !! x = Some d -> dv_name d <> name
  | DDestroy _ => True
  | DReference dev => forall d, devices s !! dev = Some d -> dv_refcnt d + 1 < 2 ^ 31
  | DRelease dev => 0 < held dev
  end.

Definition takes_ref (o : dev_op) : bool := match o with DReference _ => true | _ => false end.

Inductive dev_step : devs * (Z -> Z) -> devs * (Z -> Z) -> Prop :=
| dev_step_intro s held o r s' : dev_legal s held o -> dev_exec o s = Ok (r, s') -> dev_step (s, held) (s', dev_held o r held).

Definition dev_init : devs := Devs 0 ∅.

Lemma dev_init_ok : dev_ok dev_init (fun _ => 0).
Proof. split; [exists []; split; [constructor|by intros x [? ?]]|done|done|done|done]. Qed.

Lemma dev_exec_ok s held o : dev_ok s held -> dev_legal s held o ->
  if asserts && takes_ref o then dev_exec o s = Abort
  else exists r s', dev_exec o s = Ok (r, s') /\ dev_ok s' (dev_held o r held).
Proof.
  intros Hok. destruct (asserts && takes_ref o) eqn:Hab.
  { apply andb_prop in Hab as [Has Ho]. destruct o; try done. intros _. simpl. unfold device_reference_locked. by rewrite Has. }
  revert Hab. destruct o as [a priv junk drv name flags|dev|dev|dev]; simpl; intros Hab.
  - intros (Ha & Hf & Hdrv & (dr & Hdr & Hp) & Hnew). destruct (device_create_ok s held a priv junk drv dr name flags Hok Ha Hf Hdrv Hdr Hp) as (dev & Hlk & Hrun).
    rewrite Hrun. case_bool_decide as Hfit; cbn [negb]; [|by exists 0, s]. destruct (device_lookup_ok s held name Hok) as (dev' & Hlk' & Hres).
    rewrite Hlk in Hlk'. injection Hlk' as <-. destruct (dev =? 0); cbn [negb].
    + eexists a, _. split; [done|]. by apply dev_ok_create.
    + destruct Hres as (d & Hd & E). rewrite take_ge in E by (unfold name_fits in Hfit; lia). by destruct (Hnew dev d Hd).
  - intros _. destruct (device_destroy_ok s held dev Hok) as (r & s' & Hrun & Hok' & _). by exists r, s'.
  - intros Hb. rewrite andb_true_r in Hab. rename Hab into Has. destruct (devices s !! dev) as [d|] eqn:Hd; [destruct (dv_active d) eqn:Ha|].
    + destruct (device_reference_ok s held dev d Has Hok Hd Ha (Hb d eq_refl)) as (Hrun & _ & Hok'). by eexists 0, _.
    + exists ENODEV, s. split; [|done]. unfold device_reference_locked, dev_assert. rewrite Has, (bind_ret _ _ _ tt s) by done.
      by rewrite (bind_ret _ _ _ _ _ (device_valid_ok s held dev Hok)), Hd, Ha.
    + exists ENODEV, s. split; [|done]. unfold device_reference_locked, dev_assert. rewrite Has, (bind_ret _ _ _ tt s) by done.
      by rewrite (bind_ret _ _ _ _ _ (device_valid_ok s held dev Hok)), Hd.
  - intros Hh. destruct (proj2 (dk_held _ _ Hok dev) Hh) as [d Hd]. destruct (device_release_ok s held dev d Hok Hh Hd) as (s' & Hrun & Hok' & _).
    exists 0, s'. by rewrite (bind_ret _ _ _ _ _ Hrun).
Qed.

Lemma dev_runs_ok c c' : dev_ok c.1 c.2 -> rtc dev_step c c' -> dev_ok c'.1 c'.2.
Proof.
  intros Hok Hr. induction Hr as [|c1 c2 c3 Hs _ IH]; [done|]. apply IH. destruct Hs as [s h o r s' Hl He]. simpl in *.
  pose proof (dev_exec_ok s h o Hok Hl) as Hx. destruct (asserts && takes_ref o); [by rewrite He in Hx|].
  destruct Hx as (r' & s1 & He' & Hok'). rewrite He in He'. by injection He' as <- <-.
Qed.

(** C20. Over every run of callers that create devices with fresh memory and new names,
    destroy any device, take references and release those they hold: each such call
    returns, without touching a freed device, except that with assertions compiled in, as
    in the image, taking a reference always ends the program (so that references are only
    ever held in builds without assertions); a count is always the references that are
    held and one more until the device is destroyed; what is held is there, so that a
    device is freed only with its last reference; and a name is found exactly while there
    is a device of that name. *)
Theorem device_runs_safe s held : rtc dev_step (dev_init, fun _ => 0) (s, held) ->
  (forall o, dev_legal s held o ->
     if asserts && takes_ref o then dev_exec o s = Abort else exists r s', dev_exec o s = Ok (r, s')) /\
  (forall x d, devices s !! x = Some d -> dv_refcnt d = (if dv_active d then 1 else 0) + held x /\ (dv_active d = true \/ 0 < held x)) /\
  (forall x, 0 < held x -> is_Some (devices s !! x)) /\
  forall name, exists dev, device_lookup name s = Ok (dev, s) /\
    (dev <> 0 <-> exists x d, devices s !! x = Some d /\ dv_name d = take MAXDEVNAME name).
Proof.
  intros Hr. pose proof (dev_runs_ok (dev_init, fun _ => 0) (s, held) dev_init_ok Hr) as Hok. simpl in Hok. split; [|split; [|split]].
  - intros o Hl. pose proof (dev_exec_ok s held o Hok Hl) as Hx. destruct (asserts && takes_ref o); [done|].
    destruct Hx as (r & s' & Hrun & _). by exists r, s'.
  - intros x d Hd. destruct (dk_count _ _ Hok x d Hd) as [Hc Hb]. split; [done|]. destruct (dv_active d); [by left|right; lia].
  - intros x. apply Hok.
  - intros name. destruct (device_lookup_ok s held name Hok) as (dev & Hrun & Hres). exists dev. split; [done|]. destruct (Z.eqb_spec dev 0) as [->|Hne].
    + split; [done|]. intros (x & d & Hd & E). by destruct (Hres x d Hd).
    + split; [|done]. intros _. destruct Hres as (d & Hd & E). by exists dev, d.
Qed.

(** ** Calls to drivers *)

(** C36. With the assertions compiled in, as they are in the image, and the locks compiled
    out, no device can be used: [device_open] of a name returns ENXIO if there is no
    device of that name and ends the program if there is one, and [device_close],
    [device_read], [device_write] and [device_ioctl] always end it, because
    [device_reference_locked] asserts that a lock is held that does not exist. *)
Theorem device_calls_abort s held : asserts = true -> dev_ok s held ->
  (forall name mode, device_open asserts drivers name mode s = Ok ((ENXIO, None), s) /\ (forall x d, devices s !! x = Some d -> dv_name d <> take MAXDEVNAME name) \/
     device_open asserts drivers name mode s = Abort /\ exists x d, devices s !! x = Some d /\ dv_name d = take MAXDEVNAME name) /\
  forall dev, device_close asserts drivers dev s = Abort /\ (forall u ioflags, device_read asserts drivers dev u ioflags s = Abort /\ device_write asserts drivers dev u ioflags s = Abort) /\
    forall cmd arg, device_ioctl asserts drivers dev cmd arg s = Abort.
Proof.
  intros Has Hok. assert (forall dev, device_reference_locked asserts dev s = Abort) as Hab by (intros dev; unfold device_reference_locked; by rewrite Has).
  split.
  - intros name mode. destruct (device_lookup_ok s held name Hok) as (dev & Hrun & Hres). unfold device_open. rewrite (bind_ret _ _ _ _ _ Hrun).
    destruct (dev =? 0); [by left|right]. split; [unfold mbind at 1, M_bind at 1; by rewrite Hab|]. destruct Hres as (d & ? & ?). by exists dev, d.
  - intros dev. unfold device_close, device_read, device_write, device_ioctl, device_call, device_reference, mbind, M_bind. rewrite Hab. done.
Qed.

(** Without the assertions a call to a driver is balanced: for a device that is not
    destroyed and an operation of its driver that returns and leaves the devices alone,
    the call returns what the operation returns, and the devices and their counts are
    as before.  For a pointer to a device that has been freed the call touches
    freed memory, since [device_reference] drops the error ENODEV. *)
Theorem device_call_balanced {A B} s held dev (fail : Z -> B) (sel : devops -> option A) (call : A -> M devs B) : asserts = false -> dev_ok s held ->
  match devices s !! dev with
  | Some d => forall dr op b, dv_active d = true -> dv_refcnt d + 1 < 2 ^ 31 -> drivers (dv_driver d) = Some dr -> sel (dr_devops dr) = Some op ->
      (forall t, call op t = Ok (b, t)) -> device_call asserts drivers dev fail sel call s = Ok (b, s)
  | None => device_call asserts drivers dev fail sel call s = Undef
  end.
Proof.
  intros Has Hok. destruct (devices s !! dev) as [d|] eqn:Hd.
  - intros dr op b Ha Hb Hdr Hop Hcall. destruct (device_reference_ok s held dev d Has Hok Hd Ha Hb) as (_ & Hrun & Hok1). set (s1 := set_devices _ s) in *.
    unfold device_call. rewrite (bind_ret _ _ _ _ _ Hrun). change (negb (0 =? 0)) with false. cbv iota. set (d1 := with_refcnt (dv_refcnt d + 1) d) in *.
    assert (devices s1 !! dev = Some d1) as Hd1 by apply lookup_insert_eq. rewrite (bind_ret _ _ _ op s1).
    2:{ unfold driver_op, driver_of, dev_assert. rewrite Has. rewrite (bind_ret _ _ _ dr s1) by (rewrite (bind_ret _ _ _ d1 s1) by (by apply deref_ok); by apply deref_ok).
        rewrite (bind_ret _ _ _ tt s1) by done. by apply deref_ok. }
    rewrite (bind_ret _ _ _ _ _ (Hcall s1)). pose proof (proj1 (dk_held _ _ Hok dev)). destruct (dk_count _ _ Hok dev d Hd) as [Hc Hcb].
    destruct (device_release_ok s1 _ dev d1 Hok1) as (s2 & Hrel & _ & _ & Hres); [rewrite add_held_eq; lia|done|]. rewrite (bind_ret _ _ _ _ _ Hrel).
    simpl in Hres. rewrite (proj2 (Z.eqb_neq _ 1)) in Hres by lia. rewrite Hres. do 2 f_equal. unfold s1, d1, with_refcnt. destruct s as [h m], d as [? ? ? ? ? c ? ? ?]. simpl in *.
    rewrite insert_insert_eq. replace (c + 1 - 1) with c by lia. unfold set_devices. simpl. by rewrite insert_id.
  - unfold device_call, device_reference, device_reference_locked, dev_assert. rewrite Has. unfold mbind, M_bind at 1. simpl.
    unfold mbind, M_bind. simpl. rewrite (device_valid_ok s held dev Hok), Hd. simpl. unfold driver_op, driver_of, device_at, mbind, M_bind, deref. by rewrite Hd.
Qed.

End Proofs.

(** ** Witnesses *)

(** The driver of /dev/null. *)
Definition demo_driver : driver := Driver (Devops (Some dev_null_open) (Some dev_null_close) None (Some dev_null_write) None) 0.
Definition demo_drivers (x : Z) : option driver := if x =? 50 then Some demo_driver else None.
Definition demo_device : device := Device 0 0 [] 0 false 0 0 0 0.
Definition demo_name : list Z := [110; 117; 108; 108].

Definition demo_devs : devs := Devs 100 {[100 := Device 0 50 demo_name D_CHR true 1 0 UINT_MAX 0]}.

Lemma demo_devs_run asserts : rtc (dev_step asserts demo_drivers) (dev_init, fun _ => 0) (demo_devs, fun _ => 0).
Proof.
  eapply rtc_once, (dev_step_intro _ _ _ _ (DCreate 100 0 demo_device 50 demo_name D_CHR) 100).
  - split; [lia|]. split; [done|]. split; [lia|]. split; [exists demo_driver; split; [done|by left]|done].
  - by destruct asserts.
Qed.

Lemma demo_devs_ok (asserts : bool) : dev_ok demo_devs (fun _ => 0).
Proof. exact (dev_runs_ok asserts demo_drivers (dev_init, fun _ => 0) (demo_devs, fun _ => 0) dev_init_ok (demo_devs_run asserts)). Qed.

(** The state in which a reference to /dev/null has been taken. *)
Definition demo_devs_ref : devs := Devs 100 {[100 := Device 0 50 demo_name D_CHR true 2 0 UINT_MAX 0]}.

Lemma demo_ref_legal : dev_legal demo_drivers demo_devs (fun _ => 0) (DReference 100).
Proof.
  intros d Hd. assert (devices demo_devs !! 100 = Some (Device 0 50 demo_name D_CHR true 1 0 UINT_MAX 0)) as E by reflexivity.
  rewrite E in Hd. injection Hd as <-. simpl. lia.
Qed.

Lemma demo_ref_run : rtc (dev_step false demo_drivers) (dev_init, fun _ => 0) (demo_devs_ref, add_held (fun _ => 0) 100 1).
Proof.
  eapply rtc_r; [exact (demo_devs_run false)|]. eapply (dev_step_intro _ _ _ _ (DReference 100) 0); [|reflexivity].
  exact demo_ref_legal.
Qed.

(** /dev/null is registered and can be destroyed.  With assertions a reference to it cannot
    be taken; without, it can, and it can be released. *)
Lemma device_runs_safe_witness : device_lookup demo_name demo_devs = Ok (100, demo_devs) /\
  (exists r s', dev_exec true demo_drivers (DDestroy 100) demo_devs = Ok (r, s')) /\
  dev_exec true demo_drivers (DReference 100) demo_devs = Abort /\
  exists r s', dev_exec false demo_drivers (DRelease 100) demo_devs_ref = Ok (r, s').
Proof.
  destruct (device_runs_safe true demo_drivers demo_devs (fun _ => 0) (demo_devs_run true)) as (H1 & _).
  destruct (device_runs_safe false demo_drivers demo_devs_ref _ demo_ref_run) as (H2 & _).
  split; [reflexivity|]. split; [exact (H1 (DDestroy 100) I)|]. split; [|apply (H2 (DRelease 100)); reflexivity].
  exact (H1 (DReference 100) demo_ref_legal).
Defined.

(** It cannot be opened. *)
Lemma device_calls_abort_witness : device_open true demo_drivers demo_name 0 demo_devs = Abort /\ device_close true demo_drivers 100 demo_devs = Abort.
Proof.
  destruct (device_calls_abort true demo_drivers demo_devs (fun _ => 0) eq_refl (demo_devs_ok true)) as [H1 H2].
  destruct (H1 demo_name 0) as [[_ H]|[H _]]; [|split; [exact H|exact (proj1 (H2 100))]].
  destruct (H 100 _ (lookup_singleton_eq _ _)). reflexivity.
Defined.

(** Without assertions /dev/null can be closed. *)
Lemma device_call_balanced_witness : device_close false demo_drivers 100 demo_devs = Ok (0, demo_devs).
Proof.
  exact (device_call_balanced false demo_drivers demo_devs (fun _ => 0) 100 id dop_close (fun op => op 100) eq_refl
    (demo_devs_ok false) demo_driver dev_null_close 0 eq_refl eq_refl eq_refl eq_refl (fun _ => eq_refl)).
Defined.
